(* ===== verification/_CoqProject ===== *)
-Q . S2P
Prelude.v
Queue.v
Types.v
Id.v
Crc32.v
State.v
Buffer.v
Rtable.v
Qfifo.v
Iflist.v
Kiss.v
Can.v
Nexthop.v
Sha1.v
Hmac.v
Dedup.v
Stack.v
Port.v
Net.v
RdpQueue.v
Rdp.v
RdpDelivery.v
Conn.v
Io.v
Session.v
Route.v
RouteShown.v
Sfp.v
Mpack.v
Text.v
ParamState.v
Fram.v
Param.v
Wildcard.v
ParamList.v
ParamString.v
ParamStringShown.v
ParamSer.v
QueuePrint.v
ParamWire.v
ParamPush.v
ParamServer.v
ParamServed.v
Main.v
MainShown.v
Vmem.v
VmemServer.v
Services.v
ServicesShown.v
RtableText.v
ParamTransfer.v
ParamStore.v
ParamPull.v
Objstore.v
ParamClient.v
Collector.v
ObjMeta.v
Commands.v
CommandsShown.v
Eth.v
EthShown.v
Links.v
LinksShown.v
Clients.v
ClientsShown.v
Scheduler.v
PushShown.v
SchedulerShown.v
ClientPrint.v
ScheduleAdd.v
CommandAdd.v
ScheduleClient.v
