(* ===== verification/Prelude.v ===== *)
(** * The system manager of the PicoCore MX8MP and its libraries

    This library models the program [app-sys-manager] of the layer
    [meta-disco-scheduler]: the application [main.c] and the two libraries it is built
    from, the CubeSat Space Protocol stack [lib/csp] and the parameter library
    [lib/param] (with the vendored MessagePack library it uses).  Paths below are relative
    to [src/custom/layers/meta-disco-scheduler/files/app-sys-manager/].

    ** The program

    The application defines parameters (addresses, switches that start and stop processes,
    an output buffer), initialises CSP, binds the parameter server to port 10 and the CSP
    services to all other ports, opens a CAN interface and lets two threads run: the router,
    which moves packets from the interfaces to sockets, callbacks and connections, and the
    vmem server.  A packet travels: driver, interface (KISS or CAN frames are reassembled
    into a buffer), router queue, router (checks, promiscuous copy, forwarding or local
    delivery), port table, connection (plain or RDP) or callback.  A push request reaches
    [param_serve], which parses a queue of MessagePack values, looks the parameters up,
    stores the values and runs their callbacks.

    ** How the code is modelled

    Code that works on state is a state-passing function [ST S A] (this file), which is
    [None] where the C program has undefined behaviour: an access outside an object, a NULL
    or dangling pointer, or an exhausted fuel.  So a theorem that a function returns
    [Some] also says that it is memory safe and terminates.  Integers are [Z] with the
    wrap-around of their width written out ([u8], [u16], [u32], [swrap]); memory is a list
    of bytes read and written by [mem_read] and [mem_write]; pointers to buffers,
    interfaces, connections and parameters are indices into their tables, lists linked by
    pointers are described by [lseg].  What the program calls but does not contain is a
    parameter: the class [Env] of [Stack.v] (CAN driver, other tasks while a caller waits,
    port callbacks, [rand_r]) and the class [ParamEnv] of [ParamState.v] (files, parameter
    callbacks, [calloc], the memory a raw address refers to) and [SysEnv] of [Services.v] (clocks, free memory); [Main.v]
    instantiates the parameter callbacks with the program's own.

    ** Files

    CSP, link layer and core:
    - [Queue.v]: [src/arch/posix/pthread_queue.c], [csp_queue.c] (ring buffer and its
      abstract fifo);
    - [Types.v]: [include/csp/csp_types.h] and the build's configuration;
    - [Id.v]: [src/csp_id.c]; [Crc32.v]: [src/csp_crc32.c]; [State.v]: the state of the
      link layer; [Buffer.v]: [src/csp_buffer.c]; [Rtable.v]: [src/csp_rtable_cidr.c];
      [Qfifo.v]: [src/csp_qfifo.c]; [Iflist.v]: [src/csp_iflist.c];
    - [Kiss.v], [Can.v]: [src/interfaces/csp_if_kiss.c], [csp_if_can.c],
      [csp_if_can_pbuf.c]; [Nexthop.v]: transmission on an interface;
    - [Eth.v], [EthShown.v]: [src/interfaces/csp_if_eth.c], [csp_if_eth_pbuf.c]; [Links.v],
      [LinksShown.v]: [csp_if_udp.c], [csp_if_zmqhub.c], [csp_if_i2c.c], [csp_if_tun.c]
      (interfaces the program does not open);
    - [Sha1.v], [Hmac.v]: [src/crypto/]; [Dedup.v]: [src/csp_dedup.c].

    CSP, transport:
    - [Stack.v]: the state of the whole stack; [Port.v]: [src/csp_port.c]; [Net.v]:
      [csp_send_direct] of [src/csp_io.c], [csp_promisc.c], [csp_if_lo.c];
    - [RdpQueue.v], [Rdp.v], [RdpDelivery.v]: [src/csp_rdp_queue.c], [src/csp_rdp.c];
    - [Conn.v]: [src/csp_conn.c]; [Io.v]: the rest of [src/csp_io.c]; [Route.v]:
      [src/csp_route.c], [csp_bridge.c], [csp_init.c]; [RouteShown.v] the router's decisions;
      [Sfp.v]: [src/csp_sfp.c];
    - [Session.v]: a client's connection from [csp_connect] to [csp_close].

    Parameters:
    - [Mpack.v]: writer, reader and typed expectations of [src/mpack/mpack.c];
    - [ParamState.v]: data of [param.h] and [vmem.h], RAM and file vmem drivers;
      [Param.v]: [param.c]; [Wildcard.v]: [param_wildcard.c]; [ParamList.v]:
      [list/param_list.c];
    - [ParamSer.v]: [param_serializer.c] and [param_queue.c]; [ParamWire.v] and
      [ParamPush.v] prove the format and the transfer of numeric values, to parameters with and
      without callbacks;
    - [ParamServer.v]: [param_server.c]; [ParamServed.v] and [ParamPull.v] prove push and pull
      requests of numeric parameters, from the packet to the answer;
    - [ParamTransfer.v]: packing, unpacking and downloading lists ([list/param_list.c]);
    - [Vmem.v]: [vmem/vmem.c] and [vmem_crc32.c]; [VmemServer.v]: [vmem_server.c], its variable
      [unlocked] being a block of memory a request may write through a pointer.

    Scheduling (parts of [lib/param] the build of this program leaves out):
    - [Objstore.v]: [objstore/objstore.c], against the interface [VmemOps]/[VmemLaws] of a
      vmem; [ObjMeta.v]: the objects with the last identifier, and lemmas on objects edited in
      place;
    - [ParamClient.v]: [param_client.c]; [Commands.v]: [commands/param_commands.c];
      [Scheduler.v]: [scheduler/param_scheduler.c];
    - [PushShown.v]: a push the other node acknowledges; [CommandsShown.v], [CommandAdd.v],
      [SchedulerShown.v], [ScheduleAdd.v]: properties of the commands and the scheduler;
    - [ScheduleClient.v]: [scheduler/param_scheduler_client.c] and
      [commands/param_commands_client.c], with what a pushed schedule becomes at the server.

    Text:
    - [Text.v]: what is used of the C library to print and scan, floating-point numbers included;
    - [ParamString.v]: [param_string.c]; [ParamStringShown.v] its properties;
    - [ParamStore.v]: [list/param_list_store_vmem.c] and the listings of [list/param_list.c];
    - [RtableText.v]: [src/csp_rtable_stdio.c] and [csp_rtable_print];
    - [QueuePrint.v]: the printing of [param_queue.c]; [ClientPrint.v]: what the schedule and
      command clients print.

    Other parts of [lib/param] the build leaves out: [Collector.v]: [collector/]; [Fram.v]:
    [vmem/vmem_fram.c] and [vmem_fram_cache.c], against the interface [FramOps]/[FramLaws] of
    a memory chip.

    Clients: [Clients.v]: [src/csp_services.c] and [vmem/vmem_client.c]; [ClientsShown.v] what
    they get.

    CSP services: [Services.v]: [src/csp_service_handler.c] and the hooks of [arch/posix/];
    [ServicesShown.v] its properties.

    Application: [Main.v]: [main.c]; [MainShown.v] its properties.

    ** What the theorems show

    - Wire formats round trip: CSP headers, KISS, CFP 1/2, Ethernet and UDP frames, RDP
      headers, SFP fragments, CRC and HMAC trailers, MessagePack tags, parameter queues and descriptions.
    - Text round trips: integer values, the names of types, the letters of masks, the stored
      parameter list and the routing table; where the text is longer than its buffer or the
      part of it that is read, theorems say what happens.
    - Algorithms equal their published definitions: CRC-32C, SHA-1 (FIPS 180-4), HMAC (RFC
      2104), longest-prefix routing, wildcard matching.
    - Components refine abstract ones: the ring buffer a fifo, the shared RDP queues the
      packets of each connection (in order for the one that is asked, possibly rotated for the
      others), the duplicate filter a history, the output buffer the last 110
      characters, the interface and parameter lists sequences; the FRAM driver with a copy in
      RAM the one without.
    - Ownership and safety: the buffer pool keeps its invariant and loses no buffer;
      sending releases what it is given and touches nothing else; receivers are memory safe
      on arbitrary input (for CAN as long as no two neighbouring packets of the list have
      expired when a new one starts) and make well-formed packets of it; a download stays within the memory
      it was given; [mpack_discard] terminates on arbitrary input.
    - Routing: without deduplication and open RDP connections, the router gives a packet for
      this node to the function bound to its port exactly with a valid checksum and a valid
      authentication code if it has one, hands a foreign one to [csp_send_direct] as it is, and
      releases it in every other case.
    - Services: a service request does no harm to the stack (apart from the process list, whose
      buffer is released twice, peek and poke outside mapped memory, and a route when the table
      is full); poke and peek round trip; a route request routes; the lock of the vmem server
      opens by its dialogue, and otherwise only by an upload through a pointer to it.
    - The composition: a push request stores the values a sender queued and answers it; a
      pull request brings a node's values into another's copies; a queue pushed to a scheduler
      arrives in its store; a transaction returns the answer that arrives; a
      setting survives a restart; the start of the program and where it forgets its
      configuration.
    - Scheduling: the object store refines a sequence of objects and unused bytes; stored
      commands and schedules hold what was asked for and leave the other objects as they are;
      the first update at or after its time pushes a schedule's queue and marks it; one that is out of retries never ends.
    Theorems about defects state what the code does, not what it is meant to do.

    ** Fuel

    Loops whose bound is not structural take fuel that is computed from the state: the
    number of interfaces ([walk_fuel]), of parameters ([list_fuel]), of bytes left in a
    buffer ([mpack_discard], [apply_loop], [print_lines]), or of queued packets.  The
    theorems prove that it suffices; where a loop waits for other tasks, the number of
    wake-ups is an argument and the theorem holds for each.

    ** Not modelled

    Time and preemption between the threads beyond the [yield] of [Env]; the kernel
    drivers ([drivers/]) and the set-up of sockets and threads; FreeRTOS and Zephyr; the
    Python bindings; hexadecimal dumps and the reader of YAML files, which needs a library that
    is not part of the sources; the parts of MPack without a caller (files, builders, nodes,
    UTF-8); shell commands, which need the slash library.  Pulls of more
    than one response and clients over RDP are modelled, but without theorems of their own.

    This file holds what all others share: integers of fixed width, bytes and their orders,
    memory, linked lists, the state monad and the tactics to run it. *)

From stdpp Require Export base tactics numbers list option fin_maps gmap.
From Stdlib Require Export ZArith Lia.

#[global] Open Scope Z_scope.

(** ** Fixed-width integers

    A C integer of width [w] is a [Z] kept in range by writing the wrap-around
    out at every place where the C code truncates. *)

Definition wrap (w z : Z) : Z := z mod 2 ^ w.
Definition u8 : Z → Z := wrap 8.
Definition u16 : Z → Z := wrap 16.
Definition u32 : Z → Z := wrap 32.
Definition u64 : Z → Z := wrap 64.

(** Two's complement reading of the low [w] bits. *)
Definition swrap (w z : Z) : Z := wrap w (z + 2 ^ (w - 1)) - 2 ^ (w - 1).
Definition s16 : Z → Z := swrap 16.
Definition s32 : Z → Z := swrap 32.

Definition in_width (w z : Z) : Prop := 0 ≤ z < 2 ^ w.
Definition is_u8 (z : Z) : Prop := 0 ≤ z < 256.
Definition is_u16 (z : Z) : Prop := 0 ≤ z < 65536.
Definition is_u32 (z : Z) : Prop := 0 ≤ z < 4294967296.
Definition is_u64 (z : Z) : Prop := 0 ≤ z < 18446744073709551616.

#[export] Instance is_u8_dec z : Decision (is_u8 z).
Proof. unfold is_u8; apply _. Defined.
#[export] Instance is_u16_dec z : Decision (is_u16 z).
Proof. unfold is_u16; apply _. Defined.
#[export] Instance is_u32_dec z : Decision (is_u32 z).
Proof. unfold is_u32; apply _. Defined.

(** [machine] replaces the width-specific names by their arithmetic, so that
    [lia] can work on them. *)
Ltac machine :=
  unfold u8, u16, u32, u64, s16, s32, swrap, wrap, in_width,
    is_u8, is_u16, is_u32, is_u64 in *;
  change (2 ^ 8) with 256 in *; change (2 ^ 16) with 65536 in *;
  change (2 ^ 32) with 4294967296 in *;
  change (2 ^ 64) with 18446744073709551616 in *;
  change (2 ^ (16 - 1)) with 32768 in *;
  change (2 ^ (32 - 1)) with 2147483648 in *.

Ltac mlia := machine; Z.to_euclidean_division_equations; lia.

Create HintDb machine.
Create Rewrite HintDb machine.

Lemma u8_range z : is_u8 (u8 z).
Proof. mlia. Qed.
Lemma u16_range z : is_u16 (u16 z).
Proof. mlia. Qed.
Lemma u32_range z : is_u32 (u32 z).
Proof. mlia. Qed.
Lemma u8_id z : is_u8 z → u8 z = z.
Proof. mlia. Qed.
Lemma u16_id z : is_u16 z → u16 z = z.
Proof. mlia. Qed.
Lemma u32_id z : is_u32 z → u32 z = z.
Proof. mlia. Qed.
#[export] Hint Resolve u8_range u16_range u32_range : machine.
#[export] Hint Rewrite u8_id u16_id u32_id using (first [assumption | mlia]) : machine.

(** ** Bit fields *)

Lemma lor_add n a b :
  0 ≤ n → a mod 2 ^ n = 0 → 0 ≤ b < 2 ^ n → Z.lor a b = a + b.
Proof.
  intros Hn Ha Hb. rewrite <- Z.lxor_lor; [symmetry; apply Z.add_nocarry_lxor|].
  all: apply Z.bits_inj'; intros i Hi; rewrite Z.land_spec, Z.bits_0.
  all: destruct (decide (i < n)) as [Hlt|Hge].
  1,3: replace (Z.testbit a i) with false; [done|];
       rewrite <- (Z.mod_pow2_bits_low a n i) by lia; by rewrite Ha, Z.bits_0.
  all: replace (Z.testbit b i) with false; [by rewrite andb_false_r|];
       rewrite <- (Z.mod_small b (2 ^ n)) by lia; by rewrite Z.mod_pow2_bits_high by lia.
Qed.

Lemma land_mask n a : 0 ≤ n → Z.land a (2 ^ n - 1) = a mod 2 ^ n.
Proof. intros. rewrite <- Z.land_ones by lia. by rewrite Z.ones_equiv. Qed.

Lemma shiftr_div n a : 0 ≤ n → Z.shiftr a n = a / 2 ^ n.
Proof. apply Z.shiftr_div_pow2. Qed.

Lemma shiftl_mul n a : 0 ≤ n → Z.shiftl a n = a * 2 ^ n.
Proof. apply Z.shiftl_mul_pow2. Qed.

Lemma lxor_lt_pow2 n a b : 0 ≤ n → 0 ≤ a < 2 ^ n → 0 ≤ b < 2 ^ n → 0 ≤ Z.lxor a b < 2 ^ n.
Proof.
  intros Hn Ha Hb. split; [apply Z.lxor_nonneg; lia|].
  rewrite <- (Z.mod_small a (2 ^ n)), <- (Z.mod_small b (2 ^ n)) by lia.
  rewrite <- !Z.land_ones by lia.
  replace (Z.lxor (Z.land a (Z.ones n)) (Z.land b (Z.ones n)))
    with (Z.land (Z.lxor a b) (Z.ones n)).
  - rewrite Z.land_ones by lia. apply Z.mod_pos_bound. lia.
  - apply Z.bits_inj'; intros i Hi. rewrite !Z.land_spec, !Z.lxor_spec, !Z.land_spec.
    by destruct (Z.testbit a i), (Z.testbit b i), (Z.testbit (Z.ones n) i).
Qed.

(** Masking with a network mask: [2^b - 2^h] has ones in the bits [h .. b). *)
Lemma land_prefix b h a :
  0 ≤ h ≤ b → 0 ≤ a < 2 ^ b → Z.land a (2 ^ b - 2 ^ h) = a / 2 ^ h * 2 ^ h.
Proof.
  intros Hh Ha.
  replace (2 ^ b - 2 ^ h) with (Z.shiftl (Z.ones (b - h)) h).
  2:{ rewrite Z.shiftl_mul_pow2, Z.ones_equiv by lia.
      replace (2 ^ b) with (2 ^ (b - h) * 2 ^ h) by (rewrite <- Z.pow_add_r by lia; f_equal; lia).
      lia. }
  rewrite <- Z.shiftl_mul_pow2, <- Z.shiftr_div_pow2 by lia.
  apply Z.bits_inj'; intros i Hi. rewrite Z.land_spec.
  destruct (decide (i < h)).
  - by rewrite !Z.shiftl_spec_low, andb_false_r by lia.
  - rewrite !Z.shiftl_spec, Z.shiftr_spec by lia. replace (i - h + h) with i by lia.
    destruct (decide (i < b)).
    + by rewrite Z.ones_spec_low, andb_true_r by lia.
    + replace (Z.testbit a i) with false; [done|].
      rewrite <- (Z.mod_small a (2 ^ b)) by lia. by rewrite Z.mod_pow2_bits_high by lia.
Qed.

(** ** Byte strings and big-endian integers *)

(** [be_bytes n z]: the [n] bytes a [htobeXX] followed by a [memcpy] leaves in
    memory, most significant byte first. *)
Fixpoint be_bytes (n : nat) (z : Z) : list Z :=
  match n with
  | O => []
  | S n' => u8 (Z.shiftr z (8 * Z.of_nat n')) :: be_bytes n' z
  end.

(** [be_val bs]: [memcpy] followed by [beXXtoh]. *)
Definition be_val (bs : list Z) : Z := foldl (λ acc b, acc * 256 + b) 0 bs.

Definition bytes_ok (bs : list Z) : Prop := Forall is_u8 bs.

#[export] Instance bytes_ok_dec bs : Decision (bytes_ok bs).
Proof. unfold bytes_ok; apply _. Defined.

Lemma length_be_bytes n z : length (be_bytes n z) = n.
Proof. induction n; simpl; congruence. Qed.

Lemma be_bytes_ok n z : bytes_ok (be_bytes n z).
Proof. induction n; simpl; constructor; auto using u8_range. Qed.

Lemma be_val_snoc bs b : be_val (bs ++ [b]) = be_val bs * 256 + b.
Proof. unfold be_val. by rewrite foldl_app. Qed.

Lemma foldl_be acc bs :
  foldl (λ acc b, acc * 256 + b) acc bs = acc * 256 ^ Z.of_nat (length bs) + be_val bs.
Proof.
  revert acc. induction bs as [|b bs IH] using rev_ind; intros acc; simpl.
  - unfold be_val; simpl. lia.
  - rewrite be_val_snoc, foldl_app, length_app; simpl.
    rewrite IH, Nat2Z.inj_add, Z.pow_add_r by lia. change (256 ^ Z.of_nat 1) with 256. lia.
Qed.

Lemma be_val_cons b bs : be_val (b :: bs) = b * 256 ^ Z.of_nat (length bs) + be_val bs.
Proof. unfold be_val at 1; simpl. by rewrite foldl_be. Qed.

Lemma be_val_be_bytes n z : be_val (be_bytes n z) = z mod 256 ^ Z.of_nat n.
Proof.
  induction n as [|n IH]; simpl; [by rewrite Z.mod_1_r|].
  rewrite be_val_cons, length_be_bytes, IH, shiftr_div by lia.
  replace (2 ^ (8 * Z.of_nat n)) with (256 ^ Z.of_nat n)
    by (rewrite Z.pow_mul_r by lia; done).
  rewrite Nat2Z.inj_succ, Z.pow_succ_r by lia.
  set (m := 256 ^ Z.of_nat n). assert (0 < m) by (apply Z.pow_pos_nonneg; lia).
  unfold u8, wrap. change (2 ^ 8) with 256.
  rewrite (Z.mul_comm 256 m), Z.rem_mul_r by lia. lia.
Qed.

Lemma be_val_bound bs : bytes_ok bs → 0 ≤ be_val bs < 256 ^ Z.of_nat (length bs).
Proof.
  induction 1 as [|b bs Hb Hbs IH]; [unfold be_val; simpl; lia|].
  rewrite be_val_cons. simpl. rewrite Nat2Z.inj_succ, Z.pow_succ_r by lia.
  unfold is_u8 in Hb. nia.
Qed.

Lemma be_val_inj bs bs' :
  length bs = length bs' → bytes_ok bs → bytes_ok bs' → be_val bs = be_val bs' → bs = bs'.
Proof.
  intros Hlen Hbs. revert bs' Hlen.
  induction Hbs as [|b bs Hb Hbs IH]; intros [|b' bs'] Hlen Hok Heq; try done.
  inversion Hok; subst. simpl in Hlen. assert (length bs = length bs') as Hl by lia.
  rewrite !be_val_cons, Hl in Heq.
  pose proof (be_val_bound bs Hbs) as Hb1. pose proof (be_val_bound bs' ltac:(done)) as Hb2.
  rewrite Hl in Hb1. set (m := 256 ^ Z.of_nat (length bs')) in *.
  assert (b = b') by nia. subst. f_equal. apply IH; auto; lia.
Qed.

Lemma be_bytes_add n m z : be_bytes (n + m) z = be_bytes n (z / 256 ^ Z.of_nat m) ++ be_bytes m z.
Proof.
  induction n as [|n IH]; simpl; [done|]. rewrite IH. f_equal. f_equal.
  rewrite !shiftr_div by lia. rewrite Nat2Z.inj_add, Z.mul_add_distr_l, Z.pow_add_r by lia.
  rewrite (Z.pow_mul_r 2 8 (Z.of_nat m)) by lia. change (2 ^ 8) with 256.
  rewrite Z.div_div, Z.mul_comm; [done|apply Z.pow_nonzero; lia|apply Z.pow_pos_nonneg; lia].
Qed.

Lemma be_bytes_be_val bs : bytes_ok bs → be_bytes (length bs) (be_val bs) = bs.
Proof.
  intros Hok. apply be_val_inj; auto using length_be_bytes, be_bytes_ok.
  rewrite be_val_be_bytes. apply Z.mod_small, be_val_bound, Hok.
Qed.

Lemma be_bytes_mod n z : be_bytes n (z mod 256 ^ Z.of_nat n) = be_bytes n z.
Proof.
  apply be_val_inj; [by rewrite !length_be_bytes|apply be_bytes_ok..|].
  by rewrite !be_val_be_bytes, Z.mod_mod by (apply Z.pow_nonzero; lia).
Qed.

Lemma be_bytes_u8 z : be_bytes 1 (u8 z) = be_bytes 1 z.
Proof. exact (be_bytes_mod 1 z). Qed.
Lemma be_bytes_u16 z : be_bytes 2 (u16 z) = be_bytes 2 z.
Proof. exact (be_bytes_mod 2 z). Qed.
Lemma be_bytes_u32 z : be_bytes 4 (u32 z) = be_bytes 4 z.
Proof. exact (be_bytes_mod 4 z). Qed.
Lemma be_bytes_u64 z : be_bytes 8 (u64 z) = be_bytes 8 z.
Proof. exact (be_bytes_mod 8 z). Qed.

(** The order of the host. *)
Definition le_val (bs : list Z) : Z := be_val (rev bs).
Definition le_bytes (n : nat) (z : Z) : list Z := rev (be_bytes n z).

Lemma length_le_bytes n z : length (le_bytes n z) = n.
Proof. unfold le_bytes. by rewrite length_rev, length_be_bytes. Qed.

Lemma le_bytes_ok n z : bytes_ok (le_bytes n z).
Proof. unfold le_bytes. apply Forall_rev, be_bytes_ok. Qed.

Lemma le_val_le_bytes n z : le_val (le_bytes n z) = z mod 256 ^ Z.of_nat n.
Proof. unfold le_val, le_bytes. by rewrite rev_involutive, be_val_be_bytes. Qed.

(** ** Bounded memory

    A byte array of the program ([packet->header]/[packet->data], a frame
    buffer, ...) is a list; [mem_read] and [mem_write] are [memcpy] out of and
    into it.  An access outside the array is undefined behaviour in C and is
    [None] here, so that "the operation returns [Some]" is a memory-safety
    statement. *)

Definition mem_read (m : list Z) (off len : Z) : option (list Z) :=
  if bool_decide (0 ≤ off ∧ 0 ≤ len ∧ off + len ≤ Z.of_nat (length m))
  then Some (take (Z.to_nat len) (drop (Z.to_nat off) m)) else None.

Definition mem_write (m : list Z) (off : Z) (bs : list Z) : option (list Z) :=
  if bool_decide (0 ≤ off ∧ off + Z.of_nat (length bs) ≤ Z.of_nat (length m))
  then Some (take (Z.to_nat off) m ++ bs ++ drop (Z.to_nat off + length bs) m) else None.

Section Memory.
Implicit Types (m bs : list Z) (off len : Z).

Lemma mem_write_Some m off bs m' :
  mem_write m off bs = Some m' ↔
  0 ≤ off ∧ off + Z.of_nat (length bs) ≤ Z.of_nat (length m) ∧
  m' = take (Z.to_nat off) m ++ bs ++ drop (Z.to_nat off + length bs) m.
Proof. unfold mem_write. case_bool_decide; [|intuition congruence].
  split; [intros [= <-]; tauto | intros (_ & _ & ->); done]. Qed.

Lemma mem_read_Some m off len bs :
  mem_read m off len = Some bs ↔
  0 ≤ off ∧ 0 ≤ len ∧ off + len ≤ Z.of_nat (length m) ∧
  bs = take (Z.to_nat len) (drop (Z.to_nat off) m).
Proof. unfold mem_read. case_bool_decide; [|intuition congruence].
  split; [intros [= <-]; tauto | intros (_ & _ & _ & ->); done]. Qed.

Lemma mem_write_is_Some m off bs :
  0 ≤ off → off + Z.of_nat (length bs) ≤ Z.of_nat (length m) →
  ∃ m', mem_write m off bs = Some m' ∧ length m' = length m.
Proof.
  intros H1 H2. unfold mem_write. rewrite bool_decide_true by done. eexists; split; [done|].
  rewrite !length_app, length_take, length_drop. lia.
Qed.

Lemma mem_read_mid (a b c : list Z) : mem_read (a ++ b ++ c) (Z.of_nat (length a)) (Z.of_nat (length b)) = Some b.
Proof.
  apply mem_read_Some. rewrite !length_app. split_and!; [lia..|].
  by rewrite !Nat2Z.id, drop_app_length, take_app_length.
Qed.

Lemma mem_write_mid (a b b' c : list Z) :
  length b' = length b → mem_write (a ++ b ++ c) (Z.of_nat (length a)) b' = Some (a ++ b' ++ c).
Proof.
  intros Hl. apply mem_write_Some. rewrite !length_app. split_and!; [lia..|].
  rewrite Nat2Z.id, take_app_length. do 2 f_equal. rewrite Hl, app_assoc, drop_app_ge by (rewrite length_app; lia).
  by rewrite length_app, Nat.sub_diag.
Qed.

Lemma mem_write_length m off bs m' : mem_write m off bs = Some m' → length m' = length m.
Proof.
  intros (H1 & H2 & ->)%mem_write_Some. rewrite !length_app, length_take, length_drop. lia.
Qed.

Lemma mem_read_length m off len bs :
  mem_read m off len = Some bs → Z.of_nat (length bs) = len.
Proof.
  intros (H1 & H2 & H3 & ->)%mem_read_Some. rewrite length_take, length_drop. lia.
Qed.

Lemma mem_read_is_Some m off len :
  0 ≤ off → 0 ≤ len → off + len ≤ Z.of_nat (length m) → is_Some (mem_read m off len).
Proof. intros. unfold mem_read. rewrite bool_decide_true by done. eauto. Qed.

(** Element view of the two operations: the whole theory follows from it. *)
Lemma mem_write_lookup m off bs m' (i : nat) :
  mem_write m off bs = Some m' →
  m' !! i = if bool_decide (off ≤ Z.of_nat i < off + Z.of_nat (length bs))
            then bs !! (i - Z.to_nat off)%nat else m !! i.
Proof.
  intros (H1 & H2 & ->)%mem_write_Some. case_bool_decide as Hi.
  - rewrite lookup_app_r by (rewrite length_take; lia).
    rewrite length_take, lookup_app_l by lia. f_equal. lia.
  - destruct (decide (Z.of_nat i < off)).
    + rewrite lookup_app_l by (rewrite length_take; lia). rewrite lookup_take. by rewrite decide_True by lia.
    + rewrite lookup_app_r by (rewrite length_take; lia).
      rewrite length_take, lookup_app_r by lia. rewrite lookup_drop. f_equal. lia.
Qed.

Lemma mem_read_lookup m off len bs (i : nat) :
  mem_read m off len = Some bs → Z.of_nat i < len → bs !! i = m !! (Z.to_nat off + i)%nat.
Proof.
  intros (H1 & H2 & H3 & ->)%mem_read_Some Hi.
  rewrite lookup_take, lookup_drop. by rewrite decide_True by lia.
Qed.

Lemma mem_read_ext m m' off len :
  length m = length m' →
  (∀ i : nat, off ≤ Z.of_nat i < off + len → m !! i = m' !! i) →
  mem_read m off len = mem_read m' off len.
Proof.
  intros Hlen Hext. unfold mem_read. rewrite Hlen. case_bool_decide as Hb; [|done]. f_equal.
  apply list_eq. intros i. rewrite !lookup_take, !lookup_drop. case_decide; [|done].
  apply Hext. lia.
Qed.

(** Reading back what was just written. *)
Lemma mem_read_write_eq m off bs m' :
  mem_write m off bs = Some m' → mem_read m' off (Z.of_nat (length bs)) = Some bs.
Proof.
  intros Hw. pose proof (mem_write_length _ _ _ _ Hw) as Hl.
  pose proof Hw as (H1 & H2 & _)%mem_write_Some.
  apply mem_read_Some. repeat split; try lia. apply list_eq. intros i.
  rewrite lookup_take, lookup_drop, (mem_write_lookup _ _ _ _ _ Hw).
  case_decide.
  - case_bool_decide; [f_equal; lia|lia].
  - apply lookup_ge_None_2; lia.
Qed.

(** A write outside the range read does not change what is read. *)
Lemma mem_read_write_ne m off bs m' off' len :
  mem_write m off bs = Some m' →
  off' + len ≤ off ∨ off + Z.of_nat (length bs) ≤ off' →
  mem_read m' off' len = mem_read m off' len.
Proof.
  intros Hw Hd. apply mem_read_ext; [by eapply mem_write_length|].
  intros i Hi. rewrite (mem_write_lookup _ _ _ _ _ Hw). case_bool_decide; [lia|done].
Qed.

Lemma mem_read_app m off l1 l2 b1 b2 :
  mem_read m off l1 = Some b1 → mem_read m (off + l1) l2 = Some b2 →
  mem_read m off (l1 + l2) = Some (b1 ++ b2).
Proof.
  intros (H1 & H2 & H3 & ->)%mem_read_Some (H4 & H5 & H6 & ->)%mem_read_Some.
  apply mem_read_Some. repeat split; try lia.
  rewrite !Z2Nat.inj_add by lia. rewrite <- drop_drop. by rewrite take_take_drop.
Qed.

Lemma mem_read_app_inv m off l1 l2 b1 b2 :
  0 ≤ l2 → Z.of_nat (length b1) = l1 → mem_read m off (l1 + l2) = Some (b1 ++ b2) →
  mem_read m off l1 = Some b1 ∧ mem_read m (off + l1) l2 = Some b2.
Proof.
  intros Hl2 Hb1 (H1 & H2 & H3 & H)%mem_read_Some. rewrite Z2Nat.inj_add in H by lia.
  split; apply mem_read_Some; split_and!; try lia.
  - apply (f_equal (take (Z.to_nat l1))) in H.
    rewrite take_take, take_app_le, take_ge, Nat.min_l in H by lia. done.
  - apply (f_equal (drop (Z.to_nat l1))) in H.
    rewrite drop_app_le, drop_ge, app_nil_l, <- take_drop_commute, drop_drop in H by lia.
    rewrite H, Z2Nat.inj_add by lia. done.
Qed.

Lemma mem_read_bytes_ok m off len bs :
  bytes_ok m → mem_read m off len = Some bs → bytes_ok bs.
Proof.
  intros Hm (H1 & H2 & H3 & ->)%mem_read_Some. by apply Forall_take, Forall_drop.
Qed.

Lemma mem_write_bytes_ok m off bs m' :
  bytes_ok m → bytes_ok bs → mem_write m off bs = Some m' → bytes_ok m'.
Proof.
  intros Hm Hbs (H1 & H2 & ->)%mem_write_Some.
  apply Forall_app; split; [by apply Forall_take|]. apply Forall_app; split; [done|by apply Forall_drop].
Qed.
End Memory.

(** ** Linked lists

    [nx a] is the [next] pointer of the element at address [a], when there is one.
    [lseg nx p l q]: following [next] from [p] runs through [l] and arrives at [q]. *)

Fixpoint lseg (nx : nat → option (option nat)) (p : option nat) (l : list nat) (q : option nat) : Prop :=
  match l with
  | [] => p = q
  | a :: l' => p = Some a ∧ ∃ n, nx a = Some n ∧ lseg nx n l' q
  end.

Section LinkedLists.
Implicit Types (nx : nat → option (option nat)) (p q : option nat) (l : list nat).

Lemma lseg_app nx p l1 l2 q : lseg nx p (l1 ++ l2) q ↔ ∃ r, lseg nx p l1 r ∧ lseg nx r l2 q.
Proof.
  revert p. induction l1 as [|a l1 IH]; intros p; simpl.
  - split; [eauto|]. by intros (? & <- & ?).
  - split.
    + intros (-> & n & Hn & (r & ? & ?)%IH). eauto 10.
    + intros (r & (-> & n & Hn & ?) & ?). split; [done|]. exists n. split; [done|]. apply IH. eauto.
Qed.

Lemma lseg_ext nx nx' p l q :
  (∀ a, a ∈ l → nx' a = nx a) → lseg nx p l q → lseg nx' p l q.
Proof.
  revert p. induction l as [|b l IH]; intros p Hext Hs; [done|].
  destruct Hs as (-> & n & Hn & Hs). split; [done|]. exists n. split; [rewrite Hext; [done|by left]|].
  apply IH; [|done]. intros a Ha. apply Hext. by right.
Qed.

(** Redirecting the last pointer of a segment. *)
Lemma lseg_set_last nx nx' p l a q q' :
  a ∉ l → (∀ b, b ≠ a → nx' b = nx b) → nx' a = Some q' →
  lseg nx p (l ++ [a]) q → lseg nx' p (l ++ [a]) q'.
Proof.
  intros Hni Hext Ha (r & Hl & -> & _)%lseg_app. apply lseg_app. exists (Some a). split.
  - eapply lseg_ext; [|done]. intros b Hb. apply Hext. by intros ->.
  - split; [done|]. by exists q'.
Qed.

Lemma lseg_head nx p l q : lseg nx p l q → p = match l with [] => q | a :: _ => Some a end.
Proof. destruct l; [done|]. by intros [-> _]. Qed.
End LinkedLists.

(** ** State and undefined behaviour

    Code that works on shared state is a state-passing function that is [None]
    where the C program has undefined behaviour (an out-of-bounds access, a
    dangling pointer). *)

Definition ST (S A : Type) : Type := S → option (A * S).

#[export] Instance ST_ret S : MRet (ST S) := λ A a s, Some (a, s).
#[export] Instance ST_bind S : MBind (ST S) := λ A B k m s,
  match m s with Some (a, s') => k a s' | None => None end.

#[export] Instance ST_fmap S : FMap (ST S) := λ A B f m s,
  match m s with Some (a, s') => Some (f a, s') | None => None end.

(** Reduces the binds of the option and state monads and nothing else. *)
Ltac monad :=
  cbn [mbind option_bind mret option_ret fmap ST_fmap ST_bind ST_ret fst snd].

Definition get {S} : ST S S := λ s, Some (s, s).
Definition put {S} (s : S) : ST S () := λ _, Some ((), s).
Definition gets {S A} (f : S → A) : ST S A := λ s, Some (f s, s).
Definition modify {S} (f : S → S) : ST S () := λ s, Some ((), f s).
Definition ub {S A} : ST S A := λ _, None.
Definition lift_opt {S A} (o : option A) : ST S A := λ s, option_map (λ a, (a, s)) o.
Definition when {S} (b : bool) (m : ST S ()) : ST S () := if b then m else mret ().

(** Computations on one half of a pair of states. *)
Definition on_fst {S T A} (m : ST S A) : ST (S * T) A := λ s,
  match m s.1 with Some (a, s1) => Some (a, (s1, s.2)) | None => None end.
Definition on_snd {S T A} (m : ST T A) : ST (S * T) A := λ s,
  match m s.2 with Some (a, s2) => Some (a, (s.1, s2)) | None => None end.

Section STLaws.
Context {S A B : Type}.
Implicit Types (m : ST S A) (k : A → ST S B) (s : S).

Lemma ST_bind_Some m k s b s2 :
  (m ≫= k) s = Some (b, s2) ↔ ∃ a s1, m s = Some (a, s1) ∧ k a s1 = Some (b, s2).
Proof.
  unfold mbind, ST_bind. destruct (m s) as [[a s1]|].
  - split; [eauto|]. by intros (? & ? & [= <- <-] & ?).
  - split; [done|]. by intros (? & ? & ? & ?).
Qed.

Lemma ST_bind_run m k s a s1 : m s = Some (a, s1) → (m ≫= k) s = k a s1.
Proof. unfold mbind, ST_bind. by intros ->. Qed.

Lemma on_fst_run {T} (m : ST S A) s a s1 (t : T) : m s = Some (a, s1) → on_fst m (s, t) = Some (a, (s1, t)).
Proof. unfold on_fst. cbn [fst snd]. by intros ->. Qed.

Lemma on_snd_run {T} (m : ST S A) s a s1 (t : T) : m s = Some (a, s1) → on_snd m (t, s) = Some (a, (t, s1)).
Proof. unfold on_snd. cbn [fst snd]. by intros ->. Qed.
End STLaws.

Arguments be_bytes : simpl never.

Lemma lift_opt_run_gen {S A} (o : option A) (a : A) (s : S) : o = Some a → lift_opt o s = Some (a, s).
Proof. by intros ->. Qed.

(** [run H] executes the first computation of a bind, whose result [H] gives;
    [st_red] executes the primitive operations. *)
Ltac run H := erewrite ST_bind_run; [|exact H]; cbv beta iota.
Ltac st_red :=
  unfold gets, modify, get, put, lift_opt, when, ub, mbind, ST_bind, mret, ST_ret, fmap, ST_fmap;
  cbn [option_map fst snd].

(** ** Invariance

    Whatever a computation does, when it returns [P] still holds; the rules follow the
    shape of the computation. *)

Definition invariant {S A} (P : S → Prop) (m : ST S A) : Prop := ∀ s a s', P s → m s = Some (a, s') → P s'.

Section Invariance.
Context {S : Type} (P : S → Prop).

Lemma invariant_run {A} (m : ST S A) s a s' : invariant P m → P s → m s = Some (a, s') → P s'.
Proof. intros Hm Hs Hr. by eapply Hm. Qed.

Lemma invariant_ret {A} (a : A) : invariant P (mret a).
Proof. by intros s ? ? Hs [= _ <-]. Qed.

Lemma invariant_bind {A B} (m : ST S A) (k : A → ST S B) :
  invariant P m → (∀ a, invariant P (k a)) → invariant P (m ≫= k).
Proof. intros Hm Hk s b s' Hs (a & s1 & H1 & H2)%ST_bind_Some. by eapply Hk, H2; eapply Hm, H1. Qed.

Lemma invariant_get : invariant P get.
Proof. by intros s ? ? Hs [= _ <-]. Qed.

Lemma invariant_lift_opt {A} (o : option A) : invariant P (lift_opt o).
Proof. intros s a s' Hs. unfold lift_opt. destruct o; [|done]. by intros [= _ <-]. Qed.

Lemma invariant_ub {A} : invariant P (ub : ST S A).
Proof. by intros s ? ?. Qed.

Lemma invariant_when (b : bool) (m : ST S ()) : invariant P m → invariant P (when b m).
Proof. intros Hm. destruct b; [done|apply invariant_ret]. Qed.
End Invariance.

Lemma invariant_on_fst {S T A} (P : T → Prop) (m : ST S A) : invariant (λ x : S * T, P x.2) (on_fst m).
Proof. intros [s t] a x' Hs. unfold on_fst. destruct (m _) as [[a0 s1]|]; [|done]. by intros [= _ <-]. Qed.

Lemma invariant_on_snd {S T A} (P : T → Prop) (m : ST T A) : invariant P m → invariant (λ x : S * T, P x.2) (on_snd m).
Proof.
  intros Hm [s t] a x' Hs. unfold on_snd. destruct (m _) as [[a0 t1]|] eqn:Hr; [|done]. intros [= _ <-]. by eapply Hm.
Qed.

Create HintDb invariance.
#[export] Hint Resolve invariant_ret invariant_get invariant_lift_opt invariant_ub
  invariant_on_fst : invariance.

(** Goes through a computation, its matches included, down to the operations the hints know. *)
Ltac invariance :=
  repeat first
    [ progress intros
    | solve [eauto with invariance nocore]
    | simple apply invariant_on_snd
    | simple apply invariant_bind
    | simple apply invariant_when
    | case_match ].
