(* ===== verification/Queue.v ===== *)
(** * Queues

    [lib/csp/src/arch/posix/pthread_queue.c] and the [csp_queue.c] wrappers
    around it: the ring buffer every other component stores its packets and
    connections in, the bounded FIFO it promises ([fifo]), and the refinement
    between the two.  The remaining components are written against the FIFO. *)

From S2P Require Import Prelude.

Definition CSP_QUEUE_OK : Z := 0.
Definition CSP_QUEUE_ERROR : Z := -1.
Definition PTHREAD_QUEUE_OK : Z := CSP_QUEUE_OK.
Definition PTHREAD_QUEUE_FULL : Z := CSP_QUEUE_ERROR.
Definition PTHREAD_QUEUE_EMPTY : Z := CSP_QUEUE_ERROR.
Definition PTHREAD_QUEUE_ERROR : Z := CSP_QUEUE_ERROR.
Definition CSP_MAX_TIMEOUT : Z := 4294967295.
Definition EINTR : Z := 4.

(** ** The abstract queue *)

Record fifo (A : Type) := mk_fifo { fq_cap : nat; fq_items : list A }.
Arguments mk_fifo {A} _ _.
Arguments fq_cap {A} _.
Arguments fq_items {A} _.

Section Fifo.
Context {A : Type}.
Implicit Types (q : fifo A) (v : A).

(** [csp_queue_create_static] *)
Definition csp_queue_create_static (length : nat) : fifo A := mk_fifo length [].

(** [csp_queue_enqueue] with the timeout already elapsed: the return code and
    the queue. *)
Definition csp_queue_enqueue q v : Z * fifo A :=
  if bool_decide (length (fq_items q) < fq_cap q)%nat
  then (CSP_QUEUE_OK, mk_fifo (fq_cap q) (fq_items q ++ [v]))
  else (CSP_QUEUE_ERROR, q).

(** [csp_queue_dequeue]: [None] is a return code other than [CSP_QUEUE_OK]. *)
Definition csp_queue_dequeue q : option A * fifo A :=
  match fq_items q with
  | [] => (None, q)
  | v :: l => (Some v, mk_fifo (fq_cap q) l)
  end.

(** The [_isr] variants: [*task_woken = 0] and the plain call. *)
Definition csp_queue_enqueue_isr q v : Z * fifo A := csp_queue_enqueue q v.
Definition csp_queue_dequeue_isr q : option A * fifo A := csp_queue_dequeue q.

Definition csp_queue_size q : Z := Z.of_nat (length (fq_items q)).
Definition csp_queue_free q : Z := Z.of_nat (fq_cap q) - Z.of_nat (length (fq_items q)).

Definition fifo_wf q : Prop := (length (fq_items q) ≤ fq_cap q)%nat.

Lemma csp_queue_enqueue_ok q v :
  (length (fq_items q) < fq_cap q)%nat →
  csp_queue_enqueue q v = (CSP_QUEUE_OK, mk_fifo (fq_cap q) (fq_items q ++ [v])).
Proof. intros. unfold csp_queue_enqueue. by rewrite bool_decide_true. Qed.

Lemma csp_queue_enqueue_full q v :
  (fq_cap q ≤ length (fq_items q))%nat → csp_queue_enqueue q v = (CSP_QUEUE_ERROR, q).
Proof. intros. unfold csp_queue_enqueue. rewrite bool_decide_false by lia. done. Qed.

Lemma csp_queue_enqueue_wf q v : fifo_wf q → fifo_wf (csp_queue_enqueue q v).2.
Proof.
  unfold fifo_wf, csp_queue_enqueue. case_bool_decide; simpl; [|done].
  rewrite length_app; simpl; lia.
Qed.

Lemma csp_queue_dequeue_wf q : fifo_wf q → fifo_wf (csp_queue_dequeue q).2.
Proof. unfold fifo_wf, csp_queue_dequeue. destruct (fq_items q) eqn:E; simpl; rewrite ?E; simpl; lia. Qed.
End Fifo.

(** ** The ring buffer *)

(** A slot holds one [item_size]-byte item; [None] is memory that [malloc] left
    uninitialised. *)
Record pthread_queue_t (A : Type) := mk_pthread_queue {
  buffer : list (option A);
  size : Z;
  items : Z;
  q_in : Z;
  q_out : Z;
}.
Arguments mk_pthread_queue {A} _ _ _ _ _.
Arguments buffer {A} _.
Arguments size {A} _.
Arguments items {A} _.
Arguments q_in {A} _.
Arguments q_out {A} _.

(** [struct timespec] *)
Record timespec := mk_timespec { tv_sec : Z; tv_nsec : Z }.

(** [get_deadline]: [clock] is what [clock_gettime(CLOCK_MONOTONIC)] returned,
    [None] when it failed. *)
Definition get_deadline (clock : option timespec) (timeout_ms : Z) : Z * option timespec :=
  match clock with
  | None => (-1, None)
  | Some ts =>
      let sec := u32 (timeout_ms / 1000) in
      let nsec := u32 (u32 (timeout_ms - u32 (1000 * sec)) * 1000000) in
      let s := tv_sec ts + sec in
      let s := if bool_decide (1000000000 ≤ tv_nsec ts + nsec) then s + 1 else s in
      (0, Some (mk_timespec s ((tv_nsec ts + nsec) mod 1000000000)))
  end.

Section Ring.
Context {A : Type}.
Implicit Types (q : pthread_queue_t A) (v : A).

(** A thread that waits on a condition variable wakes up with a return code
    and finds the queue as the other threads left it. *)
Definition wakeup : Type := Z * pthread_queue_t A.

(** [pthread_queue_create], when [malloc] and the [pthread_*_init] calls
    succeed ([ok]). *)
Definition pthread_queue_create (ok : bool) (length : nat) : option (pthread_queue_t A) :=
  if ok then Some (mk_pthread_queue (replicate length None) (Z.of_nat length) 0 0 0)
  else None.

(** [wait_slot_available]: [None] while the thread is still blocked, otherwise
    the code and the queue it found. *)
Fixpoint wait_slot_available (wakes : list wakeup) q : option (Z * pthread_queue_t A) :=
  if bool_decide (items q = size q) then
    match wakes with
    | [] => None
    | (ret, q') :: wakes' =>
        if bool_decide (ret ≠ 0 ∧ ret ≠ EINTR) then Some (PTHREAD_QUEUE_FULL, q')
        else wait_slot_available wakes' q'
    end
  else Some (PTHREAD_QUEUE_OK, q).

Fixpoint wait_item_available (wakes : list wakeup) q : option (Z * pthread_queue_t A) :=
  if bool_decide (items q = 0) then
    match wakes with
    | [] => None
    | (ret, q') :: wakes' =>
        if bool_decide (ret ≠ 0 ∧ ret ≠ EINTR) then Some (PTHREAD_QUEUE_EMPTY, q')
        else wait_item_available wakes' q'
    end
  else Some (PTHREAD_QUEUE_OK, q).

(** The critical section of [pthread_queue_enqueue]. *)
Definition queue_store q v : pthread_queue_t A :=
  mk_pthread_queue (<[Z.to_nat (q_in q) := Some v]> (buffer q)) (size q) (items q + 1)
    ((q_in q + 1) mod size q) (q_out q).

(** The critical section of [pthread_queue_dequeue]. *)
Definition queue_fetch q : option A * pthread_queue_t A :=
  (mjoin (buffer q !! Z.to_nat (q_out q)),
   mk_pthread_queue (buffer q) (size q) (items q - 1) (q_in q) ((q_out q + 1) mod size q)).

(** [pthread_queue_enqueue]; [clock] is read when the timeout is finite. *)
Definition pthread_queue_enqueue (clock : option timespec) (wakes : list wakeup) q v (timeout : Z)
    : option (Z * pthread_queue_t A) :=
  if bool_decide (timeout ≠ CSP_MAX_TIMEOUT ∧ (get_deadline clock timeout).1 ≠ 0)
  then Some (PTHREAD_QUEUE_ERROR, q)
  else
    '(ret, q') ← wait_slot_available wakes q;
    if bool_decide (ret = PTHREAD_QUEUE_OK) then Some (ret, queue_store q' v) else Some (ret, q').

(** [pthread_queue_dequeue]; the item is the output buffer's new content. *)
Definition pthread_queue_dequeue (clock : option timespec) (wakes : list wakeup) q (timeout : Z)
    : option (Z * option A * pthread_queue_t A) :=
  if bool_decide (timeout ≠ CSP_MAX_TIMEOUT ∧ (get_deadline clock timeout).1 ≠ 0)
  then Some (PTHREAD_QUEUE_ERROR, None, q)
  else
    '(ret, q') ← wait_item_available wakes q;
    if bool_decide (ret = PTHREAD_QUEUE_OK)
    then Some (ret, (queue_fetch q').1, (queue_fetch q').2) else Some (ret, None, q').

Definition pthread_queue_items q : Z := items q.
Definition pthread_queue_free q : Z := size q - items q.

(** The ring invariant: indices inside the buffer, the fill level the distance
    from [out] to [in], and the [items] slots after [out] initialised. *)
Record ring_repr q (l : list A) : Prop := {
  rr_size : 0 < size q ∧ Z.of_nat (length (buffer q)) = size q;
  rr_items : items q = Z.of_nat (length l) ∧ items q ≤ size q;
  rr_out : 0 ≤ q_out q < size q;
  rr_in : q_in q = (q_out q + items q) mod size q;
  rr_slots : ∀ i : nat, (i < length l)%nat →
    buffer q !! Z.to_nat ((q_out q + Z.of_nat i) mod size q) = Some (l !! i);
}.
End Ring.
Arguments wakeup : clear implicits.

(** ** The ring refines the FIFO *)

Section RingLemmas.
Context {A : Type}.
Implicit Types (q : pthread_queue_t A) (v : A) (l : list A).

Lemma ring_repr_create n q :
  (0 < n)%nat → pthread_queue_create true n = Some q → ring_repr q ([] : list A).
Proof.
  intros Hn [= <-]. split; simpl; rewrite ?length_replicate; try lia.
  - by rewrite Z.mod_0_l by lia.
Qed.

(** Two positions less than one turn apart are different slots. *)
Lemma ring_slot_ne (n out i j : Z) :
  0 < n → 0 ≤ i < n → 0 ≤ j < n → i ≠ j →
  Z.to_nat ((out + i) mod n) ≠ Z.to_nat ((out + j) mod n).
Proof.
  intros Hn Hi Hj Hij Heq.
  pose proof (Z.mod_pos_bound (out + i) n Hn). pose proof (Z.mod_pos_bound (out + j) n Hn).
  assert ((out + i) mod n = (out + j) mod n) as E by lia.
  assert ((i - j) mod n = 0) as E'.
  { replace (i - j) with ((out + i) - (out + j)) by lia.
    rewrite Zminus_mod, E, Z.sub_diag. apply Z.mod_0_l; lia. }
  apply Z.mod_divide in E'; [|lia]. destruct E' as [k Hk].
  assert (k < 1) by nia. assert (-1 < k) by nia. assert (k = 0) as -> by lia. lia.
Qed.

Lemma ring_repr_store q l v :
  ring_repr q l → items q < size q → ring_repr (queue_store q v) (l ++ [v]).
Proof.
  intros [[Hs Hb] [Hi Hc] Ho Hin Hsl] Hlt.
  pose proof (Z.mod_pos_bound (q_out q + items q) (size q) Hs) as Hr.
  split; simpl; rewrite ?length_insert, ?length_app; simpl; try lia.
  - rewrite Hin, Zplus_mod_idemp_l. f_equal. lia.
  - intros i Hil. destruct (decide (i = length l)) as [->|Hne].
    + rewrite <- Hi, <- Hin, lookup_app_r, Nat.sub_diag by lia.
      rewrite list_lookup_insert_eq by lia. done.
    + rewrite list_lookup_insert_ne.
      * rewrite lookup_app_l by lia. apply Hsl; lia.
      * rewrite Hin. apply ring_slot_ne; lia.
Qed.

Lemma ring_repr_fetch q v l :
  ring_repr q (v :: l) →
  (queue_fetch q).1 = Some v ∧ ring_repr (queue_fetch q).2 l.
Proof.
  intros [[Hs Hb] [Hi Hc] Ho Hin Hsl]. split.
  - pose proof (Hsl 0%nat ltac:(simpl; lia)) as H0. simpl in H0.
    rewrite Z.add_0_r, Z.mod_small in H0 by lia. unfold queue_fetch; simpl. by rewrite H0.
  - simpl in Hi. split; simpl; try lia.
    + apply Z.mod_pos_bound; lia.
    + rewrite Hin, Zplus_mod_idemp_l. f_equal. lia.
    + intros i Hil. rewrite Zplus_mod_idemp_l.
      pose proof (Hsl (S i) ltac:(simpl; lia)) as HS. simpl in HS.
      rewrite <- HS. f_equal. f_equal. f_equal. lia.
Qed.

Lemma wait_slot_available_free wakes q :
  items q ≠ size q → wait_slot_available wakes q = Some (PTHREAD_QUEUE_OK, q).
Proof. intros. destruct wakes; simpl; by rewrite bool_decide_false. Qed.

Lemma wait_item_available_some wakes q :
  items q ≠ 0 → wait_item_available wakes q = Some (PTHREAD_QUEUE_OK, q).
Proof. intros. destruct wakes; simpl; by rewrite bool_decide_false. Qed.
End RingLemmas.

(** One call on a queue, made by a thread whose wait, if it has to wait, ends in
    a time-out with the queue as it was. *)
Inductive queue_op (A : Type) := OpEnqueue (v : A) | OpDequeue | OpSize | OpFree.
Arguments OpEnqueue {A} _.
Arguments OpDequeue {A}.
Arguments OpSize {A}.
Arguments OpFree {A}.

(** What the caller sees of a call: the code or number returned, and the item. *)
Definition queue_out (A : Type) : Type := Z * option A.

Section Runs.
Context {A : Type}.
Variable ETIMEDOUT : Z.

Definition ring_step (clock : timespec) (timeout : Z) (q : pthread_queue_t A) (op : queue_op A)
    : option (queue_out A * pthread_queue_t A) :=
  match op with
  | OpEnqueue v =>
      '(ret, q') ← pthread_queue_enqueue (Some clock) [(ETIMEDOUT, q)] q v timeout; Some ((ret, None), q')
  | OpDequeue =>
      '(ret, x, q') ← pthread_queue_dequeue (Some clock) [(ETIMEDOUT, q)] q timeout; Some ((ret, x), q')
  | OpSize => Some ((pthread_queue_items q, None), q)
  | OpFree => Some ((pthread_queue_free q, None), q)
  end.

Definition fifo_step (q : fifo A) (op : queue_op A) : queue_out A * fifo A :=
  match op with
  | OpEnqueue v => let '(ret, q') := csp_queue_enqueue q v in ((ret, None), q')
  | OpDequeue =>
      match csp_queue_dequeue q with
      | (Some v, q') => ((CSP_QUEUE_OK, Some v), q')
      | (None, q') => ((CSP_QUEUE_ERROR, None), q')
      end
  | OpSize => ((csp_queue_size q, None), q)
  | OpFree => ((csp_queue_free q, None), q)
  end.

Fixpoint ring_run (clock : timespec) (timeout : Z) (q : pthread_queue_t A) (ops : list (queue_op A))
    : option (list (queue_out A)) :=
  match ops with
  | [] => Some []
  | op :: ops' =>
      '(o, q') ← ring_step clock timeout q op;
      os ← ring_run clock timeout q' ops'; Some (o :: os)
  end.

Fixpoint fifo_run (q : fifo A) (ops : list (queue_op A)) : list (queue_out A) :=
  match ops with
  | [] => []
  | op :: ops' => let '(o, q') := fifo_step q op in o :: fifo_run q' ops'
  end.

Definition ring_sim (r : pthread_queue_t A) (q : fifo A) : Prop :=
  ring_repr r (fq_items q) ∧ size r = Z.of_nat (fq_cap q).

Lemma get_deadline_code clock timeout : (get_deadline (Some clock) timeout).1 = 0.
Proof. done. Qed.

Hypothesis ETIMEDOUT_error : ETIMEDOUT ≠ 0 ∧ ETIMEDOUT ≠ EINTR.

Lemma ring_step_sim clock timeout r q op :
  ring_sim r q →
  ∃ r', ring_step clock timeout r op = Some ((fifo_step q op).1, r') ∧
        ring_sim r' (fifo_step q op).2.
Proof.
  intros [Hr Hc]. pose proof Hr as [[Hs Hb] [Hi Hle] Ho Hin _].
  destruct op as [v| | |]; simpl.
  - unfold pthread_queue_enqueue. rewrite get_deadline_code, bool_decide_false by (by intros [_ []]).
    unfold csp_queue_enqueue. destruct (decide (items r = size r)) as [E|E].
    + simpl. rewrite !bool_decide_true by (done || lia). simpl. rewrite bool_decide_false by lia.
      simpl. eexists; split; [done|by split].
    + rewrite wait_slot_available_free by done. simpl. rewrite bool_decide_true by lia. simpl.
      eexists; split; [done|]. split; [apply ring_repr_store; [done|lia]|done].
  - unfold pthread_queue_dequeue. rewrite get_deadline_code, bool_decide_false by (by intros [_ []]).
    unfold csp_queue_dequeue. destruct (fq_items q) as [|v l] eqn:El; simpl in Hi.
    + simpl. rewrite !bool_decide_true by done. simpl. eexists; split; [done|].
      split; simpl; [by rewrite El|done].
    + rewrite wait_item_available_some by lia. simpl.
      destruct (ring_repr_fetch r v l Hr) as [Hv Hr']. simpl in Hv. rewrite Hv.
      eexists; split; [done|]. by split.
  - eexists; split; [|by split]. unfold pthread_queue_items, csp_queue_size. by rewrite Hi.
  - eexists; split; [|by split]. unfold pthread_queue_free, csp_queue_free. by rewrite Hi, Hc.
Qed.

Lemma ring_run_sim clock timeout ops : ∀ r q,
  ring_sim r q → ring_run clock timeout r ops = Some (fifo_run q ops).
Proof.
  induction ops as [|op ops IH]; intros r q Hsim; [done|].
  destruct (ring_step_sim clock timeout r q op Hsim) as (r' & Hstep & Hsim').
  simpl. rewrite Hstep. simpl. rewrite (IH _ _ Hsim'). simpl. by destruct (fifo_step q op).
Qed.
End Runs.

(** C22: the POSIX ring buffer implements the bounded FIFO.  Whatever sequence of
    enqueue, dequeue, size and free calls is made on a freshly created queue of
    length [n], every call returns the code, the count and the item the abstract
    FIFO of capacity [n] returns; in particular no call reads an uninitialised
    slot, items come out in the order they went in, and a full (empty) queue
    rejects an enqueue (dequeue) without being changed. *)
Theorem pthread_queue_refines_fifo (A : Type) (ETIMEDOUT : Z) (clock : timespec) (timeout : Z)
    (n : nat) (q : pthread_queue_t A) (ops : list (queue_op A)) :
  ETIMEDOUT ≠ 0 ∧ ETIMEDOUT ≠ EINTR → (0 < n)%nat →
  pthread_queue_create true n = Some q →
  ring_run ETIMEDOUT clock timeout q ops = Some (fifo_run (csp_queue_create_static n) ops).
Proof.
  intros He Hn Hq. apply ring_run_sim; [done|]. split; [by eapply ring_repr_create|].
  by injection Hq as <-.
Qed.

Lemma pthread_queue_refines_fifo_witness :
  ∃ q : pthread_queue_t Z, pthread_queue_create true 2 = Some q ∧
  let ops := [OpEnqueue 5; OpEnqueue 6; OpEnqueue 7; OpDequeue; OpEnqueue 8; OpDequeue; OpSize] in
  ring_run 110 (mk_timespec 10 20) 0 q ops
  = Some (fifo_run (csp_queue_create_static 2) ops).
Proof.
  eexists; split; [reflexivity|].
  apply (pthread_queue_refines_fifo Z 110 (mk_timespec 10 20) 0 2); [done|lia|reflexivity].
Defined.

(** The absolute deadline a blocking queue operation waits for is the current
    monotonic time plus the timeout, normalised to less than a second of
    nanoseconds, for every 32-bit timeout; no 32-bit intermediate overflows. *)
Theorem get_deadline_exact (ts : timespec) (timeout : Z) :
  0 ≤ tv_nsec ts < 1000000000 → is_u32 timeout →
  ∃ d, get_deadline (Some ts) timeout = (0, Some d) ∧
       0 ≤ tv_nsec d < 1000000000 ∧
       tv_sec d * 1000000000 + tv_nsec d =
         tv_sec ts * 1000000000 + tv_nsec ts + timeout * 1000000.
Proof.
  intros Hn Ht. unfold get_deadline. eexists; split; [done|]. simpl.
  split; [apply Z.mod_pos_bound; lia|].
  case_bool_decide; mlia.
Qed.

Lemma get_deadline_exact_witness :
  ∃ d, get_deadline (Some (mk_timespec 7 999000000)) 1500 = (0, Some d) ∧
       0 ≤ tv_nsec d < 1000000000 ∧
       tv_sec d * 1000000000 + tv_nsec d = 7 * 1000000000 + 999000000 + 1500 * 1000000.
Proof. apply (get_deadline_exact (mk_timespec 7 999000000) 1500); simpl; [lia|mlia]. Defined.
