(* ===== verification/Types.v ===== *)
(** * Types

    The data of [include/csp/csp_types.h], [csp_error.h], [csp_debug.h] and
    [csp_interface.h], with the configuration constants of the build
    ([app-sys-manager/meson.build] over [lib/csp/meson_options.txt]). *)

From S2P Require Import Prelude.
From Stdlib Require Export String.
#[global] Open Scope Z_scope.

(** ** Configuration *)

(** [packet_padding_bytes=42] of the build never reaches the compiler (the
    library's [meson.build] does not put it in the configuration), so the default
    of [csp_types.h] is what is compiled. *)
Definition CSP_PACKET_PADDING_BYTES : Z := 8.
Definition CSP_BUFFER_SIZE : Z := 2048.
Definition CSP_BUFFER_COUNT : nat := Z.to_nat 1000.
Definition CSP_QFIFO_LEN : nat := Z.to_nat 1000.
Definition CSP_CONN_MAX : nat := 20.
Definition CSP_CONN_RXQUEUE_LEN : nat := Z.to_nat 1000.
Definition CSP_RDP_MAX_WINDOW : nat := Z.to_nat 1000.
Definition CSP_PORT_MAX_BIND : Z := 16.
Definition CSP_RTABLE_SIZE : Z := 10.
Definition CSP_NO_VIA_ADDRESS : Z := 65535.
Definition CSP_ANY : Z := 255.
Definition CSP_IFLIST_NAME_MAX : nat := 10.

(** ** Error codes *)

Definition CSP_ERR_NONE : Z := 0.
Definition CSP_ERR_NOMEM : Z := -1.
Definition CSP_ERR_INVAL : Z := -2.
Definition CSP_ERR_TIMEDOUT : Z := -3.
Definition CSP_ERR_USED : Z := -4.
Definition CSP_ERR_NOTSUP : Z := -5.
Definition CSP_ERR_ALREADY : Z := -7.
Definition CSP_ERR_RESET : Z := -8.
Definition CSP_ERR_NOBUFS : Z := -9.
Definition CSP_ERR_TX : Z := -10.
Definition CSP_ERR_DRIVER : Z := -11.
Definition CSP_ERR_AGAIN : Z := -12.
Definition CSP_ERR_HMAC : Z := -100.
Definition CSP_ERR_CRC32 : Z := -102.
Definition CSP_ERR_SFP : Z := -103.

Definition CSP_DBG_ERR_CORRUPT_BUFFER : Z := 1.
Definition CSP_DBG_ERR_ALREADY_FREE : Z := 3.
Definition CSP_DBG_ERR_REFCOUNT : Z := 4.
Definition CSP_DBG_ERR_INVALID_RTABLE_ENTRY : Z := 6.
Definition CSP_DBG_ERR_UNSUPPORTED : Z := 7.
Definition CSP_DBG_ERR_INVALID_BIND_PORT : Z := 8.
Definition CSP_DBG_ERR_PORT_ALREADY_IN_USE : Z := 9.
Definition CSP_DBG_ERR_ALREADY_CLOSED : Z := 10.
Definition CSP_DBG_ERR_INVALID_POINTER : Z := 11.

Definition CSP_DBG_CAN_ERR_FRAME_LOST : Z := 1.
Definition CSP_DBG_CAN_ERR_RX_OVF : Z := 2.
Definition CSP_DBG_CAN_ERR_SHORT_BEGIN : Z := 4.
Definition CSP_DBG_CAN_ERR_UNKNOWN : Z := 6.

(** Header flags and socket options. *)
Definition CSP_FFRAG : Z := 16.
Definition CSP_FHMAC : Z := 8.
Definition CSP_FRDP : Z := 2.
Definition CSP_FCRC32 : Z := 1.

Definition CSP_SO_RDPREQ : Z := 1.
Definition CSP_SO_HMACREQ : Z := 4.
Definition CSP_SO_CRC32REQ : Z := 64.
Definition CSP_SO_CRC32PROHIB : Z := 128.
Definition CSP_SO_CONN_LESS : Z := 256.
Definition CSP_SO_SAME : Z := 32768.

(** [if (x & mask)] *)
Definition has_flag (x mask : Z) : bool := bool_decide (Z.land x mask ≠ 0).

(** ** The CSP identifier *)

(** [csp_id_t] *)
Record csp_id_t := mk_id {
  pri : Z; flags : Z; src : Z; dst : Z; dport : Z; sport : Z;
}.

#[export] Instance csp_id_eq_dec : EqDecision csp_id_t.
Proof. solve_decision. Defined.

(** Every field holds a value of its C type. *)
Definition id_ok (i : csp_id_t) : Prop :=
  is_u8 (pri i) ∧ is_u8 (flags i) ∧ is_u16 (src i) ∧ is_u16 (dst i) ∧
  is_u8 (dport i) ∧ is_u8 (sport i).

(** [csp_id_copy]: assignment field by field. *)
Definition csp_id_copy (source : csp_id_t) : csp_id_t :=
  mk_id (pri source) (flags source) (src source) (dst source) (dport source) (sport source).

(** [csp_id_clear] *)
Definition csp_id_clear : csp_id_t := mk_id 0 0 0 0 0 0.

(** ** Packets *)

(** What the word shared by [frame_begin] (layer 2) and [conn] (layer 3) of the
    packet's union holds: an offset into the packet's own [header]/[data] bytes,
    a pointer into another buffer (left by the [memcpy] of [csp_buffer_clone]), a
    connection, or nothing meaningful. *)
Inductive uptr := UUninit | USelf (off : Z) | UOther (buf : nat) (off : Z) | UConn (conn : nat).

#[export] Instance uptr_eq_dec : EqDecision uptr.
Proof. solve_decision. Defined.

(** [csp_packet_t].  The union overlays [cfpid] with [timestamp_tx], [last_used]
    with [timestamp_rx], [frame_begin] with [conn], and [rdp_quarantine] with
    [rx_count] and [remain]; each overlaid word is one field here.  [pk_mem] is
    [header] followed by [data], which are adjacent in the structure. *)
Record csp_packet_t := mk_packet {
  rx_count : Z;
  remain : Z;
  cfpid : Z;
  last_used : Z;
  frame_begin : uptr;
  frame_length : Z;
  pk_length : Z;
  pk_id : csp_id_t;
  pk_next : option nat;
  pk_mem : list Z;
}.

Abbreviation timestamp_tx := cfpid (only parsing).
Abbreviation timestamp_rx := last_used (only parsing).

#[export] Instance csp_packet_eq_dec : EqDecision csp_packet_t.
Proof. solve_decision. Defined.

Definition set_rx_count v p := mk_packet v (remain p) (cfpid p) (last_used p) (frame_begin p)
  (frame_length p) (pk_length p) (pk_id p) (pk_next p) (pk_mem p).
Definition set_remain v p := mk_packet (rx_count p) v (cfpid p) (last_used p) (frame_begin p)
  (frame_length p) (pk_length p) (pk_id p) (pk_next p) (pk_mem p).
Definition set_cfpid v p := mk_packet (rx_count p) (remain p) v (last_used p) (frame_begin p)
  (frame_length p) (pk_length p) (pk_id p) (pk_next p) (pk_mem p).
Definition set_last_used v p := mk_packet (rx_count p) (remain p) (cfpid p) v (frame_begin p)
  (frame_length p) (pk_length p) (pk_id p) (pk_next p) (pk_mem p).
Definition set_frame_begin v p := mk_packet (rx_count p) (remain p) (cfpid p) (last_used p) v
  (frame_length p) (pk_length p) (pk_id p) (pk_next p) (pk_mem p).
Definition set_frame_length v p := mk_packet (rx_count p) (remain p) (cfpid p) (last_used p)
  (frame_begin p) v (pk_length p) (pk_id p) (pk_next p) (pk_mem p).
Definition set_pk_length v p := mk_packet (rx_count p) (remain p) (cfpid p) (last_used p)
  (frame_begin p) (frame_length p) v (pk_id p) (pk_next p) (pk_mem p).
Definition set_pk_id v p := mk_packet (rx_count p) (remain p) (cfpid p) (last_used p)
  (frame_begin p) (frame_length p) (pk_length p) v (pk_next p) (pk_mem p).
Definition set_pk_next v p := mk_packet (rx_count p) (remain p) (cfpid p) (last_used p)
  (frame_begin p) (frame_length p) (pk_length p) (pk_id p) v (pk_mem p).
Definition set_pk_mem v p := mk_packet (rx_count p) (remain p) (cfpid p) (last_used p)
  (frame_begin p) (frame_length p) (pk_length p) (pk_id p) (pk_next p) v.

(** Offset of [packet->data] in [pk_mem], and the size of [pk_mem]. *)
Definition DATA_OFF : Z := CSP_PACKET_PADDING_BYTES.
Definition MEM_SIZE : Z := CSP_PACKET_PADDING_BYTES + CSP_BUFFER_SIZE.

(** Evaluates the layout constants for [lia]. *)
Ltac sizes := unfold MEM_SIZE, DATA_OFF, CSP_PACKET_PADDING_BYTES, CSP_BUFFER_SIZE in *.

(** [packet->data[off .. off+len)] *)
Definition data_read (p : csp_packet_t) (off len : Z) : option (list Z) :=
  mem_read (pk_mem p) (DATA_OFF + off) len.
Definition data_write (p : csp_packet_t) (off : Z) (bs : list Z) : option csp_packet_t :=
  m ← mem_write (pk_mem p) (DATA_OFF + off) bs; Some (set_pk_mem m p).

(** [packet->frame_begin[off .. off+len)]: [None] unless the pointer points into
    the packet itself. *)
Definition frame_read (p : csp_packet_t) (off len : Z) : option (list Z) :=
  match frame_begin p with USelf b => mem_read (pk_mem p) (b + off) len | _ => None end.
Definition frame_write (p : csp_packet_t) (off : Z) (bs : list Z) : option csp_packet_t :=
  match frame_begin p with
  | USelf b => m ← mem_write (pk_mem p) (b + off) bs; Some (set_pk_mem m p)
  | _ => None
  end.

(** The fields of a packet hold values of their C types and the byte array has
    its size. *)
Record packet_ok (p : csp_packet_t) : Prop := {
  po_rx_count : is_u16 (rx_count p);
  po_remain : is_u16 (remain p);
  po_frame_length : is_u16 (frame_length p);
  po_length : is_u16 (pk_length p);
  po_id : id_ok (pk_id p);
  po_mem : Z.of_nat (List.length (pk_mem p)) = MEM_SIZE;
  po_bytes : bytes_ok (pk_mem p);
}.

(** The payload of a packet: [packet->data[0 .. packet->length)]. *)
Definition payload (p : csp_packet_t) : option (list Z) := data_read p 0 (pk_length p).

(** ** Debug counters *)

Record csp_dbg := mk_dbg {
  dbg_buffer_out : Z; dbg_conn_out : Z; dbg_conn_ovf : Z; dbg_inval_reply : Z;
  dbg_errno : Z; dbg_can_errno : Z;
}.
Definition dbg_zero : csp_dbg := mk_dbg 0 0 0 0 0 0.
Definition set_errno v d := mk_dbg (dbg_buffer_out d) (dbg_conn_out d) (dbg_conn_ovf d)
  (dbg_inval_reply d) v (dbg_can_errno d).
Definition set_can_errno v d := mk_dbg (dbg_buffer_out d) (dbg_conn_out d) (dbg_conn_ovf d)
  (dbg_inval_reply d) (dbg_errno d) v.
Definition inc_buffer_out d := mk_dbg (u8 (dbg_buffer_out d + 1)) (dbg_conn_out d) (dbg_conn_ovf d)
  (dbg_inval_reply d) (dbg_errno d) (dbg_can_errno d).
Definition inc_conn_out d := mk_dbg (dbg_buffer_out d) (u8 (dbg_conn_out d + 1)) (dbg_conn_ovf d)
  (dbg_inval_reply d) (dbg_errno d) (dbg_can_errno d).
Definition inc_conn_ovf d := mk_dbg (dbg_buffer_out d) (dbg_conn_out d) (u8 (dbg_conn_ovf d + 1))
  (dbg_inval_reply d) (dbg_errno d) (dbg_can_errno d).
Definition inc_inval_reply d := mk_dbg (dbg_buffer_out d) (dbg_conn_out d) (dbg_conn_ovf d)
  (u8 (dbg_inval_reply d + 1)) (dbg_errno d) (dbg_can_errno d).

(** ** Interfaces *)

(** [iface->nexthop]: the transmit functions of the interfaces in the tree. *)
Inductive nexthop_t := NexthopKiss | NexthopCan1 | NexthopCan2 | NexthopLo | NexthopNone.

(** [struct csp_iface_s]; [if_data] is the index of the interface's private data. *)
Record csp_iface_t := mk_iface {
  if_addr : Z;
  if_netmask : Z;
  if_name : string;
  if_nexthop : nexthop_t;
  if_is_default : Z;
  if_tx : Z; if_rx : Z; if_tx_error : Z; if_rx_error : Z; if_drop : Z;
  if_autherr : Z; if_frame : Z; if_txbytes : Z; if_rxbytes : Z; if_irq : Z;
  if_next : option nat;
}.

(** The statistics counters, for uniform increments. *)
Inductive if_stat := StTx | StRx | StTxError | StRxError | StDrop | StAutherr | StFrame
  | StTxbytes | StRxbytes.

Definition if_add (st : if_stat) (n : Z) (i : csp_iface_t) : csp_iface_t :=
  let add (x : if_stat) (v : Z) :=
    match st, x with
    | StTx, StTx | StRx, StRx | StTxError, StTxError | StRxError, StRxError | StDrop, StDrop
    | StAutherr, StAutherr | StFrame, StFrame | StTxbytes, StTxbytes | StRxbytes, StRxbytes =>
        u32 (v + n)
    | _, _ => v
    end in
  mk_iface (if_addr i) (if_netmask i) (if_name i) (if_nexthop i) (if_is_default i)
    (add StTx (if_tx i)) (add StRx (if_rx i)) (add StTxError (if_tx_error i))
    (add StRxError (if_rx_error i)) (add StDrop (if_drop i)) (add StAutherr (if_autherr i))
    (add StFrame (if_frame i)) (add StTxbytes (if_txbytes i)) (add StRxbytes (if_rxbytes i))
    (if_irq i) (if_next i).

Definition set_if_next (n : option nat) (i : csp_iface_t) : csp_iface_t :=
  mk_iface (if_addr i) (if_netmask i) (if_name i) (if_nexthop i) (if_is_default i)
    (if_tx i) (if_rx i) (if_tx_error i) (if_rx_error i) (if_drop i) (if_autherr i) (if_frame i)
    (if_txbytes i) (if_rxbytes i) (if_irq i) n.

Definition set_if_default (v : Z) (i : csp_iface_t) : csp_iface_t :=
  mk_iface (if_addr i) (if_netmask i) (if_name i) (if_nexthop i) v
    (if_tx i) (if_rx i) (if_tx_error i) (if_rx_error i) (if_drop i) (if_autherr i) (if_frame i)
    (if_txbytes i) (if_rxbytes i) (if_irq i) (if_next i).

Definition new_iface (addr netmask : Z) (name : string) (nh : nexthop_t) (dfl : Z) : csp_iface_t :=
  mk_iface addr netmask name nh dfl 0 0 0 0 0 0 0 0 0 0 None.

Lemma if_add_addr st n i : if_addr (if_add st n i) = if_addr i.
Proof. done. Qed.

(** ** Lemmas on packet memory *)

Section PacketMem.
Implicit Types (p : csp_packet_t).

Lemma data_write_Some p off bs p' :
  data_write p off bs = Some p' ↔
  ∃ m, mem_write (pk_mem p) (DATA_OFF + off) bs = Some m ∧ p' = set_pk_mem m p.
Proof.
  unfold data_write. destruct (mem_write _ _ _) as [m|]; simpl; [|split; [done|by intros (? & ? & ?)]].
  split; [intros [= <-]; eauto|by intros (? & [= <-] & ->)].
Qed.

Lemma data_write_is_Some p off bs :
  packet_ok p → 0 ≤ off → off + Z.of_nat (List.length bs) ≤ CSP_BUFFER_SIZE →
  is_Some (data_write p off bs).
Proof.
  intros [] Hoff Hlen. unfold data_write.
  destruct (mem_write_is_Some (pk_mem p) (DATA_OFF + off) bs) as (m & -> & _);
    sizes; simpl; [lia|lia|eauto].
Qed.

Lemma set_pk_mem_ok p m :
  packet_ok p → List.length m = List.length (pk_mem p) → bytes_ok m → packet_ok (set_pk_mem m p).
Proof. intros [] Hl Hb. split; simpl; try done. by rewrite Hl. Qed.

Lemma data_write_ok p off bs p' :
  packet_ok p → bytes_ok bs → data_write p off bs = Some p' → packet_ok p'.
Proof.
  intros Hp Hbs (m & Hm & ->)%data_write_Some. apply set_pk_mem_ok; [done| |].
  - by eapply mem_write_length.
  - eapply mem_write_bytes_ok; [|done|done]. apply Hp.
Qed.

Lemma data_read_bytes_ok p off len bs : packet_ok p → data_read p off len = Some bs → bytes_ok bs.
Proof. intros Hp. apply mem_read_bytes_ok, Hp. Qed.

Lemma data_read_is_Some p off len :
  packet_ok p → 0 ≤ off → 0 ≤ len → off + len ≤ CSP_BUFFER_SIZE → is_Some (data_read p off len).
Proof.
  intros [] H1 H2 H3. apply mem_read_is_Some; sizes; lia.
Qed.
End PacketMem.
