(* ===== verification/Id.v ===== *)
(** * Packet identifiers on the wire

    [lib/csp/src/csp_id.c]: packing the CSP identifier in front of the payload and
    parsing it back, for header versions 1 (32 bit) and 2 (48 bit), and the
    address helpers. *)

From S2P Require Import Prelude Types.

(** ** Version 1 *)

Definition CSP_ID1_HEADER_SIZE : Z := 4.
Definition CSP_ID1_HOST_SIZE : Z := 5.
Definition CSP_ID1_PORT_SIZE : Z := 6.

(** The 32-bit word [id1] of [csp_id1_prepend]. *)
Definition id1_pack (i : csp_id_t) : Z :=
  u32 (Z.lor (Z.lor (Z.lor (Z.lor (Z.lor (Z.shiftl (pri i) 30) (Z.shiftl (dst i) 20))
    (Z.shiftl (src i) 25)) (Z.shiftl (dport i) 14)) (Z.shiftl (sport i) 8))
    (Z.shiftl (flags i) 0)).

(** The field extraction of [csp_id1_strip]. *)
Definition id1_unpack (id1 : Z) : csp_id_t :=
  mk_id (Z.land (Z.shiftr id1 30) 0x3) (Z.land (Z.shiftr id1 0) 0xFF)
    (Z.land (Z.shiftr id1 25) 0x1F) (Z.land (Z.shiftr id1 20) 0x1F)
    (Z.land (Z.shiftr id1 14) 0x3F) (Z.land (Z.shiftr id1 8) 0x3F).

Definition csp_id1_prepend (p : csp_packet_t) : option csp_packet_t :=
  let hdr := be_bytes 4 (id1_pack (pk_id p)) in
  let p := set_frame_begin (USelf (DATA_OFF - CSP_ID1_HEADER_SIZE)) p in
  let p := set_frame_length (u16 (pk_length p + CSP_ID1_HEADER_SIZE)) p in
  frame_write p 0 hdr.

Definition csp_id1_strip (p : csp_packet_t) : option (Z * csp_packet_t) :=
  if bool_decide (frame_length p < CSP_ID1_HEADER_SIZE) then Some (-1, p) else
  hdr ← frame_read p 0 CSP_ID1_HEADER_SIZE;
  let p := set_pk_length (u16 (frame_length p - CSP_ID1_HEADER_SIZE)) p in
  Some (0, set_pk_id (id1_unpack (be_val hdr)) p).

Definition csp_id1_setup_rx (p : csp_packet_t) : csp_packet_t :=
  set_frame_length 0 (set_frame_begin (USelf (DATA_OFF - CSP_ID1_HEADER_SIZE)) p).

(** ** Version 2 *)

Definition CSP_ID2_HEADER_SIZE : Z := 6.
Definition CSP_ID2_HOST_SIZE : Z := 14.
Definition CSP_ID2_PORT_SIZE : Z := 6.

(** The 64-bit word [id2] of [csp_id2_prepend], before the shift by 16. *)
Definition id2_pack (i : csp_id_t) : Z :=
  Z.lor (Z.lor (Z.lor (Z.lor (Z.lor (Z.shiftl (pri i) 46) (Z.shiftl (dst i) 32))
    (Z.shiftl (src i) 18)) (Z.shiftl (dport i) 12)) (Z.shiftl (sport i) 6))
    (Z.shiftl (flags i) 0).

Definition id2_unpack (id2 : Z) : csp_id_t :=
  mk_id (Z.land (Z.shiftr id2 46) 0x3) (Z.land (Z.shiftr id2 0) 0x3F)
    (Z.land (Z.shiftr id2 18) 0x3FFF) (Z.land (Z.shiftr id2 32) 0x3FFF)
    (Z.land (Z.shiftr id2 12) 0x3F) (Z.land (Z.shiftr id2 6) 0x3F).

(** The six header bytes: the most significant end of the shifted 64-bit word. *)
Definition id2_header (i : csp_id_t) : list Z :=
  take 6 (be_bytes 8 (u64 (Z.shiftl (u64 (id2_pack i)) 16))).

Definition csp_id2_prepend (p : csp_packet_t) : option csp_packet_t :=
  let hdr := id2_header (pk_id p) in
  let p := set_frame_begin (USelf (DATA_OFF - CSP_ID2_HEADER_SIZE)) p in
  let p := set_frame_length (u16 (pk_length p + CSP_ID2_HEADER_SIZE)) p in
  frame_write p 0 hdr.

(** [memcpy(&id2, frame_begin, 6)] leaves the two last bytes of [id2] zero. *)
Definition id2_word (hdr : list Z) : Z := Z.shiftr (be_val (hdr ++ [0; 0])) 16.

Definition csp_id2_strip (p : csp_packet_t) : option (Z * csp_packet_t) :=
  if bool_decide (frame_length p < CSP_ID2_HEADER_SIZE) then Some (-1, p) else
  hdr ← frame_read p 0 CSP_ID2_HEADER_SIZE;
  let p := set_pk_length (u16 (frame_length p - CSP_ID2_HEADER_SIZE)) p in
  Some (0, set_pk_id (id2_unpack (id2_word hdr)) p).

Definition csp_id2_setup_rx (p : csp_packet_t) : csp_packet_t :=
  set_frame_length 0 (set_frame_begin (USelf (DATA_OFF - CSP_ID2_HEADER_SIZE)) p).

(** ** Run-time dispatch on [csp_conf.version] *)

Definition csp_id_prepend (version : Z) (p : csp_packet_t) : option csp_packet_t :=
  if bool_decide (version = 2) then csp_id2_prepend p else csp_id1_prepend p.

Definition csp_id_strip (version : Z) (p : csp_packet_t) : option (Z * csp_packet_t) :=
  let p := set_last_used 0 p in (* packet->timestamp_rx = 0 *)
  if bool_decide (version = 2) then csp_id2_strip p else csp_id1_strip p.

Definition csp_id_setup_rx (version : Z) (p : csp_packet_t) : Z * csp_packet_t :=
  if bool_decide (version = 2) then (CSP_ID2_HEADER_SIZE, csp_id2_setup_rx p)
  else (CSP_ID1_HEADER_SIZE, csp_id1_setup_rx p).

Definition csp_id_get_host_bits (version : Z) : Z :=
  if bool_decide (version = 2) then CSP_ID2_HOST_SIZE else CSP_ID1_HOST_SIZE.

Definition csp_id_get_max_nodeid (version : Z) : Z :=
  if bool_decide (version = 2) then Z.shiftl 1 CSP_ID2_HOST_SIZE - 1
  else Z.shiftl 1 CSP_ID1_HOST_SIZE - 1.

Definition csp_id_get_max_port (version : Z) : Z :=
  if bool_decide (version = 2) then Z.shiftl 1 CSP_ID2_PORT_SIZE - 1
  else Z.shiftl 1 CSP_ID1_PORT_SIZE - 1.

(** [1 << n] for an [int]: undefined unless [0 <= n < 31]. *)
Definition shl1 (n : Z) : option Z :=
  if bool_decide (0 ≤ n < 31) then Some (Z.shiftl 1 n) else None.

(** [csp_id_is_broadcast]; the shift count is computed in [unsigned int]. *)
Definition csp_id_is_broadcast (version addr : Z) (iface : csp_iface_t) : option bool :=
  s ← shl1 (u32 (csp_id_get_host_bits version - if_netmask iface));
  let hostmask := u16 (s - 1) in
  let netmask := u16 (Z.shiftl 1 (csp_id_get_host_bits version) - 1 - hostmask) in
  if bool_decide (Z.land addr hostmask = hostmask ∧
                  Z.land addr netmask = Z.land (if_addr iface) netmask)
  then Some true
  else Some (bool_decide (addr = csp_id_get_max_nodeid version)).

(** ** Packing and unpacking are inverse *)

(** The identifier fits the fields of the header. *)
Definition id1_fits (i : csp_id_t) : Prop :=
  0 ≤ pri i < 4 ∧ 0 ≤ flags i < 256 ∧ 0 ≤ src i < 32 ∧ 0 ≤ dst i < 32 ∧
  0 ≤ dport i < 64 ∧ 0 ≤ sport i < 64.
Definition id2_fits (i : csp_id_t) : Prop :=
  0 ≤ pri i < 4 ∧ 0 ≤ flags i < 64 ∧ 0 ≤ src i < 16384 ∧ 0 ≤ dst i < 16384 ∧
  0 ≤ dport i < 64 ∧ 0 ≤ sport i < 64.

#[export] Instance id2_fits_dec i : Decision (id2_fits i).
Proof. unfold id2_fits; apply _. Defined.
#[export] Instance id1_fits_dec i : Decision (id1_fits i).
Proof. unfold id1_fits; apply _. Defined.

Ltac fields :=
  repeat (rewrite shiftl_mul by lia); repeat (rewrite shiftr_div by lia);
  repeat match goal with |- context [2 ^ ?n] =>
    let v := eval vm_compute in (2 ^ n) in change (2 ^ n) with v end.

(** One step of a packing chain: a field below everything packed so far. *)
Ltac pack_step n a b :=
  rewrite (lor_add n a b) by
    (first [lia | (let v := eval vm_compute in (2 ^ n) in change (2 ^ n) with v);
                  Z.to_euclidean_division_equations; lia]).

Lemma id2_pack_sum i :
  id2_fits i → id2_pack i = pri i * 70368744177664 + dst i * 4294967296 + src i * 262144
                            + dport i * 4096 + sport i * 64 + flags i.
Proof.
  unfold id2_fits, id2_pack. intros Hf. fields. rewrite Z.mul_1_r.
  repeat match goal with
  | |- context [Z.lor ?a (dst i * ?m)] => pack_step 46 a (dst i * m)
  | |- context [Z.lor ?a (src i * ?m)] => pack_step 32 a (src i * m)
  | |- context [Z.lor ?a (dport i * ?m)] => pack_step 18 a (dport i * m)
  | |- context [Z.lor ?a (sport i * ?m)] => pack_step 12 a (sport i * m)
  | |- context [Z.lor ?a (flags i)] => pack_step 6 a (flags i)
  end. done.
Qed.

Lemma id2_unpack_sum i :
  id2_fits i → id2_unpack (pri i * 70368744177664 + dst i * 4294967296 + src i * 262144
                            + dport i * 4096 + sport i * 64 + flags i) = i.
Proof.
  intros Hf. unfold id2_unpack.
  change 0x3 with (2 ^ 2 - 1). change 0x3FFF with (2 ^ 14 - 1). change 0x3F with (2 ^ 6 - 1).
  rewrite !land_mask by lia. fields.
  destruct i; unfold id2_fits in Hf; simpl in *.
  f_equal; Z.to_euclidean_division_equations; lia.
Qed.

Lemma id1_pack_sum i :
  id1_fits i → id1_pack i = pri i * 1073741824 + src i * 33554432 + dst i * 1048576
                            + dport i * 16384 + sport i * 256 + flags i.
Proof.
  unfold id1_fits, id1_pack. intros Hf. fields. rewrite Z.mul_1_r.
  rewrite <- (Z.lor_assoc (pri i * _) (dst i * _)), (Z.lor_comm (dst i * _)), Z.lor_assoc.
  repeat match goal with
  | |- context [Z.lor ?a (src i * ?m)] => pack_step 30 a (src i * m)
  | |- context [Z.lor ?a (dst i * ?m)] => pack_step 25 a (dst i * m)
  | |- context [Z.lor ?a (dport i * ?m)] => pack_step 20 a (dport i * m)
  | |- context [Z.lor ?a (sport i * ?m)] => pack_step 14 a (sport i * m)
  | |- context [Z.lor ?a (flags i)] => pack_step 8 a (flags i)
  end. mlia.
Qed.

Lemma id1_unpack_sum i :
  id1_fits i → id1_unpack (pri i * 1073741824 + src i * 33554432 + dst i * 1048576
                            + dport i * 16384 + sport i * 256 + flags i) = i.
Proof.
  intros Hf. unfold id1_unpack.
  change 0x3 with (2 ^ 2 - 1). change 0x1F with (2 ^ 5 - 1). change 0x3F with (2 ^ 6 - 1).
  change 0xFF with (2 ^ 8 - 1).
  rewrite !land_mask by lia. fields.
  destruct i; unfold id1_fits in Hf; simpl in *.
  f_equal; Z.to_euclidean_division_equations; lia.
Qed.

(** Parsing yields fields of the header's widths, whatever the bytes are. *)
Lemma id2_unpack_fits z : id2_fits (id2_unpack z).
Proof.
  unfold id2_fits, id2_unpack; simpl.
  change 0x3 with (2 ^ 2 - 1). change 0x3FFF with (2 ^ 14 - 1). change 0x3F with (2 ^ 6 - 1).
  rewrite !land_mask by lia. repeat split; apply Z.mod_pos_bound; lia.
Qed.

Lemma id1_unpack_fits z : id1_fits (id1_unpack z).
Proof.
  unfold id1_fits, id1_unpack; simpl.
  change 0x3 with (2 ^ 2 - 1). change 0x1F with (2 ^ 5 - 1). change 0x3F with (2 ^ 6 - 1).
  change 0xFF with (2 ^ 8 - 1).
  rewrite !land_mask by lia. repeat split; apply Z.mod_pos_bound; lia.
Qed.

Lemma id2_pack_unpack z : 0 ≤ z < 281474976710656 → id2_pack (id2_unpack z) = z.
Proof.
  intros Hz. rewrite id2_pack_sum by apply id2_unpack_fits. unfold id2_unpack; simpl.
  change 0x3 with (2 ^ 2 - 1). change 0x3FFF with (2 ^ 14 - 1). change 0x3F with (2 ^ 6 - 1).
  rewrite !land_mask by lia. fields. Z.to_euclidean_division_equations; lia.
Qed.

Lemma id2_pack_range i : id2_fits i → 0 ≤ id2_pack i < 281474976710656.
Proof. intros Hf. rewrite id2_pack_sum by done. unfold id2_fits in Hf. lia. Qed.

(** The header is the 48-bit word in network order. *)
Lemma id2_header_be i : id2_fits i → id2_header i = be_bytes 6 (id2_pack i).
Proof.
  intros Hf%id2_pack_range. unfold id2_header. generalize dependent (id2_pack i). intros z Hz.
  unfold be_bytes. cbn [take]. machine.
  rewrite (Z.mod_small z) by lia. fields.
  repeat (f_equal; [Z.to_euclidean_division_equations; lia|]).
  f_equal. Z.to_euclidean_division_equations; lia.
Qed.

(** ** The two versions behind one interface *)

Definition id_header_size (version : Z) : Z :=
  if bool_decide (version = 2) then CSP_ID2_HEADER_SIZE else CSP_ID1_HEADER_SIZE.
Definition id_header (version : Z) (i : csp_id_t) : list Z :=
  if bool_decide (version = 2) then id2_header i else be_bytes 4 (id1_pack i).
Definition id_fits (version : Z) (i : csp_id_t) : Prop :=
  if bool_decide (version = 2) then id2_fits i else id1_fits i.
Definition id_parse (version : Z) (hdr : list Z) : csp_id_t :=
  if bool_decide (version = 2) then id2_unpack (id2_word hdr) else id1_unpack (be_val hdr).

Section IdLemmas.
Implicit Types (v : Z) (p r : csp_packet_t) (i : csp_id_t).

Lemma length_id_header v i : Z.of_nat (List.length (id_header v i)) = id_header_size v.
Proof. unfold id_header, id_header_size, id2_header. by case_bool_decide. Qed.

Lemma id_header_ok v i : bytes_ok (id_header v i).
Proof.
  unfold id_header, id2_header. case_bool_decide; [apply Forall_take|]; apply be_bytes_ok.
Qed.

Lemma id_header_size_range v : 4 ≤ id_header_size v ≤ 6.
Proof. unfold id_header_size, CSP_ID2_HEADER_SIZE, CSP_ID1_HEADER_SIZE. case_bool_decide; lia. Qed.

Lemma id2_word_be hdr : List.length hdr = 6%nat → id2_word hdr = be_val hdr.
Proof.
  intros Hl. unfold id2_word. rewrite shiftr_div by lia.
  change [0; 0] with ([0] ++ [0]). rewrite app_assoc, !be_val_snoc. fields.
  Z.to_euclidean_division_equations; lia.
Qed.

(** Parsing the packed header gives the identifier back. *)
Lemma id_parse_header v i : id_fits v i → id_parse v (id_header v i) = i.
Proof.
  unfold id_fits, id_parse, id_header. case_bool_decide; intros Hf.
  - rewrite id2_header_be, id2_word_be, be_val_be_bytes by done.
    change (256 ^ Z.of_nat 6) with 281474976710656.
    rewrite Z.mod_small by (by apply id2_pack_range).
    rewrite id2_pack_sum by done. by apply id2_unpack_sum.
  - rewrite be_val_be_bytes. change (256 ^ Z.of_nat 4) with 4294967296.
    rewrite id1_pack_sum, Z.mod_small by (unfold id1_fits in Hf; first [done | lia]).
    by apply id1_unpack_sum.
Qed.

Lemma id_parse_fits v hdr : id_fits v (id_parse v hdr).
Proof. unfold id_fits, id_parse. case_bool_decide; auto using id2_unpack_fits, id1_unpack_fits. Qed.

Lemma id_fits_ok v i : id_fits v i → id_ok i.
Proof.
  unfold id_fits, id_ok, is_u8, is_u16, id2_fits, id1_fits. case_bool_decide; lia.
Qed.

(** A frame pointer set up by [csp_id_prepend] or [csp_id_setup_rx]. *)
Definition frame_at v p : Prop := frame_begin p = USelf (DATA_OFF - id_header_size v).

(** The frame is the header followed by the data. *)
Lemma frame_read_data v p off len :
  frame_at v p → frame_read p (id_header_size v + off) len = data_read p off len.
Proof. intros Hf. unfold frame_read, data_read. rewrite Hf. f_equal. lia. Qed.

Lemma frame_read_app_inv v p hdr bs len :
  frame_at v p → Z.of_nat (List.length hdr) = id_header_size v → 0 ≤ len →
  frame_read p 0 (id_header_size v + len) = Some (hdr ++ bs) →
  frame_read p 0 (id_header_size v) = Some hdr ∧ data_read p 0 len = Some bs.
Proof.
  intros Hf Hh Hl. unfold frame_read, data_read. rewrite Hf. intros H.
  apply mem_read_app_inv in H as [H1 H2]; [|done..]. split; [done|].
  rewrite <- H2. f_equal. lia.
Qed.

Lemma frame_read_app v p hdr bs len :
  frame_at v p → frame_read p 0 (id_header_size v) = Some hdr → data_read p 0 len = Some bs →
  frame_read p 0 (id_header_size v + len) = Some (hdr ++ bs).
Proof.
  intros Hf. unfold frame_read, data_read. rewrite Hf. intros H1 H2.
  eapply mem_read_app; [done|]. rewrite <- H2. f_equal. lia.
Qed.

Lemma csp_id_prepend_unfold v p :
  csp_id_prepend v p =
  frame_write (set_frame_length (u16 (pk_length p + id_header_size v))
    (set_frame_begin (USelf (DATA_OFF - id_header_size v)) p)) 0 (id_header v (pk_id p)).
Proof.
  unfold csp_id_prepend, csp_id2_prepend, csp_id1_prepend, id_header_size, id_header.
  by case_bool_decide.
Qed.

Lemma csp_id_strip_unfold v p :
  csp_id_strip v p =
  if bool_decide (frame_length p < id_header_size v) then Some (-1, set_last_used 0 p)
  else hdr ← frame_read p 0 (id_header_size v);
       Some (0, set_pk_id (id_parse v hdr)
                  (set_pk_length (u16 (frame_length p - id_header_size v)) (set_last_used 0 p))).
Proof.
  unfold csp_id_strip, csp_id2_strip, csp_id1_strip, id_header_size, id_parse.
  by case_bool_decide.
Qed.

Lemma csp_id_setup_rx_unfold v p :
  csp_id_setup_rx v p =
  (id_header_size v, set_frame_length 0 (set_frame_begin (USelf (DATA_OFF - id_header_size v)) p)).
Proof.
  unfold csp_id_setup_rx, csp_id2_setup_rx, csp_id1_setup_rx, id_header_size. by case_bool_decide.
Qed.

(** [csp_id_prepend] is total, writes only the header, and sets the frame. *)
Lemma csp_id_prepend_spec v p :
  packet_ok p →
  ∃ p', csp_id_prepend v p = Some p' ∧ packet_ok p' ∧ frame_at v p' ∧
    frame_length p' = u16 (pk_length p + id_header_size v) ∧
    pk_length p' = pk_length p ∧ pk_id p' = pk_id p ∧ pk_next p' = pk_next p ∧
    rx_count p' = rx_count p ∧ remain p' = remain p ∧ cfpid p' = cfpid p ∧
    last_used p' = last_used p ∧
    frame_read p' 0 (id_header_size v) = Some (id_header v (pk_id p)) ∧
    (∀ off len, 0 ≤ off → data_read p' off len = data_read p off len).
Proof.
  intros Hp. rewrite csp_id_prepend_unfold.
  pose proof (id_header_size_range v) as Hs. pose proof (length_id_header v (pk_id p)) as Hl.
  destruct (mem_write_is_Some (pk_mem p) (DATA_OFF - id_header_size v + 0) (id_header v (pk_id p)))
    as (m & Hm & Hlm).
  { sizes. lia. }
  { rewrite Hl, (po_mem _ Hp). sizes. lia. }
  unfold frame_write; simpl. rewrite Hm; simpl. eexists; split; [done|].
  assert (bytes_ok m)
    by exact (mem_write_bytes_ok _ _ _ _ (po_bytes _ Hp) (id_header_ok v (pk_id p)) Hm).
  split_and!; simpl; try done.
  - destruct Hp. split; simpl; auto using u16_range. by rewrite Hlm.
  - unfold frame_read; simpl. pose proof (mem_read_write_eq _ _ _ _ Hm) as Hr. by rewrite Hl in Hr.
  - intros off len Hoff. unfold data_read; simpl. eapply mem_read_write_ne; [done|]. lia.
Qed.

(** [csp_id_strip] on a frame of at least a header. *)
Lemma csp_id_strip_spec v r :
  packet_ok r → frame_at v r → id_header_size v ≤ frame_length r →
  ∃ hdr, frame_read r 0 (id_header_size v) = Some hdr ∧
    csp_id_strip v r = Some (0, set_pk_id (id_parse v hdr)
                  (set_pk_length (frame_length r - id_header_size v) (set_last_used 0 r))).
Proof.
  intros Hr Hf Hlen. rewrite csp_id_strip_unfold, bool_decide_false by lia.
  pose proof (id_header_size_range v) as Hs.
  destruct (mem_read_is_Some (pk_mem r) (DATA_OFF - id_header_size v + 0) (id_header_size v))
    as [hdr Hh].
  { sizes. lia. }
  { lia. }
  { rewrite (po_mem _ Hr). sizes. lia. }
  assert (frame_read r 0 (id_header_size v) = Some hdr) as Hfr.
  { unfold frame_read. by rewrite Hf. }
  rewrite Hfr; simpl. eexists; split; [done|]. do 4 f_equal. apply u16_id.
  pose proof (po_frame_length _ Hr). mlia.
Qed.

Lemma csp_id_strip_ok v r c r' :
  packet_ok r → csp_id_strip v r = Some (c, r') → packet_ok r'.
Proof.
  intros Hr. rewrite csp_id_strip_unfold. case_bool_decide.
  - intros [= <- <-]. destruct Hr; split; simpl; auto.
  - destruct (frame_read r 0 _) as [hdr|]; simpl; [|done]. intros [= <- <-].
    destruct Hr; split; simpl; try assumption; try apply u16_range.
    eapply id_fits_ok, id_parse_fits.
Qed.

(** Appending bytes to the frame of a packet. *)
Lemma frame_append v p n acc data :
  packet_ok p → frame_at v p → frame_read p 0 n = Some acc → bytes_ok data →
  n + Z.of_nat (List.length data) ≤ CSP_BUFFER_SIZE + id_header_size v →
  ∃ m, frame_write p n data = Some (set_pk_mem m p) ∧ packet_ok (set_pk_mem m p) ∧
    frame_read (set_pk_mem m p) 0 (n + Z.of_nat (List.length data)) = Some (acc ++ data).
Proof.
  intros Hp Hf Hr Hd Hn. unfold frame_read, frame_write in *. rewrite Hf in *. simpl.
  pose proof (id_header_size_range v) as Hs. pose proof Hr as (_ & Hn0 & _)%mem_read_Some.
  destruct (mem_write_is_Some (pk_mem p) (DATA_OFF - id_header_size v + n) data) as (m & Hm & Hl).
  { sizes. lia. }
  { rewrite (po_mem _ Hp). sizes. lia. }
  exists m. rewrite Hm. split; [done|]. split.
  - apply set_pk_mem_ok; [done|done|]. eapply mem_write_bytes_ok; [apply Hp|done|done].
  - rewrite Hf. eapply mem_read_app.
    + rewrite (mem_read_write_ne _ _ _ _ _ _ Hm) by lia. done.
    + replace (DATA_OFF - id_header_size v + 0 + n) with (DATA_OFF - id_header_size v + n) by lia.
      apply (mem_read_write_eq _ _ _ _ Hm).
Qed.

(** The frame area can be read up to the end of the buffer. *)
Lemma frame_read_is_Some v p n :
  packet_ok p → frame_at v p → 0 ≤ n ≤ CSP_BUFFER_SIZE + id_header_size v → is_Some (frame_read p 0 n).
Proof.
  intros Hp Hf Hn. unfold frame_read. rewrite Hf. pose proof (id_header_size_range v).
  apply mem_read_is_Some; [sizes; lia|lia|]. rewrite (po_mem _ Hp). sizes. lia.
Qed.
End IdLemmas.

#[global] Arguments id_parse : simpl never.
#[global] Arguments id_header : simpl never.

(** An identifier survives the wire.  A packet whose identifier fits the
    header of the configured version can always be given its header, and any
    receive buffer holding the resulting frame is parsed to the same identifier,
    length and payload (for both header versions). *)
Theorem csp_id_prepend_strip (v : Z) (p : csp_packet_t) :
  packet_ok p → id_fits v (pk_id p) → pk_length p ≤ CSP_BUFFER_SIZE →
  ∃ p' frame, csp_id_prepend v p = Some p' ∧
    frame_read p' 0 (frame_length p') = Some frame ∧ payload p' = payload p ∧
    ∀ r, packet_ok r → frame_at v r → frame_length r = frame_length p' →
         frame_read r 0 (frame_length r) = Some frame →
         ∃ r', csp_id_strip v r = Some (0, r') ∧ pk_id r' = pk_id p ∧
               pk_length r' = pk_length p ∧ payload r' = payload p.
Proof.
  intros Hp Hfit Hlen.
  destruct (csp_id_prepend_spec v p Hp)
    as (p' & Hpre & Hp' & Hf' & Hfl & Hl & Hid & _ & _ & _ & _ & _ & Hhdr & Hdat).
  pose proof (id_header_size_range v) as Hs. pose proof (po_length _ Hp) as Hlp.
  destruct (data_read_is_Some p 0 (pk_length p)) as [pay Hpay]; [done|lia|mlia|lia|].
  assert (frame_length p' = id_header_size v + pk_length p) as Hfl'.
  { rewrite Hfl. unfold CSP_BUFFER_SIZE in *. mlia. }
  exists p', (id_header v (pk_id p) ++ pay). split; [done|].
  split_and!.
  - rewrite Hfl'. apply frame_read_app; auto. by rewrite Hdat by lia.
  - unfold payload. by rewrite Hl, Hdat by lia.
  - intros r Hr Hfr Hrl Hread. rewrite Hrl, Hfl' in Hread.
    destruct (csp_id_strip_spec v r Hr Hfr) as (hdr & Hh & Hst); [mlia|].
    destruct (frame_read_app_inv v r (id_header v (pk_id p)) pay (pk_length p)) as [H1 H2];
      [done|apply length_id_header|mlia|done|].
    rewrite H1 in Hh. injection Hh as <-.
    eexists; split; [exact Hst|]; simpl. rewrite id_parse_header by done.
    split_and!; [done|lia|]. unfold payload; simpl.
    replace (frame_length r - id_header_size v) with (pk_length p) by lia.
    transitivity (Some pay); done.
Qed.

Definition id_example : csp_packet_t :=
  mk_packet 0 0 0 0 UUninit 0 5 (mk_id 2 1 21 9000 33 7) None
    (replicate 8 0 ++ [104; 101; 108; 108; 111] ++ replicate (Z.to_nat 2043) 0).

Lemma id_example_ok : packet_ok id_example.
Proof. by split; try (vm_compute; intuition congruence); apply (bool_decide_unpack _); vm_compute. Qed.

Lemma csp_id_prepend_strip_witness :
  ∃ p' frame, csp_id_prepend 2 id_example = Some p' ∧
    frame_read p' 0 (frame_length p') = Some frame ∧ payload p' = payload id_example ∧
    ∀ r, packet_ok r → frame_at 2 r → frame_length r = frame_length p' →
         frame_read r 0 (frame_length r) = Some frame →
         ∃ r', csp_id_strip 2 r = Some (0, r') ∧ pk_id r' = pk_id id_example ∧
               pk_length r' = pk_length id_example ∧ payload r' = payload id_example.
Proof.
  apply (csp_id_prepend_strip 2 id_example).
  - apply id_example_ok.
  - vm_compute. intuition congruence.
  - vm_compute. congruence.
Defined.

(** ** Broadcast addresses *)

(** Network and host part of an address under an interface with [h] host bits. *)
Definition net_part (h a : Z) : Z := a / 2 ^ h.
Definition host_part (h a : Z) : Z := a mod 2 ^ h.

Lemma host_bits_range v : 5 ≤ csp_id_get_host_bits v ≤ 14.
Proof. unfold csp_id_get_host_bits, CSP_ID2_HOST_SIZE, CSP_ID1_HOST_SIZE. case_bool_decide; lia. Qed.

Lemma max_nodeid_pow v : csp_id_get_max_nodeid v = 2 ^ csp_id_get_host_bits v - 1.
Proof. unfold csp_id_get_max_nodeid, csp_id_get_host_bits. by case_bool_decide. Qed.

Lemma shl1_Some n : 0 ≤ n < 31 → shl1 n = Some (2 ^ n).
Proof. intros. unfold shl1. rewrite bool_decide_true by done. by rewrite Z.shiftl_1_l. Qed.

Lemma pow2_host_le v h : 0 ≤ h ≤ csp_id_get_host_bits v → 1 ≤ 2 ^ h ≤ 2 ^ csp_id_get_host_bits v ≤ 16384.
Proof.
  intros Hh. pose proof (host_bits_range v). split_and!.
  - apply (Z.pow_le_mono_r 2 0 h); lia.
  - apply Z.pow_le_mono_r; lia.
  - apply (Z.pow_le_mono_r 2 _ 14); lia.
Qed.

(** An address is a broadcast on an interface exactly when it is the all-ones
    address of the version, or lies in the interface's subnet with every host bit
    set; the test never shifts out of range when the interface's netmask is at
    most the number of address bits. *)
Theorem csp_id_is_broadcast_spec (v addr : Z) (iface : csp_iface_t) :
  let hb := csp_id_get_host_bits v in
  let h := hb - if_netmask iface in
  0 ≤ if_netmask iface ≤ hb → 0 ≤ addr < 2 ^ hb → 0 ≤ if_addr iface < 2 ^ hb →
  csp_id_is_broadcast v addr iface =
  Some (bool_decide (addr = 2 ^ hb - 1 ∨
    (net_part h addr = net_part h (if_addr iface) ∧ host_part h addr = 2 ^ h - 1))).
Proof.
  intros hb h Hnm Ha Hi. pose proof (host_bits_range v) as Hb.
  assert (0 ≤ h ≤ hb) as Hh by lia. pose proof (pow2_host_le v h Hh) as Hp. fold hb in Hb, Hp.
  unfold csp_id_is_broadcast. fold hb. fold h.
  rewrite u32_id by mlia. rewrite shl1_Some by lia. simpl.
  rewrite Z.shiftl_1_l, max_nodeid_pow. fold hb.
  rewrite !u16_id by mlia.
  replace (2 ^ hb - 1 - (2 ^ h - 1)) with (2 ^ hb - 2 ^ h) by lia.
  rewrite !land_prefix, land_mask by lia.
  unfold net_part, host_part. case_bool_decide as H1; f_equal; symmetry.
  - apply bool_decide_true. right. nia.
  - apply bool_decide_ext. split; [|by left]. intros [?|[H2 H3]]; [done|].
    exfalso. apply H1. rewrite H2. done.
Qed.

Lemma csp_id_is_broadcast_spec_witness :
  csp_id_is_broadcast 2 (21 * 64 + 63) (new_iface (21 * 64 + 1) 8 "CAN" NexthopCan2 1) = Some true.
Proof.
  rewrite (csp_id_is_broadcast_spec 2 (21 * 64 + 63) (new_iface (21 * 64 + 1) 8 "CAN" NexthopCan2 1));
    vm_compute; intuition congruence.
Defined.
