(* ===== verification/Crc32.v ===== *)
(** * CRC-32C

    [lib/csp/src/csp_crc32.c]: the table-driven checksum, the trailer it puts on a
    packet and the check of it.  The table is compared with the bitwise definition
    of the reflected Castagnoli polynomial, from which the error-detection
    properties follow. *)

From S2P Require Import Prelude Types Id.

(** [crc_tab] *)
Definition crc_tab : list Z :=
  [0x00000000; 0xF26B8303; 0xE13B70F7; 0x1350F3F4; 0xC79A971F; 0x35F1141C;
    0x26A1E7E8; 0xD4CA64EB; 0x8AD958CF; 0x78B2DBCC; 0x6BE22838; 0x9989AB3B;
    0x4D43CFD0; 0xBF284CD3; 0xAC78BF27; 0x5E133C24; 0x105EC76F; 0xE235446C;
    0xF165B798; 0x030E349B; 0xD7C45070; 0x25AFD373; 0x36FF2087; 0xC494A384;
    0x9A879FA0; 0x68EC1CA3; 0x7BBCEF57; 0x89D76C54; 0x5D1D08BF; 0xAF768BBC;
    0xBC267848; 0x4E4DFB4B; 0x20BD8EDE; 0xD2D60DDD; 0xC186FE29; 0x33ED7D2A;
    0xE72719C1; 0x154C9AC2; 0x061C6936; 0xF477EA35; 0xAA64D611; 0x580F5512;
    0x4B5FA6E6; 0xB93425E5; 0x6DFE410E; 0x9F95C20D; 0x8CC531F9; 0x7EAEB2FA;
    0x30E349B1; 0xC288CAB2; 0xD1D83946; 0x23B3BA45; 0xF779DEAE; 0x05125DAD;
    0x1642AE59; 0xE4292D5A; 0xBA3A117E; 0x4851927D; 0x5B016189; 0xA96AE28A;
    0x7DA08661; 0x8FCB0562; 0x9C9BF696; 0x6EF07595; 0x417B1DBC; 0xB3109EBF;
    0xA0406D4B; 0x522BEE48; 0x86E18AA3; 0x748A09A0; 0x67DAFA54; 0x95B17957;
    0xCBA24573; 0x39C9C670; 0x2A993584; 0xD8F2B687; 0x0C38D26C; 0xFE53516F;
    0xED03A29B; 0x1F682198; 0x5125DAD3; 0xA34E59D0; 0xB01EAA24; 0x42752927;
    0x96BF4DCC; 0x64D4CECF; 0x77843D3B; 0x85EFBE38; 0xDBFC821C; 0x2997011F;
    0x3AC7F2EB; 0xC8AC71E8; 0x1C661503; 0xEE0D9600; 0xFD5D65F4; 0x0F36E6F7;
    0x61C69362; 0x93AD1061; 0x80FDE395; 0x72966096; 0xA65C047D; 0x5437877E;
    0x4767748A; 0xB50CF789; 0xEB1FCBAD; 0x197448AE; 0x0A24BB5A; 0xF84F3859;
    0x2C855CB2; 0xDEEEDFB1; 0xCDBE2C45; 0x3FD5AF46; 0x7198540D; 0x83F3D70E;
    0x90A324FA; 0x62C8A7F9; 0xB602C312; 0x44694011; 0x5739B3E5; 0xA55230E6;
    0xFB410CC2; 0x092A8FC1; 0x1A7A7C35; 0xE811FF36; 0x3CDB9BDD; 0xCEB018DE;
    0xDDE0EB2A; 0x2F8B6829; 0x82F63B78; 0x709DB87B; 0x63CD4B8F; 0x91A6C88C;
    0x456CAC67; 0xB7072F64; 0xA457DC90; 0x563C5F93; 0x082F63B7; 0xFA44E0B4;
    0xE9141340; 0x1B7F9043; 0xCFB5F4A8; 0x3DDE77AB; 0x2E8E845F; 0xDCE5075C;
    0x92A8FC17; 0x60C37F14; 0x73938CE0; 0x81F80FE3; 0x55326B08; 0xA759E80B;
    0xB4091BFF; 0x466298FC; 0x1871A4D8; 0xEA1A27DB; 0xF94AD42F; 0x0B21572C;
    0xDFEB33C7; 0x2D80B0C4; 0x3ED04330; 0xCCBBC033; 0xA24BB5A6; 0x502036A5;
    0x4370C551; 0xB11B4652; 0x65D122B9; 0x97BAA1BA; 0x84EA524E; 0x7681D14D;
    0x2892ED69; 0xDAF96E6A; 0xC9A99D9E; 0x3BC21E9D; 0xEF087A76; 0x1D63F975;
    0x0E330A81; 0xFC588982; 0xB21572C9; 0x407EF1CA; 0x532E023E; 0xA145813D;
    0x758FE5D6; 0x87E466D5; 0x94B49521; 0x66DF1622; 0x38CC2A06; 0xCAA7A905;
    0xD9F75AF1; 0x2B9CD9F2; 0xFF56BD19; 0x0D3D3E1A; 0x1E6DCDEE; 0xEC064EED;
    0xC38D26C4; 0x31E6A5C7; 0x22B65633; 0xD0DDD530; 0x0417B1DB; 0xF67C32D8;
    0xE52CC12C; 0x1747422F; 0x49547E0B; 0xBB3FFD08; 0xA86F0EFC; 0x5A048DFF;
    0x8ECEE914; 0x7CA56A17; 0x6FF599E3; 0x9D9E1AE0; 0xD3D3E1AB; 0x21B862A8;
    0x32E8915C; 0xC083125F; 0x144976B4; 0xE622F5B7; 0xF5720643; 0x07198540;
    0x590AB964; 0xAB613A67; 0xB831C993; 0x4A5A4A90; 0x9E902E7B; 0x6CFBAD78;
    0x7FAB5E8C; 0x8DC0DD8F; 0xE330A81A; 0x115B2B19; 0x020BD8ED; 0xF0605BEE;
    0x24AA3F05; 0xD6C1BC06; 0xC5914FF2; 0x37FACCF1; 0x69E9F0D5; 0x9B8273D6;
    0x88D28022; 0x7AB90321; 0xAE7367CA; 0x5C18E4C9; 0x4F48173D; 0xBD23943E;
    0xF36E6F75; 0x0105EC76; 0x12551F82; 0xE03E9C81; 0x34F4F86A; 0xC69F7B69;
    0xD5CF889D; 0x27A40B9E; 0x79B737BA; 0x8BDCB4B9; 0x988C474D; 0x6AE7C44E;
    0xBE2DA0A5; 0x4C4623A6; 0x5F16D052; 0xAD7D5351].

(** ** The checksum *)

Definition csp_crc32_init : Z := 0xFFFFFFFF.

(** One iteration of the loop of [csp_crc32_update]; the index is below 256. *)
Definition crc32_step (crc byte : Z) : Z :=
  Z.lxor (crc_tab !!! Z.to_nat (Z.land (Z.lxor crc byte) 0xFF)) (Z.shiftr crc 8).

Definition csp_crc32_update (crc : Z) (data : list Z) : Z := foldl crc32_step crc data.

Definition csp_crc32_final (crc : Z) : Z := Z.lxor crc 0xFFFFFFFF.

Definition csp_crc32_memory (data : list Z) : Z :=
  csp_crc32_final (csp_crc32_update csp_crc32_init data).

Arguments csp_crc32_memory : simpl never.
Arguments csp_crc32_update : simpl never.

(** ** The trailer *)

(** [csp_crc32_append], compiled without [CSP_21]: the checksum covers the data
    only. *)
Definition csp_crc32_append (p : csp_packet_t) : option (Z * csp_packet_t) :=
  if bool_decide (CSP_BUFFER_SIZE < pk_length p + 4) then Some (CSP_ERR_NOMEM, p) else
  d ← data_read p 0 (pk_length p);
  p' ← data_write p (pk_length p) (be_bytes 4 (csp_crc32_memory d));
  Some (CSP_ERR_NONE, set_pk_length (u16 (pk_length p + 4)) p').

(** [csp_crc32_append] as the [CSP_21] branch of the source has it: the checksum
    covers the header too. *)
Definition csp_crc32_append_21 (version : Z) (p : csp_packet_t) : option (Z * csp_packet_t) :=
  if bool_decide (CSP_BUFFER_SIZE < pk_length p + 4) then Some (CSP_ERR_NOMEM, p) else
  p ← csp_id_prepend version p;
  d ← frame_read p 0 (frame_length p);
  p' ← data_write p (pk_length p) (be_bytes 4 (csp_crc32_memory d));
  Some (CSP_ERR_NONE, set_pk_length (u16 (pk_length p + 4)) p').

(** [csp_crc32_verify]: first the checksum with the header, then without. *)
Definition csp_crc32_verify (version : Z) (p : csp_packet_t) : option (Z * csp_packet_t) :=
  if bool_decide (pk_length p < 4) then Some (CSP_ERR_CRC32, p) else
  p ← csp_id_prepend version p;
  d ← frame_read p 0 (frame_length p);
  trailer ← data_read p (pk_length p - 4) 4;
  if bool_decide (trailer = be_bytes 4 (csp_crc32_memory d))
  then Some (CSP_ERR_NONE, set_pk_length (u16 (pk_length p - 4)) p)
  else
    d' ← data_read p 0 (pk_length p - 4);
    if bool_decide (trailer = be_bytes 4 (csp_crc32_memory d'))
    then Some (CSP_ERR_NONE, set_pk_length (u16 (pk_length p - 4)) p)
    else Some (CSP_ERR_CRC32, p).

(** ** Reference definition *)

(** One bit of the reflected Castagnoli polynomial division. *)
Definition crc_bit (c : Z) : Z :=
  if Z.odd c then Z.lxor (Z.shiftr c 1) 0x82F63B78 else Z.shiftr c 1.

Definition crc_byte (crc byte : Z) : Z := Nat.iter 8 crc_bit (Z.lxor crc byte).

Definition crc32c (data : list Z) : Z :=
  Z.lxor (foldl crc_byte 0xFFFFFFFF data) 0xFFFFFFFF.

(** ** The table is the polynomial *)

Definition crc_iter (n : nat) (c : Z) : Z := Nat.iter n crc_bit c.

Section CrcTheory.
Implicit Types (a b c : Z) (n : nat).

Lemma crc_bit_lxor a b : crc_bit (Z.lxor a b) = Z.lxor (crc_bit a) (crc_bit b).
Proof.
  unfold crc_bit. rewrite <- !Z.bit0_odd, Z.lxor_spec, Z.shiftr_lxor.
  set (x := Z.shiftr a 1). set (y := Z.shiftr b 1). set (k := 2197175160).
  destruct (Z.testbit a 0), (Z.testbit b 0); simpl; try done.
  - by rewrite (Z.lxor_comm y k), Z.lxor_assoc, <- (Z.lxor_assoc k k), Z.lxor_nilpotent, Z.lxor_0_l.
  - by rewrite !Z.lxor_assoc, (Z.lxor_comm y).
  - by rewrite Z.lxor_assoc.
Qed.

Lemma crc_iter_lxor n a b : crc_iter n (Z.lxor a b) = Z.lxor (crc_iter n a) (crc_iter n b).
Proof.
  unfold crc_iter. induction n as [|n IH]; simpl; [done|]. by rewrite IH, crc_bit_lxor.
Qed.

Lemma crc_iter_add n m c : crc_iter (n + m) c = crc_iter n (crc_iter m c).
Proof. unfold crc_iter. apply Nat.iter_add. Qed.

(** Zero bits are shifted out. *)
Lemma crc_iter_shiftl n c : crc_iter n (Z.shiftl c (Z.of_nat n)) = c.
Proof.
  revert c. induction n as [|n IH]; intros c; [by rewrite Z.shiftl_0_r|].
  replace (S n) with (n + 1)%nat by lia. rewrite crc_iter_add.
  unfold crc_iter at 2. simpl. unfold crc_bit.
  rewrite <- Z.bit0_odd, Z.shiftl_spec_low, Z.shiftr_shiftl_l by lia.
  replace (Z.of_nat (n + 1) - 1) with (Z.of_nat n) by lia. apply IH.
Qed.

Lemma crc_tab_ref : ∀ k, (k < 256)%nat → crc_tab !!! k = crc_iter 8 (Z.of_nat k).
Proof.
  assert (Forall (λ k, crc_tab !!! k = crc_iter 8 (Z.of_nat k)) (seq 0 256)) as H
    by (apply (bool_decide_unpack _); vm_compute; done).
  intros k Hk. rewrite Forall_forall in H. apply H, elem_of_seq. lia.
Qed.

Lemma byte_split c : c = Z.lxor (Z.land c 255) (Z.shiftl (Z.shiftr c 8) 8).
Proof.
  apply Z.bits_inj'; intros i Hi. rewrite Z.lxor_spec, Z.land_spec.
  change 255 with (Z.ones 8). destruct (decide (i < 8)).
  - by rewrite Z.ones_spec_low, Z.shiftl_spec_low, andb_true_r, xorb_false_r by lia.
  - rewrite Z.ones_spec_high, Z.shiftl_spec, Z.shiftr_spec, andb_false_r, xorb_false_l by lia.
    f_equal. lia.
Qed.

Lemma crc32_step_ref c b : is_u8 b → crc32_step c b = crc_byte c b.
Proof.
  intros Hb. unfold crc32_step, crc_byte. change 0xFF with 255.
  set (x := Z.lxor c b).
  assert (Z.land x 255 = x mod 256) as Hm by (change 255 with (2 ^ 8 - 1); by rewrite land_mask by lia).
  assert (0 ≤ Z.land x 255 < 256) by (rewrite Hm; apply Z.mod_pos_bound; lia).
  rewrite crc_tab_ref, Z2Nat.id by lia.
  transitivity (crc_iter 8 (Z.lxor (Z.land x 255) (Z.shiftl (Z.shiftr x 8) 8)));
    [|by rewrite <- byte_split].
  rewrite crc_iter_lxor, (crc_iter_shiftl 8). f_equal.
  unfold x. rewrite Z.shiftr_lxor, (Z.shiftr_div_pow2 b), Z.div_small by mlia.
  by rewrite Z.lxor_0_r.
Qed.

Lemma csp_crc32_update_ref c data :
  bytes_ok data → csp_crc32_update c data = foldl crc_byte c data.
Proof.
  intros Hd. revert c. induction Hd as [|b data Hb Hd IH]; intros c; [done|]. simpl.
  rewrite <- crc32_step_ref by done. apply IH.
Qed.

(** *** A bit step is invertible on 32-bit states *)

Lemma crc_bit_range c : in_width 32 c → in_width 32 (crc_bit c).
Proof.
  unfold in_width. intros Hc. unfold crc_bit.
  assert (0 ≤ Z.shiftr c 1 < 2 ^ 32).
  { rewrite Z.shiftr_div_pow2 by lia. change (2 ^ 1) with 2. mlia. }
  destruct (Z.odd c); [|done]. apply lxor_lt_pow2; lia.
Qed.

Lemma crc_bit_msb c : in_width 32 c → Z.testbit (crc_bit c) 31 = Z.odd c.
Proof.
  intros Hc. assert (Z.testbit (Z.shiftr c 1) 31 = false) as Hs.
  { rewrite Z.shiftr_spec by lia. rewrite <- (Z.mod_small c (2 ^ 32)) by done.
    by rewrite Z.mod_pow2_bits_high by lia. }
  unfold crc_bit. destruct (Z.odd c); [|done]. by rewrite Z.lxor_spec, Hs.
Qed.

Lemma crc_bit_inj a b : in_width 32 a → in_width 32 b → crc_bit a = crc_bit b → a = b.
Proof.
  intros Ha Hb Heq.
  assert (Z.odd a = Z.odd b) as Hodd by (rewrite <- !crc_bit_msb by done; by rewrite Heq).
  assert (Z.shiftr a 1 = Z.shiftr b 1) as Hs.
  { unfold crc_bit in Heq. rewrite Hodd in Heq. destruct (Z.odd b); [|done].
    apply (f_equal (λ x, Z.lxor x 0x82F63B78)) in Heq.
    by rewrite !Z.lxor_assoc, Z.lxor_nilpotent, !Z.lxor_0_r in Heq. }
  rewrite !Z.shiftr_div_pow2 in Hs by lia. change (2 ^ 1) with 2 in Hs.
  pose proof (Zmod_odd a) as Ea. pose proof (Zmod_odd b) as Eb. rewrite Hodd in Ea.
  pose proof (Z.div_mod a 2). pose proof (Z.div_mod b 2). lia.
Qed.

Lemma crc_iter_range n c : in_width 32 c → in_width 32 (crc_iter n c).
Proof. intros. unfold crc_iter. induction n; simpl; auto using crc_bit_range. Qed.

Lemma crc_iter_inj n a b :
  in_width 32 a → in_width 32 b → crc_iter n a = crc_iter n b → a = b.
Proof.
  intros Ha Hb. induction n as [|n IH]; [done|]. simpl. intros H.
  apply IH. apply crc_bit_inj; [by apply crc_iter_range..|done].
Qed.

Lemma lxor_width a b : in_width 32 a → in_width 32 b → in_width 32 (Z.lxor a b).
Proof. intros. apply lxor_lt_pow2; [lia|done|done]. Qed.

Lemma is_u8_width b : is_u8 b → in_width 32 b.
Proof. mlia. Qed.

Lemma crc_byte_range c b : in_width 32 c → is_u8 b → in_width 32 (crc_byte c b).
Proof.
  intros. apply (crc_iter_range 8), lxor_width; auto using is_u8_width.
Qed.

Lemma lxor_inj_l c a b : Z.lxor c a = Z.lxor c b → a = b.
Proof.
  intros H. apply (f_equal (Z.lxor c)) in H.
  by rewrite <- !Z.lxor_assoc, Z.lxor_nilpotent, !Z.lxor_0_l in H.
Qed.

Lemma crc_bytes_range c data : bytes_ok data → in_width 32 c → in_width 32 (foldl crc_byte c data).
Proof. intros Hd. revert c. induction Hd; simpl; auto using crc_byte_range. Qed.

(** Equal suffixes keep different states different. *)
Lemma crc_bytes_state_inj data a b :
  bytes_ok data → in_width 32 a → in_width 32 b →
  foldl crc_byte a data = foldl crc_byte b data → a = b.
Proof.
  intros Hd. revert a b. induction Hd as [|x data Hx Hd IH]; intros a b Ha Hb; simpl; [done|].
  intros H. apply IH in H; auto using crc_byte_range.
  apply (crc_iter_inj 8) in H; [|by apply lxor_width; auto using is_u8_width..].
  rewrite !(Z.lxor_comm _ x) in H. by apply lxor_inj_l in H.
Qed.

(** Little-endian value of a burst, and the checksum of a burst as a power of
    the bit step. *)
Fixpoint le_word (data : list Z) : Z :=
  match data with [] => 0 | b :: data' => Z.lxor b (Z.shiftl (le_word data') 8) end.

Lemma crc_bytes_word c data :
  foldl crc_byte c data = crc_iter (8 * List.length data) (Z.lxor c (le_word data)).
Proof.
  revert c. induction data as [|b data IH]; intros c; cbn [foldl le_word List.length];
    [by rewrite Z.lxor_0_r|].
  rewrite IH. unfold crc_byte. fold (crc_iter 8 (Z.lxor c b)).
  replace (8 * S (List.length data))%nat with (8 * List.length data + 8)%nat by lia.
  rewrite crc_iter_add. f_equal. rewrite <- Z.lxor_assoc, (crc_iter_lxor 8 (Z.lxor c b)). f_equal.
  symmetry. apply (crc_iter_shiftl 8).
Qed.

Lemma le_word_range data :
  bytes_ok data → 0 ≤ le_word data < 2 ^ (8 * Z.of_nat (List.length data)).
Proof.
  induction 1 as [|b data Hb Hd IH]; simpl; [lia|].
  replace (8 * Z.of_nat (S (List.length data))) with (8 * Z.of_nat (List.length data) + 8) by lia.
  rewrite Z.pow_add_r by lia. rewrite <- Z.pow_add_r by lia. apply lxor_lt_pow2; [lia| |].
  - split; [mlia|]. apply (Z.lt_le_trans _ (2 ^ 8)); [mlia|]. apply Z.pow_le_mono_r; lia.
  - rewrite Z.shiftl_mul_pow2, Z.pow_add_r by lia. change (2 ^ 8) with 256. nia.
Qed.

Lemma le_word_cons_inj a b x y :
  is_u8 a → is_u8 b → Z.lxor a (Z.shiftl x 8) = Z.lxor b (Z.shiftl y 8) → a = b ∧ x = y.
Proof.
  intros Ha Hb H.
  assert (∀ c z, is_u8 c → Z.shiftr (Z.lxor c (Z.shiftl z 8)) 8 = z) as Hhi.
  { intros c z Hc. rewrite Z.shiftr_lxor, Z.shiftr_shiftl_l by lia.
    rewrite Z.shiftr_div_pow2, Z.div_small by mlia. by rewrite Z.lxor_0_l, Z.shiftl_0_r. }
  assert (x = y) as ->.
  { apply (f_equal (λ z, Z.shiftr z 8)) in H. by rewrite !Hhi in H. }
  split; [|done]. rewrite !(Z.lxor_comm _ (Z.shiftl y 8)) in H. by apply lxor_inj_l in H.
Qed.

Lemma le_word_inj x y :
  List.length x = List.length y → bytes_ok x → bytes_ok y → le_word x = le_word y → x = y.
Proof.
  intros Hl Hx. revert y Hl. induction Hx as [|a x Ha Hx IH]; intros [|b y] Hl Hy H; try done.
  inversion Hy; subst. simpl in H. apply le_word_cons_inj in H as [-> H]; [|done..].
  f_equal. apply IH; [by injection Hl|done..].
Qed.

Lemma crc_burst_inj c x y :
  in_width 32 c → List.length x = List.length y → (List.length x ≤ 4)%nat →
  bytes_ok x → bytes_ok y → foldl crc_byte c x = foldl crc_byte c y → x = y.
Proof.
  intros Hc Hl H4 Hx Hy. rewrite !crc_bytes_word, Hl. intros H.
  assert (∀ d, bytes_ok d → (List.length d ≤ 4)%nat → in_width 32 (Z.lxor c (le_word d))) as Hr.
  { intros d Hd Hd4. apply lxor_width; [done|].
    pose proof (le_word_range d Hd) as [? Hlt]. split; [done|].
    eapply Z.lt_le_trans; [exact Hlt|]. apply Z.pow_le_mono_r; lia. }
  apply crc_iter_inj in H; [|apply Hr; (done || lia)..].
  apply lxor_inj_l in H. by apply le_word_inj.
Qed.
End CrcTheory.

(** C32: the table-driven loop computes the CRC-32C of the data, i.e. the bitwise
    division by the reflected Castagnoli polynomial, for every byte string. *)
Theorem csp_crc32_memory_is_crc32c (data : list Z) :
  bytes_ok data → csp_crc32_memory data = crc32c data.
Proof.
  intros Hd. unfold csp_crc32_memory, csp_crc32_final, crc32c.
  by rewrite csp_crc32_update_ref.
Qed.

(** The check value of the CRC-32C catalogue for "123456789". *)
Lemma csp_crc32_memory_is_crc32c_witness :
  csp_crc32_memory [49; 50; 51; 52; 53; 54; 55; 56; 57] = 0xE3069283 ∧
  csp_crc32_memory [49; 50; 51; 52; 53; 54; 55; 56; 57] = crc32c [49; 50; 51; 52; 53; 54; 55; 56; 57].
Proof.
  split; [vm_compute; done|]. apply csp_crc32_memory_is_crc32c.
  apply (bool_decide_unpack _); vm_compute; done.
Defined.

(** The checksum detects every corruption confined to four consecutive bytes
    (in particular every burst of up to 25 bits, wherever it starts). *)
Theorem csp_crc32_detects_burst (pre x y post : list Z) :
  bytes_ok pre → bytes_ok x → bytes_ok y → bytes_ok post →
  List.length x = List.length y → (List.length x ≤ 4)%nat → x ≠ y →
  csp_crc32_memory (pre ++ x ++ post) ≠ csp_crc32_memory (pre ++ y ++ post).
Proof.
  intros Hpre Hx Hy Hpost Hl H4 Hne H. apply Hne. clear Hne.
  unfold csp_crc32_memory, csp_crc32_final in H.
  rewrite !(Z.lxor_comm _ 0xFFFFFFFF) in H. apply lxor_inj_l in H.
  rewrite !csp_crc32_update_ref in H by (repeat (apply Forall_app; split; [done|]); done).
  rewrite !foldl_app in H.
  assert (in_width 32 csp_crc32_init) as Hi by (vm_compute; intuition congruence).
  apply crc_bytes_state_inj in H; auto using crc_bytes_range.
  eapply crc_burst_inj; [|done..]. by apply crc_bytes_range.
Qed.

Lemma csp_crc32_detects_burst_witness :
  csp_crc32_memory ([1; 2] ++ [3; 4; 5] ++ [6]) ≠ csp_crc32_memory ([1; 2] ++ [3; 0; 255] ++ [6]).
Proof.
  apply csp_crc32_detects_burst; apply (bool_decide_unpack _); vm_compute; done.
Defined.

(** ** Appending and verifying the trailer *)

Section Trailer.
Implicit Types (p r : csp_packet_t) (v : Z).

Lemma csp_crc32_append_spec p :
  packet_ok p → pk_length p + 4 ≤ CSP_BUFFER_SIZE →
  ∃ pay p', payload p = Some pay ∧ csp_crc32_append p = Some (CSP_ERR_NONE, p') ∧ packet_ok p' ∧
    pk_length p' = pk_length p + 4 ∧ pk_id p' = pk_id p ∧
    payload p' = Some (pay ++ be_bytes 4 (csp_crc32_memory pay)).
Proof.
  intros Hp Hl. pose proof (po_length _ Hp) as Hlp.
  destruct (data_read_is_Some p 0 (pk_length p)) as [pay Hpay]; [done|lia|mlia|lia|].
  set (t := be_bytes 4 (csp_crc32_memory pay)).
  destruct (data_write_is_Some p (pk_length p) t) as [p' Hw]; [done|mlia|unfold t; rewrite length_be_bytes; lia|].
  exists pay, (set_pk_length (pk_length p + 4) p').
  split; [done|]. unfold csp_crc32_append. rewrite bool_decide_false by lia.
  rewrite Hpay; simpl. fold t. rewrite Hw; simpl. rewrite u16_id by (sizes; mlia).
  assert (packet_ok p') as Hp' by (eapply data_write_ok; eauto using be_bytes_ok).
  pose proof Hw as (m & Hm & ->)%data_write_Some. split_and!; try done.
  - destruct Hp'; split; simpl in *; try done. sizes; mlia.
  - unfold payload, data_read; simpl. eapply mem_read_app.
    + rewrite (mem_read_write_ne _ _ _ _ _ _ Hm) by lia. done.
    + replace (DATA_OFF + 0 + pk_length p) with (DATA_OFF + pk_length p) by lia.
      by apply (mem_read_write_eq _ _ _ _ Hm).
Qed.

(** [csp_crc32_verify] accepts a packet whose trailer is the checksum of the
    data before it, whatever its header. *)
Lemma csp_crc32_verify_accepts v r pay :
  packet_ok r → pk_length r = Z.of_nat (List.length pay) + 4 → pk_length r ≤ CSP_BUFFER_SIZE →
  payload r = Some (pay ++ be_bytes 4 (csp_crc32_memory pay)) →
  ∃ r', csp_crc32_verify v r = Some (CSP_ERR_NONE, r') ∧ packet_ok r' ∧ pk_id r' = pk_id r ∧
    pk_length r' = Z.of_nat (List.length pay) ∧ payload r' = Some pay.
Proof.
  intros Hr Hl Hsz Hpay. unfold csp_crc32_verify. rewrite bool_decide_false by lia.
  destruct (csp_id_prepend_spec v r Hr)
    as (p & -> & Hp & Hf & Hfl & Hpl & Hid & _ & _ & _ & _ & _ & Hhdr & Hdat). simpl.
  unfold payload in Hpay. rewrite <- (Hdat 0) in Hpay by lia.
  replace (pk_length r) with (Z.of_nat (List.length pay) + 4) in Hpay by lia.
  apply mem_read_app_inv in Hpay as [Hd Ht]; [|lia|done].
  pose proof (id_header_size_range v) as Hs.
  assert (frame_read p 0 (frame_length p) =
    Some (id_header v (pk_id r) ++ pay ++ be_bytes 4 (csp_crc32_memory pay))) as ->.
  { rewrite Hfl, u16_id, Z.add_comm by (sizes; mlia). apply frame_read_app; [done|done|].
    rewrite Hl. eapply mem_read_app; [done|]. done. }
  monad. rewrite Hpl, Hl.
  replace (Z.of_nat (List.length pay) + 4 - 4) with (Z.of_nat (List.length pay)) by lia.
  assert (data_read p (Z.of_nat (List.length pay)) 4 = Some (be_bytes 4 (csp_crc32_memory pay))) as ->.
  { rewrite <- Ht. unfold data_read. f_equal; lia. }
  monad. rewrite u16_id by (sizes; mlia).
  assert (packet_ok (set_pk_length (Z.of_nat (List.length pay)) p)) as Hok.
  { destruct Hp; split; simpl in *; try done. sizes; mlia. }
  case_bool_decide.
  - eexists; split; [done|]. by split_and!.
  - fold (data_read p 0 (Z.of_nat (List.length pay))) in Hd. rewrite Hd; monad.
    rewrite bool_decide_true by done. eexists; split; [done|]. by split_and!.
Qed.
End Trailer.

(** [csp_crc32_verify] is total on packets that fit their buffer. *)
Lemma csp_crc32_verify_total v p :
  packet_ok p → pk_length p ≤ CSP_BUFFER_SIZE →
  ∃ rc p', csp_crc32_verify v p = Some (rc, p') ∧ packet_ok p' ∧ (frame_at v p → frame_at v p') ∧
    pk_length p' ≤ pk_length p ∧ pk_id p' = pk_id p.
Proof.
  intros Hp Hl. unfold csp_crc32_verify. pose proof (po_length _ Hp) as Hlp.
  case_bool_decide; [exists CSP_ERR_CRC32, p; by split_and!|].
  destruct (csp_id_prepend_spec v p Hp)
    as (q & -> & Hq & Hf & Hfl & Hql & Hid & _ & _ & _ & _ & _ & Hhdr & Hdat). monad.
  destruct (data_read_is_Some q 0 (pk_length q)) as [d Hd]; [done|lia|mlia|lia|].
  pose proof (id_header_size_range v) as Hs.
  assert (frame_read q 0 (frame_length q) = Some (id_header v (pk_id p) ++ d)) as ->.
  { rewrite Hfl, u16_id, Z.add_comm, <- Hql by (sizes; mlia). by apply frame_read_app. }
  monad. destruct (data_read_is_Some q (pk_length q - 4) 4) as [t ->]; [done|lia..|].
  monad. assert (packet_ok (set_pk_length (u16 (pk_length q - 4)) q)) as Hok.
  { destruct Hq; split; simpl; try done. apply u16_range. }
  assert (u16 (pk_length q - 4) ≤ pk_length p) by (rewrite u16_id; mlia).
  case_bool_decide; [by eexists _, _; split_and!|].
  destruct (data_read_is_Some q 0 (pk_length q - 4)) as [t' ->]; [done|lia..|].
  monad. case_bool_decide; eexists _, _; split_and!; try done. lia.
Qed.

(** the checksum trailer round trips.  A packet with room for the trailer gets
    it; a receiver that has the resulting bytes, whatever identifier and header
    version it sees, accepts them and recovers length and payload; a packet with no
    room is refused unchanged. *)
Theorem csp_crc32_append_verify (p : csp_packet_t) :
  packet_ok p →
  (CSP_BUFFER_SIZE < pk_length p + 4 → csp_crc32_append p = Some (CSP_ERR_NOMEM, p)) ∧
  (pk_length p + 4 ≤ CSP_BUFFER_SIZE →
   ∃ p', csp_crc32_append p = Some (CSP_ERR_NONE, p') ∧ packet_ok p' ∧ pk_id p' = pk_id p ∧
     ∀ v r, packet_ok r → pk_length r = pk_length p' → payload r = payload p' →
       ∃ r', csp_crc32_verify v r = Some (CSP_ERR_NONE, r') ∧ pk_id r' = pk_id r ∧
             pk_length r' = pk_length p ∧ payload r' = payload p).
Proof.
  intros Hp. split.
  - intros Hl. unfold csp_crc32_append. by rewrite bool_decide_true.
  - intros Hl. destruct (csp_crc32_append_spec p Hp Hl) as (pay & p' & Hpay & Hap & Hp' & Hl' & Hid & Hpay').
    exists p'. split_and!; try done. intros v r Hr Hrl Hrp.
    assert (pk_length p = Z.of_nat (List.length pay)) as Hlen.
    { symmetry. by eapply mem_read_length. }
    destruct (csp_crc32_verify_accepts v r pay) as (r' & Hv & _ & Hi & Hl2 & Hpy);
      [done|lia|sizes; lia|by rewrite Hrp|].
    exists r'. split_and!; try done; [lia|by rewrite Hpy].
Qed.

Lemma csp_crc32_append_verify_witness :
  ∃ p', csp_crc32_append id_example = Some (CSP_ERR_NONE, p') ∧ packet_ok p' ∧
     pk_id p' = pk_id id_example ∧
     ∀ v r, packet_ok r → pk_length r = pk_length p' → payload r = payload p' →
       ∃ r', csp_crc32_verify v r = Some (CSP_ERR_NONE, r') ∧ pk_id r' = pk_id r ∧
             pk_length r' = pk_length id_example ∧ payload r' = payload id_example.
Proof.
  apply (csp_crc32_append_verify id_example id_example_ok). vm_compute. congruence.
Defined.

(** The header-inclusive pass of [csp_crc32_verify] does not recognise the
    header-inclusive trailer of [csp_crc32_append] (the [CSP_21] branch): it also
    sums the four trailer bytes, because [csp_id_prepend] took the frame length
    from the length that still includes them. *)
Theorem csp_crc32_verify_rejects_header_crc :
  ∃ p', csp_crc32_append_21 2 id_example = Some (CSP_ERR_NONE, p') ∧
        ∃ r', csp_crc32_verify 2 p' = Some (CSP_ERR_CRC32, r').
Proof. eexists; split; [vm_compute; reflexivity|]. eexists. vm_compute. reflexivity. Qed.
