(* ===== verification/State.v ===== *)
(** * The link-layer state

    The static variables the buffer pool, the router's input queue, the interface
    list and the link-layer drivers share, as one record threaded through the
    state monad. *)

From S2P Require Import Prelude Queue Types.

(** [csp_skbf_t]; a buffer is named by its index in [csp_buffer_pool], and
    [skbf_addr] is the pointer the buffer keeps to itself. *)
Record csp_skbf_t := mk_skbf {
  refcount : Z;
  skbf_addr : nat;
  skbf_data : csp_packet_t;
}.

(** [csp_kiss_mode_t] and [csp_kiss_interface_data_t] *)
Inductive csp_kiss_mode_t :=
  | KISS_MODE_NOT_STARTED | KISS_MODE_STARTED | KISS_MODE_ESCAPED | KISS_MODE_SKIP_FRAME.

Record csp_kiss_interface_data_t := mk_kiss {
  kiss_rx_mode : csp_kiss_mode_t;
  kiss_rx_length : Z;
  kiss_rx_first : bool;
  kiss_rx_packet : option nat;
}.

(** [csp_can_interface_data_t] *)
Record csp_can_interface_data_t := mk_can {
  cfp_packet_counter : Z;
  pbufs : option nat;
}.

(** What an interface hands to its driver: a piece of a serial stream, or a CAN
    frame (identifier and data field). *)
Inductive wire_event :=
  | WireBytes (iface : nat) (bytes : list Z)
  | WireCan (iface : nat) (can_id : Z) (data : list Z).

(** [c_version] is [csp_conf.version]; [c_now] what [csp_get_ms] returns during
    the operation; [c_pool], [c_free] the buffer pool and its queue of free
    buffers; [c_qfifo] the router's input queue of (packet, interface) pointers;
    [c_ifaces] the interface structures by address, [c_interfaces] the head of the
    linked list; [c_kiss] and [c_can] the private data of the interfaces;
    [c_wire] everything transmitted so far. *)
Record csp_core := mk_core {
  c_version : Z;
  c_now : Z;
  c_dbg : csp_dbg;
  c_pool : list csp_skbf_t;
  c_free : fifo nat;
  c_qfifo : fifo (option nat * option nat);
  c_ifaces : gmap nat csp_iface_t;
  c_interfaces : option nat;
  c_kiss : gmap nat csp_kiss_interface_data_t;
  c_can : gmap nat csp_can_interface_data_t;
  c_wire : list wire_event;
}.

Definition set_c_version (v : Z) (s : csp_core) : csp_core :=
  mk_core v (c_now s) (c_dbg s) (c_pool s) (c_free s) (c_qfifo s) (c_ifaces s) (c_interfaces s) (c_kiss s) (c_can s) (c_wire s).
Definition set_c_now (v : Z) (s : csp_core) : csp_core :=
  mk_core (c_version s) v (c_dbg s) (c_pool s) (c_free s) (c_qfifo s) (c_ifaces s) (c_interfaces s) (c_kiss s) (c_can s) (c_wire s).
Definition set_c_dbg (v : csp_dbg) (s : csp_core) : csp_core :=
  mk_core (c_version s) (c_now s) v (c_pool s) (c_free s) (c_qfifo s) (c_ifaces s) (c_interfaces s) (c_kiss s) (c_can s) (c_wire s).
Definition set_c_pool (v : list csp_skbf_t) (s : csp_core) : csp_core :=
  mk_core (c_version s) (c_now s) (c_dbg s) v (c_free s) (c_qfifo s) (c_ifaces s) (c_interfaces s) (c_kiss s) (c_can s) (c_wire s).
Definition set_c_free (v : fifo nat) (s : csp_core) : csp_core :=
  mk_core (c_version s) (c_now s) (c_dbg s) (c_pool s) v (c_qfifo s) (c_ifaces s) (c_interfaces s) (c_kiss s) (c_can s) (c_wire s).
Definition set_c_qfifo (v : fifo (option nat * option nat)) (s : csp_core) : csp_core :=
  mk_core (c_version s) (c_now s) (c_dbg s) (c_pool s) (c_free s) v (c_ifaces s) (c_interfaces s) (c_kiss s) (c_can s) (c_wire s).
Definition set_c_ifaces (v : gmap nat csp_iface_t) (s : csp_core) : csp_core :=
  mk_core (c_version s) (c_now s) (c_dbg s) (c_pool s) (c_free s) (c_qfifo s) v (c_interfaces s) (c_kiss s) (c_can s) (c_wire s).
Definition set_c_interfaces (v : option nat) (s : csp_core) : csp_core :=
  mk_core (c_version s) (c_now s) (c_dbg s) (c_pool s) (c_free s) (c_qfifo s) (c_ifaces s) v (c_kiss s) (c_can s) (c_wire s).
Definition set_c_kiss (v : gmap nat csp_kiss_interface_data_t) (s : csp_core) : csp_core :=
  mk_core (c_version s) (c_now s) (c_dbg s) (c_pool s) (c_free s) (c_qfifo s) (c_ifaces s) (c_interfaces s) v (c_can s) (c_wire s).
Definition set_c_can (v : gmap nat csp_can_interface_data_t) (s : csp_core) : csp_core :=
  mk_core (c_version s) (c_now s) (c_dbg s) (c_pool s) (c_free s) (c_qfifo s) (c_ifaces s) (c_interfaces s) (c_kiss s) v (c_wire s).
Definition set_c_wire (v : list wire_event) (s : csp_core) : csp_core :=
  mk_core (c_version s) (c_now s) (c_dbg s) (c_pool s) (c_free s) (c_qfifo s) (c_ifaces s) (c_interfaces s) (c_kiss s) (c_can s) v.

Abbreviation C A := (ST csp_core A).

(** ** Access to buffers and interfaces *)

Definition get_skbf (b : nat) : C csp_skbf_t := λ s, lift_opt (c_pool s !! b) s.
Definition put_skbf (b : nat) (k : csp_skbf_t) : C () :=
  modify (λ s, set_c_pool (<[b := k]> (c_pool s)) s).

(** [packet->field] for a packet pointer. *)
Definition get_packet (b : nat) : C csp_packet_t := skbf_data <$> get_skbf b.
Definition put_packet (b : nat) (p : csp_packet_t) : C () :=
  k ← get_skbf b; put_skbf b (mk_skbf (refcount k) (skbf_addr k) p).

Definition get_iface (i : nat) : C csp_iface_t := λ s, lift_opt (c_ifaces s !! i) s.
Definition put_iface (i : nat) (f : csp_iface_t) : C () :=
  modify (λ s, set_c_ifaces (<[i := f]> (c_ifaces s)) s).

(** [iface->counter += n] *)
Definition iface_add (i : nat) (st : if_stat) (n : Z) : C () :=
  f ← get_iface i; put_iface i (if_add st n f).

Definition mod_dbg (f : csp_dbg → csp_dbg) : C () := modify (λ s, set_c_dbg (f (c_dbg s)) s).
Definition errno (e : Z) : C () := mod_dbg (set_errno e).
Definition can_errno (e : Z) : C () := mod_dbg (set_can_errno e).

(** [st_unfold] exposes a state-monad program as nested matches. *)
Ltac st_unfold :=
  unfold get_packet, put_packet, get_skbf, put_skbf, iface_add, get_iface, put_iface, errno,
    can_errno, mod_dbg, gets, modify, get, put, lift_opt, when, ub, mbind, ST_bind, mret, ST_ret,
    fmap, ST_fmap; cbn [option_map fst snd].

(** ** Running the accessors *)

(** State [s] with the packet of buffer [b], whose structure is [k], replaced. *)
Definition upd_pkt (s : csp_core) (b : nat) (k : csp_skbf_t) (p : csp_packet_t) : csp_core :=
  set_c_pool (<[b := mk_skbf (refcount k) (skbf_addr k) p]> (c_pool s)) s.

Section Accessors.
Implicit Types (s : csp_core) (b i : nat) (k : csp_skbf_t) (p : csp_packet_t).

Lemma get_packet_run s b k : c_pool s !! b = Some k → get_packet b s = Some (skbf_data k, s).
Proof. intros Hk. st_unfold. by rewrite Hk. Qed.

Lemma put_packet_run s b k p : c_pool s !! b = Some k → put_packet b p s = Some ((), upd_pkt s b k p).
Proof. intros Hk. st_unfold. by rewrite Hk. Qed.

Lemma upd_pkt_lookup s b k p :
  c_pool s !! b = Some k →
  c_pool (upd_pkt s b k p) !! b = Some (mk_skbf (refcount k) (skbf_addr k) p).
Proof. intros Hk. simpl. apply list_lookup_insert_eq. by eapply lookup_lt_Some. Qed.

Lemma upd_pkt_lookup_ne s b b' k p : b ≠ b' → c_pool (upd_pkt s b k p) !! b' = c_pool s !! b'.
Proof. intros. simpl. by apply list_lookup_insert_ne. Qed.

Lemma iface_add_run s i st n f :
  c_ifaces s !! i = Some f →
  iface_add i st n s = Some ((), set_c_ifaces (<[i := if_add st n f]> (c_ifaces s)) s).
Proof. intros Hf. st_unfold. by rewrite Hf. Qed.

Lemma lift_opt_run {A} (o : option A) (a : A) s : o = Some a → lift_opt o s = Some (a, s).
Proof. by intros ->. Qed.
End Accessors.

