(* ===== verification/Buffer.v ===== *)
(** * The buffer pool

    [lib/csp/src/csp_buffer.c]: packet buffers with reference counts and the queue
    of free buffers. *)

From S2P Require Import Prelude Queue Types State.

(** ** Operations *)

(** [csp_buffer_init]: [c_pool] holds the static memory as it was ([.noinit]). *)
Definition csp_buffer_init (s : csp_core) : csp_core :=
  let n := List.length (c_pool s) in
  let pool := imap (λ i k, mk_skbf (refcount k) i (skbf_data k)) (c_pool s) in
  set_c_free (foldl (λ q i, (csp_queue_enqueue q i).2) (csp_queue_create_static n) (seq 0 n))
    (set_c_pool pool s).

(** The common body of [csp_buffer_get] and [csp_buffer_get_isr], which differ in
    the queue operation they call. *)
Definition buffer_get_with (dequeue : fifo nat → option nat * fifo nat) : C (option nat) :=
  free ← gets c_free;
  let '(r, free') := dequeue free in
  modify (set_c_free free');;
  match r with
  | None => mod_dbg inc_buffer_out;; mret None
  | Some b =>
      k ← get_skbf b;
      if bool_decide (skbf_addr k ≠ b)
      then errno CSP_DBG_ERR_CORRUPT_BUFFER;; mret None
      else put_skbf b (mk_skbf 1 (skbf_addr k) (set_pk_id csp_id_clear (skbf_data k)));; mret (Some b)
  end.

Definition csp_buffer_get : C (option nat) := buffer_get_with csp_queue_dequeue.
Definition csp_buffer_get_isr : C (option nat) := buffer_get_with csp_queue_dequeue_isr.

(** The common body of [csp_buffer_free] and [csp_buffer_free_isr]. *)
Definition buffer_free_with (enqueue : fifo nat → nat → Z * fifo nat) (packet : option nat) : C () :=
  match packet with
  | None => mret ()
  | Some b =>
      k ← get_skbf b;
      if bool_decide (skbf_addr k ≠ b) then errno CSP_DBG_ERR_CORRUPT_BUFFER
      else if bool_decide (refcount k = 0) then errno CSP_DBG_ERR_ALREADY_FREE
      else
        put_skbf b (mk_skbf (u32 (refcount k - 1)) (skbf_addr k) (skbf_data k));;
        if bool_decide (0 < u32 (refcount k - 1)) then errno CSP_DBG_ERR_REFCOUNT
        else modify (λ s, set_c_free (enqueue (c_free s) b).2 s)
  end.

Definition csp_buffer_free : option nat → C () := buffer_free_with csp_queue_enqueue.
Definition csp_buffer_free_isr : option nat → C () := buffer_free_with csp_queue_enqueue_isr.

(** The [memcpy] of [csp_buffer_clone] from buffer [b]: everything up to [data],
    and the first [length + CSP_PACKET_PADDING_BYTES] bytes of [data], at most the
    whole structure.  A frame pointer keeps pointing where it pointed. *)
Definition clone_into (b : nat) (p clone : csp_packet_t) : csp_packet_t :=
  let n := Z.min (DATA_OFF + CSP_BUFFER_SIZE) (DATA_OFF + CSP_PACKET_PADDING_BYTES + pk_length p) in
  let fb := match frame_begin p with USelf o => UOther b o | x => x end in
  set_pk_mem (take (Z.to_nat n) (pk_mem p) ++ drop (Z.to_nat n) (pk_mem clone))
    (set_frame_begin fb p).

Definition csp_buffer_clone (buffer : option nat) : C (option nat) :=
  match buffer with
  | None => mret None
  | Some b =>
      p ← get_packet b;
      r ← csp_buffer_get;
      match r with
      | None => mret None
      | Some c =>
          p ← get_packet b;
          q ← get_packet c;
          put_packet c (clone_into b p q);; mret (Some c)
      end
  end.

Definition csp_buffer_refc_inc (buffer : option nat) : C () :=
  match buffer with
  | None => errno CSP_DBG_ERR_INVALID_POINTER
  | Some b =>
      k ← get_skbf b;
      if bool_decide (skbf_addr k ≠ b) then errno CSP_DBG_ERR_CORRUPT_BUFFER
      else put_skbf b (mk_skbf (u32 (refcount k + 1)) (skbf_addr k) (skbf_data k))
  end.

Definition csp_buffer_remaining : C Z := csp_queue_size <$> gets c_free.

(** ** The pool invariant *)

(** The self pointers are intact, the packets well formed, and a buffer is in the
    queue of free buffers, once, exactly when its reference count is zero. *)
Record buf_inv (s : csp_core) : Prop := {
  bi_pool : ∀ i k, c_pool s !! i = Some k →
    skbf_addr k = i ∧ packet_ok (skbf_data k) ∧ is_u32 (refcount k);
  bi_cap : fq_cap (c_free s) = List.length (c_pool s);
  bi_nodup : NoDup (fq_items (c_free s));
  bi_free : ∀ i, i ∈ fq_items (c_free s) ↔ ∃ k, c_pool s !! i = Some k ∧ refcount k = 0;
}.

(** [b] is a buffer in use. *)
Definition allocated (s : csp_core) (b : nat) : Prop :=
  ∃ k, c_pool s !! b = Some k ∧ refcount k ≠ 0.

(** Buffer [b]'s packet. *)
Definition packet_at (s : csp_core) (b : nat) (p : csp_packet_t) : Prop :=
  ∃ k, c_pool s !! b = Some k ∧ skbf_data k = p.

(** The number of buffers in use. *)
Definition used_count (s : csp_core) : nat :=
  List.length (filter (λ k, refcount k ≠ 0) (c_pool s)).

Section BufferLemmas.
Implicit Types (s : csp_core) (b i : nat) (k : csp_skbf_t) (p : csp_packet_t).

Lemma buf_inv_free_lt s b : buf_inv s → b ∈ fq_items (c_free s) → (b < List.length (c_pool s))%nat.
Proof. intros Hi (k & Hk & _)%(bi_free s Hi). by eapply lookup_lt_Some. Qed.

(** The queue of free buffers has room for every buffer not in it. *)
Lemma buf_inv_room s b k :
  buf_inv s → c_pool s !! b = Some k → refcount k ≠ 0 →
  (List.length (fq_items (c_free s)) < fq_cap (c_free s))%nat.
Proof.
  intros Hi Hk Hr. rewrite (bi_cap s Hi).
  assert (b :: fq_items (c_free s) ⊆+ seq 0 (List.length (c_pool s))) as Hsub.
  { apply NoDup_submseteq.
    - constructor; [|apply Hi]. intros (k' & Hk' & ?)%(bi_free s Hi). congruence.
    - intros x [->|Hx]%elem_of_cons; apply elem_of_seq.
      + apply lookup_lt_Some in Hk. lia.
      + pose proof (buf_inv_free_lt s x Hi Hx). lia. }
  apply submseteq_length in Hsub. rewrite length_seq in Hsub. simpl in Hsub. lia.
Qed.

(** Only the pool and the free queue matter to the invariant. *)
Lemma buf_inv_ext s s' :
  c_pool s' = c_pool s → c_free s' = c_free s → buf_inv s → buf_inv s'.
Proof. intros Hp Hf [? ? ? ?]. split; rewrite ?Hp, ?Hf; done. Qed.

(** Replacing the packet of a buffer. *)
Lemma buf_inv_put_packet s b k p :
  buf_inv s → c_pool s !! b = Some k → packet_ok p →
  buf_inv (set_c_pool (<[b := mk_skbf (refcount k) (skbf_addr k) p]> (c_pool s)) s).
Proof.
  intros Hi Hk Hp. pose proof (lookup_lt_Some _ _ _ Hk) as Hlt.
  split; simpl; rewrite ?length_insert; try apply Hi.
  - intros i k' [(-> & <- & _)|(Hne & Hk')]%list_lookup_insert_Some; [|by apply Hi].
    destruct (bi_pool s Hi _ _ Hk) as (? & ? & ?). by split_and!.
  - intros i. rewrite (bi_free s Hi). split.
    + intros (k' & Hk' & Hr). destruct (decide (b = i)) as [->|Hne].
      * rewrite Hk in Hk'. injection Hk' as <-. eexists; split; [by apply list_lookup_insert_eq|done].
      * exists k'. split; [by rewrite list_lookup_insert_ne|done].
    + intros (k' & [(-> & <- & _)|(Hne & Hk')]%list_lookup_insert_Some & Hr); eauto.
Qed.

Lemma csp_buffer_get_empty s :
  fq_items (c_free s) = [] →
  csp_buffer_get s = Some (None, set_c_dbg (inc_buffer_out (c_dbg s)) (set_c_free (c_free s) s)).
Proof. intros He. unfold csp_buffer_get, buffer_get_with, csp_queue_dequeue. st_unfold. by rewrite He. Qed.

Lemma csp_buffer_get_some s b l k :
  buf_inv s → fq_items (c_free s) = b :: l → c_pool s !! b = Some k →
  csp_buffer_get s =
  Some (Some b,
    set_c_pool (<[b := mk_skbf 1 b (set_pk_id csp_id_clear (skbf_data k))]> (c_pool s))
      (set_c_free (mk_fifo (fq_cap (c_free s)) l) s)).
Proof.
  intros Hi He Hk. destruct (bi_pool s Hi _ _ Hk) as (Ha & _ & _).
  unfold csp_buffer_get, buffer_get_with, csp_queue_dequeue. st_unfold.
  rewrite He; simpl. rewrite Hk; simpl. rewrite bool_decide_false by (by intros []). simpl.
  by rewrite Ha.
Qed.

Lemma clear_id_ok p : packet_ok p → packet_ok (set_pk_id csp_id_clear p).
Proof. intros []; split; simpl; done. Qed.

(** What [csp_buffer_get] does to a well-formed pool: it hands out the oldest
    free buffer, or counts the failure when there is none. *)
Lemma csp_buffer_get_spec s :
  buf_inv s →
  (∃ s', csp_buffer_get s = Some (None, s') ∧ fq_items (c_free s) = [] ∧ buf_inv s' ∧
         c_pool s' = c_pool s ∧ c_free s' = c_free s) ∨
  (∃ b k s', csp_buffer_get s = Some (Some b, s') ∧ buf_inv s' ∧
     c_pool s !! b = Some k ∧ refcount k = 0 ∧
     fq_items (c_free s) = b :: fq_items (c_free s') ∧
     s' = set_c_pool (<[b := mk_skbf 1 b (set_pk_id csp_id_clear (skbf_data k))]> (c_pool s))
            (set_c_free (mk_fifo (fq_cap (c_free s)) (fq_items (c_free s'))) s)).
Proof.
  intros Hi. destruct (fq_items (c_free s)) as [|b l] eqn:He.
  - left. eexists; split; [by apply csp_buffer_get_empty|]. split_and!; try done.
    by apply (buf_inv_ext s).
  - right. destruct (proj1 (bi_free s Hi b)) as (k & Hk & Hr); [rewrite He; by left|].
    exists b, k. eexists; split; [by apply csp_buffer_get_some|].
    pose proof (lookup_lt_Some _ _ _ Hk) as Hlt.
    pose proof (bi_nodup s Hi) as Hnd. rewrite He in Hnd. apply NoDup_cons in Hnd as [Hb Hnd].
    split; [|done]. split; simpl.
    + intros i k' [(-> & <- & _)|(Hne & Hk')]%list_lookup_insert_Some; [|by apply Hi].
      destruct (bi_pool s Hi _ _ Hk) as (? & ? & ?).
      split_and!; simpl; [done|by apply clear_id_ok|mlia].
    + rewrite length_insert. apply Hi.
    + done.
    + intros i. split.
      * intros Hil. assert (b ≠ i) by (intros ->; done).
        destruct (proj1 (bi_free s Hi i)) as (k' & Hk' & Hr'); [rewrite He; by right|].
        exists k'. by rewrite list_lookup_insert_ne.
      * intros (k' & [(-> & <- & _)|(Hne & Hk')]%list_lookup_insert_Some & Hr'); [done|].
        assert (i ∈ fq_items (c_free s)) as Hin by (apply Hi; eauto).
        rewrite He in Hin. apply elem_of_cons in Hin as [->|]; done.
Qed.

(** [csp_buffer_free] of the last reference. *)
Lemma csp_buffer_free_last s b k :
  buf_inv s → c_pool s !! b = Some k → refcount k = 1 →
  csp_buffer_free (Some b) s =
  Some ((), set_c_free (mk_fifo (fq_cap (c_free s)) (fq_items (c_free s) ++ [b]))
              (set_c_pool (<[b := mk_skbf 0 b (skbf_data k)]> (c_pool s)) s)).
Proof.
  intros Hi Hk Hr. destruct (bi_pool s Hi _ _ Hk) as (Ha & _ & _).
  unfold csp_buffer_free, buffer_free_with. st_unfold. rewrite Hk; simpl.
  rewrite bool_decide_false by (by intros []). rewrite Hr, Ha; simpl.
  rewrite csp_queue_enqueue_ok; [done|].
  eapply buf_inv_room; [done|done|lia].
Qed.

(** A buffer with more references only loses one. *)
Lemma csp_buffer_free_more s b k :
  buf_inv s → c_pool s !! b = Some k → 1 < refcount k →
  csp_buffer_free (Some b) s =
  Some ((), set_c_dbg (set_errno CSP_DBG_ERR_REFCOUNT (c_dbg s))
              (set_c_pool (<[b := mk_skbf (refcount k - 1) b (skbf_data k)]> (c_pool s)) s)).
Proof.
  intros Hi Hk Hr. destruct (bi_pool s Hi _ _ Hk) as (Ha & _ & Hu).
  unfold csp_buffer_free, buffer_free_with. st_unfold. rewrite Hk; simpl.
  rewrite bool_decide_false by (by intros []). rewrite bool_decide_false by lia.
  assert (u32 (refcount k - 1) = refcount k - 1) as -> by mlia.
  rewrite bool_decide_true by lia. by rewrite Ha.
Qed.

(** Freeing a free buffer only sets the error number. *)
Lemma csp_buffer_free_twice s b k :
  buf_inv s → c_pool s !! b = Some k → refcount k = 0 →
  csp_buffer_free (Some b) s = Some ((), set_c_dbg (set_errno CSP_DBG_ERR_ALREADY_FREE (c_dbg s)) s).
Proof.
  intros Hi Hk Hr. destruct (bi_pool s Hi _ _ Hk) as (Ha & _ & Hu).
  unfold csp_buffer_free, buffer_free_with. st_unfold. rewrite Hk; simpl.
  rewrite bool_decide_false by (by intros []). by rewrite bool_decide_true.
Qed.

Lemma buf_inv_refcount s b k n :
  buf_inv s → c_pool s !! b = Some k → refcount k ≠ 0 → n ≠ 0 → is_u32 n →
  buf_inv (set_c_pool (<[b := mk_skbf n b (skbf_data k)]> (c_pool s)) s).
Proof.
  intros Hi Hk Hr Hn Hu. pose proof (lookup_lt_Some _ _ _ Hk) as Hlt.
  destruct (bi_pool s Hi _ _ Hk) as (Ha & Hok & _).
  split; simpl; rewrite ?length_insert; try apply Hi.
  - intros i k' [(-> & <- & _)|(Hne & Hk')]%list_lookup_insert_Some; [|by apply Hi]. by split_and!.
  - intros i. rewrite (bi_free s Hi). split.
    + intros (k' & Hk' & Hr'). exists k'. split; [|done]. rewrite list_lookup_insert_ne; [done|].
      intros ->. congruence.
    + intros (k' & [(-> & <- & _)|(Hne & Hk')]%list_lookup_insert_Some & Hr'); eauto. done.
Qed.

Lemma buf_inv_release s b k :
  buf_inv s → c_pool s !! b = Some k → refcount k ≠ 0 →
  buf_inv (set_c_free (mk_fifo (fq_cap (c_free s)) (fq_items (c_free s) ++ [b]))
              (set_c_pool (<[b := mk_skbf 0 b (skbf_data k)]> (c_pool s)) s)).
Proof.
  intros Hi Hk Hr. pose proof (lookup_lt_Some _ _ _ Hk) as Hlt.
  destruct (bi_pool s Hi _ _ Hk) as (Ha & Hok & _).
  assert (b ∉ fq_items (c_free s)) as Hnb.
  { intros (k' & Hk' & ?)%(bi_free s Hi). congruence. }
  split; simpl; rewrite ?length_insert.
  - intros i k' [(-> & <- & _)|(Hne & Hk')]%list_lookup_insert_Some; [|by apply Hi].
    split_and!; simpl; [done|done|mlia].
  - apply Hi.
  - apply NoDup_app. split_and!; [apply Hi| |apply NoDup_singleton].
    intros x Hx ->%list_elem_of_singleton. done.
  - intros i. rewrite elem_of_app, list_elem_of_singleton, (bi_free s Hi). split.
    + intros [(k' & Hk' & Hr')| ->].
      * exists k'. rewrite list_lookup_insert_ne; [done|]. intros ->. congruence.
      * eexists; split; [by apply list_lookup_insert_eq|done].
    + intros (k' & [(-> & <- & _)|(Hne & Hk')]%list_lookup_insert_Some & Hr'); eauto.
Qed.

Lemma csp_buffer_free_spec s b :
  buf_inv s → (b < List.length (c_pool s))%nat →
  ∃ s', csp_buffer_free (Some b) s = Some ((), s') ∧ buf_inv s'.
Proof.
  intros Hi [k Hk]%lookup_lt_is_Some. destruct (bi_pool s Hi _ _ Hk) as (Ha & Hok & Hu).
  destruct (decide (refcount k = 0)) as [H0|H0]; [|destruct (decide (refcount k = 1)) as [H1|H1]].
  - eexists; split; [by eapply csp_buffer_free_twice|]. by apply (buf_inv_ext s).
  - eexists; split; [by eapply csp_buffer_free_last|]. by apply buf_inv_release.
  - eexists; split; [eapply csp_buffer_free_more; try done; mlia|].
    eapply (buf_inv_ext (set_c_pool _ s)); [done|done|].
    apply buf_inv_refcount; try done; mlia.
Qed.

(** The two states differ at most in the pool, the free queue and the debug
    counters. *)
Definition pool_only s s' : Prop :=
  s' = set_c_dbg (c_dbg s') (set_c_free (c_free s') (set_c_pool (c_pool s') s)).

Lemma csp_buffer_free_frame s (b : option nat) s' : csp_buffer_free b s = Some ((), s') → pool_only s s'.
Proof.
  destruct b as [b|]; [|intros [= <-]; by destruct s].
  unfold csp_buffer_free, buffer_free_with. st_unfold. destruct (c_pool s !! b) as [k|]; simpl; [|done].
  repeat case_bool_decide; intros [= <-]; by destruct s.
Qed.

Lemma csp_buffer_get_frame s r s' : csp_buffer_get s = Some (r, s') → pool_only s s'.
Proof.
  unfold csp_buffer_get, buffer_get_with, csp_queue_dequeue. st_unfold.
  destruct (fq_items (c_free s)) as [|b l]; simpl; [intros [= <- <-]; by destruct s|].
  destruct (c_pool s !! b) as [k|]; simpl; [|done].
  case_bool_decide; intros [= <- <-]; by destruct s.
Qed.

(** Freeing changes no packet, and no other buffer's reference count. *)
Lemma csp_buffer_free_data s b s' :
  csp_buffer_free (Some b) s = Some ((), s') →
  (∀ a, skbf_data <$> c_pool s' !! a = skbf_data <$> c_pool s !! a) ∧
  (∀ a, a ≠ b → c_pool s' !! a = c_pool s !! a).
Proof.
  unfold csp_buffer_free, buffer_free_with. st_unfold. destruct (c_pool s !! b) as [k|] eqn:Hk; simpl; [|done].
  assert (∀ n a, skbf_data <$> <[b:=mk_skbf n (skbf_addr k) (skbf_data k)]> (c_pool s) !! a
                 = skbf_data <$> c_pool s !! a) as Hd.
  { intros n a. destruct (decide (b = a)) as [<-|].
    - rewrite list_lookup_insert_eq by (by eapply lookup_lt_Some). by rewrite Hk.
    - by rewrite list_lookup_insert_ne. }
  repeat case_bool_decide; intros [= <-]; simpl; (split; [done|]); intros a Ha; try done;
    by rewrite list_lookup_insert_ne.
Qed.
End BufferLemmas.

(** ** Cloning *)

Section CloneLemmas.
Implicit Types (s : csp_core) (b c : nat) (p q : csp_packet_t).

Lemma clone_into_mem_length b p q :
  packet_ok p → packet_ok q → List.length (pk_mem (clone_into b p q)) = List.length (pk_mem p).
Proof.
  intros Hp Hq. pose proof (po_mem _ Hp). pose proof (po_mem _ Hq). pose proof (po_length _ Hp).
  simpl. rewrite length_app, length_take, length_drop. sizes. mlia.
Qed.

Lemma clone_into_ok b p q : packet_ok p → packet_ok q → packet_ok (clone_into b p q).
Proof.
  intros Hp Hq. pose proof (clone_into_mem_length b p q Hp Hq) as Hl.
  split; try apply Hp; simpl in *.
  - rewrite Hl. apply Hp.
  - apply Forall_app; split; [apply Forall_take, Hp|apply Forall_drop, Hq].
Qed.

(** The clone has the payload of the original. *)
Lemma clone_into_payload b p q :
  packet_ok p → packet_ok q → pk_length p ≤ CSP_BUFFER_SIZE →
  payload (clone_into b p q) = payload p.
Proof.
  intros Hp Hq Hl. pose proof (clone_into_mem_length b p q Hp Hq) as Hml.
  pose proof (po_mem _ Hp) as Hm. pose proof (po_length _ Hp) as Hu.
  unfold payload, data_read. apply mem_read_ext; [done|].
  change (pk_length (clone_into b p q)) with (pk_length p). intros i Hi. simpl.
  rewrite lookup_app_l by (rewrite length_take; sizes; mlia).
  apply lookup_take_lt. sizes. mlia.
Qed.

Lemma csp_buffer_clone_spec s b k :
  buf_inv s → c_pool s !! b = Some k → refcount k ≠ 0 →
  (∃ s', csp_buffer_clone (Some b) s = Some (None, s') ∧ fq_items (c_free s) = [] ∧
         buf_inv s' ∧ c_pool s' = c_pool s) ∨
  (∃ c q s', csp_buffer_clone (Some b) s = Some (Some c, s') ∧ buf_inv s' ∧ c ≠ b ∧
     ¬ allocated s c ∧ packet_ok q ∧
     c_free s' = mk_fifo (fq_cap (c_free s)) (drop 1 (fq_items (c_free s))) ∧
     fq_items (c_free s) = c :: drop 1 (fq_items (c_free s)) ∧
     c_pool s' = <[c := mk_skbf 1 c (clone_into b (skbf_data k) q)]> (c_pool s)).
Proof.
  intros Hi Hk Hr. unfold csp_buffer_clone. destruct (bi_pool s Hi _ _ Hk) as (Ha & Hok & _).
  destruct (csp_buffer_get_spec s Hi) as
    [(s1 & Hg & He & Hi1 & Hp1 & Hf1)|(c & kc & s1 & Hg & Hi1 & Hkc & Hrc & Hf1 & Hs1)].
  - left. exists s1. st_unfold. rewrite Hk; simpl. rewrite Hg. done.
  - right. assert (c ≠ b) as Hne by (intros ->; congruence).
    destruct (bi_pool s Hi _ _ Hkc) as (Hac & Hokc & _).
    pose proof (lookup_lt_Some _ _ _ Hkc) as Hlt.
    assert (c_pool s1 = <[c := mk_skbf 1 c (set_pk_id csp_id_clear (skbf_data kc))]> (c_pool s)) as Hp1
      by (rewrite Hs1; done).
    assert (c_pool s1 !! c = Some (mk_skbf 1 c (set_pk_id csp_id_clear (skbf_data kc)))) as Hc1
      by (rewrite Hp1; by apply list_lookup_insert_eq).
    assert (c_pool s1 !! b = Some k) as Hb1 by (rewrite Hp1; by rewrite list_lookup_insert_ne).
    exists c, (set_pk_id csp_id_clear (skbf_data kc)).
    eexists; split.
    { st_unfold. rewrite Hk; simpl. rewrite Hg. rewrite Hb1; simpl. rewrite Hc1; simpl. rewrite Hc1; simpl. reflexivity. }
    split_and!; simpl.
    + apply (buf_inv_put_packet s1 c _ (clone_into b (skbf_data k) (set_pk_id csp_id_clear (skbf_data kc))) Hi1 Hc1).
      apply clone_into_ok; [done|by apply clear_id_ok].
    + done.
    + intros (k' & Hk' & ?). congruence.
    + by apply clear_id_ok.
    + rewrite Hs1. simpl. by rewrite Hf1.
    + by rewrite Hf1.
    + rewrite Hp1. by rewrite list_insert_insert_eq.
Qed.
End CloneLemmas.

(** ** Counting *)

Section Counting.
Context {A : Type} (P : A → Prop) `{!∀ a, Decision (P a)}.

(** The indices, from [off] on, of the elements that satisfy [P]. *)
Fixpoint idx_of (off : nat) (l : list A) : list nat :=
  match l with
  | [] => []
  | a :: l' => if decide (P a) then off :: idx_of (S off) l' else idx_of (S off) l'
  end.

Lemma length_idx_of off l : List.length (idx_of off l) = List.length (filter P l).
Proof.
  revert off. induction l as [|a l IH]; intros off; simpl; [done|].
  rewrite filter_cons. case_decide; simpl; by rewrite IH.
Qed.

Lemma elem_of_idx_of off l i :
  i ∈ idx_of off l ↔ ∃ j a, i = (off + j)%nat ∧ l !! j = Some a ∧ P a.
Proof.
  revert off. induction l as [|a l IH]; intros off; simpl.
  - split; [by intros ?%not_elem_of_nil|]. by intros (? & ? & ? & ? & ?).
  - assert (i ∈ idx_of (S off) l ↔ ∃ j x, i = (off + S j)%nat ∧ l !! j = Some x ∧ P x) as IH'.
    { rewrite IH. split; intros (j & x & Hi & Hx & Hp); exists j, x; (split_and!; [lia|done|done]). }
    case_decide as Hp; rewrite ?elem_of_cons, IH'; split.
    + intros [->|(j & x & -> & Hx & Hpx)]; [exists 0%nat, a|exists (S j), x]; split_and!; auto; lia.
    + intros ([|j] & x & -> & Hx & Hpx); [left; lia|right; eauto].
    + intros (j & x & -> & Hx & Hpx). exists (S j), x. done.
    + intros ([|j] & x & -> & Hx & Hpx); [|eauto]. injection Hx as <-. done.
Qed.

Lemma NoDup_idx_of off l : NoDup (idx_of off l).
Proof.
  revert off. induction l as [|a l IH]; intros off; simpl; [constructor|].
  case_decide; [|done]. constructor; [|done].
  rewrite elem_of_idx_of. intros (j & x & ? & _). lia.
Qed.

Lemma length_filter_compl l :
  (List.length (filter P l) + List.length (filter (λ a, ¬ P a) l) = List.length l)%nat.
Proof.
  induction l as [|a l IH]; [done|]. rewrite !filter_cons.
  repeat case_decide; simpl; (lia || done).
Qed.
End Counting.

Lemma buf_inv_conservation s :
  buf_inv s → (used_count s + List.length (fq_items (c_free s)) = List.length (c_pool s))%nat.
Proof.
  intros Hi.
  assert (fq_items (c_free s) ≡ₚ idx_of (λ k, refcount k = 0) 0 (c_pool s)) as Hperm.
  { apply NoDup_Permutation; [apply Hi|apply NoDup_idx_of|]. intros i.
    rewrite (bi_free s Hi), elem_of_idx_of. split.
    - intros (k & ? & ?). by exists i, k.
    - intros (j & k & -> & ? & ?). by exists k. }
  rewrite Hperm, length_idx_of. unfold used_count.
  rewrite <- (length_filter_compl (λ k, refcount k = 0) (c_pool s)). lia.
Qed.

(** ** Reachable pools *)

(** One call of a client of the pool.  A client may free any buffer of the pool (a
    double free included), clones and takes references of buffers in use, and
    writes well-formed packets into them. *)
Inductive buf_step (s : csp_core) : csp_core → Prop :=
  | step_get r s' : csp_buffer_get s = Some (r, s') → buf_step s s'
  | step_get_isr r s' : csp_buffer_get_isr s = Some (r, s') → buf_step s s'
  | step_free b s' : (b < List.length (c_pool s))%nat →
      csp_buffer_free (Some b) s = Some ((), s') → buf_step s s'
  | step_free_isr b s' : (b < List.length (c_pool s))%nat →
      csp_buffer_free_isr (Some b) s = Some ((), s') → buf_step s s'
  | step_clone b r s' : allocated s b → csp_buffer_clone (Some b) s = Some (r, s') → buf_step s s'
  | step_refc_inc b k s' : c_pool s !! b = Some k → 0 < refcount k < 4294967295 →
      csp_buffer_refc_inc (Some b) s = Some ((), s') → buf_step s s'
  | step_write b p s' : allocated s b → packet_ok p → put_packet b p s = Some ((), s') → buf_step s s'.

Lemma buf_step_inv s s' : buf_inv s → buf_step s s' → buf_inv s' ∧ List.length (c_pool s') = List.length (c_pool s).
Proof.
  intros Hi Hstep.
  assert (∀ b s2, (b < List.length (c_pool s))%nat → csp_buffer_free (Some b) s = Some ((), s2) →
    buf_inv s2 ∧ List.length (c_pool s2) = List.length (c_pool s)) as Hfree.
  { intros b s2 Hb H. destruct (csp_buffer_free_spec s b Hi Hb) as (s3 & H3 & Hi3).
    assert (s3 = s2) as <- by congruence. split; [done|].
    rewrite <- (bi_cap _ Hi3), <- (bi_cap _ Hi). clear -H.
    unfold csp_buffer_free, buffer_free_with in H. revert H. st_unfold.
    destruct (c_pool s !! b); simpl; [|done].
    repeat case_bool_decide; intros [= <-]; simpl; try done.
    unfold csp_queue_enqueue. by case_bool_decide. }
  assert (∀ r s2, csp_buffer_get s = Some (r, s2) →
    buf_inv s2 ∧ List.length (c_pool s2) = List.length (c_pool s)) as Hget.
  { intros r s2 H. destruct (csp_buffer_get_spec s Hi) as
      [(s1 & Hg & He & Hi1 & Hp1 & Hf1)|(c & kc & s1 & Hg & Hi1 & Hkc & Hrc & Hf1 & Hs1)];
      assert (s1 = s2) as <- by congruence; (split; [done|]); [by rewrite Hp1|].
    rewrite Hs1. simpl. by rewrite length_insert. }
  destruct Hstep as [r s' H|r s' H|b s' Hb H|b s' Hb H|b r s' [k [Hk Hr]] H|b k s' Hk Hr H|b p s' [k [Hk Hr]] Hp H];
    eauto.
  - destruct (csp_buffer_clone_spec s b k Hi Hk Hr) as
      [(s1 & Hc & _ & Hi1 & Hp1)|(c & q & s1 & Hc & Hi1 & _ & _ & _ & _ & _ & Hp1)];
      assert (s1 = s') as <- by congruence; split; try done; rewrite Hp1; by rewrite ?length_insert.
  - destruct (bi_pool s Hi _ _ Hk) as (Ha & _ & Hu).
    unfold csp_buffer_refc_inc in H. revert H. st_unfold. rewrite Hk; simpl.
    rewrite bool_decide_false by (by intros []). rewrite Ha, u32_id by mlia. intros [= <-].
    split; [apply buf_inv_refcount; try done; mlia|simpl; by rewrite length_insert].
  - revert H. st_unfold. rewrite Hk; simpl. intros [= <-].
    split; [by apply buf_inv_put_packet|simpl; by rewrite length_insert].
Qed.

(** Memory as the loader leaves it: zero reference counts, packets of the right
    size. *)
Definition pool_fresh (s : csp_core) : Prop :=
  ∀ i k, c_pool s !! i = Some k → refcount k = 0 ∧ packet_ok (skbf_data k).

Lemma enqueue_all (l : list nat) : ∀ q : fifo nat, (List.length (fq_items q) + List.length l ≤ fq_cap q)%nat →
  foldl (λ q i, (csp_queue_enqueue q i).2) q l = mk_fifo (fq_cap q) (fq_items q ++ l).
Proof.
  induction l as [|x l IH]; intros q Hq; simpl in *.
  - rewrite app_nil_r. by destruct q.
  - rewrite csp_queue_enqueue_ok by lia. simpl. rewrite IH; simpl; [|rewrite length_app; simpl; lia].
    by rewrite <- app_assoc.
Qed.

Lemma csp_buffer_init_inv s : pool_fresh s → buf_inv (csp_buffer_init s).
Proof.
  intros Hf. unfold csp_buffer_init. rewrite enqueue_all by (simpl; by rewrite length_seq).
  split; simpl.
  - intros i k. rewrite list_lookup_imap. destruct (c_pool s !! i) as [k'|] eqn:Hk; simpl; [|done].
    intros [= <-]. simpl. destruct (Hf _ _ Hk) as [Hr Hp]. split_and!; [done|done|rewrite Hr; mlia].
  - by rewrite length_imap.
  - apply NoDup_seq.
  - intros i. rewrite elem_of_seq. split.
    + intros [_ Hlt]. destruct (lookup_lt_is_Some_2 (c_pool s) i) as [k Hk]; [lia|].
      exists (mk_skbf (refcount k) i (skbf_data k)). rewrite list_lookup_imap, Hk; simpl.
      split; [done|]. by destruct (Hf _ _ Hk).
    + intros (k & Hk & _). rewrite list_lookup_imap in Hk.
      destruct (c_pool s !! i) eqn:E; [|done]. apply lookup_lt_Some in E. lia.
Qed.

(** C7: no sequence of pool calls corrupts the pool.  From freshly initialised
    memory, after any sequence of get, free (double frees included), clone,
    reference and write calls, every buffer is in the free queue exactly once if
    its reference count is zero and not at all otherwise, and the buffers in use
    and the free ones add up to the pool: buffers are neither lost nor handed out
    twice. *)
Theorem buffer_pool_invariant (s0 s : csp_core) :
  pool_fresh s0 → rtc buf_step (csp_buffer_init s0) s →
  buf_inv s ∧ (used_count s + List.length (fq_items (c_free s)) = List.length (c_pool s0))%nat.
Proof.
  intros Hf Hrtc.
  assert (buf_inv s ∧ List.length (c_pool s) = List.length (c_pool s0)) as [Hi Hl].
  { revert s Hrtc. apply rtc_ind_r.
    - split; [by apply csp_buffer_init_inv|]. unfold csp_buffer_init; simpl. by rewrite length_imap.
    - intros s s' _ Hstep [Hi Hl]. destruct (buf_step_inv s s' Hi Hstep) as [Hi' Hl'].
      split; [done|congruence]. }
  split; [done|]. rewrite <- Hl. by apply buf_inv_conservation.
Qed.

(** A state with a pool of two zeroed buffers, for concrete runs. *)
Definition empty_packet : csp_packet_t :=
  mk_packet 0 0 0 0 UUninit 0 0 (mk_id 0 0 0 0 0 0) None (replicate (Z.to_nat 2056) 0).
Definition core_with (pool : list csp_skbf_t) : csp_core :=
  mk_core 2 0 dbg_zero pool (mk_fifo 0 []) (mk_fifo 4 []) ∅ None ∅ ∅ [].
Definition two_buffers : csp_core :=
  core_with [mk_skbf 0 0 empty_packet; mk_skbf 0 0 empty_packet].

Lemma empty_packet_ok : packet_ok empty_packet.
Proof. by split; try (vm_compute; intuition congruence); apply (bool_decide_unpack _); vm_compute. Qed.

Lemma two_buffers_fresh : pool_fresh two_buffers.
Proof.
  intros [|[|i]] k; simpl; try (intros [= <-]; split; [done|apply empty_packet_ok]).
  done.
Qed.

Definition after_get : csp_core :=
  match csp_buffer_get (csp_buffer_init two_buffers) with Some (_, s) => s | None => two_buffers end.
Definition after_free : csp_core :=
  match csp_buffer_free (Some 0%nat) after_get with Some (_, s) => s | None => two_buffers end.

Lemma buffer_pool_invariant_witness :
  rtc buf_step (csp_buffer_init two_buffers) after_free ∧
  buf_inv after_free ∧ (used_count after_free + List.length (fq_items (c_free after_free)) = 2)%nat.
Proof.
  assert (rtc buf_step (csp_buffer_init two_buffers) after_free) as Hrtc.
  { eapply rtc_l; [apply (step_get _ (Some 0%nat) after_get); vm_compute; reflexivity|].
    eapply rtc_l; [apply (step_free _ 0 after_free); [vm_compute; lia|vm_compute; reflexivity]|].
    apply rtc_refl. }
  split; [done|]. apply (buffer_pool_invariant two_buffers after_free); [apply two_buffers_fresh|done].
Defined.

(** [csp_buffer_get] on a well-formed pool never reads outside the pool.  It
    returns [NULL] exactly when no buffer is free, and then changes only the
    [csp_dbg_buffer_out] counter; otherwise it returns a buffer that was not in
    use, with one reference and a cleared identifier, and leaves every other
    buffer untouched. *)
Theorem csp_buffer_get_exclusive (s : csp_core) :
  buf_inv s →
  ∃ r s', csp_buffer_get s = Some (r, s') ∧ buf_inv s' ∧
    (r = None ↔ (∀ b, (b < List.length (c_pool s))%nat → allocated s b)) ∧
    match r with
    | None => c_pool s' = c_pool s ∧ c_dbg s' = inc_buffer_out (c_dbg s)
    | Some b =>
        ¬ allocated s b ∧ c_dbg s' = c_dbg s ∧
        (∃ k, c_pool s' !! b = Some k ∧ refcount k = 1 ∧ pk_id (skbf_data k) = mk_id 0 0 0 0 0 0) ∧
        ∀ i, i ≠ b → c_pool s' !! i = c_pool s !! i
    end.
Proof.
  intros Hi.
  destruct (csp_buffer_get_spec s Hi) as
    [(s' & Hg & He & Hi' & Hp & Hf)|(b & k & s' & Hg & Hi' & Hk & Hr & Hf & Hs)].
  - exists None, s'. split_and!; try done.
    + split; [|done]. intros _ b [k Hk]%lookup_lt_is_Some. exists k. split; [done|]. intros H0.
      assert (b ∈ fq_items (c_free s)) as Hin by (apply Hi; eauto). rewrite He in Hin. set_solver.
    + rewrite csp_buffer_get_empty in Hg by done. by injection Hg as <-.
  - exists (Some b), s'. pose proof (lookup_lt_Some _ _ _ Hk) as Hlt. split_and!; try done.
    + split; [done|]. intros Hall. destruct (Hall b Hlt) as (k' & Hk' & ?). congruence.
    + intros (k' & Hk' & ?). congruence.
    + by rewrite Hs.
    + eexists. rewrite Hs; simpl. by rewrite list_lookup_insert_eq.
    + intros i Hne. rewrite Hs; simpl. by rewrite list_lookup_insert_ne.
Qed.

Lemma csp_buffer_get_exclusive_witness :
  ∃ r s', csp_buffer_get (csp_buffer_init two_buffers) = Some (r, s') ∧ buf_inv s'.
Proof.
  destruct (csp_buffer_get_exclusive (csp_buffer_init two_buffers)) as (r & s' & H & Hi & _).
  - apply csp_buffer_init_inv, two_buffers_fresh.
  - eauto.
Defined.

(** the three outcomes of [csp_buffer_free] on a well-formed pool.  Freeing a
    buffer with several references drops one; freeing the last reference returns
    the buffer to the end of the free queue; freeing a free buffer is detected and
    changes nothing but [csp_dbg_errno]; [NULL] is ignored. *)
Theorem csp_buffer_free_outcomes (s : csp_core) (b : nat) (k : csp_skbf_t) :
  buf_inv s → c_pool s !! b = Some k →
  csp_buffer_free None s = Some ((), s) ∧
  csp_buffer_free (Some b) s = Some ((),
    if bool_decide (refcount k = 0) then set_c_dbg (set_errno CSP_DBG_ERR_ALREADY_FREE (c_dbg s)) s
    else
      let s' := set_c_pool (<[b := mk_skbf (refcount k - 1) b (skbf_data k)]> (c_pool s)) s in
      if bool_decide (refcount k = 1)
      then set_c_free (mk_fifo (fq_cap (c_free s)) (fq_items (c_free s) ++ [b])) s'
      else set_c_dbg (set_errno CSP_DBG_ERR_REFCOUNT (c_dbg s)) s').
Proof.
  intros Hi Hk. destruct (bi_pool s Hi _ _ Hk) as (_ & _ & Hu). split; [done|].
  case_bool_decide as H0; [by eapply csp_buffer_free_twice|].
  case_bool_decide as H1.
  - rewrite (csp_buffer_free_last s b k) by done. by rewrite H1.
  - apply csp_buffer_free_more; try done. mlia.
Qed.

Lemma csp_buffer_free_outcomes_witness :
  ∃ k, c_pool (csp_buffer_init two_buffers) !! 1%nat = Some k ∧
  csp_buffer_free (Some 1%nat) (csp_buffer_init two_buffers) =
  Some ((), set_c_dbg (set_errno CSP_DBG_ERR_ALREADY_FREE dbg_zero) (csp_buffer_init two_buffers)).
Proof.
  exists (mk_skbf 0 1 empty_packet). split; [reflexivity|].
  apply (csp_buffer_free_outcomes (csp_buffer_init two_buffers) 1 (mk_skbf 0 1 empty_packet)).
  - apply csp_buffer_init_inv, two_buffers_fresh.
  - reflexivity.
Defined.

(** A clone is a different, previously unused buffer with the identifier,
    length and payload of the original, and cloning changes no other buffer; when
    no buffer is free it returns [NULL]. *)
Theorem csp_buffer_clone_copies (s : csp_core) (b : nat) (p : csp_packet_t) :
  buf_inv s → allocated s b → packet_at s b p → pk_length p ≤ CSP_BUFFER_SIZE →
  ∃ r s', csp_buffer_clone (Some b) s = Some (r, s') ∧ buf_inv s' ∧
    match r with
    | None => fq_items (c_free s) = [] ∧ c_pool s' = c_pool s
    | Some c =>
        c ≠ b ∧ ¬ allocated s c ∧ (∀ i, i ≠ c → c_pool s' !! i = c_pool s !! i) ∧
        ∃ q, packet_at s' c q ∧ pk_id q = pk_id p ∧ pk_length q = pk_length p ∧
             payload q = payload p
    end.
Proof.
  intros Hi (k & Hk & Hr) (k' & Hk' & Hp) Hl. assert (k' = k) as -> by congruence.
  destruct (bi_pool s Hi _ _ Hk) as (_ & Hok & _).
  destruct (csp_buffer_clone_spec s b k Hi Hk Hr) as
    [(s' & Hc & He & Hi' & Hp')|(c & q & s' & Hc & Hi' & Hne & Hna & Hq & _ & Hf & Hp')].
  - exists None, s'. done.
  - exists (Some c), s'. split_and!; try done.
    + intros i Hic. rewrite Hp'. by rewrite list_lookup_insert_ne.
    + exists (clone_into b (skbf_data k) q). subst p. split_and!; try done.
      * eexists. rewrite Hp', list_lookup_insert_eq; [done|].
        apply (buf_inv_free_lt s c Hi). rewrite Hf. by left.
      * by apply clone_into_payload.
Qed.

Lemma csp_buffer_clone_copies_witness :
  ∃ r s', csp_buffer_clone (Some 0%nat) after_get = Some (r, s') ∧ buf_inv s'.
Proof.
  destruct (csp_buffer_clone_copies after_get 0 empty_packet) as (r & s' & H & Hi & _).
  - apply (buf_step_inv (csp_buffer_init two_buffers)).
    + apply csp_buffer_init_inv, two_buffers_fresh.
    + apply (step_get _ (Some 0%nat)). vm_compute. reflexivity.
  - exists (mk_skbf 1 0 empty_packet). split; [vm_compute; reflexivity|done].
  - exists (mk_skbf 1 0 empty_packet). split; [vm_compute; reflexivity|done].
  - vm_compute. congruence.
  - eauto.
Defined.

(** ** An example state

    Two buffers, the first in use with packet [p], and interface 5 with private
    data for either kind of link. *)
Definition link_example (p : csp_packet_t) : csp_core :=
  mk_core 2 0 dbg_zero [mk_skbf 1 0 p; mk_skbf 0 1 empty_packet] (mk_fifo 2 [1%nat]) (mk_fifo 4 [])
    {[5%nat := new_iface 21 8 "LINK" NexthopNone 1]} (Some 5%nat)
    {[5%nat := mk_kiss KISS_MODE_NOT_STARTED 0 false None]} {[5%nat := mk_can 0 None]} [].

Lemma link_example_inv p : packet_ok p → buf_inv (link_example p).
Proof.
  intros Hp. split.
  - intros [|[|i]] k; simpl; [intros [= <-]; by split_and!|intros [= <-]|done].
    split_and!; [done|apply empty_packet_ok|done..].
  - done.
  - apply NoDup_singleton.
  - intros i. simpl. rewrite list_elem_of_singleton. split.
    + intros ->. eexists. by split.
    + intros (k & Hk & Hr). destruct i as [|[|i]]; simpl in Hk; [injection Hk as <-; done|done|done].
Qed.
