(* ===== verification/Rtable.v ===== *)
(** * The routing table

    [lib/csp/src/csp_rtable_cidr.c]: the static table of routes, longest-prefix
    lookup, the backward search for parallel routes, insertion and clearing. *)

From S2P Require Import Prelude Types Id.

(** [csp_route_t] *)
Record csp_route_t := mk_route {
  rt_address : Z;
  rt_netmask : Z;
  rt_via : Z;
  rt_iface : option nat;
}.

#[export] Instance csp_route_eq_dec : EqDecision csp_route_t.
Proof. solve_decision. Defined.

(** The static variables [rtable] and [rtable_inptr]; a route pointer is an index. *)
Record rtable_t := mk_rtable {
  rtable : list csp_route_t;
  rtable_inptr : Z;
}.

Definition route_zero : csp_route_t := mk_route 0 0 0 None.
Definition rtable_init : rtable_t :=
  mk_rtable (replicate (Z.to_nat CSP_RTABLE_SIZE) route_zero) 0.

(** ** Operations *)

(** The loop [for (i = 0; i < rtable_inptr; i++)] of [csp_rtable_find_exact];
    [n] iterations are left. *)
Fixpoint find_exact_from (t : rtable_t) (i n : nat) (addr netmask : Z) (ifc : option nat)
    : option (option nat) :=
  match n with
  | O => Some None
  | S n' =>
      r ← rtable t !! i;
      if bool_decide (rt_address r = addr ∧ rt_netmask r = netmask ∧ rt_iface r = ifc)
      then Some (Some i) else find_exact_from t (S i) n' addr netmask ifc
  end.

Definition csp_rtable_find_exact (t : rtable_t) (addr netmask : Z) (ifc : option nat)
    : option (option nat) :=
  find_exact_from t 0 (Z.to_nat (rtable_inptr t)) addr netmask ifc.

(** The loop of [csp_rtable_search_backward]; [n] is one more than the index of the
    route under test. *)
Fixpoint search_backward_from (t : rtable_t) (start : csp_route_t) (n : nat) : option (option nat) :=
  match n with
  | O => Some None
  | S i =>
      r ← rtable t !! i;
      if bool_decide (rt_netmask r = rt_netmask start ∧ rt_address r = rt_address start)
      then Some (Some i) else search_backward_from t start i
  end.

Definition csp_rtable_search_backward (t : rtable_t) (start_route : option nat) : option (option nat) :=
  match start_route with
  | None | Some O => Some None
  | Some i => start ← rtable t !! i; search_backward_from t start i
  end.

(** Does entry [r] match [addr]?  [None] when the shift is out of range. *)
Definition route_match (version : Z) (r : csp_route_t) (addr : Z) : option bool :=
  s ← shl1 (u32 (csp_id_get_host_bits version - rt_netmask r));
  let hostbits := u16 (s - 1) in
  let netbits := u16 (Z.lnot hostbits) in
  Some (bool_decide (Z.land (rt_address r) netbits = Z.land addr netbits)).

(** The loop of [csp_rtable_find_route], with its two accumulators. *)
Fixpoint find_route_from (version : Z) (t : rtable_t) (i n : nat) (addr : Z)
    (best_result : option nat) (best_result_mask : Z) : option (option nat) :=
  match n with
  | O => Some best_result
  | S n' =>
      r ← rtable t !! i;
      b ← route_match version r addr;
      if b && bool_decide (best_result_mask ≤ rt_netmask r)
      then find_route_from version t (S i) n' addr (Some i) (rt_netmask r)
      else find_route_from version t (S i) n' addr best_result best_result_mask
  end.

Definition csp_rtable_find_route (version : Z) (t : rtable_t) (addr : Z) : option (option nat) :=
  find_route_from version t 0 (Z.to_nat (rtable_inptr t)) addr None 0.

(** Writing the four fields of [rtable[i]]; outside the array this is undefined. *)
Definition route_fill (t : rtable_t) (i : nat) (r : csp_route_t) : option rtable_t :=
  if bool_decide (i < List.length (rtable t))%nat
  then Some (mk_rtable (<[i := r]> (rtable t)) (rtable_inptr t)) else None.

Definition csp_rtable_set_internal (t : rtable_t) (address netmask : Z) (ifc : option nat) (via : Z)
    : option (Z * rtable_t) :=
  entry ← csp_rtable_find_exact t address netmask ifc;
  let r := mk_route address netmask via ifc in
  match entry with
  | Some i => t' ← route_fill t i r; Some (CSP_ERR_NONE, t')
  | None =>
      let i := Z.to_nat (rtable_inptr t) in
      let inptr := rtable_inptr t + 1 in
      let inptr' := if bool_decide (CSP_RTABLE_SIZE < inptr) then CSP_RTABLE_SIZE else inptr in
      t' ← route_fill (mk_rtable (rtable t) inptr') i r;
      Some (CSP_ERR_NONE, t')
  end.

Definition csp_rtable_free (t : rtable_t) : rtable_t :=
  mk_rtable (replicate (List.length (rtable t)) route_zero) (rtable_inptr t).

Definition csp_rtable_clear (t : rtable_t) : rtable_t := csp_rtable_free t.

(** The third component tells whether [csp_dbg_errno] is set to
    [CSP_DBG_ERR_INVALID_RTABLE_ENTRY]. *)
Definition csp_rtable_set (version : Z) (t : rtable_t) (address netmask : Z) (ifc : option nat) (via : Z)
    : option (Z * rtable_t * option Z) :=
  let hb := csp_id_get_host_bits version in
  let netmask := if bool_decide (netmask < 0) || bool_decide (hb < netmask) then hb else netmask in
  if bool_decide (ifc = None) || bool_decide (hb < netmask)
  then Some (CSP_ERR_INVAL, t, Some CSP_DBG_ERR_INVALID_RTABLE_ENTRY)
  else '(rc, t') ← csp_rtable_set_internal t address netmask ifc via; Some (rc, t', None).

(** [csp_rtable_iterate]: the routes the iterator is called with, in order. *)
Definition csp_rtable_iterate {A} (iter : A → csp_route_t → A) (ctx : A) (t : rtable_t) : A :=
  foldl iter ctx (take (Z.to_nat (rtable_inptr t)) (rtable t)).

(** ** Invariant *)

Definition route_ok (version : Z) (r : csp_route_t) : Prop :=
  is_u16 (rt_address r) ∧ 0 ≤ rt_netmask r ≤ csp_id_get_host_bits version ∧ is_u16 (rt_via r).

Record rtable_ok (version : Z) (t : rtable_t) : Prop := {
  rto_len : Z.of_nat (List.length (rtable t)) = CSP_RTABLE_SIZE;
  rto_inptr : 0 ≤ rtable_inptr t ≤ CSP_RTABLE_SIZE;
  rto_routes : ∀ i r, rtable t !! i = Some r → route_ok version r;
}.

Lemma rtable_init_ok version : rtable_ok version rtable_init.
Proof.
  pose proof (host_bits_range version). split; [done|done|]. intros i r [-> _]%lookup_replicate. repeat split; cbn; lia.
Qed.

(** The routes in use. *)
Definition active (t : rtable_t) (i : nat) (r : csp_route_t) : Prop :=
  Z.of_nat i < rtable_inptr t ∧ rtable t !! i = Some r.

(** Route [r] covers [addr]: the two agree above the host bits. *)
Definition covers (version : Z) (r : csp_route_t) (addr : Z) : Prop :=
  net_part (csp_id_get_host_bits version - rt_netmask r) (rt_address r) =
  net_part (csp_id_get_host_bits version - rt_netmask r) addr.

#[export] Instance covers_dec version r addr : Decision (covers version r addr).
Proof. unfold covers; apply _. Defined.

Section RtableLemmas.
Context (v : Z).
Implicit Types (t : rtable_t) (r : csp_route_t) (i n : nat) (addr : Z).

(** Masking the host bits of a 16-bit address away. *)
Lemma land_netbits h a :
  0 ≤ h ≤ 14 → is_u16 a → Z.land a (u16 (Z.lnot (u16 (2 ^ h - 1)))) = net_part h a * 2 ^ h.
Proof.
  intros Hh Ha. assert (1 ≤ 2 ^ h ≤ 16384).
  { split; [apply (Z.pow_le_mono_r 2 0); lia|apply (Z.pow_le_mono_r 2 _ 14); lia]. }
  replace (u16 (Z.lnot (u16 (2 ^ h - 1)))) with (2 ^ 16 - 2 ^ h) by (unfold Z.lnot; mlia).
  apply land_prefix; [lia|]. by machine.
Qed.

Lemma route_match_spec r addr :
  route_ok v r → is_u16 addr → route_match v r addr = Some (bool_decide (covers v r addr)).
Proof.
  intros (Ha & Hn & _) Haddr. pose proof (host_bits_range v) as Hb. unfold route_match, covers.
  rewrite u32_id by mlia. rewrite shl1_Some by lia. monad. rewrite !land_netbits by (done || lia).
  f_equal. apply bool_decide_ext.
  assert (0 < 2 ^ (csp_id_get_host_bits v - rt_netmask r)) by (apply Z.pow_pos_nonneg; lia).
  split; [|by intros ->]. intros Heq. by apply Z.mul_cancel_r in Heq; [|lia].
Qed.

Lemma active_dom t n :
  rtable_ok v t → Z.of_nat n < rtable_inptr t → ∃ r, rtable t !! n = Some r ∧ route_ok v r.
Proof.
  intros Ht Hn. destruct (lookup_lt_is_Some_2 (rtable t) n) as [r Hr].
  { pose proof (rto_len v t Ht). pose proof (rto_inptr v t Ht). lia. }
  exists r. split; [done|]. by eapply rto_routes.
Qed.

(** Best match among the entries [lo .. hi). *)
Definition best_in t addr (hi : nat) (res : option nat) : Prop :=
  match res with
  | None => ∀ j r, (j < hi)%nat → rtable t !! j = Some r → ¬ covers v r addr
  | Some i =>
      (i < hi)%nat ∧ ∃ r, rtable t !! i = Some r ∧ covers v r addr ∧
      ∀ j r', (j < hi)%nat → rtable t !! j = Some r' → covers v r' addr →
        rt_netmask r' ≤ rt_netmask r ∧ ((i < j)%nat → rt_netmask r' < rt_netmask r)
  end.

Definition best_mask t (res : option nat) (m : Z) : Prop :=
  match res with None => m = 0 | Some i => ∃ r, rtable t !! i = Some r ∧ m = rt_netmask r end.

Lemma best_in_extend t addr i r best m :
  route_ok v r → rtable t !! i = Some r → best_in t addr i best → best_mask t best m →
  best_in t addr (S i) (if bool_decide (covers v r addr) && bool_decide (m ≤ rt_netmask r)
                        then Some i else best).
Proof.
  intros Hok Hr Hbest Hm. case_bool_decide as Hc; simpl; [case_bool_decide as Hle|].
  - split; [lia|]. exists r. split_and!; [done..|]. intros j r' Hj Hr' Hc'.
    destruct (decide (j = i)) as [->|]; [rewrite Hr in Hr'; injection Hr' as <-; lia|].
    split; [|lia]. destruct best as [b|]; simpl in *.
    + destruct Hbest as (_ & rb & Hrb & _ & Hall), Hm as (rb' & Hrb' & ->). simplify_eq.
      destruct (Hall j r') as [? _]; [lia|done|done|lia].
    + exfalso. apply (Hbest j r'); [lia|done|done].
  - destruct best as [b|]; simpl in *; [|destruct Hok as (_ & ? & _); lia].
    destruct Hbest as (Hb & rb & Hrb & Hcb & Hall), Hm as (rb' & Hrb' & ->). simplify_eq.
    split; [lia|]. exists rb. split_and!; [done..|]. intros j r' Hj Hr' Hc'.
    destruct (decide (j = i)) as [->|]; [simplify_eq; lia|]. apply Hall; [lia|done|done].
  - destruct best as [b|]; simpl in *.
    + destruct Hbest as (Hb & rb & Hrb & Hcb & Hall). split; [lia|]. exists rb. split_and!; [done..|].
      intros j r' Hj Hr' Hc'. destruct (decide (j = i)) as [->|]; [by simplify_eq|].
      apply Hall; [lia|done|done].
    + intros j r' Hj Hr'. destruct (decide (j = i)) as [->|]; [by simplify_eq|].
      apply (Hbest j); [lia|done].
Qed.

Lemma find_route_from_best t addr n : ∀ i best m,
  rtable_ok v t → is_u16 addr → Z.of_nat (i + n) = rtable_inptr t →
  best_in t addr i best → best_mask t best m →
  ∃ res, find_route_from v t i n addr best m = Some res ∧ best_in t addr (i + n) res.
Proof.
  induction n as [|n IH]; intros i best m Ht Haddr Hin Hbest Hm; simpl.
  { rewrite Nat.add_0_r. eauto. }
  destruct (active_dom t i Ht) as (r & Hr & Hrok); [lia|]. rewrite Hr. monad.
  rewrite route_match_spec by done. monad.
  pose proof (best_in_extend t addr i r best m Hrok Hr Hbest Hm) as Hext.
  rewrite <- Nat.add_succ_comm in *.
  destruct (_ && _); apply IH; try done. simpl. eauto.
Qed.
End RtableLemmas.

(** Looking up never leaves the table and finds the longest matching prefix, the
    last one entered among equally long ones. *)
Definition lpm_result (version : Z) (t : rtable_t) (addr : Z) (res : option nat) : Prop :=
  match res with
  | None => ∀ j r, active t j r → ¬ covers version r addr
  | Some i => ∃ r, active t i r ∧ covers version r addr ∧
      ∀ j r', active t j r' → covers version r' addr →
        rt_netmask r' ≤ rt_netmask r ∧ ((i < j)%nat → rt_netmask r' < rt_netmask r)
  end.

Lemma find_route_lpm (version : Z) (t : rtable_t) (addr : Z) :
  rtable_ok version t → is_u16 addr →
  ∃ res, csp_rtable_find_route version t addr = Some res ∧ lpm_result version t addr res.
Proof.
  intros Ht Haddr. pose proof (rto_inptr _ _ Ht) as Hin.
  destruct (find_route_from_best version t addr (Z.to_nat (rtable_inptr t)) 0 None 0)
    as (res & Hres & Hbest); [done..|lia|intros ????; lia|done|].
  exists res. split; [done|]. simpl in Hbest. destruct res as [i|]; simpl in *.
  - destruct Hbest as (Hi & r & Hr & Hc & Hall). exists r. split_and!; [split; [lia|done]|done|].
    intros j r' (Hj & Hr') Hc'. apply Hall; [lia|done..].
  - intros j r (Hj & Hr). apply (Hbest j); [lia|done].
Qed.

(** C16: for every address, [csp_rtable_find_route] returns the active route with
    the longest prefix that covers the address, the most recently entered one
    among routes of equal length, and NULL exactly when no active route covers it;
    it never reads outside the table nor shifts out of range. *)
Theorem csp_rtable_find_route_lpm (version : Z) (t : rtable_t) (addr : Z) :
  rtable_ok version t → is_u16 addr →
  ∃ res, csp_rtable_find_route version t addr = Some res ∧ lpm_result version t addr res.
Proof. apply find_route_lpm. Qed.

(** An example table: a default route, a subnet and a host route. *)
Definition rtable_example : rtable_t :=
  mk_rtable ([mk_route 0 0 CSP_NO_VIA_ADDRESS (Some 1%nat);
              mk_route 4096 8 7 (Some 2%nat);
              mk_route 4100 14 CSP_NO_VIA_ADDRESS (Some 3%nat)] ++ replicate 7 route_zero) 3.

Lemma rtable_example_ok : rtable_ok 2 rtable_example.
Proof.
  split; [done|by cbv|].
  intros i r. apply (Forall_lookup_1 (route_ok 2)). repeat constructor; by cbv.
Qed.

Lemma csp_rtable_find_route_lpm_witness :
  csp_rtable_find_route 2 rtable_example 4100 = Some (Some 2%nat) ∧
  ∃ res, csp_rtable_find_route 2 rtable_example 4101 = Some res ∧ lpm_result 2 rtable_example 4101 res.
Proof.
  split; [by vm_compute|].
  apply csp_rtable_find_route_lpm; [apply rtable_example_ok|by cbv].
Defined.

(** ** Parallel routes *)

(** Two entries for the same network. *)
Definition same_net (r r' : csp_route_t) : Prop :=
  rt_netmask r = rt_netmask r' ∧ rt_address r = rt_address r'.

#[export] Instance same_net_dec r r' : Decision (same_net r r').
Proof. unfold same_net; apply _. Defined.

Lemma search_backward_from_spec t start n :
  (n ≤ List.length (rtable t))%nat →
  ∃ res, search_backward_from t start n = Some res ∧
  match res with
  | None => ∀ j r, (j < n)%nat → rtable t !! j = Some r → ¬ same_net r start
  | Some i => (i < n)%nat ∧ ∃ r, rtable t !! i = Some r ∧ same_net r start ∧
      ∀ j r', (i < j < n)%nat → rtable t !! j = Some r' → ¬ same_net r' start
  end.
Proof.
  induction n as [|n IH]; intros Hn; simpl; [exists None; split; [done|]; simpl; intros; lia|].
  destruct (lookup_lt_is_Some_2 (rtable t) n) as [r Hr]; [lia|]. rewrite Hr. monad.
  case_bool_decide as Hs.
  - eexists; split; [done|]. split; [lia|]. exists r. split_and!; [done..|]. intros; lia.
  - destruct IH as (res & -> & Hres); [lia|]. exists res. split; [done|]. destruct res as [i|].
    + destruct Hres as (Hi & r' & Hr' & Hs' & Hall). split; [lia|]. exists r'. split_and!; [done..|].
      intros j r'' Hj Hr''. destruct (decide (j = n)) as [->|]; [by simplify_eq|].
      apply (Hall j); [lia|done].
    + intros j r'' Hj Hr''. destruct (decide (j = n)) as [->|]; [by simplify_eq|].
      apply (Hres j); [lia|done].
Qed.

(** ** Insertion *)

Definition same_key (r : csp_route_t) (address netmask : Z) (ifc : option nat) : Prop :=
  rt_address r = address ∧ rt_netmask r = netmask ∧ rt_iface r = ifc.

Lemma find_exact_from_spec t address netmask ifc n : ∀ i,
  (i + n ≤ List.length (rtable t))%nat →
  ∃ res, find_exact_from t i n address netmask ifc = Some res ∧
  match res with
  | None => ∀ j r, (i ≤ j < i + n)%nat → rtable t !! j = Some r → ¬ same_key r address netmask ifc
  | Some k => (i ≤ k < i + n)%nat ∧ ∃ r, rtable t !! k = Some r ∧ same_key r address netmask ifc
  end.
Proof.
  induction n as [|n IH]; intros i Hn; simpl; [exists None; split; [done|]; simpl; intros; lia|].
  destruct (lookup_lt_is_Some_2 (rtable t) i) as [r Hr]; [lia|]. rewrite Hr. monad.
  case_bool_decide as Hs.
  - eexists; split; [done|]. split; [lia|eauto].
  - destruct (IH (S i)) as (res & -> & Hres); [lia|]. exists res. split; [done|].
    destruct res as [k|].
    + destruct Hres as (Hk & Hex). split; [lia|done].
    + intros j r'' Hj Hr''. destruct (decide (j = i)) as [->|]; [by simplify_eq|].
      apply (Hres j); [lia|done].
Qed.

(** The prefix length [csp_rtable_set] stores. *)
Definition set_netmask (version netmask : Z) : Z :=
  let hb := csp_id_get_host_bits version in
  if bool_decide (0 ≤ netmask ≤ hb) then netmask else hb.

Lemma set_netmask_range version netmask :
  0 ≤ set_netmask version netmask ≤ csp_id_get_host_bits version.
Proof. pose proof (host_bits_range version). unfold set_netmask. case_bool_decide; lia. Qed.

Lemma csp_rtable_set_unfold version t address netmask ifc via :
  csp_rtable_set version t address netmask (Some ifc) via =
  '(rc, t') ← csp_rtable_set_internal t address (set_netmask version netmask) (Some ifc) via;
  Some (rc, t', None).
Proof.
  unfold csp_rtable_set, set_netmask. pose proof (host_bits_range version).
  rewrite (bool_decide_false (Some ifc = None)) by done.
  destruct (decide (0 ≤ netmask ≤ csp_id_get_host_bits version)) as [Hr|Hr].
  - rewrite (bool_decide_true (0 ≤ netmask ≤ _)), (bool_decide_false (netmask < 0)) by done || lia.
    rewrite (bool_decide_false (csp_id_get_host_bits version < netmask)) by lia.
    cbn [orb]. by rewrite bool_decide_false by lia.
  - rewrite (bool_decide_false (0 ≤ netmask ≤ _)) by done.
    replace (bool_decide (netmask < 0) || bool_decide (csp_id_get_host_bits version < netmask))
      with true by (repeat case_bool_decide; simpl; done || lia).
    by rewrite bool_decide_false by lia.
Qed.

Lemma rtable_ok_fill version t i r inptr :
  rtable_ok version t → route_ok version r → 0 ≤ inptr ≤ CSP_RTABLE_SIZE →
  rtable_ok version (mk_rtable (<[i := r]> (rtable t)) inptr).
Proof.
  intros Ht Hr Hin. split; simpl; [rewrite length_insert; apply Ht|done|].
  intros j r' [(-> & <- & _)|(_ & Hj)]%list_lookup_insert_Some; [done|]. by eapply rto_routes.
Qed.

(** What [csp_rtable_set] does with a valid interface: an entry with the same
    address, prefix length and interface is updated in place, otherwise a new
    entry is appended, and with a full table the store is out of bounds. *)
Definition set_outcome (version : Z) (t : rtable_t) (address netmask : Z) (ifc : nat) (via : Z)
    (res : option (Z * rtable_t * option Z)) : Prop :=
  let nm := set_netmask version netmask in
  let new := mk_route address nm via (Some ifc) in
  match res with
  | Some (rc, t', err) =>
      rc = CSP_ERR_NONE ∧ err = None ∧ rtable_ok version t' ∧
      ((∃ i r, active t i r ∧ same_key r address nm (Some ifc) ∧
          t' = mk_rtable (<[i := new]> (rtable t)) (rtable_inptr t)) ∨
       ((∀ i r, active t i r → ¬ same_key r address nm (Some ifc)) ∧
          rtable_inptr t < CSP_RTABLE_SIZE ∧
          t' = mk_rtable (<[Z.to_nat (rtable_inptr t) := new]> (rtable t)) (rtable_inptr t + 1)))
  | None =>
      (∀ i r, active t i r → ¬ same_key r address nm (Some ifc)) ∧
      rtable_inptr t = CSP_RTABLE_SIZE
  end.

Lemma rtable_set_spec (version : Z) (t : rtable_t) (address netmask via : Z) (ifc : nat) :
  rtable_ok version t → is_u16 address → is_u16 via →
  set_outcome version t address netmask ifc via (csp_rtable_set version t address netmask (Some ifc) via).
Proof.
  intros Ht Ha Hv.
  rewrite csp_rtable_set_unfold. unfold csp_rtable_set_internal, csp_rtable_find_exact.
  pose proof (set_netmask_range version netmask) as Hnm. set (nm := set_netmask version netmask) in *.
  pose proof (rto_inptr _ _ Ht) as Hin. pose proof (rto_len _ _ Ht) as Hlen.
  assert (route_ok version (mk_route address nm via (Some ifc))) as Hnew by (repeat split; simpl; mlia).
  destruct (find_exact_from_spec t address nm (Some ifc) (Z.to_nat (rtable_inptr t)) 0)
    as (res & -> & Hres); [lia|]. monad. unfold route_fill. destruct res as [k|].
  - destruct Hres as (Hk & r & Hr & Hkey). rewrite bool_decide_true by lia. monad.
    split_and!; [done..|by apply rtable_ok_fill|]. left. exists k, r. split_and!; [split; [lia|done]|done|done].
  - assert (∀ i r, active t i r → ¬ same_key r address nm (Some ifc)) as Hno.
    { intros i r (Hi & Hr). apply (Hres i); [lia|done]. }
    simpl. case_bool_decide as Hroom; monad.
    + split_and!; [done..| |].
      * apply rtable_ok_fill; [done..|]. case_bool_decide; lia.
      * right. split_and!; [done|lia|]. by rewrite bool_decide_false by lia.
    + split; [done|]. lia.
Qed.

(** [csp_rtable_set] rejects a NULL interface and leaves the table alone;
    otherwise it clamps the prefix length, updates the entry with the same key or
    appends one, keeps every other entry and the table invariant; when no entry
    matches and all ten are taken it writes past the end of the table. *)
Theorem csp_rtable_set_outcomes (version : Z) (t : rtable_t) (address netmask via : Z) (ifc : option nat) :
  rtable_ok version t → is_u16 address → is_u16 via →
  match ifc with
  | None => csp_rtable_set version t address netmask ifc via =
            Some (CSP_ERR_INVAL, t, Some CSP_DBG_ERR_INVALID_RTABLE_ENTRY)
  | Some i => set_outcome version t address netmask i via (csp_rtable_set version t address netmask ifc via)
  end.
Proof. intros. destruct ifc as [ifc|]; [by apply rtable_set_spec|done]. Qed.

Definition rtable_full : rtable_t :=
  mk_rtable ((λ i, mk_route (Z.of_nat i) 14 CSP_NO_VIA_ADDRESS (Some 1%nat)) <$> seq 0 10) 10.

Lemma rtable_full_ok : rtable_ok 2 rtable_full.
Proof.
  split; [done|by cbv|].
  intros i r. apply (Forall_lookup_1 (route_ok 2)). repeat constructor; by cbv.
Qed.

(** The eleventh route, and an accepted one. *)
Lemma csp_rtable_set_outcomes_witness :
  csp_rtable_set 2 rtable_full 10 14 (Some 1%nat) 7 = None ∧
  set_outcome 2 rtable_full 10 14 1 7 (csp_rtable_set 2 rtable_full 10 14 (Some 1%nat) 7) ∧
  set_outcome 2 rtable_example 10 14 1 7 (csp_rtable_set 2 rtable_example 10 14 (Some 1%nat) 7).
Proof.
  split; [by vm_compute|].
  split; apply (csp_rtable_set_outcomes 2 _ 10 14 7 (Some 1%nat));
    first [apply rtable_full_ok|apply rtable_example_ok|by cbv].
Defined.

Lemma csp_rtable_clear_lookup t i r : rtable (csp_rtable_clear t) !! i = Some r → r = route_zero.
Proof. simpl. by intros [-> _]%lookup_replicate. Qed.

Lemma csp_rtable_clear_ok version t : rtable_ok version t → rtable_ok version (csp_rtable_clear t).
Proof.
  intros Ht. split; simpl; [rewrite length_replicate; apply Ht|apply Ht|].
  intros i r ->%csp_rtable_clear_lookup. pose proof (host_bits_range version).
  repeat split; simpl; mlia.
Qed.

(** [csp_rtable_clear] zeroes the entries but keeps their number, so once a
    route has been set and the table cleared, every address of the network is
    routed to the last zeroed entry, whose interface pointer is NULL. *)
Theorem csp_rtable_clear_leaves_null_route (version : Z) (t : rtable_t) (addr : Z) :
  rtable_ok version t → 0 < rtable_inptr t → 0 ≤ addr ≤ csp_id_get_max_nodeid version →
  csp_rtable_find_route version (csp_rtable_clear t) addr =
    Some (Some (Z.to_nat (rtable_inptr t - 1))) ∧
  rtable (csp_rtable_clear t) !! Z.to_nat (rtable_inptr t - 1) = Some route_zero.
Proof.
  intros Ht Hpos Haddr. rewrite max_nodeid_pow in Haddr.
  pose proof (pow2_host_le version (csp_id_get_host_bits version)) as Hpow.
  pose proof (host_bits_range version) as Hb. pose proof (csp_rtable_clear_ok _ _ Ht) as Hc.
  assert (∀ i, Z.of_nat i < rtable_inptr t → active (csp_rtable_clear t) i route_zero) as Hact.
  { intros i Hi. destruct (active_dom version _ i Hc Hi) as (r & Hr & _). split; [done|].
    by rewrite Hr, (csp_rtable_clear_lookup _ _ _ Hr). }
  assert (covers version route_zero addr) as Hcov.
  { unfold covers, net_part. simpl. rewrite Z.sub_0_r, Z.div_0_l, Z.div_small; lia. }
  assert (active (csp_rtable_clear t) (Z.to_nat (rtable_inptr t - 1)) route_zero) as Hlast
    by (apply Hact; lia).
  split; [|apply Hlast].
  destruct (find_route_lpm version _ addr Hc) as (res & -> & Hres); [mlia|].
  do 2 f_equal. destruct res as [i|]; simpl in Hres; [|by destruct (Hres _ _ Hlast)].
  destruct Hres as (r & (Hi & Hr) & _ & Hall). apply csp_rtable_clear_lookup in Hr as ->.
  destruct (Hall _ _ Hlast Hcov) as [_ Hlt]. simpl in Hi, Hlt. f_equal.
  destruct (decide (i = Z.to_nat (rtable_inptr t - 1))) as [|Hne]; [done|lia].
Qed.

Lemma csp_rtable_clear_leaves_null_route_witness :
  csp_rtable_find_route 2 (csp_rtable_clear rtable_example) 77 = Some (Some 2%nat).
Proof.
  apply (csp_rtable_clear_leaves_null_route 2 rtable_example 77); [apply rtable_example_ok|by cbv..].
Defined.
