(* ===== verification/Qfifo.v ===== *)
(** * The router's input queue

    [lib/csp/src/csp_qfifo.c]: the queue through which interfaces hand received
    packets, and local sends to own addresses, to the router. *)

From S2P Require Import Prelude Queue Types State Buffer.

(** ** Operations *)

Definition csp_qfifo_init : C () :=
  modify (set_c_qfifo (csp_queue_create_static CSP_QFIFO_LEN)).

(** The element read, or [None] and [CSP_ERR_TIMEDOUT]. *)
Definition csp_qfifo_read : C (Z * option (option nat * option nat)) :=
  q ← gets c_qfifo;
  let '(r, q') := csp_queue_dequeue q in
  modify (set_c_qfifo q');;
  mret (if r is Some _ then (CSP_ERR_NONE, r) else (CSP_ERR_TIMEDOUT, None)).

(** [csp_buffer_free] or, in interrupt context, [csp_buffer_free_isr]. *)
Definition buffer_free_ctx (isr : bool) (packet : option nat) : C () :=
  if isr then csp_buffer_free_isr packet else csp_buffer_free packet.

(** [isr] is [pxTaskWoken != NULL]. *)
Definition csp_qfifo_write (packet iface : option nat) (isr : bool) : C () :=
  match packet with
  | None => errno CSP_DBG_ERR_INVALID_POINTER
  | Some _ =>
      match iface with
      | None => errno CSP_DBG_ERR_INVALID_POINTER;; buffer_free_ctx isr packet
      | Some i =>
          q ← gets c_qfifo;
          let '(result, q') :=
            if isr then csp_queue_enqueue_isr q (packet, iface)
            else csp_queue_enqueue q (packet, iface) in
          modify (set_c_qfifo q');;
          when (bool_decide (result ≠ CSP_QUEUE_OK))
            (mod_dbg inc_conn_ovf;; iface_add i StDrop 1;; buffer_free_ctx isr packet)
      end
  end.

Definition csp_qfifo_wake_up : C () :=
  modify (λ s, set_c_qfifo (csp_queue_enqueue (c_qfifo s) (None, None)).2 s).

(** ** Properties *)

Lemma buffer_free_ctx_eq isr p : buffer_free_ctx isr p = csp_buffer_free p.
Proof. by destruct isr. Qed.

(** A queue that is not full takes the packet. *)
Lemma csp_qfifo_write_room s b i isr :
  (List.length (fq_items (c_qfifo s)) < fq_cap (c_qfifo s))%nat →
  csp_qfifo_write (Some b) (Some i) isr s =
  Some ((), set_c_qfifo (mk_fifo (fq_cap (c_qfifo s)) (fq_items (c_qfifo s) ++ [(Some b, Some i)])) s).
Proof.
  intros Hroom. unfold csp_qfifo_write, csp_queue_enqueue_isr. st_unfold.
  rewrite !csp_queue_enqueue_ok by done. by destruct isr.
Qed.

(** A full queue drops the packet: the buffer is released and the interface's
    drop counter incremented. *)
Lemma csp_qfifo_write_full s b i isr f :
  (fq_cap (c_qfifo s) ≤ List.length (fq_items (c_qfifo s)))%nat → c_ifaces s !! i = Some f →
  csp_qfifo_write (Some b) (Some i) isr s =
  csp_buffer_free (Some b)
    (set_c_ifaces (<[i := if_add StDrop 1 f]> (c_ifaces s))
      (set_c_dbg (inc_conn_ovf (c_dbg s)) s)).
Proof.
  intros Hfull Hf. unfold csp_qfifo_write, csp_queue_enqueue_isr. st_unfold.
  rewrite !csp_queue_enqueue_full by done. destruct isr; simpl; rewrite Hf; by destruct s.
Qed.

(** What [csp_qfifo_write] may change besides the pool: its queue, counters. *)
Definition qfifo_only (s s' : csp_core) : Prop :=
  c_version s' = c_version s ∧ c_now s' = c_now s ∧ c_interfaces s' = c_interfaces s ∧
  c_kiss s' = c_kiss s ∧ c_can s' = c_can s ∧ c_wire s' = c_wire s ∧
  (∀ j, is_Some (c_ifaces s !! j) → is_Some (c_ifaces s' !! j)).

(** Handing a packet over never fails and keeps the pool's invariant. *)
Lemma csp_qfifo_write_spec s b i isr :
  buf_inv s → (b < List.length (c_pool s))%nat → is_Some (c_ifaces s !! i) →
  ∃ s', csp_qfifo_write (Some b) (Some i) isr s = Some ((), s') ∧ buf_inv s' ∧ qfifo_only s s' ∧
    (∀ a, a ≠ b → c_pool s' !! a = c_pool s !! a).
Proof.
  intros Hi Hb [f Hf].
  destruct (decide (List.length (fq_items (c_qfifo s)) < fq_cap (c_qfifo s))%nat).
  - rewrite csp_qfifo_write_room by done. eexists; split; [done|].
    split; [by apply (buf_inv_ext s)|]. split; [by split_and!|done].
  - rewrite (csp_qfifo_write_full _ _ _ _ f) by (done || lia).
    destruct (csp_buffer_free_spec (set_c_ifaces (<[i:=if_add StDrop 1 f]> (c_ifaces s))
      (set_c_dbg (inc_conn_ovf (c_dbg s)) s)) b) as (s' & Hfree & Hi'); [by apply (buf_inv_ext s)|done|].
    exists s'. split_and!; [done|done| |apply (csp_buffer_free_data _ _ _ Hfree)].
    apply csp_buffer_free_frame in Hfree. rewrite Hfree. simpl. split_and!; try done.
    intros j Hj. simpl. rewrite lookup_insert_is_Some'. by right.
Qed.
