(* ===== verification/Iflist.v ===== *)
(** * The interface list

    [lib/csp/src/csp_iflist.c]: the interfaces form a singly linked list through
    their [next] fields.  The model keeps the pointers (addresses in [c_ifaces])
    and walks them as the code does; the abstract view is the list of addresses. *)

From S2P Require Import Prelude Queue Types State Id.

(** The address of the static loopback interface [csp_if_lo]. *)
Definition csp_if_lo : nat := 0.

(** ** Operations *)

(** [csp_iflist_is_within_subnet]; [None] is a shift out of range. *)
Definition csp_iflist_is_within_subnet (version addr : Z) (ifc : option csp_iface_t) : option bool :=
  match ifc with
  | None => Some false
  | Some i =>
      ones ← shl1 (if_netmask i);
      let sh := u32 (csp_id_get_host_bits version - if_netmask i) in
      if bool_decide (sh < 31) then
        let netmask := u16 (Z.shiftl (ones - 1) sh) in
        Some (bool_decide (u16 (Z.land (if_addr i) netmask) = u16 (Z.land addr netmask)))
      else None
  end.

(** [while (ifc) { if (test) return ifc; ifc = ifc->next; } return NULL;].  [None]
    is a dangling pointer, or a list longer than the fuel (a cycle). *)
Fixpoint walk_find (fuel : nat) (m : gmap nat csp_iface_t) (test : csp_iface_t → option bool)
    (ifc : option nat) : option (option nat) :=
  match fuel with
  | O => None
  | S fuel' =>
      match ifc with
      | None => Some None
      | Some a =>
          i ← m !! a;
          hit ← test i;
          if (hit : bool) then Some (Some a) else walk_find fuel' m test (if_next i)
      end
  end.

(** Enough steps for any list without a cycle. *)
Definition walk_fuel (s : csp_core) : nat := S (base.size (c_ifaces s)).

(** The head of the list, or the element after [ifc]. *)
Definition csp_iflist_iterate (s : csp_core) (ifc : option nat) : option (option nat) :=
  match ifc with
  | None => Some (c_interfaces s)
  | Some a => i ← c_ifaces s !! a; Some (if_next i)
  end.

Definition csp_iflist_get_by_subnet (s : csp_core) (addr : Z) (ifc : option nat) : option (option nat) :=
  start ← csp_iflist_iterate s ifc;
  walk_find (walk_fuel s) (c_ifaces s)
    (λ i, if bool_decide (if_netmask i = 0) then Some false
          else csp_iflist_is_within_subnet (c_version s) addr (Some i)) start.

Definition csp_iflist_get_by_isdfl (s : csp_core) (ifc : option nat) : option (option nat) :=
  start ← csp_iflist_iterate s ifc;
  walk_find (walk_fuel s) (c_ifaces s) (λ i, Some (bool_decide (if_is_default i = 1))) start.

Definition csp_iflist_get_by_addr (s : csp_core) (addr : Z) : option (option nat) :=
  walk_find (walk_fuel s) (c_ifaces s) (λ i, Some (bool_decide (if_addr i = addr))) (c_interfaces s).

(** [strncmp(a, b, CSP_IFLIST_NAME_MAX) == 0] *)
Definition name_eqb (a b : string) : bool :=
  String.eqb (String.substring 0 CSP_IFLIST_NAME_MAX a) (String.substring 0 CSP_IFLIST_NAME_MAX b).

Definition csp_iflist_get_by_name (s : csp_core) (name : string) : option (option nat) :=
  walk_find (walk_fuel s) (c_ifaces s) (λ i, Some (name_eqb (if_name i) name)) (c_interfaces s).

(** The loop [while (ifc && idx--)]. *)
Fixpoint walk_index (fuel : nat) (m : gmap nat csp_iface_t) (ifc : option nat) (idx : Z)
    : option (option nat) :=
  match fuel with
  | O => None
  | S fuel' =>
      match ifc with
      | None => Some None
      | Some a =>
          if bool_decide (idx = 0) then Some (Some a)
          else i ← m !! a; walk_index fuel' m (if_next i) (idx - 1)
      end
  end.

Definition csp_iflist_get_by_index (s : csp_core) (idx : Z) : option (option nat) :=
  walk_index (walk_fuel s) (c_ifaces s) (c_interfaces s) idx.

(** The second loop of [csp_iflist_check_dfl], from interface [ifc]. *)
Fixpoint walk_set_dfl (fuel : nat) (m : gmap nat csp_iface_t) (ifc : option nat)
    : option (gmap nat csp_iface_t) :=
  match fuel with
  | O => None
  | S fuel' =>
      match ifc with
      | None => Some m
      | Some a =>
          i ← m !! a;
          let m' := if bool_decide (a = csp_if_lo) then m else <[a := set_if_default 1 i]> m in
          walk_set_dfl fuel' m' (if_next i)
      end
  end.

Definition csp_iflist_check_dfl (s : csp_core) : option csp_core :=
  dfl ← csp_iflist_get_by_isdfl s None;
  match dfl with
  | Some _ => Some s
  | None => m ← walk_set_dfl (walk_fuel s) (c_ifaces s) (c_interfaces s); Some (set_c_ifaces m s)
  end.

(** The loop of [csp_iflist_add]: [inl tt] is the early return with
    [CSP_ERR_ALREADY], [inr last] the last element. *)
Fixpoint walk_last (fuel : nat) (m : gmap nat csp_iface_t) (ifc : nat) (name : string)
    (i last : option nat) : option (() + option nat) :=
  match fuel with
  | O => None
  | S fuel' =>
      match i with
      | None => Some (inr last)
      | Some a =>
          x ← m !! a;
          if bool_decide (a = ifc) || name_eqb name (if_name x) then Some (inl ())
          else walk_last fuel' m ifc name (if_next x) (Some a)
      end
  end.

Definition csp_iflist_add (s : csp_core) (ifc : nat) : option (Z * csp_core) :=
  x ← c_ifaces s !! ifc;
  let s := set_c_ifaces (<[ifc := set_if_next None x]> (c_ifaces s)) s in
  match c_interfaces s with
  | None => Some (CSP_ERR_NONE, set_c_interfaces (Some ifc) s)
  | Some h =>
      r ← walk_last (walk_fuel s) (c_ifaces s) ifc (if_name x) (Some h) None;
      match r with
      | inl _ => Some (CSP_ERR_ALREADY, s)
      | inr None => None
      | inr (Some last) =>
          y ← c_ifaces s !! last;
          Some (CSP_ERR_NONE, set_c_ifaces (<[last := set_if_next (Some ifc) y]> (c_ifaces s)) s)
      end
  end.

(** The loop of [csp_iflist_remove] from [cur]. *)
Fixpoint walk_remove (fuel : nat) (m : gmap nat csp_iface_t) (ifc : nat) (cur : option nat)
    : option (gmap nat csp_iface_t) :=
  match fuel with
  | O => None
  | S fuel' =>
      match cur with
      | None => Some m
      | Some a =>
          x ← m !! a;
          if bool_decide (if_next x = Some ifc) then
            y ← m !! ifc;
            let m1 := <[a := set_if_next (if_next y) x]> m in
            y1 ← m1 !! ifc;
            Some (<[ifc := set_if_next None y1]> m1)
          else walk_remove fuel' m ifc (if_next x)
      end
  end.

Definition csp_iflist_remove (s : csp_core) (ifc : option nat) : option csp_core :=
  match ifc with
  | None => Some s
  | Some a =>
      if bool_decide (c_interfaces s = Some a) then
        x ← c_ifaces s !! a;
        Some (set_c_ifaces (<[a := set_if_next None x]> (c_ifaces s)) (set_c_interfaces (if_next x) s))
      else m ← walk_remove (walk_fuel s) (c_ifaces s) a (c_interfaces s); Some (set_c_ifaces m s)
  end.

Definition csp_iflist_get (s : csp_core) : option nat := c_interfaces s.

(** [csp_bytesize]: the scaled value and its postfix. *)
Definition csp_bytesize (bytes : Z) : Z * Ascii.ascii :=
  if bool_decide (1024 * 1024 ≤ bytes) then (bytes / (1024 * 1024), Ascii.ascii_of_nat 77)
  else if bool_decide (1024 ≤ bytes) then (bytes / 1024, Ascii.ascii_of_nat 75)
  else (bytes, Ascii.ascii_of_nat 66).

(** ** The abstract list *)

(** The chain of [next] pointers from [p] to [q] runs through [l]. *)
Fixpoint iseg (m : gmap nat csp_iface_t) (p : option nat) (l : list nat) (q : option nat) : Prop :=
  match l with
  | [] => p = q
  | a :: l' => p = Some a ∧ ∃ i, m !! a = Some i ∧ iseg m (if_next i) l' q
  end.

(** The interface list of state [s] is [l]. *)
Definition iflist (s : csp_core) (l : list nat) : Prop :=
  iseg (c_ifaces s) (c_interfaces s) l None ∧ NoDup l.

(** A test on the interface at an address. *)
Definition at_iface (m : gmap nat csp_iface_t) (f : csp_iface_t → bool) (a : nat) : bool :=
  match m !! a with Some i => f i | None => false end.

Section IflistLemmas.
Implicit Types (m : gmap nat csp_iface_t) (p q : option nat) (l : list nat) (a : nat).

Lemma iseg_app m p l1 l2 q : iseg m p (l1 ++ l2) q ↔ ∃ r, iseg m p l1 r ∧ iseg m r l2 q.
Proof.
  revert p. induction l1 as [|a l1 IH]; intros p; simpl.
  - split; [eauto|]. by intros (? & <- & ?).
  - split.
    + intros (-> & i & Hi & (r & ? & ?)%IH). eauto 10.
    + intros (r & (-> & i & Hi & ?) & ?). split; [done|]. exists i. split; [done|]. apply IH. eauto.
Qed.

Lemma iseg_insert m p l q a i : a ∉ l → iseg (<[a := i]> m) p l q ↔ iseg m p l q.
Proof.
  revert p. induction l as [|b l IH]; intros p Hni; simpl; [done|].
  apply not_elem_of_cons in Hni as [Hne Hni].
  rewrite lookup_insert_ne by done. by setoid_rewrite (IH _ Hni).
Qed.

Lemma iseg_dom m p l q a : iseg m p l q → a ∈ l → is_Some (m !! a).
Proof.
  revert p. induction l as [|b l IH]; intros p Hs Ha; [by apply not_elem_of_nil in Ha|].
  destruct Hs as (-> & i & Hi & Hs). apply elem_of_cons in Ha as [->|Ha]; eauto.
Qed.

Lemma iseg_length m p l q : iseg m p l q → NoDup l → (List.length l ≤ base.size m)%nat.
Proof.
  intros Hs Hnd. rewrite <- size_dom, <- (size_list_to_set (C:=gset nat)) by done.
  apply subseteq_size. intros a Ha%elem_of_list_to_set. apply elem_of_dom. by eapply iseg_dom.
Qed.

(** The walk returns the first element that passes the test. *)
Lemma walk_find_spec fuel m test f p l :
  iseg m p l None → (List.length l < fuel)%nat →
  (∀ a i, a ∈ l → m !! a = Some i → test i = Some (f i)) →
  walk_find fuel m test p = Some (List.find (at_iface m f) l).
Proof.
  revert p fuel. induction l as [|a l IH]; intros p [|fuel] Hs Hf Ht; simpl in *; try lia.
  - by rewrite Hs.
  - destruct Hs as (-> & i & Hi & Hs). unfold at_iface at 1. rewrite Hi. monad.
    rewrite (Ht a i); [monad|by left|done].
    destruct (f i); [done|]. apply IH; [done|lia|]. intros b j Hb. apply Ht. by right.
Qed.

Lemma iflist_walk s l l1 l2 p test f :
  iflist s l → l = l1 ++ l2 → iseg (c_ifaces s) p l2 None →
  (∀ a i, a ∈ l → c_ifaces s !! a = Some i → test i = Some (f i)) →
  walk_find (walk_fuel s) (c_ifaces s) test p = Some (List.find (at_iface (c_ifaces s) f) l2).
Proof.
  intros (Hs & Hnd) -> Hs2 Ht. apply walk_find_spec; [done| |].
  - pose proof (iseg_length _ _ _ _ Hs Hnd) as Hl. rewrite length_app in Hl. unfold walk_fuel. lia.
  - intros a i Ha. apply Ht. apply elem_of_app. by right.
Qed.

(** The position [csp_iflist_iterate] continues from. *)
Lemma csp_iflist_iterate_last s l1 l2 :
  iflist s (l1 ++ l2) →
  ∃ p, csp_iflist_iterate s (last l1) = Some p ∧ iseg (c_ifaces s) p l2 None ∧ p = head l2.
Proof.
  intros (Hs & Hnd). assert (∀ p, iseg (c_ifaces s) p l2 None → p = head l2) as Hhead.
  { intros p. destruct l2; [done|]. by intros [-> _]. }
  destruct l1 as [|a l1 _] using rev_ind.
  { exists (c_interfaces s). split_and!; [done|done|by apply Hhead]. }
  rewrite <- app_assoc in Hs. apply iseg_app in Hs as (r & _ & (-> & i & Hi & Hs)).
  rewrite last_snoc. simpl. rewrite Hi. monad. eauto.
Qed.

(** Within a subnet: the addresses agree above the host bits. *)
Lemma csp_iflist_is_within_subnet_spec v addr i :
  let hb := csp_id_get_host_bits v in
  let h := hb - if_netmask i in
  0 ≤ if_netmask i ≤ hb → 0 ≤ addr < 2 ^ hb → 0 ≤ if_addr i < 2 ^ hb →
  csp_iflist_is_within_subnet v addr (Some i) = Some (bool_decide (net_part h (if_addr i) = net_part h addr)).
Proof.
  intros hb h Hn Ha Hi. pose proof (host_bits_range v) as Hb. fold hb in Hb.
  assert (0 ≤ h ≤ hb) as Hh by lia. pose proof (pow2_host_le v h Hh) as Hp. fold hb in Hp.
  unfold csp_iflist_is_within_subnet. rewrite shl1_Some by lia. monad.
  assert (u32 (csp_id_get_host_bits v - if_netmask i) = h) as -> by mlia.
  rewrite bool_decide_true by lia. f_equal. rewrite shiftl_mul by lia.
  replace ((2 ^ if_netmask i - 1) * 2 ^ h) with (2 ^ hb - 2 ^ h).
  2:{ rewrite Z.mul_sub_distr_r, <- Z.pow_add_r, Z.mul_1_l by lia. do 2 f_equal. lia. }
  rewrite (u16_id (2 ^ hb - 2 ^ h)) by mlia. rewrite !land_prefix by lia. apply bool_decide_ext. unfold net_part.
  assert (∀ a : Z, 0 ≤ a < 2 ^ hb → u16 (a / 2 ^ h * 2 ^ h) = a / 2 ^ h * 2 ^ h) as Hu.
  { intros a Hrange. apply u16_id. pose proof (Z.mul_div_le a (2 ^ h)).
    pose proof (Z.div_pos a (2 ^ h)). machine. nia. }
  rewrite !Hu by done. split; [|by intros ->]. intros Heq. by apply Z.mul_cancel_r in Heq; [|lia].
Qed.
End IflistLemmas.

(** ** Lookups *)

(** The interfaces in the list have addresses and netmasks of the version. *)
Definition ifaces_valid (s : csp_core) (l : list nat) : Prop :=
  ∀ a i, a ∈ l → c_ifaces s !! a = Some i →
    0 ≤ if_netmask i ≤ csp_id_get_host_bits (c_version s) ∧
    0 ≤ if_addr i < 2 ^ csp_id_get_host_bits (c_version s).

(** Interface [i] has a subnet and [addr] lies in it. *)
Definition in_subnet (version addr : Z) (i : csp_iface_t) : bool :=
  let h := csp_id_get_host_bits version - if_netmask i in
  bool_decide (if_netmask i ≠ 0 ∧ net_part h (if_addr i) = net_part h addr).

Lemma get_by_subnet_spec s l l1 l2 addr ifc :
  iflist s l → ifaces_valid s l → 0 ≤ addr < 2 ^ csp_id_get_host_bits (c_version s) →
  l = l1 ++ l2 → ifc = last l1 →
  csp_iflist_get_by_subnet s addr ifc =
    Some (List.find (at_iface (c_ifaces s) (in_subnet (c_version s) addr)) l2).
Proof.
  intros Hl Hv Ha -> ->. unfold csp_iflist_get_by_subnet.
  destruct (csp_iflist_iterate_last s l1 l2 Hl) as (p & -> & Hp & _).
  monad. eapply iflist_walk; [done|done|done|]. intros a i Hin Hi.
  destruct (Hv a i Hin Hi) as [Hn Hia]. unfold in_subnet.
  case_bool_decide as H0; [by rewrite bool_decide_false by tauto|].
  rewrite csp_iflist_is_within_subnet_spec by done. f_equal. apply bool_decide_ext. tauto.
Qed.

Lemma get_by_isdfl_spec s l l1 l2 ifc :
  iflist s l → l = l1 ++ l2 → ifc = last l1 →
  csp_iflist_get_by_isdfl s ifc =
    Some (List.find (at_iface (c_ifaces s) (λ i, bool_decide (if_is_default i = 1))) l2).
Proof.
  intros Hl -> ->. unfold csp_iflist_get_by_isdfl.
  destruct (csp_iflist_iterate_last s l1 l2 Hl) as (p & -> & Hp & _).
  monad. by eapply iflist_walk.
Qed.

Lemma get_by_addr_spec s l addr :
  iflist s l →
  csp_iflist_get_by_addr s addr =
    Some (List.find (at_iface (c_ifaces s) (λ i, bool_decide (if_addr i = addr))) l).
Proof. intros Hl. eapply (iflist_walk s l []); [done|done|apply Hl|done]. Qed.

Lemma walk_index_spec fuel m p l idx :
  iseg m p l None → (List.length l < fuel)%nat → 0 ≤ idx →
  walk_index fuel m p idx = Some (l !! Z.to_nat idx).
Proof.
  revert p fuel idx. induction l as [|a l IH]; intros p [|fuel] idx Hs Hf Hidx; simpl in *; try lia.
  - by rewrite Hs.
  - destruct Hs as (-> & i & Hi & Hs). case_bool_decide as H0; [by subst|]. rewrite Hi. monad.
    rewrite IH by (done || lia). replace (Z.to_nat idx) with (S (Z.to_nat (idx - 1))) by lia. done.
Qed.

(** On a well-formed interface list every lookup terminates without following
    a bad pointer and returns the first interface, after the given one, that has
    the address, the name, the position, the default mark, or a non-trivial subnet
    containing the address. *)
Theorem csp_iflist_lookups (s : csp_core) (l l1 l2 : list nat) (addr idx : Z) (name : string) :
  iflist s l → ifaces_valid s l → l = l1 ++ l2 →
  0 ≤ addr < 2 ^ csp_id_get_host_bits (c_version s) → 0 ≤ idx →
  let first f l := Some (List.find (at_iface (c_ifaces s) f) l) in
  csp_iflist_get_by_addr s addr = first (λ i, bool_decide (if_addr i = addr)) l ∧
  csp_iflist_get_by_name s name = first (λ i, name_eqb (if_name i) name) l ∧
  csp_iflist_get_by_index s idx = Some (l !! Z.to_nat idx) ∧
  csp_iflist_get_by_isdfl s (last l1) = first (λ i, bool_decide (if_is_default i = 1)) l2 ∧
  csp_iflist_get_by_subnet s addr (last l1) = first (in_subnet (c_version s) addr) l2 ∧
  csp_iflist_iterate s (last l1) = Some (head l2).
Proof.
  intros Hl Hv Heq Ha Hidx first. split_and!.
  - by apply get_by_addr_spec.
  - eapply (iflist_walk s l []); [done|done|apply Hl|done].
  - apply walk_index_spec; [apply Hl| |done]. apply Nat.lt_succ_r. eapply iseg_length; apply Hl.
  - by eapply get_by_isdfl_spec.
  - by eapply get_by_subnet_spec.
  - subst. by destruct (csp_iflist_iterate_last s l1 l2 Hl) as (p & -> & _ & ->).
Qed.

(** ** Changes *)

Section IflistUpdates.
Implicit Types (m : gmap nat csp_iface_t) (p q : option nat) (l : list nat) (a ifc : nat).

Lemma iseg_last m p l a q x :
  iseg m p (l ++ [a]) q → m !! a = Some x → if_next x = q.
Proof. intros (r & _ & -> & i & Hi & Hq)%iseg_app Hx. simpl in Hq. by simplify_eq. Qed.

(** Redirecting the last pointer of a segment. *)
Lemma iseg_set_last m p l a x q q' :
  a ∉ l → iseg m p (l ++ [a]) q → m !! a = Some x →
  iseg (<[a := set_if_next q' x]> m) p (l ++ [a]) q'.
Proof.
  intros Hni (r & Hl & -> & i & Hi & _)%iseg_app Hx. apply iseg_app. exists (Some a).
  split; [by apply iseg_insert|]. split; [done|]. rewrite lookup_insert_eq. by eexists.
Qed.

(** [walk_last] stops at the interface itself, or at one with the same name. *)
Definition clash m ifc name a : bool :=
  bool_decide (a = ifc) || at_iface m (λ x, name_eqb name (if_name x)) a.

Lemma walk_last_spec fuel m ifc name p l lst :
  iseg m p l None → (List.length l < fuel)%nat →
  walk_last fuel m ifc name p lst =
  Some (if existsb (clash m ifc name) l then inl () else inr (from_option Some lst (last l))).
Proof.
  revert p fuel lst. induction l as [|a l IH]; intros p [|fuel] lst Hs Hf; simpl in *; try lia.
  - by rewrite Hs.
  - destruct Hs as (-> & i & Hi & Hs). rewrite Hi. monad. unfold clash at 1, at_iface at 1.
    rewrite Hi. destruct (_ || _); [done|]. rewrite IH by (done || lia).
    simpl. destruct (existsb _ _); [done|]. by destruct l as [|b l]; [|rewrite (last_cons a); destruct (last (b :: l)) eqn:E; [|apply last_None in E]].
Qed.

(** Whether another interface of the list bears the name of [ifc]. *)
Definition name_taken (s : csp_core) (l : list nat) (name : string) : bool :=
  existsb (at_iface (c_ifaces s) (λ x, name_eqb name (if_name x))) l.

(** The list of a state whose interface structure [ifc] was rewritten. *)
Lemma iflist_insert s l ifc x :
  ifc ∉ l → iflist (set_c_ifaces (<[ifc := x]> (c_ifaces s)) s) l ↔ iflist s l.
Proof. intros Hni. unfold iflist. simpl. by rewrite iseg_insert. Qed.

Lemma iflist_fuel s l : iflist s l → (List.length l < walk_fuel s)%nat.
Proof. intros (Hs & Hnd). apply Nat.lt_succ_r. by eapply iseg_length. Qed.

Lemma existsb_ext_in {A} (f g : A → bool) (l : list A) :
  (∀ a : A, a ∈ l → f a = g a) → existsb f l = existsb g l.
Proof.
  induction l as [|a l IH]; intros Hfg; simpl; [done|].
  rewrite Hfg by (by left). f_equal. apply IH. intros b Hb. apply Hfg. by right.
Qed.

Lemma clash_fresh s l ifc x name :
  ifc ∉ l →
  existsb (clash (<[ifc := x]> (c_ifaces s)) ifc name) l = name_taken s l name.
Proof.
  intros Hni. apply existsb_ext_in. intros a Ha. assert (a ≠ ifc) by (intros ->; done).
  unfold clash, at_iface. rewrite lookup_insert_ne by done. by rewrite bool_decide_false.
Qed.

Lemma csp_iflist_add_new s l ifc x :
  iflist s l → ifc ∉ l → c_ifaces s !! ifc = Some x → name_taken s l (if_name x) = false →
  ∃ s', csp_iflist_add s ifc = Some (CSP_ERR_NONE, s') ∧ iflist s' (l ++ [ifc]).
Proof.
  intros Hl Hni Hx Hname. unfold csp_iflist_add. rewrite Hx. monad.
  set (s1 := set_c_ifaces _ s). assert (iflist s1 l) as Hl1 by (by apply iflist_insert).
  assert (c_ifaces s1 !! ifc = Some (set_if_next None x)) as Hx1 by (simpl; by rewrite lookup_insert_eq).
  change (c_interfaces s1) with (c_interfaces s).
  destruct l as [|a l _] using rev_ind.
  - destruct Hl as [Hs _]. simpl in Hs. rewrite Hs. eexists; split; [done|]. split; simpl.
    + split; [done|]. eauto.
    + apply NoDup_singleton.
  - assert (∃ h, c_interfaces s = Some h) as [h Hh].
    { destruct Hl as [Hs _]. destruct l; simpl in Hs; destruct Hs as [-> _]; eauto. }
    rewrite Hh. erewrite walk_last_spec; [|rewrite <- Hh; apply Hl1|by apply iflist_fuel].
    subst s1. simpl c_ifaces in *. rewrite clash_fresh by done. rewrite Hname. monad. rewrite last_snoc. simpl.
    apply not_elem_of_app in Hni as [Hni Hne%not_elem_of_cons].
    destruct Hne as [Hne _]. destruct Hl as [Hs Hnd].
    destruct (iseg_dom _ _ _ _ a Hs) as [y Hy]; [apply elem_of_app; right; by left|].
    rewrite lookup_insert_ne, Hy by done. monad. eexists; split; [done|].
    apply NoDup_app in Hnd as (Hnd & Hdisj & _).
    assert (a ∉ l) as Hal by (intros Hin; apply (Hdisj a Hin); by left).
    split; simpl.
    + apply iseg_app. exists (Some ifc). split.
      * eapply iseg_set_last; [done|apply iseg_insert; [|done]|].
        -- intros [?| ->%list_elem_of_singleton]%elem_of_app; done.
        -- by rewrite lookup_insert_ne.
      * split; [done|]. rewrite lookup_insert_ne, lookup_insert_eq by done. by eexists.
    + apply NoDup_app. split_and!; [|by intros b Hb ->%list_elem_of_singleton; apply elem_of_app in Hb as [?|?%list_elem_of_singleton]|apply NoDup_singleton].
      apply NoDup_app. split_and!; [done|done|apply NoDup_singleton].
Qed.

Lemma csp_iflist_add_name s l ifc x :
  iflist s l → ifc ∉ l → c_ifaces s !! ifc = Some x → name_taken s l (if_name x) = true →
  ∃ s', csp_iflist_add s ifc = Some (CSP_ERR_ALREADY, s') ∧ iflist s' l.
Proof.
  intros Hl Hni Hx Hname. unfold csp_iflist_add. rewrite Hx. monad.
  set (s1 := set_c_ifaces _ s). assert (iflist s1 l) as Hl1 by (by apply iflist_insert).
  change (c_interfaces s1) with (c_interfaces s).
  assert (∃ h, c_interfaces s = Some h) as [h Hh].
  { destruct Hl as [Hs _]. destruct l; [done|]. destruct Hs as [-> _]; eauto. }
  rewrite Hh. erewrite walk_last_spec; [|rewrite <- Hh; apply Hl1|by apply iflist_fuel].
  subst s1. simpl c_ifaces. rewrite clash_fresh, Hname by done. monad. eauto.
Qed.

(** Adding a member again: [next] is cleared before the duplicate is noticed. *)
Lemma csp_iflist_add_again s l1 l2 ifc :
  iflist s (l1 ++ ifc :: l2) →
  ∃ s', csp_iflist_add s ifc = Some (CSP_ERR_ALREADY, s') ∧ iflist s' (l1 ++ [ifc]).
Proof.
  intros [Hs Hnd]. destruct (iseg_dom _ _ _ _ ifc Hs) as [x Hx]; [apply elem_of_app; right; by left|].
  unfold csp_iflist_add. rewrite Hx. monad. set (s1 := set_c_ifaces _ s).
  apply NoDup_app in Hnd as (Hnd & Hdisj & _).
  assert (ifc ∉ l1) as Hni by (intros Hin; apply (Hdisj ifc Hin); by left).
  assert (iflist s1 (l1 ++ [ifc])) as Hl1.
  { split; [|apply NoDup_app; split_and!; [done| |apply NoDup_singleton]].
    - subst s1. simpl. rewrite cons_middle, app_assoc in Hs. apply iseg_app in Hs as (q & Hs & _).
      by eapply iseg_set_last.
    - by intros b Hb ->%list_elem_of_singleton. }
  assert (∃ h, c_interfaces s1 = Some h) as [h Hh].
  { destruct Hl1 as [Hs1 _]. destruct l1; simpl in Hs1; destruct Hs1 as [Heq _]; eauto. }
  rewrite Hh. rewrite (walk_last_spec _ _ _ _ _ (l1 ++ [ifc])); [|rewrite <- Hh; apply Hl1|by apply iflist_fuel].
  rewrite existsb_app. simpl. unfold clash at 2. rewrite bool_decide_true by done. simpl.
  rewrite orb_true_r. monad. eauto.
Qed.
End IflistUpdates.

(** [csp_iflist_add] appends an interface whose name is not in the list, and
    refuses one whose name is taken without changing the list; but adding an
    interface that is already a member reports [CSP_ERR_ALREADY] and cuts off
    every interface after it, because its [next] pointer is cleared first. *)
Theorem csp_iflist_add_outcomes (s : csp_core) (l : list nat) (ifc : nat) (x : csp_iface_t) :
  iflist s l → c_ifaces s !! ifc = Some x →
  (ifc ∉ l → name_taken s l (if_name x) = false →
     ∃ s', csp_iflist_add s ifc = Some (CSP_ERR_NONE, s') ∧ iflist s' (l ++ [ifc])) ∧
  (ifc ∉ l → name_taken s l (if_name x) = true →
     ∃ s', csp_iflist_add s ifc = Some (CSP_ERR_ALREADY, s') ∧ iflist s' l) ∧
  (∀ l1 l2, l = l1 ++ ifc :: l2 →
     ∃ s', csp_iflist_add s ifc = Some (CSP_ERR_ALREADY, s') ∧ iflist s' (l1 ++ [ifc])).
Proof.
  intros Hl Hx. split_and!.
  - intros ??. by eapply csp_iflist_add_new.
  - intros ??. by eapply csp_iflist_add_name.
  - intros l1 l2 ->. by eapply csp_iflist_add_again.
Qed.

(** Three registered interfaces at addresses 0, 1, 2 and an unregistered one at 3. *)
Definition iflist_example : csp_core :=
  mk_core 2 0 dbg_zero [] (csp_queue_create_static 0) (csp_queue_create_static 4)
    (<[0%nat := set_if_next (Some 1%nat) (new_iface 0 14 "LOOP" NexthopLo 0)]>
     (<[1%nat := set_if_next (Some 2%nat) (new_iface 5 8 "CAN" NexthopCan2 0)]>
      (<[2%nat := new_iface 300 8 "KISS" NexthopKiss 1]>
       (<[3%nat := new_iface 9 8 "CAN2" NexthopCan2 0]> ∅)))) (Some 0%nat) ∅ ∅ [].

Lemma iflist_example_ok : iflist iflist_example [0%nat; 1%nat; 2%nat].
Proof.
  split; [|apply (bool_decide_unpack _); vm_compute; done].
  simpl. split; [done|]. eexists; split; [done|]. simpl. split; [done|]. eexists; split; [done|]. simpl.
  split; [done|]. by eexists.
Qed.

Lemma csp_iflist_add_outcomes_witness :
  (∃ s', csp_iflist_add iflist_example 3 = Some (CSP_ERR_NONE, s') ∧ iflist s' [0%nat; 1%nat; 2%nat; 3%nat]) ∧
  (∃ s', csp_iflist_add iflist_example 1 = Some (CSP_ERR_ALREADY, s') ∧ iflist s' [0%nat; 1%nat]).
Proof.
  split.
  - apply (csp_iflist_add_outcomes iflist_example [0%nat; 1%nat; 2%nat] 3 (new_iface 9 8 "CAN2" NexthopCan2 0)
      iflist_example_ok eq_refl); [apply (bool_decide_unpack _); vm_compute; done|by vm_compute].
  - destruct (csp_iflist_add_outcomes iflist_example [0%nat; 1%nat; 2%nat] 1 _ iflist_example_ok eq_refl)
      as (_ & _ & H). exact (H [0%nat] [2%nat] eq_refl).
Defined.

Lemma csp_iflist_lookups_witness :
  csp_iflist_get_by_subnet iflist_example 310 (Some 1%nat) = Some (Some 2%nat) ∧
  csp_iflist_get_by_subnet iflist_example 310 None =
    Some (List.find (at_iface (c_ifaces iflist_example) (in_subnet 2 310)) [0%nat; 1%nat; 2%nat]).
Proof.
  split; [by vm_compute|].
  refine (proj1 (proj2 (proj2 (proj2 (proj2 (csp_iflist_lookups iflist_example [0%nat; 1%nat; 2%nat] []
    [0%nat; 1%nat; 2%nat] 310 0 "CAN" iflist_example_ok _ eq_refl _ _)))))); [|by cbv|done].
  intros a i Ha. repeat (apply elem_of_cons in Ha as [->|Ha]; [intros [= <-]; by cbv|]).
  by apply not_elem_of_nil in Ha.
Defined.

Section IflistRemove.
Implicit Types (m : gmap nat csp_iface_t) (p q : option nat) (l : list nat) (a ifc : nat).

Lemma iseg_head m p l q a : iseg m p (l ++ [a]) q → ∃ b, p = Some b ∧ b ∈ l ++ [a].
Proof. destruct l; simpl; intros [-> _]; eexists; (split; [done|]); by left. Qed.

Lemma walk_remove_run fuel m ifc p l a x y :
  iseg m p (l ++ [a]) (Some ifc) → ifc ∉ l ++ [a] → m !! a = Some x → m !! ifc = Some y →
  (List.length l < fuel)%nat →
  walk_remove fuel m ifc p =
    Some (<[ifc := set_if_next None y]> (<[a := set_if_next (if_next y) x]> m)).
Proof.
  intros Hs Hni Hx Hy. revert p fuel Hs.
  induction l as [|b l IH]; intros p [|fuel] Hs Hf; simpl in *; try lia.
  - destruct Hs as (-> & i & Hi & Hq). simplify_eq. rewrite Hx. monad.
    rewrite bool_decide_true by done. rewrite Hy. monad.
    rewrite lookup_insert_ne, Hy; [done|]. intros ->. apply Hni. by left.
  - destruct Hs as (-> & i & Hi & Hs). rewrite Hi. monad.
    apply not_elem_of_cons in Hni as [_ Hni].
    destruct (iseg_head _ _ _ _ _ Hs) as (c & Hc & Hin).
    rewrite bool_decide_false; [|rewrite Hc; intros [= ->]; done]. apply IH; [done|done|lia].
Qed.

Lemma walk_remove_none fuel m ifc p l :
  iseg m p l None → ifc ∉ l → (List.length l < fuel)%nat → walk_remove fuel m ifc p = Some m.
Proof.
  intros Hs Hni. revert p fuel Hs.
  induction l as [|b l IH]; intros p [|fuel] Hs Hf; simpl in *; try lia.
  - by rewrite Hs.
  - destruct Hs as (-> & i & Hi & Hs). rewrite Hi. monad.
    apply not_elem_of_cons in Hni as [_ Hni]. rewrite bool_decide_false; [apply IH; [done|done|lia]|].
    intros Hn. rewrite Hn in Hs. destruct l; simpl in Hs; [done|]. destruct Hs as [[= ->] _].
    apply Hni. by left.
Qed.
End IflistRemove.

(** [csp_iflist_remove] takes exactly the given interface out of the list,
    wherever it is, clears its [next] pointer, and does nothing when it is not a
    member. *)
Theorem csp_iflist_remove_outcomes (s : csp_core) (l : list nat) (ifc : nat) :
  iflist s l →
  (∀ l1 l2, l = l1 ++ ifc :: l2 →
    ∃ s', csp_iflist_remove s (Some ifc) = Some s' ∧ iflist s' (l1 ++ l2) ∧
      if_next <$> c_ifaces s' !! ifc = Some None) ∧
  (ifc ∉ l → ∃ s', csp_iflist_remove s (Some ifc) = Some s' ∧ iflist s' l ∧ c_ifaces s' = c_ifaces s).
Proof.
  intros Hl. pose proof (iflist_fuel s l Hl) as Hfuel. pose proof Hl as [Hs Hnd]. split.
  - intros l1 l2 ->. destruct (iseg_dom _ _ _ _ ifc Hs) as [y Hy]; [apply elem_of_app; right; by left|].
    apply NoDup_app in Hnd as (Hnd1 & Hdisj & (Hni2 & Hnd2)%NoDup_cons).
    assert (ifc ∉ l1) as Hni1 by (intros Hin; apply (Hdisj ifc Hin); by left).
    assert (NoDup (l1 ++ l2)) as Hnd12.
    { apply NoDup_app. split_and!; [done| |done]. intros b Hb Hb2. apply (Hdisj b Hb). by right. }
    apply iseg_app in Hs as (r & Hs1 & -> & y' & Hy' & Hs2). rewrite Hy in Hy'. injection Hy' as <-.
    unfold csp_iflist_remove. destruct l1 as [|a l1 _] using rev_ind.
    + simpl in Hs1. rewrite bool_decide_true by done. rewrite Hy. monad. eexists; split; [done|].
      split; [split; [by apply iseg_insert|done]|]. simpl. by rewrite lookup_insert_eq.
    + destruct (iseg_head _ _ _ _ _ Hs1) as (c & Hc & Hin).
      rewrite bool_decide_false by (rewrite Hc; intros [= ->]; done).
      destruct (iseg_dom _ _ _ _ a Hs1) as [x Hx]; [apply elem_of_app; right; by left|].
      rewrite (walk_remove_run _ _ _ _ l1 a x y); [|done..|rewrite !length_app in Hfuel; lia]. monad.
      eexists; split; [done|]. split; [split|simpl; by rewrite lookup_insert_eq]; [|done].
      simpl. apply iseg_insert; [by apply not_elem_of_app|]. apply iseg_app. exists (if_next y).
      apply NoDup_app in Hnd1 as (_ & Hd1 & _). apply NoDup_app in Hnd12 as (_ & Hd & _).
      split.
      * eapply iseg_set_last; [|done|done]. intros Hin'. apply (Hd1 a Hin'). by left.
      * apply iseg_insert; [|done]. apply Hd. apply elem_of_app. right. by left.
  - intros Hni. unfold csp_iflist_remove. rewrite bool_decide_false.
    + rewrite (walk_remove_none _ _ _ _ l) by done. monad. by eexists.
    + intros Heq. rewrite Heq in Hs. destruct l; simpl in Hs; [done|]. destruct Hs as [[= ->] _].
      apply Hni. by left.
Qed.

Lemma csp_iflist_remove_outcomes_witness :
  ∃ s', csp_iflist_remove iflist_example (Some 1%nat) = Some s' ∧ iflist s' [0%nat; 2%nat].
Proof.
  destruct (csp_iflist_remove_outcomes iflist_example _ 1 iflist_example_ok) as [H _].
  destruct (H [0%nat] [2%nat] eq_refl) as (s' & H1 & H2 & _). exists s'. split; [exact H1|exact H2].
Defined.

(** ** Default interfaces *)

Lemma walk_set_dfl_spec fuel m p l :
  iseg m p l None → NoDup l → (List.length l < fuel)%nat →
  ∃ m', walk_set_dfl fuel m p = Some m' ∧
    ∀ a, m' !! a = if bool_decide (a ∈ l ∧ a ≠ csp_if_lo) then set_if_default 1 <$> m !! a else m !! a.
Proof.
  revert m p fuel. induction l as [|b l IH]; intros m p [|fuel] Hs Hnd Hf; simpl in *; try lia.
  - rewrite Hs. by eexists.
  - destruct Hs as (-> & i & Hi & Hs). rewrite Hi. monad. apply NoDup_cons in Hnd as [Hni Hnd].
    set (m1 := if bool_decide _ then _ else _).
    destruct (IH m1 (if_next i) fuel) as (m' & -> & Hm'); [|done|lia|].
    { subst m1. case_bool_decide; [done|]. by apply iseg_insert. }
    eexists; split; [done|]. intros a. rewrite Hm'. subst m1.
    destruct (decide (a = b)) as [->|Hne].
    + rewrite (bool_decide_false (b ∈ l ∧ _)) by tauto. case_bool_decide as Hlo.
      * rewrite bool_decide_false; [done|]. tauto.
      * rewrite lookup_insert_eq, Hi. rewrite bool_decide_true; [done|]. split; [by left|done].
    + replace ((if bool_decide (b = csp_if_lo) then m else <[b:=set_if_default 1 i]> m) !! a) with (m !! a)
        by (case_bool_decide; [done|by rewrite lookup_insert_ne]).
      erewrite (bool_decide_ext (a ∈ b :: l ∧ _)); [done|]. rewrite elem_of_cons. tauto.
Qed.

(** After [csp_iflist_check_dfl] the list is the same; when some interface was
    a default one nothing changed, and otherwise every listed interface except the
    loopback is a default interface. *)
Theorem csp_iflist_check_dfl_outcome (s : csp_core) (l : list nat) :
  iflist s l →
  ∃ s', csp_iflist_check_dfl s = Some s' ∧ c_interfaces s' = c_interfaces s ∧
  if existsb (at_iface (c_ifaces s) (λ i, bool_decide (if_is_default i = 1))) l
  then s' = s
  else ∀ a, c_ifaces s' !! a =
    if bool_decide (a ∈ l ∧ a ≠ csp_if_lo) then set_if_default 1 <$> c_ifaces s !! a
    else c_ifaces s !! a.
Proof.
  intros Hl. unfold csp_iflist_check_dfl.
  rewrite (get_by_isdfl_spec s l [] l None Hl eq_refl eq_refl). monad.
  destruct (List.find _ l) as [a|] eqn:Hf.
  - apply find_some in Hf as [Hin Ha]. exists s. split_and!; [done|done|].
    replace (existsb _ l) with true; [done|]. symmetry. apply existsb_exists. eauto.
  - replace (existsb _ l) with false.
    2:{ symmetry. apply not_true_iff_false. intros (a & Hin & Ha)%existsb_exists.
        pose proof (find_none _ _ Hf a Hin). congruence. }
    destruct (walk_set_dfl_spec (walk_fuel s) (c_ifaces s) (c_interfaces s) l) as (m' & -> & Hm');
      [apply Hl|apply Hl|by apply iflist_fuel|]. monad. by eexists.
Qed.

Lemma csp_iflist_check_dfl_outcome_witness :
  ∃ s', csp_iflist_check_dfl iflist_example = Some s' ∧ s' = iflist_example.
Proof.
  destruct (csp_iflist_check_dfl_outcome iflist_example _ iflist_example_ok) as (s' & H1 & _ & H2).
  exists s'. split; [exact H1|exact H2].
Defined.
