(* ===== verification/Kiss.v ===== *)
(** * The KISS interface

    [lib/csp/src/interfaces/csp_if_kiss.c]: framing of packets on a serial line
    with byte stuffing, and the receive state machine. *)

From S2P Require Import Prelude Queue Types State Id Crc32 Buffer Qfifo Iflist.

Definition FEND : Z := 0xC0.
Definition FESC : Z := 0xDB.
Definition TFEND : Z := 0xDC.
Definition TFESC : Z := 0xDD.
Definition TNC_DATA : Z := 0x00.

(** ** Operations *)

(** The bytes handed to the driver for one byte of the frame. *)
Definition kiss_escape (byte : Z) : list Z :=
  if bool_decide (byte = FEND) then [FESC; TFEND]
  else if bool_decide (byte = FESC) then [FESC; TFESC]
  else [byte].

(** One call of [ifdata->tx_func]; its result is ignored by the interface. *)
Definition kiss_tx_func (iface : nat) (bytes : list Z) : C () :=
  modify (λ s, set_c_wire (c_wire s ++ [WireBytes iface bytes]) s).

Fixpoint kiss_tx_bytes (iface : nat) (bytes : list Z) : C () :=
  match bytes with
  | [] => mret ()
  | b :: bytes' => kiss_tx_func iface (kiss_escape b);; kiss_tx_bytes iface bytes'
  end.

Definition csp_kiss_tx (iface : nat) (via : Z) (packet : nat) (from_me : bool) : C Z :=
  version ← gets c_version;
  p ← get_packet packet;
  '(_, p) ← lift_opt (csp_crc32_append p);
  p ← lift_opt (csp_id_prepend version p);
  put_packet packet p;;
  kiss_tx_func iface [FEND; TNC_DATA];;
  frame ← lift_opt (frame_read p 0 (frame_length p));
  kiss_tx_bytes iface frame;;
  kiss_tx_func iface [FEND];;
  csp_buffer_free (Some packet);;
  mret CSP_ERR_NONE.

Definition get_kiss (iface : nat) : C csp_kiss_interface_data_t :=
  λ s, lift_opt (c_kiss s !! iface) s.
Definition put_kiss (iface : nat) (d : csp_kiss_interface_data_t) : C () :=
  modify (λ s, set_c_kiss (<[iface := d]> (c_kiss s)) s).

Definition set_rx_mode (m : csp_kiss_mode_t) (d : csp_kiss_interface_data_t) :=
  mk_kiss m (kiss_rx_length d) (kiss_rx_first d) (kiss_rx_packet d).

(** [ifdata->rx_packet->frame_begin[ifdata->rx_length++] = byte] *)
Definition kiss_store (iface : nat) (d : csp_kiss_interface_data_t) (byte : Z)
    : C csp_kiss_interface_data_t :=
  match kiss_rx_packet d with
  | None => ub
  | Some b =>
      p ← get_packet b;
      p ← lift_opt (frame_write p (kiss_rx_length d) [byte]);
      put_packet b p;;
      mret (mk_kiss (kiss_rx_mode d) (u32 (kiss_rx_length d + 1)) (kiss_rx_first d) (kiss_rx_packet d))
  end.

(** The test that the write position has reached the end of the buffer. *)
Definition kiss_too_long (d : csp_kiss_interface_data_t) : C bool :=
  match kiss_rx_packet d with
  | None => mret false
  | Some b =>
      p ← get_packet b;
      match frame_begin p with
      | USelf off => mret (bool_decide (MEM_SIZE ≤ off + kiss_rx_length d))
      | _ => ub
      end
  end.

(** An end character in [KISS_MODE_STARTED]. *)
Definition kiss_accept (iface : nat) (d : csp_kiss_interface_data_t) (isr : bool) : C () :=
  if bool_decide (0 < kiss_rx_length d) then
    match kiss_rx_packet d with
    | None => ub
    | Some b =>
        version ← gets c_version;
        p ← get_packet b;
        '(rc, p) ← lift_opt (csp_id_strip version (set_frame_length (u16 (kiss_rx_length d)) p));
        put_packet b p;;
        if bool_decide (rc < 0) then
          iface_add iface StRxError 1;; put_kiss iface (set_rx_mode KISS_MODE_NOT_STARTED d)
        else
          iface_add iface StFrame 1;;
          '(crc, p) ← lift_opt (csp_crc32_verify version p);
          put_packet b p;;
          if bool_decide (crc ≠ CSP_ERR_NONE) then
            iface_add iface StRxError 1;; put_kiss iface (set_rx_mode KISS_MODE_NOT_STARTED d)
          else
            csp_qfifo_write (Some b) (Some iface) isr;;
            put_kiss iface (mk_kiss KISS_MODE_NOT_STARTED (kiss_rx_length d) (kiss_rx_first d) None)
    end
  else put_kiss iface d.

(** An end character in [KISS_MODE_NOT_STARTED]. *)
Definition kiss_start (iface : nat) (d : csp_kiss_interface_data_t) (isr : bool) : C () :=
  packet ← (match kiss_rx_packet d with
            | Some b => mret (Some b)
            | None => if isr then csp_buffer_get_isr else csp_buffer_get
            end);
  match packet with
  | None => put_kiss iface (mk_kiss KISS_MODE_SKIP_FRAME (kiss_rx_length d) (kiss_rx_first d) None)
  | Some b =>
      version ← gets c_version;
      p ← get_packet b;
      put_packet b (csp_id_setup_rx version p).2;;
      put_kiss iface (mk_kiss KISS_MODE_STARTED 0 true (Some b))
  end.

(** One iteration of the loop of [csp_kiss_rx]. *)
Definition kiss_rx_byte (iface : nat) (inputbyte : Z) (isr : bool) : C () :=
  d ← get_kiss iface;
  toolong ← kiss_too_long d;
  when toolong (iface_add iface StRxError 1);;
  let d := if (toolong : bool) then mk_kiss KISS_MODE_NOT_STARTED 0 (kiss_rx_first d) (kiss_rx_packet d) else d in
  match kiss_rx_mode d with
  | KISS_MODE_NOT_STARTED =>
      if bool_decide (inputbyte ≠ FEND) then put_kiss iface d else kiss_start iface d isr
  | KISS_MODE_STARTED =>
      if bool_decide (inputbyte = FESC) then put_kiss iface (set_rx_mode KISS_MODE_ESCAPED d)
      else if bool_decide (inputbyte = FEND) then kiss_accept iface d isr
      else if kiss_rx_first d then
        put_kiss iface (mk_kiss (kiss_rx_mode d) (kiss_rx_length d) false (kiss_rx_packet d))
      else d ← kiss_store iface d inputbyte; put_kiss iface d
  | KISS_MODE_ESCAPED =>
      d ← (if bool_decide (inputbyte = TFESC) then kiss_store iface d FESC else mret d);
      d ← (if bool_decide (inputbyte = TFEND) then kiss_store iface d FEND else mret d);
      put_kiss iface (set_rx_mode KISS_MODE_STARTED d)
  | KISS_MODE_SKIP_FRAME =>
      put_kiss iface (if bool_decide (inputbyte = FEND) then set_rx_mode KISS_MODE_NOT_STARTED d else d)
  end.

Fixpoint csp_kiss_rx (iface : nat) (buf : list Z) (isr : bool) : C () :=
  match buf with
  | [] => mret ()
  | byte :: buf' => kiss_rx_byte iface byte isr;; csp_kiss_rx iface buf' isr
  end.

(** [csp_kiss_add_interface]: NULL tests of the pointers given as booleans. *)
Definition csp_kiss_add_interface (iface : option nat) (have_name have_tx_func : bool) : C Z :=
  match iface with
  | None => mret CSP_ERR_INVAL
  | Some i =>
      s ← Prelude.get;
      match c_kiss s !! i with
      | Some _ =>
          if have_name && have_tx_func then
            put_kiss i (mk_kiss KISS_MODE_NOT_STARTED 0 false None);;
            f ← get_iface i;
            put_iface i (mk_iface (if_addr f) (if_netmask f) (if_name f) NexthopKiss (if_is_default f)
              (if_tx f) (if_rx f) (if_tx_error f) (if_rx_error f) (if_drop f) (if_autherr f) (if_frame f)
              (if_txbytes f) (if_rxbytes f) (if_irq f) (if_next f));;
            s ← Prelude.get;
            '(rc, s') ← lift_opt (csp_iflist_add s i);
            put s';; mret rc
          else mret CSP_ERR_INVAL
      | None => mret CSP_ERR_INVAL
      end
  end.

(** ** Memory safety of the receiver *)

(** The receive state of interface [i]: a packet under assembly is a buffer in use
    with its frame pointer set up, and the write position is inside it. *)
Definition kiss_rx_ok (s : csp_core) (d : csp_kiss_interface_data_t) : Prop :=
  match kiss_rx_packet d with
  | None => kiss_rx_mode d = KISS_MODE_NOT_STARTED ∨ kiss_rx_mode d = KISS_MODE_SKIP_FRAME
  | Some b => ∃ k, c_pool s !! b = Some k ∧ refcount k ≠ 0 ∧
      frame_at (c_version s) (skbf_data k) ∧
      0 ≤ kiss_rx_length d ≤ CSP_BUFFER_SIZE + id_header_size (c_version s)
  end.

Definition kiss_inv (s : csp_core) (i : nat) : Prop :=
  buf_inv s ∧ is_Some (c_ifaces s !! i) ∧ ∃ d, c_kiss s !! i = Some d ∧ kiss_rx_ok s d.

Section KissSafety.
Context (i : nat) (isr : bool).
Implicit Types (s : csp_core) (d : csp_kiss_interface_data_t) (b : nat) (k : csp_skbf_t).

(** Finishing an iteration with the data [d]. *)
Lemma put_kiss_inv s d :
  buf_inv s → is_Some (c_ifaces s !! i) → kiss_rx_ok s d →
  ∃ s', put_kiss i d s = Some ((), s') ∧ kiss_inv s' i.
Proof.
  intros Hb Hi Hd. eexists; split; [done|]. split_and!; [by apply (buf_inv_ext s)|done|].
  exists d. simpl. by rewrite lookup_insert_eq.
Qed.

(** Counting an event changes no invariant. *)
Lemma iface_add_inv s st d :
  buf_inv s → is_Some (c_ifaces s !! i) → kiss_rx_ok s d →
  ∃ s', iface_add i st 1 s = Some ((), s') ∧ buf_inv s' ∧ is_Some (c_ifaces s' !! i) ∧
    c_kiss s' = c_kiss s ∧ c_pool s' = c_pool s ∧ c_version s' = c_version s.
Proof.
  intros Hb [f Hf] Hd. rewrite (iface_add_run _ _ _ _ f Hf). eexists; split; [done|].
  split_and!; try done; [by apply (buf_inv_ext s)|]. simpl. by rewrite lookup_insert_eq.
Qed.

Lemma upd_pkt_inv s b k p : buf_inv s → c_pool s !! b = Some k → packet_ok p → buf_inv (upd_pkt s b k p).
Proof. apply buf_inv_put_packet. Qed.

(** The frame area of a receive buffer. *)
Lemma kiss_store_spec s d b k byte :
  buf_inv s → kiss_rx_packet d = Some b → c_pool s !! b = Some k → frame_at (c_version s) (skbf_data k) →
  0 ≤ kiss_rx_length d < CSP_BUFFER_SIZE + id_header_size (c_version s) → is_u8 byte →
  ∃ p, frame_write (skbf_data k) (kiss_rx_length d) [byte] = Some p ∧ packet_ok p ∧
    kiss_store i d byte s =
      Some (mk_kiss (kiss_rx_mode d) (kiss_rx_length d + 1) (kiss_rx_first d) (Some b), upd_pkt s b k p) ∧
    frame_at (c_version s) p.
Proof.
  intros Hb Hp Hk Hf Hlen Hbyte. destruct (bi_pool s Hb _ _ Hk) as (_ & Hok & _).
  pose proof (id_header_size_range (c_version s)) as Hs.
  destruct (mem_write_is_Some (pk_mem (skbf_data k))
    (DATA_OFF - id_header_size (c_version s) + kiss_rx_length d) [byte]) as (m & Hm & Hml).
  { sizes. lia. }
  { rewrite (po_mem _ Hok). simpl. sizes. lia. }
  assert (frame_write (skbf_data k) (kiss_rx_length d) [byte] = Some (set_pk_mem m (skbf_data k))) as Hw.
  { unfold frame_write. rewrite Hf, Hm. done. }
  exists (set_pk_mem m (skbf_data k)). split_and!; [done| | |done].
  - apply set_pk_mem_ok; [done|done|]. eapply mem_write_bytes_ok; [apply Hok| |done]. by apply Forall_singleton.
  - unfold kiss_store. rewrite Hp. run (get_packet_run s b k Hk).
    run (lift_opt_run _ _ s Hw). run (put_packet_run s b k (set_pk_mem m (skbf_data k)) Hk).
    rewrite u32_id by (sizes; mlia). done.
Qed.

(** An end character completes the frame under assembly, whatever it holds. *)
Lemma kiss_accept_inv s d :
  buf_inv s → is_Some (c_ifaces s !! i) → kiss_rx_ok s d → is_Some (kiss_rx_packet d) →
  ∃ s', kiss_accept i d isr s = Some ((), s') ∧ kiss_inv s' i.
Proof.
  intros Hb Hi Hd [b Hrx]. unfold kiss_accept. case_bool_decide as Hpos; [|by apply put_kiss_inv].
  pose proof Hd as Hd'. unfold kiss_rx_ok in Hd'. rewrite Hrx in *. destruct Hd' as (k & Hk & Hr & Hf & Hlen).
  destruct (bi_pool s Hb _ _ Hk) as (_ & Hok & _). pose proof (id_header_size_range (c_version s)) as Hs.
  set (v := c_version s) in *. set (q := set_frame_length (u16 (kiss_rx_length d)) (skbf_data k)).
  assert (packet_ok q) as Hq by (destruct Hok; split; simpl; auto using u16_range).
  assert (∃ rc p, csp_id_strip v q = Some (rc, p) ∧ packet_ok p ∧ frame_at v p ∧
            (rc < 0 ∨ pk_length p ≤ CSP_BUFFER_SIZE)) as (rc & p & Hst & Hp & Hfp & Hlp).
  { destruct (decide (frame_length q < id_header_size v)) as [Hlt|Hge].
    - eexists _, _. rewrite csp_id_strip_unfold, bool_decide_true by done.
      split_and!; [done| |done|by left]. destruct Hq; split; simpl; done.
    - destruct (csp_id_strip_spec v q Hq Hf) as (hdr & _ & Hst); [lia|]. eexists _, _.
      split_and!; [done|by eapply csp_id_strip_ok|done|]. right. simpl. rewrite u16_id; sizes; mlia. }
  run (eq_refl : gets c_version s = Some (v, s)). run (get_packet_run s b k Hk).
  run (lift_opt_run _ _ s Hst). run (put_packet_run s b k p Hk).
  set (s1 := upd_pkt s b k p). pose proof (upd_pkt_lookup s b k p Hk) as Hk1. fold s1 in Hk1.
  assert (buf_inv s1) as Hb1 by (by apply upd_pkt_inv).
  assert (∀ m, kiss_rx_ok s1 (mk_kiss m (kiss_rx_length d) (kiss_rx_first d) (Some b))) as Hd1.
  { intros m. unfold kiss_rx_ok. simpl. eexists; split; [exact Hk1|]. exact (conj Hr (conj Hfp Hlen)). }
  case_bool_decide as Hrc.
  { destruct (iface_add_inv s1 StRxError d) as (s2 & Hs2 & Hb2 & Hi2 & _ & Hp2 & Hv2); [done..| |].
    { unfold kiss_rx_ok. rewrite Hrx. apply (Hd1 (kiss_rx_mode d)). }
    run Hs2. apply put_kiss_inv; [done..|]. unfold set_rx_mode, kiss_rx_ok. rewrite Hrx. simpl.
    rewrite Hp2, Hv2. apply (Hd1 (kiss_rx_mode d)). }
  destruct Hlp as [?|Hlp]; [done|].
  destruct (iface_add_inv s1 StFrame d) as (s2 & Hs2 & Hb2 & Hi2 & _ & Hp2 & Hv2); [done..| |].
  { unfold kiss_rx_ok. rewrite Hrx. apply (Hd1 (kiss_rx_mode d)). }
  run Hs2.
  destruct (csp_crc32_verify_total v p Hp Hlp) as (crc & p' & Hcrc & Hp' & Hfp' & _).
  run (lift_opt_run _ _ s2 Hcrc). rewrite <- Hp2 in Hk1. run (put_packet_run s2 b _ p' Hk1).
  set (s3 := upd_pkt s2 b _ p'). pose proof (upd_pkt_lookup s2 b _ p' Hk1) as Hk3. fold s3 in Hk3.
  assert (buf_inv s3) as Hb3 by (by apply upd_pkt_inv).
  assert (∀ m, kiss_rx_ok s3 (mk_kiss m (kiss_rx_length d) (kiss_rx_first d) (Some b))) as Hd3.
  { intros m. unfold kiss_rx_ok. simpl. rewrite Hv2. eexists; split; [exact Hk3|]. exact (conj Hr (conj (Hfp' Hfp) Hlen)). }
  case_bool_decide as Hcr.
  { destruct (iface_add_inv s3 StRxError d) as (s4 & Hs4 & Hb4 & Hi4 & _ & Hp4 & Hv4); [done..| |].
    { unfold kiss_rx_ok. rewrite Hrx. apply (Hd3 (kiss_rx_mode d)). }
    run Hs4. apply put_kiss_inv; [done..|]. unfold set_rx_mode, kiss_rx_ok. rewrite Hrx. simpl.
    rewrite Hp4, Hv4. apply (Hd3 (kiss_rx_mode d)). }
  destruct (csp_qfifo_write_spec s3 b i isr) as (s4 & Hs4 & Hb4 & (_ & _ & _ & _ & _ & _ & Hd4) & _);
    [done|by eapply lookup_lt_Some|done|].
  run Hs4. apply put_kiss_inv; [done|by apply Hd4|]. by left.
Qed.

(** Starting a frame. *)
Lemma kiss_start_inv s d :
  buf_inv s → is_Some (c_ifaces s !! i) → kiss_rx_ok s d →
  ∃ s', kiss_start i d isr s = Some ((), s') ∧ kiss_inv s' i.
Proof.
  intros Hb Hi Hd. unfold kiss_start.
  assert (∃ r s1, match kiss_rx_packet d with
            | Some b => mret (Some b) | None => if isr then csp_buffer_get_isr else csp_buffer_get end s
          = Some (r, s1) ∧ buf_inv s1 ∧ is_Some (c_ifaces s1 !! i) ∧
          match r with None => True | Some b => ∃ k, c_pool s1 !! b = Some k ∧ refcount k ≠ 0 end)
    as (r & s1 & Hr & Hb1 & Hi1 & Hr1).
  { unfold kiss_rx_ok in Hd. destruct (kiss_rx_packet d) as [b|].
    - destruct Hd as (k & ? & ? & _). exists (Some b), s. split_and!; try done. by exists k.
    - change csp_buffer_get_isr with csp_buffer_get.
      destruct (csp_buffer_get_spec s Hb) as [(s1 & Hg & _ & Hb1 & _)|(b & k & s1 & Hg & Hb1 & Hk & _ & _ & Hs1)].
      + eexists _, s1. split_and!; [by destruct isr|done| |done].
        apply csp_buffer_get_frame in Hg. rewrite Hg. done.
      + eexists _, s1. split_and!; [by destruct isr|done| |].
        * apply csp_buffer_get_frame in Hg. rewrite Hg. done.
        * rewrite Hs1. simpl. eexists. split; [apply list_lookup_insert_eq; by eapply lookup_lt_Some|done]. }
  run Hr. destruct r as [b|]; [|apply put_kiss_inv; [done..|by right]].
  destruct Hr1 as (k & Hk & Hrc). destruct (bi_pool s1 Hb1 _ _ Hk) as (_ & Hok & _).
  run (eq_refl : gets c_version s1 = Some (c_version s1, s1)). run (get_packet_run s1 b k Hk).
  run (put_packet_run s1 b k (csp_id_setup_rx (c_version s1) (skbf_data k)).2 Hk).
  rewrite csp_id_setup_rx_unfold. simpl snd. pose proof (id_header_size_range (c_version s1)).
  apply put_kiss_inv; [apply upd_pkt_inv; [done..|]|done|].
  - destruct Hok; split; simpl; try done. 
  - eexists. split; [by apply upd_pkt_lookup|]. split_and!; try done. simpl. sizes. lia.
Qed.

(** The position test decides whether another byte fits. *)
Lemma kiss_too_long_spec s d :
  kiss_rx_ok s d →
  ∃ t, kiss_too_long d s = Some (t, s) ∧
    (t = false → is_Some (kiss_rx_packet d) → kiss_rx_length d < CSP_BUFFER_SIZE + id_header_size (c_version s)) ∧
    (kiss_rx_packet d = None → t = false).
Proof.
  intros Hd. unfold kiss_too_long, kiss_rx_ok in *. destruct (kiss_rx_packet d) as [b|].
  - destruct Hd as (k & Hk & _ & Hf & Hlen). run (get_packet_run s b k Hk). rewrite Hf.
    eexists; split; [done|]. split; [|done]. intros Ht%bool_decide_eq_false _. sizes. lia.
  - exists false. split_and!; [done| |done]. by intros _ [? ?].
Qed.

(** Storing a byte and finishing the iteration in mode [m]. *)
Lemma kiss_store_inv s d byte m :
  buf_inv s → is_Some (c_ifaces s !! i) → kiss_rx_ok s d → is_Some (kiss_rx_packet d) →
  kiss_rx_length d < CSP_BUFFER_SIZE + id_header_size (c_version s) → is_u8 byte →
  ∃ d' s', kiss_store i d byte s = Some (d', s') ∧ buf_inv s' ∧ is_Some (c_ifaces s' !! i) ∧
    kiss_rx_ok s' (set_rx_mode m d').
Proof.
  intros Hb Hi Hd [b Hrx] Hlen Hbyte. pose proof Hd as Hd'. unfold kiss_rx_ok in Hd'. rewrite Hrx in Hd'.
  destruct Hd' as (k & Hk & Hr & Hf & Hl).
  destruct (kiss_store_spec s d b k byte) as (p & Hw & Hp & Hst & Hfp); [done..|lia|done|].
  eexists _, _. split; [exact Hst|]. split_and!; [by apply upd_pkt_inv|done|].
  unfold kiss_rx_ok. simpl. eexists; split; [by apply list_lookup_insert_eq; eapply lookup_lt_Some|].
  split_and!; [done|done|lia|lia].
Qed.

Lemma kiss_rx_ok_mode s d m : kiss_rx_ok s d → is_Some (kiss_rx_packet d) → kiss_rx_ok s (set_rx_mode m d).
Proof. intros Hd [b Hb]. unfold kiss_rx_ok, set_rx_mode in *. simpl. by rewrite Hb in *. Qed.

Lemma kiss_rx_byte_inv s byte :
  kiss_inv s i → is_u8 byte → ∃ s', kiss_rx_byte i byte isr s = Some ((), s') ∧ kiss_inv s' i.
Proof.
  intros (Hb & Hi & d0 & Hd0 & Hok0) Hbyte. unfold kiss_rx_byte.
  run (lift_opt_run (c_kiss s !! i) d0 s Hd0 : get_kiss i s = Some (d0, s)).
  destruct (kiss_too_long_spec s d0 Hok0) as (t & Ht & Hroom & Hnone). run Ht.
  set (d := if t then mk_kiss _ 0 _ _ else d0).
  assert (∃ s1, when t (iface_add i StRxError 1) s = Some ((), s1) ∧ buf_inv s1 ∧
    is_Some (c_ifaces s1 !! i) ∧ c_pool s1 = c_pool s ∧ c_version s1 = c_version s) as (s1 & Hs1 & Hb1 & Hi1 & Hp1 & Hv1).
  { destruct t; [|by exists s]. destruct (iface_add_inv s StRxError d0) as (s1 & ? & ? & ? & _ & ? & ?); eauto 10. }
  run Hs1.
  assert (kiss_rx_ok s1 d ∧ (is_Some (kiss_rx_packet d) →
            kiss_rx_length d < CSP_BUFFER_SIZE + id_header_size (c_version s1))) as [Hd Hlt].
  { pose proof (id_header_size_range (c_version s)). unfold kiss_rx_ok in *. subst d. rewrite Hp1, Hv1.
    destruct t; simpl; [|by auto]. destruct (kiss_rx_packet d0) as [b|]; [|by specialize (Hnone eq_refl)].
    destruct Hok0 as (k & ? & ? & ? & ?). split; [|sizes; lia]. exists k. split_and!; try done. sizes; lia. }
  clearbody d.
  assert (is_Some (kiss_rx_packet d) ∨ (kiss_rx_packet d = None ∧
    (kiss_rx_mode d = KISS_MODE_NOT_STARTED ∨ kiss_rx_mode d = KISS_MODE_SKIP_FRAME))) as Hcase.
  { unfold kiss_rx_ok in Hd. destruct (kiss_rx_packet d); eauto. }
  destruct (kiss_rx_mode d) eqn:Hm.
  - case_bool_decide; [by apply put_kiss_inv|by apply kiss_start_inv].
  - destruct Hcase as [Hsome|[_ [?|?]]]; [|done..].
    case_bool_decide; [by apply put_kiss_inv, kiss_rx_ok_mode|].
    case_bool_decide; [by apply kiss_accept_inv|].
    destruct (kiss_rx_first d).
    + apply put_kiss_inv; [done..|]. rewrite <- Hm.
      destruct Hsome as [b Hs]. unfold kiss_rx_ok in *. simpl. by rewrite Hs in *.
    + destruct (kiss_store_inv s1 d byte KISS_MODE_STARTED) as (d' & s2 & Hst & Hb2 & Hi2 & Hd2); auto.
      run Hst. apply put_kiss_inv; [done..|].
      unfold kiss_store in Hst. destruct Hsome as [b Hs]. rewrite Hs in Hst.
      apply ST_bind_Some in Hst as (p & sp & _ & Hst). apply ST_bind_Some in Hst as (p' & sp' & _ & Hst).
      apply ST_bind_Some in Hst as ([] & sp'' & _ & [= <- <-]). unfold kiss_rx_ok, set_rx_mode in *. simpl in *. done.
  - destruct Hcase as [Hsome|[_ [?|?]]]; [|done..].
    destruct (decide (byte = TFESC)) as [->|Ha]; [|rewrite (bool_decide_false (byte = TFESC)) by done;
      destruct (decide (byte = TFEND)) as [->|Hf]; [|rewrite (bool_decide_false (byte = TFEND)) by done]].
    + destruct (kiss_store_inv s1 d FESC KISS_MODE_STARTED) as (d' & s2 & Hst & Hb2 & Hi2 & Hd2); auto.
      run Hst. by apply put_kiss_inv.
    + run (eq_refl : (mret d : C _) s1 = Some (d, s1)).
      destruct (kiss_store_inv s1 d FEND KISS_MODE_STARTED) as (d' & s2 & Hst & Hb2 & Hi2 & Hd2); auto.
      run Hst. by apply put_kiss_inv.
    + run (eq_refl : (mret d : C _) s1 = Some (d, s1)). run (eq_refl : (mret d : C _) s1 = Some (d, s1)).
      by apply put_kiss_inv, kiss_rx_ok_mode.
  - case_bool_decide; apply put_kiss_inv; try done. unfold kiss_rx_ok, set_rx_mode in *. simpl.
    destruct (kiss_rx_packet d); [done|by left].
Qed.
End KissSafety.

(** C30: whatever bytes arrive on the line, in task or interrupt context, the
    receiver never touches memory outside its buffer, follows no stale pointer,
    and keeps the buffer pool's invariant and its own. *)
Theorem csp_kiss_rx_memory_safe (s : csp_core) (i : nat) (buf : list Z) (isr : bool) :
  kiss_inv s i → bytes_ok buf →
  ∃ s', csp_kiss_rx i buf isr s = Some ((), s') ∧ kiss_inv s' i.
Proof.
  intros Hinv Hbuf. revert s Hinv. induction Hbuf as [|byte buf Hbyte Hbuf IH]; intros s Hinv; [by exists s|].
  destruct (kiss_rx_byte_inv i isr s byte Hinv Hbyte) as (s1 & Hs1 & Hinv1). simpl. run Hs1. by apply IH.
Qed.

(** ** Framing round trip *)

(** The bytes of a frame on the line. *)
Definition kiss_encode (frame : list Z) : list Z :=
  [FEND; TNC_DATA] ++ List.concat (kiss_escape <$> frame) ++ [FEND].

(** The bytes handed to the driver of interface [i]. *)
Definition wire_bytes (i : nat) (w : list wire_event) : list Z :=
  List.concat ((λ e, match e with WireBytes j bs => if bool_decide (j = i) then bs else [] | _ => [] end) <$> w).

(** Interface [i] has received [acc] of the current frame into buffer [b]. *)
Record receiving (s : csp_core) (i b : nat) (m : csp_kiss_mode_t) (first : bool) (acc : list Z) : Prop := {
  rc_buf : buf_inv s;
  rc_iface : is_Some (c_ifaces s !! i);
  rc_kiss : c_kiss s !! i = Some (mk_kiss m (Z.of_nat (List.length acc)) first (Some b));
  rc_pkt : ∃ k, c_pool s !! b = Some k ∧ refcount k ≠ 0 ∧ frame_at (c_version s) (skbf_data k) ∧
    frame_read (skbf_data k) 0 (Z.of_nat (List.length acc)) = Some acc;
}.

Section KissRoundtrip.
Context (i : nat) (isr : bool).
Implicit Types (s : csp_core) (b : nat) (acc : list Z).

Lemma csp_kiss_rx_app l1 l2 s :
  csp_kiss_rx i (l1 ++ l2) isr s =
  match csp_kiss_rx i l1 isr s with Some (_, s') => csp_kiss_rx i l2 isr s' | None => None end.
Proof.
  revert s. induction l1 as [|x l1 IH]; intros s; [done|]. simpl. st_unfold.
  destruct (kiss_rx_byte i x isr s) as [[u s']|]; [|done]. apply IH.
Qed.

(** An iteration that finds room in the buffer. *)
Lemma kiss_rx_byte_room s d byte :
  c_kiss s !! i = Some d → kiss_too_long d s = Some (false, s) →
  kiss_rx_byte i byte isr s =
  match kiss_rx_mode d with
  | KISS_MODE_NOT_STARTED =>
      if bool_decide (byte ≠ FEND) then put_kiss i d s else kiss_start i d isr s
  | KISS_MODE_STARTED =>
      if bool_decide (byte = FESC) then put_kiss i (set_rx_mode KISS_MODE_ESCAPED d) s
      else if bool_decide (byte = FEND) then kiss_accept i d isr s
      else if kiss_rx_first d then
        put_kiss i (mk_kiss (kiss_rx_mode d) (kiss_rx_length d) false (kiss_rx_packet d)) s
      else (d ← kiss_store i d byte; put_kiss i d) s
  | KISS_MODE_ESCAPED =>
      (d ← (if bool_decide (byte = TFESC) then kiss_store i d FESC else mret d);
       d ← (if bool_decide (byte = TFEND) then kiss_store i d FEND else mret d);
       put_kiss i (set_rx_mode KISS_MODE_STARTED d)) s
  | KISS_MODE_SKIP_FRAME =>
      put_kiss i (if bool_decide (byte = FEND) then set_rx_mode KISS_MODE_NOT_STARTED d else d) s
  end.
Proof.
  intros Hd Ht. unfold kiss_rx_byte. run (lift_opt_run (c_kiss s !! i) d s Hd : get_kiss i s = Some (d, s)).
  run Ht. run (eq_refl : when false (iface_add i StRxError 1) s = Some ((), s)).
  destruct (kiss_rx_mode d); repeat case_bool_decide; try done. by destruct (kiss_rx_first d).
Qed.

Lemma receiving_room s b first acc m :
  receiving s i b m first acc → Z.of_nat (List.length acc) < CSP_BUFFER_SIZE + id_header_size (c_version s) →
  kiss_too_long (mk_kiss m (Z.of_nat (List.length acc)) first (Some b)) s = Some (false, s).
Proof.
  intros [_ _ _ (k & Hk & _ & Hf & _)] Hlt. unfold kiss_too_long. simpl. run (get_packet_run s b k Hk).
  rewrite Hf. rewrite bool_decide_false; [done|]. sizes. lia.
Qed.

(** Storing the next byte extends the received frame. *)
Lemma kiss_store_extends s b acc m byte :
  receiving s i b m false acc → Z.of_nat (List.length acc) < CSP_BUFFER_SIZE + id_header_size (c_version s) →
  is_u8 byte →
  ∃ s', kiss_store i (mk_kiss m (Z.of_nat (List.length acc)) false (Some b)) byte s =
    Some (mk_kiss m (Z.of_nat (List.length acc) + 1) false (Some b), s') ∧
    (∃ k p, s' = upd_pkt s b k p) ∧
    receiving (set_c_kiss (<[i := mk_kiss KISS_MODE_STARTED (Z.of_nat (List.length acc) + 1) false (Some b)]> (c_kiss s')) s')
      i b KISS_MODE_STARTED false (acc ++ [byte]).
Proof.
  intros [Hb Hi Hd (k & Hk & Hr & Hf & Hread)] Hlt Hbyte.
  destruct (kiss_store_spec i s (mk_kiss m (Z.of_nat (List.length acc)) false (Some b)) b k byte)
    as (p & Hw & Hp & Hst & Hfp); [done..|simpl; lia|done|].
  eexists; split; [exact Hst|]. split; [eauto|].
  split; rewrite ?length_app, ?Nat2Z.inj_add; simpl.
  - eapply (buf_inv_ext (upd_pkt s b k p)); [done|done|by apply upd_pkt_inv].
  - done.
  - by rewrite lookup_insert_eq.
  - eexists; split; [by apply list_lookup_insert_eq; eapply lookup_lt_Some|]. simpl.
    split_and!; [done|done|]. unfold frame_read, frame_write in *. rewrite Hf in *. simpl in Hw.
    destruct (mem_write _ _ _) as [mm|] eqn:Hm; [|done]. injection Hw as <-. rewrite Hfp. simpl.
    eapply mem_read_app.
    + rewrite (mem_read_write_ne _ _ _ _ _ _ Hm) by lia. done.
    + replace (DATA_OFF - id_header_size (c_version s) + 0 + Z.of_nat (List.length acc))
        with (DATA_OFF - id_header_size (c_version s) + Z.of_nat (List.length acc)) by lia.
      apply (mem_read_write_eq _ _ _ _ Hm).
Qed.

(** The parts of the state a receive step leaves alone. *)
Definition rx_frame s s' : Prop := c_version s' = c_version s ∧ c_qfifo s' = c_qfifo s.

Lemma receiving_put s b m m' first first' acc :
  receiving s i b m first acc →
  receiving (set_c_kiss (<[i := mk_kiss m' (Z.of_nat (List.length acc)) first' (Some b)]> (c_kiss s)) s)
    i b m' first' acc.
Proof.
  intros [Hb Hi Hd Hk]. split; [by apply (buf_inv_ext s)|done| |done]. simpl. by rewrite lookup_insert_eq.
Qed.

(** One stuffed byte. *)
Lemma kiss_rx_escaped s b acc byte :
  receiving s i b KISS_MODE_STARTED false acc →
  Z.of_nat (List.length acc) < CSP_BUFFER_SIZE + id_header_size (c_version s) → is_u8 byte →
  ∃ s', csp_kiss_rx i (kiss_escape byte) isr s = Some ((), s') ∧ rx_frame s s' ∧
    receiving s' i b KISS_MODE_STARTED false (acc ++ [byte]).
Proof.
  intros Hrc Hlt Hbyte. unfold kiss_escape.
  assert (∀ c, c = TFEND ∧ byte = FEND ∨ c = TFESC ∧ byte = FESC →
    ∃ s', csp_kiss_rx i [FESC; c] isr s = Some ((), s') ∧ rx_frame s s' ∧
      receiving s' i b KISS_MODE_STARTED false (acc ++ [byte])) as Hesc.
  { intros c Hc. cbn [csp_kiss_rx].
    erewrite ST_bind_run; [|by rewrite (kiss_rx_byte_room _ _ _ (rc_kiss _ _ _ _ _ _ Hrc) (receiving_room _ _ _ _ _ Hrc Hlt))].
    unfold set_rx_mode; cbn [kiss_rx_length kiss_rx_first kiss_rx_packet].
    pose proof (receiving_put s b _ KISS_MODE_ESCAPED _ false acc Hrc) as Hrc1.
    set (s1 := set_c_kiss _ s) in *.
    destruct (kiss_store_extends s1 b acc KISS_MODE_ESCAPED byte Hrc1) as (s2 & Hst & (k & p & ->) & Hrc2); [done..|].
    erewrite ST_bind_run; [by eexists; split; [done|split; [|exact Hrc2]]|].
    rewrite (kiss_rx_byte_room _ _ _ (rc_kiss _ _ _ _ _ _ Hrc1) (receiving_room _ _ _ _ _ Hrc1 Hlt)).
    cbn [kiss_rx_mode]. destruct Hc as [[-> ->]|[-> ->]]; simpl bool_decide; cbv iota.
    - run (eq_refl : (mret (mk_kiss KISS_MODE_ESCAPED (Z.of_nat (List.length acc)) false (Some b)) : C _) s1 =
        Some (mk_kiss KISS_MODE_ESCAPED (Z.of_nat (List.length acc)) false (Some b), s1)).
      run Hst. done.
    - run Hst. done. }
  case_bool_decide as Hc1; [by apply Hesc; left|]. case_bool_decide as Hc2; [by apply Hesc; right|].
  destruct (kiss_store_extends s b acc KISS_MODE_STARTED byte Hrc) as (s2 & Hst & (k & p & ->) & Hrc2); [done..|].
  cbn [csp_kiss_rx]. erewrite ST_bind_run; [by eexists; split; [done|split; [|exact Hrc2]]|].
  rewrite (kiss_rx_byte_room _ _ _ (rc_kiss _ _ _ _ _ _ Hrc) (receiving_room _ _ _ _ _ Hrc Hlt)).
  cbn [kiss_rx_mode kiss_rx_first]. rewrite !bool_decide_false by done. by run Hst.
Qed.

Lemma kiss_rx_frame_bytes frame : ∀ s b acc,
  receiving s i b KISS_MODE_STARTED false acc → bytes_ok frame →
  Z.of_nat (List.length (acc ++ frame)) ≤ CSP_BUFFER_SIZE + id_header_size (c_version s) →
  ∃ s', csp_kiss_rx i (List.concat (kiss_escape <$> frame)) isr s = Some ((), s') ∧ rx_frame s s' ∧
    receiving s' i b KISS_MODE_STARTED false (acc ++ frame).
Proof.
  induction frame as [|x frame IH]; intros s b acc Hrc Hok Hlen.
  { exists s. by rewrite app_nil_r. }
  inversion Hok as [|?? Hx Hok']; subst. rewrite length_app in Hlen. simpl in Hlen.
  destruct (kiss_rx_escaped s b acc x) as (s1 & Hs1 & [Hv1 Hq1] & Hrc1); [done|lia|done|].
  destruct (IH s1 b (acc ++ [x])) as (s2 & Hs2 & [Hv2 Hq2] & Hrc2); [done|done| |].
  { rewrite Hv1, !length_app. simpl. lia. }
  exists s2. cbn [fmap list_fmap List.concat]. rewrite csp_kiss_rx_app, Hs1.
  split; [done|]. split; [split; congruence|]. by rewrite <- app_assoc in Hrc2.
Qed.

(** A start character with a buffer at hand. *)
Lemma kiss_start_run s d :
  buf_inv s → is_Some (c_ifaces s !! i) → kiss_rx_ok s d →
  is_Some (kiss_rx_packet d) ∨ fq_items (c_free s) ≠ [] →
  ∃ b s', kiss_start i d isr s = Some ((), s') ∧ rx_frame s s' ∧
    receiving s' i b KISS_MODE_STARTED true [].
Proof.
  intros Hb Hi Hd Hav. unfold kiss_start.
  assert (∃ b s1 k, match kiss_rx_packet d with
            | Some b => mret (Some b) | None => if isr then csp_buffer_get_isr else csp_buffer_get end s
          = Some (Some b, s1) ∧ buf_inv s1 ∧ is_Some (c_ifaces s1 !! i) ∧ rx_frame s s1 ∧
          c_pool s1 !! b = Some k ∧ refcount k ≠ 0) as (b & s1 & k & Hr & Hb1 & Hi1 & Hfr & Hk & Hrc).
  { unfold kiss_rx_ok in Hd. destruct (kiss_rx_packet d) as [b|].
    - destruct Hd as (k & ? & ? & _). by exists b, s, k.
    - change csp_buffer_get_isr with csp_buffer_get. destruct Hav as [[? ?]|Hav]; [done|].
      destruct (csp_buffer_get_spec s Hb) as [(s1 & _ & He & _)|(b & k & s1 & Hg & Hb1 & Hk & _ & _ & Hs1)]; [done|].
      exists b, s1. eexists. split; [by destruct isr|].
      pose proof (csp_buffer_get_frame _ _ _ Hg) as Hfr. split_and!; [done|by rewrite Hfr| | |].
      + rewrite Hfr. done.
      + rewrite Hs1. simpl. apply list_lookup_insert_eq. by eapply lookup_lt_Some.
      + done. }
  run Hr. destruct (bi_pool s1 Hb1 _ _ Hk) as (_ & Hok & _).
  run (eq_refl : gets c_version s1 = Some (c_version s1, s1)). run (get_packet_run s1 b k Hk).
  run (put_packet_run s1 b k (csp_id_setup_rx (c_version s1) (skbf_data k)).2 Hk).
  rewrite csp_id_setup_rx_unfold. simpl snd. pose proof (id_header_size_range (c_version s1)) as Hs.
  set (p := set_frame_length 0 _). assert (packet_ok p) as Hp by (destruct Hok; split; simpl; done).
  exists b. eexists; split; [done|]. split; [done|]. split.
  - eapply (buf_inv_ext (upd_pkt s1 b k p)); [done|done|by apply upd_pkt_inv].
  - done.
  - simpl. by rewrite lookup_insert_eq.
  - eexists; split; [by apply upd_pkt_lookup|]. split_and!; [done|done|].
    unfold frame_read, p. simpl. unfold mem_read. rewrite bool_decide_true; [done|].
    rewrite (po_mem _ Hok). sizes. lia.
Qed.

(** An end character after a frame that carries a valid trailer. *)
Lemma kiss_accept_good s b k id pay :
  receiving s i b KISS_MODE_STARTED false
    (id_header (c_version s) id ++ pay ++ be_bytes 4 (csp_crc32_memory pay)) →
  c_pool s !! b = Some k → id_fits (c_version s) id →
  (List.length (fq_items (c_qfifo s)) < fq_cap (c_qfifo s))%nat →
  Z.of_nat (List.length pay) + 4 < CSP_BUFFER_SIZE →
  ∃ s' k', csp_kiss_rx i [FEND] isr s = Some ((), s') ∧
    fq_items (c_qfifo s') = fq_items (c_qfifo s) ++ [(Some b, Some i)] ∧
    c_pool s' !! b = Some k' ∧ pk_id (skbf_data k') = id ∧ payload (skbf_data k') = Some pay.
Proof.
  intros Hrc Hk Hfit Hroom Hlen. set (v := c_version s) in *.
  set (t := be_bytes 4 (csp_crc32_memory pay)) in *. set (frame := id_header v id ++ pay ++ t) in *.
  pose proof (id_header_size_range v) as Hs. pose proof (length_id_header v id) as Hhl.
  assert (Z.of_nat (List.length frame) = id_header_size v + (Z.of_nat (List.length pay) + 4)) as Hfl.
  { unfold frame, t. rewrite !length_app, length_be_bytes. lia. }
  cbn [csp_kiss_rx].
  pose proof (kiss_rx_byte_room s _ FEND (rc_kiss _ _ _ _ _ _ Hrc)
    (receiving_room _ _ _ _ _ Hrc ltac:(fold v; lia))) as Hstep. cbn [kiss_rx_mode] in Hstep.
  rewrite bool_decide_false, bool_decide_true in Hstep by done.
  destruct Hrc as [Hb [f Hf] _ (k' & Hk' & Hr & Hfa & Hread)]. rewrite Hk in Hk'. injection Hk' as <-. fold v in Hfa.
  destruct (bi_pool s Hb _ _ Hk) as (_ & Hok & _).
  unfold kiss_accept in Hstep. cbn [kiss_rx_length kiss_rx_packet] in Hstep.
  rewrite bool_decide_true in Hstep by lia.
  set (q := set_frame_length (Z.of_nat (List.length frame)) (skbf_data k)).
  assert (packet_ok q) as Hq by (destruct Hok; split; simpl; try done; sizes; mlia).
  destruct (csp_id_strip_spec v q Hq Hfa) as (hdr & Hh & Hst); [simpl; lia|].
  rewrite Hfl in Hread.
  destruct (frame_read_app_inv v q (id_header v id) (pay ++ t) (Z.of_nat (List.length pay) + 4)) as [H1 H2];
    [done|apply length_id_header|lia|done|].
  rewrite H1 in Hh. injection Hh as <-. rewrite id_parse_header in Hst by done.
  simpl frame_length in Hst. replace (Z.of_nat (List.length frame) - id_header_size v)
    with (Z.of_nat (List.length pay) + 4) in Hst by lia.
  set (p := set_pk_id id _) in Hst.
  assert (packet_ok p) as Hp by (eapply csp_id_strip_ok; [exact Hq|exact Hst]).
  destruct (csp_crc32_verify_accepts v p pay) as (p' & Hcrc & Hp' & Hid' & Hl' & Hpay'); [done|done|simpl; lia|done|].
  replace (u16 (Z.of_nat (List.length frame))) with (Z.of_nat (List.length frame)) in Hstep by (sizes; mlia).
  revert Hstep. run (eq_refl : gets c_version s = Some (v, s)). run (get_packet_run s b k Hk).
  run (lift_opt_run _ _ s Hst). run (put_packet_run s b k p Hk). rewrite bool_decide_false by lia.
  set (s1 := upd_pkt s b k p). run (iface_add_run s1 i StFrame 1 f Hf).
  set (s2 := set_c_ifaces _ s1). run (lift_opt_run _ _ s2 Hcrc).
  assert (c_pool s2 !! b = Some (mk_skbf (refcount k) (skbf_addr k) p)) as Hk2 by (by apply upd_pkt_lookup).
  run (put_packet_run s2 b _ p' Hk2). set (s3 := upd_pkt s2 b _ p'). rewrite bool_decide_false by (by intros []).
  run (csp_qfifo_write_room s3 b i isr Hroom). intros Hstep.
  run Hstep. eexists _, _. split; [done|]. split; [done|]. split; [simpl; apply list_lookup_insert_eq|].
  - rewrite length_insert. by eapply lookup_lt_Some.
  - done.
Qed.

(** A receiver that waits for a frame and can have a buffer. *)
Definition kiss_ready s : Prop :=
  kiss_inv s i ∧
  (∃ d, c_kiss s !! i = Some d ∧ kiss_rx_mode d = KISS_MODE_NOT_STARTED ∧
    (is_Some (kiss_rx_packet d) ∨ fq_items (c_free s) ≠ [])).

(** A start character when no frame is under way, or the buffer is full. *)
Lemma kiss_rx_fend s d t :
  kiss_inv s i → c_kiss s !! i = Some d → kiss_too_long d s = Some (t, s) →
  t = true ∨ kiss_rx_mode d = KISS_MODE_NOT_STARTED →
  is_Some (kiss_rx_packet d) ∨ fq_items (c_free s) ≠ [] →
  ∃ b s1, kiss_rx_byte i FEND isr s = Some ((), s1) ∧ rx_frame s s1 ∧
    receiving s1 i b KISS_MODE_STARTED true [].
Proof.
  intros (Hb & Hi & d' & Hd & Hok) Hd' Ht Hm Hav. rewrite Hd in Hd'. injection Hd' as ->.
  destruct t.
  - destruct (iface_add_inv i s StRxError d) as (sa & Ha & Hba & Hia & _ & Hpa & Hva); [done..|].
    assert (rx_frame s sa ∧ c_free sa = c_free s) as [[Hva' Hqa] Hfa].
    { destruct Hi as [f Hf]. rewrite (iface_add_run _ _ _ _ f Hf) in Ha. by injection Ha as <-. }
    set (da := mk_kiss KISS_MODE_NOT_STARTED 0 (kiss_rx_first d) (kiss_rx_packet d)).
    pose proof (id_header_size_range (c_version s)).
    destruct (kiss_start_run sa da) as (b & s1 & Hst & [Hv1 Hq1] & Hrc); [done|done| |by rewrite Hfa|].
    { unfold kiss_rx_ok in *. simpl. rewrite Hpa, Hva. destruct (kiss_rx_packet d); [|by left].
      destruct Hok as (k & ? & ? & ? & ?). exists k. split_and!; try done. sizes. lia. }
    exists b, s1. split; [|split; [split; congruence|done]]. unfold kiss_rx_byte.
    run (lift_opt_run (c_kiss s !! i) d s Hd : get_kiss i s = Some (d, s)). run Ht.
    by run (Ha : when true (iface_add i StRxError 1) s = Some ((), sa)).
  - destruct Hm as [?|Hm]; [done|].
    destruct (kiss_start_run s d) as (b & s1 & Hst & Hfr & Hrc); [done..|].
    exists b, s1. split; [|done]. rewrite (kiss_rx_byte_room s d FEND Hd Ht), Hm. done.
Qed.

Lemma kiss_rx_start s :
  kiss_ready s →
  ∃ b s', csp_kiss_rx i [FEND; TNC_DATA] isr s = Some ((), s') ∧ rx_frame s s' ∧
    receiving s' i b KISS_MODE_STARTED false [].
Proof.
  intros [Hinv (d & Hd & Hm & Hav)]. pose proof Hinv as (_ & _ & d' & Hd' & Hok).
  rewrite Hd in Hd'. injection Hd' as <-.
  destruct (kiss_too_long_spec s d Hok) as (t & Ht & _).
  destruct (kiss_rx_fend s d t) as (b & s1 & Hs1 & Hfr1 & Hrc1); [done..|by right|done|].
  cbn [csp_kiss_rx]. run Hs1. pose proof (id_header_size_range (c_version s1)) as Hs.
  pose proof (kiss_rx_byte_room s1 _ TNC_DATA (rc_kiss _ _ _ _ _ _ Hrc1)
    (receiving_room _ _ _ _ _ Hrc1 ltac:(simpl; sizes; lia))) as Hstep.
  cbn in Hstep. run Hstep. exists b. eexists; split; [done|]. split; [done|].
  by apply (receiving_put s1 b _ KISS_MODE_STARTED _ false []) in Hrc1.
Qed.

(** A frame that fills the buffer to the last byte is dropped at its end. *)
Lemma kiss_rx_full s b acc :
  receiving s i b KISS_MODE_STARTED false acc →
  Z.of_nat (List.length acc) = CSP_BUFFER_SIZE + id_header_size (c_version s) →
  ∃ s', csp_kiss_rx i [FEND] isr s = Some ((), s') ∧ rx_frame s s'.
Proof.
  intros Hrc Hlen. pose proof Hrc as [Hb Hi Hd (k & Hk & Hr & Hf & _)].
  destruct (kiss_rx_fend s (mk_kiss KISS_MODE_STARTED (Z.of_nat (List.length acc)) false (Some b)) true)
    as (b' & s' & Hs' & Hfr & _).
  - split_and!; [done|done|]. eexists; split; [done|]. exists k. split_and!; try done; simpl; lia.
  - done.
  - unfold kiss_too_long. simpl. run (get_packet_run s b k Hk). rewrite Hf. rewrite bool_decide_true; [done|].
    sizes. lia.
  - by left.
  - left. eauto.
  - exists s'. split; [|done]. cbn [csp_kiss_rx]. by run Hs'.
Qed.
End KissRoundtrip.

Lemma kiss_tx_bytes_run i l : ∀ s,
  kiss_tx_bytes i l s = Some ((), set_c_wire (c_wire s ++ ((λ x, WireBytes i (kiss_escape x)) <$> l)) s).
Proof.
  induction l as [|x l IH]; intros s; simpl; [rewrite app_nil_r; by destruct s|].
  erewrite ST_bind_run; [|done]. rewrite IH. simpl. by rewrite <- app_assoc.
Qed.

Lemma wire_bytes_app i w1 w2 : wire_bytes i (w1 ++ w2) = wire_bytes i w1 ++ wire_bytes i w2.
Proof. unfold wire_bytes. by rewrite fmap_app, concat_app. Qed.

Lemma wire_bytes_escaped i l :
  wire_bytes i ((λ x, WireBytes i (kiss_escape x)) <$> l) = List.concat (kiss_escape <$> l).
Proof.
  induction l as [|x l IH]; [done|]. rewrite !fmap_cons. unfold wire_bytes in *. rewrite fmap_cons.
  cbn [List.concat]. rewrite IH. by rewrite bool_decide_true.
Qed.

(** Transmission emits the stuffed frame and releases the packet. *)
Lemma csp_kiss_tx_spec i via b fm s k :
  buf_inv s → c_pool s !! b = Some k → pk_length (skbf_data k) + 4 ≤ CSP_BUFFER_SIZE →
  ∃ pay s' w, payload (skbf_data k) = Some pay ∧
    csp_kiss_tx i via b fm s = Some (CSP_ERR_NONE, s') ∧ buf_inv s' ∧ c_wire s' = c_wire s ++ w ∧
    wire_bytes i w = kiss_encode (id_header (c_version s) (pk_id (skbf_data k)) ++ pay ++
                                  be_bytes 4 (csp_crc32_memory pay)).
Proof.
  intros Hb Hk Hlen. destruct (bi_pool s Hb _ _ Hk) as (_ & Hok & _).
  pose proof (po_length _ Hok) as Hlp. pose proof (id_header_size_range (c_version s)) as Hs.
  destruct (csp_crc32_append_spec _ Hok Hlen) as (pay & p1 & Hpay & Hap & Hp1 & Hl1 & Hid1 & Hpay1).
  destruct (csp_id_prepend_spec (c_version s) p1 Hp1)
    as (p2 & Hpre & Hp2 & Hf2 & Hfl2 & Hl2 & Hid2 & _ & _ & _ & _ & _ & Hhdr & Hdat).
  set (frame := id_header (c_version s) (pk_id (skbf_data k)) ++ pay ++ be_bytes 4 (csp_crc32_memory pay)).
  assert (frame_read p2 0 (frame_length p2) = Some frame) as Hframe.
  { rewrite Hfl2, u16_id, Z.add_comm by (sizes; mlia). apply frame_read_app; [done|by rewrite <- Hid1|].
    rewrite Hdat by lia. done. }
  unfold csp_kiss_tx. exists pay.
  run (eq_refl : gets c_version s = Some (c_version s, s)). run (get_packet_run s b k Hk).
  run (lift_opt_run _ _ s Hap). run (lift_opt_run _ _ s Hpre). run (put_packet_run s b k p2 Hk).
  erewrite ST_bind_run; [|done]. erewrite ST_bind_run; [|by apply lift_opt_run].
  erewrite ST_bind_run; [|apply kiss_tx_bytes_run]. erewrite ST_bind_run; [|done].
  set (s1 := set_c_wire _ _).
  destruct (csp_buffer_free_spec s1 b) as (s' & Hfree & Hb').
  { eapply (buf_inv_ext (upd_pkt s b k p2)); [done|done|by apply upd_pkt_inv]. }
  { simpl. rewrite length_insert. by eapply lookup_lt_Some. }
  run Hfree. apply csp_buffer_free_frame in Hfree.
  eexists _, _. split; [done|]. split; [done|]. split; [done|]. rewrite Hfree. simpl.
  rewrite <- !app_assoc. split; [done|]. rewrite !wire_bytes_app, wire_bytes_escaped.
  unfold kiss_encode, wire_bytes. simpl. by rewrite !bool_decide_true.
Qed.

(** C14: a packet sent over KISS arrives.  Transmission succeeds and emits bytes
    which, fed to any waiting receiver of the same header version with a buffer
    and a queue slot available, put a packet with the same identifier and payload
    on the router's input queue; this holds whatever bytes the payload contains,
    for payloads of up to 2043 bytes. *)
Theorem csp_kiss_roundtrip (s1 : csp_core) (i1 b : nat) (via : Z) (from_me : bool) (k : csp_skbf_t) :
  buf_inv s1 → c_pool s1 !! b = Some k → id_fits (c_version s1) (pk_id (skbf_data k)) →
  pk_length (skbf_data k) + 4 < CSP_BUFFER_SIZE →
  ∃ s1' w, csp_kiss_tx i1 via b from_me s1 = Some (CSP_ERR_NONE, s1') ∧ c_wire s1' = c_wire s1 ++ w ∧
  ∀ s2 i2 isr, c_version s2 = c_version s1 → kiss_ready i2 s2 →
    (List.length (fq_items (c_qfifo s2)) < fq_cap (c_qfifo s2))%nat →
    ∃ s2' b2 k2, csp_kiss_rx i2 (wire_bytes i1 w) isr s2 = Some ((), s2') ∧
      fq_items (c_qfifo s2') = fq_items (c_qfifo s2) ++ [(Some b2, Some i2)] ∧
      c_pool s2' !! b2 = Some k2 ∧ pk_id (skbf_data k2) = pk_id (skbf_data k) ∧
      payload (skbf_data k2) = payload (skbf_data k).
Proof.
  intros Hb Hk Hfit Hlen.
  destruct (csp_kiss_tx_spec i1 via b from_me s1 k Hb Hk) as (pay & s1' & w & Hpay & Htx & _ & Hw & Hwb); [lia|].
  exists s1', w. split_and!; [done..|]. intros s2 i2 isr Hv Hready Hroom. rewrite Hwb. unfold kiss_encode.
  destruct (bi_pool s1 Hb _ _ Hk) as (_ & Hok & _).
  assert (pk_length (skbf_data k) = Z.of_nat (List.length pay)) as Hlp by (symmetry; by eapply mem_read_length).
  pose proof (length_id_header (c_version s1) (pk_id (skbf_data k))) as Hhl.
  destruct (kiss_rx_start i2 isr s2 Hready) as (b2 & s3 & Hs3 & [Hv3 Hq3] & Hrc3).
  set (frame := id_header _ _ ++ _) in *.
  destruct (kiss_rx_frame_bytes i2 isr frame s3 b2 []) as (s4 & Hs4 & [Hv4 Hq4] & Hrc4); [done| | |].
  { apply Forall_app; split; [apply id_header_ok|]. apply Forall_app; split; [|apply be_bytes_ok].
    eapply data_read_bytes_ok; [exact Hok|exact Hpay]. }
  { rewrite Hv3, Hv. simpl. subst frame. rewrite !length_app, length_be_bytes. lia. }
  destruct (rc_pkt _ _ _ _ _ _ Hrc4) as (k4 & Hk4 & _).
  assert (c_version s4 = c_version s1) as Hv41 by congruence.
  destruct (kiss_accept_good i2 isr s4 b2 k4 (pk_id (skbf_data k)) pay) as (s5 & k5 & Hs5 & Hq5 & Hk5 & Hid5 & Hp5);
    [by rewrite Hv41|done|by rewrite Hv41|by rewrite Hq4, Hq3|lia|].
  exists s5, b2, k5. rewrite csp_kiss_rx_app, Hs3, csp_kiss_rx_app, Hs4. split_and!; [done| |done|done|congruence].
  by rewrite Hq5, Hq4, Hq3.
Qed.

(** A packet of 2044 bytes, the largest payload that still has room for its
    checksum, is transmitted without an error but no receiver accepts it: its
    frame fills the receive buffer, and the length test at the end character
    already counts it as too long. *)
Theorem csp_kiss_drops_largest (s1 : csp_core) (i1 b : nat) (via : Z) (from_me : bool) (k : csp_skbf_t) :
  buf_inv s1 → c_pool s1 !! b = Some k → pk_length (skbf_data k) + 4 = CSP_BUFFER_SIZE →
  ∃ s1' w, csp_kiss_tx i1 via b from_me s1 = Some (CSP_ERR_NONE, s1') ∧ c_wire s1' = c_wire s1 ++ w ∧
  ∀ s2 i2 isr, c_version s2 = c_version s1 → kiss_ready i2 s2 →
    ∃ s2', csp_kiss_rx i2 (wire_bytes i1 w) isr s2 = Some ((), s2') ∧ c_qfifo s2' = c_qfifo s2.
Proof.
  intros Hb Hk Hlen.
  destruct (csp_kiss_tx_spec i1 via b from_me s1 k Hb Hk) as (pay & s1' & w & Hpay & Htx & _ & Hw & Hwb); [lia|].
  exists s1', w. split_and!; [done..|]. intros s2 i2 isr Hv Hready. rewrite Hwb. unfold kiss_encode.
  destruct (bi_pool s1 Hb _ _ Hk) as (_ & Hok & _).
  assert (pk_length (skbf_data k) = Z.of_nat (List.length pay)) as Hlp by (symmetry; by eapply mem_read_length).
  pose proof (length_id_header (c_version s1) (pk_id (skbf_data k))) as Hhl.
  destruct (kiss_rx_start i2 isr s2 Hready) as (b2 & s3 & Hs3 & [Hv3 Hq3] & Hrc3).
  set (frame := id_header _ _ ++ _) in *.
  assert (Z.of_nat (List.length frame) = CSP_BUFFER_SIZE + id_header_size (c_version s1)) as Hfl.
  { subst frame. rewrite !length_app, length_be_bytes. lia. }
  destruct (kiss_rx_frame_bytes i2 isr frame s3 b2 []) as (s4 & Hs4 & [Hv4 Hq4] & Hrc4); [done| | |].
  { apply Forall_app; split; [apply id_header_ok|]. apply Forall_app; split; [|apply be_bytes_ok].
    eapply data_read_bytes_ok; [exact Hok|exact Hpay]. }
  { rewrite Hv3, Hv. simpl. lia. }
  destruct (kiss_rx_full i2 isr s4 b2 _ Hrc4) as (s5 & Hs5 & [_ Hq5]); [simpl; rewrite Hv4, Hv3, Hv; lia|].
  exists s5. rewrite csp_kiss_rx_app, Hs3, csp_kiss_rx_app, Hs4. split; [done|congruence].
Qed.

Lemma link_example_kiss p : packet_ok p → kiss_ready 5 (link_example p).
Proof.
  intros Hp. split.
  - split_and!; [by apply link_example_inv|by eexists|]. eexists; split; [done|]. by left.
  - eexists; split; [done|]. split; [done|]. by right.
Qed.

Lemma csp_kiss_rx_memory_safe_witness :
  ∃ s', csp_kiss_rx 5 [FEND; 0; 17; FESC; 1; FEND; FEND; FESC] false (link_example empty_packet) = Some ((), s') ∧
    kiss_inv s' 5.
Proof.
  apply csp_kiss_rx_memory_safe; [apply link_example_kiss, empty_packet_ok|].
  apply (bool_decide_unpack _). vm_compute. done.
Defined.

Lemma csp_kiss_roundtrip_witness :
  ∃ s1' w, csp_kiss_tx 5 0 0 true (link_example id_example) = Some (CSP_ERR_NONE, s1') ∧
  c_wire s1' = c_wire (link_example id_example) ++ w ∧
  ∃ s2' b2 k2, csp_kiss_rx 5 (wire_bytes 5 w) false (link_example empty_packet) = Some ((), s2') ∧
      fq_items (c_qfifo s2') = [(Some b2, Some 5%nat)] ∧
      c_pool s2' !! b2 = Some k2 ∧ pk_id (skbf_data k2) = pk_id id_example ∧
      payload (skbf_data k2) = payload id_example.
Proof.
  destruct (csp_kiss_roundtrip (link_example id_example) 5 0 0 true (mk_skbf 1 0 id_example))
    as (s1' & w & Htx & Hw & Hrx).
  - apply link_example_inv, id_example_ok.
  - reflexivity.
  - vm_compute. intuition congruence.
  - vm_compute. reflexivity.
  - exists s1', w. split; [exact Htx|]. split; [exact Hw|].
    apply (Hrx (link_example empty_packet) 5%nat false);
      [reflexivity|apply link_example_kiss, empty_packet_ok|vm_compute; lia].
Defined.

Lemma csp_kiss_drops_largest_witness :
  ∃ s1' w, csp_kiss_tx 5 0 0 true (link_example (set_pk_length 2044 empty_packet)) = Some (CSP_ERR_NONE, s1') ∧
  ∃ s2', csp_kiss_rx 5 (wire_bytes 5 w) false (link_example empty_packet) = Some ((), s2') ∧
    c_qfifo s2' = mk_fifo 4 [].
Proof.
  destruct (csp_kiss_drops_largest (link_example (set_pk_length 2044 empty_packet)) 5 0 0 true
    (mk_skbf 1 0 (set_pk_length 2044 empty_packet))) as (s1' & w & Htx & Hw & Hrx).
  - apply link_example_inv. destruct empty_packet_ok. split; simpl; try done.
  - reflexivity.
  - reflexivity.
  - exists s1', w. split; [exact Htx|].
    apply (Hrx (link_example empty_packet) 5%nat false); [reflexivity|apply link_example_kiss, empty_packet_ok].
Defined.
