(* ===== verification/Can.v ===== *)
(** * The CAN interface

    [lib/csp/src/interfaces/csp_if_can.c] and [csp_if_can_pbuf.c]: fragmentation
    of packets into CAN frames and reassembly, for the CFP 1 and CFP 2 protocols,
    with the list of partially received packets. *)

From S2P Require Import Prelude Queue Types State Id Buffer Qfifo Iflist.

Definition CAN_FRAME_SIZE : Z := 8.
Definition PBUF_TIMEOUT_MS : Z := 1000.

(** ** The driver *)

(** [ifdata->tx_func] of an interface: its return code for a frame, given what
    has been transmitted before. *)
Class CanDriver := can_tx_func : nat → Z → list Z → list wire_event → Z.

(** A call of the driver; an accepted frame goes out on the wire. *)
Definition can_send `{CanDriver} (iface : nat) (can_id : Z) (data : list Z) : C Z :=
  w ← gets c_wire;
  let rc := can_tx_func iface can_id data w in
  when (bool_decide (rc = CSP_ERR_NONE)) (modify (set_c_wire (w ++ [WireCan iface can_id data])));;
  mret rc.

Definition get_can (iface : nat) : C csp_can_interface_data_t :=
  λ s, lift_opt (c_can s !! iface) s.
Definition put_can (iface : nat) (d : csp_can_interface_data_t) : C () :=
  modify (λ s, set_c_can (<[iface := d]> (c_can s)) s).
Definition set_pbufs (iface : nat) (p : option nat) : C () :=
  d ← get_can iface; put_can iface (mk_can (cfp_packet_counter d) p).

(** ** Partially received packets *)

(** Enough steps for any list of distinct buffers. *)
Definition pbuf_fuel (s : csp_core) : nat := S (List.length (c_pool s)).

(** [prev ? prev->next = next : ifdata->pbufs = next] *)
Definition pbuf_unlink (iface : nat) (prev : option nat) (next : option nat) : C () :=
  match prev with
  | Some q => pq ← get_packet q; put_packet q (set_pk_next next pq)
  | None => set_pbufs iface next
  end.

(** The loop of [csp_can_pbuf_free]; [None] also stands for a cyclic list. *)
Fixpoint pbuf_free_loop (fuel iface buffer : nat) (buf_free isr : bool) (packet prev : option nat) : C () :=
  match fuel with
  | O => ub
  | S fuel' =>
      match packet with
      | None => mret ()
      | Some a =>
          when (bool_decide (a = buffer))
            (p ← get_packet a;
             pbuf_unlink iface prev (pk_next p);;
             when buf_free (buffer_free_ctx isr (Some a)));;
          p ← get_packet a;
          pbuf_free_loop fuel' iface buffer buf_free isr (pk_next p) (Some a)
      end
  end.

Definition csp_can_pbuf_free (iface buffer : nat) (buf_free isr : bool) : C () :=
  s ← Prelude.get;
  d ← get_can iface;
  pbuf_free_loop (pbuf_fuel s) iface buffer buf_free isr (pbufs d) None.

(** The loop of [csp_can_pbuf_cleanup]. *)
Fixpoint pbuf_cleanup_loop (fuel iface : nat) (now : Z) (isr : bool) (packet prev : option nat) : C () :=
  match fuel with
  | O => ub
  | S fuel' =>
      match packet with
      | None => mret ()
      | Some a =>
          p ← get_packet a;
          when (bool_decide (PBUF_TIMEOUT_MS < u32 (now - last_used p)))
            (pbuf_unlink iface prev (pk_next p);; buffer_free_ctx isr (Some a));;
          p ← get_packet a;
          pbuf_cleanup_loop fuel' iface now isr (pk_next p) (Some a)
      end
  end.

Definition csp_can_pbuf_cleanup (iface : nat) (isr : bool) : C () :=
  s ← Prelude.get;
  d ← get_can iface;
  pbuf_cleanup_loop (pbuf_fuel s) iface (c_now s) isr (pbufs d) None.

Definition csp_can_pbuf_new (iface : nat) (id : Z) (isr : bool) : C (option nat) :=
  csp_can_pbuf_cleanup iface isr;;
  now ← gets c_now;
  packet ← (if isr then csp_buffer_get_isr else csp_buffer_get);
  match packet with
  | None => mret None
  | Some b =>
      p ← get_packet b;
      d ← get_can iface;
      put_packet b (set_pk_next (pbufs d) (set_remain 0 (set_cfpid id (set_last_used now p))));;
      set_pbufs iface (Some b);;
      mret (Some b)
  end.

(** The loop of [csp_can_pbuf_find]. *)
Fixpoint pbuf_find_loop (fuel : nat) (id mask : Z) (packet : option nat) : C (option nat) :=
  match fuel with
  | O => ub
  | S fuel' =>
      match packet with
      | None => mret None
      | Some a =>
          p ← get_packet a;
          if bool_decide (Z.land (cfpid p) mask = Z.land id mask) then
            now ← gets c_now;
            put_packet a (set_last_used now p);;
            mret (Some a)
          else pbuf_find_loop fuel' id mask (pk_next p)
      end
  end.

Definition csp_can_pbuf_find (iface : nat) (id mask : Z) : C (option nat) :=
  s ← Prelude.get;
  d ← get_can iface;
  pbuf_find_loop (pbuf_fuel s) id mask (pbufs d).

(** ** CFP 1 *)

Definition CFP_HOST_SIZE : Z := 5.
Definition CFP_TYPE_SIZE : Z := 1.
Definition CFP_REMAIN_SIZE : Z := 8.
Definition CFP_ID_SIZE : Z := 10.

Definition CFP_FIELD (id rsiz fsiz : Z) : Z := Z.land (Z.shiftr id rsiz) (Z.shiftl 1 fsiz - 1).
Definition CFP_TYPE (id : Z) : Z := CFP_FIELD id (CFP_REMAIN_SIZE + CFP_ID_SIZE) CFP_TYPE_SIZE.
Definition CFP_REMAIN (id : Z) : Z := CFP_FIELD id CFP_ID_SIZE CFP_REMAIN_SIZE.

Definition CFP_MAKE_FIELD (id fsiz rsiz : Z) : Z := u32 (Z.shiftl (Z.land id (Z.shiftl 1 fsiz - 1)) rsiz).
Definition CFP_MAKE_SRC (id : Z) : Z :=
  CFP_MAKE_FIELD id CFP_HOST_SIZE (CFP_HOST_SIZE + CFP_TYPE_SIZE + CFP_REMAIN_SIZE + CFP_ID_SIZE).
Definition CFP_MAKE_DST (id : Z) : Z :=
  CFP_MAKE_FIELD id CFP_HOST_SIZE (CFP_TYPE_SIZE + CFP_REMAIN_SIZE + CFP_ID_SIZE).
Definition CFP_MAKE_TYPE (id : Z) : Z := CFP_MAKE_FIELD id CFP_TYPE_SIZE (CFP_REMAIN_SIZE + CFP_ID_SIZE).
Definition CFP_MAKE_REMAIN (id : Z) : Z := CFP_MAKE_FIELD id CFP_REMAIN_SIZE CFP_ID_SIZE.
Definition CFP_MAKE_ID (id : Z) : Z := CFP_MAKE_FIELD id CFP_ID_SIZE 0.
Definition CFP_ID_CONN_MASK : Z :=
  Z.lor (Z.lor (CFP_MAKE_SRC (Z.shiftl 1 CFP_HOST_SIZE - 1)) (CFP_MAKE_DST (Z.shiftl 1 CFP_HOST_SIZE - 1)))
    (CFP_MAKE_ID (Z.shiftl 1 CFP_ID_SIZE - 1)).

Definition CFP_BEGIN : Z := 0.
Definition CFP_MORE : Z := 1.

(** The [CFP_MORE] case of [csp_can1_rx]; [data] is what follows [offset]. *)
Definition can1_rx_more (iface : nat) (id : Z) (data : list Z) (b : nat) (isr : bool) : C () :=
  p ← get_packet b;
  if bool_decide (CFP_REMAIN id ≠ remain p - 1) then
    can_errno CSP_DBG_CAN_ERR_FRAME_LOST;;
    csp_can_pbuf_free iface b true isr;;
    iface_add iface StFrame 1
  else
    put_packet b (set_remain (u16 (remain p - 1)) p);;
    p ← get_packet b;
    if bool_decide (pk_length p < rx_count p + Z.of_nat (List.length data)) then
      can_errno CSP_DBG_CAN_ERR_RX_OVF;;
      iface_add iface StFrame 1;;
      csp_can_pbuf_free iface b true isr
    else
      p ← lift_opt (data_write p (rx_count p) data);
      let p := set_rx_count (u16 (rx_count p + Z.of_nat (List.length data))) p in
      put_packet b p;;
      if bool_decide (rx_count p ≠ pk_length p) then mret ()
      else
        f ← get_iface iface;
        (if bool_decide (dst (pk_id p) = 0x1F) then
          put_packet b (set_pk_id (mk_id (pri (pk_id p)) (flags (pk_id p)) (src (pk_id p)) (if_addr f)
            (dport (pk_id p)) (sport (pk_id p))) p) else mret ());;
        csp_can_pbuf_free iface b false isr;;
        p ← get_packet b;
        put_packet b (set_last_used 0 p);;
        csp_qfifo_write (Some b) (Some iface) isr.

Definition csp_can1_rx (iface : nat) (id : Z) (data : list Z) (isr : bool) : C Z :=
  found ← csp_can_pbuf_find iface id CFP_ID_CONN_MASK;
  packet ← (match found with
            | Some b => mret (inr b)
            | None =>
                if bool_decide (CFP_TYPE id = CFP_BEGIN) then
                  r ← csp_can_pbuf_new iface id isr;
                  match r with
                  | None => iface_add iface StRxError 1;; mret (inl CSP_ERR_NOMEM)
                  | Some b => mret (inr b)
                  end
                else iface_add iface StFrame 1;; mret (inl CSP_ERR_INVAL)
            end);
  match (packet : Z + nat) with
  | inl rc => mret rc
  | inr b =>
      if bool_decide (CFP_TYPE id = CFP_BEGIN) then
        if bool_decide (Z.of_nat (List.length data) < 6) then
          can_errno CSP_DBG_CAN_ERR_SHORT_BEGIN;;
          iface_add iface StFrame 1;;
          csp_can_pbuf_free iface b true isr;; mret CSP_ERR_NONE
        else
          iface_add iface StFrame 1;;
          version ← gets c_version;
          p ← get_packet b;
          p ← lift_opt (frame_write (csp_id_setup_rx version p).2 0 (take 4 data));
          '(_, p) ← lift_opt (csp_id_strip version (set_frame_length (u16 (frame_length p + 4)) p));
          let p := set_pk_length (be_val (take 2 (drop 4 data))) p in
          put_packet b p;;
          if bool_decide (CSP_BUFFER_SIZE < pk_length p) then
            iface_add iface StRxError 1;;
            csp_can_pbuf_free iface b true isr;; mret CSP_ERR_NONE
          else
            put_packet b (set_remain (u16 (CFP_REMAIN id + 1)) (set_rx_count 0 p));;
            can1_rx_more iface id (drop 6 data) b isr;; mret CSP_ERR_NONE
      else can1_rx_more iface id data b isr;; mret CSP_ERR_NONE
  end.

(** The loop of [csp_can1_tx] that sends the remaining frames. *)
Fixpoint can1_tx_more `{CanDriver} (fuel : nat) (iface : nat) (p : csp_packet_t) (dest ident tx_count : Z) : C Z :=
  match fuel with
  | O => ub
  | S fuel' =>
      if bool_decide (tx_count < pk_length p) then
        let data_bytes := if bool_decide (CAN_FRAME_SIZE ≤ pk_length p - tx_count) then CAN_FRAME_SIZE
                          else pk_length p - tx_count in
        let can_id := Z.lor (Z.lor (Z.lor (Z.lor (CFP_MAKE_SRC (src (pk_id p))) (CFP_MAKE_DST dest))
          (CFP_MAKE_ID ident)) (CFP_MAKE_TYPE CFP_MORE))
          (CFP_MAKE_REMAIN ((pk_length p - tx_count - data_bytes + CAN_FRAME_SIZE - 1) / CAN_FRAME_SIZE)) in
        data ← lift_opt (data_read p tx_count data_bytes);
        rc ← can_send iface can_id data;
        if bool_decide (rc ≠ CSP_ERR_NONE) then iface_add iface StTxError 1;; mret CSP_ERR_DRIVER
        else can1_tx_more fuel' iface p dest ident (u16 (tx_count + data_bytes))
      else mret CSP_ERR_NONE
  end.

Definition csp_can1_tx `{CanDriver} (iface : nat) (via : Z) (packet : nat) (from_me : bool) : C Z :=
  p ← get_packet packet;
  f ← get_iface iface;
  if bool_decide (dst (pk_id p) = if_addr f) then
    csp_qfifo_write (Some packet) (Some iface) false;; mret CSP_ERR_NONE
  else
    d ← get_can iface;
    put_can iface (mk_can (u32 (cfp_packet_counter d + 1)) (pbufs d));;
    let ident := cfp_packet_counter d in
    let dest := u8 (if bool_decide (via ≠ CSP_NO_VIA_ADDRESS) then via else dst (pk_id p)) in
    let can_id := Z.lor (Z.lor (Z.lor (Z.lor (CFP_MAKE_SRC (src (pk_id p))) (CFP_MAKE_DST dest))
      (CFP_MAKE_ID ident)) (CFP_MAKE_TYPE CFP_BEGIN))
      (CFP_MAKE_REMAIN ((pk_length p + 6 - 1) / CAN_FRAME_SIZE)) in
    version ← gets c_version;
    p ← lift_opt (csp_id_prepend version p);
    put_packet packet p;;
    hdr ← lift_opt (frame_read p 0 4);
    let data_bytes := if bool_decide (pk_length p ≤ 2) then pk_length p else 2 in
    data ← lift_opt (data_read p 0 data_bytes);
    rc ← can_send iface can_id (hdr ++ be_bytes 2 (pk_length p) ++ data);
    if bool_decide (rc ≠ CSP_ERR_NONE) then iface_add iface StTxError 1;; mret CSP_ERR_DRIVER
    else
      rc ← can1_tx_more (S (Z.to_nat (pk_length p))) iface p dest ident data_bytes;
      if bool_decide (rc ≠ CSP_ERR_NONE) then mret rc
      else csp_buffer_free (Some packet);; mret CSP_ERR_NONE.

(** ** CFP 2 *)

Definition CFP2_PRIO_MASK : Z := 0x3.
Definition CFP2_PRIO_OFFSET : Z := 27.
Definition CFP2_DST_MASK : Z := 0x3FFF.
Definition CFP2_DST_OFFSET : Z := 13.
Definition CFP2_SENDER_MASK : Z := 0x3F.
Definition CFP2_SENDER_OFFSET : Z := 7.
Definition CFP2_SC_MASK : Z := 0x3.
Definition CFP2_SC_OFFSET : Z := 5.
Definition CFP2_FC_MASK : Z := 0x7.
Definition CFP2_FC_OFFSET : Z := 2.
Definition CFP2_BEGIN_MASK : Z := 0x1.
Definition CFP2_BEGIN_OFFSET : Z := 1.
Definition CFP2_END_MASK : Z := 0x1.
Definition CFP2_END_OFFSET : Z := 0.
Definition CFP2_SRC_MASK : Z := 0x3FFF.
Definition CFP2_SRC_OFFSET : Z := 18.
Definition CFP2_DPORT_MASK : Z := 0x3F.
Definition CFP2_DPORT_OFFSET : Z := 12.
Definition CFP2_SPORT_MASK : Z := 0x3F.
Definition CFP2_SPORT_OFFSET : Z := 6.
Definition CFP2_FLAGS_MASK : Z := 0x3F.
Definition CFP2_FLAGS_OFFSET : Z := 0.

(** [(x & mask) << offset] *)
Definition put_field (x mask offset : Z) : Z := Z.shiftl (Z.land x mask) offset.

Definition CFP2_ID_CONN_MASK : Z :=
  Z.lor (Z.lor (Z.lor (Z.shiftl CFP2_DST_MASK CFP2_DST_OFFSET) (Z.shiftl CFP2_SENDER_MASK CFP2_SENDER_OFFSET))
    (Z.shiftl CFP2_PRIO_MASK CFP2_PRIO_OFFSET)) (Z.shiftl CFP2_SC_MASK CFP2_SC_OFFSET).

Definition cfp2_begin (id : Z) : bool := has_flag id (Z.shiftl CFP2_BEGIN_MASK CFP2_BEGIN_OFFSET).
Definition cfp2_end (id : Z) : bool := has_flag id (Z.shiftl CFP2_END_MASK CFP2_END_OFFSET).
Definition cfp2_fc (id : Z) : Z := Z.land (Z.shiftr id CFP2_FC_OFFSET) CFP2_FC_MASK.

(** The part of [csp_can2_rx] after the fragment has been checked: store the
    bytes, and deliver the packet with the last fragment. *)
Definition can2_rx_store (iface : nat) (id : Z) (data : list Z) (b : nat) (isr : bool) : C Z :=
  p ← get_packet b;
  match frame_begin p with
  | USelf off =>
      if bool_decide (MEM_SIZE < off + frame_length p + Z.of_nat (List.length data)) then
        can_errno CSP_DBG_CAN_ERR_RX_OVF;;
        iface_add iface StFrame 1;;
        csp_can_pbuf_free iface b true isr;; mret CSP_ERR_INVAL
      else
        p ← lift_opt (frame_write p (frame_length p) data);
        let p := set_frame_length (u16 (frame_length p + Z.of_nat (List.length data))) p in
        put_packet b p;;
        if cfp2_end id then
          version ← gets c_version;
          '(_, p) ← lift_opt (csp_id_strip version p);
          f ← get_iface iface;
          let p := if bool_decide (dst (pk_id p) = 0x3FFF) then
            set_pk_id (mk_id (pri (pk_id p)) (flags (pk_id p)) (src (pk_id p)) (if_addr f)
              (dport (pk_id p)) (sport (pk_id p))) p else p in
          put_packet b p;;
          csp_can_pbuf_free iface b false isr;;
          csp_qfifo_write (Some b) (Some iface) isr;;
          mret CSP_ERR_NONE
        else mret CSP_ERR_NONE
  | _ => ub
  end.

(** A first fragment for the packet buffer [b]. *)
Definition can2_rx_begin (iface : nat) (id : Z) (data : list Z) (b : nat) (isr : bool) : C Z :=
  if bool_decide (Z.of_nat (List.length data) < 4) then
    can_errno CSP_DBG_CAN_ERR_SHORT_BEGIN;;
    iface_add iface StFrame 1;;
    csp_can_pbuf_free iface b true isr;; mret CSP_ERR_INVAL
  else
    iface_add iface StFrame 1;;
    version ← gets c_version;
    p ← get_packet b;
    let first_two := u16 (Z.shiftr id CFP2_DST_OFFSET) in
    p ← lift_opt (frame_write (csp_id_setup_rx version p).2 0 (be_bytes 2 first_two));
    p ← lift_opt (frame_write p 2 (take 4 data));
    put_packet b (set_rx_count 1 (set_pk_length 0 (set_frame_length 6 p)));;
    can2_rx_store iface id (drop 4 data) b isr.

(** A following fragment. *)
Definition can2_rx_fragment (iface : nat) (id : Z) (data : list Z) (b : nat) (isr : bool) : C Z :=
  p ← get_packet b;
  if bool_decide (rx_count p ≠ cfp2_fc id) then
    can_errno CSP_DBG_CAN_ERR_FRAME_LOST;;
    csp_can_pbuf_free iface b true isr;;
    iface_add iface StFrame 1;; mret CSP_ERR_INVAL
  else
    put_packet b (set_rx_count (Z.land (rx_count p + 1) CFP2_FC_MASK) p);;
    can2_rx_store iface id data b isr.

Definition csp_can2_rx (iface : nat) (id : Z) (data : list Z) (isr : bool) : C Z :=
  found ← csp_can_pbuf_find iface id CFP2_ID_CONN_MASK;
  packet ← (match found with
            | Some b => mret (inr b)
            | None =>
                if cfp2_begin id then
                  r ← csp_can_pbuf_new iface id isr;
                  match r with
                  | None => iface_add iface StRxError 1;; mret (inl CSP_ERR_NOMEM)
                  | Some b => mret (inr b)
                  end
                else iface_add iface StFrame 1;; mret (inl CSP_ERR_INVAL)
            end);
  match (packet : Z + nat) with
  | inl rc => mret rc
  | inr b => if cfp2_begin id then can2_rx_begin iface id data b isr else can2_rx_fragment iface id data b isr
  end.

(** The identifier of every frame of a packet, without its fragment fields. *)
Definition cfp2_base (i : csp_id_t) (addr sender_count : Z) : Z :=
  Z.lor (Z.lor (Z.lor (put_field (pri i) CFP2_PRIO_MASK CFP2_PRIO_OFFSET)
    (put_field (dst i) CFP2_DST_MASK CFP2_DST_OFFSET))
    (put_field addr CFP2_SENDER_MASK CFP2_SENDER_OFFSET))
    (put_field sender_count CFP2_SC_MASK CFP2_SC_OFFSET).

Definition cfp2_end_flag (last : bool) : Z :=
  if last then put_field 1 CFP2_END_MASK CFP2_END_OFFSET else 0.

(** The rest of the CSP header, in the first four data bytes. *)
Definition cfp2_header_extension (i : csp_id_t) : Z :=
  Z.lor (Z.lor (Z.lor (put_field (src i) CFP2_SRC_MASK CFP2_SRC_OFFSET)
    (put_field (dport i) CFP2_DPORT_MASK CFP2_DPORT_OFFSET))
    (put_field (sport i) CFP2_SPORT_MASK CFP2_SPORT_OFFSET))
    (put_field (flags i) CFP2_FLAGS_MASK CFP2_FLAGS_OFFSET).

(** The loop of [csp_can2_tx] that sends the remaining fragments. *)
Fixpoint can2_tx_more `{CanDriver} (fuel : nat) (iface : nat) (p : csp_packet_t) (addr sender_count : Z)
    (fragment_count tx_count : Z) : C Z :=
  match fuel with
  | O => ub
  | S fuel' =>
      if bool_decide (tx_count < pk_length p) then
        let data_bytes := if bool_decide (CAN_FRAME_SIZE ≤ pk_length p - tx_count) then CAN_FRAME_SIZE
                          else pk_length p - tx_count in
        let can_id := Z.lor (Z.lor (cfp2_base (pk_id p) addr sender_count)
          (put_field fragment_count CFP2_FC_MASK CFP2_FC_OFFSET))
          (cfp2_end_flag (bool_decide (tx_count + data_bytes = pk_length p))) in
        data ← lift_opt (data_read p tx_count data_bytes);
        rc ← can_send iface can_id data;
        if bool_decide (rc ≠ CSP_ERR_NONE) then iface_add iface StTxError 1;; mret CSP_ERR_DRIVER
        else can2_tx_more fuel' iface p addr sender_count (fragment_count + 1) (tx_count + data_bytes)
      else mret CSP_ERR_NONE
  end.

Definition csp_can2_tx `{CanDriver} (iface : nat) (via : Z) (packet : nat) (from_me : bool) : C Z :=
  p ← get_packet packet;
  f ← get_iface iface;
  if bool_decide (dst (pk_id p) = if_addr f) then
    csp_qfifo_write (Some packet) (Some iface) false;; mret CSP_ERR_NONE
  else
    d ← get_can iface;
    put_can iface (mk_can (u32 (cfp_packet_counter d + 1)) (pbufs d));;
    let sender_count := cfp_packet_counter d in
    let data_bytes := if bool_decide (4 ≤ pk_length p) then 4 else pk_length p in
    let can_id := Z.lor (Z.lor (cfp2_base (pk_id p) (if_addr f) sender_count)
      (put_field 1 CFP2_BEGIN_MASK CFP2_BEGIN_OFFSET))
      (cfp2_end_flag (bool_decide (data_bytes = pk_length p))) in
    data ← lift_opt (data_read p 0 data_bytes);
    rc ← can_send iface can_id (be_bytes 4 (cfp2_header_extension (pk_id p)) ++ data);
    if bool_decide (rc ≠ CSP_ERR_NONE) then iface_add iface StTxError 1;; mret CSP_ERR_DRIVER
    else
      rc ← can2_tx_more (S (Z.to_nat (pk_length p))) iface p (if_addr f) sender_count 1 data_bytes;
      if bool_decide (rc ≠ CSP_ERR_NONE) then mret rc
      else csp_buffer_free (Some packet);; mret CSP_ERR_NONE.

(** ** Dispatch and registration *)

Definition csp_can_rx (iface : nat) (id : Z) (data : list Z) (isr : bool) : C Z :=
  version ← gets c_version;
  if bool_decide (version = 1) then csp_can1_rx iface id data isr else csp_can2_rx iface id data isr.

Definition csp_can_add_interface (iface : option nat) (have_name have_tx_func : bool) : C Z :=
  match iface with
  | None => mret CSP_ERR_INVAL
  | Some i =>
      s ← Prelude.get;
      match c_can s !! i with
      | Some d =>
          if have_name && have_tx_func then
            put_can i (mk_can 0 (pbufs d));;
            f ← get_iface i;
            let nh := if bool_decide (c_version s = 1) then NexthopCan1 else NexthopCan2 in
            put_iface i (mk_iface (if_addr f) (if_netmask f) (if_name f) nh (if_is_default f)
              (if_tx f) (if_rx f) (if_tx_error f) (if_rx_error f) (if_drop f) (if_autherr f) (if_frame f)
              (if_txbytes f) (if_rxbytes f) (if_irq f) (if_next f));;
            s ← Prelude.get;
            '(rc, s') ← lift_opt (csp_iflist_add s i);
            put s';; mret rc
          else mret CSP_ERR_INVAL
      | None => mret CSP_ERR_INVAL
      end
  end.

Definition csp_can_remove_interface (iface : option nat) : C Z :=
  match iface with
  | None => mret CSP_ERR_INVAL
  | Some i =>
      s ← Prelude.get;
      s' ← lift_opt (csp_iflist_remove s (Some i));
      put s';; mret CSP_ERR_NONE
  end.

(** ** The list of partially received packets *)

(** The [next] pointer of buffer [a]. *)
Definition next_of (s : csp_core) (a : nat) : option (option nat) :=
  (λ k, pk_next (skbf_data k)) <$> c_pool s !! a.

(** A packet under reassembly: a buffer in use, its frame pointer set up and the
    frame inside the buffer. *)
Definition pbuf_ok (s : csp_core) (a : nat) : Prop :=
  ∃ k, c_pool s !! a = Some k ∧ refcount k ≠ 0 ∧ frame_at 2 (skbf_data k) ∧
    6 ≤ frame_length (skbf_data k) ≤ CSP_BUFFER_SIZE + 6.

(** The pbufs of interface [i] are [l]. *)
Record pbuf_list (s : csp_core) (i : nat) (l : list nat) : Prop := {
  pl_can : ∃ d, c_can s !! i = Some d ∧ lseg (next_of s) (pbufs d) l None;
  pl_nodup : NoDup l;
  pl_pool : ∀ a, a ∈ l → is_Some (c_pool s !! a);
}.

Section PbufLemmas.
Context (i : nat) (isr : bool).
Implicit Types (s : csp_core) (l : list nat) (a b : nat) (p q : option nat).

Lemma next_of_lookup s a k : c_pool s !! a = Some k → next_of s a = Some (pk_next (skbf_data k)).
Proof. unfold next_of. by intros ->. Qed.

Lemma lseg_lookup s p a l q :
  lseg (next_of s) p (a :: l) q →
  ∃ k, c_pool s !! a = Some k ∧ p = Some a ∧ lseg (next_of s) (pk_next (skbf_data k)) l q.
Proof.
  intros (-> & n & Hn & Hs). unfold next_of in Hn. destruct (c_pool s !! a) as [k|]; [|done].
  injection Hn as <-. by exists k.
Qed.

Lemma pbuf_list_length s l : pbuf_list s i l → (List.length l < pbuf_fuel s)%nat.
Proof.
  intros [_ Hnd Hp]. unfold pbuf_fuel.
  assert (l ⊆+ seq 0 (List.length (c_pool s))) as Hsub.
  { apply NoDup_submseteq; [done|]. intros a Ha. apply elem_of_seq.
    destruct (Hp a Ha) as [k Hk]. apply lookup_lt_Some in Hk. lia. }
  apply submseteq_length in Hsub. rewrite length_seq in Hsub. lia.
Qed.

(** The loop passes over elements that are not the buffer looked for. *)
Lemma pbuf_free_skip s b f l : ∀ fuel p prev q,
  lseg (next_of s) p l q → b ∉ l →
  pbuf_free_loop (List.length l + fuel) i b f isr p prev s =
  pbuf_free_loop fuel i b f isr q (from_option Some prev (last l)) s.
Proof.
  induction l as [|a l IH]; intros fuel p prev q Hs Hni.
  { simpl in *. by subst. }
  apply lseg_lookup in Hs as (k & Hk & -> & Hs). apply not_elem_of_cons in Hni as [Hne Hni]. simpl.
  rewrite (bool_decide_false (a = b)) by done.
  run (eq_refl : when false (p ← get_packet a; pbuf_unlink i prev (pk_next p);;
         when f (buffer_free_ctx isr (Some a))) s = Some ((), s)).
  run (get_packet_run s a k Hk). rewrite (IH fuel _ (Some a) q Hs Hni).
  destruct l as [|c l]; [done|]. rewrite (last_cons a). by destruct (last (c :: l)) eqn:E; [|apply last_None in E].
Qed.

(** The state after unlinking: the predecessor, or the head, points to [n]. *)
Lemma pbuf_unlink_run s l1 l2 b k :
  pbuf_list s i (l1 ++ b :: l2) → c_pool s !! b = Some k →
  ∃ s', pbuf_unlink i (last l1) (pk_next (skbf_data k)) s = Some ((), s') ∧
    pbuf_list s' i (l1 ++ l2) ∧ c_pool s' !! b = Some k ∧
    (∃ pool can, s' = set_c_pool pool (set_c_can can s) ∧ List.length pool = List.length (c_pool s)) ∧
    (∀ a k, c_pool s !! a = Some k → ∃ k', c_pool s' !! a = Some k' ∧ refcount k' = refcount k ∧
       skbf_addr k' = skbf_addr k ∧ ∃ n, skbf_data k' = set_pk_next n (skbf_data k)) ∧
    (∀ a, a ∉ l1 → c_pool s' !! a = c_pool s !! a).
Proof.
  intros [(d & Hd & Hs) Hnd Hp] Hk.
  apply lseg_app in Hs as (r & Hs1 & Hs2). apply lseg_lookup in Hs2 as (k' & Hk' & -> & Hs2).
  rewrite Hk in Hk'. injection Hk' as <-.
  pose proof Hnd as (Hnd1 & Hdisj & (Hni2 & Hnd2)%NoDup_cons)%NoDup_app.
  assert (NoDup (l1 ++ l2)) as Hnd12.
  { apply NoDup_app. split_and!; [done| |done]. intros x Hx Hx2. apply (Hdisj x Hx). by right. }
  assert (∀ a, a ∈ l1 ++ l2 → is_Some (c_pool s !! a)) as Hp12.
  { intros a [Ha|Ha]%elem_of_app; apply Hp, elem_of_app; [by left|right; by right]. }
  assert (b ∉ l1) as Hni1 by (intros Hin; apply (Hdisj b Hin); by left).
  destruct l1 as [|a l1 _] using rev_ind.
  - simpl in Hs1. eexists; split.
    { unfold pbuf_unlink, set_pbufs. simpl. run (lift_opt_run (c_can s !! i) d s Hd : get_can i s = Some (d, s)). done. }
    split_and!; try done.
    + split; simpl; [|done|done]. eexists; rewrite lookup_insert_eq. by split.
    + exists (c_pool s), (<[i := mk_can (cfp_packet_counter d) (pk_next (skbf_data k))]> (c_can s)). split; [by destruct s|done].
    + intros a ka Hka. exists ka. split_and!; try done. exists (pk_next (skbf_data ka)). by destruct (skbf_data ka).
  - rewrite last_snoc. destruct (Hp a) as [ka Hka]; [apply elem_of_app; left; apply elem_of_app; right; by left|].
    assert (a ≠ b) as Hab by (intros ->; apply Hni1, elem_of_app; right; by left).
    assert (a ∉ l2) as Hal2.
    { intros Hin. apply NoDup_app in Hnd12 as (_ & Hd12 & _). apply (Hd12 a); [|done]. apply elem_of_app; right; by left. }
    apply NoDup_app in Hnd1 as (_ & Hd1 & _).
    assert (a ∉ l1) as Hal1 by (intros Hin; apply (Hd1 a Hin); by left).
    set (pn := set_pk_next (pk_next (skbf_data k)) (skbf_data ka)).
    exists (upd_pkt s a ka pn). split.
    { unfold pbuf_unlink. run (get_packet_run s a ka Hka). by apply put_packet_run. }
    assert (∀ x, x ≠ a → next_of (upd_pkt s a ka pn) x = next_of s x) as Hnx.
    { intros x Hx. unfold next_of. by rewrite upd_pkt_lookup_ne. }
    split_and!.
    + split; [|done|].
      * exists d. split; [done|]. apply lseg_app. exists (pk_next (skbf_data k)). split.
        -- eapply lseg_set_last; [done|exact Hnx| |exact Hs1]. unfold next_of. by rewrite (upd_pkt_lookup s a ka pn Hka).
        -- eapply lseg_ext; [|exact Hs2]. intros x Hx. apply Hnx. by intros ->.
      * intros x Hx. destruct (decide (x = a)) as [->|Hne]; [by rewrite (upd_pkt_lookup s a ka pn Hka)|].
        rewrite upd_pkt_lookup_ne by done. by apply Hp12.
    + by rewrite upd_pkt_lookup_ne.
    + exists (<[a := mk_skbf (refcount ka) (skbf_addr ka) pn]> (c_pool s)), (c_can s).
      split; [by destruct s|apply length_insert].
    + intros x kx Hkx. destruct (decide (x = a)) as [->|Hne].
      * rewrite (upd_pkt_lookup s a ka pn Hka). rewrite Hka in Hkx. injection Hkx as <-.
        eexists; split; [done|]. split_and!; [done..|]. by eexists.
      * rewrite upd_pkt_lookup_ne by done. exists kx. split_and!; try done.
        exists (pk_next (skbf_data kx)). by destruct (skbf_data kx).
    + intros x Hx. apply upd_pkt_lookup_ne. intros ->. apply Hx, elem_of_app. right; by left.
Qed.

(** What the list operations leave alone. *)
Definition list_frame s s' : Prop :=
  c_version s' = c_version s ∧ c_now s' = c_now s ∧ c_qfifo s' = c_qfifo s ∧ c_ifaces s' = c_ifaces s ∧
  c_wire s' = c_wire s ∧ List.length (c_pool s') = List.length (c_pool s).

#[local] Instance list_frame_preorder : PreOrder list_frame.
Proof.
  split; [by intros s; split_and!|].
  intros s1 s2 s3 (?&?&?&?&?&?) (?&?&?&?&?&?). split_and!; congruence.
Qed.

(** Buffer [a] is the same up to its [next] pointer. *)
Definition same_but_next s s' a : Prop :=
  ∀ k, c_pool s !! a = Some k → ∃ k', c_pool s' !! a = Some k' ∧ refcount k' = refcount k ∧
    skbf_addr k' = skbf_addr k ∧ ∃ n, skbf_data k' = set_pk_next n (skbf_data k).

Lemma set_pk_next_ok n (p : csp_packet_t) : packet_ok p → packet_ok (set_pk_next n p).
Proof. intros []. by split. Qed.

Lemma same_but_next_trans s1 s2 s3 a : same_but_next s1 s2 a → same_but_next s2 s3 a → same_but_next s1 s3 a.
Proof.
  intros H1 H2 k Hk. destruct (H1 k Hk) as (k2 & Hk2 & ? & ? & n2 & Hn2).
  destruct (H2 k2 Hk2) as (k3 & Hk3 & ? & ? & n3 & Hn3). exists k3. split_and!; try congruence.
  exists n3. rewrite Hn3, Hn2. done.
Qed.

Lemma same_but_next_eq s s' a : c_pool s' !! a = c_pool s !! a → same_but_next s s' a.
Proof.
  intros Heq k Hk. exists k. split_and!; [congruence|done|done|]. exists (pk_next (skbf_data k)). by destruct (skbf_data k).
Qed.

(** Changing [next] pointers keeps the pool's invariant. *)
Lemma buf_inv_relink s s' :
  buf_inv s → c_free s' = c_free s → List.length (c_pool s') = List.length (c_pool s) →
  (∀ a, same_but_next s s' a) → buf_inv s'.
Proof.
  intros Hi Hf Hl Hs.
  assert (∀ a k', c_pool s' !! a = Some k' → ∃ k, c_pool s !! a = Some k ∧ refcount k' = refcount k ∧
    skbf_addr k' = skbf_addr k ∧ ∃ n, skbf_data k' = set_pk_next n (skbf_data k)) as Hinv.
  { intros a k' Hk'. destruct (lookup_lt_is_Some_2 (c_pool s) a) as [k Hk].
    { rewrite <- Hl. by eapply lookup_lt_Some. }
    destruct (Hs a k Hk) as (k2 & Hk2 & ? & ? & ?). simplify_eq. eauto. }
  split.
  - intros a k' Hk'. destruct (Hinv a k' Hk') as (k & Hk & Hr & Ha & n & Hd).
    destruct (bi_pool s Hi a k Hk) as (? & ? & ?). rewrite Ha, Hr, Hd. split_and!; try done.
    by apply set_pk_next_ok.
  - rewrite Hf, Hl. apply Hi.
  - rewrite Hf. apply Hi.
  - intros a. rewrite Hf, (bi_free s Hi a). split.
    + intros (k & Hk & Hr). destruct (Hs a k Hk) as (k' & ? & ? & _). exists k'. split; [done|congruence].
    + intros (k' & Hk' & Hr). destruct (Hinv a k' Hk') as (k & ? & ? & _). exists k. split; [done|congruence].
Qed.

Lemma pbuf_list_free s s' l b :
  csp_buffer_free (Some b) s = Some ((), s') → pbuf_list s i l → pbuf_list s' i l ∧ list_frame s s'.
Proof.
  intros Hf [(d & Hd & Hs) Hnd Hp].
  pose proof (csp_buffer_free_frame _ _ _ Hf) as Hfr. destruct (csp_buffer_free_data _ _ _ Hf) as [Hdat _].
  assert (∀ a, is_Some (c_pool s !! a) ↔ is_Some (c_pool s' !! a)) as Hdom.
  { intros a. specialize (Hdat a). destruct (c_pool s !! a), (c_pool s' !! a); try done; split; by intros [].  }
  split; [split|].
  - exists d. split; [by rewrite Hfr|]. eapply lseg_ext; [|exact Hs]. intros a _. unfold next_of.
    specialize (Hdat a). destruct (c_pool s !! a), (c_pool s' !! a); simpl in *; congruence.
  - done.
  - intros a Ha. apply Hdom. by apply Hp.
  - rewrite Hfr. split_and!; try done. simpl.
    apply Nat.le_antisymm; apply Nat.le_ngt; intros Hlt.
    + apply lookup_lt_is_Some in Hlt. apply Hdom, lookup_lt_is_Some in Hlt. lia.
    + apply lookup_lt_is_Some in Hlt. apply Hdom, lookup_lt_is_Some in Hlt. lia.
Qed.

(** Unlinking and releasing (or keeping) one element. *)
Lemma pbuf_drop_run s l1 l2 b k (f : bool) :
  buf_inv s → pbuf_list s i (l1 ++ b :: l2) → c_pool s !! b = Some k →
  ∃ s', (pbuf_unlink i (last l1) (pk_next (skbf_data k));; when f (buffer_free_ctx isr (Some b))) s = Some ((), s') ∧
    buf_inv s' ∧ pbuf_list s' i (l1 ++ l2) ∧ list_frame s s' ∧
    (∀ a, a ≠ b → same_but_next s s' a) ∧
    (∃ k', c_pool s' !! b = Some k' ∧ skbf_data k' = skbf_data k ∧ (f = false → k' = k) ∧
       (f = true → refcount k = 1 → refcount k' = 0)).
Proof.
  intros Hi Hl Hk.
  destruct (pbuf_unlink_run s l1 l2 b k Hl Hk) as (s1 & Hs1 & Hl1 & Hk1 & (pool & can & Heq & Hlen) & Hsame & _).
  assert (buf_inv s1) as Hi1.
  { apply (buf_inv_relink s); [done|by rewrite Heq|by rewrite Heq|exact Hsame]. }
  assert (list_frame s s1) as Hf1 by (rewrite Heq; by split_and!).
  run Hs1. destruct f; simpl when.
  - rewrite buffer_free_ctx_eq.
    destruct (csp_buffer_free_spec s1 b Hi1) as (s2 & Hs2 & Hi2); [by eapply lookup_lt_Some|].
    destruct (pbuf_list_free _ _ _ _ Hs2 Hl1) as [Hl2 Hf2].
    destruct (csp_buffer_free_data _ _ _ Hs2) as [Hdat Hoth].
    exists s2. split_and!; [done|done|done|by etrans| |].
    + intros a Ha. apply (same_but_next_trans s s1 s2); [exact (Hsame a)|]. by apply same_but_next_eq, Hoth.
    + specialize (Hdat b). rewrite Hk1 in Hdat. destruct (c_pool s2 !! b) as [k2|] eqn:Hk2; [|done].
      exists k2. injection Hdat as Hdat. split_and!; try done. intros _ Hr.
      rewrite (csp_buffer_free_last s1 b k Hi1 Hk1 Hr) in Hs2. injection Hs2 as <-. simpl in Hk2.
      rewrite list_lookup_insert_eq in Hk2 by (by eapply lookup_lt_Some). by injection Hk2 as <-.
  - exists s1. split_and!; try done; [|by exists k]. intros a _. exact (Hsame a).
Qed.

(** [csp_can_pbuf_free] takes one packet out of the list. *)
Lemma csp_can_pbuf_free_spec s l1 l2 b k (f : bool) :
  buf_inv s → pbuf_list s i (l1 ++ b :: l2) → c_pool s !! b = Some k →
  ∃ s', csp_can_pbuf_free i b f isr s = Some ((), s') ∧
    buf_inv s' ∧ pbuf_list s' i (l1 ++ l2) ∧ list_frame s s' ∧
    (∀ a, a ≠ b → same_but_next s s' a) ∧
    (∃ k', c_pool s' !! b = Some k' ∧ skbf_data k' = skbf_data k ∧ (f = false → k' = k)).
Proof.
  intros Hi Hl Hk. pose proof (pbuf_list_length s _ Hl) as Hfuel.
  destruct (pbuf_drop_run s l1 l2 b k f Hi Hl Hk)
    as (s' & Hs' & Hi' & Hl' & Hf' & Hsame & k' & Hk' & Hdat & Hkeep & _).
  exists s'. split; [|split_and!; try done; by exists k']. destruct Hl as [(d & Hd & Hs) Hnd Hp].
  apply lseg_app in Hs as (r & Hs1 & Hs2). apply lseg_lookup in Hs2 as (k2 & Hk2 & -> & Hs2).
  rewrite Hk in Hk2. injection Hk2 as <-.
  apply NoDup_app in Hnd as (Hnd1 & Hdisj & (Hni2 & Hnd2)%NoDup_cons).
  assert (b ∉ l1) as Hni1 by (intros Hin; apply (Hdisj b Hin); by left).
  unfold csp_can_pbuf_free. run (eq_refl : Prelude.get s = Some (s, s)).
  run (lift_opt_run (c_can s !! i) d s Hd : get_can i s = Some (d, s)).
  rewrite length_app in Hfuel. simpl in Hfuel.
  replace (pbuf_fuel s) with (List.length l1 + S (List.length l2 + S (pbuf_fuel s - List.length l1 - List.length l2 - 2)))%nat by lia.
  rewrite (pbuf_free_skip s b f l1 _ _ None (Some b) Hs1 Hni1). cbn [pbuf_free_loop].
  rewrite bool_decide_true by done.
  assert (from_option Some None (last l1) = last l1) as -> by (by destruct (last l1)).
  erewrite ST_bind_run; [|simpl when; run (get_packet_run s b k Hk); exact Hs'].
  run (get_packet_run s' b k' Hk'). rewrite Hdat.
  assert (lseg (next_of s') (pk_next (skbf_data k)) l2 None) as Hs2'.
  { destruct Hl' as [(d' & _ & Hls) _ _]. apply lseg_app in Hls as (r & _ & Hls). 
    pose proof (lseg_head _ _ _ _ Hs2) as Hh1. pose proof (lseg_head _ _ _ _ Hls) as Hh2. by rewrite Hh1, <- Hh2. }
  rewrite (pbuf_free_skip s' b f l2 _ _ (Some b) None Hs2' Hni2). done.
Qed.

(** ** Cleaning up *)

(** The packet of buffer [a] has not been used for more than a second. *)
Definition expired s now a : bool :=
  match c_pool s !! a with
  | Some k => bool_decide (PBUF_TIMEOUT_MS < u32 (now - last_used (skbf_data k)))
  | None => false
  end.

(** No two neighbours of the list are expired. *)
Fixpoint no_adjacent (e : nat → bool) l : Prop :=
  match l with
  | a :: l' => match l' with b :: _ => e a = false ∨ e b = false | [] => True end ∧ no_adjacent e l'
  | [] => True
  end.

Lemma no_adjacent_ext (e e' : nat → bool) l :
  (∀ a, a ∈ l → e a = e' a) → no_adjacent e l → no_adjacent e' l.
Proof.
  induction l as [|a l IH]; intros He Hn; [done|]. destruct Hn as [Hh Hn].
  split; [|apply IH; [intros b Hb; apply He; by right|done]].
  destruct l as [|b l]; [done|]. rewrite <- !He; [done| |]; [right; by left|by left].
Qed.

Lemma filter_ext_in (e e' : nat → bool) l :
  (∀ a, a ∈ l → e a = e' a) → List.filter (λ a, negb (e a)) l = List.filter (λ a, negb (e' a)) l.
Proof.
  induction l as [|a l IH]; intros He; simpl; [done|]. rewrite (He a) by (by left).
  rewrite IH; [done|]. intros b Hb. apply He. by right.
Qed.

Lemma expired_same s s' now a : same_but_next s s' a → is_Some (c_pool s !! a) → expired s' now a = expired s now a.
Proof.
  intros Hs [k Hk]. destruct (Hs k Hk) as (k' & Hk' & _ & _ & n & Hd). unfold expired. by rewrite Hk, Hk', Hd.
Qed.

(** The loop with prefix [l1] already passed and [l2] to go. *)
Lemma pbuf_cleanup_loop_spec now n : ∀ s l1 l2 fuel p,
  (List.length l2 ≤ n)%nat → (List.length l2 < fuel)%nat →
  buf_inv s → pbuf_list s i (l1 ++ l2) → lseg (next_of s) p l2 None →
  no_adjacent (expired s now) l2 →
  ∃ s', pbuf_cleanup_loop fuel i now isr p (last l1) s = Some ((), s') ∧ buf_inv s' ∧ list_frame s s' ∧
    pbuf_list s' i (l1 ++ List.filter (λ a, negb (expired s now a)) l2) ∧
    (∀ a, a ∉ l2 ∨ expired s now a = false → same_but_next s s' a).
Proof.
  induction n as [|n IH]; intros s l1 l2 fuel p Hn Hfuel Hi Hl Hs Hadj; destruct l2 as [|a l2];
    try (simpl in Hn; lia); destruct fuel as [|fuel]; try lia.
  1,2: simpl in Hs; subst p; exists s; simpl; split_and!; try done; intros; by apply same_but_next_eq.
  assert (∀ l1 (a : nat) l2, (l1 ++ [a]) ++ l2 = l1 ++ a :: l2) as Happ by (intros; by rewrite <- app_assoc).
  pose proof Hl as [_ Hnd Hp].
  apply lseg_lookup in Hs as (k & Hk & -> & Hs). destruct Hadj as [Hh Hadj]. simpl in Hn, Hfuel.
  cbn [pbuf_cleanup_loop]. run (get_packet_run s a k Hk).
  destruct (bool_decide (PBUF_TIMEOUT_MS < u32 (now - last_used (skbf_data k)))) eqn:He.
  - assert (expired s now a = true) as Hea by (unfold expired; by rewrite Hk).
    destruct (pbuf_drop_run s l1 l2 a k true Hi Hl Hk)
      as (s1 & Hs1 & Hi1 & Hl1 & Hf1 & Hsame & k1 & Hk1 & Hdat & _).
    run (Hs1 : when true (pbuf_unlink i (last l1) (pk_next (skbf_data k));; buffer_free_ctx isr (Some a)) s = _).
    run (get_packet_run s1 a k1 Hk1). rewrite Hdat.
    apply NoDup_app in Hnd as (Hnd1 & Hdisj & (Hni2 & Hnd2)%NoDup_cons).
    assert (∀ x, x ∈ l2 → x ≠ a) as Hne by (intros x Hx ->; done).
    assert (∀ x, x ∈ l2 → expired s1 now x = expired s now x) as Hexp.
    { intros x Hx. apply expired_same; [by apply Hsame, Hne|]. apply Hp, elem_of_app. right; by right. }
    simpl. rewrite Hea. simpl. destruct l2 as [|c l2].
    + simpl in Hs. rewrite Hs. destruct fuel as [|fuel]; [simpl in Hfuel; lia|].
      exists s1. split_and!; try done. intros x [Hx|Hx]; apply Hsame; [|congruence]. intros ->. apply Hx. by left.
    + destruct Hh as [?|Hec]; [congruence|].
      destruct fuel as [|fuel]; [simpl in Hfuel; lia|].
      assert (lseg (next_of s1) (pk_next (skbf_data k)) (c :: l2) None) as Hs1'.
      { destruct Hl1 as [(d & _ & Hls) _ _]. apply lseg_app in Hls as (r & _ & Hls).
        by rewrite (lseg_head _ _ _ _ Hs), <- (lseg_head _ _ _ _ Hls). }
      apply lseg_lookup in Hs1' as (kc & Hkc & -> & Hs1'). cbn [pbuf_cleanup_loop].
      run (get_packet_run s1 c kc Hkc).
      assert (expired s1 now c = false) as Hec1 by (rewrite Hexp; [done|by left]).
      unfold expired in Hec1. rewrite Hkc in Hec1. rewrite Hec1.
      run (eq_refl : when false (pbuf_unlink i (Some a) (pk_next (skbf_data kc));; buffer_free_ctx isr (Some c)) s1 = Some ((), s1)).
      run (get_packet_run s1 c kc Hkc).
      destruct (IH s1 (l1 ++ [c]) l2 fuel (pk_next (skbf_data kc))) as (s2 & Hs2 & Hi2 & Hf2 & Hl2 & Hsame2);
        [simpl in *; lia|simpl in *; lia|done|by rewrite Happ|done| |].
      { eapply no_adjacent_ext; [|by apply Hadj]. intros x Hx. symmetry. apply Hexp. by right. }
      rewrite last_snoc in Hs2. exists s2. split_and!; [done|done|by etrans| |].
      * rewrite Happ in Hl2. simpl. rewrite Hec. simpl.
        rewrite <- (filter_ext_in (expired s1 now)); [done|]. intros x Hx. apply Hexp. by right.
      * intros x Hx. assert (x ≠ a) as Hxa.
        { destruct Hx as [Hx|Hx]; [intros ->; apply Hx; by left|congruence]. }
        apply (same_but_next_trans s s1 s2); [by apply Hsame|]. apply Hsame2.
        destruct Hx as [Hx|Hx]; [left; intros Hin; apply Hx; right; by right|].
        destruct (decide (x ∈ l2)) as [Hin|]; [right; rewrite Hexp; [done|by right]|by left].
  - assert (expired s now a = false) as Hea by (unfold expired; by rewrite Hk).
    run (eq_refl : when false (pbuf_unlink i (last l1) (pk_next (skbf_data k));; buffer_free_ctx isr (Some a)) s = Some ((), s)).
    run (get_packet_run s a k Hk).
    destruct (IH s (l1 ++ [a]) l2 fuel (pk_next (skbf_data k))) as (s2 & Hs2 & Hi2 & Hf2 & Hl2 & Hsame2);
      [simpl in *; lia|simpl in *; lia|done|by rewrite Happ|done|done|].
    rewrite last_snoc in Hs2. exists s2. simpl. rewrite Hea. simpl. rewrite Happ in Hl2. split_and!; try done.
    intros x [Hx|Hx]; apply Hsame2; [left|by right]. intros Hin. apply Hx. by right.
Qed.
End PbufLemmas.

(** cleaning up the packets that have not been used for a second removes
    exactly those from the list and frees them, as long as no two neighbours in
    the list are expired. *)
Theorem csp_can_pbuf_cleanup_removes (s : csp_core) (i : nat) (isr : bool) (l : list nat) :
  buf_inv s → pbuf_list s i l → no_adjacent (expired s (c_now s)) l →
  ∃ s', csp_can_pbuf_cleanup i isr s = Some ((), s') ∧ buf_inv s' ∧
    pbuf_list s' i (List.filter (λ a, negb (expired s (c_now s) a)) l).
Proof.
  intros Hi Hl Hadj. pose proof (pbuf_list_length i s l Hl) as Hfuel.
  pose proof Hl as [(d & Hd & Hs) _ _]. unfold csp_can_pbuf_cleanup.
  run (eq_refl : Prelude.get s = Some (s, s)).
  run (lift_opt_run (c_can s !! i) d s Hd : get_can i s = Some (d, s)).
  destruct (pbuf_cleanup_loop_spec i isr (c_now s) (List.length l) s [] l (pbuf_fuel s) (pbufs d))
    as (s' & Hs' & Hi' & _ & Hl' & _); try done. eauto.
Qed.

(** When two neighbouring packets have both expired, the clean-up frees both
    but unlinks only the first: [prev] is the element just removed, so the second
    one stays at the head of the list although its buffer is back in the pool. *)
Theorem csp_can_pbuf_cleanup_dangling (s : csp_core) (i : nat) (isr : bool) (a b : nat) (ka kb : csp_skbf_t) :
  buf_inv s → pbuf_list s i [a; b] → c_pool s !! a = Some ka → c_pool s !! b = Some kb →
  refcount ka = 1 → refcount kb = 1 → expired s (c_now s) a = true → expired s (c_now s) b = true →
  ∃ s' d, csp_can_pbuf_cleanup i isr s = Some ((), s') ∧ c_can s' !! i = Some d ∧ pbufs d = Some b ∧
    b ∈ fq_items (c_free s').
Proof.
  intros Hi Hl Hka Hkb Hra Hrb Hea Heb. pose proof Hl as [(d & Hd & Hs) Hnd _].
  pose proof (pbuf_list_length i s _ Hl) as Hfuel. unfold pbuf_fuel in *.
  destruct (List.length (c_pool s)) as [|[|n]] eqn:Hlen; simpl in Hfuel; [lia..|].
  apply NoDup_cons in Hnd as [Hab _]. assert (b ≠ a) by (intros ->; apply Hab; by left).
  destruct Hs as (Hpd & na & Hna & -> & _). rewrite (next_of_lookup _ _ _ Hka) in Hna. injection Hna as Hna.
  destruct (pbuf_drop_run i isr s [] [b] a ka true Hi Hl Hka)
    as (s1 & Hs1 & Hi1 & Hl1 & Hf1 & Hsame & ka1 & Hka1 & Hdat & _).
  destruct (Hsame b ltac:(done) kb Hkb) as (kb1 & Hkb1 & Hrb1 & _ & n1 & Hdb1).
  unfold csp_can_pbuf_cleanup. run (eq_refl : Prelude.get s = Some (s, s)).
  run (lift_opt_run (c_can s !! i) d s Hd : get_can i s = Some (d, s)). unfold pbuf_fuel. rewrite Hlen, Hpd.
  unfold expired in Hea, Heb. rewrite Hka in Hea. rewrite Hkb in Heb.
  cbn [pbuf_cleanup_loop]. run (get_packet_run s a ka Hka). rewrite Hea.
  run (Hs1 : when true (pbuf_unlink i None (pk_next (skbf_data ka));; buffer_free_ctx isr (Some a)) s = _).
  run (get_packet_run s1 a ka1 Hka1). rewrite Hdat, Hna. run (get_packet_run s1 b kb1 Hkb1).
  assert (last_used (skbf_data kb1) = last_used (skbf_data kb)) as -> by (by rewrite Hdb1). rewrite Heb. simpl when. unfold pbuf_unlink.
  set (pa := set_pk_next (pk_next (skbf_data kb1)) (skbf_data ka1)). set (s2 := upd_pkt s1 a ka1 pa).
  assert (c_pool s2 !! b = Some kb1) as Hkb2 by (subst s2; by rewrite upd_pkt_lookup_ne).
  assert (buf_inv s2) as Hi2.
  { apply buf_inv_put_packet; [done|done|]. apply set_pk_next_ok. by destruct (bi_pool s1 Hi1 _ _ Hka1) as (_ & ? & _). }
  pose proof (csp_buffer_free_last s2 b kb1 Hi2 Hkb2 ltac:(congruence)) as Hfree.
  erewrite ST_bind_run.
  2:{ erewrite ST_bind_run; [|erewrite ST_bind_run; [|by apply get_packet_run]; by apply put_packet_run].
      fold pa s2. rewrite buffer_free_ctx_eq. exact Hfree. }
  erewrite ST_bind_run; [|eapply get_packet_run; simpl; apply list_lookup_insert_eq; by eapply lookup_lt_Some].
  cbn [skbf_data pk_next]. destruct Hl1 as [(d1 & Hd1 & Hs1') _ _]. destruct Hs1' as (Hpb & nb & Hnb & Hend).
  rewrite (next_of_lookup _ _ _ Hkb1) in Hnb. injection Hnb as Hnb. rewrite Hnb, Hend.
  eexists _, d1. split; [done|]. simpl. split_and!; [done|done|]. apply elem_of_app. right. by left.
Qed.

(** Interface 5 with two partially received packets, both older than a second. *)
Definition stale_packet (next : option nat) : csp_packet_t :=
  set_pk_next next (set_last_used 100 (set_frame_length 6 (set_frame_begin (USelf 2) empty_packet))).
Definition can_stale (now : Z) : csp_core :=
  mk_core 2 now dbg_zero [mk_skbf 1 0 (stale_packet (Some 1%nat)); mk_skbf 1 1 (stale_packet None)]
    (mk_fifo 2 []) (mk_fifo 4 []) {[5%nat := new_iface 21 8 "CAN" NexthopCan2 1]} (Some 5%nat) ∅
    {[5%nat := mk_can 0 (Some 0%nat)]} [].

Lemma can_stale_inv now : buf_inv (can_stale now).
Proof.
  split.
  - assert (∀ n, packet_ok (stale_packet n)) as Hok by (intros n; destruct empty_packet_ok; by split).
    intros [|[|i]] k; simpl; [intros [= <-]..|done]; (split_and!; [done|apply Hok|done..]).
  - done.
  - apply NoDup_nil_2.
  - intros i. simpl. split; [by intros ?%not_elem_of_nil|]. intros (k & Hk & Hr).
    destruct i as [|[|i]]; simpl in Hk; [injection Hk as <-; done..|done].
Qed.

Lemma can_stale_list now : pbuf_list (can_stale now) 5 [0%nat; 1%nat].
Proof.
  split.
  - eexists; split; [done|]. split; [done|]. eexists; split; [done|]. split; [done|]. eexists; by split.
  - apply (bool_decide_unpack _). vm_compute. done.
  - intros a Ha. repeat (apply elem_of_cons in Ha as [->|Ha]; [by eexists|]). by apply not_elem_of_nil in Ha.
Qed.

Lemma csp_can_pbuf_cleanup_dangling_witness :
  ∃ s' d, csp_can_pbuf_cleanup 5 false (can_stale 2000) = Some ((), s') ∧ c_can s' !! 5%nat = Some d ∧
    pbufs d = Some 1%nat ∧ 1%nat ∈ fq_items (c_free s').
Proof.
  apply (csp_can_pbuf_cleanup_dangling (can_stale 2000) 5 false 0 1 (mk_skbf 1 0 (stale_packet (Some 1%nat)))
    (mk_skbf 1 1 (stale_packet None)));
    [apply can_stale_inv|apply can_stale_list|reflexivity..].
Defined.

Lemma csp_can_pbuf_cleanup_removes_witness :
  ∃ s', csp_can_pbuf_cleanup 5 false (can_stale 900) = Some ((), s') ∧ buf_inv s' ∧
    pbuf_list s' 5 (List.filter (λ a, negb (expired (can_stale 900) 900 a)) [0%nat; 1%nat]).
Proof.
  apply (csp_can_pbuf_cleanup_removes (can_stale 900) 5 false [0%nat; 1%nat]);
    [apply can_stale_inv|apply can_stale_list|]. simpl. split_and!; [left; reflexivity|done..].
Defined.

(** ** Reassembly is memory safe *)

(** The state of interface [i] between two frames; [b] may be a packet whose frame
    pointer is not yet set up. *)
Record can_inv_but (b : option nat) (s : csp_core) (i : nat) (l : list nat) : Prop := {
  ci_buf : buf_inv s;
  ci_version : c_version s = 2;
  ci_iface : is_Some (c_ifaces s !! i);
  ci_list : pbuf_list s i l;
  ci_pbufs : ∀ a, a ∈ l → Some a ≠ b → pbuf_ok s a;
}.
Abbreviation can_inv := (can_inv_but None).

Section CanSafety.
Context (i : nat) (isr : bool).
Implicit Types (s : csp_core) (l : list nat) (a b : nat).

Lemma pbuf_list_frame s s' l :
  c_can s' = c_can s → (∀ a, a ∈ l → c_pool s' !! a = c_pool s !! a) →
  pbuf_list s i l → pbuf_list s' i l.
Proof.
  intros Hcan Hp [(d & Hd & Hs) Hnd Hpool]. split; [|done|].
  - exists d. rewrite Hcan. split; [done|]. eapply lseg_ext; [|exact Hs]. intros a Ha. unfold next_of. by rewrite Hp.
  - intros a Ha. rewrite Hp by done. by apply Hpool.
Qed.

Lemma can_inv_frame x s s' l :
  can_inv_but x s i l → buf_inv s' → c_version s' = c_version s → is_Some (c_ifaces s' !! i) →
  c_can s' = c_can s → (∀ a, a ∈ l → c_pool s' !! a = c_pool s !! a) → can_inv_but x s' i l.
Proof.
  intros [Hb Hv Hi Hl Hp] Hb' Hv' Hi' Hcan Hpool. split; [done|congruence|done|by eapply pbuf_list_frame|].
  intros a Ha Hx. destruct (Hp a Ha Hx) as (k & Hk & Hrest). exists k. rewrite Hpool by done. done.
Qed.

(** Counters do not matter. *)
Lemma can_count x s l st :
  can_inv_but x s i l → ∃ s', iface_add i st 1 s = Some ((), s') ∧ can_inv_but x s' i l ∧
    c_pool s' = c_pool s ∧ c_version s' = c_version s ∧ c_qfifo s' = c_qfifo s ∧
    (∀ f, c_ifaces s !! i = Some f → ∃ f', c_ifaces s' !! i = Some f' ∧ if_addr f' = if_addr f).
Proof.
  intros Hc. destruct (ci_iface _ _ _ _ Hc) as [f Hf]. rewrite (iface_add_run _ _ _ _ f Hf).
  eexists; split; [done|]. split_and!; try done.
  - eapply can_inv_frame; [done| |done| |done|done]; simpl.
    + eapply buf_inv_ext; [| |apply Hc]; done.
    + by rewrite lookup_insert_eq.
  - intros f' Hf'. simpl. rewrite lookup_insert_eq. rewrite Hf in Hf'. injection Hf' as <-. eauto.
Qed.

Lemma can_errno_run x s l e :
  can_inv_but x s i l → ∃ s', can_errno e s = Some ((), s') ∧ can_inv_but x s' i l ∧ c_pool s' = c_pool s.
Proof.
  intros Hc. eexists; split; [done|]. split; [|done].
  eapply can_inv_frame; [done| |done|apply Hc|done|done]. eapply buf_inv_ext; [| |apply Hc]; done.
Qed.

(** Replacing the packet of [b] by one with the same [next] pointer. *)
Lemma can_put x s l b k p :
  can_inv_but x s i l → c_pool s !! b = Some k → refcount k ≠ 0 → packet_ok p →
  pk_next p = pk_next (skbf_data k) →
  frame_at 2 p → 6 ≤ frame_length p ≤ CSP_BUFFER_SIZE + 6 →
  (x = None ∨ x = Some b) → can_inv (upd_pkt s b k p) i l.
Proof.
  intros [Hb Hv Hi Hl Hp] Hk Hr Hok Hnext Hfr Hlen Hx. pose proof (upd_pkt_lookup s b k p Hk) as Hk'.
  split; [by apply buf_inv_put_packet|done|done| |].
  - destruct Hl as [(d & Hd & Hs) Hnd Hpool]. split; [|done|].
    + exists d. split; [done|]. eapply lseg_ext; [|exact Hs]. intros a Ha. unfold next_of.
      destruct (decide (b = a)) as [<-|Hne]; [|by rewrite upd_pkt_lookup_ne].
      rewrite Hk', Hk. simpl. by rewrite Hnext.
    + intros a Ha. destruct (decide (b = a)) as [<-|Hne]; [by rewrite Hk'|]. rewrite upd_pkt_lookup_ne by done. by apply Hpool.
  - intros a Ha Hax. destruct (decide (b = a)) as [<-|Hne].
    + exists (mk_skbf (refcount k) (skbf_addr k) p). exact (conj Hk' (conj Hr (conj Hfr Hlen))).
    + destruct (Hp a Ha) as (ka & Hka & ?).
      { destruct Hx as [->| ->]; [done|]. by intros [= ->]. }
      exists ka. by rewrite upd_pkt_lookup_ne.
Qed.

(** Dropping the packet under assembly. *)
Lemma can_drop x s l b (f : bool) :
  can_inv_but x s i l → b ∈ l → (x = None ∨ x = Some b) →
  ∃ s' l', csp_can_pbuf_free i b f isr s = Some ((), s') ∧ can_inv s' i l' ∧ (b ∉ l') ∧
    list_frame s s' ∧ (f = false → c_pool s' !! b = c_pool s !! b).
Proof.
  intros [Hb Hv Hi Hl Hp] Hin Hx. destruct (pl_pool _ _ _ Hl b Hin) as [k Hk].
  apply list_elem_of_split in Hin as (l1 & l2 & ->).
  destruct (csp_can_pbuf_free_spec i isr s l1 l2 b k f Hb Hl Hk)
    as (s' & Hs' & Hb' & Hl' & Hf' & Hsame & k' & Hk' & _ & Hkeep).
  pose proof (pl_nodup _ _ _ Hl) as (_ & Hdisj & (Hni2 & _)%NoDup_cons)%NoDup_app.
  assert (b ∉ l1 ++ l2) as Hni.
  { intros [Hx1|Hx2]%elem_of_app; [|done]. apply (Hdisj b Hx1). by left. }
  exists s', (l1 ++ l2). split_and!; [done| |done|done|].
  - destruct Hf' as (Hv' & _ & _ & Hi' & _). split; [done|congruence|by rewrite Hi'|done|].
    intros a Ha _. assert (a ≠ b) as Hab by (intros ->; done).
    destruct (Hp a) as (ka & Hka & Hra & Hfa & Hla).
    { apply elem_of_app in Ha as [Ha|Ha]; apply elem_of_app; [by left|right; by right]. }
    { destruct Hx as [->| ->]; [done|]. by intros [= ->]. }
    destruct (Hsame a Hab ka Hka) as (ka' & Hka' & Hr' & _ & n & Hd'). exists ka'. rewrite Hr', Hd'. exact (conj Hka' (conj Hra (conj Hfa Hla))).
  - intros ->. by rewrite Hk', Hkeep, Hk.
Qed.

(** The packet [csp_can2_rx] hands over after the last fragment. *)
Definition delivered (addr : Z) (p : csp_packet_t) (hdr : list Z) : csp_packet_t :=
  let x := id_parse 2 hdr in
  set_pk_id (if bool_decide (dst x = 0x3FFF) then mk_id (pri x) (flags x) (src x) addr (dport x) (sport x) else x)
    (set_pk_length (frame_length p - 6) (set_last_used 0 p)).

Lemma delivered_ok addr p hdr :
  packet_ok p → is_u16 addr → 6 ≤ frame_length p → packet_ok (delivered addr p hdr).
Proof.
  intros [? ? Hfl ? ? ? ?] Ha Hlen. pose proof (id_fits_ok 2 _ (id_parse_fits 2 hdr)) as Hid.
  unfold delivered. generalize dependent (id_parse 2 hdr). intros x Hid. split; try assumption.
  - change (is_u16 (frame_length p - 6)). mlia.
  - cbn [pk_id set_pk_id]. case_bool_decide; [|assumption]. destruct Hid as (?&?&?&?&?&?). by split_and!.
Qed.

(** Storing a fragment: too long, stored, or stored and delivered. *)
Lemma can2_rx_store_spec s l b k acc id data :
  can_inv s i l → b ∈ l → c_pool s !! b = Some k → bytes_ok data →
  (∀ f, c_ifaces s !! i = Some f → is_u16 (if_addr f)) →
  frame_read (skbf_data k) 0 (frame_length (skbf_data k)) = Some acc →
  let n := frame_length (skbf_data k) + Z.of_nat (List.length data) in
  if bool_decide (n ≤ CSP_BUFFER_SIZE + 6) then
    ∃ m, let p := set_frame_length n (set_pk_mem m (skbf_data k)) in
      frame_read p 0 n = Some (acc ++ data) ∧ packet_ok p ∧
      if cfp2_end id then
        ∃ f s1 s' l' hdr, c_ifaces s !! i = Some f ∧ frame_read p 0 6 = Some hdr ∧
          can2_rx_store i id data b isr s = Some (CSP_ERR_NONE, s') ∧ can_inv s' i l' ∧
          csp_qfifo_write (Some b) (Some i) isr s1 = Some ((), s') ∧
          c_qfifo s1 = c_qfifo s ∧
          c_pool s1 !! b = Some (mk_skbf (refcount k) (skbf_addr k) (delivered (if_addr f) p hdr))
      else can2_rx_store i id data b isr s = Some (CSP_ERR_NONE, upd_pkt s b k p) ∧ can_inv (upd_pkt s b k p) i l
  else ∃ s' l', can2_rx_store i id data b isr s = Some (CSP_ERR_INVAL, s') ∧ can_inv s' i l'.
Proof.
  intros Hc Hin Hk Hdata Haddr Hacc n. destruct (ci_pbufs _ _ _ _ Hc b Hin) as (k' & Hk' & Hr & Hf & Hlen); [done|].
  rewrite Hk in Hk'. injection Hk' as <-.
  destruct (bi_pool s (ci_buf _ _ _ _ Hc) _ _ Hk) as (_ & Hok & _).
  unfold can2_rx_store. run (get_packet_run s b k Hk). rewrite Hf. cbv beta iota.
  assert (bool_decide (MEM_SIZE < DATA_OFF - id_header_size 2 + frame_length (skbf_data k) + Z.of_nat (List.length data))
    = negb (bool_decide (n ≤ CSP_BUFFER_SIZE + 6))) as ->.
  { change (id_header_size 2) with 6. subst n. repeat case_bool_decide; try done; sizes; lia. }
  case_bool_decide as Hn; cbn [negb]; cbv iota.
  - destruct (frame_append 2 (skbf_data k) (frame_length (skbf_data k)) acc data) as (m & Hw & Hmok & Hread); try done.
    set (p := set_frame_length n (set_pk_mem m (skbf_data k))).
    assert (packet_ok p) as Hp by (destruct Hmok; split; simpl; try done; sizes; mlia).
    assert (can_inv (upd_pkt s b k p) i l) as Hc1.
    { eapply can_put; [exact Hc|done..| | |by left]; [done|]. change (frame_length p) with n. lia. }
    exists m. fold p. split; [exact Hread|]. split; [done|].
    assert (u16 (frame_length (set_pk_mem m (skbf_data k)) + Z.of_nat (List.length data)) = n) as Hu
      by (change (u16 n = n); rewrite u16_id; [done|sizes; mlia]).
    destruct (cfp2_end id).
    2:{ split; [|done]. run (lift_opt_run _ _ s Hw). rewrite Hu. fold p. by run (put_packet_run s b k p Hk). }
    run (lift_opt_run _ _ s Hw). rewrite Hu. fold p. run (put_packet_run s b k p Hk).
    destruct (ci_iface _ _ _ _ Hc) as [f Hfi].
    set (s1 := upd_pkt s b k p) in *. pose proof (upd_pkt_lookup s b k p Hk) as Hk1. fold s1 in Hk1.
    assert (c_version s1 = 2) as Hv1 by apply (ci_version _ _ _ _ Hc).
    run (eq_refl : gets c_version s1 = Some (c_version s1, s1)). rewrite Hv1.
    destruct (csp_id_strip_spec 2 p Hp Hf) as (hdr & Hh & Hst); [change (6 ≤ n); lia|].
    run (lift_opt_run _ _ s1 Hst). run (lift_opt_run (c_ifaces s1 !! i) f s1 Hfi : get_iface i s1 = Some (f, s1)).
    set (q := if bool_decide _ then _ else _).
    assert (q = delivered (if_addr f) p hdr) as Hq.
    { subst q. unfold delivered. change (id_header_size 2) with 6. cbn [pk_id set_pk_id]. case_bool_decide; reflexivity. }
    assert (packet_ok q) as Hqok.
    { rewrite Hq. apply delivered_ok; [done|by apply Haddr|]. change (6 ≤ n). lia. }
    run (put_packet_run s1 b _ q Hk1). set (s2 := upd_pkt s1 b _ q).
    pose proof (upd_pkt_lookup s1 b _ q Hk1) as Hk2. fold s2 in Hk2.
    assert (can_inv s2 i l) as Hc2.
    { eapply can_put; [exact Hc1|exact Hk1|done|done| | | |by left]; rewrite Hq; [done|done|].
      change (6 ≤ n ≤ CSP_BUFFER_SIZE + 6). lia. }
    destruct (can_drop None s2 l b false Hc2 Hin) as (s3 & l' & Hs3 & Hc3 & Hnl & Hf3 & Hk3); [by left|].
    run Hs3. specialize (Hk3 eq_refl). rewrite Hk2 in Hk3. cbn [refcount skbf_addr] in Hk3. rewrite Hq in Hk3.
    destruct (csp_qfifo_write_spec s3 b i isr) as (s4 & Hs4 & Hb4 & (Hv4 & _ & _ & _ & Hcan4 & _ & Hi4) & Hp4);
      [apply Hc3|by eapply lookup_lt_Some|apply Hc3|].
    run Hs4. exists f, s3, s4, l', hdr. split_and!; try done.
    + eapply can_inv_frame; [exact Hc3|done|done|apply Hi4, Hc3|done|]. intros a Ha. apply Hp4. by intros ->.
    + by destruct Hf3 as (_ & _ & -> & _).
  - destruct (can_errno_run None s l CSP_DBG_CAN_ERR_RX_OVF Hc) as (s1 & Hs1 & Hc1 & _). run Hs1.
    destruct (can_count None s1 l StFrame Hc1) as (s2 & Hs2 & Hc2 & _). run Hs2.
    destruct (can_drop None s2 l b true Hc2 Hin) as (s3 & l' & Hs3 & Hc3 & _); [by left|]. run Hs3. eauto.
Qed.

(** The first packet of the list that belongs to [id]. *)
Definition belongs s (id mask : Z) a : bool :=
  match c_pool s !! a with
  | Some k => bool_decide (Z.land (cfpid (skbf_data k)) mask = Z.land id mask)
  | None => false
  end.

Lemma pbuf_find_loop_spec s id mask l : ∀ fuel p,
  lseg (next_of s) p l None → (List.length l < fuel)%nat →
  pbuf_find_loop fuel id mask p s =
  match List.find (belongs s id mask) l with
  | None => Some (None, s)
  | Some b => match c_pool s !! b with
              | Some k => Some (Some b, upd_pkt s b k (set_last_used (c_now s) (skbf_data k)))
              | None => None
              end
  end.
Proof.
  induction l as [|a l IH]; intros [|fuel] p Hs Hf; simpl in Hf; try lia.
  - simpl in *. by subst.
  - apply lseg_lookup in Hs as (k & Hk & -> & Hs). cbn [pbuf_find_loop List.find].
    unfold belongs at 1. rewrite Hk. run (get_packet_run s a k Hk). case_bool_decide.
    + rewrite Hk. run (eq_refl : gets c_now s = Some (c_now s, s)). by run (put_packet_run s a k (set_last_used (c_now s) (skbf_data k)) Hk).
    + apply IH; [done|lia].
Qed.

Lemma set_last_used_ok v p : packet_ok p → packet_ok (set_last_used v p).
Proof. intros []. by split. Qed.

(** Looking for the packet of a frame. *)
Lemma csp_can_pbuf_find_spec s l id mask :
  can_inv s i l →
  match List.find (belongs s id mask) l with
  | None => csp_can_pbuf_find i id mask s = Some (None, s)
  | Some b => b ∈ l ∧ ∃ k, c_pool s !! b = Some k ∧
      let s' := upd_pkt s b k (set_last_used (c_now s) (skbf_data k)) in
      csp_can_pbuf_find i id mask s = Some (Some b, s') ∧ can_inv s' i l
  end.
Proof.
  intros Hc. pose proof (ci_list _ _ _ _ Hc) as Hl. pose proof Hl as [(d & Hd & Hs) Hnd Hp].
  pose proof (pbuf_list_length i s l Hl) as Hf.
  assert (csp_can_pbuf_find i id mask s = pbuf_find_loop (pbuf_fuel s) id mask (pbufs d) s) as Heq.
  { unfold csp_can_pbuf_find. run (eq_refl : Prelude.get s = Some (s, s)).
    by run (lift_opt_run (c_can s !! i) d s Hd : get_can i s = Some (d, s)). }
  rewrite (pbuf_find_loop_spec s id mask l _ _ Hs Hf) in Heq.
  destruct (List.find _ l) as [b|] eqn:Hfind; [|done].
  apply find_some in Hfind as [Hin%list_elem_of_In _]. split; [done|]. destruct (ci_pbufs _ _ _ _ Hc b Hin) as (k & Hk & Hr & Hfr & Hlen); [done|].
  exists k. rewrite Hk in Heq. split; [done|]. cbv zeta. split; [done|].
  destruct (bi_pool s (ci_buf _ _ _ _ Hc) _ _ Hk) as (_ & Hok & _).
  eapply can_put; [exact Hc|done|done|by apply set_last_used_ok|done|done|exact Hlen|by left].
Qed.

(** Starting a new packet. *)
Lemma csp_can_pbuf_new_spec s l id :
  can_inv s i l → no_adjacent (expired s (c_now s)) l →
  ∃ r s' l', csp_can_pbuf_new i id isr s = Some (r, s') ∧ c_version s' = c_version s ∧
    c_qfifo s' = c_qfifo s ∧ c_ifaces s' = c_ifaces s ∧
    match r with
    | None => can_inv s' i l' ∧ fq_items (c_free s) = []
    | Some b => can_inv_but (Some b) s' i (b :: l') ∧
        ∃ k, c_pool s' !! b = Some k ∧ refcount k ≠ 0 ∧ cfpid (skbf_data k) = id
    end.
Proof.
  intros Hc Hadj. pose proof Hc as [Hb Hv Hi Hl Hp]. pose proof (pbuf_list_length i s l Hl) as Hfuel.
  pose proof Hl as [(d & Hd & Hs) _ Hpool].
  destruct (pbuf_cleanup_loop_spec i isr (c_now s) (List.length l) s [] l (pbuf_fuel s) (pbufs d))
    as (s1 & Hs1 & Hb1 & (Hv1 & Hn1 & Hq1 & Hi1 & _ & Hlen1) & Hl1 & Hsame); [lia|done..|].
  set (l' := List.filter _ l) in *. simpl in Hl1.
  assert (csp_can_pbuf_cleanup i isr s = Some ((), s1)) as Hclean.
  { unfold csp_can_pbuf_cleanup. run (eq_refl : Prelude.get s = Some (s, s)).
    by run (lift_opt_run (c_can s !! i) d s Hd : get_can i s = Some (d, s)). }
  assert (∀ a, a ∈ l' → pbuf_ok s1 a) as Hp1.
  { intros a [Hin%list_elem_of_In He]%list_elem_of_In%filter_In.
    destruct (Hp a Hin) as (k & Hk & Hr & Hf & Hln); [done|].
    destruct (Hsame a) with (k := k) as (k' & Hk' & Hr' & _ & n & Hd'); [right; by apply negb_true_iff|done|].
    exists k'. rewrite Hr', Hd'. exact (conj Hk' (conj Hr (conj Hf Hln))). }
  unfold csp_can_pbuf_new. run Hclean. run (eq_refl : gets c_now s1 = Some (c_now s1, s1)).
  destruct (csp_buffer_get_spec s1 Hb1) as [(s2 & Hs2 & Hempty & Hb2 & Hp2 & _)|(b & k & s2 & Hs2 & Hb2 & Hk & Hrk & _ & Hs2e)].
  - exists None, s2, l'. pose proof (csp_buffer_get_frame _ _ _ Hs2) as Hfr.
    erewrite ST_bind_run; [|by destruct isr; exact Hs2]; cbv beta iota. split_and!; [done|by rewrite Hfr|by rewrite Hfr|by rewrite Hfr| |].
    + split; [done|by rewrite Hfr; simpl; congruence|by rewrite Hfr; simpl; rewrite Hi1| |].
      * eapply (pbuf_list_frame s1); [by rewrite Hfr|by rewrite Hp2|done].
      * intros a Ha _. destruct (Hp1 a Ha) as (ka & ? & ?). exists ka. by rewrite Hp2.
    + destruct (fq_items (c_free s)) as [|a rest] eqn:Hfree; [done|]. exfalso.
      destruct (proj1 (bi_free s Hb a)) as (ka & Hka & Hra); [rewrite Hfree; by left|].
      destruct (Hsame a) with (k := ka) as (ka' & Hka' & Hra' & _); [|done|].
      { left. intros Hin. destruct (Hp a Hin) as (? & ? & ? & _); [done|]. congruence. }
      assert (a ∈ fq_items (c_free s1)) as Hin by (apply (bi_free s1 Hb1); exists ka'; split; [done|congruence]).
      rewrite Hempty in Hin. by apply not_elem_of_nil in Hin.
  - erewrite ST_bind_run; [|by destruct isr; exact Hs2]; cbv beta iota.
    assert (c_pool s2 !! b = Some (mk_skbf 1 b (set_pk_id csp_id_clear (skbf_data k)))) as Hk2.
    { rewrite Hs2e. simpl. apply list_lookup_insert_eq. by eapply lookup_lt_Some. }
    run (get_packet_run s2 b _ Hk2). pose proof Hl1 as [(d1 & Hd1 & Hls1) Hnd1 _].
    assert (c_can s2 !! i = Some d1) as Hd2 by (rewrite Hs2e; done).
    run (lift_opt_run (c_can s2 !! i) d1 s2 Hd2 : get_can i s2 = Some (d1, s2)).
    set (p := set_pk_next _ _). run (put_packet_run s2 b _ p Hk2). set (s3 := upd_pkt s2 b _ p).
    pose proof (upd_pkt_lookup s2 b _ p Hk2) as Hk3. fold s3 in Hk3.
    assert (set_pbufs i (Some b) s3 = Some ((), set_c_can (<[i := mk_can (cfp_packet_counter d1) (Some b)]> (c_can s3)) s3)) as Hset.
    { unfold set_pbufs. by run (lift_opt_run (c_can s3 !! i) d1 s3 Hd2 : get_can i s3 = Some (d1, s3)). }
    run Hset. set (s4 := set_c_can _ s3).
    assert (∀ a, a ∈ l' → a ≠ b) as Hne.
    { intros a Ha ->. destruct (Hp1 b Ha) as (? & ? & ? & _). congruence. }
    assert (∀ a, a ≠ b → c_pool s4 !! a = c_pool s1 !! a) as Hother.
    { intros a Ha. subst s4 s3. simpl. rewrite list_lookup_insert_ne by done. rewrite Hs2e. simpl.
      by rewrite list_lookup_insert_ne. }
    assert (c_version s2 = c_version s1 ∧ c_qfifo s2 = c_qfifo s1 ∧ c_ifaces s2 = c_ifaces s1) as (Hv2 & Hq2 & Hi2)
      by (rewrite (csp_buffer_get_frame _ _ _ Hs2); done).
    assert (packet_ok p) as Hpok.
    { subst p. apply set_pk_next_ok. destruct (bi_pool s1 Hb1 _ _ Hk) as (_ & Hok & _). destruct Hok. by split. }
    exists (Some b), s4, l'. split; [done|]. split; [by rewrite <- Hv1|]. split; [by rewrite <- Hq1|].
    split; [by rewrite <- Hi1|]. split; [split|].
    + eapply (buf_inv_ext s3); [done|done|]. by apply buf_inv_put_packet.
    + change (c_version s2 = 2). congruence.
    + change (is_Some (c_ifaces s2 !! i)). by rewrite Hi2, Hi1.
    + split.
      * exists (mk_can (cfp_packet_counter d1) (Some b)). split; [apply lookup_insert_eq|]. split; [done|].
        exists (pbufs d1). split; [by rewrite (next_of_lookup s4 b _ Hk3)|]. eapply lseg_ext; [|exact Hls1].
        intros a Ha. unfold next_of. by rewrite (Hother a (Hne a Ha)).
      * apply NoDup_cons. split; [|done]. intros Hin. by apply (Hne b Hin).
      * intros a [->|Ha]%elem_of_cons; [by eexists; exact Hk3|].
        rewrite (Hother a (Hne a Ha)). by apply (pl_pool _ _ _ Hl1).
    + intros a [->|Ha]%elem_of_cons Hx; [done|].
      destruct (Hp1 a Ha) as (ka & ? & ?). exists ka. by rewrite (Hother a (Hne a Ha)).
    + eexists; split; [exact Hk3|]. by split.
Qed.

(** The interface's own address, if it is a valid one, is not changed. *)
Definition addr_ok s : Prop := ∀ f, c_ifaces s !! i = Some f → is_u16 (if_addr f).

(** A first fragment with a header: the packet is reset and the rest stored. *)
Lemma can2_rx_begin_spec x s l b k id data :
  can_inv_but x s i l → b ∈ l → (x = None ∨ x = Some b) → c_pool s !! b = Some k → refcount k ≠ 0 →
  bytes_ok data → 4 ≤ Z.of_nat (List.length data) →
  ∃ s1 k1, can2_rx_begin i id data b isr s = can2_rx_store i id (drop 4 data) b isr s1 ∧
    can_inv s1 i l ∧ c_pool s1 !! b = Some k1 ∧ c_qfifo s1 = c_qfifo s ∧
    (∀ a, a ≠ b → c_pool s1 !! a = c_pool s !! a) ∧
    (∀ f, c_ifaces s !! i = Some f → ∃ f', c_ifaces s1 !! i = Some f' ∧ if_addr f' = if_addr f) ∧
    frame_length (skbf_data k1) = 6 ∧ rx_count (skbf_data k1) = 1 ∧ cfpid (skbf_data k1) = cfpid (skbf_data k) ∧
    frame_read (skbf_data k1) 0 6 = Some (be_bytes 2 (u16 (Z.shiftr id CFP2_DST_OFFSET)) ++ take 4 data).
Proof.
  intros Hc Hin Hx Hk Hr Hdata Hlen. unfold can2_rx_begin. rewrite bool_decide_false by lia.
  destruct (can_count x s l StFrame Hc) as (s1 & Hs1 & Hc1 & Hp1 & Hv1 & Hq1 & Hi1). run Hs1.
  rewrite <- Hp1 in Hk. destruct (bi_pool s1 (ci_buf _ _ _ _ Hc1) _ _ Hk) as (_ & Hok & _).
  run (eq_refl : gets c_version s1 = Some (c_version s1, s1)). run (get_packet_run s1 b k Hk).
  rewrite (ci_version _ _ _ _ Hc1), csp_id_setup_rx_unfold. cbn [snd]. set (p0 := set_frame_length 0 _).
  assert (packet_ok p0) as Hok0 by (destruct Hok; by split).
  assert (frame_at 2 p0) as Hf0 by done.
  assert (frame_read p0 0 0 = Some []) as Hr0.
  { destruct (frame_read_is_Some 2 p0 0 Hok0 Hf0) as [l0 Hl0]; [change (id_header_size 2) with 6; sizes; lia|].
    rewrite Hl0. unfold frame_read in Hl0. rewrite Hf0 in Hl0. apply mem_read_length in Hl0. by destruct l0. }
  destruct (frame_append 2 p0 0 [] (be_bytes 2 (u16 (Z.shiftr id CFP2_DST_OFFSET)))) as (m1 & Hw1 & Hok1 & Hr1);
    [done..|apply be_bytes_ok|rewrite length_be_bytes; change (id_header_size 2) with 6; sizes; lia|].
  rewrite length_be_bytes in Hr1. simpl Z.add in Hr1.
  destruct (frame_append 2 (set_pk_mem m1 p0) 2 _ (take 4 data) Hok1 Hf0 Hr1) as (m2 & Hw2 & Hok2 & Hr2);
    [by apply Forall_take|rewrite length_take; change (id_header_size 2) with 6; sizes; lia|].
  replace (2 + Z.of_nat (List.length (take 4 data))) with 6 in Hr2 by (rewrite length_take; lia).
  run (lift_opt_run _ _ s1 Hw1). run (lift_opt_run _ _ s1 Hw2).
  set (p := set_rx_count 1 _). run (put_packet_run s1 b k p Hk).
  eexists (upd_pkt s1 b k p), _. split; [done|]. split.
  - eapply can_put; [exact Hc1|done|done| |done|done|change (6 ≤ 6 ≤ CSP_BUFFER_SIZE + 6); sizes; lia|done].
    destruct Hok2. by split.
  - split; [by apply upd_pkt_lookup|]. split; [done|]. split; [|by split_and!].
    intros a Ha. rewrite upd_pkt_lookup_ne by done. by rewrite Hp1.
Qed.

(** The frame is the first one of a packet, and none of the packets being received is it. *)
Definition opens_packet s l id : Prop := cfp2_begin id = true ∧ List.find (belongs s id CFP2_ID_CONN_MASK) l = None.

(** The receiver of CFP 2 frames on arbitrary input. *)
Lemma csp_can2_rx_inv s l id data :
  can_inv s i l → addr_ok s → bytes_ok data → (opens_packet s l id → no_adjacent (expired s (c_now s)) l) →
  ∃ rc s' l', csp_can2_rx i id data isr s = Some (rc, s') ∧ can_inv s' i l'.
Proof.
  intros Hc Haddr Hdata Hadj. unfold csp_can2_rx.
  assert (∀ s1 l1 b k1, can_inv s1 i l1 → addr_ok s1 → b ∈ l1 → c_pool s1 !! b = Some k1 →
    ∀ bs, bytes_ok bs → ∃ rc s' l', can2_rx_store i id bs b isr s1 = Some (rc, s') ∧ can_inv s' i l') as Hstore.
  { intros s1 l1 b k1 Hc1 Ha1 Hin1 Hk1 bs Hbs.
    destruct (ci_pbufs _ _ _ _ Hc1 b Hin1) as (k & Hk & _ & Hf & Hl); [done|]. rewrite Hk1 in Hk. injection Hk as <-.
    destruct (bi_pool s1 (ci_buf _ _ _ _ Hc1) _ _ Hk1) as (_ & Hok & _).
    destruct (frame_read_is_Some 2 (skbf_data k1) (frame_length (skbf_data k1)) Hok Hf) as [acc Hacc];
      [change (id_header_size 2) with 6; lia|].
    pose proof (can2_rx_store_spec s1 l1 b k1 acc id bs Hc1 Hin1 Hk1 Hbs Ha1 Hacc) as Hspec. cbv zeta in Hspec.
    case_bool_decide; [|destruct Hspec as (s' & l' & ? & ?); eauto].
    destruct Hspec as (m & _ & _ & Hspec). destruct (cfp2_end id); [|destruct Hspec; eauto].
    destruct Hspec as (f & s2 & s' & l' & hdr & _ & _ & ? & ? & _). eauto. }
  assert (∀ x s1 l1 b k1, can_inv_but x s1 i l1 → (x = None ∨ x = Some b) → addr_ok s1 → b ∈ l1 →
    c_pool s1 !! b = Some k1 → refcount k1 ≠ 0 →
    ∃ rc s' l', can2_rx_begin i id data b isr s1 = Some (rc, s') ∧ can_inv s' i l') as Hbegin.
  { intros x s1 l1 b k1 Hc1 Hx Ha1 Hin1 Hk1 Hr1. destruct (decide (4 ≤ Z.of_nat (List.length data))) as [Hl|Hl].
    - destruct (can2_rx_begin_spec x s1 l1 b k1 id data) as (s2 & k2 & Heq & Hc2 & Hk2 & _ & _ & Hi2 & _); [done..|].
      rewrite Heq. destruct (ci_iface _ _ _ _ Hc1) as [f1 Hf1]. destruct (Hi2 f1 Hf1) as (f2 & Hf2 & Hfa).
      apply (Hstore s2 l1 b k2); [done| |done|done|by apply Forall_drop].
      intros f Hf. rewrite Hf2 in Hf. injection Hf as <-. rewrite Hfa. by apply Ha1.
    - unfold can2_rx_begin. rewrite bool_decide_true by lia.
      destruct (can_errno_run x s1 l1 CSP_DBG_CAN_ERR_SHORT_BEGIN Hc1) as (s2 & Hs2 & Hc2 & _). run Hs2.
      destruct (can_count x s2 l1 StFrame Hc2) as (s3 & Hs3 & Hc3 & _). run Hs3.
      destruct (can_drop x s3 l1 b true Hc3 Hin1 Hx) as (s4 & l' & Hs4 & Hc4 & _). run Hs4. eauto. }
  pose proof (csp_can_pbuf_find_spec s l id CFP2_ID_CONN_MASK Hc) as Hfind.
  unfold opens_packet in Hadj. destruct (List.find _ l) as [b|].
  - destruct Hfind as (Hin & k & Hk & Hfind & Hc1). run Hfind.
    set (s1 := upd_pkt s b k _) in *. pose proof (upd_pkt_lookup s b k (set_last_used (c_now s) (skbf_data k)) Hk) as Hk1.
    fold s1 in Hk1. set (k1 := mk_skbf _ _ _) in Hk1.
    destruct (ci_pbufs _ _ _ _ Hc b Hin) as (k' & Hk' & Hr & _); [done|]. rewrite Hk in Hk'. injection Hk' as <-.
    run (eq_refl : (mret (inr b) : C (Z + nat)) s1 = Some (inr b, s1)).
    destruct (cfp2_begin id); [eapply (Hbegin None); [done|by left|done|done|exact Hk1|done]|].
    unfold can2_rx_fragment. run (get_packet_run s1 b _ Hk1). case_bool_decide.
    + destruct (can_errno_run None s1 l CSP_DBG_CAN_ERR_FRAME_LOST Hc1) as (s2 & Hs2 & Hc2 & _). run Hs2.
      destruct (can_drop None s2 l b true Hc2 Hin) as (s3 & l' & Hs3 & Hc3 & _); [by left|]. run Hs3.
      destruct (can_count None s3 l' StFrame Hc3) as (s4 & Hs4 & Hc4 & _). run Hs4. eauto.
    + set (p := set_rx_count _ _). run (put_packet_run s1 b _ p Hk1).
      assert (can_inv (upd_pkt s1 b k1 p) i l) as Hc2; [|eapply Hstore; [exact Hc2|done|done|by apply upd_pkt_lookup|done]].
      destruct (ci_pbufs _ _ _ _ Hc1 b Hin) as (k2 & Hk1' & Hr1 & Hf1 & Hl1); [done|].
      rewrite Hk1 in Hk1'. injection Hk1' as <-.
      destruct (bi_pool s1 (ci_buf _ _ _ _ Hc1) _ _ Hk1) as (_ & Hok1 & _).
      eapply can_put; [exact Hc1|exact Hk1|done| |done|done|exact Hl1|by left].
      destruct Hok1. split; try assumption. change (is_u16 (Z.land (rx_count (skbf_data k1) + 1) (2 ^ 3 - 1))).
      rewrite land_mask by lia. mlia.
  - run Hfind. destruct (cfp2_begin id) eqn:Hbg.
    + destruct (csp_can_pbuf_new_spec s l id Hc (Hadj (conj eq_refl eq_refl))) as (r & s1 & l1 & Hnew & Hv1 & _ & Hi1 & Hr).
      assert (addr_ok s1) as Ha1 by (unfold addr_ok; by rewrite Hi1).
      destruct r as [b|].
      * destruct Hr as (Hc1 & k & Hk & Hrk & _).
        erewrite ST_bind_run; [|run Hnew; done]. cbv beta iota.
        eapply (Hbegin (Some b)); [done|by right|done|by left|done|done].
      * destruct Hr as [Hc1 _]. destruct (can_count None s1 l1 StRxError Hc1) as (s2 & Hs2 & Hc2 & _).
        erewrite ST_bind_run; [|run Hnew; run Hs2; done]. cbv beta iota. by exists CSP_ERR_NOMEM, s2, l1.
    + destruct (can_count None s l StFrame Hc) as (s2 & Hs2 & Hc2 & _).
      erewrite ST_bind_run; [|run Hs2; done]. cbv beta iota. by exists CSP_ERR_INVAL, s2, l.
Qed.
End CanSafety.

(** C29: A CAN frame with any identifier and any data keeps the CFP 2 receiver inside its
    buffers and follows no stale pointer, and the invariant is kept: the pool, and a list of
    distinct buffers in use whose frames lie inside them.  The proviso concerns only a frame
    that opens a packet, which is when old packets are cleaned up: no two neighbours of the
    list may have expired at that time.  It is needed: with two such neighbours the clean-up
    leaves a buffer in the list that is back in the pool. *)
Theorem csp_can2_rx_memory_safe (s : csp_core) (i : nat) (l : list nat) (isr : bool) :
  can_inv s i l →
  (∀ (id : Z) (data : list Z), addr_ok i s → bytes_ok data → (opens_packet s l id → no_adjacent (expired s (c_now s)) l) →
     ∃ rc s' l', csp_can_rx i id data isr s = Some (rc, s') ∧ can_inv s' i l') ∧
  (∀ (a b : nat) (ka kb : csp_skbf_t), l = [a; b] → c_pool s !! a = Some ka → c_pool s !! b = Some kb →
     refcount ka = 1 → refcount kb = 1 → expired s (c_now s) a = true → expired s (c_now s) b = true →
     ∃ s' d, csp_can_pbuf_cleanup i isr s = Some ((), s') ∧ c_can s' !! i = Some d ∧ pbufs d = Some b ∧ b ∈ fq_items (c_free s')).
Proof.
  intros Hc. split.
  - intros id data Ha Hd Hadj. unfold csp_can_rx. run (eq_refl : gets c_version s = Some (c_version s, s)).
    rewrite (ci_version _ _ _ _ Hc). simpl. by eapply csp_can2_rx_inv.
  - intros a b ka kb -> Hka Hkb Hra Hrb Hea Heb. apply (csp_can_pbuf_cleanup_dangling s i isr a b ka kb); [apply Hc|apply Hc|done..].
Qed.

(** ** Fragmentation round trip *)

Section FrameIds.
Implicit Types (x mask off : Z) (i : csp_id_t).

Lemma put_field_val n x off : 0 ≤ n → 0 ≤ off → put_field x (2 ^ n - 1) off = x mod 2 ^ n * 2 ^ off.
Proof. intros. unfold put_field. rewrite land_mask, shiftl_mul by done. done. Qed.

Lemma cfp2_base_sum i addr sc :
  cfp2_base i addr sc =
  pri i mod 4 * 134217728 + dst i mod 16384 * 8192 + addr mod 64 * 128 + sc mod 4 * 32.
Proof.
  unfold cfp2_base. change CFP2_PRIO_MASK with (2 ^ 2 - 1). change CFP2_DST_MASK with (2 ^ 14 - 1).
  change CFP2_SENDER_MASK with (2 ^ 6 - 1). change CFP2_SC_MASK with (2 ^ 2 - 1).
  rewrite !put_field_val by done.
  unfold CFP2_PRIO_OFFSET, CFP2_DST_OFFSET, CFP2_SENDER_OFFSET, CFP2_SC_OFFSET.
  change (2 ^ 2) with 4. change (2 ^ 14) with 16384. change (2 ^ 6) with 64.
  change (2 ^ 27) with 134217728. change (2 ^ 13) with 8192. change (2 ^ 7) with 128. change (2 ^ 5) with 32.
  rewrite (lor_add 27 (pri i mod 4 * 134217728)), (lor_add 13 (_ + _)), (lor_add 7 (_ + _ + _));
    try change (2 ^ 27) with 134217728; try change (2 ^ 13) with 8192; try change (2 ^ 7) with 128;
    Z.to_euclidean_division_equations; lia.
Qed.

Lemma cfp2_header_extension_sum i :
  id2_fits i → cfp2_header_extension i = src i * 262144 + dport i * 4096 + sport i * 64 + flags i.
Proof.
  unfold id2_fits, cfp2_header_extension. intros Hf. change CFP2_SRC_MASK with (2 ^ 14 - 1).
  change CFP2_DPORT_MASK with (2 ^ 6 - 1). change CFP2_SPORT_MASK with (2 ^ 6 - 1).
  change CFP2_FLAGS_MASK with (2 ^ 6 - 1). rewrite !put_field_val by done.
  unfold CFP2_SRC_OFFSET, CFP2_DPORT_OFFSET, CFP2_SPORT_OFFSET, CFP2_FLAGS_OFFSET.
  change (2 ^ 14) with 16384. change (2 ^ 6) with 64. change (2 ^ 18) with 262144. change (2 ^ 12) with 4096.
  change (2 ^ 0) with 1. rewrite !Z.mod_small by lia.
  rewrite (lor_add 18 (src i * 262144)), (lor_add 12 (_ + _)), (lor_add 6 (_ + _ + _));
    try change (2 ^ 18) with 262144; try change (2 ^ 12) with 4096; try change (2 ^ 6) with 64;
    Z.to_euclidean_division_equations; lia.
Qed.

(** The identifier of a frame: [fc] and the begin and end bits below the base. *)
Definition cfp2_low (fc : Z) (bg en : bool) : Z := fc mod 8 * 4 + Z.b2z bg * 2 + Z.b2z en.

(** Testing one bit by division. *)
Lemma has_flag_bit n x : 0 ≤ n → has_flag x (2 ^ n) = bool_decide (x / 2 ^ n mod 2 = 1).
Proof.
  intros Hn. unfold has_flag. rewrite <- Z.shiftr_div_pow2, <- Z.bit0_mod, Z.shiftr_spec by done. rewrite Z.add_0_l.
  apply bool_decide_ext. replace (Z.land x (2 ^ n)) with (Z.b2z (Z.testbit x n) * 2 ^ n).
  - assert (0 < 2 ^ n) by (apply Z.pow_pos_nonneg; lia). destruct (Z.testbit x n); cbn [Z.b2z]; lia.
  - apply Z.bits_inj'. intros m Hm. rewrite Z.land_spec, Z.pow2_bits_eqb by done.
    rewrite <- Z.shiftl_mul_pow2, Z.shiftl_spec by done.
    destruct (Z.eqb_spec n m) as [->|Hne].
    + rewrite Z.sub_diag, andb_true_r. by destruct (Z.testbit x m).
    + rewrite andb_false_r. destruct (Z.testbit x n); [|apply Z.bits_0].
      destruct (decide (m < n)); [by rewrite Z.testbit_neg_r by lia|].
      change (Z.b2z true) with (2 ^ 0). rewrite Z.pow2_bits_false; [done|lia].
Qed.

Lemma cfp2_id_fields base fc bg en :
  base mod 32 = 0 → 0 ≤ base < 536870912 →
  let id := base + cfp2_low fc bg en in
  Z.land id CFP2_ID_CONN_MASK = base ∧ cfp2_begin id = bg ∧ cfp2_end id = en ∧ cfp2_fc id = fc mod 8.
Proof.
  intros Hb Hr id. assert (0 ≤ cfp2_low fc bg en < 32) as Hlow.
  { unfold cfp2_low. destruct bg, en; simpl; Z.to_euclidean_division_equations; lia. }
  split_and!.
  - change CFP2_ID_CONN_MASK with (2 ^ 29 - 2 ^ 5).
    rewrite land_prefix by (subst id; change (2 ^ 29) with 536870912; Z.to_euclidean_division_equations; lia).
    change (2 ^ 5) with 32. subst id. Z.to_euclidean_division_equations; lia.
  - unfold cfp2_begin. change (Z.shiftl CFP2_BEGIN_MASK CFP2_BEGIN_OFFSET) with (2 ^ 1).
    rewrite has_flag_bit by done. change (2 ^ 1) with 2. unfold cfp2_low in id. subst id.
    destruct bg, en; simpl Z.b2z; (apply bool_decide_eq_true || apply bool_decide_eq_false);
      Z.to_euclidean_division_equations; lia.
  - unfold cfp2_end. change (Z.shiftl CFP2_END_MASK CFP2_END_OFFSET) with (2 ^ 0).
    rewrite has_flag_bit by done. change (2 ^ 0) with 1. unfold cfp2_low in id. subst id.
    destruct bg, en; simpl Z.b2z; (apply bool_decide_eq_true || apply bool_decide_eq_false);
      Z.to_euclidean_division_equations; lia.
  - unfold cfp2_fc. change CFP2_FC_MASK with (2 ^ 3 - 1). rewrite land_mask, shiftr_div by done.
    change (2 ^ 3) with 8. change (2 ^ CFP2_FC_OFFSET) with 4. unfold cfp2_low in id. subst id.
    destruct bg, en; simpl Z.b2z; Z.to_euclidean_division_equations; lia.
Qed.
End FrameIds.

(** The frames after the first one, for the bytes [rest] still to send. *)
Fixpoint cfp2_frames (fuel : nat) (base fc : Z) (rest : list Z) : list (Z * list Z) :=
  match fuel with
  | O => []
  | S fuel' =>
      match rest with
      | [] => []
      | _ =>
          (base + cfp2_low fc false (bool_decide (List.length rest ≤ 8)%nat), take 8 rest) ::
          cfp2_frames fuel' base (fc + 1) (drop 8 rest)
      end
  end.

(** All frames of a packet. *)
Definition cfp2_packet_frames (base : Z) (i : csp_id_t) (pay : list Z) : list (Z * list Z) :=
  (base + cfp2_low 0 true (bool_decide (List.length pay ≤ 4)%nat),
   be_bytes 4 (cfp2_header_extension i) ++ take 4 pay) ::
  cfp2_frames (S (List.length pay)) base 1 (drop 4 pay).

Section CanSender.
Context `{drv : CanDriver} (i : nat).
Hypothesis driver_accepts : ∀ can_id data w, can_tx_func i can_id data w = CSP_ERR_NONE.
Implicit Types (s : csp_core) (p : csp_packet_t) (pay : list Z).

Lemma can_send_run can_id data s :
  can_send i can_id data s = Some (CSP_ERR_NONE, set_c_wire (c_wire s ++ [WireCan i can_id data]) s).
Proof.
  unfold can_send. run (eq_refl : gets c_wire s = Some (c_wire s, s)). cbv zeta.
  rewrite driver_accepts. by rewrite bool_decide_true.
Qed.

(** The identifier as the code builds it. *)
Lemma cfp2_can_id base fc (bg en : bool) :
  base mod 32 = 0 →
  Z.lor (Z.lor base (if bg then put_field 1 CFP2_BEGIN_MASK CFP2_BEGIN_OFFSET else put_field fc CFP2_FC_MASK CFP2_FC_OFFSET))
    (cfp2_end_flag en) = base + cfp2_low (if bg then 0 else fc) bg en.
Proof.
  intros Hb. unfold cfp2_end_flag, cfp2_low. change CFP2_FC_MASK with (2 ^ 3 - 1). rewrite put_field_val by done.
  change (put_field 1 CFP2_BEGIN_MASK CFP2_BEGIN_OFFSET) with 2. change (put_field 1 CFP2_END_MASK CFP2_END_OFFSET) with 1.
  change (2 ^ CFP2_FC_OFFSET) with 4. change (2 ^ 3) with 8.
  assert (0 ≤ fc mod 8 < 8) by (Z.to_euclidean_division_equations; lia).
  rewrite (lor_add 5 base) by (change (2 ^ 5) with 32; destruct bg; lia).
  destruct bg, en; simpl Z.b2z; (rewrite (lor_add 1 (_ + _)) by (change (2 ^ 1) with 2; Z.to_euclidean_division_equations; lia) || rewrite Z.lor_0_r); Z.to_euclidean_division_equations; lia.
Qed.

Lemma can2_tx_more_run p pay addr sc : ∀ fuel fc tx s,
  payload p = Some pay → 0 ≤ tx → (List.length (drop (Z.to_nat tx) pay) < fuel)%nat →
  can2_tx_more fuel i p addr sc fc tx s =
  Some (CSP_ERR_NONE,
    set_c_wire (c_wire s ++ ((λ '(id, d), WireCan i id d) <$>
      cfp2_frames fuel (cfp2_base (pk_id p) addr sc) fc (drop (Z.to_nat tx) pay))) s).
Proof.
  set (base := cfp2_base (pk_id p) addr sc).
  assert (base mod 32 = 0) as Hbase.
  { subst base. rewrite cfp2_base_sum. Z.to_euclidean_division_equations; lia. }
  induction fuel as [|fuel IH]; intros fc tx s Hpay Htx Hfuel; [lia|].
  assert (Z.of_nat (List.length pay) = pk_length p) as Hlen by (by eapply mem_read_length).
  cbn [can2_tx_more cfp2_frames]. rewrite length_drop in Hfuel.
  destruct (drop (Z.to_nat tx) pay) as [|x rest] eqn:Hdrop.
  { rewrite bool_decide_false by (apply (f_equal List.length) in Hdrop; rewrite length_drop in Hdrop; simpl in Hdrop; lia).
    cbn [fmap list_fmap]. rewrite app_nil_r. by destruct s. }
  assert (List.length (x :: rest) = (List.length pay - Z.to_nat tx)%nat) as Hl by (rewrite <- Hdrop; apply length_drop).
  simpl in Hl. rewrite bool_decide_true by lia.
  set (n := if bool_decide (CAN_FRAME_SIZE ≤ pk_length p - tx) then CAN_FRAME_SIZE else pk_length p - tx).
  assert (n = Z.min 8 (Z.of_nat (List.length (x :: rest)))) as Hn.
  { subst n. unfold CAN_FRAME_SIZE. simpl. case_bool_decide; lia. }
  clearbody n. cbn [List.length] in Hn.
  assert (data_read p tx n = Some (take 8 (x :: rest))) as Hread.
  { unfold payload, data_read in *. apply mem_read_Some in Hpay as (? & ? & ? & Hpay).
    apply mem_read_Some. split_and!; [sizes; lia|lia|sizes; lia|]. rewrite <- Hdrop, Hpay.
    rewrite skipn_firstn_comm, drop_drop, firstn_firstn.
    replace (Z.to_nat (DATA_OFF + 0) + Z.to_nat tx)%nat with (Z.to_nat (DATA_OFF + tx)) by (sizes; lia).
    f_equal. simpl in Hn. lia. }
  run (lift_opt_run _ _ s Hread).
  pose proof (cfp2_can_id base fc false (bool_decide (tx + n = pk_length p)) Hbase) as Hid. cbv iota in Hid.
  fold base. rewrite Hid. run (can_send_run (base + cfp2_low fc false (bool_decide (tx + n = pk_length p))) (take 8 (x :: rest)) s).
  rewrite bool_decide_false by (by intros []).
  assert (drop (Z.to_nat (tx + n)) pay = drop 8 (x :: rest)) as Hdrop'.
  { rewrite <- Hdrop, drop_drop. destruct (decide (8 ≤ S (List.length rest)))%nat.
    - f_equal. simpl in Hn. lia.
    - rewrite !drop_ge; [done|simpl in Hn; lia..]. }
  rewrite IH by (done || (rewrite ?length_drop; simpl in Hn; lia)).
  rewrite Hdrop'. cbn [c_wire set_c_wire fmap list_fmap]. rewrite <- app_assoc.
  replace (bool_decide (tx + n = pk_length p)) with (bool_decide (List.length (x :: rest) ≤ 8)%nat); [done|].
  apply bool_decide_ext. simpl in *. lia.
Qed.

(** Transmission emits the frames and releases the packet. *)
Lemma csp_can2_tx_spec s b k f d via fm :
  buf_inv s → c_pool s !! b = Some k → c_ifaces s !! i = Some f → c_can s !! i = Some d →
  dst (pk_id (skbf_data k)) ≠ if_addr f → pk_length (skbf_data k) ≤ CSP_BUFFER_SIZE →
  ∃ pay s', payload (skbf_data k) = Some pay ∧ csp_can2_tx i via b fm s = Some (CSP_ERR_NONE, s') ∧
    c_wire s' = c_wire s ++ ((λ '(id, d), WireCan i id d) <$>
      cfp2_packet_frames (cfp2_base (pk_id (skbf_data k)) (if_addr f) (cfp_packet_counter d))
        (pk_id (skbf_data k)) pay).
Proof.
  intros Hb Hk Hf Hd Hdst Hlen. destruct (bi_pool s Hb _ _ Hk) as (_ & Hok & _).
  pose proof (po_length _ Hok) as Hlp. set (p := skbf_data k) in *.
  destruct (data_read_is_Some p 0 (pk_length p)) as [pay Hpay]; [done|lia|mlia|lia|].
  assert (Z.of_nat (List.length pay) = pk_length p) as Hpl by (by eapply mem_read_length).
  exists pay. unfold csp_can2_tx. run (get_packet_run s b k Hk).
  run (lift_opt_run (c_ifaces s !! i) f s Hf : get_iface i s = Some (f, s)). fold p. rewrite bool_decide_false by done.
  run (lift_opt_run (c_can s !! i) d s Hd : get_can i s = Some (d, s)). erewrite ST_bind_run; [|done].
  set (s1 := set_c_can _ s). set (base := cfp2_base (pk_id p) (if_addr f) (cfp_packet_counter d)).
  assert (base mod 32 = 0) as Hbase.
  { subst base. rewrite cfp2_base_sum. Z.to_euclidean_division_equations; lia. }
  set (n := if bool_decide (4 ≤ pk_length p) then 4 else pk_length p).
  assert (n = Z.min 4 (Z.of_nat (List.length pay))) as Hn by (subst n; case_bool_decide; lia). clearbody n.
  assert (data_read p 0 n = Some (take 4 pay)) as Hread.
  { unfold payload, data_read in *. apply mem_read_Some in Hpay as (? & ? & ? & Hpay').
    apply mem_read_Some. split_and!; [lia..|]. rewrite Hpay', firstn_firstn. f_equal. lia. }
  run (lift_opt_run _ _ s1 Hread).
  pose proof (cfp2_can_id base 0 true (bool_decide (n = pk_length p)) Hbase) as Hid. cbv iota in Hid. fold base. rewrite Hid.
  run (can_send_run (base + cfp2_low 0 true (bool_decide (n = pk_length p))) (be_bytes 4 (cfp2_header_extension (pk_id p)) ++ take 4 pay) s1).
  rewrite bool_decide_false by (by intros []).
  erewrite ST_bind_run; [|apply (can2_tx_more_run p pay); [exact Hpay|lia|rewrite length_drop; lia]].
  rewrite bool_decide_false by (by intros []). set (s2 := set_c_wire _ _).
  destruct (csp_buffer_free_spec s2 b) as (s3 & Hs3 & _); [by apply (buf_inv_ext s)|by eapply lookup_lt_Some|].
  run Hs3. exists s3. split_and!; [done|done|]. apply csp_buffer_free_frame in Hs3. rewrite Hs3. subst s2 s1. simpl.
  rewrite <- app_assoc. simpl. f_equal. f_equal.
  - f_equal. f_equal. f_equal. apply bool_decide_ext. lia.
  - replace (drop (Z.to_nat n) pay) with (drop 4 pay); [by replace (Z.to_nat (pk_length p)) with (List.length pay) by lia|].
    destruct (decide (4 ≤ List.length pay)%nat); [f_equal; lia|]. rewrite !drop_ge by lia. done.
Qed.
End CanSender.

(** Frames arriving one after the other on interface [i]. *)
Fixpoint can_feed (i : nat) (frames : list (Z * list Z)) (isr : bool) : C () :=
  match frames with
  | [] => mret ()
  | (id, data) :: frames' => csp_can_rx i id data isr;; can_feed i frames' isr
  end.

(** The frames transmitted by interface [i]. *)
Definition wire_frames (i : nat) (w : list wire_event) : list (Z * list Z) :=
  omap (λ e, match e with WireCan j id d => if bool_decide (j = i) then Some (id, d) else None | _ => None end) w.

Lemma wire_frames_can i l : wire_frames i ((λ '(id, d), WireCan i id d) <$> l) = l.
Proof.
  unfold wire_frames. induction l as [|[id d] l IH]; [done|]. rewrite fmap_cons. cbn [omap list_omap].
  rewrite bool_decide_true by done. f_equal. exact IH.
Qed.

(** The destination a receiving interface with address [addr] reports. *)
Definition l3_id (addr : Z) (x : csp_id_t) : csp_id_t :=
  if bool_decide (dst x = 0x3FFF) then mk_id (pri x) (flags x) (src x) addr (dport x) (sport x) else x.

(** Interface [i] has put the frame bytes [fr] of a packet into buffer [b] and
    expects fragment number [fc] of the packet with identifier base [base]. *)
Record assembling (s : csp_core) (i : nat) (l : list nat) (b : nat) (base fc : Z) (fr : list Z) (addr : Z) : Prop := {
  as_inv : can_inv s i l;
  as_find : List.find (belongs s base CFP2_ID_CONN_MASK) l = Some b;
  as_addr : ∃ f, c_ifaces s !! i = Some f ∧ if_addr f = addr;
  as_pkt : ∃ k, c_pool s !! b = Some k ∧ frame_length (skbf_data k) = Z.of_nat (List.length fr) ∧
    frame_read (skbf_data k) 0 (Z.of_nat (List.length fr)) = Some fr ∧ rx_count (skbf_data k) = fc;
}.

(** The packet has been put on the router's input queue. *)
Definition arrived (s s' : csp_core) (i : nat) (id : csp_id_t) (pay : list Z) : Prop :=
  ∃ b k, fq_items (c_qfifo s') = fq_items (c_qfifo s) ++ [(Some b, Some i)] ∧
    c_pool s' !! b = Some k ∧ pk_id (skbf_data k) = id ∧ payload (skbf_data k) = Some pay.

Section CanReceiver.
Context (i : nat) (isr : bool) (addr : Z).
Hypothesis addr_range : is_u16 addr.
Implicit Types (s : csp_core) (l : list nat) (a b : nat).

Lemma belongs_upd s id mask b k p a :
  c_pool s !! b = Some k → cfpid p = cfpid (skbf_data k) →
  belongs (upd_pkt s b k p) id mask a = belongs s id mask a.
Proof.
  intros Hk Hp. unfold belongs. destruct (decide (b = a)) as [<-|Hne].
  - rewrite (upd_pkt_lookup s b k p Hk), Hk. simpl. by rewrite Hp.
  - by rewrite upd_pkt_lookup_ne.
Qed.

Lemma find_ext {A} (f g : A → bool) (xs : list A) : (∀ x, f x = g x) → List.find f xs = List.find g xs.
Proof. intros Hfg. induction xs as [|x xs IH]; simpl; [done|]. by rewrite Hfg, IH. Qed.

(** Storing one more fragment. *)
Lemma assembling_store s l b base fc fr id data :
  assembling s i l b base fc fr addr → bytes_ok data →
  Z.of_nat (List.length (fr ++ data)) ≤ CSP_BUFFER_SIZE + 6 →
  if cfp2_end id then
    (List.length (fq_items (c_qfifo s)) < fq_cap (c_qfifo s))%nat → (6 ≤ List.length (fr ++ data))%nat →
    ∃ s', can2_rx_store i id data b isr s = Some (CSP_ERR_NONE, s') ∧
      arrived s s' i (l3_id addr (id_parse 2 (take 6 (fr ++ data)))) (drop 6 (fr ++ data))
  else ∃ s', can2_rx_store i id data b isr s = Some (CSP_ERR_NONE, s') ∧ c_qfifo s' = c_qfifo s ∧
      assembling s' i l b base fc (fr ++ data) addr.
Proof.
  intros [Hc Hfind (f & Hf & Hfa) (k & Hk & Hfl & Hread & Hrx)] Hdata Hlen.
  assert (b ∈ l) as Hin by (apply find_some in Hfind as [?%list_elem_of_In _]; done).
  pose proof (can2_rx_store_spec i isr s l b k fr id data Hc Hin Hk Hdata) as Hspec. cbv zeta in Hspec.
  rewrite Hfl in Hspec. rewrite length_app, Nat2Z.inj_add in Hlen. rewrite bool_decide_true in Hspec by done.
  destruct Hspec as (m & Hread' & Hpok & Hspec).
  { intros f' Hf'. rewrite Hf in Hf'. by injection Hf' as <-; rewrite Hfa. }
  { done. }
  set (p := set_frame_length _ _) in *. destruct (cfp2_end id).
  - intros Hroom Hsix. destruct Hspec as (f' & s1 & s' & l' & hdr & Hf' & Hhdr & Hs' & _ & Hq & Hq1 & Hk1).
    rewrite Hf in Hf'. injection Hf' as <-. exists s'. split; [done|].
    rewrite csp_qfifo_write_room in Hq by (by rewrite Hq1). injection Hq as <-.
    exists b. eexists. cbn [c_qfifo fq_items set_c_qfifo c_pool]. rewrite Hq1.
    split; [done|]. split; [exact Hk1|]. cbn [skbf_data].
    assert (frame_at 2 p) as Hfat.
    { destruct (ci_pbufs _ _ _ _ Hc b Hin) as (k' & Hk' & _ & Hfr & _); [done|]. rewrite Hk in Hk'. by injection Hk' as <-. }
    rewrite <- (take_drop 6 (fr ++ data)) in Hread'.
    replace (Z.of_nat (List.length fr) + Z.of_nat (List.length data))
      with (id_header_size 2 + (Z.of_nat (List.length fr) + Z.of_nat (List.length data) - 6)) in Hread'
      by (change (id_header_size 2) with 6; lia).
    rewrite length_app in Hsix.
    apply (frame_read_app_inv 2) in Hread' as [H1 H2]; [|done|rewrite length_take, length_app; change (id_header_size 2) with 6; lia|lia].
    change (id_header_size 2) with 6 in H1. rewrite Hhdr in H1. injection H1 as ->.
    unfold delivered, l3_id, payload. rewrite Hfa. cbn [pk_id pk_length set_pk_id set_pk_length]. split; [done|]. exact H2.
  - destruct Hspec as [Hs' Hc']. eexists; split; [exact Hs'|]. split; [done|]. split; [done| | |].
    + rewrite <- Hfind. apply find_ext. intros a. by apply belongs_upd.
    + eauto.
    + eexists; split; [by apply upd_pkt_lookup|]. simpl. rewrite length_app, Nat2Z.inj_add. by split_and!.
Qed.

(** The interface state a new packet meets. *)
Definition can_ready s l : Prop :=
  can_inv s i l ∧ no_adjacent (expired s (c_now s)) l ∧ fq_items (c_free s) ≠ [] ∧
  (∃ f, c_ifaces s !! i = Some f ∧ if_addr f = addr).

Section OnePacket.
Context (base : Z).
Hypothesis base_mod : base mod 32 = 0.
Hypothesis base_range : 0 ≤ base < 536870912.

Lemma land_base : Z.land base CFP2_ID_CONN_MASK = base.
Proof.
  destruct (cfp2_id_fields base 0 false false base_mod base_range) as [H _].
  unfold cfp2_low in H. simpl in H. by rewrite Z.add_0_r in H.
Qed.

Lemma belongs_base s fc bg en a :
  belongs s (base + cfp2_low fc bg en) CFP2_ID_CONN_MASK a = belongs s base CFP2_ID_CONN_MASK a.
Proof.
  destruct (cfp2_id_fields base fc bg en base_mod base_range) as [H _]. unfold belongs. by rewrite H, land_base.
Qed.

Lemma can_rx_begin s l en data :
  can_ready s l → bytes_ok data → 4 ≤ Z.of_nat (List.length data) →
  let id := base + cfp2_low 0 true en in
  ∃ b s1 l1, csp_can_rx i id data isr s = can2_rx_store i id (drop 4 data) b isr s1 ∧ c_qfifo s1 = c_qfifo s ∧
    assembling s1 i l1 b base 1 (be_bytes 2 (u16 (Z.shiftr id CFP2_DST_OFFSET)) ++ take 4 data) addr.
Proof.
  intros (Hc & Hadj & Hfree & f & Hf & Hfa) Hdata Hlen id.
  destruct (cfp2_id_fields base 0 true en base_mod base_range) as (Hmask & Hbg & _). fold id in Hmask, Hbg.
  assert (List.length (be_bytes 2 (u16 (Z.shiftr id CFP2_DST_OFFSET)) ++ take 4 data) = 6%nat) as Hl6
    by (rewrite length_app, length_be_bytes, length_take; lia).
  unfold csp_can_rx. run (eq_refl : gets c_version s = Some (c_version s, s)). rewrite (ci_version _ _ _ _ Hc).
  rewrite bool_decide_false by done. unfold csp_can2_rx.
  pose proof (csp_can_pbuf_find_spec i s l id CFP2_ID_CONN_MASK Hc) as Hfind.
  destruct (List.find _ l) as [b|] eqn:Hfirst.
  - destruct Hfind as (Hin & k & Hk & Hfind & Hc1). run Hfind. set (s1 := upd_pkt s b k _) in *.
    run (eq_refl : (mret (inr b) : C (Z + nat)) s1 = Some (inr b, s1)). rewrite Hbg.
    destruct (ci_pbufs _ _ _ _ Hc b Hin) as (k' & Hk' & Hr & _); [done|]. rewrite Hk in Hk'. injection Hk' as <-.
    pose proof (upd_pkt_lookup s b k (set_last_used (c_now s) (skbf_data k)) Hk) as Hk1. fold s1 in Hk1.
    destruct (can2_rx_begin_spec i isr None s1 l b _ id data Hc1 Hin (or_introl eq_refl) Hk1 Hr Hdata Hlen)
      as (s2 & k2 & Heq & Hc2 & Hk2 & Hq2 & Hother & Hif & Hfl & Hrx & Hcf & Hrd).
    exists b, s2, l. split; [done|]. split; [done|]. split; [done| | |].
    + rewrite <- Hfirst. apply find_ext. intros a. subst id. rewrite belongs_base. unfold belongs.
      destruct (decide (a = b)) as [->|Hne]; [by rewrite Hk2, Hk, Hcf|].
      rewrite Hother by done. subst s1. by rewrite upd_pkt_lookup_ne.
    + destruct (Hif f Hf) as (f' & ? & ?). exists f'. split; [done|congruence].
    + exists k2. rewrite Hl6. by split_and!.
  - run Hfind. rewrite Hbg.
    destruct (csp_can_pbuf_new_spec i isr s l id Hc Hadj) as (r & s1 & l1 & Hnew & Hv1 & Hq1 & Hi1 & Hr).
    destruct r as [b|]; [|by destruct Hr]. destruct Hr as (Hc1 & k & Hk & Hrk & Hcf).
    erewrite ST_bind_run; [|run Hnew; done]. cbv beta iota.
    destruct (can2_rx_begin_spec i isr (Some b) s1 (b :: l1) b k id data Hc1) as
      (s2 & k2 & Heq & Hc2 & Hk2 & Hq2 & Hother & Hif & Hfl & Hrx & Hcf2 & Hrd); [by left|by right|done..|].
    exists b, s2, (b :: l1). split; [done|]. split; [congruence|]. split; [done| | |].
    + simpl. unfold belongs. rewrite Hk2, Hcf2, Hcf, Hmask, land_base. by rewrite bool_decide_true.
    + rewrite Hi1 in Hif. destruct (Hif f Hf) as (f' & ? & ?). exists f'. split; [done|congruence].
    + exists k2. rewrite Hl6. by split_and!.
Qed.

Lemma can_rx_fragment s l b fc fr en data :
  assembling s i l b base (fc mod 8) fr addr →
  let id := base + cfp2_low fc false en in
  ∃ s1, csp_can_rx i id data isr s = can2_rx_store i id data b isr s1 ∧ c_qfifo s1 = c_qfifo s ∧
    assembling s1 i l b base ((fc + 1) mod 8) fr addr.
Proof.
  intros [Hc Hfirst (f & Hf & Hfa) (k & Hk & Hfl & Hread & Hrx)] id.
  destruct (cfp2_id_fields base fc false en base_mod base_range) as (Hmask & Hbg & _ & Hfc). fold id in Hmask, Hbg, Hfc.
  unfold csp_can_rx. run (eq_refl : gets c_version s = Some (c_version s, s)). rewrite (ci_version _ _ _ _ Hc).
  rewrite bool_decide_false by done. unfold csp_can2_rx.
  pose proof (csp_can_pbuf_find_spec i s l id CFP2_ID_CONN_MASK Hc) as Hfind.
  rewrite (find_ext _ (belongs s base CFP2_ID_CONN_MASK)), Hfirst in Hfind by apply belongs_base.
  destruct Hfind as (Hin & k' & Hk' & Hfind & Hc1). rewrite Hk in Hk'. injection Hk' as <-.
  run Hfind. set (s1 := upd_pkt s b k _) in *.
  run (eq_refl : (mret (inr b) : C (Z + nat)) s1 = Some (inr b, s1)). rewrite Hbg.
  pose proof (upd_pkt_lookup s b k (set_last_used (c_now s) (skbf_data k)) Hk) as Hk1. fold s1 in Hk1.
  set (k1 := mk_skbf _ _ _) in Hk1.
  unfold can2_rx_fragment. run (get_packet_run s1 b _ Hk1). rewrite bool_decide_false by (rewrite Hfc; simpl; congruence).
  set (p := set_rx_count _ _). run (put_packet_run s1 b _ p Hk1).
  destruct (ci_pbufs _ _ _ _ Hc1 b Hin) as (k2 & Hk1' & Hr1 & Hf1 & Hl1); [done|].
  rewrite Hk1 in Hk1'. injection Hk1' as <-.
  destruct (bi_pool s1 (ci_buf _ _ _ _ Hc1) _ _ Hk1) as (_ & Hok1 & _).
  assert (rx_count p = (fc + 1) mod 8) as Hrxp.
  { change (Z.land (rx_count (skbf_data k) + 1) (2 ^ 3 - 1) = (fc + 1) mod 8). rewrite land_mask, Hrx by lia.
    change (2 ^ 3) with 8. by rewrite Z.add_mod_idemp_l. }
  exists (upd_pkt s1 b k1 p). split; [done|]. split; [done|]. split.
  - eapply can_put; [exact Hc1|exact Hk1|done| |done|done|exact Hl1|by left].
    destruct Hok1. split; try assumption. change (is_u16 (rx_count p)). rewrite Hrxp. mlia.
  - rewrite <- Hfirst. apply find_ext. intros a. rewrite (belongs_upd s1) by done. subst s1. by rewrite (belongs_upd s).
  - eauto.
  - eexists; split; [by apply upd_pkt_lookup|]. by split_and!.
Qed.

Lemma can_feed_frames fuel : ∀ s l b fc fr rest,
  assembling s i l b base (fc mod 8) fr addr → bytes_ok rest → rest ≠ [] → (List.length rest < fuel)%nat →
  Z.of_nat (List.length (fr ++ rest)) ≤ CSP_BUFFER_SIZE + 6 → (6 ≤ List.length fr)%nat →
  (List.length (fq_items (c_qfifo s)) < fq_cap (c_qfifo s))%nat →
  ∃ s', can_feed i (cfp2_frames fuel base fc rest) isr s = Some ((), s') ∧
    arrived s s' i (l3_id addr (id_parse 2 (take 6 fr))) (drop 6 (fr ++ rest)).
Proof.
  induction fuel as [|fuel IH]; intros s l b fc fr rest Has Hok Hne Hfuel Hlen Hsix Hroom; [lia|].
  cbn [cfp2_frames]. destruct rest as [|x rest]; [done|]. set (r := x :: rest) in *. cbn [can_feed].
  set (en := bool_decide (List.length r ≤ 8)%nat).
  destruct (can_rx_fragment s l b fc fr en (take 8 r) Has) as (s1 & Heq & Hq1 & Has1). cbv zeta in Heq.
  destruct (cfp2_id_fields base fc false en base_mod base_range) as (_ & _ & Hend & _). cbv zeta in Hend.
  rewrite length_app in Hlen.
  pose proof (assembling_store s1 l b base ((fc + 1) mod 8) fr (base + cfp2_low fc false en) (take 8 r) Has1) as Hst.
  rewrite Hend in Hst. destruct en eqn:Hen; subst en.
  - apply bool_decide_eq_true in Hen. rewrite take_ge in Hst, Heq by lia.
    destruct Hst as (s2 & Hs2 & (b2 & k2 & Harr & Hrest)); [done|rewrite length_app; lia|by rewrite Hq1|rewrite length_app; lia|].
    rewrite take_ge by lia. rewrite Hs2 in Heq. run Heq. rewrite drop_ge by lia. exists s2.
    split; [by destruct fuel|]. exists b2, k2. rewrite <- Hq1. split; [done|].
    rewrite take_app_le in Hrest by lia. done.
  - apply bool_decide_eq_false in Hen.
    destruct Hst as (s2 & Hs2 & Hq2 & Has2); [by apply Forall_take|rewrite length_app, length_take; lia|].
    rewrite Hs2 in Heq. run Heq.
    destruct (IH s2 l b (fc + 1) (fr ++ take 8 r) (drop 8 r)) as (s3 & Hs3 & (b3 & k3 & Harr & Hrest)).
    { done. } { by apply Forall_drop. }
    { intros Hnil%length_zero_iff_nil. rewrite length_drop in Hnil. lia. }
    { rewrite length_drop. lia. } { rewrite <- app_assoc, take_drop, length_app. lia. }
    { rewrite length_app. lia. } { by rewrite Hq2, Hq1. }
    exists s3. split; [done|]. exists b3, k3. rewrite <- Hq1, <- Hq2. split; [done|].
    rewrite <- app_assoc, take_drop in Hrest. rewrite take_app_le in Hrest by lia. done.
Qed.

Lemma can_feed_packet s l x pay :
  can_ready s l → bytes_ok pay → Z.of_nat (List.length pay) ≤ CSP_BUFFER_SIZE →
  (List.length (fq_items (c_qfifo s)) < fq_cap (c_qfifo s))%nat →
  be_bytes 2 (u16 (base / 8192)) ++ be_bytes 4 (cfp2_header_extension x) = id_header 2 x → id_fits 2 x →
  ∃ s', can_feed i (cfp2_packet_frames base x pay) isr s = Some ((), s') ∧ arrived s s' i (l3_id addr x) pay.
Proof.
  intros Hready Hpay Hlen Hroom Hhdr Hfit. unfold cfp2_packet_frames. cbn [can_feed].
  set (ext := be_bytes 4 (cfp2_header_extension x)) in *. assert (List.length ext = 4%nat) as Hel by apply length_be_bytes.
  set (en := bool_decide (List.length pay ≤ 4)%nat).
  destruct (can_rx_begin s l en (ext ++ take 4 pay) Hready) as (b & s1 & l1 & Heq & Hq1 & Has1).
  { apply Forall_app. split; [apply be_bytes_ok|by apply Forall_take]. }
  { rewrite length_app. lia. }
  rewrite drop_app_le, (drop_ge ext), app_nil_l in Heq by lia.
  rewrite take_app_le, (take_ge ext) in Has1 by lia.
  replace (u16 (Z.shiftr (base + cfp2_low 0 true en) CFP2_DST_OFFSET)) with (u16 (base / 8192)) in Has1.
  2:{ f_equal. rewrite shiftr_div by done. change (2 ^ CFP2_DST_OFFSET) with 8192. unfold cfp2_low.
      destruct en; simpl Z.b2z; Z.to_euclidean_division_equations; lia. }
  rewrite Hhdr in Has1. pose proof (length_id_header 2 x) as Hhl. change (id_header_size 2) with 6 in Hhl.
  destruct (cfp2_id_fields base 0 true en base_mod base_range) as (_ & _ & Hend & _). cbv zeta in Hend.
  pose proof (assembling_store s1 l1 b base 1 (id_header 2 x) (base + cfp2_low 0 true en) (take 4 pay) Has1) as Hst.
  rewrite Hend in Hst. specialize (Hst ltac:(by apply Forall_take)).
  assert (∀ ys, take 6 (id_header 2 x ++ ys) = id_header 2 x ∧ drop 6 (id_header 2 x ++ ys) = ys) as Hsplit.
  { intros ys. rewrite take_app_le, take_ge, drop_app_le, drop_ge by lia. done. }
  destruct en eqn:Hen; subst en.
  - apply bool_decide_eq_true in Hen. rewrite (take_ge pay) in * by lia.
    destruct Hst as (s2 & Hs2 & (b2 & k2 & Harr & Hrest)); [rewrite length_app; lia|by rewrite Hq1|rewrite length_app; lia|].
    rewrite Hs2 in Heq. run Heq. rewrite drop_ge by lia. exists s2. split; [done|]. exists b2, k2.
    rewrite <- Hq1. split; [done|]. destruct (Hsplit pay) as [Ht Hd]. rewrite Ht, Hd, id_parse_header in Hrest by done. done.
  - apply bool_decide_eq_false in Hen.
    destruct Hst as (s2 & Hs2 & Hq2 & Has2); [rewrite length_app, length_take; lia|].
    rewrite Hs2 in Heq. run Heq.
    destruct (can_feed_frames (S (List.length pay)) s2 l1 b 1 (id_header 2 x ++ take 4 pay) (drop 4 pay))
      as (s3 & Hs3 & (b3 & k3 & Harr & Hrest)).
    { done. } { by apply Forall_drop. }
    { intros Hnil%length_zero_iff_nil. rewrite length_drop in Hnil. lia. }
    { rewrite length_drop. lia. } { rewrite <- app_assoc, take_drop, length_app. lia. }
    { rewrite length_app. lia. } { by rewrite Hq2, Hq1. }
    exists s3. split; [done|]. exists b3, k3. rewrite <- Hq1, <- Hq2. split; [done|].
    rewrite <- app_assoc, take_drop in Hrest. destruct (Hsplit (take 4 pay)) as [Ht _]. destruct (Hsplit pay) as [_ Hd].
    rewrite Ht, Hd, id_parse_header in Hrest by done. done.
Qed.
End OnePacket.
End CanReceiver.

(** The two parts of the header put together again. *)
Lemma cfp2_header_split x addr sc :
  id_fits 2 x →
  be_bytes 2 (u16 (cfp2_base x addr sc / 8192)) ++ be_bytes 4 (cfp2_header_extension x) = id_header 2 x.
Proof.
  intros Hf. change (id2_fits x) in Hf. change (id_header 2 x) with (id2_header x).
  rewrite id2_header_be by done. change 6%nat with (2 + 4)%nat. rewrite be_bytes_add.
  rewrite (cfp2_base_sum x), (cfp2_header_extension_sum x Hf), (id2_pack_sum x) by done.
  change (256 ^ Z.of_nat 4) with 4294967296. unfold id2_fits in Hf. f_equal.
  - f_equal. rewrite !(Z.mod_small _ _) by lia. mlia.
  - apply be_val_inj; [by rewrite !length_be_bytes|apply be_bytes_ok..|]. rewrite !be_val_be_bytes.
    change (256 ^ Z.of_nat 4) with 4294967296. Z.to_euclidean_division_equations; lia.
Qed.

(** C6: a packet sent over CAN (CFP 2) arrives.  With a driver that accepts every
    frame, transmission of a packet of up to 2048 bytes to another node succeeds,
    and the frames it emits, fed in order to any receiving interface that has a
    buffer and a queue slot, put a packet with the same identifier and payload on
    its router's input queue (a broadcast destination becomes the receiver's own
    address). *)
Theorem csp_can2_roundtrip `{drv : CanDriver} (s1 : csp_core) (i1 b : nat) (via : Z) (from_me : bool)
    (k : csp_skbf_t) (f : csp_iface_t) (d : csp_can_interface_data_t) :
  (∀ can_id data w, can_tx_func i1 can_id data w = CSP_ERR_NONE) →
  buf_inv s1 → c_pool s1 !! b = Some k → c_ifaces s1 !! i1 = Some f → c_can s1 !! i1 = Some d →
  id_fits 2 (pk_id (skbf_data k)) → dst (pk_id (skbf_data k)) ≠ if_addr f →
  pk_length (skbf_data k) ≤ CSP_BUFFER_SIZE →
  ∃ s1' w pay, csp_can2_tx i1 via b from_me s1 = Some (CSP_ERR_NONE, s1') ∧ c_wire s1' = c_wire s1 ++ w ∧
  payload (skbf_data k) = Some pay ∧
  ∀ s2 i2 isr addr l, is_u16 addr → can_ready i2 addr s2 l →
    (List.length (fq_items (c_qfifo s2)) < fq_cap (c_qfifo s2))%nat →
    ∃ s2', can_feed i2 (wire_frames i1 w) isr s2 = Some ((), s2') ∧
      arrived s2 s2' i2 (l3_id addr (pk_id (skbf_data k))) pay.
Proof.
  intros Hdrv Hb Hk Hf Hd Hfit Hdst Hlen.
  destruct (csp_can2_tx_spec i1 Hdrv s1 b k f d via from_me Hb Hk Hf Hd Hdst Hlen) as (pay & s1' & Hpay & Htx & Hw).
  eexists s1', _, pay. split_and!; [exact Htx|exact Hw|done|].
  intros s2 i2 isr addr l Haddr Hready Hroom. rewrite wire_frames_can.
  destruct (bi_pool s1 Hb _ _ Hk) as (_ & Hok & _).
  assert (Z.of_nat (List.length pay) = pk_length (skbf_data k)) as Hpl by (by eapply mem_read_length).
  set (base := cfp2_base _ _ _). assert (base mod 32 = 0 ∧ 0 ≤ base < 536870912) as [Hb1 Hb2].
  { subst base. rewrite cfp2_base_sum. Z.to_euclidean_division_equations; lia. }
  eapply can_feed_packet; [done|done|done|exact Hready| |lia|done|by apply cfp2_header_split|done].
  eapply data_read_bytes_ok; [exact Hok|exact Hpay].
Qed.

(** A driver that accepts every frame. *)
#[local] Instance can_driver_ok : CanDriver := λ _ _ _ _, CSP_ERR_NONE.

Lemma link_example_can p : packet_ok p → can_ready 5 21 (link_example p) [].
Proof.
  intros Hp. split_and!; try done; [|by eexists].
  split; [by apply link_example_inv|done|by eexists| |].
  - split; [by eexists|apply NoDup_nil_2|]. by intros a ?%not_elem_of_nil.
  - by intros a ?%not_elem_of_nil.
Qed.

Lemma csp_can2_roundtrip_witness :
  ∃ s1' w pay, csp_can2_tx 5 0 0 true (link_example id_example) = Some (CSP_ERR_NONE, s1') ∧
  payload id_example = Some pay ∧
  ∃ s2', can_feed 5 (wire_frames 5 w) false (link_example empty_packet) = Some ((), s2') ∧
    arrived (link_example empty_packet) s2' 5 (l3_id 21 (pk_id id_example)) pay.
Proof.
  destruct (csp_can2_roundtrip (link_example id_example) 5 0 0 true (mk_skbf 1 0 id_example)
    (new_iface 21 8 "LINK" NexthopNone 1) (mk_can 0 None)) as (s1' & w & pay & Htx & _ & Hpay & Hrx).
  - reflexivity.
  - apply link_example_inv, id_example_ok.
  - reflexivity.
  - reflexivity.
  - reflexivity.
  - vm_compute. intuition congruence.
  - vm_compute. congruence.
  - vm_compute. congruence.
  - exists s1', w, pay. split; [exact Htx|]. split; [exact Hpay|].
    apply (Hrx (link_example empty_packet) 5%nat false 21 []);
      [by vm_compute|apply link_example_can, empty_packet_ok|vm_compute; lia].
Defined.

Lemma csp_can2_rx_memory_safe_witness :
  ∃ rc s' l', csp_can_rx 5 2 [1; 2; 3; 4; 5] false (link_example empty_packet) = Some (rc, s') ∧ can_inv s' 5 l'.
Proof.
  destruct (csp_can2_rx_memory_safe (link_example empty_packet) 5 [] false) as [Hsafe _].
  - apply link_example_can, empty_packet_ok.
  - apply Hsafe.
    + intros f. intros [= <-]. by vm_compute.
    + apply (bool_decide_unpack _). vm_compute. done.
    + done.
Defined.

(** ** The reach of CFP 1 *)

(** A packet of [n] bytes from node 3 to node 9. *)
Definition cfp1_packet (n : Z) : csp_packet_t :=
  set_pk_id (mk_id 2 0 3 9 10 11) (set_pk_length n empty_packet).

(** Send it with header version 1, feed the frames to a receiver, and return the
    code of the transmission and the lengths of the packets delivered. *)
Definition cfp1_delivers (n : Z) : option (Z * list Z) :=
  '(rc, s1) ← csp_can1_tx 5 CSP_NO_VIA_ADDRESS 0 true (set_c_version 1 (link_example (cfp1_packet n)));
  '(_, s2) ← can_feed 5 (wire_frames 5 (c_wire s1)) false (set_c_version 1 (link_example empty_packet));
  Some (rc, omap (λ x, b ← x.1; k ← c_pool s2 !! b; Some (pk_length (skbf_data k))) (fq_items (c_qfifo s2))).

(** The eight-bit count of remaining frames limits a CFP 1 packet to 2042
    bytes: longer packets, which the 2048-byte buffers allow, are transmitted
    without an error but the receiver discards them, because the count in the
    first frame has wrapped to zero. *)
Theorem csp_can1_loses_long_packets :
  cfp1_delivers 2042 = Some (CSP_ERR_NONE, [2042]) ∧
  Forall (λ n, cfp1_delivers n = Some (CSP_ERR_NONE, [])) [2043; 2044; 2045; 2046; 2047; 2048].
Proof. split; [by vm_compute|]. repeat constructor; by vm_compute. Qed.
