(* ===== verification/Nexthop.v ===== *)
(** * The transmit interface

    What the network layer relies on when it calls through [iface->nexthop], as a
    contract that the loopback ([src/interfaces/csp_if_lo.c]), KISS and CAN transmit
    functions are shown to meet. *)

From S2P Require Import Prelude Queue Types State Id Crc32 Buffer Qfifo Iflist Kiss Can.

(** [csp_lo_tx]: back into the router's queue. *)
Definition csp_lo_tx (iface : nat) (via : Z) (packet : nat) (from_me : bool) : C Z :=
  csp_qfifo_write (Some packet) (Some csp_if_lo) false;; mret CSP_ERR_NONE.

(** [( *iface->nexthop)(iface, via, packet, from_me)] *)
Definition nexthop `{CanDriver} (iface : nat) (via : Z) (packet : nat) (from_me : bool) : C Z :=
  f ← get_iface iface;
  match if_nexthop f with
  | NexthopKiss => csp_kiss_tx iface via packet from_me
  | NexthopCan1 => csp_can1_tx iface via packet from_me
  | NexthopCan2 => csp_can2_tx iface via packet from_me
  | NexthopLo => csp_lo_tx iface via packet from_me
  | NexthopNone => ub
  end.

(** ** What stays the same *)

(** The fields of an interface that are not counters. *)
Definition same_config (f f' : csp_iface_t) : Prop :=
  if_addr f' = if_addr f ∧ if_netmask f' = if_netmask f ∧ if_name f' = if_name f ∧
  if_nexthop f' = if_nexthop f ∧ if_is_default f' = if_is_default f ∧ if_next f' = if_next f.

(** The same interfaces in the same order. *)
Definition ifaces_kept (s s' : csp_core) : Prop :=
  c_interfaces s' = c_interfaces s ∧
  ∀ i f, c_ifaces s !! i = Some f → ∃ f', c_ifaces s' !! i = Some f' ∧ same_config f f'.

#[export] Instance same_config_preorder : PreOrder same_config.
Proof. split; [by intros f|]. unfold same_config. intros f g h ? ?. intuition congruence. Qed.

#[export] Instance ifaces_kept_preorder : PreOrder ifaces_kept.
Proof.
  split.
  - intros s. split; [done|]. intros i f Hf. by exists f.
  - intros s1 s2 s3 [H1 H2] [H3 H4]. split; [congruence|]. intros i f Hf.
    destruct (H2 i f Hf) as (g & Hg & ?). destruct (H4 i g Hg) as (h & Hh & ?).
    exists h. split; [done|]. by transitivity g.
Qed.

Lemma ifaces_same s s' : c_interfaces s' = c_interfaces s → c_ifaces s' = c_ifaces s → ifaces_kept s s'.
Proof. intros H1 H2. split; [done|]. intros i f Hf. rewrite H2. by exists f. Qed.

(** [s'] is [s] after work on the packet of buffer [b] alone. *)
Record link_step (b : nat) (s s' : csp_core) : Prop := {
  ls_inv : buf_inv s';
  ls_others : ∀ x, x ≠ b → c_pool s' !! x = c_pool s !! x;
  ls_length : List.length (c_pool s') = List.length (c_pool s);
  ls_version : c_version s' = c_version s;
  ls_now : c_now s' = c_now s;
  ls_ifaces : ifaces_kept s s';
  ls_can : ∀ i, is_Some (c_can s !! i) → is_Some (c_can s' !! i);
}.

(** Buffer [b] has one owner. *)
Definition owned (s : csp_core) (b : nat) : Prop := ∃ k, c_pool s !! b = Some k ∧ refcount k = 1.

(** The state is one a transmit function can work in: [b] is the caller's and its
    length fits. *)
Definition tx_ready (s : csp_core) (i b : nat) : Prop :=
  buf_inv s ∧ is_Some (c_ifaces s !! i) ∧ is_Some (c_ifaces s !! csp_if_lo) ∧
  ∃ k, c_pool s !! b = Some k ∧ refcount k = 1 ∧ pk_length (skbf_data k) ≤ CSP_BUFFER_SIZE.

(** What becomes of the packet: it is released or handed to the router on success,
    and still the caller's on failure. *)
Definition tx_fate (b : nat) (rc : Z) (s s' : csp_core) : Prop :=
  if bool_decide (rc = CSP_ERR_NONE) then
    (¬ allocated s' b ∧ c_qfifo s' = c_qfifo s) ∨
    (owned s' b ∧ ∃ i, c_qfifo s' = mk_fifo (fq_cap (c_qfifo s)) (fq_items (c_qfifo s) ++ [(Some b, Some i)]))
  else owned s' b ∧ c_qfifo s' = c_qfifo s.

(** The contract of a transmit function on interfaces that are [ready]. *)
Class Transmit (ready : csp_core → nat → Prop) (tx : nat → Z → nat → bool → C Z) : Prop :=
  transmit_ok : ∀ s i via b fm, tx_ready s i b → ready s i →
    ∃ rc s', tx i via b fm s = Some (rc, s') ∧ link_step b s s' ∧ tx_fate b rc s s'.

(** ** Building blocks *)

Section Blocks.
Implicit Types (s : csp_core) (b i : nat).

Lemma iface_add_kept s i st n s' : iface_add i st n s = Some ((), s') → ifaces_kept s s'.
Proof.
  unfold iface_add, get_iface. st_unfold. destruct (c_ifaces s !! i) as [f|] eqn:Hf; [|done].
  intros [= <-]. split; [done|]. intros j g Hg. simpl. destruct (decide (i = j)) as [<-|].
  - rewrite lookup_insert_eq. exists (if_add st n f). split; [done|]. assert (g = f) as -> by congruence. done.
  - rewrite lookup_insert_ne by done. by exists g.
Qed.

(** A change outside the pool, the configuration and the interfaces. *)
Lemma link_step_other b s s' :
  buf_inv s → c_pool s' = c_pool s → c_free s' = c_free s → c_version s' = c_version s →
  c_now s' = c_now s → ifaces_kept s s' → (∀ i, is_Some (c_can s !! i) → is_Some (c_can s' !! i)) →
  link_step b s s'.
Proof. intros Hi Hp Hf Hv Hn Hk Hc. split; try done; rewrite ?Hp; try done. by apply (buf_inv_ext s). Qed.

Lemma link_step_refl b s : buf_inv s → link_step b s s.
Proof. intros. by apply link_step_other. Qed.

Lemma link_step_trans b s1 s2 s3 : link_step b s1 s2 → link_step b s2 s3 → link_step b s1 s3.
Proof.
  intros [? Ho1 Hl1 Hv1 Hn1 Hk1 Hc1] [? Ho2 Hl2 Hv2 Hn2 Hk2 Hc2]. split; try done; try congruence.
  - intros x Hx. rewrite Ho2, Ho1; done.
  - by transitivity s2.
  - auto.
Qed.

Lemma link_step_put b s k p :
  buf_inv s → c_pool s !! b = Some k → packet_ok p → link_step b s (upd_pkt s b k p).
Proof.
  intros Hi Hk Hp. split; try done.
  - by apply buf_inv_put_packet.
  - intros x Hx. simpl. by rewrite list_lookup_insert_ne.
  - simpl. by rewrite length_insert.
  - by apply ifaces_same.
Qed.

(** Releasing the packet. *)
Lemma link_step_free b s k :
  buf_inv s → c_pool s !! b = Some k → refcount k = 1 →
  ∃ s', csp_buffer_free (Some b) s = Some ((), s') ∧ link_step b s s' ∧ ¬ allocated s' b ∧
    c_qfifo s' = c_qfifo s.
Proof.
  intros Hi Hk Hr. rewrite (csp_buffer_free_last s b k) by done. eexists. split; [done|].
  pose proof (lookup_lt_Some _ _ _ Hk) as Hlt. split; [split; try done|split; [|done]].
  - apply buf_inv_release; [done|done|lia].
  - intros x Hx. simpl. by rewrite list_lookup_insert_ne.
  - simpl. by rewrite length_insert.
  - by apply ifaces_same.
  - intros (k' & Hk' & Hr'). simpl in Hk'. rewrite list_lookup_insert_eq in Hk' by done.
    injection Hk' as <-. done.
Qed.

(** Handing the packet to the router. *)
Lemma qfifo_write_fate b s i k :
  buf_inv s → c_pool s !! b = Some k → refcount k = 1 → is_Some (c_ifaces s !! i) →
  ∃ s', csp_qfifo_write (Some b) (Some i) false s = Some ((), s') ∧ link_step b s s' ∧
    tx_fate b CSP_ERR_NONE s s'.
Proof.
  intros Hi Hk Hr [f Hf].
  destruct (decide (List.length (fq_items (c_qfifo s)) < fq_cap (c_qfifo s))%nat).
  - rewrite csp_qfifo_write_room by done. eexists. split; [done|]. split.
    + apply link_step_other; try done. by apply ifaces_same.
    + right. split; [by exists k|]. by exists i.
  - rewrite (csp_qfifo_write_full _ _ _ _ f) by (done || lia).
    set (s1 := set_c_ifaces _ _).
    assert (link_step b s s1) as H1.
    { apply link_step_other; try done. split; [done|]. intros j g Hg. simpl.
      destruct (decide (i = j)) as [<-|]; [|rewrite lookup_insert_ne by done; by exists g].
      rewrite lookup_insert_eq. exists (if_add StDrop 1 f). split; [done|]. by assert (g = f) as -> by congruence. }
    destruct (link_step_free b s1 k (ls_inv _ _ _ H1) Hk Hr) as (s' & Hs' & Hls & Hna & Hq).
    exists s'. split; [done|]. split; [by eapply link_step_trans|]. left. split; [done|]. by rewrite Hq.
Qed.
End Blocks.

(** ** The loopback interface and KISS *)

#[export] Instance csp_lo_tx_transmit : Transmit (λ _ _, True) csp_lo_tx.
Proof.
  intros s i via b fm (Hi & _ & Hlo & k & Hk & Hr & _) _.
  destruct (qfifo_write_fate b s csp_if_lo k Hi Hk Hr Hlo) as (s' & Hw & Hls & Hf).
  exists CSP_ERR_NONE, s'. unfold csp_lo_tx. run Hw. done.
Qed.

Lemma csp_crc32_append_total p :
  packet_ok p → pk_length p ≤ CSP_BUFFER_SIZE →
  ∃ rc p', csp_crc32_append p = Some (rc, p') ∧ packet_ok p' ∧ pk_length p' ≤ CSP_BUFFER_SIZE ∧
    pk_id p' = pk_id p.
Proof.
  intros Hp Hl. destruct (decide (pk_length p + 4 ≤ CSP_BUFFER_SIZE)) as [Hf|Hf].
  - destruct (csp_crc32_append_spec p Hp Hf) as (pay & p' & _ & Ha & Hp' & Hl' & Hid & _).
    exists CSP_ERR_NONE, p'. split_and!; try done. lia.
  - exists CSP_ERR_NOMEM, p. unfold csp_crc32_append. rewrite bool_decide_true by lia. done.
Qed.

(** The header in front of a packet that fits. *)
Lemma csp_id_prepend_total v p :
  packet_ok p → pk_length p ≤ CSP_BUFFER_SIZE →
  ∃ p', csp_id_prepend v p = Some p' ∧ packet_ok p' ∧ pk_length p' = pk_length p ∧ pk_id p' = pk_id p ∧
    is_Some (frame_read p' 0 (frame_length p')) ∧ is_Some (frame_read p' 0 4).
Proof.
  intros Hp Hl. pose proof (id_header_size_range v) as Hs. pose proof (po_length _ Hp).
  destruct (csp_id_prepend_spec v p Hp) as (p' & Hpre & Hp' & Hf & Hfl & Hl' & Hid & _).
  exists p'. split_and!; try done; apply (frame_read_is_Some v); try done; try (sizes; lia).
  rewrite Hfl, u16_id by (sizes; mlia). mlia.
Qed.

Lemma kiss_tx_bytes_wire i bs : ∀ s, ∃ w, kiss_tx_bytes i bs s = Some ((), set_c_wire w s).
Proof.
  induction bs as [|x bs IH]; intros s; cbn [kiss_tx_bytes].
  - exists (c_wire s). by destruct s.
  - unfold kiss_tx_func. erewrite ST_bind_run; [|done]. destruct (IH (set_c_wire (c_wire s ++ [WireBytes i (kiss_escape x)]) s)) as [w Hw].
    exists w. rewrite Hw. done.
Qed.

#[export] Instance csp_kiss_tx_transmit : Transmit (λ _ _, True) csp_kiss_tx.
Proof.
  intros s i via b fm (Hi & _ & _ & k & Hk & Hr & Hl) _.
  destruct (bi_pool s Hi _ _ Hk) as (_ & Hok & _).
  destruct (csp_crc32_append_total _ Hok Hl) as (rc & p1 & Ha & Hp1 & Hl1 & _).
  destruct (csp_id_prepend_total (c_version s) p1 Hp1 Hl1) as (p2 & Hpre & Hp2 & _ & _ & [fr Hfr] & _).
  unfold csp_kiss_tx.
  run (eq_refl : gets c_version s = Some (c_version s, s)). run (get_packet_run s b k Hk).
  run (lift_opt_run _ _ s Ha). run (lift_opt_run _ _ s Hpre). run (put_packet_run s b k p2 Hk).
  pose proof (link_step_put b s k p2 Hi Hk Hp2) as H1. set (s1 := upd_pkt s b k p2) in *.
  erewrite ST_bind_run; [|done]. cbv beta iota.
  erewrite ST_bind_run; [|exact (lift_opt_run _ _ _ Hfr)]. cbv beta iota.
  match goal with |- context [kiss_tx_bytes i fr ≫= _] =>
    edestruct (kiss_tx_bytes_wire i fr) as [w Hw] end.
  run Hw. erewrite ST_bind_run; [|done]. cbv beta iota. set (s2 := set_c_wire _ _).
  assert (link_step b s1 s2) as H2.
  { apply link_step_other; try done; [apply H1|by apply ifaces_same]. }
  destruct (link_step_free b s2 (mk_skbf (refcount k) (skbf_addr k) p2)) as (s3 & Hs3 & H3 & Hna & Hq);
    [apply H2|simpl; apply list_lookup_insert_eq; by eapply lookup_lt_Some|done|].
  run Hs3. exists CSP_ERR_NONE, s3. split; [done|]. split.
  - eapply link_step_trans; [done|]. by eapply link_step_trans.
  - left. split; [done|]. by rewrite Hq.
Qed.

(** ** CAN *)

Section CanTransmit.
Context `{CanDriver}.
Implicit Types (s : csp_core) (i b : nat).

Definition can_ready s i : Prop := is_Some (c_can s !! i).

(** A call of the driver only adds to the wire. *)
Lemma can_send_wire i id d s : ∃ rc w, can_send i id d s = Some (rc, set_c_wire w s).
Proof.
  unfold can_send. erewrite ST_bind_run; [|done]. cbv beta iota zeta.
  destruct (decide (can_tx_func i id d (c_wire s) = CSP_ERR_NONE)) as [He|He].
  - rewrite bool_decide_true by done. eexists _, _. done.
  - rewrite bool_decide_false by done. exists (can_tx_func i id d (c_wire s)), (c_wire s). by destruct s.
Qed.

(** What a driver call leaves alone, as one relation. *)
Definition wire_step s s' : Prop :=
  c_pool s' = c_pool s ∧ c_free s' = c_free s ∧ c_qfifo s' = c_qfifo s ∧ c_version s' = c_version s ∧
  c_now s' = c_now s ∧ ifaces_kept s s' ∧ c_can s' = c_can s.

#[local] Instance wire_step_preorder : PreOrder wire_step.
Proof.
  split; [by intros s|]. intros s1 s2 s3 (?&?&?&?&?&?&?) (?&?&?&?&?&?&?).
  unfold wire_step. do 5 (split; [congruence|]). split; [by transitivity s2|congruence].
Qed.

Lemma wire_step_wire s w : wire_step s (set_c_wire w s).
Proof. unfold wire_step. do 5 (split; [done|]). split; [by apply ifaces_same|done]. Qed.

Lemma wire_step_error s i :
  is_Some (c_ifaces s !! i) → ∃ s', iface_add i StTxError 1 s = Some ((), s') ∧ wire_step s s'.
Proof.
  intros [f Hf]. rewrite (iface_add_run s i _ _ f Hf). eexists. split; [done|].
  unfold wire_step. do 5 (split; [done|]). split; [|done]. split; [done|].
  intros j g Hg. cbn [c_ifaces set_c_ifaces]. destruct (decide (i = j)) as [<-|].
  - rewrite lookup_insert_eq. eexists. split; [done|]. by assert (g = f) as -> by congruence.
  - rewrite lookup_insert_ne by done. by exists g.
Qed.

Lemma wire_step_iface s s' i : wire_step s s' → is_Some (c_ifaces s !! i) → is_Some (c_ifaces s' !! i).
Proof. intros (_ & _ & _ & _ & _ & [_ Hk] & _) [f Hf]. destruct (Hk i f Hf) as (f' & Hf' & _). by exists f'. Qed.

(** One frame and the error path: every frame of both transmit loops is sent this
    way. *)
Lemma send_frame i id d (next : C Z) s :
  is_Some (c_ifaces s !! i) →
  (∀ s1, wire_step s s1 → ∃ rc s', next s1 = Some (rc, s') ∧ wire_step s1 s') →
  ∃ rc s', (rc ← can_send i id d;
            if bool_decide (rc ≠ CSP_ERR_NONE) then iface_add i StTxError 1;; mret CSP_ERR_DRIVER
            else next) s = Some (rc, s') ∧ wire_step s s'.
Proof.
  intros Hf Hnext. destruct (can_send_wire i id d s) as (rc & w & Hs). run Hs.
  pose proof (wire_step_wire s w) as H1. case_bool_decide.
  - destruct (wire_step_error (set_c_wire w s) i) as (s2 & Hs2 & H2); [by eapply wire_step_iface|].
    run Hs2. exists CSP_ERR_DRIVER, s2. split; [done|]. by transitivity (set_c_wire w s).
  - destruct (Hnext _ H1) as (rc' & s' & Hs' & H2). exists rc', s'. split; [done|].
    by transitivity (set_c_wire w s).
Qed.

Lemma can2_tx_more_total p i addr sc : ∀ fuel fc tx s,
  packet_ok p → pk_length p ≤ CSP_BUFFER_SIZE → is_Some (c_ifaces s !! i) →
  0 ≤ tx → (Z.to_nat (pk_length p - tx) < fuel)%nat →
  ∃ rc s', can2_tx_more fuel i p addr sc fc tx s = Some (rc, s') ∧ wire_step s s'.
Proof.
  induction fuel as [|fuel IH]; intros fc tx s Hp Hl Hf Htx Hfuel; [lia|].
  cbn [can2_tx_more]. case_bool_decide as Hlt; [|exists CSP_ERR_NONE, s; by split].
  set (n := if bool_decide (CAN_FRAME_SIZE ≤ pk_length p - tx) then CAN_FRAME_SIZE else pk_length p - tx).
  assert (1 ≤ n ≤ pk_length p - tx) as Hn.
  { subst n. unfold CAN_FRAME_SIZE. case_bool_decide; lia. }
  destruct (data_read_is_Some p tx n) as [d Hd]; [done|lia..|].
  run (lift_opt_run _ _ s Hd). apply send_frame; [done|]. intros s1 H1.
  apply IH; try done; [by eapply wire_step_iface|lia|lia].
Qed.

Lemma can1_tx_more_total p i dest ident : ∀ fuel tx s,
  packet_ok p → pk_length p ≤ CSP_BUFFER_SIZE → is_Some (c_ifaces s !! i) →
  0 ≤ tx → (Z.to_nat (pk_length p - tx) < fuel)%nat →
  ∃ rc s', can1_tx_more fuel i p dest ident tx s = Some (rc, s') ∧ wire_step s s'.
Proof.
  induction fuel as [|fuel IH]; intros tx s Hp Hl Hf Htx Hfuel; [lia|].
  cbn [can1_tx_more]. case_bool_decide as Hlt; [|exists CSP_ERR_NONE, s; by split].
  set (n := if bool_decide (CAN_FRAME_SIZE ≤ pk_length p - tx) then CAN_FRAME_SIZE else pk_length p - tx).
  assert (1 ≤ n ≤ pk_length p - tx) as Hn.
  { subst n. unfold CAN_FRAME_SIZE. case_bool_decide; lia. }
  destruct (data_read_is_Some p tx n) as [d Hd]; [done|lia..|].
  run (lift_opt_run _ _ s Hd). apply send_frame; [done|]. intros s1 H1.
  rewrite (u16_id (tx + n)) by (sizes; mlia).
  apply IH; try done; [by eapply wire_step_iface|lia|lia].
Qed.

Lemma wire_step_link b s s' : buf_inv s → wire_step s s' → link_step b s s'.
Proof. intros Hi (?&?&?&?&?&?&Hc). apply link_step_other; try done. by rewrite Hc. Qed.

(** Both transmit functions from the first frame on: the frames go out and the packet
    is released, or the driver fails and the packet stays the caller's. *)
Lemma can_tx_end b i id d s s1 (more : C Z) k :
  link_step b s s1 → c_qfifo s1 = c_qfifo s → c_pool s1 !! b = Some k → refcount k = 1 →
  is_Some (c_ifaces s1 !! i) →
  (∀ s2, wire_step s1 s2 → ∃ rc s3, more s2 = Some (rc, s3) ∧ wire_step s2 s3) →
  ∃ rc s', (rc ← can_send i id d;
            if bool_decide (rc ≠ CSP_ERR_NONE) then iface_add i StTxError 1;; mret CSP_ERR_DRIVER
            else rc ← more;
                 if bool_decide (rc ≠ CSP_ERR_NONE) then mret rc
                 else csp_buffer_free (Some b);; mret CSP_ERR_NONE) s1 = Some (rc, s') ∧
    link_step b s s' ∧ tx_fate b rc s s'.
Proof.
  intros Hls Hq Hk Hr Hf Hmore.
  assert (∀ s2 rc, wire_step s1 s2 → rc ≠ CSP_ERR_NONE → link_step b s s2 ∧ tx_fate b rc s s2) as Hfail.
  { intros s2 rc Hw Hrc. split.
    - eapply link_step_trans; [done|]. apply wire_step_link; [apply Hls|done].
    - unfold tx_fate. rewrite bool_decide_false by done. destruct Hw as (Hp & _ & Hq2 & _).
      split; [exists k; by rewrite Hp|congruence]. }
  destruct (can_send_wire i id d s1) as (rc & w & Hs). run Hs.
  pose proof (wire_step_wire s1 w) as H1. case_bool_decide as Hrc.
  - destruct (wire_step_error (set_c_wire w s1) i) as (s2 & Hs2 & H2); [by eapply wire_step_iface|].
    run Hs2. exists CSP_ERR_DRIVER, s2. split; [done|]. apply Hfail; [|done].
    by transitivity (set_c_wire w s1).
  - destruct (Hmore _ H1) as (rc2 & s2 & Hs2 & H2). run Hs2.
    assert (wire_step s1 s2) as H12 by (by transitivity (set_c_wire w s1)).
    case_bool_decide as Hrc2; [exists rc2, s2; auto|].
    assert (link_step b s s2) as H02
      by (eapply link_step_trans; [done|]; apply wire_step_link; [apply Hls|done]).
    destruct H12 as (Hp & _ & Hq2 & _).
    destruct (link_step_free b s2 k) as (s3 & Hs3 & H3 & Hna & Hq3);
      [apply H02|by rewrite Hp|done|].
    run Hs3. exists CSP_ERR_NONE, s3. split; [done|]. split; [by eapply link_step_trans|].
    left. split; [done|congruence].
Qed.

(** A packet for the interface's own address goes back to the router. *)
Lemma can_tx_own b s i k f (out : C Z) :
  tx_ready s i b → c_pool s !! b = Some k → c_ifaces s !! i = Some f →
  (dst (pk_id (skbf_data k)) ≠ if_addr f →
   ∃ rc s', out s = Some (rc, s') ∧ link_step b s s' ∧ tx_fate b rc s s') →
  ∃ rc s', (if bool_decide (dst (pk_id (skbf_data k)) = if_addr f) then
              csp_qfifo_write (Some b) (Some i) false;; mret CSP_ERR_NONE
            else out) s = Some (rc, s') ∧ link_step b s s' ∧ tx_fate b rc s s'.
Proof.
  intros (Hi & Hif & _ & k' & Hk' & Hr & _) Hk Hf Hout. assert (k' = k) as -> by congruence.
  case_bool_decide; [|auto].
  destruct (qfifo_write_fate b s i k Hi Hk Hr Hif) as (s' & Hw & Hls & Hfate).
  run Hw. by exists CSP_ERR_NONE, s'.
Qed.

(** The counter of transmitted packets. *)
Lemma link_step_counter b s i d :
  buf_inv s → link_step b s (set_c_can (<[i := d]> (c_can s)) s).
Proof.
  intros Hi. apply link_step_other; try done; [by apply ifaces_same|].
  intros j Hj. cbn [c_can set_c_can]. rewrite lookup_insert_is_Some'. by right.
Qed.

#[export] Instance csp_can2_tx_transmit : Transmit can_ready csp_can2_tx.
Proof.
  intros s i via b fm Hrdy [d Hd]. pose proof Hrdy as (Hi & [f Hf] & _ & k & Hk & Hr & Hl).
  destruct (bi_pool s Hi _ _ Hk) as (_ & Hok & _). pose proof (po_length _ Hok) as Hlp.
  unfold csp_can2_tx. run (get_packet_run s b k Hk).
  run (lift_opt_run (c_ifaces s !! i) f s Hf : get_iface i s = Some (f, s)).
  apply (can_tx_own b s i k f); [done..|]. intros Hdst.
  run (lift_opt_run (c_can s !! i) d s Hd : get_can i s = Some (d, s)).
  erewrite ST_bind_run; [|done]. cbv beta iota zeta. set (p := skbf_data k) in *.
  pose proof (link_step_counter b s i (mk_can (u32 (cfp_packet_counter d + 1)) (pbufs d)) Hi) as H1.
  set (s1 := set_c_can _ s) in *.
  set (n := if bool_decide (4 ≤ pk_length p) then 4 else pk_length p).
  assert (0 ≤ n ≤ pk_length p) as Hn by (subst n; case_bool_decide; mlia).
  destruct (data_read_is_Some p 0 n) as [bs Hbs]; [done|lia..|].
  run (lift_opt_run _ _ s1 Hbs).
  assert (is_Some (c_ifaces s1 !! i)) as Hf1 by by exists f.
  eapply can_tx_end; [exact H1|done|exact Hk|done|done|].
  intros s2 H2. apply can2_tx_more_total; try done; try lia. by eapply wire_step_iface.
Qed.

#[export] Instance csp_can1_tx_transmit : Transmit can_ready csp_can1_tx.
Proof.
  intros s i via b fm Hrdy [d Hd]. pose proof Hrdy as (Hi & [f Hf] & _ & k & Hk & Hr & Hl).
  destruct (bi_pool s Hi _ _ Hk) as (_ & Hok & _). pose proof (po_length _ Hok) as Hlp.
  unfold csp_can1_tx. run (get_packet_run s b k Hk).
  run (lift_opt_run (c_ifaces s !! i) f s Hf : get_iface i s = Some (f, s)).
  apply (can_tx_own b s i k f); [done..|]. intros Hdst.
  run (lift_opt_run (c_can s !! i) d s Hd : get_can i s = Some (d, s)).
  erewrite ST_bind_run; [|done]. cbv beta iota zeta.
  pose proof (link_step_counter b s i (mk_can (u32 (cfp_packet_counter d + 1)) (pbufs d)) Hi) as H1.
  set (s1 := set_c_can _ s) in *.
  run (eq_refl : gets c_version s1 = Some (c_version s1, s1)).
  destruct (csp_id_prepend_total (c_version s1) (skbf_data k) Hok Hl)
    as (p & Hpre & Hp & Hpl & Hpid & _ & [hdr Hhdr]).
  run (lift_opt_run _ _ s1 Hpre). run (put_packet_run s1 b k p Hk).
  pose proof (link_step_put b s1 k p (ls_inv _ _ _ H1) Hk Hp) as H2. set (s2 := upd_pkt s1 b k p) in *.
  run (lift_opt_run _ _ s2 Hhdr). pose proof (po_length _ Hp).
  set (n := if bool_decide (pk_length p ≤ 2) then pk_length p else 2).
  assert (0 ≤ n ≤ pk_length p) as Hn by (subst n; case_bool_decide; mlia).
  destruct (data_read_is_Some p 0 n) as [bs Hbs]; [done|lia..|].
  run (lift_opt_run _ _ s2 Hbs).
  eapply can_tx_end;
    [by eapply link_step_trans|done|exact (upd_pkt_lookup s1 b k p Hk)|done|by exists f|].
  intros s3 H3. apply can1_tx_more_total; try done; try lia. eapply wire_step_iface; [done|by exists f].
Qed.
End CanTransmit.

(** ** Dispatch *)

(** An interface with a transmit function whose private data exists. *)
Definition iface_ready (s : csp_core) (i : nat) : Prop :=
  ∃ f, c_ifaces s !! i = Some f ∧
    match if_nexthop f with
    | NexthopCan1 | NexthopCan2 => can_ready s i
    | NexthopKiss | NexthopLo => True
    | NexthopNone => False
    end.

#[export] Instance nexthop_transmit `{CanDriver} : Transmit iface_ready nexthop.
Proof.
  intros s i via b fm Hrdy (f & Hf & Hready). unfold nexthop.
  run (lift_opt_run (c_ifaces s !! i) f s Hf : get_iface i s = Some (f, s)).
  destruct (if_nexthop f); [..|done]; by apply transmit_ok.
Qed.

Lemma iface_ready_step b s s' i : link_step b s s' → iface_ready s i → iface_ready s' i.
Proof.
  intros Hls (f & Hf & Hr). destruct (ls_ifaces _ _ _ Hls) as [_ Hk].
  destruct (Hk i f Hf) as (f' & Hf' & Hc). exists f'. split; [done|].
  destruct Hc as (_ & _ & _ & -> & _). pose proof (ls_can _ _ _ Hls i). unfold can_ready in *.
  destruct (if_nexthop f); auto.
Qed.
