(* ===== verification/Sha1.v ===== *)
(** * SHA-1

    [src/crypto/csp_sha1.c]: the streaming hash state, its operations, and their
    equivalence with the block definition of FIPS 180-4. *)

From S2P Require Import Prelude.

Definition CSP_SHA1_BLOCKSIZE : Z := 64.
Definition CSP_SHA1_DIGESTSIZE : Z := 20.

(** ** The code *)

(** [ROL]; the shift to the left loses the bits above the 32nd. *)
Definition ROL (x y : Z) : Z := Z.lor (u32 (Z.shiftl x y)) (Z.shiftr x (32 - y)).

Definition STORE32H (x : Z) : list Z :=
  [u8 (Z.land (Z.shiftr x 24) 255); u8 (Z.land (Z.shiftr x 16) 255);
   u8 (Z.land (Z.shiftr x 8) 255); u8 (Z.land (Z.shiftr x 0) 255)].

Definition LOAD32H (y : list Z) (off : nat) : Z :=
  let b k := Z.land (y !!! (off + k)%nat) 255 in
  Z.lor (Z.lor (Z.lor (Z.shiftl (b 0%nat) 24) (Z.shiftl (b 1%nat) 16)) (Z.shiftl (b 2%nat) 8))
    (Z.shiftl (b 3%nat) 0).

Definition STORE64H (x : Z) : list Z :=
  [u8 (Z.land (Z.shiftr x 56) 255); u8 (Z.land (Z.shiftr x 48) 255);
   u8 (Z.land (Z.shiftr x 40) 255); u8 (Z.land (Z.shiftr x 32) 255);
   u8 (Z.land (Z.shiftr x 24) 255); u8 (Z.land (Z.shiftr x 16) 255);
   u8 (Z.land (Z.shiftr x 8) 255); u8 (Z.land (Z.shiftr x 0) 255)].

Definition F0 (x y z : Z) : Z := Z.lxor z (Z.land x (Z.lxor y z)).
Definition F1 (x y z : Z) : Z := Z.lxor (Z.lxor x y) z.
Definition F2 (x y z : Z) : Z := Z.lor (Z.land x y) (Z.land z (Z.lor x y)).
Definition F3 (x y z : Z) : Z := Z.lxor (Z.lxor x y) z.

(** The macros [FF_0] .. [FF_3] differ in the function and the constant; they
    assign to their second and fifth argument. *)
Definition FF (F : Z → Z → Z → Z) (K : Z) (W : list Z) (a b c d e : Z) (i : nat) : Z * Z :=
  (ROL b 30, u32 (ROL a 5 + F b c d + e + W !!! i + K)).

Definition regs : Type := Z * Z * Z * Z * Z.

(** One iteration of a round's loop: five [FF]s with the variables rotated. *)
Definition FF_group F K (W : list Z) (r : regs) (i : nat) : regs :=
  let '(a, b, c, d, e) := r in
  let '(b, e) := FF F K W a b c d e i in
  let '(a, d) := FF F K W e a b c d (i + 1) in
  let '(e, c) := FF F K W d e a b c (i + 2) in
  let '(d, b) := FF F K W c d e a b (i + 3) in
  let '(c, a) := FF F K W b c d e a (i + 4) in
  (a, b, c, d, e).

(** [for (; i < limit;)]: four groups from index [i]. *)
Definition sha1_round F K (W : list Z) (i : nat) (r : regs) : regs :=
  foldl (FF_group F K W) r [i; (i + 5)%nat; (i + 10)%nat; (i + 15)%nat].

(** [for (i = 16; i < 80; i++) W[i] = ...]; [i] is the length of [W]. *)
Fixpoint sha1_expand (n : nat) (W : list Z) : list Z :=
  match n with
  | O => W
  | S n' =>
      let i := length W in
      sha1_expand n' (W ++ [ROL (Z.lxor (Z.lxor (Z.lxor (W !!! (i - 3)%nat) (W !!! (i - 8)%nat))
                                   (W !!! (i - 14)%nat)) (W !!! (i - 16)%nat)) 1])
  end.

(** [csp_sha1_compress], as a function of [sha1->state] and the block. *)
Definition csp_sha1_compress (state : regs) (blk : list Z) : regs :=
  let W := sha1_expand 64 ((λ i, LOAD32H blk (4 * i)) <$> seq 0 16) in
  let r := sha1_round F0 0x5a827999 W 0 state in
  let r := sha1_round F1 0x6ed9eba1 W 20 r in
  let r := sha1_round F2 0x8f1bbcdc W 40 r in
  let r := sha1_round F3 0xca62c1d6 W 60 r in
  let '(s0, s1, s2, s3, s4) := state in
  let '(a, b, c, d, e) := r in
  (u32 (s0 + a), u32 (s1 + b), u32 (s2 + c), u32 (s3 + d), u32 (s4 + e)).

(** [csp_sha1_state_t] *)
Record csp_sha1_state_t := mk_sha1 {
  sha_length : Z;
  sha_state : regs;
  sha_curlen : Z;
  sha_buf : list Z;
}.

Definition csp_sha1_init (sha1 : csp_sha1_state_t) : csp_sha1_state_t :=
  mk_sha1 0 (0x67452301, 0xefcdab89, 0x98badcfe, 0x10325476, 0xc3d2e1f0) 0 (sha_buf sha1).

(** One iteration of the loop of [csp_sha1_process]: the state and what is left
    of the input. *)
Definition sha1_process_step (sha1 : csp_sha1_state_t) (input : list Z)
    : option (csp_sha1_state_t * list Z) :=
  let inlen := Z.of_nat (length input) in
  if bool_decide (sha_curlen sha1 = 0) && bool_decide (CSP_SHA1_BLOCKSIZE ≤ inlen) then
    Some (mk_sha1 (u64 (sha_length sha1 + CSP_SHA1_BLOCKSIZE * 8))
            (csp_sha1_compress (sha_state sha1) (take (Z.to_nat CSP_SHA1_BLOCKSIZE) input))
            (sha_curlen sha1) (sha_buf sha1),
          drop (Z.to_nat CSP_SHA1_BLOCKSIZE) input)
  else
    let n := Z.min inlen (u32 (CSP_SHA1_BLOCKSIZE - sha_curlen sha1)) in
    buf ← mem_write (sha_buf sha1) (sha_curlen sha1) (take (Z.to_nat n) input);
    let curlen := u32 (sha_curlen sha1 + n) in
    let rest := drop (Z.to_nat n) input in
    if bool_decide (curlen = CSP_SHA1_BLOCKSIZE) then
      Some (mk_sha1 (u64 (sha_length sha1 + CSP_SHA1_BLOCKSIZE * 8))
              (csp_sha1_compress (sha_state sha1) buf) 0 buf, rest)
    else Some (mk_sha1 (sha_length sha1) (sha_state sha1) curlen buf, rest).

(** [while (inlen > 0)]; [None] also when the loop has not ended after [fuel]
    iterations. *)
Fixpoint sha1_process_loop (fuel : nat) (sha1 : csp_sha1_state_t) (input : list Z)
    : option csp_sha1_state_t :=
  match input, fuel with
  | [], _ => Some sha1
  | _, O => None
  | _, S fuel' =>
      '(sha1', rest) ← sha1_process_step sha1 input; sha1_process_loop fuel' sha1' rest
  end.

Definition csp_sha1_process (sha1 : csp_sha1_state_t) (data : list Z) : option csp_sha1_state_t :=
  sha1_process_loop (length data) sha1 data.

(** [sha1->buf[sha1->curlen++] = v] *)
Definition sha1_push (v : Z) (sha1 : csp_sha1_state_t) : option csp_sha1_state_t :=
  buf ← mem_write (sha_buf sha1) (sha_curlen sha1) [v];
  Some (mk_sha1 (sha_length sha1) (sha_state sha1) (u32 (sha_curlen sha1 + 1)) buf).

(** [while (sha1->curlen < limit) sha1->buf[sha1->curlen++] = 0] *)
Fixpoint sha1_zeros (fuel : nat) (limit : Z) (sha1 : csp_sha1_state_t) : option csp_sha1_state_t :=
  if bool_decide (sha_curlen sha1 < limit) then
    match fuel with
    | O => None
    | S fuel' => sha1_push 0 sha1 ≫= sha1_zeros fuel' limit
    end
  else Some sha1.

Definition sha1_flush (sha1 : csp_sha1_state_t) : csp_sha1_state_t :=
  mk_sha1 (sha_length sha1) (csp_sha1_compress (sha_state sha1) (sha_buf sha1)) 0 (sha_buf sha1).

(** The end of [csp_sha1_done]: zeros up to the length field, the length, and the
    digest. *)
Definition sha1_last (sha1 : csp_sha1_state_t) : option (list Z) :=
  sha1 ← sha1_zeros 64 56 sha1;
  buf ← mem_write (sha_buf sha1) 56 (STORE64H (sha_length sha1));
  let '(a, b, c, d, e) := csp_sha1_compress (sha_state sha1) buf in
  Some (STORE32H a ++ STORE32H b ++ STORE32H c ++ STORE32H d ++ STORE32H e).

(** [csp_sha1_done]: the digest. *)
Definition csp_sha1_done (sha1 : csp_sha1_state_t) : option (list Z) :=
  let sha1 := mk_sha1 (u64 (sha_length sha1 + u32 (sha_curlen sha1 * 8))) (sha_state sha1)
                (sha_curlen sha1) (sha_buf sha1) in
  sha1 ← sha1_push 0x80 sha1;
  sha1 ← (if bool_decide (56 < sha_curlen sha1)
          then sha1_flush <$> sha1_zeros 64 64 sha1 else Some sha1);
  sha1_last sha1.

(** [csp_sha1_memory]; [md] is what the uninitialised local variable holds. *)
Definition csp_sha1_memory (md : csp_sha1_state_t) (msg : list Z) : option (list Z) :=
  md ← csp_sha1_process (csp_sha1_init md) msg;
  csp_sha1_done md.

(** ** FIPS 180-4 *)

Definition fips_f (t : nat) (x y z : Z) : Z :=
  if bool_decide (t < 20)%nat then Z.lxor (Z.land x y) (Z.land (Z.lnot x) z)
  else if bool_decide (t < 40)%nat then Z.lxor (Z.lxor x y) z
  else if bool_decide (t < 60)%nat then
    Z.lxor (Z.lxor (Z.land x y) (Z.land x z)) (Z.land y z)
  else Z.lxor (Z.lxor x y) z.

Definition fips_K (t : nat) : Z :=
  if bool_decide (t < 20)%nat then 0x5a827999 else if bool_decide (t < 40)%nat then 0x6ed9eba1
  else if bool_decide (t < 60)%nat then 0x8f1bbcdc else 0xca62c1d6.

(** The message schedule, as a window of sixteen words that slides along. *)
Fixpoint fips_schedule (n : nat) (win : list Z) : list Z :=
  match n with
  | O => win
  | S n' =>
      let w := ROL (Z.lxor (Z.lxor (Z.lxor (win !!! 13%nat) (win !!! 8%nat)) (win !!! 2%nat))
                      (win !!! 0%nat)) 1 in
      win !!! 0%nat :: fips_schedule n' (drop 1 win ++ [w])
  end.

Definition fips_step (W : list Z) (r : regs) (t : nat) : regs :=
  let '(a, b, c, d, e) := r in
  (u32 (ROL a 5 + fips_f t b c d + e + W !!! t + fips_K t), a, ROL b 30, c, d).

Definition fips_words (blk : list Z) : list Z :=
  (λ i, be_val (take 4 (drop (4 * i) blk))) <$> seq 0 16.

Definition fips_block (H : regs) (blk : list Z) : regs :=
  let '(h0, h1, h2, h3, h4) := H in
  let '(a, b, c, d, e) := foldl (fips_step (fips_schedule 64 (fips_words blk))) H (seq 0 80) in
  (u32 (h0 + a), u32 (h1 + b), u32 (h2 + c), u32 (h3 + d), u32 (h4 + e)).

Definition fips_H0 : regs := (0x67452301, 0xefcdab89, 0x98badcfe, 0x10325476, 0xc3d2e1f0).

(** A one bit, the least number of zeros, and the length in bits. *)
Definition fips_pad (msg : list Z) : list Z :=
  let l := Z.of_nat (length msg) in
  msg ++ [0x80] ++ replicate (Z.to_nat ((55 - l) mod 64)) 0 ++ be_bytes 8 (8 * l).

Fixpoint blocks (n : nat) (l : list Z) : list (list Z) :=
  match n with O => [] | S n' => take 64 l :: blocks n' (drop 64 l) end.

Definition fips_sha1 (msg : list Z) : list Z :=
  let m := fips_pad msg in
  let '(a, b, c, d, e) := foldl fips_block fips_H0 (blocks (length m / 64) m) in
  be_bytes 4 a ++ be_bytes 4 b ++ be_bytes 4 c ++ be_bytes 4 d ++ be_bytes 4 e.

(** ** The compression function *)

Lemma F0_is_Ch x y z : F0 x y z = Z.lxor (Z.land x y) (Z.land (Z.lnot x) z).
Proof.
  apply Z.bits_inj'; intros i Hi. unfold F0.
  rewrite !Z.lxor_spec, !Z.land_spec, !Z.lxor_spec, Z.lnot_spec by done.
  by destruct (Z.testbit x i), (Z.testbit y i), (Z.testbit z i).
Qed.

Lemma F2_is_Maj x y z :
  F2 x y z = Z.lxor (Z.lxor (Z.land x y) (Z.land x z)) (Z.land y z).
Proof.
  apply Z.bits_inj'; intros i Hi. unfold F2.
  rewrite !Z.lxor_spec, !Z.lor_spec, !Z.land_spec, !Z.lor_spec.
  by destruct (Z.testbit x i), (Z.testbit y i), (Z.testbit z i).
Qed.

Lemma FF_group_steps F K W r i :
  (∀ t x y z, (i ≤ t < i + 5)%nat → fips_f t x y z = F x y z) →
  (∀ t, (i ≤ t < i + 5)%nat → fips_K t = K) →
  foldl (fips_step W) r (seq i 5) = FF_group F K W r i.
Proof.
  intros HF HK. destruct r as [[[[a b] c] d] e]. unfold FF_group, FF. cbn [seq foldl fips_step].
  replace (i + 1)%nat with (S i) by lia. replace (i + 2)%nat with (S (S i)) by lia.
  replace (i + 3)%nat with (S (S (S i))) by lia. replace (i + 4)%nat with (S (S (S (S i)))) by lia.
  unfold fips_step. rewrite !HF, !HK by lia. done.
Qed.

Lemma sha1_round_steps F K W r i :
  (∀ t x y z, (i ≤ t < i + 20)%nat → fips_f t x y z = F x y z) →
  (∀ t, (i ≤ t < i + 20)%nat → fips_K t = K) →
  foldl (fips_step W) r (seq i 20) = sha1_round F K W i r.
Proof.
  intros HF HK.
  change 20%nat with (5 + (5 + (5 + 5)))%nat. rewrite !seq_app, !foldl_app.
  unfold sha1_round. cbn [foldl].
  replace (i + 10)%nat with (i + 5 + 5)%nat by lia.
  replace (i + 15)%nat with (i + 5 + 5 + 5)%nat by lia.
  rewrite <- !FF_group_steps; [done|..]; intros; (apply HF || apply HK); lia.
Qed.

Ltac fips_range :=
  intros; unfold fips_f, fips_K; repeat case_bool_decide; try lia;
  rewrite ?F0_is_Ch, ?F2_is_Maj; reflexivity.

Lemma sha1_expand_schedule n pre win :
  length win = 16%nat → sha1_expand n (pre ++ win) = pre ++ fips_schedule n win.
Proof.
  revert pre win. induction n as [|n IH]; intros pre win Hw; [done|].
  cbn [sha1_expand fips_schedule]. rewrite length_app, Hw.
  do 16 (destruct win as [|? win]; [done|]). destruct win; [|done].
  rewrite !lookup_total_app_r by lia.
  replace (length pre + 16 - 3 - length pre)%nat with 13%nat by lia.
  replace (length pre + 16 - 8 - length pre)%nat with 8%nat by lia.
  replace (length pre + 16 - 14 - length pre)%nat with 2%nat by lia.
  replace (length pre + 16 - 16 - length pre)%nat with 0%nat by lia.
  match goal with |- sha1_expand n ((pre ++ ?w0 :: ?rest) ++ [?w]) = _ =>
    replace ((pre ++ w0 :: rest) ++ [w]) with ((pre ++ [w0]) ++ (rest ++ [w])) by
      (rewrite <- !app_assoc; done) end.
  rewrite IH by done. rewrite <- app_assoc. done.
Qed.

Lemma be_val_four b0 b1 b2 b3 :
  bytes_ok [b0; b1; b2; b3] →
  Z.lor (Z.lor (Z.lor (Z.shiftl (Z.land b0 255) 24) (Z.shiftl (Z.land b1 255) 16))
     (Z.shiftl (Z.land b2 255) 8)) (Z.shiftl (Z.land b3 255) 0) = be_val [b0; b1; b2; b3].
Proof.
  unfold bytes_ok. rewrite !Forall_cons. intros (H0 & H1 & H2 & H3 & _).
  change 255 with (2 ^ 8 - 1). rewrite !land_mask, !shiftl_mul by lia.
  rewrite !Z.mod_small by mlia.
  change (2 ^ 24) with 16777216; change (2 ^ 16) with 65536; change (2 ^ 8) with 256;
    change (2 ^ 0) with 1.
  rewrite (lor_add 24 (b0 * _)), (lor_add 16 (b0 * _ + _)), (lor_add 8 (b0 * _ + _ + _)) by
    (rewrite ?Z.pow_pos_fold; change (2 ^ 24) with 16777216; change (2 ^ 16) with 65536;
     change (2 ^ 8) with 256; mlia).
  unfold be_val; simpl. lia.
Qed.

Lemma LOAD32H_be blk i :
  bytes_ok blk → length blk = 64%nat → (i < 16)%nat →
  LOAD32H blk (4 * i) = be_val (take 4 (drop (4 * i) blk)).
Proof.
  intros Hok Hl Hi. unfold LOAD32H. rewrite <- !lookup_total_drop.
  assert (bytes_ok (drop (4 * i) blk)) as Hok' by by apply Forall_drop.
  assert (length (drop (4 * i) blk) = 64 - 4 * i)%nat as Hl' by by rewrite length_drop, Hl.
  destruct (drop (4 * i) blk) as [|b0 [|b1 [|b2 [|b3 l]]]]; simpl in Hl'; try lia.
  cbn [lookup_total list_lookup_total take]. apply be_val_four.
  unfold bytes_ok in *. rewrite !Forall_cons in Hok' |- *. rewrite Forall_nil. tauto.
Qed.

Lemma csp_sha1_compress_fips H blk :
  bytes_ok blk → length blk = 64%nat → csp_sha1_compress H blk = fips_block H blk.
Proof.
  intros Hok Hl. unfold csp_sha1_compress, fips_block.
  replace ((λ i, LOAD32H blk (4 * i)) <$> seq 0 16) with (fips_words blk).
  2:{ apply list_fmap_ext. intros k i [-> Hk]%lookup_seq. symmetry. apply LOAD32H_be; auto. }
  rewrite <- (app_nil_l (fips_words blk)), sha1_expand_schedule, !app_nil_l by done.
  set (W := fips_schedule 64 (fips_words blk)).
  change 80%nat with (20 + (20 + (20 + 20)))%nat. rewrite !seq_app, !foldl_app.
  cbn [Nat.add].
  rewrite (sha1_round_steps F0 0x5a827999 W H 0) by fips_range.
  rewrite (sha1_round_steps F1 0x6ed9eba1 W _ 20) by fips_range.
  rewrite (sha1_round_steps F2 0x8f1bbcdc W _ 40) by fips_range.
  rewrite (sha1_round_steps F3 0xca62c1d6 W _ 60) by fips_range.
  destruct H as [[[[h0 h1] h2] h3] h4]. done.
Qed.

(** ** The streaming state *)

(** [md] has absorbed [msg]: complete blocks are in the chaining value, the rest is
    at the start of the buffer. *)
Definition sha_absorbed (md : csp_sha1_state_t) (msg : list Z) : Prop :=
  ∃ (bs : list (list Z)) (part : list Z),
    msg = mjoin bs ++ part ∧ Forall (λ b, length b = 64%nat) bs ∧ (length part < 64)%nat ∧
    bytes_ok msg ∧ bytes_ok (sha_buf md) ∧ length (sha_buf md) = 64%nat ∧
    take (length part) (sha_buf md) = part ∧ sha_curlen md = Z.of_nat (length part) ∧
    sha_state md = foldl fips_block fips_H0 bs ∧
    sha_length md = u64 (512 * Z.of_nat (length bs)).

Lemma length_mjoin_blocks (bs : list (list Z)) :
  Forall (λ b, length b = 64%nat) bs → length (mjoin bs) = (64 * length bs)%nat.
Proof. induction 1 as [|b bs Hb _ IH]; [done|].
  change (mjoin (b :: bs)) with (b ++ mjoin bs). rewrite length_app, Hb, IH. simpl. lia.
Qed.

Lemma blocks_mjoin (bs : list (list Z)) :
  Forall (λ b, length b = 64%nat) bs → blocks (length bs) (mjoin bs) = bs.
Proof.
  induction 1 as [|b bs Hb _ IH]; [done|].
  change (mjoin (b :: bs)) with (b ++ mjoin bs). cbn [length blocks].
  by rewrite take_app_length', drop_app_length', IH by done.
Qed.

Lemma mjoin_snoc (bs : list (list Z)) b : mjoin (bs ++ [b]) = mjoin bs ++ b.
Proof.
  induction bs as [|x bs IH]; [by cbn; rewrite app_nil_r|].
  change (mjoin ((x :: bs) ++ [b])) with (x ++ mjoin (bs ++ [b])). by rewrite IH, app_assoc.
Qed.

Lemma sha_absorbed_init md :
  bytes_ok (sha_buf md) → length (sha_buf md) = 64%nat → sha_absorbed (csp_sha1_init md) [].
Proof. intros. exists [], []. cbn. split_and!; auto; first [lia|by constructor]. Qed.

(** Writing [bs] after a prefix [part] of the buffer extends the prefix. *)
Lemma mem_write_prefix (m part bs : list Z) :
  take (length part) m = part → (length part + length bs ≤ length m)%nat →
  ∃ m', mem_write m (Z.of_nat (length part)) bs = Some m' ∧ length m' = length m ∧
    take (length part + length bs) m' = part ++ bs ∧ (bytes_ok m → bytes_ok bs → bytes_ok m').
Proof.
  intros Hp Hl. destruct (mem_write_is_Some m (Z.of_nat (length part)) bs) as (m' & Hm' & Hlen);
    [lia|lia|].
  exists m'. split_and!; [done|done| |intros H1 H2; exact (mem_write_bytes_ok _ _ _ _ H1 H2 Hm')].
  apply mem_write_Some in Hm' as (_ & _ & ->). rewrite Nat2Z.id, Hp, app_assoc.
  rewrite take_app_length'; [done|by rewrite length_app].
Qed.

Lemma u64_add a b : u64 (u64 a + b) = u64 (a + b).
Proof. unfold u64, wrap. by rewrite Z.add_mod_idemp_l by done. Qed.

(** Every iteration consumes input and absorbs it. *)
Lemma sha1_process_step_spec md msg input :
  sha_absorbed md msg → bytes_ok input → input ≠ [] →
  ∃ md' used rest, sha1_process_step md input = Some (md', rest) ∧ input = used ++ rest ∧
    used ≠ [] ∧ sha_absorbed md' (msg ++ used).
Proof.
  intros (bs & part & -> & Hbs & Hpl & Hok & Hbok & Hbl & Htk & Hcur & Hst & Hlen) Hin Hne.
  assert (0 < length input)%nat as Hpos by (destruct input; [done|simpl; lia]).
  unfold sha1_process_step, CSP_SHA1_BLOCKSIZE. rewrite Hcur.
  destruct (bool_decide (Z.of_nat (length part) = 0) && bool_decide (64 ≤ Z.of_nat (length input)))
    eqn:Hb.
  - apply andb_true_iff in Hb as [Hb1%bool_decide_eq_true Hb2%bool_decide_eq_true].
    destruct part; [|done]. rewrite app_nil_r in *. change (Z.to_nat 64) with 64%nat.
    exists (mk_sha1 (u64 (sha_length md + 64 * 8)) (csp_sha1_compress (sha_state md) (take 64 input))
              0 (sha_buf md)), (take 64 input), (drop 64 input).
    assert (length (take 64 input) = 64%nat) as H64 by (rewrite length_take; lia).
    split_and!; [done|by rewrite take_drop|by intros Hz; rewrite Hz in H64|].
    exists (bs ++ [take 64 input]), []. cbn [sha_length sha_state sha_curlen sha_buf].
    rewrite mjoin_snoc, app_nil_r, foldl_app, <- Hst, length_app. cbn [foldl length].
    assert (bytes_ok (take 64 input)) by by apply Forall_take.
    split_and!; auto; try lia.
    + apply Forall_app; auto.
    + by apply Forall_app.
    + by apply csp_sha1_compress_fips.
    + rewrite Hlen, u64_add. f_equal. lia.
  - clear Hb. set (n := Z.to_nat (Z.min (Z.of_nat (length input)) (u32 (64 - Z.of_nat (length part))))).
    assert (n = Nat.min (length input) (64 - length part)) as Hn by (unfold n; mlia).
    assert (length (take n input) = n) as Hln by (rewrite length_take; lia).
    assert (bytes_ok (take n input)) by by apply Forall_take.
    destruct (mem_write_prefix (sha_buf md) part (take n input)) as (buf & Hw & Hl' & Hp' & Hok');
      [done|lia|].
    rewrite Hw. cbn [mbind option_bind]. rewrite Hln in Hp'.
    assert (u32 (Z.of_nat (length part) +
      Z.min (Z.of_nat (length input)) (u32 (64 - Z.of_nat (length part)))) =
      Z.of_nat (length part + n)) as -> by mlia.
    assert (take n input ≠ []) by (intros Hz; rewrite Hz in Hln; simpl in Hln; lia).
    case_bool_decide as Hfull.
    + exists (mk_sha1 (u64 (sha_length md + 64 * 8)) (csp_sha1_compress (sha_state md) buf) 0 buf),
        (take n input), (drop n input).
      split_and!; [done|by rewrite take_drop|done|].
      exists (bs ++ [buf]), []. cbn [sha_length sha_state sha_curlen sha_buf].
      rewrite take_ge in Hp' by lia. subst buf.
      rewrite mjoin_snoc, app_nil_r, foldl_app, <- Hst, (length_app bs), <- app_assoc. cbn [foldl length].
      split_and!; auto; try lia.
      * apply Forall_app; split; [done|]. constructor; [lia|constructor].
      * rewrite app_assoc. by apply Forall_app.
      * apply csp_sha1_compress_fips; [auto|by rewrite Hl'].
      * rewrite Hlen, u64_add. f_equal. lia.
    + exists (mk_sha1 (sha_length md) (sha_state md) (Z.of_nat (length part + n)) buf),
        (take n input), (drop n input).
      split_and!; [done|by rewrite take_drop|done|].
      exists bs, (part ++ take n input). cbn [sha_length sha_state sha_curlen sha_buf].
      rewrite length_app, Hln, <- app_assoc.
      split_and!; auto; try lia. rewrite app_assoc. by apply Forall_app.
Qed.

Lemma sha1_process_loop_spec fuel md msg input :
  sha_absorbed md msg → bytes_ok input → (length input ≤ fuel)%nat →
  ∃ md', sha1_process_loop fuel md input = Some md' ∧ sha_absorbed md' (msg ++ input).
Proof.
  revert md msg input. induction fuel as [|fuel IH]; intros md msg input Ha Hok Hf.
  - destruct input; [|simpl in Hf; lia]. exists md. by rewrite app_nil_r.
  - destruct (decide (input = [])) as [->|Hne]; [exists md; by rewrite app_nil_r|].
    destruct (sha1_process_step_spec md msg input) as (md' & used & rest & Hs & -> & Hu & Ha');
      [done..|].
    apply Forall_app in Hok as [_ Hr].
    destruct (IH md' (msg ++ used) rest) as (md2 & Hl & Ha2); [done|done| |].
    { rewrite length_app in Hf. destruct used; [done|simpl in Hf; lia]. }
    exists md2. rewrite <- app_assoc in Ha2. split; [|done].
    destruct (used ++ rest) as [|x xs] eqn:E; [destruct used; done|].
    cbn [sha1_process_loop]. rewrite Hs. cbn. exact Hl.
Qed.

Lemma csp_sha1_process_spec md msg data :
  sha_absorbed md msg → bytes_ok data →
  ∃ md', csp_sha1_process md data = Some md' ∧ sha_absorbed md' (msg ++ data).
Proof. intros. by apply sha1_process_loop_spec. Qed.

(** ** Padding and the digest *)

(** The buffer starts with [part], and [curlen] is its length. *)
Definition buffered (md : csp_sha1_state_t) (part : list Z) : Prop :=
  length (sha_buf md) = 64%nat ∧ bytes_ok (sha_buf md) ∧ take (length part) (sha_buf md) = part ∧
  sha_curlen md = Z.of_nat (length part).

Lemma sha1_push_spec md part v :
  buffered md part → (length part < 64)%nat → is_u8 v →
  ∃ md', sha1_push v md = Some md' ∧ buffered md' (part ++ [v]) ∧
    sha_state md' = sha_state md ∧ sha_length md' = sha_length md.
Proof.
  intros (Hl & Hok & Htk & Hcur) Hp Hv. unfold sha1_push. rewrite Hcur.
  destruct (mem_write_prefix (sha_buf md) part [v]) as (buf & -> & Hl' & Hp' & Hok'); [done|simpl; lia|].
  eexists. split; [done|]. split; [|done]. unfold buffered. cbn [sha_buf sha_curlen].
  rewrite length_app. split_and!; [lia|by apply Hok', Forall_singleton|done|simpl; mlia].
Qed.

Lemma sha1_zeros_spec fuel limit md part :
  buffered md part → (length part ≤ limit ≤ 64)%nat → (limit - length part ≤ fuel)%nat →
  ∃ md', sha1_zeros fuel (Z.of_nat limit) md = Some md' ∧
    buffered md' (part ++ replicate (limit - length part) 0) ∧
    sha_state md' = sha_state md ∧ sha_length md' = sha_length md.
Proof.
  revert md part. induction fuel as [|fuel IH]; intros md part Hb Hp Hf;
    pose proof Hb as (_ & _ & _ & Hcur); cbn [sha1_zeros]; rewrite Hcur.
  - rewrite bool_decide_false by lia. replace (limit - length part)%nat with 0%nat by lia.
    exists md. by rewrite app_nil_r.
  - case_bool_decide as Hlt.
    + destruct (sha1_push_spec md part 0) as (md1 & -> & Hb1 & Hs1 & Hl1); [done|lia|mlia|].
      cbn [mbind option_bind].
      destruct (IH md1 (part ++ [0])) as (md2 & -> & Hb2 & Hs2 & Hl2);
        [done|rewrite length_app; simpl; lia|rewrite length_app; simpl; lia|].
      exists md2. rewrite length_app in Hb2. cbn [length] in Hb2.
      replace (limit - length part)%nat with (S (limit - (length part + 1))) by lia.
      rewrite <- app_assoc in Hb2. split_and!; [done|exact Hb2|congruence|congruence].
    + replace (limit - length part)%nat with 0%nat by lia. exists md. by rewrite app_nil_r.
Qed.

Lemma buffered_full md part : buffered md part → length part = 64%nat → sha_buf md = part.
Proof. intros (Hl & _ & Htk & _) Hp. by rewrite <- Htk, take_ge by lia. Qed.

Lemma land_255_u8 z : u8 (Z.land z 255) = u8 z.
Proof. change 255 with (2 ^ 8 - 1). rewrite land_mask by lia. mlia. Qed.

Lemma STORE32H_be x : STORE32H x = be_bytes 4 x.
Proof. unfold STORE32H. by rewrite !land_255_u8. Qed.
Lemma STORE64H_be x : STORE64H x = be_bytes 8 x.
Proof. unfold STORE64H. by rewrite !land_255_u8. Qed.

Definition sha1_digest (r : regs) : list Z :=
  let '(a, b, c, d, e) := r in
  be_bytes 4 a ++ be_bytes 4 b ++ be_bytes 4 c ++ be_bytes 4 d ++ be_bytes 4 e.

(** The padded message ends in one or two blocks made of the unprocessed part. *)
Lemma fips_sha1_blocks bs part tail :
  Forall (λ b, length b = 64%nat) bs → (length part < 64)%nat →
  Forall (λ b, length b = 64%nat) tail →
  fips_pad (mjoin bs ++ part) = mjoin (bs ++ tail) →
  fips_sha1 (mjoin bs ++ part) = sha1_digest (foldl fips_block (foldl fips_block fips_H0 bs) tail).
Proof.
  intros Hbs Hp Ht Hpad. unfold fips_sha1. rewrite Hpad.
  assert (Forall (λ b : list Z, length b = 64%nat) (bs ++ tail)) as Hall by by apply Forall_app.
  rewrite length_mjoin_blocks, Nat.mul_comm, Nat.div_mul, blocks_mjoin by done.
  by rewrite foldl_app.
Qed.

Lemma sha1_last_spec md part :
  buffered md part → (length part ≤ 56)%nat →
  let blk := part ++ replicate (56 - length part) 0 ++ be_bytes 8 (sha_length md) in
  sha1_last md = Some (sha1_digest (fips_block (sha_state md) blk)) ∧ length blk = 64%nat.
Proof.
  intros Hb Hp. unfold sha1_last.
  destruct (sha1_zeros_spec 64 56 md part) as (md2 & Hz & Hb2 & Hs2 & Hl2); [done|lia|lia|].
  change (Z.of_nat 56) with 56 in Hz. rewrite Hz. cbn [mbind option_bind].
  rewrite app_assoc. set (P := part ++ replicate (56 - length part) 0) in *.
  assert (length P = 56%nat) as HP by (unfold P; rewrite length_app, length_replicate; lia).
  destruct Hb2 as (Hbl & Hbok & Htk & _).
  destruct (mem_write_prefix (sha_buf md2) P (STORE64H (sha_length md2)))
    as (buf & Hw & Hlb & Htb & Hokb); [done|rewrite HP, Hbl; done|].
  rewrite HP in Hw, Htb. change (Z.of_nat 56) with 56 in Hw. rewrite Hw. cbn [mbind option_bind].
  change (56 + length (STORE64H (sha_length md2)))%nat with 64%nat in Htb.
  rewrite STORE64H_be in Htb, Hokb. rewrite take_ge, Hl2 in Htb by lia.
  rewrite csp_sha1_compress_fips by (try lia; apply Hokb; auto using be_bytes_ok).
  rewrite <- Htb, Hs2. split; [|lia].
  destruct (fips_block _ buf) as [[[[a b] c] d] e]. unfold sha1_digest. by rewrite !STORE32H_be.
Qed.

Lemma csp_sha1_done_spec md msg :
  sha_absorbed md msg → csp_sha1_done md = Some (fips_sha1 msg).
Proof.
  intros (bs & part & -> & Hbs & Hpl & Hok & Hbok & Hbl & Htk & Hcur & Hst & Hlen).
  unfold csp_sha1_done. rewrite Hcur.
  set (len := u64 (sha_length md + u32 (Z.of_nat (length part) * 8))).
  set (l := Z.of_nat (length (mjoin bs ++ part))).
  assert (l = 64 * Z.of_nat (length bs) + Z.of_nat (length part)) as Hl
    by (unfold l; rewrite length_app, length_mjoin_blocks by done; lia).
  assert (be_bytes 8 len = be_bytes 8 (8 * l)) as Hlen'.
  { unfold len. rewrite Hlen, u64_add, be_bytes_u64. f_equal. mlia. }
  destruct (sha1_push_spec (mk_sha1 len (sha_state md) (Z.of_nat (length part)) (sha_buf md)) part 0x80)
    as (md1 & -> & Hb1 & Hs1 & Hl1); [done|done|mlia|].
  cbn [mbind option_bind sha_state sha_length] in *.
  assert (length (part ++ [0x80]) = S (length part)) as Hl80 by (rewrite length_app; simpl; lia).
  pose proof Hb1 as (_ & _ & _ & Hc1). rewrite Hc1, Hl80.
  destruct (decide (length part < 56)%nat) as [Hlt|Hge].
  - rewrite bool_decide_false by lia. cbn [mbind option_bind].
    destruct (sha1_last_spec md1 (part ++ [0x80])) as [-> H64]; [done|lia|].
    rewrite (fips_sha1_blocks bs part [(part ++ [0x80]) ++ replicate (56 - length (part ++ [0x80])) 0 ++
      be_bytes 8 (sha_length md1)]);
      [by rewrite Hs1, Hst|done|done|by constructor|].
    rewrite mjoin_snoc, Hl1, Hlen'. unfold fips_pad. rewrite <- !app_assoc. fold l.
    replace (Z.to_nat ((55 - l) mod 64)) with (56 - length (part ++ [0x80%Z]))%nat; [done|mlia].
  - rewrite bool_decide_true by lia.
    destruct (sha1_zeros_spec 64 64 md1 (part ++ [0x80])) as (md2 & Hz & Hb2 & Hs2 & Hl2);
      [done|lia|lia|]. change (Z.of_nat 64) with 64 in Hz. rewrite Hz.
    cbn [fmap option_fmap option_map mbind option_bind].
    set (Q := (part ++ [0x80]) ++ replicate (64 - length (part ++ [0x80])) 0) in *.
    assert (length Q = 64%nat) as HQ by (unfold Q; rewrite length_app, length_replicate; lia).
    pose proof (buffered_full _ _ Hb2 HQ) as HbQ. pose proof Hb2 as (Hbl2 & Hbok2 & _ & _).
    destruct (sha1_last_spec (sha1_flush md2) []) as [-> H64];
      [by unfold buffered, sha1_flush; cbn|simpl; lia|].
    cbn [sha1_flush sha_length sha_state app length Nat.sub] in *.
    rewrite csp_sha1_compress_fips by done.
    rewrite (fips_sha1_blocks bs part [Q; replicate 56 0 ++ be_bytes 8 (sha_length md2)]);
      [by rewrite HbQ, Hs2, Hs1, Hst|done|done|by repeat constructor|].
    change [Q; ?x] with ([Q] ++ [x]). rewrite app_assoc, !mjoin_snoc, Hl2, Hl1, Hlen'.
    unfold fips_pad, Q. rewrite <- !app_assoc. fold l.
    replace (Z.to_nat ((55 - l) mod 64)) with (64 - length (part ++ [0x80%Z]) + 56)%nat;
      [by rewrite replicate_add, <- !app_assoc|mlia].
Qed.

(** ** The whole hash *)

(** [csp_sha1_process] on one piece of the message after the other. *)
Definition sha1_process_all (md : csp_sha1_state_t) (pieces : list (list Z)) : option csp_sha1_state_t :=
  foldl (λ acc piece, acc ≫= λ md, csp_sha1_process md piece) (Some md) pieces.

Lemma sha1_process_all_spec pieces md msg :
  sha_absorbed md msg → Forall bytes_ok pieces →
  ∃ md', sha1_process_all md pieces = Some md' ∧ sha_absorbed md' (msg ++ mjoin pieces).
Proof.
  intros Ha Hok. revert md msg Ha. induction Hok as [|piece pieces Hp _ IH]; intros md msg Ha.
  - exists md. by rewrite app_nil_r.
  - destruct (csp_sha1_process_spec md msg piece) as (md1 & H1 & Ha1); [done..|].
    destruct (IH _ _ Ha1) as (md2 & H2 & Ha2). exists md2. split.
    + unfold sha1_process_all in *. cbn [foldl mbind option_bind]. by rewrite H1.
    + by rewrite <- app_assoc in Ha2.
Qed.

Lemma csp_sha1_memory_spec md msg :
  bytes_ok (sha_buf md) → length (sha_buf md) = 64%nat → bytes_ok msg →
  csp_sha1_memory md msg = Some (fips_sha1 msg).
Proof.
  intros Hb Hl Hok. unfold csp_sha1_memory.
  destruct (csp_sha1_process_spec (csp_sha1_init md) [] msg) as (md' & -> & Ha);
    [by apply sha_absorbed_init|done|].
  cbn [mbind option_bind]. by apply csp_sha1_done_spec.
Qed.

Lemma fips_sha1_digest msg : bytes_ok (fips_sha1 msg) ∧ length (fips_sha1 msg) = 20%nat.
Proof.
  unfold fips_sha1. destruct (foldl _ _ _) as [[[[a b] c] d] e].
  split; [|by rewrite !length_app, !length_be_bytes].
  unfold bytes_ok. rewrite !Forall_app. split_and!; apply be_bytes_ok.
Qed.

(** C33: Whatever the local state held before, [csp_sha1_init], [csp_sha1_process] on
    the pieces of a message, however it is cut, and [csp_sha1_done] stay within the
    64-byte buffer, terminate, and give the SHA-1 digest FIPS 180-4 defines for the
    whole message. *)
Theorem csp_sha1_is_fips180 (md : csp_sha1_state_t) (pieces : list (list Z)) :
  bytes_ok (sha_buf md) → length (sha_buf md) = 64%nat → Forall bytes_ok pieces →
  (sha1_process_all (csp_sha1_init md) pieces ≫= csp_sha1_done) = Some (fips_sha1 (mjoin pieces)) ∧
  csp_sha1_memory md (mjoin pieces) = Some (fips_sha1 (mjoin pieces)).
Proof.
  intros Hb Hl Hok. split.
  - destruct (sha1_process_all_spec pieces (csp_sha1_init md) []) as (md' & -> & Ha);
      [by apply sha_absorbed_init|done|]. by apply csp_sha1_done_spec.
  - apply csp_sha1_memory_spec; [done..|]. clear -Hok. induction Hok as [|p ps Hp _ IH]; [constructor|].
    change (mjoin (p :: ps)) with (p ++ mjoin ps). by apply Forall_app.
Qed.

(** "abc" in two pieces has the digest of the standard's first example. *)
Lemma csp_sha1_is_fips180_witness :
  let md := mk_sha1 0 (1, 2, 3, 4, 5) 9 (replicate 64 0xAA) in
  (sha1_process_all (csp_sha1_init md) [[97]; [98; 99]] ≫= csp_sha1_done) = Some (fips_sha1 [97; 98; 99]) ∧
  be_val (fips_sha1 [97; 98; 99]) = 0xa9993e364706816aba3e25717850c26c9cd0d89d.
Proof.
  split; [|by vm_compute].
  refine (proj1 (csp_sha1_is_fips180 _ [[97]; [98; 99]] _ _ _)); [|done|];
    apply (bool_decide_unpack _); vm_compute; done.
Defined.
