(* ===== verification/Hmac.v ===== *)
(** * Message authentication

    [src/crypto/csp_hmac.c]: HMAC-SHA1 with the key derived by [csp_hmac_set_key],
    and the four-byte trailer of authenticated packets. *)

From S2P Require Import Prelude Types Id Sha1.

Definition HMAC_KEY_LENGTH : Z := 16.
Definition CSP_HMAC_LENGTH : Z := 4.

(** ** The code *)

(** [hmac_state] *)
Record hmac_state := mk_hmac {
  hmac_md : csp_sha1_state_t;
  hmac_key : list Z;
}.

(** The key of the state: the given one, or its hash when it is longer than a
    block, padded with zeros. *)
Definition hmac_block_key (md : csp_sha1_state_t) (hkey key : list Z) : option (list Z) :=
  let keylen := Z.of_nat (List.length key) in
  if bool_decide (CSP_SHA1_BLOCKSIZE < keylen) then
    digest ← csp_sha1_memory md key;
    hkey ← mem_write hkey 0 digest;
    mem_write hkey CSP_SHA1_DIGESTSIZE
      (replicate (Z.to_nat (CSP_SHA1_BLOCKSIZE - CSP_SHA1_DIGESTSIZE)) 0)
  else
    hkey ← mem_write hkey 0 key;
    if bool_decide (keylen < CSP_SHA1_BLOCKSIZE)
    then mem_write hkey keylen (replicate (Z.to_nat (CSP_SHA1_BLOCKSIZE - keylen)) 0)
    else Some hkey.

(** [csp_hmac_init]; [md] is what the locals of [csp_sha1_memory] hold.  A [NULL] key
    is [None]. *)
Definition csp_hmac_init (md : csp_sha1_state_t) (hmac : hmac_state) (key : option (list Z))
    : option (Z * hmac_state) :=
  match key with
  | None => Some (CSP_ERR_INVAL, hmac)
  | Some key =>
      if bool_decide (Z.of_nat (List.length key) < 1) then Some (CSP_ERR_INVAL, hmac) else
      hkey ← hmac_block_key md (hmac_key hmac) key;
      let buf := (λ b, Z.lxor b 0x36) <$> hkey in
      md' ← csp_sha1_process (csp_sha1_init (hmac_md hmac)) buf;
      Some (CSP_ERR_NONE, mk_hmac md' hkey)
  end.

Definition csp_hmac_process (hmac : hmac_state) (input : option (list Z)) : option (Z * hmac_state) :=
  match input with
  | None => Some (CSP_ERR_INVAL, hmac)
  | Some bytes =>
      md ← csp_sha1_process (hmac_md hmac) bytes; Some (CSP_ERR_NONE, mk_hmac md (hmac_key hmac))
  end.

Definition csp_hmac_done (hmac : hmac_state) : option (list Z) :=
  isha ← csp_sha1_done (hmac_md hmac);
  let buf := (λ b, Z.lxor b 0x5C) <$> hmac_key hmac in
  md ← csp_sha1_process (csp_sha1_init (hmac_md hmac)) buf;
  md ← csp_sha1_process md isha;
  out ← csp_sha1_done md;
  Some (take (Z.to_nat CSP_SHA1_DIGESTSIZE) out).

(** [csp_hmac_memory]: an error code, or the digest written to [hmac].  [state] and
    [md] are what the uninitialised locals hold. *)
Definition csp_hmac_memory (md : csp_sha1_state_t) (state : hmac_state)
    (key data : option (list Z)) : option (Z + list Z) :=
  match key, data with
  | Some _, Some _ =>
      '(rc, state) ← csp_hmac_init md state key;
      if bool_decide (rc ≠ 0) then Some (inl CSP_ERR_INVAL) else
      '(rc, state) ← csp_hmac_process state data;
      if bool_decide (rc ≠ 0) then Some (inl CSP_ERR_INVAL) else
      digest ← csp_hmac_done state;
      Some (inr digest)
  | _, _ => Some (inl CSP_ERR_INVAL)
  end.

(** [csp_hmac_set_key]: the new value of [csp_hmac_key]. *)
Definition csp_hmac_set_key (md : csp_sha1_state_t) (key : list Z) : option (Z * list Z) :=
  hash ← csp_sha1_memory md key;
  Some (CSP_ERR_NONE, take (Z.to_nat HMAC_KEY_LENGTH) hash).

Section Trailer.
(** The static [csp_hmac_key], and what the locals of [csp_hmac_memory] hold. *)
Variables (csp_hmac_key : list Z) (md : csp_sha1_state_t) (state : hmac_state).

(** The array [hmac] after the call; it is not read when the call failed. *)
Definition hmac_of (d : list Z) : option (list Z) :=
  r ← csp_hmac_memory md state (Some csp_hmac_key) (Some d);
  match r with inr digest => Some (take (Z.to_nat CSP_HMAC_LENGTH) digest) | inl _ => None end.

Definition csp_hmac_append (p : csp_packet_t) (include_header : bool) : option (Z * csp_packet_t) :=
  if bool_decide (CSP_BUFFER_SIZE < pk_length p + CSP_HMAC_LENGTH) then Some (CSP_ERR_NOMEM, p) else
  if include_header then
    d ← frame_read p 0 (frame_length p);
    hmac ← hmac_of d;
    p' ← frame_write p (frame_length p) hmac;
    Some (CSP_ERR_NONE, set_frame_length (u16 (frame_length p + CSP_HMAC_LENGTH)) p')
  else
    d ← data_read p 0 (pk_length p);
    hmac ← hmac_of d;
    p' ← data_write p (pk_length p) hmac;
    Some (CSP_ERR_NONE, set_pk_length (u16 (pk_length p + CSP_HMAC_LENGTH)) p').

Definition csp_hmac_verify (p : csp_packet_t) (include_header : bool) : option (Z * csp_packet_t) :=
  if bool_decide (pk_length p < CSP_HMAC_LENGTH) then Some (CSP_ERR_HMAC, p) else
  if include_header then
    d ← frame_read p 0 (u32 (frame_length p - CSP_HMAC_LENGTH));
    hmac ← hmac_of d;
    tag ← frame_read p (frame_length p - CSP_HMAC_LENGTH) CSP_HMAC_LENGTH;
    if bool_decide (tag ≠ hmac) then Some (CSP_ERR_HMAC, p) else
    Some (CSP_ERR_NONE, set_frame_length (u16 (frame_length p - CSP_HMAC_LENGTH)) p)
  else
    d ← data_read p 0 (u32 (pk_length p - CSP_HMAC_LENGTH));
    hmac ← hmac_of d;
    tag ← data_read p (pk_length p - CSP_HMAC_LENGTH) CSP_HMAC_LENGTH;
    if bool_decide (tag ≠ hmac) then Some (CSP_ERR_HMAC, p) else
    Some (CSP_ERR_NONE, set_pk_length (u16 (pk_length p - CSP_HMAC_LENGTH)) p).
End Trailer.

(** ** RFC 2104 *)

(** The key as a block: hashed when longer than one, padded with zeros. *)
Definition rfc_key (key : list Z) : list Z :=
  let k := if bool_decide (List.length key ≤ 64)%nat then key else fips_sha1 key in
  k ++ replicate (64 - List.length k) 0.

Definition rfc_hmac (key text : list Z) : list Z :=
  let k := rfc_key key in
  fips_sha1 (((λ b, Z.lxor b 0x5C) <$> k) ++ fips_sha1 (((λ b, Z.lxor b 0x36) <$> k) ++ text)).

(** ** HMAC-SHA1 *)

(** The stack contents an operation may find: the arrays have their sizes. *)
Definition locals_ok (md : csp_sha1_state_t) (state : hmac_state) : Prop :=
  bytes_ok (sha_buf md) ∧ List.length (sha_buf md) = 64%nat ∧
  bytes_ok (sha_buf (hmac_md state)) ∧ List.length (sha_buf (hmac_md state)) = 64%nat ∧
  bytes_ok (hmac_key state) ∧ List.length (hmac_key state) = 64%nat.

Lemma xor_pad_ok k c : bytes_ok k → is_u8 c → bytes_ok ((λ b, Z.lxor b c) <$> k).
Proof.
  intros Hk Hc. apply Forall_fmap. eapply Forall_impl; [exact Hk|]. intros b Hb.
  apply (lxor_lt_pow2 8); [lia|exact Hb|exact Hc].
Qed.

Lemma rfc_key_ok key : bytes_ok key → bytes_ok (rfc_key key) ∧ List.length (rfc_key key) = 64%nat.
Proof.
  intros Hk. unfold rfc_key. destruct (fips_sha1_digest key) as [Hd Hl].
  case_bool_decide; rewrite length_app, length_replicate; (split; [|lia]);
    apply Forall_app; split; try done; apply Forall_replicate; mlia.
Qed.

(** Two writes that fill an array. *)
Lemma mem_write_fill (m a b : list Z) :
  (List.length a + List.length b)%nat = List.length m →
  (m' ← mem_write m 0 a; mem_write m' (Z.of_nat (List.length a)) b) = Some (a ++ b).
Proof.
  intros Hl. destruct (mem_write_is_Some m 0 a) as (m' & Hm & Hl'); [lia|lia|].
  rewrite Hm. monad. apply mem_write_Some in Hm as (_ & _ & ->).
  apply mem_write_Some. split_and!; [lia|rewrite Hl'; lia|].
  change (Z.to_nat 0) with 0%nat. rewrite Nat2Z.id, take_0, app_nil_l, Nat.add_0_l.
  rewrite take_app_length, (drop_ge (a ++ _)); [by rewrite app_nil_r|].
  rewrite length_app, length_drop. lia.
Qed.

Lemma hmac_block_key_spec md hkey key :
  bytes_ok (sha_buf md) → List.length (sha_buf md) = 64%nat → List.length hkey = 64%nat →
  bytes_ok key → hmac_block_key md hkey key = Some (rfc_key key).
Proof.
  intros Hb Hl Hh Hk. unfold hmac_block_key, rfc_key, CSP_SHA1_BLOCKSIZE, CSP_SHA1_DIGESTSIZE.
  destruct (decide (List.length key ≤ 64)%nat) as [Hle|Hgt].
  - rewrite (bool_decide_false (64 < _)), (bool_decide_true (_ ≤ 64)%nat) by lia.
    destruct (decide (List.length key = 64%nat)) as [H64|].
    + rewrite (bool_decide_false (_ < 64)), H64 by lia. change (64 - 64)%nat with 0%nat.
      unfold mem_write. rewrite bool_decide_true by lia. cbn [mbind option_bind replicate].
      rewrite (drop_ge hkey) by (rewrite H64, Hh; done). done.
    + rewrite bool_decide_true by lia.
      replace (Z.to_nat (64 - Z.of_nat (List.length key))) with (64 - List.length key)%nat by lia.
      by rewrite mem_write_fill by (rewrite length_replicate; lia).
  - rewrite (bool_decide_true (64 < _)), (bool_decide_false (_ ≤ 64)%nat) by lia.
    rewrite csp_sha1_memory_spec by done. monad. destruct (fips_sha1_digest key) as [Hd Hdl].
    replace 20 with (Z.of_nat (List.length (fips_sha1 key))) by (by rewrite Hdl).
    rewrite mem_write_fill by (rewrite length_replicate, Hdl; simpl; lia). by rewrite Hdl.
Qed.

Lemma csp_hmac_init_spec md state key :
  locals_ok md state → bytes_ok key → key ≠ [] →
  ∃ st', csp_hmac_init md state (Some key) = Some (CSP_ERR_NONE, st') ∧ hmac_key st' = rfc_key key ∧
    sha_absorbed (hmac_md st') ((λ b, Z.lxor b 0x36) <$> rfc_key key).
Proof.
  intros (Hb1 & Hl1 & Hb2 & Hl2 & Hb3 & Hl3) Hk Hne. unfold csp_hmac_init.
  assert (0 < List.length key)%nat by (destruct key; [done|simpl; lia]).
  rewrite bool_decide_false by lia. rewrite hmac_block_key_spec by done.
  monad. destruct (rfc_key_ok key Hk) as [Hrk Hrl].
  destruct (csp_sha1_process_spec (csp_sha1_init (hmac_md state)) []
              ((λ b, Z.lxor b 0x36) <$> rfc_key key)) as (md' & -> & Ha);
    [by apply sha_absorbed_init|apply xor_pad_ok; [done|mlia]|].
  monad. eexists. split; [done|]. by split.
Qed.

Lemma sha_absorbed_buf md msg : sha_absorbed md msg → bytes_ok (sha_buf md) ∧ List.length (sha_buf md) = 64%nat.
Proof. by intros (bs & part & _ & _ & _ & _ & ? & ? & _). Qed.

Lemma csp_hmac_memory_spec md state key data :
  locals_ok md state → bytes_ok key → key ≠ [] → bytes_ok data →
  csp_hmac_memory md state (Some key) (Some data) = Some (inr (rfc_hmac key data)).
Proof.
  intros Hlo Hk Hne Hd. unfold csp_hmac_memory.
  destruct (csp_hmac_init_spec md state key Hlo Hk Hne) as (st & -> & Hkey & Ha). monad.
  change (bool_decide (CSP_ERR_NONE ≠ 0)) with false; cbv iota. unfold csp_hmac_process.
  destruct (csp_sha1_process_spec _ _ data Ha Hd) as (md1 & -> & Ha1). monad.
  change (bool_decide (CSP_ERR_NONE ≠ 0)) with false; cbv iota. unfold csp_hmac_done. cbn [hmac_md hmac_key].
  rewrite (csp_sha1_done_spec _ _ Ha1). monad. rewrite Hkey.
  destruct (sha_absorbed_buf _ _ Ha1) as [Hb1 Hl1]. destruct (rfc_key_ok key Hk) as [Hrk _].
  destruct (csp_sha1_process_spec (csp_sha1_init md1) [] ((λ b, Z.lxor b 0x5C) <$> rfc_key key))
    as (md2 & -> & Ha2); [by apply sha_absorbed_init|apply xor_pad_ok; [done|mlia]|]. monad.
  destruct (csp_sha1_process_spec md2 _ _ Ha2 (proj1 (fips_sha1_digest
    (((λ b, Z.lxor b 0x36) <$> rfc_key key) ++ data)))) as (md3 & -> & Ha3). monad.
  rewrite (csp_sha1_done_spec _ _ Ha3). monad. do 2 f_equal. rewrite app_nil_l.
  unfold rfc_hmac. apply take_ge. by rewrite (proj2 (fips_sha1_digest _)).
Qed.

Lemma length_rfc_hmac key text : List.length (rfc_hmac key text) = 20%nat.
Proof. apply fips_sha1_digest. Qed.
Lemma rfc_hmac_ok key text : bytes_ok (rfc_hmac key text).
Proof. apply fips_sha1_digest. Qed.

(** C34: [csp_hmac_memory] computes HMAC-SHA1 as RFC 2104 defines it, for every key
    length (a key longer than a block is hashed first) and every message, whatever
    the uninitialised locals hold; an empty key or a [NULL] argument is refused. *)
Theorem csp_hmac_memory_is_rfc2104 (md : csp_sha1_state_t) (state : hmac_state)
    (key data : list Z) :
  locals_ok md state → bytes_ok key → bytes_ok data →
  (key ≠ [] → csp_hmac_memory md state (Some key) (Some data) = Some (inr (rfc_hmac key data))) ∧
  csp_hmac_memory md state (Some []) (Some data) = Some (inl CSP_ERR_INVAL) ∧
  csp_hmac_memory md state None (Some data) = Some (inl CSP_ERR_INVAL) ∧
  csp_hmac_memory md state (Some key) None = Some (inl CSP_ERR_INVAL).
Proof. intros. split; [intros; by apply csp_hmac_memory_spec|done]. Qed.

Definition locals_example : csp_sha1_state_t := mk_sha1 7 (1, 2, 3, 4, 5) 9 (replicate 64 0xAA).
Definition state_example : hmac_state := mk_hmac locals_example (replicate 64 0x55).

Lemma locals_example_ok : locals_ok locals_example state_example.
Proof. unfold locals_ok. split_and!; try done; apply (bool_decide_unpack _); vm_compute; done. Qed.

(** Test case 2 of RFC 2202: key "Jefe", data "what do ya want for nothing?". *)
Lemma csp_hmac_memory_is_rfc2104_witness :
  let key := [74; 101; 102; 101] in
  let data := [119; 104; 97; 116; 32; 100; 111; 32; 121; 97; 32; 119; 97; 110; 116; 32; 102; 111; 114;
               32; 110; 111; 116; 104; 105; 110; 103; 63] in
  csp_hmac_memory locals_example state_example (Some key) (Some data) = Some (inr (rfc_hmac key data)) ∧
  be_val (rfc_hmac key data) = 0xeffcdf6ae5eb2fa2d27416d5f184df9c259a7c79.
Proof.
  intros key data. split; [|by vm_compute].
  assert (locals_ok locals_example state_example) as Hlo
    by (unfold locals_ok; split_and!; try done; apply (bool_decide_unpack _); vm_compute; done).
  refine (proj1 (csp_hmac_memory_is_rfc2104 _ _ key data Hlo _ _) _); [| |done];
    apply (bool_decide_unpack _); vm_compute; done.
Defined.

(** ** The trailer *)

Section TrailerFacts.
Variables (key : list Z) (md : csp_sha1_state_t) (state : hmac_state).
Hypotheses (Hlo : locals_ok md state) (Hkey : bytes_ok key) (Hne : key ≠ []).
Implicit Types (p r : csp_packet_t).

(** The first four bytes of the code. *)
Definition hmac_tag (k d : list Z) : list Z := take 4 (rfc_hmac k d).

Lemma length_hmac_tag d : List.length (hmac_tag key d) = 4%nat.
Proof. unfold hmac_tag. by rewrite length_take, length_rfc_hmac. Qed.

Lemma hmac_tag_ok d : bytes_ok (hmac_tag key d).
Proof. apply Forall_take, rfc_hmac_ok. Qed.

Lemma hmac_of_spec d : bytes_ok d → hmac_of key md state d = Some (hmac_tag key d).
Proof. intros Hd. unfold hmac_of. by rewrite csp_hmac_memory_spec by done. Qed.

Lemma data_append p n acc data :
  packet_ok p → data_read p 0 n = Some acc → bytes_ok data →
  n + Z.of_nat (List.length data) ≤ CSP_BUFFER_SIZE →
  ∃ m, data_write p n data = Some (set_pk_mem m p) ∧ packet_ok (set_pk_mem m p) ∧
    data_read (set_pk_mem m p) 0 (n + Z.of_nat (List.length data)) = Some (acc ++ data).
Proof.
  intros Hp Hr Hd Hn. pose proof Hr as (_ & Hn0 & _)%mem_read_Some.
  destruct (data_write_is_Some p n data) as [p' Hw]; [done..|].
  pose proof (data_write_ok _ _ _ _ Hp Hd Hw). pose proof Hw as (m & Hm & ->)%data_write_Some.
  exists m. split_and!; [done|done|]. unfold data_read in *. simpl. eapply mem_read_app.
  - rewrite (mem_read_write_ne _ _ _ _ _ _ Hm) by lia. done.
  - replace (DATA_OFF + 0 + n) with (DATA_OFF + n) by lia. apply (mem_read_write_eq _ _ _ _ Hm).
Qed.

(** Acceptance is exactly equality of the trailer with the code of the rest. *)
Lemma csp_hmac_verify_data r body tag :
  packet_ok r → pk_length r ≤ CSP_BUFFER_SIZE → payload r = Some (body ++ tag) →
  List.length tag = 4%nat →
  csp_hmac_verify key md state r false =
    Some (if bool_decide (tag = hmac_tag key body)
          then (CSP_ERR_NONE, set_pk_length (Z.of_nat (List.length body)) r) else (CSP_ERR_HMAC, r)).
Proof.
  intros Hr Hsz Hpay Ht. pose proof (po_length _ Hr).
  assert (pk_length r = Z.of_nat (List.length body) + 4) as Hl.
  { apply mem_read_length in Hpay. rewrite length_app in Hpay. lia. }
  unfold csp_hmac_verify, CSP_HMAC_LENGTH. rewrite bool_decide_false by lia.
  pose proof (data_read_bytes_ok _ _ _ _ Hr Hpay) as [Hb _]%Forall_app.
  unfold payload, data_read in Hpay. rewrite Hl in Hpay.
  apply mem_read_app_inv in Hpay as [H1 H2]; [|lia|done].
  replace (u32 (pk_length r - 4)) with (Z.of_nat (List.length body)) by mlia.
  replace (pk_length r - 4) with (Z.of_nat (List.length body)) by lia.
  unfold data_read. rewrite H1. monad. rewrite hmac_of_spec by done. monad.
  replace (DATA_OFF + Z.of_nat (List.length body))
    with (DATA_OFF + 0 + Z.of_nat (List.length body)) by lia.
  rewrite H2. monad. case_bool_decide as Hd.
  - by rewrite bool_decide_false.
  - rewrite bool_decide_true by (by destruct (decide (tag = hmac_tag key body))).
    by rewrite u16_id by mlia.
Qed.

Lemma csp_hmac_verify_total r :
  packet_ok r → pk_length r ≤ CSP_BUFFER_SIZE →
  ∃ rc r', csp_hmac_verify key md state r false = Some (rc, r') ∧ packet_ok r' ∧ pk_id r' = pk_id r.
Proof.
  intros Hr Hsz. pose proof (po_length _ Hr) as Hlr. unfold is_u16 in Hlr.
  destruct (decide (pk_length r < 4)) as [Hs|Hs].
  { exists CSP_ERR_HMAC, r. unfold csp_hmac_verify, CSP_HMAC_LENGTH. by rewrite bool_decide_true. }
  destruct (data_read_is_Some r 0 (pk_length r) Hr) as [pay Hpay]; [lia..|]. pose proof (mem_read_length _ _ _ _ Hpay) as Hl.
  set (n := (List.length pay - 4)%nat). rewrite <- (take_drop n pay) in Hpay.
  rewrite (csp_hmac_verify_data r (take n pay) (drop n pay) Hr Hsz Hpay) by (rewrite length_drop; lia).
  case_bool_decide; eexists _, _; (split; [done|]); [|done]. split; [|done]. destruct Hr. split; try done.
  cbn. unfold is_u16. rewrite length_take. lia.
Qed.

Lemma csp_hmac_append_data p :
  packet_ok p → pk_length p + 4 ≤ CSP_BUFFER_SIZE →
  ∃ pay p', payload p = Some pay ∧ csp_hmac_append key md state p false = Some (CSP_ERR_NONE, p') ∧
    packet_ok p' ∧ pk_id p' = pk_id p ∧ pk_length p' = pk_length p + 4 ∧
    payload p' = Some (pay ++ hmac_tag key pay).
Proof.
  intros Hp Hl. pose proof (po_length _ Hp) as Hlp.
  destruct (data_read_is_Some p 0 (pk_length p)) as [pay Hpay]; [done|lia|mlia|lia|].
  pose proof (data_read_bytes_ok _ _ _ _ Hp Hpay).
  destruct (data_append p (pk_length p) pay (hmac_tag key pay)) as (m & Hw & Hok & Hrd);
    [done..|apply hmac_tag_ok|rewrite length_hmac_tag; lia|].
  exists pay, (set_pk_length (pk_length p + 4) (set_pk_mem m p)). split; [done|].
  unfold csp_hmac_append, CSP_HMAC_LENGTH. rewrite bool_decide_false by lia.
  rewrite Hpay. monad. rewrite hmac_of_spec by done. monad. rewrite Hw. monad.
  rewrite u16_id by (sizes; mlia). rewrite length_hmac_tag in Hrd. split_and!; try done.
  destruct Hok; split; simpl in *; try done. sizes; mlia.
Qed.

(** The same for a frame with its header. *)
Lemma csp_hmac_frame v p fr :
  packet_ok p → frame_at v p → pk_length p + 4 ≤ CSP_BUFFER_SIZE →
  frame_length p = pk_length p + id_header_size v → frame_read p 0 (frame_length p) = Some fr →
  ∃ p', csp_hmac_append key md state p true = Some (CSP_ERR_NONE, p') ∧
    frame_at v p' ∧ frame_length p' = frame_length p + 4 ∧
    frame_read p' 0 (frame_length p') = Some (fr ++ hmac_tag key fr) ∧
    (4 ≤ pk_length p → csp_hmac_verify key md state p' true =
       Some (CSP_ERR_NONE, set_frame_length (frame_length p) p')).
Proof.
  intros Hp Hf Hl Hfl Hfr. pose proof (po_length _ Hp). pose proof (id_header_size_range v).
  assert (bytes_ok fr) as Hb.
  { unfold frame_read in Hfr. rewrite Hf in Hfr. eapply mem_read_bytes_ok; [apply Hp|exact Hfr]. }
  destruct (frame_append v p (frame_length p) fr (hmac_tag key fr)) as (m & Hw & Hok & Hrd);
    [done..|apply hmac_tag_ok|rewrite length_hmac_tag; lia|].
  rewrite length_hmac_tag in Hrd. change (Z.of_nat 4) with 4 in Hrd.
  exists (set_frame_length (frame_length p + 4) (set_pk_mem m p)).
  unfold csp_hmac_append, csp_hmac_verify, CSP_HMAC_LENGTH. rewrite bool_decide_false by lia.
  rewrite Hfr. monad. rewrite hmac_of_spec by done. monad. rewrite Hw. monad.
  rewrite u16_id by (sizes; mlia). split_and!; try done.
  intros H4. cbn [pk_length set_frame_length set_pk_mem frame_length].
  rewrite bool_decide_false by lia.
  replace (frame_length p + 4 - 4) with (frame_length p) by lia.
  rewrite (u32_id (frame_length p)) by (sizes; mlia).
  unfold frame_read in *. cbn [frame_begin pk_mem set_frame_length set_pk_mem] in *.
  rewrite Hf in *.
  apply mem_read_app_inv in Hrd as [H1 H2]; [|lia|by apply mem_read_length in Hfr].
  rewrite H1. monad. rewrite hmac_of_spec by done. monad. rewrite Z.add_0_r in H2.
  unfold frame_at in Hf. rewrite ?Hf, H2. monad.
  rewrite bool_decide_false by (by intros Hn; apply Hn). by rewrite u16_id by (sizes; mlia).
Qed.
End TrailerFacts.

(** the authentication trailer.  A packet with room for it gets the first four
    bytes of the HMAC of its data (or of its frame, header included), anything else
    is refused unchanged; [csp_hmac_verify] undoes the append, and accepts received
    data exactly when its last four bytes are the HMAC of what precedes them,
    leaving the packet as it was when they are not. *)
Theorem csp_hmac_append_verify (key : list Z) (md : csp_sha1_state_t) (state : hmac_state)
    (p : csp_packet_t) :
  locals_ok md state → bytes_ok key → key ≠ [] → packet_ok p →
  (CSP_BUFFER_SIZE < pk_length p + 4 → ∀ hdr,
     csp_hmac_append key md state p hdr = Some (CSP_ERR_NOMEM, p)) ∧
  (pk_length p + 4 ≤ CSP_BUFFER_SIZE →
   ∃ pay p' p'', payload p = Some pay ∧
     csp_hmac_append key md state p false = Some (CSP_ERR_NONE, p') ∧ pk_id p' = pk_id p ∧
     payload p' = Some (pay ++ hmac_tag key pay) ∧
     csp_hmac_verify key md state p' false = Some (CSP_ERR_NONE, p'') ∧
     pk_length p'' = pk_length p ∧ payload p'' = Some pay) ∧
  (∀ v, frame_at v p → 4 ≤ pk_length p → pk_length p + 4 ≤ CSP_BUFFER_SIZE →
     frame_length p = pk_length p + id_header_size v →
     ∃ fr p', frame_read p 0 (frame_length p) = Some fr ∧
       csp_hmac_append key md state p true = Some (CSP_ERR_NONE, p') ∧
       frame_read p' 0 (frame_length p') = Some (fr ++ hmac_tag key fr) ∧
       csp_hmac_verify key md state p' true =
         Some (CSP_ERR_NONE, set_frame_length (frame_length p) p')) ∧
  (∀ body tag, pk_length p ≤ CSP_BUFFER_SIZE → payload p = Some (body ++ tag) → List.length tag = 4%nat →
     csp_hmac_verify key md state p false =
       Some (if bool_decide (tag = hmac_tag key body)
             then (CSP_ERR_NONE, set_pk_length (Z.of_nat (List.length body)) p)
             else (CSP_ERR_HMAC, p))).
Proof.
  intros Hlo Hk Hne Hp. split_and!.
  - intros Hl hdr. unfold csp_hmac_append, CSP_HMAC_LENGTH. by rewrite bool_decide_true.
  - intros Hl. destruct (csp_hmac_append_data key md state Hlo Hk Hne p Hp Hl)
      as (pay & p' & Hpay & Hap & Hp' & Hid & Hl' & Hpay').
    exists pay, p', (set_pk_length (Z.of_nat (List.length pay)) p'). split_and!; try done.
    + rewrite (csp_hmac_verify_data key md state Hlo Hk Hne p' pay (hmac_tag key pay));
        [by rewrite bool_decide_true|done|lia|done|apply length_hmac_tag].
    + by apply mem_read_length in Hpay.
    + apply mem_read_app_inv with (l2 := 4) (b2 := hmac_tag key pay); [lia|done|].
      cbn [pk_length set_pk_length pk_mem].
      replace (Z.of_nat (List.length pay) + 4) with (pk_length p'); [exact Hpay'|].
      apply mem_read_length in Hpay. lia.
  - intros v Hf H4 Hl Hfl. pose proof (id_header_size_range v). pose proof (po_frame_length _ Hp).
    destruct (frame_read_is_Some v p (frame_length p)) as [fr Hfr]; [done|done|mlia|].
    destruct (csp_hmac_frame key md state Hlo Hk Hne v p fr) as (p' & Ha & _ & _ & Hr & Hv); [done..|].
    exists fr, p'. auto.
  - intros body tag Hl Hpay Ht. by apply csp_hmac_verify_data.
Qed.

(** A three-byte packet with the sixteen-byte key [csp_hmac_set_key] derives from
    the pass phrase "key". *)
Lemma csp_hmac_append_verify_witness :
  ∃ key, csp_hmac_set_key locals_example [107; 101; 121] = Some (CSP_ERR_NONE, key) ∧
  ∃ pay p' p'', payload id_example = Some pay ∧
    csp_hmac_append key locals_example state_example id_example false = Some (CSP_ERR_NONE, p') ∧
    payload p' = Some (pay ++ hmac_tag key pay) ∧
    csp_hmac_verify key locals_example state_example p' false = Some (CSP_ERR_NONE, p'') ∧
    payload p'' = Some pay.
Proof.
  eexists. split; [vm_compute; reflexivity|].
  match goal with |- context [csp_hmac_append ?k _ _ _ _] => set (key := k) end.
  assert (bytes_ok key) as Hk by (apply (bool_decide_unpack _); vm_compute; done).
  destruct (csp_hmac_append_verify key locals_example state_example id_example
    locals_example_ok Hk ltac:(done) id_example_ok) as (_ & H & _).
  destruct H as (pay & p' & p'' & H); [vm_compute; done|]. exists pay, p', p''. tauto.
Defined.
