(* ===== verification/Dedup.v ===== *)
(** * Duplicate packets

    [src/csp_dedup.c]: a ring of the checksums and arrival times of the packets seen
    last, and its abstraction to a history list. *)

From stdpp Require Import sorting.
From S2P Require Import Prelude Types Id Crc32.

Definition CSP_DEDUP_COUNT : Z := 16.
Definition CSP_DEDUP_WINDOW_MS : Z := 100.

(** The static variables of the file. *)
Record dedup_t := mk_dedup {
  csp_dedup_array : list Z;
  csp_dedup_timestamp : list Z;
  csp_dedup_in : Z;
}.

Definition dedup_zero : dedup_t := mk_dedup (replicate 16 0) (replicate 16 0) 0.

(** An array access with a C index; [None] outside the array. *)
Definition arr_get (l : list Z) (i : Z) : option Z :=
  if bool_decide (0 ≤ i) then l !! Z.to_nat i else None.

(** [while (i != csp_dedup_in)]: whether the loop returned [true]. *)
Fixpoint dedup_scan (fuel : nat) (d : dedup_t) (crc time i : Z) : option bool :=
  match fuel with
  | O => None
  | S fuel' =>
      if bool_decide (i = csp_dedup_in d) then Some false else
      ts ← arr_get (csp_dedup_timestamp d) i;
      if bool_decide (time > u32 (ts + CSP_DEDUP_WINDOW_MS)) then Some false else
      c ← arr_get (csp_dedup_array d) i;
      if bool_decide (crc = c) then Some true
      else dedup_scan fuel' d crc time (Z.land (u32 (i - 1)) (CSP_DEDUP_COUNT - 1))
  end.

(** [csp_dedup_is_duplicate]; [time] is [csp_get_ms()]. *)
Definition csp_dedup_is_duplicate (version time : Z) (packet : csp_packet_t) (d : dedup_t)
    : option (bool * csp_packet_t * dedup_t) :=
  packet ← csp_id_prepend version packet;
  frame ← frame_read packet 0 (frame_length packet);
  let crc := csp_crc32_memory frame in
  found ← dedup_scan 16 d crc time (u32 (csp_dedup_in d - 1) mod CSP_DEDUP_COUNT);
  if (found : bool) then Some (true, packet, d) else
  _ ← arr_get (csp_dedup_array d) (csp_dedup_in d);
  Some (false, packet,
    mk_dedup (<[Z.to_nat (csp_dedup_in d) := crc]> (csp_dedup_array d))
      (<[Z.to_nat (csp_dedup_in d) := time]> (csp_dedup_timestamp d))
      ((csp_dedup_in d + 1) mod CSP_DEDUP_COUNT)).

(** ** The history a ring stands for *)

Definition dedup_inv (d : dedup_t) : Prop :=
  List.length (csp_dedup_array d) = 16%nat ∧ List.length (csp_dedup_timestamp d) = 16%nat ∧
  0 ≤ csp_dedup_in d < 16.

(** The slot of the [k]-th newest entry. *)
Definition slot (d : dedup_t) (k : nat) : nat := Z.to_nat ((csp_dedup_in d - 1 - Z.of_nat k) mod 16).

Definition entry (d : dedup_t) (k : nat) : Z * Z :=
  (csp_dedup_array d !!! slot d k, csp_dedup_timestamp d !!! slot d k).

(** The entries, newest first. *)
Definition history (d : dedup_t) : list (Z * Z) := entry d <$> seq 0 16.

(** The search over a history: it stops at the first entry outside the window. *)
Fixpoint recent_match (crc time : Z) (h : list (Z * Z)) : bool :=
  match h with
  | [] => false
  | (c, t) :: h' =>
      if bool_decide (time > u32 (t + CSP_DEDUP_WINDOW_MS)) then false
      else if bool_decide (crc = c) then true else recent_match crc time h'
  end.

Section Dedup.
Implicit Types (d : dedup_t) (k : nat).

Lemma slot_lt d k : (slot d k < 16)%nat.
Proof. unfold slot. mlia. Qed.

Lemma arr_get_slot (l : list Z) d k :
  List.length l = 16%nat → arr_get l ((csp_dedup_in d - 1 - Z.of_nat k) mod 16) = Some (l !!! slot d k).
Proof.
  intros Hl. unfold arr_get. rewrite bool_decide_true by mlia. fold (slot d k).
  apply list_lookup_lookup_total_lt. rewrite Hl. apply slot_lt.
Qed.

Lemma dedup_scan_spec d crc time fuel k :
  dedup_inv d → (k + fuel = 16)%nat →
  dedup_scan fuel d crc time ((csp_dedup_in d - 1 - Z.of_nat k) mod 16) =
    match fuel with O => None | S n => Some (recent_match crc time (entry d <$> seq k n)) end.
Proof.
  intros (Ha & Ht & Hi). revert k. induction fuel as [|n IH]; intros k Hk; [done|].
  cbn [dedup_scan]. destruct n as [|n].
  - rewrite bool_decide_true by mlia. done.
  - rewrite bool_decide_false by mlia. rewrite !arr_get_slot by done. monad.
    change (seq k (S n)) with (k :: seq (S k) n). rewrite fmap_cons. cbn [recent_match entry].
    case_bool_decide; [done|]. monad. case_bool_decide; [done|].
    rewrite <- IH by lia. f_equal. unfold CSP_DEDUP_COUNT. change (16 - 1) with (2 ^ 4 - 1).
    rewrite land_mask by lia. change (2 ^ 4) with 16. mlia.
Qed.

Lemma slot_new a t d :
  dedup_inv d → slot (mk_dedup a t ((csp_dedup_in d + 1) mod 16)) 0 = Z.to_nat (csp_dedup_in d).
Proof. intros (_ & _ & Hi). unfold slot. cbn [csp_dedup_in]. f_equal. mlia. Qed.

Lemma slot_old a t d k :
  dedup_inv d → (k < 15)%nat →
  slot (mk_dedup a t ((csp_dedup_in d + 1) mod 16)) (S k) = slot d k ∧
  slot d k ≠ Z.to_nat (csp_dedup_in d).
Proof.
  intros (_ & _ & Hi) Hk. unfold slot. cbn [csp_dedup_in]. split; [f_equal; mlia|mlia].
Qed.

(** Inserting pushes an entry onto the history and forgets the oldest. *)
Lemma history_insert d crc time :
  dedup_inv d →
  let d' := mk_dedup (<[Z.to_nat (csp_dedup_in d) := crc]> (csp_dedup_array d))
              (<[Z.to_nat (csp_dedup_in d) := time]> (csp_dedup_timestamp d))
              ((csp_dedup_in d + 1) mod 16) in
  dedup_inv d' ∧ history d' = (crc, time) :: take 15 (history d).
Proof.
  intros Hd d'. pose proof Hd as (Ha & Ht & Hi). split.
  { unfold dedup_inv, d'. cbn. rewrite !length_insert. split_and!; [done|done|mlia..]. }
  unfold history. change (seq 0 16) with (0%nat :: seq 1 15) at 1. rewrite fmap_cons. f_equal.
  - unfold entry, d'. rewrite slot_new by done. cbn [csp_dedup_array csp_dedup_timestamp].
    rewrite !list_lookup_total_insert_eq by (rewrite ?Ha, ?Ht; lia). done.
  - rewrite <- fmap_take. change (take 15 (seq 0 16)) with (seq 0 15).
    rewrite <- fmap_S_seq, <- list_fmap_compose. apply list_fmap_ext. intros j k [-> Hj]%lookup_seq.
    unfold compose, entry, d'. destruct (slot_old (<[Z.to_nat (csp_dedup_in d):=crc]> (csp_dedup_array d))
      (<[Z.to_nat (csp_dedup_in d):=time]> (csp_dedup_timestamp d)) d (0 + j)) as [-> Hne]; [done|lia|].
    cbn [csp_dedup_array csp_dedup_timestamp]. by rewrite !list_lookup_total_insert_ne.
Qed.

(** With time stamps that do not run backwards the early stop loses nothing. *)
Lemma recent_match_sorted crc time h :
  (∀ c t, (c, t) ∈ h → 0 ≤ t < 2 ^ 32 - CSP_DEDUP_WINDOW_MS) →
  StronglySorted (λ x y, y.2 ≤ x.2) h →
  recent_match crc time h = true ↔ ∃ t, (crc, t) ∈ h ∧ time ≤ t + CSP_DEDUP_WINDOW_MS.
Proof.
  unfold CSP_DEDUP_WINDOW_MS. intros Hr Hs. induction Hs as [|[c t] h Hs IH Hall]; cbn [recent_match].
  { split; [done|]. by intros (t & ?%not_elem_of_nil & _). }
  pose proof (Hr c t ltac:(left)) as Ht. unfold CSP_DEDUP_WINDOW_MS.
  rewrite u32_id by mlia. case_bool_decide as Hw.
  - split; [done|]. intros (t' & [[= <- <-]|Hin]%elem_of_cons & Ht'); [lia|].
    rewrite Forall_forall in Hall. specialize (Hall _ Hin). cbn in Hall. lia.
  - case_bool_decide as Hc.
    + subst. split; [|done]. intros _. exists t. split; [left|lia].
    + rewrite IH by (intros c' t' ?; apply (Hr c'); by right). split; intros (t' & Hin & Ht').
      * exists t'. split; [by right|done].
      * exists t'. apply elem_of_cons in Hin as [[= -> ->]|Hin]; [done|]. by split.
Qed.
End Dedup.

(** the duplicate filter.  On any packet that fits its buffer the check
    terminates within the ring, keeps the ring well formed and the packet's
    identifier and payload; the packet is put on the history when it is new and
    nothing changes when it is not.  As long as time does not run backwards or near
    the wrap of the counter, "duplicate" means exactly that one of the fifteen
    latest entries has the checksum of the packet's frame and is at most 100 ms
    old. *)
Theorem csp_dedup_is_duplicate_spec (v time : Z) (p : csp_packet_t) (d : dedup_t) :
  packet_ok p → pk_length p ≤ CSP_BUFFER_SIZE → dedup_inv d →
  (∀ c t, (c, t) ∈ history d → 0 ≤ t < 2 ^ 32 - CSP_DEDUP_WINDOW_MS) →
  StronglySorted (λ x y, y.2 ≤ x.2) (history d) →
  ∃ dup p' d' pay, csp_dedup_is_duplicate v time p d = Some (dup, p', d') ∧
    payload p = Some pay ∧ payload p' = Some pay ∧ pk_id p' = pk_id p ∧ packet_ok p' ∧ dedup_inv d' ∧
    let crc := csp_crc32_memory (id_header v (pk_id p) ++ pay) in
    (dup = true ↔ ∃ t, (crc, t) ∈ take 15 (history d) ∧ time ≤ t + CSP_DEDUP_WINDOW_MS) ∧
    (dup = true → d' = d) ∧
    (dup = false → history d' = (crc, time) :: take 15 (history d)).
Proof.
  intros Hp Hl Hd Hr Hs. pose proof (po_length _ Hp) as Hlp. pose proof (id_header_size_range v) as Hsz.
  destruct (csp_id_prepend_spec v p Hp)
    as (q & Hq & Hqok & Hf & Hfl & Hql & Hid & _ & _ & _ & _ & _ & Hhdr & Hdat).
  destruct (data_read_is_Some p 0 (pk_length p)) as [pay Hpay]; [done|lia|mlia|lia|].
  assert (frame_read q 0 (frame_length q) = Some (id_header v (pk_id p) ++ pay)) as Hfr.
  { rewrite Hfl, u16_id, Z.add_comm by (sizes; mlia). apply frame_read_app; [done..|].
    by rewrite Hdat by mlia. }
  assert (payload q = Some pay) as Hqpay by (unfold payload; rewrite Hql, Hdat by mlia; done).
  set (crc := csp_crc32_memory (id_header v (pk_id p) ++ pay)).
  assert (take 15 (history d) = entry d <$> seq 0 15) as Htk by (unfold history; by rewrite <- fmap_take).
  assert (recent_match crc time (take 15 (history d)) = true ↔
    ∃ t, (crc, t) ∈ take 15 (history d) ∧ time ≤ t + CSP_DEDUP_WINDOW_MS) as Hm.
  { apply recent_match_sorted.
    - intros c t Hin. apply (Hr c). by eapply subseteq_take.
    - rewrite <- (take_drop 15 (history d)) in Hs. by apply StronglySorted_app_1_l in Hs. }
  unfold csp_dedup_is_duplicate. rewrite Hq. monad. rewrite Hfr. monad. fold crc.
  pose proof (dedup_scan_spec d crc time 16 0 Hd ltac:(done)) as Hscan.
  pose proof Hd as (Ha & Ht & Hi).
  replace (u32 (csp_dedup_in d - 1) mod CSP_DEDUP_COUNT) with
    ((csp_dedup_in d - 1 - Z.of_nat 0) mod 16) by (unfold CSP_DEDUP_COUNT; mlia).
  rewrite Hscan, <- Htk. monad. destruct (recent_match _ _ _) eqn:Hmm.
  - exists true, q, d, pay. split_and!; try done.
  - unfold arr_get. rewrite bool_decide_true by lia.
    destruct (lookup_lt_is_Some_2 (csp_dedup_array d) (Z.to_nat (csp_dedup_in d))) as [x ->]; [lia|].
    monad. destruct (history_insert d crc time Hd) as [Hinv Hh].
    eexists false, q, _, pay. split_and!; try done; apply Hinv.
Qed.

(** After one packet at 500 ms the same packet at 550 ms is a duplicate. *)
Definition dedup_example : dedup_t :=
  match csp_dedup_is_duplicate 2 500 id_example dedup_zero with Some (_, _, d) => d | None => dedup_zero end.

Lemma csp_dedup_is_duplicate_spec_witness :
  ∃ p' d', csp_dedup_is_duplicate 2 550 id_example dedup_example = Some (true, p', d') ∧
           d' = dedup_example.
Proof.
  destruct (csp_dedup_is_duplicate_spec 2 550 id_example dedup_example id_example_ok)
    as (dup & p' & d' & pay & H & Hpay & _ & _ & _ & _ & Hdup & Hsame & _).
  - by vm_compute.
  - unfold dedup_inv. split_and!; vm_compute; done.
  - intros c t Hin. apply (proj1 (Forall_forall (λ x, 0 ≤ x.2 < 2 ^ 32 - CSP_DEDUP_WINDOW_MS) _)) in Hin;
      [exact Hin|]. apply (bool_decide_unpack _). vm_compute. done.
  - apply Sorted_StronglySorted; [intros x y z; cbn; lia|]. vm_compute.
    repeat (constructor; [|first [constructor; done|constructor]]). constructor.
  - assert (dup = true) as ->.
    { apply Hdup. exists 500. split; [|done].
      assert (payload id_example = Some [104; 101; 108; 108; 111]) as Hpy by (vm_compute; reflexivity).
      rewrite Hpy in Hpay. injection Hpay as <-. apply (bool_decide_unpack _). vm_compute. done. }
    exists p', d'. auto.
Defined.
