(* ===== verification/Stack.v ===== *)
(** * The state of the stack

    What the transport layer keeps besides the link-layer state of [State]: ports,
    sockets, the connection pool with its RDP records, the RDP queues, the
    promiscuous queue, the duplicate filter, the routing table and the
    configuration; and the environment the stack runs in. *)

From S2P Require Import Prelude Queue Types State Rtable Dedup Buffer Sha1 Hmac Can.

(** ** Sockets and ports *)

(** An element of [socket->rx_queue]: the queue holds untyped pointers, a packet on
    a connection-less socket and a connection on the others. *)
Inductive sock_item := SPacket (packet : nat) | SConn (conn : nat).

(** [struct csp_socket_s]; [None] is a queue that was never created. *)
Record csp_socket_t := mk_socket {
  so_rx_queue : option (fifo sock_item);
  so_opts : Z;
}.

Definition set_so_rx_queue (v : option (fifo sock_item)) (r : csp_socket_t) : csp_socket_t :=
  mk_socket v (so_opts r).
Definition set_so_opts (v : Z) (r : csp_socket_t) : csp_socket_t :=
  mk_socket (so_rx_queue r) v.

(** [csp_port_t]: the state with the member of the union it selects. *)
Inductive csp_port_t :=
  | PORT_CLOSED
  | PORT_OPEN (socket : nat)
  | PORT_OPEN_CB (callback : nat).

#[export] Instance csp_port_eq_dec : EqDecision csp_port_t.
Proof. solve_decision. Defined.

(** ** Connections *)

Inductive csp_conn_state_t := CONN_CLOSED | CONN_OPEN.
Inductive csp_conn_type_t := CONN_CLIENT | CONN_SERVER.
Inductive csp_rdp_state_t := RDP_CLOSED | RDP_SYN_SENT | RDP_SYN_RCVD | RDP_OPEN | RDP_CLOSE_WAIT.

#[export] Instance csp_conn_state_eq_dec : EqDecision csp_conn_state_t.
Proof. solve_decision. Defined.
#[export] Instance csp_conn_type_eq_dec : EqDecision csp_conn_type_t.
Proof. solve_decision. Defined.
#[export] Instance csp_rdp_state_eq_dec : EqDecision csp_rdp_state_t.
Proof. solve_decision. Defined.

(** [csp_rdp_t]; [tx_wait] is the value of the binary semaphore. *)
Record csp_rdp_t := mk_rdp {
  rdp_state : csp_rdp_state_t;
  closed_by : Z;
  snd_nxt : Z;
  snd_una : Z;
  snd_iss : Z;
  rcv_cur : Z;
  rcv_irs : Z;
  rcv_lsa : Z;
  window_size : Z;
  conn_timeout : Z;
  packet_timeout : Z;
  delayed_acks : Z;
  ack_timeout : Z;
  ack_delay_count : Z;
  ack_timestamp : Z;
  tx_wait : Z;
}.

Definition set_rdp_state (v : csp_rdp_state_t) (r : csp_rdp_t) : csp_rdp_t :=
  mk_rdp v (closed_by r) (snd_nxt r) (snd_una r) (snd_iss r) (rcv_cur r) (rcv_irs r) (rcv_lsa r)
    (window_size r) (conn_timeout r) (packet_timeout r) (delayed_acks r) (ack_timeout r)
    (ack_delay_count r) (ack_timestamp r) (tx_wait r).
Definition set_closed_by (v : Z) (r : csp_rdp_t) : csp_rdp_t :=
  mk_rdp (rdp_state r) v (snd_nxt r) (snd_una r) (snd_iss r) (rcv_cur r) (rcv_irs r) (rcv_lsa r)
    (window_size r) (conn_timeout r) (packet_timeout r) (delayed_acks r) (ack_timeout r)
    (ack_delay_count r) (ack_timestamp r) (tx_wait r).
Definition set_snd_nxt (v : Z) (r : csp_rdp_t) : csp_rdp_t :=
  mk_rdp (rdp_state r) (closed_by r) v (snd_una r) (snd_iss r) (rcv_cur r) (rcv_irs r) (rcv_lsa
    r) (window_size r) (conn_timeout r) (packet_timeout r) (delayed_acks r) (ack_timeout r)
    (ack_delay_count r) (ack_timestamp r) (tx_wait r).
Definition set_snd_una (v : Z) (r : csp_rdp_t) : csp_rdp_t :=
  mk_rdp (rdp_state r) (closed_by r) (snd_nxt r) v (snd_iss r) (rcv_cur r) (rcv_irs r) (rcv_lsa
    r) (window_size r) (conn_timeout r) (packet_timeout r) (delayed_acks r) (ack_timeout r)
    (ack_delay_count r) (ack_timestamp r) (tx_wait r).
Definition set_snd_iss (v : Z) (r : csp_rdp_t) : csp_rdp_t :=
  mk_rdp (rdp_state r) (closed_by r) (snd_nxt r) (snd_una r) v (rcv_cur r) (rcv_irs r) (rcv_lsa
    r) (window_size r) (conn_timeout r) (packet_timeout r) (delayed_acks r) (ack_timeout r)
    (ack_delay_count r) (ack_timestamp r) (tx_wait r).
Definition set_rcv_cur (v : Z) (r : csp_rdp_t) : csp_rdp_t :=
  mk_rdp (rdp_state r) (closed_by r) (snd_nxt r) (snd_una r) (snd_iss r) v (rcv_irs r) (rcv_lsa
    r) (window_size r) (conn_timeout r) (packet_timeout r) (delayed_acks r) (ack_timeout r)
    (ack_delay_count r) (ack_timestamp r) (tx_wait r).
Definition set_rcv_irs (v : Z) (r : csp_rdp_t) : csp_rdp_t :=
  mk_rdp (rdp_state r) (closed_by r) (snd_nxt r) (snd_una r) (snd_iss r) (rcv_cur r) v (rcv_lsa
    r) (window_size r) (conn_timeout r) (packet_timeout r) (delayed_acks r) (ack_timeout r)
    (ack_delay_count r) (ack_timestamp r) (tx_wait r).
Definition set_rcv_lsa (v : Z) (r : csp_rdp_t) : csp_rdp_t :=
  mk_rdp (rdp_state r) (closed_by r) (snd_nxt r) (snd_una r) (snd_iss r) (rcv_cur r) (rcv_irs r)
    v (window_size r) (conn_timeout r) (packet_timeout r) (delayed_acks r) (ack_timeout r)
    (ack_delay_count r) (ack_timestamp r) (tx_wait r).
Definition set_window_size (v : Z) (r : csp_rdp_t) : csp_rdp_t :=
  mk_rdp (rdp_state r) (closed_by r) (snd_nxt r) (snd_una r) (snd_iss r) (rcv_cur r) (rcv_irs r)
    (rcv_lsa r) v (conn_timeout r) (packet_timeout r) (delayed_acks r) (ack_timeout r)
    (ack_delay_count r) (ack_timestamp r) (tx_wait r).
Definition set_conn_timeout (v : Z) (r : csp_rdp_t) : csp_rdp_t :=
  mk_rdp (rdp_state r) (closed_by r) (snd_nxt r) (snd_una r) (snd_iss r) (rcv_cur r) (rcv_irs r)
    (rcv_lsa r) (window_size r) v (packet_timeout r) (delayed_acks r) (ack_timeout r)
    (ack_delay_count r) (ack_timestamp r) (tx_wait r).
Definition set_packet_timeout (v : Z) (r : csp_rdp_t) : csp_rdp_t :=
  mk_rdp (rdp_state r) (closed_by r) (snd_nxt r) (snd_una r) (snd_iss r) (rcv_cur r) (rcv_irs r)
    (rcv_lsa r) (window_size r) (conn_timeout r) v (delayed_acks r) (ack_timeout r)
    (ack_delay_count r) (ack_timestamp r) (tx_wait r).
Definition set_delayed_acks (v : Z) (r : csp_rdp_t) : csp_rdp_t :=
  mk_rdp (rdp_state r) (closed_by r) (snd_nxt r) (snd_una r) (snd_iss r) (rcv_cur r) (rcv_irs r)
    (rcv_lsa r) (window_size r) (conn_timeout r) (packet_timeout r) v (ack_timeout r)
    (ack_delay_count r) (ack_timestamp r) (tx_wait r).
Definition set_ack_timeout (v : Z) (r : csp_rdp_t) : csp_rdp_t :=
  mk_rdp (rdp_state r) (closed_by r) (snd_nxt r) (snd_una r) (snd_iss r) (rcv_cur r) (rcv_irs r)
    (rcv_lsa r) (window_size r) (conn_timeout r) (packet_timeout r) (delayed_acks r) v
    (ack_delay_count r) (ack_timestamp r) (tx_wait r).
Definition set_ack_delay_count (v : Z) (r : csp_rdp_t) : csp_rdp_t :=
  mk_rdp (rdp_state r) (closed_by r) (snd_nxt r) (snd_una r) (snd_iss r) (rcv_cur r) (rcv_irs r)
    (rcv_lsa r) (window_size r) (conn_timeout r) (packet_timeout r) (delayed_acks r)
    (ack_timeout r) v (ack_timestamp r) (tx_wait r).
Definition set_ack_timestamp (v : Z) (r : csp_rdp_t) : csp_rdp_t :=
  mk_rdp (rdp_state r) (closed_by r) (snd_nxt r) (snd_una r) (snd_iss r) (rcv_cur r) (rcv_irs r)
    (rcv_lsa r) (window_size r) (conn_timeout r) (packet_timeout r) (delayed_acks r)
    (ack_timeout r) (ack_delay_count r) v (tx_wait r).
Definition set_tx_wait (v : Z) (r : csp_rdp_t) : csp_rdp_t :=
  mk_rdp (rdp_state r) (closed_by r) (snd_nxt r) (snd_una r) (snd_iss r) (rcv_cur r) (rcv_irs r)
    (rcv_lsa r) (window_size r) (conn_timeout r) (packet_timeout r) (delayed_acks r)
    (ack_timeout r) (ack_delay_count r) (ack_timestamp r) v.

(** [struct csp_conn_s]; the queue holds packet pointers, [NULL] included. *)
Record csp_conn_t := mk_conn {
  cn_type : csp_conn_type_t;
  cn_state : csp_conn_state_t;
  idin : csp_id_t;
  idout : csp_id_t;
  sport_outgoing : Z;
  cn_rx_queue : fifo (option nat);
  dest_socket : option nat;
  cn_timestamp : Z;
  cn_opts : Z;
  cn_rdp : csp_rdp_t;
}.

Definition set_cn_type (v : csp_conn_type_t) (r : csp_conn_t) : csp_conn_t :=
  mk_conn v (cn_state r) (idin r) (idout r) (sport_outgoing r) (cn_rx_queue r) (dest_socket r)
    (cn_timestamp r) (cn_opts r) (cn_rdp r).
Definition set_cn_state (v : csp_conn_state_t) (r : csp_conn_t) : csp_conn_t :=
  mk_conn (cn_type r) v (idin r) (idout r) (sport_outgoing r) (cn_rx_queue r) (dest_socket r)
    (cn_timestamp r) (cn_opts r) (cn_rdp r).
Definition set_idin (v : csp_id_t) (r : csp_conn_t) : csp_conn_t :=
  mk_conn (cn_type r) (cn_state r) v (idout r) (sport_outgoing r) (cn_rx_queue r) (dest_socket
    r) (cn_timestamp r) (cn_opts r) (cn_rdp r).
Definition set_idout (v : csp_id_t) (r : csp_conn_t) : csp_conn_t :=
  mk_conn (cn_type r) (cn_state r) (idin r) v (sport_outgoing r) (cn_rx_queue r) (dest_socket r)
    (cn_timestamp r) (cn_opts r) (cn_rdp r).
Definition set_sport_outgoing (v : Z) (r : csp_conn_t) : csp_conn_t :=
  mk_conn (cn_type r) (cn_state r) (idin r) (idout r) v (cn_rx_queue r) (dest_socket r)
    (cn_timestamp r) (cn_opts r) (cn_rdp r).
Definition set_cn_rx_queue (v : fifo (option nat)) (r : csp_conn_t) : csp_conn_t :=
  mk_conn (cn_type r) (cn_state r) (idin r) (idout r) (sport_outgoing r) v (dest_socket r)
    (cn_timestamp r) (cn_opts r) (cn_rdp r).
Definition set_dest_socket (v : option nat) (r : csp_conn_t) : csp_conn_t :=
  mk_conn (cn_type r) (cn_state r) (idin r) (idout r) (sport_outgoing r) (cn_rx_queue r) v
    (cn_timestamp r) (cn_opts r) (cn_rdp r).
Definition set_cn_timestamp (v : Z) (r : csp_conn_t) : csp_conn_t :=
  mk_conn (cn_type r) (cn_state r) (idin r) (idout r) (sport_outgoing r) (cn_rx_queue r)
    (dest_socket r) v (cn_opts r) (cn_rdp r).
Definition set_cn_opts (v : Z) (r : csp_conn_t) : csp_conn_t :=
  mk_conn (cn_type r) (cn_state r) (idin r) (idout r) (sport_outgoing r) (cn_rx_queue r)
    (dest_socket r) (cn_timestamp r) v (cn_rdp r).
Definition set_cn_rdp (v : csp_rdp_t) (r : csp_conn_t) : csp_conn_t :=
  mk_conn (cn_type r) (cn_state r) (idin r) (idout r) (sport_outgoing r) (cn_rx_queue r)
    (dest_socket r) (cn_timestamp r) (cn_opts r) v.

(** ** The whole *)

(** The static options of [csp_rdp.c]. *)
Record rdp_opts_t := mk_rdp_opts {
  o_window_size : Z;
  o_conn_timeout : Z;
  o_packet_timeout : Z;
  o_delayed_acks : Z;
  o_ack_timeout : Z;
  o_ack_delay_count : Z;
}.

Definition rdp_opts_default : rdp_opts_t := mk_rdp_opts 4 10000 1000 1 (1000 / 4) (4 / 2).

(** [k_ports] is [ports], [k_socks] the sockets by address, [k_conns] is [arr_conn],
    [k_last_given] is [csp_conn_last_given], [k_txq] and [k_rxq] the queues of
    [csp_rdp_queue.c], [k_rdp_incr] is [csp_rdp_incr], [k_conn_dfl_so] and
    [k_conf_dedup] are [csp_conf.conn_dfl_so] and [csp_conf.dedup]. *)
Record stack := mk_stack {
  k_core : csp_core;
  k_rtable : rtable_t;
  k_ports : list csp_port_t;
  k_socks : gmap nat csp_socket_t;
  k_conns : list csp_conn_t;
  k_last_given : Z;
  k_txq : fifo (option nat);
  k_rxq : fifo (option nat);
  k_rdp_opts : rdp_opts_t;
  k_rdp_incr : Z;
  k_promisc_queue : option (fifo (option nat));
  k_promisc_enabled : bool;
  k_dedup : dedup_t;
  k_hmac_key : list Z;
  k_conn_dfl_so : Z;
  k_conf_dedup : Z;
}.

Definition set_k_core (v : csp_core) (r : stack) : stack :=
  mk_stack v (k_rtable r) (k_ports r) (k_socks r) (k_conns r) (k_last_given r) (k_txq r) (k_rxq
    r) (k_rdp_opts r) (k_rdp_incr r) (k_promisc_queue r) (k_promisc_enabled r) (k_dedup r)
    (k_hmac_key r) (k_conn_dfl_so r) (k_conf_dedup r).
Definition set_k_rtable (v : rtable_t) (r : stack) : stack :=
  mk_stack (k_core r) v (k_ports r) (k_socks r) (k_conns r) (k_last_given r) (k_txq r) (k_rxq r)
    (k_rdp_opts r) (k_rdp_incr r) (k_promisc_queue r) (k_promisc_enabled r) (k_dedup r)
    (k_hmac_key r) (k_conn_dfl_so r) (k_conf_dedup r).
Definition set_k_ports (v : list csp_port_t) (r : stack) : stack :=
  mk_stack (k_core r) (k_rtable r) v (k_socks r) (k_conns r) (k_last_given r) (k_txq r) (k_rxq
    r) (k_rdp_opts r) (k_rdp_incr r) (k_promisc_queue r) (k_promisc_enabled r) (k_dedup r)
    (k_hmac_key r) (k_conn_dfl_so r) (k_conf_dedup r).
Definition set_k_socks (v : gmap nat csp_socket_t) (r : stack) : stack :=
  mk_stack (k_core r) (k_rtable r) (k_ports r) v (k_conns r) (k_last_given r) (k_txq r) (k_rxq
    r) (k_rdp_opts r) (k_rdp_incr r) (k_promisc_queue r) (k_promisc_enabled r) (k_dedup r)
    (k_hmac_key r) (k_conn_dfl_so r) (k_conf_dedup r).
Definition set_k_conns (v : list csp_conn_t) (r : stack) : stack :=
  mk_stack (k_core r) (k_rtable r) (k_ports r) (k_socks r) v (k_last_given r) (k_txq r) (k_rxq
    r) (k_rdp_opts r) (k_rdp_incr r) (k_promisc_queue r) (k_promisc_enabled r) (k_dedup r)
    (k_hmac_key r) (k_conn_dfl_so r) (k_conf_dedup r).
Definition set_k_last_given (v : Z) (r : stack) : stack :=
  mk_stack (k_core r) (k_rtable r) (k_ports r) (k_socks r) (k_conns r) v (k_txq r) (k_rxq r)
    (k_rdp_opts r) (k_rdp_incr r) (k_promisc_queue r) (k_promisc_enabled r) (k_dedup r)
    (k_hmac_key r) (k_conn_dfl_so r) (k_conf_dedup r).
Definition set_k_txq (v : fifo (option nat)) (r : stack) : stack :=
  mk_stack (k_core r) (k_rtable r) (k_ports r) (k_socks r) (k_conns r) (k_last_given r) v (k_rxq
    r) (k_rdp_opts r) (k_rdp_incr r) (k_promisc_queue r) (k_promisc_enabled r) (k_dedup r)
    (k_hmac_key r) (k_conn_dfl_so r) (k_conf_dedup r).
Definition set_k_rxq (v : fifo (option nat)) (r : stack) : stack :=
  mk_stack (k_core r) (k_rtable r) (k_ports r) (k_socks r) (k_conns r) (k_last_given r) (k_txq
    r) v (k_rdp_opts r) (k_rdp_incr r) (k_promisc_queue r) (k_promisc_enabled r) (k_dedup r)
    (k_hmac_key r) (k_conn_dfl_so r) (k_conf_dedup r).
Definition set_k_rdp_opts (v : rdp_opts_t) (r : stack) : stack :=
  mk_stack (k_core r) (k_rtable r) (k_ports r) (k_socks r) (k_conns r) (k_last_given r) (k_txq
    r) (k_rxq r) v (k_rdp_incr r) (k_promisc_queue r) (k_promisc_enabled r) (k_dedup r)
    (k_hmac_key r) (k_conn_dfl_so r) (k_conf_dedup r).
Definition set_k_rdp_incr (v : Z) (r : stack) : stack :=
  mk_stack (k_core r) (k_rtable r) (k_ports r) (k_socks r) (k_conns r) (k_last_given r) (k_txq
    r) (k_rxq r) (k_rdp_opts r) v (k_promisc_queue r) (k_promisc_enabled r) (k_dedup r)
    (k_hmac_key r) (k_conn_dfl_so r) (k_conf_dedup r).
Definition set_k_promisc_queue (v : option (fifo (option nat))) (r : stack) : stack :=
  mk_stack (k_core r) (k_rtable r) (k_ports r) (k_socks r) (k_conns r) (k_last_given r) (k_txq
    r) (k_rxq r) (k_rdp_opts r) (k_rdp_incr r) v (k_promisc_enabled r) (k_dedup r) (k_hmac_key
    r) (k_conn_dfl_so r) (k_conf_dedup r).
Definition set_k_promisc_enabled (v : bool) (r : stack) : stack :=
  mk_stack (k_core r) (k_rtable r) (k_ports r) (k_socks r) (k_conns r) (k_last_given r) (k_txq
    r) (k_rxq r) (k_rdp_opts r) (k_rdp_incr r) (k_promisc_queue r) v (k_dedup r) (k_hmac_key r)
    (k_conn_dfl_so r) (k_conf_dedup r).
Definition set_k_dedup (v : dedup_t) (r : stack) : stack :=
  mk_stack (k_core r) (k_rtable r) (k_ports r) (k_socks r) (k_conns r) (k_last_given r) (k_txq
    r) (k_rxq r) (k_rdp_opts r) (k_rdp_incr r) (k_promisc_queue r) (k_promisc_enabled r) v
    (k_hmac_key r) (k_conn_dfl_so r) (k_conf_dedup r).
Definition set_k_hmac_key (v : list Z) (r : stack) : stack :=
  mk_stack (k_core r) (k_rtable r) (k_ports r) (k_socks r) (k_conns r) (k_last_given r) (k_txq
    r) (k_rxq r) (k_rdp_opts r) (k_rdp_incr r) (k_promisc_queue r) (k_promisc_enabled r)
    (k_dedup r) v (k_conn_dfl_so r) (k_conf_dedup r).
Definition set_k_conn_dfl_so (v : Z) (r : stack) : stack :=
  mk_stack (k_core r) (k_rtable r) (k_ports r) (k_socks r) (k_conns r) (k_last_given r) (k_txq
    r) (k_rxq r) (k_rdp_opts r) (k_rdp_incr r) (k_promisc_queue r) (k_promisc_enabled r)
    (k_dedup r) (k_hmac_key r) v (k_conf_dedup r).
Definition set_k_conf_dedup (v : Z) (r : stack) : stack :=
  mk_stack (k_core r) (k_rtable r) (k_ports r) (k_socks r) (k_conns r) (k_last_given r) (k_txq
    r) (k_rxq r) (k_rdp_opts r) (k_rdp_incr r) (k_promisc_queue r) (k_promisc_enabled r)
    (k_dedup r) (k_hmac_key r) (k_conn_dfl_so r) v.

Abbreviation K A := (ST stack A).

(** A link-layer operation on the whole state. *)
Definition liftC {A} (m : C A) : K A := λ s,
  match m (k_core s) with Some (a, c) => Some (a, set_k_core c s) | None => None end.

(** ** The environment

    [yield] is what the other tasks do to the state while the caller is blocked;
    [run_callback] calls the function bound to a port; [rand_r] is the C library's;
    [hmac_locals] is what the uninitialised locals of the HMAC functions hold. *)
Class Env := {
  env_can :: CanDriver;
  yield : stack → stack;
  run_callback : nat → nat → K ();
  rand_r : Z → Z;
  hmac_locals : csp_sha1_state_t * hmac_state;
}.

(** ** Accessors *)

(** [conn->field] for a pointer into [arr_conn]. *)
Definition get_conn (c : nat) : K csp_conn_t := λ s, lift_opt (k_conns s !! c) s.
Definition put_conn (c : nat) (x : csp_conn_t) : K () :=
  modify (λ s, set_k_conns (<[c := x]> (k_conns s)) s).
Definition mod_conn (c : nat) (f : csp_conn_t → csp_conn_t) : K () :=
  x ← get_conn c; put_conn c (f x).
Definition mod_rdp (c : nat) (f : csp_rdp_t → csp_rdp_t) : K () :=
  mod_conn c (λ x, set_cn_rdp (f (cn_rdp x)) x).

Definition get_sock (i : nat) : K csp_socket_t := λ s, lift_opt (k_socks s !! i) s.
Definition put_sock (i : nat) (x : csp_socket_t) : K () :=
  modify (λ s, set_k_socks (<[i := x]> (k_socks s)) s).

Definition csp_get_ms : K Z := gets (λ s, c_now (k_core s)).
Definition conf_version : K Z := gets (λ s, c_version (k_core s)).

(** [packet->field] *)
Definition kget_packet (b : nat) : K csp_packet_t := liftC (get_packet b).
Definition kput_packet (b : nat) (p : csp_packet_t) : K () := liftC (put_packet b p).
Definition kmod_packet (b : nat) (f : csp_packet_t → csp_packet_t) : K () :=
  p ← kget_packet b; kput_packet b (f p).
Definition kfree (b : option nat) : K () := liftC (csp_buffer_free b).

(** ** Semaphores *)

Definition CSP_SEMAPHORE_OK : Z := 0.
Definition CSP_SEMAPHORE_ERROR : Z := -1.

(** [csp_bin_sem_wait(&conn->rdp.tx_wait, timeout)]: takes the semaphore when it is
    free; otherwise blocks until it becomes free or the time is over. *)
Definition sem_take (c : nat) : K Z :=
  x ← get_conn c;
  if bool_decide (0 < tx_wait (cn_rdp x))
  then mod_rdp c (set_tx_wait (tx_wait (cn_rdp x) - 1));; mret CSP_SEMAPHORE_OK
  else mret CSP_SEMAPHORE_ERROR.
Definition csp_bin_sem_wait `{Env} (c : nat) (timeout : Z) : K Z :=
  rc ← sem_take c;
  if bool_decide (rc = CSP_SEMAPHORE_OK) || bool_decide (timeout = 0) then mret rc
  else modify yield;; sem_take c.

(** [csp_bin_sem_post(&conn->rdp.tx_wait)] *)
Definition csp_bin_sem_post (c : nat) : K () :=
  mod_rdp c (λ r, if bool_decide (0 < tx_wait r) then r else set_tx_wait (tx_wait r + 1) r).

(** ** Running the accessors *)

Section StackAccessors.
Implicit Types (s : stack) (c : nat) (x : csp_conn_t).

Lemma liftC_run {A} (m : C A) s a core :
  m (k_core s) = Some (a, core) → liftC m s = Some (a, set_k_core core s).
Proof. unfold liftC. by intros ->. Qed.

Lemma get_conn_run s c x : k_conns s !! c = Some x → get_conn c s = Some (x, s).
Proof. unfold get_conn, lift_opt. by intros ->. Qed.

Lemma mod_conn_run s c x f :
  k_conns s !! c = Some x → mod_conn c f s = Some ((), set_k_conns (<[c := f x]> (k_conns s)) s).
Proof. intros Hx. unfold mod_conn. run (get_conn_run s c x Hx). done. Qed.

Lemma mod_rdp_run s c x f :
  k_conns s !! c = Some x →
  mod_rdp c f s = Some ((), set_k_conns (<[c := set_cn_rdp (f (cn_rdp x)) x]> (k_conns s)) s).
Proof. intros Hx. unfold mod_rdp. by rewrite (mod_conn_run s c x). Qed.

Lemma set_k_core_id s : set_k_core (k_core s) s = s.
Proof. by destruct s. Qed.
End StackAccessors.
