(* ===== verification/Port.v ===== *)
(** * Ports

    [src/csp_port.c]: the table that binds ports to sockets and callbacks, with one
    entry for all ports that are not bound otherwise. *)

From S2P Require Import Prelude Queue Types State Buffer Stack.

(** Index of the entry for [CSP_ANY]. *)
Definition PORT_ANY : Z := CSP_PORT_MAX_BIND + 1.

Definition get_port (i : Z) : K csp_port_t := λ s, lift_opt (k_ports s !! Z.to_nat i) s.
Definition put_port (i : Z) (p : csp_port_t) : K () :=
  modify (λ s, set_k_ports (<[Z.to_nat i := p]> (k_ports s)) s).
Definition kerrno (e : Z) : K () := liftC (errno e).

(** ** Operations *)

Definition csp_port_get_callback (port : Z) : K (option nat) :=
  if bool_decide (CSP_PORT_MAX_BIND < port) then mret None else
  p ← get_port port;
  match p with
  | PORT_OPEN_CB callback => mret (Some callback)
  | PORT_OPEN _ => mret None
  | PORT_CLOSED =>
      any ← get_port PORT_ANY;
      mret (match any with PORT_OPEN_CB callback => Some callback | _ => None end)
  end.

Definition csp_port_get_socket (port : Z) : K (option nat) :=
  if bool_decide (CSP_PORT_MAX_BIND < port) then mret None else
  p ← get_port port;
  match p with
  | PORT_OPEN socket => mret (Some socket)
  | PORT_OPEN_CB _ => mret None
  | PORT_CLOSED =>
      any ← get_port PORT_ANY;
      mret (match any with PORT_OPEN socket => Some socket | _ => None end)
  end.

(** [csp_listen]; [backlog] is not used. *)
Definition csp_listen (socket : nat) (backlog : Z) : K Z :=
  x ← get_sock socket;
  put_sock socket (set_so_rx_queue (Some (csp_queue_create_static CSP_CONN_RXQUEUE_LEN)) x);;
  mret CSP_ERR_NONE.

(** The common part of [csp_bind] and [csp_bind_callback]: the entry for [port], or
    the error codes [einval] and [eused]. *)
Definition bind_entry (entry : csp_port_t) (port einval eused : Z) : K Z :=
  if bool_decide (port = CSP_ANY) || negb (bool_decide (CSP_PORT_MAX_BIND < port)) then
    let i := if bool_decide (port = CSP_ANY) then PORT_ANY else port in
    p ← get_port i;
    match p with
    | PORT_CLOSED => put_port i entry;; mret CSP_ERR_NONE
    | _ => kerrno CSP_DBG_ERR_PORT_ALREADY_IN_USE;; mret eused
    end
  else kerrno CSP_DBG_ERR_INVALID_BIND_PORT;; mret einval.

Definition csp_bind (socket : option nat) (port : Z) : K Z :=
  match socket with
  | None => mret CSP_ERR_INVAL
  | Some x => bind_entry (PORT_OPEN x) port CSP_ERR_INVAL CSP_ERR_USED
  end.

Definition csp_bind_callback (callback : option nat) (port : Z) : K Z :=
  match callback with
  | None => kerrno CSP_DBG_ERR_INVALID_POINTER;; mret CSP_DBG_ERR_INVALID_POINTER
  | Some x => bind_entry (PORT_OPEN_CB x) port CSP_DBG_ERR_INVALID_BIND_PORT CSP_DBG_ERR_PORT_ALREADY_IN_USE
  end.

(** The first loop of [csp_socket_close]: closes the first entry that holds the
    socket. *)
Fixpoint close_first (socket : nat) (ports : list csp_port_t) : list csp_port_t :=
  match ports with
  | [] => []
  | PORT_OPEN x :: ports' =>
      if bool_decide (x = socket) then PORT_CLOSED :: ports' else PORT_OPEN x :: close_first socket ports'
  | p :: ports' => p :: close_first socket ports'
  end.

(** [csp_buffer_free] on every element of the socket's queue.  An element that is a
    connection is not a buffer: [csp_buffer_free] reads the memory before it. *)
Fixpoint free_items (items : list sock_item) : K () :=
  match items with
  | [] => mret ()
  | SPacket b :: items' => kfree (Some b);; free_items items'
  | SConn _ :: _ => ub
  end.

(** [csp_socket_close]; [csp_queue_free] at its end only counts free elements. *)
Definition csp_socket_close (sock : option nat) : K Z :=
  match sock with
  | None => mret CSP_ERR_NONE
  | Some x =>
      modify (λ s, set_k_ports (close_first x (k_ports s)) s);;
      so ← get_sock x;
      match so_rx_queue so with
      | None => mret CSP_ERR_NONE
      | Some q =>
          put_sock x (set_so_rx_queue (Some (mk_fifo (fq_cap q) [])) so);;
          free_items (fq_items q);;
          mret CSP_ERR_NONE
      end
  end.

(** ** Who handles a port *)

(** The table has its size. *)
Definition ports_ok (s : stack) : Prop := List.length (k_ports s) = 18%nat.

(** What is in charge of a port: its own entry, or the one for all others. *)
Definition handler (s : stack) (port : Z) : csp_port_t :=
  if bool_decide (0 ≤ port ≤ CSP_PORT_MAX_BIND) then
    match k_ports s !! Z.to_nat port with
    | Some PORT_CLOSED | None => default PORT_CLOSED (k_ports s !! Z.to_nat PORT_ANY)
    | Some p => p
    end
  else PORT_CLOSED.

Section Ports.
Implicit Types (s : stack) (port : Z).

Lemma get_port_run s i :
  ports_ok s → 0 ≤ i ≤ PORT_ANY → ∃ p, k_ports s !! Z.to_nat i = Some p ∧ get_port i s = Some (p, s).
Proof.
  intros Hs Hi. unfold PORT_ANY, CSP_PORT_MAX_BIND in Hi.
  destruct (lookup_lt_is_Some_2 (k_ports s) (Z.to_nat i)) as [p Hp]; [rewrite Hs; lia|].
  exists p. split; [done|]. unfold get_port, lift_opt. by rewrite Hp.
Qed.

Lemma csp_port_get_callback_run s port :
  ports_ok s → 0 ≤ port →
  csp_port_get_callback port s =
    Some (match handler s port with PORT_OPEN_CB c => Some c | _ => None end, s).
Proof.
  intros Hs Hp. unfold csp_port_get_callback, handler, CSP_PORT_MAX_BIND.
  case_bool_decide as Hb; [by rewrite bool_decide_false by lia|].
  rewrite bool_decide_true by lia.
  destruct (get_port_run s port Hs) as (p & Hl & Hr); [unfold PORT_ANY, CSP_PORT_MAX_BIND; lia|].
  run Hr. rewrite Hl. destruct p; [|done|done].
  destruct (get_port_run s PORT_ANY Hs) as (a & Hal & Har); [unfold PORT_ANY, CSP_PORT_MAX_BIND; lia|].
  run Har. rewrite Hal. by destruct a.
Qed.

Lemma csp_port_get_socket_run s port :
  ports_ok s → 0 ≤ port →
  csp_port_get_socket port s =
    Some (match handler s port with PORT_OPEN x => Some x | _ => None end, s).
Proof.
  intros Hs Hp. unfold csp_port_get_socket, handler, CSP_PORT_MAX_BIND.
  case_bool_decide as Hb; [by rewrite bool_decide_false by lia|].
  rewrite bool_decide_true by lia.
  destruct (get_port_run s port Hs) as (p & Hl & Hr); [unfold PORT_ANY, CSP_PORT_MAX_BIND; lia|].
  run Hr. rewrite Hl. destruct p; [|done|done].
  destruct (get_port_run s PORT_ANY Hs) as (a & Hal & Har); [unfold PORT_ANY, CSP_PORT_MAX_BIND; lia|].
  run Har. rewrite Hal. by destruct a.
Qed.

(** A port that can be bound: one of the table, or all of them. *)
Definition bindable port : Prop := 0 ≤ port ≤ CSP_PORT_MAX_BIND ∨ port = CSP_ANY.
Definition entry_of port : Z := if bool_decide (port = CSP_ANY) then PORT_ANY else port.

#[export] Instance bindable_dec port : Decision (bindable port).
Proof. unfold bindable; apply _. Defined.

Lemma bind_entry_run s entry port einval eused :
  ports_ok s → 0 ≤ port →
  bind_entry entry port einval eused s =
    if bool_decide (bindable port) then
      if bool_decide (k_ports s !! Z.to_nat (entry_of port) = Some PORT_CLOSED)
      then Some (CSP_ERR_NONE, set_k_ports (<[Z.to_nat (entry_of port) := entry]> (k_ports s)) s)
      else Some (eused, set_k_core (set_c_dbg (set_errno CSP_DBG_ERR_PORT_ALREADY_IN_USE
                          (c_dbg (k_core s))) (k_core s)) s)
    else Some (einval, set_k_core (set_c_dbg (set_errno CSP_DBG_ERR_INVALID_BIND_PORT
                          (c_dbg (k_core s))) (k_core s)) s).
Proof.
  intros Hs Hp. unfold bind_entry, bindable.
  assert (bool_decide (port = CSP_ANY) || negb (bool_decide (CSP_PORT_MAX_BIND < port)) =
    bool_decide (0 ≤ port ≤ CSP_PORT_MAX_BIND ∨ port = CSP_ANY)) as ->.
  { unfold CSP_ANY, CSP_PORT_MAX_BIND. repeat case_bool_decide; simpl; try done; lia. }
  case_bool_decide as Hb; [|done]. fold (entry_of port).
  assert (0 ≤ entry_of port ≤ PORT_ANY) as He.
  { unfold entry_of, PORT_ANY, CSP_ANY, CSP_PORT_MAX_BIND in *. case_bool_decide; lia. }
  destruct (get_port_run s (entry_of port) Hs He) as (p & Hl & Hr). run Hr. rewrite Hl.
  destruct p; [by rewrite bool_decide_true|by rewrite bool_decide_false..].
Qed.

(** The effect of a new entry on who is in charge. *)
Lemma handler_bind s entry port p :
  ports_ok s → entry ≠ PORT_CLOSED → bindable port →
  k_ports s !! Z.to_nat (entry_of port) = Some PORT_CLOSED →
  handler (set_k_ports (<[Z.to_nat (entry_of port) := entry]> (k_ports s)) s) p =
    if bool_decide (port = CSP_ANY) then
      if bool_decide (0 ≤ p ≤ CSP_PORT_MAX_BIND) && bool_decide (handler s p = PORT_CLOSED)
      then entry else handler s p
    else if bool_decide (p = port) then entry else handler s p.
Proof.
  intros Hs Hne Hb Hcl. unfold handler. cbn [k_ports set_k_ports].
  unfold bindable, entry_of, PORT_ANY, CSP_PORT_MAX_BIND, CSP_ANY in *.
  pose proof (lookup_lt_Some _ _ _ Hcl) as Hlt.
  destruct (decide (0 ≤ p ≤ 16)) as [Hp|Hp].
  2:{ rewrite !(bool_decide_false (0 ≤ p ≤ 16)) by done. case_bool_decide; [done|].
      by rewrite bool_decide_false by lia. }
  rewrite !(bool_decide_true (0 ≤ p ≤ 16)) by done.
  destruct (decide (port = 255)) as [->|Hany].
  - rewrite !(bool_decide_true (255 = 255)) in * by done.
    rewrite list_lookup_insert_ne by lia. rewrite list_lookup_insert_eq by done. rewrite Hcl.
    destruct (k_ports s !! Z.to_nat p) as [[]|]; simpl; by rewrite ?bool_decide_true, ?bool_decide_false.
  - rewrite !(bool_decide_false (port = 255)) in * by done.
    rewrite (list_lookup_insert_ne (k_ports s) (Z.to_nat port) (Z.to_nat (16 + 1))) by lia.
    case_bool_decide as Heq.
    + subst p. rewrite list_lookup_insert_eq by done. by destruct entry.
    + by rewrite list_lookup_insert_ne by lia.
Qed.

(** Binding on a table: what [csp_bind] and [csp_bind_callback] promise. *)
Definition bind_result s (entry : csp_port_t) port (einval eused : Z) (r : option (Z * stack)) : Prop :=
  ∃ rc s', r = Some (rc, s') ∧ ports_ok s' ∧
    (rc = CSP_ERR_NONE ↔ bindable port ∧ k_ports s !! Z.to_nat (entry_of port) = Some PORT_CLOSED) ∧
    (rc = CSP_ERR_NONE → ∀ p, handler s' p =
       if bool_decide (port = CSP_ANY) then
         if bool_decide (0 ≤ p ≤ CSP_PORT_MAX_BIND) && bool_decide (handler s p = PORT_CLOSED)
         then entry else handler s p
       else if bool_decide (p = port) then entry else handler s p) ∧
    (rc ≠ CSP_ERR_NONE → rc = (if bool_decide (bindable port) then eused else einval) ∧
       k_ports s' = k_ports s).

Lemma bind_entry_result s entry port einval eused :
  ports_ok s → 0 ≤ port → entry ≠ PORT_CLOSED → einval ≠ CSP_ERR_NONE → eused ≠ CSP_ERR_NONE →
  bind_result s entry port einval eused (bind_entry entry port einval eused s).
Proof.
  intros Hs Hp Hne H1 H2. rewrite bind_entry_run by done. unfold bind_result.
  destruct (decide (bindable port)) as [Hb|Hb].
  - rewrite (bool_decide_true (bindable port)) by done.
    destruct (decide (k_ports s !! Z.to_nat (entry_of port) = Some PORT_CLOSED)) as [Hc|Hc].
    + rewrite (bool_decide_true (k_ports s !! _ = _)) by done. eexists _, _. split; [done|].
      split_and!; [|done| |done].
      * unfold ports_ok. cbn. by rewrite length_insert.
      * intros _ p. by apply handler_bind.
    + rewrite (bool_decide_false (k_ports s !! _ = _)) by done. eexists _, _. split; [done|].
      split_and!; try done; tauto.
  - rewrite (bool_decide_false (bindable port)) by done. eexists _, _. split; [done|].
    split_and!; try done; tauto.
Qed.
End Ports.

(** port dispatch.  A port is in the charge of its own entry or, when it has
    none, of the entry for all ports; [csp_port_get_callback] and
    [csp_port_get_socket] return that handler (so at most one of them returns one,
    and none for ports above the table).  [csp_bind] and [csp_bind_callback] succeed
    exactly on a port of the table or [CSP_ANY] that is not bound yet; then the new
    entry is in charge of that port, or of all ports nobody was in charge of, and of
    nothing else; otherwise they report the error and leave the table as it is. *)
Theorem csp_port_dispatch (s : stack) (x : nat) (port : Z) :
  ports_ok s → 0 ≤ port < 256 →
  csp_port_get_callback port s =
    Some (match handler s port with PORT_OPEN_CB c => Some c | _ => None end, s) ∧
  csp_port_get_socket port s =
    Some (match handler s port with PORT_OPEN so => Some so | _ => None end, s) ∧
  bind_result s (PORT_OPEN x) port CSP_ERR_INVAL CSP_ERR_USED (csp_bind (Some x) port s) ∧
  bind_result s (PORT_OPEN_CB x) port CSP_DBG_ERR_INVALID_BIND_PORT CSP_DBG_ERR_PORT_ALREADY_IN_USE
    (csp_bind_callback (Some x) port s).
Proof.
  intros Hs Hp. split_and!.
  - apply csp_port_get_callback_run; [done|lia].
  - apply csp_port_get_socket_run; [done|lia].
  - apply bind_entry_result; (done || lia).
  - apply bind_entry_result; (done || lia).
Qed.

(** A stack with an empty port table. *)
Definition port_example (core : csp_core) (conns : list csp_conn_t) : stack :=
  mk_stack core Rtable.rtable_init (replicate 18 PORT_CLOSED) ∅ conns 0 (mk_fifo 2000 []) (mk_fifo 2000 [])
    rdp_opts_default 0 None false Dedup.dedup_zero (replicate 16 0) 0 0.

Lemma csp_port_dispatch_witness :
  let s := port_example two_buffers [] in
  bind_result s (PORT_OPEN 7) 12 CSP_ERR_INVAL CSP_ERR_USED (csp_bind (Some 7%nat) 12 s) ∧
  csp_port_get_socket 12 s = Some (None, s).
Proof.
  intros s. destruct (csp_port_dispatch s 7 12) as (_ & Hg & Hb & _); [done|lia|].
  split; [exact Hb|]. rewrite Hg. done.
Defined.
