(* ===== verification/Net.v ===== *)
(** * The network layer

    The sending half of [src/csp_io.c] ([csp_send_direct], [csp_send_direct_iface])
    with the promiscuous queue ([src/csp_promisc.c]), and what it does to the
    packets of the stack. *)

From S2P Require Import Prelude Queue Types State Id Crc32 Buffer Rtable Qfifo Iflist Kiss Can Nexthop Sha1 Hmac Dedup Stack Port.

(** ** Promiscuous mode *)

(** [csp_promisc_enable]; the queue is created with a fixed length. *)
Definition csp_promisc_enable (queue_size : Z) : K Z :=
  q ← gets k_promisc_queue;
  match q with
  | Some _ => modify (set_k_promisc_enabled true);; mret CSP_ERR_NONE
  | None =>
      modify (set_k_promisc_queue (Some (csp_queue_create_static CSP_CONN_RXQUEUE_LEN)));;
      modify (set_k_promisc_enabled true);; mret CSP_ERR_NONE
  end.

Definition csp_promisc_disable : K () := modify (set_k_promisc_enabled false).

Definition promisc_take : K (option nat) :=
  q ← gets k_promisc_queue;
  match q with
  | None => mret None
  | Some q =>
      let '(r, q') := csp_queue_dequeue q in
      modify (set_k_promisc_queue (Some q'));; mret (default None r)
  end.

(** [csp_promisc_read]: a blocked reader waits for the other tasks. *)
Definition csp_promisc_read `{Env} (timeout : Z) : K (option nat) :=
  q ← gets k_promisc_queue;
  match q with
  | None => mret None
  | Some q =>
      when (bool_decide (fq_items q = []) && bool_decide (timeout ≠ 0)) (modify yield);; promisc_take
  end.

Definition csp_promisc_add (packet : nat) : K () :=
  enabled ← gets k_promisc_enabled;
  q ← gets k_promisc_queue;
  match (enabled : bool), q with
  | true, Some q =>
      copy ← liftC (csp_buffer_clone (Some packet));
      match copy with
      | None => mret ()
      | Some c =>
          let '(rc, q') := csp_queue_enqueue q (Some c) in
          modify (set_k_promisc_queue (Some q'));;
          when (bool_decide (rc ≠ CSP_QUEUE_OK)) (liftC (mod_dbg inc_conn_ovf);; kfree (Some c))
      end
  | _, _ => mret ()
  end.

(** ** Identifiers by reference

    [idout] of [csp_send_direct] points to the identifier of a connection, to that
    of the packet itself, or to a local variable of the caller. *)
Inductive idref := IdConn (c : nat) | IdPacket (b : nat) | IdLocal (i : csp_id_t).

#[export] Instance idref_eq_dec : EqDecision idref.
Proof. solve_decision. Defined.

Definition set_src (v : Z) (i : csp_id_t) : csp_id_t :=
  mk_id (pri i) (flags i) v (dst i) (dport i) (sport i).
Definition set_dst (v : Z) (i : csp_id_t) : csp_id_t :=
  mk_id (pri i) (flags i) (src i) v (dport i) (sport i).
Definition set_flags (v : Z) (i : csp_id_t) : csp_id_t :=
  mk_id (pri i) v (src i) (dst i) (dport i) (sport i).
Definition set_pri (v : Z) (i : csp_id_t) : csp_id_t :=
  mk_id v (flags i) (src i) (dst i) (dport i) (sport i).

Definition id_get (r : idref) : K csp_id_t :=
  match r with
  | IdConn c => idout <$> get_conn c
  | IdPacket b => pk_id <$> kget_packet b
  | IdLocal i => mret i
  end.

(** [r->src = v]; the reference after the assignment. *)
Definition id_set_src (r : idref) (v : Z) : K idref :=
  match r with
  | IdConn c => mod_conn c (λ x, set_idout (set_src v (idout x)) x);; mret r
  | IdPacket b => kmod_packet b (λ p, set_pk_id (set_src v (pk_id p)) p);; mret r
  | IdLocal i => mret (IdLocal (set_src v i))
  end.

(** ** Sending *)

Section Send.
Context `{Env}.

(** [csp_hmac_append] and [csp_crc32_append] as required by [flags]; [false] when one
    of them has no room ([goto tx_err]). *)
Definition append_trailers (flags : Z) (packet : nat) : K bool :=
  key ← gets k_hmac_key;
  ok ← (if has_flag flags CSP_FHMAC then
          p ← kget_packet packet;
          '(rc, p') ← lift_opt (csp_hmac_append key hmac_locals.1 hmac_locals.2 p false);
          kput_packet packet p';; mret (bool_decide (rc = CSP_ERR_NONE))
        else mret true);
  if (ok : bool) then
    if has_flag flags CSP_FCRC32 then
      p ← kget_packet packet;
      '(rc, p') ← lift_opt (csp_crc32_append p);
      kput_packet packet p';; mret (bool_decide (rc = CSP_ERR_NONE))
    else mret true
  else mret false.

Definition tx_err (packet iface : nat) : K () :=
  kfree (Some packet);; liftC (iface_add iface StTxError 1).

Definition csp_send_direct_iface (id : idref) (packet iface : nat) (via : Z) (from_me : bool) : K () :=
  (if bool_decide (id = IdPacket packet) then mret ()
   else i ← id_get id; kmod_packet packet (λ p, set_pk_id (csp_id_copy i) p));;
  when (from_me && bool_decide (iface ≠ csp_if_lo)) (csp_promisc_add packet);;
  i ← id_get id;
  ok ← (if from_me then append_trailers (flags i) packet else mret true);
  if (ok : bool) then
    p ← kget_packet packet;
    let bytes := pk_length p in
    rc ← liftC (nexthop iface (u16 via) packet from_me);
    if bool_decide (rc ≠ CSP_ERR_NONE) then tx_err packet iface
    else liftC (iface_add iface StTx 1);; liftC (iface_add iface StTxbytes bytes)
  else tx_err packet iface.

(** [csp_iflist_is_within_subnet(iface->addr, routed_from)] *)
Definition within_subnet_of (iface : nat) (routed_from : option nat) : K bool :=
  f ← liftC (get_iface iface);
  v ← conf_version;
  match routed_from with
  | None => lift_opt (csp_iflist_is_within_subnet v (if_addr f) None)
  | Some r => rf ← liftC (get_iface r); lift_opt (csp_iflist_is_within_subnet v (if_addr f) (Some rf))
  end.

(** The split-horizon tests at the head of each loop body. *)
Definition split_horizon (iface : nat) (routed_from : option nat) : K bool :=
  if bool_decide (routed_from = Some iface) then mret true else within_subnet_of iface routed_from.

(** [csp_buffer_clone] and, when it succeeds, [csp_send_direct_iface]. *)
Definition send_copy (id : idref) (packet : option nat) (iface : nat) (via : Z) (from_me : bool) : K () :=
  copy ← liftC (csp_buffer_clone packet);
  match copy with
  | None => mret ()
  | Some c => csp_send_direct_iface id c iface via from_me
  end.

(** The loop over the interfaces whose subnet contains the destination; [local] is
    [_idout].  Whether one was found. *)
Fixpoint send_local (fuel : nat) (id : idref) (local : csp_id_t) (packet : option nat)
    (routed_from iface : option nat) : K bool :=
  match fuel with
  | O => ub
  | S fuel' =>
      i ← id_get id;
      next ← (λ s, lift_opt (csp_iflist_get_by_subnet (k_core s) (dst i) iface) s);
      match next with
      | None => mret false
      | Some a =>
          skip ← split_horizon a routed_from;
          if (skip : bool) then send_local fuel' id local packet routed_from next;; mret true
          else
            f ← liftC (get_iface a);
            v ← conf_version;
            let from_me := bool_decide (routed_from = None) in
            let local := if from_me && bool_decide (src i = 0) then set_src (if_addr f) local else local in
            bc ← lift_opt (csp_id_is_broadcast v (dst i) f);
            let local := if (bc : bool) then set_dst (csp_id_get_max_nodeid v) local else local in
            send_copy (IdLocal local) packet a CSP_NO_VIA_ADDRESS from_me;;
            send_local fuel' id local packet routed_from next;; mret true
      end
  end.

(** [idout->src = addr] when the packet is from this node and has no source. *)
Definition apply_source (id : idref) (addr : Z) (from_me : bool) : K idref :=
  i ← id_get id;
  if from_me && bool_decide (src i = 0) then id_set_src id addr else mret id.

(** [do { ... } while ((route = csp_rtable_search_backward(route)) != NULL)] *)
Fixpoint send_routes (fuel : nat) (id : idref) (packet : option nat) (routed_from : option nat)
    (route : nat) : K idref :=
  match fuel with
  | O => ub
  | S fuel' =>
      t ← gets k_rtable;
      r ← lift_opt (rtable t !! route);
      let from_me := bool_decide (routed_from = None) in
      id ← (if bool_decide (rt_iface r = routed_from) then mret id else
            a ← lift_opt (rt_iface r);
            skip ← within_subnet_of a routed_from;
            if (skip : bool) then mret id else
            f ← liftC (get_iface a);
            id ← apply_source id (if_addr f) from_me;
            send_copy id packet a (rt_via r) from_me;; mret id);
      next ← lift_opt (csp_rtable_search_backward t (Some route));
      match next with
      | None => mret id
      | Some route' => send_routes fuel' id packet routed_from route'
      end
  end.

(** The loop over the default interfaces. *)
Fixpoint send_default (fuel : nat) (id : idref) (packet : option nat)
    (routed_from iface : option nat) : K idref :=
  match fuel with
  | O => ub
  | S fuel' =>
      next ← (λ s, lift_opt (csp_iflist_get_by_isdfl (k_core s) iface) s);
      match next with
      | None => mret id
      | Some a =>
          skip ← split_horizon a routed_from;
          if (skip : bool) then send_default fuel' id packet routed_from next
          else
            f ← liftC (get_iface a);
            let from_me := bool_decide (routed_from = None) in
            id ← apply_source id (if_addr f) from_me;
            send_copy id packet a CSP_NO_VIA_ADDRESS from_me;;
            send_default fuel' id packet routed_from next
      end
  end.

(** [csp_send_direct].  The packet may be [NULL] (a retransmission whose copy could
    not be made). *)
Definition csp_send_direct (id : idref) (packet : option nat) (routed_from : option nat) : K () :=
  i ← id_get id;
  n ← gets (λ s, walk_fuel (k_core s));
  local_found ← send_local n id i packet routed_from None;
  if (local_found : bool) then kfree packet else
  v ← conf_version;
  t ← gets k_rtable;
  i ← id_get id;
  route ← lift_opt (csp_rtable_find_route v t (dst i));
  match route with
  | Some r => send_routes (S r) id packet routed_from r;; kfree packet
  | None => send_default n id packet routed_from None;; kfree packet
  end.
End Send.

(** ** What sending does to the stack *)

(** The buffers waiting in the router's input queue and in the promiscuous queue. *)
Definition qbufs (s : stack) : list nat :=
  omap fst (fq_items (c_qfifo (k_core s))) ++
  match k_promisc_queue s with Some q => omap id (fq_items q) | None => [] end.

(** Only the link layer, the promiscuous queue and connection identifiers differ. *)
Definition transport_kept (s s' : stack) : Prop :=
  s' = set_k_promisc_queue (k_promisc_queue s') (set_k_conns (k_conns s') (set_k_core (k_core s') s)).

(** [s'] is [s] after work on the packet of buffer [b] (if any) that put the buffers
    [new] into the two queues: other buffers in use are untouched, and the buffers
    that came into use are exactly those in the queues. *)
Record net_step (b : option nat) (new : list nat) (s s' : stack) : Prop := {
  ns_inv : buf_inv (k_core s');
  ns_rest : transport_kept s s';
  ns_kept : ∀ x, b ≠ Some x → allocated (k_core s) x → c_pool (k_core s') !! x = c_pool (k_core s) !! x;
  ns_alloc : ∀ x, b ≠ Some x → allocated (k_core s') x → allocated (k_core s) x ∨ x ∈ new;
  ns_nodup : NoDup new;
  ns_fresh : ∀ x, x ∈ new → owned (k_core s') x ∧ (¬ allocated (k_core s) x ∨ b = Some x);
  ns_queued : qbufs s' ≡ₚ qbufs s ++ new;
  ns_version : c_version (k_core s') = c_version (k_core s);
  ns_now : c_now (k_core s') = c_now (k_core s);
  ns_ifaces : ifaces_kept (k_core s) (k_core s');
  ns_can : ∀ i, is_Some (c_can (k_core s) !! i) → is_Some (c_can (k_core s') !! i);
  ns_length : List.length (c_pool (k_core s')) = List.length (c_pool (k_core s));
}.

(** A connection's identifier may get a source address. *)
Definition conns_step (id : idref) (s s' : stack) : Prop :=
  k_conns s' = k_conns s ∨
  ∃ c x v, id = IdConn c ∧ k_conns s !! c = Some x ∧ is_u16 v ∧
    k_conns s' = <[c := set_idout (set_src v (idout x)) x]> (k_conns s).

Section NetSteps.
Implicit Types (s : stack) (b : option nat) (x c : nat).

Lemma transport_kept_refl s : transport_kept s s.
Proof. by destruct s. Qed.

Lemma transport_kept_trans s1 s2 s3 :
  transport_kept s1 s2 → transport_kept s2 s3 → transport_kept s1 s3.
Proof. unfold transport_kept. intros H12 H23. rewrite H23, H12. by destruct s1, s2, s3. Qed.

Lemma owned_allocated core x : owned core x → allocated core x.
Proof. intros (k & Hk & Hr). exists k. split; [done|lia]. Qed.

Lemma allocated_ext core core' x :
  c_pool core' !! x = c_pool core !! x → allocated core x → allocated core' x.
Proof. intros Hp (k & Hk & Hr). exists k. by rewrite Hp. Qed.

Lemma owned_ext core core' x :
  c_pool core' !! x = c_pool core !! x → owned core x → owned core' x.
Proof. intros Hp (k & Hk & Hr). exists k. by rewrite Hp. Qed.

Lemma net_step_refl b s : buf_inv (k_core s) → net_step b [] s s.
Proof.
  intros Hi. split; try done.
  - apply transport_kept_refl.
  - by left.
  - constructor.
  - intros x Hx. by apply elem_of_nil in Hx.
  - by rewrite app_nil_r.
Qed.

Lemma net_step_trans b n1 n2 s1 s2 s3 :
  (∀ x, x ∈ n1 → b ≠ Some x) → net_step b n1 s1 s2 → net_step b n2 s2 s3 → net_step b (n1 ++ n2) s1 s3.
Proof.
  intros Hb H1 H2.
  assert (∀ x, b ≠ Some x → allocated (k_core s1) x → allocated (k_core s2) x) as Hmono.
  { intros x Hx Ha. eapply allocated_ext; [|exact Ha]. by apply (ns_kept _ _ _ _ H1). }
  split.
  - apply H2.
  - eapply transport_kept_trans; [apply H1|apply H2].
  - intros x Hx Ha. rewrite (ns_kept _ _ _ _ H2), (ns_kept _ _ _ _ H1); auto.
  - intros x Hx Ha. rewrite elem_of_app.
    destruct (ns_alloc _ _ _ _ H2 x Hx Ha) as [Ha2|]; [|tauto].
    destruct (ns_alloc _ _ _ _ H1 x Hx Ha2); tauto.
  - apply NoDup_app. split_and!; [apply H1| |apply H2]. intros x Hx1 Hx2.
    destruct (ns_fresh _ _ _ _ H1 x Hx1) as [Ho _].
    destruct (ns_fresh _ _ _ _ H2 x Hx2) as [_ [Hna| ->]]; [|by apply (Hb x)].
    by apply Hna, owned_allocated.
  - intros x [Hx|Hx]%elem_of_app.
    + destruct (ns_fresh _ _ _ _ H1 x Hx) as [Ho Hf]. split; [|done].
      eapply owned_ext; [|exact Ho]. apply (ns_kept _ _ _ _ H2); [auto|by apply owned_allocated].
    + destruct (ns_fresh _ _ _ _ H2 x Hx) as [Ho Hf]. split; [done|].
      destruct (decide (b = Some x)) as [->|Hne]; [by right|]. left. intros Ha.
      destruct Hf as [Hna| ->]; [|done]. by apply Hna, Hmono.
  - rewrite (ns_queued _ _ _ _ H2), (ns_queued _ _ _ _ H1), app_assoc. done.
  - rewrite (ns_version _ _ _ _ H2). apply H1.
  - rewrite (ns_now _ _ _ _ H2). apply H1.
  - transitivity (k_core s2); [apply H1|apply H2].
  - intros i Hi. by apply (ns_can _ _ _ _ H2), (ns_can _ _ _ _ H1).
  - rewrite (ns_length _ _ _ _ H2). apply H1.
Qed.

Lemma net_step_weaken b new s s' : net_step None new s s' → net_step b new s s'.
Proof.
  intros [? ? Hk Ha ? Hf]. split; try done; auto.
  intros x Hx. destruct (Hf x Hx) as [? [?|?]]; [tauto|done].
Qed.

(** A link-layer step on buffer [x] that leaves the queue alone. *)
Lemma net_step_link x s core :
  link_step x (k_core s) core → c_qfifo core = c_qfifo (k_core s) →
  net_step (Some x) [] s (set_k_core core s).
Proof.
  intros Hls Hq. split; cbn [k_core set_k_core]; try apply Hls.
  - by destruct s.
  - intros y Hy _. apply Hls. congruence.
  - intros y Hy Ha. left. eapply allocated_ext; [|exact Ha]. symmetry. apply Hls. congruence.
  - constructor.
  - intros y Hy. by apply elem_of_nil in Hy.
  - rewrite app_nil_r. unfold qbufs. cbn [k_core set_k_core k_promisc_queue]. by rewrite Hq.
Qed.
End NetSteps.

(** ** Invariant of the network layer *)

(** A packet that may be sent: the caller is its only owner and its length fits. *)
Definition sendable (s : stack) (x : nat) : Prop :=
  ∃ k, c_pool (k_core s) !! x = Some k ∧ refcount k = 1 ∧ pk_length (skbf_data k) ≤ CSP_BUFFER_SIZE.

Definition packet_good (s : stack) (packet : option nat) : Prop :=
  match packet with Some x => sendable s x | None => True end.

(** The interfaces [l] are well formed and can transmit, the routing table only names
    such interfaces, and an HMAC key is set. *)
Record net_env `{Env} (l : list nat) (s : stack) : Prop := {
  ne_inv : buf_inv (k_core s);
  ne_list : iflist (k_core s) l;
  ne_valid : ifaces_valid (k_core s) l;
  ne_ready : ∀ i, i ∈ l → iface_ready (k_core s) i;
  ne_lo : is_Some (c_ifaces (k_core s) !! csp_if_lo);
  ne_rtable : rtable_ok (c_version (k_core s)) (k_rtable s);
  ne_routes : ∀ i r, Z.of_nat i < rtable_inptr (k_rtable s) → rtable (k_rtable s) !! i = Some r →
    ∃ a, rt_iface r = Some a ∧ a ∈ l;
  ne_key : bytes_ok (k_hmac_key s) ∧ k_hmac_key s ≠ [];
  ne_locals : locals_ok hmac_locals.1 hmac_locals.2;
}.

(** A reference to an identifier: of an open connection, of the packet itself, or a
    local one. *)
Definition id_good (s : stack) (packet : option nat) (r : idref) : Prop :=
  match r with
  | IdConn c => ∃ x, k_conns s !! c = Some x ∧ id_ok (idout x)
  | IdPacket b => packet = Some b
  | IdLocal i => id_ok i
  end.

Section NetEnv.
Context `{Env}.
Implicit Types (s : stack) (b packet : option nat) (x c : nat) (l : list nat).

Lemma iflist_kept core core' l : ifaces_kept core core' → iflist core l → iflist core' l.
Proof.
  intros [Hh Hk] [Hs Hnd]. split; [|done]. rewrite Hh.
  revert Hs. generalize (c_interfaces core). clear Hnd. induction l as [|a l IH]; intros p; [done|].
  intros (-> & f & Hf & Hs). destruct (Hk a f Hf) as (f' & Hf' & Hc). split; [done|].
  exists f'. split; [done|]. apply IH. by destruct Hc as (_ & _ & _ & _ & _ & ->).
Qed.

Lemma iflist_elem core l a : iflist core l → a ∈ l → ∃ f, c_ifaces core !! a = Some f.
Proof.
  intros [Hs _]. revert Hs. generalize (c_interfaces core). induction l as [|b l IH]; intros p; [by intros _ ?%not_elem_of_nil|].
  intros (-> & f & Hf & Hs) [->|Ha]%elem_of_cons; [by exists f|]. by eapply IH.
Qed.

Lemma net_env_step b new l s s' : net_step b new s s' → net_env l s → net_env l s'.
Proof.
  intros Hst [Hi Hl Hv Hr Hlo Ht Hro Hkey Hloc]. pose proof (ns_ifaces _ _ _ _ Hst) as Hk.
  assert (k_rtable s' = k_rtable s ∧ k_hmac_key s' = k_hmac_key s) as [Hrt Hhk]
    by (rewrite (ns_rest _ _ _ _ Hst); done).
  split; rewrite ?Hrt, ?Hhk, ?(ns_version _ _ _ _ Hst); try done; try apply Hst.
  - by eapply iflist_kept.
  - intros a f' Ha Hf'. destruct (iflist_elem _ _ _ Hl Ha) as [f Hf].
    destruct (proj2 Hk a f Hf) as (g & Hg & Hc). assert (g = f') as -> by congruence.
    destruct Hc as (-> & -> & _). rewrite (ns_version _ _ _ _ Hst). by apply (Hv a).
  - intros i Hin. destruct (Hr i Hin) as (f & Hf & Hm). destruct (proj2 Hk i f Hf) as (g & Hg & Hc).
    exists g. split; [done|]. destruct Hc as (_ & _ & _ & -> & _).
    pose proof (ns_can _ _ _ _ Hst i). unfold can_ready in *. destruct (if_nexthop f); auto.
  - destruct Hlo as [f Hf]. destruct (proj2 Hk _ _ Hf) as (g & Hg & _). by exists g.
Qed.

Lemma sendable_kept b new s s' x : net_step b new s s' → b ≠ Some x → sendable s x → sendable s' x.
Proof.
  intros Hst Hb (k & Hk & Hr & Hl). exists k. split; [|done].
  rewrite (ns_kept _ _ _ _ Hst); [done|done|]. exists k. split; [done|lia].
Qed.

Lemma sendable_owned s x : sendable s x → owned (k_core s) x.
Proof. intros (k & Hk & Hr & _). by exists k. Qed.

(** Reading through a reference. *)
Lemma id_get_run s packet r :
  buf_inv (k_core s) → packet_good s packet → id_good s packet r →
  ∃ i, id_get r s = Some (i, s) ∧ id_ok i.
Proof.
  intros Hi Hp Hr. destruct r as [c|b|i]; cbn [id_get id_good] in *.
  - destruct Hr as (x & Hx & Hok). exists (idout x). split; [|done]. unfold fmap, ST_fmap.
    by rewrite (get_conn_run s c x Hx).
  - subst packet. destruct Hp as (k & Hk & _ & _). destruct (bi_pool _ Hi _ _ Hk) as (_ & Hok & _).
    exists (pk_id (skbf_data k)). split; [|apply Hok]. unfold fmap, ST_fmap, kget_packet.
    rewrite (liftC_run (get_packet b) s (skbf_data k) (k_core s)) by (by apply get_packet_run).
    by rewrite set_k_core_id.
  - by exists i.
Qed.

Lemma id_good_conns s s' packet r : k_conns s' = k_conns s → id_good s packet r → id_good s' packet r.
Proof. intros Hc. destruct r; cbn; [by rewrite Hc|done|done]. Qed.

(** ** The promiscuous queue *)

Lemma csp_buffer_clone_frame core (b : option nat) r core' :
  csp_buffer_clone b core = Some (r, core') → pool_only core core'.
Proof.
  destruct b as [b|]; [|intros [= <- <-]; by destruct core]. unfold csp_buffer_clone.
  intros (p & s1 & H1 & (r1 & s2 & Hg & H2)%ST_bind_Some)%ST_bind_Some.
  assert (s1 = core) as ->.
  { revert H1. st_unfold. destruct (c_pool core !! b); simpl; [|done]. by intros [= _ <-]. }
  apply csp_buffer_get_frame in Hg. destruct r1 as [c|]; [|by injection H2 as <- <-].
  revert H2. st_unfold. destruct (c_pool s2 !! b); simpl; [|done].
  destruct (c_pool s2 !! c) eqn:Hc; simpl; [|done]. rewrite Hc. simpl. intros [= <- <-].
  unfold pool_only in *.
  rewrite Hg. by destruct core, s2.
Qed.

(** Cloning an owned packet: no buffer is left, or a fresh one holds the copy. *)
Lemma clone_step s x :
  buf_inv (k_core s) → sendable s x →
  ∃ r s', liftC (csp_buffer_clone (Some x)) s = Some (r, s') ∧ k_conns s' = k_conns s ∧
    k_promisc_queue s' = k_promisc_queue s ∧ c_qfifo (k_core s') = c_qfifo (k_core s) ∧
    match r with
    | None => net_step None [] s s'
    | Some c => net_step (Some c) [] s s' ∧ sendable s' c ∧ ¬ allocated (k_core s) c
    end.
Proof.
  intros Hi (k & Hk & Hr & Hl). destruct (bi_pool _ Hi _ _ Hk) as (_ & Hok & _).
  destruct (csp_buffer_clone_spec (k_core s) x k Hi Hk) as
    [(core & Hc & _ & Hi' & Hp)|(c & q & core & Hc & Hi' & Hne & Hna & Hq & _ & Hfq & Hp)]; [lia|..];
    pose proof (csp_buffer_clone_frame _ _ _ _ Hc) as Hf.
  - exists None, (set_k_core core s). rewrite (liftC_run _ s None core Hc).
    assert (c_qfifo core = c_qfifo (k_core s)) as Hqf by (rewrite Hf; done).
    split_and!; [done|done|done|done|].
    split; cbn [k_core set_k_core]; rewrite ?Hp; try (rewrite Hf; done).
    + by destruct s.
    + done.
    + intros y _ Ha. left. eapply allocated_ext; [|exact Ha]. by rewrite Hp.
    + constructor.
    + intros y Hy. by apply elem_of_nil in Hy.
    + rewrite app_nil_r. unfold qbufs. cbn [k_core set_k_core k_promisc_queue]. by rewrite Hqf.
    + rewrite Hf. by apply ifaces_same.
    + done.
  - exists (Some c), (set_k_core core s). rewrite (liftC_run _ s (Some c) core Hc).
    assert (c_qfifo core = c_qfifo (k_core s)) as Hqf by (rewrite Hf; done).
    split_and!; [done|done|done|done| | |done].
    + apply net_step_link; [|done]. split; try (rewrite Hf; done); try done.
      * intros y Hy. rewrite Hp. by rewrite list_lookup_insert_ne.
      * rewrite Hp. by rewrite length_insert.
      * rewrite Hf. by apply ifaces_same.
    + assert (c < List.length (c_pool (k_core s)))%nat as Hlt.
      { apply (buf_inv_free_lt _ _ Hi). rewrite Hfq. by left. }
      eexists. split; [cbn; rewrite Hp; by apply list_lookup_insert_eq|]. done.
Qed.

(** A buffer taken from the free list during a step need not be mentioned. *)
Lemma net_step_hide c new s s' :
  net_step (Some c) new s s' → ¬ allocated (k_core s) c → (allocated (k_core s') c → c ∈ new) →
  net_step None new s s'.
Proof.
  intros Hst Hna Hc. pose proof Hst as [? ? Hk Ha ? Hf]. split; try done.
  - intros x _ Hx. apply Hk; [|done]. by intros [= ->].
  - intros x _ Hx. destruct (decide (x = c)) as [->|]; [right; auto|]. apply Ha; [congruence|done].
  - intros x Hx. destruct (Hf x Hx) as [Ho [?|[= ->]]]; auto.
Qed.

Lemma kfree_step s x :
  buf_inv (k_core s) → owned (k_core s) x →
  ∃ s', kfree (Some x) s = Some ((), s') ∧ net_step (Some x) [] s s' ∧ ¬ allocated (k_core s') x ∧
    k_conns s' = k_conns s.
Proof.
  intros Hi (k & Hk & Hr). destruct (link_step_free x (k_core s) k Hi Hk Hr) as (core & Hc & Hls & Hna & Hq).
  exists (set_k_core core s). unfold kfree. rewrite (liftC_run _ s () core Hc).
  split_and!; try done. by apply net_step_link.
Qed.

(** Changing the packet of a buffer. *)
Lemma kput_step s x k p :
  buf_inv (k_core s) → c_pool (k_core s) !! x = Some k → packet_ok p →
  ∃ s', kput_packet x p s = Some ((), s') ∧ net_step (Some x) [] s s' ∧ k_conns s' = k_conns s ∧
    c_pool (k_core s') !! x = Some (mk_skbf (refcount k) (skbf_addr k) p).
Proof.
  intros Hi Hk Hp. exists (set_k_core (upd_pkt (k_core s) x k p) s). unfold kput_packet.
  rewrite (liftC_run _ s () _ (put_packet_run (k_core s) x k p Hk)).
  split; [done|]. split; [|split; [done|exact (upd_pkt_lookup _ _ _ _ Hk)]].
  apply net_step_link; [by apply link_step_put|done].
Qed.

Lemma kget_run s x k : c_pool (k_core s) !! x = Some k → kget_packet x s = Some (skbf_data k, s).
Proof.
  intros Hk. unfold kget_packet. rewrite (liftC_run _ s _ _ (get_packet_run (k_core s) x k Hk)).
  by rewrite set_k_core_id.
Qed.

Lemma kmod_step s x k f :
  buf_inv (k_core s) → c_pool (k_core s) !! x = Some k → packet_ok (f (skbf_data k)) →
  ∃ s', kmod_packet x f s = Some ((), s') ∧ net_step (Some x) [] s s' ∧ k_conns s' = k_conns s ∧
    c_pool (k_core s') !! x = Some (mk_skbf (refcount k) (skbf_addr k) (f (skbf_data k))).
Proof. intros Hi Hk Hp. unfold kmod_packet. run (kget_run s x k Hk). by apply kput_step. Qed.

(** A change of the debug counters. *)
Lemma dbg_step b s f :
  buf_inv (k_core s) →
  ∃ s', liftC (mod_dbg f) s = Some ((), s') ∧ net_step b [] s s' ∧ k_conns s' = k_conns s ∧
    c_pool (k_core s') = c_pool (k_core s).
Proof.
  intros Hi. eexists. split; [done|]. split; [|done]. apply net_step_weaken.
  split; cbn [k_core set_k_core]; try done.
  - by apply (buf_inv_ext (k_core s)).
  - intros x _ Ha. by left.
  - constructor.
  - intros x Hx. by apply elem_of_nil in Hx.
  - by rewrite app_nil_r.
  - by apply ifaces_same.
Qed.

Lemma omap_id_snoc (q : list (option nat)) c : omap id (q ++ [Some c]) = omap id q ++ [c].
Proof. by rewrite omap_app. Qed.

(** Putting an owned buffer into the promiscuous queue. *)
Lemma promisc_enqueue_step s c q :
  buf_inv (k_core s) → owned (k_core s) c → k_promisc_queue s = Some q →
  net_step (Some c) [c] s (set_k_promisc_queue (Some (mk_fifo (fq_cap q) (fq_items q ++ [Some c]))) s).
Proof.
  intros Hi Ho Hq. split; cbn [k_core set_k_promisc_queue]; try done.
  - intros x _ Ha. by left.
  - apply NoDup_singleton.
  - intros x ->%list_elem_of_singleton. by split; [|right].
  - unfold qbufs. cbn [k_core k_promisc_queue set_k_promisc_queue fq_items]. rewrite Hq, omap_id_snoc.
    by rewrite app_assoc.
Qed.

Lemma promisc_add_step s x :
  buf_inv (k_core s) → sendable s x →
  ∃ s' new, csp_promisc_add x s = Some ((), s') ∧ net_step None new s s' ∧ k_conns s' = k_conns s.
Proof.
  intros Hi Hx. unfold csp_promisc_add.
  run (eq_refl : gets k_promisc_enabled s = Some (k_promisc_enabled s, s)).
  run (eq_refl : gets k_promisc_queue s = Some (k_promisc_queue s, s)).
  destruct (k_promisc_enabled s); [|exists s, []; split; [done|]; split; [by apply net_step_refl|done]].
  destruct (k_promisc_queue s) as [q|] eqn:Hq; [|exists s, []; split; [done|]; split; [by apply net_step_refl|done]].
  destruct (clone_step s x Hi Hx) as (r & s1 & Hr & Hc1 & Hq1 & _ & Hs1). run Hr.
  destruct r as [c|]; [|by exists s1, []].
  destruct Hs1 as (Hst & Hsend & Hna). pose proof (sendable_owned _ _ Hsend) as Ho.
  pose proof (ns_inv _ _ _ _ Hst) as Hi1.
  destruct (decide (List.length (fq_items q) < fq_cap q)%nat) as [Hroom|Hfull].
  - rewrite csp_queue_enqueue_ok by done. erewrite ST_bind_run; [|done]. cbv beta iota.
    eexists _, [c]. split; [done|]. split; [|done]. apply (net_step_hide c); [|done|by left].
    apply (net_step_trans (Some c) [] [c] s s1); [by intros ? ?%not_elem_of_nil|done|].
    apply promisc_enqueue_step; [done|done|congruence].
  - rewrite csp_queue_enqueue_full by lia. erewrite ST_bind_run; [|done]. cbv beta iota.
    replace (set_k_promisc_queue (Some q) s1) with s1 by
      (rewrite <- Hq, <- Hq1; by destruct s1).
    change (when (bool_decide (CSP_QUEUE_ERROR ≠ CSP_QUEUE_OK)) ?m) with m.
    destruct (dbg_step (Some c) s1 inc_conn_ovf Hi1) as (s2 & Hs2 & Hst2 & Hc2 & Hp2). run Hs2.
    destruct (kfree_step s2 c) as (s3 & Hs3 & Hst3 & Hna3 & Hc3);
      [apply Hst2|eapply owned_ext; [|exact Ho]; by rewrite Hp2|].
    exists s3, []. rewrite Hs3. split; [done|]. split; [|congruence].
    apply (net_step_hide c); [|done|done].
    apply (net_step_trans (Some c) [] [] s s1); [by intros ? ?%not_elem_of_nil|done|].
    apply (net_step_trans (Some c) [] [] s1 s2); [by intros ? ?%not_elem_of_nil|done|done].
Qed.

(** ** One packet on one interface *)

Lemma csp_hmac_append_total key p :
  bytes_ok key → key ≠ [] → locals_ok hmac_locals.1 hmac_locals.2 →
  packet_ok p → pk_length p ≤ CSP_BUFFER_SIZE →
  ∃ rc p', csp_hmac_append key hmac_locals.1 hmac_locals.2 p false = Some (rc, p') ∧ packet_ok p' ∧
    pk_length p' ≤ CSP_BUFFER_SIZE ∧ pk_id p' = pk_id p.
Proof.
  intros Hk Hne Hlo Hp Hl. destruct (decide (pk_length p + 4 ≤ CSP_BUFFER_SIZE)) as [Hf|Hf].
  - destruct (csp_hmac_append_data key _ _ Hlo Hk Hne p Hp Hf) as (pay & p' & _ & Ha & Hp' & Hid & Hl' & _).
    exists CSP_ERR_NONE, p'. split_and!; try done. lia.
  - exists CSP_ERR_NOMEM, p. unfold csp_hmac_append, CSP_HMAC_LENGTH. by rewrite bool_decide_true by lia.
Qed.

(** Applying a trailer function that is total on packets that fit. *)
Lemma trailer_step (tr : csp_packet_t → option (Z * csp_packet_t)) s x :
  (∀ p, packet_ok p → pk_length p ≤ CSP_BUFFER_SIZE →
     ∃ rc p', tr p = Some (rc, p') ∧ packet_ok p' ∧ pk_length p' ≤ CSP_BUFFER_SIZE ∧ pk_id p' = pk_id p) →
  buf_inv (k_core s) → sendable s x →
  ∃ ok s', (p ← kget_packet x;
            '(rc, p') ← lift_opt (tr p);
            kput_packet x p';; mret (bool_decide (rc = CSP_ERR_NONE))) s = Some (ok, s') ∧
    net_step (Some x) [] s s' ∧ sendable s' x ∧ k_conns s' = k_conns s.
Proof.
  intros Htr Hi (k & Hk & Hr & Hl). destruct (bi_pool _ Hi _ _ Hk) as (_ & Hok & _).
  destruct (Htr _ Hok Hl) as (rc & p' & Htp & Hp' & Hl' & _). run (kget_run s x k Hk).
  erewrite ST_bind_run; [|exact (lift_opt_run_gen _ _ s Htp)]. cbv beta iota.
  destruct (kput_step s x k p' Hi Hk Hp') as (s' & Hs' & Hst & Hc & Hpool). run Hs'.
  eexists _, s'. split; [done|]. split; [done|]. split; [|done]. eexists. split; [exact Hpool|done].
Qed.

Lemma append_trailers_step l s x fl :
  net_env l s → sendable s x →
  ∃ ok s', append_trailers fl x s = Some (ok, s') ∧ net_step (Some x) [] s s' ∧ sendable s' x ∧
    k_conns s' = k_conns s.
Proof.
  intros He Hx. pose proof (ne_inv _ _ He) as Hi. destruct (ne_key _ _ He) as [Hk Hne].
  unfold append_trailers. run (eq_refl : gets k_hmac_key s = Some (k_hmac_key s, s)).
  assert (∃ ok s1, (if has_flag fl CSP_FHMAC then
      p ← kget_packet x;
      '(rc, p') ← lift_opt (csp_hmac_append (k_hmac_key s) hmac_locals.1 hmac_locals.2 p false);
      kput_packet x p';; mret (bool_decide (rc = CSP_ERR_NONE)) else mret true) s = Some (ok, s1) ∧
    net_step (Some x) [] s s1 ∧ sendable s1 x ∧ k_conns s1 = k_conns s) as (ok & s1 & Hs1 & Hst1 & Hx1 & Hc1).
  { destruct (has_flag fl CSP_FHMAC).
    - apply trailer_step; [|done|done]. intros p. apply csp_hmac_append_total; [done|done|apply He].
    - exists true, s. split; [done|]. split; [by apply net_step_refl|done]. }
  run Hs1. destruct ok; [|by exists false, s1].
  destruct (has_flag fl CSP_FCRC32); [|by exists true, s1].
  destruct (trailer_step csp_crc32_append s1 x csp_crc32_append_total) as (ok & s2 & Hs2 & Hst2 & Hx2 & Hc2);
    [apply Hst1|done|].
  exists ok, s2. split; [done|]. split; [|split; [done|congruence]].
  apply (net_step_trans (Some x) [] [] s s1); [by intros ? ?%not_elem_of_nil|done|done].
Qed.

Lemma iface_add_step b s i st n :
  buf_inv (k_core s) → is_Some (c_ifaces (k_core s) !! i) →
  ∃ s', liftC (iface_add i st n) s = Some ((), s') ∧ net_step b [] s s' ∧ k_conns s' = k_conns s ∧
    c_pool (k_core s') = c_pool (k_core s).
Proof.
  intros Hi [f Hf]. pose proof (iface_add_run (k_core s) i st n f Hf) as Hrun.
  pose proof (iface_add_kept _ _ _ _ _ Hrun) as Hk.
  eexists. rewrite (liftC_run _ s () _ Hrun). split; [done|]. split; [|done]. apply net_step_weaken.
  split; cbn [k_core set_k_core]; try done.
  - by apply (buf_inv_ext (k_core s)).
  - intros x _ Ha. by left.
  - constructor.
  - intros x Hx. by apply elem_of_nil in Hx.
  - by rewrite app_nil_r.
Qed.

(** The error exit: the packet is released and the error counted. *)
Lemma tx_err_step s x i :
  buf_inv (k_core s) → owned (k_core s) x → is_Some (c_ifaces (k_core s) !! i) →
  ∃ s', tx_err x i s = Some ((), s') ∧ net_step (Some x) [] s s' ∧ ¬ allocated (k_core s') x ∧
    k_conns s' = k_conns s.
Proof.
  intros Hi Ho [f Hf]. unfold tx_err. destruct (kfree_step s x Hi Ho) as (s1 & Hs1 & Hst1 & Hna & Hc1).
  run Hs1. destruct (proj2 (ns_ifaces _ _ _ _ Hst1) i f Hf) as (f1 & Hf1 & _).
  destruct (iface_add_step (Some x) s1 i StTxError 1) as (s2 & Hs2 & Hst2 & Hc2 & Hp2);
    [apply Hst1|by exists f1|].
  exists s2. rewrite Hs2. split; [done|]. split; [|split; [|congruence]].
  - apply (net_step_trans (Some x) [] [] s s1); [by intros ? ?%not_elem_of_nil|done|done].
  - intros Ha. apply Hna. eapply allocated_ext; [|exact Ha]. by rewrite Hp2.
Qed.

(** Queueing a buffer for the router. *)
Lemma net_step_queue x s core i :
  link_step x (k_core s) core → owned core x →
  c_qfifo core = mk_fifo (fq_cap (c_qfifo (k_core s))) (fq_items (c_qfifo (k_core s)) ++ [(Some x, Some i)]) →
  net_step (Some x) [x] s (set_k_core core s).
Proof.
  intros Hls Ho Hq. split; cbn [k_core set_k_core]; try apply Hls.
  - by destruct s.
  - intros y Hy _. apply Hls. congruence.
  - intros y Hy Ha. left. eapply allocated_ext; [|exact Ha]. symmetry. apply Hls. congruence.
  - apply NoDup_singleton.
  - intros y ->%list_elem_of_singleton. by split; [|right].
  - unfold qbufs. cbn [k_core set_k_core k_promisc_queue]. rewrite Hq. cbn [fq_items].
    rewrite omap_app. change (omap fst [(Some x, Some i)]) with [x].
    rewrite <- !app_assoc. by rewrite (Permutation_app_comm [x]).
Qed.

Lemma nexthop_step l s x i via fm :
  net_env l s → sendable s x → i ∈ l →
  ∃ rc s', liftC (nexthop i via x fm) s = Some (rc, s') ∧ k_conns s' = k_conns s ∧
    if bool_decide (rc = CSP_ERR_NONE)
    then ∃ new, net_step (Some x) new s s' ∧ (allocated (k_core s') x → x ∈ new)
    else net_step (Some x) [] s s' ∧ owned (k_core s') x.
Proof.
  intros He Hx Hi. pose proof (ne_ready _ _ He i Hi) as Hrdy.
  destruct (iflist_elem _ _ _ (ne_list _ _ He) Hi) as [f Hf].
  destruct (transmit_ok (k_core s) i via x fm) as (rc & core & Hc & Hls & Hfate);
    [split_and!; [apply He|by exists f|apply He|exact Hx]|exact Hrdy|].
  exists rc, (set_k_core core s). rewrite (liftC_run _ s rc core Hc). split; [done|]. split; [done|].
  unfold tx_fate in Hfate. case_bool_decide.
  - destruct Hfate as [[Hna Hq]|(Ho & j & Hq)].
    + exists []. split; [by apply net_step_link|done].
    + exists [x]. split; [by eapply net_step_queue|by left].
  - destruct Hfate as [Ho Hq]. split; [by apply net_step_link|done].
Qed.

Lemma net_step_chain x n s1 s2 s3 :
  net_step (Some x) [] s1 s2 → net_step (Some x) n s2 s3 → net_step (Some x) n s1 s3.
Proof. intros H1 H2. apply (net_step_trans (Some x) [] n s1 s2); [by intros ? ?%not_elem_of_nil|done|done]. Qed.

(** Counting a transmitted packet. *)
Lemma tx_count_step l x new s s1 i bytes :
  net_step (Some x) new s s1 → (allocated (k_core s1) x → x ∈ new) → net_env l s1 → i ∈ l →
  ∃ s', (liftC (iface_add i StTx 1);; liftC (iface_add i StTxbytes bytes)) s1 = Some ((), s') ∧
    net_step (Some x) new s s' ∧ (allocated (k_core s') x → x ∈ new) ∧ k_conns s' = k_conns s1.
Proof.
  intros Hst Hx He Hi. destruct (iflist_elem _ _ _ (ne_list _ _ He) Hi) as [f Hf].
  destruct (iface_add_step None s1 i StTx 1 (ne_inv _ _ He) ltac:(by exists f)) as (s2 & Hs2 & H2 & Hc2 & Hp2).
  run Hs2. pose proof (net_env_step _ _ _ _ _ H2 He) as He2.
  destruct (iflist_elem _ _ _ (ne_list _ _ He2) Hi) as [f2 Hf2].
  destruct (iface_add_step None s2 i StTxbytes bytes (ne_inv _ _ He2) ltac:(by exists f2))
    as (s3 & Hs3 & H3 & Hc3 & Hp3).
  exists s3. rewrite Hs3. split; [done|].
  pose proof (net_step_trans None [] [] _ _ _ ltac:(by intros ? ?%not_elem_of_nil) H2 H3) as H13.
  assert (c_pool (k_core s3) = c_pool (k_core s1)) as Hp by congruence.
  split; [|split; [|congruence]].
  - destruct Hst as [? ? Hk Ha ? Hfr Hqu ? ? ? ?]. split; try done.
    + apply H3.
    + eapply transport_kept_trans; [done|apply H13].
    + intros y Hy Hay. rewrite Hp. by apply Hk.
    + intros y Hy Hay. apply Ha; [done|]. eapply allocated_ext; [|exact Hay]. by rewrite Hp.
    + intros y Hy. destruct (Hfr y Hy) as [Ho ?]. split; [|done]. eapply owned_ext; [|exact Ho]. by rewrite Hp.
    + rewrite (ns_queued _ _ _ _ H13), app_nil_r. done.
    + by rewrite (ns_version _ _ _ _ H13).
    + by rewrite (ns_now _ _ _ _ H13).
    + transitivity (k_core s1); [done|apply H13].
    + intros j Hj. apply (ns_can _ _ _ _ H13). auto.
    + by rewrite (ns_length _ _ _ _ H13).
  - intros Ha. apply Hx. eapply allocated_ext; [|exact Ha]. by rewrite Hp.
Qed.

Lemma set_pk_id_ok p i : packet_ok p → id_ok i → packet_ok (set_pk_id i p).
Proof. intros [] Hi. by split. Qed.

Lemma id_copy_ok i : id_ok i → id_ok (csp_id_copy i).
Proof. done. Qed.

(** Writing the identifier into the packet. *)
Lemma iface_id_step s x packet id :
  buf_inv (k_core s) → sendable s x → packet_good s packet → id_good s packet id →
  (id ≠ IdPacket x → packet ≠ Some x) →
  ∃ s', (if bool_decide (id = IdPacket x) then mret ()
         else i ← id_get id; kmod_packet x (λ p, set_pk_id (csp_id_copy i) p)) s = Some ((), s') ∧
    net_step (Some x) [] s s' ∧ sendable s' x ∧ k_conns s' = k_conns s.
Proof.
  intros Hi Hx Hp Hid Hne. case_bool_decide.
  - exists s. split; [done|]. split; [by apply net_step_refl|done].
  - destruct (id_get_run s packet id Hi Hp Hid) as (i & Hg & Hok). run Hg.
    pose proof Hx as (k & Hk & Hr & Hl). destruct (bi_pool _ Hi _ _ Hk) as (_ & Hpk & _).
    destruct (kmod_step s x k (λ p, set_pk_id (csp_id_copy i) p) Hi Hk) as (s' & Hs' & Hst & Hc & Hpool).
    { by apply set_pk_id_ok. }
    exists s'. split; [done|]. split; [done|]. split; [|done]. eexists. by split; [exact Hpool|].
Qed.

Lemma packet_good_kept b new s s' packet :
  net_step b new s s' → (∀ x, packet = Some x → b ≠ Some x) → packet_good s packet → packet_good s' packet.
Proof. intros Hst Hb. destruct packet as [x|]; [|done]. apply sendable_kept with (1 := Hst). by apply Hb. Qed.

(** Copies for the promiscuous queue. *)
Lemma promisc_when_step s x (c : bool) :
  buf_inv (k_core s) → sendable s x →
  ∃ s' new, when c (csp_promisc_add x) s = Some ((), s') ∧ net_step None new s s' ∧ k_conns s' = k_conns s.
Proof.
  intros Hi Hx. destruct c; [by apply promisc_add_step|].
  exists s, []. split; [done|]. split; [by apply net_step_refl|done].
Qed.

Lemma trailers_when_step l s x fl (c : bool) :
  net_env l s → sendable s x →
  ∃ ok s', (if c then append_trailers fl x else mret true) s = Some (ok, s') ∧
    net_step (Some x) [] s s' ∧ sendable s' x ∧ k_conns s' = k_conns s.
Proof.
  intros He Hx. destruct c; [by eapply append_trailers_step|].
  exists true, s. split; [done|]. split; [apply net_step_refl, He|done].
Qed.

(** The part of [csp_send_direct_iface] from the call of [nexthop] on. *)
Lemma hand_over_step l s x i via fm :
  net_env l s → sendable s x → i ∈ l →
  ∃ s' new, (p ← kget_packet x;
    let bytes := pk_length p in
    rc ← liftC (nexthop i via x fm);
    if bool_decide (rc ≠ CSP_ERR_NONE) then tx_err x i
    else liftC (iface_add i StTx 1);; liftC (iface_add i StTxbytes bytes)) s = Some ((), s') ∧
  net_step (Some x) new s s' ∧ (allocated (k_core s') x → x ∈ new) ∧ k_conns s' = k_conns s.
Proof.
  intros He Hx Hil. pose proof Hx as (k & Hk & Hr & Hlen). run (kget_run s x k Hk). cbv zeta.
  destruct (nexthop_step l s x i via fm He Hx Hil) as (rc & s4 & H4 & Hc4 & Hf). run H4.
  destruct (decide (rc = CSP_ERR_NONE)) as [Hrc|Hrc];
    [rewrite bool_decide_true in Hf by done; rewrite bool_decide_false by tauto
    |rewrite bool_decide_false in Hf by done; rewrite bool_decide_true by done].
  2: { destruct Hf as [Hst4 Ho4]. pose proof (net_env_step _ _ _ _ _ Hst4 He) as He4.
    destruct (iflist_elem _ _ _ (ne_list _ _ He4) Hil) as [f Hif].
    destruct (tx_err_step s4 x i (ne_inv _ _ He4) Ho4 ltac:(by exists f)) as (s5 & H5 & Hst5 & Hna & Hc5).
    exists s5, []. rewrite H5. split; [done|]. split; [by eapply net_step_chain|]. split; [done|congruence]. }
  destruct Hf as (new & Hst4 & Ha4).
  destruct (tx_count_step l x new s s4 i (pk_length (skbf_data k)) Hst4 Ha4
    (net_env_step _ _ _ _ _ Hst4 He) Hil) as (s5 & H5 & Hst5 & Ha5 & Hc5).
  exists s5, new. rewrite H5. split; [done|]. split; [done|]. split; [done|congruence].
Qed.

(** Sending a packet on one interface: it is released or handed to the router. *)
Lemma send_direct_iface_step l s x packet id i via fm :
  net_env l s → sendable s x → packet_good s packet → id_good s packet id → i ∈ l →
  (id ≠ IdPacket x → packet ≠ Some x) →
  ∃ s' new, csp_send_direct_iface id x i via fm s = Some ((), s') ∧
    net_step (Some x) new s s' ∧ (allocated (k_core s') x → x ∈ new) ∧ k_conns s' = k_conns s.
Proof.
  intros He Hx Hp Hid Hil Hne. unfold csp_send_direct_iface.
  destruct (iface_id_step s x packet id (ne_inv _ _ He) Hx Hp Hid Hne) as (s1 & H1 & Hst1 & Hx1 & Hc1). run H1.
  pose proof (net_env_step _ _ _ _ _ Hst1 He) as He1.
  destruct (promisc_when_step s1 x (fm && bool_decide (i ≠ csp_if_lo)) (ne_inv _ _ He1) Hx1)
    as (s2 & n2 & H2 & Hst2 & Hc2). run H2.
  pose proof (net_env_step _ _ _ _ _ Hst2 He1) as He2.
  assert (sendable s2 x) as Hx2 by (by eapply sendable_kept).
  assert (packet_good s2 packet) as Hp2.
  { destruct packet as [y|]; [|done]. destruct (decide (y = x)) as [->|Hyx]; [done|].
    eapply sendable_kept; [exact Hst2|done|]. eapply sendable_kept; [exact Hst1|congruence|done]. }
  assert (id_good s2 packet id) as Hid2 by (eapply id_good_conns; [|exact Hid]; congruence).
  destruct (id_get_run s2 packet id (ne_inv _ _ He2) Hp2 Hid2) as (idv & Hg & _). run Hg.
  destruct (trailers_when_step l s2 x (flags idv) fm He2 Hx2) as (ok & s3 & H3 & Hst3 & Hx3 & Hc3). run H3.
  pose proof (net_env_step _ _ _ _ _ Hst3 He2) as He3.
  assert (∀ y, y ∈ n2 → Some x ≠ Some y) as Hfr.
  { intros y Hy [= <-]. destruct (ns_fresh _ _ _ _ Hst2 x Hy) as [_ [Hna|]]; [|done].
    by apply Hna, owned_allocated, sendable_owned. }
  assert (net_step (Some x) n2 s s2) as Hst02.
  { eapply net_step_chain; [exact Hst1|]. by apply net_step_weaken. }
  assert (∃ s' new, (if ok then
      p ← kget_packet x;
      let bytes := pk_length p in
      rc ← liftC (nexthop i (u16 via) x fm);
      if bool_decide (rc ≠ CSP_ERR_NONE) then tx_err x i
      else liftC (iface_add i StTx 1);; liftC (iface_add i StTxbytes bytes)
    else tx_err x i) s3 = Some ((), s') ∧ net_step (Some x) new s3 s' ∧
    (allocated (k_core s') x → x ∈ new) ∧ k_conns s' = k_conns s3) as (s' & new & Hs' & Hst' & Ha' & Hc').
  { destruct ok; [by apply (hand_over_step l)|].
    destruct (iflist_elem _ _ _ (ne_list _ _ He3) Hil) as [f Hif].
    destruct (tx_err_step s3 x i (ne_inv _ _ He3) (sendable_owned _ _ Hx3) ltac:(by exists f))
      as (s4 & H4 & Hst4 & Hna & Hc4). exists s4, []. by rewrite H4. }
  exists s', (n2 ++ new). split; [exact Hs'|]. split; [|split; [|congruence]].
  - eapply net_step_trans; [done|exact Hst02|]. by eapply net_step_chain.
  - intros Ha. apply elem_of_app. auto.
Qed.

(** Sending a copy: the packet itself is untouched. *)
Lemma send_copy_step l s packet id i via fm :
  net_env l s → packet_good s packet → id_good s packet id → i ∈ l →
  ∃ s' new, send_copy id packet i via fm s = Some ((), s') ∧
    net_step None new s s' ∧ k_conns s' = k_conns s.
Proof.
  intros He Hp Hid Hil. unfold send_copy. destruct packet as [x|].
  2: { erewrite ST_bind_run by (by apply liftC_run). cbv beta iota. rewrite set_k_core_id.
       exists s, []. split; [done|]. split; [apply net_step_refl, He|done]. }
  destruct (clone_step s x (ne_inv _ _ He) Hp) as (r & s1 & H1 & Hc1 & _ & _ & Hst1). run H1.
  destruct r as [c|]; [|by exists s1, []]. destruct Hst1 as (Hst1 & Hsend & Hna).
  assert (x ≠ c) as Hxc by (intros ->; by apply Hna, owned_allocated, sendable_owned).
  destruct (send_direct_iface_step l s1 c (Some x) id i via fm) as (s2 & new & H2 & Hst2 & Ha2 & Hc2);
    [by eapply net_env_step|done|eapply sendable_kept; [exact Hst1|congruence|done]
    |by eapply id_good_conns|done|congruence|].
  exists s2, new. rewrite H2. split; [done|]. split; [|congruence].
  eapply net_step_hide; [by eapply net_step_chain|done|done].
Qed.

(** ** The three loops *)

Lemma within_subnet_total v addr f :
  0 ≤ if_netmask f ≤ csp_id_get_host_bits v → is_Some (csp_iflist_is_within_subnet v addr (Some f)).
Proof.
  intros Hn. pose proof (host_bits_range v). unfold csp_iflist_is_within_subnet.
  rewrite shl1_Some by lia. monad. rewrite bool_decide_true by (rewrite u32_id by mlia; lia). done.
Qed.

Lemma is_broadcast_total v addr f :
  0 ≤ if_netmask f ≤ csp_id_get_host_bits v → is_Some (csp_id_is_broadcast v addr f).
Proof.
  intros Hn. pose proof (host_bits_range v). unfold csp_id_is_broadcast.
  rewrite u32_id by mlia. rewrite shl1_Some by lia. monad. case_bool_decide; done.
Qed.

(** The next interface of a walk lies in the rest of the list. *)
Definition next_in (l2 : list nat) (r : option nat) : Prop :=
  match r with None => True | Some a => ∃ l3 l4, l2 = l3 ++ a :: l4 end.

Lemma find_next_in (f : nat → bool) l2 : next_in l2 (List.find f l2).
Proof.
  induction l2 as [|a l2 IH]; simpl; [done|]. destruct (f a); [by exists [], l2|].
  destruct (List.find f l2); [|done]. destruct IH as (l3 & l4 & ->). by exists (a :: l3), l4.
Qed.

Lemma next_subnet core l1 l2 addr :
  iflist core (l1 ++ l2) → ifaces_valid core (l1 ++ l2) →
  ∃ r, csp_iflist_get_by_subnet core addr (last l1) = Some r ∧ next_in l2 r.
Proof.
  intros Hl Hv. unfold csp_iflist_get_by_subnet.
  destruct (csp_iflist_iterate_last core l1 l2 Hl) as (p & -> & Hp & _). monad.
  erewrite iflist_walk with (f := λ i, default false
    (if bool_decide (if_netmask i = 0) then Some false
     else csp_iflist_is_within_subnet (c_version core) addr (Some i))); [|done|done|done|].
  - eexists. split; [done|]. apply find_next_in.
  - intros a i Ha Hi. destruct (Hv a i Ha Hi) as [Hn _]. case_bool_decide; [done|].
    by destruct (within_subnet_total (c_version core) addr i Hn) as [b ->].
Qed.

Lemma next_default core l1 l2 :
  iflist core (l1 ++ l2) → ∃ r, csp_iflist_get_by_isdfl core (last l1) = Some r ∧ next_in l2 r.
Proof.
  intros Hl. rewrite (get_by_isdfl_spec core _ l1 l2 _ Hl eq_refl eq_refl).
  eexists. split; [done|]. apply find_next_in.
Qed.

Definition routed_good l (routed_from : option nat) : Prop :=
  match routed_from with None => True | Some r => r ∈ l end.

Lemma env_iface l s a : net_env l s → a ∈ l →
  ∃ f, liftC (get_iface a) s = Some (f, s) ∧ c_ifaces (k_core s) !! a = Some f ∧
    0 ≤ if_netmask f ≤ csp_id_get_host_bits (c_version (k_core s)) ∧ is_u16 (if_addr f).
Proof.
  intros He Ha. destruct (iflist_elem _ _ _ (ne_list _ _ He) Ha) as [f Hf]. exists f.
  rewrite (liftC_run _ s f (k_core s)) by (by apply (lift_opt_run (c_ifaces (k_core s) !! a))).
  rewrite set_k_core_id. destruct (ne_valid _ _ He a f Ha Hf) as [Hn Hr].
  pose proof (pow2_host_le (c_version (k_core s)) 14) as Hp. pose proof (host_bits_range (c_version (k_core s))).
  assert (2 ^ csp_id_get_host_bits (c_version (k_core s)) ≤ 2 ^ 14) by (apply Z.pow_le_mono_r; lia).
  split; [done|]. split; [done|]. split; [done|]. mlia.
Qed.

Lemma within_subnet_of_run l s a rf :
  net_env l s → a ∈ l → routed_good l rf → ∃ sk, within_subnet_of a rf s = Some (sk, s).
Proof.
  intros He Ha Hrf. unfold within_subnet_of.
  destruct (env_iface l s a He Ha) as (f & Hf & _). run Hf.
  run (eq_refl : conf_version s = Some (c_version (k_core s), s)).
  destruct rf as [r|]; [|by exists false]. destruct (env_iface l s r He Hrf) as (g & Hg & _ & Hn & _). run Hg.
  destruct (within_subnet_total _ (if_addr f) g Hn) as [b ->]. by exists b.
Qed.

Lemma split_horizon_run l s a rf :
  net_env l s → a ∈ l → routed_good l rf → ∃ sk, split_horizon a rf s = Some (sk, s).
Proof.
  intros He Ha Hrf. unfold split_horizon. case_bool_decide; [by exists true|]. by apply (within_subnet_of_run l).
Qed.

Lemma set_src_ok v i : is_u16 v → id_ok i → id_ok (set_src v i).
Proof. intros Hv (?&?&?&?&?&?). by split_and!. Qed.

Lemma set_dst_ok v i : is_u16 v → id_ok i → id_ok (set_dst v i).
Proof. intros Hv (?&?&?&?&?&?). by split_and!. Qed.

Lemma max_nodeid_u16 v : is_u16 (csp_id_get_max_nodeid v).
Proof. unfold csp_id_get_max_nodeid. case_bool_decide; by vm_compute. Qed.

(** Moving on in the list. *)
Lemma walk_on (l l1 l2 l3 l4 : list nat) a :
  l = l1 ++ l2 → l2 = l3 ++ a :: l4 →
  l = (l1 ++ l3 ++ [a]) ++ l4 ∧ last (l1 ++ l3 ++ [a]) = Some a ∧ a ∈ l ∧ (List.length l4 < List.length l2)%nat.
Proof.
  intros -> ->. split; [by rewrite <- !app_assoc|]. split; [by rewrite app_assoc, last_snoc|].
  split; [rewrite !elem_of_app; right; right; by left|]. rewrite length_app. simpl. lia.
Qed.

Lemma net_step_seq n1 n2 s1 s2 s3 :
  net_step None n1 s1 s2 → net_step None n2 s2 s3 → net_step None (n1 ++ n2) s1 s3.
Proof. by apply net_step_trans. Qed.

Lemma send_local_step l id packet rf : ∀ fuel l1 l2 s local,
  net_env l s → packet_good s packet → id_good s packet id → id_ok local → routed_good l rf →
  l = l1 ++ l2 → (List.length l2 < fuel)%nat →
  ∃ found s' new, send_local fuel id local packet rf (last l1) s = Some (found, s') ∧
    net_step None new s s' ∧ k_conns s' = k_conns s.
Proof.
  induction fuel as [|fuel IH]; intros l1 l2 s local He Hp Hid Hlo Hrf Hl Hfuel; [lia|].
  cbn [send_local]. destruct (id_get_run s packet id (ne_inv _ _ He) Hp Hid) as (i & Hi & Hiok). run Hi.
  destruct (next_subnet (k_core s) l1 l2 (dst i)) as (r & Hr & Hnext);
    [rewrite <- Hl; apply He..|]. erewrite ST_bind_run; [|exact (lift_opt_run_gen _ _ s Hr)]. cbv beta iota.
  destruct r as [a|].
  2: { exists false, s, []. split; [done|]. split; [apply net_step_refl, He|done]. }
  destruct Hnext as (l3 & l4 & Hl2). destruct (walk_on l l1 l2 l3 l4 a Hl Hl2) as (Hl' & Hlast & Ha & Hlen).
  destruct (split_horizon_run l s a rf He Ha Hrf) as (skip & Hskip). run Hskip. destruct skip.
  { destruct (IH (l1 ++ l3 ++ [a]) l4 s local He Hp Hid Hlo Hrf Hl' ltac:(lia)) as (fd & s' & new & Hs' & ?).
    rewrite Hlast in Hs'. run Hs'. by exists true, s', new. }
  destruct (env_iface l s a He Ha) as (f & Hf & _ & Hn & Hu). run Hf.
  run (eq_refl : conf_version s = Some (c_version (k_core s), s)). cbv zeta.
  destruct (is_broadcast_total _ (dst i) f Hn) as [bc Hbc]. run (lift_opt_run_gen _ _ s Hbc).
  set (local' := if bc then set_dst _ _ else _).
  assert (id_ok local') as Hlo'.
  { subst local'. destruct bc; [apply set_dst_ok; [apply max_nodeid_u16|]|];
      (destruct (_ && _); [by apply set_src_ok|done]). }
  destruct (send_copy_step l s packet (IdLocal local') a CSP_NO_VIA_ADDRESS (bool_decide (rf = None)) He Hp Hlo' Ha)
    as (s1 & n1 & H1 & Hst1 & Hc1). run H1.
  destruct (IH (l1 ++ l3 ++ [a]) l4 s1 local') as (fd & s2 & n2 & H2 & Hst2 & Hc2);
    [by eapply net_env_step|by eapply packet_good_kept|by eapply id_good_conns|done|done|done|lia|].
  rewrite Hlast in H2. run H2. exists true, s2, (n1 ++ n2). split; [done|].
  split; [by eapply net_step_seq|congruence].
Qed.

(** The same place, perhaps with other contents. *)
Definition same_ref (r r' : idref) : Prop :=
  match r, r' with IdLocal _, IdLocal _ => True | _, _ => r' = r end.

(** What a loop body does: copies of the packet go out, and the source address may be
    filled in where the identifier lives. *)
Definition sent packet (r : idref) s (r' : idref) s' : Prop :=
  packet_good s' packet ∧ id_good s' packet r' ∧ same_ref r r' ∧ conns_step r s s' ∧
  ∃ new, net_step packet new s s' ∧ ∀ x, x ∈ new → packet ≠ Some x.

Lemma sent_refl packet r s : buf_inv (k_core s) → packet_good s packet → id_good s packet r → sent packet r s r s.
Proof.
  intros Hi Hp Hr. split; [done|]. split; [done|]. split; [by destruct r|]. split; [by left|].
  exists []. split; [by apply net_step_refl|]. by intros x ?%not_elem_of_nil.
Qed.

Lemma conns_step_trans r r' s1 s2 s3 :
  same_ref r r' → conns_step r s1 s2 → conns_step r' s2 s3 → conns_step r s1 s3.
Proof.
  intros Hr [H1|(c & x & v & -> & Hx & Hv & H1)] [H2|(c' & x' & v' & Hr' & Hx' & Hv' & H2)].
  - left. congruence.
  - subst r'. assert (r = IdConn c') as -> by (by destruct r).
    right. exists c', x', v'. rewrite <- H1. done.
  - right. exists c, x, v. rewrite H2. done.
  - subst r'. simpl in Hr. injection Hr as ->. right. exists c, x, v'.
    assert (x' = set_idout (set_src v (idout x)) x) as ->.
    { rewrite H1, list_lookup_insert_eq in Hx' by (by eapply lookup_lt_Some). by injection Hx'. }
    split; [done|]. split; [done|]. split; [done|]. rewrite H2, H1, list_insert_insert_eq. done.
Qed.

Lemma sent_trans packet r1 r2 r3 s1 s2 s3 :
  sent packet r1 s1 r2 s2 → sent packet r2 s2 r3 s3 → sent packet r1 s1 r3 s3.
Proof.
  intros (_ & _ & Hs1 & Hc1 & n1 & Hn1 & Hf1) (Hp & Hr & Hs2 & Hc2 & n2 & Hn2 & Hf2).
  split; [done|]. split; [done|]. split; [|split; [by eapply conns_step_trans|]].
  - destruct r1, r2, r3; simpl in *; congruence.
  - exists (n1 ++ n2). split; [by eapply net_step_trans|]. intros x [?|?]%elem_of_app; auto.
Qed.

(** A step that leaves the packet and the connections alone. *)
Lemma sent_copy packet r s s' new :
  net_step None new s s' → k_conns s' = k_conns s → packet_good s packet → id_good s packet r →
  sent packet r s r s'.
Proof.
  intros Hst Hc Hp Hr. split; [by eapply packet_good_kept|]. split; [by eapply id_good_conns|].
  split; [by destruct r|]. split; [by left|]. exists new. split; [by apply net_step_weaken|].
  intros x Hx ->. destruct (ns_fresh _ _ _ _ Hst x Hx) as [_ [Hna|]]; [|done].
  by apply Hna, owned_allocated, sendable_owned.
Qed.

Lemma sent_env l packet r s r' s' : net_env l s → sent packet r s r' s' → net_env l s'.
Proof. intros He (_ & _ & _ & _ & new & Hn & _). by eapply net_env_step. Qed.

Lemma conns_net_step s cs :
  buf_inv (k_core s) → net_step None [] s (set_k_conns cs s).
Proof.
  intros Hi. split; cbn [k_core set_k_conns]; try done.
  - intros x _ Ha. by left.
  - constructor.
  - intros x Hx. by apply elem_of_nil in Hx.
  - by rewrite app_nil_r.
Qed.

(** Filling in the source address. *)
Lemma apply_source_sent packet r addr fm s :
  buf_inv (k_core s) → packet_good s packet → id_good s packet r → is_u16 addr →
  ∃ r' s', apply_source r addr fm s = Some (r', s') ∧ sent packet r s r' s'.
Proof.
  intros Hi Hp Hr Hu. unfold apply_source. destruct (id_get_run s packet r Hi Hp Hr) as (i & Hg & Hok). run Hg.
  destruct (_ && _); [|exists r, s; split; [done|by apply sent_refl]].
  destruct r as [c|b|j]; cbn [id_set_src id_good] in *.
  - destruct Hr as (x & Hx & Hxok). run (mod_conn_run s c x (λ y : csp_conn_t, set_idout (set_src addr (idout y)) y) Hx).
    eexists (IdConn c), _. split; [done|]. set (s' := set_k_conns _ _).
    pose proof (conns_net_step s (k_conns s') Hi) as Hst. change (set_k_conns _ s) with s' in Hst.
    split; [by eapply packet_good_kept|]. split; [|split; [done|split]].
    + exists (set_idout (set_src addr (idout x)) x). split; [|by apply set_src_ok].
      cbn. by apply list_lookup_insert_eq, lookup_lt_Some with x.
    + right. by exists c, x, addr.
    + exists []. split; [by apply net_step_weaken|]. by intros y ?%not_elem_of_nil.
  - subst packet. pose proof Hp as (k & Hk & Hrc & Hl). destruct (bi_pool _ Hi _ _ Hk) as (_ & Hpk & _).
    destruct (kmod_step s b k (λ p, set_pk_id (set_src addr (pk_id p)) p) Hi Hk) as (s' & Hs' & Hst & Hc & Hpool).
    { apply set_pk_id_ok; [done|]. apply set_src_ok; [done|apply Hpk]. }
    run Hs'. exists (IdPacket b), s'. split; [done|]. split; [|split; [done|split; [done|split; [by left|]]]].
    + eexists. by split; [exact Hpool|].
    + exists []. split; [done|]. by intros y ?%not_elem_of_nil.
  - eexists (IdLocal _), s. split; [done|]. split; [done|]. split; [by apply set_src_ok|].
    split; [done|]. split; [by left|]. exists []. split; [by apply net_step_refl|].
    by intros y ?%not_elem_of_nil.
Qed.

(** The body of the loops over routes and default interfaces. *)
Lemma send_on_sent l packet r rf a f via s :
  net_env l s → packet_good s packet → id_good s packet r → a ∈ l → is_u16 (if_addr f) →
  ∃ r' s', (r ← apply_source r (if_addr f) (bool_decide (rf = None));
            send_copy r packet a via (bool_decide (rf = @None nat));; mret r) s = Some (r', s') ∧
    sent packet r s r' s'.
Proof.
  intros He Hp Hr Ha Hu.
  destruct (apply_source_sent packet r (if_addr f) (bool_decide (rf = None)) s (ne_inv _ _ He) Hp Hr Hu)
    as (r1 & s1 & H1 & Hst1). run H1. pose proof Hst1 as (Hp1 & Hr1 & _).
  pose proof (sent_env _ _ _ _ _ _ He Hst1) as He1.
  destruct (send_copy_step l s1 packet r1 a via (bool_decide (rf = None)) He1 Hp1 Hr1 Ha)
    as (s2 & new & H2 & Hst2 & Hc2). run H2. exists r1, s2. split; [done|].
  eapply sent_trans; [exact Hst1|]. by eapply sent_copy.
Qed.

Lemma send_default_sent l packet rf : ∀ fuel l1 l2 s r,
  net_env l s → packet_good s packet → id_good s packet r → routed_good l rf →
  l = l1 ++ l2 → (List.length l2 < fuel)%nat →
  ∃ r' s', send_default fuel r packet rf (last l1) s = Some (r', s') ∧ sent packet r s r' s'.
Proof.
  induction fuel as [|fuel IH]; intros l1 l2 s r He Hp Hr Hrf Hl Hfuel; [lia|].
  cbn [send_default].
  destruct (next_default (k_core s) l1 l2) as (next & Hn & Hnext); [rewrite <- Hl; apply He|].
  erewrite ST_bind_run; [|exact (lift_opt_run_gen _ _ s Hn)]. cbv beta iota.
  destruct next as [a|]; [|exists r, s; split; [done|]; apply sent_refl; [apply He|done|done]].
  destruct Hnext as (l3 & l4 & Hl2). destruct (walk_on l l1 l2 l3 l4 a Hl Hl2) as (Hl' & Hlast & Ha & Hlen).
  destruct (split_horizon_run l s a rf He Ha Hrf) as (skip & Hskip). run Hskip. destruct skip.
  { rewrite <- Hlast. apply (IH _ l4); try done. lia. }
  destruct (env_iface l s a He Ha) as (f & Hf & _ & _ & Hu). run Hf. cbv zeta.
  destruct (send_on_sent l packet r rf a f CSP_NO_VIA_ADDRESS s He Hp Hr Ha Hu) as (r1 & s1 & H1 & Hst1).
  apply ST_bind_Some in H1 as (r0 & s0 & H0 & ([] & s00 & H00 & [= -> ->])%ST_bind_Some).
  run H0. run H00. pose proof Hst1 as (Hp1 & Hr1 & _).
  destruct (IH (l1 ++ l3 ++ [a]) l4 s1 r1) as (r2 & s2 & H2 & Hst2);
    [by eapply sent_env|done|done|done|done|lia|].
  exists r2, s2. rewrite Hlast in H2. split; [exact H2|]. by eapply sent_trans.
Qed.

(** One route of the loop. *)
Lemma send_route_sent l packet rf rt s r :
  net_env l s → packet_good s packet → id_good s packet r → routed_good l rf →
  (∃ a, rt_iface rt = Some a ∧ a ∈ l) →
  ∃ r' s', (if bool_decide (rt_iface rt = rf) then mret r else
            a ← lift_opt (rt_iface rt);
            skip ← within_subnet_of a rf;
            if (skip : bool) then mret r else
            f ← liftC (get_iface a);
            r ← apply_source r (if_addr f) (bool_decide (rf = None));
            send_copy r packet a (rt_via rt) (bool_decide (rf = None));; mret r) s = Some (r', s') ∧
    sent packet r s r' s'.
Proof.
  intros He Hp Hr Hrf (a & Hrt & Ha).
  assert (sent packet r s r s) as Hrefl by (apply sent_refl; [apply He|done|done]).
  case_bool_decide; [by exists r, s|]. run (lift_opt_run_gen _ _ s Hrt).
  destruct (within_subnet_of_run l s a rf He Ha Hrf) as (skip & Hskip). run Hskip.
  destruct skip; [by exists r, s|].
  destruct (env_iface l s a He Ha) as (f & Hf & _ & _ & Hu). run Hf. by apply (send_on_sent l).
Qed.

Lemma send_routes_sent l packet rf : ∀ fuel route s r,
  net_env l s → packet_good s packet → id_good s packet r → routed_good l rf →
  (route < fuel)%nat → Z.of_nat route < rtable_inptr (k_rtable s) →
  ∃ r' s', send_routes fuel r packet rf route s = Some (r', s') ∧ sent packet r s r' s'.
Proof.
  induction fuel as [|fuel IH]; intros route s r He Hp Hr Hrf Hfuel Hact; [lia|].
  cbn [send_routes]. run (eq_refl : gets k_rtable s = Some (k_rtable s, s)).
  destruct (active_dom _ _ route (ne_rtable _ _ He) Hact) as (rt & Hrt & _).
  run (lift_opt_run_gen _ _ s Hrt). cbv zeta.
  destruct (send_route_sent l packet rf rt s r He Hp Hr Hrf (ne_routes _ _ He _ _ Hact Hrt))
    as (r1 & s1 & H1 & Hst1). erewrite ST_bind_run; [|exact H1]. cbv beta iota.
  assert (k_rtable s1 = k_rtable s) as Hkr.
  { destruct Hst1 as (_ & _ & _ & _ & n & Hn & _). by rewrite (ns_rest _ _ _ _ Hn). }
  assert (∃ next, csp_rtable_search_backward (k_rtable s) (Some route) = Some next ∧
    match next with None => True | Some j => (j < route)%nat end) as (next & Hnext & Hlt).
  { unfold csp_rtable_search_backward. destruct route as [|j]; [by exists None|]. rewrite Hrt. monad.
    destruct (search_backward_from_spec (k_rtable s) rt (S j)) as (res & Hres & Hin).
    { apply lookup_lt_Some in Hrt. lia. }
    exists res. split; [done|]. by destruct res as [m|]; [destruct Hin|]. }
  run (lift_opt_run_gen _ _ s1 Hnext). destruct next as [j|]; [|by exists r1, s1].
  pose proof Hst1 as (Hp1 & Hr1 & _).
  destruct (IH j s1 r1) as (r2 & s2 & H2 & Hst2);
    [by eapply sent_env|done|done|done|lia|rewrite Hkr; lia|].
  exists r2, s2. split; [done|]. by eapply sent_trans.
Qed.

(** Releasing the packet at the end. *)
Lemma free_sent l packet r r' s s1 :
  net_env l s → sent packet r s r' s1 →
  ∃ s' new, kfree packet s1 = Some ((), s') ∧ net_env l s' ∧ conns_step r s s' ∧ net_step packet new s s' ∧
    (∀ x, packet = Some x → ¬ allocated (k_core s') x ∧ x ∉ new).
Proof.
  intros He Hst. pose proof (sent_env _ _ _ _ _ _ He Hst) as He1.
  destruct Hst as (Hp & _ & _ & Hc & new & Hn & Hf). destruct packet as [x|].
  - destruct (kfree_step s1 x (ne_inv _ _ He1) (sendable_owned _ _ Hp)) as (s' & Hs' & Hst' & Hna & Hc').
    exists s', new. split; [done|]. split; [by eapply net_env_step|]. split; [|split].
    + unfold conns_step in *. by rewrite Hc'.
    + rewrite <- (app_nil_r new). by eapply net_step_trans.
    + intros y [= <-]. split; [done|]. intros Hin. by apply (Hf x Hin).
  - exists s1, new. rewrite <- (set_k_core_id s1) at 2. split; [by apply (liftC_run _ s1 () (k_core s1))|done].
Qed.
End NetEnv.

(** [csp_send_direct] as a step of the network layer, which releases its packet. *)
Lemma csp_send_direct_step `{Env} (l : list nat) (s : stack) (id : idref) (packet routed_from : option nat) :
  net_env l s → packet_good s packet → id_good s packet id → routed_good l routed_from →
  ∃ s' new, csp_send_direct id packet routed_from s = Some ((), s') ∧ net_env l s' ∧
    conns_step id s s' ∧ net_step packet new s s' ∧
    (∀ x, packet = Some x → ¬ allocated (k_core s') x ∧ x ∉ new).
Proof.
  intros He Hp Hid Hrf.
  unfold csp_send_direct.
  destruct (id_get_run s packet id (ne_inv _ _ He) Hp Hid) as (i & Hi & Hiok). run Hi.
  run (eq_refl : gets (λ s, walk_fuel (k_core s)) s = Some (walk_fuel (k_core s), s)).
  pose proof (iflist_fuel _ _ (ne_list _ _ He)) as Hfuel.
  destruct (send_local_step l id packet routed_from (walk_fuel (k_core s)) [] l s i)
    as (found & s1 & n1 & H1 & Hst1 & Hc1); [done..|].
  run H1. pose proof (sent_copy packet id s s1 n1 Hst1 Hc1 Hp Hid) as Hsent1.
  destruct found; [by apply (free_sent l packet id id s s1)|].
  pose proof (sent_env _ _ _ _ _ _ He Hsent1) as He1. pose proof Hsent1 as (Hp1 & Hid1 & _).
  run (eq_refl : conf_version s1 = Some (c_version (k_core s1), s1)).
  run (eq_refl : gets k_rtable s1 = Some (k_rtable s1, s1)).
  destruct (id_get_run s1 packet id (ne_inv _ _ He1) Hp1 Hid1) as (i1 & Hi1 & Hi1ok). run Hi1.
  destruct (find_route_lpm _ _ (dst i1) (ne_rtable _ _ He1) ltac:(apply Hi1ok)) as (res & Hres & Hlpm).
  run (lift_opt_run_gen _ _ s1 Hres). destruct res as [r|].
  - destruct Hlpm as (rt & [Hact _] & _).
    destruct (send_routes_sent l packet routed_from (S r) r s1 id He1 Hp1 Hid1 Hrf ltac:(lia) Hact)
      as (id2 & s2 & H2 & Hst2). run H2.
    apply (free_sent l packet id id2 s s2); [done|]. by eapply sent_trans.
  - assert (List.length l < walk_fuel (k_core s))%nat by lia.
    destruct (send_default_sent l packet routed_from (walk_fuel (k_core s)) [] l s1 id)
      as (id2 & s2 & H2 & Hst2); [done..|]. run H2.
    apply (free_sent l packet id id2 s s2); [done|]. by eapply sent_trans.
Qed.

(** A fresh buffer. *)

Lemma buffer_get_step `{Env} l s :
  net_env l s → fq_items (c_free (k_core s)) ≠ [] →
  ∃ b k s1, liftC csp_buffer_get s = Some (Some b, s1) ∧ net_env l s1 ∧ net_step (Some b) [] s s1 ∧
    c_pool (k_core s1) !! b = Some k ∧ refcount k = 1 ∧ packet_ok (skbf_data k) ∧ ¬ allocated (k_core s) b ∧
    k_conns s1 = k_conns s.
Proof.
  intros He Hf. pose proof (ne_inv _ _ He) as Hi.
  destruct (csp_buffer_get_spec (k_core s) Hi) as [(? & _ & ? & _)|(b & k & core & Hg & Hi1 & Hk & Hr & _ & Hc)]; [done|].
  pose proof (lookup_lt_Some _ _ _ Hk) as Hlt. destruct (bi_pool _ Hi b k Hk) as (_ & Hok & _).
  assert (Hst : net_step (Some b) [] s (set_k_core core s)).
  { apply net_step_link; [|by rewrite Hc]. split; try (rewrite Hc; done).
    - done.
    - intros x Hx. rewrite Hc. cbn. by rewrite list_lookup_insert_ne.
    - rewrite Hc. cbn. by rewrite length_insert.
    - rewrite Hc. by apply ifaces_same. }
  exists b, (mk_skbf 1 b (set_pk_id csp_id_clear (skbf_data k))), (set_k_core core s).
  split; [by apply liftC_run|]. split; [by eapply net_env_step|]. split; [done|]. split.
  { rewrite Hc. cbn. by apply list_lookup_insert_eq. }
  split; [done|]. split; [by apply clear_id_ok|]. split; [|done]. intros (k' & Hk' & Hr'). congruence.
Qed.

Lemma buffer_none_step `{Env} l s :
  net_env l s → fq_items (c_free (k_core s)) = [] →
  ∃ s1, liftC csp_buffer_get s = Some (None, s1) ∧ net_env l s1 ∧ net_step None [] s s1 ∧ k_conns s1 = k_conns s.
Proof.
  intros He Hf. destruct (dbg_step None s inc_buffer_out (ne_inv _ _ He)) as (s1 & Hr & St & Hc & _). exists s1.
  split; [|split; [by eapply net_env_step|done]]. revert Hr. unfold liftC. rewrite (csp_buffer_get_empty _ Hf). cbn. by intros [= <-].
Qed.

(** C1: [csp_send_direct] on a well-formed stack terminates without touching memory
    it does not own, whatever interfaces the packet goes out on and whatever the
    drivers answer: the packet given to it is released; every other buffer in use
    is unchanged; the buffers newly in use are exactly those it put into the
    router's or the promiscuous queue, each once; and besides the source address of
    the connection's identifier nothing of the transport layer changes. *)
Theorem csp_send_direct_ownership `{Env} (l : list nat) (s : stack) (id : idref)
    (packet routed_from : option nat) :
  net_env l s → packet_good s packet → id_good s packet id → routed_good l routed_from →
  ∃ s' new, csp_send_direct id packet routed_from s = Some ((), s') ∧ net_env l s' ∧
    transport_kept s s' ∧ conns_step id s s' ∧
    (∀ x, packet ≠ Some x → allocated (k_core s) x →
       c_pool (k_core s') !! x = c_pool (k_core s) !! x) ∧
    (∀ x, allocated (k_core s') x ↔ (allocated (k_core s) x ∧ packet ≠ Some x) ∨ x ∈ new) ∧
    NoDup new ∧ qbufs s' ≡ₚ qbufs s ++ new.
Proof.
  intros He Hp Hid Hrf.
  destruct (csp_send_direct_step l s id packet routed_from He Hp Hid Hrf) as (s' & new & Hrun & He' & Hc & Hst & Hx).
  exists s', new.
  split; [done|]. split; [done|]. split; [apply Hst|]. split; [done|]. split; [apply Hst|].
  split; [|split; apply Hst]. intros x. split.
  - intros Ha. destruct (decide (packet = Some x)) as [Heq|Hne]; [by destruct (Hx x Heq)|].
    destruct (ns_alloc _ _ _ _ Hst x Hne Ha); tauto.
  - intros [[Ha Hne]|Hin]; [|by apply owned_allocated, (ns_fresh _ _ _ _ Hst)].
    eapply allocated_ext; [|exact Ha]. by apply (ns_kept _ _ _ _ Hst).
Qed.

(** A stack with the loopback and a KISS interface, three buffers of which the first
    is in use, and a route for everything over KISS. *)
#[local] Instance env_example : Env := {|
  env_can := λ _ _ _ _, CSP_ERR_NONE;
  yield := λ s, s;
  run_callback := λ _ _, mret ();
  rand_r := λ x, x;
  hmac_locals := (locals_example, state_example);
|}.

Definition net_example : stack :=
  let core := set_c_ifaces
      (<[0%nat := set_if_next (Some 1%nat) (new_iface 0 14 "LOOP" NexthopLo 0)]>
       (<[1%nat := new_iface 300 8 "KISS" NexthopKiss 1]> ∅))
      (set_c_interfaces (Some 0%nat) (csp_buffer_init (core_with (replicate 3 (mk_skbf 0 0 empty_packet))))) in
  let core := match csp_buffer_get core with Some (_, c) => c | None => core end in
  set_k_rtable (mk_rtable (mk_route 0 0 CSP_NO_VIA_ADDRESS (Some 1%nat) :: replicate 9 route_zero) 1)
    (port_example core []).

Lemma net_example_ok : net_env [0%nat; 1%nat] net_example ∧ sendable net_example 0.
Proof.
  assert (buf_inv (k_core net_example)) as Hi.
  { set (core := set_c_ifaces
      (<[0%nat := set_if_next (Some 1%nat) (new_iface 0 14 "LOOP" NexthopLo 0)]>
       (<[1%nat := new_iface 300 8 "KISS" NexthopKiss 1]> ∅))
      (set_c_interfaces (Some 0%nat) (csp_buffer_init (core_with (replicate 3 (mk_skbf 0 0 empty_packet)))))).
    apply (buf_step_inv core).
    - apply (buf_inv_ext (csp_buffer_init (core_with (replicate 3 (mk_skbf 0 0 empty_packet))))); [done..|].
      apply csp_buffer_init_inv. intros i k [-> _]%lookup_replicate. split; [done|apply empty_packet_ok].
    - apply (step_get _ (Some 0%nat)). vm_compute. reflexivity. }
  split; [|eexists; split; [vm_compute; reflexivity|done]].
  split; [done|..].
  - split; [|apply (bool_decide_unpack _); vm_compute; done].
    simpl. split; [done|]. eexists. split; [done|]. simpl. split; [done|]. by eexists.
  - intros a i [->|[->|[]%not_elem_of_nil]%elem_of_cons]%elem_of_cons [= <-]; by vm_compute.
  - intros a [->|[->|[]%not_elem_of_nil]%elem_of_cons]%elem_of_cons; by eexists.
  - by eexists.
  - split; [done|by vm_compute|]. intros i r.
    apply (Forall_lookup_1 (route_ok 2)). repeat constructor; by vm_compute.
  - intros [|i] r Hlt; [|simpl in Hlt; lia]. intros [= <-]. exists 1%nat. split; [done|]. right. by left.
  - split; [apply (bool_decide_unpack _); vm_compute; done|done].
  - apply locals_example_ok.
Qed.

Lemma csp_send_direct_ownership_witness :
  ∃ s' new, csp_send_direct (IdLocal (mk_id 2 0 0 9000 10 20)) (Some 0%nat) None net_example = Some ((), s') ∧
    ¬ allocated (k_core s') 0 ∧ qbufs s' ≡ₚ new.
Proof.
  destruct net_example_ok as [He Hx].
  destruct (csp_send_direct_ownership [0%nat; 1%nat] net_example (IdLocal (mk_id 2 0 0 9000 10 20)) (Some 0%nat) None
    He Hx ltac:(by vm_compute) I) as (s' & new & Hrun & _ & _ & _ & _ & Ha & _ & Hq).
  assert (new = []) as ->.
  { assert (omap fst (fq_items (c_qfifo (k_core s'))) = [] ∧ k_promisc_queue s' = None) as [H1 H2].
    { revert Hrun. vm_compute. intros [= <-]. done. }
    apply Permutation_nil_r. revert Hq. unfold qbufs at 1. rewrite H1, H2. by intros <-. }
  exists s', []. split; [exact Hrun|]. split; [|exact Hq]. rewrite Ha. intros [[_ H]|H%not_elem_of_nil]; done.
Defined.
