(* ===== verification/RdpQueue.v ===== *)
(** * The RDP queues

    [src/csp_rdp_queue.c]: the two queues all RDP connections share.  An element is
    tagged with its connection through [packet->conn]. *)

From S2P Require Import Prelude Queue Types State Buffer Rtable Nexthop Dedup Stack.

(** Which of the two static queues; the functions of the file come in pairs. *)
Inductive rdpq := TxQueue | RxQueue.

Definition queue_of (w : rdpq) (s : stack) : fifo (option nat) :=
  match w with TxQueue => k_txq s | RxQueue => k_rxq s end.
Definition set_queue_of (w : rdpq) (q : fifo (option nat)) (s : stack) : stack :=
  match w with TxQueue => set_k_txq q s | RxQueue => set_k_rxq q s end.

(** ** Operations *)

Definition csp_rdp_queue_init : K () :=
  modify (set_k_txq (csp_queue_create_static (2 * CSP_RDP_MAX_WINDOW)));;
  modify (set_k_rxq (csp_queue_create_static (2 * CSP_RDP_MAX_WINDOW))).

Definition rdpq_dequeue (w : rdpq) : K (option (option nat)) :=
  q ← gets (queue_of w);
  let '(r, q') := csp_queue_dequeue q in
  modify (set_queue_of w q');; mret r.

(** [if (csp_queue_enqueue(...) != CSP_QUEUE_OK) csp_buffer_free(packet)] *)
Definition rdpq_requeue (w : rdpq) (packet : nat) : K () :=
  q ← gets (queue_of w);
  let '(rc, q') := csp_queue_enqueue q (Some packet) in
  modify (set_queue_of w q');;
  when (bool_decide (rc ≠ CSP_QUEUE_OK)) (kfree (Some packet)).

(** [csp_rdp_queue_tx_size], [csp_rdp_queue_rx_size] *)
Definition csp_rdp_queue_size (w : rdpq) : K Z := csp_queue_size <$> gets (queue_of w).

(** [csp_rdp_queue_tx_add], [csp_rdp_queue_rx_add] *)
Definition csp_rdp_queue_add (w : rdpq) (conn packet : nat) : K () :=
  kmod_packet packet (set_frame_begin (UConn conn));; rdpq_requeue w packet.

(** [while (size--)] of [csp_rdp_queue_tx_get] and [csp_rdp_queue_rx_get]. *)
Fixpoint rdpq_get_loop (w : rdpq) (n : nat) (conn : nat) : K (option nat) :=
  match n with
  | O => mret None
  | S n' =>
      r ← rdpq_dequeue w;
      match r with
      | None => mret None
      | Some None => ub
      | Some (Some b) =>
          p ← kget_packet b;
          if bool_decide (frame_begin p = UConn conn) then mret (Some b)
          else rdpq_requeue w b;; rdpq_get_loop w n' conn
      end
  end.

Definition csp_rdp_queue_get (w : rdpq) (conn : nat) : K (option nat) :=
  n ← csp_rdp_queue_size w; rdpq_get_loop w (Z.to_nat n) conn.

(** One of the two loops of [csp_rdp_queue_flush]; [None] flushes everything. *)
Fixpoint rdpq_flush_loop (w : rdpq) (n : nat) (conn : option nat) : K () :=
  match n with
  | O => mret ()
  | S n' =>
      r ← rdpq_dequeue w;
      match r with
      | None => mret ()
      | Some None => rdpq_flush_loop w n' conn
      | Some (Some b) =>
          p ← kget_packet b;
          (if bool_decide (conn = None) || bool_decide (UConn <$> conn = Some (frame_begin p))
           then kfree (Some b) else rdpq_requeue w b);;
          rdpq_flush_loop w n' conn
      end
  end.

Definition csp_rdp_queue_flush (conn : option nat) : K () :=
  n ← csp_rdp_queue_size TxQueue;
  rdpq_flush_loop TxQueue (Z.to_nat n) conn;;
  n ← csp_rdp_queue_size RxQueue;
  rdpq_flush_loop RxQueue (Z.to_nat n) conn.

(** ** Taking out and putting back *)

(** The packet in buffer [b] is tagged with connection [c]. *)
Definition tagged (core : csp_core) (c b : nat) : bool :=
  match c_pool core !! b with
  | Some k => bool_decide (frame_begin (skbf_data k) = UConn c)
  | None => false
  end.

(** Queue [w] holds the buffers [bs], oldest first, and nothing else. *)
Definition queue_holds (w : rdpq) (s : stack) (bs : list nat) : Prop :=
  fq_items (queue_of w s) = Some <$> bs ∧ fifo_wf (queue_of w s) ∧
  ∀ b, b ∈ bs → is_Some (c_pool (k_core s) !! b).

(** The state with the contents of the queue replaced. *)
Definition with_queue (w : rdpq) (bs : list nat) (s : stack) : stack :=
  set_queue_of w (mk_fifo (fq_cap (queue_of w s)) (Some <$> bs)) s.

Section RdpQueueLemmas.
Implicit Types (w : rdpq) (s : stack) (b c : nat) (bs : list nat).

Lemma queue_of_set w q s : queue_of w (set_queue_of w q s) = q.
Proof. by destruct w. Qed.

Lemma set_queue_of_twice w q q' s : set_queue_of w q (set_queue_of w q' s) = set_queue_of w q s.
Proof. by destruct w. Qed.

Lemma core_set_queue w q s : k_core (set_queue_of w q s) = k_core s.
Proof. by destruct w. Qed.

Lemma conns_set_queue w q s : k_conns (set_queue_of w q s) = k_conns s.
Proof. by destruct w. Qed.

Lemma with_queue_twice w bs bs' s : with_queue w bs (with_queue w bs' s) = with_queue w bs s.
Proof. by destruct w. Qed.

Lemma core_with_queue w bs s : k_core (with_queue w bs s) = k_core s.
Proof. by destruct w. Qed.

Lemma with_queue_same w bs s : fq_items (queue_of w s) = Some <$> bs → with_queue w bs s = s.
Proof. intros Hi. unfold with_queue. rewrite <- Hi. destruct w, s; simpl; by destruct (_ : fifo _). Qed.

Lemma queue_holds_with w bs bs' s :
  queue_holds w s bs → bs' ⊆ bs → (List.length bs' ≤ List.length bs)%nat → queue_holds w (with_queue w bs' s) bs'.
Proof.
  intros (Hi & Hwf & Hb) Hsub Hlen. unfold queue_holds, fifo_wf, with_queue.
  rewrite queue_of_set, core_set_queue. simpl. split; [done|]. split; [|auto].
  unfold fifo_wf in Hwf. rewrite Hi, length_fmap in Hwf. rewrite length_fmap. lia.
Qed.

Lemma rdpq_dequeue_run w s b bs :
  fq_items (queue_of w s) = Some <$> b :: bs → rdpq_dequeue w s = Some (Some (Some b), with_queue w bs s).
Proof. intros Hi. unfold rdpq_dequeue, csp_queue_dequeue. st_unfold. rewrite Hi. done. Qed.

Lemma rdpq_requeue_run w s b bs :
  fq_items (queue_of w s) = Some <$> bs → (List.length bs < fq_cap (queue_of w s))%nat →
  rdpq_requeue w b s = Some ((), with_queue w (bs ++ [b]) s).
Proof.
  intros Hi Hlt. unfold rdpq_requeue.
  erewrite ST_bind_run; [|done]. rewrite csp_queue_enqueue_ok by (by rewrite Hi, length_fmap).
  unfold with_queue. rewrite fmap_app, Hi. done.
Qed.

Lemma kget_at s b k : c_pool (k_core s) !! b = Some k → kget_packet b s = Some (skbf_data k, s).
Proof.
  intros Hk. unfold kget_packet. rewrite (liftC_run _ s _ _ (get_packet_run (k_core s) b k Hk)).
  by rewrite set_k_core_id.
Qed.

(** Rotating past the packets of other connections. *)
Lemma rdpq_get_loop_skip w c : ∀ pre rest s n,
  queue_holds w s (pre ++ rest) → Forall (λ b, tagged (k_core s) c b = false) pre →
  rdpq_get_loop w (List.length pre + n) c s = rdpq_get_loop w n c (with_queue w (rest ++ pre) s).
Proof.
  induction pre as [|b pre IH]; intros rest s n (Hi & Hwf & Hb) Hpre.
  { simpl. rewrite app_nil_r. by rewrite with_queue_same. }
  inversion_clear Hpre as [|? ? Ht Hpre']. cbn [List.length Nat.add rdpq_get_loop].
  run (rdpq_dequeue_run w s b (pre ++ rest) Hi).
  destruct (Hb b) as [k Hk]; [by left|]. set (s1 := with_queue w (pre ++ rest) s).
  assert (k_core s1 = k_core s) as Hc1 by apply core_set_queue.
  run (kget_at s1 b k ltac:(by rewrite Hc1)). unfold tagged in Ht. rewrite Hk in Ht. rewrite Ht.
  assert (fq_items (queue_of w s1) = Some <$> (pre ++ rest)) as Hi1
    by (unfold s1, with_queue; by rewrite queue_of_set).
  assert (queue_holds w (with_queue w (pre ++ rest ++ [b]) s) (pre ++ rest ++ [b])) as Hh.
  { apply (queue_holds_with w ((b :: pre) ++ rest)); [done|intros x; rewrite !elem_of_app, !elem_of_cons, elem_of_nil; tauto|]. rewrite !length_app. simpl. lia. }
  run (rdpq_requeue_run w s1 b (pre ++ rest) Hi1 ltac:(unfold s1, with_queue; rewrite queue_of_set; simpl;
    unfold fifo_wf in Hwf; rewrite Hi, length_fmap in Hwf; simpl in Hwf; lia)).
  unfold s1. rewrite with_queue_twice, <- app_assoc.
  rewrite (IH (rest ++ [b])); [|done|].
  - rewrite with_queue_twice, <- app_assoc. done.
  - eapply Forall_impl; [exact Hpre'|]. intros x. unfold with_queue. by rewrite core_set_queue.
Qed.

Lemma rdpq_size_run w s bs :
  fq_items (queue_of w s) = Some <$> bs →
  csp_rdp_queue_size w s = Some (Z.of_nat (List.length bs), s).
Proof.
  intros Hi. unfold csp_rdp_queue_size, csp_queue_size. st_unfold. by rewrite Hi, length_fmap.
Qed.

(** No packet of the connection: nothing happens. *)
Lemma rdp_queue_get_none w c bs s :
  queue_holds w s bs → Forall (λ b, tagged (k_core s) c b = false) bs →
  csp_rdp_queue_get w c s = Some (None, s).
Proof.
  intros Hh Hall. unfold csp_rdp_queue_get. run (rdpq_size_run w s bs (proj1 Hh)).
  rewrite Nat2Z.id, <- (Nat.add_0_r (List.length bs)).
  rewrite (rdpq_get_loop_skip w c bs []) by (by rewrite ?app_nil_r). simpl.
  by rewrite with_queue_same by apply Hh.
Qed.

(** The oldest packet of the connection comes out. *)
Lemma rdp_queue_get_first w c pre b post s :
  queue_holds w s (pre ++ b :: post) → Forall (λ b, tagged (k_core s) c b = false) pre →
  tagged (k_core s) c b = true →
  csp_rdp_queue_get w c s = Some (Some b, with_queue w (post ++ pre) s).
Proof.
  intros Hh Hpre Ht. unfold csp_rdp_queue_get. run (rdpq_size_run w s _ (proj1 Hh)).
  rewrite Nat2Z.id, length_app. cbn [List.length].
  rewrite (rdpq_get_loop_skip w c pre (b :: post) s _ Hh Hpre). cbn [rdpq_get_loop].
  set (s1 := with_queue w ((b :: post) ++ pre) s).
  assert (fq_items (queue_of w s1) = Some <$> b :: (post ++ pre)) as Hi1
    by (unfold s1, with_queue; by rewrite queue_of_set).
  run (rdpq_dequeue_run w s1 b _ Hi1). unfold s1. rewrite with_queue_twice.
  unfold tagged in Ht. destruct (c_pool (k_core s) !! b) as [k|] eqn:Hk; [|done].
  run (kget_at (with_queue w (post ++ pre) s) b k ltac:(unfold with_queue; by rewrite core_set_queue)).
  by rewrite Ht.
Qed.

(** Either the queue has no packet of the connection or it has a first one. *)
Lemma first_tagged core c bs :
  Forall (λ b, tagged core c b = false) bs ∨
  ∃ pre b post, bs = pre ++ b :: post ∧ Forall (λ b, tagged core c b = false) pre ∧ tagged core c b = true.
Proof.
  induction bs as [|b bs IH]; [by left|]. destruct (tagged core c b) eqn:Ht; [right; by exists [], b, bs|].
  destruct IH as [|(pre & x & post & -> & ? & ?)]; [left; by constructor|].
  right. exists (b :: pre), x, post. split; [done|]. split; [by constructor|done].
Qed.

(** ** Flushing *)

(** The buffers [fs] have been released and nothing else has changed. *)
Record released (fs : list nat) (core core' : csp_core) : Prop := {
  rl_inv : buf_inv core';
  rl_only : pool_only core core';
  rl_kept : ∀ x, x ∉ fs → c_pool core' !! x = c_pool core !! x;
  rl_freed : ∀ x, x ∈ fs → ¬ allocated core' x;
  rl_queue : fq_items (c_free core') = fq_items (c_free core) ++ fs;
}.

Lemma released_nil core : buf_inv core → released [] core core.
Proof.
  intros Hi. split; try done; [by destruct core|by intros x ?%not_elem_of_nil|by rewrite app_nil_r].
Qed.

Lemma released_app fs gs core1 core2 core3 :
  (∀ x, x ∈ fs → x ∉ gs) → released fs core1 core2 → released gs core2 core3 → released (fs ++ gs) core1 core3.
Proof.
  intros Hd [? Ho1 Hk1 Hf1 Hq1] [? Ho2 Hk2 Hf2 Hq2]. split; try done.
  - unfold pool_only in *. rewrite Ho2, Ho1. by destruct core1, core2, core3.
  - intros x [Hx1 Hx2]%not_elem_of_app. rewrite Hk2, Hk1 by done. done.
  - intros x [Hx|Hx]%elem_of_app; [|auto]. intros (k & Hk & Hr). apply (Hf1 x Hx).
    exists k. rewrite <- Hk2 by auto. done.
  - by rewrite Hq2, Hq1, <- app_assoc.
Qed.

Lemma kfree_released s b :
  buf_inv (k_core s) → owned (k_core s) b →
  ∃ core, kfree (Some b) s = Some ((), set_k_core core s) ∧ released [b] (k_core s) core.
Proof.
  intros Hi (k & Hk & Hr). pose proof (csp_buffer_free_last (k_core s) b k Hi Hk Hr) as Hrun.
  eexists. unfold kfree. split; [apply (liftC_run _ s () _ Hrun)|].
  pose proof (lookup_lt_Some _ _ _ Hk) as Hlt. split; cbn; try done.
  - apply buf_inv_release; [done|done|lia].
  - intros x Hx. rewrite list_lookup_insert_ne; [done|]. intros ->. by apply Hx, list_elem_of_singleton.
  - intros x ->%list_elem_of_singleton (k' & Hk' & Hr'). cbn in Hk'.
    rewrite list_lookup_insert_eq in Hk' by done. by injection Hk' as <-.
Qed.

Lemma tagged_kept core core' c b :
  c_pool core' !! b = c_pool core !! b → tagged core' c b = tagged core c b.
Proof. unfold tagged. by intros ->. Qed.

Lemma set_core_with_queue w bs core s : set_k_core core (with_queue w bs s) = with_queue w bs (set_k_core core s).
Proof. by destruct w. Qed.

Lemma filter_tagged_kept core core' c v bs :
  (∀ x, x ∈ bs → c_pool core' !! x = c_pool core !! x) →
  filter (λ b, tagged core' c b = v) bs = filter (λ b, tagged core c b = v) bs.
Proof.
  induction bs as [|b bs IH]; intros Hk; [done|]. rewrite !filter_cons.
  rewrite (tagged_kept core core') by (apply Hk; by left). rewrite IH by (intros x Hx; apply Hk; by right). done.
Qed.

(** The state of a flush: the queue holds each buffer once, and those to be released
    have one owner. *)
Record flush_ready w c bs rest s : Prop := {
  fr_holds : queue_holds w s (bs ++ rest);
  fr_nodup : NoDup (bs ++ rest);
  fr_inv : buf_inv (k_core s);
  fr_owned : ∀ b, b ∈ bs → tagged (k_core s) c b = true → owned (k_core s) b;
}.

(** One round keeps a packet of another connection or releases it. *)
Lemma flush_ready_keep w c b bs rest s :
  flush_ready w c (b :: bs) rest s → flush_ready w c bs (rest ++ [b]) (with_queue w (bs ++ rest ++ [b]) s).
Proof.
  intros [Hh Hnd Hi Ho].
  assert (bs ++ rest ++ [b] ≡ₚ (b :: bs) ++ rest) as Hperm
    by (rewrite app_assoc, (Permutation_app_comm (bs ++ rest)); done).
  split.
  - apply (queue_holds_with w ((b :: bs) ++ rest)); [done| |by rewrite Hperm].
    intros x. by rewrite Hperm.
  - by rewrite Hperm.
  - by rewrite core_with_queue.
  - rewrite core_with_queue. intros x Hx. apply Ho. by right.
Qed.

Lemma flush_ready_free w c b bs rest s core :
  flush_ready w c (b :: bs) rest s → released [b] (k_core s) core →
  flush_ready w c bs rest (with_queue w (bs ++ rest) (set_k_core core s)).
Proof.
  intros [(Hit & Hwf & Hb) Hnd Hi Ho] Hr. apply NoDup_cons in Hnd as [Hni Hnd].
  assert (∀ x, x ∈ bs ++ rest → c_pool core !! x = c_pool (k_core s) !! x) as Hk.
  { intros x Hx. apply Hr. rewrite list_elem_of_singleton. by intros ->. }
  split.
  - unfold queue_holds, with_queue, fifo_wf in *. rewrite queue_of_set, core_set_queue. cbn.
    split; [done|]. split.
    + rewrite Hit, length_fmap in Hwf. rewrite length_fmap. simpl in Hwf.
      replace (fq_cap (queue_of w (set_k_core core s))) with (fq_cap (queue_of w s)) by (by destruct w). lia.
    + intros x Hx. rewrite Hk by done. apply Hb. by right.
  - done.
  - rewrite core_with_queue. apply Hr.
  - rewrite core_with_queue. cbn. intros x Hx Ht.
    assert (c_pool core !! x = c_pool (k_core s) !! x) as Hkx by (apply Hk, elem_of_app; by left).
    rewrite (tagged_kept (k_core s)) in Ht by done.
    destruct (Ho x) as (k & Hkk & Hrk); [by right|done|]. exists k. by rewrite Hkx.
Qed.

Lemma flush_loop_run w c : ∀ bs rest s,
  flush_ready w c bs rest s →
  ∃ core, rdpq_flush_loop w (List.length bs) (Some c) s =
    Some ((), with_queue w (rest ++ filter (λ b, tagged (k_core s) c b = false) bs) (set_k_core core s)) ∧
    released (filter (λ b, tagged (k_core s) c b = true) bs) (k_core s) core.
Proof.
  induction bs as [|b bs IH]; intros rest s Hr; cbn [List.length rdpq_flush_loop].
  { exists (k_core s). rewrite set_k_core_id, !filter_nil, app_nil_r.
    rewrite with_queue_same by apply (fr_holds _ _ _ _ _ Hr). split; [done|]. apply released_nil, Hr. }
  pose proof Hr as [(Hit & Hwf & Hb) Hnd Hi Hown].
  run (rdpq_dequeue_run w s b (bs ++ rest) Hit). destruct (Hb b) as [k Hk]; [by left|].
  set (s1 := with_queue w (bs ++ rest) s). assert (k_core s1 = k_core s) as Hc1 by apply core_set_queue.
  run (kget_at s1 b k ltac:(by rewrite Hc1)).
  assert (bool_decide (Some c = None) || bool_decide (UConn <$> Some c = Some (frame_begin (skbf_data k)))
    = tagged (k_core s) c b) as ->.
  { unfold tagged. rewrite Hk. simpl. apply bool_decide_ext. split; congruence. }
  rewrite !filter_cons. destruct (tagged (k_core s) c b) eqn:Ht.
  - destruct (kfree_released s1 b) as (core1 & Hf1 & Hr1);
      [by rewrite Hc1|rewrite Hc1; apply Hown; [by left|done]|].
    run Hf1. rewrite Hc1 in Hr1. rewrite decide_False by done. rewrite decide_True by done.
    unfold s1. rewrite set_core_with_queue.
    destruct (IH rest _ (flush_ready_free _ _ _ _ _ _ _ Hr Hr1)) as (core & Hrun & Hrel).
    rewrite !core_with_queue in Hrun; rewrite !core_with_queue in Hrel. cbn [k_core set_k_core] in Hrun, Hrel.
    apply NoDup_cons in Hnd as [Hni _]. rewrite elem_of_app in Hni.
    assert (∀ v, filter (λ b, tagged core1 c b = v) bs = filter (λ b, tagged (k_core s) c b = v) bs) as Hfil.
    { intros v. apply filter_tagged_kept. intros x Hx. apply Hr1. rewrite list_elem_of_singleton. intros ->. tauto. }
    rewrite !Hfil in Hrun. rewrite Hfil in Hrel. exists core. split; [rewrite Hrun; by destruct w|].
    apply (released_app [b] _ _ core1); [|done|done].
    intros x ->%list_elem_of_singleton. rewrite list_elem_of_filter. tauto.
  - rewrite decide_True by done. rewrite decide_False by done.
    assert (fq_items (queue_of w s1) = Some <$> (bs ++ rest)) as Hi1
      by (unfold s1, with_queue; by rewrite queue_of_set).
    run (rdpq_requeue_run w s1 b (bs ++ rest) Hi1 ltac:(unfold s1, with_queue; rewrite queue_of_set; simpl;
      unfold fifo_wf in Hwf; rewrite Hit, length_fmap in Hwf; simpl in Hwf; lia)).
    unfold s1. rewrite with_queue_twice, <- app_assoc.
    destruct (IH (rest ++ [b]) _ (flush_ready_keep _ _ _ _ _ _ Hr)) as (core & Hrun & Hrel).
    rewrite !core_with_queue in Hrun; rewrite !core_with_queue in Hrel.
    exists core. split; [|done]. rewrite Hrun, <- app_assoc. by destruct w.
Qed.

(** ** The packets of a connection *)

(** The packets of connection [c] among [bs]. *)
Definition box (core : csp_core) c bs : list nat := filter (λ b, tagged core c b = true) bs.

Lemma box_app core c bs bs' : box core c (bs ++ bs') = box core c bs ++ box core c bs'.
Proof. apply filter_app. Qed.

Lemma box_none core c bs : Forall (λ b, tagged core c b = false) bs → box core c bs = [].
Proof. unfold box. induction 1 as [|b bs Hb _ IH]; [done|]. by rewrite filter_cons_False by congruence. Qed.

Lemma tagged_once core c c' b : tagged core c b = true → c' ≠ c → tagged core c' b = false.
Proof.
  unfold tagged. destruct (c_pool core !! b) as [k|]; [|done]. intros ->%bool_decide_eq_true Hne. apply bool_decide_eq_false. congruence.
Qed.

(** What [csp_rdp_queue_get] returns and leaves: the first packet of the connection comes out,
    and the packets of another connection may be rotated. *)
Definition got (core : csp_core) c bs (r : option nat) (bs' : list nat) : Prop :=
  r = head (box core c bs) ∧ box core c bs' = tail (box core c bs) ∧ (r = None → bs' = bs) ∧
  ∀ c', c' ≠ c → ∃ l1 l2, box core c' bs = l1 ++ l2 ∧ box core c' bs' = l2 ++ l1.

Lemma rdp_queue_get_run w c bs s :
  queue_holds w s bs → ∃ r bs', csp_rdp_queue_get w c s = Some (r, with_queue w bs' s) ∧ got (k_core s) c bs r bs'.
Proof.
  intros Hh. destruct (first_tagged (k_core s) c bs) as [Hall|(pre & b & post & -> & Hpre & Hb)].
  - exists None, bs. rewrite (with_queue_same w bs s (proj1 Hh)). split; [by apply (rdp_queue_get_none w c bs)|].
    unfold got. rewrite (box_none _ _ _ Hall). do 3 (split; [done|]). intros c' _. exists (box (k_core s) c' bs), [].
    by rewrite app_nil_r.
  - exists (Some b), (post ++ pre). split; [by apply rdp_queue_get_first|]. unfold got. rewrite !box_app, (box_none _ _ _ Hpre).
    assert (Hc : box (k_core s) c (b :: post) = b :: box (k_core s) c post) by (unfold box; by rewrite filter_cons_True).
    rewrite Hc, app_nil_r. do 3 (split; [done|]). intros c' Hne. exists (box (k_core s) c' pre), (box (k_core s) c' post).
    rewrite !box_app. split; [|done]. f_equal. unfold box. by rewrite filter_cons_False by (rewrite (tagged_once _ c); done).
Qed.

(** [csp_rdp_queue_add]: the packet is the last one of its connection, or it is released when
    the shared queue is full. *)
Definition added w c b bs s s' : Prop :=
  if bool_decide (List.length bs < fq_cap (queue_of w s))%nat then
    queue_holds w s' (bs ++ [b]) ∧ box (k_core s') c (bs ++ [b]) = box (k_core s) c bs ++ [b] ∧
    (∀ c', c' ≠ c → box (k_core s') c' (bs ++ [b]) = box (k_core s) c' bs)
  else
    queue_holds w s' bs ∧ (∀ c', box (k_core s') c' bs = box (k_core s) c' bs) ∧ ¬ allocated (k_core s') b.

Lemma box_kept core core' c bs :
  (∀ x, x ∈ bs → c_pool core' !! x = c_pool core !! x) → box core' c bs = box core c bs.
Proof. apply filter_tagged_kept. Qed.

Lemma rdp_queue_add_run w c b bs s :
  queue_holds w s bs → buf_inv (k_core s) → owned (k_core s) b → b ∉ bs →
  ∃ s', csp_rdp_queue_add w c b s = Some ((), s') ∧ added w c b bs s s' ∧
    ∀ x, x ≠ b → c_pool (k_core s') !! x = c_pool (k_core s) !! x.
Proof.
  intros Hh Hi (k & Hk & Hr) Hb. unfold csp_rdp_queue_add, added.
  set (p := set_frame_begin (UConn c) (skbf_data k)). set (core := upd_pkt (k_core s) b k p). set (s1 := set_k_core core s).
  assert (Hp : packet_ok p) by (destruct (bi_pool _ Hi b k Hk) as (_ & [] & _); by split).
  assert (Hmod : kmod_packet b (set_frame_begin (UConn c)) s = Some ((), s1)).
  { unfold kmod_packet. run (kget_at s b k Hk). unfold kput_packet. exact (liftC_run _ s _ _ (put_packet_run (k_core s) b k p Hk)). }
  run Hmod. assert (Hkeep : ∀ x, x ≠ b → c_pool core !! x = c_pool (k_core s) !! x) by (intros x Hx; by apply upd_pkt_lookup_ne).
  assert (Hbs : ∀ x, x ∈ bs → c_pool core !! x = c_pool (k_core s) !! x) by (intros x Hx; apply Hkeep; by intros ->).
  assert (Hk1 : c_pool core !! b = Some (mk_skbf (refcount k) (skbf_addr k) p)) by exact (upd_pkt_lookup _ _ _ _ Hk).
  assert (Hq : queue_of w s1 = queue_of w s) by (by destruct w). destruct Hh as (Hit & Hwf & Hin).
  case_bool_decide as Hlt.
  - exists (with_queue w (bs ++ [b]) s1). split; [apply rdpq_requeue_run; by rewrite Hq|].
    assert (Hc : k_core (with_queue w (bs ++ [b]) s1) = core) by (by destruct w). rewrite Hc. split; [|done]. split.
    + unfold queue_holds, fifo_wf, with_queue. rewrite queue_of_set, core_set_queue, Hq. cbn. split; [done|].
      split; [rewrite length_fmap, length_app; cbn; lia|].
      intros x [Hx|Hx%list_elem_of_singleton]%elem_of_app; [rewrite Hbs by done; by apply Hin|subst x; by eexists].
    + assert (Ht : tagged core c b = true) by (unfold tagged; rewrite Hk1; by apply bool_decide_eq_true).
      split; [|intros c' Hne]; rewrite box_app, (box_kept (k_core s) core) by done; unfold box at 2.
      * by rewrite filter_cons_True.
      * rewrite filter_cons_False by (rewrite (tagged_once core c); done). by rewrite filter_nil, app_nil_r.
  - assert (Hfull : rdpq_requeue w b s1 = kfree (Some b) s1).
    { unfold rdpq_requeue. rewrite (ST_bind_run (gets (queue_of w)) _ s1 (queue_of w s1) s1 eq_refl).
      rewrite csp_queue_enqueue_full by (unfold fifo_wf in Hwf; rewrite Hq, Hit, length_fmap in *; lia). by destruct w, s. }
    destruct (kfree_released s1 b) as (core' & Hf & Hrel); [exact (ls_inv _ _ _ (link_step_put b (k_core s) k p Hi Hk Hp))|by eexists|].
    rewrite Hfull. exists (set_k_core core' s1). split; [done|]. cbn [k_core set_k_core].
    assert (Hall : ∀ x, x ≠ b → c_pool core' !! x = c_pool (k_core s) !! x).
    { intros x Hx. rewrite (rl_kept _ _ _ Hrel) by (by intros ->%list_elem_of_singleton). by apply Hkeep. }
    assert (Hbs' : ∀ x, x ∈ bs → c_pool core' !! x = c_pool (k_core s) !! x) by (intros x Hx; apply Hall; by intros ->).
    split; [|done]. split; [|split; [intros c'; by apply box_kept|apply (rl_freed _ _ _ Hrel); by left]].
    split; [by destruct w|]. split; [by destruct w|]. intros x Hx. cbn. rewrite Hbs' by done. by apply Hin.
Qed.

Lemma rdp_queue_flush_run s c txs rxs :
  queue_holds TxQueue s txs → queue_holds RxQueue s rxs → NoDup (txs ++ rxs) → buf_inv (k_core s) →
  (∀ b, b ∈ txs ++ rxs → tagged (k_core s) c b = true → owned (k_core s) b) →
  ∃ core, csp_rdp_queue_flush (Some c) s =
      Some ((), with_queue RxQueue (filter (λ b, tagged (k_core s) c b = false) rxs)
                 (with_queue TxQueue (filter (λ b, tagged (k_core s) c b = false) txs) (set_k_core core s))) ∧
    released (box (k_core s) c (txs ++ rxs)) (k_core s) core.
Proof.
  intros Htx Hrx Hnd Hi Hown.
  apply NoDup_app in Hnd as (Hnt & Hdisj & Hnr).
  destruct (flush_loop_run TxQueue c txs [] s) as (core1 & H1 & Hr1).
  { split; rewrite ?app_nil_r; try done. intros b Hb. apply Hown, elem_of_app. by left. }
  assert (∀ x, x ∈ rxs → c_pool core1 !! x = c_pool (k_core s) !! x) as Hk1.
  { intros x Hx. apply Hr1. rewrite list_elem_of_filter. intros [_ Hin]. by apply (Hdisj x). }
  set (s1 := with_queue TxQueue (filter (λ b, tagged (k_core s) c b = false) txs) (set_k_core core1 s)).
  destruct (flush_loop_run RxQueue c rxs [] s1) as (core2 & H2 & Hr2).
  { split; rewrite ?app_nil_r; try done.
    - destruct Hrx as (? & ? & Hb). split; [done|]. split; [done|]. intros b Hin. cbn. rewrite Hk1 by done. auto.
    - apply Hr1.
    - intros b Hin Ht. cbn in Ht |- *. rewrite (tagged_kept (k_core s)) in Ht by auto.
      destruct (Hown b) as (k & Hk & Hrc); [apply elem_of_app; by right|done|]. exists k. by rewrite Hk1. }
  assert (k_core s1 = core1) as Hc1 by done. rewrite Hc1 in H2, Hr2.
  rewrite (filter_tagged_kept (k_core s) core1) in H2 by done.
  rewrite (filter_tagged_kept (k_core s) core1) in Hr2 by done.
  exists core2. unfold csp_rdp_queue_flush. run (rdpq_size_run TxQueue s txs (proj1 Htx)).
  rewrite Nat2Z.id. run H1. fold s1. change ([] ++ ?l) with l. fold s1.
  run (rdpq_size_run RxQueue s1 rxs (proj1 Hrx)). rewrite Nat2Z.id, H2. split; [done|].
  rewrite box_app. apply (released_app _ _ _ core1); [|done|done].
  intros x [_ Hx]%list_elem_of_filter [_ Hx']%list_elem_of_filter. by apply (Hdisj x).
Qed.
End RdpQueueLemmas.

(** C23: The two queues all RDP connections share, seen from the connections.  The size is
    that of the whole shared queue.  Taking a packet for a connection returns its oldest one
    and leaves its others in order, or [NULL] without any change when it has none; no packet
    of another connection is lost, but those of another connection may come out rotated.
    Adding a packet makes it the last of its connection and leaves the others exactly as they
    are, or releases it when the shared queue is full.  Flushing a connection releases exactly
    its packets in both queues and keeps the others in order. *)
Theorem csp_rdp_queue_per_connection (s : stack) (c : nat) (txs rxs : list nat) :
  queue_holds TxQueue s txs → queue_holds RxQueue s rxs → NoDup (txs ++ rxs) → buf_inv (k_core s) →
  (∀ b, b ∈ txs ++ rxs → tagged (k_core s) c b = true → owned (k_core s) b) →
  (∀ w bs, queue_holds w s bs →
     csp_rdp_queue_size w s = Some (Z.of_nat (List.length bs), s) ∧
     (∃ r bs', csp_rdp_queue_get w c s = Some (r, with_queue w bs' s) ∧ got (k_core s) c bs r bs') ∧
     ∀ b, owned (k_core s) b → b ∉ bs →
       ∃ s', csp_rdp_queue_add w c b s = Some ((), s') ∧ added w c b bs s s' ∧
         ∀ x, x ≠ b → c_pool (k_core s') !! x = c_pool (k_core s) !! x) ∧
  ∃ core, csp_rdp_queue_flush (Some c) s =
      Some ((), with_queue RxQueue (filter (λ b, tagged (k_core s) c b = false) rxs)
                 (with_queue TxQueue (filter (λ b, tagged (k_core s) c b = false) txs) (set_k_core core s))) ∧
    released (box (k_core s) c (txs ++ rxs)) (k_core s) core.
Proof.
  intros Htx Hrx Hnd Hi Hown. split; [|by apply rdp_queue_flush_run].
  intros w bs Hh. split; [by apply rdpq_size_run, Hh|]. split; [by apply rdp_queue_get_run|].
  intros b Hb Hnb. by apply rdp_queue_add_run.
Qed.

(** Two connections with a packet in each queue. *)
Definition tagged_packet (c : nat) : csp_packet_t := set_frame_begin (UConn c) empty_packet.
Definition rdp_queue_core : csp_core :=
  set_c_free (mk_fifo 4 [3%nat])
    (core_with [mk_skbf 1 0 (tagged_packet 1); mk_skbf 1 1 (tagged_packet 0); mk_skbf 1 2 (tagged_packet 0);
                mk_skbf 0 3 empty_packet]).
Definition rdp_queue_example : stack :=
  mk_stack rdp_queue_core Rtable.rtable_init [] ∅ [] 0 (mk_fifo 2000 [Some 0%nat; Some 1%nat]) (mk_fifo 2000 [Some 2%nat])
    rdp_opts_default 0 None false Dedup.dedup_zero (replicate 16 0) 0 0.

Lemma tagged_packet_ok c : packet_ok (tagged_packet c).
Proof. by destruct empty_packet_ok. Qed.

Lemma rdp_queue_core_inv : buf_inv rdp_queue_core.
Proof.
  split; [..|done|repeat constructor; set_solver|].
  - intros [|[|[|[|i]]]] k; simpl; try done; intros [= <-]; split; try done; split; try done;
      (apply tagged_packet_ok || apply empty_packet_ok).
  - intros i. split.
    + intros ->%list_elem_of_singleton. by eexists.
    + intros (k & Hk & Hr). revert Hk Hr. destruct i as [|[|[|[|i]]]]; simpl; try done; try (by intros [= <-]).
      intros _ _. by left.
Qed.

(** Two connections, one with two packets in the transmit queue. *)
Definition rdp_shared_core : csp_core :=
  set_c_free (mk_fifo 6 [3%nat])
    (core_with [mk_skbf 1 0 (tagged_packet 1); mk_skbf 1 1 (tagged_packet 0); mk_skbf 1 2 (tagged_packet 0);
                mk_skbf 0 3 empty_packet; mk_skbf 1 4 (tagged_packet 1); mk_skbf 1 5 empty_packet]).
Definition rdp_shared_example : stack :=
  mk_stack rdp_shared_core Rtable.rtable_init [] ∅ [] 0 (mk_fifo 2000 [Some 0%nat; Some 1%nat; Some 4%nat]) (mk_fifo 2000 [Some 2%nat])
    rdp_opts_default 0 None false Dedup.dedup_zero (replicate 16 0) 0 0.

Lemma rdp_shared_core_inv : buf_inv rdp_shared_core.
Proof.
  split; [..|done|repeat constructor; set_solver|].
  - intros [|[|[|[|[|[|i]]]]]] k; simpl; try done; intros [= <-]; split; try done; split; try done;
      (apply tagged_packet_ok || apply empty_packet_ok).
  - intros i. split.
    + intros ->%list_elem_of_singleton. by eexists.
    + intros (k & Hk & Hr). revert Hk Hr. destruct i as [|[|[|[|[|[|i]]]]]]; simpl; try done; try (by intros [= <-]).
      intros _ _. by left.
Qed.

(** The packets 0 and 4 of connection 1 change places when connection 0 takes its packet. *)
Lemma csp_rdp_queue_get_rotates :
  box rdp_shared_core 1 [0%nat; 1%nat; 4%nat] = [0%nat; 4%nat] ∧
  csp_rdp_queue_get TxQueue 0 rdp_shared_example = Some (Some 1%nat, with_queue TxQueue [4%nat; 0%nat] rdp_shared_example).
Proof. split; reflexivity. Qed.

Lemma rdp_queue_tx_example : queue_holds TxQueue rdp_shared_example [0%nat; 1%nat; 4%nat].
Proof. split; [done|]. split; [cbv; lia|]. intros b Hb. assert (b = 0 ∨ b = 1 ∨ b = 4)%nat as [->|[->| ->]] by set_solver; by eexists. Qed.

Lemma csp_rdp_queue_per_connection_witness :
  (∃ bs', csp_rdp_queue_get TxQueue 0 rdp_shared_example = Some (Some 1%nat, with_queue TxQueue bs' rdp_shared_example)) ∧
  (∃ s', csp_rdp_queue_add TxQueue 0 5 rdp_shared_example = Some ((), s') ∧ box (k_core s') 0 [0%nat; 1%nat; 4%nat; 5%nat] = [1%nat; 5%nat]) ∧
  ∃ core s', csp_rdp_queue_flush (Some 0%nat) rdp_shared_example = Some ((), s') ∧
    released [1%nat; 2%nat] rdp_shared_core core.
Proof.
  destruct (csp_rdp_queue_per_connection rdp_shared_example 0 [0%nat; 1%nat; 4%nat] [2%nat]) as [Hq (core & Hf & Hr)].
  - apply rdp_queue_tx_example.
  - split; [done|]. split; [cbv; lia|]. intros b ->%list_elem_of_singleton; by eexists.
  - apply (bool_decide_unpack _). vm_compute. done.
  - apply rdp_shared_core_inv.
  - intros b Hb _. assert (b = 0 ∨ b = 1 ∨ b = 4 ∨ b = 2)%nat as [->|[->|[->| ->]]] by set_solver; by eexists.
  - destruct (Hq TxQueue _ rdp_queue_tx_example) as (_ & (r & bs' & Hg & Hr' & _) & Hadd). split; [|split].
    + exists bs'. rewrite Hg, Hr'. reflexivity.
    + destruct (Hadd 5%nat) as (s' & Ha & Had & _); [by eexists|set_solver|]. exists s'. split; [exact Ha|].
      exact (proj1 (proj2 Had)).
    + exists core. eexists. split; [exact Hf|exact Hr].
Defined.
