(* ===== verification/Rdp.v ===== *)
(** * The Reliable Datagram Protocol

    [src/csp_rdp.c]: sequence numbers, control messages, the receive state machine,
    retransmission and closing; with the parts of [src/csp_conn.c] it is mutually
    dependent with (closing a connection and its receive queue). *)

From S2P Require Import Prelude Queue Types State Id Buffer Nexthop Hmac Stack Net RdpQueue.

Definition RDP_SYN : Z := 8.
Definition RDP_ACK : Z := 4.
Definition RDP_EAK : Z := 2.
Definition RDP_RST : Z := 1.

Definition CSP_RDP_CLOSED_BY_USERSPACE : Z := 1.
Definition CSP_RDP_CLOSED_BY_PROTOCOL : Z := 2.
Definition CSP_RDP_CLOSED_BY_TIMEOUT : Z := 4.
Definition CSP_RDP_CLOSED_BY_ALL : Z := 7.

Definition CSP_PRIO_HIGH : Z := 1.

(** ** Sequence numbers and time *)

Definition csp_rdp_seq_between (seq start end_ : Z) : bool :=
  bool_decide (u16 (u16 seq - u16 start) ≤ u16 (u16 end_ - u16 start)).
Definition csp_rdp_seq_before (seq cmp : Z) : bool :=
  bool_decide (s16 (u16 seq - u16 cmp) < 0).
Definition csp_rdp_seq_after (seq cmp : Z) : bool := csp_rdp_seq_before cmp seq.
Definition csp_rdp_time_before (time cmp : Z) : bool :=
  bool_decide (s32 (u32 time - u32 cmp) < 0).
Definition csp_rdp_time_after (time cmp : Z) : bool := csp_rdp_time_before cmp time.

(** ** The header

    [rdp_header_t] lies in the last five bytes of the data: flags, sequence number,
    acknowledgement number.  The numbers are big-endian on the wire; a received
    header is converted in place to the little-endian order of the host. *)

Definition RDP_HEADER_SIZE : Z := 5.

Record rdp_header_t := mk_rdp_header { h_flags : Z; h_seq_nr : Z; h_ack_nr : Z }.

(** The fields as they lie in memory, read with byte order [val]. *)
Definition header_read (val : list Z → Z) (p : csp_packet_t) : option rdp_header_t :=
  bs ← data_read p (pk_length p - RDP_HEADER_SIZE) RDP_HEADER_SIZE;
  match bs with
  | [f; s0; s1; a0; a1] => Some (mk_rdp_header f (val [s0; s1]) (val [a0; a1]))
  | _ => None
  end.

Definition header_write (bytes : nat → Z → list Z) (h : rdp_header_t) (p : csp_packet_t)
    : option csp_packet_t :=
  data_write p (pk_length p - RDP_HEADER_SIZE)
    ([h_flags h] ++ bytes 2%nat (h_seq_nr h) ++ bytes 2%nat (h_ack_nr h)).

(** [csp_rdp_header_add]; the inner [None] is [NULL]. *)
Definition csp_rdp_header_add (p : csp_packet_t) : option (option csp_packet_t) :=
  if bool_decide (CSP_BUFFER_SIZE < pk_length p + RDP_HEADER_SIZE) then Some None else
  p' ← data_write p (pk_length p) (replicate 5 0);
  Some (Some (set_pk_length (u16 (pk_length p + RDP_HEADER_SIZE)) p')).

(** [csp_rdp_header_remove]; the callers do not use the pointer it returns. *)
Definition csp_rdp_header_remove (p : csp_packet_t) : csp_packet_t :=
  set_pk_length (u16 (pk_length p - RDP_HEADER_SIZE)) p.

(** The conversion at the start of [csp_rdp_new_packet]. *)
Definition header_to_host (p : csp_packet_t) : option (rdp_header_t * csp_packet_t) :=
  h ← header_read be_val p;
  p' ← header_write le_bytes h p;
  Some (h, p').

(** ** Connection queues ([csp_conn.c]) *)

(** [csp_conn_enqueue_packet]; [packet] may be [NULL]. *)
Definition csp_conn_enqueue_packet (conn : nat) (packet : option nat) : K Z :=
  x ← get_conn conn;
  let '(rc, q') := csp_queue_enqueue (cn_rx_queue x) packet in
  put_conn conn (set_cn_rx_queue q' x);;
  if bool_decide (rc ≠ CSP_QUEUE_OK) then liftC (mod_dbg inc_conn_ovf);; mret CSP_ERR_NOMEM
  else mret CSP_ERR_NONE.

(** [while (csp_queue_dequeue(conn->rx_queue, &packet, 0) == CSP_QUEUE_OK)]: the queue
    is emptied and every packet of it released. *)
Fixpoint free_packets (items : list (option nat)) : K () :=
  match items with [] => mret () | p :: items' => kfree p;; free_packets items' end.
Definition csp_conn_flush_rx_queue (conn : nat) : K () :=
  x ← get_conn conn;
  put_conn conn (set_cn_rx_queue (mk_fifo (fq_cap (cn_rx_queue x)) []) x);;
  free_packets (fq_items (cn_rx_queue x)).

Section Rdp.
Context `{Env}.

(** ** Control messages *)

(** [csp_rdp_send_cmp] from the header on: [packet] has been allocated. *)
Definition send_cmp_packet (conn packet : nat) (flags seq_nr ack_nr : Z) : K Z :=
  p ← kget_packet packet;
  header ← lift_opt (csp_rdp_header_add p);
  match header with
  | None => kfree (Some packet);; mret CSP_ERR_NOMEM
  | Some p =>
      incr ← gets k_rdp_incr;
      modify (set_k_rdp_incr (u8 (incr + 1)));;
      p ← lift_opt (header_write be_bytes
            (mk_rdp_header (u8 (Z.lor (Z.shiftl incr 4) flags)) (u16 seq_nr) (u16 ack_nr)) p);
      kput_packet packet p;;
      queued ← (if has_flag flags RDP_SYN then
                  copy ← liftC (csp_buffer_clone (Some packet));
                  match copy with
                  | None => mret false
                  | Some c =>
                      now ← csp_get_ms;
                      kmod_packet c (set_cfpid now);;
                      csp_rdp_queue_add TxQueue conn c;; mret true
                  end
                else mret true);
      if (queued : bool) then
        x ← get_conn conn;
        let id := idout x in
        let id := set_pri (if bool_decide (pri id < CSP_PRIO_HIGH) then pri id else CSP_PRIO_HIGH) id in
        csp_send_direct (IdLocal id) (Some packet) None;;
        now ← csp_get_ms;
        when (has_flag flags RDP_ACK)
          (mod_rdp conn (λ r, set_ack_timestamp now (set_rcv_lsa (u16 ack_nr) r)));;
        mret CSP_ERR_NONE
      else mret CSP_ERR_NOMEM
  end.

(** [csp_rdp_send_cmp]; without a packet an empty one is allocated. *)
Definition csp_rdp_send_cmp (conn : nat) (packet : option nat) (flags seq_nr ack_nr : Z) : K Z :=
  match packet with
  | Some b => send_cmp_packet conn b flags seq_nr ack_nr
  | None =>
      r ← liftC csp_buffer_get;
      match r with
      | None => mret CSP_ERR_NOMEM
      | Some b => kmod_packet b (set_pk_length 0);; send_cmp_packet conn b flags seq_nr ack_nr
      end
  end.

Definition csp_rdp_send_syn (conn : nat) : K Z :=
  r ← liftC csp_buffer_get;
  match r with
  | None => mret CSP_ERR_NOMEM
  | Some b =>
      o ← gets k_rdp_opts;
      p ← kget_packet b;
      p ← lift_opt (data_write p 0 (be_bytes 4 (o_window_size o) ++ be_bytes 4 (o_conn_timeout o) ++
            be_bytes 4 (o_packet_timeout o) ++ be_bytes 4 (o_delayed_acks o) ++
            be_bytes 4 (o_ack_timeout o) ++ be_bytes 4 (o_ack_delay_count o)));
      kput_packet b (set_pk_length 24 p);;
      x ← get_conn conn;
      csp_rdp_send_cmp conn (Some b) RDP_SYN (snd_iss (cn_rdp x)) 0
  end.

(** A control message with the current sequence numbers; its result is ignored. *)
Definition rdp_reply (conn : nat) (flags : Z) (seq ack : csp_rdp_t → Z) : K () :=
  x ← get_conn conn;
  csp_rdp_send_cmp conn None flags (seq (cn_rdp x)) (ack (cn_rdp x));; mret ().

(** ** Closing *)

Definition csp_rdp_close_internal (conn : nat) (by_ : Z) (send_rst : bool) : K Z :=
  x ← get_conn conn;
  if bool_decide (rdp_state (cn_rdp x) = RDP_CLOSED) then mret CSP_ERR_NONE else
  mod_rdp conn (λ r, set_closed_by (u8 (Z.lor (closed_by r) by_)) r);;
  (if bool_decide (rdp_state (cn_rdp x) ≠ RDP_CLOSE_WAIT) then
     now ← csp_get_ms;
     mod_conn conn (λ x, set_cn_timestamp now (set_cn_rdp (set_rdp_state RDP_CLOSE_WAIT (cn_rdp x)) x));;
     when send_rst (rdp_reply conn (Z.lor RDP_ACK RDP_RST) snd_nxt rcv_cur);;
     csp_bin_sem_post conn
   else mret ());;
  x ← get_conn conn;
  if bool_decide (closed_by (cn_rdp x) ≠ CSP_RDP_CLOSED_BY_ALL) then mret CSP_ERR_AGAIN else
  mod_rdp conn (λ r, set_closed_by 0 (set_rdp_state RDP_CLOSED r));;
  mret CSP_ERR_NONE.

Definition csp_rdp_close (conn : nat) (by_ : Z) : K Z := csp_rdp_close_internal conn by_ true.

(** [csp_conn_close] ([csp_conn.c]) *)
Definition csp_conn_close (conn : option nat) (by_ : Z) : K Z :=
  match conn with
  | None => mret CSP_ERR_NONE
  | Some c =>
      x ← get_conn c;
      if bool_decide (cn_state x = CONN_CLOSED)
      then liftC (errno CSP_DBG_ERR_ALREADY_CLOSED);; mret CSP_ERR_NONE else
      again ← (if has_flag (flags (idin x)) CSP_FRDP || has_flag (flags (idout x)) CSP_FRDP
               then rc ← csp_rdp_close c by_; mret (bool_decide (rc = CSP_ERR_AGAIN))
               else mret false);
      if (again : bool) then mret CSP_ERR_NONE else
      csp_conn_flush_rx_queue c;;
      x ← get_conn c;
      when (has_flag (flags (idin x)) CSP_FRDP) (csp_rdp_queue_flush (Some c));;
      mod_conn c (set_cn_state CONN_CLOSED);;
      mret CSP_ERR_NONE
  end.

Definition csp_close (conn : option nat) : K Z := csp_conn_close conn CSP_RDP_CLOSED_BY_USERSPACE.

(** ** Receiving data *)

Definition csp_rdp_receive_data (conn packet : nat) : K Z :=
  kmod_packet packet csp_rdp_header_remove;;
  rc ← csp_conn_enqueue_packet conn (Some packet);
  if bool_decide (rc < 0) then liftC (mod_dbg inc_conn_ovf);; mret CSP_ERR_NOBUFS
  else mret CSP_ERR_NONE.

(** One pass of the loop of [csp_rdp_rx_queue_flush]: [true] is [goto front]. *)
Fixpoint rx_flush_pass (n : nat) (conn : nat) : K bool :=
  match n with
  | O => mret false
  | S n' =>
      x ← get_conn conn;
      if bool_decide (csp_queue_free (cn_rx_queue x) ≤ 2) then mret false else
      r ← csp_rdp_queue_get RxQueue conn;
      match r with
      | None => mret false
      | Some b =>
          p ← kget_packet b;
          h ← lift_opt (header_read le_val p);
          if bool_decide (h_seq_nr h = u16 (rcv_cur (cn_rdp x) + 1)) then
            rc ← csp_rdp_receive_data conn b;
            when (bool_decide (rc ≠ CSP_ERR_NONE)) (kfree (Some b));;
            mod_rdp conn (λ r, set_rcv_cur (u16 (rcv_cur r + 1)) r);;
            mret true
          else csp_rdp_queue_add RxQueue conn b;; rx_flush_pass n' conn
      end
  end.

(** The [front:] loop; every round takes an element out of the queue. *)
Fixpoint rx_flush (fuel : nat) (conn : nat) : K () :=
  match fuel with
  | O => ub
  | S fuel' =>
      n ← csp_rdp_queue_size RxQueue;
      again ← rx_flush_pass (Z.to_nat n) conn;
      if (again : bool) then rx_flush fuel' conn else mret ()
  end.

Definition csp_rdp_rx_queue_flush (conn : nat) : K () :=
  n ← csp_rdp_queue_size RxQueue; rx_flush (S (Z.to_nat n)) conn.

(** [csp_rdp_seq_in_rx_queue] *)
Fixpoint seq_in_rx_queue_loop (n : nat) (conn : nat) (seq_nr : Z) : K bool :=
  match n with
  | O => mret false
  | S n' =>
      r ← csp_rdp_queue_get RxQueue conn;
      match r with
      | None => mret false
      | Some b =>
          csp_rdp_queue_add RxQueue conn b;;
          p ← kget_packet b;
          h ← lift_opt (header_read le_val p);
          if bool_decide (h_seq_nr h = seq_nr) then mret true else seq_in_rx_queue_loop n' conn seq_nr
      end
  end.
Definition csp_rdp_seq_in_rx_queue (conn : nat) (seq_nr : Z) : K bool :=
  n ← csp_rdp_queue_size RxQueue; seq_in_rx_queue_loop (Z.to_nat n) conn seq_nr.

Definition csp_rdp_rx_queue_add (conn packet : nat) (seq_nr : Z) : K Z :=
  dup ← csp_rdp_seq_in_rx_queue conn seq_nr;
  if (dup : bool) then mret (-1) else csp_rdp_queue_add RxQueue conn packet;; mret 0.

(** ** Acknowledgements and the send window *)

Definition csp_rdp_should_ack (conn : nat) : K bool :=
  x ← get_conn conn;
  time_now ← csp_get_ms;
  let r := cn_rdp x in
  mret (bool_decide (delayed_acks r = 0) ||
        csp_rdp_time_after time_now (ack_timestamp r + ack_timeout r) ||
        csp_rdp_seq_after (rcv_cur r) (rcv_lsa r + ack_delay_count r)).

(** [csp_rdp_check_ack]; the signed product is undefined when it overflows. *)
Definition csp_rdp_check_ack (conn : nat) : K Z :=
  x ← get_conn conn;
  let twice := 2 * s32 (window_size (cn_rdp x)) in
  if bool_decide (- 2 ^ 31 ≤ twice < 2 ^ 31) then
    if bool_decide (Z.of_nat CSP_CONN_RXQUEUE_LEN - csp_queue_size (cn_rx_queue x) ≤ twice)
    then mret CSP_ERR_NONE else
    ack ← csp_rdp_should_ack conn;
    when ack (rdp_reply conn RDP_ACK snd_nxt rcv_cur);;
    mret CSP_ERR_NONE
  else ub.

Definition csp_rdp_is_conn_ready_for_tx (r : csp_rdp_t) : bool :=
  negb (csp_rdp_seq_after (snd_nxt r) (snd_una r + window_size r - 1)).

(** ** Timeouts *)

(** The loop over the transmit queue in [csp_rdp_check_timeouts]: acknowledged
    packets are released, overdue ones sent again. *)
Fixpoint retransmit_loop (n : nat) (conn : nat) (time_now : Z) : K () :=
  match n with
  | O => mret ()
  | S n' =>
      r ← csp_rdp_queue_get TxQueue conn;
      match r with
      | None => mret ()
      | Some b =>
          p ← kget_packet b;
          h ← lift_opt (header_read be_val p);
          x ← get_conn conn;
          if csp_rdp_seq_before (h_seq_nr h) (snd_una (cn_rdp x)) then
            kfree (Some b);; retransmit_loop n' conn time_now
          else
            (if csp_rdp_time_after time_now (cfpid p + packet_timeout (cn_rdp x)) then
               p ← lift_opt (header_write be_bytes
                     (mk_rdp_header (h_flags h) (h_seq_nr h) (rcv_cur (cn_rdp x))) p);
               now ← csp_get_ms;
               kput_packet b (set_cfpid now p);;
               copy ← liftC (csp_buffer_clone (Some b));
               csp_send_direct (IdConn conn) copy None
             else mret ());;
            csp_rdp_queue_add TxQueue conn b;;
            retransmit_loop n' conn time_now
      end
  end.

Definition csp_rdp_check_timeouts (conn : nat) : K () :=
  time_now ← csp_get_ms;
  x ← get_conn conn;
  let expired := csp_rdp_time_after time_now (cn_timestamp x + conn_timeout (cn_rdp x)) in
  if negb (bool_decide (dest_socket x = None)) && expired then
    csp_conn_close (Some conn) (Z.lor (Z.lor CSP_RDP_CLOSED_BY_USERSPACE CSP_RDP_CLOSED_BY_PROTOCOL)
      CSP_RDP_CLOSED_BY_TIMEOUT);; mret ()
  else if bool_decide (rdp_state (cn_rdp x) = RDP_CLOSE_WAIT) then
    when expired
      (csp_conn_close (Some conn) (Z.lor CSP_RDP_CLOSED_BY_PROTOCOL CSP_RDP_CLOSED_BY_TIMEOUT);; mret ())
  else
    count ← csp_rdp_queue_size TxQueue;
    retransmit_loop (Z.to_nat count) conn time_now;;
    x ← get_conn conn;
    (if bool_decide (rdp_state (cn_rdp x) = RDP_OPEN) then
       when (bool_decide (delayed_acks (cn_rdp x) ≠ 0)) (csp_rdp_check_ack conn;; mret ());;
       x ← get_conn conn;
       when (csp_rdp_is_conn_ready_for_tx (cn_rdp x)) (csp_bin_sem_post conn)
     else mret ());;
    csp_rdp_rx_queue_flush conn.

(** ** The receive state machine *)

(** Where a case of [csp_rdp_new_packet] jumps to. *)
Inductive rdp_goto :=
  | discard_close (closed_by : Z)
  | discard_open (close_connection : bool)
  | accepted_open.

(** A packet with the [RST] flag. *)
Definition rdp_rst_received (conn : nat) (h : rdp_header_t) : K rdp_goto :=
  when (has_flag (h_flags h) RDP_ACK) (mod_rdp conn (set_snd_una (u16 (h_ack_nr h + 1))));;
  x ← get_conn conn;
  match rdp_state (cn_rdp x) with
  | RDP_CLOSED => mret (discard_open (negb (bool_decide (dest_socket x = None))))
  | RDP_CLOSE_WAIT =>
      mret (discard_close (if has_flag (h_flags h) RDP_ACK
                           then Z.lor CSP_RDP_CLOSED_BY_PROTOCOL CSP_RDP_CLOSED_BY_TIMEOUT
                           else CSP_RDP_CLOSED_BY_PROTOCOL))
  | _ =>
      if bool_decide (h_seq_nr h = rcv_cur (cn_rdp x) + 1) then
        now ← csp_get_ms;
        mod_conn conn (λ x, set_cn_timestamp now (set_cn_rdp (set_rdp_state RDP_CLOSE_WAIT (cn_rdp x)) x));;
        rdp_reply conn (Z.lor RDP_ACK RDP_RST) snd_nxt rcv_cur;;
        mret (discard_close (Z.lor CSP_RDP_CLOSED_BY_PROTOCOL CSP_RDP_CLOSED_BY_TIMEOUT))
      else mret (discard_open false)
  end.

(** [be32toh(packet->data32[i])] *)
Definition data32 (p : csp_packet_t) (i : Z) : option Z := be_val <$> data_read p (4 * i) 4.

Definition rdp_in_closed (conn packet : nat) (h : rdp_header_t) : K rdp_goto :=
  if negb (has_flag (h_flags h) RDP_SYN) then
    rdp_reply conn RDP_RST snd_nxt rcv_cur;; mret (discard_close CSP_RDP_CLOSED_BY_PROTOCOL)
  else
    seed ← csp_get_ms;
    let iss := u16 (rand_r seed) in
    p ← kget_packet packet;
    w ← lift_opt (data32 p 0); ct ← lift_opt (data32 p 1); pt ← lift_opt (data32 p 2);
    da ← lift_opt (data32 p 3); at_ ← lift_opt (data32 p 4); dc ← lift_opt (data32 p 5);
    mod_rdp conn (λ r, mk_rdp RDP_SYN_RCVD (closed_by r) (u16 (iss + 1)) iss iss
      (h_seq_nr h) (h_seq_nr h) (h_seq_nr h) w ct pt da at_ dc (ack_timestamp r) (tx_wait r));;
    rdp_reply conn (Z.lor RDP_ACK RDP_SYN) snd_iss rcv_irs;;
    mret (discard_open false).

Definition rdp_in_syn_sent (conn : nat) (h : rdp_header_t) : K rdp_goto :=
  if has_flag (h_flags h) RDP_SYN && has_flag (h_flags h) RDP_ACK then
    now ← csp_get_ms;
    mod_rdp conn (λ r, set_rdp_state RDP_OPEN (set_ack_timestamp now
      (set_snd_una (u16 (h_ack_nr h + 1)) (set_rcv_lsa (u16 (h_seq_nr h - 1))
        (set_rcv_irs (h_seq_nr h) (set_rcv_cur (h_seq_nr h) r))))));;
    rdp_reply conn RDP_ACK snd_nxt rcv_cur;;
    csp_bin_sem_post conn;;
    mret (discard_open false)
  else if has_flag (h_flags h) RDP_ACK then
    rdp_reply conn RDP_RST snd_nxt rcv_cur;;
    csp_bin_sem_post conn;;
    mret (discard_open false)
  else mret (discard_close CSP_RDP_CLOSED_BY_PROTOCOL).

(** The acknowledgement number lies in the send window. *)
Definition ack_in_window (r : csp_rdp_t) (ack_nr : Z) : bool :=
  csp_rdp_seq_between ack_nr (snd_una r - 1 - window_size r * 2) (snd_nxt r - 1).

(** [csp_queue_enqueue(conn->dest_socket->rx_queue, &conn, 0)]: posts the connection to
    the socket that waits for it. *)
Definition post_to_socket (conn sock : nat) : K Z :=
  so ← get_sock sock;
  q ← lift_opt (so_rx_queue so);
  let '(rc, q') := csp_queue_enqueue q (SConn conn) in
  put_sock sock (set_so_rx_queue (Some q') so);;
  mret rc.

(** The end of the open case: the packet is acceptable and the connection open. *)
Definition rdp_data (conn packet : nat) (h : rdp_header_t) : K rdp_goto :=
  now ← csp_get_ms;
  x ← get_conn conn;
  when (bool_decide (dest_socket x = None)) (mod_conn conn (set_cn_timestamp now));;
  mod_rdp conn (set_snd_una (u16 (h_ack_nr h + 1)));;
  p ← kget_packet packet;
  if has_flag (h_flags h) RDP_EAK then mret (discard_open false) else
  if bool_decide (pk_length p ≤ RDP_HEADER_SIZE) then mret (discard_open false) else
  if bool_decide (h_seq_nr h ≠ u16 (rcv_cur (cn_rdp x) + 1)) then
    rc ← csp_rdp_rx_queue_add conn packet (h_seq_nr h);
    if bool_decide (rc ≠ 0) then csp_rdp_check_ack conn;; mret (discard_open false)
    else mret accepted_open
  else
    rc ← csp_rdp_receive_data conn packet;
    if bool_decide (rc ≠ CSP_ERR_NONE) then mret (discard_open false) else
    mod_rdp conn (set_rcv_cur (h_seq_nr h));;
    csp_rdp_check_ack conn;;
    csp_rdp_rx_queue_flush conn;;
    mret accepted_open.

Definition rdp_in_open (conn packet : nat) (h : rdp_header_t) : K rdp_goto :=
  x ← get_conn conn;
  let r := cn_rdp x in
  if has_flag (h_flags h) RDP_SYN || negb (has_flag (h_flags h) RDP_ACK) then
    if bool_decide (h_seq_nr h ≠ rcv_irs r) then mret (discard_close CSP_RDP_CLOSED_BY_PROTOCOL)
    else mret (discard_open false)
  else if negb (csp_rdp_seq_between (h_seq_nr h) (rcv_cur r + 1) (rcv_cur r + window_size r * 2)) then
    when (bool_decide (rdp_state r = RDP_SYN_RCVD)) (rdp_reply conn (Z.lor RDP_ACK RDP_SYN) snd_iss rcv_irs);;
    mret (discard_open false)
  else if negb (ack_in_window r (h_ack_nr h)) then mret (discard_open false)
  else if bool_decide (rdp_state r = RDP_SYN_RCVD) then
    if bool_decide (h_ack_nr h ≠ snd_iss r) then mret (discard_close CSP_RDP_CLOSED_BY_PROTOCOL) else
    mod_rdp conn (set_rdp_state RDP_OPEN);;
    match dest_socket x with
    | None => rdp_data conn packet h
    | Some sock =>
        rc ← post_to_socket conn sock;
        if bool_decide (rc = CSP_QUEUE_ERROR) then mret (discard_close CSP_RDP_CLOSED_BY_PROTOCOL)
        else mod_conn conn (set_dest_socket None);; rdp_data conn packet h
    end
  else rdp_data conn packet h.

Definition rdp_in_close_wait (conn : nat) (h : rdp_header_t) : K rdp_goto :=
  x ← get_conn conn;
  if has_flag (h_flags h) RDP_SYN || negb (has_flag (h_flags h) RDP_ACK) then mret (discard_open false)
  else if negb (ack_in_window (cn_rdp x) (h_ack_nr h)) then mret (discard_open false)
  else
    mod_rdp conn (set_snd_una (u16 (h_ack_nr h + 1)));;
    rdp_reply conn (Z.lor RDP_ACK RDP_RST) snd_nxt rcv_cur;;
    mret (discard_open false).

(** The labels at the end of [csp_rdp_new_packet]. *)
Definition rdp_finish (conn packet : nat) (g : rdp_goto) : K bool :=
  match g with
  | accepted_open => mret false
  | discard_open close_connection => kfree (Some packet);; mret close_connection
  | discard_close by_ =>
      x ← get_conn conn;
      (if bool_decide (dest_socket x = None)
       then csp_conn_close (Some conn) by_;; csp_conn_enqueue_packet conn None;; mret ()
       else csp_conn_close (Some conn) (Z.lor by_ CSP_RDP_CLOSED_BY_USERSPACE);; mret ());;
      kfree (Some packet);; mret false
  end.

Definition csp_rdp_new_packet (conn packet : nat) : K bool :=
  p ← kget_packet packet;
  '(h, p) ← lift_opt (header_to_host p);
  kput_packet packet p;;
  x ← get_conn conn;
  g ← (if has_flag (h_flags h) RDP_RST then rdp_rst_received conn h else
       match rdp_state (cn_rdp x) with
       | RDP_CLOSED => rdp_in_closed conn packet h
       | RDP_SYN_SENT => rdp_in_syn_sent conn h
       | RDP_SYN_RCVD | RDP_OPEN => rdp_in_open conn packet h
       | RDP_CLOSE_WAIT => rdp_in_close_wait conn h
       end);
  rdp_finish conn packet g.

(** ** Connecting and sending *)

(** [csp_rdp_connect] from the label [retry]; [retries] of them are left. *)
Fixpoint rdp_connect_loop (retries : nat) (conn : nat) : K Z :=
  let error := csp_rdp_close_internal conn CSP_RDP_CLOSED_BY_PROTOCOL false;; mret CSP_ERR_TIMEDOUT in
  x ← get_conn conn;
  if bool_decide (rdp_state (cn_rdp x) = RDP_OPEN) then mret CSP_ERR_ALREADY else
  seed ← csp_get_ms;
  let iss := u16 (rand_r seed) in
  mod_rdp conn (λ r, set_snd_una iss (set_snd_nxt (u16 (iss + 1)) (set_snd_iss iss r)));;
  csp_bin_sem_wait conn 0;;
  mod_rdp conn (set_rdp_state RDP_SYN_SENT);;
  rc ← csp_rdp_send_syn conn;
  if bool_decide (rc ≠ CSP_ERR_NONE) then error else
  x ← get_conn conn;
  result ← csp_bin_sem_wait conn (conn_timeout (cn_rdp x));
  x ← get_conn conn;
  if bool_decide (result = CSP_SEMAPHORE_OK) then
    match rdp_state (cn_rdp x), retries with
    | RDP_OPEN, _ => mret CSP_ERR_NONE
    | RDP_SYN_SENT, S retries' => csp_rdp_queue_flush (Some conn);; rdp_connect_loop retries' conn
    | _, _ => error
    end
  else error.

Definition csp_rdp_connect (conn : nat) : K Z :=
  o ← gets k_rdp_opts;
  now ← csp_get_ms;
  mod_rdp conn (λ r, set_ack_timestamp now (set_ack_delay_count (o_ack_delay_count o)
    (set_ack_timeout (o_ack_timeout o) (set_delayed_acks (o_delayed_acks o)
      (set_packet_timeout (o_packet_timeout o) (set_conn_timeout (o_conn_timeout o)
        (set_window_size (o_window_size o) r)))))));;
  rdp_connect_loop 1 conn.

(** The loop that waits for the window to open; [None] also when it has not ended
    after [fuel] rounds. *)
Fixpoint wait_for_window (fuel : nat) (conn : nat) : K Z :=
  x ← get_conn conn;
  if bool_decide (rdp_state (cn_rdp x) = RDP_OPEN) && negb (csp_rdp_is_conn_ready_for_tx (cn_rdp x)) then
    match fuel with
    | O => ub
    | S fuel' =>
        rc ← csp_bin_sem_wait conn (conn_timeout (cn_rdp x));
        if bool_decide (rc ≠ CSP_SEMAPHORE_OK) then mret CSP_ERR_TIMEDOUT
        else wait_for_window fuel' conn
    end
  else mret CSP_ERR_NONE.

Definition csp_rdp_send (fuel : nat) (conn packet : nat) : K Z :=
  x ← get_conn conn;
  if bool_decide (rdp_state (cn_rdp x) ≠ RDP_OPEN) then mret CSP_ERR_RESET else
  rc ← wait_for_window fuel conn;
  if bool_decide (rc ≠ CSP_ERR_NONE) then mret rc else
  x ← get_conn conn;
  if bool_decide (rdp_state (cn_rdp x) ≠ RDP_OPEN) then mret CSP_ERR_RESET else
  p ← kget_packet packet;
  header ← lift_opt (csp_rdp_header_add p);
  match header with
  | None => mret CSP_ERR_NOMEM
  | Some p =>
      p ← lift_opt (header_write be_bytes
            (mk_rdp_header RDP_ACK (snd_nxt (cn_rdp x)) (rcv_cur (cn_rdp x))) p);
      kput_packet packet p;;
      copy ← liftC (csp_buffer_clone (Some packet));
      match copy with
      | None => mret CSP_ERR_NOMEM
      | Some c =>
          now ← csp_get_ms;
          kmod_packet c (λ p, set_rx_count 0 (set_remain 0 (set_cfpid now p)));;
          csp_rdp_queue_add TxQueue conn c;;
          mod_rdp conn (λ r, set_snd_nxt (u16 (snd_nxt r + 1)) r);;
          mret CSP_ERR_NONE
      end
  end.

(** ** Options and status *)

Definition csp_rdp_set_opt (o : rdp_opts_t) : K () := modify (set_k_rdp_opts o).
Definition csp_rdp_get_opt : K rdp_opts_t := gets k_rdp_opts.

Definition csp_rdp_conn_is_active (conn : nat) : K bool :=
  time_now ← csp_get_ms;
  x ← get_conn conn;
  mret (negb (csp_rdp_time_after time_now (cn_timestamp x + conn_timeout (cn_rdp x))) &&
        negb (bool_decide (rdp_state (cn_rdp x) = RDP_CLOSE_WAIT) ||
              bool_decide (rdp_state (cn_rdp x) = RDP_CLOSED))).
End Rdp.

(** [csp_rdp_init]; the semaphore starts unlocked. *)
Definition csp_rdp_init (o : rdp_opts_t) (x : csp_conn_t) : csp_conn_t :=
  set_cn_rdp (set_tx_wait 1 (set_packet_timeout (o_packet_timeout o)
    (set_conn_timeout (o_conn_timeout o) (set_closed_by 0 (set_rdp_state RDP_CLOSED (cn_rdp x)))))) x.

(** ** The header on the wire and in the receiver *)

(** A way to store 16-bit numbers and to read them back. *)
Class ByteOrder (bytes : nat → Z → list Z) (val : list Z → Z) : Prop := {
  bo_val : ∀ z, is_u16 z → val (bytes 2%nat z) = z;
  bo_length : ∀ z, List.length (bytes 2%nat z) = 2%nat;
  bo_ok : ∀ z, bytes_ok (bytes 2%nat z);
}.

#[export] Instance big_endian : ByteOrder be_bytes be_val.
Proof.
  split; intros z; [|apply length_be_bytes|apply be_bytes_ok].
  intros Hz. rewrite be_val_be_bytes. apply Z.mod_small. by machine.
Qed.

#[export] Instance little_endian : ByteOrder le_bytes le_val.
Proof.
  split; intros z.
  - intros Hz. unfold le_val, le_bytes. rewrite rev_involutive. by apply bo_val.
  - unfold le_bytes. by rewrite length_rev, length_be_bytes.
  - unfold le_bytes. apply Forall_rev, be_bytes_ok.
Qed.

Definition header_ok (h : rdp_header_t) : Prop :=
  is_u8 (h_flags h) ∧ is_u16 (h_seq_nr h) ∧ is_u16 (h_ack_nr h).

Definition header_bytes (bytes : nat → Z → list Z) (h : rdp_header_t) : list Z :=
  [h_flags h] ++ bytes 2%nat (h_seq_nr h) ++ bytes 2%nat (h_ack_nr h).

(** The packet holds the payload [pay] followed by the header [h]. *)
Definition segment (bytes : nat → Z → list Z) (p : csp_packet_t) (h : rdp_header_t) (pay : list Z) : Prop :=
  payload p = Some (pay ++ header_bytes bytes h) ∧ packet_ok p ∧ header_ok h.

Section Header.
Context (bytes : nat → Z → list Z) (val : list Z → Z) `{!ByteOrder bytes val}.
Implicit Types (p : csp_packet_t) (h : rdp_header_t) (pay : list Z).

Lemma length_header_bytes h : List.length (header_bytes bytes h) = 5%nat.
Proof. unfold header_bytes. rewrite !length_app, !bo_length. done. Qed.

Lemma header_bytes_ok h : header_ok h → bytes_ok (header_bytes bytes h).
Proof.
  intros (Hf & _). unfold header_bytes. constructor; [done|]. apply Forall_app. split; apply bo_ok.
Qed.

Lemma segment_length p h pay : segment bytes p h pay → pk_length p = Z.of_nat (List.length pay) + 5.
Proof.
  intros (Hp & _ & _). apply mem_read_length in Hp. rewrite length_app, length_header_bytes in Hp. lia.
Qed.

(** The two parts of a segment. *)
Lemma segment_parts p h pay :
  segment bytes p h pay →
  data_read p 0 (Z.of_nat (List.length pay)) = Some pay ∧
  data_read p (Z.of_nat (List.length pay)) 5 = Some (header_bytes bytes h).
Proof.
  intros Hs. pose proof (segment_length _ _ _ Hs) as Hl. destruct Hs as (Hp & _ & _).
  unfold payload, data_read in *. rewrite Hl in Hp.
  apply mem_read_app_inv in Hp as [H1 H2]; [|lia|lia]. split; [done|]. by rewrite Z.add_0_r in H2.
Qed.

Lemma segment_header p h pay : segment bytes p h pay → header_read val p = Some h.
Proof.
  intros Hs. pose proof (segment_length _ _ _ Hs) as Hl. destruct (segment_parts _ _ _ Hs) as [_ H2].
  destruct Hs as (_ & _ & Hf & Hseq & Hack). unfold header_read, RDP_HEADER_SIZE.
  replace (pk_length p - 5) with (Z.of_nat (List.length pay)) by lia. rewrite H2. monad. unfold header_bytes.
  pose proof (bo_length (h_seq_nr h)) as Hl1. pose proof (bo_length (h_ack_nr h)) as Hl2.
  pose proof (bo_val (h_seq_nr h) Hseq) as Hv1. pose proof (bo_val (h_ack_nr h) Hack) as Hv2.
  destruct (bytes 2%nat (h_seq_nr h)) as [|x0 [|x1 [|]]]; try done.
  destruct (bytes 2%nat (h_ack_nr h)) as [|y0 [|y1 [|]]]; try done. simpl. rewrite Hv1, Hv2. by destruct h.
Qed.

Lemma segment_remove p h pay :
  segment bytes p h pay → payload (csp_rdp_header_remove p) = Some pay ∧ packet_ok (csp_rdp_header_remove p).
Proof.
  intros Hs. pose proof (segment_length _ _ _ Hs) as Hl. destruct (segment_parts _ _ _ Hs) as [H1 _].
  destruct Hs as (_ & Hok & _). pose proof (po_length _ Hok).
  assert (u16 (pk_length p - RDP_HEADER_SIZE) = Z.of_nat (List.length pay)) as Hu
    by (unfold RDP_HEADER_SIZE; rewrite u16_id; mlia).
  unfold csp_rdp_header_remove, payload. cbn [pk_length set_pk_length]. rewrite Hu. split; [exact H1|].
  destruct Hok. split; cbn; try done. mlia.
Qed.

(** Overwriting the header of a segment. *)
Lemma segment_write (bytes0 : nat → Z → list Z) (val0 : list Z → Z) `{!ByteOrder bytes0 val0} p h0 h pay :
  payload p = Some (pay ++ header_bytes bytes0 h0) → packet_ok p → header_ok h →
  ∃ m, header_write bytes h p = Some (set_pk_mem m p) ∧ segment bytes (set_pk_mem m p) h pay.
Proof.
  intros Hp Hok Hh. assert (List.length (header_bytes bytes0 h0) = 5%nat) as H5.
  { unfold header_bytes. rewrite !length_app, !bo_length. done. }
  pose proof (mem_read_length _ _ _ _ Hp) as Hl. rewrite length_app, H5 in Hl.
  pose proof Hp as (_ & _ & Hmem & _)%mem_read_Some. rewrite (po_mem _ Hok) in Hmem.
  assert (data_read p 0 (Z.of_nat (List.length pay)) = Some pay) as Hpay.
  { unfold payload, data_read in *. rewrite <- Hl, Nat2Z.inj_add in Hp.
    by apply mem_read_app_inv in Hp as [? _]; [|lia|]. }
  destruct (data_append p _ pay (header_bytes bytes h) Hok Hpay (header_bytes_ok h Hh)) as (m & Hw & Hok' & Hr).
  { rewrite length_header_bytes. sizes. lia. }
  exists m. unfold header_write, RDP_HEADER_SIZE.
  replace (pk_length p - 5) with (Z.of_nat (List.length pay)) by lia. split; [exact Hw|].
  split; [|by split]. rewrite length_header_bytes in Hr. unfold payload. cbn [pk_length set_pk_mem].
  replace (pk_length p) with (Z.of_nat (List.length pay) + Z.of_nat 5) by lia. done.
Qed.
End Header.

(** Making room for the header. *)
Lemma header_add_segment p pay :
  packet_ok p → payload p = Some pay →
  if bool_decide (pk_length p + 5 ≤ CSP_BUFFER_SIZE) then
    ∃ p', csp_rdp_header_add p = Some (Some p') ∧ segment be_bytes p' (mk_rdp_header 0 0 0) pay ∧
      pk_id p' = pk_id p ∧ pk_length p' = pk_length p + 5
  else csp_rdp_header_add p = Some None.
Proof.
  intros Hok Hp. pose proof (po_length _ Hok). pose proof (mem_read_length _ _ _ _ Hp) as Hl.
  unfold csp_rdp_header_add, RDP_HEADER_SIZE.
  case_bool_decide; [rewrite bool_decide_false by lia|by rewrite bool_decide_true by lia].
  destruct (data_append p (pk_length p) pay (replicate 5 0) Hok Hp) as (m & Hw & Hok' & Hr);
    [by repeat constructor|simpl; lia|].
  rewrite Hw. monad. rewrite u16_id by (sizes; mlia). eexists. split; [done|]. split; [|done].
  split; [exact Hr|]. split; [|by vm_compute]. destruct Hok'. split; cbn in *; try done. sizes; mlia.
Qed.

(** an RDP header written by a sender behind a payload is read back by every
    receiver that gets the same bytes; the receiver can read it again after its
    conversion to host order, and removing it leaves the payload. *)
Theorem csp_rdp_header_roundtrip (p : csp_packet_t) (pay : list Z) (h : rdp_header_t) :
  packet_ok p → payload p = Some pay → header_ok h → pk_length p + 5 ≤ CSP_BUFFER_SIZE →
  ∃ p1 p2, csp_rdp_header_add p = Some (Some p1) ∧ header_write be_bytes h p1 = Some p2 ∧
    pk_id p2 = pk_id p ∧ pk_length p2 = pk_length p + 5 ∧
    ∀ q, packet_ok q → payload q = payload p2 →
      ∃ q', header_to_host q = Some (h, q') ∧ header_read le_val q' = Some h ∧ pk_id q' = pk_id q ∧
        payload (csp_rdp_header_remove q') = Some pay.
Proof.
  intros Hok Hp Hh Hl. pose proof (header_add_segment p pay Hok Hp) as Ha.
  rewrite bool_decide_true in Ha by done. destruct Ha as (p1 & Ha & Hs1 & Hid1 & Hl1).
  destruct Hs1 as (Hp1 & Hok1 & _).
  destruct (segment_write be_bytes be_val be_bytes be_val p1 _ h pay Hp1 Hok1 Hh) as (m & Hw & Hs2).
  exists p1, (set_pk_mem m p1). split; [done|]. split; [done|]. split; [done|]. split; [done|].
  intros q Hq Hpq. destruct Hs2 as (Hp2 & _ & _). rewrite Hp2 in Hpq.
  assert (segment be_bytes q h pay) as Hsq by done.
  destruct (segment_write le_bytes le_val be_bytes be_val q h h pay Hpq Hq Hh) as (mq & Hwq & Hs3).
  exists (set_pk_mem mq q). unfold header_to_host. rewrite (segment_header be_bytes be_val q h pay Hsq).
  monad. rewrite Hwq. split; [done|]. split; [by apply (segment_header le_bytes le_val _ h pay)|]. split; [done|].
  by apply (segment_remove le_bytes le_val _ h).
Qed.

Lemma csp_rdp_header_roundtrip_witness :
  ∃ p1 p2, csp_rdp_header_add empty_packet = Some (Some p1) ∧
    header_write be_bytes (mk_rdp_header RDP_ACK 65535 7) p1 = Some p2 ∧ pk_length p2 = 5 ∧
    ∃ q', header_to_host p2 = Some (mk_rdp_header RDP_ACK 65535 7, q').
Proof.
  destruct (csp_rdp_header_roundtrip empty_packet [] (mk_rdp_header RDP_ACK 65535 7) empty_packet_ok)
    as (p1 & p2 & H1 & H2 & _ & H3 & H4); [by vm_compute|by vm_compute|by vm_compute|].
  exists p1, p2. split; [exact H1|]. split; [exact H2|]. split; [exact H3|].
  destruct (H4 p2) as (q' & Hq & _); [|done|by exists q'].
  revert H1 H2. vm_compute. intros [= <-]. vm_compute. intros [= <-].
  split; try (vm_compute; intuition congruence). apply (bool_decide_unpack _). vm_compute. done.
Defined.

(** ** Sequence numbers and the send window *)

Section Sequence.
Implicit Types (x y a b w n : Z).

Lemma seq_between_steps x a b :
  csp_rdp_seq_between x a b = true ↔ ∃ k, 0 ≤ k ≤ u16 (b - a) ∧ u16 x = u16 (a + k).
Proof.
  unfold csp_rdp_seq_between. rewrite bool_decide_eq_true. split.
  - intros Hle. exists (u16 (x - a)). split; mlia.
  - intros (k & Hk & Hx). assert (u16 (u16 x - u16 a) = k) as -> by mlia. mlia.
Qed.

Lemma seq_after_steps x y :
  csp_rdp_seq_after x y = true ↔ ∃ k, 1 ≤ k ≤ 2 ^ 15 ∧ u16 x = u16 (y + k).
Proof.
  unfold csp_rdp_seq_after, csp_rdp_seq_before. rewrite bool_decide_eq_true.
  change (2 ^ 15) with 32768. split.
  - intros Hlt. exists (u16 (x - y)). split; mlia.
  - intros (k & Hk & Hx). mlia.
Qed.

(** Unacknowledged sequence numbers. *)
Definition in_flight (r : csp_rdp_t) : Z := u16 (snd_nxt r - snd_una r).

Lemma ready_in_flight (r : csp_rdp_t) :
  1 ≤ window_size r ≤ 2 ^ 15 → in_flight r < window_size r + 2 ^ 15 →
  csp_rdp_is_conn_ready_for_tx r = bool_decide (in_flight r < window_size r).
Proof.
  intros Hw Hf. unfold csp_rdp_is_conn_ready_for_tx, csp_rdp_seq_after, csp_rdp_seq_before, in_flight in *.
  rewrite <- bool_decide_not. apply bool_decide_ext. change (2 ^ 15) with 32768 in *. mlia.
Qed.
End Sequence.

Section Sending.
Context `{Env}.
Implicit Types (s : stack) (x : csp_conn_t) (b c : nat).

(** The header of the next data packet. *)
Definition next_header (r : csp_rdp_t) : rdp_header_t := mk_rdp_header RDP_ACK (snd_nxt r) (rcv_cur r).

Definition sent_one (r : csp_rdp_t) : csp_rdp_t := set_snd_nxt (u16 (snd_nxt r + 1)) r.

Lemma sent_one_in_flight (r : csp_rdp_t) :
  is_u16 (snd_nxt r) → 1 ≤ window_size r ≤ 2 ^ 15 → in_flight r < window_size r + 2 ^ 15 →
  csp_rdp_is_conn_ready_for_tx r = true →
  in_flight (sent_one r) = in_flight r + 1 ∧ in_flight (sent_one r) ≤ window_size r.
Proof.
  intros Hn Hw Hfl Hready. rewrite ready_in_flight in Hready by done. apply bool_decide_eq_true in Hready.
  unfold in_flight, sent_one in *. cbn [snd_nxt snd_una set_snd_nxt] in *.
  change (2 ^ 15) with 32768 in Hw. clear -Hready Hw Hn. mlia.
Qed.

(** A connection that may send. *)
Record conn_sends s c x : Prop := {
  cs_conn : k_conns s !! c = Some x;
  cs_open : rdp_state (cn_rdp x) = RDP_OPEN;
  cs_ready : csp_rdp_is_conn_ready_for_tx (cn_rdp x) = true;
  cs_next : is_u16 (snd_nxt (cn_rdp x));
  cs_cur : is_u16 (rcv_cur (cn_rdp x));
}.

Lemma wait_for_window_ready fuel s c x :
  conn_sends s c x → wait_for_window fuel c s = Some (CSP_ERR_NONE, s).
Proof.
  intros [Hc Ho Hr _ _]. destruct fuel; cbn [wait_for_window]; run (get_conn_run s c x Hc);
    by rewrite Ho, Hr.
Qed.

(** The packet with its header, in the caller's buffer. *)
Lemma rdp_send_header fuel s c x b k pay :
  conn_sends s c x → c_pool (k_core s) !! b = Some k → packet_ok (skbf_data k) →
  payload (skbf_data k) = Some pay → pk_length (skbf_data k) + 5 ≤ CSP_BUFFER_SIZE →
  ∃ p, segment be_bytes p (next_header (cn_rdp x)) pay ∧ pk_id p = pk_id (skbf_data k) ∧
    csp_rdp_send fuel c b s =
    (copy ← liftC (csp_buffer_clone (Some b));
     match copy with
     | None => mret CSP_ERR_NOMEM
     | Some c' =>
         now ← csp_get_ms;
         kmod_packet c' (λ p, set_rx_count 0 (set_remain 0 (set_cfpid now p)));;
         csp_rdp_queue_add TxQueue c c';;
         mod_rdp c (λ r, set_snd_nxt (u16 (snd_nxt r + 1)) r);;
         mret CSP_ERR_NONE
     end) (set_k_core (upd_pkt (k_core s) b k p) s).
Proof.
  intros Hs Hk Hok Hp Hl. pose proof Hs as [Hc Ho Hr Hn Hcur].
  pose proof (header_add_segment _ pay Hok Hp) as Ha. rewrite bool_decide_true in Ha by done.
  destruct Ha as (p1 & Ha & (Hp1 & Hok1 & _) & Hid1 & Hl1).
  destruct (segment_write be_bytes be_val be_bytes be_val p1 _ (next_header (cn_rdp x)) pay Hp1 Hok1) as (m & Hw & Hseg).
  { split; [by vm_compute|done]. }
  exists (set_pk_mem m p1). split; [done|]. split; [done|].
  unfold csp_rdp_send. run (get_conn_run s c x Hc). rewrite bool_decide_false by (intros Hne; done).
  run (wait_for_window_ready fuel s c x Hs). change (bool_decide (CSP_ERR_NONE ≠ CSP_ERR_NONE)) with false. cbv iota.
  run (get_conn_run s c x Hc). rewrite bool_decide_false by (intros Hne; done).
  run (kget_run s b k Hk). run (lift_opt_run_gen _ _ s Ha). run (lift_opt_run_gen _ _ s Hw).
  unfold kput_packet. erewrite ST_bind_run; [done|]. by apply liftC_run, put_packet_run.
Qed.

Lemma kmod_run s b k f :
  c_pool (k_core s) !! b = Some k →
  kmod_packet b f s = Some ((), set_k_core (upd_pkt (k_core s) b k (f (skbf_data k))) s).
Proof.
  intros Hk. unfold kmod_packet. run (kget_run s b k Hk). unfold kput_packet. by apply liftC_run, put_packet_run.
Qed.

(** Storing the copy for retransmission. *)
Lemma store_copy_run s c x c' k bs f :
  k_conns s !! c = Some x → c_pool (k_core s) !! c' = Some k →
  fq_items (queue_of TxQueue s) = Some <$> bs → (List.length bs < fq_cap (queue_of TxQueue s))%nat →
  (kmod_packet c' f;; csp_rdp_queue_add TxQueue c c';;
   mod_rdp c (λ r, set_snd_nxt (u16 (snd_nxt r + 1)) r);; mret CSP_ERR_NONE) s =
  Some (CSP_ERR_NONE, set_k_conns (<[c := set_cn_rdp (sent_one (cn_rdp x)) x]> (k_conns s))
    (with_queue TxQueue (bs ++ [c'])
      (set_k_core (upd_pkt (k_core s) c' k (set_frame_begin (UConn c) (f (skbf_data k)))) s))).
Proof.
  intros Hc Hk Hq Hlt. pose proof (lookup_lt_Some _ _ _ Hk) as Hc'.
  run (kmod_run s c' k f Hk). set (s1 := set_k_core _ s).
  set (k1 := mk_skbf (refcount k) (skbf_addr k) (f (skbf_data k))).
  assert (c_pool (k_core s1) !! c' = Some k1) as Hk1 by exact (upd_pkt_lookup _ _ _ _ Hk).
  pose proof (kmod_run s1 c' k1 (set_frame_begin (UConn c)) Hk1) as Hm2.
  unfold csp_rdp_queue_add. erewrite ST_bind_run; [|run Hm2; by apply (rdpq_requeue_run TxQueue _ c' bs)].
  cbv beta iota. erewrite ST_bind_run; [|apply (mod_rdp_run _ c x); exact Hc]. cbv beta iota.
  unfold upd_pkt, s1. cbn. do 2 f_equal. unfold with_queue. cbn. by rewrite list_insert_insert_eq.
Qed.
End Sending.

(** Sending on an open connection whose window is open.  The caller's packet gets
    the header with the next sequence number behind its payload; a copy with the same
    bytes, tagged with the connection, is stored last in the transmit queue, the
    sequence number advances by one modulo 2^16, and the unacknowledged packets grow
    by one but never beyond the window.  Only when no buffer is free is nothing
    stored and an error returned. *)
Theorem csp_rdp_send_window `{Env} (fuel : nat) (s : stack) (c b : nat) (x : csp_conn_t) (k : csp_skbf_t)
    (pay : list Z) (txs : list nat) :
  let r := cn_rdp x in
  conn_sends s c x → buf_inv (k_core s) → c_pool (k_core s) !! b = Some k → refcount k = 1 →
  payload (skbf_data k) = Some pay → pk_length (skbf_data k) + 5 ≤ CSP_BUFFER_SIZE →
  queue_holds TxQueue s txs → (List.length txs < fq_cap (k_txq s))%nat →
  1 ≤ window_size r ≤ 2 ^ 15 → in_flight r < window_size r + 2 ^ 15 →
  ∃ rc s' kb, csp_rdp_send fuel c b s = Some (rc, s') ∧ buf_inv (k_core s') ∧
    c_pool (k_core s') !! b = Some kb ∧ refcount kb = 1 ∧
    segment be_bytes (skbf_data kb) (next_header r) pay ∧
    ((rc = CSP_ERR_NOMEM ∧ fq_items (c_free (k_core s)) = [] ∧ k_conns s' = k_conns s ∧ k_txq s' = k_txq s) ∨
     (rc = CSP_ERR_NONE ∧ k_conns s' = <[c := set_cn_rdp (sent_one r) x]> (k_conns s) ∧
      in_flight (sent_one r) = in_flight r + 1 ∧ in_flight (sent_one r) ≤ window_size r ∧
      ∃ c' kc, ¬ allocated (k_core s) c' ∧ fq_items (k_txq s') = Some <$> (txs ++ [c']) ∧
        c_pool (k_core s') !! c' = Some kc ∧ refcount kc = 1 ∧ tagged (k_core s') c c' = true ∧
        segment be_bytes (skbf_data kc) (next_header r) pay)).
Proof.
  intros r Hs Hi Hk Hrc Hp Hl (Hq & _ & _) Hroom Hw Hfl. pose proof Hs as [Hc _ Hready Hn _].
  destruct (bi_pool _ Hi _ _ Hk) as (_ & Hok & _).
  destruct (rdp_send_header fuel s c x b k pay Hs Hk Hok Hp Hl) as (p & Hseg & Hid & Hrun).
  pose proof Hseg as (Hpp & Hpok & Hhok). pose proof (segment_length be_bytes be_val _ _ _ Hseg) as Hpl.
  pose proof (mem_read_length _ _ _ _ Hp) as Hpay.
  pose proof (link_step_put b (k_core s) k p Hi Hk Hpok) as Hls. set (core := upd_pkt (k_core s) b k p) in *.
  set (kb := mk_skbf (refcount k) (skbf_addr k) p).
  assert (c_pool core !! b = Some kb) as Hkb by exact (upd_pkt_lookup _ _ _ _ Hk).
  rewrite Hrun. clear Hrun.
  destruct (csp_buffer_clone_spec core b kb (ls_inv _ _ _ Hls) Hkb) as
    [(core' & Hcl & Hfree & Hi' & Hpool)|(c' & q & core' & Hcl & Hi' & Hne & Hna & Hqok & _ & Hfq & Hpool)]; [unfold kb; cbn; lia|..];
    pose proof (csp_buffer_clone_frame _ _ _ _ Hcl) as Hfr.
  - exists CSP_ERR_NOMEM, (set_k_core core' (set_k_core core s)), kb.
    run (liftC_run _ (set_k_core core s) None core' Hcl). split; [done|]. split; [done|].
    split; [cbn; by rewrite Hpool|]. split; [done|]. split; [done|]. by left.
  - run (liftC_run _ (set_k_core core s) (Some c') core' Hcl). erewrite ST_bind_run; [|done]. cbv beta iota.
    set (s1 := set_k_core core' (set_k_core core s)). set (now := c_now (k_core s1)).
    set (kc := mk_skbf 1 c' (clone_into b p q)). set (f := λ p, set_rx_count 0 (set_remain 0 (set_cfpid now p))).
    assert (c' < List.length (c_pool core))%nat as Hlt
      by (apply (buf_inv_free_lt _ _ (ls_inv _ _ _ Hls)); rewrite Hfq; by left).
    assert (c_pool (k_core s1) !! c' = Some kc) as Hkc by (cbn; rewrite Hpool; by apply list_lookup_insert_eq).
    rewrite (store_copy_run s1 c x c' kc txs f Hc Hkc Hq Hroom). set (p2 := set_frame_begin (UConn c) (f (skbf_data kc))).
    assert (packet_ok (clone_into b p q)) as Hcok by (by apply clone_into_ok).
    assert (packet_ok p2) as Hok2 by (destruct Hcok; by split).
    eexists CSP_ERR_NONE, _, kb. split; [done|]. cbn [k_core set_k_conns with_queue set_queue_of set_k_txq set_k_core].
    assert (c_pool (upd_pkt (k_core s1) c' kc p2) !! c' = Some (mk_skbf 1 c' p2)) as Hkc2
      by exact (upd_pkt_lookup _ _ _ _ Hkc).
    split; [by apply (buf_inv_put_packet core' c' kc p2)|].
    split; [cbn; rewrite Hpool; rewrite !list_lookup_insert_ne by done; exact Hkb|].
    split; [done|]. split; [done|]. right. split; [done|]. split; [done|].
    destruct (sent_one_in_flight r Hn Hw Hfl Hready) as [Hf1 Hf2]. split; [done|]. split; [done|].
    exists c', (mk_skbf 1 c' p2). split.
    { intros (k' & Hk' & Hr'). apply Hna. exists k'. split; [|done]. unfold core, upd_pkt. cbn.
      by rewrite list_lookup_insert_ne. }
    split; [done|]. split; [done|]. split; [done|].
    split; [unfold tagged; rewrite Hkc2; cbn; by apply bool_decide_true|].
    split; [|done]. transitivity (payload p); [|done]. exact (clone_into_payload b p q Hpok Hqok ltac:(lia)).
Qed.

(** An open connection whose sequence number is about to wrap around. *)
Definition rdp_example (rcv : Z) : csp_conn_t :=
  mk_conn CONN_CLIENT CONN_OPEN csp_id_clear csp_id_clear 20 (mk_fifo 16 []) None 0 0
    (mk_rdp RDP_OPEN 0 65535 65530 65530 rcv 3 3 10 10000 1000 0 1000 4 0 1).

#[local] Instance rdp_env_example : Env := {|
  env_can := λ _ _ _ _, CSP_ERR_NONE;
  yield := λ s, s;
  run_callback := λ _ _, mret ();
  rand_r := λ x, x;
  hmac_locals := (locals_example, state_example);
|}.

Lemma csp_rdp_send_window_witness :
  let s := set_k_conns [rdp_example 7] rdp_queue_example in
  ∃ rc s', csp_rdp_send 0 0 2 s = Some (rc, s') ∧ rc = CSP_ERR_NONE ∧
    k_conns s' = [set_cn_rdp (set_snd_nxt 0 (cn_rdp (rdp_example 7))) (rdp_example 7)] ∧
    in_flight (sent_one (cn_rdp (rdp_example 7))) = 6.
Proof.
  intros s. destruct (csp_rdp_send_window 0 s 0 2 (rdp_example 7) (mk_skbf 1 2 (tagged_packet 0)) [] [0%nat; 1%nat])
    as (rc & s' & kb & Hrun & _ & _ & _ & _ & Hcase); try (by vm_compute).
  - apply rdp_queue_core_inv.
  - split; [done|]. split; [cbv; lia|]. intros b [->|[->|[]%not_elem_of_nil]%elem_of_cons]%elem_of_cons; by eexists.
  - cbv; lia.
  - exists rc, s'. split; [exact Hrun|].
    destruct Hcase as [(_ & Hf & _)|(Hrc & Hc & Hif & _)]; [by vm_compute in Hf|].
    split; [exact Hrc|]. split; [exact Hc|exact Hif].
Defined.
