(* ===== verification/RdpDelivery.v ===== *)
(** * In-order delivery

    What [csp_rdp_rx_queue_flush] of [src/csp_rdp.c] does with the packets that have
    arrived out of order: the consecutive ones go to the connection, in order. *)

From S2P Require Import Prelude Queue Types State Id Buffer Nexthop Stack Net RdpQueue Rdp.

(** ** Delivery in order *)

(** Buffer [b] holds a received segment with sequence number [seq] and payload [pay]. *)
Definition received (core : csp_core) (b : nat) (seq : Z) (pay : list Z) : Prop :=
  ∃ k h, c_pool core !! b = Some k ∧ segment le_bytes (skbf_data k) h pay ∧ h_seq_nr h = seq.

(** The connection after [ds] have been delivered to it. *)
Definition delivered (ds : list nat) (x : csp_conn_t) : csp_conn_t :=
  set_cn_rx_queue (mk_fifo (fq_cap (cn_rx_queue x)) (fq_items (cn_rx_queue x) ++ (Some <$> ds)))
    (set_cn_rdp (set_rcv_cur (u16 (rcv_cur (cn_rdp x) + Z.of_nat (List.length ds))) (cn_rdp x)) x).

(** The stack with that connection, the receive queue [bs] and the pool [pool]. *)
Definition after_delivery (c : nat) (x : csp_conn_t) (bs : list nat) (pool : list csp_skbf_t) (s : stack) : stack :=
  set_k_conns (<[c := x]> (k_conns s)) (with_queue RxQueue bs (set_k_core (set_c_pool pool (k_core s)) s)).

Section Delivery.
Implicit Types (s : stack) (x : csp_conn_t) (b c : nat) (bs todo checked ds : list nat).

(** Every packet of the connection in the receive queue is a received segment, the
    queue holds each buffer once. *)
Record rx_ready s c x bs : Prop := {
  rr_conn : k_conns s !! c = Some x;
  rr_cur : is_u16 (rcv_cur (cn_rdp x));
  rr_holds : queue_holds RxQueue s bs;
  rr_nodup : NoDup bs;
  rr_segs : ∀ b, b ∈ bs → tagged (k_core s) c b = true → ∃ seq pay, received (k_core s) b seq pay;
}.

(** [b] is not the packet the connection waits for. *)
Definition not_next (core : csp_core) x b : Prop :=
  ∀ pay, ¬ received core b (u16 (rcv_cur (cn_rdp x) + 1)) pay.

Lemma received_header core b seq pay :
  received core b seq pay → ∃ k h, c_pool core !! b = Some k ∧ header_read le_val (skbf_data k) = Some h ∧
    h_seq_nr h = seq ∧ segment le_bytes (skbf_data k) h pay.
Proof.
  intros (k & h & Hk & Hs & Hseq). exists k, h. split; [done|]. split; [|done].
  by apply (segment_header le_bytes le_val _ h pay).
Qed.

(** Handing a packet to the connection. *)
Lemma receive_data_run s c x b k :
  k_conns s !! c = Some x → c_pool (k_core s) !! b = Some k → 2 < csp_queue_free (cn_rx_queue x) →
  csp_rdp_receive_data c b s = Some (CSP_ERR_NONE,
    set_k_conns (<[c := set_cn_rx_queue (mk_fifo (fq_cap (cn_rx_queue x)) (fq_items (cn_rx_queue x) ++ [Some b])) x]>
      (k_conns s))
      (set_k_core (upd_pkt (k_core s) b k (csp_rdp_header_remove (skbf_data k))) s)).
Proof.
  intros Hc Hk Hfree. unfold csp_rdp_receive_data. run (kmod_run s b k csp_rdp_header_remove Hk).
  unfold csp_conn_enqueue_packet. set (s1 := set_k_core _ s).
  erewrite ST_bind_run; [|run (get_conn_run s1 c x Hc); rewrite csp_queue_enqueue_ok by
    (unfold csp_queue_free in Hfree; lia); done]. done.
Qed.

(** The packet that comes next is delivered. *)
Lemma deliver_run s c x b k :
  k_conns s !! c = Some x → c_pool (k_core s) !! b = Some k → 2 < csp_queue_free (cn_rx_queue x) →
  (rc ← csp_rdp_receive_data c b;
   when (bool_decide (rc ≠ CSP_ERR_NONE)) (kfree (Some b));;
   mod_rdp c (λ r, set_rcv_cur (u16 (rcv_cur r + 1)) r);; mret true) s =
  Some (true, set_k_conns (<[c := delivered [b] x]> (k_conns s))
    (set_k_core (upd_pkt (k_core s) b k (csp_rdp_header_remove (skbf_data k))) s)).
Proof.
  intros Hc Hk Hfree. run (receive_data_run s c x b k Hc Hk Hfree).
  change (bool_decide (CSP_ERR_NONE ≠ CSP_ERR_NONE)) with false.
  erewrite ST_bind_run; [|done]. cbv beta iota.
  erewrite ST_bind_run; [|apply (mod_rdp_run _ c); cbn; apply list_lookup_insert_eq; by eapply lookup_lt_Some].
  cbn. by rewrite list_insert_insert_eq.
Qed.

(** Putting a packet back does not change its tag. *)
Lemma readd_run s c b bs :
  tagged (k_core s) c b = true → fq_items (queue_of RxQueue s) = Some <$> bs →
  (List.length bs < fq_cap (queue_of RxQueue s))%nat →
  csp_rdp_queue_add RxQueue c b s = Some ((), with_queue RxQueue (bs ++ [b]) s).
Proof.
  unfold tagged. destruct (c_pool (k_core s) !! b) as [k|] eqn:Hk; [|done].
  intros Hf%bool_decide_eq_true Hq Hroom. unfold csp_rdp_queue_add.
  run (kmod_run s b k (set_frame_begin (UConn c)) Hk).
  assert (set_k_core (upd_pkt (k_core s) b k (set_frame_begin (UConn c) (skbf_data k))) s = s) as ->.
  { replace (set_frame_begin (UConn c) (skbf_data k)) with (skbf_data k)
      by (rewrite <- Hf; by destruct (skbf_data k)).
    unfold upd_pkt. replace (mk_skbf _ _ _) with k by (by destruct k).
    rewrite list_insert_id by done. destruct s as [core]. by destruct core. }
  by apply rdpq_requeue_run.
Qed.

Lemma filter_untagged core c bs :
  Forall (λ b, tagged core c b = false) bs → filter (λ b, tagged core c b = true) bs = [].
Proof.
  induction 1 as [|b bs Hb _ IH]; [done|]. rewrite filter_cons, IH. by rewrite decide_False by congruence.
Qed.

(** The rotation of one unsuccessful step. *)
Lemma filter_rotated core c pre b post :
  Forall (λ b, tagged core c b = false) pre → tagged core c b = true →
  filter (λ b, tagged core c b = true) (pre ++ b :: post) = b :: filter (λ b, tagged core c b = true) post ∧
  filter (λ b, tagged core c b = true) ((post ++ pre) ++ [b]) = filter (λ b, tagged core c b = true) post ++ [b].
Proof.
  intros Hpre Ht. rewrite !filter_app, (filter_untagged _ _ pre Hpre), !filter_cons, filter_nil, !decide_True by done.
  split; [done|]. by rewrite app_nil_r.
Qed.

Lemma rx_ready_perm s c x bs bs' :
  rx_ready s c x bs → bs' ≡ₚ bs → rx_ready (with_queue RxQueue bs' s) c x bs'.
Proof.
  intros [Hc Hu Hh Hnd Hseg] Hp. split; try done.
  - apply (queue_holds_with RxQueue bs); [done| |by rewrite Hp]. intros b. by rewrite Hp.
  - by rewrite Hp.
  - rewrite core_with_queue. intros b Hb. apply Hseg. by rewrite <- Hp.
Qed.

(** The outcome of one pass over the queue. *)
Definition pass_result s c x bs (again : bool) (s' : stack) : Prop :=
  if again then
    ∃ b bs' k pay, b :: bs' ≡ₚ bs ∧ tagged (k_core s) c b = true ∧ 2 < csp_queue_free (cn_rx_queue x) ∧
      c_pool (k_core s) !! b = Some k ∧ received (k_core s) b (u16 (rcv_cur (cn_rdp x) + 1)) pay ∧
      s' = after_delivery c (delivered [b] x) bs'
             (<[b := mk_skbf (refcount k) (skbf_addr k) (csp_rdp_header_remove (skbf_data k))]> (c_pool (k_core s))) s
  else
    ∃ bs', bs' ≡ₚ bs ∧ s' = with_queue RxQueue bs' s ∧
      (csp_queue_free (cn_rx_queue x) ≤ 2 ∨
       Forall (not_next (k_core s) x) (filter (λ b, tagged (k_core s) c b = true) bs)).

Lemma pass_result_perm s c x bs bs1 again s' :
  bs1 ≡ₚ bs → pass_result (with_queue RxQueue bs1 s) c x bs1 again s' → pass_result s c x bs again s'.
Proof.
  intros Hp. destruct again; cbn [pass_result].
  - intros (b & bs' & k & pay & Hb & Ht & Hf & Hk & Hr & ->). exists b, bs', k, pay.
    rewrite core_with_queue in *. split; [by rewrite Hb|]. done.
  - intros (bs' & Hb & -> & Hd). exists bs'. rewrite core_with_queue in Hd.
    split; [by rewrite Hb|]. split; [by rewrite with_queue_twice|]. by rewrite <- Hp.
Qed.

(** One step of a pass: [todo] are the packets of the connection not yet looked at. *)
Lemma rx_flush_pass_spec c x : ∀ n bs todo checked s,
  rx_ready s c x bs → filter (λ b, tagged (k_core s) c b = true) bs = todo ++ checked →
  Forall (not_next (k_core s) x) checked → (List.length todo ≤ n)%nat →
  ∃ again s', rx_flush_pass n c s = Some (again, s') ∧ pass_result s c x bs again s'.
Proof.
  induction n as [|n IH]; intros bs todo checked s Hr Hfil Hch Hlen; cbn [rx_flush_pass].
  { destruct todo; [|simpl in Hlen; lia]. exists false, s. split; [done|]. exists bs.
    rewrite with_queue_same by apply (rr_holds _ _ _ _ Hr). split; [done|]. split; [done|]. right. by rewrite Hfil. }
  pose proof Hr as [Hc Hu Hh Hnd Hseg]. run (get_conn_run s c x Hc).
  case_bool_decide as Hfree.
  { exists false, s. split; [done|]. exists bs. rewrite with_queue_same by apply Hh. auto. }
  destruct (first_tagged (k_core s) c bs) as [Hnone|(pre & b & post & Hbs & Hpre & Ht)].
  { run (rdp_queue_get_none RxQueue c bs s Hh Hnone). exists false, s. split; [done|]. exists bs.
    rewrite with_queue_same by apply Hh. split; [done|]. split; [done|]. right.
    rewrite filter_untagged by done. constructor. }
  rewrite Hbs in Hh. run (rdp_queue_get_first RxQueue c pre b post s Hh Hpre Ht).
  destruct (filter_rotated (k_core s) c pre b post Hpre Ht) as [Hf1 Hf2].
  rewrite Hbs, Hf1 in Hfil.
  destruct (Hseg b) as (seq & pay & Hrec); [rewrite Hbs; apply elem_of_app; right; by left|done|].
  destruct (received_header _ _ _ _ Hrec) as (k & h & Hk & Hhd & Hsq & Hsg).
  set (s1 := with_queue RxQueue (post ++ pre) s). assert (k_core s1 = k_core s) as Hc1 by apply core_with_queue.
  run (kget_at s1 b k ltac:(by rewrite Hc1)). run (lift_opt_run_gen _ _ s1 Hhd).
  assert (b :: (post ++ pre) ≡ₚ bs) as Hperm
    by (rewrite Hbs, (Permutation_app_comm post), <- Permutation_middle; done).
  case_bool_decide as Hnext.
  - exists true. eexists. split; [apply (deliver_run s1 c x b k); [done|by rewrite Hc1|lia]|].
    exists b, (post ++ pre), k, pay. rewrite Hc1. split; [done|]. split; [done|]. split; [lia|]. split; [done|].
    split; [by exists k, h|]. done.
  - assert (not_next (k_core s) x b) as Hbad.
    { intros pay' (k' & h' & Hk' & Hs' & Hh'). assert (k' = k) as -> by congruence.
      rewrite (segment_header le_bytes le_val _ h' pay' Hs') in Hhd. injection Hhd as ->. done. }
    assert (List.length (post ++ pre) < fq_cap (queue_of RxQueue s1))%nat as Hroom.
    { destruct Hh as (Hi & Hwf & _). unfold fifo_wf in Hwf. rewrite Hi, length_fmap, length_app in Hwf.
      rewrite length_app. cbn in *. lia. }
    run (readd_run s1 c b (post ++ pre) ltac:(by rewrite Hc1) eq_refl Hroom). unfold s1. rewrite with_queue_twice.
    assert ((post ++ pre) ++ [b] ≡ₚ bs) as Hperm' by (by rewrite (Permutation_app_comm _ [b])).
    destruct (IH ((post ++ pre) ++ [b]) (drop 1 todo) (match todo with [] => drop 1 checked | _ => checked end ++ [b])
      (with_queue RxQueue ((post ++ pre) ++ [b]) s)) as (again & s' & Hrun & Hres);
      [by apply (rx_ready_perm s c x bs)|..].
    + rewrite core_with_queue, Hf2. destruct todo as [|t todo]; simpl in *; [by destruct checked as [|? ?]; simplify_eq/=|].
      injection Hfil as -> ->. by rewrite app_assoc.
    + rewrite core_with_queue. apply Forall_app. split; [|by repeat constructor].
      destruct todo; [by apply Forall_drop|done].
    + rewrite length_drop. lia.
    + exists again, s'. split; [done|]. by eapply pass_result_perm.
Qed.

(** A delivered packet: its header is gone, its owner the connection. *)
Definition handed_over (core : csp_core) (pool : list csp_skbf_t) b (seq : Z) : Prop :=
  ∃ pay k, received core b seq pay ∧ c_pool core !! b = Some k ∧
    pool !! b = Some (mk_skbf (refcount k) (skbf_addr k) (csp_rdp_header_remove (skbf_data k))) ∧
    payload (csp_rdp_header_remove (skbf_data k)) = Some pay.

Record flush_result s c x bs ds bs' (pool : list csp_skbf_t) : Prop := {
  fl_perm : ds ++ bs' ≡ₚ bs;
  fl_tagged : Forall (λ b, tagged (k_core s) c b = true) ds;
  fl_seqs : ∀ i b, ds !! i = Some b →
    handed_over (k_core s) pool b (u16 (rcv_cur (cn_rdp x) + 1 + Z.of_nat i));
  fl_kept : ∀ b, b ∉ ds → pool !! b = c_pool (k_core s) !! b;
  fl_done : csp_queue_free (cn_rx_queue (delivered ds x)) ≤ 2 ∨
    ∀ b, b ∈ bs' → tagged (k_core s) c b = true → not_next (k_core s) (delivered ds x) b;
}.

Lemma delivered_nil x : is_u16 (rcv_cur (cn_rdp x)) → delivered [] x = x.
Proof.
  intros Hu. unfold delivered. change (Z.of_nat (List.length (@nil nat))) with 0.
  rewrite Z.add_0_r, u16_id by done. rewrite app_nil_r. destruct x as [? ? ? ? ? [] ? ? ? []]. done.
Qed.

Lemma delivered_cons b ds x : delivered ds (delivered [b] x) = delivered (b :: ds) x.
Proof.
  unfold delivered. cbn [cn_rx_queue set_cn_rx_queue fq_cap fq_items cn_rdp rcv_cur set_cn_rdp set_rcv_cur].
  rewrite <- app_assoc.
  replace (u16 (u16 (rcv_cur (cn_rdp x) + Z.of_nat (List.length [b])) + Z.of_nat (List.length ds)))
    with (u16 (rcv_cur (cn_rdp x) + Z.of_nat (List.length (b :: ds)))) by (cbn [List.length]; mlia).
  done.
Qed.

Lemma after_delivery_nil s c x bs bs' :
  rx_ready s c x bs → with_queue RxQueue bs' s = after_delivery c (delivered [] x) bs' (c_pool (k_core s)) s.
Proof.
  intros [Hc Hu _ _ _]. rewrite delivered_nil by done. unfold after_delivery.
  rewrite list_insert_id by done. destruct s as [core]. by destruct core.
Qed.

Lemma after_delivery_twice s c x x' bs bs' pool pool' :
  after_delivery c x' bs' pool' (after_delivery c x bs pool s) = after_delivery c x' bs' pool' s.
Proof. unfold after_delivery. cbn. rewrite list_insert_insert_eq. done. Qed.

(** Other packets do not notice a delivery. *)
Lemma received_kept core core' b seq pay :
  c_pool core' !! b = c_pool core !! b → received core b seq pay → received core' b seq pay.
Proof. intros Hk (k & h & Hb & Hr). exists k, h. by rewrite Hk. Qed.

Lemma rx_ready_delivered s c x b bs bs' (k' : csp_skbf_t) :
  rx_ready s c x bs → b :: bs' ≡ₚ bs →
  rx_ready (after_delivery c (delivered [b] x) bs' (<[b := k']> (c_pool (k_core s))) s) c (delivered [b] x) bs'.
Proof.
  intros [Hc Hu (Hi & Hwf & Hb) Hnd Hseg] Hp. rewrite <- Hp in Hnd. apply NoDup_cons in Hnd as [Hni Hnd].
  assert (∀ y, y ∈ bs' → <[b := k']> (c_pool (k_core s)) !! y = c_pool (k_core s) !! y) as Hk.
  { intros y Hy. rewrite list_lookup_insert_ne; [done|]. by intros ->. }
  split; try done.
  - cbn. apply list_lookup_insert_eq. by eapply lookup_lt_Some.
  - cbn. apply u16_range.
  - split; [done|]. split.
    + unfold fifo_wf in *. cbn in *. rewrite length_fmap. rewrite Hi, length_fmap in Hwf.
      apply Permutation_length in Hp. simpl in Hp. lia.
    + cbn. intros y Hy. rewrite Hk by done. apply Hb. rewrite <- Hp. by right.
  - cbn. intros y Hy. rewrite (tagged_kept (k_core s)) by (cbn; by apply Hk). intros Ht.
    destruct (Hseg y) as (seq & pay & Hr); [rewrite <- Hp; by right|done|]. exists seq, pay.
    by eapply received_kept, Hr; cbn; apply Hk.
Qed.

Lemma handed_over_head s b k pay seq (pool : list csp_skbf_t) :
  received (k_core s) b seq pay → c_pool (k_core s) !! b = Some k →
  pool !! b = Some (mk_skbf (refcount k) (skbf_addr k) (csp_rdp_header_remove (skbf_data k))) →
  handed_over (k_core s) pool b seq.
Proof.
  intros Hr Hk Hp. exists pay, k. split; [done|]. split; [done|]. split; [done|].
  destruct Hr as (k' & h & Hk' & Hs & _). assert (k' = k) as -> by congruence.
  by apply (segment_remove le_bytes le_val _ h).
Qed.

(** A delivery followed by the rest. *)
Lemma flush_result_cons s c x b bs bs1 ds bs' k pay pool :
  rx_ready s c x bs → b :: bs1 ≡ₚ bs → tagged (k_core s) c b = true →
  c_pool (k_core s) !! b = Some k → received (k_core s) b (u16 (rcv_cur (cn_rdp x) + 1)) pay →
  let pool1 := <[b := mk_skbf (refcount k) (skbf_addr k) (csp_rdp_header_remove (skbf_data k))]>
                 (c_pool (k_core s)) in
  flush_result (after_delivery c (delivered [b] x) bs1 pool1 s) c (delivered [b] x) bs1 ds bs' pool →
  flush_result s c x bs (b :: ds) bs' pool.
Proof.
  intros Hr Hp Ht Hk Hrec pool1 [Hp1 Ht1 Hs1 Hk1 Hd1].
  assert (NoDup (b :: bs1)) as [Hni Hnd]%NoDup_cons by (rewrite Hp; apply (rr_nodup _ _ _ _ Hr)).
  assert (∀ y, y ∈ bs1 → pool1 !! y = c_pool (k_core s) !! y) as Hpool.
  { intros y Hy. unfold pool1. rewrite list_lookup_insert_ne; [done|]. by intros ->. }
  assert (∀ y, y ∈ ds ∨ y ∈ bs' → y ∈ bs1) as Hin by (intros y Hy; rewrite <- Hp1; by apply elem_of_app).
  assert (b ∉ ds) as Hbd by (intros Hb; apply Hni; auto).
  cbn [k_core after_delivery set_k_conns with_queue set_queue_of set_k_rxq set_k_core] in *.
  assert (∀ y, y ∈ bs1 → tagged (set_c_pool pool1 (k_core s)) c y = tagged (k_core s) c y) as Htag
    by (intros y Hy; apply tagged_kept; cbn; auto).
  split.
  - by rewrite <- Hp, <- Hp1.
  - constructor; [done|]. apply Forall_forall. intros y Hy. rewrite <- Htag by auto.
    rewrite Forall_forall in Ht1. auto.
  - intros [|i] y; cbn [lookup list_lookup].
    + intros [= <-]. rewrite Z.add_0_r. eapply handed_over_head; [done|done|].
      rewrite Hk1 by done. unfold pool1. cbn. apply list_lookup_insert_eq. by eapply lookup_lt_Some.
    + intros Hy. destruct (Hs1 i y Hy) as (pay' & k' & Hrec' & Hk' & Hpl & Hpay).
      assert (y ∈ bs1) as Hy1 by (apply Hin; left; by eapply list_elem_of_lookup_2).
      cbn [c_pool set_c_pool] in Hk'. rewrite Hpool in Hk' by done. exists pay', k'.
      split; [|done]. apply (received_kept (set_c_pool pool1 (k_core s))); [symmetry; by apply Hpool|].
      replace (u16 (rcv_cur (cn_rdp x) + 1 + Z.of_nat (S i)))
        with (u16 (rcv_cur (cn_rdp (delivered [b] x)) + 1 + Z.of_nat i)) by (cbn; mlia). done.
  - intros y [Hyb Hyd]%not_elem_of_cons. rewrite Hk1 by done. unfold pool1. cbn.
    by rewrite list_lookup_insert_ne.
  - rewrite <- delivered_cons. destruct Hd1 as [|Hd1]; [by left|]. right. intros y Hy Hty pay' Hrec'.
    apply (Hd1 y Hy) with pay'; [rewrite Htag by auto; done|].
    eapply received_kept; [|exact Hrec']. cbn. auto.
Qed.

Lemma rx_flush_spec c : ∀ fuel s x bs,
  rx_ready s c x bs → (List.length bs < fuel)%nat →
  ∃ ds bs' pool, rx_flush fuel c s = Some ((), after_delivery c (delivered ds x) bs' pool s) ∧
    flush_result s c x bs ds bs' pool.
Proof.
  induction fuel as [|fuel IH]; intros s x bs Hr Hf; [lia|]. cbn [rx_flush].
  pose proof (rr_holds _ _ _ _ Hr) as (Hi & _ & _). run (rdpq_size_run RxQueue s bs Hi).
  destruct (rx_flush_pass_spec c x (Z.to_nat (Z.of_nat (List.length bs))) bs
    (filter (λ b, tagged (k_core s) c b = true) bs) [] s Hr) as (again & s1 & Hs1 & Hres);
    [by rewrite app_nil_r|constructor|rewrite Nat2Z.id; apply length_filter|].
  run Hs1. destruct again; cbn [pass_result] in Hres.
  - destruct Hres as (b & bs1 & k & pay & Hp & Ht & Hfree & Hk & Hrec & ->).
    destruct (IH _ (delivered [b] x) bs1 (rx_ready_delivered s c x b bs bs1
      (mk_skbf (refcount k) (skbf_addr k) (csp_rdp_header_remove (skbf_data k))) Hr Hp)) as (ds & bs' & pool & Hrun & Hfl).
    { apply Permutation_length in Hp. simpl in Hp. lia. }
    exists (b :: ds), bs', pool. rewrite Hrun, after_delivery_twice, delivered_cons. split; [done|].
    by eapply flush_result_cons.
  - destruct Hres as (bs' & Hp & -> & Hd). exists [], bs', (c_pool (k_core s)).
    split; [by rewrite <- (after_delivery_nil s c x bs bs' Hr)|]. split; try done.
    rewrite delivered_nil by apply Hr. destruct Hd as [|Hd]; [by left|]. right. intros b Hb Ht.
    rewrite Forall_forall in Hd. apply Hd, list_elem_of_filter. split; [done|]. by rewrite <- Hp.
Qed.
End Delivery.

(** C2: delivery in order.  With received segments of any number of connections in
    the shared receive queue in any order, [csp_rdp_rx_queue_flush] terminates and
    hands to the connection, in order, the packets with the sequence numbers that
    follow the last one received (modulo 2^16), with their headers removed and their
    payloads intact; the last received number advances accordingly; all other
    packets stay in the queue unchanged; and it stops only when the connection's
    queue is nearly full or the next packet has not arrived. *)
Theorem csp_rdp_rx_queue_flush_in_order (s : stack) (c : nat) (x : csp_conn_t) (bs : list nat) :
  rx_ready s c x bs →
  ∃ ds bs' pool,
    csp_rdp_rx_queue_flush c s = Some ((), after_delivery c (delivered ds x) bs' pool s) ∧
    ds ++ bs' ≡ₚ bs ∧ Forall (λ b, tagged (k_core s) c b = true) ds ∧
    (∀ i b, ds !! i = Some b →
       handed_over (k_core s) pool b (u16 (rcv_cur (cn_rdp x) + 1 + Z.of_nat i))) ∧
    (∀ b, b ∉ ds → pool !! b = c_pool (k_core s) !! b) ∧
    (csp_queue_free (cn_rx_queue (delivered ds x)) ≤ 2 ∨
     ∀ b, b ∈ bs' → tagged (k_core s) c b = true → not_next (k_core s) (delivered ds x) b).
Proof.
  intros Hr. unfold csp_rdp_rx_queue_flush. pose proof (rr_holds _ _ _ _ Hr) as (Hi & _ & _).
  run (rdpq_size_run RxQueue s bs Hi). rewrite Nat2Z.id.
  destruct (rx_flush_spec c (S (List.length bs)) s x bs Hr ltac:(lia)) as (ds & bs' & pool & Hrun & [? ? ? ? ?]).
  exists ds, bs', pool. done.
Qed.

(** Connection 0 has received 7 and the segments 9 and 8, in this order. *)
Definition segment_example (seq : Z) : csp_packet_t :=
  default empty_packet
    (header_write le_bytes (mk_rdp_header RDP_ACK seq 0) (set_pk_length 6 (tagged_packet 0))).

Definition delivery_example : stack :=
  set_k_rxq (mk_fifo 2000 [Some 0%nat; Some 1%nat])
    (set_k_conns [rdp_example 7]
      (set_k_core (set_c_pool [mk_skbf 1 0 (segment_example 9); mk_skbf 1 1 (segment_example 8)] rdp_queue_core)
        rdp_queue_example)).

Lemma segment_example_ok seq :
  is_u16 seq → segment le_bytes (segment_example seq) (mk_rdp_header RDP_ACK seq 0) [0].
Proof.
  intros Hs. unfold segment_example.
  destruct (segment_write le_bytes le_val le_bytes le_val (set_pk_length 6 (tagged_packet 0)) (mk_rdp_header 0 0 0)
    (mk_rdp_header RDP_ACK seq 0) [0]) as (m & Hw & Hseg).
  - by vm_compute.
  - destruct (tagged_packet_ok 0). split; cbn in *; try done.
  - split; [by vm_compute|]. by split; [|vm_compute].
  - rewrite Hw. exact Hseg.
Qed.

Lemma csp_rdp_rx_queue_flush_in_order_witness :
  ∃ ds bs' pool, csp_rdp_rx_queue_flush 0 delivery_example =
      Some ((), after_delivery 0 (delivered ds (rdp_example 7)) bs' pool delivery_example) ∧
    ds ++ bs' ≡ₚ [0%nat; 1%nat] ∧ rcv_cur (cn_rdp (delivered [1%nat; 0%nat] (rdp_example 7))) = 9.
Proof.
  destruct (csp_rdp_rx_queue_flush_in_order delivery_example 0 (rdp_example 7) [0%nat; 1%nat])
    as (ds & bs' & pool & Hrun & Hp & _).
  - split; [done|by vm_compute| |apply (bool_decide_unpack _); vm_compute; done|].
    + split; [done|]. split; [cbv; lia|].
      intros b [->|[->|[]%not_elem_of_nil]%elem_of_cons]%elem_of_cons; by eexists.
    + intros b [->|[->|[]%not_elem_of_nil]%elem_of_cons]%elem_of_cons _.
      * exists 9, [0]. do 2 eexists. split; [done|]. split; [by apply segment_example_ok|done].
      * exists 8, [0]. do 2 eexists. split; [done|]. split; [by apply segment_example_ok|done].
  - exists ds, bs', pool. split; [exact Hrun|]. split; [exact Hp|by vm_compute].
Defined.
