(* ===== verification/Conn.v ===== *)
(** * Connections

    [src/csp_conn.c]: the connection pool.  The closing of a connection and its
    receive queue are in [Rdp], on which they depend. *)

From S2P Require Import Prelude Queue Types State Buffer Stack Net RdpQueue Rdp.

Definition CSP_O_RDP : Z := CSP_SO_RDPREQ.
Definition CSP_O_HMAC : Z := CSP_SO_HMACREQ.
Definition CSP_O_CRC32 : Z := CSP_SO_CRC32REQ.
Definition CSP_O_NOCRC32 : Z := CSP_SO_CRC32PROHIB.
Definition CSP_O_SAME : Z := CSP_SO_SAME.

(** ** Operations *)

(** [csp_conn_init]: the pool before it is whatever the memory held. *)
Definition conn_init_one (o : rdp_opts_t) (i : nat) (x : csp_conn_t) : csp_conn_t :=
  csp_rdp_init o
    (set_cn_rx_queue (csp_queue_create_static CSP_CONN_RXQUEUE_LEN)
      (set_idin (set_flags 0 (idin x))
        (set_cn_state CONN_CLOSED
          (set_sport_outgoing (u8 (CSP_PORT_MAX_BIND + 1 + Z.of_nat i)) x)))).
Definition csp_conn_init : K () :=
  modify (λ s, set_k_conns (imap (conn_init_one (k_rdp_opts s)) (k_conns s)) s).

(** The index of the first connection that satisfies the loop's conditions. *)
Definition find_conn (test : csp_conn_t → bool) (conns : list csp_conn_t) : option nat :=
  fst <$> list_find (λ x, test x = true) conns.

Definition match_dport (port : Z) (x : csp_conn_t) : bool :=
  bool_decide (dport (idin x) = port) && bool_decide (cn_state x = CONN_OPEN) &&
  bool_decide (cn_type x = CONN_CLIENT).
Definition csp_conn_find_dport (port : Z) : K (option nat) :=
  gets (λ s, find_conn (match_dport port) (k_conns s)).

Definition match_existing (id : csp_id_t) (x : csp_conn_t) : bool :=
  bool_decide (cn_state x = CONN_OPEN) &&
  match cn_type x with
  | CONN_CLIENT => bool_decide (dport (idin x) = dport id)
  | CONN_SERVER => bool_decide (dport (idin x) = dport id) && bool_decide (sport (idin x) = sport id) &&
                   bool_decide (src (idin x) = src id)
  end.
Definition csp_conn_find_existing (id : csp_id_t) : K (option nat) :=
  gets (λ s, find_conn (match_existing id) (k_conns s)).

(** The search loop of [csp_conn_allocate]: [n] connections after index [i] are left
    to try. *)
Fixpoint allocate_scan (n : nat) (i : Z) : K (option nat) :=
  match n with
  | O => mret None
  | S n' =>
      let i := (i + 1) mod Z.of_nat CSP_CONN_MAX in
      x ← get_conn (Z.to_nat i);
      if bool_decide (cn_state x = CONN_CLOSED) then
        put_conn (Z.to_nat i) (set_cn_state CONN_OPEN x);;
        modify (set_k_last_given i);; mret (Some (Z.to_nat i))
      else allocate_scan n' i
  end.

Definition csp_conn_allocate (type : csp_conn_type_t) : K (option nat) :=
  last ← gets k_last_given;
  r ← allocate_scan CSP_CONN_MAX last;
  match r with
  | None => liftC (mod_dbg inc_conn_out);; mret None
  | Some c =>
      mod_conn c (λ x, set_idout (set_flags 0 (idout x)) (set_idin (set_flags 0 (idin x))
        (set_cn_type type (set_cn_timestamp 0 x))));;
      mret (Some c)
  end.

Definition csp_conn_new (in_ out : csp_id_t) (type : csp_conn_type_t) : K (option nat) :=
  r ← csp_conn_allocate type;
  match r with
  | None => mret None
  | Some c =>
      now ← csp_get_ms;
      mod_conn c (λ x, set_cn_timestamp now (set_idout (csp_id_copy out) (set_idin (csp_id_copy in_) x)));;
      csp_conn_flush_rx_queue c;;
      mret (Some c)
  end.

Section Conn.
Context `{Env}.

(** [csp_conn_check_timeouts], over the indices of [arr_conn]. *)
Fixpoint check_timeouts_from (idxs : list nat) : K () :=
  match idxs with
  | [] => mret ()
  | c :: idxs' =>
      x ← get_conn c;
      when (bool_decide (cn_state x = CONN_OPEN) && has_flag (flags (idin x)) CSP_FRDP)
        (csp_rdp_check_timeouts c);;
      check_timeouts_from idxs'
  end.
Definition csp_conn_check_timeouts : K () := check_timeouts_from (seq 0 CSP_CONN_MAX).

(** The flags [csp_connect] gives both identifiers. *)
Definition connect_flags (opts : Z) : Z :=
  let f := if has_flag opts CSP_O_RDP then CSP_FRDP else 0 in
  let f := if has_flag opts CSP_O_HMAC then Z.lor f CSP_FHMAC else f in
  if has_flag opts CSP_O_CRC32 then Z.lor f CSP_FCRC32 else f.

(** [opts &= ~CSP_O_CRC32] when [CSP_O_NOCRC32] is set. *)
Definition connect_opts (opts : Z) : Z :=
  if has_flag opts CSP_O_NOCRC32 then Z.land opts (u32 (Z.lnot CSP_O_CRC32)) else opts.

(** [csp_connect]; [sport0] and [dport0] are what the uninitialised fields of the two
    identifiers hold. *)
Definition csp_connect (dport0 sport0 : Z) (prio dest port timeout opts : Z) : K (option nat) :=
  dfl ← gets k_conn_dfl_so;
  let opts := connect_opts (Z.lor opts dfl) in
  let f := connect_flags opts in
  let incoming := mk_id prio f dest 0 dport0 port in
  let outgoing := mk_id prio f 0 dest port sport0 in
  r ← csp_conn_new incoming outgoing CONN_CLIENT;
  match r with
  | None => mret None
  | Some c =>
      mod_conn c (λ x,
        let p := sport_outgoing x in
        set_cn_opts opts (set_dest_socket None
          (set_idin (mk_id (pri (idin x)) (flags (idin x)) (src (idin x)) (dst (idin x)) p (sport (idin x)))
            (set_idout (mk_id (pri (idout x)) (flags (idout x)) (src (idout x)) (dst (idout x))
                          (dport (idout x)) p) x))));;
      if has_flag f CSP_FRDP then
        rc ← csp_rdp_connect c;
        if bool_decide (rc ≠ CSP_ERR_NONE) then csp_close (Some c);; mret None else mret (Some c)
      else mret (Some c)
  end.

Definition csp_conn_is_active (conn : nat) : K bool :=
  x ← get_conn conn;
  if has_flag (flags (idin x)) CSP_FRDP || has_flag (flags (idout x)) CSP_FRDP
  then csp_rdp_conn_is_active conn else mret true.
End Conn.

Definition csp_conn_dport (conn : nat) : K Z := (λ x, dport (idin x)) <$> get_conn conn.
Definition csp_conn_sport (conn : nat) : K Z := (λ x, sport (idin x)) <$> get_conn conn.
Definition csp_conn_dst (conn : nat) : K Z := (λ x, dst (idin x)) <$> get_conn conn.
Definition csp_conn_src (conn : nat) : K Z := (λ x, src (idin x)) <$> get_conn conn.
Definition csp_conn_flags (conn : nat) : K Z := (λ x, flags (idin x)) <$> get_conn conn.
