(* ===== verification/Io.v ===== *)
(** * Sockets and transactions

    The rest of [src/csp_io.c]: accepting, reading, sending over connections,
    connection-less sends and transactions. *)

From S2P Require Import Prelude Queue Types State Id Buffer Stack Net RdpQueue Rdp Conn.

Section Io.
Context `{Env}.

(** Takes from a socket's queue; a caller that finds it empty waits for the other
    tasks unless its timeout is zero. *)
Definition sock_dequeue (sock : nat) (timeout : Z) : K (option sock_item) :=
  so ← get_sock sock;
  q ← lift_opt (so_rx_queue so);
  when (bool_decide (fq_items q = []) && bool_decide (timeout ≠ 0)) (modify yield);;
  so ← get_sock sock;
  q ← lift_opt (so_rx_queue so);
  let '(r, q') := csp_queue_dequeue q in
  put_sock sock (set_so_rx_queue (Some q') so);; mret r.

(** [csp_accept]; the queue of a socket that is not connection-less holds
    connections. *)
Definition csp_accept (sock : option nat) (timeout : Z) : K (option nat) :=
  match sock with
  | None => liftC (errno CSP_DBG_ERR_INVALID_POINTER);; mret None
  | Some x =>
      so ← get_sock x;
      match so_rx_queue so with
      | None => liftC (errno CSP_DBG_ERR_INVALID_POINTER);; mret None
      | Some _ =>
          r ← sock_dequeue x timeout;
          match r with None => mret None | Some (SConn c) => mret (Some c) | Some (SPacket _) => ub end
      end
  end.

Definition csp_recvfrom (sock : option nat) (timeout : Z) : K (option nat) :=
  match sock with
  | None => mret None
  | Some x =>
      so ← get_sock x;
      if negb (has_flag (so_opts so) CSP_SO_CONN_LESS) then mret None else
      r ← sock_dequeue x timeout;
      match r with None => mret None | Some (SPacket b) => mret (Some b) | Some (SConn _) => ub end
  end.

Definition conn_dequeue (conn : nat) (timeout : Z) : K (option (option nat)) :=
  x ← get_conn conn;
  when (bool_decide (fq_items (cn_rx_queue x) = []) && bool_decide (timeout ≠ 0)) (modify yield);;
  x ← get_conn conn;
  let '(r, q') := csp_queue_dequeue (cn_rx_queue x) in
  put_conn conn (set_cn_rx_queue q' x);; mret r.

Definition csp_read (conn : option nat) (timeout : Z) : K (option nat) :=
  match conn with
  | None => mret None
  | Some c =>
      x ← get_conn c;
      if bool_decide (cn_state x ≠ CONN_OPEN) then mret None else
      let timeout := if bool_decide (timeout ≠ 0) && has_flag (flags (idin x)) CSP_FRDP &&
                        bool_decide (timeout < conn_timeout (cn_rdp x))
                     then conn_timeout (cn_rdp x) else timeout in
      r ← conn_dequeue c timeout;
      match r with
      | None => mret None
      | Some packet =>
          x ← get_conn c;
          when (has_flag (flags (idin x)) CSP_FRDP && bool_decide (delayed_acks (cn_rdp x) ≠ 0))
            (csp_rdp_check_ack c;; mret ());;
          mret packet
      end
  end.

(** [csp_send]; [fuel] bounds the wake-ups of a sender that waits for its window. *)
Definition csp_send (fuel : nat) (conn packet : option nat) : K () :=
  match packet with
  | None => mret ()
  | Some b =>
      match conn with
      | None => kfree (Some b)
      | Some c =>
          x ← get_conn c;
          if bool_decide (cn_state x ≠ CONN_OPEN) then kfree (Some b) else
          rc ← (if has_flag (flags (idout x)) CSP_FRDP then csp_rdp_send fuel c b else mret CSP_ERR_NONE);
          if bool_decide (rc ≠ CSP_ERR_NONE) then kfree (Some b)
          else csp_send_direct (IdConn c) (Some b) None
      end
  end.

Definition csp_send_prio (fuel : nat) (prio : Z) (conn : nat) (packet : option nat) : K () :=
  mod_conn conn (λ x, set_idout (set_pri prio (idout x)) x);;
  csp_send fuel (Some conn) packet.

(** [csp_transaction_persistent]: the return value, and what is written to [inbuf].
    [outbuf] may be [NULL]; [inlen] is -1 for a reply of any length. *)
Definition csp_transaction_persistent (fuel : nat) (conn : nat) (timeout : Z)
    (outbuf : option (list Z)) (outlen inlen : Z) : K (Z * option (list Z)) :=
  r ← liftC csp_buffer_get;
  match r with
  | None => mret (0, None)
  | Some b =>
      p ← kget_packet b;
      p ← match outbuf with
          | Some bytes =>
              if bool_decide (0 < outlen) then lift_opt (data_write p 0 (take (Z.to_nat outlen) bytes))
              else mret p
          | None => mret p
          end;
      kput_packet b (set_pk_length (u16 outlen) p);;
      csp_send fuel (Some conn) (Some b);;
      if bool_decide (inlen = 0) then mret (1, None) else
      reply ← csp_read (Some conn) timeout;
      match reply with
      | None => mret (0, None)
      | Some b =>
          p ← kget_packet b;
          if bool_decide (inlen ≠ -1) && bool_decide (pk_length p ≠ inlen) then
            liftC (mod_dbg inc_inval_reply);; kfree (Some b);; mret (0, None)
          else
            d ← lift_opt (data_read p 0 (pk_length p));
            kfree (Some b);; mret (pk_length p, Some d)
      end
  end.

Definition csp_transaction_w_opts (fuel : nat) (dport0 sport0 : Z) (prio dest port timeout : Z)
    (outbuf : option (list Z)) (outlen inlen opts : Z) : K (Z * option (list Z)) :=
  c ← csp_connect dport0 sport0 prio dest port 0 opts;
  match c with
  | None => mret (0, None)
  | Some c =>
      r ← csp_transaction_persistent fuel c timeout outbuf outlen inlen;
      csp_close (Some c);; mret r
  end.

(** [csp_sendto] *)
Definition csp_sendto (prio dest port src_port opts : Z) (packet : nat) : K () :=
  p ← kget_packet packet;
  let f := if has_flag opts CSP_O_SAME then flags (pk_id p) else 0 in
  if has_flag opts CSP_O_RDP then
    kput_packet packet (set_pk_id (set_flags f (pk_id p)) p);;
    liftC (errno CSP_DBG_ERR_UNSUPPORTED);; kfree (Some packet)
  else
    let f := if has_flag opts CSP_O_HMAC then Z.lor f CSP_FHMAC else f in
    let f := if has_flag opts CSP_O_CRC32 then Z.lor f CSP_FCRC32 else f in
    kput_packet packet (set_pk_id (mk_id prio f (src (pk_id p)) dest port src_port) p);;
    csp_send_direct (IdPacket packet) (Some packet) None.

Definition csp_sendto_reply (request_packet : option nat) (reply_packet : nat) (opts : Z) : K () :=
  match request_packet with
  | None => mret ()
  | Some b =>
      v ← conf_version;
      q ← kget_packet b;
      when (has_flag opts CSP_O_SAME)
        (kmod_packet reply_packet (λ p, set_pk_id (set_flags (flags (pk_id q)) (pk_id p)) p));;
      q ← kget_packet b;
      let dest := src (pk_id q) in
      kmod_packet reply_packet (λ p, set_pk_id (set_src
        (if bool_decide (dst (pk_id q) ≠ csp_id_get_max_nodeid v) then dst (pk_id q) else 0) (pk_id p)) p);;
      q ← kget_packet b;
      csp_sendto (pri (pk_id q)) dest (sport (pk_id q)) (dport (pk_id q)) opts reply_packet
  end.
End Io.
