(* ===== verification/Session.v ===== *)
(** * Client connections

    How a client's connection behaves from [csp_connect] to [csp_close]: what the calls of
    [csp_conn.c] and [csp_io.c] do to the connection, to its queue and to the buffers, for
    connections without RDP.  The clients of the services build on these lemmas. *)

From S2P Require Import Prelude Queue Types State Id Buffer Nexthop Stack Net RdpQueue Rdp Conn Io.

Section Session.
Context `{Env}.
Implicit Types (s : stack) (l : list nat) (c b : nat) (x : csp_conn_t).

(** The packets of a queue: each in use once, and not longer than a buffer. *)
Definition packets_ok s (items : list (option nat)) : Prop :=
  ∃ bs, items = Some <$> bs ∧ NoDup bs ∧ ∀ b, b ∈ bs → sendable s b.

(** An open connection without RDP. *)
Record session l s c x : Prop := {
  se_env : net_env l s;
  se_conn : k_conns s !! c = Some x;
  se_open : cn_state x = CONN_OPEN;
  se_in : has_flag (flags (idin x)) CSP_FRDP = false;
  se_out : has_flag (flags (idout x)) CSP_FRDP = false;
  se_id : id_ok (idout x);
  se_queue : packets_ok s (fq_items (cn_rx_queue x));
}.

(** Every packet of the queue satisfies [P]. *)
Definition queue_all (P : csp_packet_t → Prop) s (items : list (option nat)) : Prop :=
  ∀ b k, b ∈ omap id items → c_pool (k_core s) !! b = Some k → P (skbf_data k).

(** What the tasks that run while a client waits may do to it: keep the network layer well
    formed and put packets that satisfy [P] into the queue of its connection. *)
Definition tasks_deliver l (P : csp_packet_t → Prop) : Prop :=
  ∀ s c x, session l s c x → queue_all P s (fq_items (cn_rx_queue x)) →
    ∃ q, session l (yield s) c (set_cn_rx_queue q x) ∧ queue_all P (yield s) (fq_items q).

Lemma omap_some (bs : list nat) : omap id (Some <$> bs) = bs.
Proof. induction bs as [|b bs IH]; [done|]. cbn. by rewrite IH. Qed.

Lemma net_env_conns l s cs n : net_env l s → net_env l (set_k_last_given n (set_k_conns cs s)).
Proof. intros []. by split. Qed.

Lemma net_env_set_conns l s cs : net_env l s → net_env l (set_k_conns cs s).
Proof. intros []. by split. Qed.

(** ** Opening *)

(** The table of connections; a closed one keeps no packet. *)
Definition conns_ready s : Prop :=
  List.length (k_conns s) = CSP_CONN_MAX ∧
  ∀ c x, k_conns s !! c = Some x → cn_state x = CONN_CLOSED → Forall (λ p, p = None) (fq_items (cn_rx_queue x)) ∧ is_u8 (sport_outgoing x).

Definition all_open s : Prop := ∀ c x, k_conns s !! c = Some x → cn_state x ≠ CONN_CLOSED.

Definition given s c x : stack := set_k_last_given (Z.of_nat c) (set_k_conns (<[c := x]> (k_conns s)) s).

Lemma scan_spec s : List.length (k_conns s) = CSP_CONN_MAX → ∀ n i,
  (∃ c x, k_conns s !! c = Some x ∧ cn_state x = CONN_CLOSED ∧ allocate_scan n i s = Some (Some c, given s c (set_cn_state CONN_OPEN x))) ∨
  (allocate_scan n i s = Some (None, s) ∧
   ∀ j x, 0 < j ≤ Z.of_nat n → k_conns s !! Z.to_nat ((i + j) mod 20) = Some x → cn_state x ≠ CONN_CLOSED).
Proof.
  intros Hl. induction n as [|n IH]; intros i; [right; split; [done|lia]|]. cbn [allocate_scan].
  change (Z.of_nat CSP_CONN_MAX) with 20. set (j := (i + 1) mod 20). assert (Hj : 0 ≤ j < 20) by (apply Z.mod_pos_bound; lia).
  destruct (lookup_lt_is_Some_2 (k_conns s) (Z.to_nat j)) as [x Hx]; [rewrite Hl; unfold CSP_CONN_MAX; lia|].
  run (get_conn_run s _ x Hx). case_bool_decide as Hst.
  - left. exists (Z.to_nat j), x. split; [done|]. split; [done|]. unfold given. by rewrite Z2Nat.id by lia.
  - destruct (IH j) as [(c & y & ?)|[Hr Hall]]; [left; by exists c, y|]. right. split; [done|]. intros d y Hd Hy.
    destruct (decide (d = 1)) as [->|]; [fold j in Hy; congruence|]. apply (Hall (d - 1) y); [lia|].
    replace ((j + (d - 1)) mod 20) with ((i + d) mod 20); [done|]. unfold j. rewrite Zplus_mod_idemp_l. f_equal. lia.
Qed.

Lemma scan_all s i : List.length (k_conns s) = CSP_CONN_MAX →
  (∀ j x, 0 < j ≤ 20 → k_conns s !! Z.to_nat ((i + j) mod 20) = Some x → cn_state x ≠ CONN_CLOSED) → all_open s.
Proof.
  intros Hl Hall c x Hx. pose proof (lookup_lt_Some _ _ _ Hx) as Hc. rewrite Hl in Hc. unfold CSP_CONN_MAX in Hc.
  apply (Hall ((Z.of_nat c - i - 1) mod 20 + 1) x); [pose proof (Z.mod_pos_bound (Z.of_nat c - i - 1) 20); lia|].
  replace ((i + ((Z.of_nat c - i - 1) mod 20 + 1)) mod 20) with (Z.of_nat c); [by rewrite Nat2Z.id|].
  rewrite <- (Z.mod_small (Z.of_nat c) 20) at 1 by lia. rewrite (Z.add_comm _ 1), !Z.add_assoc, Zplus_mod_idemp_r. f_equal. lia.
Qed.

Lemma free_none s items : Forall (λ p, p = None) items → free_packets items s = Some ((), s).
Proof.
  induction 1 as [|p items -> _ IH]; [done|]. cbn [free_packets].
  assert (Hf : kfree None s = Some ((), s)) by (rewrite <- (set_k_core_id s) at 2; by apply (liftC_run _ s () (k_core s))).
  by run Hf.
Qed.

(** The connection [csp_connect] opens without RDP. *)
Definition connected (opts prio dest port now : Z) x : csp_conn_t :=
  mk_conn CONN_CLIENT CONN_OPEN (mk_id prio (connect_flags opts) dest 0 (sport_outgoing x) port)
    (mk_id prio (connect_flags opts) 0 dest port (sport_outgoing x)) (sport_outgoing x)
    (mk_fifo (fq_cap (cn_rx_queue x)) []) None now opts (cn_rdp x).

Lemma allocate_run l s type :
  net_env l s → List.length (k_conns s) = CSP_CONN_MAX →
  (∃ c x, k_conns s !! c = Some x ∧ cn_state x = CONN_CLOSED ∧
     csp_conn_allocate type s = Some (Some c, given s c (set_idout (set_flags 0 (idout x)) (set_idin (set_flags 0 (idin x))
       (set_cn_type type (set_cn_timestamp 0 (set_cn_state CONN_OPEN x))))))) ∨
  (∃ s', all_open s ∧ csp_conn_allocate type s = Some (None, s') ∧ net_step None [] s s' ∧ k_conns s' = k_conns s).
Proof.
  intros He Hl. unfold csp_conn_allocate. run (eq_refl : gets k_last_given s = Some (k_last_given s, s)).
  destruct (scan_spec s Hl CSP_CONN_MAX (k_last_given s)) as [(c & x & Hx & Hst & Hr)|[Hr Hall]].
  - left. exists c, x. split; [done|]. split; [done|]. run Hr.
    run (mod_conn_run (given s c (set_cn_state CONN_OPEN x)) c _ (λ x, set_idout (set_flags 0 (idout x)) (set_idin (set_flags 0 (idin x))
        (set_cn_type type (set_cn_timestamp 0 x)))) (list_lookup_insert_eq _ _ _ (lookup_lt_Some _ _ _ Hx))).
    unfold given. cbn. by rewrite list_insert_insert_eq.
  - right. run Hr. destruct (dbg_step None s inc_conn_out (ne_inv _ _ He)) as (s' & Rd & St & Hc & _). run Rd.
    exists s'. split; [by apply (scan_all s (k_last_given s))|done].
Qed.

Lemma connect_flags_u8 opts : is_u8 (connect_flags opts).
Proof. unfold connect_flags. by repeat case_match. Qed.

Lemma connect_run l s dport0 sport0 prio dest port timeout opts :
  net_env l s → conns_ready s → is_u8 prio → is_u16 dest → is_u8 port →
  let o := connect_opts (Z.lor opts (k_conn_dfl_so s)) in
  has_flag (connect_flags o) CSP_FRDP = false →
  (∃ c x, k_conns s !! c = Some x ∧ cn_state x = CONN_CLOSED ∧
    let y := connected o prio dest port (c_now (k_core s)) x in
    csp_connect dport0 sport0 prio dest port timeout opts s = Some (Some c, given s c y) ∧ session l (given s c y) c y) ∨
  (∃ s', all_open s ∧ csp_connect dport0 sport0 prio dest port timeout opts s = Some (None, s') ∧ net_step None [] s s' ∧ k_conns s' = k_conns s).
Proof.
  intros He [Hl Hidle] Hp Hd Hpo o Hf. unfold csp_connect. run (eq_refl : gets k_conn_dfl_so s = Some (k_conn_dfl_so s, s)). fold o.
  set (in_ := mk_id prio (connect_flags o) dest 0 dport0 port). set (out := mk_id prio (connect_flags o) 0 dest port sport0).
  destruct (allocate_run l s CONN_CLIENT He Hl) as [(c & x & Hx & Hst & Hr)|(s' & Hall & Hr & St & Hc)].
  2:{ right. exists s'. split; [done|]. split; [|done]. assert (Hn : csp_conn_new in_ out CONN_CLIENT s = Some (None, s')) by (unfold csp_conn_new; by run Hr). by run Hn. }
  left. exists c, x. split; [done|]. split; [done|]. set (y := connected o prio dest port (c_now (k_core s)) x). cbv zeta.
  destruct (Hidle c x Hx Hst) as [Hq Hsp]. pose proof (lookup_lt_Some _ _ _ Hx) as Hcl.
  assert (Hget : ∀ z, k_conns (given s c z) !! c = Some z) by (intros z; by apply list_lookup_insert_eq).
  assert (Hput : ∀ z f, mod_conn c f (given s c z) = Some ((), given s c (f z))).
  { intros z f. rewrite (mod_conn_run _ c z f (Hget z)). unfold given. cbn. by rewrite list_insert_insert_eq. }
  set (z0 := set_idout _ _) in Hr.
  set (z1 := set_cn_timestamp (c_now (k_core s)) (set_idout (csp_id_copy out) (set_idin (csp_id_copy in_) z0))).
  set (z2 := set_cn_rx_queue (mk_fifo (fq_cap (cn_rx_queue z1)) []) z1).
  assert (Hn : csp_conn_new in_ out CONN_CLIENT s = Some (Some c, given s c z2)).
  { unfold csp_conn_new. run Hr. run (eq_refl : csp_get_ms (given s c z0) = Some (c_now (k_core s), given s c z0)). run (Hput z0 (λ x, set_cn_timestamp (c_now (k_core s)) (set_idout (csp_id_copy out) (set_idin (csp_id_copy in_) x)))). fold z1.
    assert (Hfl : csp_conn_flush_rx_queue c (given s c z1) = Some ((), given s c z2)).
    { unfold csp_conn_flush_rx_queue. run (get_conn_run _ c z1 (Hget z1)).
      assert (Hpc : put_conn c z2 (given s c z1) = Some ((), given s c z2)) by (unfold put_conn, given; st_red; cbn; by rewrite list_insert_insert_eq).
      run Hpc. by apply free_none. }
    by run Hfl. }
  run Hn. run (Hput z2 (λ x, let p := sport_outgoing x in
        set_cn_opts o (set_dest_socket None
          (set_idin (mk_id (pri (idin x)) (flags (idin x)) (src (idin x)) (dst (idin x)) p (sport (idin x)))
            (set_idout (mk_id (pri (idout x)) (flags (idout x)) (src (idout x)) (dst (idout x))
                          (dport (idout x)) p) x))))). rewrite Hf. split; [reflexivity|].
  split; [by apply net_env_conns|apply Hget|done|exact Hf|exact Hf| |].
  - split; [done|]. split; [apply connect_flags_u8|]. by repeat split; try apply Hd; try apply Hpo; try apply Hsp.
  - exists []. split; [done|]. split; [apply NoDup_nil_2|]. by intros b ?%not_elem_of_nil.
Qed.

(** ** Sending *)

Lemma packets_ok_mono s s' items :
  packets_ok s items → (∀ b, Some b ∈ items → sendable s b → sendable s' b) → packets_ok s' items.
Proof.
  intros (bs & -> & Hnd & Hs) Hm. exists bs. split; [done|]. split; [done|]. intros b Hb. apply Hm; [|by apply Hs].
  by apply list_elem_of_fmap_2.
Qed.

(** A send may fill in the source address. *)
Definition sent_conn x x' : Prop := x' = x ∨ ∃ v, is_u16 v ∧ x' = set_idout (set_src v (idout x)) x.

Lemma session_send l s c x b fuel :
  session l s c x → sendable s b → b ∉ omap id (fq_items (cn_rx_queue x)) →
  ∃ s' x' new, csp_send fuel (Some c) (Some b) s = Some ((), s') ∧ session l s' c x' ∧ sent_conn x x' ∧
    net_step (Some b) new s s' ∧ ¬ allocated (k_core s') b ∧ k_conns s' = <[c := x']> (k_conns s).
Proof.
  intros [He Hx Hop Hin Hout Hid Hq] Hb Hnq. unfold csp_send. run (get_conn_run s c x Hx). rewrite bool_decide_false by (by intros []). rewrite Hout.
  run (eq_refl : (mret CSP_ERR_NONE : K Z) s = Some (CSP_ERR_NONE, s)). rewrite bool_decide_false by (by intros []).
  destruct (csp_send_direct_step l s (IdConn c) (Some b) None He Hb) as (s' & new & Hr & He' & Hc & St & Hfree); [by exists x|done|].
  destruct (Hfree b eq_refl) as [Hna _].
  assert (Hx' : ∃ x', sent_conn x x' ∧ k_conns s' = <[c := x']> (k_conns s)).
  { destruct Hc as [Hc|(c0 & x0 & v & [= <-] & Hx0 & Hv & Hc)].
    - exists x. split; [by left|]. by rewrite list_insert_id.
    - rewrite Hx in Hx0. injection Hx0 as <-. eexists. split; [right; by exists v|done]. }
  destruct Hx' as (x' & Hsx & Hcs). exists s', x', new. rewrite Hr. split; [done|]. split; [|done].
  assert (Hlk : k_conns s' !! c = Some x') by (rewrite Hcs; apply list_lookup_insert_eq; by apply lookup_lt_Some in Hx).
  assert (Hq' : packets_ok s' (fq_items (cn_rx_queue x))).
  { apply (packets_ok_mono s); [done|]. intros b' Hb' Hs. apply (sendable_kept _ _ _ _ _ St); [|done]. intros [= <-]. apply Hnq.
    apply list_elem_of_omap. by exists (Some b). }
  destruct Hsx as [->|(v & Hv & ->)]; split; try done. by apply set_src_ok.
Qed.

(** ** Receiving *)

(** The state in which a reader looks into its queue. *)
Definition waited s x (timeout : Z) : stack :=
  if bool_decide (fq_items (cn_rx_queue x) = []) && bool_decide (timeout ≠ 0) then yield s else s.

Lemma waited_session l s c x timeout P :
  tasks_deliver l P → session l s c x → queue_all P s (fq_items (cn_rx_queue x)) →
  ∃ q, session l (waited s x timeout) c (set_cn_rx_queue q x) ∧ queue_all P (waited s x timeout) (fq_items q).
Proof.
  intros Ho Hs Hq. unfold waited. destruct (_ && _); [by apply Ho|]. exists (cn_rx_queue x). split; [by destruct x|done].
Qed.

(** [csp_read] returns the first packet of the queue it finds. *)
Lemma read_run l s c x timeout q :
  session l s c x → session l (waited s x timeout) c (set_cn_rx_queue q x) →
  let s1 := waited s x timeout in
  csp_read (Some c) timeout s =
    Some (match fq_items q with [] => None | p :: _ => p end,
          set_k_conns (<[c := set_cn_rx_queue (mk_fifo (fq_cap q) (tail (fq_items q))) x]> (k_conns s1)) s1).
Proof.
  intros [He Hx Hop Hin Hout Hid Hq] [He1 Hx1 _ _ _ _ Hq1]. cbv zeta. set (s1 := waited s x timeout) in *.
  unfold csp_read. run (get_conn_run s c x Hx). rewrite bool_decide_false by (by intros []). rewrite Hin, andb_false_r.
  assert (Hd : conn_dequeue c timeout s = Some (match fq_items q with [] => None | p :: _ => Some p end,
    set_k_conns (<[c := set_cn_rx_queue (mk_fifo (fq_cap q) (tail (fq_items q))) x]> (k_conns s1)) s1)).
  { unfold conn_dequeue. run (get_conn_run s c x Hx).
    assert (Hw : when (bool_decide (fq_items (cn_rx_queue x) = []) && bool_decide (timeout ≠ 0)) (modify yield) s = Some ((), s1)).
    { unfold s1, waited. by destruct (_ && _). }
    run Hw. run (get_conn_run s1 c _ Hx1). cbn [cn_rx_queue set_cn_rx_queue]. unfold csp_queue_dequeue. by destruct q as [cap [|p items]]. }
  run Hd. destruct (fq_items q) as [|p items]; [done|].
  run (get_conn_run (set_k_conns (<[c := set_cn_rx_queue (mk_fifo (fq_cap q) (tail (p :: items))) x]> (k_conns s1)) s1) c _
    (list_lookup_insert_eq _ _ _ (lookup_lt_Some _ _ _ Hx1))).
  cbn [idin set_cn_rx_queue]. rewrite Hin. done.
Qed.

Lemma read_session l s c x q :
  session l s c (set_cn_rx_queue q x) →
  let y := set_cn_rx_queue (mk_fifo (fq_cap q) (tail (fq_items q))) x in
  session l (set_k_conns (<[c := y]> (k_conns s)) s) c y ∧
  match fq_items q with
  | [] => True
  | p :: _ => ∃ b, p = Some b ∧ sendable s b ∧ b ∉ omap id (tail (fq_items q))
  end.
Proof.
  intros [He Hx Hop Hin Hout Hid (bs & Hbs & Hnd & Hs)]. cbn [cn_rx_queue set_cn_rx_queue] in Hbs. cbv zeta. rewrite Hbs. split.
  - split; try done; [by apply net_env_set_conns|apply list_lookup_insert_eq; by apply lookup_lt_Some in Hx|].
    destruct bs as [|b bs]; [by exists []|]. exists bs. split; [done|]. apply NoDup_cons in Hnd as [_ Hnd]. split; [done|].
    intros b' Hb'. apply Hs. by right.
  - destruct bs as [|b bs]; [done|]. exists b. split; [done|]. split; [apply Hs; by left|]. cbn [tail fmap list_fmap].
    rewrite omap_some. by apply NoDup_cons in Hnd as [? _].
Qed.

(** A packet that waits is returned at once. *)
Lemma read_first l s c x b rest timeout :
  session l s c x → fq_items (cn_rx_queue x) = Some b :: rest →
  ∃ s1 y, csp_read (Some c) timeout s = Some (Some b, s1) ∧ session l s1 c y ∧ k_core s1 = k_core s ∧
    fq_items (cn_rx_queue y) = rest ∧ sendable s1 b ∧ b ∉ omap id rest.
Proof.
  intros Hs Hq. assert (Hw : waited s x timeout = s) by (unfold waited; by rewrite Hq).
  assert (Hs' : session l s c (set_cn_rx_queue (cn_rx_queue x) x)) by (by destruct x).
  pose proof (read_run l s c x timeout (cn_rx_queue x) Hs) as Hr. rewrite Hw, Hq in Hr. specialize (Hr Hs'). cbv zeta in Hr.
  destruct (read_session l s c x (cn_rx_queue x) Hs') as [Hs1 Hhd]. rewrite Hq in Hhd, Hs1. cbn [tail] in *.
  destruct Hhd as (b' & [= <-] & Hb & Hnb). eexists _, _. by split_and!.
Qed.

(** One packet of a stream. *)
Lemma next_packet l s c x timeout P :
  tasks_deliver l P → session l s c x → queue_all P s (fq_items (cn_rx_queue x)) →
  ∃ r s' x', csp_read (Some c) timeout s = Some (r, s') ∧ session l s' c x' ∧ queue_all P s' (fq_items (cn_rx_queue x')) ∧
    match r with
    | None => True
    | Some b => sendable s' b ∧ b ∉ omap id (fq_items (cn_rx_queue x')) ∧ ∀ k, c_pool (k_core s') !! b = Some k → P (skbf_data k)
    end.
Proof.
  intros Ht Hs Hq. destruct (waited_session l s c x timeout P Ht Hs Hq) as (q & Hs1 & Hq1).
  pose proof (read_run l s c x timeout q Hs Hs1) as Hr. cbv zeta in Hr. destruct (read_session l _ c x q Hs1) as [Hs2 Hhd].
  eexists _, _, _. split; [exact Hr|]. split; [exact Hs2|]. cbn [fq_items cn_rx_queue set_cn_rx_queue]. destruct (fq_items q) as [|p items]; [done|].
  destruct Hhd as (b & -> & Hb & Hnb). split; [intros b' k Hb'; apply Hq1; by right|]. split; [done|]. split; [done|]. intros k. apply Hq1. by left.
Qed.

(** ** Closing *)

(** What closing does to the buffers: those of [bs] are released. *)
Record released (bs : list nat) s s' : Prop := {
  re_env : ∀ l, net_env l s → net_env l s';
  re_gone : ∀ b, b ∈ bs → ¬ allocated (k_core s') b;
  re_kept : ∀ b, b ∉ bs → allocated (k_core s) b → c_pool (k_core s') !! b = c_pool (k_core s) !! b;
  re_none : ∀ b, allocated (k_core s') b → allocated (k_core s) b;
  re_length : List.length (c_pool (k_core s')) = List.length (c_pool (k_core s));
  re_dfl : k_conn_dfl_so s' = k_conn_dfl_so s;
}.

Lemma dfl_step (packet : option nat) new s s' : net_step packet new s s' → k_conn_dfl_so s' = k_conn_dfl_so s.
Proof. intros St. pose proof (ns_rest _ _ _ _ St) as Hr. unfold transport_kept in Hr. rewrite Hr. by destruct s. Qed.

Lemma free_all bs : ∀ s,
  buf_inv (k_core s) → NoDup bs → (∀ b, b ∈ bs → owned (k_core s) b) →
  ∃ s', free_packets (Some <$> bs) s = Some ((), s') ∧ k_conns s' = k_conns s ∧ released bs s s'.
Proof.
  induction bs as [|b bs IH]; intros s Hi Hnd Ho.
  { exists s. split; [done|]. split; [done|]. split; try done. by intros b ?%not_elem_of_nil. }
  apply NoDup_cons in Hnd as [Hb Hnd]. destruct (kfree_step s b Hi) as (s1 & Hf & St & Hna & Hc); [apply Ho; by left|].
  destruct (IH s1 (ns_inv _ _ _ _ St) Hnd) as (s' & Hr & Hc' & [He Hg Hk Hn Hlen Hd]).
  { intros b' Hb'. assert (owned (k_core s) b') as Ho' by (apply Ho; by right). eapply owned_ext; [|exact Ho'].
    apply (ns_kept _ _ _ _ St); [intros [= <-]; done|by apply owned_allocated]. }
  exists s'. cbn [fmap list_fmap free_packets]. run Hf. split; [done|]. split; [congruence|]. split.
  - intros l He0. apply He. by apply (net_env_step _ _ _ _ _ St).
  - intros b' [->|Hb']%elem_of_cons; [|by apply Hg]. intros Ha. by apply Hna, Hn.
  - intros b' [Hne Hnb]%not_elem_of_cons Ha. assert (Hsame : c_pool (k_core s1) !! b' = c_pool (k_core s) !! b') by (apply (ns_kept _ _ _ _ St); [congruence|done]).
    rewrite Hk; [done|done|]. by eapply allocated_ext.
  - intros b' Ha%Hn. destruct (decide (b' = b)) as [->|Hne]; [done|].
    destruct (ns_alloc _ _ _ _ St b') as [?|?%not_elem_of_nil]; [congruence|done..].
  - rewrite Hlen. apply (ns_length _ _ _ _ St).
  - rewrite Hd. apply (dfl_step _ _ _ _ St).
Qed.

Lemma close_run l s c x :
  session l s c x →
  ∃ s', csp_close (Some c) s = Some (CSP_ERR_NONE, s') ∧ net_env l s' ∧ released (omap id (fq_items (cn_rx_queue x))) s s' ∧
    k_conns s' = <[c := set_cn_state CONN_CLOSED (set_cn_rx_queue (mk_fifo (fq_cap (cn_rx_queue x)) []) x)]> (k_conns s).
Proof.
  intros [He Hx Hop Hin Hout Hid (bs & Hbs & Hnd & Hs)]. unfold csp_close, csp_conn_close. run (get_conn_run s c x Hx).
  rewrite bool_decide_false by (by rewrite Hop). rewrite Hin, Hout. run (eq_refl : (mret false : K bool) s = Some (false, s)).
  set (y := set_cn_rx_queue (mk_fifo (fq_cap (cn_rx_queue x)) []) x). set (s1 := set_k_conns (<[c := y]> (k_conns s)) s).
  pose proof (lookup_lt_Some _ _ _ Hx) as Hlt.
  destruct (free_all bs s1) as (s2 & Hf & Hc2 & Hrel); [apply He|done| |].
  { intros b Hb. by apply (sendable_owned s), Hs. }
  assert (Hfl : csp_conn_flush_rx_queue c s = Some ((), s2)).
  { unfold csp_conn_flush_rx_queue. run (get_conn_run s c x Hx). run (eq_refl : put_conn c y s = Some ((), s1)). by rewrite Hbs. }
  run Hfl. assert (Hy : k_conns s2 !! c = Some y) by (rewrite Hc2; by apply list_lookup_insert_eq).
  run (get_conn_run s2 c y Hy). cbn [idin set_cn_rx_queue y]. rewrite Hin.
  run (eq_refl : when false (csp_rdp_queue_flush (Some c)) s2 = Some ((), s2)). run (mod_conn_run s2 c y (set_cn_state CONN_CLOSED) Hy).
  eexists. split; [reflexivity|]. rewrite Hbs, omap_some. destruct Hrel as [Hre Hg Hk Hn Hlen Hdf].
  assert (He2 : ∀ l', net_env l' s → net_env l' s2) by (intros l' He'; apply Hre; by apply net_env_set_conns).
  split; [by apply net_env_set_conns, He2|]. split.
  - split; [intros l' He'; by apply net_env_set_conns, He2|done..].
  - cbn. rewrite Hc2. cbn. by rewrite list_insert_insert_eq.
Qed.

(** ** Requests *)

(** Buffers that the caller already has stay as they are. *)
Definition kept_buffers s s' : Prop := ∀ b, sendable s b → c_pool (k_core s') !! b = c_pool (k_core s) !! b.

Lemma kept_trans s1 s2 s3 : kept_buffers s1 s2 → kept_buffers s2 s3 → kept_buffers s1 s3.
Proof. intros H1 H2 b Hb. rewrite H2; [by apply H1|]. unfold sendable. by rewrite (H1 b Hb). Qed.

Lemma sendable_allocated s b : sendable s b → allocated (k_core s) b.
Proof. intros Hb. by apply owned_allocated, sendable_owned. Qed.

Lemma kept_step (packet : option nat) new s s' : net_step packet new s s' → (∀ b, packet = Some b → ¬ sendable s b) → kept_buffers s s'.
Proof. intros St Hp b Hb. apply (ns_kept _ _ _ _ St); [|by apply sendable_allocated]. intros Hpk. by apply (Hp b). Qed.

Lemma last_given_step (packet : option nat) new s s' : net_step packet new s s' → k_last_given s' = k_last_given s.
Proof. intros St. by rewrite (ns_rest _ _ _ _ St). Qed.

Lemma session_net l s s' c x (packet : option nat) new :
  session l s c x → net_step packet new s s' → k_conns s' = k_conns s → (∀ b, packet = Some b → b ∉ omap id (fq_items (cn_rx_queue x))) →
  session l s' c x.
Proof.
  intros [He Hx Hop Hin Hout Hid Hq] St Hc Hp. split; try done; [by apply (net_env_step _ _ _ _ _ St)|by rewrite Hc|].
  apply (packets_ok_mono s); [done|]. intros b Hb Hs. apply (sendable_kept _ _ _ _ _ St); [|done]. intros ->. apply (Hp b eq_refl).
  apply list_elem_of_omap. by exists (Some b).
Qed.

Lemma queue_sendable l s c x b : session l s c x → b ∈ omap id (fq_items (cn_rx_queue x)) → sendable s b.
Proof. intros [_ _ _ _ _ _ (bs & -> & _ & Hs)]. rewrite omap_some. apply Hs. Qed.

Lemma get_session l s c x :
  session l s c x → fq_items (c_free (k_core s)) ≠ [] →
  ∃ b k s1, liftC csp_buffer_get s = Some (Some b, s1) ∧ session l s1 c x ∧ c_pool (k_core s1) !! b = Some k ∧ refcount k = 1 ∧
    packet_ok (skbf_data k) ∧ b ∉ omap id (fq_items (cn_rx_queue x)) ∧ kept_buffers s s1 ∧ k_last_given s1 = k_last_given s ∧
    k_conns s1 = k_conns s ∧ ¬ allocated (k_core s) b.
Proof.
  intros Hse Hf. destruct (buffer_get_step l s (se_env _ _ _ _ Hse) Hf) as (b & k & s1 & Hg & He1 & St & Hk & Hr & Hok & Hna & Hc).
  assert (Hnq : b ∉ omap id (fq_items (cn_rx_queue x))) by (intros Hb; by apply Hna, sendable_allocated, (queue_sendable l s c x)).
  exists b, k, s1. split; [done|]. split; [apply (session_net _ _ _ _ _ _ _ Hse St Hc); by intros b' [= <-]|]. split; [done|]. split; [done|].
  split; [done|]. split; [done|]. split; [|split; [by apply (last_given_step _ _ _ _ St)|done]].
  apply (kept_step _ _ _ _ St). intros b' [= <-] Hs. by apply Hna, sendable_allocated.
Qed.

Lemma free_nonempty core b : buf_inv core → (b < List.length (c_pool core))%nat → ¬ allocated core b → fq_items (c_free core) ≠ [].
Proof.
  intros Hi [k Hk]%lookup_lt_is_Some_2 Hna Hf.
  assert (Hin : b ∈ fq_items (c_free core)); [|by rewrite Hf in Hin; apply not_elem_of_nil in Hin].
  apply (bi_free core Hi). exists k. split; [done|]. destruct (decide (refcount k = 0)) as [|Hr]; [done|]. destruct Hna. by exists k.
Qed.

(** Filling in a packet and sending it. *)
Lemma put_send_run l s c x b k p fuel :
  session l s c x → c_pool (k_core s) !! b = Some k → refcount k = 1 → packet_ok p → pk_length p ≤ CSP_BUFFER_SIZE →
  b ∉ omap id (fq_items (cn_rx_queue x)) →
  ∃ s' x', (∀ A (m : K A), (kput_packet b p;; (csp_send fuel (Some c) (Some b);; m)) s = m s') ∧ session l s' c x' ∧ sent_conn x x' ∧
    ¬ allocated (k_core s') b ∧ k_last_given s' = k_last_given s ∧ k_conns s' = <[c := x']> (k_conns s) ∧
    fq_items (c_free (k_core s')) ≠ [] ∧ (∀ b', b' ≠ b → sendable s b' → c_pool (k_core s') !! b' = c_pool (k_core s) !! b').
Proof.
  intros Hse Hk Hr Hok Hl Hnq. destruct (kput_step s b k p (ne_inv _ _ (se_env _ _ _ _ Hse)) Hk Hok) as (s1 & Hp & St1 & Hc1 & Hk1).
  assert (Hse1 : session l s1 c x) by (apply (session_net _ _ _ _ _ _ _ Hse St1 Hc1); by intros b' [= <-]).
  destruct (session_send l s1 c x b fuel Hse1) as (s2 & x2 & new & Hs & Hse2 & Hx2 & St2 & Hna & Hc2); [by eexists|done|].
  exists s2, x2. split; [intros A m; run Hp; by run Hs|]. split; [done|]. split; [done|]. split; [done|].
  split; [rewrite (last_given_step _ _ _ _ St2); apply (last_given_step _ _ _ _ St1)|]. split; [congruence|].
  split; [apply (free_nonempty _ b); [apply St2|rewrite (ns_length _ _ _ _ St2), (ns_length _ _ _ _ St1); by apply lookup_lt_Some in Hk|done]|].
  intros b' Hne Hb'. pose proof (sendable_kept _ _ _ _ b' St1 ltac:(congruence) Hb') as Hb1.
  rewrite (ns_kept _ _ _ _ St2), (ns_kept _ _ _ _ St1); [done|congruence|by apply sendable_allocated|congruence|by apply sendable_allocated].
Qed.
End Session.
