(* ===== verification/Route.v ===== *)
(** * The router

    [src/csp_route.c] ([csp_route_work], one round of the router task),
    [src/csp_bridge.c] and [src/csp_init.c]. *)

From S2P Require Import Prelude Queue Types State Id Crc32 Buffer Rtable Qfifo Iflist Sha1 Hmac Dedup Stack Port Net RdpQueue Rdp Conn Io.

Definition CSP_DEDUP_OFF : Z := 0.
Definition CSP_DEDUP_FWD : Z := 1.
Definition CSP_DEDUP_INCOMING : Z := 2.
Definition CSP_DEDUP_ALL : Z := 3.

Section Route.
Context `{Env}.

(** [csp_route_check_options]: with RDP and HMAC compiled in nothing is refused. *)
Definition csp_route_check_options (iface packet : nat) : K Z := mret CSP_ERR_NONE.

(** [csp_route_security_check] *)
Definition csp_route_security_check (security_opts : Z) (iface packet : nat) : K Z :=
  v ← conf_version;
  key ← gets k_hmac_key;
  p ← kget_packet packet;
  let f := flags (pk_id p) in
  crc ← (if has_flag f CSP_FCRC32 then
           '(rc, p') ← lift_opt (csp_crc32_verify v p);
           kput_packet packet p';; mret (bool_decide (rc = CSP_ERR_NONE))
         else mret (negb (has_flag security_opts CSP_SO_CRC32REQ)));
  if negb crc then liftC (iface_add iface StRxError 1);; mret CSP_ERR_CRC32 else
  p ← kget_packet packet;
  hmac ← (if has_flag f CSP_FHMAC then
            '(rc, p') ← lift_opt (csp_hmac_verify key hmac_locals.1 hmac_locals.2 p false);
            kput_packet packet p';; mret (bool_decide (rc = CSP_ERR_NONE))
          else mret (negb (has_flag security_opts CSP_SO_HMACREQ)));
  if negb hmac then liftC (iface_add iface StAutherr 1);; mret CSP_ERR_HMAC else
  if negb (has_flag f CSP_FRDP) && has_flag security_opts CSP_SO_RDPREQ
  then liftC (iface_add iface StRxError 1);; mret CSP_ERR_INVAL
  else mret CSP_ERR_NONE.

(** [csp_dedup_is_duplicate] on the shared state. *)
Definition dedup_check (packet : nat) : K bool :=
  v ← conf_version;
  time ← csp_get_ms;
  d ← gets k_dedup;
  p ← kget_packet packet;
  '(dup, p', d') ← lift_opt (csp_dedup_is_duplicate v time p d);
  kput_packet packet p';; modify (set_k_dedup d');; mret dup.

(** Is the destination one of this node's addresses, or a broadcast on the incoming
    interface? *)
Definition is_to_me (packet iface : nat) : K bool :=
  p ← kget_packet packet;
  v ← conf_version;
  mine ← (λ s, lift_opt (csp_iflist_get_by_addr (k_core s) (dst (pk_id p))) s);
  match mine with
  | Some _ => mret true
  | None => f ← liftC (get_iface iface); lift_opt (csp_id_is_broadcast v (dst (pk_id p)) f)
  end.

Definition dedup_applies (conf : Z) (to_me : bool) : bool :=
  bool_decide (conf = CSP_DEDUP_ALL) || (to_me && bool_decide (conf = CSP_DEDUP_INCOMING)) ||
  (negb to_me && bool_decide (conf = CSP_DEDUP_FWD)).

(** The identifier of a new incoming connection's replies. *)
Definition reply_id (i : csp_id_t) : csp_id_t :=
  mk_id (pri i) (flags i) (dst i) (src i) (sport i) (dport i).

(** The end of [csp_route_work]: the packet belongs to [conn] and passed the checks. *)
Definition deliver_to_conn (conn packet : nat) : K () :=
  p ← kget_packet packet;
  if has_flag (flags (pk_id p)) CSP_FRDP then
    close_connection ← csp_rdp_new_packet conn packet;
    when close_connection (csp_close (Some conn);; mret ())
  else
    rc ← csp_conn_enqueue_packet conn (Some packet);
    if bool_decide (rc < 0) then liftC (mod_dbg inc_conn_ovf);; kfree (Some packet) else
    x ← get_conn conn;
    match dest_socket x with
    | None => mret ()
    | Some sock =>
        rc ← post_to_socket conn sock;
        if bool_decide (rc ≠ CSP_QUEUE_OK) then liftC (mod_dbg inc_conn_ovf);; csp_close (Some conn);; mret ()
        else mod_conn conn (set_dest_socket None)
    end.

(** Packets for a socket or connection of this node. *)
Definition route_to_conn (socket : option nat) (iface packet : nat) : K () :=
  p ← kget_packet packet;
  found ← csp_conn_find_existing (pk_id p);
  match found with
  | Some c =>
      x ← get_conn c;
      rc ← csp_route_security_check (cn_opts x) iface packet;
      if bool_decide (rc < 0) then kfree (Some packet) else deliver_to_conn c packet
  | None =>
      match socket with
      | None => kfree (Some packet)
      | Some sock =>
          so ← get_sock sock;
          rc ← csp_route_security_check (so_opts so) iface packet;
          if bool_decide (rc < 0) then kfree (Some packet) else
          p ← kget_packet packet;
          r ← csp_conn_new (pk_id p) (reply_id (pk_id p)) CONN_SERVER;
          match r with
          | None => liftC (mod_dbg inc_conn_out);; kfree (Some packet)
          | Some c =>
              so ← get_sock sock;
              mod_conn c (λ x, set_cn_opts (so_opts so) (set_dest_socket (Some sock) x));;
              deliver_to_conn c packet
          end
      end
  end.

(** A packet for this node. *)
Definition route_local (iface packet : nat) : K () :=
  rc ← csp_route_check_options iface packet;
  if bool_decide (rc ≠ CSP_ERR_NONE) then kfree (Some packet) else
  p ← kget_packet packet;
  callback ← csp_port_get_callback (dport (pk_id p));
  match callback with
  | Some cb =>
      rc ← csp_route_security_check CSP_SO_CRC32REQ iface packet;
      if bool_decide (rc < 0) then kfree (Some packet) else run_callback cb packet
  | None =>
      socket ← csp_port_get_socket (dport (pk_id p));
      so ← match socket with Some x => Some <$> get_sock x | None => mret None end;
      match socket, so with
      | Some x, Some so =>
          if has_flag (so_opts so) CSP_SO_CONN_LESS then
            rc ← csp_route_security_check (so_opts so) iface packet;
            if bool_decide (rc < 0) then kfree (Some packet) else
            q ← lift_opt (so_rx_queue so);
            let '(rc, q') := csp_queue_enqueue q (SPacket packet) in
            put_sock x (set_so_rx_queue (Some q') so);;
            when (bool_decide (rc ≠ CSP_QUEUE_OK)) (liftC (mod_dbg inc_conn_ovf);; kfree (Some packet))
          else route_to_conn socket iface packet
      | _, _ => route_to_conn socket iface packet
      end
  end.

(** A packet read from the input queue. *)
Definition route_packet (iface packet : nat) : K () :=
  p ← kget_packet packet;
  liftC (iface_add iface StRx 1);;
  liftC (iface_add iface StRxbytes (pk_length p));;
  to_me ← is_to_me packet iface;
  conf ← gets k_conf_dedup;
  dup ← (if dedup_applies conf to_me then dedup_check packet else mret false);
  if (dup : bool) then liftC (iface_add iface StDrop 1);; kfree (Some packet) else
  csp_promisc_add packet;;
  if (to_me : bool) then route_local iface packet
  else csp_send_direct (IdPacket packet) (Some packet) (Some iface).

(** [csp_route_work].  A blocked router has waited in [csp_qfifo_read]. *)
Definition csp_route_work : K Z :=
  csp_conn_check_timeouts;;
  q ← gets (λ s, c_qfifo (k_core s));
  when (bool_decide (fq_items q = [])) (modify yield);;
  '(rc, input) ← liftC csp_qfifo_read;
  match input with
  | Some (Some packet, Some iface) => route_packet iface packet;; mret CSP_ERR_NONE
  | Some (Some _, None) => ub
  | _ => mret CSP_ERR_TIMEDOUT
  end.

(** ** The bridge *)

(** [csp_bridge_work] with the two interfaces of [csp_bridge_set_interfaces]. *)
Definition csp_bridge_work (bif_a bif_b : nat) : K () :=
  q ← gets (λ s, c_qfifo (k_core s));
  when (bool_decide (fq_items q = [])) (modify yield);;
  '(rc, input) ← liftC csp_qfifo_read;
  match input with
  | Some (Some packet, iface) =>
      dup ← dedup_check packet;
      if (dup : bool) then kfree (Some packet) else
      csp_promisc_add packet;;
      let destif := if bool_decide (iface = Some bif_a) then bif_b else bif_a in
      csp_send_direct_iface (IdPacket packet) packet destif CSP_NO_VIA_ADDRESS false
  | _ => mret ()
  end.
End Route.

(** ** Initialisation *)

(** [csp_iflist_add] on the whole state. *)
Definition kiflist_add (ifc : nat) : K () := λ s,
  '(_, core) ← csp_iflist_add (k_core s) ifc; Some ((), set_k_core core s).

Definition set_if_netmask (v : Z) (f : csp_iface_t) : csp_iface_t :=
  mk_iface (if_addr f) v (if_name f) (if_nexthop f) (if_is_default f) (if_tx f) (if_rx f)
    (if_tx_error f) (if_rx_error f) (if_drop f) (if_autherr f) (if_frame f) (if_txbytes f)
    (if_rxbytes f) (if_irq f) (if_next f).

(** [csp_init] *)
Definition csp_init : K () :=
  modify (λ s, let v := c_version (k_core s) in
    set_k_core (set_c_version (if bool_decide (v = 0) || bool_decide (2 < v) then 2 else v) (k_core s)) s);;
  modify (λ s, let d := k_conf_dedup s in
    set_k_conf_dedup (if bool_decide (CSP_DEDUP_ALL < d) then CSP_DEDUP_OFF else d) s);;
  modify (λ s, set_k_core (csp_buffer_init (k_core s)) s);;
  csp_conn_init;;
  liftC csp_qfifo_init;;
  csp_rdp_queue_init;;
  v ← conf_version;
  f ← liftC (get_iface csp_if_lo);
  liftC (put_iface csp_if_lo (set_if_netmask (csp_id_get_host_bits v) f));;
  kiflist_add csp_if_lo.
