(* ===== verification/RouteShown.v ===== *)
(** * What the router does with a packet

    A packet for this node reaches the function bound to its port only with a valid checksum;
    a packet for another node is sent on; in every other case its buffer is released. *)

From S2P Require Import Prelude Queue Types State Id Crc32 Buffer Rtable Qfifo Iflist Nexthop Hmac Stack Port Net RdpQueue Rdp Conn Io Route.

Section Router.
Context `{Env}.
Implicit Types (s : stack) (l : list nat) (i : nat).

(** No connection has RDP timers. *)
Definition quiet s : Prop :=
  List.length (k_conns s) = CSP_CONN_MAX ∧
  ∀ c x, k_conns s !! c = Some x → bool_decide (cn_state x = CONN_OPEN) && has_flag (flags (idin x)) CSP_FRDP = false.

Lemma check_timeouts_quiet s idxs : quiet s → Forall (λ c, c < CSP_CONN_MAX)%nat idxs → check_timeouts_from idxs s = Some ((), s).
Proof.
  intros [Hl Hq]. induction 1 as [|c idxs Hc _ IH]; [done|]. cbn [check_timeouts_from].
  destruct (lookup_lt_is_Some_2 (k_conns s) c) as [x Hx]; [by rewrite Hl|].
  run (get_conn_run s c x Hx). rewrite (Hq c x Hx). run (eq_refl : when false (csp_rdp_check_timeouts c) s = Some ((), s)). done.
Qed.

(** The address of one of this node's interfaces. *)
Definition own_address l s (addr : Z) : Prop := ∃ a f, a ∈ l ∧ c_ifaces (k_core s) !! a = Some f ∧ if_addr f = addr.

(** Neither that nor a broadcast on interface [i]. *)
Definition foreign l s i (addr : Z) : Prop :=
  (∀ a f, a ∈ l → c_ifaces (k_core s) !! a = Some f → if_addr f ≠ addr) ∧
  ∀ f, c_ifaces (k_core s) !! i = Some f → csp_id_is_broadcast (c_version (k_core s)) addr f = Some false.

Lemma own_step b new l s s' addr : net_step b new s s' → own_address l s addr → own_address l s' addr.
Proof.
  intros Hst (a & f & Ha & Hf & Haddr). destruct (proj2 (ns_ifaces _ _ _ _ Hst) a f Hf) as (g & Hg & Hc & _). exists a, g.
  split; [done|]. split; [done|congruence].
Qed.

Lemma foreign_step b new l s s' i addr :
  iflist (k_core s) l → i ∈ l → net_step b new s s' → foreign l s i addr → foreign l s' i addr.
Proof.
  intros Hl Hi Hst [H1 H2]. pose proof (proj2 (ns_ifaces _ _ _ _ Hst)) as Hk.
  assert (Hback : ∀ a g, a ∈ l → c_ifaces (k_core s') !! a = Some g → ∃ f, c_ifaces (k_core s) !! a = Some f ∧ same_config f g).
  { intros a g Ha Hg. destruct (iflist_elem _ _ _ Hl Ha) as [f Hf]. destruct (Hk a f Hf) as (g' & Hg' & Hc). exists f. split; [done|congruence]. }
  split.
  - intros a g Ha Hg. destruct (Hback a g Ha Hg) as (f & Hf & Hc & _). rewrite Hc. by apply (H1 a f).
  - intros g Hg. destruct (Hback i g Hi Hg) as (f & Hf & Hc1 & Hc2 & _). rewrite (ns_version _ _ _ _ Hst), <- (H2 f Hf).
    unfold csp_id_is_broadcast. by rewrite Hc1, Hc2.
Qed.

Lemma is_to_me_own l s b i k :
  net_env l s → c_pool (k_core s) !! b = Some k → own_address l s (dst (pk_id (skbf_data k))) → is_to_me b i s = Some (true, s).
Proof.
  intros He Hk (a & f & Ha & Hf & Haddr). unfold is_to_me. run (kget_run s b k Hk).
  run (eq_refl : conf_version s = Some (c_version (k_core s), s)).
  run (lift_opt_run_gen _ _ s (get_by_addr_spec (k_core s) l (dst (pk_id (skbf_data k))) (ne_list _ _ He))).
  destruct (List.find _ l) as [y|] eqn:Hfind; [done|]. pose proof (List.find_none _ _ Hfind a) as Hn.
  unfold at_iface in Hn. rewrite Hf, bool_decide_true in Hn by done. by specialize (Hn (proj1 (list_elem_of_In l a) Ha)).
Qed.

Lemma is_to_me_foreign l s b i k :
  net_env l s → i ∈ l → c_pool (k_core s) !! b = Some k → foreign l s i (dst (pk_id (skbf_data k))) → is_to_me b i s = Some (false, s).
Proof.
  intros He Hi Hk [H1 H2]. unfold is_to_me. run (kget_run s b k Hk).
  run (eq_refl : conf_version s = Some (c_version (k_core s), s)).
  run (lift_opt_run_gen _ _ s (get_by_addr_spec (k_core s) l (dst (pk_id (skbf_data k))) (ne_list _ _ He))).
  destruct (List.find _ l) as [y|] eqn:Hfind.
  { apply List.find_some in Hfind as [Hy Ht]. unfold at_iface in Ht. destruct (c_ifaces (k_core s) !! y) as [f|] eqn:Hf; [|done].
    apply bool_decide_eq_true in Ht. by destruct (H1 y f (proj2 (list_elem_of_In l y) Hy) Hf). }
  destruct (env_iface l s i He Hi) as (f & Hrun & Hf & _). run Hrun. by apply lift_opt_run_gen, H2.
Qed.

(** ** Up to the decision *)

(** The router's queue without its first packet. *)
Definition dequeued s (q : list (option nat * option nat)) : stack :=
  set_k_core (set_c_qfifo (mk_fifo (fq_cap (c_qfifo (k_core s))) q) (k_core s)) s.

Record route_input l s (b : nat) i (q : list (option nat * option nat)) (k : csp_skbf_t) : Prop := {
  ri_env : net_env l s;
  ri_quiet : quiet s;
  ri_ports : ports_ok s;
  ri_dedup : k_conf_dedup s = CSP_DEDUP_OFF;
  ri_queue : fq_items (c_qfifo (k_core s)) = (Some b, Some i) :: q;
  ri_iface : i ∈ l;
  ri_packet : c_pool (k_core s) !! b = Some k;
  ri_owned : refcount k = 1;
  ri_length : pk_length (skbf_data k) ≤ CSP_BUFFER_SIZE;
}.

(** What the router has done before it decides: counted the packet and copied it for the
    promiscuous listener. *)
Definition counted s (b : nat) (q : list (option nat * option nat)) (k : csp_skbf_t) s' : Prop :=
  (∃ new, net_step None new (dequeued s q) s') ∧ k_conns s' = k_conns s ∧ c_pool (k_core s') !! b = Some k ∧ ports_ok s' ∧
  k_ports s' = k_ports s.

Lemma dequeued_env l s b i q k : route_input l s b i q k → net_env l (dequeued s q).
Proof.
  intros [[Hi Hl Hv Hr Hlo Ht Hro Hk Hloc] _ _ _ _ _ _ _ _]. split; try done. by apply (buf_inv_ext (k_core s)).
Qed.

Lemma ports_kept b new s s' : net_step b new s s' → k_ports s' = k_ports s.
Proof. intros Hst. by rewrite (ns_rest _ _ _ _ Hst). Qed.

Lemma conf_kept b new s s' : net_step b new s s' → k_conf_dedup s' = k_conf_dedup s.
Proof. intros Hst. by rewrite (ns_rest _ _ _ _ Hst). Qed.

Lemma route_packet_counted l s b i q k (to_me : bool) :
  route_input l s b i q k →
  (if to_me then own_address l s (dst (pk_id (skbf_data k))) else foreign l s i (dst (pk_id (skbf_data k)))) →
  ∃ s1, counted s b q k s1 ∧ net_env l s1 ∧
    route_packet i b (dequeued s q) =
      (if to_me then route_local i b else csp_send_direct (IdPacket b) (Some b) (Some i)) s1.
Proof.
  intros Hin Hto. pose proof (dequeued_env l s b i q k Hin) as He0. destruct Hin as [_ _ Hpo Hde _ Hi Hk Hr Hl].
  set (s0 := dequeued s q) in *. assert (Hk0 : c_pool (k_core s0) !! b = Some k) by exact Hk.
  assert (Halloc : allocated (k_core s0) b) by (exists k; split; [done|lia]).
  destruct (env_iface l s0 i He0 Hi) as (f0 & _ & Hf0 & _). unfold route_packet. run (kget_run s0 b k Hk0).
  destruct (iface_add_step None s0 i StRx 1 (ne_inv _ _ He0) ltac:(by eexists)) as (s1 & R1 & St1 & C1 & P1). run R1.
  pose proof (net_env_step _ _ _ _ _ St1 He0) as He1. destruct (env_iface l s1 i He1 Hi) as (f1 & _ & Hf1 & _).
  destruct (iface_add_step None s1 i StRxbytes (pk_length (skbf_data k)) (ne_inv _ _ He1) ltac:(by eexists)) as (s2 & R2 & St2 & C2 & P2). run R2.
  pose proof (net_env_step _ _ _ _ _ St2 He1) as He2. pose proof (net_step_seq _ _ _ _ _ St1 St2) as St02. cbn [app] in St02.
  assert (Hk2 : c_pool (k_core s2) !! b = Some k) by (rewrite P2, P1; exact Hk0).
  assert (Hme : is_to_me b i s2 = Some (to_me, s2)).
  { destruct to_me; [apply (is_to_me_own l s2 b i k He2 Hk2)|apply (is_to_me_foreign l s2 b i k He2 Hi Hk2)].
    - by apply (own_step _ _ _ _ _ _ St02).
    - by apply (foreign_step _ _ l s0 s2 i _ (ne_list _ _ He0) Hi St02). }
  run Hme. run (eq_refl : gets k_conf_dedup s2 = Some (k_conf_dedup s2, s2)). rewrite (conf_kept _ _ _ _ St02).
  change (k_conf_dedup s0) with (k_conf_dedup s). rewrite Hde. assert (Hda : dedup_applies CSP_DEDUP_OFF to_me = false) by (by destruct to_me).
  rewrite Hda. run (eq_refl : (mret false : K bool) s2 = Some (false, s2)).
  destruct (promisc_add_step s2 b (ne_inv _ _ He2)) as (s3 & new & R3 & St3 & C3); [by exists k|]. run R3.
  exists s3. split; [|split; [by apply (net_env_step _ _ _ _ _ St3)|by destruct to_me]].
  pose proof (net_step_seq _ _ _ _ _ St02 St3) as St03. cbn [app] in St03. pose proof (ports_kept _ _ _ _ St03) as Hports.
  split; [by exists new|]. split; [rewrite C3, C2, C1; done|]. split.
  - rewrite (ns_kept _ _ _ _ St3); [done|done|]. exists k. split; [done|lia].
  - split; [unfold ports_ok; by rewrite Hports|by rewrite Hports].
Qed.

Lemma route_work_counted l s b i q k (to_me : bool) :
  route_input l s b i q k →
  (if to_me then own_address l s (dst (pk_id (skbf_data k))) else foreign l s i (dst (pk_id (skbf_data k)))) →
  ∃ s1, counted s b q k s1 ∧ net_env l s1 ∧
    csp_route_work s = ((if to_me then route_local i b else csp_send_direct (IdPacket b) (Some b) (Some i));; mret CSP_ERR_NONE) s1.
Proof.
  intros Hin Hto. destruct (route_packet_counted l s b i q k to_me Hin Hto) as (s1 & Hc & He & R). exists s1. split; [done|]. split; [done|].
  destruct Hin as [_ Hq _ _ Hqu _ _ _ _]. unfold csp_route_work.
  run (check_timeouts_quiet s (seq 0 CSP_CONN_MAX) Hq ltac:(apply Forall_seq; lia)).
  run (eq_refl : gets (λ s, c_qfifo (k_core s)) s = Some (c_qfifo (k_core s), s)). rewrite Hqu, bool_decide_false by done.
  run (eq_refl : when false (modify yield) s = Some ((), s)).
  assert (Hread : liftC csp_qfifo_read s = Some ((CSP_ERR_NONE, Some (Some b, Some i)), dequeued s q)).
  { apply liftC_run. unfold csp_qfifo_read, csp_queue_dequeue. st_unfold. by rewrite Hqu. }
  run Hread. unfold mbind, ST_bind. rewrite R. by destruct to_me.
Qed.

(** ** The checks before a callback *)

(** The packet [p] carries a checksum and it is valid, and so is its authentication code
    when it carries one; [p'] is the packet without them. *)
Definition authentic (v : Z) (key : list Z) (p p' : csp_packet_t) : Prop :=
  has_flag (flags (pk_id p)) CSP_FCRC32 = true ∧
  ∃ p1, csp_crc32_verify v p = Some (CSP_ERR_NONE, p1) ∧
    if has_flag (flags (pk_id p)) CSP_FHMAC then csp_hmac_verify key hmac_locals.1 hmac_locals.2 p1 false = Some (CSP_ERR_NONE, p')
    else p' = p1.

Lemma stat_reject l s s1 b i what rc :
  net_env l s → i ∈ l → net_step (Some b) [] s s1 → owned (k_core s1) b →
  ∃ s', (liftC (iface_add i what 1);; mret rc : K Z) s1 = Some (rc, s') ∧ net_step (Some b) [] s s' ∧ owned (k_core s') b.
Proof.
  intros He Hi St Ho. pose proof (net_env_step _ _ _ _ _ St He) as He1. destruct (env_iface l s1 i He1 Hi) as (f & _ & Hf & _).
  destruct (iface_add_step (Some b) s1 i what 1 (ne_inv _ _ He1) ltac:(by eexists)) as (s2 & R & St2 & _ & P2). run R.
  exists s2. split; [done|]. split; [by apply (net_step_chain b [] s s1)|]. unfold owned in *. by rewrite P2.
Qed.

(** The check returns no error exactly for an authentic packet, which it strips. *)
Lemma security_run l s b i k :
  net_env l s → i ∈ l → c_pool (k_core s) !! b = Some k → refcount k = 1 → pk_length (skbf_data k) ≤ CSP_BUFFER_SIZE →
  ∃ rc s', csp_route_security_check CSP_SO_CRC32REQ i b s = Some (rc, s') ∧ net_step (Some b) [] s s' ∧ owned (k_core s') b ∧
    ((rc = CSP_ERR_NONE ∧ ∃ p', authentic (c_version (k_core s)) (k_hmac_key s) (skbf_data k) p' ∧ packet_at (k_core s') b p') ∨
     (rc < 0 ∧ ∀ p', ¬ authentic (c_version (k_core s)) (k_hmac_key s) (skbf_data k) p')).
Proof.
  intros He Hi Hk Hr Hl. unfold csp_route_security_check. pose proof (ne_inv _ _ He) as Hb. destruct (bi_pool _ Hb _ _ Hk) as (_ & Hok & _).
  set (v := c_version (k_core s)). set (key := k_hmac_key s). set (p := skbf_data k) in *.
  run (eq_refl : conf_version s = Some (v, s)). run (eq_refl : gets k_hmac_key s = Some (key, s)). run (kget_run s b k Hk). fold p.
  destruct (has_flag (flags (pk_id p)) CSP_FCRC32) eqn:Hcrc.
  2:{ run (eq_refl : (mret (negb (has_flag CSP_SO_CRC32REQ CSP_SO_CRC32REQ)) : K bool) s = Some (false, s)). cbn [negb].
      destruct (stat_reject l s s b i StRxError CSP_ERR_CRC32 He Hi) as (s2 & -> & St2 & Ho2); [by apply net_step_refl|by exists k|].
      exists CSP_ERR_CRC32, s2. split; [done|]. split; [done|]. split; [done|]. right. split; [done|]. intros p' [Hf _]. congruence. }
  destruct (csp_crc32_verify_total v p Hok Hl) as (e & p1 & Hver & Hok1 & _ & Hl1 & Hid1).
  destruct (kput_step s b k p1 Hb Hk Hok1) as (s1 & Rp & St1 & _ & P1).
  assert (Hcheck : ('(rc, p'0) ← lift_opt (csp_crc32_verify v p); kput_packet b p'0;; mret (bool_decide (rc = CSP_ERR_NONE))) s =
    Some (bool_decide (e = CSP_ERR_NONE), s1)) by (run (lift_opt_run_gen _ _ s Hver); by run Rp).
  run Hcheck. assert (Ho1 : owned (k_core s1) b) by (eexists; split; [exact P1|done]).
  case_bool_decide as He'; cbn [negb].
  2:{ destruct (stat_reject l s s1 b i StRxError CSP_ERR_CRC32 He Hi St1 Ho1) as (s2 & -> & St2 & Ho2). exists CSP_ERR_CRC32, s2.
      split; [done|]. split; [done|]. split; [done|]. right. split; [done|]. intros p' (_ & p2 & Hv2 & _). congruence. }
  subst e. run (kget_run s1 b _ P1). cbn [skbf_data].
  assert (Hrdp : negb (has_flag (flags (pk_id p)) CSP_FRDP) && has_flag CSP_SO_CRC32REQ CSP_SO_RDPREQ = false) by (by destruct (has_flag (flags _) CSP_FRDP)).
  destruct (has_flag (flags (pk_id p)) CSP_FHMAC) eqn:Hh.
  2:{ run (eq_refl : (mret (negb (has_flag CSP_SO_CRC32REQ CSP_SO_HMACREQ)) : K bool) s1 = Some (true, s1)). cbn [negb]. rewrite Hrdp.
      exists CSP_ERR_NONE, s1. split; [done|]. split; [done|]. split; [done|]. left. split; [done|]. exists p1.
      split; [|by eexists]. split; [done|]. exists p1. split; [done|]. by rewrite Hh. }
  pose proof (net_env_step _ _ _ _ _ St1 He) as He1.
  destruct (csp_hmac_verify_total key hmac_locals.1 hmac_locals.2 (ne_locals _ _ He) (proj1 (ne_key _ _ He)) (proj2 (ne_key _ _ He)) p1 Hok1 ltac:(lia))
    as (e2 & p2 & Hver2 & Hok2 & Hid2).
  destruct (kput_step s1 b _ p2 (ne_inv _ _ He1) P1 Hok2) as (s2 & Rp2 & St2 & _ & P2).
  assert (Hcheck2 : ('(rc, p'0) ← lift_opt (csp_hmac_verify key hmac_locals.1 hmac_locals.2 p1 false); kput_packet b p'0;; mret (bool_decide (rc = CSP_ERR_NONE))) s1 =
    Some (bool_decide (e2 = CSP_ERR_NONE), s2)) by (run (lift_opt_run_gen _ _ s1 Hver2); by run Rp2).
  run Hcheck2. assert (Ho2 : owned (k_core s2) b) by (eexists; split; [exact P2|done]).
  pose proof (net_step_chain b [] s s1 s2 St1 St2) as St02. case_bool_decide as He2'; cbn [negb].
  - rewrite Hrdp. exists CSP_ERR_NONE, s2. split; [done|]. split; [done|]. split; [done|]. left. split; [done|]. exists p2.
    split; [|by eexists]. split; [done|]. exists p1. split; [done|]. rewrite Hh. congruence.
  - destruct (stat_reject l s s2 b i StAutherr CSP_ERR_HMAC He Hi St02 Ho2) as (s3 & -> & St3 & Ho3). exists CSP_ERR_HMAC, s3.
    split; [done|]. split; [done|]. split; [done|]. right. split; [done|]. intros p' (_ & p3 & Hv3 & Hv4). rewrite Hh in Hv4. congruence.
Qed.
End Router.

(** The work on one packet keeps the other buffers in use. *)
Definition others_same (s s' : stack) (b : nat) : Prop :=
  ∀ x, x ≠ b → allocated (k_core s) x → c_pool (k_core s') !! x = c_pool (k_core s) !! x.

(** C4: The router's decision on the first packet of its queue, with deduplication off and no
    open RDP connection.  A packet for one of the node's addresses whose port has a function
    bound to it is given to that function, without its checksum and authentication code,
    exactly when it carries a valid checksum and, if it carries an authentication code, a valid
    one; otherwise it is released and the function is not called.  A packet for another node is
    handed to [csp_send_direct] as it was received, with the interface it came from, and
    released.  No other buffer in use is touched. *)
Theorem csp_route_work_dispatches `{Env} (l : list nat) (s : stack) (b i : nat) (q : list (option nat * option nat)) (k : csp_skbf_t) :
  route_input l s b i q k →
  (∀ cb, own_address l s (dst (pk_id (skbf_data k))) → handler s (dport (pk_id (skbf_data k))) = PORT_OPEN_CB cb →
    (∃ s1 p', authentic (c_version (k_core s)) (k_hmac_key s) (skbf_data k) p' ∧
       csp_route_work s = (run_callback cb b;; mret CSP_ERR_NONE) s1 ∧
       net_env l s1 ∧ packet_at (k_core s1) b p' ∧ owned (k_core s1) b ∧ others_same s s1 b) ∨
    (∃ s', (∀ p', ¬ authentic (c_version (k_core s)) (k_hmac_key s) (skbf_data k) p') ∧
       csp_route_work s = Some (CSP_ERR_NONE, s') ∧ net_env l s' ∧ ¬ allocated (k_core s') b ∧ others_same s s' b)) ∧
  (foreign l s i (dst (pk_id (skbf_data k))) →
    ∃ s1 s', counted s b q k s1 ∧ csp_send_direct (IdPacket b) (Some b) (Some i) s1 = Some ((), s') ∧
      csp_route_work s = Some (CSP_ERR_NONE, s') ∧ net_env l s' ∧ ¬ allocated (k_core s') b ∧ others_same s s' b).
Proof.
  intros Hin. pose proof Hin as [_ _ _ _ _ Hi Hk Hr Hl].
  assert (Hsame : ∀ s1 s2 new, counted s b q k s1 → net_step (Some b) new s1 s2 → others_same s s2 b).
  { intros s1 s2 new [[n0 St0] _] St x Hx Ha. rewrite (ns_kept _ _ _ _ St); [|congruence|].
    - by rewrite (ns_kept _ _ _ _ St0).
    - eapply allocated_ext; [|exact Ha]. by rewrite (ns_kept _ _ _ _ St0). }
  split.
  - intros cb Hown Hcb. destruct (route_work_counted l s b i q k true Hin Hown) as (s1 & Hc & He1 & ->).
    pose proof Hc as ([n0 St0] & C1 & Hk1 & Hpo1 & Hp1). pose proof (ns_version _ _ _ _ St0 : c_version (k_core s1) = c_version (k_core s)) as Hv.
    assert (Hkey : k_hmac_key s1 = k_hmac_key s) by (by rewrite (ns_rest _ _ _ _ St0)).
    assert (Hcb1 : handler s1 (dport (pk_id (skbf_data k))) = PORT_OPEN_CB cb) by (unfold handler; rewrite Hp1; exact Hcb).
    assert (Hdp : 0 ≤ dport (pk_id (skbf_data k))).
    { destruct (bi_pool _ (ne_inv _ _ He1) _ _ Hk1) as (_ & Hok & _). pose proof (po_id _ Hok) as Hid. unfold id_ok, is_u8 in Hid. lia. }
    destruct (security_run l s1 b i k He1 Hi Hk1 Hr Hl) as (rc & s2 & Rs & St2 & Ho2 & Hres). rewrite Hv, Hkey in Hres.
    assert (Hloc : route_local i b s1 = (if bool_decide (rc < 0) then kfree (Some b) else run_callback cb b) s2).
    { unfold route_local. run (eq_refl : csp_route_check_options i b s1 = Some (CSP_ERR_NONE, s1)).
      rewrite (bool_decide_false (CSP_ERR_NONE ≠ CSP_ERR_NONE)) by (by intros []). run (kget_run s1 b k Hk1).
      run (csp_port_get_callback_run s1 _ Hpo1 Hdp). rewrite Hcb1. by run Rs. }
    pose proof (net_env_step _ _ _ _ _ St2 He1) as He2.
    destruct Hres as [(-> & p' & Hau & Hat)|[Hrc Hbad]].
    + left. exists s2, p'. split; [done|]. split; [unfold mbind, ST_bind; by rewrite Hloc|].
      split; [done|]. split; [done|]. split; [done|]. by apply (Hsame s1 s2 []).
    + right. rewrite bool_decide_true in Hloc by done. destruct (kfree_step s2 b (ne_inv _ _ He2) Ho2) as (s3 & Rf & St3 & Hna & _).
      exists s3. split; [done|]. split; [unfold mbind, ST_bind; by rewrite Hloc, Rf|]. split; [by apply (net_env_step _ _ _ _ _ St3)|].
      split; [done|]. apply (Hsame s1 s3 [] Hc). by apply (net_step_chain b [] s1 s2).
  - intros Hfor. destruct (route_work_counted l s b i q k false Hin Hfor) as (s1 & Hc & He1 & ->).
    pose proof Hc as ([n0 St0] & C1 & Hk1 & _).
    destruct (csp_send_direct_step l s1 (IdPacket b) (Some b) (Some i) He1) as (s2 & new & Rs & He2 & _ & St2 & Hb2);
      [by exists k|done|done|]. exists s1, s2. split; [done|]. split; [done|]. run Rs. split; [done|]. split; [done|].
    split; [by apply (Hb2 b)|]. by apply (Hsame s1 s2 new).
Qed.

(** ** A packet for the KISS interface's address *)

#[local] Existing Instance env_example.

Definition route_packet_example : csp_packet_t :=
  match csp_crc32_append (set_pk_id (mk_id 2 CSP_FCRC32 9 300 10 20) id_example) with
  | Some (_, p) => p
  | None => id_example
  end.
Definition route_buffer (p : csp_packet_t) : csp_skbf_t :=
  match c_pool (k_core net_example) !! 0%nat with Some k => mk_skbf (refcount k) (skbf_addr k) p | None => mk_skbf 0 0 p end.
Definition route_core (p : csp_packet_t) : csp_core :=
  set_c_qfifo (mk_fifo 16 [(Some 0%nat, Some 1%nat)])
    (set_c_pool (<[0%nat := route_buffer p]> (c_pool (k_core net_example))) (k_core net_example)).
Definition route_example (p : csp_packet_t) : stack :=
  set_k_ports (<[10%nat := PORT_OPEN_CB 3]> (k_ports net_example))
    (set_k_conns (replicate CSP_CONN_MAX (set_cn_state CONN_CLOSED (rdp_example 0))) (set_k_core (route_core p) net_example)).

Lemma route_example_ok (p : csp_packet_t) :
  packet_ok p → pk_length p ≤ CSP_BUFFER_SIZE → route_input [0%nat; 1%nat] (route_example p) 0 1 [] (route_buffer p).
Proof.
  intros Hp Hl. destruct net_example_ok as [He _].
  assert (Hk : c_pool (k_core net_example) !! 0%nat = Some (route_buffer empty_packet)) by (vm_compute; reflexivity).
  destruct (kput_step net_example 0 _ p (ne_inv _ _ He) Hk Hp) as (s1 & Hput & Hst & _). unfold kput_packet in Hput.
  rewrite (liftC_run _ net_example () _ (put_packet_run (k_core net_example) 0 _ p Hk)) in Hput. injection Hput as <-.
  pose proof (net_env_step _ _ _ _ _ Hst He) as [Hi Hli Hv Hr Hlo Ht Hro Hkey Hloc].
  split; [split; try done; by eapply buf_inv_ext; [..|exact Hi]|..]; try done.
  - split; [done|]. intros c x [-> _]%lookup_replicate. reflexivity.
  - right. by left.
Qed.

Lemma csp_route_work_dispatches_witness :
  ∃ s1 p', csp_route_work (route_example route_packet_example) = (run_callback 3 0;; mret CSP_ERR_NONE) s1 ∧
    packet_at (k_core s1) 0 p' ∧ pk_length p' = 5.
Proof.
  destruct (csp_route_work_dispatches [0%nat; 1%nat] (route_example route_packet_example) 0 1 [] (route_buffer route_packet_example))
    as [Hcb _].
  - apply route_example_ok; [split; try (vm_compute; intuition congruence); apply (bool_decide_unpack _); vm_compute; reflexivity|].
    vm_compute. congruence.
  - destruct (Hcb 3%nat) as [(s1 & p' & (_ & p1 & Hv & Hh) & Hr & _ & Hat & _)|(s' & Hbad & _)].
    + exists 1%nat, (new_iface 300 8 "KISS" NexthopKiss 1). split; [right; by left|]. vm_compute. split; reflexivity.
    + vm_compute. reflexivity.
    + exists s1, p'. refine (conj Hr (conj Hat _)). revert Hv Hh. vm_compute. by intros [= <-] ->.
    + exfalso. assert (Hau : ∃ p', authentic 2 (k_hmac_key (route_example route_packet_example)) route_packet_example p').
      { eexists. split; [vm_compute; reflexivity|]. eexists. split; vm_compute; reflexivity. }
      destruct Hau as [p' Hau]. by apply (Hbad p').
Defined.
