(* ===== verification/Sfp.v ===== *)
(** * The Small Fragmentation Protocol

    [src/csp_sfp.c]: sending a block of data as a sequence of packets and putting it
    together again. *)

From S2P Require Import Prelude Queue Types State Id Buffer Nexthop Hmac Stack Net RdpQueue Rdp Conn Io.

(** [sfp_header_t]: offset and total size, the last eight bytes of the data. *)
Definition SFP_HEADER_SIZE : Z := 8.

Record sfp_header_t := mk_sfp_header { sfp_offset : Z; sfp_totalsize : Z }.

(** [memcpyfcn(packet->data, data + count, size)] with the standard [memcpy],
    [csp_sfp_header_add] and the assignments to the header. *)
Definition sfp_fill (p : csp_packet_t) (data : list Z) (totalsize count size : Z) : option csp_packet_t :=
  chunk ← mem_read data count size;
  p ← data_write p 0 chunk;
  let p := set_pk_length (u16 size) p in
  let at_ := pk_length p in
  let p := set_pk_length (u16 (at_ + SFP_HEADER_SIZE)) p in
  data_write p at_ (be_bytes 4 count ++ be_bytes 4 totalsize).

(** [csp_sfp_header_remove]: the inner [None] is [NULL].  The fields are converted in
    place to the byte order of the host. *)
Definition csp_sfp_header_remove (p : csp_packet_t) : option (option sfp_header_t * csp_packet_t) :=
  if negb (has_flag (flags (pk_id p)) CSP_FFRAG) then Some (None, p) else
  if bool_decide (pk_length p < SFP_HEADER_SIZE) then Some (None, p) else
  let at_ := pk_length p - SFP_HEADER_SIZE in
  bs ← data_read p at_ SFP_HEADER_SIZE;
  let h := mk_sfp_header (be_val (take 4 bs)) (be_val (drop 4 bs)) in
  p ← data_write (set_pk_length (u16 at_) p) at_
        (le_bytes 4 (sfp_offset h) ++ le_bytes 4 (sfp_totalsize h));
  Some (if bool_decide (sfp_totalsize h < sfp_offset h) then None else Some h, p).

(** The variables of the receive loop: the output buffer (when it is allocated), its
    size, and the number of bytes stored. *)
Record sfp_recv := mk_sfp_recv { r_data : option (list Z); r_datasize : Z; r_offset : Z }.

(** What one packet leads to. *)
Inductive sfp_result :=
  | SfpError (code : Z) (data : option (list Z))
  | SfpDone (data : list Z) (size : Z)
  | SfpMore (st : sfp_recv).

Section Sfp.
(** [malloc(n)]: the contents of the new block, or [None]. *)
Variable malloc : Z → option (list Z).

(** The body of the [do] loop of [csp_sfp_recv_fp], up to the release of the packet. *)
Definition sfp_step (st : sfp_recv) (p : csp_packet_t) : option (sfp_result * csp_packet_t) :=
  '(header, p) ← csp_sfp_header_remove p;
  match header with
  | None => Some (SfpError CSP_ERR_SFP (r_data st), p)
  | Some h =>
      if bool_decide (sfp_offset h ≠ r_offset st) then Some (SfpError CSP_ERR_SFP (r_data st), p) else
      let datasize := match r_data st with None => sfp_totalsize h | Some _ => r_datasize st end in
      match (match r_data st with None => malloc datasize | d => d end) with
      | None => Some (SfpError CSP_ERR_NOMEM None, p)
      | Some data =>
          if bool_decide (datasize < u32 (r_offset st + pk_length p)) ||
             bool_decide (datasize ≠ sfp_totalsize h)
          then Some (SfpError CSP_ERR_SFP (Some data), p) else
          chunk ← data_read p 0 (pk_length p);
          data ← mem_write data (r_offset st) chunk;
          let offset := u32 (r_offset st + pk_length p) in
          if bool_decide (datasize ≤ offset) then Some (SfpDone data datasize, p) else
          if bool_decide (pk_length p = 0) then Some (SfpError CSP_ERR_SFP (Some data), p) else
          Some (SfpMore (mk_sfp_recv (Some data) datasize offset), p)
      end
  end.

Context `{Env}.

(** The loop of [csp_sfp_send_own_memcpy] with the standard [memcpy]; [fuel] bounds
    the number of packets, [wakes] the wake-ups of a waiting sender. *)
Fixpoint sfp_send_loop (wakes fuel : nat) (conn : nat) (data : list Z) (totalsize mtu count : Z) : K Z :=
  active ← (if bool_decide (count < totalsize) then csp_conn_is_active conn else mret false);
  if (active : bool) then
    match fuel with
    | O => ub
    | S fuel' =>
        r ← liftC csp_buffer_get;
        match r with
        | None => mret CSP_ERR_NOMEM
        | Some b =>
            let size := if bool_decide (mtu < totalsize - count) then mtu else totalsize - count in
            p ← kget_packet b;
            p ← lift_opt (sfp_fill p data totalsize count size);
            kput_packet b p;;
            mod_conn conn (λ x, set_idout (set_flags (Z.lor (flags (idout x)) CSP_FFRAG) (idout x)) x);;
            csp_send wakes (Some conn) (Some b);;
            sfp_send_loop wakes fuel' conn data totalsize mtu (u32 (count + size))
        end
    end
  else mret CSP_ERR_NONE.

Definition csp_sfp_send_own_memcpy (wakes : nat) (conn : nat) (data : list Z) (totalsize mtu : Z) : K Z :=
  if bool_decide (mtu = 0) then mret CSP_ERR_INVAL
  else sfp_send_loop wakes (S (Z.to_nat totalsize)) conn data totalsize mtu 0.

(** The [do] loop; [packet] has been read.  The result is the error code with the
    returned data, if any; [fuel] bounds the number of packets. *)
Fixpoint sfp_recv_loop (fuel : nat) (conn : option nat) (timeout : Z) (st : sfp_recv) (packet : nat)
    : K (Z * option (list Z)) :=
  match fuel with
  | O => ub
  | S fuel' =>
      p ← kget_packet packet;
      '(r, p) ← lift_opt (sfp_step st p);
      kput_packet packet p;;
      kfree (Some packet);;
      match r with
      | SfpError code _ => mret (code, None)
      | SfpDone data size => mret (CSP_ERR_NONE, Some (take (Z.to_nat size) data))
      | SfpMore st =>
          next ← csp_read conn timeout;
          match next with
          | None => mret (CSP_ERR_TIMEDOUT, None)
          | Some b => sfp_recv_loop fuel' conn timeout st b
          end
      end
  end.

(** [csp_sfp_recv_fp]; every packet but the last stores at least one byte, so the
    first packet's total size bounds the rounds. *)
Definition csp_sfp_recv_fp (fuel : nat) (conn : option nat) (timeout : Z) (first_packet : option nat)
    : K (Z * option (list Z)) :=
  first ← match first_packet with None => csp_read conn timeout | Some b => mret (Some b) end;
  match first with
  | None => mret (CSP_ERR_TIMEDOUT, None)
  | Some b => sfp_recv_loop fuel conn timeout (mk_sfp_recv None 0 0) b
  end.
End Sfp.

(** ** Fragments *)

(** The number of bytes in the fragment at [count], as the sender computes it. *)
Definition sfp_size (totalsize mtu count : Z) : Z :=
  if bool_decide (mtu < totalsize - count) then mtu else totalsize - count.

Definition sfp_chunk (data : list Z) (count size : Z) : list Z :=
  take (Z.to_nat size) (drop (Z.to_nat count) data).

(** The payload of the fragment at [count]. *)
Definition sfp_fragment (data : list Z) (totalsize mtu count : Z) : list Z :=
  sfp_chunk data count (sfp_size totalsize mtu count) ++ be_bytes 4 count ++ be_bytes 4 totalsize.

(** The payloads of the fragments from [count] on. *)
Fixpoint sfp_fragments (fuel : nat) (data : list Z) (totalsize mtu count : Z) : list (list Z) :=
  match fuel with
  | O => []
  | S fuel' =>
      if bool_decide (count < totalsize) then
        sfp_fragment data totalsize mtu count ::
        sfp_fragments fuel' data totalsize mtu (count + sfp_size totalsize mtu count)
      else []
  end.

(** Buffer [b] holds a received fragment with payload [pl]. *)
Definition holds_fragment (core : csp_core) (b : nat) (pl : list Z) : Prop :=
  ∃ k, c_pool core !! b = Some k ∧ refcount k = 1 ∧ payload (skbf_data k) = Some pl ∧
    has_flag (flags (pk_id (skbf_data k))) CSP_FFRAG = true.

(** A transfer: the data fits 32-bit offsets and its fragments fit packets. *)
Record transfer (data : list Z) (total mtu : Z) : Prop := {
  tr_bytes : bytes_ok data;
  tr_total : total = Z.of_nat (List.length data);
  tr_size : 0 < total < 2 ^ 32;
  tr_mtu : 1 ≤ mtu ≤ CSP_BUFFER_SIZE - SFP_HEADER_SIZE;
}.

Section Fragments.
Context (data : list Z) (total mtu : Z) (Htr : transfer data total mtu).
Implicit Types (p q : csp_packet_t) (count : Z) (d : list Z).

Lemma sfp_size_range count :
  0 ≤ count < total → 1 ≤ sfp_size total mtu count ≤ mtu ∧ count + sfp_size total mtu count ≤ total.
Proof. destruct Htr. unfold sfp_size. case_bool_decide; lia. Qed.

Lemma length_sfp_chunk count size :
  0 ≤ count → 0 ≤ size → count + size ≤ total → Z.of_nat (List.length (sfp_chunk data count size)) = size.
Proof. destruct Htr. intros. unfold sfp_chunk. rewrite length_take, length_drop. lia. Qed.

Lemma sfp_chunk_ok count size : bytes_ok (sfp_chunk data count size).
Proof. destruct Htr. by apply Forall_take, Forall_drop. Qed.

(** The sender never writes outside a packet, whatever the buffer held. *)
Lemma sfp_fill_run p count :
  packet_ok p → 0 ≤ count < total →
  ∃ p', sfp_fill p data total count (sfp_size total mtu count) = Some p' ∧ packet_ok p' ∧ pk_id p' = pk_id p ∧
    payload p' = Some (sfp_fragment data total mtu count).
Proof.
  intros Hp Hc. destruct (sfp_size_range count Hc) as [Hs Ht]. set (size := sfp_size total mtu count) in *.
  destruct Htr as [Hb Htot Hsz Hm]. unfold SFP_HEADER_SIZE in Hm.
  assert (is_u16 size) by (sizes; mlia).
  assert (mem_read data count size = Some (sfp_chunk data count size)) as Hrd
    by (apply mem_read_Some; split_and!; [lia|lia|lia|done]).
  pose proof (length_sfp_chunk count size ltac:(lia) ltac:(lia) ltac:(lia)) as Hl.
  assert (data_read p 0 0 = Some []) as H0
    by (apply mem_read_Some; pose proof (po_mem _ Hp); split_and!; [sizes; lia..|done]).
  destruct (data_append p 0 [] (sfp_chunk data count size) Hp H0 (sfp_chunk_ok _ _)) as (m & Hw & Hok & Hr).
  { rewrite Hl. lia. }
  unfold sfp_fill. rewrite Hrd. monad. rewrite Hw. monad. cbn [pk_length set_pk_length].
  set (p1 := set_pk_length (u16 (u16 size + SFP_HEADER_SIZE)) (set_pk_length (u16 size) (set_pk_mem m p))).
  unfold SFP_HEADER_SIZE in *. rewrite (u16_id size) in * by done.
  assert (packet_ok p1) as Hok1 by (destruct Hok; split; cbn in *; try done; mlia).
  destruct (data_append p1 size (sfp_chunk data count size) (be_bytes 4 count ++ be_bytes 4 total) Hok1)
    as (m2 & Hw2 & Hok2 & Hr2).
  { rewrite Hl in Hr. exact Hr. }
  { apply Forall_app. split; apply be_bytes_ok. }
  { rewrite length_app, !length_be_bytes. lia. }
  exists (set_pk_mem m2 p1). split; [exact Hw2|]. split; [done|]. split; [done|].
  rewrite length_app, !length_be_bytes in Hr2.
  assert (pk_length (set_pk_mem m2 p1) = size + Z.of_nat (4 + 4)) as Hpl
    by (unfold p1; cbn [pk_length set_pk_length set_pk_mem]; rewrite (u16_id size), u16_id by (sizes; mlia); lia).
  unfold payload. rewrite Hpl. exact Hr2.
Qed.

(** Taking a fragment apart. *)
Lemma fragment_remove q count :
  packet_ok q → 0 ≤ count < total → payload q = Some (sfp_fragment data total mtu count) →
  has_flag (flags (pk_id q)) CSP_FFRAG = true →
  ∃ q', csp_sfp_header_remove q = Some (Some (mk_sfp_header count total), q') ∧ packet_ok q' ∧
    pk_length q' = sfp_size total mtu count ∧
    data_read q' 0 (pk_length q') = Some (sfp_chunk data count (sfp_size total mtu count)).
Proof.
  intros Hq Hc Hp Hf. destruct (sfp_size_range count Hc) as [Hs Ht]. unfold sfp_fragment in Hp.
  set (size := sfp_size total mtu count) in *. destruct Htr as [Hb Htot Hsz Hm].
  pose proof (length_sfp_chunk count size ltac:(lia) ltac:(lia) ltac:(lia)) as Hl.
  pose proof (mem_read_length _ _ _ _ Hp) as Hql. rewrite !length_app, !length_be_bytes in Hql.
  assert (pk_length q = size + 8) as Hlen by lia. unfold payload in Hp. rewrite Hlen in Hp.
  apply mem_read_app_inv in Hp as [Hp1 Hp2]; [|lia|done].
  unfold csp_sfp_header_remove, SFP_HEADER_SIZE in *. rewrite Hf. cbn [negb].
  rewrite bool_decide_false by lia. rewrite Hlen. replace (size + 8 - 8) with size by lia.
  assert (data_read q size 8 = Some (be_bytes 4 count ++ be_bytes 4 total)) as -> by (by rewrite <- Hp2, Z.add_0_r).
  monad. rewrite take_app_length' by (by rewrite length_be_bytes). rewrite drop_app_length' by (by rewrite length_be_bytes).
  rewrite !be_val_be_bytes. change (256 ^ Z.of_nat 4) with (2 ^ 32). rewrite !Z.mod_small by lia.
  rewrite (u16_id size) by (sizes; mlia).
  assert (packet_ok (set_pk_length size q)) as Hok by (destruct Hq; split; cbn in *; try done; sizes; mlia).
  destruct (data_append (set_pk_length size q) size (sfp_chunk data count size)
    (le_bytes 4 count ++ le_bytes 4 total) Hok Hp1) as (m & Hw & Hok' & Hr).
  { apply Forall_app. split; apply Forall_rev, be_bytes_ok. }
  { rewrite length_app. unfold le_bytes. rewrite !length_rev, !length_be_bytes. lia. }
  cbn [sfp_offset sfp_totalsize]. rewrite Hw. monad. rewrite bool_decide_false by lia.
  eexists. split; [done|]. split; [done|]. split; [done|]. cbn [pk_length set_pk_length set_pk_mem].
  rewrite length_app, Nat2Z.inj_add in Hr.
  eapply mem_read_app_inv in Hr as [Hr _]; [exact Hr|lia|done].
Qed.

Context (malloc : Z → option (list Z)).

(** The receiver before the fragment at [count]: the block is allocated or will be,
    and holds the data up to [count]. *)
Definition recv_ready (st : sfp_recv) count : Prop :=
  r_offset st = count ∧
  match r_data st with
  | None => count = 0 ∧ ∃ d, malloc total = Some d ∧ Z.of_nat (List.length d) = total
  | Some d => r_datasize st = total ∧ Z.of_nat (List.length d) = total ∧
      take (Z.to_nat count) d = take (Z.to_nat count) data
  end.

(** Storing a chunk. *)
Lemma store_chunk d count size :
  Z.of_nat (List.length d) = total → take (Z.to_nat count) d = take (Z.to_nat count) data →
  0 ≤ count → 0 ≤ size → count + size ≤ total →
  ∃ d', mem_write d count (sfp_chunk data count size) = Some d' ∧ Z.of_nat (List.length d') = total ∧
    take (Z.to_nat (count + size)) d' = take (Z.to_nat (count + size)) data.
Proof.
  intros Hd Htake Hc Hs Hle. pose proof (length_sfp_chunk count size Hc Hs Hle) as Hl.
  destruct (mem_write_is_Some d count (sfp_chunk data count size)) as (d' & Hw & Hl'); [lia|lia|].
  exists d'. split; [done|]. split; [lia|]. apply mem_write_Some in Hw as (_ & _ & ->).
  rewrite Htake, app_assoc. unfold sfp_chunk in *.
  rewrite Z2Nat.inj_add, <- (take_take_drop data) by lia.
  rewrite take_app_length'; [done|]. rewrite !length_app, !length_take, !length_drop.
  pose proof (tr_total _ _ _ Htr). lia.
Qed.

Lemma sfp_step_fragment st q count :
  recv_ready st count → packet_ok q → 0 ≤ count < total →
  payload q = Some (sfp_fragment data total mtu count) →
  has_flag (flags (pk_id q)) CSP_FFRAG = true →
  ∃ d q', sfp_step malloc st q = Some (if bool_decide (total ≤ count + sfp_size total mtu count)
      then SfpDone d total else SfpMore (mk_sfp_recv (Some d) total (count + sfp_size total mtu count)), q') ∧
    packet_ok q' ∧ recv_ready (mk_sfp_recv (Some d) total (count + sfp_size total mtu count))
      (count + sfp_size total mtu count).
Proof.
  intros [Ho Hd] Hq Hc Hp Hf. destruct (sfp_size_range count Hc) as [Hs Ht].
  destruct (fragment_remove q count Hq Hc Hp Hf) as (q' & Hrm & Hq' & Hl' & Hrd).
  set (size := sfp_size total mtu count) in *. pose proof (tr_size _ _ _ Htr) as Hsz.
  unfold sfp_step. rewrite Hrm. monad. cbn [sfp_offset sfp_totalsize]. rewrite bool_decide_false by (intros Hn; by apply Hn).
  assert (∃ d0, (match r_data st with None => malloc match r_data st with None => total | Some _ => r_datasize st end
                 | d => d end) = Some d0 ∧
    match r_data st with None => total | Some _ => r_datasize st end = total ∧
    Z.of_nat (List.length d0) = total ∧ take (Z.to_nat count) d0 = take (Z.to_nat count) data)
    as (d0 & -> & -> & Hl0 & Ht0).
  { destruct (r_data st) as [d0|]; [exists d0; tauto|]. destruct Hd as (-> & d0 & Hm & Hl0). by exists d0. }
  rewrite Ho, Hl', u32_id by (machine; lia).
  rewrite (bool_decide_false (total < count + size)) by lia.
  rewrite (bool_decide_false (total ≠ total)) by tauto. cbn [orb].
  rewrite Hl' in Hrd. rewrite Hrd. monad.
  destruct (store_chunk d0 count size Hl0 Ht0) as (d & Hw & Hld & Htd); [lia..|].
  rewrite Hw. monad. exists d, q'. split.
  - case_bool_decide; [done|]. by rewrite bool_decide_false by lia.
  - done.
Qed.

(** Everything received. *)
Lemma recv_complete d count :
  recv_ready (mk_sfp_recv (Some d) total count) count → total ≤ count → take (Z.to_nat total) d = data.
Proof.
  intros (_ & _ & Hl & Ht) Hle. cbn in *. pose proof (tr_total _ _ _ Htr).
  rewrite !take_ge in Ht by lia. rewrite take_ge by lia. done.
Qed.
End Fragments.

(** ** The receive loop *)

Section Receive.
Context `{Env} (data : list Z) (total mtu : Z) (Htr : transfer data total mtu).
Context (malloc : Z → option (list Z)).
Implicit Types (s : stack) (x : csp_conn_t) (b c : nat) (bs rest : list nat).

Definition with_rx (items : list nat) x : csp_conn_t :=
  set_cn_rx_queue (mk_fifo (fq_cap (cn_rx_queue x)) (Some <$> items)) x.

(** Reading a packet that is there, from a connection without RDP. *)
Lemma csp_read_run s c x timeout b rest :
  k_conns s !! c = Some (with_rx (b :: rest) x) → cn_state x = CONN_OPEN →
  has_flag (flags (idin x)) CSP_FRDP = false →
  csp_read (Some c) timeout s = Some (Some b, set_k_conns (<[c := with_rx rest x]> (k_conns s)) s).
Proof.
  intros Hc Ho Hf. unfold csp_read. run (get_conn_run s c _ Hc). cbn [cn_state with_rx set_cn_rx_queue idin].
  rewrite Ho, Hf, andb_false_r. change (bool_decide (CONN_OPEN ≠ CONN_OPEN)) with false. cbv iota zeta.
  unfold conn_dequeue.
  erewrite ST_bind_run; [|run (get_conn_run s c _ Hc); cbn [with_rx set_cn_rx_queue cn_rx_queue fq_items fmap list_fmap];
    rewrite bool_decide_false by done; erewrite ST_bind_run by done; cbv beta iota;
    run (get_conn_run s c _ Hc); done].
  cbv beta iota. erewrite ST_bind_run; [|apply get_conn_run; cbn; apply list_lookup_insert_eq; by eapply lookup_lt_Some].
  cbn [idin set_cn_rx_queue with_rx]. by rewrite Hf.
Qed.

(** The packet is rewritten and released. *)
Lemma put_free s b k q :
  buf_inv (k_core s) → c_pool (k_core s) !! b = Some k → refcount k = 1 → packet_ok q →
  ∃ core s1, kput_packet b q s = Some ((), s1) ∧ kfree (Some b) s1 = Some ((), set_k_core core s) ∧
    released [b] (k_core s) core.
Proof.
  intros Hi Hk Hr Hq. set (s1 := set_k_core (upd_pkt (k_core s) b k q) s).
  assert (kput_packet b q s = Some ((), s1)) as Hput
    by (unfold kput_packet; by apply liftC_run, put_packet_run).
  pose proof (upd_pkt_lookup _ _ _ q Hk) as Hk1.
  destruct (kfree_released s1 b) as (core & Hf & [? Ho Hke ? ?]);
    [by apply buf_inv_put_packet|by eexists; split; [exact Hk1|]|].
  exists core, s1. split; [done|]. split; [exact Hf|]. split; try done.
  intros y Hy. rewrite Hke by done. cbn. rewrite list_lookup_insert_ne; [done|].
  intros ->. by apply Hy, list_elem_of_singleton.
Qed.

Lemma holds_fragment_kept core core' b pl :
  c_pool core' !! b = c_pool core !! b → holds_fragment core b pl → holds_fragment core' b pl.
Proof. unfold holds_fragment. by intros ->. Qed.

Lemma holds_fragments_kept core core' bs pls :
  (∀ y, y ∈ bs → c_pool core' !! y = c_pool core !! y) →
  Forall2 (holds_fragment core) bs pls → Forall2 (holds_fragment core') bs pls.
Proof.
  intros Hk. induction 1 as [|b pl bs pls Hb _ IH]; constructor.
  - eapply holds_fragment_kept; [|exact Hb]. apply Hk. by left.
  - apply IH. intros y Hy. apply Hk. by right.
Qed.

Lemma sfp_recv_loop_run timeout c x : ∀ rest fuel n count st b s,
  k_conns s !! c = Some (with_rx rest x) → cn_state x = CONN_OPEN → has_flag (flags (idin x)) CSP_FRDP = false →
  buf_inv (k_core s) → NoDup (b :: rest) → 0 ≤ count < total → recv_ready data total malloc st count →
  Forall2 (holds_fragment (k_core s)) (b :: rest) (sfp_fragments n data total mtu count) →
  (Z.to_nat (total - count) < n)%nat → (List.length rest < fuel)%nat →
  ∃ core, sfp_recv_loop malloc fuel (Some c) timeout st b s =
      Some ((CSP_ERR_NONE, Some data), set_k_conns (<[c := with_rx [] x]> (k_conns s)) (set_k_core core s)) ∧
    released (b :: rest) (k_core s) core.
Proof.
  induction rest as [|b' rest IH]; intros fuel n count st b s Hc Ho Hf Hi Hnd Hcount Hst Hfr Hn Hfuel;
    (destruct fuel as [|fuel]; [simpl in Hfuel; lia|]); (destruct n as [|n]; [lia|]);
    cbn [sfp_fragments] in Hfr; rewrite bool_decide_true in Hfr by lia;
    apply Forall2_cons in Hfr as [(k & Hk & Hr & Hp & Hflag) Hfr];
    destruct (bi_pool _ Hi _ _ Hk) as (_ & Hq & _);
    destruct (sfp_size_range data total mtu Htr count Hcount) as [Hs Hle];
    destruct (sfp_step_fragment data total mtu Htr malloc st _ count Hst Hq Hcount Hp Hflag) as (d & q' & Hstep & Hq' & Hst');
    destruct (put_free s b k q' Hi Hk Hr Hq') as (core1 & s1 & Hput & Hfree & Hrel);
    cbn [sfp_recv_loop]; run (kget_run s b k Hk); run (lift_opt_run_gen _ _ s Hstep); run Hput; run Hfree.
  - apply Forall2_nil_inv_l in Hfr as Hnil. destruct n as [|n]; [|cbn [sfp_fragments] in Hnil].
    { exfalso. lia. }
    destruct (decide (count + sfp_size total mtu count < total)) as [Hmore|Hno];
      [by rewrite bool_decide_true in Hnil|].
    rewrite (bool_decide_true (total ≤ _)) by lia.
    exists core1. rewrite (recv_complete data total mtu Htr malloc d _ Hst') by lia.
    split; [|done]. cbn [set_k_core]. f_equal. f_equal. rewrite list_insert_id by done. by destruct s.
  - apply Forall2_cons_inv_l in Hfr as (pl & pls & Hb' & Hrest & Heq).
    destruct n as [|n]; [done|]. cbn [sfp_fragments] in Heq.
    destruct (decide (count + sfp_size total mtu count < total)) as [Hmore|Hno];
      [|by rewrite bool_decide_false in Heq].
    rewrite (bool_decide_false (total ≤ _)) by lia.
    apply NoDup_cons in Hnd as [Hni Hnd].
    set (s2 := set_k_core core1 s).
    run (csp_read_run s2 c x timeout b' rest Hc Ho Hf).
    set (s3 := set_k_conns _ s2).
    assert (∀ y, y ∈ b' :: rest → c_pool core1 !! y = c_pool (k_core s) !! y) as Hkept.
    { intros y Hy. apply Hrel. rewrite list_elem_of_singleton. by intros ->. }
    destruct (IH fuel (S n) (count + sfp_size total mtu count)
      (mk_sfp_recv (Some d) total (count + sfp_size total mtu count)) b' s3) as (core2 & Hrun & Hrel2); try done.
    + cbn. apply list_lookup_insert_eq. by eapply lookup_lt_Some.
    + apply Hrel.
    + lia.
    + cbn [sfp_fragments]. rewrite Heq. apply (holds_fragments_kept (k_core s)); [done|by constructor].
    + lia.
    + simpl in Hfuel. lia.
    + exists core2. split.
      * rewrite Hrun. cbn. rewrite list_insert_insert_eq. done.
      * apply (released_app [b] _ _ core1); [|done|done]. intros y ->%list_elem_of_singleton. done.
Qed.
End Receive.

(** C18: a block of data fragmented by [csp_sfp_send] arrives whole.  For every block
    and every MTU up to the packet size less the header, the sender fills each packet
    inside its bounds; and a receiver that finds the fragments in its connection's
    queue returns exactly the block, stores every byte inside the allocated memory,
    and releases all packets. *)
Theorem csp_sfp_roundtrip `{Env} (data : list Z) (total mtu : Z) (malloc : Z → option (list Z)) (d : list Z)
    (s : stack) (c : nat) (x : csp_conn_t) (timeout : Z) (bs : list nat) :
  transfer data total mtu → malloc total = Some d → Z.of_nat (List.length d) = total →
  k_conns s !! c = Some (with_rx bs x) → cn_state x = CONN_OPEN → has_flag (flags (idin x)) CSP_FRDP = false →
  buf_inv (k_core s) → NoDup bs →
  Forall2 (holds_fragment (k_core s)) bs (sfp_fragments (S (Z.to_nat total)) data total mtu 0) →
  (∀ count p, 0 ≤ count < total → packet_ok p →
     ∃ p', sfp_fill p data total count (sfp_size total mtu count) = Some p' ∧ packet_ok p' ∧
       payload p' = Some (sfp_fragment data total mtu count)) ∧
  ∃ core, csp_sfp_recv_fp malloc (List.length bs) (Some c) timeout None s =
      Some ((CSP_ERR_NONE, Some data), set_k_conns (<[c := with_rx [] x]> (k_conns s)) (set_k_core core s)) ∧
    released bs (k_core s) core.
Proof.
  intros Htr Hm Hd Hc Ho Hf Hi Hnd Hfr. pose proof (tr_size _ _ _ Htr). split.
  { intros count p Hcount Hp. destruct (sfp_fill_run data total mtu Htr p count Hp Hcount) as (p' & ? & ? & _ & ?).
    by exists p'. }
  pose proof Hfr as Hfr'. cbn [sfp_fragments] in Hfr'. rewrite bool_decide_true in Hfr' by lia.
  apply Forall2_cons_inv_r in Hfr' as (b & rest & _ & _ & ->).
  unfold csp_sfp_recv_fp. run (csp_read_run s c x timeout b rest Hc Ho Hf). set (s1 := set_k_conns _ s).
  destruct (sfp_recv_loop_run data total mtu Htr malloc timeout c x rest (List.length (b :: rest))
    (S (Z.to_nat total)) 0 (mk_sfp_recv None 0 0) b s1) as (core & Hrun & Hrel);
    [cbn; apply list_lookup_insert_eq; by eapply lookup_lt_Some|done..|lia| |done|lia|simpl; lia|].
  { split; [done|]. split; [done|]. by exists d. }
  exists core. split; [|done]. rewrite Hrun. cbn. by rewrite list_insert_insert_eq.
Qed.

(** Three bytes in two fragments. *)
Definition sfp_example_packet (count : Z) : csp_packet_t :=
  set_pk_id (mk_id 0 CSP_FFRAG 0 0 0 0)
    (default empty_packet (sfp_fill empty_packet [1; 2; 3] 3 count (sfp_size 3 2 count))).
Definition sfp_example : stack :=
  set_k_conns [with_rx [0%nat; 1%nat] (rdp_example 0)]
    (set_k_core (set_c_free (mk_fifo 2 []) (core_with [mk_skbf 1 0 (sfp_example_packet 0); mk_skbf 1 1 (sfp_example_packet 2)]))
      rdp_queue_example).

Lemma sfp_transfer_example : transfer [1; 2; 3] 3 2.
Proof. split; [repeat constructor; by vm_compute|done|lia|by vm_compute]. Qed.

Lemma sfp_example_packet_ok count : 0 ≤ count < 3 →
  packet_ok (sfp_example_packet count) ∧
  payload (sfp_example_packet count) = Some (sfp_fragment [1; 2; 3] 3 2 count).
Proof.
  intros Hc. destruct (sfp_fill_run _ _ _ sfp_transfer_example empty_packet count empty_packet_ok Hc)
    as (p & Hf & Hp & _ & Hpay).
  unfold sfp_example_packet. rewrite Hf. split; [|exact Hpay]. apply set_pk_id_ok; [done|by vm_compute].
Qed.

#[local] Instance sfp_env_example : Env := {|
  env_can := λ _ _ _ _, CSP_ERR_NONE;
  yield := λ s, s;
  run_callback := λ _ _, mret ();
  rand_r := λ x, x;
  hmac_locals := (locals_example, state_example);
|}.

Lemma csp_sfp_roundtrip_witness :
  ∃ core s', csp_sfp_recv_fp (λ n, Some (replicate (Z.to_nat n) 0)) 2 (Some 0%nat) 100 None sfp_example =
      Some ((CSP_ERR_NONE, Some [1; 2; 3]), s') ∧ released [0%nat; 1%nat] (k_core sfp_example) core.
Proof.
  destruct (csp_sfp_roundtrip [1; 2; 3] 3 2 (λ n, Some (replicate (Z.to_nat n) 0)) [0; 0; 0] sfp_example 0
    (rdp_example 0) 100 [0%nat; 1%nat] sfp_transfer_example) as [_ (core & Hrun & Hrel)]; try done.
  - split; [..|done|constructor|].
    + intros [|[|i]] k; cbn; intros [= <-]; (split; [done|]; split; [by apply sfp_example_packet_ok|by vm_compute]).
    + intros i. split; [by intros ?%not_elem_of_nil|]. intros (k & Hk & Hr). revert Hk Hr.
      destruct i as [|[|i]]; cbn; try done; by intros [= <-].
  - apply (bool_decide_unpack _). vm_compute. done.
  - repeat constructor; eexists; (split; [done|]); (split; [done|]); (split; [by apply sfp_example_packet_ok|done]).
  - exists core. eexists. split; [exact Hrun|exact Hrel].
Defined.
