(* ===== verification/Mpack.v ===== *)
(** * MessagePack

    The part of [lib/param/src/mpack/mpack.c] and [include/mpack/mpack.h] the
    parameter library uses: writing elements into a fixed buffer, parsing tags and
    expecting typed elements in received data. *)

From S2P Require Import Prelude.
From Stdlib Require Import SpecFloat.

(** The library is configured with [MPACK_EXTENSIONS], [MPACK_COMPATIBILITY],
    the tracking options and [MPACK_OPTIMIZE_FOR_SIZE] off and with floats on. *)

Inductive mpack_error_t :=
  | mpack_ok | mpack_error_io | mpack_error_invalid | mpack_error_unsupported
  | mpack_error_type | mpack_error_too_big | mpack_error_memory | mpack_error_bug
  | mpack_error_data | mpack_error_eof.

#[export] Instance mpack_error_eq_dec : EqDecision mpack_error_t.
Proof. solve_decision. Defined.

(** A tag with its value.  Floating-point values are kept as their bit patterns. *)
Inductive mpack_tag_t :=
  | mpack_type_nil
  | mpack_type_bool (b : bool)
  | mpack_type_int (i : Z)
  | mpack_type_uint (u : Z)
  | mpack_type_float (f : Z)
  | mpack_type_double (d : Z)
  | mpack_type_str (l : Z)
  | mpack_type_bin (l : Z)
  | mpack_type_array (n : Z)
  | mpack_type_map (n : Z).

#[export] Instance mpack_tag_eq_dec : EqDecision mpack_tag_t.
Proof. solve_decision. Defined.

Definition s8 : Z → Z := swrap 8.
Definition s64 : Z → Z := swrap 64.

(** ** Floating-point conversions

    The casts of [mpack_expect_float] and [mpack_expect_double], on bit patterns
    with [ebits] exponent bits and [mbits] fraction bits, through the Standard
    Library's specification of IEEE 754.  A NaN keeps its sign and the high bits of
    its payload and becomes quiet. *)

Record float_format := mk_format { ff_ebits : Z; ff_mbits : Z }.
Definition binary32 : float_format := mk_format 8 23.
Definition binary64 : float_format := mk_format 11 52.

Definition ff_emax (f : float_format) : Z := 2 ^ (ff_ebits f - 1).
Definition ff_prec (f : float_format) : Z := ff_mbits f + 1.
Definition ff_inf (f : float_format) : Z := (2 ^ ff_ebits f - 1) * 2 ^ ff_mbits f.
Definition ff_sign (f : float_format) (s : bool) : Z :=
  if s then 2 ^ (ff_ebits f + ff_mbits f) else 0.

(** The bit pattern of a number of the format. *)
Definition float_bits (f : float_format) (x : spec_float) : Z :=
  match x with
  | S754_zero s => ff_sign f s
  | S754_infinity s => ff_sign f s + ff_inf f
  | S754_nan => ff_inf f + 2 ^ (ff_mbits f - 1)
  | S754_finite s m e =>
      if bool_decide (Zpos m < 2 ^ ff_mbits f) then ff_sign f s + Zpos m
      else ff_sign f s + (e + ff_emax f + ff_mbits f - 1) * 2 ^ ff_mbits f + (Zpos m - 2 ^ ff_mbits f)
  end.

(** The conversion of the number [±m * 2^e]. *)
Definition float_round (f : float_format) (s : bool) (m e : Z) : Z :=
  float_bits f (binary_normalize (ff_prec f) (ff_emax f) (if s then - m else m) e s).

Definition float_of_int (f : float_format) (z : Z) : Z :=
  float_round f (bool_decide (z < 0)) (Z.abs z) 0.

Definition float_convert (f g : float_format) (x : Z) : Z :=
  let s := Z.testbit x (ff_ebits f + ff_mbits f) in
  let e := (x / 2 ^ ff_mbits f) mod 2 ^ ff_ebits f in
  let m := x mod 2 ^ ff_mbits f in
  if bool_decide (e = 2 ^ ff_ebits f - 1) then
    if bool_decide (m = 0) then ff_sign g s + ff_inf g
    else ff_sign g s + ff_inf g
         + Z.lor (2 ^ (ff_mbits g - 1)) (m * 2 ^ ff_mbits g / 2 ^ ff_mbits f)
  else if bool_decide (e = 0) then float_round g s m (2 - ff_emax f - ff_mbits f)
  else float_round g s (m + 2 ^ ff_mbits f) (e - ff_emax f - ff_mbits f + 1).

(** ** The writer

    [w_mem] is the memory from the writer's buffer on; [position] and [end] are
    offsets in it.  [flush] is [NULL] for every writer of the program. *)

Record mpack_writer_t := mk_writer {
  w_mem : list Z;
  w_position : Z;
  w_end : Z;
  w_error : mpack_error_t;
}.

Definition set_w_error (e : mpack_error_t) (w : mpack_writer_t) : mpack_writer_t :=
  mk_writer (w_mem w) (w_position w) (w_end w) e.
Definition set_w_position (p : Z) (w : mpack_writer_t) : mpack_writer_t :=
  mk_writer (w_mem w) p (w_end w) (w_error w).
Definition set_w_mem (m : list Z) (w : mpack_writer_t) : mpack_writer_t :=
  mk_writer m (w_position w) (w_end w) (w_error w).

Definition mpack_writer_init (mem : list Z) (size : Z) : mpack_writer_t :=
  mk_writer mem 0 size mpack_ok.

Definition mpack_writer_buffer_used (w : mpack_writer_t) : Z := u64 (w_position w).
Definition mpack_writer_buffer_left (w : mpack_writer_t) : Z := u64 (w_end w - w_position w).

Definition mpack_writer_flag_error (e : mpack_error_t) : ST mpack_writer_t () :=
  modify (λ w, if bool_decide (w_error w = mpack_ok) then set_w_error e w else w).

(** [memcpy] to the position, which advances. *)
Definition writer_put (bs : list Z) : ST mpack_writer_t () :=
  w ← get;
  mem ← lift_opt (mem_write (w_mem w) (w_position w) bs);
  put (set_w_position (w_position w + Z.of_nat (length bs)) (set_w_mem mem w)).

Definition mpack_writer_ensure (count : Z) : ST mpack_writer_t bool :=
  w ← get;
  if bool_decide (w_error w ≠ mpack_ok) then mret false
  else mpack_writer_flag_error mpack_error_too_big;; mret false.

(** [MPACK_WRITE_ENCODED]; an encoder is the list of bytes it stores. *)
Definition mpack_write_encoded (bs : list Z) : ST mpack_writer_t () :=
  let size := Z.of_nat (length bs) in
  left ← gets mpack_writer_buffer_left;
  ok ← (if bool_decide (size ≤ left) then mret true else mpack_writer_ensure size);
  when ok (writer_put bs).

Definition mpack_write_native_straddle (bs : list Z) : ST mpack_writer_t () :=
  w ← get;
  if bool_decide (w_error w ≠ mpack_ok) then mret ()
  else mpack_writer_flag_error mpack_error_too_big.

Definition mpack_write_native (bs : list Z) : ST mpack_writer_t () :=
  left ← gets mpack_writer_buffer_left;
  if bool_decide (left < Z.of_nat (length bs)) then mpack_write_native_straddle bs
  else writer_put bs.

Definition mpack_write_bytes (bs : list Z) : ST mpack_writer_t () := mpack_write_native bs.

Definition mpack_encode_fixuint (v : Z) : list Z := [u8 v].
Definition mpack_encode_u8 (v : Z) : list Z := 0xcc :: be_bytes 1 (u8 v).
Definition mpack_encode_u16 (v : Z) : list Z := 0xcd :: be_bytes 2 (u16 v).
Definition mpack_encode_u32 (v : Z) : list Z := 0xce :: be_bytes 4 (u32 v).
Definition mpack_encode_u64 (v : Z) : list Z := 0xcf :: be_bytes 8 (u64 v).
Definition mpack_encode_fixint (v : Z) : list Z := [u8 v].
Definition mpack_encode_i8 (v : Z) : list Z := 0xd0 :: be_bytes 1 (u8 v).
Definition mpack_encode_i16 (v : Z) : list Z := 0xd1 :: be_bytes 2 (u16 v).
Definition mpack_encode_i32 (v : Z) : list Z := 0xd2 :: be_bytes 4 (u32 v).
Definition mpack_encode_i64 (v : Z) : list Z := 0xd3 :: be_bytes 8 (u64 v).
Definition mpack_encode_float (v : Z) : list Z := 0xca :: be_bytes 4 v.
Definition mpack_encode_double (v : Z) : list Z := 0xcb :: be_bytes 8 v.
Definition mpack_encode_fixarray (n : Z) : list Z := [u8 (Z.lor 0x90 n)].
Definition mpack_encode_array16 (n : Z) : list Z := 0xdc :: be_bytes 2 (u16 n).
Definition mpack_encode_array32 (n : Z) : list Z := 0xdd :: be_bytes 4 (u32 n).
Definition mpack_encode_fixmap (n : Z) : list Z := [u8 (Z.lor 0x80 n)].
Definition mpack_encode_map16 (n : Z) : list Z := 0xde :: be_bytes 2 (u16 n).
Definition mpack_encode_map32 (n : Z) : list Z := 0xdf :: be_bytes 4 (u32 n).
Definition mpack_encode_fixstr (n : Z) : list Z := [u8 (Z.lor 0xa0 n)].
Definition mpack_encode_str8 (n : Z) : list Z := 0xd9 :: be_bytes 1 (u8 n).
Definition mpack_encode_str16 (n : Z) : list Z := 0xda :: be_bytes 2 (u16 n).
Definition mpack_encode_str32 (n : Z) : list Z := 0xdb :: be_bytes 4 (u32 n).
Definition mpack_encode_bin8 (n : Z) : list Z := 0xc4 :: be_bytes 1 (u8 n).
Definition mpack_encode_bin16 (n : Z) : list Z := 0xc5 :: be_bytes 2 (u16 n).
Definition mpack_encode_bin32 (n : Z) : list Z := 0xc6 :: be_bytes 4 (u32 n).

Definition mpack_write_u16 (v : Z) : ST mpack_writer_t () :=
  if bool_decide (v ≤ 127) then mpack_write_encoded (mpack_encode_fixuint v)
  else if bool_decide (v ≤ 0xff) then mpack_write_encoded (mpack_encode_u8 v)
  else mpack_write_encoded (mpack_encode_u16 v).

Definition mpack_write_u8 (v : Z) : ST mpack_writer_t () :=
  if bool_decide (v ≤ 127) then mpack_write_encoded (mpack_encode_fixuint v)
  else mpack_write_encoded (mpack_encode_u8 v).

Definition mpack_write_u32 (v : Z) : ST mpack_writer_t () :=
  if bool_decide (v ≤ 127) then mpack_write_encoded (mpack_encode_fixuint v)
  else if bool_decide (v ≤ 0xff) then mpack_write_encoded (mpack_encode_u8 v)
  else if bool_decide (v ≤ 0xffff) then mpack_write_encoded (mpack_encode_u16 v)
  else mpack_write_encoded (mpack_encode_u32 v).

Definition mpack_write_u64 (v : Z) : ST mpack_writer_t () :=
  if bool_decide (v ≤ 127) then mpack_write_encoded (mpack_encode_fixuint v)
  else if bool_decide (v ≤ 0xff) then mpack_write_encoded (mpack_encode_u8 v)
  else if bool_decide (v ≤ 0xffff) then mpack_write_encoded (mpack_encode_u16 v)
  else if bool_decide (v ≤ 0xffffffff) then mpack_write_encoded (mpack_encode_u32 v)
  else mpack_write_encoded (mpack_encode_u64 v).

(** [mpack_write_uint] is [mpack_write_u64], [mpack_write_int] is [mpack_write_i64]. *)
Definition mpack_write_uint : Z → ST mpack_writer_t () := mpack_write_u64.

Definition mpack_write_i64 (v : Z) : ST mpack_writer_t () :=
  if bool_decide (-32 ≤ v) then
    if bool_decide (v ≤ 127) then mpack_write_encoded (mpack_encode_fixint v)
    else if bool_decide (v ≤ 0xff) then mpack_write_encoded (mpack_encode_u8 v)
    else if bool_decide (v ≤ 0xffff) then mpack_write_encoded (mpack_encode_u16 v)
    else if bool_decide (v ≤ 0xffffffff) then mpack_write_encoded (mpack_encode_u32 v)
    else mpack_write_encoded (mpack_encode_u64 v)
  else if bool_decide (-128 ≤ v) then mpack_write_encoded (mpack_encode_i8 v)
  else if bool_decide (-32768 ≤ v) then mpack_write_encoded (mpack_encode_i16 v)
  else if bool_decide (-2147483648 ≤ v) then mpack_write_encoded (mpack_encode_i32 v)
  else mpack_write_encoded (mpack_encode_i64 v).

Definition mpack_write_int : Z → ST mpack_writer_t () := mpack_write_i64.

Definition mpack_write_float (v : Z) : ST mpack_writer_t () :=
  mpack_write_encoded (mpack_encode_float v).
Definition mpack_write_double (v : Z) : ST mpack_writer_t () :=
  mpack_write_encoded (mpack_encode_double v).

Definition mpack_start_array (count : Z) : ST mpack_writer_t () :=
  if bool_decide (count ≤ 15) then mpack_write_encoded (mpack_encode_fixarray count)
  else if bool_decide (count ≤ 0xffff) then mpack_write_encoded (mpack_encode_array16 count)
  else mpack_write_encoded (mpack_encode_array32 count).

Definition mpack_start_map (count : Z) : ST mpack_writer_t () :=
  if bool_decide (count ≤ 15) then mpack_write_encoded (mpack_encode_fixmap count)
  else if bool_decide (count ≤ 0xffff) then mpack_write_encoded (mpack_encode_map16 count)
  else mpack_write_encoded (mpack_encode_map32 count).

Definition mpack_start_str (count : Z) : ST mpack_writer_t () :=
  if bool_decide (count ≤ 31) then mpack_write_encoded (mpack_encode_fixstr count)
  else if bool_decide (count ≤ 0xff) then mpack_write_encoded (mpack_encode_str8 count)
  else if bool_decide (count ≤ 0xffff) then mpack_write_encoded (mpack_encode_str16 count)
  else mpack_write_encoded (mpack_encode_str32 count).

Definition mpack_start_bin (count : Z) : ST mpack_writer_t () :=
  if bool_decide (count ≤ 0xff) then mpack_write_encoded (mpack_encode_bin8 count)
  else if bool_decide (count ≤ 0xffff) then mpack_write_encoded (mpack_encode_bin16 count)
  else mpack_write_encoded (mpack_encode_bin32 count).

(** [mpack_write_byte_element] checks for room as [MPACK_WRITE_ENCODED] does. *)
Definition mpack_write_byte_element (b : Z) : ST mpack_writer_t () := mpack_write_encoded [b].

Definition mpack_write_nil : ST mpack_writer_t () := mpack_write_byte_element 0xc0.
Definition mpack_write_bool (b : bool) : ST mpack_writer_t () :=
  mpack_write_byte_element (Z.lor 0xc2 (if b then 1 else 0)).

Definition mpack_write_tag (t : mpack_tag_t) : ST mpack_writer_t () :=
  match t with
  | mpack_type_nil => mpack_write_nil
  | mpack_type_bool b => mpack_write_bool b
  | mpack_type_int i => mpack_write_int i
  | mpack_type_uint u => mpack_write_uint u
  | mpack_type_float f => mpack_write_float f
  | mpack_type_double d => mpack_write_double d
  | mpack_type_str l => mpack_start_str l
  | mpack_type_bin l => mpack_start_bin l
  | mpack_type_array n => mpack_start_array n
  | mpack_type_map n => mpack_start_map n
  end.

(** [mpack_write_bin]. *)
Definition mpack_write_bin (bs : list Z) : ST mpack_writer_t () :=
  mpack_start_bin (Z.of_nat (length bs));; mpack_write_bytes bs.

(** ** The reader

    [r_mem] is the memory the reader's data lies in; [data] and [end] are offsets in
    it.  [fill] is [NULL] for every reader of the program. *)

Record mpack_reader_t := mk_reader {
  r_mem : list Z;
  r_data : Z;
  r_end : Z;
  r_error : mpack_error_t;
}.

Definition mpack_reader_init_data (mem : list Z) (off count : Z) : mpack_reader_t :=
  mk_reader mem off (off + count) mpack_ok.

Definition set_r_data (d : Z) (r : mpack_reader_t) : mpack_reader_t :=
  mk_reader (r_mem r) d (r_end r) (r_error r).

(** The first error is kept; it also empties the reader. *)
Definition flag_error (e : mpack_error_t) (r : mpack_reader_t) : mpack_reader_t :=
  if bool_decide (r_error r = mpack_ok) then mk_reader (r_mem r) (r_data r) (r_data r) e else r.

Definition mpack_reader_flag_error (e : mpack_error_t) : ST mpack_reader_t () :=
  modify (flag_error e).

Definition mpack_reader_failed (r : mpack_reader_t) : bool := bool_decide (r_error r ≠ mpack_ok).

(** [(size_t)(reader->end - reader->data)] *)
Definition reader_left (r : mpack_reader_t) : Z := u64 (r_end r - r_data r).

Definition mpack_reader_ensure (count : Z) : ST mpack_reader_t bool :=
  r ← get;
  if bool_decide (count ≤ reader_left r) then mret true
  else mpack_reader_flag_error mpack_error_invalid;; mret false.

(** [mpack_load_uXX(reader->data + off)] *)
Definition mpack_load (n : nat) (off : Z) : ST mpack_reader_t Z :=
  r ← get;
  bs ← lift_opt (mem_read (r_mem r) (r_data r + off) (Z.of_nat n));
  mret (be_val bs).

(** The cases of [mpack_parse_tag] that have their value in the [n] bytes behind the
    type byte: the size of the tag and the tag. *)
Definition parse_sized (n : nat) (make : Z → mpack_tag_t) : ST mpack_reader_t (Z * mpack_tag_t) :=
  ok ← mpack_reader_ensure (Z.of_nat n + 1);
  if ok : bool then v ← mpack_load n 1; mret (Z.of_nat n + 1, make v)
  else mret (0, mpack_type_nil).

Definition parse_error (e : mpack_error_t) : ST mpack_reader_t (Z * mpack_tag_t) :=
  mpack_reader_flag_error e;; mret (0, mpack_type_nil).

(** The switch on the type byte; the cases of an infix type are its ranges. *)
Definition mpack_parse_type (type : Z) : ST mpack_reader_t (Z * mpack_tag_t) :=
  if bool_decide (type ≤ 0x7f) then mret (1, mpack_type_uint type)
  else if bool_decide (0xe0 ≤ type) then mret (1, mpack_type_int (s8 type))
  else if bool_decide (type ≤ 0x8f) then mret (1, mpack_type_map (Z.land type 0x0f))
  else if bool_decide (type ≤ 0x9f) then mret (1, mpack_type_array (Z.land type 0x0f))
  else if bool_decide (type ≤ 0xbf) then mret (1, mpack_type_str (Z.land type 0x1f))
  else match type with
  | 0xc0 => mret (1, mpack_type_nil)
  | 0xc2 | 0xc3 => mret (1, mpack_type_bool (bool_decide (Z.land type 1 = 1)))
  | 0xc4 => parse_sized 1 mpack_type_bin
  | 0xc5 => parse_sized 2 mpack_type_bin
  | 0xc6 => parse_sized 4 mpack_type_bin
  | 0xca => parse_sized 4 mpack_type_float
  | 0xcb => parse_sized 8 mpack_type_double
  | 0xcc => parse_sized 1 mpack_type_uint
  | 0xcd => parse_sized 2 mpack_type_uint
  | 0xce => parse_sized 4 mpack_type_uint
  | 0xcf => parse_sized 8 mpack_type_uint
  | 0xd0 => parse_sized 1 (λ v, mpack_type_int (s8 v))
  | 0xd1 => parse_sized 2 (λ v, mpack_type_int (s16 v))
  | 0xd2 => parse_sized 4 (λ v, mpack_type_int (s32 v))
  | 0xd3 => parse_sized 8 (λ v, mpack_type_int (s64 v))
  | 0xd9 => parse_sized 1 mpack_type_str
  | 0xda => parse_sized 2 mpack_type_str
  | 0xdb => parse_sized 4 mpack_type_str
  | 0xdc => parse_sized 2 mpack_type_array
  | 0xdd => parse_sized 4 mpack_type_array
  | 0xde => parse_sized 2 mpack_type_map
  | 0xdf => parse_sized 4 mpack_type_map
  | 0xc1 => parse_error mpack_error_invalid
  | _ => parse_error mpack_error_unsupported
  end.

Definition mpack_parse_tag : ST mpack_reader_t (Z * mpack_tag_t) :=
  ok ← mpack_reader_ensure 1;
  if negb ok then mret (0, mpack_type_nil) else
  type ← mpack_load 1 0;
  mpack_parse_type type.

Definition mpack_read_tag : ST mpack_reader_t mpack_tag_t :=
  r ← get;
  if mpack_reader_failed r then mret mpack_type_nil else
  '(count, tag) ← mpack_parse_tag;
  if bool_decide (count = 0) then mret mpack_type_nil else
  modify (λ r, set_r_data (r_data r + count) r);;
  mret tag.

Definition mpack_peek_tag : ST mpack_reader_t mpack_tag_t :=
  r ← get;
  if mpack_reader_failed r then mret mpack_type_nil else
  '(count, tag) ← mpack_parse_tag;
  mret (if bool_decide (count = 0) then mpack_type_nil else tag).

(** [mpack_skip_bytes]; [mpack_skip_bytes_straddle] only flags the error. *)
Definition mpack_skip_bytes (count : Z) : ST mpack_reader_t () :=
  r ← get;
  if mpack_reader_failed r then mret ()
  else if bool_decide (count ≤ reader_left r) then put (set_r_data (r_data r + count) r)
  else mpack_reader_flag_error mpack_error_invalid.

(** [mpack_read_bytes], [mpack_read_native] and [mpack_read_native_straddle]: on an
    error the destination is zeroed. *)
Definition mpack_read_bytes (count : Z) : ST mpack_reader_t (list Z) :=
  r ← get;
  if bool_decide (reader_left r < count) then
    when (negb (mpack_reader_failed r)) (mpack_reader_flag_error mpack_error_invalid);;
    mret (replicate (Z.to_nat count) 0)
  else
    bs ← lift_opt (mem_read (r_mem r) (r_data r) count);
    put (set_r_data (r_data r + count) r);;
    mret bs.

(** [mpack_discard] recurses on the nesting of the data and loops over the elements.
    Every level and every iteration reads a tag of at least one byte, so the number of
    bytes left bounds both. *)
Fixpoint discard_loop (discard : ST mpack_reader_t ()) (fuel : nat) (n : Z) : ST mpack_reader_t () :=
  match fuel with
  | O => ub
  | S fuel' =>
      if bool_decide (n ≤ 0) then mret () else
      discard;;
      r ← get;
      if mpack_reader_failed r then mret () else discard_loop discard fuel' (n - 1)
  end.

Fixpoint mpack_discard_fuel (fuel : nat) : ST mpack_reader_t () :=
  match fuel with
  | O => ub
  | S fuel' =>
      tag ← mpack_read_tag;
      r ← get;
      if mpack_reader_failed r then mret () else
      match tag with
      | mpack_type_str l | mpack_type_bin l => mpack_skip_bytes l
      | mpack_type_array n => discard_loop (mpack_discard_fuel fuel') fuel n
      | mpack_type_map n =>
          discard_loop (mpack_discard_fuel fuel';; mpack_discard_fuel fuel') fuel n
      | _ => mret ()
      end
  end.

Definition mpack_discard : ST mpack_reader_t () := λ r,
  mpack_discard_fuel (S (Z.to_nat (r_end r - r_data r))) r.

(** *** Typed elements *)

Definition expect_fail : ST mpack_reader_t Z :=
  mpack_reader_flag_error mpack_error_type;; mret 0.

(** The tests of [mpack_expect_u8] ... [mpack_expect_i64]: an integer of either sign
    is accepted when it lies in the range of the result. *)
Definition expect_integer (lo hi : Z) : ST mpack_reader_t Z :=
  tag ← mpack_read_tag;
  match tag with
  | mpack_type_uint u => if bool_decide (u ≤ hi) then mret u else expect_fail
  | mpack_type_int i => if bool_decide (lo ≤ i ≤ hi) then mret i else expect_fail
  | _ => expect_fail
  end.

Definition mpack_expect_u8 : ST mpack_reader_t Z := expect_integer 0 0xff.
Definition mpack_expect_u16 : ST mpack_reader_t Z := expect_integer 0 0xffff.
Definition mpack_expect_u32 : ST mpack_reader_t Z := expect_integer 0 0xffffffff.
Definition mpack_expect_i8 : ST mpack_reader_t Z := expect_integer (-128) 127.
Definition mpack_expect_i16 : ST mpack_reader_t Z := expect_integer (-32768) 32767.
Definition mpack_expect_i32 : ST mpack_reader_t Z := expect_integer (-2147483648) 2147483647.

Definition mpack_expect_u64 : ST mpack_reader_t Z :=
  tag ← mpack_read_tag;
  match tag with
  | mpack_type_uint u => mret u
  | mpack_type_int i => if bool_decide (0 ≤ i) then mret i else expect_fail
  | _ => expect_fail
  end.

Definition mpack_expect_i64 : ST mpack_reader_t Z :=
  tag ← mpack_read_tag;
  match tag with
  | mpack_type_uint u => if bool_decide (u ≤ 0x7fffffffffffffff) then mret u else expect_fail
  | mpack_type_int i => mret i
  | _ => expect_fail
  end.

(** [unsigned int] and [int] have 32 bits. *)
Definition mpack_expect_uint : ST mpack_reader_t Z := mpack_expect_u32.
Definition mpack_expect_int : ST mpack_reader_t Z := mpack_expect_i32.

Definition mpack_expect_float : ST mpack_reader_t Z :=
  tag ← mpack_read_tag;
  match tag with
  | mpack_type_uint u => mret (float_of_int binary32 u)
  | mpack_type_int i => mret (float_of_int binary32 i)
  | mpack_type_float f => mret f
  | mpack_type_double d => mret (float_convert binary64 binary32 d)
  | _ => expect_fail
  end.

Definition mpack_expect_double : ST mpack_reader_t Z :=
  tag ← mpack_read_tag;
  match tag with
  | mpack_type_uint u => mret (float_of_int binary64 u)
  | mpack_type_int i => mret (float_of_int binary64 i)
  | mpack_type_float f => mret (float_convert binary32 binary64 f)
  | mpack_type_double d => mret d
  | _ => expect_fail
  end.

Definition mpack_expect_array : ST mpack_reader_t Z :=
  tag ← mpack_read_tag;
  match tag with mpack_type_array n => mret n | _ => expect_fail end.

Definition mpack_expect_map : ST mpack_reader_t Z :=
  tag ← mpack_read_tag;
  match tag with mpack_type_map n => mret n | _ => expect_fail end.

Definition mpack_expect_bin : ST mpack_reader_t Z :=
  tag ← mpack_read_tag;
  match tag with mpack_type_bin l => mret l | _ => expect_fail end.

(** [mpack_expect_native_u8], [_u16], [_u32] *)
Definition mpack_expect_native (n : nat) : ST mpack_reader_t Z :=
  r ← get;
  if mpack_reader_failed r then mret 0 else
  ok ← mpack_reader_ensure (Z.of_nat n);
  if negb ok then mret 0 else
  v ← mpack_load n 0;
  modify (λ r, set_r_data (r_data r + Z.of_nat n) r);;
  mret v.

Definition mpack_expect_type_byte : ST mpack_reader_t Z := mpack_expect_native 1.

(** Not through the tag parser: on failure the type byte has been consumed. *)
Definition mpack_expect_str : ST mpack_reader_t Z :=
  type ← mpack_expect_type_byte;
  if bool_decide (Z.shiftr type 5 = 5) then mret (Z.land type 0x1f)
  else match type with
  | 0xd9 => mpack_expect_native 1
  | 0xda => mpack_expect_native 2
  | 0xdb => mpack_expect_native 4
  | _ => expect_fail
  end.

Definition mpack_expect_nil : ST mpack_reader_t () :=
  type ← mpack_expect_type_byte;
  when (bool_decide (type ≠ 0xc0)) (mpack_reader_flag_error mpack_error_type).

Definition mpack_expect_bool : ST mpack_reader_t bool :=
  type ← mpack_expect_type_byte;
  when (bool_decide (Z.land type (Z.lnot 1) ≠ 0xc2)) (mpack_reader_flag_error mpack_error_type);;
  mret (bool_decide (Z.land type 1 = 1)).

(** ** What the writer does *)

Definition writer_ok (w : mpack_writer_t) : Prop :=
  0 ≤ w_position w ≤ w_end w ∧ w_end w ≤ Z.of_nat (length (w_mem w)) ∧ w_end w < 2 ^ 32.

(** [w'] is [w] after [bs] was put at the position. *)
Definition wrote (bs : list Z) (w w' : mpack_writer_t) : Prop :=
  mem_write (w_mem w) (w_position w) bs = Some (w_mem w') ∧
  w_position w' = w_position w + Z.of_nat (length bs) ∧
  w_end w' = w_end w ∧ w_error w' = w_error w.

Definition fits (bs : list Z) (w : mpack_writer_t) : Prop :=
  w_position w + Z.of_nat (length bs) ≤ w_end w.

(** [w] after an operation that had no room. *)
Definition too_big (w : mpack_writer_t) : mpack_writer_t :=
  if bool_decide (w_error w = mpack_ok) then set_w_error mpack_error_too_big w else w.

Section Writer.
Implicit Types (w : mpack_writer_t) (bs : list Z).

Lemma buffer_left_ok w : writer_ok w → mpack_writer_buffer_left w = w_end w - w_position w.
Proof. intros (H1 & _ & H3). unfold mpack_writer_buffer_left. apply Z.mod_small. lia. Qed.

Lemma writer_put_run bs w :
  writer_ok w → fits bs w → ∃ w', writer_put bs w = Some ((), w') ∧ wrote bs w w' ∧ writer_ok w'.
Proof.
  intros (H1 & H2 & H3) Hf. unfold fits in Hf.
  destruct (mem_write_is_Some (w_mem w) (w_position w) bs) as (m & Hm & Hl); [lia..|].
  eexists. split.
  { unfold writer_put. st_red. by rewrite Hm. }
  split; [by repeat split|]. unfold writer_ok; simpl. lia.
Qed.

Lemma too_big_flag w : mpack_writer_flag_error mpack_error_too_big w = Some ((), too_big w).
Proof. done. Qed.

Lemma ensure_run n w : mpack_writer_ensure n w = Some (false, too_big w).
Proof.
  unfold mpack_writer_ensure, mpack_writer_flag_error, too_big. st_red.
  destruct (decide (w_error w = mpack_ok)) as [E|E].
  - by rewrite bool_decide_false, bool_decide_true by auto.
  - by rewrite bool_decide_true, bool_decide_false by auto.
Qed.

(** Every write either puts its bytes or, without room, only flags the error. *)
Lemma write_encoded_run bs w :
  writer_ok w →
  (fits bs w ∧ ∃ w', mpack_write_encoded bs w = Some ((), w') ∧ wrote bs w w' ∧ writer_ok w') ∨
  (¬ fits bs w ∧ mpack_write_encoded bs w = Some ((), too_big w)).
Proof.
  intros Hw. unfold mpack_write_encoded. st_red. rewrite buffer_left_ok by done.
  unfold fits. destruct (decide (Z.of_nat (length bs) ≤ w_end w - w_position w)) as [Hf|Hf].
  - rewrite bool_decide_true by done. left. split; [lia|]. apply writer_put_run; [done|]. unfold fits; lia.
  - rewrite bool_decide_false by done. right. split; [lia|]. by rewrite ensure_run.
Qed.

Lemma write_bytes_run bs w :
  writer_ok w →
  (fits bs w ∧ ∃ w', mpack_write_bytes bs w = Some ((), w') ∧ wrote bs w w' ∧ writer_ok w') ∨
  (¬ fits bs w ∧ mpack_write_bytes bs w = Some ((), too_big w)).
Proof.
  intros Hw. unfold mpack_write_bytes, mpack_write_native. st_red. rewrite buffer_left_ok by done.
  unfold fits. destruct (decide (w_end w - w_position w < Z.of_nat (length bs))) as [Hf|Hf].
  - rewrite bool_decide_true by done. right. split; [lia|].
    unfold mpack_write_native_straddle. pose proof (ensure_run 0 w) as He. unfold mpack_writer_ensure in He.
    revert He. st_red. case_bool_decide; [by intros [= <-]|]. unfold mpack_writer_flag_error. st_red. congruence.
  - rewrite bool_decide_false by done. left. split; [lia|]. apply writer_put_run; [done|]. unfold fits; lia.
Qed.

Lemma wrote_app bs1 bs2 w w1 w2 : wrote bs1 w w1 → wrote bs2 w1 w2 → wrote (bs1 ++ bs2) w w2.
Proof.
  intros (Hm1 & Hp1 & He1 & Ho1) (Hm2 & Hp2 & He2 & Ho2).
  split; [|split; [rewrite length_app; lia|split; congruence]].
  pose proof (mem_write_length _ _ _ _ Hm1) as Hl1. pose proof (mem_write_length _ _ _ _ Hm2) as Hl2.
  pose proof Hm1 as (H1 & H2 & _)%mem_write_Some. pose proof Hm2 as (H3 & H4 & _)%mem_write_Some.
  destruct (mem_write_is_Some (w_mem w) (w_position w) (bs1 ++ bs2)) as (m & Hm & Hl); [lia|rewrite length_app; lia|].
  rewrite Hm. f_equal. apply list_eq. intros i.
  rewrite (mem_write_lookup _ _ _ _ i Hm), (mem_write_lookup _ _ _ _ i Hm2), (mem_write_lookup _ _ _ _ i Hm1).
  rewrite length_app. repeat case_bool_decide; try lia; try done.
  - rewrite lookup_app_r by lia. f_equal. lia.
  - by rewrite lookup_app_l by lia.
Qed.
End Writer.

(** ** Tags as bytes *)

Definition tag_bytes (t : mpack_tag_t) : list Z :=
  match t with
  | mpack_type_nil => [0xc0]
  | mpack_type_bool b => [if b then 0xc3 else 0xc2]
  | mpack_type_int v =>
      if bool_decide (-32 ≤ v ≤ 127) then [u8 v]
      else if bool_decide (0 ≤ v) then
        if bool_decide (v ≤ 0xff) then 0xcc :: be_bytes 1 v
        else if bool_decide (v ≤ 0xffff) then 0xcd :: be_bytes 2 v
        else if bool_decide (v ≤ 0xffffffff) then 0xce :: be_bytes 4 v
        else 0xcf :: be_bytes 8 v
      else if bool_decide (-128 ≤ v) then 0xd0 :: be_bytes 1 v
      else if bool_decide (-32768 ≤ v) then 0xd1 :: be_bytes 2 v
      else if bool_decide (-2147483648 ≤ v) then 0xd2 :: be_bytes 4 v
      else 0xd3 :: be_bytes 8 v
  | mpack_type_uint v =>
      if bool_decide (v ≤ 127) then [v]
      else if bool_decide (v ≤ 0xff) then 0xcc :: be_bytes 1 v
      else if bool_decide (v ≤ 0xffff) then 0xcd :: be_bytes 2 v
      else if bool_decide (v ≤ 0xffffffff) then 0xce :: be_bytes 4 v
      else 0xcf :: be_bytes 8 v
  | mpack_type_float f => 0xca :: be_bytes 4 f
  | mpack_type_double d => 0xcb :: be_bytes 8 d
  | mpack_type_str l =>
      if bool_decide (l ≤ 31) then [0xa0 + l]
      else if bool_decide (l ≤ 0xff) then 0xd9 :: be_bytes 1 l
      else if bool_decide (l ≤ 0xffff) then 0xda :: be_bytes 2 l
      else 0xdb :: be_bytes 4 l
  | mpack_type_bin l =>
      if bool_decide (l ≤ 0xff) then 0xc4 :: be_bytes 1 l
      else if bool_decide (l ≤ 0xffff) then 0xc5 :: be_bytes 2 l
      else 0xc6 :: be_bytes 4 l
  | mpack_type_array n =>
      if bool_decide (n ≤ 15) then [0x90 + n]
      else if bool_decide (n ≤ 0xffff) then 0xdc :: be_bytes 2 n
      else 0xdd :: be_bytes 4 n
  | mpack_type_map n =>
      if bool_decide (n ≤ 15) then [0x80 + n]
      else if bool_decide (n ≤ 0xffff) then 0xde :: be_bytes 2 n
      else 0xdf :: be_bytes 4 n
  end.

(** The values the C types of a tag can hold. *)
Definition tag_ok (t : mpack_tag_t) : Prop :=
  match t with
  | mpack_type_nil | mpack_type_bool _ => True
  | mpack_type_int i => - 2 ^ 63 ≤ i < 2 ^ 63
  | mpack_type_uint u | mpack_type_double u => 0 ≤ u < 2 ^ 64
  | mpack_type_float v | mpack_type_str v | mpack_type_bin v | mpack_type_array v
  | mpack_type_map v => 0 ≤ v < 2 ^ 32
  end.

(** A non-negative integer is read as unsigned, whichever way it was written. *)
Definition tag_norm (t : mpack_tag_t) : mpack_tag_t :=
  match t with
  | mpack_type_int i => if bool_decide (0 ≤ i) then mpack_type_uint i else t
  | _ => t
  end.

Section Tags.
Implicit Types (t : mpack_tag_t) (w : mpack_writer_t) (r : mpack_reader_t) (bs : list Z).

(** A fixed tag: the size in the low bits of the type byte. *)
Lemma fix_tag b n v : 0 ≤ n → 0 ≤ b → b mod 2 ^ n = 0 → 0 ≤ v < 2 ^ n → b + v < 256 → u8 (Z.lor b v) = b + v.
Proof. intros. rewrite (lor_add n) by done. apply u8_id. unfold is_u8. lia. Qed.

Ltac by_ranges := repeat case_bool_decide; try done; try lia.

Lemma write_tag_bytes t : tag_ok t → mpack_write_tag t = mpack_write_encoded (tag_bytes t).
Proof.
  destruct t as [|b|i|u|f|d|l|l|n|n]; intros Hok; cbn [tag_ok] in Hok; cbn [mpack_write_tag tag_bytes]; try done.
  - by destruct b.
  - unfold mpack_write_int, mpack_write_i64, mpack_encode_fixint, mpack_encode_u8, mpack_encode_u16,
      mpack_encode_u32, mpack_encode_u64, mpack_encode_i8, mpack_encode_i16, mpack_encode_i32, mpack_encode_i64.
    rewrite be_bytes_u8, be_bytes_u16, be_bytes_u32, be_bytes_u64. by_ranges.
  - unfold mpack_write_uint, mpack_write_u64, mpack_encode_fixuint, mpack_encode_u8, mpack_encode_u16,
      mpack_encode_u32, mpack_encode_u64.
    rewrite be_bytes_u8, be_bytes_u16, be_bytes_u32, be_bytes_u64. by_ranges. by rewrite u8_id by (unfold is_u8; lia).
  - unfold mpack_start_str, mpack_encode_fixstr, mpack_encode_str8, mpack_encode_str16, mpack_encode_str32.
    rewrite be_bytes_u8, be_bytes_u16, be_bytes_u32. by_ranges. by rewrite (fix_tag _ 5) by (done || lia).
  - unfold mpack_start_bin, mpack_encode_bin8, mpack_encode_bin16, mpack_encode_bin32.
    rewrite be_bytes_u8, be_bytes_u16, be_bytes_u32. by_ranges.
  - unfold mpack_start_array, mpack_encode_fixarray, mpack_encode_array16, mpack_encode_array32.
    rewrite be_bytes_u16, be_bytes_u32. by_ranges. by rewrite (fix_tag _ 4) by (done || lia).
  - unfold mpack_start_map, mpack_encode_fixmap, mpack_encode_map16, mpack_encode_map32.
    rewrite be_bytes_u16, be_bytes_u32. by_ranges. by rewrite (fix_tag _ 4) by (done || lia).
Qed.

(** [r] stands before the bytes [bs]. *)
Definition before (bs : list Z) r : Prop :=
  mem_read (r_mem r) (r_data r) (Z.of_nat (length bs)) = Some bs ∧
  r_data r + Z.of_nat (length bs) ≤ r_end r ∧ r_end r < 2 ^ 32 ∧ r_error r = mpack_ok.

Lemma before_left bs r :
  before bs r → reader_left r = r_end r - r_data r ∧ Z.of_nat (length bs) ≤ reader_left r.
Proof.
  intros ((H1 & _)%mem_read_Some & H2 & H3 & _). unfold reader_left.
  assert (u64 (r_end r - r_data r) = r_end r - r_data r) as -> by (apply Z.mod_small; lia). lia.
Qed.

Lemma before_ensure bs r n :
  before bs r → n ≤ Z.of_nat (length bs) → mpack_reader_ensure n r = Some (true, r).
Proof.
  intros Hb Hn. apply before_left in Hb as [_ Hl]. unfold mpack_reader_ensure. st_red.
  by rewrite bool_decide_true by lia.
Qed.

Lemma before_load bs1 bs2 bs3 r :
  before (bs1 ++ bs2 ++ bs3) r →
  mpack_load (length bs2) (Z.of_nat (length bs1)) r = Some (be_val bs2, r).
Proof.
  intros (Hm & _). unfold mpack_load. st_red.
  rewrite length_app, Nat2Z.inj_add in Hm. apply mem_read_app_inv in Hm as [_ Hm]; [|lia..].
  rewrite length_app, Nat2Z.inj_add in Hm. apply mem_read_app_inv in Hm as [Hm _]; [|lia..].
  by rewrite Hm.
Qed.

Lemma be_val_singleton b : be_val [b] = b.
Proof. unfold be_val. simpl. lia. Qed.

Lemma parse_tag_type b bs r :
  before (b :: bs) r → mpack_parse_tag r = mpack_parse_type b r.
Proof.
  intros Hb. unfold mpack_parse_tag. run (before_ensure _ _ 1 Hb ltac:(simpl; lia)). cbn [negb].
  run (before_load [] [b] bs r Hb). by rewrite be_val_singleton.
Qed.

Lemma parse_sized_run b n v make bs r :
  before (b :: be_bytes n v ++ bs) r →
  parse_sized n make r = Some ((Z.of_nat n + 1, make (v mod 256 ^ Z.of_nat n)), r).
Proof.
  intros Hb. unfold parse_sized.
  run (before_ensure _ _ (Z.of_nat n + 1) Hb ltac:(simpl; rewrite length_app, length_be_bytes; lia)).
  pose proof (before_load [b] (be_bytes n v) bs r Hb) as Hl. rewrite length_be_bytes in Hl.
  run Hl. by rewrite be_val_be_bytes.
Qed.

(** The cases of the switch, by the kind of type byte. *)
Lemma parse_tag_sized b n v make bs r :
  before ((b :: be_bytes n v) ++ bs) r → mpack_parse_type b = parse_sized n make →
  mpack_parse_tag r =
  Some ((Z.of_nat (length (b :: be_bytes n v)), make (v mod 256 ^ Z.of_nat n)), r).
Proof.
  intros Hb Hp. rewrite (parse_tag_type _ _ _ Hb), Hp, (parse_sized_run b n v make bs r Hb).
  cbn [length]. rewrite length_be_bytes. repeat f_equal. lia.
Qed.

Lemma parse_tag_infix b t bs r :
  mpack_parse_type b = mret (1, t) → before ([b] ++ bs) r →
  mpack_parse_tag r = Some ((Z.of_nat (length [b]), t), r).
Proof. intros Hp Hb. by rewrite (parse_tag_type _ _ _ Hb), Hp. Qed.

Lemma parse_type_uint b : 0 ≤ b ≤ 127 → mpack_parse_type b = mret (1, mpack_type_uint b).
Proof. intros. unfold mpack_parse_type. by rewrite bool_decide_true by lia. Qed.

Lemma parse_type_int b : 0xe0 ≤ b < 256 → mpack_parse_type b = mret (1, mpack_type_int (b - 256)).
Proof.
  intros. unfold mpack_parse_type. rewrite bool_decide_false, bool_decide_true by lia.
  repeat f_equal. unfold s8, swrap, wrap. change (2 ^ (8 - 1)) with 128. change (2 ^ 8) with 256. mlia.
Qed.

Lemma parse_type_map n : 0 ≤ n ≤ 15 → mpack_parse_type (0x80 + n) = mret (1, mpack_type_map n).
Proof.
  intros. unfold mpack_parse_type. rewrite !bool_decide_false, bool_decide_true by lia.
  repeat f_equal. change 0x0f with (2 ^ 4 - 1). rewrite land_mask by lia. change (2 ^ 4) with 16. mlia.
Qed.

Lemma parse_type_array n : 0 ≤ n ≤ 15 → mpack_parse_type (0x90 + n) = mret (1, mpack_type_array n).
Proof.
  intros. unfold mpack_parse_type. rewrite (bool_decide_false (0x90 + n ≤ 0x7f)),
    (bool_decide_false (0xe0 ≤ _)), (bool_decide_false (_ ≤ 0x8f)), bool_decide_true by lia.
  repeat f_equal. change 0x0f with (2 ^ 4 - 1). rewrite land_mask by lia. change (2 ^ 4) with 16. mlia.
Qed.

Lemma parse_type_str n : 0 ≤ n ≤ 31 → mpack_parse_type (0xa0 + n) = mret (1, mpack_type_str n).
Proof.
  intros. unfold mpack_parse_type. rewrite (bool_decide_false (0xa0 + n ≤ 0x7f)), (bool_decide_false (0xe0 ≤ _)),
    (bool_decide_false (_ ≤ 0x8f)), (bool_decide_false (_ ≤ 0x9f)), bool_decide_true by lia.
  repeat f_equal. change 0x1f with (2 ^ 5 - 1). rewrite land_mask by lia. change (2 ^ 5) with 32. mlia.
Qed.

Lemma swrap_sized n v :
  (1 ≤ n)%nat → - 2 ^ (8 * Z.of_nat n - 1) ≤ v < 2 ^ (8 * Z.of_nat n - 1) →
  swrap (8 * Z.of_nat n) (v mod 256 ^ Z.of_nat n) = v.
Proof.
  intros Hn Hv. unfold swrap, wrap. set (k := 8 * Z.of_nat n) in *.
  assert (256 ^ Z.of_nat n = 2 ^ k) as -> by (subst k; rewrite Z.pow_mul_r by lia; done).
  assert (2 ^ k = 2 * 2 ^ (k - 1)) as -> by (rewrite <- Z.pow_succ_r by lia; f_equal; lia).
  rewrite Z.add_mod_idemp_l by lia. rewrite Z.mod_small by lia. lia.
Qed.

Lemma mod_sized n v : 0 ≤ v < 256 ^ Z.of_nat n → v mod 256 ^ Z.of_nat n = v.
Proof. apply Z.mod_small. Qed.

Ltac sized := intros Hb; erewrite (parse_tag_sized _ _ _ _ _ _ Hb); [|reflexivity];
  cbv beta; first [by rewrite mod_sized by (simpl; lia)
    |by (repeat f_equal; match goal with |- context [_ mod 256 ^ Z.of_nat ?n] => apply (swrap_sized n) end; simpl; lia)].
Ltac infix L v := intros Hb; exact (parse_tag_infix _ _ _ _ (L v ltac:(lia)) Hb).

(** Parsing what was written gives the tag back. *)
Lemma parse_tag_bytes t bs r :
  tag_ok t → before (tag_bytes t ++ bs) r →
  mpack_parse_tag r = Some ((Z.of_nat (length (tag_bytes t)), tag_norm t), r).
Proof.
  destruct t as [|b|v|v|v|v|v|v|v|v]; intros Hok; cbn [tag_ok] in Hok; cbn [tag_bytes tag_norm].
  - by apply parse_tag_infix.
  - destruct b; by apply parse_tag_infix.
  - repeat case_bool_decide; try lia; try sized.
    + rewrite u8_id by mlia. infix parse_type_uint v.
    + assert (u8 v = v + 256) as -> by mlia. intros Hb.
      rewrite (parse_tag_infix _ _ _ _ (parse_type_int (v + 256) ltac:(lia)) Hb). by replace (v + 256 - 256) with v by lia.
  - repeat case_bool_decide; [infix parse_type_uint v|sized..].
  - sized.
  - sized.
  - repeat case_bool_decide; [infix parse_type_str v|sized..].
  - repeat case_bool_decide; sized.
  - repeat case_bool_decide; [infix parse_type_array v|sized..].
  - repeat case_bool_decide; [infix parse_type_map v|sized..].
Qed.

Lemma before_app bs1 bs2 r :
  before (bs1 ++ bs2) r →
  before bs1 r ∧ before bs2 (set_r_data (r_data r + Z.of_nat (length bs1)) r).
Proof.
  intros (Hm & He & Hb & Ho). rewrite length_app, Nat2Z.inj_add in Hm.
  apply mem_read_app_inv in Hm as [H1 H2]; [|lia..]. rewrite length_app in He.
  split; (split; [done|]); simpl; lia || (split; [lia|done]).
Qed.

Lemma before_wrote bs w w' r :
  wrote bs w w' → r_mem r = w_mem w' → r_data r = w_position w → w_position w' ≤ r_end r →
  r_end r < 2 ^ 32 → r_error r = mpack_ok → before bs r.
Proof.
  intros (Hm & Hp & _) Hr Hd He Hb Ho. split; [|split; [lia|done]].
  rewrite Hr, Hd. by eapply mem_read_write_eq.
Qed.

Lemma reader_not_failed bs r : before bs r → mpack_reader_failed r = false.
Proof. intros (_ & _ & _ & Ho). unfold mpack_reader_failed. by rewrite bool_decide_false by (rewrite Ho; auto). Qed.

Lemma length_tag_bytes t : 0 < Z.of_nat (length (tag_bytes t)) ≤ 9.
Proof. destruct t; cbn [tag_bytes]; repeat case_bool_decide; cbn [length]; rewrite ?length_be_bytes; lia. Qed.

Lemma read_tag_bytes t bs r :
  tag_ok t → before (tag_bytes t ++ bs) r →
  mpack_read_tag r = Some (tag_norm t, set_r_data (r_data r + Z.of_nat (length (tag_bytes t))) r).
Proof.
  intros Ht Hb. unfold mpack_read_tag. run (eq_refl : get r = Some (r, r)). rewrite (reader_not_failed _ _ Hb).
  run (parse_tag_bytes t bs r Ht Hb). rewrite bool_decide_false by (pose proof (length_tag_bytes t); lia). done.
Qed.

Lemma peek_tag_bytes t bs r :
  tag_ok t → before (tag_bytes t ++ bs) r → mpack_peek_tag r = Some (tag_norm t, r).
Proof.
  intros Ht Hb. unfold mpack_peek_tag. run (eq_refl : get r = Some (r, r)). rewrite (reader_not_failed _ _ Hb).
  run (parse_tag_bytes t bs r Ht Hb). by rewrite bool_decide_false by (pose proof (length_tag_bytes t); lia).
Qed.
End Tags.

(** Writing a MessagePack tag either fails for lack of room, flagging
    [mpack_error_too_big] and changing nothing else, or stores between one and nine
    bytes from which every reader positioned at them reads the tag back and moves on to
    the byte behind it; a non-negative integer comes back as an unsigned one, however
    it was written. *)
Theorem mpack_write_tag_read_tag (t : mpack_tag_t) (w : mpack_writer_t) :
  tag_ok t → writer_ok w → w_error w = mpack_ok →
  ∃ w', mpack_write_tag t w = Some ((), w') ∧
    (w' = set_w_error mpack_error_too_big w ∧ w_end w < w_position w + 9 ∨
     w_error w' = mpack_ok ∧ w_end w' = w_end w ∧
     w_position w < w_position w' ≤ w_position w + 9 ∧
     ∀ r, r_mem r = w_mem w' → r_data r = w_position w → w_position w' ≤ r_end r < 2 ^ 32 →
       r_error r = mpack_ok →
       mpack_read_tag r = Some (tag_norm t, set_r_data (w_position w') r)).
Proof.
  intros Ht Hw Ho. rewrite write_tag_bytes by done. pose proof (length_tag_bytes t) as Hl.
  destruct (write_encoded_run (tag_bytes t) w Hw) as [(Hf & w' & Hr & Hwr & Hw')|[Hf Hr]];
    (eexists; split; [exact Hr|]).
  - right. pose proof Hwr as (_ & Hp & He & Ho'). split; [congruence|]. split; [done|]. split; [lia|].
    intros r Hm Hd Hre Hre2. rewrite Hp, <- Hd. apply (read_tag_bytes t []); [done|].
    rewrite app_nil_r. eapply before_wrote; eauto; lia.
  - left. unfold too_big, fits in *. rewrite bool_decide_true by done. split; [done|lia].
Qed.

Lemma mpack_write_tag_read_tag_witness :
  ∃ w', mpack_write_tag (mpack_type_int (-1000)) (mpack_writer_init (replicate 10 0) 10) = Some ((), w') ∧
    mpack_read_tag (mpack_reader_init_data (w_mem w') 0 (w_position w')) =
    Some (mpack_type_int (-1000), mk_reader (w_mem w') 3 3 mpack_ok).
Proof.
  destruct (mpack_write_tag_read_tag (mpack_type_int (-1000)) (mpack_writer_init (replicate 10 0) 10))
    as (w' & Hw & [[-> H]|(_ & _ & Hp & Hr)]).
  - cbn. lia.
  - split; [cbn; lia|split; [cbn; lia|cbn; lia]].
  - done.
  - exfalso. cbn in H. lia.
  - exists w'. split; [exact Hw|].
    vm_compute in Hw. injection Hw as <-. rewrite Hr; [done|done|done|cbn; lia|done].
Defined.

(** *** Expecting what was written *)

Section Expecting.
Implicit Types (r : mpack_reader_t) (bs rest : list Z).

(** [r] behind [n] bytes. *)
Definition behind (n : nat) r : mpack_reader_t := set_r_data (r_data r + Z.of_nat n) r.

Lemma before_rest bs rest r : before (bs ++ rest) r → before rest (behind (length bs) r).
Proof. by intros [_ ?]%before_app. Qed.

Lemma behind_0 r : behind 0 r = r.
Proof. unfold behind, set_r_data. cbn. rewrite Z.add_0_r. by destruct r. Qed.

Lemma behind_behind n k r : behind n (behind k r) = behind (k + n) r.
Proof. unfold behind, set_r_data. cbn. f_equal. lia. Qed.

Lemma read_bytes_run bs rest r :
  before (bs ++ rest) r → mpack_read_bytes (Z.of_nat (length bs)) r = Some (bs, behind (length bs) r).
Proof.
  intros Hb. pose proof (before_left _ _ Hb) as [_ Hl]. rewrite length_app in Hl.
  apply before_app in Hb as [[Hm _] _]. unfold mpack_read_bytes. st_red. rewrite bool_decide_false by lia.
  by rewrite Hm.
Qed.

Lemma expect_uint_run lo hi v rest r :
  before (tag_bytes (mpack_type_uint v) ++ rest) r → 0 ≤ v ≤ hi → v < 2 ^ 64 →
  expect_integer lo hi r = Some (v, behind (length (tag_bytes (mpack_type_uint v))) r).
Proof.
  intros Hb Hv Hm. unfold expect_integer. run (read_tag_bytes (mpack_type_uint v) rest r ltac:(simpl; lia) Hb).
  cbn [tag_norm]. by rewrite bool_decide_true by lia.
Qed.

Lemma expect_int_run lo hi v rest r :
  before (tag_bytes (mpack_type_int v) ++ rest) r → lo ≤ v ≤ hi → lo ≤ 0 → - 2 ^ 63 ≤ v < 2 ^ 63 →
  expect_integer lo hi r = Some (v, behind (length (tag_bytes (mpack_type_int v))) r).
Proof.
  intros Hb Hv Hlo Hm. unfold expect_integer. run (read_tag_bytes (mpack_type_int v) rest r ltac:(simpl; lia) Hb).
  cbn [tag_norm]. case_bool_decide; by rewrite bool_decide_true by lia.
Qed.

Lemma expect_u64_run v rest r :
  before (tag_bytes (mpack_type_uint v) ++ rest) r → 0 ≤ v < 2 ^ 64 →
  mpack_expect_u64 r = Some (v, behind (length (tag_bytes (mpack_type_uint v))) r).
Proof.
  intros Hb Hv. unfold mpack_expect_u64. by run (read_tag_bytes (mpack_type_uint v) rest r ltac:(simpl; lia) Hb).
Qed.

Lemma expect_i64_run v rest r :
  before (tag_bytes (mpack_type_int v) ++ rest) r → - 2 ^ 63 ≤ v < 2 ^ 63 →
  mpack_expect_i64 r = Some (v, behind (length (tag_bytes (mpack_type_int v))) r).
Proof.
  intros Hb Hv. unfold mpack_expect_i64. run (read_tag_bytes (mpack_type_int v) rest r ltac:(simpl; lia) Hb).
  cbn [tag_norm]. case_bool_decide; [|done]. by rewrite bool_decide_true by lia.
Qed.

Lemma expect_float_run v rest r :
  before (tag_bytes (mpack_type_float v) ++ rest) r → 0 ≤ v < 2 ^ 32 →
  mpack_expect_float r = Some (v, behind (length (tag_bytes (mpack_type_float v))) r).
Proof.
  intros Hb Hv. unfold mpack_expect_float. by run (read_tag_bytes (mpack_type_float v) rest r ltac:(simpl; lia) Hb).
Qed.

Lemma expect_double_run v rest r :
  before (tag_bytes (mpack_type_double v) ++ rest) r → 0 ≤ v < 2 ^ 64 →
  mpack_expect_double r = Some (v, behind (length (tag_bytes (mpack_type_double v))) r).
Proof.
  intros Hb Hv. unfold mpack_expect_double. by run (read_tag_bytes (mpack_type_double v) rest r ltac:(simpl; lia) Hb).
Qed.

Lemma expect_array_run n rest r :
  before (tag_bytes (mpack_type_array n) ++ rest) r → 0 ≤ n < 2 ^ 32 →
  mpack_expect_array r = Some (n, behind (length (tag_bytes (mpack_type_array n))) r).
Proof.
  intros Hb Hv. unfold mpack_expect_array. by run (read_tag_bytes (mpack_type_array n) rest r ltac:(simpl; lia) Hb).
Qed.

Lemma expect_bin_run n rest r :
  before (tag_bytes (mpack_type_bin n) ++ rest) r → 0 ≤ n < 2 ^ 32 →
  mpack_expect_bin r = Some (n, behind (length (tag_bytes (mpack_type_bin n))) r).
Proof.
  intros Hb Hv. unfold mpack_expect_bin. by run (read_tag_bytes (mpack_type_bin n) rest r ltac:(simpl; lia) Hb).
Qed.

Lemma expect_native_run n v rest r :
  before (be_bytes n v ++ rest) r → 0 ≤ v < 256 ^ Z.of_nat n →
  mpack_expect_native n r = Some (v, behind n r).
Proof.
  intros Hb Hv. unfold mpack_expect_native. run (eq_refl : get r = Some (r, r)). rewrite (reader_not_failed _ _ Hb).
  run (before_ensure _ _ (Z.of_nat n) Hb ltac:(rewrite length_app, length_be_bytes; lia)). cbn [negb].
  pose proof (before_load [] (be_bytes n v) rest r Hb) as Hl. rewrite length_be_bytes in Hl. run Hl.
  rewrite be_val_be_bytes, Z.mod_small by lia. done.
Qed.

Lemma expect_type_byte_run b rest r :
  before (b :: rest) r → mpack_expect_type_byte r = Some (b, behind 1 r).
Proof.
  intros Hb. unfold mpack_expect_type_byte, mpack_expect_native. run (eq_refl : get r = Some (r, r)).
  rewrite (reader_not_failed _ _ Hb). run (before_ensure _ _ 1 Hb ltac:(simpl; lia)). cbn [negb].
  run (before_load [] [b] rest r Hb). by rewrite be_val_singleton.
Qed.

Lemma expect_str_run l rest r :
  before (tag_bytes (mpack_type_str l) ++ rest) r → 0 ≤ l < 2 ^ 32 →
  mpack_expect_str r = Some (l, behind (length (tag_bytes (mpack_type_str l))) r).
Proof.
  cbn [tag_bytes]. intros Hb Hl. unfold mpack_expect_str. revert Hb. repeat case_bool_decide; intros Hb.
  - run (expect_type_byte_run _ _ _ Hb). rewrite shiftr_div by lia. rewrite bool_decide_true.
    + change 0x1f with (2 ^ 5 - 1). rewrite land_mask by lia. change (2 ^ 5) with 32.
      replace ((0xa0 + l) mod 32) with l by mlia. done.
    + change (2 ^ 5) with 32. mlia.
  - run (expect_type_byte_run _ _ _ Hb). change (bool_decide (Z.shiftr 0xd9 5 = 5)) with false. cbv iota.
    rewrite (expect_native_run 1 l rest) by (exact (before_rest [_] _ _ Hb) || simpl; lia).
    by rewrite behind_behind.
  - run (expect_type_byte_run _ _ _ Hb). change (bool_decide (Z.shiftr 0xda 5 = 5)) with false. cbv iota.
    rewrite (expect_native_run 2 l rest) by (exact (before_rest [_] _ _ Hb) || simpl; lia).
    by rewrite behind_behind.
  - run (expect_type_byte_run _ _ _ Hb). change (bool_decide (Z.shiftr 0xdb 5 = 5)) with false. cbv iota.
    rewrite (expect_native_run 4 l rest) by (exact (before_rest [_] _ _ Hb) || simpl; lia).
    by rewrite behind_behind.
Qed.
End Expecting.

(** ** Reading arbitrary data

    A reader over received data whose range lies in memory. *)

Definition reader_ok (r : mpack_reader_t) : Prop :=
  0 ≤ r_data r ≤ r_end r ∧ r_end r ≤ Z.of_nat (length (r_mem r)) ∧ r_end r < 2 ^ 32 ∧ bytes_ok (r_mem r).

(** What every reading operation does to the reader: the memory and the range stay
    valid, the reader only moves forward, and an error empties it for good. *)
Record moved (r r' : mpack_reader_t) : Prop := {
  moved_mem : r_mem r' = r_mem r;
  moved_ok : reader_ok r';
  moved_forward : r_error r' = mpack_ok → r_error r = mpack_ok ∧ r_end r' = r_end r ∧ r_data r ≤ r_data r';
  moved_failed : r_error r ≠ mpack_ok → r' = r;
  moved_empty : r_error r = mpack_ok → r_error r' ≠ mpack_ok → r_data r' = r_end r' ∧ r_data r ≤ r_data r' ≤ r_end r;
}.

Section Arbitrary.
Implicit Types (r : mpack_reader_t) (t : mpack_tag_t).

Lemma moved_refl r : reader_ok r → moved r r.
Proof. intros Hr. by split. Qed.

Lemma moved_trans r1 r2 r3 : moved r1 r2 → moved r2 r3 → moved r1 r3.
Proof.
  intros [M1 K1 F1 X1 E1] [M2 K2 F2 X2 E2]. split; [congruence|done| | |].
  - intros Ho. destruct (F2 Ho) as (Ho2 & ? & ?). destruct (F1 Ho2) as (? & ? & ?). split; [done|]. split; [congruence|lia].
  - intros Hn. rewrite X1 in X2 by done. rewrite (X1 Hn) in *. by apply X2.
  - intros Ho Hn. destruct (decide (r_error r2 = mpack_ok)) as [Ho2|Hn2].
    + destruct (F1 Ho2) as (_ & He & Hd). destruct (E2 Ho2 Hn). split; [done|lia].
    + rewrite (X2 Hn2). by apply E1.
Qed.

Lemma reader_left_ok r : reader_ok r → reader_left r = r_end r - r_data r.
Proof. intros (? & ? & ? & _). unfold reader_left. apply Z.mod_small. lia. Qed.

Lemma flag_moved e r : reader_ok r → e ≠ mpack_ok → moved r (flag_error e r) ∧ r_error (flag_error e r) ≠ mpack_ok.
Proof.
  intros (H1 & H2 & H3 & H4) He. unfold flag_error. case_bool_decide as Ho; [|by split; [apply moved_refl|]].
  split; [|done]. split; simpl; try done; [unfold reader_ok; simpl; split; [lia|split; [lia|split; [lia|done]]]|].
  intros _ _. lia.
Qed.

Lemma advance_moved n r :
  reader_ok r → r_error r = mpack_ok → 0 ≤ n ≤ r_end r - r_data r → moved r (set_r_data (r_data r + n) r).
Proof.
  intros (H1 & H2 & H3 & H4) Ho Hn. split; simpl; try done; [|intros; split; [done|lia]].
  unfold reader_ok; simpl. split; [lia|]. done.
Qed.

Lemma ensure_moved n r :
  reader_ok r → r_error r = mpack_ok → 0 ≤ n →
  (n ≤ r_end r - r_data r ∧ mpack_reader_ensure n r = Some (true, r)) ∨
  (mpack_reader_ensure n r = Some (false, flag_error mpack_error_invalid r)).
Proof.
  intros Hr Ho Hn. unfold mpack_reader_ensure, mpack_reader_flag_error. st_red. rewrite reader_left_ok by done.
  case_bool_decide; [by left|by right].
Qed.

Lemma load_range n off r :
  reader_ok r → 0 ≤ off → off + Z.of_nat n ≤ r_end r - r_data r →
  ∃ v, mpack_load n off r = Some (v, r) ∧ 0 ≤ v < 256 ^ Z.of_nat n.
Proof.
  intros (H1 & H2 & H3 & H4) Ho Hn. unfold mpack_load. st_red.
  destruct (mem_read_is_Some (r_mem r) (r_data r + off) (Z.of_nat n)) as [bs Hb]; [lia..|]. rewrite Hb.
  eexists; split; [done|]. pose proof (mem_read_length _ _ _ _ Hb) as Hl.
  pose proof (be_val_bound bs (mem_read_bytes_ok _ _ _ _ H4 Hb)) as Hv.
  by replace n with (length bs) by lia.
Qed.

(** Three kinds of type bytes. *)
Lemma parse_type_shape b :
  0 ≤ b < 256 →
  (∃ t, mpack_parse_type b = mret (1, t) ∧ tag_ok t) ∨
  (∃ n make, (1 ≤ n ≤ 8)%nat ∧ mpack_parse_type b = parse_sized n make ∧
     ∀ v, 0 ≤ v < 256 ^ Z.of_nat n → tag_ok (make v)) ∨
  (∃ e, e ≠ mpack_ok ∧ mpack_parse_type b = parse_error e).
Proof.
  intros Hb.
  destruct (decide (b ≤ 127)); [left; eexists; split; [by apply parse_type_uint; lia|cbn; lia]|].
  destruct (decide (0xe0 ≤ b)); [left; eexists; split; [by apply parse_type_int; lia|cbn; lia]|].
  destruct (decide (b ≤ 0x8f)).
  { left. replace b with (0x80 + (b - 0x80)) by lia. eexists; split; [by apply parse_type_map; lia|cbn; lia]. }
  destruct (decide (b ≤ 0x9f)).
  { left. replace b with (0x90 + (b - 0x90)) by lia. eexists; split; [by apply parse_type_array; lia|cbn; lia]. }
  destruct (decide (b ≤ 0xbf)).
  { left. replace b with (0xa0 + (b - 0xa0)) by lia. eexists; split; [by apply parse_type_str; lia|cbn; lia]. }
  assert (Hrange : b ∈ seqZ 0xc0 32) by (apply elem_of_seqZ; lia).
  clear - Hrange. cbv -[elem_of] in Hrange.
  repeat (apply elem_of_cons in Hrange as [->|Hrange]);
    try (by apply not_elem_of_nil in Hrange);
    first [left; eexists; split; [reflexivity|done]
          |right; right; eexists; split; [|reflexivity]; done
          |right; left; eexists _, _; split; [|split; [reflexivity|]]; [lia|]].
  all: intros v Hv; simpl in Hv; cbn [tag_ok]; try lia.
  all: unfold s8, s16, s32, s64, swrap, wrap; simpl; mlia.
Qed.
Lemma parse_tag_total r :
  reader_ok r → r_error r = mpack_ok →
  (∃ n t, mpack_parse_tag r = Some ((n, t), r) ∧ 0 < n ≤ r_end r - r_data r ∧ tag_ok t) ∨
  (∃ e, e ≠ mpack_ok ∧ mpack_parse_tag r = Some ((0, mpack_type_nil), flag_error e r)).
Proof.
  intros Hr Ho. unfold mpack_parse_tag.
  destruct (ensure_moved 1 r Hr Ho ltac:(lia)) as [[H1 He]|He]; run He; [cbn [negb]|right; by exists mpack_error_invalid].
  destruct (load_range 1 0 r Hr ltac:(lia) ltac:(lia)) as (b & Hl & Hb). run Hl. change (256 ^ Z.of_nat 1) with 256 in Hb.
  destruct (parse_type_shape b Hb) as [(t & Hp & Ht)|[(n & make & Hn & Hp & Ht)|(e & Hne & Hp)]]; rewrite Hp.
  - left. by exists 1, t.
  - unfold parse_sized. destruct (ensure_moved (Z.of_nat n + 1) r Hr Ho ltac:(lia)) as [[H2 He2]|He2];
      run He2; [|right; by exists mpack_error_invalid].
    destruct (load_range n 1 r Hr ltac:(lia) ltac:(lia)) as (v & Hv & Hvr). run Hv.
    left. eexists _, _. split; [done|]. split; [lia|by apply Ht].
  - right. exists e. by split.
Qed.

Lemma read_tag_total r :
  reader_ok r →
  ∃ t r', mpack_read_tag r = Some (t, r') ∧ moved r r' ∧
    (r_error r' = mpack_ok → tag_ok t ∧ r_data r < r_data r').
Proof.
  intros Hr. unfold mpack_read_tag, mpack_reader_failed. run (eq_refl : get r = Some (r, r)).
  case_bool_decide as Ho; [eexists _, r; split; [done|]; split; [by apply moved_refl|done]|].
  assert (r_error r = mpack_ok) as Ho' by (by destruct (decide (r_error r = mpack_ok))).
  destruct (parse_tag_total r Hr Ho') as [(n & t & Hp & Hn & Ht)|(e & Hne & Hp)]; run Hp.
  - rewrite bool_decide_false by lia. eexists _, _. split; [done|]. split; [by apply advance_moved; [..|lia]|].
    intros _. split; [done|simpl; lia].
  - eexists _, _. split; [done|]. destruct (flag_moved e r Hr Hne). by split.
Qed.

Lemma skip_bytes_total n r :
  reader_ok r → 0 ≤ n → ∃ r', mpack_skip_bytes n r = Some ((), r') ∧ moved r r'.
Proof.
  intros Hr Hn. unfold mpack_skip_bytes, mpack_reader_flag_error, mpack_reader_failed. st_red.
  case_bool_decide as Ho; [exists r; split; [done|by apply moved_refl]|].
  rewrite reader_left_ok by done. case_bool_decide.
  - eexists; split; [done|]. apply advance_moved; [done| |lia]. by destruct (decide (r_error r = mpack_ok)).
  - eexists; split; [done|]. by apply flag_moved.
Qed.

(** The bytes still to be read. *)
Definition remaining r : nat := Z.to_nat (r_end r - r_data r).

(** One discarded element: at least one byte is read. *)
Definition discards (d : ST mpack_reader_t ()) r : Prop :=
  ∃ r', d r = Some ((), r') ∧ moved r r' ∧ (r_error r' = mpack_ok → r_data r < r_data r').

Lemma discard_loop_total d (m fuel : nat) n r :
  (∀ r', reader_ok r' → (remaining r' ≤ m)%nat → discards d r') →
  reader_ok r → (remaining r ≤ m)%nat → (remaining r + 1 < fuel)%nat →
  ∃ r', discard_loop d fuel n r = Some ((), r') ∧ moved r r'.
Proof.
  intros Hd. revert n r. induction fuel as [|fuel IH]; intros n r Hr Hm Hf; [lia|]. cbn [discard_loop].
  case_bool_decide as Hn; [exists r; split; [done|by apply moved_refl]|].
  destruct (Hd r Hr Hm) as (r1 & Hr1 & Hm1 & Hp). run Hr1. unfold mpack_reader_failed. st_red.
  case_bool_decide as Ho; [by exists r1|].
  assert (r_error r1 = mpack_ok) as Ho' by (by destruct (decide (r_error r1 = mpack_ok))).
  pose proof (Hp Ho'). destruct (moved_forward _ _ Hm1 Ho') as (_ & He & _).
  assert (remaining r1 < remaining r)%nat.
  { unfold remaining. destruct (moved_ok _ _ Hm1) as [? _]. lia. }
  destruct (IH (n - 1) r1 (moved_ok _ _ Hm1)) as (r2 & Hr2 & Hm2); [lia..|].
  exists r2. split; [done|]. by eapply moved_trans.
Qed.

Lemma discards_twice d r (m : nat) :
  (∀ r', reader_ok r' → (remaining r' ≤ m)%nat → discards d r') →
  reader_ok r → (remaining r ≤ m)%nat → discards (d;; d) r.
Proof.
  intros Hd Hr Hm. destruct (Hd r Hr Hm) as (r1 & Hr1 & Hm1 & Hp1).
  assert (remaining r1 ≤ m)%nat as Hm'.
  { destruct (decide (r_error r1 = mpack_ok)) as [Ho|Ho].
    - destruct (moved_forward _ _ Hm1 Ho) as (_ & He & ?). unfold remaining in *. lia.
    - destruct (decide (r_error r = mpack_ok)) as [Ho2|Ho2]; [|by rewrite (moved_failed _ _ Hm1 Ho2)].
      destruct (moved_empty _ _ Hm1 Ho2 Ho) as [He _]. unfold remaining in *. lia. }
  destruct (Hd r1 (moved_ok _ _ Hm1) Hm') as (r2 & Hr2 & Hm2 & Hp2).
  exists r2. split; [by run Hr1|]. split; [by eapply moved_trans|]. intros Ho.
  destruct (moved_forward _ _ Hm2 Ho) as (Ho1 & _ & Hd2). pose proof (Hp1 Ho1). lia.
Qed.

Lemma discard_fuel_total fuel r :
  reader_ok r → (remaining r < fuel)%nat → discards (mpack_discard_fuel fuel) r.
Proof.
  revert r. induction fuel as [|fuel IH]; intros r Hr Hf; [lia|]. unfold discards. cbn [mpack_discard_fuel].
  destruct (read_tag_total r Hr) as (t & r1 & Ht & Hm1 & Hp). run Ht. unfold mpack_reader_failed.
  run (eq_refl : get r1 = Some (r1, r1)). case_bool_decide as Ho.
  { exists r1. split; [done|]. by split. }
  assert (r_error r1 = mpack_ok) as Ho' by (by destruct (decide (r_error r1 = mpack_ok))).
  destruct (Hp Ho') as [Hok Hd]. destruct (moved_forward _ _ Hm1 Ho') as (_ & He & _).
  pose proof (moved_ok _ _ Hm1) as Hr1.
  assert (remaining r1 < remaining r)%nat as Hlt by (destruct Hr1 as [? _]; unfold remaining; lia).
  assert (Hrest : ∀ m, (∃ r', m r1 = Some ((), r') ∧ moved r1 r') →
    ∃ r', m r1 = Some ((), r') ∧ moved r r' ∧ (r_error r' = mpack_ok → r_data r < r_data r')).
  { intros m (r2 & Hr2 & Hm2). exists r2. split; [done|]. split; [by eapply moved_trans|].
    intros Ho2. destruct (moved_forward _ _ Hm2 Ho2) as (_ & _ & ?). lia. }
  assert (Hsub : ∀ r', reader_ok r' → (remaining r' ≤ remaining r1)%nat → discards (mpack_discard_fuel fuel) r').
  { intros r' Hr' Hle. apply IH; [done|lia]. }
  destruct t as [| | | | | |l|l|n|n]; apply Hrest; cbn [tag_ok] in Hok;
    try (exists r1; split; [done|by apply moved_refl]); try (apply skip_bytes_total; [done|lia]).
  - apply (discard_loop_total _ (remaining r1)); [done..|lia|lia].
  - apply (discard_loop_total _ (remaining r1)); [|done|lia|lia]. intros r' Hr' Hle. by eapply discards_twice.
Qed.
End Arbitrary.

(** C39: [mpack_discard] terminates on any received data, however deeply nested or
    however large the counts in it are, without reading outside the data: it leaves the
    memory alone and the reader either moves forward by at least one byte, still inside
    its data, or has an error and no bytes left, so that a loop over the reader ends. *)
Theorem mpack_discard_total (r : mpack_reader_t) :
  reader_ok r →
  ∃ r', mpack_discard r = Some ((), r') ∧ r_mem r' = r_mem r ∧ reader_ok r' ∧
    (r_error r' = mpack_ok → r_error r = mpack_ok ∧ r_end r' = r_end r ∧ r_data r < r_data r' ≤ r_end r) ∧
    (r_error r = mpack_ok → r_error r' ≠ mpack_ok → r_data r' = r_end r').
Proof.
  intros Hr. destruct (discard_fuel_total (S (remaining r)) r Hr ltac:(lia)) as (r' & Hd & Hm & Hp).
  exists r'. split; [exact Hd|]. split; [by apply moved_mem|]. split; [by apply (moved_ok r)|]. split.
  - intros Ho. destruct (moved_forward _ _ Hm Ho) as (? & He & _). destruct (moved_ok _ _ Hm) as [? _].
    pose proof (Hp Ho). split; [done|]. split; [done|lia].
  - intros Ho Hn. by apply (moved_empty _ _ Hm).
Qed.

Lemma mpack_discard_total_witness :
  ∃ r', mpack_discard (mpack_reader_init_data [0x92; 0x92; 1; 2; 0xdd; 0xff; 0xff; 0xff; 0xff; 7] 0 10) = Some ((), r') ∧
    r_error r' = mpack_error_invalid ∧ r_data r' = r_end r'.
Proof.
  destruct (mpack_discard_total (mpack_reader_init_data [0x92; 0x92; 1; 2; 0xdd; 0xff; 0xff; 0xff; 0xff; 7] 0 10))
    as (r' & Hd & _ & _ & _ & He).
  - split; [cbn; lia|]. split; [cbn; lia|]. split; [cbn; lia|]. apply (bool_decide_unpack _). vm_compute. done.
  - exists r'. split; [exact Hd|]. vm_compute in Hd. injection Hd as <-. done.
Defined.
