(* ===== verification/Text.v ===== *)
(** * Text

    What the program uses of the C library to write and read text: [printf]'s conversions
    of integers and floating-point numbers, [snprintf], [sscanf] and [strtol].  Where the
    standard leaves a case open (a number out of range, an exponent without digits) the
    definitions follow glibc, which the target runs. *)

From S2P Require Import Prelude.
#[local] Open Scope Z_scope.

(** ** Decimal numbers *)

(** [%u] and [%d] of a number that is not negative. *)
Fixpoint digits_loop (fuel : nat) (n : Z) (acc : list Z) : list Z :=
  match fuel with
  | O => acc
  | S fuel' =>
      let acc := (48 + n mod 10) :: acc in
      if bool_decide (n / 10 = 0) then acc else digits_loop fuel' (n / 10) acc
  end.
Definition decimal (n : Z) : list Z := digits_loop 20 n [].

(** [%d] of [fscanf]: white space, a sign, digits; [None] when there are none. *)
Definition is_digit (c : Z) : bool := bool_decide (48 ≤ c ≤ 57).
Definition is_space (c : Z) : bool := bool_decide (c = 32 ∨ 9 ≤ c ≤ 13).
Fixpoint skip_space (bs : list Z) : list Z :=
  match bs with c :: bs' => if is_space c then skip_space bs' else bs | [] => [] end.
Fixpoint scan_digits (acc : Z) (bs : list Z) : Z :=
  match bs with c :: bs' => if is_digit c then scan_digits (acc * 10 + (c - 48)) bs' else acc | [] => acc end.
Definition scan_number (bs : list Z) : option Z :=
  match bs with c :: _ => if is_digit c then Some (scan_digits 0 bs) else None | [] => None end.
Definition scan_int (bs : list Z) : option Z :=
  match skip_space bs with
  | 45 :: bs' => Z.opp <$> scan_number bs'
  | 43 :: bs' => scan_number bs'
  | bs' => scan_number bs'
  end.

(** [fgets] into an array of [n] characters: a line, or as much of it as fits. *)
Fixpoint fgets (n : nat) (bs : list Z) : list Z * list Z :=
  match n, bs with
  | S (S n'), c :: bs' =>
      if bool_decide (c = 10) then ([c], bs')
      else let '(line, rest) := fgets (S n') bs' in (c :: line, rest)
  | _, _ => ([], bs)
  end.

(** The characters of a string before its terminator. *)
Fixpoint until_nul (bs : list Z) : list Z :=
  match bs with c :: bs' => if bool_decide (c = 0) then [] else c :: until_nul bs' | [] => [] end.

(** [strlen] *)
Fixpoint c_strlen (m : list Z) : option Z :=
  match m with
  | [] => None
  | c :: m' => if bool_decide (c = 0) then Some 0 else n ← c_strlen m'; Some (n + 1)
  end.

(** [%d] of any number, [%X] and [%x]. *)
Definition signed_decimal (n : Z) : list Z := if bool_decide (n < 0) then 45 :: decimal (- n) else decimal n.

Definition hex_digit (upper : bool) (d : Z) : Z :=
  if bool_decide (d < 10) then 48 + d else (if upper then 55 else 87) + d.
Fixpoint hex_loop (upper : bool) (fuel : nat) (n : Z) (acc : list Z) : list Z :=
  match fuel with
  | O => acc
  | S fuel' =>
      let acc := hex_digit upper (n mod 16) :: acc in
      if bool_decide (n / 16 = 0) then acc else hex_loop upper fuel' (n / 16) acc
  end.
Definition hexadecimal (upper : bool) (n : Z) : list Z := hex_loop upper 16 n [].

(** The widths of [%3u], [%-2u], [%02X]. *)
Definition pad_left (fill : Z) (w : nat) (l : list Z) : list Z := replicate (w - length l) fill ++ l.
Definition pad_right (w : nat) (l : list Z) : list Z := l ++ replicate (w - length l) 32.

(** [snprintf] into the memory [m] at [off]: nothing for a size of 0, otherwise what fits
    of the text and a terminator.  A negative [int] is an enormous [size_t]. *)
Definition snprintf (m : list Z) (off size : Z) (text : list Z) : option (list Z) :=
  if bool_decide (u64 size = 0) then Some m
  else mem_write m off (take (Z.to_nat (Z.min (u64 size - 1) (Z.of_nat (length text)))) text ++ [0]).

(** ** [sscanf]

    A scanner is a computation on the characters that are left; it is [None] when the
    input does not match. *)

Fixpoint span (f : Z → bool) (l : list Z) : list Z * list Z :=
  match l with
  | c :: l' => if f c then let '(a, b) := span f l' in (c :: a, b) else ([], l)
  | [] => ([], [])
  end.

Definition is_xdigit (c : Z) : bool := is_digit c || bool_decide (65 ≤ c ≤ 70 ∨ 97 ≤ c ≤ 102).
Definition xdigit_value (c : Z) : Z := if is_digit c then c - 48 else if bool_decide (c ≤ 70) then c - 55 else c - 87.
Definition number (base : Z) (ds : list Z) : Z := foldl (λ acc c, acc * base + xdigit_value c) 0 ds.

Definition scan_space : ST (list Z) () := modify skip_space.
Definition scan_char (c : Z) : ST (list Z) () := λ bs,
  match bs with b :: bs' => if bool_decide (b = c) then Some ((), bs') else None | [] => None end.
Definition scan_span (f : Z → bool) : ST (list Z) (list Z) := λ bs, Some (span f bs).
Definition scan_some (f : Z → bool) : ST (list Z) (list Z) :=
  ds ← scan_span f; match ds with [] => ub | _ => mret ds end.
Definition scan_sign : ST (list Z) bool := λ bs,
  match bs with
  | c :: bs' => if bool_decide (c = 45) then Some (true, bs') else if bool_decide (c = 43) then Some (false, bs')
                else Some (false, bs)
  | [] => Some (false, bs)
  end.

(** The ranges of [strtoul] and [strtol], which [sscanf] converts with. *)
Definition strtoul_value (neg : bool) (n : Z) : Z :=
  if bool_decide (2 ^ 64 ≤ n) then 2 ^ 64 - 1 else if neg then u64 (- n) else n.
Definition strtol_value (neg : bool) (n : Z) : Z :=
  Z.max (- 2 ^ 63) (Z.min (2 ^ 63 - 1) (if neg then - n else n)).

(** [%u], [%d] and [%x] before the conversion to the width of the argument. *)
Definition scan_u : ST (list Z) Z :=
  scan_space;; neg ← scan_sign; ds ← scan_some is_digit; mret (strtoul_value neg (number 10 ds)).
Definition scan_d : ST (list Z) Z :=
  scan_space;; neg ← scan_sign; ds ← scan_some is_digit; mret (strtol_value neg (number 10 ds)).
Definition skip_0x (bs : list Z) : list Z :=
  match bs with
  | 48 :: x :: bs' => if bool_decide (x = 120 ∨ x = 88) then 48 :: bs' else bs
  | _ => bs
  end.
Definition scan_x : ST (list Z) Z :=
  scan_space;; neg ← scan_sign; modify skip_0x;; ds ← scan_some is_xdigit;
  mret (strtoul_value neg (number 16 ds)).
(** [%14s]: at most [n] characters that are not white space. *)
Definition scan_s (n : nat) : ST (list Z) (list Z) :=
  scan_space;; bs ← get;
  let word := take n (span (λ c, negb (is_space c)) bs).1 in
  match word with [] => ub | _ => put (drop (length word) bs);; mret word end.

(** ** Parts of a text *)

(** [strtok_r] with the separator [sep]: the parts between separators that are not empty. *)
Fixpoint strtok (sep : Z) (cur : list Z) (bs : list Z) : list (list Z) :=
  match bs with
  | [] => match cur with [] => [] | _ => [rev cur] end
  | c :: bs' =>
      if bool_decide (c = sep) then match cur with [] => strtok sep [] bs' | _ => rev cur :: strtok sep [] bs' end
      else strtok sep (c :: cur) bs'
  end.

(** Parts separated by commas. *)
Fixpoint joined (ts : list (list Z)) : list Z :=
  match ts with
  | [] => []
  | [t] => t
  | t :: ts' => t ++ 44 :: joined ts'
  end.

(** ** Floating-point numbers

    The bits of a [float] or [double], printed and read exactly: a finite number is the
    fraction [num / den], and every result is rounded to nearest, ties to even. *)

Record fl_format := mk_fl { fl_mant : Z; fl_exp : Z }.
Definition FLT : fl_format := mk_fl 23 8.
Definition DBL : fl_format := mk_fl 52 11.

Inductive fl_value :=
  | fl_nan
  | fl_inf
  | fl_finite (num den : Z).

(** The exponent of the last place of subnormal numbers. *)
Definition fl_emin (f : fl_format) : Z := 2 - 2 ^ (fl_exp f - 1) - fl_mant f.

Definition fl_negative (f : fl_format) (bits : Z) : bool := Z.testbit bits (fl_mant f + fl_exp f).
Definition fl_abs (f : fl_format) (bits : Z) : fl_value :=
  let m := Z.land bits (2 ^ fl_mant f - 1) in
  let e := Z.land (Z.shiftr bits (fl_mant f)) (2 ^ fl_exp f - 1) in
  if bool_decide (e = 2 ^ fl_exp f - 1) then if bool_decide (m = 0) then fl_inf else fl_nan
  else
    let m := if bool_decide (e = 0) then m else m + 2 ^ fl_mant f in
    let e := fl_emin f + Z.max 0 (e - 1) in
    fl_finite (m * 2 ^ Z.max 0 e) (2 ^ Z.max 0 (- e)).

(** [fabs(val) < bound && val != 0] for a positive bound, itself a [double]. *)
Definition fl_tiny (f : fl_format) (bits bound : Z) : bool :=
  match fl_abs f bits, fl_abs DBL bound with
  | fl_finite n d, fl_finite bn bd => bool_decide (n * bd < bn * d) && bool_decide (n ≠ 0)
  | _, _ => false
  end.

Definition round_half_even (num den : Z) : Z :=
  let q := num / den in
  let r := num mod den in
  if bool_decide (2 * r < den) then q
  else if bool_decide (den < 2 * r) then q + 1
  else if Z.even q then q else q + 1.

(** [num / den * 10^k], rounded. *)
Definition scaled (num den k : Z) : Z := round_half_even (num * 10 ^ Z.max 0 k) (den * 10 ^ Z.max 0 (- k)).

(** All the digits of the largest [double] need 309 places. *)
Definition long_decimal (n : Z) : list Z := digits_loop 330 n [].
Definition fl_sign (f : fl_format) (bits : Z) : list Z := if fl_negative f bits then [45] else [].

(** [%.pf] *)
Definition print_f (f : fl_format) (p bits : Z) : list Z :=
  fl_sign f bits ++
  match fl_abs f bits with
  | fl_nan => [110; 97; 110]
  | fl_inf => [105; 110; 102]
  | fl_finite num den =>
      let n := scaled num den p in
      long_decimal (n / 10 ^ p) ++ [46] ++ pad_left 48 (Z.to_nat p) (decimal (n mod 10 ^ p))
  end.

(** [%.pe] of a number that is not zero: the first decimal exponent, from below the
    smallest subnormal on, whose digits have one place before the point. *)
Fixpoint first_exponent (fuel : nat) (num den p k : Z) : Z :=
  match fuel with
  | O => k
  | S fuel' =>
      if bool_decide (scaled num den (p - k) < 10 ^ (p + 1)) then k else first_exponent fuel' num den p (k + 1)
  end.
Definition print_e (f : fl_format) (p bits : Z) : list Z :=
  fl_sign f bits ++
  match fl_abs f bits with
  | fl_nan => [110; 97; 110]
  | fl_inf => [105; 110; 102]
  | fl_finite num den =>
      let k := first_exponent 700 num den p (-340) in
      let n := scaled num den (p - k) in
      decimal (n / 10 ^ p) ++ [46] ++ pad_left 48 (Z.to_nat p) (decimal (n mod 10 ^ p)) ++ [101] ++
      [if bool_decide (k < 0) then 45 else 43] ++ pad_left 48 2 (decimal (Z.abs k))
  end.

(** The bits of the number nearest to [num / den]. *)
Definition fl_round (f : fl_format) (num den : Z) : Z :=
  if bool_decide (num = 0) then 0 else
  let l := Z.log2 num - Z.log2 den in
  let l := if bool_decide (num * 2 ^ Z.max 0 (- l) < den * 2 ^ Z.max 0 l) then l - 1 else l in
  let e := Z.max (fl_emin f) (l - fl_mant f) in
  let m := round_half_even (num * 2 ^ Z.max 0 (- e)) (den * 2 ^ Z.max 0 e) in
  Z.min ((2 ^ fl_exp f - 1) * 2 ^ fl_mant f) ((e - fl_emin f) * 2 ^ fl_mant f + m).

(** [%f] and [%lf] on a text of digits, signs, points and exponents: an exponent without
    digits is not part of the number. *)
Definition scan_exponent : ST (list Z) Z := λ bs,
  match bs with
  | c :: bs' =>
      if bool_decide (c = 101 ∨ c = 69) then
        match (neg ← scan_sign; ds ← scan_some is_digit; mret (if neg : bool then - number 10 ds else number 10 ds)) bs' with
        | Some r => Some r
        | None => Some (0, bs)
        end
      else Some (0, bs)
  | [] => Some (0, bs)
  end.
Definition scan_f (f : fl_format) : ST (list Z) Z :=
  scan_space;; neg ← scan_sign;
  ip ← scan_span is_digit;
  bs ← get;
  fp ← match scan_char 46 bs with Some (_, bs') => put bs';; scan_span is_digit | None => mret [] end;
  match ip ++ fp with
  | [] => ub
  | ds =>
      e ← scan_exponent;
      let k := e - Z.of_nat (length fp) in
      let bits := fl_round f (number 10 ds * 10 ^ Z.max 0 k) (10 ^ Z.max 0 (- k)) in
      mret ((if neg : bool then 2 ^ (fl_mant f + fl_exp f) else 0) + bits)
  end.

(** 3.14f, -0.5, the smallest [double] and [FLT_MAX]. *)
Example print_f_pi : print_f FLT 6 0x4048F5C3 = [51; 46; 49; 52; 48; 48; 48; 48].
Proof. vm_compute. reflexivity. Qed.
Example print_e_smallest : print_e DBL 15 1 = [52; 46; 57; 52; 48; 54; 53; 54; 52; 53; 56; 52; 49; 50; 52; 54; 53; 101; 45; 51; 50; 52].
Proof. vm_compute. reflexivity. Qed.
Example scan_f_values :
  (λ t, fst <$> scan_f FLT t) <$> [[51; 46; 49; 52]; [45; 46; 53]; [49; 101; 57; 57]; [53; 101; 43]; [46]] =
    [Some 0x4048F5C3; Some 0xBF000000; Some 0x7F800000; Some 0x40A00000; None].
Proof. vm_compute. reflexivity. Qed.
Example scan_f_double : fst <$> scan_f DBL [49; 101; 45; 53] = Some 0x3EE4F8B588E368F1.
Proof. vm_compute. reflexivity. Qed.

(** ** Laws of decimal numbers *)

Lemma scan_digits_loop fuel n acc :
  (0 < fuel)%nat → 0 ≤ n < 10 ^ Z.of_nat fuel → scan_digits 0 (digits_loop fuel n acc) = scan_digits n acc.
Proof.
  revert n acc. induction fuel as [|fuel IH]; intros n acc Hf Hn; [lia|]. cbn [digits_loop].
  assert (is_digit (48 + n mod 10) = true) as Hd by (apply bool_decide_eq_true; mlia).
  rewrite Nat2Z.inj_succ, Z.pow_succ_r in Hn by lia. case_bool_decide as H0.
  - cbn [scan_digits]. rewrite Hd. f_equal. mlia.
  - destruct fuel as [|fuel]; [cbn in Hn; mlia|]. rewrite IH by (try lia; mlia). cbn [scan_digits]. rewrite Hd. f_equal. mlia.
Qed.

Lemma digits_loop_head fuel n acc :
  (0 < fuel)%nat → 0 ≤ n → ∃ c l, digits_loop fuel n acc = c :: l ∧ is_digit c = true.
Proof.
  revert n acc. induction fuel as [|fuel IH]; intros n acc Hf Hn; [lia|]. cbn [digits_loop].
  assert (is_digit (48 + n mod 10) = true) as Hd by (apply bool_decide_eq_true; mlia).
  case_bool_decide as H0; [by eexists _, _|]. destruct fuel as [|fuel]; [by eexists _, _|]. apply IH; [lia|mlia].
Qed.

(** A number written with [%d] is read back by [fscanf]. *)
Lemma scan_int_decimal n : 0 ≤ n < 10 ^ 20 → scan_int (decimal n) = Some n.
Proof.
  intros Hn. unfold scan_int, decimal.
  destruct (digits_loop_head 20 n [] ltac:(lia) ltac:(lia)) as (c & l & Hl & Hd).
  pose proof (scan_digits_loop 20 n [] ltac:(lia) Hn) as Hs. rewrite Hl in Hs |- *.
  apply bool_decide_eq_true in Hd as Hr. cbn [skip_space].
  assert (is_space c = false) as -> by (apply bool_decide_eq_false; lia).
  assert (Hc : scan_number (c :: l) = Some n) by (cbn [scan_number]; rewrite Hd, Hs; done).
  destruct c as [|c|c]; [lia| |lia]. do 6 (destruct c as [c|c|]; try exact Hc); lia.
Qed.

Lemma length_digits_loop fuel n acc (k : nat) :
  (0 < k)%nat → 0 ≤ n < 10 ^ Z.of_nat k → (List.length (digits_loop fuel n acc) ≤ k + List.length acc)%nat.
Proof.
  revert n acc k. induction fuel as [|fuel IH]; intros n acc k Hk Hn; [cbn; lia|]. cbn [digits_loop].
  case_bool_decide as H0; [cbn; lia|]. destruct k as [|[|k]]; [lia|cbn in Hn; mlia|].
  rewrite Nat2Z.inj_succ, Z.pow_succ_r in Hn by lia.
  specialize (IH (n / 10) ((48 + n mod 10) :: acc) (S k) ltac:(lia) ltac:(mlia)). cbn [List.length] in IH. lia.
Qed.

Lemma length_decimal n (k : nat) : (0 < k)%nat → 0 ≤ n < 10 ^ Z.of_nat k → (List.length (decimal n) ≤ k)%nat.
Proof. intros Hk Hn. pose proof (length_digits_loop 20 n [] k Hk Hn). cbn in *. unfold decimal. lia. Qed.


Lemma c_strlen_app (nm rest : list Z) : Forall (λ x, x ≠ 0) nm → c_strlen (nm ++ 0 :: rest) = Some (Z.of_nat (length nm)).
Proof.
  induction 1 as [|x nm Hx _ IH]; [done|]. cbn [c_strlen app]. rewrite bool_decide_false by done. rewrite IH.
  unfold mbind, option_bind. f_equal. simpl length. lia.
Qed.

Lemma until_nul_app (text rest : list Z) : Forall (λ x, x ≠ 0) text → until_nul (text ++ 0 :: rest) = text.
Proof. induction 1 as [|x l Hx _ IH]; [done|]. cbn. rewrite bool_decide_false by done. by rewrite IH. Qed.

Lemma strtok_part (l rest cur : list Z) : Forall (λ c, c ≠ 44) l → rev cur ++ l ≠ [] →
  strtok 44 cur (l ++ 44 :: rest) = (rev cur ++ l) :: strtok 44 [] rest ∧ strtok 44 cur l = [rev cur ++ l].
Proof.
  intros Hl. revert cur. induction Hl as [|c l Hc _ IH]; intros cur Hne.
  - rewrite app_nil_r in *. cbn. destruct cur; [done|done].
  - cbn [strtok app]. rewrite !bool_decide_false by done.
    destruct (IH (c :: cur)) as [-> ->]; [cbn; by destruct (rev cur)|]. cbn [rev]. by rewrite <- app_assoc.
Qed.

Lemma strtok_joined (ts : list (list Z)) :
  Forall (λ l, Forall (λ c, c ≠ 44) l ∧ l ≠ []) ts → strtok 44 [] (joined ts) = ts.
Proof.
  induction 1 as [|l ts [Hc Hne] _ IH]; [done|]. destruct (strtok_part l (joined ts) [] Hc Hne) as [H1 H2].
  destruct ts as [|l' ts]; [exact H2|]. change (joined (l :: l' :: ts)) with (l ++ 44 :: joined (l' :: ts)).
  rewrite H1, IH. done.
Qed.

Lemma joined_chars (P : Z → Prop) (ts : list (list Z)) : P 44 → Forall (Forall P) ts → Forall P (joined ts).
Proof.
  intros Hc. induction 1 as [|l ts Hl Hts IH]; [constructor|]. destruct ts as [|l' ts]; [done|].
  change (joined (l :: l' :: ts)) with (l ++ 44 :: joined (l' :: ts)). apply Forall_app. split; [done|]. by constructor.
Qed.

(** ** Laws of the scanners *)

Section Scanners.
Lemma span_all f l rest :
  Forall (λ c, f c = true) l → (∀ c rest', rest = c :: rest' → f c = false) → span f (l ++ rest) = (l, rest).
Proof.
  induction 1 as [|c l Hc _ IH]; intros Hr; cbn [span app].
  - destruct rest as [|c rest]; [done|]. cbn [span]. by rewrite (Hr c rest).
  - by rewrite Hc, IH.
Qed.

Lemma span_whole f l : Forall (λ c, f c = true) l → span f l = (l, []).
Proof. intros H. rewrite <- (app_nil_r l) at 1. by apply span_all. Qed.

Lemma scan_some_run f l rest :
  l ≠ [] → Forall (λ c, f c = true) l → (∀ c rest', rest = c :: rest' → f c = false) →
  scan_some f (l ++ rest) = Some (l, rest).
Proof.
  intros Hl Ha Hr. unfold scan_some. erewrite ST_bind_run; [|unfold scan_span; by rewrite span_all].
  by destruct l.
Qed.

Lemma digits_loop_digits fuel n acc :
  Forall (λ c, is_digit c = true) acc → Forall (λ c, is_digit c = true) (digits_loop fuel n acc).
Proof.
  revert n acc. induction fuel as [|fuel IH]; intros n acc Ha; [done|]. cbn [digits_loop].
  assert (is_digit (48 + n mod 10) = true) by (apply bool_decide_eq_true; mlia).
  case_bool_decide; [by constructor|]. apply IH. by constructor.
Qed.

Lemma decimal_digits n : Forall (λ c, is_digit c = true) (decimal n).
Proof. by apply digits_loop_digits. Qed.

Lemma digits_loop_nonempty fuel n acc : (0 < fuel)%nat → digits_loop fuel n acc ≠ [].
Proof.
  revert n acc. induction fuel as [|fuel IH]; intros n acc Hf; [lia|]. cbn [digits_loop].
  case_bool_decide; [done|]. destruct fuel; [done|]. apply IH. lia.
Qed.

Lemma decimal_nonempty n : decimal n ≠ [].
Proof. apply digits_loop_nonempty. lia. Qed.

Lemma number_digits_loop fuel n acc :
  (0 < fuel)%nat → 0 ≤ n < 10 ^ Z.of_nat fuel →
  number 10 (digits_loop fuel n acc) = foldl (λ a c, a * 10 + xdigit_value c) n acc.
Proof.
  revert n acc. induction fuel as [|fuel IH]; intros n acc Hf Hn; [lia|]. cbn [digits_loop].
  rewrite Nat2Z.inj_succ, Z.pow_succ_r in Hn by lia.
  assert (xdigit_value (48 + n mod 10) = n mod 10) as Hd.
  { unfold xdigit_value, is_digit. rewrite bool_decide_true by mlia. lia. }
  case_bool_decide as H0.
  - unfold number. cbn [foldl]. rewrite Hd. f_equal. mlia.
  - destruct fuel as [|fuel]; [cbn in Hn; mlia|]. rewrite IH by (try lia; mlia). cbn [foldl]. rewrite Hd. f_equal. mlia.
Qed.

Lemma number_decimal n : 0 ≤ n < 10 ^ 20 → number 10 (decimal n) = n.
Proof. intros Hn. unfold decimal. rewrite number_digits_loop; [done|lia|done]. Qed.

Lemma hex_digit_spec upper d : 0 ≤ d < 16 →
  is_xdigit (hex_digit upper d) = true ∧ xdigit_value (hex_digit upper d) = d.
Proof.
  intros Hd. assert (Hc : d ∈ seqZ 0 16) by (apply elem_of_seqZ; lia). clear Hd. revert d Hc. apply Forall_forall.
  by destruct upper; vm_compute; repeat constructor.
Qed.

Lemma hex_loop_digits upper fuel n acc :
  Forall (λ c, is_xdigit c = true) acc → Forall (λ c, is_xdigit c = true) (hex_loop upper fuel n acc).
Proof.
  revert n acc. induction fuel as [|fuel IH]; intros n acc Ha; [done|]. cbn [hex_loop].
  destruct (hex_digit_spec upper (n mod 16)); [mlia|].
  case_bool_decide; [by constructor|]. apply IH. by constructor.
Qed.

Lemma hex_loop_nonempty upper fuel n acc : (0 < fuel)%nat → hex_loop upper fuel n acc ≠ [].
Proof.
  revert n acc. induction fuel as [|fuel IH]; intros n acc Hf; [lia|]. cbn [hex_loop].
  case_bool_decide; [done|]. destruct fuel; [done|]. apply IH. lia.
Qed.

Lemma number_hex_loop upper fuel n acc :
  (0 < fuel)%nat → 0 ≤ n < 16 ^ Z.of_nat fuel →
  number 16 (hex_loop upper fuel n acc) = foldl (λ a c, a * 16 + xdigit_value c) n acc.
Proof.
  revert n acc. induction fuel as [|fuel IH]; intros n acc Hf Hn; [lia|]. cbn [hex_loop].
  rewrite Nat2Z.inj_succ, Z.pow_succ_r in Hn by lia.
  destruct (hex_digit_spec upper (n mod 16)) as [_ Hd]; [mlia|]. case_bool_decide as H0.
  - unfold number. cbn [foldl]. rewrite Hd. f_equal. mlia.
  - destruct fuel as [|fuel]; [cbn in Hn; mlia|]. rewrite IH by (try lia; mlia). cbn [foldl]. rewrite Hd. f_equal. mlia.
Qed.

Lemma length_hex_loop upper fuel n acc : (length (hex_loop upper fuel n acc) ≤ fuel + length acc)%nat.
Proof.
  revert n acc. induction fuel as [|fuel IH]; intros n acc; [done|]. cbn [hex_loop].
  case_bool_decide; [cbn; lia|]. specialize (IH (n / 16) (hex_digit upper (n mod 16) :: acc)). cbn [length] in IH. lia.
Qed.

Lemma hexadecimal_spec upper n : 0 ≤ n < 2 ^ 64 →
  Forall (λ c, is_xdigit c = true) (hexadecimal upper n) ∧ hexadecimal upper n ≠ [] ∧
  number 16 (hexadecimal upper n) = n ∧ (length (hexadecimal upper n) ≤ 16)%nat.
Proof.
  intros Hn. unfold hexadecimal. split; [by apply hex_loop_digits|]. split; [apply hex_loop_nonempty; lia|].
  split; [rewrite number_hex_loop; [done|lia|exact Hn]|]. pose proof (length_hex_loop upper 16 n []). cbn in *. lia.
Qed.

Lemma digit_not_space c : is_digit c = true → is_space c = false.
Proof. intros H%bool_decide_eq_true. apply bool_decide_eq_false. lia. Qed.

(** The sign and the digits of a number that starts with neither white space nor a sign. *)
Lemma skip_space_digit l rest : l ≠ [] → Forall (λ c, is_digit c = true) l → skip_space (l ++ rest) = l ++ rest.
Proof. intros Hl Ha. destruct Ha as [|c l Hc]; [done|]. cbn. by rewrite digit_not_space. Qed.

Lemma scan_sign_digit l rest :
  l ≠ [] → Forall (λ c, is_digit c = true) l → scan_sign (l ++ rest) = Some (false, l ++ rest).
Proof.
  intros Hl Ha. destruct Ha as [|c l Hc]; [done|]. apply bool_decide_eq_true in Hc.
  cbn [app scan_sign]. by rewrite !bool_decide_false by lia.
Qed.

(** A number printed with [%u] is read back, whatever follows that is not a digit. *)
Lemma scan_u_decimal n rest :
  0 ≤ n < 2 ^ 64 → (∀ c rest', rest = c :: rest' → is_digit c = false) → scan_u (decimal n ++ rest) = Some (n, rest).
Proof.
  intros Hn Hr. unfold scan_u, scan_space. st_red. rewrite skip_space_digit by eauto using decimal_nonempty, decimal_digits.
  rewrite scan_sign_digit by eauto using decimal_nonempty, decimal_digits.
  rewrite scan_some_run by eauto using decimal_nonempty, decimal_digits.
  unfold strtoul_value. rewrite number_decimal, bool_decide_false by lia. done.
Qed.

(** A number printed with [%d] is read back. *)
Lemma scan_d_decimal n rest :
  - 2 ^ 63 ≤ n < 2 ^ 63 → (∀ c rest', rest = c :: rest' → is_digit c = false) →
  scan_d (signed_decimal n ++ rest) = Some (n, rest).
Proof.
  intros Hn Hr. unfold scan_d, signed_decimal, scan_space. st_red. case_bool_decide.
  - cbn [app skip_space]. change (is_space 45) with false. cbn [scan_sign]. rewrite bool_decide_true by done.
    rewrite scan_some_run by eauto using decimal_nonempty, decimal_digits.
    unfold strtol_value. rewrite number_decimal by lia. do 2 f_equal. lia.
  - rewrite skip_space_digit by eauto using decimal_nonempty, decimal_digits.
    rewrite scan_sign_digit by eauto using decimal_nonempty, decimal_digits.
    rewrite scan_some_run by eauto using decimal_nonempty, decimal_digits.
    unfold strtol_value. rewrite number_decimal by lia. do 2 f_equal. lia.
Qed.
(** A number printed with [%x] or [%X] is read back. *)
Lemma scan_x_hexadecimal upper v rest :
  0 ≤ v < 2 ^ 64 → (∀ c rest', rest = c :: rest' → is_xdigit c = false ∧ c ≠ 120 ∧ c ≠ 88) →
  scan_x (hexadecimal upper v ++ rest) = Some (v, rest).
Proof.
  intros Hv Hr. destruct (hexadecimal_spec upper v Hv) as (Hx & Hne & Hn & _).
  unfold scan_x, scan_space. st_red. set (l := hexadecimal upper v) in *.
  assert (skip_space (l ++ rest) = l ++ rest ∧ scan_sign (l ++ rest) = Some (false, l ++ rest) ∧ skip_0x (l ++ rest) = l ++ rest) as (-> & -> & ->).
  { destruct Hx as [|x l' Hd Hx]; [done|].
    assert (Hrange : ∀ y, is_xdigit y = true → 48 ≤ y ≤ 57 ∨ 65 ≤ y ≤ 70 ∨ 97 ≤ y ≤ 102).
    { intros y Hy. unfold is_xdigit, is_digit in Hy. apply orb_true_iff in Hy as [Hy|Hy]; apply bool_decide_eq_true in Hy; lia. }
    pose proof (Hrange x Hd). split; [|split].
    - cbn [skip_space app]. by assert (is_space x = false) as -> by (apply bool_decide_eq_false; lia).
    - cbn [scan_sign app]. by rewrite !bool_decide_false by lia.
    - unfold skip_0x. cbn [app]. destruct (l' ++ rest) as [|y l''] eqn:Hl; [by repeat case_match|].
      assert (bool_decide (y = 120 ∨ y = 88) = false) as Hb.
      { apply bool_decide_eq_false. destruct Hx as [|z l3 Hz _].
        - destruct (Hr y l'' Hl) as (_ & ? & ?). lia.
        - injection Hl as -> _. pose proof (Hrange y Hz). lia. }
      rewrite Hb. by repeat case_match. }
  rewrite scan_some_run; [|done|done|intros c rest' Hc; by destruct (Hr c rest' Hc)].
  unfold strtoul_value. rewrite Hn. by rewrite bool_decide_false by lia.
Qed.

End Scanners.
