(* ===== verification/ParamState.v ===== *)
(** * The state of the parameter system

    [lib/param/include/param/param.h] and [include/vmem/vmem.h] with the drivers
    [src/vmem/vmem_ram.c] and [src/vmem/vmem_file.c]: the parameters, the memory they
    are stored in, the files behind it and the variables of [main.c]. *)

From S2P Require Import Prelude.
From stdpp Require Import strings.
From Stdlib Require Import Ascii.
#[local] Open Scope Z_scope.

(** A C string, without its terminator. *)
Fixpoint c_string (s : string) : list Z :=
  match s with
  | EmptyString => []
  | String a s' => Z.of_nat (nat_of_ascii a) :: c_string s'
  end.

(** [strnlen]; [strlen] on a terminated string. *)
Fixpoint strnlen (bs : list Z) (n : nat) : nat :=
  match n, bs with
  | S n', b :: bs' => if bool_decide (b = 0) then 0%nat else S (strnlen bs' n')
  | _, _ => 0%nat
  end.

(** The characters [strnlen] counts, when it stays inside the memory [bs]. *)
Definition c_chars (bs : list Z) (n : nat) : option (list Z) :=
  let k := strnlen bs n in
  if bool_decide (k = n ∨ bs !! k = Some 0) then Some (take k bs) else None.

(** ** Data *)

Inductive param_type_e :=
  | PARAM_TYPE_UINT8 | PARAM_TYPE_UINT16 | PARAM_TYPE_UINT32 | PARAM_TYPE_UINT64
  | PARAM_TYPE_INT8 | PARAM_TYPE_INT16 | PARAM_TYPE_INT32 | PARAM_TYPE_INT64
  | PARAM_TYPE_XINT8 | PARAM_TYPE_XINT16 | PARAM_TYPE_XINT32 | PARAM_TYPE_XINT64
  | PARAM_TYPE_FLOAT | PARAM_TYPE_DOUBLE | PARAM_TYPE_STRING | PARAM_TYPE_DATA
  | PARAM_TYPE_INVALID.

#[export] Instance param_type_eq_dec : EqDecision param_type_e.
Proof. solve_decision. Defined.

Definition PM_READONLY : Z := 1.
Definition PM_REMOTE : Z := 2.
Definition PM_CONF : Z := 4.
Definition PM_SYSCONF : Z := 128.
Definition PM_ATOMIC_WRITE : Z := 2048.
Definition PM_PRIO_MASK : Z := 12288.

Definition VMEM_TYPE_RAM : Z := 1.
Definition VMEM_TYPE_FILE : Z := 7.

(** The drivers: the memory block [physaddr] points to and, for a file, its name.
    They stand for the function pointers [read] and [write] of a [vmem_t]. *)
Inductive vmem_driver_t :=
  | vmem_ram_driver_t (physaddr : nat)
  | vmem_file_driver_t (physaddr : nat) (filename : list Z).

Record vmem_t := mk_vmem {
  v_type : Z;
  v_driver : vmem_driver_t;
  v_vaddr : Z;
  v_size : Z;
  v_name : list Z;
  v_big_endian : Z;
  v_ack_with_pull : Z;
}.

(** [param_t].  For a parameter in RAM [addr] is the block [p_base] and the offset
    [p_addr] in it, otherwise [p_addr] is the address in the [vmem]. *)
Record param_t := mk_param {
  p_id : Z;
  p_node : Z;
  p_type : param_type_e;
  p_mask : Z;
  p_name : list Z;
  p_unit : option (list Z);
  p_docstr : option (list Z);
  p_base : nat;
  p_addr : Z;
  p_vmem : option nat;
  p_array_size : Z;
  p_array_step : Z;
  p_callback : option nat;
  p_timestamp : nat;
  p_next : option nat;
}.

(** What the program does to the rest of the system. *)
Inductive event :=
  | ev_print (text : list Z)
  | ev_system (command : list Z)
  | ev_popen (command : list Z)
  | ev_enter_critical
  | ev_exit_critical.

(** The variables of [main.c] that are not parameters' memory. *)
Record app_t := mk_app {
  a_tmpbuf : list Z;
  a_stdbuf_pos : Z;
  a_can_addr : Z;
  a_can_netmask : Z;
}.

(** Blocks of memory, the two linker sections (the [vmem]s; the first [ps_static]
    addresses of [ps_params] are the section of static parameters), the dynamic list,
    the time stamps, the files, and what has happened. *)
Record pstate := mk_pstate {
  ps_ram : gmap nat (list Z);
  ps_vmem : list vmem_t;
  ps_params : gmap nat param_t;
  ps_static : nat;
  ps_head : option nat;
  ps_timestamps : gmap nat Z;
  ps_files : gmap (list Z) (list Z);
  ps_events : list event;
  ps_app : app_t;
}.

Definition with_ram (m : gmap nat (list Z)) (s : pstate) : pstate :=
  mk_pstate m (ps_vmem s) (ps_params s) (ps_static s) (ps_head s) (ps_timestamps s) (ps_files s) (ps_events s) (ps_app s).
Definition with_params (m : gmap nat param_t) (s : pstate) : pstate :=
  mk_pstate (ps_ram s) (ps_vmem s) m (ps_static s) (ps_head s) (ps_timestamps s) (ps_files s) (ps_events s) (ps_app s).
Definition with_head (h : option nat) (s : pstate) : pstate :=
  mk_pstate (ps_ram s) (ps_vmem s) (ps_params s) (ps_static s) h (ps_timestamps s) (ps_files s) (ps_events s) (ps_app s).
Definition with_timestamps (m : gmap nat Z) (s : pstate) : pstate :=
  mk_pstate (ps_ram s) (ps_vmem s) (ps_params s) (ps_static s) (ps_head s) m (ps_files s) (ps_events s) (ps_app s).
Definition with_files (m : gmap (list Z) (list Z)) (s : pstate) : pstate :=
  mk_pstate (ps_ram s) (ps_vmem s) (ps_params s) (ps_static s) (ps_head s) (ps_timestamps s) m (ps_events s) (ps_app s).
Definition with_event (e : event) (s : pstate) : pstate :=
  mk_pstate (ps_ram s) (ps_vmem s) (ps_params s) (ps_static s) (ps_head s) (ps_timestamps s) (ps_files s) (e :: ps_events s) (ps_app s).
Definition with_app (a : app_t) (s : pstate) : pstate :=
  mk_pstate (ps_ram s) (ps_vmem s) (ps_params s) (ps_static s) (ps_head s) (ps_timestamps s) (ps_files s) (ps_events s) a.

(** What the code calls that is not part of it: the file system may refuse to open a
    file for writing, a callback runs the function of the program it stands for,
    [calloc] may fail, the hooks for atomic writes may be absent, variables that are
    read without having been set hold some value, and [ptr_block] is where the linker has
    put the memory of the program: the block and the offset a pointer refers to. *)
Class ParamEnv := {
  fopen_w_ok : list Z → bool;
  run_callback : nat → nat → Z → ST pstate ();
  calloc_block : pstate → option nat;
  have_critical : bool;
  indeterminate : Z;
  ptr_block : Z → option (nat * Z);
}.

(** ** Memory *)

Definition ram_read (blk : nat) (off len : Z) : ST pstate (list Z) :=
  s ← get;
  m ← lift_opt (ps_ram s !! blk);
  lift_opt (mem_read m off len).

Definition ram_write (blk : nat) (off : Z) (bs : list Z) : ST pstate () :=
  s ← get;
  m ← lift_opt (ps_ram s !! blk);
  m' ← lift_opt (mem_write m off bs);
  put (with_ram (<[blk := m']> (ps_ram s)) s).

(** [vmem_ram_read], [vmem_file_read] *)
Definition vmem_read (v : vmem_t) (addr len : Z) : ST pstate (list Z) :=
  match v_driver v with
  | vmem_ram_driver_t blk => ram_read blk addr len
  | vmem_file_driver_t blk _ => ram_read blk addr len
  end.

Section Vmem.
Context `{ParamEnv}.

Definition vmem_file_write (v : vmem_t) (blk : nat) (filename : list Z) (addr : Z) (bs : list Z) : ST pstate () :=
  ram_write blk addr bs;;
  if fopen_w_ok filename then
    content ← ram_read blk 0 (v_size v);
    modify (λ s, with_files (<[filename := content]> (ps_files s)) s)
  else modify (with_event (ev_print (c_string "Failed to open file " ++ filename ++ [10]))).

Definition vmem_write (v : vmem_t) (addr : Z) (bs : list Z) : ST pstate () :=
  match v_driver v with
  | vmem_ram_driver_t blk => ram_write blk addr bs
  | vmem_file_driver_t blk filename => vmem_file_write v blk filename addr bs
  end.

(** [fopen] in mode "r+" fails when there is no such file or it may not be written;
    [fread] stores as much of it as there is, up to the size of the [vmem]. *)
Definition vmem_file_init (v : vmem_t) : ST pstate () :=
  match v_driver v with
  | vmem_file_driver_t blk filename =>
      s ← get;
      match ps_files s !! filename with
      | Some content =>
          if fopen_w_ok filename then ram_write blk 0 (take (Z.to_nat (v_size v)) content) else mret ()
      | None => mret ()
      end
  | vmem_ram_driver_t _ => ub
  end.
End Vmem.

(** [param->...], [param->vmem->...] *)
Definition get_param (a : nat) : ST pstate param_t :=
  s ← get; lift_opt (ps_params s !! a).
Definition put_param (a : nat) (p : param_t) : ST pstate () :=
  modify (λ s, with_params (<[a := p]> (ps_params s)) s).
Definition get_vmem (v : nat) : ST pstate vmem_t :=
  s ← get; lift_opt (ps_vmem s !! v).

(** ** Laws of the memory *)

Section MemoryLaws.
Implicit Types (s : pstate) (blk : nat) (off len : Z) (bs m : list Z).

(** [bs] lies at [off] of block [blk]. *)
Definition ram_at s blk off bs : Prop :=
  ∃ m, ps_ram s !! blk = Some m ∧ mem_read m off (Z.of_nat (List.length bs)) = Some bs.

(** The range lies in the block. *)
Definition ram_room s blk off len : Prop :=
  ∃ m, ps_ram s !! blk = Some m ∧ 0 ≤ off ∧ 0 ≤ len ∧ off + len ≤ Z.of_nat (List.length m).

Lemma ram_read_at s blk off bs :
  ram_at s blk off bs → ram_read blk off (Z.of_nat (List.length bs)) s = Some (bs, s).
Proof. intros (m & Hm & Hr). unfold ram_read. st_red. rewrite Hm. st_red. by rewrite Hr. Qed.

Lemma ram_read_inv s blk off len bs s' :
  ram_read blk off len s = Some (bs, s') → s' = s ∧ len = Z.of_nat (List.length bs) ∧ ram_at s blk off bs.
Proof.
  unfold ram_read. st_red. destruct (ps_ram s !! blk) as [m|] eqn:Hm; [|done]. st_red.
  destruct (mem_read m off len) as [bs'|] eqn:Hr; [|done]. intros [= -> <-].
  pose proof (mem_read_length _ _ _ _ Hr) as <-. split; [done|]. split; [done|]. by exists m.
Qed.

Lemma ram_write_run s blk off bs :
  ram_room s blk off (Z.of_nat (List.length bs)) →
  ∃ m m', ps_ram s !! blk = Some m ∧ mem_write m off bs = Some m' ∧
    ram_write blk off bs s = Some ((), with_ram (<[blk := m']> (ps_ram s)) s).
Proof.
  intros (m & Hm & H1 & H2 & H3). destruct (mem_write_is_Some m off bs) as (m' & Hw & _); [lia..|].
  exists m, m'. split; [done|]. split; [done|]. unfold ram_write. st_red. rewrite Hm. st_red. by rewrite Hw.
Qed.

Lemma ram_write_at s blk off bs s' :
  ram_write blk off bs s = Some ((), s') → ram_at s' blk off bs.
Proof.
  unfold ram_write. st_red. destruct (ps_ram s !! blk) as [m|] eqn:Hm; [|done]. st_red.
  destruct (mem_write m off bs) as [m'|] eqn:Hw; [|done]. intros [= <-].
  exists m'. split; [apply lookup_insert_eq|]. by eapply mem_read_write_eq.
Qed.

(** What lies elsewhere stays. *)
Lemma ram_write_frame s blk off bs s' blk' off' bs' :
  ram_write blk off bs s = Some ((), s') →
  blk' ≠ blk ∨ off' + Z.of_nat (List.length bs') ≤ off ∨ off + Z.of_nat (List.length bs) ≤ off' →
  ram_at s blk' off' bs' → ram_at s' blk' off' bs'.
Proof.
  unfold ram_write. st_red. destruct (ps_ram s !! blk) as [m|] eqn:Hm; [|done]. st_red.
  destruct (mem_write m off bs) as [m'|] eqn:Hw; [|done]. intros [= <-] Hd (m1 & Hm1 & Hr).
  destruct (decide (blk' = blk)) as [->|Hne].
  - exists m'. split; [apply lookup_insert_eq|]. simplify_eq.
    rewrite (mem_read_write_ne _ _ _ _ _ _ Hw); [done|]. destruct Hd as [?|?]; [done|lia].
  - exists m1. split; [|done]. simpl. by rewrite lookup_insert_ne.
Qed.

Lemma ram_write_room s blk off bs s' blk' off' len :
  ram_write blk off bs s = Some ((), s') → ram_room s blk' off' len → ram_room s' blk' off' len.
Proof.
  unfold ram_write. st_red. destruct (ps_ram s !! blk) as [m|] eqn:Hm; [|done]. st_red.
  destruct (mem_write m off bs) as [m'|] eqn:Hw; [|done]. intros [= <-] (m1 & Hm1 & Hr).
  destruct (decide (blk' = blk)) as [->|Hne].
  - exists m'. split; [apply lookup_insert_eq|]. simplify_eq. by rewrite (mem_write_length _ _ _ _ Hw).
  - exists m1. split; [|done]. simpl. by rewrite lookup_insert_ne.
Qed.
End MemoryLaws.

(** [s'] differs from [s] only in the memory, the files and the events. *)
Record stored_step (s s' : pstate) : Prop := {
  ss_vmem : ps_vmem s' = ps_vmem s;
  ss_params : ps_params s' = ps_params s;
  ss_static : ps_static s' = ps_static s;
  ss_head : ps_head s' = ps_head s;
  ss_timestamps : ps_timestamps s' = ps_timestamps s;
  ss_app : ps_app s' = ps_app s;
}.

(** The block behind a [vmem]. *)
Definition vmem_block (v : vmem_t) : nat :=
  match v_driver v with
  | vmem_ram_driver_t blk => blk
  | vmem_file_driver_t blk _ => blk
  end.

Lemma vmem_read_block v addr len : vmem_read v addr len = ram_read (vmem_block v) addr len.
Proof. unfold vmem_read, vmem_block. by destruct (v_driver v). Qed.

(** The file of a [vmem], when it has one, holds its block. *)
Definition vmem_saved `{ParamEnv} (v : vmem_t) (s : pstate) : Prop :=
  match v_driver v with
  | vmem_file_driver_t blk filename =>
      fopen_w_ok filename = true → ∃ content, ram_at s blk 0 content ∧
        Z.of_nat (List.length content) = v_size v ∧ ps_files s !! filename = Some content
  | vmem_ram_driver_t _ => True
  end.

Section VmemLaws.
Context `{ParamEnv}.

(** A write to a [vmem] puts the bytes into its block, leaves everything else, and
    brings the file up to date. *)
Lemma vmem_write_run v addr bs s :
  ram_room s (vmem_block v) addr (Z.of_nat (List.length bs)) →
  ram_room s (vmem_block v) 0 (v_size v) →
  ∃ s', vmem_write v addr bs s = Some ((), s') ∧ stored_step s s' ∧ vmem_saved v s' ∧
    ram_at s' (vmem_block v) addr bs ∧
    (∀ blk' off' bs', blk' ≠ vmem_block v ∨ off' + Z.of_nat (List.length bs') ≤ addr ∨
        addr + Z.of_nat (List.length bs) ≤ off' →
      ram_at s blk' off' bs' → ram_at s' blk' off' bs') ∧
    (∀ blk' off' len, ram_room s blk' off' len → ram_room s' blk' off' len).
Proof.
  intros Hb Hsz. unfold vmem_write, vmem_saved, vmem_block in *.
  assert (Hw := Hb). destruct v as [ty [blk|blk fn] va sz nm be ak]; simpl in *.
  - destruct (ram_write_run _ _ _ _ Hw) as (m & m' & Hm & Hmw & Hr). eexists; split; [exact Hr|].
    split; [done|]. split; [done|]. split; [by eapply ram_write_at|].
    split; [intros; by eapply ram_write_frame|intros; by eapply ram_write_room].
  - destruct (ram_write_run _ _ _ _ Hw) as (m & m' & Hm & Hmw & Hr).
    pose proof (ram_write_at _ _ _ _ _ Hr) as Hat. unfold vmem_file_write. simpl. run Hr.
    destruct (fopen_w_ok fn) eqn:Hok.
    + destruct Hsz as (m0 & Hm0 & Hz). simplify_eq.
      destruct (mem_read_is_Some m' 0 sz) as [content Hc]; [lia|lia|rewrite (mem_write_length _ _ _ _ Hmw); lia|].
      set (s1 := with_ram (<[blk:=m']> (ps_ram s)) s) in *.
      assert (Hrd : ram_read blk 0 sz s1 = Some (content, s1)).
      { unfold ram_read. st_red. subst s1. simpl. rewrite lookup_insert_eq. st_red. by rewrite Hc. }
      run Hrd. eexists; split; [done|]. split; [done|]. split.
      { intros _. exists content. split; [exists m'; split; [apply lookup_insert_eq|]|].
        - by rewrite (mem_read_length _ _ _ _ Hc).
        - split; [by apply (mem_read_length _ _ _ _ Hc)|]. simpl. apply lookup_insert_eq. }
      split; [exact Hat|]. split; [|intros; exact (ram_write_room _ _ _ _ _ _ _ _ Hr ltac:(eassumption))].
      intros ??? Hd Ha. exact (ram_write_frame _ _ _ _ _ _ _ _ Hr Hd Ha).
    + eexists; split; [done|]. split; [done|]. split; [done|]. split; [exact Hat|].
      split; [|intros; exact (ram_write_room _ _ _ _ _ _ _ _ Hr ltac:(eassumption))].
      intros ??? Hd Ha. exact (ram_write_frame _ _ _ _ _ _ _ _ Hr Hd Ha).
Qed.
End VmemLaws.
