(* ===== verification/Fram.v ===== *)
(** * FRAM behind a vmem

    [lib/param/src/vmem/vmem_fram.c] and [vmem_fram_cache.c]: a [vmem] in a memory chip, and
    one with a copy of it in RAM.  The driver of the chip is not part of the sources; the
    class [FramLaws] states what a memory does. *)

From S2P Require Import ParamState Prelude.

(** ** The chip *)

Class FramOps (F : Type) := {
  fram_read_data : Z → nat → F → list Z;
  fram_write_data : Z → list Z → F → F;
}.

(** Reading gives as many bytes as asked for; a part of what is read is what reading the
    part gives; after a write the bytes written are there and the others are as before. *)
Class FramLaws (F : Type) `{FramOps F} := {
  fram_read_length a n f : length (fram_read_data a n f) = n;
  fram_read_part a n i m f : (i + m ≤ n)%nat →
    fram_read_data (a + Z.of_nat i) m f = take m (drop i (fram_read_data a n f));
  fram_read_written a n b bs f (i : nat) : (i < n)%nat →
    fram_read_data a n (fram_write_data b bs f) !! i =
      if bool_decide (b ≤ a + Z.of_nat i < b + Z.of_nat (length bs)) then bs !! Z.to_nat (a + Z.of_nat i - b)
      else fram_read_data a n f !! i;
}.

(** ** The drivers *)

Definition VMEM_FRAM_CACHE_EMPTY : Z := 0.
Definition VMEM_FRAM_CACHE_INITED : Z := 1.

(** The chip and the members of [vmem_fram_cache_driver_t] that change. *)
Record fram_t (F : Type) := mk_fram { fs_fram : F; fs_cache : list Z; fs_status : Z }.
Arguments mk_fram {F}. Arguments fs_fram {F}. Arguments fs_cache {F}. Arguments fs_status {F}.

Section Drivers.
Context {F : Type} `{FramOps F}.
(** [driver->fram_addr] and [vmem->size]. *)
Variables (fram_addr size : Z).

Definition vmem_fram_read (addr len : Z) : ST (fram_t F) (list Z) :=
  s ← get; mret (fram_read_data (u32 (fram_addr + addr)) (Z.to_nat len) (fs_fram s)).

Definition vmem_fram_write (addr : Z) (bs : list Z) : ST (fram_t F) () :=
  modify (λ s, mk_fram (fram_write_data (u32 (fram_addr + addr)) bs (fs_fram s)) (fs_cache s) (fs_status s)).

Definition vmem_fram_cache_read (addr len : Z) : ST (fram_t F) (list Z) :=
  s ← get;
  when (bool_decide (fs_status s = VMEM_FRAM_CACHE_EMPTY))
    (cache ← lift_opt (mem_write (fs_cache s) 0 (fram_read_data fram_addr (Z.to_nat size) (fs_fram s)));
     put (mk_fram (fs_fram s) cache VMEM_FRAM_CACHE_INITED));;
  s ← get;
  lift_opt (mem_read (fs_cache s) addr len).

Definition vmem_fram_cache_write (addr : Z) (bs : list Z) : ST (fram_t F) () :=
  s ← get;
  cache ← lift_opt (mem_write (fs_cache s) addr bs);
  put (mk_fram (fram_write_data (u32 (fram_addr + addr)) bs (fs_fram s)) cache (fs_status s)).

(** ** A program of reads and writes *)

Inductive fram_op :=
  | op_read (addr len : Z)
  | op_write (addr : Z) (bs : list Z).

(** What the reads of a sequence return, with the one driver or the other. *)
Fixpoint run_ops (read : Z → Z → ST (fram_t F) (list Z)) (write : Z → list Z → ST (fram_t F) ()) (ops : list fram_op)
    : ST (fram_t F) (list (list Z)) :=
  match ops with
  | [] => mret []
  | op_read addr len :: ops' => r ← read addr len; rs ← run_ops read write ops'; mret (r :: rs)
  | op_write addr bs :: ops' => write addr bs;; run_ops read write ops'
  end.

Definition op_within (o : fram_op) : Prop :=
  match o with
  | op_read addr len => 0 ≤ addr ∧ 0 ≤ len ∧ addr + len ≤ size
  | op_write addr bs => 0 ≤ addr ∧ addr + Z.of_nat (length bs) ≤ size
  end.

Context `{!FramLaws F}.
Hypothesis Haddr : 0 ≤ fram_addr ∧ 0 ≤ size ∧ fram_addr + size < 2 ^ 32.

(** The copy has its size and, once it is filled, holds what the chip holds. *)
Definition cache_ok (s : fram_t F) : Prop :=
  Z.of_nat (length (fs_cache s)) = size ∧
  (fs_status s = VMEM_FRAM_CACHE_EMPTY ∨ fs_cache s = fram_read_data fram_addr (Z.to_nat size) (fs_fram s)).

Lemma cache_read_run s addr len :
  cache_ok s → op_within (op_read addr len) →
  ∃ s', vmem_fram_cache_read addr len s = Some (fram_read_data (fram_addr + addr) (Z.to_nat len) (fs_fram s), s') ∧
    cache_ok s' ∧ fs_fram s' = fs_fram s.
Proof.
  intros [Hl Hc] (H1 & H2 & H3). set (all := fram_read_data fram_addr (Z.to_nat size) (fs_fram s)) in *.
  assert (Hall : length all = Z.to_nat size) by apply fram_read_length.
  assert (Hread : mem_read all addr len = Some (fram_read_data (fram_addr + addr) (Z.to_nat len) (fs_fram s))).
  { apply mem_read_Some. split_and!; [lia..|]. unfold all.
    rewrite <- (fram_read_part fram_addr (Z.to_nat size) (Z.to_nat addr) (Z.to_nat len)) by lia. do 2 f_equal. lia. }
  unfold vmem_fram_cache_read. rewrite (ST_bind_run _ _ s s s) by done. case_bool_decide as He.
  - exists (mk_fram (fs_fram s) all VMEM_FRAM_CACHE_INITED). split; [|split; [|done]].
    + assert (Hw : mem_write (fs_cache s) 0 all = Some all).
      { pose proof (mem_write_mid [] (fs_cache s) all [] ltac:(lia)) as Hw. cbn [app length] in Hw. by rewrite !app_nil_r in Hw. }
      unfold when. rewrite (ST_bind_run _ _ s () (mk_fram (fs_fram s) all VMEM_FRAM_CACHE_INITED)).
      * rewrite (ST_bind_run _ _ _ _ _ (eq_refl : get _ = Some (_, _))). cbn [fs_cache]. by apply lift_opt_run_gen.
      * fold all. by run (lift_opt_run_gen _ _ s Hw).
    + split; [cbn; lia|by right].
  - destruct Hc as [Hc|Hc]; [done|]. exists s. split; [|split; [split; [done|by right]|done]].
    unfold when. rewrite (ST_bind_run _ _ s () s) by done. rewrite (ST_bind_run _ _ s s s) by done. rewrite Hc. by apply lift_opt_run_gen.
Qed.

Lemma cache_write_run s addr bs :
  cache_ok s → op_within (op_write addr bs) →
  ∃ s', vmem_fram_cache_write addr bs s = Some ((), s') ∧ cache_ok s' ∧
    fs_fram s' = fram_write_data (fram_addr + addr) bs (fs_fram s).
Proof.
  intros [Hl Hc] (H1 & H2). destruct (mem_write_is_Some (fs_cache s) addr bs) as (c & Hw & Hlc); [lia..|].
  exists (mk_fram (fram_write_data (fram_addr + addr) bs (fs_fram s)) c (fs_status s)). split; [|split; [|done]].
  - unfold vmem_fram_cache_write. rewrite (ST_bind_run _ _ s s s) by done. run (lift_opt_run_gen _ _ s Hw).
    assert (u32 (fram_addr + addr) = fram_addr + addr) as -> by (apply Z.mod_small; lia). done.
  - split; [cbn; lia|]. cbn. destruct Hc as [Hc|Hc]; [by left|right]. apply list_eq. intros i.
    destruct (decide (i < Z.to_nat size)%nat) as [Hi|Hi].
    + rewrite fram_read_written by done. rewrite (mem_write_lookup _ _ _ _ i Hw), Hc.
      rewrite (bool_decide_ext (fram_addr + addr ≤ _ < _) (addr ≤ Z.of_nat i < addr + Z.of_nat (length bs))) by lia.
      case_bool_decide; [f_equal; lia|done].
    + rewrite !lookup_ge_None_2; [done|rewrite fram_read_length; lia|lia].
Qed.

(** The copy is invisible: every program of reads and writes within the [vmem] reads the same
    and leaves the same in the chip as without it, whatever the copy held before. *)
Lemma cache_refines ops : ∀ s t,
  Forall op_within ops → cache_ok s → fs_fram t = fs_fram s →
  ∃ rs s' t', run_ops vmem_fram_cache_read vmem_fram_cache_write ops s = Some (rs, s') ∧
    run_ops vmem_fram_read vmem_fram_write ops t = Some (rs, t') ∧ fs_fram t' = fs_fram s' ∧ cache_ok s'.
Proof.
  assert (Hu : ∀ a, 0 ≤ a ≤ size → u32 (fram_addr + a) = fram_addr + a) by (intros a Ha; apply Z.mod_small; lia).
  induction ops as [|o ops IH]; intros s t Ho Hs Ht; [by exists [], s, t|].
  inversion Ho as [|? ? Hin Hrest]; subst. destruct o as [addr len|addr bs].
  - destruct (cache_read_run s addr len Hs Hin) as (s1 & Hr & Hs1 & Hf). destruct Hin as (? & ? & ?).
    destruct (IH s1 t Hrest Hs1) as (rs & s' & t' & R1 & R2 & Hf' & Hs'); [congruence|].
    eexists (_ :: rs), s', t'. cbn [run_ops]. split; [run Hr; by run R1|]. split; [|by split].
    rewrite (ST_bind_run _ _ t (fram_read_data (fram_addr + addr) (Z.to_nat len) (fs_fram s)) t); [by run R2|].
    unfold vmem_fram_read. rewrite (ST_bind_run _ _ t t t) by done. by rewrite Hu, Ht by lia.
  - destruct (cache_write_run s addr bs Hs Hin) as (s1 & Hr & Hs1 & Hf). destruct Hin as (? & ?).
    destruct (IH s1 (mk_fram (fram_write_data (fram_addr + addr) bs (fs_fram s)) (fs_cache t) (fs_status t)) Hrest Hs1)
      as (rs & s' & t' & R1 & R2 & Hf' & Hs'); [by rewrite Hf|].
    exists rs, s', t'. cbn [run_ops]. split; [run Hr; exact R1|]. split; [|by split].
    rewrite (ST_bind_run _ _ t () (mk_fram (fram_write_data (fram_addr + addr) bs (fs_fram s)) (fs_cache t) (fs_status t))); [exact R2|].
    unfold vmem_fram_write, modify. by rewrite Hu, Ht by lia.
Qed.
End Drivers.

(** A chip as a function from addresses to bytes. *)
#[export] Instance fun_fram_ops : FramOps (Z → Z) := {|
  fram_read_data a n f := (λ i, f (a + Z.of_nat i)) <$> seq 0 n;
  fram_write_data b bs f := λ x, if bool_decide (b ≤ x < b + Z.of_nat (length bs)) then default 0 (bs !! Z.to_nat (x - b)) else f x;
|}.

#[export] Instance fun_fram_laws : FramLaws (Z → Z).
Proof.
  split; cbn [fram_read_data fram_write_data fun_fram_ops].
  - intros. by rewrite length_fmap, length_seq.
  - intros a n i m f Hi. apply list_eq. intros j. destruct (decide (j < m)%nat) as [Hj|Hj].
    + rewrite lookup_take_lt by done. rewrite lookup_drop, !list_lookup_fmap, !lookup_seq_lt by lia. cbn. do 2 f_equal. lia.
    + rewrite !lookup_ge_None_2; [done|rewrite length_take; lia|rewrite length_fmap, length_seq; lia].
  - intros a n b bs f i Hi. rewrite !list_lookup_fmap, !lookup_seq_lt by lia. cbn. case_bool_decide as Hb; [|done].
    destruct (lookup_lt_is_Some_2 bs (Z.to_nat (a + Z.of_nat i - b))) as [x Hx]; [lia|]. by rewrite Hx.
Qed.

(** The cached driver behaves like the plain one from a start with an empty copy. *)
Theorem vmem_fram_cache_transparent {F : Type} `{FramLaws F} (fram_addr size : Z) (ops : list fram_op) (f : F) (noinit : list Z) :
  0 ≤ fram_addr → fram_addr + size < 2 ^ 32 → Z.of_nat (length noinit) = size → Forall (op_within size) ops →
  ∃ rs s' t', run_ops (vmem_fram_cache_read fram_addr size) (vmem_fram_cache_write fram_addr) ops (mk_fram f noinit VMEM_FRAM_CACHE_EMPTY) = Some (rs, s') ∧
    run_ops (vmem_fram_read fram_addr) (vmem_fram_write fram_addr) ops (mk_fram f [] VMEM_FRAM_CACHE_EMPTY) = Some (rs, t') ∧
    fs_fram t' = fs_fram s'.
Proof.
  intros Ha Hs Hl Ho.
  destruct (cache_refines fram_addr size ltac:(lia) ops (mk_fram f noinit VMEM_FRAM_CACHE_EMPTY) (mk_fram f [] VMEM_FRAM_CACHE_EMPTY) Ho)
    as (rs & s' & t' & R1 & R2 & Hf & _); [split; [done|by left]|done|]. by exists rs, s', t'.
Qed.

Example vmem_fram_cache_example :
  fst <$> run_ops (vmem_fram_cache_read 100 8) (vmem_fram_cache_write 100)
    [op_write 2 [7; 8]; op_read 0 4; op_write 3 [9]; op_read 2 2] (mk_fram (λ _, 255) (replicate 8 0) VMEM_FRAM_CACHE_EMPTY) =
  Some [[255; 255; 7; 8]; [7; 9]].
Proof. vm_compute. reflexivity. Qed.
