(* ===== verification/Param.v ===== *)
(** * Parameters

    [lib/param/src/param/param.c]: the typed getters and setters, strings and data, and
    copying one parameter to another. *)

From S2P Require Import Prelude ParamState.

(** [beXXtoh] and [htobeXX] on an [n]-byte integer of the little-endian host. *)
Definition bswap (n : nat) (z : Z) : Z := be_val (le_bytes n z).

(** The C types of the macros [PARAM_GET] and [PARAM_SET]: their size, whether the
    swap function is a byte swap or empty, and the value of a bit pattern. *)
Inductive ctype :=
  | c_uint8 | c_uint16 | c_uint32 | c_uint64 | c_int8 | c_int16 | c_int32 | c_int64 | c_float | c_double.

Definition ct_size (c : ctype) : nat :=
  match c with
  | c_uint8 | c_int8 => 1
  | c_uint16 | c_int16 => 2
  | c_uint32 | c_int32 | c_float => 4
  | c_uint64 | c_int64 | c_double => 8
  end.

Definition ct_swapfct (c : ctype) (z : Z) : Z :=
  match c with
  | c_uint8 | c_int8 | c_float | c_double => z
  | c_uint16 | c_int16 => bswap 2 z
  | c_uint32 | c_int32 => bswap 4 z
  | c_uint64 | c_int64 => bswap 8 z
  end.

Definition ct_value (c : ctype) (z : Z) : Z :=
  match c with
  | c_int8 => swrap 8 z
  | c_int16 => swrap 16 z
  | c_int32 => swrap 32 z
  | c_int64 => swrap 64 z
  | _ => z
  end.

(** [i * param->array_step] in [unsigned int]. *)
Definition element_offset (p : param_t) (i : Z) : Z := u32 (i * p_array_step p).

Section Access.
Context `{ParamEnv}.

Definition PARAM_GET (c : ctype) (a : nat) (i : Z) : ST pstate Z :=
  p ← get_param a;
  if bool_decide (u32 (p_array_size p) < i) then mret 0 else
  match p_vmem p with
  | Some v =>
      vm ← get_vmem v;
      bs ← vmem_read vm (u32 (p_addr p + element_offset p i)) (Z.of_nat (ct_size c));
      mret (ct_value c (if bool_decide (v_big_endian vm = 1) then ct_swapfct c (le_val bs) else le_val bs))
  | None =>
      bs ← ram_read (p_base p) (p_addr p + element_offset p i) (Z.of_nat (ct_size c));
      mret (ct_value c (le_val bs))
  end.

Definition run_param_callback (p : param_t) (a : nat) (i : Z) : ST pstate () :=
  match p_callback p with
  | Some f => run_callback f a i
  | None => mret ()
  end.

(** [__param_set_...]; the value is stored in two's complement. *)
Definition PARAM_SET (c : ctype) (a : nat) (value : Z) (do_callback : bool) (i : Z) : ST pstate () :=
  p ← get_param a;
  if bool_decide (u32 (p_array_size p) < i) then mret () else
  match p_vmem p with
  | Some v =>
      vm ← get_vmem v;
      let value := if bool_decide (v_big_endian vm = 1) then ct_swapfct c value else value in
      vmem_write vm (u32 (p_addr p + element_offset p i)) (le_bytes (ct_size c) value)
  | None =>
      ram_write (p_base p) (p_addr p + element_offset p i) (le_bytes (ct_size c) value)
  end;;
  when do_callback (run_param_callback p a i).

Definition param_get_array (c : ctype) (a : nat) (i : Z) : ST pstate Z := PARAM_GET c a i.
Definition param_get_one (c : ctype) (a : nat) : ST pstate Z := PARAM_GET c a 0.
Definition param_set_one (c : ctype) (a : nat) (v : Z) : ST pstate () := PARAM_SET c a v true 0.
Definition param_set_nocallback (c : ctype) (a : nat) (v : Z) : ST pstate () := PARAM_SET c a v false 0.
Definition param_set_array (c : ctype) (a : nat) (i v : Z) : ST pstate () := PARAM_SET c a v true i.
Definition param_set_array_nocallback (c : ctype) (a : nat) (i v : Z) : ST pstate () :=
  PARAM_SET c a v false i.

Definition param_get_uint8 : nat → ST pstate Z := param_get_one c_uint8.
Definition param_get_uint16 : nat → ST pstate Z := param_get_one c_uint16.
Definition param_set_uint8 : nat → Z → ST pstate () := param_set_one c_uint8.
Definition param_set_uint16 : nat → Z → ST pstate () := param_set_one c_uint16.

Definition param_get_data (a : nat) (len : Z) : ST pstate (list Z) :=
  p ← get_param a;
  match p_vmem p with
  | Some v => vm ← get_vmem v; vmem_read vm (u32 (p_addr p)) (u32 len)
  | None => ram_read (p_base p) (p_addr p) len
  end.

Definition param_set_data_nocallback (a : nat) (inbuf : list Z) : ST pstate () :=
  p ← get_param a;
  match p_vmem p with
  | Some v => vm ← get_vmem v; vmem_write vm (u32 (p_addr p)) inbuf
  | None => ram_write (p_base p) (p_addr p) inbuf
  end.

Definition param_set_data (a : nat) (inbuf : list Z) : ST pstate () :=
  param_set_data_nocallback a inbuf;;
  p ← get_param a;
  run_param_callback p a 0.

(** [len] bytes of [inbuf] and a terminator behind them. *)
Definition param_set_string (a : nat) (inbuf : list Z) : ST pstate () :=
  param_set_data_nocallback a inbuf;;
  p ← get_param a;
  let len := Z.of_nat (length inbuf) in
  match p_vmem p with
  | Some v => vm ← get_vmem v; vmem_write vm (u32 (p_addr p + len)) [0]
  | None => ram_write (p_base p) (p_addr p + len) [0]
  end;;
  run_param_callback p a 0.

(** The C type the generic functions use for a parameter type. *)
Definition native_type (t : param_type_e) : option ctype :=
  match t with
  | PARAM_TYPE_UINT8 | PARAM_TYPE_XINT8 => Some c_uint8
  | PARAM_TYPE_UINT16 | PARAM_TYPE_XINT16 => Some c_uint16
  | PARAM_TYPE_UINT32 | PARAM_TYPE_XINT32 => Some c_uint32
  | PARAM_TYPE_UINT64 | PARAM_TYPE_XINT64 => Some c_uint64
  | PARAM_TYPE_INT8 => Some c_int8
  | PARAM_TYPE_INT16 => Some c_int16
  | PARAM_TYPE_INT32 => Some c_int32
  | PARAM_TYPE_INT64 => Some c_int64
  | PARAM_TYPE_FLOAT => Some c_float
  | PARAM_TYPE_DOUBLE => Some c_double
  | PARAM_TYPE_STRING | PARAM_TYPE_DATA | PARAM_TYPE_INVALID => None
  end.

(** [param_get]: the bytes it stores at [value]. *)
Definition param_get (a : nat) (offset : Z) : ST pstate (list Z) :=
  p ← get_param a;
  match p_type p, native_type (p_type p) with
  | _, Some c => v ← param_get_array c a offset; mret (le_bytes (ct_size c) v)
  | PARAM_TYPE_INVALID, None => mret []
  | _, None => param_get_data a (p_array_size p)
  end.

(** [param_set]: [value] is the memory the pointer refers to. *)
Definition param_set (a : nat) (offset : Z) (value : list Z) : ST pstate () :=
  p ← get_param a;
  match p_type p, native_type (p_type p) with
  | _, Some c =>
      bs ← lift_opt (mem_read value 0 (Z.of_nat (ct_size c)));
      param_set_array c a offset (ct_value c (le_val bs))
  | PARAM_TYPE_STRING, None =>
      bs ← lift_opt (mem_read value 0 (Z.of_nat (strnlen value (length value)) + 1));
      param_set_data a bs
  | PARAM_TYPE_DATA, None =>
      bs ← lift_opt (mem_read value 0 (p_array_size p));
      param_set_data a bs
  | _, None => mret ()
  end.

Definition param_typesize (t : param_type_e) : Z :=
  match t with
  | PARAM_TYPE_UINT8 | PARAM_TYPE_INT8 | PARAM_TYPE_XINT8 => 1
  | PARAM_TYPE_UINT16 | PARAM_TYPE_INT16 | PARAM_TYPE_XINT16 => 2
  | PARAM_TYPE_UINT32 | PARAM_TYPE_INT32 | PARAM_TYPE_XINT32 => 4
  | PARAM_TYPE_UINT64 | PARAM_TYPE_INT64 | PARAM_TYPE_XINT64 => 8
  | PARAM_TYPE_FLOAT => 4
  | PARAM_TYPE_DOUBLE => 8
  | PARAM_TYPE_STRING => 1
  | PARAM_TYPE_DATA => 1
  | PARAM_TYPE_INVALID => 0
  end.

Definition param_size (p : param_t) : Z :=
  match p_type p with
  | PARAM_TYPE_STRING | PARAM_TYPE_DATA => p_array_size p
  | t => param_typesize t
  end.

(** The accessors [param_copy] uses: unsigned ones for all integers. *)
Definition copy_type (t : param_type_e) : option ctype :=
  match t with
  | PARAM_TYPE_UINT8 | PARAM_TYPE_INT8 | PARAM_TYPE_XINT8 => Some c_uint8
  | PARAM_TYPE_UINT16 | PARAM_TYPE_INT16 | PARAM_TYPE_XINT16 => Some c_uint16
  | PARAM_TYPE_UINT32 | PARAM_TYPE_INT32 | PARAM_TYPE_XINT32 => Some c_uint32
  | PARAM_TYPE_UINT64 | PARAM_TYPE_INT64 | PARAM_TYPE_XINT64 => Some c_uint64
  | PARAM_TYPE_FLOAT => Some c_float
  | PARAM_TYPE_DOUBLE => Some c_double
  | PARAM_TYPE_STRING | PARAM_TYPE_DATA | PARAM_TYPE_INVALID => None
  end.

Definition param_copy (dest src : nat) : ST pstate () :=
  d ← get_param dest;
  s ← get_param src;
  if bool_decide (p_type d ≠ p_type s) then mret () else
  match p_type d, copy_type (p_type d) with
  | _, Some c => v ← param_get_one c src; param_set_one c dest v
  | PARAM_TYPE_STRING, None =>
      bs ← param_get_data src (p_array_size d);
      param_set_string dest bs
  | PARAM_TYPE_DATA, None =>
      bs ← param_get_data src (p_array_size d);
      param_set_data dest bs
  | _, None => mret ()
  end.
End Access.

(** ** Reading back what was set *)

(** Where element [i] of a parameter is stored. *)
Definition cell (s : pstate) (p : param_t) (i : Z) : option (nat * Z) :=
  match p_vmem p with
  | Some v => vm ← ps_vmem s !! v; Some (vmem_block vm, u32 (p_addr p + element_offset p i))
  | None => Some (p_base p, p_addr p + element_offset p i)
  end.

(** The block of a [vmem] holds the size its descriptor states. *)
Definition vmems_ok (s : pstate) : Prop :=
  ∀ v vm, ps_vmem s !! v = Some vm → ram_room s (vmem_block vm) 0 (v_size vm).

(** Element [i] lies in the parameter's memory. *)
Definition has_room (s : pstate) (p : param_t) (c : ctype) (i : Z) : Prop :=
  0 ≤ i ≤ u32 (p_array_size p) ∧
  ∃ blk off, cell s p i = Some (blk, off) ∧ ram_room s blk off (Z.of_nat (ct_size c)).

(** The values of the type. *)
Definition ct_ok (c : ctype) (v : Z) : Prop := ct_value c (v mod 256 ^ Z.of_nat (ct_size c)) = v.

Definition disjoint_cells (c1 : nat * Z) (n1 : nat) (c2 : nat * Z) (n2 : nat) : Prop :=
  c1.1 ≠ c2.1 ∨ c1.2 + Z.of_nat n1 ≤ c2.2 ∨ c2.2 + Z.of_nat n2 ≤ c1.2.

(** The value a cell of the parameter holds. *)
Definition decode (s : pstate) (p : param_t) (c : ctype) (bs : list Z) : Z :=
  let raw := match p_vmem p with
             | Some v => match ps_vmem s !! v with
                         | Some vm => if bool_decide (v_big_endian vm = 1) then ct_swapfct c (le_val bs) else le_val bs
                         | None => le_val bs
                         end
             | None => le_val bs
             end in
  ct_value c raw.

Section SetGet.
Context `{ParamEnv}.
Implicit Types (s : pstate) (p : param_t) (c : ctype).

Lemma bswap_bswap n z : bswap n (bswap n z) = z mod 256 ^ Z.of_nat n.
Proof.
  unfold bswap, le_bytes. rewrite <- be_val_be_bytes.
  assert (be_bytes n (be_val (rev (be_bytes n z))) = rev (be_bytes n z)) as ->.
  { rewrite <- (length_be_bytes n z) at 1. rewrite <- length_rev. apply be_bytes_be_val, Forall_rev, be_bytes_ok. }
  by rewrite rev_involutive.
Qed.

Lemma bswap_bound n z : bswap n z mod 256 ^ Z.of_nat n = bswap n z.
Proof.
  apply Z.mod_small. unfold bswap. rewrite <- (length_le_bytes n z) at 3. apply be_val_bound, le_bytes_ok.
Qed.

Lemma swapfct_swapfct c z :
  ct_swapfct c (ct_swapfct c z mod 256 ^ Z.of_nat (ct_size c)) = z mod 256 ^ Z.of_nat (ct_size c).
Proof. destruct c; cbn [ct_swapfct ct_size]; try done; by rewrite bswap_bound, bswap_bswap. Qed.

(** Getting reads the cell and changes nothing. *)
Lemma get_cell s a p c i blk off bs :
  ps_params s !! a = Some p → 0 ≤ i ≤ u32 (p_array_size p) → cell s p i = Some (blk, off) →
  ram_at s blk off bs → length bs = ct_size c →
  PARAM_GET c a i s = Some (decode s p c bs, s).
Proof.
  intros Hp Hi Hc Hat Hl. unfold PARAM_GET. run (lift_opt_run_gen _ _ s Hp : get_param a s = Some (p, s)).
  rewrite bool_decide_false by lia. unfold cell, decode in *. apply ram_read_at in Hat. rewrite Hl in Hat.
  destruct (p_vmem p) as [v|]; [|simplify_eq; by run Hat].
  destruct (ps_vmem s !! v) as [vm|] eqn:Hv; [|done]. simplify_eq/=.
  run (lift_opt_run_gen _ _ s Hv : get_vmem v s = Some (vm, s)). rewrite vmem_read_block. by run Hat.
Qed.

Lemma get_cell_inv s a p c i x s' :
  ps_params s !! a = Some p → 0 ≤ i ≤ u32 (p_array_size p) → PARAM_GET c a i s = Some (x, s') →
  s' = s ∧ ∃ blk off bs, cell s p i = Some (blk, off) ∧ ram_at s blk off bs ∧ length bs = ct_size c ∧
    x = decode s p c bs.
Proof.
  intros Hp Hi. unfold PARAM_GET. run (lift_opt_run_gen _ _ s Hp : get_param a s = Some (p, s)).
  rewrite bool_decide_false by lia. unfold cell, decode.
  destruct (p_vmem p) as [v|].
  - destruct (ps_vmem s !! v) as [vm|] eqn:Hv.
    2: { intros Hg. unfold get_vmem in Hg. revert Hg. st_red. by rewrite Hv. }
    run (lift_opt_run_gen _ _ s Hv : get_vmem v s = Some (vm, s)). rewrite vmem_read_block.
    intros (bs & s1 & Hr & [= <- <-])%ST_bind_Some. apply ram_read_inv in Hr as (-> & Hl & Hat).
    split; [done|]. eexists _, _, bs. split; [done|]. split; [done|]. split; [lia|done].
  - intros (bs & s1 & Hr & [= <- <-])%ST_bind_Some. apply ram_read_inv in Hr as (-> & Hl & Hat).
    split; [done|]. eexists _, _, bs. split; [done|]. split; [done|]. split; [lia|done].
Qed.

(** Setting without the callback stores the encoded value in the cell. *)
Lemma set_cell s a p c i v blk off :
  ps_params s !! a = Some p → 0 ≤ i ≤ u32 (p_array_size p) → cell s p i = Some (blk, off) →
  ram_room s blk off (Z.of_nat (ct_size c)) → vmems_ok s → ct_ok c v →
  ∃ s' bs, PARAM_SET c a v false i s = Some ((), s') ∧ stored_step s s' ∧
    length bs = ct_size c ∧ decode s p c bs = v ∧ ram_at s' blk off bs ∧
    (∀ blk' off' bs', disjoint_cells (blk', off') (length bs') (blk, off) (ct_size c) →
      ram_at s blk' off' bs' → ram_at s' blk' off' bs') ∧
    (∀ n vm, p_vmem p = Some n → ps_vmem s !! n = Some vm → vmem_saved vm s') ∧
    (∀ blk' off' len, ram_room s blk' off' len → ram_room s' blk' off' len).
Proof.
  intros Hp Hi Hc Hroom Hvm Hv. unfold PARAM_SET.
  run (lift_opt_run_gen _ _ s Hp : get_param a s = Some (p, s)). rewrite bool_decide_false by lia.
  unfold cell, decode in *. destruct (p_vmem p) as [n|].
  - destruct (ps_vmem s !! n) as [vm|] eqn:Hn; [|done]. simplify_eq/=.
    set (val := if bool_decide (v_big_endian vm = 1) then ct_swapfct c v else v).
    destruct (vmem_write_run vm (u32 (p_addr p + element_offset p i)) (le_bytes (ct_size c) val) s)
      as (s' & Hw & Hst & Hsv & Hat & Hfr & Hrm); [by rewrite length_le_bytes|by apply (Hvm n)|].
    exists s', (le_bytes (ct_size c) val). split.
    { erewrite ST_bind_run; [done|]. run (lift_opt_run_gen _ _ s Hn : get_vmem n s = Some (vm, s)). exact Hw. }
    split; [done|]. split; [apply length_le_bytes|]. split.
    { rewrite le_val_le_bytes. unfold val. case_bool_decide; [by rewrite swapfct_swapfct|done]. }
    split; [done|]. split; [|split; [intros ?? [= <-] ?; by simplify_eq|exact Hrm]].
    intros ??? Hd Ha. apply Hfr; [|done]. rewrite length_le_bytes. exact Hd.
  - simplify_eq. destruct (ram_write_run s (p_base p) (p_addr p + element_offset p i) (le_bytes (ct_size c) v))
      as (m & m' & Hm & Hmw & Hw); [by rewrite length_le_bytes|].
    eexists _, (le_bytes (ct_size c) v). split; [erewrite ST_bind_run; [done|exact Hw]|].
    split; [done|]. split; [apply length_le_bytes|]. split; [by rewrite le_val_le_bytes|].
    split; [by eapply ram_write_at|]. split; [|split; [done|intros; by eapply ram_write_room]].
    intros ??? Hd Ha. eapply ram_write_frame; [exact Hw| |done]. rewrite length_le_bytes. exact Hd.
Qed.
End SetGet.

(** C37: Setting an element of a numeric parameter (in RAM or behind a [vmem], of either
    byte order) succeeds when the element lies in the parameter's memory, and reading it
    back gives the value.  Every other element, of this or any other parameter, that is
    stored elsewhere keeps its value, and the file behind a file-backed [vmem] holds the
    new contents whenever it can be opened. *)
Theorem param_set_get `{ParamEnv} (s : pstate) (a : nat) (p : param_t) (c : ctype) (i v : Z) :
  ps_params s !! a = Some p → has_room s p c i → vmems_ok s → ct_ok c v →
  ∃ s', param_set_array_nocallback c a i v s = Some ((), s') ∧
    param_get_array c a i s' = Some (v, s') ∧
    (∀ b q c' j x cl cl', ps_params s !! b = Some q → 0 ≤ j ≤ u32 (p_array_size q) →
       cell s p i = Some cl → cell s q j = Some cl' → disjoint_cells cl' (ct_size c') cl (ct_size c) →
       param_get_array c' b j s = Some (x, s) → param_get_array c' b j s' = Some (x, s')) ∧
    (∀ n vm, p_vmem p = Some n → ps_vmem s !! n = Some vm → vmem_saved vm s').
Proof.
  intros Hp (Hi & blk & off & Hc & Hroom) Hvm Hv.
  destruct (set_cell s a p c i v blk off) as (s' & bs & Hset & Hst & Hl & Hdec & Hat & Hfr & Hsv & _); [done..|].
  exists s'. split; [exact Hset|].
  assert (Hcell : ∀ q j, cell s' q j = cell s q j).
  { intros q j. unfold cell. by rewrite (ss_vmem _ _ Hst). }
  assert (Hdecode : ∀ q d l, decode s' q d l = decode s q d l).
  { intros q d l. unfold decode. by rewrite (ss_vmem _ _ Hst). }
  split; [|split; [|done]].
  - unfold param_get_array. rewrite <- Hdec, <- Hdecode.
    eapply get_cell; [by rewrite (ss_params _ _ Hst)|done|by rewrite Hcell|done|done].
  - intros b q c' j x cl cl' Hq Hj Hcl Hcl' Hd Hget. simplify_eq.
    destruct (get_cell_inv s b q c' j x s Hq Hj Hget) as (_ & blk' & off' & bs' & Hcq & Hat' & Hl' & ->).
    simplify_eq. unfold param_get_array. rewrite <- Hdecode.
    eapply get_cell; [by rewrite (ss_params _ _ Hst)|done|by rewrite Hcell| |done].
    apply Hfr; [|done]. by rewrite Hl'.
Qed.

(** A file-backed big-endian [vmem] of 16 bytes with two 16-bit parameters. *)
Definition example_vmem : vmem_t :=
  mk_vmem VMEM_TYPE_FILE (vmem_file_driver_t 0 [102]) 4096 16 [] 1 1.
Definition example_param (id addr : Z) : param_t :=
  mk_param id 0 PARAM_TYPE_UINT16 PM_CONF [] None None 0 addr (Some 0%nat) 1 0 None 0 None.
Definition example_state : pstate :=
  mk_pstate {[ 0%nat := replicate 16 0 ]} [example_vmem]
    {[ 0%nat := example_param 21 4; 1%nat := example_param 22 6 ]} 2 None ∅ ∅ [] (mk_app [] 0 0 0).
#[local] Instance example_env : ParamEnv := {|
  fopen_w_ok _ := true; run_callback _ _ _ := mret (); calloc_block _ := None; have_critical := false;
  indeterminate := 0; ptr_block _ := None |}.

Lemma param_set_get_witness :
  ∃ s', param_set_array_nocallback c_uint16 0 0 0x1234 example_state = Some ((), s') ∧
    param_get_array c_uint16 0 0 s' = Some (0x1234, s') ∧
    param_get_array c_uint16 1 0 s' = Some (0, s') ∧
    ps_files s' !! [102] = Some [0; 0; 0; 0; 0x12; 0x34; 0; 0; 0; 0; 0; 0; 0; 0; 0; 0].
Proof.
  destruct (param_set_get example_state 0 (example_param 21 4) c_uint16 0 0x1234)
    as (s' & Hset & Hget & Hfr & Hsv).
  - done.
  - split; [vm_compute; split; congruence|]. exists 0%nat, 4. split; [done|].
    exists (replicate 16 0). split; [done|]. cbn. lia.
  - intros v vm Hv. destruct v as [|v]; [|done]. injection Hv as <-.
    exists (replicate 16 0). split; [done|]. cbn. lia.
  - done.
  - exists s'. split; [exact Hset|]. split; [exact Hget|]. split.
    + apply (Hfr 1%nat (example_param 22 6) c_uint16 0 0 (0%nat, 4) (0%nat, 6)); try done.
      all: try (vm_compute; split; congruence).
      right. right. cbn. lia.
    + clear Hget Hfr Hsv. vm_compute in Hset. injection Hset as <-. done.
Defined.
