(* ===== verification/Wildcard.v ===== *)
(** * Wildcards

    [lib/param/src/param/param_wildcard.c]: matching a parameter name with a pattern,
    by a table over the prefixes of both, and the meaning of patterns. *)

From S2P Require Import Prelude.

Definition c_star : Z := 42.
Definition c_question : Z := 63.

(** [lookup[0][1..]]: only stars match the empty string. *)
Fixpoint first_row (pattern : list Z) (left : bool) : list bool :=
  match pattern with
  | [] => []
  | c :: pattern' =>
      let cur := if bool_decide (c = c_star) then left else false in
      cur :: first_row pattern' cur
  end.

(** [lookup[i][1..]]: [x] is [str[i - 1]], [above] is [lookup[i - 1]] from column [j - 1]
    on, [left] is [lookup[i][j - 1]]. *)
Fixpoint next_row (x : Z) (pattern : list Z) (above : list bool) (left : bool) : list bool :=
  match pattern, above with
  | c :: pattern', diag :: ((up :: _) as above') =>
      let cur :=
        if bool_decide (c = c_star) then left || up
        else if bool_decide (c = c_question ∨ x = c) then diag
        else false in
      cur :: next_row x pattern' above' cur
  | _, _ => []
  end.

(** The rows [0 .. n]; [lookup[i][0]] is [0] for [i > 0]. *)
Definition fill_rows (str pattern : list Z) : list bool :=
  foldl (λ row x, false :: next_row x pattern row false) (true :: first_row pattern true) str.

Definition strmatch (str pattern : list Z) : bool :=
  match pattern with
  | [] => bool_decide (str = [])
  | _ => default false (last (fill_rows str pattern))
  end.

Definition has_wildcard (str : list Z) : bool :=
  existsb (λ c, bool_decide (c = c_star ∨ c = c_question)) str.

(** ** The meaning of a pattern *)

Inductive matches : list Z → list Z → Prop :=
  | matches_nil : matches [] []
  | matches_star p s1 s2 : matches p s2 → matches (c_star :: p) (s1 ++ s2)
  | matches_question x p s : matches p s → matches (c_question :: p) (x :: s)
  | matches_char c p s : c ≠ c_star → c ≠ c_question → matches p s → matches (c :: p) (c :: s).

Section Matching.
Implicit Types (p s : list Z) (c x : Z).

Lemma matches_app p1 p2 s :
  matches (p1 ++ p2) s ↔ ∃ s1 s2, s = s1 ++ s2 ∧ matches p1 s1 ∧ matches p2 s2.
Proof.
  split.
  - revert s. induction p1 as [|c p1 IH]; intros s Hm; [exists [], s; repeat split; [constructor|done]|].
    inversion Hm as [|q t1 t2 Hq|x q t Hq|d q t H1 H2 Hq]; subst;
      destruct (IH _ Hq) as (u1 & u2 & -> & Hu1 & Hu2).
    + exists (t1 ++ u1), u2. rewrite app_assoc. repeat split; [by constructor|done].
    + exists (x :: u1), u2. repeat split; [by constructor|done].
    + exists (c :: u1), u2. repeat split; [by constructor|done].
  - intros (s1 & s2 & -> & H1 & H2). induction H1; simpl; rewrite <- ?app_assoc; try by constructor.
    done.
Qed.

Definition char_matches c x : Prop := c = c_question ∨ x = c.

(** The two recurrences of the table. *)
Lemma matches_snoc_star p s :
  matches (p ++ [c_star]) s ↔ matches p s ∨ ∃ s' x, s = s' ++ [x] ∧ matches (p ++ [c_star]) s'.
Proof.
  assert (Hstar : ∀ t, matches [c_star] t).
  { intros t. rewrite <- (app_nil_r t). constructor. constructor. }
  rewrite matches_app. split.
  - intros (s1 & s2 & -> & H1 & _). destruct s2 as [|x s2 _] using rev_ind; [left; by rewrite app_nil_r|].
    right. exists (s1 ++ s2), x. rewrite app_assoc. split; [done|]. apply matches_app. eauto.
  - intros [Hm|(s' & x & -> & (s1 & s2 & -> & H1 & _)%matches_app)].
    + exists s, []. rewrite app_nil_r. eauto.
    + exists s1, (s2 ++ [x]). rewrite app_assoc. eauto.
Qed.

Lemma matches_snoc_char p c s :
  c ≠ c_star → matches (p ++ [c]) s ↔ ∃ s' x, s = s' ++ [x] ∧ char_matches c x ∧ matches p s'.
Proof.
  intros Hc. rewrite matches_app. split.
  - intros (s1 & s2 & -> & H1 & H2). inversion H2 as [|q t1 t2 Hq|x q t Hq|d q t ? ? Hq]; subst; [done|..];
      inversion Hq; subst; eexists s1, _; (split; [done|]); split; [by left|done|by right|done].
  - intros (s' & x & -> & Hx & Hm). exists s', [x]. split; [done|]. split; [done|].
    destruct (decide (c = c_question)) as [->|Hq]; [repeat constructor|].
    destruct Hx as [?| ->]; [done|]. by repeat constructor.
Qed.

Lemma matches_empty_pattern s : matches [] s ↔ s = [].
Proof. split; [by inversion 1|intros ->; constructor]. Qed.

Lemma matches_snoc_empty p c : matches (p ++ [c]) [] ↔ c = c_star ∧ matches p [].
Proof.
  destruct (decide (c = c_star)) as [->|Hc].
  - rewrite matches_snoc_star. split; [|tauto]. intros [?|(s' & x & ? & _)]; [done|]. by destruct s'.
  - rewrite matches_snoc_char by done. split; [|tauto]. intros (s' & x & ? & _). by destruct s'.
Qed.
End Matching.

(** A row of the table, for the prefix [s] of the string, from the prefix [q] of the
    pattern on. *)
Fixpoint row_ok (s q pattern : list Z) (row : list bool) {struct row} : Prop :=
  match row with
  | [] => False
  | b :: row' =>
      (b = true ↔ matches q s) ∧
      match pattern with
      | [] => row' = []
      | c :: pattern' => row_ok s (q ++ [c]) pattern' row'
      end
  end.

Section Table.
Implicit Types (p s q : list Z) (row : list bool).

Lemma first_row_ok q p left :
  (left = true ↔ matches q []) → row_ok [] q p (left :: first_row p left).
Proof.
  revert q left. induction p as [|c p IH]; intros q left Hl; [done|]. split; [done|].
  cbn [first_row]. apply IH. rewrite matches_snoc_empty. case_bool_decide; [tauto|]. split; [done|tauto].
Qed.

Lemma next_row_ok s x q p above left :
  row_ok s q p above → (left = true ↔ matches q (s ++ [x])) →
  row_ok (s ++ [x]) q p (left :: next_row x p above left).
Proof.
  revert q above left. induction p as [|c p IH]; intros q above left Ha Hl; [by split|].
  destruct above as [|diag above]; [by destruct Ha|]. destruct Ha as [Hd Ha]. cbn in Ha.
  destruct above as [|up above]; [by destruct Ha|]. cbn [next_row]. split; [done|]. apply IH; [done|].
  destruct Ha as [Hu _]. case_bool_decide as Hc; [subst c|].
  - rewrite matches_snoc_star, orb_true_iff, Hl, Hu. split; [intros [?|?]; [by left|right; eauto]|].
    intros [?|(s' & y & Heq & ?)]; [by left|]. apply app_inj_tail in Heq as [-> ->]. by right.
  - rewrite matches_snoc_char by done. case_bool_decide as Hx.
    + rewrite Hd. split; [intros; exists s, x; done|]. intros (s' & y & Heq & _ & ?).
      by apply app_inj_tail in Heq as [-> ->].
    + split; [done|]. intros (s' & y & Heq & Hy & _). apply app_inj_tail in Heq as [-> ->]. done.
Qed.

Lemma fill_rows_ok p s : row_ok s [] p (fill_rows s p).
Proof.
  unfold fill_rows. induction s as [|x s IH] using rev_ind.
  - simpl. apply first_row_ok. rewrite matches_empty_pattern. done.
  - rewrite foldl_app. simpl. apply next_row_ok; [done|]. rewrite matches_empty_pattern.
    split; [done|]. intros Heq. by destruct s.
Qed.

Lemma row_last s q p row : row_ok s q p row → ∃ b, last row = Some b ∧ (b = true ↔ matches (q ++ p) s).
Proof.
  revert q row. induction p as [|c p IH]; intros q row Hr; (destruct row as [|b row]; [done|]).
  - destruct Hr as [Hb ->]. exists b. by rewrite app_nil_r.
  - destruct Hr as [_ Hr]. destruct (IH _ _ Hr) as (b' & Hl & Hb'). exists b'. split.
    + destruct row; [done|]. exact Hl.
    + rewrite Hb', <- app_assoc. done.
Qed.
End Table.

(** The table of [strmatch] decides whether a string matches a wildcard pattern, in
    which a star stands for any sequence of characters, a question mark for any one
    character and every other character for itself. *)
Theorem strmatch_matches (str pattern : list Z) : strmatch str pattern = true ↔ matches pattern str.
Proof.
  unfold strmatch. destruct pattern as [|c p].
  - rewrite matches_empty_pattern, bool_decide_eq_true. done.
  - destruct (row_last _ _ _ _ (fill_rows_ok (c :: p) str)) as (b & Hl & Hb). by rewrite Hl.
Qed.
