(* ===== verification/ParamList.v ===== *)
(** * The parameter list

    [lib/param/src/param/list/param_list.c]: the static parameters of the linker section
    followed by the dynamic list, searching it, adding and removing, and the packed
    descriptions nodes exchange. *)

From S2P Require Import Prelude ParamState Param.

(** ** Walking the list *)

Record param_list_iterator := mk_iterator { it_phase : Z; it_element : option nat }.

(** [param_list_iterator i = {}] *)
Definition iterator_init : param_list_iterator := mk_iterator 0 None.

Definition param_is_static (a : nat) : ST pstate bool :=
  gets (λ s, bool_decide (a < ps_static s)%nat).

Definition param_list_iterate (it : param_list_iterator) : ST pstate (option nat * param_list_iterator) :=
  s ← get;
  match it_element it with
  | None =>
      if bool_decide (ps_static s ≠ 0%nat) then mret (Some 0%nat, mk_iterator 0 (Some 0%nat))
      else mret (ps_head s, mk_iterator 1 (ps_head s))
  | Some e =>
      if bool_decide (it_phase it = 0) then
        if bool_decide (S e < ps_static s)%nat then mret (Some (S e), mk_iterator 0 (Some (S e)))
        else mret (ps_head s, mk_iterator 1 (ps_head s))
      else if bool_decide (it_phase it = 1) then
        p ← get_param e;
        mret (p_next p, mk_iterator 1 (p_next p))
      else mret (None, it)
  end.

(** The loops over the list visit every parameter at most once. *)
Definition list_fuel (s : pstate) : nat := S (ps_static s + size (ps_params s)).

Fixpoint find_loop (fuel : nat) (test : param_t → bool) (it : param_list_iterator) : ST pstate (option nat) :=
  match fuel with
  | O => ub
  | S fuel' =>
      '(r, it') ← param_list_iterate it;
      match r with
      | None => mret None
      | Some a =>
          p ← get_param a;
          if test p then mret (Some a) else find_loop fuel' test it'
      end
  end.

Definition param_list_find (node : Z) (test : param_t → bool) : ST pstate (option nat) :=
  let node := if bool_decide (node < 0) then 0 else node in
  s ← get;
  find_loop (list_fuel s) (λ p, bool_decide (p_node p = node) && test p) iterator_init.

Definition param_list_find_id (node id : Z) : ST pstate (option nat) :=
  param_list_find node (λ p, bool_decide (p_id p = id)).

Definition param_list_find_name (node : Z) (name : list Z) : ST pstate (option nat) :=
  param_list_find node (λ p, bool_decide (p_name p = name)).

(** ** Changing the list *)

Definition set_p_next (n : option nat) (p : param_t) : param_t :=
  mk_param (p_id p) (p_node p) (p_type p) (p_mask p) (p_name p) (p_unit p) (p_docstr p) (p_base p) (p_addr p)
    (p_vmem p) (p_array_size p) (p_array_step p) (p_callback p) (p_timestamp p) n.

Definition NAME_SIZE : Z := 36.
Definition UNIT_SIZE : Z := 10.
Definition HELP_SIZE : Z := 150.

(** [strcpy] into an array of [size] characters of a heap parameter. *)
Definition strcpy_into (size : Z) (src : option (list Z)) : option (list Z) :=
  bs ← src;
  if bool_decide (Z.of_nat (length bs) < size) then Some bs else None.

(** The assignments that update a parameter that is in the list already. *)
Definition update_param (p item : param_t) : option param_t :=
  name ← strcpy_into NAME_SIZE (Some (p_name item));
  unit ← strcpy_into UNIT_SIZE (p_unit item);
  docstr ← strcpy_into HELP_SIZE (p_docstr item);
  Some (mk_param (p_id p) (p_node p) (p_type item) (p_mask item) name (Some unit) (Some docstr) (p_base p) (p_addr p)
    (p_vmem p) (p_array_size item) (p_array_step item) (p_callback p) (p_timestamp p) (p_next p)).

Definition param_list_add (item : nat) : ST pstate Z :=
  it ← get_param item;
  found ← param_list_find_id (p_node it) (p_id it);
  match found with
  | Some a =>
      static ← param_is_static a;
      when (negb static)
        (p ← get_param a; p' ← lift_opt (update_param p it); put_param a p');;
      mret 1
  | None =>
      (* SLIST_INSERT_HEAD *)
      s ← get;
      put_param item (set_p_next (ps_head s) it);;
      modify (with_head (Some item));;
      mret 0
  end.

(** [SLIST_REMOVE]: the element before [elm] is searched from the head; the search
    dereferences [NULL] when [elm] is not in the list. *)
Fixpoint slist_remove_loop (fuel : nat) (cur : option nat) (elm : nat) : ST pstate () :=
  match fuel with
  | O => ub
  | S fuel' =>
      c ← lift_opt cur;
      p ← get_param c;
      if bool_decide (p_next p = Some elm) then
        e ← get_param elm;
        put_param c (set_p_next (p_next e) p)
      else slist_remove_loop fuel' (p_next p) elm
  end.

Definition SLIST_REMOVE (elm : nat) : ST pstate () :=
  s ← get;
  if bool_decide (ps_head s = Some elm) then
    e ← get_param elm;
    modify (with_head (p_next e))
  else slist_remove_loop (list_fuel s) (ps_head s) elm.

(** [param_list_destroy]: the buffer and the parameter are freed. *)
Definition param_list_destroy (a : nat) : ST pstate () :=
  p ← get_param a;
  modify (λ s, with_params (delete a (ps_params s)) (with_ram (delete (p_base p) (ps_ram s)) s)).

Fixpoint remove_loop (fuel : nat) (node : Z) (iter : option nat) (it : param_list_iterator) (count : Z) : ST pstate Z :=
  match fuel with
  | O => ub
  | S fuel' =>
      match iter with
      | None => mret count
      | Some param =>
          '(iter', it') ← param_list_iterate it;
          if bool_decide (it_phase it' = 0) then remove_loop fuel' node iter' it' count else
          p ← get_param param;
          if bool_decide (0 < node ∧ p_node p ≠ node) then remove_loop fuel' node iter' it' count else
          SLIST_REMOVE param;;
          param_list_destroy param;;
          remove_loop fuel' node iter' it' (count + 1)
      end
  end.

Definition param_list_remove (node : Z) : ST pstate Z :=
  s ← get;
  '(iter, it) ← param_list_iterate iterator_init;
  remove_loop (list_fuel s) node iter it 0.

Definition param_list_remove_specific (a : nat) (destroy : bool) : ST pstate () :=
  SLIST_REMOVE a;;
  when destroy (param_list_destroy a).

(** ** Creating remote parameters *)

Definition param_type_of_Z (t : Z) : option param_type_e :=
  match t with
  | 0 => Some PARAM_TYPE_UINT8 | 1 => Some PARAM_TYPE_UINT16 | 2 => Some PARAM_TYPE_UINT32
  | 3 => Some PARAM_TYPE_UINT64 | 4 => Some PARAM_TYPE_INT8 | 5 => Some PARAM_TYPE_INT16
  | 6 => Some PARAM_TYPE_INT32 | 7 => Some PARAM_TYPE_INT64 | 8 => Some PARAM_TYPE_XINT8
  | 9 => Some PARAM_TYPE_XINT16 | 10 => Some PARAM_TYPE_XINT32 | 11 => Some PARAM_TYPE_XINT64
  | 12 => Some PARAM_TYPE_FLOAT | 13 => Some PARAM_TYPE_DOUBLE | 14 => Some PARAM_TYPE_STRING
  | 15 => Some PARAM_TYPE_DATA | 16 => Some PARAM_TYPE_INVALID
  | _ => None
  end.

Definition param_type_to_Z (t : param_type_e) : Z :=
  match t with
  | PARAM_TYPE_UINT8 => 0 | PARAM_TYPE_UINT16 => 1 | PARAM_TYPE_UINT32 => 2 | PARAM_TYPE_UINT64 => 3
  | PARAM_TYPE_INT8 => 4 | PARAM_TYPE_INT16 => 5 | PARAM_TYPE_INT32 => 6 | PARAM_TYPE_INT64 => 7
  | PARAM_TYPE_XINT8 => 8 | PARAM_TYPE_XINT16 => 9 | PARAM_TYPE_XINT32 => 10 | PARAM_TYPE_XINT64 => 11
  | PARAM_TYPE_FLOAT => 12 | PARAM_TYPE_DOUBLE => 13 | PARAM_TYPE_STRING => 14 | PARAM_TYPE_DATA => 15
  | PARAM_TYPE_INVALID => 16
  end.

(** [strlcpy] into an array of [size] characters. *)
Definition strlcpy (size : nat) (src : list Z) : list Z := take (pred size) (take (strnlen src (length src)) src).

Section Create.
Context `{ParamEnv}.

(** [param_list_alloc] and [param_list_create_remote]; for a type that is no enumerator
    [param_typesize] is -1 and the second [calloc] fails. *)
Definition param_list_create_remote (id node type mask array_size : Z) (name : list Z)
    (unit help : option (list Z)) : ST pstate (option nat) :=
  let array_size := if bool_decide (array_size < 1) then 1 else array_size in
  s ← get;
  match calloc_block s, param_type_of_Z type with
  | Some a, Some t =>
      let p := mk_param (u16 id) (u16 node) t mask (strlcpy 36 name)
        (Some (match unit with Some u => strlcpy 10 u | None => [] end))
        (Some (match help with Some h => strlcpy 150 h | None => [] end))
        a 0 None array_size (param_typesize t) None a None in
      modify (with_ram (<[a := replicate (Z.to_nat (param_typesize t * array_size)) 0]> (ps_ram s)));;
      modify (with_timestamps (<[a := 0]> (ps_timestamps s)));;
      put_param a p;;
      mret (Some a)
  | _, _ => mret None
  end.
End Create.

(** ** The list as a sequence *)

Definition next_of (s : pstate) (a : nat) : option (option nat) := p_next <$> ps_params s !! a.

(** The static parameters exist; the dynamic ones form the list [dyn]. *)
Record plist_ok (s : pstate) (dyn : list nat) : Prop := {
  pl_static : ∀ a, (a < ps_static s)%nat → is_Some (ps_params s !! a);
  pl_list : lseg (next_of s) (ps_head s) dyn None;
  pl_nodup : NoDup dyn;
  pl_dyn : ∀ a, a ∈ dyn → (ps_static s ≤ a)%nat;
}.

(** All parameters, in the order of the iterator. *)
Definition all_params (s : pstate) (dyn : list nat) : list nat := seq 0 (ps_static s) ++ dyn.

(** The first parameter of [l] that passes the test. *)
Fixpoint first_param (s : pstate) (test : param_t → bool) (l : list nat) : option nat :=
  match l with
  | [] => None
  | a :: l' =>
      match ps_params s !! a with
      | Some p => if test p then Some a else first_param s test l'
      | None => None
      end
  end.

Section Sequence.
Implicit Types (s : pstate) (dyn l : list nat) (it : param_list_iterator).

(** What the iterator is going to return. *)
Definition upcoming s dyn it l : Prop :=
  (it = iterator_init ∧ l = all_params s dyn) ∨
  (∃ e, it = mk_iterator 0 (Some e) ∧ (e < ps_static s)%nat ∧ l = seq (S e) (ps_static s - S e) ++ dyn) ∨
  (∃ e d, it = mk_iterator 1 (Some e) ∧ dyn = d ++ e :: l).

Lemma dyn_suffix s dyn d e l :
  plist_ok s dyn → dyn = d ++ e :: l →
  ∃ p, ps_params s !! e = Some p ∧ p_next p = head l ∧ lseg (next_of s) (head l) l None.
Proof.
  intros Hok ->. pose proof (pl_list _ _ Hok) as Hl. apply lseg_app in Hl as (r & _ & -> & n & Hn & Hr).
  unfold next_of in Hn. destruct (ps_params s !! e) as [p|] eqn:Hp; [|done]. simplify_eq/=.
  exists p. split; [done|]. pose proof (lseg_head _ _ _ _ Hr) as Hh.
  assert (p_next p = head l) as Heq by (by destruct l). by rewrite <- Heq.
Qed.

Lemma dyn_head s dyn : plist_ok s dyn → ps_head s = head dyn.
Proof. intros Hok. pose proof (lseg_head _ _ _ _ (pl_list _ _ Hok)) as ->. by destruct dyn. Qed.

(** The end of the static phase. *)
Lemma upcoming_dynamic s dyn a l : dyn = a :: l → upcoming s dyn (mk_iterator 1 (Some a)) l.
Proof. intros ->. right. right. exists a, []. done. Qed.

Lemma iterate_step s dyn it l :
  plist_ok s dyn → upcoming s dyn it l →
  ∃ it', param_list_iterate it s = Some ((head l, it'), s) ∧
    (∀ a l', l = a :: l' → upcoming s dyn it' l' ∧ it_element it' = Some a ∧
       (it_phase it' = 0 ↔ (a < ps_static s)%nat)) ∧ (l = [] → it_phase it' = 1).
Proof.
  intros Hok Hu. unfold param_list_iterate. run (eq_refl : get s = Some (s, s)).
  assert (Hdyn : ∃ it', @mret (ST pstate) _ _ (ps_head s, mk_iterator 1 (ps_head s)) s = Some ((head dyn, it'), s) ∧
    (∀ a l', dyn = a :: l' → upcoming s dyn it' l' ∧ it_element it' = Some a ∧
       (it_phase it' = 0 ↔ (a < ps_static s)%nat)) ∧ (dyn = [] → it_phase it' = 1)).
  { rewrite (dyn_head s dyn Hok). eexists. split; [done|]. split; [|done]. intros a l' Heq.
    split; [subst dyn; by apply upcoming_dynamic|]. split; [by rewrite Heq|]. split; [done|].
    pose proof (pl_dyn _ _ Hok a ltac:(rewrite Heq; by left)). simpl. lia. }
  destruct Hu as [[-> ->]|[(e & -> & He & ->)|(e & d & -> & Heq)]]; cbn [it_element it_phase iterator_init].
  - unfold all_params. destruct (ps_static s) as [|n] eqn:Hn; [exact Hdyn|]. cbn [seq app head].
    rewrite bool_decide_true by done. eexists. split; [done|]. split; [|done]. intros a l' [= <- <-].
    split; [|split; [done|split; [lia|done]]]. right. left. exists 0%nat. split; [done|]. split; [lia|].
    rewrite Hn. by replace (S n - 1)%nat with n by lia.
  - rewrite bool_decide_true by done. case_bool_decide as Hlt.
    + destruct (ps_static s - S e)%nat as [|k] eqn:Hk; [lia|]. cbn [seq app head]. eexists. split; [done|].
      split; [|done]. intros a l' [= <- <-]. split; [|done]. right. left. exists (S e). split; [done|]. split; [done|].
      by replace (ps_static s - S (S e))%nat with k by lia.
    + assert (ps_static s - S e = 0)%nat as -> by lia. exact Hdyn.
  - rewrite bool_decide_false, bool_decide_true by done.
    destruct (dyn_suffix s dyn d e l Hok Heq) as (p & Hp & Hn & _).
    run (lift_opt_run_gen _ _ s Hp : get_param e s = Some (p, s)). rewrite Hn. eexists. split; [done|]. split; [|done].
    intros a l' ->. split; [|split; [done|]].
    + right. right. exists a, (d ++ [e]). split; [done|]. rewrite Heq. by rewrite <- app_assoc.
    + split; [done|]. pose proof (pl_dyn _ _ Hok a) as Ha. rewrite Heq in Ha. simpl in *.
      assert (ps_static s ≤ a)%nat; [|lia]. apply Ha, elem_of_app. right. by right; left.
Qed.

Lemma upcoming_exists s dyn it a l :
  plist_ok s dyn → upcoming s dyn it (a :: l) → is_Some (ps_params s !! a).
Proof.
  intros Hok Hu. assert (Hin : a ∈ all_params s dyn).
  { destruct Hu as [[_ Heq]|[(e & _ & He & Heq)|(e & d & _ & ->)]]; [rewrite <- Heq; by left|unfold all_params..].
    - assert (Ha : a ∈ seq (S e) (ps_static s - S e) ++ dyn) by (rewrite <- Heq; by left).
      apply elem_of_app in Ha as [[? ?]%elem_of_seq|?]; apply elem_of_app; [left; apply elem_of_seq; lia|by right].
    - apply elem_of_app. right. apply elem_of_app. right. right. by left. }
  apply elem_of_app in Hin as [[_ Hlt]%elem_of_seq|Hd]; [by apply (pl_static _ _ Hok)|].
  apply list_elem_of_split in Hd as (d & l' & Hd). destruct (dyn_suffix s dyn d a l' Hok Hd) as (p & -> & _). eauto.
Qed.

Lemma find_loop_spec s dyn it l test fuel :
  plist_ok s dyn → upcoming s dyn it l → (length l < fuel)%nat →
  find_loop fuel test it s = Some (first_param s test l, s).
Proof.
  intros Hok. revert it l. induction fuel as [|fuel IH]; intros it l Hu Hf; [lia|]. cbn [find_loop].
  destruct (iterate_step s dyn it l Hok Hu) as (it' & Hit & Hnext & _). run Hit.
  destruct l as [|a l]; [done|]. cbn [head first_param]. destruct (upcoming_exists s dyn it a l Hok Hu) as [p Hp].
  run (lift_opt_run_gen _ _ s Hp : get_param a s = Some (p, s)). rewrite Hp. destruct (test p); [done|].
  apply IH; [by destruct (Hnext a l eq_refl)|simpl in Hf; lia].
Qed.

(** The fuel is enough: the list holds different parameters. *)
Lemma all_params_length s dyn : plist_ok s dyn → (length (all_params s dyn) < list_fuel s)%nat.
Proof.
  intros Hok. unfold all_params, list_fuel. rewrite length_app, length_seq.
  assert (length dyn ≤ size (ps_params s))%nat; [|lia].
  rewrite <- (size_list_to_set (C := gset nat) dyn) by apply (pl_nodup _ _ Hok).
  rewrite <- size_dom. apply subseteq_size. intros a Ha%elem_of_list_to_set.
  apply elem_of_dom. apply list_elem_of_split in Ha as (d & l' & Hd).
  destruct (dyn_suffix s dyn d a l' Hok Hd) as (p & -> & _). eauto.
Qed.

Lemma find_spec s dyn node test :
  plist_ok s dyn →
  param_list_find node test s =
  Some (first_param s (λ p, bool_decide (p_node p = Z.max 0 node) && test p) (all_params s dyn), s).
Proof.
  intros Hok. unfold param_list_find. run (eq_refl : get s = Some (s, s)).
  replace (if bool_decide (node < 0) then 0 else node) with (Z.max 0 node) by (case_bool_decide; lia).
  apply (find_loop_spec s dyn); [done|by left|by apply all_params_length].
Qed.
End Sequence.

Section Changes.
Implicit Types (s : pstate) (dyn d l : list nat) (a : nat).

(** Equal but for the links of the list. *)
Definition same_param (p q : param_t) : Prop := set_p_next None p = set_p_next None q.

Lemma next_of_put s a p b :
  next_of (with_params (<[a := p]> (ps_params s)) s) b = if decide (b = a) then Some (p_next p) else next_of s b.
Proof.
  unfold next_of. simpl. case_decide as Hb; [subst; by rewrite lookup_insert_eq|by rewrite lookup_insert_ne].
Qed.

(** Storing a parameter with the same link keeps the list. *)
Lemma plist_ok_put s dyn a p p' :
  plist_ok s dyn → ps_params s !! a = Some p → p_next p' = p_next p →
  plist_ok (with_params (<[a := p']> (ps_params s)) s) dyn.
Proof.
  intros Hok Hp Hn. split; simpl.
  - intros b Hb. destruct (decide (b = a)) as [->|?]; [rewrite lookup_insert_eq; eauto|].
    rewrite lookup_insert_ne by done. by apply (pl_static _ _ Hok).
  - eapply lseg_ext; [|exact (pl_list _ _ Hok)]. intros b _. rewrite next_of_put. case_decide as Hb; [|done].
    subst. unfold next_of. by rewrite Hp, Hn.
  - apply (pl_nodup _ _ Hok).
  - apply (pl_dyn _ _ Hok).
Qed.

Lemma plist_ok_cons s dyn a p :
  plist_ok s dyn → ps_params s !! a = Some p → a ∉ dyn → (ps_static s ≤ a)%nat →
  plist_ok (with_head (Some a) (with_params (<[a := set_p_next (ps_head s) p]> (ps_params s)) s)) (a :: dyn).
Proof.
  intros Hok Hp Hni Hge. split; simpl.
  - intros b Hb. rewrite lookup_insert_ne by lia. by apply (pl_static _ _ Hok).
  - split; [done|]. exists (ps_head s). split; [unfold next_of; simpl; by rewrite lookup_insert_eq|].
    eapply lseg_ext; [|exact (pl_list _ _ Hok)]. intros b Hb. unfold next_of; simpl.
    rewrite lookup_insert_ne; [done|]. by intros ->.
  - apply NoDup_cons. split; [done|apply (pl_nodup _ _ Hok)].
  - intros b [->|Hb]%elem_of_cons; [done|]. by apply (pl_dyn _ _ Hok).
Qed.

Lemma first_param_None s test l :
  (∀ a, a ∈ l → ∃ p, ps_params s !! a = Some p ∧ test p = false) → first_param s test l = None.
Proof.
  induction l as [|a l IH]; intros Hl; [done|]. cbn [first_param].
  destruct (Hl a ltac:(by left)) as (p & -> & ->). apply IH. intros b Hb. apply Hl. by right.
Qed.

Lemma first_param_Some s test l a :
  first_param s test l = Some a ↔
  ∃ l1 l2 p, l = l1 ++ a :: l2 ∧ ps_params s !! a = Some p ∧ test p = true ∧
    ∀ b, b ∈ l1 → ∃ q, ps_params s !! b = Some q ∧ test q = false.
Proof.
  induction l as [|b l IH]; cbn [first_param].
  { split; [done|]. intros (l1 & l2 & ? & Heq & _). by destruct l1. }
  destruct (ps_params s !! b) as [q|] eqn:Hq.
  - destruct (test q) eqn:Ht.
    + split.
      { intros [= <-]. exists [], l, q. split; [done|]. split; [done|]. split; [done|].
        intros c Hc. by apply not_elem_of_nil in Hc. }
      intros (l1 & l2 & p & Heq & Hp & Htp & Hl1). destruct l1 as [|c l1]; [by injection Heq as -> _|].
      injection Heq as -> _. destruct (Hl1 c ltac:(by left)) as (? & ? & ?). congruence.
    + rewrite IH. split.
      * intros (l1 & l2 & p & -> & Hp & Htp & Hl1). exists (b :: l1), l2, p. split; [done|]. split; [done|].
        split; [done|]. intros c [->|Hc]%elem_of_cons; [eauto|by apply Hl1].
      * intros (l1 & l2 & p & Heq & Hp & Htp & Hl1). destruct l1 as [|c l1]; [simplify_eq/=; congruence|].
        injection Heq as -> ->. exists l1, l2, p. split; [done|]. split; [done|]. split; [done|]. intros c' Hc'. apply Hl1. by right.
  - split; [done|]. intros (l1 & l2 & p & Heq & Hp & Htp & Hl1). destruct l1 as [|c l1]; [simplify_eq/=|].
    injection Heq as -> _.
    destruct (Hl1 c ltac:(by left)) as (? & ? & ?). congruence.
Qed.

(** *** [SLIST_REMOVE] *)

Lemma dyn_get s dyn a : plist_ok s dyn → a ∈ dyn → ∃ p, ps_params s !! a = Some p.
Proof.
  intros Hok (d & l & Hd)%list_elem_of_split. destruct (dyn_suffix s dyn d a l Hok Hd) as (p & ? & _). eauto.
Qed.

(** The list without [a]: the link before it is redirected. *)
Lemma slist_remove_loop_spec s dyn d c d' a l pa fuel :
  plist_ok s dyn → dyn = d ++ c :: d' ++ a :: l → ps_params s !! a = Some pa → (length d' < fuel)%nat →
  ∃ b q, last (c :: d') = Some b ∧ ps_params s !! b = Some q ∧
    slist_remove_loop fuel (Some c) a s =
    Some ((), with_params (<[b := set_p_next (p_next pa) q]> (ps_params s)) s).
Proof.
  intros Hok. revert d c d'. induction fuel as [|fuel IH]; intros d c d' Hd Hpa Hf; [lia|].
  destruct (dyn_suffix s dyn d c (d' ++ a :: l) Hok Hd) as (p & Hp & Hn & _). cbn [slist_remove_loop].
  run (eq_refl : lift_opt (Some c) s = Some (c, s)). run (lift_opt_run_gen _ _ s Hp : get_param c s = Some (p, s)).
  pose proof (pl_nodup _ _ Hok) as Hnd.
  destruct d' as [|e d'].
  - cbn in Hn. rewrite Hn, bool_decide_true by done. exists c, p. split; [done|]. split; [done|].
    by run (lift_opt_run_gen _ _ s Hpa : get_param a s = Some (pa, s)).
  - cbn in Hn. rewrite Hn, bool_decide_false.
    2:{ intros [= ->]. rewrite Hd in Hnd. apply NoDup_app in Hnd as (_ & _ & Hnd).
        apply NoDup_cons in Hnd as [_ Hnd]. apply NoDup_cons in Hnd as [Hni _]. apply Hni, elem_of_app. right. by left. }
    destruct (IH (d ++ [c]) e d') as (b & q & Hl & Hq & Hr); [rewrite Hd; by rewrite <- app_assoc|done|simpl in Hf; lia|].
    exists b, q. split; [|done]. by rewrite <- Hl.
Qed.

(** [s'] has the list [dyn] and differs from [s] only in links. *)
Record relinked s s' dyn : Prop := {
  rl_ok : plist_ok s' dyn;
  rl_static : ps_static s' = ps_static s;
  rl_params : ∀ b, set_p_next None <$> ps_params s' !! b = set_p_next None <$> ps_params s !! b;
  rl_ram : ps_ram s' = ps_ram s;
}.

Lemma SLIST_REMOVE_spec s d a l :
  plist_ok s (d ++ a :: l) → ∃ s', SLIST_REMOVE a s = Some ((), s') ∧ relinked s s' (d ++ l).
Proof.
  intros Hok. pose proof (pl_nodup _ _ Hok) as Hnd. pose proof (pl_list _ _ Hok) as Hl.
  destruct (dyn_suffix s _ d a l Hok eq_refl) as (pa & Hpa & Hna & Hseg). unfold SLIST_REMOVE.
  run (eq_refl : get s = Some (s, s)).
  assert (Hnd' : NoDup (d ++ l)).
  { apply NoDup_app in Hnd as (H1 & H2 & [_ H3]%NoDup_cons). apply NoDup_app. split; [done|]. split; [|done].
    intros x Hx Hxl. apply (H2 x Hx). by right. }
  destruct d as [|c d].
  - assert (ps_head s = Some a) as Hh by (by rewrite (dyn_head _ _ Hok)). rewrite Hh, bool_decide_true by done.
    run (lift_opt_run_gen _ _ s Hpa : get_param a s = Some (pa, s)). eexists. split; [done|]. split; [|done..].
    split; simpl; [apply (pl_static _ _ Hok)|by rewrite Hna|done|]. intros b Hb. apply (pl_dyn _ _ Hok). by right.
  - assert (ps_head s = Some c) as Hh by (by rewrite (dyn_head _ _ Hok)). rewrite Hh, bool_decide_false.
    2:{ intros [= ->]. apply NoDup_cons in Hnd as [Hni _]. apply Hni, elem_of_app. right. by left. }
    destruct (slist_remove_loop_spec s _ [] c d a l pa (list_fuel s) Hok eq_refl Hpa) as (b & q & Hlast & Hq & Hr).
    { pose proof (all_params_length _ _ Hok) as Hf. unfold all_params in Hf. rewrite length_app, length_app in Hf. simpl in Hf. lia. }
    eexists. split; [exact Hr|]. apply last_Some in Hlast as [d0 Hd0].
    assert (Hsplit : (c :: d) ++ a :: l = d0 ++ [b] ++ a :: l) by (rewrite Hd0; by rewrite <- app_assoc).
    assert (Hsplit' : (c :: d) ++ l = (d0 ++ [b]) ++ l) by (by rewrite Hd0).
    split; [|done| |done].
    + rewrite Hsplit in Hl, Hnd. rewrite Hsplit' in *. split; simpl.
      * intros x Hx. destruct (decide (x = b)) as [->|?]; [rewrite lookup_insert_eq; eauto|].
        rewrite lookup_insert_ne by done. by apply (pl_static _ _ Hok).
      * rewrite app_assoc in Hl. apply lseg_app in Hl as (r & Hl & _). apply lseg_app. exists (p_next pa). split.
        -- eapply (lseg_set_last (next_of s)); [| | |].
           ++ apply NoDup_app in Hnd' as [(_ & Hx & _)%NoDup_app _]. intros Hin. apply (Hx b Hin). by left.
           ++ intros x Hx. by rewrite next_of_put, decide_False.
           ++ rewrite next_of_put, decide_True by done. done.
           ++ exact Hl.
        -- rewrite Hna. eapply lseg_ext; [|exact Hseg]. intros x Hx. rewrite next_of_put, decide_False; [done|].
           intros ->. apply NoDup_app in Hnd' as (_ & Hd & _). apply (Hd b); [|done]. apply elem_of_app. right. by left.
      * done.
      * intros x Hx. apply (pl_dyn _ _ Hok). rewrite Hsplit. apply elem_of_app in Hx as [Hx|Hx].
        -- apply elem_of_app in Hx as [Hx|Hx]; apply elem_of_app; [by left|right; apply elem_of_app; by left].
        -- apply elem_of_app. right. apply elem_of_app. right. by right.
    + intros x. simpl. destruct (decide (x = b)) as [->|?]; [by rewrite lookup_insert_eq, Hq|by rewrite lookup_insert_ne].
Qed.

(** Removing what is not in the list follows a null pointer. *)
Lemma slist_remove_absent s dyn d l a fuel :
  plist_ok s dyn → dyn = d ++ l → a ∉ l → slist_remove_loop fuel (head l) a s = None.
Proof.
  intros Hok. revert d l. induction fuel as [|fuel IH]; intros d l Hd Hni; [done|]. cbn [slist_remove_loop].
  destruct l as [|c l]; [done|]. cbn [head]. run (eq_refl : lift_opt (Some c) s = Some (c, s)).
  destruct (dyn_suffix s dyn d c l Hok Hd) as (p & Hp & Hn & _).
  run (lift_opt_run_gen _ _ s Hp : get_param c s = Some (p, s)). rewrite Hn, bool_decide_false.
  - apply (IH (d ++ [c])); [by rewrite Hd, <- app_assoc|]. intros ?. apply Hni. by right.
  - intros Hh. apply Hni. right. destruct l; [done|]. injection Hh as ->. by left.
Qed.

Lemma SLIST_REMOVE_absent s dyn a : plist_ok s dyn → a ∉ dyn → SLIST_REMOVE a s = None.
Proof.
  intros Hok Hni. unfold SLIST_REMOVE. run (eq_refl : get s = Some (s, s)). rewrite (dyn_head _ _ Hok).
  rewrite bool_decide_false.
  - by apply (slist_remove_absent s dyn []).
  - intros Hh. apply Hni. destruct dyn; [done|]. injection Hh as ->. by left.
Qed.
End Changes.

Section Removal.
Implicit Types (s : pstate) (dyn d l : list nat) (a : nat).

Definition node_of s a : option Z := p_node <$> ps_params s !! a.

(** The parameters that stay. *)
Definition other_node s (node : Z) (l : list nat) : list nat := filter (λ a, node_of s a ≠ Some node) l.

Lemma relinked_node s s' dyn a : relinked s s' dyn → node_of s' a = node_of s a.
Proof.
  intros Hr. pose proof (rl_params _ _ _ Hr a) as Hp. unfold node_of.
  destruct (ps_params s' !! a) as [p'|], (ps_params s !! a) as [p|]; simplify_eq/=; [congruence|done].
Qed.

(** Unlinking and freeing one parameter. *)
Lemma remove_one s d a l :
  plist_ok s (d ++ a :: l) →
  ∃ s', (SLIST_REMOVE a;; param_list_destroy a) s = Some ((), s') ∧
    plist_ok s' (d ++ l) ∧ ps_static s' = ps_static s ∧ (∀ b, b ≠ a → node_of s' b = node_of s b).
Proof.
  intros Hok. destruct (SLIST_REMOVE_spec s d a l Hok) as (s1 & Hr & Hrl). pose proof (rl_ok _ _ _ Hrl) as Hok1.
  destruct (dyn_get s _ a Hok) as [p Hp]; [apply elem_of_app; right; by left|].
  destruct (ps_params s1 !! a) as [p1|] eqn:Hp1.
  2:{ pose proof (rl_params _ _ _ Hrl a) as Hx. by rewrite Hp, Hp1 in Hx. }
  eexists. split; [run Hr; unfold param_list_destroy; by run (lift_opt_run_gen _ _ s1 Hp1 : get_param a s1 = Some (p1, s1))|].
  pose proof (pl_nodup _ _ Hok) as Hnd. pose proof (pl_dyn _ _ Hok a ltac:(apply elem_of_app; right; by left)) as Hge.
  split; [|split; [by apply (rl_static _ _ _ Hrl)|]].
  - split; simpl.
    + intros b Hb. rewrite lookup_delete_ne by (rewrite (rl_static _ _ _ Hrl) in Hb; lia). by apply (pl_static _ _ Hok1).
    + eapply lseg_ext; [|exact (pl_list _ _ Hok1)]. intros b Hb. unfold next_of. simpl.
      rewrite lookup_delete_ne; [done|]. intros <-. apply NoDup_app in Hnd as (_ & Hd & [Hl _]%NoDup_cons).
      apply elem_of_app in Hb as [Hb|Hb]; [apply (Hd a Hb); by left|done].
    + apply (pl_nodup _ _ Hok1).
    + apply (pl_dyn _ _ Hok1).
  - intros b Hb. rewrite <- (relinked_node s s1 _ b Hrl). unfold node_of. simpl. by rewrite lookup_delete_ne.
Qed.

Lemma other_node_ext s s' node l :
  (∀ a, a ∈ l → node_of s' a = node_of s a) → other_node s' node l = other_node s node l.
Proof.
  unfold other_node. induction l as [|a l IH]; intros Hl; [done|].
  assert (filter (λ b, node_of s' b ≠ Some node) l = filter (λ b, node_of s b ≠ Some node) l) as Heq.
  { apply IH. intros b Hb. apply Hl. by right. }
  rewrite !filter_cons, Heq. pose proof (Hl a ltac:(by left)) as Ha. rewrite Ha. done.
Qed.

(** The dynamic phase: [d] has been dealt with, [l] is still to come. *)
Lemma remove_dynamic s d l node count fuel :
  plist_ok s (d ++ l) → 0 < node → (length l < fuel)%nat →
  ∃ s', remove_loop fuel node (head l) (mk_iterator 1 (head l)) count s =
    Some (count + Z.of_nat (length l) - Z.of_nat (length (other_node s node l)), s') ∧
    plist_ok s' (d ++ other_node s node l) ∧ ps_static s' = ps_static s ∧
    (∀ b, b ∉ l → node_of s' b = node_of s b).
Proof.
  intros Hok Hn. revert s d l count Hok. induction fuel as [|fuel IH]; intros s d l count Hok Hf; [lia|].
  destruct l as [|a l].
  { exists s. assert (other_node s node [] = []) as -> by done. split; [|by split].
    cbn [remove_loop head length]. by replace (count + Z.of_nat 0 - Z.of_nat 0) with count by lia. }
  cbn [remove_loop head].
  destruct (dyn_suffix s _ d a l Hok eq_refl) as (p & Hp & Hnext & _).
  assert (Hu : upcoming s (d ++ a :: l) (mk_iterator 1 (Some a)) l) by (right; right; exists a, d; done).
  assert (Hit : param_list_iterate (mk_iterator 1 (Some a)) s = Some ((head l, mk_iterator 1 (head l)), s)).
  { unfold param_list_iterate. run (eq_refl : get s = Some (s, s)). cbn [it_element it_phase].
    rewrite bool_decide_false, bool_decide_true by done.
    run (lift_opt_run_gen _ _ s Hp : get_param a s = Some (p, s)). by rewrite Hnext. }
  run Hit. cbn [it_phase]. rewrite bool_decide_false by done.
  run (lift_opt_run_gen _ _ s Hp : get_param a s = Some (p, s)).
  assert (Hnode : node_of s a = Some (p_node p)) by (unfold node_of; by rewrite Hp).
  unfold other_node at 1 2. rewrite filter_cons. simpl in Hf. case_bool_decide as Hm.
  - rewrite decide_True by (rewrite Hnode; intros [= ?]; lia). cbn [length]. rewrite (cons_middle a d l) in Hok.
    destruct (IH s (d ++ [a]) l count) as (s' & Hr & Hok' & Hst & Hno); [by rewrite <- app_assoc|lia|].
    exists s'. split; [rewrite Hr; f_equal; f_equal; unfold other_node; lia|].
    rewrite <- app_assoc in Hok'. split; [done|]. split; [done|]. intros b Hb. apply Hno. intros ?. apply Hb. by right.
  - assert (p_node p = node) as Heq by lia. rewrite decide_False by (rewrite Hnode, Heq; tauto).
    destruct (remove_one s d a l Hok) as (s1 & Hr1 & Hok1 & Hst1 & Hno1).
    assert (Hr1' : ∀ k : ST pstate Z, (SLIST_REMOVE a;; param_list_destroy a;; k) s = k s1).
    { intros k. revert Hr1. st_red. destruct (SLIST_REMOVE a s) as [[[] s0]|]; [|done].
      destruct (param_list_destroy a s0) as [[[] s2]|]; [|done]. by intros [= ->]. }
    rewrite Hr1'. destruct (IH s1 d l (count + 1) Hok1) as (s' & Hr & Hok' & Hst & Hno); [lia|].
    pose proof (pl_nodup _ _ Hok) as Hnd. apply NoDup_app in Hnd as (_ & _ & [Hal _]%NoDup_cons).
    assert (Ho : other_node s1 node l = other_node s node l).
    { apply other_node_ext. intros b Hb. apply Hno1. by intros ->. }
    rewrite Ho in *. exists s'. split; [rewrite Hr; f_equal; f_equal; unfold other_node; cbn [length]; lia|].
    split; [done|]. split; [congruence|]. intros b Hb. rewrite Hno by (intros ?; apply Hb; by right).
    apply Hno1. intros ->. apply Hb. by left.
Qed.

(** The static phase changes nothing when no static parameter has the node. *)
Lemma remove_static s dyn node e k fuel :
  plist_ok s dyn → 0 < node → ps_static s = S (e + k) →
  (∀ a, (a < ps_static s)%nat → node_of s a ≠ Some node) → (k < fuel)%nat →
  remove_loop fuel node (Some e) (mk_iterator 0 (Some e)) 0 s =
  remove_loop (fuel - S k) node (head dyn) (mk_iterator 1 (head dyn)) 0 s.
Proof.
  intros Hok Hn. revert e fuel. induction k as [|k IH]; intros e fuel Hs Hno Hf; (destruct fuel as [|fuel]; [lia|]).
  - cbn [remove_loop].
    assert (Hit : param_list_iterate (mk_iterator 0 (Some e)) s = Some ((head dyn, mk_iterator 1 (head dyn)), s)).
    { unfold param_list_iterate. run (eq_refl : get s = Some (s, s)). cbn [it_element it_phase].
      rewrite bool_decide_true, bool_decide_false by (done || lia). by rewrite (dyn_head _ _ Hok). }
    run Hit. cbn [it_phase]. rewrite bool_decide_false by done.
    destruct (pl_static _ _ Hok e ltac:(lia)) as [p Hp].
    run (lift_opt_run_gen _ _ s Hp : get_param e s = Some (p, s)).
    rewrite bool_decide_true; [by replace (S fuel - 1)%nat with fuel by lia|]. split; [done|]. intros Heq.
    apply (Hno e); [lia|]. unfold node_of. by rewrite Hp, <- Heq.
  - cbn [remove_loop].
    assert (Hit : param_list_iterate (mk_iterator 0 (Some e)) s = Some ((Some (S e), mk_iterator 0 (Some (S e))), s)).
    { unfold param_list_iterate. run (eq_refl : get s = Some (s, s)). cbn [it_element it_phase].
      by rewrite bool_decide_true, bool_decide_true by (done || lia). }
    run Hit. cbn [it_phase]. rewrite bool_decide_true by done.
    rewrite IH by (done || lia). by replace (S fuel - S (S k))%nat with (fuel - S k)%nat by lia.
Qed.

Lemma iterate_first s dyn :
  plist_ok s dyn → ∃ it, param_list_iterate iterator_init s = Some ((head (all_params s dyn), it), s) ∧
    it = (if decide (ps_static s = 0%nat) then mk_iterator 1 (head dyn) else mk_iterator 0 (Some 0%nat)).
Proof.
  intros Hok. eexists. split; [|done]. unfold param_list_iterate, all_params.
  run (eq_refl : get s = Some (s, s)). cbn [it_element iterator_init]. case_decide as Hs.
  - rewrite Hs, bool_decide_false by tauto. by rewrite (dyn_head _ _ Hok).
  - rewrite bool_decide_true by done. by destruct (ps_static s).
Qed.

(** The phase is tested after the iterator has moved on, so the last static parameter is
    taken for a dynamic one. *)
Lemma remove_all_static s dyn e k fuel node :
  plist_ok s dyn → node ≤ 0 → ps_static s = S (e + k) →
  remove_loop fuel node (Some e) (mk_iterator 0 (Some e)) 0 s = None.
Proof.
  intros Hok Hn. revert e fuel. induction k as [|k IH]; intros e fuel Hs; (destruct fuel as [|fuel]; [done|]); cbn [remove_loop].
  - assert (Hit : param_list_iterate (mk_iterator 0 (Some e)) s = Some ((head dyn, mk_iterator 1 (head dyn)), s)).
    { unfold param_list_iterate. run (eq_refl : get s = Some (s, s)). cbn [it_element it_phase].
      rewrite bool_decide_true, bool_decide_false by (done || lia). by rewrite (dyn_head _ _ Hok). }
    run Hit. cbn [it_phase]. rewrite bool_decide_false by done.
    destruct (pl_static _ _ Hok e ltac:(lia)) as [p Hp].
    run (lift_opt_run_gen _ _ s Hp : get_param e s = Some (p, s)). rewrite bool_decide_false by lia.
    st_red. rewrite (SLIST_REMOVE_absent s dyn e Hok); [done|].
    intros Hin. pose proof (pl_dyn _ _ Hok e Hin). lia.
  - assert (Hit : param_list_iterate (mk_iterator 0 (Some e)) s = Some ((Some (S e), mk_iterator 0 (Some (S e))), s)).
    { unfold param_list_iterate. run (eq_refl : get s = Some (s, s)). cbn [it_element it_phase].
      by rewrite bool_decide_true, bool_decide_true by (done || lia). }
    run Hit. cbn [it_phase]. rewrite bool_decide_true by done. apply IH. lia.
Qed.
End Removal.

Section Search.
Implicit Types (s : pstate) (dyn l : list nat).

Lemma all_params_exist s dyn a : plist_ok s dyn → a ∈ all_params s dyn → is_Some (ps_params s !! a).
Proof.
  intros Hok [[_ Ha]%elem_of_seq|Ha]%elem_of_app; [by apply (pl_static _ _ Hok)|].
  destruct (dyn_get s dyn a Hok Ha) as [p ->]. eauto.
Qed.

Lemma first_param_None_inv s test l b q :
  (∀ a, a ∈ l → is_Some (ps_params s !! a)) → first_param s test l = None →
  b ∈ l → ps_params s !! b = Some q → test q = false.
Proof.
  intros Hall. induction l as [|c l IH]; [intros _ Hc; by apply not_elem_of_nil in Hc|]. cbn [first_param].
  destruct (Hall c ltac:(by left)) as [x Hx]. rewrite Hx. destruct (test x) eqn:Hc; [done|].
  intros Hf [->|Hin]%elem_of_cons Hq; [by simplify_eq|].
  apply IH; [|done..]. intros d Hd. apply Hall. by right.
Qed.
End Search.

Definition has_id (node id : Z) (p : param_t) : bool := bool_decide (p_node p = Z.max 0 node) && bool_decide (p_id p = id).

(** [param_list_find_id] walks the static parameters and then the dynamic list and
    returns the first parameter with the node and the identifier, a negative node
    standing for the local one; it returns nothing exactly when there is none, always
    comes to an end and changes nothing. *)
Theorem param_list_find_id_first (s : pstate) (dyn : list nat) (node id : Z) :
  plist_ok s dyn →
  ∃ r, param_list_find_id node id s = Some (r, s) ∧
    match r with
    | Some a => ∃ l1 l2 p, all_params s dyn = l1 ++ a :: l2 ∧ ps_params s !! a = Some p ∧
        has_id node id p = true ∧ ∀ b q, b ∈ l1 → ps_params s !! b = Some q → has_id node id q = false
    | None => ∀ b q, b ∈ all_params s dyn → ps_params s !! b = Some q → has_id node id q = false
    end.
Proof.
  intros Hok. eexists. split; [exact (find_spec s dyn node _ Hok)|].
  destruct (first_param _ _ _) as [a|] eqn:Hf.
  - apply first_param_Some in Hf as (l1 & l2 & p & Hl & Hp & Ht & Hl1). exists l1, l2, p. split; [done|].
    split; [done|]. split; [done|]. intros b q Hb Hq. destruct (Hl1 b Hb) as (q' & Hq' & Hf). by simplify_eq.
  - intros b q. apply (first_param_None_inv _ _ _ _ _ (λ a, all_params_exist s dyn a Hok) Hf).
Qed.

(** The strings of a parameter made by [param_list_create_remote]. *)
Definition heap_strings (p : param_t) : Prop :=
  Z.of_nat (length (p_name p)) < NAME_SIZE ∧
  (∃ u, p_unit p = Some u ∧ Z.of_nat (length u) < UNIT_SIZE) ∧
  (∃ h, p_docstr p = Some h ∧ Z.of_nat (length h) < HELP_SIZE).

(** [p'] is [p] with the description of [it]: its type, mask, dimensions and strings; where
    it is stored, its callback, its timestamp and its place in the list stay. *)
Record redescribed (p it p' : param_t) : Prop := {
  rd_type : p_type p' = p_type it;
  rd_mask : p_mask p' = p_mask it;
  rd_array_size : p_array_size p' = p_array_size it;
  rd_array_step : p_array_step p' = p_array_step it;
  rd_name : p_name p' = p_name it;
  rd_unit : p_unit p' = p_unit it;
  rd_docstr : p_docstr p' = p_docstr it;
  rd_ident : p_id p' = p_id p ∧ p_node p' = p_node p;
  rd_storage : p_base p' = p_base p ∧ p_addr p' = p_addr p ∧ p_vmem p' = p_vmem p;
  rd_rest : p_callback p' = p_callback p ∧ p_timestamp p' = p_timestamp p ∧ p_next p' = p_next p;
}.

Lemma update_param_heap p it : heap_strings it → ∃ p', update_param p it = Some p' ∧ redescribed p it p'.
Proof.
  intros (Hn & (u & Hu & Hul) & (h & Hh & Hhl)). unfold update_param, strcpy_into. rewrite Hu, Hh. monad.
  rewrite !bool_decide_true by done. monad. eexists. split; [done|]. by split.
Qed.

(** C38: [param_list_add] keeps the list well formed, for a heap parameter with a node that is
    not negative and with strings that fit a parameter's ([heap_strings]).  A parameter whose
    node and identifier are new goes to the front of the dynamic list, where they are found,
    and nothing else changes; one that is known already is not inserted: when a static
    parameter has them, nothing changes at all, and a dynamic one takes over type, mask,
    array size, array step, name, unit and help in place and keeps everything else. *)
Theorem param_list_add_outcomes (s : pstate) (dyn : list nat) (item : nat) (it : param_t) :
  plist_ok s dyn → ps_params s !! item = Some it → item ∉ dyn → (ps_static s ≤ item)%nat →
  heap_strings it → 0 ≤ p_node it →
  ∃ r s', param_list_add item s = Some (r, s') ∧ ps_static s' = ps_static s ∧
    ((r = 0 ∧ plist_ok s' (item :: dyn) ∧ param_list_find_id (p_node it) (p_id it) s' = Some (Some item, s') ∧
        s' = with_head (Some item) (with_params (<[item := set_p_next (ps_head s) it]> (ps_params s)) s)) ∨
     (r = 1 ∧ plist_ok s' dyn ∧ ∃ a, param_list_find_id (p_node it) (p_id it) s = Some (Some a, s) ∧
        ((a < ps_static s)%nat → s' = s) ∧
        ((ps_static s ≤ a)%nat → ∃ p p', ps_params s !! a = Some p ∧ redescribed p it p' ∧
           s' = with_params (<[a := p']> (ps_params s)) s))).
Proof.
  intros Hok Hit Hni Hge Hstr Hnode. unfold param_list_add.
  run (lift_opt_run_gen _ _ s Hit : get_param item s = Some (it, s)).
  pose proof (find_spec s dyn (p_node it) (λ p, bool_decide (p_id p = p_id it)) Hok) as Hfind.
  fold (param_list_find_id (p_node it) (p_id it)) in Hfind. run Hfind.
  destruct (first_param _ _ _) as [a|] eqn:Hf.
  - apply first_param_Some in Hf as (l1 & l2 & p & Hl & Hp & Ht & _).
    unfold param_is_static. run (eq_refl : gets (λ s, bool_decide (a < ps_static s)%nat) s = _).
    clear Ht. case_bool_decide as Hs; cbn [negb when].
    + exists 1, s. split; [done|]. split; [done|]. right. split; [done|]. split; [done|]. exists a.
      split; [done|]. split; [done|lia].
    + destruct (update_param_heap p it Hstr) as (p' & Hu & Hrd). pose proof (proj2 (proj2 (rd_rest _ _ _ Hrd))) as Hn.
      erewrite ST_bind_run.
      2:{ run (lift_opt_run_gen _ _ s Hp : get_param a s = Some (p, s)). run (lift_opt_run_gen _ _ s Hu). done. }
      eexists 1, _. split; [done|]. split; [done|]. right. split; [done|]. split; [by eapply plist_ok_put|].
      exists a. split; [done|]. split; [lia|]. intros _. by exists p, p'.
  - run (eq_refl : get s = Some (s, s)). eexists 0, _. split; [done|]. split; [done|]. left. split; [done|].
    pose proof (plist_ok_cons s dyn item it Hok Hit Hni Hge) as Hok'. split; [exact Hok'|]. split; [|done].
    etrans; [exact (find_spec _ (item :: dyn) (p_node it) _ Hok')|]. do 2 f_equal.
    apply first_param_Some. exists (seq 0 (ps_static s)), dyn, (set_p_next (ps_head s) it).
    split; [done|]. split; [simpl; by rewrite lookup_insert_eq|]. split.
    { simpl. by rewrite !bool_decide_true by lia. }
    intros b Hb. assert (Hb' := Hb). apply elem_of_seq in Hb' as [_ Hlt]. simpl. rewrite lookup_insert_ne by lia.
    destruct (pl_static _ _ Hok b ltac:(lia)) as [q Hq]. exists q. split; [done|].
    eapply (first_param_None_inv _ _ _ b q (λ a, all_params_exist s dyn a Hok) Hf); [|done].
    apply elem_of_app. by left.
Qed.

(** [param_list_remove] with a node removes exactly the dynamic parameters of that
    node, in one pass, and returns their number; the rest of the list and the static
    parameters stay.  Without a node, which is documented to remove all remote
    parameters, the pass takes the last static parameter for a dynamic one and runs off
    the end of the list looking for it. *)
Theorem param_list_remove_outcomes (s : pstate) (dyn : list nat) (node : Z) :
  plist_ok s dyn →
  (0 < node → (∀ a, (a < ps_static s)%nat → node_of s a ≠ Some node) →
   ∃ s', param_list_remove node s =
       Some (Z.of_nat (length dyn) - Z.of_nat (length (other_node s node dyn)), s') ∧
     plist_ok s' (other_node s node dyn) ∧ ps_static s' = ps_static s ∧
     (∀ b, b ∉ dyn → node_of s' b = node_of s b)) ∧
  (node ≤ 0 → (0 < ps_static s)%nat → param_list_remove node s = None).
Proof.
  intros Hok. unfold param_list_remove. destruct (iterate_first s dyn Hok) as (it & Hit & ->).
  run (eq_refl : get s = Some (s, s)). run Hit. unfold all_params.
  pose proof (all_params_length s dyn Hok) as Hf. unfold all_params in Hf. rewrite length_app, length_seq in Hf. split.
  - intros Hn Hno. case_decide as Hs.
    + assert (seq 0 (ps_static s) ++ dyn = dyn) as -> by (by rewrite Hs). exact (remove_dynamic s [] dyn node 0 (list_fuel s) Hok Hn ltac:(lia)).
    + assert (∃ k, ps_static s = S k) as [k Hk] by (destruct (ps_static s); [done|eauto]).
      assert (head (seq 0 (ps_static s) ++ dyn) = Some 0%nat) as -> by (by rewrite Hk). rewrite (remove_static s dyn node 0 k) by (done || lia).
      exact (remove_dynamic s [] dyn node 0 (list_fuel s - S k) Hok Hn ltac:(lia)).
  - intros Hn Hs. case_decide; [lia|].
    assert (∃ k, ps_static s = S k) as [k Hk] by (destruct (ps_static s); [lia|eauto]).
    rewrite Hk. cbn [seq app head]. by apply (remove_all_static s dyn 0 k).
Qed.

(** Two static parameters, then two dynamic ones of nodes 5 and 6; another parameter of
    node 6 is not in the list yet. *)
Definition list_param (id node : Z) (next : option nat) : param_t :=
  mk_param id node PARAM_TYPE_UINT8 PM_CONF [97] (Some []) (Some []) 0 0 None 1 1 None 0 next.
Definition list_example : pstate :=
  mk_pstate {[ 0%nat := [0] ]} []
    (list_to_map [(0%nat, list_param 21 0 None); (1%nat, list_param 22 0 None);
       (2%nat, list_param 7 5 (Some 3%nat)); (3%nat, list_param 8 6 None); (4%nat, list_param 9 6 None)])
    2 (Some 2%nat) ∅ ∅ [] (mk_app [] 0 0 0).

Lemma list_example_ok : plist_ok list_example [2%nat; 3%nat].
Proof.
  split.
  - intros a Ha. simpl in Ha. destruct a as [|[|a]]; [eexists; reflexivity..|lia].
  - repeat (split; [reflexivity|]; eexists; split; [reflexivity|]). reflexivity.
  - apply (bool_decide_unpack _). reflexivity.
  - intros a Ha. apply elem_of_cons in Ha as [->|Ha]; [simpl; lia|]. apply elem_of_cons in Ha as [->|Ha]; [simpl; lia|].
    by apply not_elem_of_nil in Ha.
Qed.

Lemma param_list_find_id_first_witness :
  ∃ r, param_list_find_id 6 8 list_example = Some (r, list_example) ∧ r = Some 3%nat.
Proof.
  destruct (param_list_find_id_first list_example [2%nat; 3%nat] 6 8 list_example_ok) as (r & Hr & _).
  exists r. split; [exact Hr|]. vm_compute in Hr. by injection Hr.
Defined.

Lemma param_list_add_outcomes_witness :
  ∃ r s', param_list_add 4 list_example = Some (r, s') ∧ r = 0 ∧ ps_head s' = Some 4%nat.
Proof.
  destruct (param_list_add_outcomes list_example [2%nat; 3%nat] 4 (list_param 9 6 None)) as (r & s' & Hr & _).
  - apply list_example_ok.
  - reflexivity.
  - apply (bool_decide_unpack _). reflexivity.
  - simpl. lia.
  - split; [done|]. split; eexists; split; [reflexivity|done|reflexivity|done].
  - done.
  - exists r, s'. split; [exact Hr|]. vm_compute in Hr. by injection Hr as <- <-.
Defined.

Lemma param_list_remove_outcomes_witness :
  (∃ s', param_list_remove 5 list_example = Some (1, s') ∧ plist_ok s' [3%nat]) ∧
  param_list_remove 0 list_example = None.
Proof.
  split.
  - destruct (param_list_remove_outcomes list_example [2%nat; 3%nat] 5 list_example_ok) as [H _].
    destruct H as (s' & Hr & Hok & _); [done| |by exists s'].
    intros a Ha. simpl in Ha. destruct a as [|[|a]]; [done..|lia].
  - destruct (param_list_remove_outcomes list_example [2%nat; 3%nat] 0 list_example_ok) as [_ H].
    apply H; [done|simpl; lia].
Defined.
