(* ===== verification/ParamString.v ===== *)
(** * Values as text

    [lib/param/src/param/param_string.c]: a parameter's value, type and mask as text, and
    back, and the line that shows a parameter. *)

From Stdlib Require Import String.
From S2P Require Import Text ParamState Param ParamList Prelude.
#[local] Open Scope Z_scope.

Definition PM_TELEM : Z := 8.
Definition PM_HWREG : Z := 16.
Definition PM_ERRCNT : Z := 32.
Definition PM_SYSINFO : Z := 64.
Definition PM_WDT : Z := 256.
Definition PM_DEBUG : Z := 512.
Definition PM_CALIB : Z := 1024.
Definition PM_PRIO1 : Z := 4096.
Definition PM_PRIO2 : Z := 8192.
Definition PM_PRIO3 : Z := 12288.
Definition PM_ENCRYPT : Z := Z.shiftl 4 16.
Definition PM_CSP : Z := Z.shiftl 5 16.
Definition PM_KEYCONF : Z := Z.shiftl 6 16.

Definition chr (s : string) : Z := default 0 (head (c_string s)).

(** ** Values *)

(** The constant [0.00001]. *)
Definition SMALL : Z := 0x3EE4F8B588E368F1.

(** The text of the numeric types: what the format string of each case makes of the value
    the accessor returns. *)
Definition number_text (t : param_type_e) (v : Z) : list Z :=
  match t with
  | PARAM_TYPE_UINT8 | PARAM_TYPE_UINT16 | PARAM_TYPE_UINT32 | PARAM_TYPE_UINT64 => decimal v
  | PARAM_TYPE_INT8 | PARAM_TYPE_INT16 | PARAM_TYPE_INT32 | PARAM_TYPE_INT64 => signed_decimal v
  | PARAM_TYPE_XINT8 | PARAM_TYPE_XINT16 | PARAM_TYPE_XINT32 | PARAM_TYPE_XINT64 =>
      c_string "0x" ++ hexadecimal true v
  | PARAM_TYPE_FLOAT => if fl_tiny FLT v SMALL then print_e FLT 6 v else print_f FLT 6 v
  | PARAM_TYPE_DOUBLE => if fl_tiny DBL v SMALL then print_e DBL 15 v else print_f DBL 15 v
  | PARAM_TYPE_STRING | PARAM_TYPE_DATA | PARAM_TYPE_INVALID => []
  end.

(** The loop of [PARAM_TYPE_DATA]: two digits for each byte while there is room. *)
Fixpoint data_str (data out : list Z) (off len : Z) : option (list Z) :=
  match data with
  | [] => Some out
  | b :: data' =>
      if bool_decide (2 ≤ len) then
        let text := pad_left 48 2 (hexadecimal true b) in
        let written := Z.of_nat (List.length text) in
        out ← snprintf out off len text;
        data_str data' out (off + written) (len - written)
      else Some out
  end.

Section Print.
Context `{ParamEnv}.

(** [param_value_str] into the memory [out] at [off]. *)
Definition param_value_str (a : nat) (i : Z) (out : list Z) (off len : Z) : ST pstate (list Z) :=
  p ← get_param a;
  match native_type (p_type p), p_type p with
  | Some c, t =>
      v ← param_get_array c a i;
      lift_opt (snprintf out off len (number_text t v))
  | None, PARAM_TYPE_DATA =>
      out ← lift_opt (snprintf out off len (c_string "0x"));
      data ← param_get_data a (p_array_size p);
      lift_opt (data_str data out (off + 2) (len - 2))
  | None, _ =>
      bs ← param_get_data a (Z.min (p_array_size p) len);
      lift_opt (mem_write out off bs)
  end.

(** [sprintf(value_str + strlen(value_str), ...)] *)
Definition str_append (m text : list Z) : option (list Z) :=
  n ← c_strlen m; mem_write m n (text ++ [0]).

(** [for (i = offset; i < offset + count; i++)]; [left] values are still to be printed. *)
Fixpoint print_values (a : nat) (i count : Z) (left : nat) (value_str : list Z) : ST pstate (list Z) :=
  match left with
  | O => mret value_str
  | S left' =>
      n ← lift_opt (c_strlen value_str);
      value_str ← param_value_str a i value_str n (swrap 32 (128 - n));
      value_str ← (if bool_decide (i + 1 < count) then lift_opt (str_append value_str (c_string " ")) else mret value_str);
      print_values a (i + 1) count left' value_str
  end.

(** What [param_print_value] writes to the file. *)
Definition param_print_value (param : option nat) (offset : Z) : ST pstate (list Z) :=
  match param with
  | None => mret []
  | Some a =>
      p ← get_param a;
      let count := if bool_decide (0 < p_array_size p) then p_array_size p else 1 in
      let count := if bool_decide (p_type p = PARAM_TYPE_DATA ∨ p_type p = PARAM_TYPE_STRING) then 1 else count in
      let count := if bool_decide (0 ≤ offset) then 1 else count in
      let offset := if bool_decide (offset < 0) then 0 else offset in
      let value_str := replicate 1024 0 in
      value_str ← (if bool_decide (1 < count) then lift_opt (str_append value_str (c_string "[")) else mret value_str);
      value_str ← print_values a offset count (Z.to_nat count) value_str;
      value_str ← (if bool_decide (1 < count) then lift_opt (str_append value_str (c_string "]")) else mret value_str);
      value_str ← match p_unit p with
                  | Some (c :: u) => lift_opt (str_append value_str (c_string " " ++ c :: u))
                  | _ => mret value_str
                  end;
      n ← lift_opt (c_strlen value_str);
      value_str ← lift_opt (str_append value_str (replicate (Z.to_nat (20 - n)) 32));
      mret (c_string " = " ++ until_nul value_str)
  end.
End Print.

(** ** Reading a value *)

(** What [param_str_to_value] returns, what it leaves in [in] and what it stores at [out]. *)
Record str_value := mk_sv { sv_rc : Z; sv_in : list Z; sv_out : list Z }.

(** The conversion of the text into an object of type [c].  A text that does not match
    leaves the object indeterminate, and reading it is undefined. *)
Definition scan_into (c : ctype) (scan : ST (list Z) Z) (inp : list Z) : option str_value :=
  '(obj, _) ← scan inp;
  Some (mk_sv (Z.of_nat (ct_size c)) inp (le_bytes (ct_size c) obj)).

Definition refused (inp : list Z) : option str_value := Some (mk_sv (-1) inp []).

Definition PARAM_SCANFU (c : ctype) (inp : list Z) : option str_value :=
  if forallb is_digit inp then scan_into c scan_u inp else refused inp.

Definition PARAM_SCANFD (c : ctype) (inp : list Z) : option str_value :=
  if forallb (λ x, is_digit x || bool_decide (x = chr "-" ∨ x = chr "+")) inp
  then scan_into c scan_d inp else refused inp.

Definition PARAM_SCANFX (c : ctype) (inp : list Z) : option str_value :=
  if bool_decide (take 2 inp ≠ c_string "0x") || bool_decide (List.length inp < 3)%nat then refused inp
  else if forallb is_xdigit (drop 2 inp)
       then scan_into c (scan_char (chr "0");; scan_char (chr "x");; scan_x) inp
       else refused inp.

(** The loop of [PARAM_SCANFF]: the text with its commas made points, as far as the loop
    gets, and the number of points unless a character is refused. *)
Fixpoint scanff_loop (inp : list Z) (numdots : Z) : list Z * option Z :=
  match inp with
  | [] => ([], Some numdots)
  | c :: inp' =>
      let c := if bool_decide (c = chr ",") then chr "." else c in
      let numdots := if bool_decide (c = chr ".") then numdots + 1 else numdots in
      if is_digit c || bool_decide (c ∈ c_string "-+.eE")
      then let '(l, r) := scanff_loop inp' numdots in (c :: l, r)
      else (c :: inp', None)
  end.

Definition PARAM_SCANFF (c : ctype) (f : fl_format) (inp : list Z) : option str_value :=
  match scanff_loop inp 0 with
  | (inp, Some numdots) => if bool_decide (1 < numdots) then refused inp else scan_into c (scan_f f) inp
  | (inp, None) => refused inp
  end.

(** [nibble]: an [unsigned int]. *)
Definition nibble (c : Z) : Z :=
  if bool_decide (chr "0" ≤ c ≤ chr "9") then c - chr "0"
  else if bool_decide (chr "A" ≤ c ≤ chr "F") then 10 + c - chr "A"
  else if bool_decide (chr "a" ≤ c ≤ chr "f") then 10 + c - chr "a"
  else 2 ^ 32 - 1.

(** Two characters for each of the [strlen(in) / 2] bytes. *)
Fixpoint data_bytes (inp : list Z) : list Z :=
  match inp with
  | h :: l :: inp' => u8 (Z.shiftl (nibble h) 4 + nibble l) :: data_bytes inp'
  | _ => []
  end.

Definition param_str_to_value (type : param_type_e) (inp : list Z) : option str_value :=
  match type with
  | PARAM_TYPE_INVALID | PARAM_TYPE_UINT8 => PARAM_SCANFU c_uint8 inp
  | PARAM_TYPE_UINT16 => PARAM_SCANFU c_uint16 inp
  | PARAM_TYPE_UINT32 => PARAM_SCANFU c_uint32 inp
  | PARAM_TYPE_UINT64 => PARAM_SCANFU c_uint64 inp
  | PARAM_TYPE_INT8 => PARAM_SCANFD c_int8 inp
  | PARAM_TYPE_INT16 => PARAM_SCANFD c_int16 inp
  | PARAM_TYPE_INT32 => PARAM_SCANFD c_int32 inp
  | PARAM_TYPE_INT64 => PARAM_SCANFD c_int64 inp
  | PARAM_TYPE_XINT8 => PARAM_SCANFX c_uint8 inp
  | PARAM_TYPE_XINT16 => PARAM_SCANFX c_uint16 inp
  | PARAM_TYPE_XINT32 => PARAM_SCANFX c_uint32 inp
  | PARAM_TYPE_XINT64 => PARAM_SCANFX c_uint64 inp
  | PARAM_TYPE_FLOAT => PARAM_SCANFF c_float FLT inp
  | PARAM_TYPE_DOUBLE => PARAM_SCANFF c_double DBL inp
  | PARAM_TYPE_STRING => Some (mk_sv (Z.of_nat (List.length inp)) inp (inp ++ [0]))
  | PARAM_TYPE_DATA => Some (mk_sv (Z.of_nat (List.length inp / 2)) inp (data_bytes inp))
  end.

(** ** Types and masks *)

Definition type_name (type : param_type_e) : list Z :=
  match type with
  | PARAM_TYPE_INVALID | PARAM_TYPE_UINT8 => c_string "u08"
  | PARAM_TYPE_UINT16 => c_string "u16"
  | PARAM_TYPE_UINT32 => c_string "u32"
  | PARAM_TYPE_UINT64 => c_string "u64"
  | PARAM_TYPE_INT8 => c_string "i08"
  | PARAM_TYPE_INT16 => c_string "i16"
  | PARAM_TYPE_INT32 => c_string "i32"
  | PARAM_TYPE_INT64 => c_string "i64"
  | PARAM_TYPE_XINT8 => c_string "x08"
  | PARAM_TYPE_XINT16 => c_string "x16"
  | PARAM_TYPE_XINT32 => c_string "x32"
  | PARAM_TYPE_XINT64 => c_string "x64"
  | PARAM_TYPE_FLOAT => c_string "flt"
  | PARAM_TYPE_DOUBLE => c_string "dbl"
  | PARAM_TYPE_STRING => c_string "str"
  | PARAM_TYPE_DATA => c_string "dat"
  end.

Definition param_type_str (type : param_type_e) (out : list Z) (len : Z) : option (list Z) :=
  snprintf out 0 len (type_name type).

(** The comparisons of [param_typestr_to_typeid], in order. *)
Definition type_names : list (string * param_type_e) :=
  [("uint8", PARAM_TYPE_UINT8); ("uint16", PARAM_TYPE_UINT16); ("uint32", PARAM_TYPE_UINT32);
   ("uint64", PARAM_TYPE_UINT64); ("int8", PARAM_TYPE_INT8); ("int16", PARAM_TYPE_INT16);
   ("int32", PARAM_TYPE_INT32); ("int64", PARAM_TYPE_INT64); ("xint8", PARAM_TYPE_XINT8);
   ("xint16", PARAM_TYPE_XINT16); ("xint32", PARAM_TYPE_XINT32); ("xint64", PARAM_TYPE_XINT64);
   ("float", PARAM_TYPE_FLOAT); ("double", PARAM_TYPE_DOUBLE); ("string", PARAM_TYPE_STRING);
   ("data", PARAM_TYPE_DATA);
   ("u08", PARAM_TYPE_UINT8); ("u16", PARAM_TYPE_UINT16); ("u32", PARAM_TYPE_UINT32);
   ("u64", PARAM_TYPE_UINT64); ("i08", PARAM_TYPE_INT8); ("i16", PARAM_TYPE_INT16);
   ("i32", PARAM_TYPE_INT32); ("i64", PARAM_TYPE_INT64); ("x08", PARAM_TYPE_XINT8);
   ("x16", PARAM_TYPE_XINT16); ("x32", PARAM_TYPE_XINT32); ("x64", PARAM_TYPE_XINT64);
   ("flt", PARAM_TYPE_FLOAT); ("dbl", PARAM_TYPE_DOUBLE); ("str", PARAM_TYPE_STRING);
   ("dat", PARAM_TYPE_DATA)]%string.

Fixpoint first_name (str : list Z) (l : list (string * param_type_e)) : param_type_e :=
  match l with
  | [] => PARAM_TYPE_INVALID
  | (n, t) :: l' => if bool_decide (str = c_string n) then t else first_name str l'
  end.
Definition param_typestr_to_typeid (str : option (list Z)) : param_type_e :=
  match str with
  | None => PARAM_TYPE_INVALID
  | Some str => first_name str type_names
  end.

(** The letters [param_print_file] shows, in order, with the bits each stands for. *)
Definition print_letters : list (string * Z) :=
  [("r", PM_READONLY); ("R", PM_REMOTE); ("c", PM_CONF); ("t", PM_TELEM); ("h", PM_HWREG); ("e", PM_ERRCNT);
   ("i", PM_SYSINFO); ("C", PM_SYSCONF); ("w", PM_WDT); ("d", PM_DEBUG); ("o", PM_ATOMIC_WRITE);
   ("q", PM_CALIB); ("1", PM_CSP)]%string.

(** [if (mask & bits) { mask &= ~ bits; fprintf(file, letter); }], and what is left of
    the mask at the end. *)
Fixpoint mask_letters (l : list (string * Z)) (mask : Z) : list Z :=
  match l with
  | [] => if bool_decide (mask ≠ 0) then c_string "+" ++ hexadecimal false mask else []
  | (c, bits) :: l' =>
      if bool_decide (Z.land mask bits ≠ 0) then c_string c ++ mask_letters l' (Z.land mask (u32 (Z.lnot bits)))
      else mask_letters l' mask
  end.

(** The tests [if (strchr(str, letter)) mask |= bits]. *)
Definition parse_letters : list (string * Z) :=
  [("r", PM_READONLY); ("R", PM_REMOTE); ("c", PM_CONF); ("t", PM_TELEM); ("h", PM_HWREG); ("e", PM_ERRCNT);
   ("i", PM_SYSINFO); ("C", PM_SYSCONF); ("w", PM_WDT); ("d", PM_DEBUG); ("q", PM_CALIB);
   ("o", PM_ATOMIC_WRITE); ("1", PM_PRIO1); ("2", PM_PRIO2); ("3", PM_PRIO3); ("A", 0xFFFFFFFF);
   ("1", PM_CSP)]%string.

(** [strtol(str, NULL, 16)]; a text that is no number is 0. *)
Definition strtol_16 (str : list Z) : Z :=
  match (scan_space;; neg ← scan_sign; modify skip_0x;; ds ← scan_some is_xdigit;
         mret (strtol_value neg (number 16 ds))) str with
  | Some (v, _) => v
  | None => 0
  end.

Definition param_maskstr_to_mask (str : option (list Z)) : Z :=
  match str with
  | None => 0xFFFFFFFF
  | Some str =>
      if bool_decide (str !! 0%nat = Some (chr "0") ∧ (str !! 1%nat = Some (chr "X") ∨ str !! 1%nat = Some (chr "x")))
      then u32 (swrap 32 (strtol_16 str))
      else foldl (λ mask '(c, bits), if bool_decide (chr c ∈ str) then Z.lor mask bits else mask) 0 parse_letters
  end.

Definition ESC : list Z := [27].
Definition param_mask_color (p : param_t) : list Z :=
  let mask := p_mask p in
  if bool_decide (Z.land mask PM_CONF ≠ 0) then ESC ++ c_string "[33m"
  else if bool_decide (Z.land mask PM_TELEM ≠ 0) then ESC ++ c_string "[32m"
  else if bool_decide (Z.land mask PM_HWREG ≠ 0) then ESC ++ c_string "[31m"
  else if bool_decide (Z.land mask PM_DEBUG ≠ 0) then ESC ++ c_string "[36m"
  else ESC ++ c_string "[0m".
Definition param_mask_color_off : list Z := ESC ++ c_string "[0m".

(** ** The line that shows a parameter *)

Section PrintFile.
Context `{ParamEnv}.

(** The value of the parameter with this id on each of the [nodes]. *)
Fixpoint print_nodes (id : Z) (nodes : list Z) (offset : Z) : ST pstate (list Z) :=
  match nodes with
  | [] => mret []
  | n :: nodes' =>
      specific_param ← param_list_find_id n id;
      t ← param_print_value specific_param offset;
      r ← print_nodes id nodes' offset;
      mret (t ++ r)
  end.

(** The type, size and mask of [verbose >= 2]. *)
Definition print_details (p : param_t) : option (list Z) :=
  type_str ← param_type_str (p_type p) (replicate 11 0) 10;
  Some (c_string " " ++ until_nul type_str ++
        (if bool_decide (1 < p_array_size p) then c_string "[" ++ decimal (p_array_size p) ++ c_string "]" else []) ++
        [9] ++
        (if bool_decide (0 < p_mask p) then c_string " " ++ mask_letters print_letters (p_mask p) else [])).

(** What [param_print_file] writes; [nodes] is empty for [NULL] or [nodes_count <= 0]. *)
Definition param_print_file (param : option nat) (offset : Z) (nodes : list Z) (verbose ref_timestamp : Z)
    : ST pstate (list Z) :=
  match param with
  | None => mret []
  | Some a =>
      p ← get_param a;
      color ← (if bool_decide (ref_timestamp ≠ 0) then
                 s ← get;
                 ts ← lift_opt (ps_timestamps s !! p_timestamp p);
                 mret (if bool_decide (ts < ref_timestamp) then ESC ++ c_string "[90m" else param_mask_color p)
               else mret (param_mask_color p));
      let node_id := if bool_decide (1 ≤ verbose)
                     then c_string " " ++ pad_left 32 3 (decimal (p_id p)) ++ c_string ":" ++ pad_right 2 (decimal (p_node p))
                     else [] in
      let name := c_string "  " ++ pad_right 20 (p_name p) in
      value ← match nodes with [] => param_print_value (Some a) offset | _ => print_nodes (p_id p) nodes offset end;
      details ← (if bool_decide (2 ≤ verbose) then lift_opt (print_details p) else mret []);
      let doc := match p_docstr p with
                 | Some d => if bool_decide (3 ≤ verbose) then [9; 9] ++ d else []
                 | None => []
                 end in
      mret (color ++ node_id ++ name ++ value ++ details ++ doc ++ param_mask_color_off ++ [10])
  end.

Definition param_print (param : option nat) (offset : Z) (nodes : list Z) (verbose ref_timestamp : Z) : ST pstate () :=
  text ← param_print_file param offset nodes verbose ref_timestamp;
  modify (with_event (ev_print text)).
End PrintFile.
