(* ===== verification/ParamStringShown.v ===== *)
(** * Properties of values as text

    Printed integers are read back, the letters of a mask and the names of types too; what
    the line of a parameter shows, and for which arrays its buffer is too small. *)

From Stdlib Require Import String.
From S2P Require Import Text ParamState Param ParamList ParamString Prelude.
#[local] Open Scope Z_scope.

(** ** Integers *)

Definition is_integer (t : param_type_e) : bool :=
  match t with
  | PARAM_TYPE_FLOAT | PARAM_TYPE_DOUBLE | PARAM_TYPE_STRING | PARAM_TYPE_DATA | PARAM_TYPE_INVALID => false
  | _ => true
  end.

Section Integers.
Implicit Types (t : param_type_e) (c : ctype) (v : Z).

Lemma forallb_Forall (f : Z → bool) l : Forall (λ x, f x = true) l → forallb f l = true.
Proof. induction 1 as [|x l Hx _ IH]; [done|]. cbn. by rewrite Hx, IH. Qed.

(** The values of the unsigned and signed types. *)
Lemma unsigned_range c v : ct_value c (v mod 256 ^ Z.of_nat (ct_size c)) = v mod 256 ^ Z.of_nat (ct_size c) → ct_ok c v → 0 ≤ v < 2 ^ 64.
Proof.
  unfold ct_ok. intros -> Hv. rewrite <- Hv. set (m := 256 ^ Z.of_nat (ct_size c)).
  assert (0 < m ≤ 2 ^ 64) by (subst m; destruct c; vm_compute; split; congruence).
  pose proof (Z.mod_pos_bound v m). lia.
Qed.

Lemma signed_range c v w : 0 < w ≤ 64 → ct_value c (v mod 256 ^ Z.of_nat (ct_size c)) = swrap w (v mod 256 ^ Z.of_nat (ct_size c)) →
  ct_ok c v → - 2 ^ 63 ≤ v < 2 ^ 63.
Proof.
  unfold ct_ok. intros Hw -> Hv. rewrite <- Hv. unfold swrap, wrap.
  set (x := v mod _). clearbody x. pose proof (Z.mod_pos_bound (x + 2 ^ (w - 1)) (2 ^ w)) as Hm.
  assert (2 ^ w = 2 * 2 ^ (w - 1)) as Hp by (rewrite <- Z.pow_succ_r by lia; f_equal; lia).
  assert (0 < 2 ^ (w - 1) ≤ 2 ^ 63) by (split; [apply Z.pow_pos_nonneg; lia|apply Z.pow_le_mono_r; lia]). lia.
Qed.

Lemma scan_into_run c scan inp v rest :
  scan inp = Some (v, rest) → scan_into c scan inp = Some (mk_sv (Z.of_nat (ct_size c)) inp (le_bytes (ct_size c) v)).
Proof. unfold scan_into. by intros ->. Qed.

Lemma scanfu_decimal c v : 0 ≤ v < 2 ^ 64 →
  PARAM_SCANFU c (decimal v) = Some (mk_sv (Z.of_nat (ct_size c)) (decimal v) (le_bytes (ct_size c) v)).
Proof.
  intros Hv. unfold PARAM_SCANFU. rewrite forallb_Forall by apply decimal_digits.
  eapply scan_into_run. rewrite <- (app_nil_r (decimal v)). by apply scan_u_decimal.
Qed.

Lemma scanfd_decimal c v : - 2 ^ 63 ≤ v < 2 ^ 63 →
  PARAM_SCANFD c (signed_decimal v) = Some (mk_sv (Z.of_nat (ct_size c)) (signed_decimal v) (le_bytes (ct_size c) v)).
Proof.
  intros Hv. unfold PARAM_SCANFD. rewrite forallb_Forall.
  - eapply scan_into_run. rewrite <- (app_nil_r (signed_decimal v)). by apply scan_d_decimal.
  - assert (Hd : ∀ n, Forall (λ x, is_digit x || bool_decide (x = chr "-" ∨ x = chr "+") = true) (decimal n)).
    { intros n. eapply Forall_impl; [apply decimal_digits|]. cbn. by intros x ->. }
    unfold signed_decimal. case_bool_decide; [constructor; [done|]|]; apply Hd.
Qed.

Lemma scan_x_hex upper v : 0 ≤ v < 2 ^ 64 → scan_x (hexadecimal upper v) = Some (v, []).
Proof. intros Hv. rewrite <- (app_nil_r (hexadecimal upper v)). by apply scan_x_hexadecimal. Qed.

Lemma scanfx_hex c v : 0 ≤ v < 2 ^ 64 →
  PARAM_SCANFX c (c_string "0x" ++ hexadecimal true v) =
    Some (mk_sv (Z.of_nat (ct_size c)) (c_string "0x" ++ hexadecimal true v) (le_bytes (ct_size c) v)).
Proof.
  intros Hv. destruct (hexadecimal_spec true v Hv) as (Hx & Hne & _ & _). unfold PARAM_SCANFX.
  change (take 2 (c_string "0x" ++ hexadecimal true v)) with (c_string "0x"). rewrite bool_decide_false by (intros H; by apply H).
  rewrite bool_decide_false; [|destruct (hexadecimal true v); [done|cbn; lia]]. cbn [orb].
  change (drop 2 (c_string "0x" ++ hexadecimal true v)) with (hexadecimal true v). rewrite forallb_Forall by done.
  eapply scan_into_run. cbn [c_string app]. change (_ :: _ :: hexadecimal true v) with (chr "0" :: chr "x" :: hexadecimal true v).
  unfold scan_char. st_red. rewrite !bool_decide_true by done. by apply scan_x_hex.
Qed.

(** Every integer is read back from its text, for each of the twelve types. *)
Lemma number_text_read t c v :
  is_integer t = true → native_type t = Some c → ct_ok c v →
  param_str_to_value t (number_text t v) =
    Some (mk_sv (Z.of_nat (ct_size c)) (number_text t v) (le_bytes (ct_size c) v)).
Proof.
  intros Ht Hc Hv. destruct t; try done; injection Hc as <-; cbn [param_str_to_value number_text].
  1-4: apply scanfu_decimal; by apply (λ H, unsigned_range _ v H Hv).
  5-8: apply scanfx_hex; by apply (λ H, unsigned_range _ v H Hv).
  - apply scanfd_decimal. by apply (signed_range c_int8 v 8).
  - apply scanfd_decimal. by apply (signed_range c_int16 v 16).
  - apply scanfd_decimal. by apply (signed_range c_int32 v 32).
  - apply scanfd_decimal. by apply (signed_range c_int64 v 64).
Qed.

(** The text has no terminator inside and fits into 21 characters with one. *)
Lemma number_text_chars t c v :
  is_integer t = true → native_type t = Some c → ct_ok c v →
  Forall (λ x, x ≠ 0) (number_text t v) ∧ (List.length (number_text t v) ≤ 20)%nat.
Proof.
  intros Ht Hc Hv.
  assert (Hdec : ∀ n, 0 ≤ n < 10 ^ 20 → Forall (λ x, x ≠ 0) (decimal n) ∧ (List.length (decimal n) ≤ 20)%nat).
  { intros n Hn. split; [|by apply length_decimal; [lia|]]. eapply Forall_impl; [apply decimal_digits|]. cbn.
    intros x Hx%bool_decide_eq_true. lia. }
  assert (Hsig : ∀ n, - 2 ^ 63 ≤ n < 2 ^ 63 → Forall (λ x, x ≠ 0) (signed_decimal n) ∧ (List.length (signed_decimal n) ≤ 20)%nat).
  { intros n Hn. unfold signed_decimal. case_bool_decide; [|apply Hdec; lia].
    destruct (Hdec (- n)) as [Hz _]; [lia|]. split; [by constructor|]. cbn [List.length].
    pose proof (length_decimal (- n) 19 ltac:(lia) ltac:(change (10 ^ Z.of_nat 19) with 10000000000000000000; lia)). lia. }
  assert (Hhex : ∀ n, 0 ≤ n < 2 ^ 64 → Forall (λ x, x ≠ 0) (c_string "0x" ++ hexadecimal true n) ∧
      (List.length (c_string "0x" ++ hexadecimal true n) ≤ 20)%nat).
  { intros n Hn. destruct (hexadecimal_spec true n Hn) as (Hx & _ & _ & Hl). split; [|rewrite length_app; change (List.length (c_string "0x")) with 2%nat; lia].
    do 2 (constructor; [done|]). cbn [app]. eapply Forall_impl; [exact Hx|]. by intros x Hd ->. }
  destruct t; try done; injection Hc as <-; cbn [number_text].
  1-4: apply Hdec; assert (0 ≤ v < 2 ^ 64) by (by apply (λ H, unsigned_range _ v H Hv)); lia.
  5-8: apply Hhex; by apply (λ H, unsigned_range _ v H Hv).
  - apply Hsig. by apply (signed_range c_int8 v 8).
  - apply Hsig. by apply (signed_range c_int16 v 16).
  - apply Hsig. by apply (signed_range c_int32 v 32).
  - apply Hsig. by apply (signed_range c_int64 v 64).
Qed.
End Integers.

(** ** Printing into memory *)

Section Memory.
(** [snprintf] of a text that fits. *)
Lemma snprintf_fits (out text : list Z) (off size : Z) :
  0 ≤ off → 0 ≤ size < 2 ^ 64 → Z.of_nat (List.length text) < size → off + size ≤ Z.of_nat (List.length out) →
  ∃ pre rest, snprintf out off size text = Some (pre ++ text ++ 0 :: rest) ∧
    Z.of_nat (List.length pre) = off ∧ pre = take (Z.to_nat off) out ∧ rest = drop (Z.to_nat off + List.length text + 1) out.
Proof.
  intros Ho Hs Ht Hm. unfold snprintf.
  assert (u64 size = size) as -> by (apply Z.mod_small; lia). rewrite bool_decide_false by lia.
  rewrite take_ge by lia. set (n := Z.to_nat off).
  exists (take n out), (drop (n + List.length text + 1) out).
  assert (Hn : List.length (take n out) = n) by (rewrite length_take; lia).
  split; [|split; [lia|done]].
  pose proof (mem_write_mid (take n out) (take (List.length text + 1) (drop n out)) (text ++ [0]) (drop (n + List.length text + 1) out)) as Hw.
  rewrite Hn in Hw. rewrite length_app, length_take, length_drop in Hw.
  rewrite <- (Nat.add_assoc n), <- (drop_drop out _ n), (take_drop (List.length text + 1)), take_drop in Hw.
  replace (Z.of_nat n) with off in Hw by lia. rewrite Hw by (cbn [List.length]; lia).
  by rewrite drop_drop, <- !app_assoc, Nat.add_assoc.
Qed.
End Memory.

(** C9: An integer parameter printed with [param_value_str] and read with
    [param_str_to_value] gives the value back: for each of the twelve integer types
    (decimal, signed and hexadecimal), every value of the type, and every buffer of at
    least 21 characters, printing succeeds without touching the memory outside the text,
    and the bytes that reading the text stores are the ones [param_get] delivers. *)
Theorem param_value_text_roundtrip `{ParamEnv} (s : pstate) (a : nat) (p : param_t) (c : ctype) (i v off len : Z) (out : list Z) :
  ps_params s !! a = Some p → is_integer (p_type p) = true → native_type (p_type p) = Some c →
  param_get_array c a i s = Some (v, s) → ct_ok c v →
  0 ≤ off → 21 ≤ len < 2 ^ 31 → off + len ≤ Z.of_nat (List.length out) →
  ∃ text out' bs, param_value_str a i out off len s = Some (out', s) ∧
    until_nul (drop (Z.to_nat off) out') = text ∧
    param_get a i s = Some (bs, s) ∧
    param_str_to_value (p_type p) text = Some (mk_sv (param_typesize (p_type p)) text bs) ∧
    (∀ j : nat, Z.of_nat j < off ∨ off + Z.of_nat (List.length text) < Z.of_nat j → out' !! j = out !! j).
Proof.
  intros Hp Ht Hc Hg Hv Ho Hl Hm. destruct (number_text_chars _ _ _ Ht Hc Hv) as [Hz Hlen].
  set (text := number_text (p_type p) v) in *.
  destruct (snprintf_fits out text off len) as (pre & rest & Hs & Hpre & Epre & Erest); [lia..|].
  exists text, (pre ++ text ++ 0 :: rest), (le_bytes (ct_size c) v). split_and!.
  - unfold param_value_str. run (lift_opt_run_gen _ _ s Hp : get_param a s = Some (p, s)). rewrite Hc. run Hg.
    fold text. by rewrite Hs.
  - replace (Z.to_nat off) with (List.length pre) by lia. rewrite drop_app_length. by apply until_nul_app.
  - unfold param_get. run (lift_opt_run_gen _ _ s Hp : get_param a s = Some (p, s)). rewrite Hc.
    destruct (p_type p); try done; by run Hg.
  - subst text. rewrite (number_text_read _ _ _ Ht Hc Hv). do 2 f_equal. destruct (p_type p); try done; by injection Hc as <-.
  - intros j Hj. subst pre rest. destruct (decide (j < Z.to_nat off)%nat) as [Hlt|Hge].
    + rewrite lookup_app_l by (rewrite length_take; lia). by rewrite lookup_take_lt.
    + rewrite lookup_app_r, length_take by (rewrite length_take; lia). rewrite lookup_app_r by lia.
      destruct (j - _ - _)%nat as [|k] eqn:Hk; [lia|]. rewrite lookup_cons, lookup_drop. f_equal. lia.
Qed.

(** An [int16_t] in RAM that holds -300. *)
Definition text_param (t : param_type_e) (n : Z) : param_t :=
  mk_param 7 0 t PM_CONF [] None None 0 0 None n 2 None 0 None.
Definition text_state (t : param_type_e) (n : Z) (bs : list Z) : pstate :=
  mk_pstate {[ 0%nat := bs ]} [] {[ 0%nat := text_param t n ]} 1 None ∅ ∅ [] (mk_app [] 0 0 0).
#[local] Instance text_env : ParamEnv := {|
  fopen_w_ok _ := true; run_callback _ _ _ := mret (); calloc_block _ := None; have_critical := false;
  indeterminate := 0; ptr_block _ := None |}.

Lemma param_value_text_roundtrip_witness :
  let s := text_state PARAM_TYPE_INT16 1 [0xd4; 0xfe] in
  ∃ out', param_value_str 0 0 (replicate 32 0) 4 21 s = Some (out', s) ∧
    until_nul (drop 4 out') = c_string "-300" ∧
    param_str_to_value PARAM_TYPE_INT16 (c_string "-300") = Some (mk_sv 2 (c_string "-300") [0xd4; 0xfe]).
Proof.
  intros s.
  destruct (param_value_text_roundtrip s 0 (text_param PARAM_TYPE_INT16 1) c_int16 0 (-300) 4 21 (replicate 32 0))
    as (text & out' & bs & Hv & Ht & Hg & Hs & _); try done.
  exists out'. split; [exact Hv|]. vm_compute in Hv. injection Hv as <-. vm_compute in Ht. subst text.
  vm_compute in Hg. injection Hg as <-. split; [reflexivity|exact Hs].
Defined.

(** ** Types, masks and data *)

Section Names.
(** The name of a type is read back. *)
Lemma type_name_read t : t ≠ PARAM_TYPE_INVALID → param_typestr_to_typeid (Some (type_name t)) = t.
Proof. by destruct t. Qed.

(** The letters of the twelve flags with a letter of their own are read back. *)
Lemma mask_letters_read mask :
  0 ≤ mask < 4096 → param_maskstr_to_mask (Some (mask_letters print_letters mask)) = mask.
Proof.
  intros Hm. assert (mask ∈ seqZ 0 4096) as Hin by (apply elem_of_seqZ; lia). clear Hm.
  assert (Hall : forallb (λ m, bool_decide (param_maskstr_to_mask (Some (mask_letters print_letters m)) = m)) (seqZ 0 4096) = true)
    by (vm_compute; reflexivity).
  rewrite forallb_forall in Hall. specialize (Hall mask). rewrite bool_decide_eq_true in Hall. by apply Hall, list_elem_of_In.
Qed.

(** The rest of a mask is printed as a number behind a plus sign, whose digits are read as
    letters: the first priority comes back with [PM_CSP]. *)
Example mask_priority_grows :
  mask_letters print_letters PM_PRIO1 = c_string "+1000" ∧
  param_maskstr_to_mask (Some (mask_letters print_letters PM_PRIO1)) = Z.lor PM_PRIO1 PM_CSP.
Proof. vm_compute. done. Qed.

(** [PM_ENCRYPT] and [PM_KEYCONF] share a bit with [PM_CSP] and are shown with its letter. *)
Lemma encrypt_shown_as_csp :
  mask_letters print_letters PM_ENCRYPT = c_string "1" ∧
  param_maskstr_to_mask (Some (mask_letters print_letters PM_ENCRYPT)) = Z.lor PM_CSP PM_PRIO1 ∧
  mask_letters print_letters PM_KEYCONF = c_string "1+20000".
Proof. vm_compute. done. Qed.

(** [%02X] of a byte is two digits, which are read back. *)
Lemma hex_byte b : is_u8 b → ∃ h l, pad_left 48 2 (hexadecimal true b) = [h; l] ∧ h ≠ 0 ∧ l ≠ 0 ∧
  u8 (Z.shiftl (nibble h) 4 + nibble l) = b.
Proof.
  intros Hb. set (ok b := match pad_left 48 2 (hexadecimal true b) with
    | [h; l] => bool_decide (h ≠ 0 ∧ l ≠ 0 ∧ u8 (Z.shiftl (nibble h) 4 + nibble l) = b) | _ => false end).
  assert (Hall : forallb ok (seqZ 0 256) = true) by (vm_compute; reflexivity).
  rewrite forallb_forall in Hall. specialize (Hall b).
  assert (ok b = true) as Hok by (apply Hall, list_elem_of_In, elem_of_seqZ; unfold is_u8 in Hb; lia).
  clear Hall. subst ok. cbv beta in Hok. destruct (pad_left _ _ _) as [|h [|l [|]]]; try done.
  apply bool_decide_eq_true in Hok. by exists h, l.
Qed.

Definition data_text (data : list Z) : list Z := concat ((λ b, pad_left 48 2 (hexadecimal true b)) <$> data).

Lemma data_text_read data : bytes_ok data →
  data_bytes (data_text data) = data ∧ Forall (λ x, x ≠ 0) (data_text data) ∧
  List.length (data_text data) = (2 * List.length data)%nat.
Proof.
  induction 1 as [|b data Hb _ (IH1 & IH2 & IH3)]; [done|].
  destruct (hex_byte b Hb) as (h & l & Ht & Hh & Hl & Hv). unfold data_text in *. cbn [fmap list_fmap concat]. rewrite Ht. cbn [app].
  cbn [data_bytes List.length]. rewrite Hv, IH1. split; [done|]. split; [by repeat constructor|]. lia.
Qed.

(** The digits are written one byte after the other behind what is there. *)
Lemma data_str_run data : ∀ pre rest off len,
  bytes_ok data → off = Z.of_nat (List.length pre) → len < 2 ^ 31 → 2 * Z.of_nat (List.length data) < len →
  len ≤ Z.of_nat (List.length rest) + 1 →
  ∃ rest', data_str data (pre ++ 0 :: rest) off len = Some (pre ++ data_text data ++ 0 :: rest').
Proof.
  induction data as [|b data IH]; intros pre rest off len Hd Ho H31 Hl Hr; [by exists rest|].
  inversion Hd as [|? ? Hb Hd']; subst. destruct (hex_byte b Hb) as (h & l & Ht & _). cbn [List.length] in Hl.
  cbn [data_str]. rewrite bool_decide_true by lia. unfold data_text. cbn [fmap list_fmap concat]. rewrite Ht.
  destruct rest as [|x [|y rest]]; [cbn in Hr; lia..|].
  unfold snprintf. assert (u64 len = len) as -> by (apply Z.mod_small; lia). rewrite bool_decide_false by lia.
  rewrite take_ge by (cbn; lia). cbn [app].
  rewrite (mem_write_mid pre [0; x; y] [h; l; 0] rest eq_refl : mem_write (pre ++ 0 :: x :: y :: rest) _ _ = _). monad.
  destruct (IH (pre ++ [h; l]) rest (Z.of_nat (List.length pre) + 2) (len - 2)) as [rest' Hr'].
  - done.
  - rewrite length_app. cbn. lia.
  - lia.
  - lia.
  - cbn [List.length] in Hr. lia.
  - exists rest'. cbn [List.length]. rewrite <- !app_assoc in Hr'. exact Hr'.
Qed.
End Names.

(** The bytes of a data parameter are printed behind [0x], which reading takes for a byte:
    the text is read as one byte more, the first of them 0xFF. *)
Theorem param_data_text_shifted `{ParamEnv} (s : pstate) (a : nat) (p : param_t) (data out : list Z) :
  ps_params s !! a = Some p → p_type p = PARAM_TYPE_DATA → param_get_data a (p_array_size p) s = Some (data, s) →
  bytes_ok data → 2 * Z.of_nat (List.length data) + 4 ≤ Z.of_nat (List.length out) < 2 ^ 31 →
  ∃ out' text, param_value_str a 0 out 0 (Z.of_nat (List.length out)) s = Some (out', s) ∧
    until_nul out' = text ∧ text = c_string "0x" ++ data_text data ∧
    param_str_to_value PARAM_TYPE_DATA text =
      Some (mk_sv (Z.of_nat (List.length data) + 1) text (0xFF :: data)).
Proof.
  intros Hp Ht Hg Hd Ho. destruct (data_text_read data Hd) as (Hr & Hz & Hl).
  destruct (snprintf_fits out (c_string "0x") 0 (Z.of_nat (List.length out))) as (pre & rest & Hs & Hpre & Epre & Erest); [cbn; lia..|].
  destruct pre; [|done]. clear Hpre Epre.
  destruct (data_str_run data (c_string "0x") rest 2 (Z.of_nat (List.length out) - 2)) as [rest' Hds]; [done|done|lia|lia| |].
  { subst rest. rewrite length_drop. cbn. lia. }
  exists ((c_string "0x" ++ data_text data) ++ 0 :: rest'), (c_string "0x" ++ data_text data). split_and!.
  - unfold param_value_str. run (lift_opt_run_gen _ _ s Hp : get_param a s = Some (p, s)). rewrite Ht. cbn [native_type].
    run (lift_opt_run_gen _ _ s Hs). run Hg. rewrite <- app_assoc. by apply lift_opt_run_gen.
  - apply until_nul_app. apply Forall_app. split; [by repeat constructor|done].
  - done.
  - unfold param_str_to_value. do 2 f_equal.
    + rewrite length_app, Hl. change (List.length (c_string "0x")) with 2%nat.
      replace (2 + 2 * List.length data)%nat with ((1 + List.length data) * 2)%nat by lia. rewrite Nat.div_mul by done. lia.
    + cbn [c_string app]. unfold data_bytes at 1. fold data_bytes. rewrite Hr. done.
Qed.

(** ** The line of a parameter *)

(** [value_str] when it holds [text]. *)
Definition vbuf (text : list Z) : list Z := text ++ replicate (1024 - List.length text) 0.

(** Values separated by spaces. *)
Fixpoint spaced (ts : list (list Z)) : list Z :=
  match ts with
  | [] => []
  | [t] => t
  | t :: ts' => t ++ c_string " " ++ spaced ts'
  end.

Definition unit_text (p : param_t) : list Z :=
  match p_unit p with Some (c :: u) => c_string " " ++ c :: u | _ => [] end.

Section Line.
Implicit Types (text t : list Z).

Lemma vbuf_cons text : (List.length text < 1024)%nat → vbuf text = text ++ 0 :: replicate (1023 - List.length text) 0.
Proof. intros Hl. unfold vbuf. by replace (1024 - List.length text)%nat with (S (1023 - List.length text)) by lia. Qed.

Lemma c_strlen_vbuf text : (List.length text < 1024)%nat → Forall (λ x, x ≠ 0) text →
  c_strlen (vbuf text) = Some (Z.of_nat (List.length text)).
Proof. intros Hl Hz. rewrite vbuf_cons by done. by apply c_strlen_app. Qed.

Lemma write_vbuf text t : (List.length text + List.length t < 1024)%nat →
  mem_write (vbuf text) (Z.of_nat (List.length text)) (t ++ [0]) = Some (vbuf (text ++ t)).
Proof.
  intros Hl. unfold vbuf.
  replace (1024 - List.length text)%nat with (List.length (t ++ [0%Z]) + (1023 - List.length text - List.length t))%nat
    by (rewrite length_app; cbn [List.length]; lia).
  rewrite replicate_add, mem_write_mid by (by rewrite length_replicate). f_equal.
  rewrite length_app, <- !app_assoc. do 2 f_equal.
  replace (1024 - (List.length text + List.length t))%nat with (S (1023 - List.length text - List.length t)) by lia. done.
Qed.

Lemma append_vbuf text t : (List.length text + List.length t < 1024)%nat → Forall (λ x, x ≠ 0) text →
  str_append (vbuf text) t = Some (vbuf (text ++ t)).
Proof. intros Hl Hz. unfold str_append. rewrite c_strlen_vbuf by (done || lia). monad. by apply write_vbuf. Qed.

Lemma snprintf_vbuf text t : (List.length text + List.length t < 128)%nat →
  snprintf (vbuf text) (Z.of_nat (List.length text)) (swrap 32 (128 - Z.of_nat (List.length text))) t = Some (vbuf (text ++ t)).
Proof.
  intros Hl. unfold snprintf. set (n := 128 - Z.of_nat (List.length text)).
  assert (swrap 32 n = n) as -> by (unfold swrap, wrap; rewrite Z.mod_small by lia; lia).
  assert (u64 n = n) as -> by (apply Z.mod_small; lia).
  rewrite bool_decide_false by lia. rewrite take_ge by lia. apply write_vbuf. lia.
Qed.
End Line.

Section Values.
Context `{ParamEnv}.
Variables (s : pstate) (a : nat) (p : param_t) (c : ctype).
Hypotheses (Hp : ps_params s !! a = Some p) (Ht : is_integer (p_type p) = true) (Hc : native_type (p_type p) = Some c).

(** The element [i] of the parameter is [v], for [vs] from [i] on. *)
Fixpoint elements (i : Z) (vs : list Z) : Prop :=
  match vs with
  | [] => True
  | v :: vs' => param_get_array c a i s = Some (v, s) ∧ ct_ok c v ∧ elements (i + 1) vs'
  end.

Lemma print_values_run vs : ∀ i text,
  elements i vs → Forall (λ x, x ≠ 0) text →
  (List.length text + List.length (spaced (number_text (p_type p) <$> vs)) < 128)%nat →
  print_values a i (i + Z.of_nat (List.length vs)) (List.length vs) (vbuf text) s =
    Some (vbuf (text ++ spaced (number_text (p_type p) <$> vs)), s).
Proof.
  induction vs as [|v vs IH]; intros i text Hel Hz Hl; [cbn; by rewrite app_nil_r|].
  destruct Hel as (Hg & Hv & Hel). destruct (number_text_chars _ _ _ Ht Hc Hv) as [Hnz _].
  set (t := number_text (p_type p) v) in *. cbn [List.length print_values].
  assert (Hlt : (List.length text + List.length t < 128)%nat).
  { cbn [fmap list_fmap spaced] in Hl. fold t in Hl. destruct (number_text (p_type p) <$> vs); [lia|].
    rewrite length_app in Hl. lia. }
  run (lift_opt_run_gen _ _ s (c_strlen_vbuf text ltac:(lia) Hz)).
  assert (Hvs : param_value_str a i (vbuf text) (Z.of_nat (List.length text)) (swrap 32 (128 - Z.of_nat (List.length text))) s =
    Some (vbuf (text ++ t), s)).
  { unfold param_value_str. run (lift_opt_run_gen _ _ s Hp : get_param a s = Some (p, s)). rewrite Hc. run Hg.
    fold t. apply lift_opt_run_gen. by apply snprintf_vbuf. }
  run Hvs. destruct vs as [|w vs].
  - rewrite bool_decide_false by (cbn; lia). monad. done.
  - rewrite bool_decide_true by (cbn [List.length]; lia).
    assert (Htz : Forall (λ x, x ≠ 0) (text ++ t)) by (by apply Forall_app).
    set (r := spaced (number_text (p_type p) <$> w :: vs)) in *.
    change (spaced (number_text (p_type p) <$> v :: w :: vs)) with (t ++ c_string " " ++ r) in Hl |- *.
    rewrite !length_app in Hl. change (List.length (c_string " ")) with 1%nat in Hl.
    assert (Hap : str_append (vbuf (text ++ t)) (c_string " ") = Some (vbuf ((text ++ t) ++ c_string " "))).
    { apply append_vbuf; [|done]. rewrite length_app. change (List.length (c_string " ")) with 1%nat. lia. }
    run (lift_opt_run_gen _ _ s Hap).
    replace (i + Z.of_nat (S (List.length (w :: vs)))) with ((i + 1) + Z.of_nat (List.length (w :: vs))) by lia.
    rewrite IH; [|done| |].
    + by rewrite <- !app_assoc.
    + apply Forall_app. split; [done|by repeat constructor].
    + fold r. rewrite !length_app. change (List.length (c_string " ")) with 1%nat. lia.
Qed.

Lemma spaced_chars i vs : elements i vs → Forall (λ x, x ≠ 0) (spaced (number_text (p_type p) <$> vs)).
Proof.
  revert i. induction vs as [|v vs IH]; intros i Hel; [constructor|].
  destruct Hel as (_ & Hv & Hel). destruct (number_text_chars _ _ _ Ht Hc Hv) as [Hz _].
  specialize (IH _ Hel). destruct vs as [|w vs]; [exact Hz|].
  change (spaced _) with (number_text (p_type p) v ++ c_string " " ++ spaced (number_text (p_type p) <$> w :: vs)).
  apply Forall_app. split; [done|]. by constructor.
Qed.
End Values.

Lemma bracket_chars (many : bool) (c : string) :
  bool_decide (Forall (λ x, x ≠ 0) (c_string c) ∧ List.length (c_string c) = 1%nat) = true →
  Forall (λ x, x ≠ 0) (if many then c_string c else []) ∧ (List.length (if many then c_string c else []) ≤ 1)%nat.
Proof. intros [Hz Hl]%bool_decide_eq_true. destruct many; [split; [done|lia]|split; [constructor|cbn; lia]]. Qed.

(** The line of an integer parameter: its values, in brackets when there are several, its
    unit, and spaces up to twenty characters. *)
Theorem param_print_value_shows `{ParamEnv} (s : pstate) (a : nat) (p : param_t) (c : ctype) (vs : list Z) :
  ps_params s !! a = Some p → is_integer (p_type p) = true → native_type (p_type p) = Some c →
  0 < p_array_size p → Z.of_nat (List.length vs) = p_array_size p → elements s a c 0 vs →
  let shown := spaced (number_text (p_type p) <$> vs) in
  (List.length shown < 127)%nat → (List.length (unit_text p) < 895)%nat → Forall (λ x, x ≠ 0) (unit_text p) →
  param_print_value (Some a) (-1) s =
    Some (c_string " = " ++ pad_right 20
      ((if bool_decide (1 < p_array_size p) then c_string "[" ++ shown ++ c_string "]" else shown) ++ unit_text p), s).
Proof.
  intros Hp Ht Hc Hn Hlen Hel shown Hs Hu Huz. unfold param_print_value.
  run (lift_opt_run_gen _ _ s Hp : get_param a s = Some (p, s)).
  rewrite (bool_decide_true (0 < p_array_size p)), (bool_decide_false (p_type p = _ ∨ _)) by (done || by destruct (p_type p) as [] eqn:?; intros [|]).
  rewrite (bool_decide_false (0 ≤ -1)), (bool_decide_true (-1 < 0)) by lia.
  set (many := bool_decide (1 < p_array_size p)).
  set (open := if many then c_string "[" else []). set (close := if many then c_string "]" else []).
  assert (Hz : Forall (λ x, x ≠ 0) shown) by (by eapply spaced_chars).
  pose proof (bracket_chars many "[" eq_refl) as Hopen. pose proof (bracket_chars many "]" eq_refl) as Hclose.
  fold open in Hopen. fold close in Hclose.
  change (replicate 1024 0) with (vbuf []).
  assert (H1 : (if many then lift_opt (str_append (vbuf []) (c_string "[")) else mret (vbuf [])) s = Some (vbuf open, s)).
  { subst open. destruct many; [|done]. apply lift_opt_run_gen. rewrite append_vbuf; [done|cbn; lia|constructor]. }
  run H1.
  assert (H2 : print_values a 0 (p_array_size p) (Z.to_nat (p_array_size p)) (vbuf open) s = Some (vbuf (open ++ shown), s)).
  { rewrite <- Hlen, Nat2Z.id. apply (print_values_run s a p c Hp Ht Hc vs 0 open Hel); [apply Hopen|]. fold shown. lia. }
  run H2.
  assert (H3 : (if many then lift_opt (str_append (vbuf (open ++ shown)) (c_string "]")) else mret (vbuf (open ++ shown))) s =
    Some (vbuf ((open ++ shown) ++ close), s)).
  { subst close. destruct many; [|by rewrite app_nil_r]. apply lift_opt_run_gen. apply append_vbuf; [rewrite length_app; cbn; lia|].
    apply Forall_app. split; [apply Hopen|done]. }
  run H3. set (body := (open ++ shown) ++ close) in *.
  assert (Hb : Forall (λ x, x ≠ 0) body ∧ (List.length body < 129)%nat).
  { subst body. split; [|rewrite !length_app; lia]. apply Forall_app. split; [apply Forall_app; split; [apply Hopen|done]|apply Hclose]. }
  assert (H4 : match p_unit p with
      | Some (x :: u) => lift_opt (str_append (vbuf body) (c_string " " ++ x :: u)) | _ => mret (vbuf body) end s =
    Some (vbuf (body ++ unit_text p), s)).
  { unfold unit_text in *. destruct (p_unit p) as [[|x u]|]; [by rewrite app_nil_r| |by rewrite app_nil_r].
    apply lift_opt_run_gen. apply append_vbuf; [lia|apply Hb]. }
  run H4. set (line := body ++ unit_text p).
  assert (Hl : Forall (λ x, x ≠ 0) line ∧ (List.length line < 1024)%nat).
  { subst line. split; [apply Forall_app; split; [apply Hb|done]|rewrite length_app; lia]. }
  run (lift_opt_run_gen _ _ s (c_strlen_vbuf line ltac:(apply Hl) ltac:(apply Hl))).
  assert (Hpad : str_append (vbuf line) (replicate (Z.to_nat (20 - Z.of_nat (List.length line))) 32) = Some (vbuf (pad_right 20 line))).
  { rewrite append_vbuf; [|rewrite length_replicate; lia|apply Hl]. unfold pad_right. do 4 f_equal. lia. }
  run (lift_opt_run_gen _ _ s Hpad). monad. do 3 f_equal.
  rewrite vbuf_cons; [rewrite until_nul_app|unfold pad_right; rewrite length_app, length_replicate; lia].
  - subst line body open close. destruct many; [by rewrite <- !app_assoc|by rewrite app_nil_r].
  - unfold pad_right. apply Forall_app. split; [apply Hl|]. by apply Forall_replicate.
Qed.

(** ** Where the buffer ends *)

(** The memory keeps its size and what lies before [off]. *)
Definition keeps (off : Z) (m m' : list Z) : Prop :=
  List.length m' = List.length m ∧ ∀ j : nat, Z.of_nat j < off → m' !! j = m !! j.

Section Overflow.
Lemma keeps_refl off m : keeps off m m.
Proof. done. Qed.

Lemma keeps_trans off off' m1 m2 m3 : off ≤ off' → keeps off m1 m2 → keeps off' m2 m3 → keeps off m1 m3.
Proof. intros Ho [Hl Hj] [Hl' Hj']. split; [by rewrite Hl'|]. intros j Hlt. rewrite Hj' by lia. by apply Hj. Qed.

Lemma mem_write_keeps m off bs m' : mem_write m off bs = Some m' → keeps off m m'.
Proof.
  intros Hw. split; [by eapply mem_write_length|]. intros j Hj. rewrite (mem_write_lookup _ _ _ _ _ Hw).
  rewrite bool_decide_false by lia. done.
Qed.

Lemma snprintf_keeps m off size text m' : snprintf m off size text = Some m' → keeps off m m'.
Proof. unfold snprintf. case_bool_decide; [intros [= <-]; apply keeps_refl|apply mem_write_keeps]. Qed.

Lemma data_str_keeps data : ∀ m off len m', data_str data m off len = Some m' → keeps off m m'.
Proof.
  induction data as [|b data IH]; intros m off len m'; cbn [data_str]; [intros [= <-]; apply keeps_refl|].
  case_bool_decide; [|intros [= <-]; apply keeps_refl].
  intros (m1 & H1 & H2)%bind_Some. eapply keeps_trans; [|by eapply snprintf_keeps|by eapply IH]. lia.
Qed.

Lemma c_strlen_Some m n : c_strlen m = Some n → 0 ≤ n < Z.of_nat (List.length m) ∧
  m !! Z.to_nat n = Some 0 ∧ ∀ j : nat, Z.of_nat j < n → m !! j ≠ Some 0.
Proof.
  revert n. induction m as [|x m IH]; intros n; cbn [c_strlen]; [done|]. case_bool_decide as Hx.
  - intros [= <-]. split; [cbn; lia|]. split; [by subst|]. intros j Hj. lia.
  - intros (k & Hk & [= <-])%bind_Some. destruct (IH k Hk) as (Hr & H0 & Hj). split; [cbn [List.length]; lia|]. split.
    + replace (Z.to_nat (k + 1)) with (S (Z.to_nat k)) by lia. done.
    + intros [|j] Hlt; [cbn; congruence|]. apply Hj. lia.
Qed.

Lemma keeps_strlen m m' n k : keeps n m m' → c_strlen m = Some n → c_strlen m' = Some k → n ≤ k.
Proof.
  intros [_ Hj] (Hr & _ & Hne)%c_strlen_Some (Hr' & H0 & _)%c_strlen_Some.
  destruct (decide (n ≤ k)) as [|Hlt]; [done|]. exfalso. apply (Hne (Z.to_nat k)); [lia|]. rewrite <- Hj by lia. done.
Qed.

Lemma str_append_strlen m x m' : x ≠ 0 → str_append m [x] = Some m' →
  ∃ n, c_strlen m = Some n ∧ c_strlen m' = Some (n + 1) ∧ List.length m' = List.length m.
Proof.
  intros Hx (n & Hn & Hw)%bind_Some. exists n. split; [done|]. destruct (c_strlen_Some _ _ Hn) as (Hr & _ & Hne).
  pose proof (mem_write_length _ _ _ _ Hw) as Hl. split; [|done].
  apply mem_write_Some in Hw as (_ & _ & ->). cbn [app].
  change (x :: 0 :: ?r) with ([x] ++ 0 :: r). rewrite app_assoc.
  rewrite c_strlen_app; [f_equal; rewrite length_app, length_take; cbn [List.length]; lia|].
  apply Forall_app. split; [|by repeat constructor]. apply Forall_lookup. intros j y Hy.
  apply lookup_take_Some in Hy as [Hy Hlt]. intros ->. eapply Hne; [|done]. lia.
Qed.
End Overflow.

Section PrintOverflow.
Context `{ParamEnv}.
Implicit Types (s : pstate) (m : list Z).

Lemma param_value_str_keeps a i m off len s m' s' :
  param_value_str a i m off len s = Some (m', s') → keeps off m m'.
Proof.
  assert (Hlift : ∀ (o : option (list Z)) (t t' : pstate), lift_opt o t = Some (m', t') → o = Some m').
  { intros [x|] t t'; cbn; [by intros [= -> _]|done]. }
  unfold param_value_str. intros (p & s1 & _ & Hr)%ST_bind_Some.
  destruct (native_type (p_type p)) as [c|].
  - apply ST_bind_Some in Hr as (v & s2 & _ & Hr). eapply snprintf_keeps, Hlift, Hr.
  - destruct (p_type p); try (apply ST_bind_Some in Hr as (bs & s2 & _ & Hr); by eapply mem_write_keeps, Hlift).
    apply ST_bind_Some in Hr as (m1 & s2 & H1 & Hr). apply ST_bind_Some in Hr as (d & s3 & _ & Hr).
    assert (snprintf m off len (c_string "0x") = Some m1) as H1'.
    { destruct (snprintf _ _ _ _); [cbn in H1; by injection H1 as <- _|done]. }
    eapply (keeps_trans off (off + 2)); [lia|by eapply snprintf_keeps|by eapply data_str_keeps, Hlift].
Qed.

(** Each value but the last leaves a space behind. *)
Lemma print_values_grows a left : ∀ i count m s m' s' n,
  print_values a i count left m s = Some (m', s') → c_strlen m = Some n → i + Z.of_nat left = count →
  n + Z.of_nat left ≤ Z.of_nat (List.length m).
Proof.
  induction left as [|left IH]; intros i count m s m' s' n Hr Hn Hi.
  { apply c_strlen_Some in Hn as (? & _). lia. }
  cbn [print_values] in Hr. apply ST_bind_Some in Hr as (n0 & s0 & H0 & Hr).
  rewrite Hn in H0. injection H0 as <- <-.
  apply ST_bind_Some in Hr as (m1 & s1 & H1 & Hr). apply param_value_str_keeps in H1 as Hk.
  apply ST_bind_Some in Hr as (m2 & s2 & H2 & Hr). case_bool_decide as Hlast.
  - destruct (str_append m1 (c_string " ")) as [m2'|] eqn:Ha; [|done]. injection H2 as -> <-.
    apply str_append_strlen in Ha as (n1 & Hn1 & Hn2 & Hl2); [|done].
    pose proof (keeps_strlen _ _ _ _ Hk Hn Hn1). destruct Hk as [Hl1 _].
    specialize (IH _ _ _ _ _ _ _ Hr Hn2 ltac:(lia)). rewrite Hl2, Hl1 in IH. lia.
  - apply c_strlen_Some in Hn as (? & _). lia.
Qed.
End PrintOverflow.

(** C21: [param_print_value] collects the values of an array in a buffer of 1024 characters
    without checking that they fit: the limit it gives each value, 128 less what is there,
    becomes negative and then no limit at all.  Showing an array of 1024 elements or more
    is undefined whatever the array holds: unless reading an element already is, the
    text runs past the end of the buffer. *)
Theorem param_print_value_overflows `{ParamEnv} (s : pstate) (a : nat) (p : param_t) :
  ps_params s !! a = Some p → p_type p ≠ PARAM_TYPE_DATA ∧ p_type p ≠ PARAM_TYPE_STRING →
  1024 ≤ p_array_size p → param_print_value (Some a) (-1) s = None.
Proof.
  intros Hp [Hd Hs] Hn. unfold param_print_value.
  run (lift_opt_run_gen _ _ s Hp : get_param a s = Some (p, s)).
  rewrite (bool_decide_true (0 < p_array_size p)), (bool_decide_false (p_type p = _ ∨ _)) by (lia || by intros [|]).
  rewrite (bool_decide_false (0 ≤ -1)), (bool_decide_true (-1 < 0)), !(bool_decide_true (1 < p_array_size p)) by lia.
  destruct (print_values a 0 (p_array_size p) (Z.to_nat (p_array_size p)) (vbuf (c_string "[")) s) as [[m' s']|] eqn:Hv.
  - apply print_values_grows with (n := 1) in Hv; [|done|lia]. cbn [List.length vbuf] in Hv.
    unfold vbuf in Hv. rewrite length_app, length_replicate in Hv. cbn in Hv. lia.
  - erewrite ST_bind_run; [|apply lift_opt_run_gen; exact (append_vbuf [] (c_string "[") ltac:(cbn; lia) (Forall_nil_2 _))].
    unfold mbind at 1, ST_bind at 1. change ([] ++ c_string "[") with (c_string "["). by rewrite Hv.
Qed.

(** 1024 bytes are too many, 100 are not. *)
Lemma param_print_value_overflows_witness :
  let s n := text_state PARAM_TYPE_UINT8 n (replicate 2048 0) in
  (∀ i, 0 ≤ i < 1024 → i = 0 ∨ i = 1023 → param_get_array c_uint8 0 i (s 1024) = Some (0, s 1024)) ∧
  param_print_value (Some 0%nat) (-1) (s 1024) = None ∧
  is_Some (param_print_value (Some 0%nat) (-1) (s 100)).
Proof.
  intros s. split; [intros i _ [->| ->]; vm_compute; reflexivity|]. split.
  - apply (param_print_value_overflows (s 1024) 0 (text_param PARAM_TYPE_UINT8 1024)); [done|done|cbn; lia].
  - eexists. vm_compute. reflexivity.
Defined.

(** Three temperatures with their unit. *)
Example param_print_value_example :
  let p := mk_param 7 0 PARAM_TYPE_INT16 PM_TELEM [] (Some (c_string "C")) None 0 0 None 3 2 None 0 None in
  let s := mk_pstate {[ 0%nat := [0x0a; 0; 0xff; 0xff; 0xd4; 0xfe] ]} [] {[ 0%nat := p ]} 1 None ∅ ∅ [] (mk_app [] 0 0 0) in
  param_print_value (Some 0%nat) (-1) s = Some (c_string " = [10 -1 -300] C      ", s).
Proof. vm_compute. reflexivity. Qed.
