(* ===== verification/ParamSer.v ===== *)
(** * Parameters on the wire

    [lib/param/src/param/param_serializer.c] and [param_queue.c]: a queue of parameters
    with their values in MessagePack, how it is filled and how it is applied. *)

From S2P Require Import Prelude Mpack ParamState Param ParamList.

Inductive param_queue_type_e := PARAM_QUEUE_TYPE_GET | PARAM_QUEUE_TYPE_SET | PARAM_QUEUE_TYPE_EMPTY.

#[export] Instance queue_type_eq_dec : EqDecision param_queue_type_e.
Proof. solve_decision. Defined.

(** [q_mem] is the memory from [queue->buffer] on. *)
Record param_queue_t := mk_queue {
  q_mem : list Z;
  q_buffer_size : Z;
  q_used : Z;
  q_version : Z;
  q_type : param_queue_type_e;
  q_last_node : Z;
  q_last_timestamp : Z;
}.

Definition set_q_last_node (n : Z) (q : param_queue_t) : param_queue_t :=
  mk_queue (q_mem q) (q_buffer_size q) (q_used q) (q_version q) (q_type q) n (q_last_timestamp q).
Definition set_q_last_timestamp (t : Z) (q : param_queue_t) : param_queue_t :=
  mk_queue (q_mem q) (q_buffer_size q) (q_used q) (q_version q) (q_type q) (q_last_node q) t.
Definition set_q_mem (m : list Z) (q : param_queue_t) : param_queue_t :=
  mk_queue m (q_buffer_size q) (q_used q) (q_version q) (q_type q) (q_last_node q) (q_last_timestamp q).
Definition set_q_used (u : Z) (q : param_queue_t) : param_queue_t :=
  mk_queue (q_mem q) (q_buffer_size q) u (q_version q) (q_type q) (q_last_node q) (q_last_timestamp q).

(** [last_node] keeps the value the structure had before. *)
Definition param_queue_init (mem : list Z) (buffer_size used : Z) (type : param_queue_type_e) (version last_node : Z)
    : param_queue_t :=
  mk_queue mem (u16 buffer_size) (u16 used) (u8 version) type last_node 0.

(** ** Identifiers *)

Definition param_get_short_id (p : param_t) (isarray reserved : Z) : Z :=
  u16 (Z.lor (Z.lor (Z.lor (Z.shiftl (p_node p) 11) (Z.shiftl (Z.land isarray 1) 10))
    (Z.shiftl (Z.land reserved 1) 2)) (Z.land (p_id p) 0x1FF)).
Definition param_parse_short_id_flag_isarray (short_id : Z) : Z := Z.land (Z.shiftr short_id 10) 1.
Definition param_parse_short_id_node (short_id : Z) : Z := Z.land (Z.shiftr short_id 11) 0x1F.
Definition param_parse_short_id_paramid (short_id : Z) : Z := Z.land short_id 0x1FF.

(** The writing functions work on the writer and the queue and read the parameters. *)
Record ser := mk_ser { se_w : mpack_writer_t; se_q : param_queue_t }.

Definition on_writer {A} (m : ST mpack_writer_t A) : ST ser A := λ s,
  match m (se_w s) with Some (a, w) => Some (a, mk_ser w (se_q s)) | None => None end.
Definition on_queue (f : param_queue_t → param_queue_t) : ST ser () :=
  modify (λ s, mk_ser (se_w s) (f (se_q s))).

Definition flag (b : bool) : Z := if b then 1 else 0.

Definition serialize_id_v1 (p : param_t) (offset : Z) : ST ser () :=
  if bool_decide (0 ≤ offset) then
    on_writer (mpack_write_u16 (param_get_short_id p 1 0));;
    on_writer (mpack_write_bytes [u8 offset])
  else on_writer (mpack_write_u16 (param_get_short_id p 0 0)).

Definition serialize_id_v2 (p : param_t) (timestamp offset : Z) : ST ser () :=
  q ← gets se_q;
  let node := p_node p in
  let array_flag := bool_decide (0 ≤ offset) in
  let node_flag := bool_decide (q_last_node q ≠ node) in
  let timestamp_flag := bool_decide (q_last_timestamp q ≠ timestamp) in
  let extendedid_flag := bool_decide (0x3ff < p_id p) in
  let header := u16 (Z.lor (Z.lor (Z.lor (Z.lor (Z.shiftl (flag array_flag) 15) (Z.shiftl (flag node_flag) 14))
    (Z.shiftl (flag timestamp_flag) 13)) (Z.shiftl (flag extendedid_flag) 12)) (Z.land (p_id p) 0x3ff)) in
  on_writer (mpack_write_u16 (bswap 2 header));;
  when array_flag (on_writer (mpack_write_bytes [u8 offset]));;
  when node_flag (on_queue (set_q_last_node (u16 node));; on_writer (mpack_write_bytes (be_bytes 2 node)));;
  when timestamp_flag
    (on_queue (set_q_last_timestamp timestamp);; on_writer (mpack_write_bytes (be_bytes 4 timestamp)));;
  when extendedid_flag (on_writer (mpack_write_bytes [u8 (Z.shiftr (Z.land (p_id p) 0xfc00) 8)])).

(** [timestamp] is [*param->timestamp]. *)
Definition param_serialize_id (p : param_t) (timestamp offset : Z) : ST ser () :=
  q ← gets se_q;
  if bool_decide (q_version q = 1) then serialize_id_v1 p offset else serialize_id_v2 p timestamp offset.

(** The reading functions work on the reader and the queue. *)
Record des := mk_des { de_r : mpack_reader_t; de_q : param_queue_t }.

Definition on_reader {A} (m : ST mpack_reader_t A) : ST des A := λ s,
  match m (de_r s) with Some (a, r) => Some (a, mk_des r (de_q s)) | None => None end.
Definition on_dqueue (f : param_queue_t → param_queue_t) : ST des () :=
  modify (λ s, mk_des (de_r s) (f (de_q s))).

(** The variables [param_deserialize_id] sets through its pointers. *)
Record id_vars := mk_vars { i_id : Z; i_node : Z; i_timestamp : Z; i_offset : Z }.

(** [mpack_read_bytes] of [n] bytes into an integer and [beXXtoh]. *)
Definition read_be (n : Z) : ST des Z :=
  bs ← on_reader (mpack_read_bytes n);
  mret (be_val bs).

Definition deserialize_id_v1 (v : id_vars) : ST des id_vars :=
  short_id ← on_reader mpack_expect_u16;
  s ← get;
  if mpack_reader_failed (de_r s) then mret v else
  offset ← (if bool_decide (param_parse_short_id_flag_isarray short_id ≠ 0) then read_be 1 else mret (i_offset v));
  mret (mk_vars (param_parse_short_id_paramid short_id) (param_parse_short_id_node short_id) (i_timestamp v) offset).

Definition deserialize_id_v2 (v : id_vars) : ST des id_vars :=
  raw ← on_reader mpack_expect_u16;
  s ← get;
  if mpack_reader_failed (de_r s) then mret v else
  let header := bswap 2 raw in
  let id := Z.land header 0x3ff in
  offset ← (if bool_decide (Z.land header 0x8000 ≠ 0) then read_be 1 else mret (i_offset v));
  node ← (if bool_decide (Z.land header 0x4000 ≠ 0)
          then node ← read_be 2; on_dqueue (set_q_last_node node);; mret node
          else gets (λ s, q_last_node (de_q s)));
  timestamp ← (if bool_decide (Z.land header 0x2000 ≠ 0)
          then timestamp ← read_be 4; on_dqueue (set_q_last_timestamp timestamp);; mret timestamp
          else gets (λ s, q_last_timestamp (de_q s)));
  id ← (if bool_decide (Z.land header 0x1000 ≠ 0)
        then ext ← read_be 1; mret (Z.lor id (Z.land (Z.shiftl ext 8) 0xFFFF))
        else mret id);
  mret (mk_vars id node timestamp offset).

Definition param_deserialize_id (v : id_vars) : ST des id_vars :=
  s ← get;
  if bool_decide (q_version (de_q s) = 1) then deserialize_id_v1 v else deserialize_id_v2 v.

(** ** Values *)

Section Values.
Context `{ParamEnv}.

(** The number to be written: what [value] points to or element [i]. *)
Definition native_value (c : ctype) (a : nat) (i : Z) (value : option (list Z)) : ST (ser * pstate) Z :=
  match value with
  | Some m => bs ← lift_opt (mem_read m 0 (Z.of_nat (ct_size c))); mret (ct_value c (le_val bs))
  | None => on_snd (param_get_array c a (u32 i))
  end.

Definition write_native (c : ctype) (v : Z) : ST mpack_writer_t () :=
  match c with
  | c_uint8 | c_uint16 | c_uint32 | c_uint64 => mpack_write_uint v
  | c_int8 | c_int16 | c_int32 | c_int64 => mpack_write_int v
  | c_float => mpack_write_float v
  | c_double => mpack_write_double v
  end.

(** [if (writer->position + n > writer->end) writer->error = mpack_error_too_big] *)
Definition check_room (n : Z) : ST mpack_writer_t bool :=
  w ← get;
  if bool_decide (w_end w < w_position w + n) then put (set_w_error mpack_error_too_big w);; mret false
  else mret true.

(** [memcpy] to the position, which then moves by [len]. *)
Definition copy_bytes (bs : list Z) (len : Z) : ST mpack_writer_t () :=
  w ← get;
  mem ← lift_opt (mem_write (w_mem w) (w_position w) bs);
  put (set_w_position (w_position w + len) (set_w_mem mem w)).

Definition serialize_element (a : nat) (p : param_t) (i : Z) (value : option (list Z)) : ST (ser * pstate) () :=
  match p_type p, native_type (p_type p) with
  | _, Some c => v ← native_value c a i value; on_fst (on_writer (write_native c v))
  | PARAM_TYPE_STRING, None =>
      tmp ← (match value with
             | Some m => mret m
             | None => on_snd (param_get_data a (p_array_size p))
             end);
      str ← lift_opt (c_chars tmp (Z.to_nat (p_array_size p)));
      on_fst (on_writer (mpack_start_str (Z.of_nat (length str))));;
      ok ← on_fst (on_writer (check_room (Z.of_nat (length str))));
      when ok (on_fst (on_writer (copy_bytes str (Z.of_nat (length str)))))
  | PARAM_TYPE_DATA, None =>
      on_fst (on_writer (mpack_start_bin (p_array_size p)));;
      let size := if bool_decide (0 < p_array_size p) then p_array_size p else 1 in
      ok ← on_fst (on_writer (check_room size));
      if negb ok then mret () else
      bs ← (match value with
            | Some m => lift_opt (mem_read m 0 size)
            | None => on_snd (param_get_data a size)
            end);
      on_fst (on_writer (copy_bytes bs (p_array_size p)))
  | _, None => mret ()
  end.

Fixpoint serialize_loop (n : nat) (a : nat) (p : param_t) (i : Z) (value : option (list Z)) (init_pos : Z)
    : ST (ser * pstate) Z :=
  match n with
  | O => mret 0
  | S n' =>
      serialize_element a p i value;;
      s ← get;
      if bool_decide (w_error (se_w s.1) ≠ mpack_ok) then
        on_fst (on_writer (modify (set_w_position init_pos)));;
        mret (-1)
      else serialize_loop n' a p (i + 1) value init_pos
  end.

Definition element_count (p : param_t) (offset : Z) : Z :=
  if bool_decide (0 ≤ offset) then 1
  else match p_type p with
  | PARAM_TYPE_DATA | PARAM_TYPE_STRING => 1
  | _ => if bool_decide (0 < p_array_size p) then p_array_size p else 1
  end.

Definition param_serialize_to_mpack (a : nat) (offset : Z) (value : option (list Z)) : ST (ser * pstate) Z :=
  s ← get;
  p ← on_snd (get_param a);
  timestamp ← lift_opt (ps_timestamps s.2 !! p_timestamp p);
  let init_pos := w_position (se_w s.1) in
  on_fst (param_serialize_id p timestamp offset);;
  s ← get;
  if bool_decide (w_error (se_w s.1) ≠ mpack_ok) then mret (-1) else
  let count := element_count p offset in
  let offset := Z.max 0 offset in
  when (bool_decide (1 < count)) (on_fst (on_writer (mpack_start_array count)));;
  serialize_loop (Z.to_nat count) a p offset value init_pos.

(** The value that is expected for the type, converted as the call converts it. *)
Definition expect_native (c : ctype) : ST mpack_reader_t Z :=
  match c with
  | c_uint8 => v ← mpack_expect_uint; mret (u8 v)
  | c_uint16 => v ← mpack_expect_uint; mret (u16 v)
  | c_uint32 => v ← mpack_expect_uint; mret (u32 v)
  | c_uint64 => mpack_expect_u64
  | c_int8 => v ← mpack_expect_int; mret (swrap 8 v)
  | c_int16 => v ← mpack_expect_int; mret (swrap 16 v)
  | c_int32 => v ← mpack_expect_int; mret (swrap 32 v)
  | c_int64 => mpack_expect_i64
  | c_float => mpack_expect_float
  | c_double => mpack_expect_double
  end.

(** [len] bytes at [reader->data], which then moves. *)
Definition take_bytes (len : Z) : ST des (list Z) :=
  s ← get;
  bs ← lift_opt (mem_read (r_mem (de_r s)) (r_data (de_r s)) len);
  mret bs.
Definition advance_reader (len : Z) : ST des () :=
  on_reader (modify (λ r, set_r_data (r_data r + len) r)).

Definition deserialize_element (a : nat) (p : param_t) (i : Z) : ST (des * pstate) () :=
  match p_type p, native_type (p_type p) with
  | _, Some c => v ← on_fst (on_reader (expect_native c)); on_snd (param_set_array c a (u32 i) v)
  | PARAM_TYPE_STRING, None =>
      raw ← on_fst (on_reader mpack_expect_str);
      let len := s32 raw in
      (if bool_decide (len = 0) then on_snd (param_set_string a [0])
       else bs ← on_fst (take_bytes len); on_snd (param_set_string a bs));;
      on_fst (advance_reader len)
  | PARAM_TYPE_DATA, None =>
      raw ← on_fst (on_reader mpack_expect_bin);
      let len := s32 raw in
      bs ← on_fst (take_bytes len);
      on_snd (param_set_data a bs);;
      on_fst (advance_reader len)
  | _, None => on_fst (on_reader mpack_discard)
  end.

(** Every element takes at least one byte of the memory or ends the loop with an error. *)
Fixpoint deserialize_loop (fuel : nat) (a : nat) (p : param_t) (i last : Z) : ST (des * pstate) () :=
  match fuel with
  | O => ub
  | S fuel' =>
      if bool_decide (last ≤ i) then mret () else
      deserialize_element a p i;;
      s ← get;
      if mpack_reader_failed (de_r s.1) then mret () else deserialize_loop fuel' a p (i + 1) last
  end.

Definition reader_fuel (d : des) : nat := S (S (length (r_mem (de_r d)) - Z.to_nat (r_data (de_r d)))).

Definition param_deserialize_from_mpack_to_param (a : nat) (offset : Z) : ST (des * pstate) () :=
  p ← on_snd (get_param a);
  let offset := Z.max 0 offset in
  tag ← on_fst (on_reader mpack_peek_tag);
  count ← (match tag with
           | mpack_type_array _ => n ← on_fst (on_reader mpack_expect_array); mret (s32 n)
           | _ => mret 1
           end);
  s ← get;
  deserialize_loop (reader_fuel s.1) a p offset (offset + count).

(** ** The queue *)

(** The writer works in the queue's buffer. *)
Definition param_queue_add (q : param_queue_t) (a : nat) (offset : Z) (value : option (list Z))
    : ST pstate (Z * param_queue_t) :=
  let q := if bool_decide (q_used q = 0) then set_q_last_node 0xffff q else q in
  if bool_decide (q_type q = PARAM_QUEUE_TYPE_GET ∧ value ≠ None) then mret (-1, q) else
  s ← get;
  let w := set_w_position (q_used q) (mpack_writer_init (q_mem q) (q_buffer_size q)) in
  '(_, (se, s')) ← lift_opt
    ((if bool_decide (q_type q = PARAM_QUEUE_TYPE_SET) then param_serialize_to_mpack a offset value;; mret ()
      else p ← on_snd (get_param a);
           ts ← lift_opt (ps_timestamps s !! p_timestamp p);
           on_fst (param_serialize_id p ts offset)) (mk_ser w q, s));
  put s';;
  let q := set_q_mem (w_mem (se_w se)) (se_q se) in
  if bool_decide (w_error (se_w se) ≠ mpack_ok) then mret (-1, q)
  else mret (0, set_q_used (u16 (mpack_writer_buffer_used (se_w se))) q).

Definition set_timestamp (p : param_t) (timestamp : Z) : ST pstate () :=
  modify (λ s, with_timestamps (<[p_timestamp p := u32 timestamp]> (ps_timestamps s)) s).

(** What [param_queue_apply] does with an element of a parameter it does not know; the
    result says whether the loop goes on. *)
Fixpoint skip_tags (fuel : nat) (n : Z) : ST mpack_reader_t () :=
  match fuel with
  | O => ub
  | S fuel' =>
      if bool_decide (n ≤ 0) then mret () else
      mpack_read_tag;;
      r ← get;
      if mpack_reader_failed r then mret () else skip_tags fuel' (n - 1)
  end.

Definition skip_unknown : ST mpack_reader_t bool :=
  tag ← mpack_read_tag;
  r ← get;
  if mpack_reader_failed r then mret false else
  match tag with
  | mpack_type_str l | mpack_type_bin l =>
      when (bool_decide (l ≤ r_end r - r_data r)) (mpack_skip_bytes l);; mret true
  | mpack_type_array n => skip_tags (S (S (Z.to_nat (r_end r - r_data r)))) n;; mret true
  | _ => mret true
  end.

Fixpoint apply_loop (fuel : nat) (apply_local from : Z) (return_code : Z) (atomic_write : bool)
    : ST (des * pstate) (Z * bool) :=
  match fuel with
  | O => ub
  | S fuel' =>
      s ← get;
      if bool_decide (r_end (de_r s.1) ≤ r_data (de_r s.1)) then mret (return_code, atomic_write) else
      v ← on_fst (param_deserialize_id (mk_vars indeterminate indeterminate 0 (-1)));
      let node := if bool_decide (i_node v = 0) then from else i_node v in
      found ← on_snd (param_list_find_id node (i_id v));
      found ← (match found with
               | Some a => mret (Some a)
               | None => on_snd (param_list_find_id (if bool_decide (apply_local = 1) then 0 else node) (i_id v))
               end);
      match found with
      | Some a =>
          p ← on_snd (get_param a);
          let atomic := bool_decide (Z.land (p_mask p) PM_ATOMIC_WRITE ≠ 0) in
          when (atomic && negb atomic_write && have_critical) (on_snd (modify (with_event ev_enter_critical)));;
          on_snd (set_timestamp p (i_timestamp v));;
          param_deserialize_from_mpack_to_param a (i_offset v);;
          apply_loop fuel' apply_local from return_code (atomic_write || atomic)
      | None =>
          go ← on_fst (on_reader skip_unknown);
          if go : bool then apply_loop fuel' apply_local from (-1) atomic_write
          else mret (-1, atomic_write)
      end
  end.

(** The queue's identifier state changes with the elements read. *)
Definition param_queue_apply (q : param_queue_t) (apply_local from : Z) : ST pstate Z :=
  s ← get;
  let r := mpack_reader_init_data (q_mem q) 0 (q_used q) in
  '((code, atomic_write), (_, s')) ← lift_opt
    (apply_loop (S (Z.to_nat (q_used q))) apply_local from 0 false (mk_des r q, s));
  put s';;
  when (atomic_write && have_critical) (modify (with_event ev_exit_critical));;
  mret code.
End Values.
