(* ===== verification/QueuePrint.v ===== *)
(** * Printing a queue

    The functions of [lib/param/src/param/param_queue.c] that show a queue: as the commands
    that build it, and as the parameters it holds.  MPack is built without standard output,
    so values are not shown. *)

From Stdlib Require Import String.
From S2P Require Import Mpack Text ParamState Param ParamList ParamString ParamSer Prelude.
#[local] Open Scope Z_scope.

Section QueuePrint.
Context `{ParamEnv}.

(** [PARAM_QUEUE_FOREACH]: the next element and the parameter it names; [None] at the end of
    the queue. *)
Definition queue_next : ST (des * pstate) (option (id_vars * option nat)) :=
  s ← get;
  if bool_decide (r_end (de_r s.1) ≤ r_data (de_r s.1)) then mret None else
  v ← on_fst (param_deserialize_id (mk_vars indeterminate indeterminate 0 (-1)));
  found ← on_snd (param_list_find_id (i_node v) (i_id v));
  mret (Some (v, found)).

Definition discard_value (type : param_queue_type_e) : ST (des * pstate) () :=
  when (bool_decide (type = PARAM_QUEUE_TYPE_SET)) (on_fst (on_reader mpack_discard)).

Definition command_text (p : param_t) (offset : Z) : list Z :=
  c_string "cmd add " ++
  (if bool_decide (0 < p_node p) then c_string "-n " ++ decimal (p_node p) ++ c_string " " else []) ++
  p_name p ++ (if bool_decide (0 ≤ offset) then c_string "[" ++ decimal offset ++ c_string "] " else c_string " ") ++ [10].

(** An element of an unknown parameter is not printed, and its value is not skipped. *)
Fixpoint queue_print_loop (fuel : nat) (type : param_queue_type_e) : ST (des * pstate) (list Z) :=
  match fuel with
  | O => ub
  | S fuel' =>
      e ← queue_next;
      match e with
      | None => mret []
      | Some (v, None) => queue_print_loop fuel' type
      | Some (v, Some a) =>
          p ← on_snd (get_param a);
          discard_value type;;
          rest ← queue_print_loop fuel' type;
          mret (command_text p (i_offset v) ++ rest)
      end
  end.

Definition queue_reader (q : param_queue_t) : mpack_reader_t := mpack_reader_init_data (q_mem q) 0 (q_used q).

(** [param_queue_print] and the state it leaves the queue in; [name] is [queue->name]. *)
Definition param_queue_print (q : param_queue_t) (name : list Z) : ST pstate param_queue_t :=
  let head := match q_type q with
              | PARAM_QUEUE_TYPE_GET => c_string "cmd new get " ++ name ++ [10]
              | PARAM_QUEUE_TYPE_SET => c_string "cmd new set " ++ name ++ [10]
              | _ => []
              end in
  s ← get;
  '(text, (d, s')) ← lift_opt (queue_print_loop (S (Z.to_nat (q_used q))) (q_type q) (mk_des (queue_reader q) q, s));
  put s';;
  modify (with_event (ev_print (head ++ text)));;
  mret (de_q d).

(** The inner loop: does one of the first [n] elements name parameter [a]?  It reads with a
    reader of its own and with the state of the queue. *)
Fixpoint printed_before (n : nat) (type : param_queue_type_e) (a : nat) : ST (des * pstate) bool :=
  match n with
  | O => mret false
  | S n' =>
      v ← on_fst (param_deserialize_id (mk_vars indeterminate indeterminate 0 (-1)));
      found ← on_snd (param_list_find_id (i_node v) (i_id v));
      discard_value type;;
      if bool_decide (found = Some a) then mret true else printed_before n' type a
  end.

Fixpoint print_params_loop (fuel : nat) (q0 : param_queue_t) (outer_count : nat) (ref_timestamp : Z) : ST (des * pstate) () :=
  match fuel with
  | O => ub
  | S fuel' =>
      e ← queue_next;
      match e with
      | None => mret ()
      | Some (v, found) =>
          match found with
          | Some a =>
              s ← get;
              '(seen, (d, s')) ← lift_opt
                (printed_before outer_count (q_type q0) a (mk_des (queue_reader q0) (de_q s.1), s.2));
              put (mk_des (de_r s.1) (de_q d), s');;
              when (negb seen) (on_snd (param_print (Some a) (-1) [] 2 ref_timestamp))
          | None => mret ()
          end;;
          discard_value (q_type q0);;
          print_params_loop fuel' q0 (S outer_count) ref_timestamp
      end
  end.

Definition param_queue_print_params (q : param_queue_t) (ref_timestamp : Z) : ST pstate param_queue_t :=
  s ← get;
  '(_, (d, s')) ← lift_opt (print_params_loop (S (Z.to_nat (q_used q))) q 0 ref_timestamp (mk_des (queue_reader q) q, s));
  put s';;
  mret (de_q d).
End QueuePrint.

(** ** What the two show *)

(** Three parameters, one of node 5 and two of node 6, and a queue that asks for them. *)
Definition queued_param (id node : Z) (name : string) (next : option nat) : param_t :=
  mk_param id node PARAM_TYPE_UINT8 PM_CONF (c_string name) None None 0 0 None 1 1 None 0 next.
Definition queue_state : pstate :=
  mk_pstate {[ 0%nat := [0; 0; 0; 0] ]} []
    {[ 0%nat := queued_param 1 5 "a" (Some 1%nat); 1%nat := queued_param 2 6 "b" (Some 2%nat); 2%nat := queued_param 3 6 "c" None ]}
    0 (Some 0%nat) {[ 0%nat := 0 ]} ∅ [] (mk_app [] 0 0 0).
#[local] Instance queue_env : ParamEnv := {|
  fopen_w_ok _ := true; ParamState.run_callback _ _ _ := mret (); calloc_block _ := None; have_critical := false;
  indeterminate := 0; ptr_block _ := None |}.
Definition asked_queue : ST pstate param_queue_t :=
  '(_, q) ← param_queue_add (param_queue_init (replicate 40 0) 40 0 PARAM_QUEUE_TYPE_GET 2 0) 0 (-1) None;
  '(_, q) ← param_queue_add q 1 (-1) None;
  '(_, q) ← param_queue_add q 2 (-1) None;
  mret q.

(** [param_queue_print] lists the three commands.  [param_queue_print_params] looks back with
    the state of the queue it is reading: after the second element it takes the third, which
    relies on the node of the one before, for a parameter of node 5, and shows two.  The
    queue keeps the wrong node, too. *)
Lemma print_params_loses_node :
  (λ '(q, s), (q_last_node q, ps_events s)) <$> (q ← asked_queue; param_queue_print q (c_string "x")) queue_state =
    Some (6, [ev_print (c_string "cmd new get x" ++ [10] ++ c_string "cmd add -n 5 a " ++ [10] ++
      c_string "cmd add -n 6 b " ++ [10] ++ c_string "cmd add -n 6 c " ++ [10])]) ∧
  (λ '(q, s), (q_last_node q, List.length (ps_events s))) <$> (q ← asked_queue; param_queue_print_params q 0) queue_state =
    Some (5, 2%nat).
Proof. vm_compute. done. Qed.
