(* ===== verification/ParamWire.v ===== *)
(** * What travels between nodes

    The bytes the serializer of [param_serializer.c] produces, and that the
    deserializer gets the parameters back from them. *)

From S2P Require Import Prelude Mpack ParamState Param ParamList ParamSer.

(** ** Writing, as a sequence of bytes *)

(** [m] appends [bs], or flags an error when there is no room for them; an error that is
    there already stays. *)
Definition emits (m : ST mpack_writer_t ()) (bs : list Z) : Prop :=
  ∀ w, writer_ok w → ∃ w', m w = Some ((), w') ∧ writer_ok w' ∧ w_end w' = w_end w ∧
    (w_error w ≠ mpack_ok → w_error w' = w_error w) ∧
    (w_error w = mpack_ok → (fits bs w ∧ wrote bs w w') ∨ (¬ fits bs w ∧ w_error w' = mpack_error_too_big)).

(** The same with the queue's state going from [q] to [q']. *)
Definition semits (m : ST ser ()) (bs : list Z) (q q' : param_queue_t) : Prop :=
  ∀ w, writer_ok w → ∃ w', m (mk_ser w q) = Some ((), mk_ser w' q') ∧ writer_ok w' ∧ w_end w' = w_end w ∧
    (w_error w ≠ mpack_ok → w_error w' = w_error w) ∧
    (w_error w = mpack_ok → (fits bs w ∧ wrote bs w w') ∨ (¬ fits bs w ∧ w_error w' = mpack_error_too_big)).

Section Emits.
Implicit Types (bs : list Z) (w : mpack_writer_t) (q : param_queue_t).

Lemma too_big_ok w : writer_ok w → writer_ok (too_big w).
Proof. unfold too_big. by case_bool_decide. Qed.

Lemma emits_flag m bs :
  (∀ w, writer_ok w →
    (fits bs w ∧ ∃ w', m w = Some ((), w') ∧ wrote bs w w' ∧ writer_ok w') ∨
    (¬ fits bs w ∧ m w = Some ((), too_big w))) → emits m bs.
Proof.
  intros Hm w Hw. destruct (Hm w Hw) as [(Hf & w' & Hr & Hwr & Hok)|(Hf & Hr)].
  - pose proof Hwr as (_ & _ & He & Ho). exists w'. split; [done|]. split; [done|]. split; [done|].
    split; [done|]. intros _. by left.
  - exists (too_big w). split; [done|]. split; [by apply too_big_ok|]. unfold too_big.
    case_bool_decide as Ho; split; try done; split; try done. intros _. by right.
Qed.

Lemma emits_encoded bs : emits (mpack_write_encoded bs) bs.
Proof. apply emits_flag. intros. by apply write_encoded_run. Qed.

Lemma emits_bytes bs : emits (mpack_write_bytes bs) bs.
Proof. apply emits_flag. intros. by apply write_bytes_run. Qed.

Lemma emits_tag t : tag_ok t → emits (mpack_write_tag t) (tag_bytes t).
Proof. intros Ht. rewrite write_tag_bytes by done. apply emits_encoded. Qed.

Lemma write_u16_tag v : 0 ≤ v < 65536 → mpack_write_u16 v = mpack_write_tag (mpack_type_uint v).
Proof.
  intros Hv. rewrite write_tag_bytes by (simpl; lia). unfold mpack_write_u16.
  cbn [tag_bytes]. unfold mpack_encode_fixuint, mpack_encode_u8, mpack_encode_u16.
  rewrite be_bytes_u8, be_bytes_u16. repeat case_bool_decide; try lia; [|done..].
  by rewrite u8_id by (unfold is_u8; lia).
Qed.

Lemma semits_writer m bs q : emits m bs → semits (on_writer m) bs q q.
Proof.
  intros Hm w Hw. destruct (Hm w Hw) as (w' & Hr & Hrest). exists w'. split; [|done].
  unfold on_writer. simpl. by rewrite Hr.
Qed.

Lemma fits_app bs1 bs2 w w1 : wrote bs1 w w1 → fits (bs1 ++ bs2) w ↔ fits bs2 w1.
Proof. intros (_ & Hp & He & _). unfold fits. rewrite length_app, Hp, He. lia. Qed.

Lemma semits_bind m1 m2 bs1 bs2 q q1 q2 :
  semits m1 bs1 q q1 → semits m2 bs2 q1 q2 → semits (m1;; m2) (bs1 ++ bs2) q q2.
Proof.
  intros H1 H2 w Hw. destruct (H1 w Hw) as (w1 & Hr1 & Hw1 & He1 & Hst1 & Hk1).
  destruct (H2 w1 Hw1) as (w2 & Hr2 & Hw2 & He2 & Hst2 & Hk2).
  exists w2. split; [by run Hr1|]. split; [done|]. split; [congruence|]. split.
  - intros Ho. rewrite Hst2, Hst1 by (done || rewrite Hst1; done). done.
  - intros Ho. destruct (Hk1 Ho) as [[Hf Hwr]|[Hf Ho1]].
    + pose proof Hwr as (_ & _ & _ & Ho1). rewrite Ho in Ho1. rewrite (fits_app bs1 bs2 w w1 Hwr).
      destruct (Hk2 Ho1) as [[Hf2 Hwr2]|[Hf2 Ho2]]; [left; split; [done|by eapply wrote_app]|by right].
    + right. split; [|rewrite Hst2; [done|by rewrite Ho1]]. unfold fits in *. rewrite length_app. lia.
Qed.

Lemma semits_nil q : semits (mret ()) [] q q.
Proof.
  intros w Hw. exists w. split; [done|]. split; [done|]. split; [done|]. split; [done|]. intros Ho. left.
  split; [unfold fits; simpl; destruct Hw; lia|].
  split; [|split; [simpl; lia|done]]. destruct Hw as (H1 & H2 & _). apply mem_write_Some. simpl. split; [lia|]. split; [lia|].
  rewrite Nat.add_0_r. by rewrite take_drop.
Qed.

Lemma semits_queue f q m bs q' : semits m bs (f q) q' → semits (on_queue f;; m) bs q q'.
Proof.
  intros Hm w Hw. destruct (Hm w Hw) as (w' & Hr & Hrest). exists w'. split; [|done]. exact Hr.
Qed.

Lemma semits_when (b : bool) m bs q q' :
  (b = true → semits m bs q q') → (b = false → bs = [] ∧ q' = q) → semits (when b m) bs q q'.
Proof. destruct b; intros H1 H2; [by apply H1|]. destruct (H2 eq_refl) as [-> ->]. apply semits_nil. Qed.
End Emits.

(** ** Identifiers *)

(** The state the queues of both ends share. *)
Definition after_id (q : param_queue_t) (p : param_t) (timestamp : Z) : param_queue_t :=
  set_q_last_timestamp timestamp (set_q_last_node (p_node p) q).

Definition id_header (q : param_queue_t) (p : param_t) (timestamp offset : Z) : Z :=
  flag (bool_decide (0 ≤ offset)) * 2 ^ 15 + flag (bool_decide (q_last_node q ≠ p_node p)) * 2 ^ 14
  + flag (bool_decide (q_last_timestamp q ≠ timestamp)) * 2 ^ 13
  + flag (bool_decide (0x3ff < p_id p)) * 2 ^ 12 + p_id p mod 2 ^ 10.

(** The bytes of an identifier of version 2. *)
Definition id_bytes (q : param_queue_t) (p : param_t) (timestamp offset : Z) : list Z :=
  tag_bytes (mpack_type_uint (bswap 2 (id_header q p timestamp offset)))
  ++ (if bool_decide (0 ≤ offset) then be_bytes 1 offset else [])
  ++ (if bool_decide (q_last_node q ≠ p_node p) then be_bytes 2 (p_node p) else [])
  ++ (if bool_decide (q_last_timestamp q ≠ timestamp) then be_bytes 4 timestamp else [])
  ++ (if bool_decide (0x3ff < p_id p) then be_bytes 1 (p_id p / 2 ^ 10 * 4) else []).

(** What an identifier can carry. *)
Definition id_ok (p : param_t) (timestamp offset : Z) : Prop :=
  is_u16 (p_id p) ∧ is_u16 (p_node p) ∧ is_u32 timestamp ∧ -1 ≤ offset ≤ 255.

Section Ids.
Implicit Types (q : param_queue_t) (p : param_t) (r : mpack_reader_t).

Lemma be_bytes_1 v : 0 ≤ v < 256 → be_bytes 1 v = [v].
Proof. intros Hv. change (be_bytes 1 v) with [u8 (Z.shiftr v 0)]. rewrite Z.shiftr_0_r. by rewrite u8_id. Qed.

Lemma flag_range b : 0 ≤ flag b ≤ 1.
Proof. destruct b; simpl; lia. Qed.

Lemma id_header_range q p ts off : 0 ≤ id_header q p ts off < 65536.
Proof.
  unfold id_header. pose proof (flag_range (bool_decide (0 ≤ off))). pose proof (flag_range (bool_decide (q_last_node q ≠ p_node p))).
  pose proof (flag_range (bool_decide (q_last_timestamp q ≠ ts))). pose proof (flag_range (bool_decide (0x3ff < p_id p))).
  pose proof (Z.mod_pos_bound (p_id p) (2 ^ 10) ltac:(lia)). lia.
Qed.

(** The shifted and or-ed flags are their sum. *)
Lemma id_header_lor (a b c d : bool) x :
  u16 (Z.lor (Z.lor (Z.lor (Z.lor (Z.shiftl (flag a) 15) (Z.shiftl (flag b) 14)) (Z.shiftl (flag c) 13))
    (Z.shiftl (flag d) 12)) (Z.land x 0x3ff)) =
  flag a * 2 ^ 15 + flag b * 2 ^ 14 + flag c * 2 ^ 13 + flag d * 2 ^ 12 + x mod 2 ^ 10.
Proof.
  change 0x3ff with (2 ^ 10 - 1). rewrite land_mask, !shiftl_mul by lia.
  pose proof (flag_range a). pose proof (flag_range b). pose proof (flag_range c). pose proof (flag_range d).
  pose proof (Z.mod_pos_bound x (2 ^ 10) ltac:(lia)).
  rewrite (lor_add 15 (flag a * _)), (lor_add 14 _ (flag c * _)), (lor_add 13 _ (flag d * _)), (lor_add 12) by mlia.
  apply Z.mod_small. lia.
Qed.

Lemma bswap_range n z : 0 ≤ bswap n z < 256 ^ Z.of_nat n.
Proof. unfold bswap. rewrite <- (length_le_bytes n z) at 3. apply be_val_bound, le_bytes_ok. Qed.

Lemma ext_byte id : is_u16 id → u8 (Z.shiftr (Z.land id 0xfc00) 8) = id / 2 ^ 10 * 4.
Proof.
  intros Hid. change 0xfc00 with (2 ^ 16 - 2 ^ 10). rewrite land_prefix by (machine; lia).
  rewrite shiftr_div by lia. change (2 ^ 10) with 1024. change (2 ^ 8) with 256. mlia.
Qed.

Lemma emits_u16 v : 0 ≤ v < 65536 → emits (mpack_write_u16 v) (tag_bytes (mpack_type_uint v)).
Proof. intros Hv. rewrite write_u16_tag by done. apply emits_tag. simpl. lia. Qed.

Lemma serialize_id_emits q p ts off :
  q_version q ≠ 1 → id_ok p ts off →
  semits (param_serialize_id p ts off) (id_bytes q p ts off) q (after_id q p ts).
Proof.
  intros Hv (Hid & Hnode & Hts & Hoff).
  assert (semits (serialize_id_v2 p ts off) (id_bytes q p ts off) q (after_id q p ts)) as Hm.
  2:{ intros w Hw. unfold param_serialize_id. destruct (Hm w Hw) as (w' & Hr & Hrest). exists w'. split; [|done].
      st_red. cbn [se_q]. rewrite bool_decide_false by done. exact Hr. }
  assert (Hcont : ∀ q', semits (
    (let node := p_node p in
     let array_flag := bool_decide (0 ≤ off) in
     let node_flag := bool_decide (q_last_node q ≠ node) in
     let timestamp_flag := bool_decide (q_last_timestamp q ≠ ts) in
     let extendedid_flag := bool_decide (0x3ff < p_id p) in
     on_writer (mpack_write_u16 (bswap 2 (id_header q p ts off)));;
     when array_flag (on_writer (mpack_write_bytes [u8 off]));;
     when node_flag (on_queue (set_q_last_node (u16 node));; on_writer (mpack_write_bytes (be_bytes 2 node)));;
     when timestamp_flag (on_queue (set_q_last_timestamp ts);; on_writer (mpack_write_bytes (be_bytes 4 ts)));;
     when extendedid_flag (on_writer (mpack_write_bytes [u8 (Z.shiftr (Z.land (p_id p) 0xfc00) 8)]))))
    (id_bytes q p ts off) q q' → semits (serialize_id_v2 p ts off) (id_bytes q p ts off) q q').
  { intros q' Hc w Hw. destruct (Hc w Hw) as (w' & Hr & Hrest). exists w'. split; [|done].
    unfold serialize_id_v2, id_header in *. erewrite ST_bind_run; [|done]. cbn [se_q]. rewrite id_header_lor. exact Hr. }
  apply Hcont. clear Hcont. unfold id_bytes. cbv zeta.
  eapply semits_bind; [apply semits_writer, emits_u16; exact (bswap_range 2 _)|].
  eapply semits_bind; [apply (semits_when _ _ _ q q); case_bool_decide; try done; intros _|].
  { rewrite be_bytes_1 by lia. rewrite u8_id by (unfold is_u8; lia). apply semits_writer, emits_bytes. }
  eapply (semits_bind _ _ _ _ _ (set_q_last_node (p_node p) q)).
  { apply semits_when; case_bool_decide as Hn; try done; intros _.
    - rewrite u16_id by done. apply semits_queue, semits_writer, emits_bytes.
    - split; [done|]. assert (q_last_node q = p_node p) as <- by lia. by destruct q. }
  eapply (semits_bind _ _ _ _ _ (after_id q p ts)).
  { apply semits_when; case_bool_decide as Hn; try done; intros _.
    - apply semits_queue, semits_writer, emits_bytes.
    - split; [done|]. assert (q_last_timestamp q = ts) as <- by lia. by destruct q. }
  apply semits_when; case_bool_decide; try done; intros _. rewrite ext_byte by done.
  rewrite be_bytes_1 by mlia. apply semits_writer, emits_bytes.
Qed.
End Ids.

(** ** Reading the identifier back *)

Section ReadIds.
Implicit Types (q : param_queue_t) (p : param_t) (r : mpack_reader_t) (bs rest : list Z).

Lemma on_reader_run {A} (m : ST mpack_reader_t A) (a : A) r r' q :
  m r = Some (a, r') → on_reader m (mk_des r q) = Some (a, mk_des r' q).
Proof. intros Hm. unfold on_reader. simpl. by rewrite Hm. Qed.

Lemma read_be_run (n : nat) v rest r q :
  before (be_bytes n v ++ rest) r → 0 ≤ v < 256 ^ Z.of_nat n →
  read_be (Z.of_nat n) (mk_des r q) = Some (v, mk_des (behind n r) q).
Proof.
  intros Hb Hv. unfold read_be. pose proof (read_bytes_run _ _ _ Hb) as Hr. rewrite length_be_bytes in Hr.
  run (on_reader_run _ _ _ _ q Hr). rewrite be_val_be_bytes. by rewrite Z.mod_small by lia.
Qed.

(** A field that is there when its flag is set. *)
Lemma read_optional (b : bool) (n : nat) v d rest r q :
  before ((if b then be_bytes n v else []) ++ rest) r → (b = true → 0 ≤ v < 256 ^ Z.of_nat n) → (b = false → v = d) →
  (if b then read_be (Z.of_nat n) else mret d) (mk_des r q) =
  Some (v, mk_des (behind (if b then n else 0) r) q).
Proof.
  intros Hb Hv Hd. destruct b; [apply (read_be_run n v rest); auto|]. by rewrite (Hd eq_refl), behind_0.
Qed.

Lemma length_optional (b : bool) (n : nat) v : length (if b then be_bytes n v else []) = (if b then n else 0)%nat.
Proof. destruct b; [apply length_be_bytes|done]. Qed.

(** The bit of a flag in the header. *)
Lemma land_bit h k : 0 ≤ k → Z.land h (2 ^ k) = (h / 2 ^ k) mod 2 * 2 ^ k.
Proof.
  intros Hk. rewrite <- (Z.mul_1_l (2 ^ k)) at 1. rewrite <- shiftl_mul, <- shiftr_div by lia.
  apply Z.bits_inj'. intros i Hi. rewrite Z.land_spec. rewrite <- shiftl_mul by lia.
  destruct (decide (i < k)).
  - by rewrite !Z.shiftl_spec_low, andb_false_r by lia.
  - rewrite !Z.shiftl_spec by lia. change 2 with (2 ^ 1) at 1. rewrite <- (Z.land_ones _ 1) by lia.
    rewrite Z.land_spec, Z.shiftr_spec by lia. replace (i - k + k) with i by lia. by rewrite Z.ones_equiv.
Qed.

Lemma header_flags q p ts off :
  let h := id_header q p ts off in
  (Z.land h 0x8000 ≠ 0 ↔ 0 ≤ off) ∧ (Z.land h 0x4000 ≠ 0 ↔ q_last_node q ≠ p_node p) ∧
  (Z.land h 0x2000 ≠ 0 ↔ q_last_timestamp q ≠ ts) ∧ (Z.land h 0x1000 ≠ 0 ↔ 0x3ff < p_id p) ∧
  Z.land h 0x3ff = p_id p mod 2 ^ 10.
Proof.
  intros h. change 0x8000 with (2 ^ 15). change 0x4000 with (2 ^ 14). change 0x2000 with (2 ^ 13).
  change 0x1000 with (2 ^ 12). change (Z.land h 0x3ff) with (Z.land h (2 ^ 10 - 1)). rewrite !land_bit, land_mask by lia.
  pose proof (Z.mod_pos_bound (p_id p) (2 ^ 10) ltac:(lia)) as Hx. subst h. unfold id_header.
  set (x := p_id p mod 2 ^ 10) in *. clearbody x.
  change (2 ^ 15) with 32768. change (2 ^ 14) with 16384. change (2 ^ 13) with 8192. change (2 ^ 12) with 4096.
  change (2 ^ 10) with 1024 in *.
  destruct (bool_decide (0 ≤ off)) eqn:E1, (bool_decide (q_last_node q ≠ p_node p)) eqn:E2,
    (bool_decide (q_last_timestamp q ≠ ts)) eqn:E3, (bool_decide (1023 < p_id p)) eqn:E4;
    rewrite ?bool_decide_eq_true, ?bool_decide_eq_false in *; cbn [flag]; split_and!;
    try (split; intros; try done; mlia); mlia.
Qed.

Lemma ext_id id : is_u16 id → Z.lor (id mod 2 ^ 10) (Z.land (Z.shiftl (id / 2 ^ 10 * 4) 8) 0xFFFF) = id.
Proof.
  intros Hid. change 0xFFFF with (2 ^ 16 - 1). rewrite land_mask, shiftl_mul by lia.
  rewrite (Z.mod_small _ (2 ^ 16)) by mlia. rewrite Z.lor_comm, (lor_add 10) by mlia. mlia.
Qed.

Lemma small_id id : ¬ 0x3ff < id → is_u16 id → id mod 2 ^ 10 = id.
Proof. intros ? ?. apply Z.mod_small. mlia. Qed.

Lemma bool_decide_iff (P Q : Prop) `{!Decision P, !Decision Q} : (P ↔ Q) → bool_decide P = bool_decide Q.
Proof. intros HPQ. by apply bool_decide_ext. Qed.

(** The reader's queue [qr] knows what the writer's queue [q] lets the identifier leave out. *)
Definition in_step q qr p (ts : Z) : Prop :=
  q_version qr ≠ 1 ∧ (q_last_node q = p_node p → q_last_node qr = p_node p) ∧
  (q_last_timestamp q = ts → q_last_timestamp qr = ts).

Lemma deserialize_id_run q qr p ts off v rest r :
  in_step q qr p ts → id_ok p ts off → i_offset v = -1 → before (id_bytes q p ts off ++ rest) r →
  param_deserialize_id v (mk_des r qr) =
  Some (mk_vars (p_id p) (p_node p) ts off, mk_des (behind (length (id_bytes q p ts off)) r) (after_id qr p ts)).
Proof.
  intros (Hv & Hsn & Hst) (Hid & Hnode & Hts & Hoff) Hvo. unfold id_bytes. intros Hb.
  rewrite <- !app_assoc in Hb. unfold param_deserialize_id. run (eq_refl : get (mk_des r qr) = _). cbn [de_q].
  rewrite bool_decide_false by done. unfold deserialize_id_v2.
  set (h := id_header q p ts off) in *.
  assert (0 ≤ bswap 2 h < 65536) as Hbs by exact (bswap_range 2 h).
  run (on_reader_run _ _ _ _ qr (expect_uint_run 0 0xffff _ _ _ Hb ltac:(lia) ltac:(lia))).
  apply before_rest in Hb. set (r1 := behind _ r) in *.
  run (eq_refl : get (mk_des r1 qr) = _). cbn [de_r]. rewrite (reader_not_failed _ _ Hb).
  assert (bswap 2 (bswap 2 h) = h) as -> by (rewrite bswap_bswap; apply Z.mod_small, id_header_range).
  pose proof (header_flags q p ts off) as HF. cbv zeta in HF. fold h in HF. destruct HF as (F1 & F2 & F3 & F4 & ->).
  rewrite (bool_decide_iff _ _ F1), (bool_decide_iff _ _ F2), (bool_decide_iff _ _ F3), (bool_decide_iff _ _ F4).
  run (read_optional _ 1 off (i_offset v) _ _ qr Hb ltac:(intros ?%bool_decide_eq_true; simpl; lia)
    ltac:(intros ?%bool_decide_eq_false; lia)).
  apply before_rest in Hb. rewrite length_optional in Hb. set (r2 := behind _ r1) in *.
  assert (Hn : (if bool_decide (q_last_node q ≠ p_node p)
    then node ← read_be 2; on_dqueue (set_q_last_node node);; mret node else gets (λ s, q_last_node (de_q s)))
    (mk_des r2 qr) = Some (p_node p, mk_des (behind (if bool_decide (q_last_node q ≠ p_node p) then 2 else 0) r2)
      (set_q_last_node (p_node p) qr))).
  { case_bool_decide as Hc.
    - run (read_be_run 2 (p_node p) _ _ qr Hb Hnode). done.
    - rewrite <- (Hsn ltac:(lia)), behind_0. by destruct qr. }
  run Hn. clear Hn. apply before_rest in Hb. rewrite length_optional in Hb. set (r3 := behind _ r2) in *.
  set (q1 := set_q_last_node (p_node p) qr).
  assert (Ht : (if bool_decide (q_last_timestamp q ≠ ts)
    then t ← read_be 4; on_dqueue (set_q_last_timestamp t);; mret t else gets (λ s, q_last_timestamp (de_q s)))
    (mk_des r3 q1) = Some (ts, mk_des (behind (if bool_decide (q_last_timestamp q ≠ ts) then 4 else 0) r3) (after_id qr p ts))).
  { case_bool_decide as Hc.
    - run (read_be_run 4 ts _ _ q1 Hb Hts). done.
    - pose proof (Hst ltac:(lia)) as He. rewrite behind_0. subst q1. unfold after_id. st_red. cbn. by rewrite He, <- He; destruct qr. }
  run Ht. clear Ht. apply before_rest in Hb. rewrite length_optional in Hb. set (r4 := behind _ r3) in *.
  assert (Hi : (if bool_decide (0x3ff < p_id p)
    then ext ← read_be 1; mret (Z.lor (p_id p mod 2 ^ 10) (Z.land (Z.shiftl ext 8) 0xFFFF)) else mret (p_id p mod 2 ^ 10))
    (mk_des r4 (after_id qr p ts)) =
    Some (p_id p, mk_des (behind (if bool_decide (0x3ff < p_id p) then 1 else 0) r4) (after_id qr p ts))).
  { case_bool_decide as Hc.
    - run (read_be_run 1 (p_id p / 2 ^ 10 * 4) _ _ (after_id qr p ts) Hb ltac:(simpl; mlia)). by rewrite ext_id.
    - rewrite small_id by done. by rewrite behind_0. }
  run Hi. do 3 f_equal. subst r4 r3 r2 r1. rewrite !behind_behind, !length_app, !length_optional. by rewrite ?Nat.add_assoc.
Qed.
End ReadIds.
