(* ===== verification/ParamPush.v ===== *)
(** * Pushing parameters to another node

    Filling a queue with [param_queue_add] on one node and applying it with
    [param_queue_apply] on another transfers the values. *)

From S2P Require Import Prelude Mpack ParamState Param ParamList ParamSer ParamWire.

(** ** The bytes of a value *)

Definition native_tag (c : ctype) (v : Z) : mpack_tag_t :=
  match c with
  | c_uint8 | c_uint16 | c_uint32 | c_uint64 => mpack_type_uint v
  | c_int8 | c_int16 | c_int32 | c_int64 => mpack_type_int v
  | c_float => mpack_type_float v
  | c_double => mpack_type_double v
  end.

Definition elements (c : ctype) (vals : list Z) : list Z := vals ≫= (λ v, tag_bytes (native_tag c v)).

Definition value_bytes (c : ctype) (vals : list Z) : list Z :=
  (if bool_decide (1 < length vals)%nat then tag_bytes (mpack_type_array (Z.of_nat (length vals))) else [])
  ++ elements c vals.

Section Bytes.
Implicit Types (c : ctype) (w : mpack_writer_t) (r : mpack_reader_t).

Lemma ct_ok_range c v :
  ct_ok c v →
  match c with
  | c_uint8 => 0 ≤ v < 2 ^ 8 | c_uint16 => 0 ≤ v < 2 ^ 16 | c_uint32 | c_float => 0 ≤ v < 2 ^ 32
  | c_uint64 | c_double => 0 ≤ v < 2 ^ 64
  | c_int8 => - 2 ^ 7 ≤ v < 2 ^ 7 | c_int16 => - 2 ^ 15 ≤ v < 2 ^ 15
  | c_int32 => - 2 ^ 31 ≤ v < 2 ^ 31 | c_int64 => - 2 ^ 63 ≤ v < 2 ^ 63
  end.
Proof.
  unfold ct_ok. intros <-. destruct c; cbn [ct_value ct_size]; unfold swrap, wrap;
    try (apply Z.mod_pos_bound; lia);
    match goal with |- context [(?a mod ?n) mod _] => idtac | |- context [?x mod (2 ^ ?k)] =>
      pose proof (Z.mod_pos_bound x (2 ^ k) ltac:(lia)) end; lia.
Qed.

Lemma native_tag_ok c v : ct_ok c v → tag_ok (native_tag c v).
Proof. intros Hv%ct_ok_range. destruct c; cbn in *; lia. Qed.

Lemma write_native_tag c v : write_native c v = mpack_write_tag (native_tag c v).
Proof. by destruct c. Qed.

Lemma swrap_small k v : 1 ≤ k → - 2 ^ (k - 1) ≤ v < 2 ^ (k - 1) → swrap k v = v.
Proof.
  intros Hk Hv. unfold swrap, wrap.
  assert (2 ^ k = 2 * 2 ^ (k - 1)) as -> by (rewrite <- Z.pow_succ_r by lia; f_equal; lia).
  rewrite Z.mod_small by lia. lia.
Qed.

(** A value of the type is read back as it was written. *)
Lemma expect_native_tag c v rest r :
  ct_ok c v → before (tag_bytes (native_tag c v) ++ rest) r →
  expect_native c r = Some (v, behind (length (tag_bytes (native_tag c v))) r).
Proof.
  intros Hv%ct_ok_range Hb. destruct c; cbn [native_tag expect_native] in *;
    unfold mpack_expect_uint, mpack_expect_int, mpack_expect_u32, mpack_expect_i32.
  - run (expect_uint_run 0 0xffffffff v rest r Hb ltac:(lia) ltac:(lia)). by rewrite u8_id.
  - run (expect_uint_run 0 0xffffffff v rest r Hb ltac:(lia) ltac:(lia)). by rewrite u16_id.
  - run (expect_uint_run 0 0xffffffff v rest r Hb ltac:(lia) ltac:(lia)). by rewrite u32_id.
  - by apply (expect_u64_run v rest).
  - run (expect_int_run (-2147483648) 2147483647 v rest r Hb ltac:(lia) ltac:(lia) ltac:(lia)). by rewrite swrap_small by (simpl; lia).
  - run (expect_int_run (-2147483648) 2147483647 v rest r Hb ltac:(lia) ltac:(lia) ltac:(lia)). by rewrite swrap_small by (simpl; lia).
  - run (expect_int_run (-2147483648) 2147483647 v rest r Hb ltac:(lia) ltac:(lia) ltac:(lia)). by rewrite swrap_small by (simpl; lia).
  - by apply (expect_i64_run v rest).
  - by apply (expect_float_run v rest).
  - by apply (expect_double_run v rest).
Qed.

Lemma emits_fits m bs w :
  emits m bs → writer_ok w → w_error w = mpack_ok → fits bs w →
  ∃ w', m w = Some ((), w') ∧ wrote bs w w' ∧ writer_ok w'.
Proof.
  intros Hm Hw Ho Hf. destruct (Hm w Hw) as (w' & Hr & Hw' & _ & _ & Hk). exists w'. split; [done|].
  destruct (Hk Ho) as [[_ ?]|[? _]]; [done|tauto].
Qed.

Lemma wrote_nil w : writer_ok w → wrote [] w w.
Proof.
  intros (H1 & H2 & H3). split; [|split; [simpl; lia|done]]. apply mem_write_Some. simpl. split; [lia|]. split; [lia|].
  by rewrite Nat.add_0_r, take_drop.
Qed.

Lemma fits_l bs1 bs2 w : fits (bs1 ++ bs2) w → fits bs1 w.
Proof. unfold fits. rewrite length_app. lia. Qed.
End Bytes.

(** ** Adding to the queue *)

(** The parameter at [a] in [s], a number or an array of them, with its values. *)
Record source (s : pstate) (a : nat) (p : param_t) (c : ctype) (ts : Z) (vals : list Z) : Prop := {
  so_param : ps_params s !! a = Some p;
  so_type : native_type (p_type p) = Some c;
  so_timestamp : ps_timestamps s !! p_timestamp p = Some ts;
  so_count : Z.of_nat (length vals) = (if bool_decide (0 < p_array_size p) then p_array_size p else 1);
  so_id : id_ok p ts (-1);
  so_vals : Forall (ct_ok c) vals;
  so_get : ∀ k v, vals !! k = Some v → param_get_array c a (Z.of_nat k) s = Some (v, s);
}.

Section Adding.
Context `{ParamEnv}.
Implicit Types (s : pstate) (w : mpack_writer_t) (q : param_queue_t).

Lemma on_fst_writer m w w' q s :
  m w = Some ((), w') → on_fst (on_writer m) (mk_ser w q, s) = Some ((), (mk_ser w' q, s)).
Proof. intros Hm. unfold on_fst, on_writer. cbn. by rewrite Hm. Qed.

Lemma serialize_element_run s a p c i v w q :
  native_type (p_type p) = Some c → 0 ≤ i < 2 ^ 32 → param_get_array c a i s = Some (v, s) → ct_ok c v →
  writer_ok w → w_error w = mpack_ok → fits (tag_bytes (native_tag c v)) w →
  ∃ w', serialize_element a p i None (mk_ser w q, s) = Some ((), (mk_ser w' q, s)) ∧
    wrote (tag_bytes (native_tag c v)) w w' ∧ writer_ok w'.
Proof.
  intros Ht Hi Hg Hv Hw Ho Hf. unfold serialize_element. rewrite Ht.
  destruct (emits_fits _ _ _ (emits_tag _ (native_tag_ok c v Hv)) Hw Ho Hf) as (w' & Hr & Hwr & Hw').
  exists w'. split; [|done]. rewrite <- write_native_tag in Hr.
  assert (Hnv : native_value c a i None (mk_ser w q, s) = Some (v, (mk_ser w q, s))).
  { unfold native_value, on_snd. cbn [snd fst]. rewrite u32_id by (unfold is_u32; lia). by rewrite Hg. }
  destruct (p_type p); try done; run Hnv; by apply on_fst_writer.
Qed.

Lemma elements_cons c v vals : elements c (v :: vals) = tag_bytes (native_tag c v) ++ elements c vals.
Proof. done. Qed.

Lemma serialize_loop_run s a p c vals i w q init :
  native_type (p_type p) = Some c → Forall (ct_ok c) vals → 0 ≤ i → i + Z.of_nat (length vals) ≤ 2 ^ 32 →
  (∀ k v, vals !! k = Some v → param_get_array c a (i + Z.of_nat k) s = Some (v, s)) →
  writer_ok w → w_error w = mpack_ok → fits (elements c vals) w →
  ∃ w', serialize_loop (length vals) a p i None init (mk_ser w q, s) = Some (0, (mk_ser w' q, s)) ∧
    wrote (elements c vals) w w' ∧ writer_ok w'.
Proof.
  intros Ht Hv. revert i w. induction Hv as [|v vals Hv Hvs IH]; intros i w Hi Hlen Hg Hw Ho Hf.
  { exists w. split; [done|]. split; [by apply wrote_nil|done]. }
  cbn [length serialize_loop]. rewrite elements_cons in *. simpl length in Hlen.
  pose proof (Hg 0%nat v eq_refl) as Hg0. rewrite Z.add_0_r in Hg0.
  destruct (serialize_element_run s a p c i v w q Ht ltac:(lia) Hg0 Hv Hw Ho (fits_l _ _ _ Hf)) as (w1 & Hr1 & Hwr1 & Hw1).
  run Hr1. run (eq_refl : get (mk_ser w1 q, s) = _). cbn [fst se_w]. pose proof Hwr1 as (_ & _ & _ & Ho1).
  rewrite bool_decide_false by (rewrite Ho1, Ho; tauto).
  destruct (IH (i + 1) w1) as (w2 & Hr2 & Hwr2 & Hw2); [lia|lia| |done|congruence|by apply (fits_app _ _ _ _ Hwr1)|].
  { intros k x Hx. replace (i + 1 + Z.of_nat k) with (i + Z.of_nat (S k)) by lia. by apply Hg. }
  exists w2. split; [exact Hr2|]. split; [by eapply wrote_app|done].
Qed.

(** A whole parameter, without a value of its own. *)
Definition entry_bytes q (p : param_t) (ts : Z) (c : ctype) (vals : list Z) : list Z :=
  id_bytes q p ts (-1) ++ value_bytes c vals.

Lemma native_not_string p c : native_type (p_type p) = Some c →
  element_count p (-1) = (if bool_decide (0 < p_array_size p) then p_array_size p else 1).
Proof. unfold element_count. rewrite bool_decide_false by lia. by destruct (p_type p). Qed.

Lemma param_serialize_run s a p c ts vals w q :
  source s a p c ts vals → q_version q ≠ 1 → Z.of_nat (length vals) < 2 ^ 32 → writer_ok w → w_error w = mpack_ok →
  fits (entry_bytes q p ts c vals) w →
  ∃ w', param_serialize_to_mpack a (-1) None (mk_ser w q, s) = Some (0, (mk_ser w' (after_id q p ts), s)) ∧
    wrote (entry_bytes q p ts c vals) w w' ∧ writer_ok w'.
Proof.
  intros Hs Hv Hlen Hw Ho Hf. unfold param_serialize_to_mpack.
  run (eq_refl : get (mk_ser w q, s) = _). cbn [fst snd se_w].
  assert (Hgp : on_snd (get_param a) (mk_ser w q, s) = Some (p, (mk_ser w q, s))).
  { unfold on_snd. cbn [snd]. unfold get_param. st_red. by rewrite (so_param _ _ _ _ _ _ Hs). }
  run Hgp. run (lift_opt_run_gen _ _ (mk_ser w q, s) (so_timestamp _ _ _ _ _ _ Hs)).
  unfold entry_bytes, value_bytes in *.
  destruct (serialize_id_emits q p ts (-1) Hv (so_id _ _ _ _ _ _ Hs) w Hw) as (w1 & Hr1 & Hw1 & _ & _ & Hk).
  destruct (Hk Ho) as [[_ Hwr1]|[Hnf _]]; [|by apply fits_l in Hf]. clear Hk.
  apply (fits_app _ _ _ _ Hwr1) in Hf. pose proof Hwr1 as (_ & _ & _ & Ho1). rewrite Ho in Ho1.
  erewrite ST_bind_run; [|unfold on_fst; cbn [fst]; by rewrite Hr1]. cbv beta iota.
  run (eq_refl : get (mk_ser w1 (after_id q p ts), s) = _). cbn [fst se_w].
  rewrite bool_decide_false by (rewrite Ho1; tauto).
  rewrite (native_not_string p c) by apply (so_type _ _ _ _ _ _ Hs). rewrite <- (so_count _ _ _ _ _ _ Hs).
  rewrite Nat2Z.id. change (Z.max 0 (-1)) with 0.
  assert (Hloop : ∀ w2, wrote (if bool_decide (1 < length vals)%nat
      then tag_bytes (mpack_type_array (Z.of_nat (length vals))) else []) w1 w2 → writer_ok w2 →
    ∃ w', serialize_loop (length vals) a p 0 None (w_position w) (mk_ser w2 (after_id q p ts), s) =
      Some (0, (mk_ser w' (after_id q p ts), s)) ∧
      wrote (id_bytes q p ts (-1) ++ (if bool_decide (1 < length vals)%nat
      then tag_bytes (mpack_type_array (Z.of_nat (length vals))) else []) ++ elements c vals) w w' ∧ writer_ok w').
  { intros w2 Hwr2 Hw2. apply (fits_app _ _ _ _ Hwr2) in Hf. pose proof Hwr2 as (_ & _ & _ & Ho2).
    destruct (serialize_loop_run s a p c vals 0 w2 (after_id q p ts) (w_position w)) as (w3 & Hr3 & Hwr3 & Hw3);
      [apply Hs|apply Hs|done|lia| |done|congruence|done|].
    - intros k v Hk. rewrite Z.add_0_l. by apply (so_get _ _ _ _ _ _ Hs).
    - exists w3. split; [done|]. split; [|done]. eapply wrote_app; [done|]. by eapply wrote_app. }
  destruct (decide (1 < length vals)%nat) as [Hl|Hl].
  - rewrite bool_decide_true in Hf, Hloop by done. rewrite !bool_decide_true by lia. cbn [when].
    destruct (emits_fits _ _ _ (emits_tag (mpack_type_array (Z.of_nat (length vals))) ltac:(simpl; lia)) Hw1 Ho1
      (fits_l _ _ _ Hf)) as (w2 & Hr2 & Hwr2 & Hw2).
    run (on_fst_writer _ _ _ (after_id q p ts) s Hr2). by apply Hloop.
  - rewrite bool_decide_false in Hf, Hloop by done. rewrite !bool_decide_false by lia. cbn [when].
    erewrite ST_bind_run; [|done]. cbv beta iota. apply Hloop; [by apply wrote_nil|done].
Qed.

(** The used part of a queue's buffer. *)
Definition queue_ok q : Prop :=
  0 ≤ q_used q ≤ q_buffer_size q ∧ q_buffer_size q ≤ Z.of_nat (length (q_mem q)) ∧ q_buffer_size q < 2 ^ 16 ∧
  q_version q ≠ 1 ∧ q_type q = PARAM_QUEUE_TYPE_SET.

(** [last_node] at the start of an empty queue. *)
Definition fresh_node q : param_queue_t := if bool_decide (q_used q = 0) then set_q_last_node 0xffff q else q.

(** Adding a parameter for which there is room. *)
Lemma param_queue_add_run s a p c ts vals q :
  let bs := entry_bytes (fresh_node q) p ts c vals in
  source s a p c ts vals → queue_ok q → Z.of_nat (length vals) < 2 ^ 32 →
  q_used q + Z.of_nat (length bs) ≤ q_buffer_size q →
  ∃ m, mem_write (q_mem q) (q_used q) bs = Some m ∧
    param_queue_add q a (-1) None s =
    Some ((0, mk_queue m (q_buffer_size q) (q_used q + Z.of_nat (length bs)) (q_version q) (q_type q) (p_node p) ts), s).
Proof.
  intros bs Hs (H1 & H2 & H3 & Hv & Ht) Hlen Hroom. unfold param_queue_add.
  fold (fresh_node q). set (q1 := fresh_node q) in *.
  assert (q_mem q1 = q_mem q ∧ q_buffer_size q1 = q_buffer_size q ∧ q_used q1 = q_used q ∧ q_version q1 = q_version q ∧
    q_type q1 = q_type q ∧ q_last_timestamp q1 = q_last_timestamp q) as (Em & Eb & Eu & Ev & Et & El).
  { subst q1. unfold fresh_node. by case_bool_decide. }
  rewrite bool_decide_false by (intros [_ Hn]; by apply Hn). run (eq_refl : get s = Some (s, s)).
  rewrite Em, Eb, Eu, Et, Ht. rewrite bool_decide_true by done.
  set (w := set_w_position (q_used q) (mpack_writer_init (q_mem q) (q_buffer_size q))).
  destruct (param_serialize_run s a p c ts vals w q1 Hs) as (w' & Hr & (Hm & Hp & He & Ho) & Hw');
    [congruence|exact Hlen|unfold writer_ok, w; cbn [w_position w_end w_mem set_w_position mpack_writer_init]; lia|reflexivity
    |unfold fits, w; cbn [w_position w_end set_w_position mpack_writer_init]; exact Hroom|].
  assert (Hr' : (param_serialize_to_mpack a (-1) None;; mret ()) (mk_ser w q1, s) =
    Some ((), (mk_ser w' (after_id q1 p ts), s))) by (by run Hr).
  erewrite ST_bind_run; [|apply lift_opt_run_gen; exact Hr']. cbv beta iota.
  run (eq_refl : put s s = Some ((), s)). cbn [se_w se_q]. rewrite bool_decide_false by (rewrite Ho; tauto).
  exists (w_mem w'). split; [exact Hm|].
  assert (Hu : u16 (mpack_writer_buffer_used w') = q_used q + Z.of_nat (length bs)).
  { unfold mpack_writer_buffer_used. rewrite Hp. change (w_position w) with (q_used q). fold bs. unfold u64, wrap.
    rewrite Z.mod_small by lia. apply u16_id. unfold is_u16. lia. }
  rewrite Hu. unfold set_q_used, set_q_mem, after_id, set_q_last_timestamp, set_q_last_node.
  cbn [q_mem q_buffer_size q_used q_version q_type q_last_node q_last_timestamp]. by rewrite Eb, Ev, Et, Ht.
Qed.
End Adding.

(** ** Applying the queue *)

(** [t'] is [t] but for memory, files, time stamps and events. *)
Record applied (t t' : pstate) : Prop := {
  ap_vmem : ps_vmem t' = ps_vmem t;
  ap_params : ps_params t' = ps_params t;
  ap_static : ps_static t' = ps_static t;
  ap_head : ps_head t' = ps_head t;
  ap_room : ∀ blk off len, ram_room t blk off len → ram_room t' blk off len;
}.

(** The blocks in which numeric parameters are stored. *)
Definition value_block (t : pstate) (blk : nat) : Prop :=
  ∃ a p c i off, ps_params t !! a = Some p ∧ native_type (p_type p) = Some c ∧ cell t p i = Some (blk, off).

(** The callback of the parameter at [b], if it has one, returns whenever it is called and
    leaves the list of parameters and the memory of the numeric ones as they are; it may write
    files, run commands and print. *)
Definition calm `{ParamEnv} (t : pstate) (b : nat) (p : param_t) : Prop :=
  match p_callback p with
  | None => True
  | Some f => ∀ t1 i, applied t t1 → ∃ t2, run_callback f b i t1 = Some ((), t2) ∧ applied t1 t2 ∧
      ∀ blk off bs, value_block t blk → ram_at t1 blk off bs → ram_at t2 blk off bs
  end.

(** The parameter at [b] in [t] can take [n] values of the type: its callback is calm and its
    elements lie in memory, apart from each other. *)
Record dest `{ParamEnv} (t : pstate) (b : nat) (p : param_t) (c : ctype) (n : nat) : Prop := {
  de_param : ps_params t !! b = Some p;
  de_type : native_type (p_type p) = Some c;
  de_callback : calm t b p;
  de_room : ∀ i : nat, (i < n)%nat → has_room t p c (Z.of_nat i);
  de_apart : ∀ (i j : nat) ci cj, (i < j < n)%nat → cell t p (Z.of_nat i) = Some ci → cell t p (Z.of_nat j) = Some cj →
    disjoint_cells ci (ct_size c) cj (ct_size c);
}.

(** Element [k] of the parameter holds [vals !! k]. *)
Definition cells_hold (t : pstate) (p : param_t) (c : ctype) (from : nat) (vals : list Z) : Prop :=
  ∀ k v, vals !! k = Some v → ∃ blk off bs, cell t p (Z.of_nat (from + k)) = Some (blk, off) ∧
    ram_at t blk off bs ∧ length bs = ct_size c ∧ decode t p c bs = v.

(** What lies apart from the [n] elements from [from] on stays, in the memory of numeric
    parameters. *)
Definition keeps_apart (t t' : pstate) (p : param_t) (c : ctype) (from n : nat) : Prop :=
  ∀ blk off bs, value_block t blk → (∀ (k : nat) cl, (k < n)%nat → cell t p (Z.of_nat (from + k)) = Some cl →
      disjoint_cells (blk, off) (length bs) cl (ct_size c)) →
    ram_at t blk off bs → ram_at t' blk off bs.

Section Applying.
Context `{ParamEnv}.
Implicit Types (t : pstate) (r : mpack_reader_t) (q : param_queue_t) (p : param_t) (c : ctype).

Lemma applied_refl t : applied t t.
Proof. by split. Qed.

Lemma applied_trans t1 t2 t3 : applied t1 t2 → applied t2 t3 → applied t1 t3.
Proof. intros [] []. split; try congruence. eauto. Qed.

Lemma applied_cell t t' p i : applied t t' → cell t' p i = cell t p i.
Proof. intros Ha. unfold cell. by rewrite (ap_vmem _ _ Ha). Qed.

Lemma applied_decode t t' p c bs : applied t t' → decode t' p c bs = decode t p c bs.
Proof. intros Ha. unfold decode. by rewrite (ap_vmem _ _ Ha). Qed.

Lemma applied_value_block t t' blk : applied t t' → value_block t' blk ↔ value_block t blk.
Proof.
  intros Ha. unfold value_block. setoid_rewrite (ap_params _ _ Ha). setoid_rewrite (applied_cell _ _ _ _ Ha). done.
Qed.

Lemma applied_calm t t' b p : applied t t' → calm t b p → calm t' b p.
Proof.
  intros Ha. unfold calm. destruct (p_callback p) as [f|]; [|done]. intros Hc t1 i Ha1.
  destruct (Hc t1 i (applied_trans _ _ _ Ha Ha1)) as (t2 & Hr & Ha2 & Hk). exists t2. split; [done|]. split; [done|].
  intros blk off bs Hb. by apply Hk, (applied_value_block _ _ _ Ha).
Qed.

Lemma dest_block t b p c n (i : nat) blk off : dest t b p c n → cell t p (Z.of_nat i) = Some (blk, off) → value_block t blk.
Proof. intros Hd Hc. exists b, p, c, (Z.of_nat i), off. split; [apply Hd|]. split; [apply Hd|done]. Qed.

Lemma applied_dest t t' b p c n : applied t t' → dest t b p c n → dest t' b p c n.
Proof.
  intros Ha [H1 H2 H3 H4 H5]. split; [by rewrite (ap_params _ _ Ha)|done|by apply (applied_calm t)| |].
  - intros i Hi. destruct (H4 i Hi) as (Hr & blk & off & Hc & Hroom). split; [done|]. exists blk, off.
    rewrite (applied_cell _ _ _ _ Ha). split; [done|]. by apply (ap_room _ _ Ha).
  - intros i j ci cj Hij. rewrite !(applied_cell _ _ _ _ Ha). by apply H5.
Qed.

Lemma applied_vmems t t' : applied t t' → vmems_ok t → vmems_ok t'.
Proof. intros Ha Hv v vm. rewrite (ap_vmem _ _ Ha). intros Hl. by apply (ap_room _ _ Ha), (Hv v). Qed.

(** Setting runs the callback after the value is stored. *)
Lemma set_then_callback a v i t p c t1 :
  ps_params t !! a = Some p → 0 ≤ i ≤ u32 (p_array_size p) → PARAM_SET c a v false i t = Some ((), t1) →
  PARAM_SET c a v true i t = run_param_callback p a i t1.
Proof.
  intros Hp Hi. unfold PARAM_SET.
  rewrite !(ST_bind_run _ _ t p t (lift_opt_run_gen _ _ t Hp : get_param a t = Some (p, t))). cbv beta.
  rewrite bool_decide_false by lia. intros ([] & t2 & Hs & [= <-])%ST_bind_Some. by run Hs.
Qed.

(** Storing one element. *)
Lemma set_element t b p c n (i : nat) v :
  dest t b p c n → vmems_ok t → (i < n)%nat → ct_ok c v →
  ∃ t', param_set_array c b (Z.of_nat i) v t = Some ((), t') ∧ applied t t' ∧
    cells_hold t' p c i [v] ∧ keeps_apart t t' p c i 1.
Proof.
  intros Hd Hvm Hi Hv. destruct (de_room _ _ _ _ _ Hd i Hi) as (Hr & blk & off & Hc & Hroom).
  destruct (set_cell t b p c (Z.of_nat i) v blk off) as (t1 & bs & Hset & Hst & Hl & Hdec & Hat & Hfr & _ & Hrm);
    [apply Hd|done|done|done|done|done|].
  assert (Ha1 : applied t t1) by (split; [apply Hst..|exact Hrm]).
  assert (Hcb : ∃ t', run_param_callback p b (Z.of_nat i) t1 = Some ((), t') ∧ applied t1 t' ∧
    ∀ blk off bs, value_block t blk → ram_at t1 blk off bs → ram_at t' blk off bs).
  { pose proof (de_callback _ _ _ _ _ Hd) as Hcalm. unfold calm, run_param_callback in *.
    destruct (p_callback p) as [f|]; [by apply Hcalm|]. exists t1. split; [done|]. split; [apply applied_refl|done]. }
  destruct Hcb as (t' & Hcb & Ha2 & Hk). pose proof (applied_trans _ _ _ Ha1 Ha2) as Ha.
  exists t'. split; [unfold param_set_array; by rewrite (set_then_callback b v _ t p c t1 (de_param _ _ _ _ _ Hd) Hr Hset)|].
  split; [done|]. split.
  - intros [|k] x Hx; [|done]. injection Hx as <-. exists blk, off, bs. rewrite Nat.add_0_r, (applied_cell _ _ _ _ Ha).
    rewrite (applied_decode _ _ _ _ _ Ha). split; [done|]. split; [|done]. by apply Hk; [apply (dest_block _ _ _ _ _ i blk off Hd)|].
  - intros blk' off' bs' Hb' Hap Hat'. apply Hk; [done|]. apply Hfr; [|done]. apply (Hap 0%nat); [lia|]. by rewrite Nat.add_0_r.
Qed.

Lemma deserialize_element_run t b p c n (i : nat) v rest r q :
  dest t b p c n → vmems_ok t → (i < n)%nat → Z.of_nat n < 2 ^ 32 → ct_ok c v →
  before (tag_bytes (native_tag c v) ++ rest) r →
  ∃ t', deserialize_element b p (Z.of_nat i) (mk_des r q, t) =
      Some ((), (mk_des (behind (length (tag_bytes (native_tag c v))) r) q, t')) ∧
    applied t t' ∧ cells_hold t' p c i [v] ∧ keeps_apart t t' p c i 1.
Proof.
  intros Hd Hvm Hi Hn Hv Hb. destruct (set_element t b p c n i v Hd Hvm Hi Hv) as (t' & Hset & Hrest).
  exists t'. split; [|done]. unfold deserialize_element. rewrite (de_type _ _ _ _ _ Hd).
  pose proof (expect_native_tag c v rest r Hv Hb) as He.
  assert (Hex : on_fst (on_reader (expect_native c)) (mk_des r q, t) =
    Some (v, (mk_des (behind (length (tag_bytes (native_tag c v))) r) q, t))).
  { unfold on_fst, on_reader. cbn [fst de_r de_q snd]. by rewrite He. }
  assert (Hps : on_snd (param_set_array c b (u32 (Z.of_nat i)) v)
    (mk_des (behind (length (tag_bytes (native_tag c v))) r) q, t) =
    Some ((), (mk_des (behind (length (tag_bytes (native_tag c v))) r) q, t'))).
  { unfold on_snd. cbn [snd fst]. rewrite u32_id by (unfold is_u32; lia). by rewrite Hset. }
  pose proof (de_type _ _ _ _ _ Hd) as Ht. destruct (p_type p); try done; by run Hex.
Qed.

Lemma keeps_apart_trans t1 t2 t3 p c (i n : nat) :
  applied t1 t2 → keeps_apart t1 t2 p c i 1 → keeps_apart t2 t3 p c (S i) n → keeps_apart t1 t3 p c i (S n).
Proof.
  intros Ha K1 K2 blk off bs Hb Hap Hat. apply K2.
  - by apply (applied_value_block _ _ _ Ha).
  - intros k cl Hk Hcl. apply (Hap (S k)); [lia|]. rewrite (applied_cell _ _ _ _ Ha) in Hcl.
    by replace (i + S k)%nat with (S i + k)%nat by lia.
  - apply K1; [done| |done]. intros k cl Hk Hcl. apply (Hap k); [lia|done].
Qed.

Lemma deserialize_loop_run t b p c n (i : nat) vals rest r q fuel :
  dest t b p c n → vmems_ok t → (i + length vals ≤ n)%nat → Z.of_nat n < 2 ^ 32 → Forall (ct_ok c) vals →
  before (elements c vals ++ rest) r → (length vals < fuel)%nat →
  ∃ t', deserialize_loop fuel b p (Z.of_nat i) (Z.of_nat i + Z.of_nat (length vals)) (mk_des r q, t) =
      Some ((), (mk_des (behind (length (elements c vals)) r) q, t')) ∧
    applied t t' ∧ cells_hold t' p c i vals ∧ keeps_apart t t' p c i (length vals).
Proof.
  intros Hd Hvm Hi Hn Hvs. revert t i r fuel Hd Hvm Hi.
  induction Hvs as [|v vals Hv Hvs IH]; intros t i r fuel Hd Hvm Hi Hb Hf; (destruct fuel as [|fuel]; [simpl in Hf; lia|]).
  { exists t. cbn [deserialize_loop]. change (elements c []) with (@nil Z). rewrite (bool_decide_true (_ ≤ _)) by (cbn [length]; lia).
    cbn [length]. rewrite behind_0. split; [done|]. split; [apply applied_refl|]. split; [by intros ? ? ?|].
    intros ? ? ? _ _ Hat. exact Hat. }
  cbn [deserialize_loop]. cbn [length] in *. rewrite (bool_decide_false (_ ≤ Z.of_nat i)) by lia.
  rewrite elements_cons, <- app_assoc in *.
  destruct (deserialize_element_run t b p c n i v _ r q Hd Hvm ltac:(lia) Hn Hv Hb) as (t1 & Hr1 & Ha1 & Hc1 & Hk1).
  run Hr1. apply before_rest in Hb. run (eq_refl : get (mk_des (behind (length (tag_bytes (native_tag c v))) r) q, t1) = _).
  cbn [fst de_r]. rewrite (reader_not_failed _ _ Hb).
  destruct (IH t1 (S i) _ fuel (applied_dest _ _ _ _ _ _ Ha1 Hd) (applied_vmems _ _ Ha1 Hvm) ltac:(lia) Hb ltac:(lia))
    as (t2 & Hr2 & Ha2 & Hc2 & Hk2).
  exists t2. split.
  { rewrite length_app, <- behind_behind. rewrite <- Hr2. f_equal; lia. }
  assert (Ha : applied t t2) by (by eapply applied_trans). split; [done|]. split; [|exact (keeps_apart_trans _ _ _ _ _ _ _ Ha1 Hk1 Hk2)].
  intros [|k] x Hx.
  - injection Hx as <-. destruct (Hc1 0%nat v eq_refl) as (blk & off & bs & Hcell & Hat & Hl & Hdec).
    exists blk, off, bs. rewrite (applied_cell _ _ _ _ Ha2), (applied_decode _ _ _ _ _ Ha2). split; [done|].
    split; [|done]. apply Hk2; [by apply (dest_block _ _ _ _ _ (i + 0) blk off (applied_dest _ _ _ _ _ _ Ha1 Hd))| |done]. intros k cl Hk Hcl. rewrite Hl.
    apply (de_apart _ _ _ _ _ (applied_dest _ _ _ _ _ _ Ha1 Hd) i (S i + k)); [lia| |done].
    rewrite Nat.add_0_r in Hcell. done.
  - destruct (Hc2 k x Hx) as (blk & off & bs & Hcell & Hrest). exists blk, off, bs.
    by replace (i + S k)%nat with (S i + k)%nat by lia.
Qed.
End Applying.

Section ApplyQueue.
Context `{ParamEnv}.
Implicit Types (t : pstate) (r : mpack_reader_t) (q : param_queue_t) (p : param_t) (c : ctype).

Lemma length_elements c vals : (length vals ≤ length (elements c vals))%nat.
Proof.
  induction vals as [|v vals IH]; [done|]. rewrite elements_cons, length_app.
  pose proof (length_tag_bytes (native_tag c v)). simpl. lia.
Qed.

Lemma native_norm_not_array c v : ct_ok c v → match tag_norm (native_tag c v) with mpack_type_array _ => False | _ => True end.
Proof. destruct c; cbn; try done; intros _; by case_bool_decide. Qed.

Lemma before_fuel bs r q : before bs r → (length bs < reader_fuel (mk_des r q))%nat.
Proof.
  intros ((H1 & H2 & H3 & _)%mem_read_Some & _). unfold reader_fuel. cbn [de_r]. lia.
Qed.

(** A whole parameter. *)
Lemma deserialize_param_run t b p c vals rest r q :
  dest t b p c (length vals) → vmems_ok t → (0 < length vals)%nat → Z.of_nat (length vals) < 2 ^ 31 →
  Forall (ct_ok c) vals → before (value_bytes c vals ++ rest) r →
  ∃ t', param_deserialize_from_mpack_to_param b (-1) (mk_des r q, t) =
      Some ((), (mk_des (behind (length (value_bytes c vals)) r) q, t')) ∧
    applied t t' ∧ cells_hold t' p c 0 vals ∧ keeps_apart t t' p c 0 (length vals).
Proof.
  intros Hd Hvm Hpos Hlen Hvs Hb. unfold param_deserialize_from_mpack_to_param, value_bytes in *.
  assert (Hgp : on_snd (get_param b) (mk_des r q, t) = Some (p, (mk_des r q, t))).
  { unfold on_snd. cbn [snd fst]. unfold get_param. st_red. by rewrite (de_param _ _ _ _ _ Hd). }
  run Hgp. change (Z.max 0 (-1)) with 0.
  assert (Hloop : ∀ r1, before (elements c vals ++ rest) r1 → ∃ t',
    (s ← get; deserialize_loop (reader_fuel s.1) b p 0 (0 + Z.of_nat (length vals))) (mk_des r1 q, t) =
      Some ((), (mk_des (behind (length (elements c vals)) r1) q, t')) ∧
    applied t t' ∧ cells_hold t' p c 0 vals ∧ keeps_apart t t' p c 0 (length vals)).
  { intros r1 Hb1. pose proof (before_fuel _ r1 q Hb1) as Hf. rewrite length_app in Hf. pose proof (length_elements c vals).
    run (eq_refl : get (mk_des r1 q, t) = _).
    apply (deserialize_loop_run t b p c (length vals) 0 vals rest r1 q); try done; cbn [fst]; lia. }
  destruct (decide (1 < length vals)%nat) as [Hl|Hl].
  - rewrite bool_decide_true in Hb |- * by done. rewrite <- app_assoc in Hb.
    set (tag := mpack_type_array (Z.of_nat (length vals))) in *. assert (tag_ok tag) as Htag by (simpl; lia).
    erewrite ST_bind_run; [|unfold on_fst, on_reader; cbn [fst snd de_r de_q]; by rewrite (peek_tag_bytes tag _ r Htag Hb)].
    cbv beta iota. cbn [tag_norm tag].
    erewrite ST_bind_run.
    2:{ erewrite ST_bind_run; [|unfold on_fst, on_reader; cbn [fst snd de_r de_q]; by rewrite (expect_array_run _ _ r Hb ltac:(lia))].
        done. }
    cbv beta iota. unfold s32. rewrite swrap_small by (simpl; lia). apply before_rest in Hb.
    destruct (Hloop _ Hb) as (t' & Hr & Hrest). exists t'. split; [|done].
    rewrite length_app, <- behind_behind. exact Hr.
  - rewrite bool_decide_false in Hb |- * by done. cbn [app] in *.
    destruct vals as [|v [|v2 vals]]; [simpl in Hpos; lia| |simpl in Hl; lia].
    apply Forall_cons in Hvs as [Hv _]. rewrite elements_cons, <- app_assoc in Hb.
    erewrite ST_bind_run; [|unfold on_fst, on_reader; cbn [fst snd de_r de_q];
      by rewrite (peek_tag_bytes (native_tag c v) _ r (native_tag_ok c v Hv) Hb)].
    cbv beta iota. pose proof (native_norm_not_array c v Hv) as Hna.
    assert (Hc1 : (match tag_norm (native_tag c v) with
      | mpack_type_array _ => n ← on_fst (on_reader mpack_expect_array); mret (s32 n) | _ => mret 1 end)
      (mk_des r q, t) = Some (1, (mk_des r q, t))) by (by destruct (tag_norm (native_tag c v))).
    run Hc1. rewrite app_assoc, <- elements_cons in Hb. by apply Hloop.
Qed.

Lemma applied_plist t t' dyn : applied t t' → plist_ok t dyn → plist_ok t' dyn.
Proof.
  intros Ha [H1 H2 H3 H4]. split; rewrite ?(ap_static _ _ Ha), ?(ap_params _ _ Ha), ?(ap_head _ _ Ha); try done.
  eapply lseg_ext; [|done]. intros a _. unfold next_of. by rewrite (ap_params _ _ Ha).
Qed.

Lemma first_param_ext t t' test l : ps_params t' = ps_params t → first_param t' test l = first_param t test l.
Proof. intros Hp. induction l as [|a l IH]; [done|]. cbn [first_param]. by rewrite Hp, IH. Qed.

Lemma applied_find t t' dyn node id x :
  applied t t' → plist_ok t dyn → param_list_find_id node id t = Some (x, t) → param_list_find_id node id t' = Some (x, t').
Proof.
  intros Ha Hok Hf. pose proof (find_spec t dyn node (λ p, bool_decide (p_id p = id)) Hok) as H1.
  pose proof (find_spec t' dyn node (λ p, bool_decide (p_id p = id)) (applied_plist _ _ _ Ha Hok)) as H2.
  unfold param_list_find_id in *. rewrite H2. rewrite H1 in Hf. injection Hf as <-.
  rewrite (first_param_ext t t') by apply Ha. unfold all_params. by rewrite (ap_static _ _ Ha).
Qed.

Lemma applied_timestamp t p ts : applied t (with_timestamps (<[p_timestamp p := ts]> (ps_timestamps t)) t).
Proof. by split. Qed.
End ApplyQueue.

(** ** A sequence of parameters *)

(** One parameter to be transferred: where it is on both sides and its values. *)
Record entry := mk_entry {
  en_a : nat; en_p : param_t; en_c : ctype; en_ts : Z; en_vals : list Z; en_b : nat; en_q : param_t }.

(** [param_queue_apply] finds the parameter at [b]: as one of the node it is tagged with, or,
    with [apply_local], as one of its own. *)
Definition resolves (t : pstate) (local from : Z) (p : param_t) (b : nat) : Prop :=
  let node := if bool_decide (p_node p = 0) then from else p_node p in
  param_list_find_id node (p_id p) t = Some (Some b, t) ∨
  param_list_find_id node (p_id p) t = Some (None, t) ∧
  param_list_find_id (if bool_decide (local = 1) then 0 else node) (p_id p) t = Some (Some b, t).

Definition entry_ok `{ParamEnv} (s t : pstate) (local from : Z) (e : entry) : Prop :=
  source s (en_a e) (en_p e) (en_c e) (en_ts e) (en_vals e) ∧
  dest t (en_b e) (en_q e) (en_c e) (length (en_vals e)) ∧
  p_node (en_p e) ≠ 0xffff ∧ Z.of_nat (length (en_vals e)) < 2 ^ 31 ∧
  resolves t local from (en_p e) (en_b e).

(** The cells of two entries lie apart. *)
Definition entries_apart (t : pstate) (e e' : entry) : Prop :=
  ∀ (k k' : nat) cl cl', (k < length (en_vals e))%nat → (k' < length (en_vals e'))%nat →
    cell t (en_q e) (Z.of_nat k) = Some cl → cell t (en_q e') (Z.of_nat k') = Some cl' →
    disjoint_cells cl (ct_size (en_c e)) cl' (ct_size (en_c e')).

Fixpoint all_apart (t : pstate) (es : list entry) : Prop :=
  match es with
  | [] => True
  | e :: es' => (∀ e', e' ∈ es' → entries_apart t e e') ∧ all_apart t es'
  end.

(** The contents of the queue. *)
Fixpoint queue_bytes (q : param_queue_t) (es : list entry) : list Z :=
  match es with
  | [] => []
  | e :: es' => entry_bytes q (en_p e) (en_ts e) (en_c e) (en_vals e) ++ queue_bytes (after_id q (en_p e) (en_ts e)) es'
  end.

Fixpoint add_all `{ParamEnv} (q : param_queue_t) (l : list nat) : ST pstate (Z * param_queue_t) :=
  match l with
  | [] => mret (0, q)
  | a :: l' => '(code, q') ← param_queue_add q a (-1) None; if bool_decide (code = 0) then add_all q' l' else mret (code, q')
  end.

(** What lies apart from the cells of all entries stays. *)
Definition keeps_all (t t' : pstate) (es : list entry) : Prop :=
  ∀ blk off bs, value_block t blk → (∀ e (k : nat) cl, e ∈ es → (k < length (en_vals e))%nat → cell t (en_q e) (Z.of_nat k) = Some cl →
      disjoint_cells (blk, off) (length bs) cl (ct_size (en_c e))) →
    ram_at t blk off bs → ram_at t' blk off bs.

(** The reader's queue [qr] follows the writer's queue [q]. *)
Definition in_sync (q qr : param_queue_t) : Prop :=
  q_version qr ≠ 1 ∧ q_last_timestamp q = q_last_timestamp qr ∧
  (q_last_node q = 0xffff ∨ q_last_node q = q_last_node qr).

Section Sequence.
Context `{ParamEnv}.
Implicit Types (s t : pstate) (e : entry) (es : list entry) (r : mpack_reader_t) (q qr : param_queue_t).

Lemma in_sync_step q qr p ts : in_sync q qr → p_node p ≠ 0xffff → in_step q qr p ts.
Proof. intros (Hv & Ht & Hn) Hp. split; [done|]. split; intros He; [destruct Hn|]; congruence. Qed.

Lemma in_sync_after q qr p ts : in_sync q qr → in_sync (after_id q p ts) (after_id qr p ts).
Proof. intros (Hv & _). split; [done|]. split; [done|]. by right. Qed.

Lemma applied_entry s t t' local from dyn e : applied t t' → plist_ok t dyn → entry_ok s t local from e → entry_ok s t' local from e.
Proof.
  intros Ha Hok (H1 & H2 & H3 & H4 & H5). split; [done|]. split; [by eapply applied_dest|]. split; [done|]. split; [done|].
  destruct H5 as [H5|[H5 H6]]; [left; by eapply applied_find|right; split; by eapply applied_find].
Qed.

Lemma applied_apart t t' e e' : applied t t' → entries_apart t e e' → entries_apart t' e e'.
Proof. intros Ha Hx k k' cl cl'. rewrite !(applied_cell _ _ _ _ Ha). apply Hx. Qed.

Lemma applied_all_apart t t' es : applied t t' → all_apart t es → all_apart t' es.
Proof.
  intros Ha. induction es as [|e es IH]; [done|]. intros [H1 H2]. split; [|by apply IH].
  intros e' He'. eapply applied_apart; [done|]. by apply H1.
Qed.

Lemma applied_event t ev : applied t (with_event ev t).
Proof. by split. Qed.

Lemma source_nonempty s a p c ts vals : source s a p c ts vals → (0 < length vals)%nat.
Proof. intros Hs. pose proof (so_count _ _ _ _ _ _ Hs) as Hc. case_bool_decide; lia. Qed.

(** The cells of an entry survive the entries after it. *)
Lemma cells_hold_keep t t1 t' e es :
  dest t (en_b e) (en_q e) (en_c e) (length (en_vals e)) →
  applied t t1 → applied t1 t' → cells_hold t1 (en_q e) (en_c e) 0 (en_vals e) →
  (∀ e', e' ∈ es → entries_apart t e e') → keeps_all t1 t' es →
  cells_hold t' (en_q e) (en_c e) 0 (en_vals e).
Proof.
  intros Hd Ha1 Ha2 Hc Hap Hk k v Hv. destruct (Hc k v Hv) as (blk & off & bs & Hcell & Hat & Hl & Hdec).
  exists blk, off, bs. rewrite (applied_cell _ _ _ _ Ha2), (applied_decode _ _ _ _ _ Ha2). split; [done|]. split; [|done].
  apply Hk; [by apply (dest_block _ _ _ _ _ k blk off (applied_dest _ _ _ _ _ _ Ha1 Hd))| |done].
  intros e' k' cl He' Hk' Hcl. rewrite Hl. rewrite (applied_cell _ _ _ _ Ha1) in Hcell. rewrite (applied_cell _ _ _ _ Ha1) in Hcl.
  by apply (Hap e' He' k k'); [by eapply lookup_lt_Some|..].
Qed.

(** Entering the critical section and setting the time stamp leave memory alone. *)
Definition ram_same t t' : Prop := ∀ blk off bs, ram_at t blk off bs → ram_at t' blk off bs.

Lemma prepare_run {A} t (b : bool) qp ts (d : des) (k : ST (des * pstate) A) :
  ∃ t', (when b (on_snd (modify (with_event ev_enter_critical)));; on_snd (set_timestamp qp ts);; k) (d, t) = k (d, t') ∧
    applied t t' ∧ ram_same t t'.
Proof. destruct b; (eexists; split; [reflexivity|split; [by split|by intros ? ? ?]]). Qed.

Lemma lookup_run {A} t (local node id : Z) b (d : des) (k : nat → ST (des * pstate) A) k' :
  (param_list_find_id node id t = Some (Some b, t) ∨
   param_list_find_id node id t = Some (None, t) ∧
   param_list_find_id (if bool_decide (local = 1) then 0 else node) id t = Some (Some b, t)) →
  (found ← on_snd (param_list_find_id node id);
   found ← (match found with
            | Some a => mret (Some a)
            | None => on_snd (param_list_find_id (if bool_decide (local = 1) then 0 else node) id)
            end);
   match found with Some a => k a | None => k' end) (d, t) = k b (d, t).
Proof.
  intros [Hf|[Hn Hf]]; (erewrite ST_bind_run; [|unfold on_snd; cbn [fst snd]; by rewrite ?Hf, ?Hn]; cbv beta iota).
  - by erewrite ST_bind_run; [|reflexivity].
  - by erewrite ST_bind_run; [|unfold on_snd; cbn [fst snd]; by rewrite Hf].
Qed.

Lemma apply_loop_run s dyn local from es t q qr r fuel aw :
  Forall (entry_ok s t local from) es → all_apart t es → plist_ok t dyn → vmems_ok t → in_sync q qr →
  before (queue_bytes q es) r → r_end r = r_data r + Z.of_nat (length (queue_bytes q es)) →
  (length (queue_bytes q es) < fuel)%nat →
  ∃ t' d' aw', apply_loop fuel local from 0 aw (mk_des r qr, t) = Some ((0, aw'), (d', t')) ∧ applied t t' ∧
    keeps_all t t' es ∧ ∀ e, e ∈ es → cells_hold t' (en_q e) (en_c e) 0 (en_vals e).
Proof.
  revert t q qr r fuel aw. induction es as [|e es IH]; intros t q qr r fuel aw Hes Hap Hok Hvm Hsy Hb Hend Hf;
    (destruct fuel as [|fuel]; [lia|]); cbn [apply_loop]; run (eq_refl : get (mk_des r qr, t) = _); cbn [fst de_r].
  { cbn in Hend. rewrite bool_decide_true by lia. exists t, (mk_des r qr), aw. split; [done|]. split; [apply applied_refl|].
    split; [by intros ? ? ? _|]. by intros e ?%not_elem_of_nil. }
  apply Forall_cons in Hes as [He Hes]. destruct Hap as [Hap1 Hap]. cbn [queue_bytes] in *.
  set (p := en_p e) in *. set (ts := en_ts e) in *. set (q1 := after_id q p ts) in *.
  pose proof He as (Hsrc & Hd & Hnode & Hlen & Hfind). unfold resolves in Hfind. fold p in Hfind. unfold entry_bytes in *. rewrite <- !app_assoc in *.
  assert (0 < Z.of_nat (length (id_bytes q p ts (-1)))) as Hidl.
  { unfold id_bytes. rewrite length_app. pose proof (length_tag_bytes (mpack_type_uint (bswap 2 (id_header q p ts (-1))))). lia. }
  rewrite !length_app in Hend, Hf. rewrite bool_decide_false by lia.
  erewrite ST_bind_run.
  2:{ unfold on_fst. cbn [fst snd]. rewrite (deserialize_id_run q qr p ts (-1) (mk_vars indeterminate indeterminate 0 (-1)) _ r
        (in_sync_step _ _ _ _ Hsy Hnode) (so_id _ _ _ _ _ _ Hsrc) eq_refl Hb). reflexivity. }
  cbv beta iota. cbn [i_node i_id i_offset i_timestamp]. apply before_rest in Hb.
  set (d1 := mk_des _ _).
  rewrite (lookup_run t local _ _ (en_b e) d1 _ _ Hfind).
  erewrite ST_bind_run; [|unfold on_snd; cbn [fst snd]; unfold get_param; st_red; by rewrite (de_param _ _ _ _ _ Hd)].
  cbv beta iota.
  destruct (prepare_run t (bool_decide (Z.land (p_mask (en_q e)) PM_ATOMIC_WRITE ≠ 0) && negb aw && have_critical)
    (en_q e) ts d1 (param_deserialize_from_mpack_to_param (en_b e) (-1);;
    apply_loop fuel local from 0 (aw || bool_decide (Z.land (p_mask (en_q e)) PM_ATOMIC_WRITE ≠ 0)))) as (t1 & -> & Ha1 & Hr1).
  destruct (deserialize_param_run t1 (en_b e) (en_q e) (en_c e) (en_vals e) _ (de_r d1) (de_q d1)
    (applied_dest _ _ _ _ _ _ Ha1 Hd) (applied_vmems _ _ Ha1 Hvm) (source_nonempty _ _ _ _ _ _ Hsrc) Hlen
    (so_vals _ _ _ _ _ _ Hsrc) Hb) as (t2 & Hr2 & Ha2 & Hc2 & Hk2).
  run Hr2. apply before_rest in Hb. assert (Ha : applied t t2) by (by eapply applied_trans).
  edestruct (IH t2 q1 (de_q d1)) as (t3 & d3 & aw3 & Hr3 & Ha3 & Hk3 & Hc3);
    [by eapply Forall_impl; [exact Hes|intros; by eapply applied_entry]|by eapply applied_all_apart|by eapply applied_plist
    |by eapply applied_vmems|by apply in_sync_after|exact Hb| | |].
  { unfold behind, d1. cbn [r_end r_data set_r_data de_r]. lia. }
  { instantiate (1 := fuel). lia. }
  exists t3, d3, aw3. split; [exact Hr3|]. split; [by eapply applied_trans|]. split.
  - intros blk off bs Hb' Hdis Hat. apply Hk3.
    + by apply (applied_value_block _ _ _ Ha).
    + intros e' k cl He' Hk Hcl. apply (Hdis e' k); [by right|done|]. by rewrite (applied_cell _ _ _ _ Ha) in Hcl.
    + apply Hk2; [by apply (applied_value_block _ _ _ Ha1)| |by apply Hr1]. intros k cl Hk Hcl. apply (Hdis e k); [by left|done|].
      by rewrite (applied_cell _ _ _ _ Ha1) in Hcl.
  - intros e' [->|He']%elem_of_cons; [|by apply Hc3].
    by apply (cells_hold_keep t t2 t3 e es).
Qed.

(** The bytes depend only on the two fields an identifier is relative to. *)
Lemma queue_bytes_ext q q' es :
  q_last_node q = q_last_node q' → q_last_timestamp q = q_last_timestamp q' → queue_bytes q es = queue_bytes q' es.
Proof.
  revert q q'. induction es as [|e es IH]; intros q q' Hn Ht; [done|]. cbn [queue_bytes].
  unfold entry_bytes, id_bytes, id_header. rewrite Hn, Ht. by rewrite (IH _ (after_id q' (en_p e) (en_ts e))).
Qed.

Lemma entry_bytes_pos q p ts c vals : (0 < length (entry_bytes q p ts c vals))%nat.
Proof.
  unfold entry_bytes, id_bytes. rewrite !length_app.
  pose proof (length_tag_bytes (mpack_type_uint (bswap 2 (id_header q p ts (-1))))). lia.
Qed.

Definition is_source s e : Prop :=
  source s (en_a e) (en_p e) (en_c e) (en_ts e) (en_vals e) ∧ Z.of_nat (length (en_vals e)) < 2 ^ 31.

(** Filling the queue puts the bytes of the entries behind what it holds. *)
Lemma add_all_run s es q bs0 :
  Forall (is_source s) es → queue_ok q → mem_read (q_mem q) 0 (q_used q) = Some bs0 →
  q_used q + Z.of_nat (length (queue_bytes (fresh_node q) es)) ≤ q_buffer_size q →
  ∃ q', add_all q (en_a <$> es) s = Some ((0, q'), s) ∧
    q_used q' = q_used q + Z.of_nat (length (queue_bytes (fresh_node q) es)) ∧
    q_used q' ≤ q_buffer_size q ∧ q_version q' = q_version q ∧
    mem_read (q_mem q') 0 (q_used q') = Some (bs0 ++ queue_bytes (fresh_node q) es).
Proof.
  intros Hes. revert q bs0. induction Hes as [|e es [He Hl] Hes IH]; intros q bs0 Hq Hr Hroom; cbn [queue_bytes fmap list_fmap add_all].
  { exists q. cbn [length]. rewrite Z.add_0_r, app_nil_r. destruct Hq. by repeat split; try lia. }
  set (bs := entry_bytes (fresh_node q) (en_p e) (en_ts e) (en_c e) (en_vals e)) in *.
  pose proof Hq as (H1 & H2 & H3 & Hv & Ht). cbn [queue_bytes] in Hroom. fold bs in Hroom. rewrite length_app in Hroom.
  destruct (param_queue_add_run s (en_a e) (en_p e) (en_c e) (en_ts e) (en_vals e) q He Hq ltac:(lia) ltac:(fold bs; lia))
    as (m & Hm & Hadd). fold bs in Hm, Hadd. run Hadd. rewrite bool_decide_true by done.
  set (q1 := mk_queue _ _ _ _ _ _ _) in *. pose proof (mem_write_length _ _ _ _ Hm) as Hml.
  pose proof (entry_bytes_pos (fresh_node q) (en_p e) (en_ts e) (en_c e) (en_vals e)) as Hpos. fold bs in Hpos.
  assert (Hf : fresh_node q1 = q1) by (unfold fresh_node; rewrite bool_decide_false; [done|unfold q1; cbn [q_used]; lia]).
  assert (Eq : queue_bytes (after_id (fresh_node q) (en_p e) (en_ts e)) es = queue_bytes (fresh_node q1) es)
    by (rewrite Hf; by apply queue_bytes_ext). rewrite Eq in *.
  destruct (IH q1 (bs0 ++ bs)) as (q' & Hr' & Hu & Hle & Hv' & Hrd).
  - unfold queue_ok, q1. cbn [q_used q_buffer_size q_mem q_version q_type]. repeat split; try done; lia.
  - unfold q1. cbn [q_mem q_used]. apply mem_read_app.
    + rewrite (mem_read_write_ne _ _ _ _ _ _ Hm) by lia. done.
    + rewrite Z.add_0_l. by apply (mem_read_write_eq _ _ _ _ Hm).
  - unfold q1 at 1 3. cbn [q_used q_buffer_size]. lia.
  - exists q'. rewrite <- app_assoc in Hrd. rewrite length_app. change (q_used q1) with (q_used q + Z.of_nat (length bs)) in Hu.
    change (q_buffer_size q1) with (q_buffer_size q) in Hle.
    split; [done|]. split; [lia|]. split; [lia|]. split; [by rewrite Hv'|exact Hrd].
Qed.

(** Applying the bytes of the entries stores their values. *)
Lemma queue_apply_run s dyn local from es t q qr :
  Forall (entry_ok s t local from) es → all_apart t es → plist_ok t dyn → vmems_ok t → in_sync q qr →
  mem_read (q_mem qr) 0 (q_used qr) = Some (queue_bytes q es) → q_used qr < 2 ^ 16 →
  ∃ t', param_queue_apply qr local from t = Some (0, t') ∧ applied t t' ∧
    ∀ e k v, e ∈ es → en_vals e !! k = Some v → param_get_array (en_c e) (en_b e) (Z.of_nat k) t' = Some (v, t').
Proof.
  intros Hes Hap Hok Hvm Hsy Hrd Hu. pose proof (mem_read_length _ _ _ _ Hrd) as Hl.
  unfold param_queue_apply. run (eq_refl : get t = Some (t, t)).
  destruct (apply_loop_run s dyn local from es t q qr (mpack_reader_init_data (q_mem qr) 0 (q_used qr))
    (S (Z.to_nat (q_used qr))) false Hes Hap Hok Hvm Hsy) as (t1 & d1 & aw & Hr & Ha & _ & Hc).
  { unfold before, mpack_reader_init_data. cbn [r_mem r_data r_end r_error]. rewrite Hl. split; [done|]. split; [lia|].
    split; [lia|done]. }
  { unfold mpack_reader_init_data. cbn [r_data r_end]. lia. }
  { lia. }
  erewrite ST_bind_run; [|apply lift_opt_run_gen; exact Hr]. cbv beta iota.
  run (eq_refl : put t1 t = Some ((), t1)).
  set (t2 := if aw && have_critical then with_event ev_exit_critical t1 else t1).
  assert (Ht2 : applied t1 t2 ∧ ram_same t1 t2).
  { subst t2. destruct (aw && have_critical); (split; [by split|by intros ? ? ?]). }
  destruct Ht2 as [Ha2 Hs2]. pose proof (applied_trans _ _ _ Ha Ha2) as Ha3.
  exists t2. split; [subst t2; by destruct (aw && have_critical)|]. split; [done|].
  intros e k v He Hk. destruct (Hc e He k v Hk) as (blk & off & bs & Hcell & Hat & Hlen & <-).
  rewrite Forall_forall in Hes. destruct (Hes e He) as (_ & Hd & _). unfold param_get_array.
  rewrite <- (applied_decode _ _ _ _ _ Ha2).
  apply (get_cell t2 (en_b e) (en_q e) (en_c e) _ blk off); [by rewrite (ap_params _ _ Ha3), (de_param _ _ _ _ _ Hd)| | |by apply Hs2|done].
  - apply lookup_lt_Some in Hk. by destruct (de_room _ _ _ _ _ Hd k Hk).
  - by rewrite (applied_cell _ _ _ _ Ha2).
Qed.
End Sequence.

(** C8: A parameter queue carries values faithfully from one node to another.  Filling an
    empty queue with [param_queue_add] (version 2, whole numeric parameters, single ones or
    arrays, in any order) succeeds when their bytes fit its buffer; a receiver that has the
    queue's used bytes and applies them with [param_queue_apply], in whatever state its own
    queue's node field is, returns 0, and each parameter it looks up in its list then holds the
    sender's values, element by element, provided the targets are stored apart and their
    callbacks leave the memory of the numeric parameters alone. *)
Theorem param_push_roundtrip `{ParamEnv} (s t : pstate) (dyn : list nat) (from local node node' size : Z)
    (mem mem' : list Z) (es : list entry) :
  let q0 := param_queue_init mem size 0 PARAM_QUEUE_TYPE_SET 2 node in
  Forall (entry_ok s t local from) es → all_apart t es → plist_ok t dyn → vmems_ok t →
  0 ≤ size < 2 ^ 16 → size ≤ Z.of_nat (length mem) →
  Z.of_nat (length (queue_bytes (fresh_node q0) es)) ≤ size →
  ∃ q, add_all q0 (en_a <$> es) s = Some ((0, q), s) ∧
    ((∃ bs, mem_read (q_mem q) 0 (q_used q) = Some bs ∧ mem_read mem' 0 (q_used q) = Some bs) →
     ∃ t', param_queue_apply (param_queue_init mem' (q_used q) (q_used q) PARAM_QUEUE_TYPE_SET 2 node') local from t =
         Some (0, t') ∧
       ∀ e k v, e ∈ es → en_vals e !! k = Some v → param_get_array (en_c e) (en_b e) (Z.of_nat k) t' = Some (v, t')).
Proof.
  intros q0 Hes Hap Hok Hvm Hsize Hmem Hroom.
  assert (Hb : u16 size = size) by (apply u16_id; unfold is_u16; lia).
  destruct (add_all_run s es q0 []) as (q & Hadd & Hu & Hle & Hv & Hrd).
  { eapply Forall_impl; [exact Hes|]. intros e (H1 & _ & _ & H2 & _). by split. }
  { unfold queue_ok, q0, param_queue_init. cbn [q_used q_buffer_size q_mem q_version q_type]. rewrite Hb.
    change (u16 0) with 0. change (u8 2) with 2. split; [lia|]. split; [lia|]. split; [lia|done]. }
  { apply mem_read_Some. change (q_used q0) with 0. split; [lia|]. split; [lia|]. split; [lia|done]. }
  { unfold q0 at 1 3. unfold param_queue_init. cbn [q_used q_buffer_size]. rewrite Hb. exact Hroom. }
  exists q. split; [exact Hadd|]. intros (bs & Hbs & Hm'). rewrite Hbs in Hrd. injection Hrd as ->. cbn [app] in Hm'.
  change (q_used q0) with 0 in Hu. rewrite Z.add_0_l in Hu.
  change (q_buffer_size q0) with (u16 size) in Hle. rewrite Hb in Hle.
  assert (Huu : u16 (q_used q) = q_used q) by (apply u16_id; unfold is_u16; lia).
  set (qr := param_queue_init mem' (q_used q) (q_used q) PARAM_QUEUE_TYPE_SET 2 node').
  assert (Eu : q_used qr = q_used q) by (unfold qr, param_queue_init; cbn [q_used]; exact Huu).
  destruct (queue_apply_run s dyn local from es t (fresh_node q0) qr Hes Hap Hok Hvm) as (t' & Hr & _ & Hget).
  - split; [done|]. split; [unfold fresh_node; by case_bool_decide|]. left. reflexivity.
  - rewrite Eu. exact Hm'.
  - rewrite Eu. lia.
  - by exists t'.
Qed.

(** Two parameters of node 5, a number with a callback and an array of three, and the
    node's own copies. *)
Definition push_scalar (node : Z) : param_t :=
  mk_param 21 node PARAM_TYPE_UINT16 PM_CONF [] None None 0 0 None 1 2 (Some 3%nat) 0 None.
Definition push_array (node : Z) : param_t :=
  mk_param 1500 node PARAM_TYPE_INT8 PM_ATOMIC_WRITE [] None None 0 4 None 3 1 None 0 None.
Definition push_state (node : Z) (ram : list Z) : pstate :=
  mk_pstate {[ 0%nat := ram ]} [] {[ 0%nat := push_scalar node; 1%nat := push_array node ]} 2 None
    {[ 0%nat := 7 ]} ∅ [] (mk_app [] 0 0 0).
Definition push_sender : pstate := push_state 5 [0x34; 0x12; 0; 0; 1; 255; 3; 0].
Definition push_receiver : pstate := push_state 0 (replicate 8 0).
Definition push_entries : list entry :=
  [mk_entry 0 (push_scalar 5) c_uint16 7 [0x1234] 0 (push_scalar 0);
   mk_entry 1 (push_array 5) c_int8 7 [1; -1; 3] 1 (push_array 0)].

#[local] Instance push_env : ParamEnv := {|
  fopen_w_ok _ := true; run_callback _ _ _ := modify (with_event (ev_system [])); calloc_block _ := None; have_critical := true;
  indeterminate := 0; ptr_block _ := None |}.

Ltac compare_closed := vm_compute; repeat split; congruence.

Lemma push_scalar_cell : cell push_receiver (push_scalar 0) 0 = Some (0%nat, 0).
Proof. reflexivity. Qed.

Lemma push_array_cell (i : nat) : (i < 3)%nat → cell push_receiver (push_array 0) (Z.of_nat i) = Some (0%nat, 4 + Z.of_nat i).
Proof. intros Hi. do 3 (destruct i as [|i]; [reflexivity|]). lia. Qed.

Lemma push_room off n : 0 ≤ off → 0 ≤ n → off + n ≤ 8 → ram_room push_receiver 0 off n.
Proof. intros. exists (replicate 8 0). split; [reflexivity|]. simpl. lia. Qed.

Lemma push_scalar_entry :
  entry_ok push_sender push_receiver 1 9 (mk_entry 0 (push_scalar 5) c_uint16 7 [0x1234] 0 (push_scalar 0)).
Proof.
  split; [|split; [|split; [done|split; [simpl; lia|right; split; reflexivity]]]].
  - split; try done; [by apply Forall_singleton|]. intros [|k] v Hk; [by injection Hk as <-|done].
  - split; try done.
    + intros t1 i Ha. eexists. split; [reflexivity|]. split; [apply applied_event|done].
    + intros [|i] Hi; [|simpl in Hi; lia]. split; [compare_closed|]. exists 0%nat, 0. split; [done|]. by apply push_room.
    + simpl. lia.
Qed.

Lemma push_array_entry :
  entry_ok push_sender push_receiver 1 9 (mk_entry 1 (push_array 5) c_int8 7 [1; -1; 3] 1 (push_array 0)).
Proof.
  split; [|split; [|split; [done|split; [simpl; lia|right; split; reflexivity]]]].
  - split; try done; [by repeat constructor|].
    intros k v Hk. do 3 (destruct k as [|k]; [by injection Hk as <-|]). done.
  - split; try done.
    + intros i Hi. cbn [en_vals length] in Hi. split; [split; [lia|change (u32 _) with 3; lia]|].
      exists 0%nat, (4 + Z.of_nat i). split; [by apply push_array_cell|]. apply push_room; cbn; lia.
    + intros i j ci cj Hij. cbn [en_vals length en_q] in *. rewrite !push_array_cell by lia. intros [= <-] [= <-].
      unfold disjoint_cells. cbn. lia.
Qed.

Lemma push_entries_apart : all_apart push_receiver push_entries.
Proof.
  split; [|by repeat split; intros ? ?%not_elem_of_nil].
  intros e' ->%list_elem_of_singleton j j' cl cl' Hj Hj'. cbn [en_vals length en_q] in *.
  assert (j = 0%nat) as -> by lia. rewrite push_array_cell by done. change (Z.of_nat 0) with 0.
  rewrite push_scalar_cell. intros [= <-] [= <-]. unfold disjoint_cells. cbn. lia.
Qed.

Lemma push_receiver_ok : plist_ok push_receiver [].
Proof.
  split; [|done|apply NoDup_nil_2|by intros a ?%not_elem_of_nil].
  intros a Ha. simpl in Ha. destruct a as [|[|a]]; [eexists; reflexivity..|lia].
Qed.

Lemma param_push_roundtrip_witness :
  ∃ q t', add_all (param_queue_init (replicate 32 0) 32 0 PARAM_QUEUE_TYPE_SET 2 5) [0%nat; 1%nat] push_sender =
      Some ((0, q), push_sender) ∧
    param_queue_apply (param_queue_init (q_mem q) (q_used q) (q_used q) PARAM_QUEUE_TYPE_SET 2 0) 1 9 push_receiver =
      Some (0, t') ∧
    param_get_array c_uint16 0 0 t' = Some (0x1234, t') ∧ param_get_array c_int8 1 1 t' = Some (-1, t').
Proof.
  destruct (param_push_roundtrip push_sender push_receiver [] 9 1 5 0 32 (replicate 32 0)
    (q_mem (match add_all (param_queue_init (replicate 32 0) 32 0 PARAM_QUEUE_TYPE_SET 2 5) [0%nat; 1%nat] push_sender with
            | Some ((_, q), _) => q | None => param_queue_init [] 0 0 PARAM_QUEUE_TYPE_SET 2 0 end)) push_entries)
    as (q & Hadd & Happly).
  - repeat (apply Forall_cons; split); [apply push_scalar_entry|apply push_array_entry|apply Forall_nil_2].
  - apply push_entries_apart.
  - apply push_receiver_ok.
  - intros v vm Hv. done.
  - done.
  - done.
  - vm_compute. congruence.
  - cbn [push_entries fmap list_fmap en_a] in Hadd. rewrite Hadd in Happly. destruct Happly as (t' & Ht' & Hget).
    + vm_compute in Hadd. injection Hadd as <-. eexists. split; reflexivity.
    + exists q, t'. split; [exact Hadd|]. split; [exact Ht'|]. split.
      * by apply (Hget (mk_entry 0 (push_scalar 5) c_uint16 7 [0x1234] 0 (push_scalar 0)) 0%nat); [left|].
      * by apply (Hget (mk_entry 1 (push_array 5) c_int8 7 [1; -1; 3] 1 (push_array 0)) 1%nat); [right; left|].
Defined.
