(* ===== verification/ParamServer.v ===== *)
(** * The parameter server

    [param_server.c]: pulling and pushing parameters over CSP.  The handlers work on the
    network stack and on the parameters at once; a queue's buffer is the part of a packet's
    data behind its two header bytes. *)

From S2P Require Import Prelude Queue Types State Buffer Stack Net Rdp Conn Io Mpack ParamState Param ParamList ParamSer.

Definition PARAM_SERVER_MTU : Z := 200.
Definition PARAM_FLAG_END : Z := 128.

Definition PARAM_PULL_REQUEST : Z := 0.
Definition PARAM_PULL_RESPONSE : Z := 1.
Definition PARAM_PUSH_REQUEST : Z := 2.
Definition PARAM_PUSH_RESPONSE : Z := 3.
Definition PARAM_PULL_ALL_REQUEST : Z := 4.
Definition PARAM_PULL_REQUEST_V2 : Z := 5.
Definition PARAM_PULL_RESPONSE_V2 : Z := 6.
Definition PARAM_PUSH_REQUEST_V2 : Z := 7.
Definition PARAM_PULL_ALL_REQUEST_V2 : Z := 8.
Definition PARAM_PUSH_REQUEST_V2_HWID : Z := 33.

(** [struct param_serve_context]; [NULL] before the first response is allocated. *)
Record param_serve_context := mk_ctx {
  cx_request : nat; cx_response : option nat; cx_q_response : param_queue_t }.

Definition set_cx_q_response (q : param_queue_t) (c : param_serve_context) : param_serve_context :=
  mk_ctx (cx_request c) (cx_response c) q.

Section Server.
Context `{Env} `{ParamEnv}.

(** [serial_get] of the application. *)
Context (serial_get : Z).

(** [&packet->data[off]] to the end of the data. *)
Definition data_from (b : nat) (off : Z) : K (list Z) :=
  p ← kget_packet b; lift_opt (data_read p off (CSP_BUFFER_SIZE - off)).

Definition data_store (b : nat) (off : Z) (bs : list Z) : K () :=
  p ← kget_packet b; p' ← lift_opt (data_write p off bs); kput_packet b p'.

Definition data_byte (b : nat) (off : Z) : K Z :=
  p ← kget_packet b; bs ← lift_opt (data_read p off 1); mret (be_val bs).

(** [be32toh(packet->data32[i])] *)
Definition data_be32 (b : nat) (i : Z) : K Z :=
  p ← kget_packet b; bs ← lift_opt (data_read p (4 * i) 4); mret (be_val bs).

Definition __allocate (ctx : param_serve_context) : ST (stack * pstate) (Z * param_serve_context) :=
  r ← on_fst (liftC csp_buffer_get);
  match r with
  | None => mret (-1, mk_ctx (cx_request ctx) None (cx_q_response ctx))
  | Some b =>
      buffer ← on_fst (data_from b 2);
      mret (0, mk_ctx (cx_request ctx) (Some b)
        (param_queue_init buffer PARAM_SERVER_MTU 0 PARAM_QUEUE_TYPE_SET (q_version (cx_q_response ctx))
          (q_last_node (cx_q_response ctx))))
  end.

Definition __send (ctx : param_serve_context) (fin : bool) : ST (stack * pstate) () :=
  b ← lift_opt (cx_response ctx);
  let q := cx_q_response ctx in
  on_fst (data_store b 0 [if bool_decide (q_version q = 1) then PARAM_PULL_RESPONSE else PARAM_PULL_RESPONSE_V2]);;
  on_fst (data_store b 1 [if fin then PARAM_FLAG_END else 0]);;
  on_fst (kmod_packet b (set_pk_length (u16 (q_used q + 2))));;
  on_fst (csp_sendto_reply (Some (cx_request ctx)) b CSP_O_SAME).

(** [param_queue_add] on the response: the queue's memory is the packet's. *)
Definition response_add (ctx : param_serve_context) (a : nat) (offset : Z)
    : ST (stack * pstate) (Z * param_serve_context) :=
  '(rc, q) ← on_snd (param_queue_add (cx_q_response ctx) a offset None);
  b ← lift_opt (cx_response ctx);
  on_fst (data_store b 2 (q_mem q));;
  mret (rc, set_cx_q_response q ctx).

Definition __add (ctx : param_serve_context) (a : nat) (offset : Z) : ST (stack * pstate) (Z * param_serve_context) :=
  '(result, ctx) ← response_add ctx a offset;
  if bool_decide (result ≠ 0) then
    __send ctx false;;
    '(rc, ctx) ← __allocate ctx;
    if bool_decide (rc < 0) then mret (-1, ctx) else
    '(_, ctx) ← response_add ctx a offset;
    mret (0, ctx)
  else mret (0, ctx).

(** Whether the response already has parameter [a]; reading identifiers changes the
    response queue's state. *)
Fixpoint added_loop (fuel : nat) (server_addr : Z) (a : nat) (d : des) : ST pstate (bool * param_queue_t) :=
  match fuel with
  | O => ub
  | S fuel' =>
      if bool_decide (r_end (de_r d) ≤ r_data (de_r d)) then mret (false, de_q d) else
      '(v, d) ← lift_opt (param_deserialize_id (mk_vars indeterminate indeterminate 0 (-1)) d);
      let node := if bool_decide (server_addr = i_node v) then 0 else i_node v in
      found ← param_list_find_id node (i_id v);
      '(_, r) ← lift_opt (mpack_discard (de_r d));
      if bool_decide (found = Some a) then mret (true, de_q d)
      else added_loop fuel' server_addr a (mk_des r (de_q d))
  end.

Definition already_added (server_addr : Z) (a : nat) (q : param_queue_t) : ST pstate (bool * param_queue_t) :=
  added_loop (S (Z.to_nat (q_used q))) server_addr a (mk_des (mpack_reader_init_data (q_mem q) 0 (q_used q)) q).

(** [param->vmem && !param->vmem->ack_with_pull] *)
Definition no_ack_with_pull (a : nat) : ST pstate bool :=
  p ← get_param a;
  match p_vmem p with
  | None => mret false
  | Some n => v ← get_vmem n; mret (bool_decide (v_ack_with_pull v = 0))
  end.

(** The loop over the identifiers of a request; [None] when no buffer is left. *)
Fixpoint pull_loop (fuel : nat) (ack_with_pull : bool) (server_addr : Z) (d : des) (ctx : param_serve_context)
    : ST (stack * pstate) (option param_serve_context) :=
  match fuel with
  | O => ub
  | S fuel' =>
      if bool_decide (r_end (de_r d) ≤ r_data (de_r d)) then mret (Some ctx) else
      '(v, d) ← lift_opt (param_deserialize_id (mk_vars indeterminate indeterminate 0 (-1)) d);
      let node := if bool_decide (server_addr = i_node v) then 0 else i_node v in
      found ← on_snd (param_list_find_id node (i_id v));
      match found with
      | None => pull_loop fuel' ack_with_pull server_addr d ctx
      | Some a =>
          '(d, ctx, skip, offset) ←
            (if ack_with_pull then
               '(_, r) ← lift_opt (mpack_discard (de_r d));
               '(seen, q) ← on_snd (already_added server_addr a (cx_q_response ctx));
               no_ack ← (if seen : bool then mret false else on_snd (no_ack_with_pull a));
               mret (mk_des r (de_q d), set_cx_q_response q ctx, seen || no_ack, -1)
             else mret (d, ctx, false, i_offset v));
          if skip : bool then pull_loop fuel' ack_with_pull server_addr d ctx else
          '(rc, ctx) ← __add ctx a offset;
          if bool_decide (rc < 0) then mret None else pull_loop fuel' ack_with_pull server_addr d ctx
      end
  end.

(** The loop over the whole list. *)
Fixpoint pull_all_loop (fuel : nat) (version : Z) (it : param_list_iterator) (ctx : param_serve_context)
    : ST (stack * pstate) (option param_serve_context) :=
  match fuel with
  | O => ub
  | S fuel' =>
      '(r, it) ← on_snd (param_list_iterate it);
      match r with
      | None => mret (Some ctx)
      | Some a =>
          include_mask ← on_fst (data_be32 (cx_request ctx) 1);
          exclude_mask ← (if bool_decide (2 ≤ version) then on_fst (data_be32 (cx_request ctx) 2) else mret 0);
          p ← on_snd (get_param a);
          if bool_decide (Z.land (p_mask p) include_mask = 0) || bool_decide (Z.land (p_mask p) exclude_mask ≠ 0)
          then pull_all_loop fuel' version it ctx else
          '(rc, ctx) ← __add ctx a (-1);
          if bool_decide (rc < 0) then mret None else pull_all_loop fuel' version it ctx
      end
  end.

Definition param_serve_pull_request (request : nat) (all : bool) (version : Z) : ST (stack * pstate) () :=
  flag ← on_fst (data_byte request 1);
  let ack_with_pull := bool_decide (flag = 1) in
  '(rc, ctx) ← __allocate (mk_ctx request None (mk_queue [] 0 0 (u8 version) PARAM_QUEUE_TYPE_SET indeterminate 0));
  if bool_decide (rc < 0) then on_fst (kfree (Some request)) else
  req ← on_fst (kget_packet request);
  let server_addr := dst (pk_id req) in
  r ← (if all then
         s ← Prelude.get;
         pull_all_loop (list_fuel s.2) version iterator_init ctx
       else
         buffer ← on_fst (data_from request 2);
         let q := param_queue_init buffer (pk_length req - 2) (pk_length req - 2) PARAM_QUEUE_TYPE_SET version indeterminate in
         pull_loop (S (Z.to_nat (q_used q))) ack_with_pull server_addr
           (mk_des (mpack_reader_init_data (q_mem q) 0 (q_used q)) q) ctx);
  match r with
  | None => on_fst (kfree (Some request))
  | Some ctx => __send ctx true;; on_fst (kfree (Some request))
  end.

Definition param_serve_push (packet : nat) (send_ack : bool) (version : Z) (node_override : Z) : ST (stack * pstate) () :=
  p ← on_fst (kget_packet packet);
  buffer ← on_fst (data_from packet 2);
  let q := param_queue_init buffer (pk_length p - 2) (pk_length p - 2) PARAM_QUEUE_TYPE_SET version indeterminate in
  result ← on_snd (param_queue_apply q node_override (src (pk_id p)));
  if bool_decide (result ≠ 0) || negb send_ack then on_fst (kfree (Some packet)) else
  flag ← on_fst (data_byte packet 1);
  if bool_decide (flag = 1) then param_serve_pull_request packet false 2
  else
    on_fst (data_store packet 0 [PARAM_PUSH_RESPONSE]);;
    on_fst (data_store packet 1 [PARAM_FLAG_END]);;
    on_fst (kmod_packet packet (set_pk_length 2));;
    on_fst (csp_sendto_reply (Some packet) packet CSP_O_SAME).

Definition param_serve (packet : nat) : ST (stack * pstate) () :=
  type ← on_fst (data_byte packet 0);
  if bool_decide (type = PARAM_PULL_REQUEST) then param_serve_pull_request packet false 1
  else if bool_decide (type = PARAM_PULL_REQUEST_V2) then param_serve_pull_request packet false 2
  else if bool_decide (type = PARAM_PULL_ALL_REQUEST) then param_serve_pull_request packet true 1
  else if bool_decide (type = PARAM_PULL_ALL_REQUEST_V2) then param_serve_pull_request packet true 2
  else if bool_decide (type = PARAM_PULL_RESPONSE) then param_serve_push packet false 1 0
  else if bool_decide (type = PARAM_PULL_RESPONSE_V2) then param_serve_push packet false 2 0
  else if bool_decide (type = PARAM_PUSH_REQUEST) then param_serve_push packet true 1 1
  else if bool_decide (type = PARAM_PUSH_REQUEST_V2) then param_serve_push packet true 2 1
  else if bool_decide (type = PARAM_PUSH_REQUEST_V2_HWID) then
    p ← on_fst (kget_packet packet);
    bs ← lift_opt (data_read p (pk_length p - 4) 4);
    let hwid := le_val bs in
    on_fst (kput_packet packet (set_pk_length (u16 (pk_length p - 4)) p));;
    if bool_decide (hwid ≠ serial_get ∧ hwid ≠ 1234) then on_fst (kfree (Some packet))
    else param_serve_push packet true 2 1
  else on_fst (kfree (Some packet)).
End Server.
