(* ===== verification/ParamServed.v ===== *)
(** * What the parameter server does

    The packet of a push request goes through [param_serve]: the parameters are stored and
    the packet becomes the acknowledgement. *)

From S2P Require Import Prelude Queue Types Id State Buffer Iflist Rtable Hmac Stack Net Rdp Conn Io Mpack ParamState Param ParamList ParamSer ParamWire ParamPush ParamServer.

(** [s] with the packet of buffer [b] replaced. *)
Definition with_packet (s : stack) (b : nat) (k : csp_skbf_t) (p : csp_packet_t) : stack :=
  set_k_core (upd_pkt (k_core s) b k p) s.

Section Packets.
Context (s : stack) (b : nat) (k : csp_skbf_t).
Hypothesis Hk : c_pool (k_core s) !! b = Some k.
Implicit Types (p : csp_packet_t).

Lemma with_packet_lookup p : c_pool (k_core (with_packet s b k p)) !! b = Some (mk_skbf (refcount k) (skbf_addr k) p).
Proof. exact (upd_pkt_lookup _ _ _ _ Hk). Qed.

Lemma with_packet_same : with_packet s b k (skbf_data k) = s.
Proof.
  unfold with_packet, upd_pkt. replace (mk_skbf _ _ _) with k by (by destruct k).
  rewrite list_insert_id by done. destruct s as [core]. by destruct core.
Qed.

Lemma with_packet_get p : kget_packet b (with_packet s b k p) = Some (p, with_packet s b k p).
Proof. unfold kget_packet. by rewrite (liftC_run _ _ _ _ (get_packet_run _ b _ (with_packet_lookup p))), set_k_core_id. Qed.

Lemma with_packet_put p p' : kput_packet b p' (with_packet s b k p) = Some ((), with_packet s b k p').
Proof.
  unfold kput_packet. rewrite (liftC_run _ _ _ _ (put_packet_run _ b _ p' (with_packet_lookup p))).
  unfold with_packet, upd_pkt. cbn. by rewrite list_insert_insert_eq.
Qed.

Lemma with_packet_mod f p : kmod_packet b f (with_packet s b k p) = Some ((), with_packet s b k (f p)).
Proof. unfold kmod_packet. run (with_packet_get p). apply with_packet_put. Qed.

Lemma data_store_run off bs p p' :
  data_write p off bs = Some p' → data_store b off bs (with_packet s b k p) = Some ((), with_packet s b k p').
Proof. intros Hw. unfold data_store. run (with_packet_get p). run (lift_opt_run_gen _ _ (with_packet s b k p) Hw). apply with_packet_put. Qed.

Lemma data_byte_run off p v :
  data_read p off 1 = Some [v] → data_byte b off (with_packet s b k p) = Some (v, with_packet s b k p).
Proof. intros Hr. unfold data_byte. run (with_packet_get p). by run (lift_opt_run_gen _ _ (with_packet s b k p) Hr). Qed.

Lemma data_from_run off p :
  packet_ok p → 0 ≤ off ≤ CSP_BUFFER_SIZE →
  ∃ mem, data_from b off (with_packet s b k p) = Some (mem, with_packet s b k p) ∧
    data_read p off (CSP_BUFFER_SIZE - off) = Some mem.
Proof.
  intros Hp Ho. pose proof (po_mem _ Hp) as Hm. unfold data_from.
  destruct (mem_read_is_Some (pk_mem p) (DATA_OFF + off) (CSP_BUFFER_SIZE - off)) as [mem Hr]; [sizes; lia..|].
  exists mem. run (with_packet_get p). split; [|exact Hr].
  by apply (lift_opt_run_gen (data_read p off (CSP_BUFFER_SIZE - off))).
Qed.
End Packets.

(** ** Replies *)

(** The identifier of a reply: back to the sender, to the port it came from. *)
Definition reply_to (version : Z) (i : csp_id_t) : csp_id_t :=
  mk_id (pri i) (flags i) (if bool_decide (dst i ≠ csp_id_get_max_nodeid version) then dst i else 0)
    (src i) (sport i) (dport i).

Lemma sendto_reply_self `{Env} s b k p :
  c_pool (k_core s) !! b = Some k →
  csp_sendto_reply (Some b) b CSP_O_SAME (with_packet s b k p) =
  csp_send_direct (IdPacket b) (Some b) None
    (with_packet s b k (set_pk_id (reply_to (c_version (k_core s)) (pk_id p)) p)).
Proof.
  intros Hk. unfold csp_sendto_reply.
  run (eq_refl : conf_version (with_packet s b k p) = Some (c_version (k_core s), with_packet s b k p)).
  run (with_packet_get s b k Hk p). change (has_flag CSP_O_SAME CSP_O_SAME) with true. cbn [when].
  run (with_packet_mod s b k Hk (λ q, set_pk_id (set_flags (flags (pk_id p)) (pk_id q)) q) p).
  set (p1 := set_pk_id (set_flags (flags (pk_id p)) (pk_id p)) p).
  run (with_packet_get s b k Hk p1).
  run (with_packet_mod s b k Hk (λ q, set_pk_id (set_src
    (if bool_decide (dst (pk_id p1) ≠ csp_id_get_max_nodeid (c_version (k_core s))) then dst (pk_id p1) else 0) (pk_id q)) q) p1).
  set (p2 := set_pk_id (set_src _ (pk_id p1)) p1). run (with_packet_get s b k Hk p2).
  unfold csp_sendto. run (with_packet_get s b k Hk p2).
  change (has_flag CSP_O_SAME CSP_O_SAME) with true. change (has_flag CSP_O_SAME CSP_O_RDP) with false.
  change (has_flag CSP_O_SAME CSP_O_HMAC) with false. change (has_flag CSP_O_SAME CSP_O_CRC32) with false. cbv iota.
  run (with_packet_put s b k Hk p2 (set_pk_id (mk_id (pri (pk_id p2)) (flags (pk_id p2)) (src (pk_id p2))
    (src (pk_id p1)) (sport (pk_id p2)) (dport (pk_id p2))) p2)).
  reflexivity.
Qed.

Lemma reply_to_ok version i : Types.id_ok i → Types.id_ok (reply_to version i).
Proof.
  intros (H1 & H2 & H3 & H4 & H5 & H6). unfold reply_to, Types.id_ok. cbn [pri flags src dst sport dport].
  repeat (split; [done|]). split; [case_bool_decide; [done|unfold is_u16; lia]|]. done.
Qed.

Lemma with_packet_step s b k p :
  buf_inv (k_core s) → c_pool (k_core s) !! b = Some k → packet_ok p → net_step (Some b) [] s (with_packet s b k p).
Proof.
  intros Hi Hk Hp. destruct (kput_step s b k p Hi Hk Hp) as (s1 & Hput & Hst & _).
  unfold kput_packet in Hput. rewrite (liftC_run _ s () _ (put_packet_run (k_core s) b k p Hk)) in Hput.
  by injection Hput as <-.
Qed.

(** A request that becomes its own reply: the packet is handed to [csp_send_direct] with its
    addresses exchanged, and its buffer is released. *)
Lemma reply_self_run `{Env} l s b k p :
  net_env l s → c_pool (k_core s) !! b = Some k → refcount k = 1 → packet_ok p → pk_length p ≤ CSP_BUFFER_SIZE →
  ∃ s' new, csp_sendto_reply (Some b) b CSP_O_SAME (with_packet s b k p) = Some ((), s') ∧
    csp_send_direct (IdPacket b) (Some b) None
      (with_packet s b k (set_pk_id (reply_to (c_version (k_core s)) (pk_id p)) p)) = Some ((), s') ∧
    net_env l s' ∧ net_step (Some b) new s s' ∧ ¬ allocated (k_core s') b.
Proof.
  intros He Hk Hrc Hp Hlen. set (p' := set_pk_id (reply_to _ _) p).
  assert (Hp' : packet_ok p') by (apply set_pk_id_ok; [done|apply reply_to_ok, Hp]).
  pose proof (with_packet_step s b k p' (ne_inv _ _ He) Hk Hp') as Hst.
  destruct (csp_send_direct_step l (with_packet s b k p') (IdPacket b) (Some b) None) as (s' & new & Hsend & He' & _ & Hst2 & Hfree).
  { by eapply net_env_step. }
  { eexists. split; [exact (with_packet_lookup s b k Hk p')|]. split; [done|exact Hlen]. }
  { done. }
  { done. }
  exists s', new. split; [by rewrite (sendto_reply_self s b k _ Hk)|]. split; [done|]. split; [done|].
  split; [by apply (net_step_trans _ [] new s (with_packet s b k p') s'); [intros ? ?%not_elem_of_nil|..]|].
  by apply (Hfree b).
Qed.

(** ** Push requests *)

(** The acknowledgement a request turns into. *)
Record acknowledges (version : Z) (p p' : csp_packet_t) : Prop := {
  ak_length : pk_length p' = 2;
  ak_payload : payload p' = Some [PARAM_PUSH_RESPONSE; PARAM_FLAG_END];
  ak_id : pk_id p' = reply_to version (pk_id p);
  ak_ok : packet_ok p';
}.

Lemma mem_read_nested m off len mem o n :
  mem_read m off len = Some mem → 0 ≤ o → 0 ≤ n → o + n ≤ len → mem_read mem o n = mem_read m (off + o) n.
Proof.
  intros Hm Ho Hn Hon. pose proof Hm as (H1 & H2 & H3 & Hb)%mem_read_Some. pose proof (mem_read_length _ _ _ _ Hm) as Hl.
  unfold mem_read. rewrite !bool_decide_true by lia. f_equal. rewrite Hb, skipn_firstn_comm, drop_drop, take_take.
  f_equal; [lia|]. f_equal. lia.
Qed.

Section Push.
Context `{Env} `{ParamEnv}.

(** The bytes of a request behind its type. *)
Lemma request_parts p ty fl bs :
  packet_ok p → payload p = Some (ty :: fl :: bs) →
  pk_length p = 2 + Z.of_nat (List.length bs) ∧ pk_length p ≤ CSP_BUFFER_SIZE ∧
  data_read p 0 1 = Some [ty] ∧ data_read p 1 1 = Some [fl] ∧
  ∀ mem, data_read p 2 (CSP_BUFFER_SIZE - 2) = Some mem → mem_read mem 0 (Z.of_nat (List.length bs)) = Some bs.
Proof.
  intros Hp Hr. unfold payload, data_read in *. pose proof (mem_read_length _ _ _ _ Hr) as Hl. cbn [List.length] in Hl.
  pose proof Hr as (_ & _ & H3 & _)%mem_read_Some. pose proof (po_mem _ Hp) as Hm. rewrite Hm in H3.
  replace (pk_length p) with (1 + (1 + Z.of_nat (List.length bs))) in Hr by lia.
  destruct (mem_read_app_inv _ _ 1 (1 + Z.of_nat (List.length bs)) [ty] (fl :: bs) ltac:(lia) eq_refl Hr) as [Ht Hr1].
  destruct (mem_read_app_inv _ _ 1 (Z.of_nat (List.length bs)) [fl] bs ltac:(lia) eq_refl Hr1) as [Hf Hr2].
  split; [lia|]. split; [revert H3; sizes; lia|]. rewrite Z.add_0_r in *. split; [exact Ht|]. split; [exact Hf|].
  intros mem Hmem. rewrite (mem_read_nested _ _ _ _ _ _ Hmem) by (revert H3; sizes; lia). rewrite <- Hr2. by f_equal.
Qed.

(** Stripping the serial number. *)
Lemma hwid_parts p ty fl bs trailer :
  packet_ok p → payload p = Some (ty :: fl :: bs ++ trailer) → List.length trailer = 4%nat →
  data_read p (pk_length p - 4) 4 = Some trailer ∧ packet_ok (set_pk_length (u16 (pk_length p - 4)) p) ∧
  payload (set_pk_length (u16 (pk_length p - 4)) p) = Some (ty :: fl :: bs).
Proof.
  intros Hp Hpay Htl. destruct (request_parts p _ _ _ Hp Hpay) as (Hlen & Hmax & _). rewrite length_app, Htl in Hlen.
  assert (Hu : u16 (pk_length p - 4) = pk_length p - 4) by (apply u16_id; revert Hmax; sizes; unfold is_u16; lia).
  unfold payload, data_read in Hpay. replace (pk_length p) with (pk_length p - 4 + 4) in Hpay by lia.
  destruct (mem_read_app_inv _ _ (pk_length p - 4) 4 (ty :: fl :: bs) trailer ltac:(lia) ltac:(cbn [List.length]; lia) Hpay) as [H1 H2].
  split; [unfold data_read; rewrite <- H2; f_equal; lia|]. rewrite Hu. split; [|exact H1].
  destruct Hp. split; try done. cbn. revert Hmax. sizes. unfold is_u16. lia.
Qed.

(** Writing the acknowledgement. *)
Lemma ack_write p :
  packet_ok p →
  ∃ p1 p2, data_write p 0 [PARAM_PUSH_RESPONSE] = Some p1 ∧ data_write p1 1 [PARAM_FLAG_END] = Some p2 ∧ pk_id p2 = pk_id p ∧
    ∀ version, acknowledges version p (set_pk_id (reply_to version (pk_id p2)) (set_pk_length 2 p2)).
Proof.
  intros Hp. pose proof (po_mem _ Hp) as Hm.
  destruct (data_append p 0 [] [PARAM_PUSH_RESPONSE]) as (m1 & H1 & Hp1 & Hr1);
    [done|by apply mem_read_Some; revert Hm; sizes; intros; repeat split; lia|by repeat constructor|sizes; cbn; lia|].
  destruct (data_append _ 1 _ [PARAM_FLAG_END] Hp1 Hr1) as (m2 & H2 & Hp2 & Hr2); [by repeat constructor|sizes; cbn; lia|].
  eexists _, _. split; [exact H1|]. split; [exact H2|]. split; [done|]. intros version. split; [done|exact Hr2|done|].
  apply set_pk_id_ok; [|apply reply_to_ok, Hp]. destruct Hp2. by split.
Qed.

(** A queue as [param_queue_add] leaves a fresh one. *)
Definition fresh_queue (q : param_queue_t) : Prop := q_last_node q = 0xffff ∧ q_last_timestamp q = 0.

Lemma serve_push_run l s t dyn b k p ty fl q es sender :
  net_env l s → c_pool (k_core s) !! b = Some k → refcount k = 1 → packet_ok p →
  payload p = Some (ty :: fl :: queue_bytes q es) → fl ≠ 1 → fresh_queue q →
  Forall (entry_ok sender t 1 (src (pk_id p))) es → all_apart t es → plist_ok t dyn → vmems_ok t →
  ∃ s' t' p' new, param_serve_push b true 2 1 (with_packet s b k p, t) = Some ((), (s', t')) ∧
    csp_send_direct (IdPacket b) (Some b) None (with_packet s b k p') = Some ((), s') ∧
    acknowledges (c_version (k_core s)) p p' ∧ net_step (Some b) new s s' ∧ ¬ allocated (k_core s') b ∧ applied t t' ∧
    ∀ e i v, e ∈ es → en_vals e !! i = Some v → param_get_array (en_c e) (en_b e) (Z.of_nat i) t' = Some (v, t').
Proof.
  intros He Hk Hrc Hp Hpay Hfl [Hqn Hqt] Hes Hap Hok Hvm.
  destruct (request_parts p ty fl _ Hp Hpay) as (Hlen & Hmax & _ & Hfl1 & Hmem).
  unfold param_serve_push. run (on_fst_run _ _ _ _ t (with_packet_get s b k Hk p)).
  destruct (data_from_run s b k Hk 2 p Hp ltac:(sizes; lia)) as (mem & Hd & Hrd).
  run (on_fst_run _ _ _ _ t Hd).
  set (qr := param_queue_init mem _ _ _ _ _).
  assert (Hu : q_used qr = pk_length p - 2) by (apply u16_id; revert Hmax; sizes; unfold is_u16; lia).
  destruct (queue_apply_run sender dyn 1 (src (pk_id p)) es t q qr Hes Hap Hok Hvm) as (t' & Hr & Ha & Hget).
  { split; [done|]. split; [by rewrite Hqt|by left]. }
  { rewrite Hu. replace (pk_length p - 2) with (Z.of_nat (List.length (queue_bytes q es))) by lia. by apply Hmem. }
  { rewrite Hu. revert Hmax. sizes. lia. }
  run (on_snd_run _ _ _ _ (with_packet s b k p) Hr). cbn [negb orb].
  rewrite (bool_decide_false (0 ≠ 0)) by tauto. cbn [orb].
  run (on_fst_run _ _ _ _ t' (data_byte_run s b k Hk 1 p fl Hfl1)). rewrite bool_decide_false by done.
  destruct (ack_write p Hp) as (p1 & p2 & H1 & H2 & Hid & Hack).
  run (on_fst_run _ _ _ _ t' (data_store_run s b k Hk 0 _ p p1 H1)).
  run (on_fst_run _ _ _ _ t' (data_store_run s b k Hk 1 _ p1 p2 H2)).
  run (on_fst_run _ _ _ _ t' (with_packet_mod s b k Hk (set_pk_length 2) p2)).
  specialize (Hack (c_version (k_core s))). set (p' := set_pk_id _ _) in Hack.
  destruct (reply_self_run l s b k (set_pk_length 2 p2) He Hk Hrc) as (s' & new & Hrep & Hsend & _ & Hst & Hfree).
  { destruct (ak_ok _ _ _ Hack) as []. split; try done. cbn. rewrite Hid. apply Hp. }
  { sizes. cbn. lia. }
  exists s', t', p', new. split; [by apply on_fst_run|]. done.
Qed.
End Push.


(** ** A concrete push *)

#[local] Existing Instances env_example push_env.

Definition served_queue : param_queue_t := mk_queue [] 0 0 2 PARAM_QUEUE_TYPE_SET 0xffff 0.
Definition served_payload : list Z :=
  PARAM_PUSH_REQUEST_V2_HWID :: 0 :: queue_bytes served_queue push_entries ++ le_bytes 4 1234.
Definition served_packet : csp_packet_t :=
  set_pk_id (mk_id 2 0 9 300 10 20) (set_pk_length (Z.of_nat (List.length served_payload))
    (set_pk_mem (replicate 8 0 ++ served_payload ++ replicate (2048 - List.length served_payload) 0) empty_packet)).
Definition served_buffer : csp_skbf_t :=
  match c_pool (k_core net_example) !! 0%nat with Some k => k | None => mk_skbf 0 0 empty_packet end.
Definition served_stack : stack := with_packet net_example 0 served_buffer served_packet.

Lemma served_packet_ok : packet_ok served_packet.
Proof. split; try (vm_compute; intuition congruence); apply (bool_decide_unpack _); vm_compute; reflexivity. Qed.

Lemma served_buffer_at : c_pool (k_core net_example) !! 0%nat = Some served_buffer.
Proof. vm_compute. reflexivity. Qed.

Lemma served_stack_ok : net_env [0%nat; 1%nat] served_stack.
Proof.
  destruct net_example_ok as [He _].
  destruct (kput_step net_example 0 served_buffer served_packet (ne_inv _ _ He) served_buffer_at served_packet_ok)
    as (s1 & Hput & Hst & _).
  unfold kput_packet in Hput.
  rewrite (liftC_run _ net_example () _ (put_packet_run (k_core net_example) 0 served_buffer served_packet served_buffer_at)) in Hput.
  injection Hput as <-. by apply (net_env_step (Some 0%nat) [] _ net_example).
Qed.

