(* ===== verification/Main.v ===== *)
(** * The application

    [main.c]: the static parameters of the system manager, their callbacks, the circular
    buffer of its output and the steps of its start. *)

From Stdlib Require Import String.
From S2P Require Import Types State Stack Port Iflist Conn Route ParamState Param Text Prelude.
#[local] Open Scope Z_scope.

(** ** Text *)

(** [sprintf] into an array of [size] characters: the text and its terminator have to fit. *)
Definition sprintf (size : Z) (text : list Z) : option (list Z) :=
  if bool_decide (Z.of_nat (List.length text) + 1 ≤ size) then Some text else None.

(** ** Static parameters *)

Definition STDBUF_SIZE : Z := 110.
Definition CAN_ADDR_DEFAULT : Z := 21.
Definition CAN_NETMASK_DEFAULT : Z := 8.

(** The memory of the variables. *)
Definition blk_vmem_config_buf : nat := 0.
Definition blk_suspend_a53 : nat := 1.
Definition blk_vimba_install : nat := 2.
Definition blk_mng_camera_control : nat := 3.
Definition blk_mng_dipp : nat := 4.
Definition blk_switch_m7_bin : nat := 5.
Definition blk_stdbuf : nat := 6.

(** The callback functions. *)
Definition cb_can_addr : nat := 0.
Definition cb_can_netmask : nat := 1.
Definition cb_suspend_on_boot : nat := 2.
Definition cb_suspend_a53 : nat := 3.
Definition cb_vimba_install : nat := 4.
Definition cb_mng_camera_control : nat := 5.
Definition cb_mng_dipp : nat := 6.

(** [VMEM_DEFINE_FILE], [PARAM_DEFINE_STATIC_VMEM], [PARAM_DEFINE_STATIC_RAM] *)
Definition VMEM_DEFINE_FILE (blk : nat) (vaddr : Z) (strname filename : string) (size : Z) : vmem_t :=
  mk_vmem VMEM_TYPE_FILE (vmem_file_driver_t blk (c_string filename)) vaddr size (c_string strname) 0 1.

Definition PARAM_DEFINE_STATIC_VMEM (id : Z) (name : string) (type : param_type_e) (array_count array_step flags : Z)
    (callback : option nat) (unit : string) (vmem : nat) (vmem_addr : Z) (docstr : string) (timestamp : nat) : param_t :=
  mk_param id 0 type flags (c_string name) (Some (c_string unit)) (Some (c_string docstr)) 0 vmem_addr (Some vmem)
    (if bool_decide (array_count < 1) then 1 else array_count) array_step callback timestamp None.

Definition PARAM_DEFINE_STATIC_RAM (id : Z) (name : string) (type : param_type_e) (array_count array_step flags : Z)
    (callback : option nat) (unit : string) (physaddr : nat) (docstr : string) (timestamp : nat) : param_t :=
  mk_param id 0 type flags (c_string name) (Some (c_string unit)) (Some (c_string docstr)) physaddr 0 None
    (if bool_decide (array_count < 1) then 1 else array_count) array_step callback timestamp None.

Definition can_addr : nat := 0.
Definition can_netmask : nat := 1.
Definition suspend_on_boot : nat := 2.
Definition suspend_a53 : nat := 3.
Definition vimba_install : nat := 4.
Definition mng_camera_control : nat := 5.
Definition mng_dipp : nat := 6.
Definition switch_m7_bin : nat := 7.
Definition stdout_buf : nat := 8.

Definition static_params : list param_t := [
  PARAM_DEFINE_STATIC_VMEM 21 "can_addr" PARAM_TYPE_UINT16 (-1) 0 PM_SYSCONF (Some cb_can_addr) "" 0 0x10
    "CAN interface address" 0;
  PARAM_DEFINE_STATIC_VMEM 22 "can_netmask" PARAM_TYPE_UINT16 (-1) 0 PM_SYSCONF (Some cb_can_netmask) "" 0 0x12
    "CAN interface netmask" 1;
  PARAM_DEFINE_STATIC_VMEM 23 "suspend_on_boot" PARAM_TYPE_UINT8 (-1) 0 PM_SYSCONF (Some cb_suspend_on_boot) "" 0 0x100
    "Whether to suspend A53 cores on boot" 2;
  PARAM_DEFINE_STATIC_RAM 31 "suspend_a53" PARAM_TYPE_UINT8 (-1) 0 PM_CONF (Some cb_suspend_a53) "" blk_suspend_a53
    "STOP A53 cores (suspend linux)" 3;
  PARAM_DEFINE_STATIC_RAM 32 "vimba_install" PARAM_TYPE_UINT8 (-1) 0 PM_CONF (Some cb_vimba_install) "" blk_vimba_install
    "Install Vimba drivers" 4;
  PARAM_DEFINE_STATIC_RAM 33 "mng_camera_control" PARAM_TYPE_UINT8 (-1) 0 PM_CONF (Some cb_mng_camera_control) ""
    blk_mng_camera_control "Start camera control as this node number (0 kills it)" 5;
  PARAM_DEFINE_STATIC_RAM 34 "mng_dipp" PARAM_TYPE_UINT8 (-1) 0 PM_CONF (Some cb_mng_dipp) "" blk_mng_dipp
    "Start DIPP as this node number (0 kills it)" 6;
  PARAM_DEFINE_STATIC_RAM 35 "switch_m7_bin" PARAM_TYPE_UINT8 (-1) 0 PM_READONLY None "" blk_switch_m7_bin
    "Switch Cortex-M7 binaries" 7;
  PARAM_DEFINE_STATIC_RAM 41 "stdout_buf" PARAM_TYPE_STRING (STDBUF_SIZE + 1) 1 PM_READONLY None "" blk_stdbuf
    "Standard output buffer" 8].

(** The program's memory when it starts: all variables are zero. *)
Definition initial_ram : gmap nat (list Z) := list_to_map [
  (blk_vmem_config_buf, replicate (Z.to_nat 1000) 0); (blk_suspend_a53, [0]); (blk_vimba_install, [0]);
  (blk_mng_camera_control, [0]); (blk_mng_dipp, [0]); (blk_switch_m7_bin, [0]);
  (blk_stdbuf, replicate (Z.to_nat (STDBUF_SIZE + 1)) 0)].

Definition initial_state (vaddr : Z) (files : gmap (list Z) (list Z)) : pstate :=
  mk_pstate initial_ram [VMEM_DEFINE_FILE blk_vmem_config_buf vaddr "config" "sys-man-config.vmem" 1000]
    (list_to_map (zip (seq 0 9) static_params)) 9 None (list_to_map ((λ i, (i, 0)) <$> seq 0 9)) files []
    (mk_app (replicate (Z.to_nat STDBUF_SIZE) 0) 0 0 0).

(** ** The serial number *)

(** [date_time] is the text of [__DATE__ __TIME__]. *)
Definition serial_get (date_time : list Z) : Z := foldl (λ hash c, u32 (31 * hash + c)) 0 date_time.

(** ** Callbacks *)

Section Application.

(** The operating system: which files can be opened for writing, what a command prints
    ([None]: [popen] fails), what [calloc] returns, and the value of a variable that was not
    set. *)
Context (fopen_w : list Z → bool) (popen : list Z → option (list Z)) (calloc : pstate → option nat) (garbage : Z).

(** The one parameter set inside a callback, [stdout_buf], has no callback. *)
Definition print_env : ParamEnv := {|
  fopen_w_ok := fopen_w; run_callback _ _ _ := ub; calloc_block := calloc; have_critical := false;
  indeterminate := garbage; ptr_block _ := None |}.

(** One iteration of the first loop of [csp_print_func]: a character enters [tmpbuf]. *)
Definition tmpbuf_put (c : Z) (a : app_t) : app_t :=
  mk_app (<[Z.to_nat (a_stdbuf_pos a) := c]> (a_tmpbuf a)) ((a_stdbuf_pos a + 1) mod STDBUF_SIZE)
    (a_can_addr a) (a_can_netmask a).

(** The characters of [tmpbuf] from the oldest on. *)
Definition tmpbuf_view (a : app_t) : option (list Z) :=
  mapM (λ i, a_tmpbuf a !! Z.to_nat ((a_stdbuf_pos a + Z.of_nat i) mod STDBUF_SIZE)) (seq 0 (Z.to_nat STDBUF_SIZE)).

(** [text] is what the format and its arguments produce; [vsnprintf] cuts it to the array. *)
Definition csp_print_func (text : list Z) : ST pstate () :=
  let buf := take 255 (until_nul text) in
  modify (with_event (ev_print buf));;
  modify (λ s, with_app (foldl (λ a c, tmpbuf_put c a) (ps_app s) buf) s);;
  s ← get;
  view ← lift_opt (tmpbuf_view (ps_app s));
  ram_write blk_stdbuf 0 view;;
  ram_write blk_stdbuf STDBUF_SIZE [0];;
  inbuf ← ram_read blk_stdbuf 0 (STDBUF_SIZE + 1);
  param_set_string (H := print_env) stdout_buf inbuf.

Definition csp_print (text : string) : ST pstate () := csp_print_func (c_string text).

(** [while (fgets(buffer, sizeof(buffer)-1, fp) != NULL) csp_print("%s", buffer);] *)
Fixpoint print_lines (fuel : nat) (output : list Z) : ST pstate () :=
  match fuel with
  | O => ub
  | S fuel' =>
      match output with
      | [] => mret ()
      | _ => let '(line, rest) := fgets 127 output in csp_print_func line;; print_lines fuel' rest
      end
  end.

(** [popen] with its effect on the system. *)
Definition run_popen (command : list Z) : ST pstate (option (list Z)) :=
  modify (with_event (ev_popen command));; mret (popen command).

Definition system (command : string) : ST pstate () := modify (with_event (ev_system (c_string command))).

Definition can_addr_callback : ST pstate () :=
  v ← param_get_uint16 can_addr;
  modify (λ s, let a := ps_app s in with_app (mk_app (a_tmpbuf a) (a_stdbuf_pos a) v (a_can_netmask a)) s).

Definition can_netmask_callback : ST pstate () :=
  v ← param_get_uint16 can_netmask;
  modify (λ s, let a := ps_app s in with_app (mk_app (a_tmpbuf a) (a_stdbuf_pos a) (a_can_addr a) v) s).

Definition suspend_a53_callback : ST pstate () :=
  system "echo N > /sys/module/printk/parameters/console_suspend";;
  system "echo mem > /sys/power/state".

Definition vimba_install_callback : ST pstate () :=
  fp ← run_popen (c_string "/etc/lib/VimbaX_2023-4-ARM64/cti/VimbaUSBTL_Install.sh 2>&1");
  match fp with
  | None => csp_print_func (c_string "Failed to run command" ++ [10])
  | Some output => print_lines (S (List.length output)) output
  end.

(** The two callbacks that start and kill a process share their shape. *)
Definition manage_process (param : nat) (kill : string) (before after : string) : ST pstate () :=
  param_val ← param_get_uint8 param;
  if bool_decide (param_val = 0) then
    fp ← run_popen (c_string kill);
    match fp with
    | None => csp_print_func (c_string "Failed to run command" ++ [10])
    | Some output => print_lines (S (List.length output)) output
    end
  else
    cmdbuf ← lift_opt (sprintf 128 (c_string before ++ decimal param_val ++ c_string after));
    fp ← run_popen cmdbuf;
    match fp with
    | None => csp_print_func (c_string "Failed " ++ cmdbuf ++ [10])
    | Some _ => mret ()
    end.

Definition mng_camera_control_callback : ST pstate () :=
  manage_process mng_camera_control "pkill -f /usr/bin/Disco2CameraControl 2>&1"
    "/usr/bin/Disco2CameraControl -i can -d can0 -n " " 2>&1".

Definition mng_dipp_callback : ST pstate () :=
  manage_process mng_dipp "pkill -f /usr/bin/dipp 2>&1" "/usr/bin/dipp -i CAN -p can0 -a " " 2>&1".

Definition suspend_on_boot_file : list Z := c_string "/home/root/suspend_on_boot".

Definition suspend_on_boot_callback : ST pstate () :=
  param_val ← param_get_uint8 suspend_on_boot;
  if fopen_w suspend_on_boot_file then
    modify (λ s, with_files (<[suspend_on_boot_file := decimal param_val]> (ps_files s)) s)
  else mret ().

(** The program's callbacks. *)
Definition app_callback (cb : nat) : ST pstate () :=
  match cb with
  | 0%nat => can_addr_callback
  | 1%nat => can_netmask_callback
  | 2%nat => suspend_on_boot_callback
  | 3%nat => suspend_a53_callback
  | 4%nat => vimba_install_callback
  | 5%nat => mng_camera_control_callback
  | 6%nat => mng_dipp_callback
  | _ => ub
  end.

Definition app_env : ParamEnv := {|
  fopen_w_ok := fopen_w; run_callback cb _ _ := app_callback cb; calloc_block := calloc; have_critical := false;
  indeterminate := garbage; ptr_block _ := None |}.
#[local] Existing Instance app_env.

(** ** Start *)

(** [fscanf] of a number that does not fit an [int] is undefined. *)
Definition suspend_on_boot_read : ST pstate Z :=
  s ← get;
  match ps_files s !! suspend_on_boot_file with
  | None => mret (-1)
  | Some content =>
      param_val ← (match scan_int content with
                   | Some n => if bool_decide (-2 ^ 31 ≤ n < 2 ^ 31) then mret n else ub
                   | None => mret garbage
                   end);
      param_set_uint8 suspend_on_boot (u8 param_val);;
      mret param_val
  end.

(** The addresses of the CAN interface. *)
Definition read_addresses : ST pstate () :=
  addr ← param_get_uint16 can_addr;
  modify (λ s, let a := ps_app s in with_app (mk_app (a_tmpbuf a) (a_stdbuf_pos a) addr (a_can_netmask a)) s);;
  mask ← param_get_uint16 can_netmask;
  modify (λ s, let a := ps_app s in with_app (mk_app (a_tmpbuf a) (a_stdbuf_pos a) (a_can_addr a) mask) s);;
  s ← get;
  when (bool_decide (a_can_addr (ps_app s) = 0)) (
    modify (λ s, let a := ps_app s in with_app (mk_app (a_tmpbuf a) (a_stdbuf_pos a) CAN_ADDR_DEFAULT (a_can_netmask a)) s);;
    s ← get;
    param_set_uint16 can_addr (a_can_addr (ps_app s)));;
  s ← get;
  when (bool_decide (a_can_netmask (ps_app s) = 0)) (
    modify (λ s, let a := ps_app s in with_app (mk_app (a_tmpbuf a) (a_stdbuf_pos a) (a_can_addr a) CAN_NETMASK_DEFAULT) s);;
    s ← get;
    param_set_uint16 can_netmask (a_can_netmask (ps_app s))).

(** The text of [csp_conf.revision]; [malloc] may fail. *)
Definition revision (malloc_ok : bool) (serial : Z) : ST pstate (list Z) :=
  if malloc_ok then lift_opt (sprintf 19 (c_string "Rev1.10-" ++ decimal serial))
  else csp_print_func (c_string "Failed to allocate memory" ++ [10]);; mret (c_string "?").

(** [csp_bind_callback] gives the two services the numbers of their functions. *)
Definition cb_csp_service_handler : nat := 0.
Definition cb_param_serve : nat := 1.
Definition PARAM_PORT_SERVER : Z := 10.

(** [can_iface->is_default = true], [addr], [netmask], [name] *)
Definition setup_iface (addr netmask : Z) (f : csp_iface_t) : csp_iface_t :=
  mk_iface addr netmask "CAN" (if_nexthop f) 1 (if_tx f) (if_rx f) (if_tx_error f) (if_rx_error f) (if_drop f)
    (if_autherr f) (if_frame f) (if_txbytes f) (if_rxbytes f) (if_irq f) (if_next f).

(** [main] up to its endless loop ([None]) or its end with an error.  The two threads it
    starts run [csp_route_work] and the vmem server; [can_open] stands for the driver's
    [csp_can_socketcan_open_and_add_interface], given the address. *)
Definition main `{Env} (can_open : Z → K (Z * option nat)) (date_time : list Z) (malloc_ok : bool)
    : ST (stack * pstate) (option Z) :=
  on_fst (modify (λ s, set_k_conf_dedup CSP_DEDUP_OFF (set_k_core (set_c_version 2 (k_core s)) s)));;
  on_snd (revision malloc_ok (serial_get date_time));;
  on_fst csp_init;;
  on_fst (csp_bind_callback (Some cb_csp_service_handler) CSP_ANY);;
  on_fst (csp_bind_callback (Some cb_param_serve) PARAM_PORT_SERVER);;
  on_snd read_addresses;;
  s ← get;
  '(error, can_iface) ← on_fst (can_open (a_can_addr (ps_app s.2)));
  if bool_decide (error ≠ 0) then
    on_snd (csp_print_func (c_string "Failed to open CAN interface" ++ [10]));; mret (Some error)
  else
    i ← lift_opt can_iface;
    s ← get;
    f ← on_fst (liftC (get_iface i));
    on_fst (liftC (put_iface i (setup_iface (a_can_addr (ps_app s.2)) (a_can_netmask (ps_app s.2)) f)));;
    v ← on_snd suspend_on_boot_read;
    when (bool_decide (1 ≤ v)) (on_snd suspend_a53_callback);;
    mret None.
End Application.
