(* ===== verification/MainShown.v ===== *)
(** * Properties of the application

    The output buffer, the texts it formats, the setting that survives a restart and the
    ones that do not. *)

From S2P Require Import Types State Stack Port Iflist Conn Route ParamState Param ParamPush Text Main Prelude.
#[local] Open Scope Z_scope.

(** ** Numbers as text *)

Section Decimal.
Lemma serial_get_range date_time : 0 ≤ serial_get date_time < 2 ^ 32.
Proof.
  unfold serial_get. induction date_time as [|c l _] using rev_ind; [done|]. rewrite foldl_snoc. apply u32_range.
Qed.
End Decimal.

(** ** The output buffer *)

Definition last_chars (n : nat) (l : list Z) : list Z := drop (List.length l - n) l.

(** The array from index [n] round to it again. *)
Definition rotated (n : nat) (l : list Z) : list Z := drop n l ++ take n l.

(** [tmpbuf] holds the last characters of the output [h], after the zeros it starts with. *)
Definition shows (a : app_t) (h : list Z) : Prop :=
  List.length (a_tmpbuf a) = 110%nat ∧ 0 ≤ a_stdbuf_pos a < 110 ∧
  rotated (Z.to_nat (a_stdbuf_pos a)) (a_tmpbuf a) = last_chars 110 (replicate 110 0 ++ h).

Section Ring.
Implicit Types (a : app_t) (h : list Z).

Lemma last_chars_snoc n l c :
  (0 < n ≤ List.length l)%nat → last_chars n (l ++ [c]) = drop 1 (last_chars n l) ++ [c].
Proof.
  intros Hn. unfold last_chars. rewrite length_app. cbn [List.length].
  rewrite drop_app_le by lia. rewrite drop_drop. do 2 f_equal. lia.
Qed.

Lemma rotated_put (l : list Z) (n : nat) c :
  (n < List.length l)%nat →
  rotated (Z.to_nat ((Z.of_nat n + 1) mod Z.of_nat (List.length l))) (<[n := c]> l) = drop 1 (rotated n l) ++ [c].
Proof.
  intros Hn. rewrite <- (take_drop n l) at 2 3.
  assert (Hl : (List.length (take n l) = n)%nat) by (rewrite length_take; lia).
  destruct (drop n l) as [|x l2] eqn:Hd; [apply (f_equal List.length) in Hd; rewrite length_drop in Hd; cbn in Hd; lia|].
  assert (Hl2 : (List.length l = n + S (List.length l2))%nat).
  { apply (f_equal List.length) in Hd. rewrite length_drop in Hd. cbn in Hd. lia. }
  set (l1 := take n l) in *. clearbody l1. unfold rotated.
  rewrite insert_app_r_alt, Hl, Nat.sub_diag by lia. change (<[0%nat := c]> (x :: l2)) with (c :: l2).
  rewrite (drop_app_length' l1 (x :: l2) n), (take_app_length' l1 (x :: l2) n) by done. cbn [drop app].
  destruct (decide (l2 = [])) as [->|Hne].
  - replace ((Z.of_nat n + 1) mod Z.of_nat (List.length l)) with 0.
    + cbn. by rewrite app_nil_r.
    + rewrite Hl2. cbn [List.length]. replace (Z.of_nat n + 1) with (Z.of_nat (n + 1)) by lia. by rewrite Z_mod_same_full.
  - destruct l2 as [|y l2]; [done|]. rewrite Z.mod_small by (rewrite Hl2; cbn [List.length]; lia).
    replace (Z.to_nat (Z.of_nat n + 1)) with (List.length (l1 ++ [c])) by (rewrite length_app; cbn; lia).
    replace (l1 ++ c :: y :: l2) with ((l1 ++ [c]) ++ y :: l2) by (by rewrite <- app_assoc).
    rewrite drop_app_length, take_app_length. cbn. by rewrite app_assoc.
Qed.

Lemma shows_put a h c : shows a h → shows (tmpbuf_put c a) (h ++ [c]).
Proof.
  intros (Hl & Hp & Hv). unfold shows, tmpbuf_put. cbn [a_tmpbuf a_stdbuf_pos].
  split; [by rewrite length_insert|]. split; [apply Z.mod_pos_bound; done|].
  rewrite app_assoc, last_chars_snoc by (rewrite length_app, length_replicate; lia). rewrite <- Hv.
  rewrite <- rotated_put by lia. rewrite Hl, Z2Nat.id by lia. done.
Qed.

Lemma shows_puts a h buf : shows a h → shows (foldl (λ a c, tmpbuf_put c a) a buf) (h ++ buf).
Proof.
  revert a h. induction buf as [|c buf IH]; intros a h Ha; [by rewrite app_nil_r|].
  cbn [foldl]. replace (h ++ c :: buf) with ((h ++ [c]) ++ buf) by (by rewrite <- app_assoc). by apply IH, shows_put.
Qed.

Lemma rotated_lookup (l : list Z) (n i : nat) :
  (n < List.length l)%nat → (i < List.length l)%nat →
  rotated n l !! i = l !! Z.to_nat ((Z.of_nat n + Z.of_nat i) mod Z.of_nat (List.length l)).
Proof.
  intros Hn Hi. unfold rotated. destruct (decide (i < List.length l - n)%nat).
  - rewrite lookup_app_l by (rewrite length_drop; lia). rewrite lookup_drop, Z.mod_small by lia. f_equal. lia.
  - rewrite lookup_app_r by (rewrite length_drop; lia). rewrite length_drop, lookup_take, decide_True by lia. f_equal.
    rewrite <- (Z.mod_add _ (-1)) by lia. rewrite Z.mod_small by lia. lia.
Qed.

Lemma tmpbuf_view_shows a h : shows a h → tmpbuf_view a = Some (last_chars 110 (replicate 110 0 ++ h)).
Proof.
  intros (Hl & Hp & <-). unfold tmpbuf_view, STDBUF_SIZE. apply mapM_Some_2.
  apply Forall2_same_length_lookup. split.
  - unfold rotated. rewrite length_seq, length_app, length_drop, length_take. lia.
  - intros i j x Hj Hx. apply lookup_seq in Hj as [-> Hi]. cbn [Nat.add]. rewrite rotated_lookup in Hx by lia.
    rewrite <- Hx. rewrite Hl, Z2Nat.id by lia. done.
Qed.

Lemma length_last_chars h : List.length (last_chars 110 (replicate 110 0 ++ h)) = 110%nat.
Proof. unfold last_chars. rewrite length_drop, length_app, length_replicate. lia. Qed.
End Ring.

Section Application.
Context (fopen_w : list Z → bool) (popen : list Z → option (list Z)) (calloc : pstate → option nat) (garbage : Z).
Implicit Types (s t : pstate) (m : list Z).

(** The characters a call prints. *)
Definition printed (text : list Z) : list Z := take 255 (until_nul text).

(** The descriptor of [stdout_buf]. *)
Definition stdout_param : param_t :=
  PARAM_DEFINE_STATIC_RAM 41 "stdout_buf" PARAM_TYPE_STRING (STDBUF_SIZE + 1) 1 PM_READONLY None "" blk_stdbuf
    "Standard output buffer" 8.

Lemma ram_write_block s blk off bs m m' :
  ps_ram s !! blk = Some m → mem_write m off bs = Some m' →
  ram_write blk off bs s = Some ((), with_ram (<[blk := m']> (ps_ram s)) s).
Proof.
  intros Hm Hw. unfold ram_write. run (eq_refl : get s = Some (s, s)). run (lift_opt_run_gen _ _ s Hm).
  by run (lift_opt_run_gen _ _ s Hw).
Qed.

Lemma ram_write_oob s blk off bs m :
  ps_ram s !! blk = Some m → mem_write m off bs = None → ram_write blk off bs s = None.
Proof.
  intros Hm Hw. unfold ram_write. run (eq_refl : get s = Some (s, s)). run (lift_opt_run_gen _ _ s Hm).
  st_red. by rewrite Hw.
Qed.

Lemma ram_read_block s blk off len m bs :
  ps_ram s !! blk = Some m → mem_read m off len = Some bs → ram_read blk off len s = Some (bs, s).
Proof.
  intros Hm Hw. unfold ram_read. run (eq_refl : get s = Some (s, s)). run (lift_opt_run_gen _ _ s Hm).
  by apply lift_opt_run_gen.
Qed.

(** The part of [csp_print_func] before [param_set_string], for any memory [rest] behind
    the array's 111 bytes. *)
Definition filled (h : list Z) : list Z := last_chars 110 (replicate 110 0 ++ h) ++ [0].

Lemma fill_writes m h :
  (111 ≤ List.length m)%nat →
  ∃ m1, mem_write m 0 (last_chars 110 (replicate 110 0 ++ h)) = Some m1 ∧
    mem_write m1 STDBUF_SIZE [0] = Some (filled h ++ drop 111 m) ∧
    mem_read (filled h ++ drop 111 m) 0 (STDBUF_SIZE + 1) = Some (filled h) ∧
    mem_write (filled h ++ drop 111 m) 0 (filled h) = Some (filled h ++ drop 111 m) ∧
    mem_write (filled h ++ drop 111 m) 111 [0] =
      (if bool_decide (List.length m = 111%nat) then None else Some (filled h ++ 0 :: drop 112 m)).
Proof.
  intros Hm. unfold filled. set (v := last_chars 110 (replicate 110 0 ++ h)).
  assert (Hv : List.length v = 110%nat) by apply length_last_chars. clearbody v.
  assert (Hd : List.length (drop 111 m) = (List.length m - 111)%nat) by apply length_drop.
  exists (v ++ drop 110 m). unfold STDBUF_SIZE. split; [|split; [|split; [|split]]].
  - apply mem_write_Some. rewrite Hv. split; [lia|]. split; [lia|]. done.
  - apply mem_write_Some. rewrite length_app, length_drop, Hv. cbn [List.length]. split; [lia|]. split; [lia|].
    rewrite take_app_length' by (rewrite Hv; done). rewrite drop_app_ge by lia. rewrite drop_drop, Hv. rewrite <- app_assoc. done.
  - apply mem_read_Some. rewrite !length_app, Hd, Hv. cbn [List.length]. split; [lia|]. split; [lia|]. split; [lia|].
    rewrite drop_0, take_app_length'; [done|]. rewrite length_app, Hv. done.
  - apply mem_write_Some. rewrite !length_app, Hd, Hv. cbn [List.length]. split; [lia|]. split; [lia|].
    cbn [Z.to_nat take app Nat.add]. rewrite take_0. cbn [app]. f_equal.
    rewrite drop_app_length'; [done|]. rewrite length_app, Hv. done.
  - case_bool_decide as Hc.
    + unfold mem_write. rewrite bool_decide_false; [done|]. rewrite !length_app, Hd, Hv. cbn [List.length]. lia.
    + apply mem_write_Some. rewrite !length_app, Hd, Hv. cbn [List.length]. split; [lia|]. split; [lia|].
      rewrite take_app_length' by (rewrite length_app, Hv; done). rewrite drop_app_ge by (rewrite length_app, Hv; cbn; lia).
      rewrite drop_drop, length_app, Hv. cbn. done.
Qed.

(** [csp_print_func] up to the terminator that [param_set_string] writes. *)
Lemma print_func_writes s h text m :
  shows (ps_app s) h → ps_params s !! stdout_buf = Some stdout_param → ps_ram s !! blk_stdbuf = Some m →
  (111 ≤ List.length m)%nat →
  ∃ s1, ps_ram s1 = <[blk_stdbuf := filled (h ++ printed text) ++ drop 111 m]> (ps_ram s) ∧
    shows (ps_app s1) (h ++ printed text) ∧ ps_params s1 = ps_params s ∧
    ps_events s1 = ev_print (printed text) :: ps_events s ∧
    csp_print_func fopen_w calloc garbage text s = ram_write blk_stdbuf 111 [0] s1.
Proof.
  intros Hsh Hp Hm Hl. unfold csp_print_func. fold (printed text). st_red. fold (printed text).
  set (s1 := with_app _ _).
  assert (Hsh1 : shows (ps_app s1) (h ++ printed text)) by (by apply shows_puts).
  rewrite (tmpbuf_view_shows _ _ Hsh1). cbn [option_map].
  destruct (fill_writes m (h ++ printed text) Hl) as (m1 & H1 & H2 & H3 & H4 & _).
  rewrite (ram_write_block s1 _ _ _ m m1 Hm H1).
  set (s2 := with_ram _ s1). assert (Hm2 : ps_ram s2 !! blk_stdbuf = Some m1) by apply lookup_insert_eq.
  rewrite (ram_write_block s2 _ _ _ m1 _ Hm2 H2).
  set (s3 := with_ram _ s2). assert (Hm3 : ps_ram s3 !! blk_stdbuf = Some (filled (h ++ printed text) ++ drop 111 m))
    by apply lookup_insert_eq.
  rewrite (ram_read_block s3 _ _ _ _ _ Hm3 H3).
  set (s4 := with_ram (<[blk_stdbuf := filled (h ++ printed text) ++ drop 111 m]> (ps_ram s3)) s3).
  exists s4. split; [|split; [done|split; [done|split; [done|]]]].
  { unfold s4, s3, s2. cbn [ps_ram with_ram]. by rewrite !insert_insert_eq. }
  unfold param_set_string, param_set_data_nocallback.
  assert (Hp3 : get_param stdout_buf s3 = Some (stdout_param, s3)) by (by apply lift_opt_run_gen).
  assert (Hp4 : get_param stdout_buf s4 = Some (stdout_param, s4)) by (by apply lift_opt_run_gen).
  erewrite ST_bind_run; [|run Hp3; exact (ram_write_block s3 blk_stdbuf 0 _ _ _ Hm3 H4)]. cbv beta. fold s4.
  run Hp4. cbn [stdout_param PARAM_DEFINE_STATIC_RAM p_vmem p_base p_addr].
  assert (Hfl : 0 + Z.of_nat (List.length (filled (h ++ printed text))) = 111)
    by (unfold filled; rewrite length_app, length_last_chars; done).
  rewrite Hfl. unfold mbind, ST_bind. by destruct (ram_write blk_stdbuf 111 [0] s4) as [[[] ?]|].
Qed.
End Application.

(** C35: [csp_print_func] keeps a window on the program's output: whatever has been printed
    before, the buffer behind the parameter [stdout_buf] afterwards holds the last 110
    characters printed (zeros at the start), in order and terminated.  It only does so when
    there is at least one byte behind the 111 bytes of [_stdbuf]: the array is copied onto
    itself as a string of length 111, and the terminator goes to [_stdbuf[111]], outside the
    array the program defines. *)
Theorem csp_print_func_shows_last (fopen_w : list Z → bool) (calloc : pstate → option nat) (garbage : Z)
    (s : pstate) (h text m : list Z) :
  shows (ps_app s) h → ps_params s !! stdout_buf = Some stdout_param → ps_ram s !! blk_stdbuf = Some m →
  (List.length m = 111%nat → csp_print_func fopen_w calloc garbage text s = None) ∧
  ((111 < List.length m)%nat →
   ∃ s', csp_print_func fopen_w calloc garbage text s = Some ((), s') ∧ shows (ps_app s') (h ++ printed text) ∧
     ps_ram s' = <[blk_stdbuf := last_chars 110 (replicate 110 0 ++ h ++ printed text) ++ [0] ++ 0 :: drop 112 m]> (ps_ram s) ∧
     ps_params s' = ps_params s ∧ ps_events s' = ev_print (printed text) :: ps_events s).
Proof.
  intros Hsh Hp Hm.
  split; intros Hl; 
    destruct (print_func_writes fopen_w calloc garbage s h text m Hsh Hp Hm ltac:(lia)) as (s1 & Hram & Hsh1 & Hps & Hev & ->);
    destruct (fill_writes m (h ++ printed text) ltac:(lia)) as (_ & _ & _ & _ & _ & Hw);
    assert (Hm1 : ps_ram s1 !! blk_stdbuf = Some (filled (h ++ printed text) ++ drop 111 m)) by (rewrite Hram; apply lookup_insert_eq).
  - rewrite bool_decide_true in Hw by done. exact (ram_write_oob s1 _ _ _ _ Hm1 Hw).
  - rewrite bool_decide_false in Hw by lia. eexists. split; [exact (ram_write_block s1 _ _ _ _ _ Hm1 Hw)|].
    split; [done|]. split; [|done]. cbn [ps_ram with_ram]. rewrite Hram, insert_insert_eq. unfold filled. by rewrite <- app_assoc.
Qed.

(** The program's memory with one more byte behind [_stdbuf]. *)
Definition roomy_state : pstate := with_ram (<[blk_stdbuf := replicate 112 0]> initial_ram) (initial_state 0 ∅).

Lemma csp_print_func_shows_last_witness :
  csp_print_func (λ _, true) (λ _, None) 0 [104; 105] (initial_state 0 ∅) = None ∧
  ∃ s', csp_print_func (λ _, true) (λ _, None) 0 [104; 105] roomy_state = Some ((), s') ∧
    ps_ram s' !! blk_stdbuf = Some (replicate 108 0 ++ [104; 105; 0; 0]).
Proof.
  split.
  - apply (csp_print_func_shows_last (λ _, true) (λ _, None) 0 (initial_state 0 ∅) [] [104; 105] (replicate 111 0));
      [by repeat split|reflexivity..].
  - destruct (csp_print_func_shows_last (λ _, true) (λ _, None) 0 roomy_state [] [104; 105] (replicate 112 0)) as [_ H2];
      [by repeat split|reflexivity|reflexivity|].
    destruct H2 as (s' & Hr & _ & Hram & _); [simpl; lia|]. exists s'. split; [exact Hr|].
    rewrite Hram. vm_compute. reflexivity.
Defined.

(** ** Parameters in the configuration file *)

Definition config_vmem (vaddr : Z) : vmem_t :=
  VMEM_DEFINE_FILE blk_vmem_config_buf vaddr "config" "sys-man-config.vmem" 1000.
Definition config_file : list Z := c_string "sys-man-config.vmem".

(** The program's parameters are the ones it defines and [m] is the configuration. *)
Record app_ok (s : pstate) (m : list Z) : Prop := {
  ao_params : ∀ a p, static_params !! a = Some p → ps_params s !! a = Some p;
  ao_vmem : ∃ vaddr, ps_vmem s = [config_vmem vaddr];
  ao_config : ps_ram s !! blk_vmem_config_buf = Some m;
  ao_length : List.length m = 1000%nat;
}.

Section Config.
Context (fopen_w : list Z → bool) (popen : list Z → option (list Z)) (calloc : pstate → option nat) (garbage : Z).
Implicit Types (s t : pstate) (m : list Z) (p : param_t) (c : ctype).

Lemma initial_state_ok vaddr files : app_ok (initial_state vaddr files) (replicate 1000 0).
Proof.
  split; [|by exists vaddr|reflexivity|reflexivity].
  intros a p Hp. do 9 (destruct a as [|a]; [by injection Hp as <-|]). done.
Qed.

(** A parameter of the program stored in the configuration. *)
Definition in_config (a : nat) p : Prop :=
  static_params !! a = Some p ∧ p_vmem p = Some 0%nat ∧ 0 ≤ p_addr p < 512 ∧ p_array_size p = 1.

Lemma config_get s m a p c bs :
  app_ok s m → in_config a p → mem_read m (p_addr p) (Z.of_nat (ct_size c)) = Some bs →
  PARAM_GET c a 0 s = Some (ct_value c (le_val bs), s).
Proof.
  intros Hs (Ha & Hv & Haddr & Hsz) Hr. destruct (ao_vmem _ _ Hs) as [vaddr Hvm]. unfold PARAM_GET.
  run (lift_opt_run_gen _ _ s (ao_params _ _ Hs _ _ Ha) : get_param a s = Some (p, s)). rewrite Hsz.
  rewrite bool_decide_false by (vm_compute; congruence). rewrite Hv.
  assert (Hg : get_vmem 0 s = Some (config_vmem vaddr, s)) by (apply lift_opt_run_gen; by rewrite Hvm). run Hg.
  change (element_offset p 0) with 0. rewrite Z.add_0_r, u32_id by (unfold is_u32; lia).
  by run (ram_read_block s blk_vmem_config_buf _ _ m bs (ao_config _ _ Hs) Hr : vmem_read (config_vmem vaddr) _ _ s = _).
Qed.

(** Storing a new configuration, which writes the file when it can be opened. *)
Definition saved (m : list Z) s : pstate :=
  let s := with_ram (<[blk_vmem_config_buf := m]> (ps_ram s)) s in
  if fopen_w config_file then with_files (<[config_file := m]> (ps_files s)) s
  else with_event (ev_print (c_string "Failed to open file " ++ config_file ++ [10])) s.

Lemma saved_ok s m m' : app_ok s m → List.length m' = 1000%nat → app_ok (saved m' s) m'.
Proof. intros [H1 H2 H3 H4] Hl. unfold saved. destruct (fopen_w config_file); (split; [done|done|apply lookup_insert_eq|done]). Qed.

Abbreviation env := (app_env fopen_w popen calloc garbage).

Lemma config_set s m m' a p c v :
  app_ok s m → in_config a p → mem_write m (p_addr p) (le_bytes (ct_size c) v) = Some m' →
  PARAM_SET (H := env) c a v true 0 s = run_param_callback (H := env) p a 0 (saved m' s).
Proof.
  intros Hs (Ha & Hv & Haddr & Hsz) Hw. destruct (ao_vmem _ _ Hs) as [vaddr Hvm]. unfold PARAM_SET.
  run (lift_opt_run_gen _ _ s (ao_params _ _ Hs _ _ Ha) : get_param a s = Some (p, s)). rewrite Hsz.
  rewrite bool_decide_false by (vm_compute; congruence). rewrite Hv.
  assert (Hg : get_vmem 0 s = Some (config_vmem vaddr, s)) by (apply lift_opt_run_gen; by rewrite Hvm).
  change (element_offset p 0) with 0. rewrite Z.add_0_r, u32_id by (unfold is_u32; lia).
  assert (Hm' : List.length m' = 1000%nat) by (rewrite (mem_write_length _ _ _ _ Hw); apply Hs).
  erewrite ST_bind_run; [|].
  2:{ run Hg. cbn [config_vmem VMEM_DEFINE_FILE v_big_endian vmem_write v_driver]. unfold vmem_file_write.
      rewrite (bool_decide_false (0 = 1)) by done.
      run (ram_write_block s blk_vmem_config_buf _ _ m m' (ao_config _ _ Hs) Hw).
      set (s1 := with_ram _ s).
      assert (Hr : ram_read blk_vmem_config_buf 0 1000 s1 = Some (m', s1)).
      { apply (ram_read_block s1 _ _ _ m'); [apply lookup_insert_eq|]. apply mem_read_Some. rewrite Hm'.
        split; [lia|]. split; [lia|]. split; [lia|]. rewrite drop_0, take_ge by (rewrite Hm'; lia). done. }
      instantiate (1 := saved m' s). instantiate (1 := ()). unfold saved. fold config_file. fold s1.
      change (fopen_w_ok config_file) with (fopen_w config_file). destruct (fopen_w config_file); [by run Hr|done]. }
  done.
Qed.

Lemma config_write m off (n : nat) v :
  List.length m = 1000%nat → 0 ≤ off < 512 → (n ≤ 8)%nat →
  ∃ m', mem_write m off (le_bytes n v) = Some m' ∧ List.length m' = 1000%nat ∧
    mem_read m' off (Z.of_nat n) = Some (le_bytes n v).
Proof.
  intros Hm Ho Hn. destruct (mem_write_is_Some m off (le_bytes n v)) as (m' & Hw & Hl); [lia|rewrite length_le_bytes; lia|].
  exists m'. split; [done|]. split; [lia|]. rewrite <- (length_le_bytes n v) at 1. by apply (mem_read_write_eq _ _ _ _ Hw).
Qed.

(** The parameters stored in the configuration can always be read. *)
Lemma config_readable s m t a p c :
  app_ok s m → applied s t → in_config a p → ∃ v, param_get_one c a t = Some (v, t).
Proof.
  intros Hs Ha (Hp & Hv & Haddr & Hsz). destruct (ao_vmem _ _ Hs) as [vaddr Hvm].
  assert (Hroom : ram_room t blk_vmem_config_buf (p_addr p) (Z.of_nat (ct_size c))).
  { apply (ap_room _ _ Ha). exists m. split; [apply Hs|]. rewrite (ao_length _ _ Hs). destruct c; simpl; lia. }
  destruct Hroom as (m1 & Hm1 & H1 & H2 & H3). destruct (mem_read_is_Some m1 (p_addr p) (Z.of_nat (ct_size c))) as [bs Hr]; [lia..|].
  pose proof (mem_read_length _ _ _ _ Hr) as Hl. eexists.
  apply (get_cell t a p c 0 blk_vmem_config_buf (p_addr p) bs).
  - rewrite (ap_params _ _ Ha). by apply (ao_params _ _ Hs).
  - rewrite Hsz. vm_compute. split; congruence.
  - unfold cell. rewrite Hv, (ap_vmem _ _ Ha), Hvm. cbn. change (element_offset p 0) with 0.
    by rewrite Z.add_0_r, u32_id by (unfold is_u32; lia).
  - exists m1. split; [done|]. by rewrite Hl.
  - lia.
Qed.

(** The callbacks of the configured addresses, of [suspend_on_boot] and of [suspend_a53] do
    what a push needs: they return and leave the parameters' memory alone. *)
Lemma app_callbacks_calm s m a p :
  app_ok s m → a ∈ [can_addr; can_netmask; suspend_on_boot; suspend_a53] → static_params !! a = Some p →
  calm (H := env) s a p.
Proof.
  intros Hs Ha Hp.
  assert (Hcfg : a ≠ suspend_a53 → in_config a p).
  { intros Hne. split; [done|]. revert Hp. repeat (apply elem_of_cons in Ha as [->|Ha]; [by intros [= <-]|]). by apply not_elem_of_nil in Ha. }
  assert (Hdone : ∀ t1 t2, applied t1 t2 → ps_ram t2 = ps_ram t1 → ∀ blk off bs, value_block s blk → ram_at t1 blk off bs → ram_at t2 blk off bs).
  { intros t1 t2 _ Hr blk off bs _ (m1 & Hm1 & Hrd). exists m1. by rewrite Hr. }
  assert (Hget : a ≠ suspend_a53 → ∀ t1 c, applied s t1 → ∃ v, param_get_one c a t1 = Some (v, t1)).
  { intros Hne t1 c Ht. by apply (config_readable s m t1 a p c Hs Ht (Hcfg Hne)). }
  repeat (apply elem_of_cons in Ha as [->|Ha]); [..|by apply not_elem_of_nil in Ha]; injection Hp as <-; intros t1 i Ht.
  - destruct (Hget ltac:(done) t1 c_uint16 Ht) as [v Hv]. eexists. split; [cbn; unfold can_addr_callback; by run Hv|].
    split; [by split|by apply Hdone].
  - destruct (Hget ltac:(done) t1 c_uint16 Ht) as [v Hv]. eexists. split; [cbn; unfold can_netmask_callback; by run Hv|].
    split; [by split|by apply Hdone].
  - destruct (Hget ltac:(done) t1 c_uint8 Ht) as [v Hv]. cbn. unfold suspend_on_boot_callback. run Hv.
    destruct (fopen_w suspend_on_boot_file); (eexists; split; [reflexivity|]; split; [by split|by apply Hdone]).
  - eexists. split; [reflexivity|]. split; [by split|by apply Hdone].
Qed.

Lemma u8_value v : 0 ≤ v < 256 → ct_value c_uint8 (le_val (le_bytes 1 v)) = v.
Proof. intros Hv. rewrite le_val_le_bytes. cbn [ct_value]. change (256 ^ Z.of_nat 1) with 256. unfold u8, wrap. mlia. Qed.

(** Setting [suspend_on_boot] when its file can be written. *)
Lemma set_suspend_on_boot s m v :
  app_ok s m → 0 ≤ v < 256 → fopen_w suspend_on_boot_file = true →
  ∃ s' m', param_set_uint8 (H := env) suspend_on_boot v s = Some ((), s') ∧ app_ok s' m' ∧
    ps_files s' !! suspend_on_boot_file = Some (decimal v) ∧ param_get_uint8 suspend_on_boot s' = Some (v, s').
Proof.
  intros Hs Hv Hf. destruct (static_params !! suspend_on_boot) as [p|] eqn:Hp; [|done].
  assert (Hin : in_config suspend_on_boot p) by (by injection Hp as <-).
  assert (Haddr : p_addr p = 0x100) by (by injection Hp as <-).
  assert (Hcb : p_callback p = Some cb_suspend_on_boot) by (by injection Hp as <-).
  destruct (config_write m 0x100 1 v) as (m' & Hw & Hl & Hr); [apply Hs|lia|lia|].
  pose proof (saved_ok s m m' Hs Hl) as Hs'.
  assert (Hget : ∀ t, app_ok t m' → param_get_uint8 suspend_on_boot t = Some (v, t)).
  { intros t Ht. unfold param_get_uint8, param_get_one. rewrite (config_get t m' _ p c_uint8 _ Ht Hin ltac:(rewrite Haddr; exact Hr)).
    by rewrite u8_value. }
  set (s' := with_files (<[suspend_on_boot_file := decimal v]> (ps_files (saved m' s))) (saved m' s)).
  exists s', m'. assert (Hok : app_ok s' m') by (destruct Hs'; by split).
  split; [|split; [done|split; [apply lookup_insert_eq|by apply Hget]]].
  unfold param_set_uint8, param_set_one.
  rewrite (config_set s m m' _ p c_uint8 v Hs Hin) by (rewrite Haddr; exact Hw).
  unfold run_param_callback. rewrite Hcb. change (run_callback (ParamEnv := env) cb_suspend_on_boot suspend_on_boot 0)
    with (suspend_on_boot_callback fopen_w). unfold suspend_on_boot_callback. run (Hget _ Hs'). by rewrite Hf.
Qed.

Lemma u16_value v : 0 ≤ v < 65536 → ct_value c_uint16 (le_val (le_bytes 2 v)) = v.
Proof. intros Hv. rewrite le_val_le_bytes. cbn [ct_value]. change (256 ^ Z.of_nat 2) with 65536. unfold u16, wrap. mlia. Qed.

Lemma app_ok_with_app s m x : app_ok s m → app_ok (with_app x s) m.
Proof. intros []. by split. Qed.

Definition can_addr_param : param_t :=
  PARAM_DEFINE_STATIC_VMEM 21 "can_addr" PARAM_TYPE_UINT16 (-1) 0 PM_SYSCONF (Some cb_can_addr) "" 0 0x10
    "CAN interface address" 0.
Definition can_netmask_param : param_t :=
  PARAM_DEFINE_STATIC_VMEM 22 "can_netmask" PARAM_TYPE_UINT16 (-1) 0 PM_SYSCONF (Some cb_can_netmask) "" 0 0x12
    "CAN interface netmask" 1.

Lemma can_addr_in_config : in_config can_addr can_addr_param.
Proof. by repeat split. Qed.
Lemma can_netmask_in_config : in_config can_netmask can_netmask_param.
Proof. by repeat split. Qed.

Definition set_a_can_addr v s : pstate :=
  with_app (mk_app (a_tmpbuf (ps_app s)) (a_stdbuf_pos (ps_app s)) v (a_can_netmask (ps_app s))) s.
Definition set_a_can_netmask v s : pstate :=
  with_app (mk_app (a_tmpbuf (ps_app s)) (a_stdbuf_pos (ps_app s)) (a_can_addr (ps_app s)) v) s.

Lemma saved_app m s : ps_app (saved m s) = ps_app s.
Proof. unfold saved. by destruct (fopen_w config_file). Qed.

(** Setting one of the two addresses stores it, in memory and on disk, and in its variable. *)
Lemma set_can_addr s m v :
  app_ok s m → 0 ≤ v < 65536 →
  ∃ m', mem_write m 0x10 (le_bytes 2 v) = Some m' ∧ app_ok (saved m' s) m' ∧
    param_set_uint16 (H := env) can_addr v s = Some ((), set_a_can_addr v (saved m' s)).
Proof.
  intros Hs Hv. destruct (config_write m 0x10 2 v) as (m' & Hw & Hl & Hr); [apply Hs|lia|lia|].
  pose proof (saved_ok s m m' Hs Hl) as Hs'. exists m'. split; [done|]. split; [done|].
  unfold param_set_uint16, param_set_one. rewrite (config_set s m m' _ can_addr_param c_uint16 v Hs can_addr_in_config Hw).
  change (run_param_callback (H := env) can_addr_param can_addr 0) with can_addr_callback. unfold can_addr_callback.
  assert (Hg : param_get_uint16 can_addr (saved m' s) = Some (v, saved m' s)).
  { unfold param_get_uint16, param_get_one. rewrite (config_get _ m' _ can_addr_param c_uint16 _ Hs' can_addr_in_config Hr).
    by rewrite u16_value. }
  by run Hg.
Qed.

Lemma set_can_netmask s m v :
  app_ok s m → 0 ≤ v < 65536 →
  ∃ m', mem_write m 0x12 (le_bytes 2 v) = Some m' ∧ app_ok (saved m' s) m' ∧
    param_set_uint16 (H := env) can_netmask v s = Some ((), set_a_can_netmask v (saved m' s)).
Proof.
  intros Hs Hv. destruct (config_write m 0x12 2 v) as (m' & Hw & Hl & Hr); [apply Hs|lia|lia|].
  pose proof (saved_ok s m m' Hs Hl) as Hs'. exists m'. split; [done|]. split; [done|].
  unfold param_set_uint16, param_set_one. rewrite (config_set s m m' _ can_netmask_param c_uint16 v Hs can_netmask_in_config Hw).
  change (run_param_callback (H := env) can_netmask_param can_netmask 0) with can_netmask_callback. unfold can_netmask_callback.
  assert (Hg : param_get_uint16 can_netmask (saved m' s) = Some (v, saved m' s)).
  { unfold param_get_uint16, param_get_one. rewrite (config_get _ m' _ can_netmask_param c_uint16 _ Hs' can_netmask_in_config Hr).
    by rewrite u16_value. }
  by run Hg.
Qed.

(** The stored address, or its default. *)
Definition or_default (stored dflt : Z) : Z := if bool_decide (stored = 0) then dflt else stored.

Lemma saved_file m s : fopen_w config_file = true → ps_files (saved m s) !! config_file = Some m.
Proof. intros Hf. unfold saved. rewrite Hf. apply lookup_insert_eq. Qed.

Lemma default_addr s m addr :
  app_ok s m → a_can_addr (ps_app s) = addr → mem_read m 0x10 2 = Some (le_bytes 2 addr) →
  ∃ s' m', when (bool_decide (a_can_addr (ps_app s) = 0)) (
      modify (set_a_can_addr CAN_ADDR_DEFAULT);; s ← get; param_set_uint16 (H := env) can_addr (a_can_addr (ps_app s))) s =
      Some ((), s') ∧ app_ok s' m' ∧
    a_can_addr (ps_app s') = or_default addr CAN_ADDR_DEFAULT ∧ a_can_netmask (ps_app s') = a_can_netmask (ps_app s) ∧
    mem_read m' 0x10 2 = Some (le_bytes 2 (or_default addr CAN_ADDR_DEFAULT)) ∧ mem_read m' 0x12 2 = mem_read m 0x12 2 ∧
    (addr = 0 → fopen_w config_file = true → ps_files s' !! config_file = Some m').
Proof.
  intros Hs Ha Hr. rewrite Ha. unfold or_default. destruct (decide (addr = 0)) as [H0|H0].
  - rewrite !bool_decide_true by done. cbn [when]. set (s1 := set_a_can_addr CAN_ADDR_DEFAULT s).
    destruct (set_can_addr s1 m CAN_ADDR_DEFAULT) as (m' & Hw & Hs' & Hset); [by apply app_ok_with_app|done|].
    exists (set_a_can_addr CAN_ADDR_DEFAULT (saved m' s1)), m'.
    split; [exact Hset|]. split; [by apply app_ok_with_app|]. split; [done|].
    split; [cbn [set_a_can_addr ps_app with_app a_can_netmask]; by rewrite saved_app|].
    split; [exact (mem_read_write_eq _ _ _ _ Hw)|]. split; [apply (mem_read_write_ne _ _ _ _ _ _ Hw); right; done|].
    intros _ Hf. exact (saved_file m' s1 Hf).
  - rewrite !bool_decide_false by done. by exists s, m.
Qed.

Lemma default_netmask s m mask :
  app_ok s m → a_can_netmask (ps_app s) = mask → mem_read m 0x12 2 = Some (le_bytes 2 mask) →
  ∃ s' m', when (bool_decide (a_can_netmask (ps_app s) = 0)) (
      modify (set_a_can_netmask CAN_NETMASK_DEFAULT);; s ← get; param_set_uint16 (H := env) can_netmask (a_can_netmask (ps_app s))) s =
      Some ((), s') ∧ app_ok s' m' ∧
    a_can_netmask (ps_app s') = or_default mask CAN_NETMASK_DEFAULT ∧ a_can_addr (ps_app s') = a_can_addr (ps_app s) ∧
    mem_read m' 0x12 2 = Some (le_bytes 2 (or_default mask CAN_NETMASK_DEFAULT)) ∧ mem_read m' 0x10 2 = mem_read m 0x10 2 ∧
    (if bool_decide (mask = 0) then fopen_w config_file = true → ps_files s' !! config_file = Some m' else s' = s ∧ m' = m).
Proof.
  intros Hs Ha Hr. rewrite Ha. unfold or_default. destruct (decide (mask = 0)) as [H0|H0].
  - rewrite !bool_decide_true by done. cbn [when]. set (s1 := set_a_can_netmask CAN_NETMASK_DEFAULT s).
    destruct (set_can_netmask s1 m CAN_NETMASK_DEFAULT) as (m' & Hw & Hs' & Hset); [by apply app_ok_with_app|done|].
    exists (set_a_can_netmask CAN_NETMASK_DEFAULT (saved m' s1)), m'.
    split; [exact Hset|]. split; [by apply app_ok_with_app|]. split; [done|].
    split; [cbn [set_a_can_netmask ps_app with_app a_can_addr]; by rewrite saved_app|].
    split; [exact (mem_read_write_eq _ _ _ _ Hw)|]. split; [apply (mem_read_write_ne _ _ _ _ _ _ Hw); left; done|].
    intros Hf. exact (saved_file m' s1 Hf).
  - rewrite !bool_decide_false by done. by exists s, m.
Qed.

(** Fetching the addresses from a configuration that holds [addr] and [mask]. *)
Lemma read_addresses_run s m addr mask :
  app_ok s m → 0 ≤ addr < 65536 → 0 ≤ mask < 65536 →
  mem_read m 0x10 2 = Some (le_bytes 2 addr) → mem_read m 0x12 2 = Some (le_bytes 2 mask) →
  ∃ s' m', read_addresses fopen_w popen calloc garbage s = Some ((), s') ∧ app_ok s' m' ∧
    a_can_addr (ps_app s') = or_default addr CAN_ADDR_DEFAULT ∧
    a_can_netmask (ps_app s') = or_default mask CAN_NETMASK_DEFAULT ∧
    mem_read m' 0x10 2 = Some (le_bytes 2 (or_default addr CAN_ADDR_DEFAULT)) ∧
    mem_read m' 0x12 2 = Some (le_bytes 2 (or_default mask CAN_NETMASK_DEFAULT)) ∧
    (addr = 0 ∨ mask = 0 → fopen_w config_file = true → ps_files s' !! config_file = Some m').
Proof.
  intros Hs Ha Hm Hra Hrm. unfold read_addresses.
  assert (Hga : param_get_uint16 can_addr s = Some (addr, s)).
  { unfold param_get_uint16, param_get_one. rewrite (config_get _ m _ can_addr_param c_uint16 _ Hs can_addr_in_config Hra).
    by rewrite u16_value. }
  run Hga. set (s1 := set_a_can_addr addr s). assert (Hs1 : app_ok s1 m) by (by apply app_ok_with_app).
  run (eq_refl : modify (set_a_can_addr addr) s = Some ((), s1)).
  assert (Hgm : param_get_uint16 can_netmask s1 = Some (mask, s1)).
  { unfold param_get_uint16, param_get_one. rewrite (config_get _ m _ can_netmask_param c_uint16 _ Hs1 can_netmask_in_config Hrm).
    by rewrite u16_value. }
  run Hgm. set (s2 := set_a_can_netmask mask s1). assert (Hs2 : app_ok s2 m) by (by apply app_ok_with_app).
  run (eq_refl : modify (set_a_can_netmask mask) s1 = Some ((), s2)).
  run (eq_refl : get s2 = Some (s2, s2)).
  destruct (default_addr s2 m addr Hs2 eq_refl Hra) as (s3 & m3 & H3 & Hs3 & Ha3 & Hn3 & Hra3 & Hrm3 & Hf3).
  run H3. run (eq_refl : get s3 = Some (s3, s3)).
  destruct (default_netmask s3 m3 mask Hs3 Hn3 ltac:(by rewrite Hrm3)) as (s4 & m4 & H4 & Hs4 & Hn4 & Ha4 & Hrm4 & Hra4 & Hf4).
  exists s4, m4. split; [exact H4|]. split; [done|]. split; [congruence|]. split; [done|]. split; [congruence|]. split; [done|].
  case_bool_decide as H0; [intros _; exact Hf4|]. destruct Hf4 as [-> ->]. intros [Hz|Hz]; [exact (Hf3 Hz)|done].
Qed.
End Config.

(** C13: The setting [suspend_on_boot] survives a restart.  Setting it to [v] (from the
    shell, a packet or anything else that calls [param_set_uint8]) writes its file; any
    later run of the program that finds this file reads [v] from it, sets its own copy of
    the parameter to [v], and leaves the file in place for the next run. *)
Theorem suspend_on_boot_persists (fopen_w : list Z → bool) (popen : list Z → option (list Z))
    (calloc : pstate → option nat) (garbage v : Z) (s : pstate) (m : list Z) :
  app_ok s m → 0 ≤ v < 256 → fopen_w suspend_on_boot_file = true →
  ∃ s', param_set_uint8 (H := app_env fopen_w popen calloc garbage) suspend_on_boot v s = Some ((), s') ∧
    ∀ t mt, app_ok t mt → ps_files t !! suspend_on_boot_file = ps_files s' !! suspend_on_boot_file →
      ∃ t', suspend_on_boot_read fopen_w popen calloc garbage t = Some (v, t') ∧
        param_get_uint8 suspend_on_boot t' = Some (v, t') ∧
        ps_files t' !! suspend_on_boot_file = ps_files s' !! suspend_on_boot_file.
Proof.
  intros Hs Hv Hf.
  destruct (set_suspend_on_boot fopen_w popen calloc garbage s m v Hs Hv Hf) as (s' & m' & Hset & _ & Hfile & _).
  exists s'. split; [exact Hset|]. intros t mt Ht Hft. rewrite Hfile in Hft |- *.
  destruct (set_suspend_on_boot fopen_w popen calloc garbage t mt v Ht Hv Hf) as (t' & mt' & Hset' & _ & Hfile' & Hget').
  exists t'. split; [|done]. unfold suspend_on_boot_read. run (eq_refl : get t = Some (t, t)). rewrite Hft.
  rewrite scan_int_decimal by lia. rewrite bool_decide_true by lia.
  erewrite ST_bind_run; [|reflexivity]. cbv beta. rewrite u8_id by (unfold is_u8; lia). by run Hset'.
Qed.

Lemma suspend_on_boot_persists_witness :
  ∃ s' t', param_set_uint8 (H := app_env (λ _, true) (λ _, None) (λ _, None) 0) suspend_on_boot 3 (initial_state 0 ∅) = Some ((), s') ∧
    suspend_on_boot_read (λ _, true) (λ _, None) (λ _, None) 0 (initial_state 0 (ps_files s')) = Some (3, t').
Proof.
  destruct (suspend_on_boot_persists (λ _, true) (λ _, None) (λ _, None) 0 3 (initial_state 0 ∅) (replicate 1000 0))
    as (s' & Hs & Hr).
  - apply initial_state_ok.
  - lia.
  - reflexivity.
  - destruct (Hr (initial_state 0 (ps_files s')) (replicate 1000 0)) as (t' & Ht & _); [apply initial_state_ok|reflexivity|].
    exists s', t'. split; [exact Hs|exact Ht].
Defined.

(** C36: The CAN address and netmask are not restored when the program starts.  Whatever the
    configuration file of an earlier run holds, [main] takes the address 21 and the netmask
    8, and, if the file can be opened, overwrites it with a configuration that has these
    values.  Reading the file first with [vmem_file_init], which nothing calls, would have
    given the stored address and netmask wherever they are not 0, if the file can be opened. *)
Theorem boot_ignores_config (fopen_w : list Z → bool) (popen : list Z → option (list Z))
    (calloc : pstate → option nat) (garbage vaddr : Z) (files : gmap (list Z) (list Z)) :
  (∃ s' m', read_addresses fopen_w popen calloc garbage (initial_state vaddr files) = Some ((), s') ∧
    a_can_addr (ps_app s') = 21 ∧ a_can_netmask (ps_app s') = 8 ∧
    (fopen_w config_file = true → ps_files s' !! config_file = Some m') ∧
    mem_read m' 0x10 2 = Some (le_bytes 2 21) ∧ mem_read m' 0x12 2 = Some (le_bytes 2 8)) ∧
  (∀ m addr mask, fopen_w config_file = true → files !! config_file = Some m → List.length m = 1000%nat → 0 < addr < 65536 → 0 < mask < 65536 →
    mem_read m 0x10 2 = Some (le_bytes 2 addr) → mem_read m 0x12 2 = Some (le_bytes 2 mask) →
    ∃ s1 s', vmem_file_init (H := app_env fopen_w popen calloc garbage) (config_vmem vaddr) (initial_state vaddr files) = Some ((), s1) ∧
      read_addresses fopen_w popen calloc garbage s1 = Some ((), s') ∧
      a_can_addr (ps_app s') = addr ∧ a_can_netmask (ps_app s') = mask).
Proof.
  set (s := initial_state vaddr files). pose proof (initial_state_ok vaddr files) as Hs. fold s in Hs. split.
  - destruct (read_addresses_run fopen_w popen calloc garbage s (replicate 1000 0) 0 0) as (s' & m' & Hr & _ & Ha & Hm & Hra & Hrm & Hf);
      [done|done|done|reflexivity|reflexivity|].
    exists s', m'. split; [exact Hr|]. split; [exact Ha|]. split; [exact Hm|]. split; [by apply Hf; left|done].
  - intros m addr mask Hopen Hfile Hl Ha Hm Hra Hrm.
    assert (Hw : mem_write (replicate 1000 0) 0 (take (Z.to_nat 1000) m) = Some m).
    { apply mem_write_Some. rewrite take_ge by (rewrite Hl; done). rewrite Hl, length_replicate.
      split; [lia|]. split; [lia|]. cbn [Z.to_nat take app Nat.add]. rewrite take_0, drop_ge by (rewrite length_replicate; done).
      by rewrite app_nil_r. }
    set (s1 := with_ram (<[blk_vmem_config_buf := m]> (ps_ram s)) s).
    assert (Hs1 : app_ok s1 m) by (destruct Hs; split; [done|done|apply lookup_insert_eq|done]).
    destruct (read_addresses_run fopen_w popen calloc garbage s1 m addr mask) as (s' & m' & Hr & _ & Hra' & Hrm' & _);
      [done|lia|lia|done|done|].
    exists s1, s'. split.
    { unfold vmem_file_init. cbn [config_vmem VMEM_DEFINE_FILE v_driver]. run (eq_refl : get s = Some (s, s)).
      change (ps_files s !! c_string "sys-man-config.vmem") with (files !! config_file). rewrite Hfile.
      change (fopen_w_ok _) with (fopen_w config_file). rewrite Hopen.
      exact (ram_write_block s blk_vmem_config_buf 0 _ _ m (ao_config _ _ Hs) Hw). }
    split; [exact Hr|]. unfold or_default in *. rewrite bool_decide_false in Hra', Hrm' by lia. done.
Qed.

(** The three texts the program formats with [sprintf] fit their arrays for every value:
    the revision string of any 32-bit serial number takes at most the 19 bytes allocated for
    it, terminator included, and both process commands stay below the 128 bytes of [cmdbuf]
    for every node number, so a callback runs exactly the command with that number. *)
Theorem sprintf_buffers_suffice (fopen_w : list Z → bool) (popen : list Z → option (list Z))
    (calloc : pstate → option nat) (garbage : Z) (date_time : list Z) (s : pstate) (v : Z) :
  revision fopen_w calloc garbage true (serial_get date_time) s =
    Some (c_string "Rev1.10-" ++ decimal (serial_get date_time), s) ∧
  (0 < v < 256 → (∀ cmd, popen cmd ≠ None) →
   (param_get_uint8 mng_camera_control s = Some (v, s) →
     mng_camera_control_callback fopen_w popen calloc garbage s = Some ((), with_event (ev_popen
       (c_string "/usr/bin/Disco2CameraControl -i can -d can0 -n " ++ decimal v ++ c_string " 2>&1")) s)) ∧
   (param_get_uint8 mng_dipp s = Some (v, s) →
     mng_dipp_callback fopen_w popen calloc garbage s = Some ((), with_event (ev_popen
       (c_string "/usr/bin/dipp -i CAN -p can0 -a " ++ decimal v ++ c_string " 2>&1")) s))).
Proof.
  split.
  - unfold revision. apply lift_opt_run_gen. unfold sprintf. rewrite bool_decide_true; [done|].
    pose proof (length_decimal (serial_get date_time) 10 ltac:(lia)) as Hl.
    rewrite length_app. change (List.length (c_string "Rev1.10-")) with 8%nat.
    assert (0 ≤ serial_get date_time < 2 ^ 32) as Hs by apply serial_get_range. specialize (Hl ltac:(lia)). lia.
  - intros Hv Hpo. pose proof (length_decimal v 3 ltac:(lia) ltac:(lia)) as Hl.
    split; intros Hg; unfold mng_camera_control_callback, mng_dipp_callback, manage_process; run Hg;
      rewrite bool_decide_false by lia; (erewrite ST_bind_run; [|apply lift_opt_run_gen; unfold sprintf;
      rewrite bool_decide_true by (rewrite !length_app; cbn [c_string List.length]; lia); reflexivity]); cbv beta;
      unfold run_popen; st_red; by destruct (popen _) eqn:Hp; [|destruct (Hpo _ Hp)].
Qed.

(** An image of the configuration with the address 30 and the netmask 5. *)
Definition config_image : list Z := replicate 16 0 ++ [30; 0; 5; 0] ++ replicate 980 0.

Lemma boot_ignores_config_witness :
  (∃ s', read_addresses (λ _, true) (λ _, None) (λ _, None) 0 (initial_state 0 {[ config_file := config_image ]}) = Some ((), s') ∧
    a_can_addr (ps_app s') = 21) ∧
  ∃ s1 s', vmem_file_init (H := app_env (λ _, true) (λ _, None) (λ _, None) 0) (config_vmem 0) (initial_state 0 {[ config_file := config_image ]}) = Some ((), s1) ∧
    read_addresses (λ _, true) (λ _, None) (λ _, None) 0 s1 = Some ((), s') ∧ a_can_addr (ps_app s') = 30.
Proof.
  destruct (boot_ignores_config (λ _, true) (λ _, None) (λ _, None) 0 0 {[ config_file := config_image ]})
    as [(s' & m' & Hr & Ha & _) H2].
  split; [by exists s'|].
  destruct (H2 config_image 30 5) as (s1 & s2 & H3 & H4 & H5 & _); [reflexivity| |reflexivity|lia|lia|reflexivity|reflexivity|by exists s1, s2].
  apply lookup_insert_eq.
Defined.

Definition camera_state : pstate :=
  with_ram (<[blk_mng_camera_control := [255]]> initial_ram) (initial_state 0 ∅).

Lemma sprintf_buffers_suffice_witness :
  mng_camera_control_callback (λ _, true) (λ _, Some []) (λ _, None) 0 camera_state = Some ((), with_event (ev_popen
    (c_string "/usr/bin/Disco2CameraControl -i can -d can0 -n 255 2>&1")) camera_state).
Proof.
  destruct (sprintf_buffers_suffice (λ _, true) (λ _, Some []) (λ _, None) 0 [] camera_state 255) as [_ H2].
  destruct H2 as [H2 _]; [lia|done|]. apply H2. vm_compute. reflexivity.
Defined.
