(* ===== verification/Vmem.v ===== *)
(** * Virtual memory

    [vmem.c] and [vmem_crc32.c]: copying between an address of the vmem space and a local
    buffer, and the checksum of a range of addresses. *)

From S2P Require Import Prelude Crc32 ParamState Param.

(** ** Copying *)

(** [(p >= vmem->vaddr) && (p + size <= vmem->vaddr + vmem->size)], in 64-bit pointers. *)
Definition vmem_covers (vm : vmem_t) (p size : Z) : bool :=
  bool_decide (v_vaddr vm ≤ p) && bool_decide (u64 (p + size) ≤ u64 (v_vaddr vm + v_size vm)).

(** The loop over the section of the [vmem]s. *)
Fixpoint vmem_lookup (vms : list vmem_t) (p size : Z) : option vmem_t :=
  match vms with
  | [] => None
  | vm :: vms' => if vmem_covers vm p size then Some vm else vmem_lookup vms' p size
  end.

(** [vmem_memcpy] to a local buffer, which lies in no [vmem].  An address no [vmem] covers
    is used as a pointer: what it refers to is copied, whatever it is. *)
Definition vmem_memcpy_from `{ParamEnv} (from size : Z) : ST pstate (list Z) :=
  s ← get;
  match vmem_lookup (ps_vmem s) from size with
  | Some vm => vmem_read vm (u32 (from - v_vaddr vm)) size
  | None => '(blk, off) ← lift_opt (ptr_block from); ram_read blk off size
  end.

(** [vmem_memcpy] from a local buffer; without a [vmem] the bytes are stored where the
    pointer refers to. *)
Definition vmem_memcpy_to `{ParamEnv} (to : Z) (bs : list Z) : ST pstate () :=
  s ← get;
  match vmem_lookup (ps_vmem s) to (Z.of_nat (length bs)) with
  | Some vm => vmem_write vm (u32 (to - v_vaddr vm)) bs
  | None => '(blk, off) ← lift_opt (ptr_block to); ram_write blk off bs
  end.

Definition vmem_index_to_ptr (idx : Z) : ST pstate vmem_t :=
  s ← get; lift_opt (if bool_decide (0 ≤ idx) then ps_vmem s !! Z.to_nat idx else None).

(** ** Checksum *)

(** The loop of [vmem_calc_crc32]; the chunks pass through [buffer]. *)
Fixpoint crc32_loop `{ParamEnv} (fuel : nat) (addr len count crc : Z) (buffer : list Z) (buffer_len : Z) : ST pstate (Z * list Z) :=
  match fuel with
  | O => ub
  | S fuel' =>
      if bool_decide (count < len) then
        let chunk_len := if bool_decide (u32 (len - count) < buffer_len) then u32 (len - count) else buffer_len in
        data ← vmem_memcpy_from (u64 (addr + count)) chunk_len;
        buffer ← lift_opt (mem_write buffer 0 data);
        crc32_loop fuel' addr len (u32 (count + chunk_len)) (csp_crc32_update crc data) buffer buffer_len
      else mret (crc, buffer)
  end.

Definition vmem_calc_crc32 `{ParamEnv} (addr len : Z) (buffer : list Z) (buffer_len : Z) : ST pstate (Z * list Z) :=
  '(crc, buffer) ← crc32_loop (S (Z.to_nat len)) addr len 0 csp_crc32_init buffer buffer_len;
  mret (csp_crc32_final crc, buffer).

(** ** The address space *)

(** The [vmem]s lie apart from each other below 2^63 and their blocks hold what they state. *)
Record space_ok (s : pstate) : Prop := {
  sp_range : ∀ i vm, ps_vmem s !! i = Some vm → 0 ≤ v_vaddr vm ∧ 0 ≤ v_size vm < 2 ^ 32 ∧ v_vaddr vm + v_size vm < 2 ^ 63;
  sp_apart : ∀ i j vm vm', ps_vmem s !! i = Some vm → ps_vmem s !! j = Some vm' → i ≠ j →
    v_vaddr vm + v_size vm ≤ v_vaddr vm' ∨ v_vaddr vm' + v_size vm' ≤ v_vaddr vm;
  sp_blocks : ∀ i vm, ps_vmem s !! i = Some vm → ∃ m, ps_ram s !! vmem_block vm = Some m ∧ v_size vm ≤ Z.of_nat (length m);
}.

(** The bytes at the addresses [a] to [a + length bs] of one [vmem]. *)
Definition vmem_holds (s : pstate) (vm : vmem_t) (a : Z) (bs : list Z) : Prop :=
  v_vaddr vm ≤ a ∧ a + Z.of_nat (length bs) ≤ v_vaddr vm + v_size vm ∧ ram_at s (vmem_block vm) (a - v_vaddr vm) bs.

Section Space.
Context `{ParamEnv}.
Implicit Types (s : pstate) (vm : vmem_t).

(** A non-empty range inside a [vmem] is found there and nowhere else. *)
Lemma vmem_lookup_inside s i vm p size :
  space_ok s → ps_vmem s !! i = Some vm → 0 < size → v_vaddr vm ≤ p → p + size ≤ v_vaddr vm + v_size vm →
  vmem_lookup (ps_vmem s) p size = Some vm.
Proof.
  intros [Hr Ha _] Hi Hsz Hp1 Hp2.
  assert (Hcov : ∀ j w, ps_vmem s !! j = Some w → vmem_covers w p size = bool_decide (j = i)).
  { intros j w Hj. destruct (Hr i vm Hi) as (A1 & A2 & A3). destruct (Hr j w Hj) as (B1 & B2 & B3). unfold vmem_covers.
    assert (u64 (p + size) = p + size) as -> by (apply Z.mod_small; lia).
    assert (u64 (v_vaddr w + v_size w) = v_vaddr w + v_size w) as -> by (apply Z.mod_small; lia).
    destruct (decide (j = i)) as [->|Hne].
    - simplify_eq. by rewrite !bool_decide_true by lia.
    - rewrite (bool_decide_false (j = i)) by done. destruct (Ha j i w vm Hj Hi Hne).
      + rewrite (bool_decide_false (p + size ≤ _)) by lia. apply andb_false_r.
      + by rewrite (bool_decide_false (_ ≤ p)) by lia. }
  clear Ha Hr Hp1 Hp2. revert i Hi Hcov. generalize (ps_vmem s) as l. induction l as [|w l IH]; intros i Hi Hcov; [done|].
  cbn [vmem_lookup]. rewrite (Hcov 0%nat w eq_refl). destruct i as [|i]; [by injection Hi as ->|].
  rewrite bool_decide_false by done. apply (IH i Hi). intros j w' Hj. rewrite (Hcov (S j) w' Hj).
  by apply bool_decide_ext; split; [intros [= ->]|intros ->].
Qed.

Lemma memcpy_from_run s i vm a bs :
  space_ok s → ps_vmem s !! i = Some vm → (0 < length bs)%nat → vmem_holds s vm a bs →
  vmem_memcpy_from a (Z.of_nat (length bs)) s = Some (bs, s).
Proof.
  intros Hs Hi Hl (H1 & H2 & Hat). unfold vmem_memcpy_from. run (eq_refl : get s = Some (s, s)).
  destruct (sp_range _ Hs i vm Hi) as (A1 & A2 & A3).
  rewrite (vmem_lookup_inside s i vm a (Z.of_nat (length bs)) Hs Hi ltac:(lia) H1 H2).
  rewrite u32_id by (unfold is_u32; lia). rewrite vmem_read_block. by apply ram_read_at.
Qed.

Lemma vmem_holds_sub s vm a bs (i n : nat) :
  vmem_holds s vm a bs → (i + n ≤ length bs)%nat → vmem_holds s vm (a + Z.of_nat i) (take n (drop i bs)).
Proof.
  intros (H1 & H2 & m & Hm & Hr) Hin. pose proof Hr as (R1 & R2 & R3 & R4)%mem_read_Some.
  assert (Hl : length (take n (drop i bs)) = n) by (rewrite length_take, length_drop; lia).
  split; [lia|]. split; [lia|]. exists m. split; [done|]. rewrite Hl. apply mem_read_Some.
  split; [lia|]. split; [lia|]. split; [lia|]. rewrite R4, skipn_firstn_comm, drop_drop, take_take. f_equal; [lia|]. f_equal. lia.
Qed.

Lemma crc32_update_app c l1 l2 : csp_crc32_update c (l1 ++ l2) = csp_crc32_update (csp_crc32_update c l1) l2.
Proof. apply foldl_app. Qed.

Lemma crc32_loop_run s i vm addr data fuel (k : nat) crc buffer bl :
  space_ok s → ps_vmem s !! i = Some vm → vmem_holds s vm addr data → Z.of_nat (length data) < 2 ^ 32 →
  0 < bl < 2 ^ 32 → bl ≤ Z.of_nat (length buffer) → (k ≤ length data)%nat → (length data - k < fuel)%nat →
  ∃ buffer', crc32_loop fuel addr (Z.of_nat (length data)) (Z.of_nat k) crc buffer bl s =
    Some ((csp_crc32_update crc (drop k data), buffer'), s) ∧ length buffer' = length buffer.
Proof.
  intros Hs Hi Hd Hlen Hbl. revert k crc buffer. induction fuel as [|fuel IH]; intros k crc buffer Hb Hk Hf; [lia|].
  cbn [crc32_loop]. case_bool_decide as Hc.
  2:{ exists buffer. rewrite drop_ge by lia. done. }
  assert (u32 (Z.of_nat (length data) - Z.of_nat k) = Z.of_nat (length data - k)) as -> by (rewrite u32_id; unfold is_u32; lia).
  set (n := Z.to_nat (Z.min bl (Z.of_nat (length data - k)))).
  assert ((if bool_decide (Z.of_nat (length data - k) < bl) then Z.of_nat (length data - k) else bl) = Z.of_nat n) as ->
    by (case_bool_decide; lia).
  assert (Hn : (0 < n ≤ length data - k)%nat) by lia.
  set (chunk := take n (drop k data)). assert (Hcl : length chunk = n) by (unfold chunk; rewrite length_take, length_drop; lia).
  pose proof Hd as (D1 & D2 & _). destruct (sp_range _ Hs i vm Hi) as (A1 & A2 & A3).
  assert (u64 (addr + Z.of_nat k) = addr + Z.of_nat k) as -> by (apply Z.mod_small; lia).
  pose proof (memcpy_from_run s i vm (addr + Z.of_nat k) chunk Hs Hi ltac:(lia) (vmem_holds_sub s vm addr data k n Hd ltac:(lia))) as Hm.
  rewrite Hcl in Hm. run Hm.
  destruct (mem_write_is_Some buffer 0 chunk) as (b' & Hw & Hbl'); [lia|lia|].
  run (lift_opt_run_gen _ _ s Hw).
  replace (u32 (Z.of_nat k + Z.of_nat n)) with (Z.of_nat (k + n)) by (rewrite u32_id; unfold is_u32; lia).
  destruct (IH (k + n)%nat (csp_crc32_update crc chunk) b') as (b2 & Hr & Hl2); [lia|lia|lia|].
  exists b2. rewrite Hr. split; [|lia]. do 3 f_equal. rewrite <- crc32_update_app. f_equal. unfold chunk.
  by rewrite <- drop_drop, take_drop.
Qed.
End Space.

(** [vmem_calc_crc32] returns the CRC-32C of the bytes at the given addresses, for every
    range that lies in one [vmem] and every size of the buffer the data passes through; it
    stays within that buffer and changes nothing else. *)
Theorem vmem_calc_crc32_is_crc32c `{ParamEnv} (s : pstate) (i : nat) (vm : vmem_t) (addr : Z) (data buffer : list Z) (buffer_len : Z) :
  space_ok s → ps_vmem s !! i = Some vm → vmem_holds s vm addr data → bytes_ok data →
  0 < buffer_len < 2 ^ 32 → buffer_len ≤ Z.of_nat (length buffer) →
  ∃ buffer', vmem_calc_crc32 addr (Z.of_nat (length data)) buffer buffer_len s = Some ((crc32c data, buffer'), s) ∧
    length buffer' = length buffer.
Proof.
  intros Hs Hi Hd Hby Hbl Hb. assert (Hlen : Z.of_nat (length data) < 2 ^ 32).
  { destruct Hd as (D1 & D2 & _). pose proof (sp_range _ Hs i vm Hi). lia. }
  destruct (crc32_loop_run s i vm addr data (S (Z.to_nat (Z.of_nat (length data)))) 0 csp_crc32_init buffer buffer_len)
    as (b' & Hr & Hl); try done; [lia|lia|].
  exists b'. split; [|done]. unfold vmem_calc_crc32. change (Z.of_nat 0) with 0 in Hr. run Hr.
  rewrite drop_0, csp_crc32_update_ref by done. reflexivity.
Qed.

Lemma example_space m : length m = 16%nat → space_ok (with_ram {[ 0%nat := m ]} example_state).
Proof.
  intros Hm. split.
  - intros [|i] vm Hi; [|done]. injection Hi as <-. simpl. lia.
  - intros [|i] [|j] vm vm' Hi Hj Hij; done.
  - intros [|i] vm Hi; [|done]. injection Hi as <-. exists m. split; [apply lookup_insert_eq|]. simpl. lia.
Qed.

Lemma vmem_calc_crc32_is_crc32c_witness :
  ∃ b, vmem_calc_crc32 (H := example_env) 4100 9 (replicate 4 0) 4 (with_ram {[ 0%nat := replicate 4 0 ++ [49; 50; 51; 52; 53; 54; 55; 56; 57] ++ replicate 3 0 ]} example_state) =
    Some ((0xE3069283, b), with_ram {[ 0%nat := replicate 4 0 ++ [49; 50; 51; 52; 53; 54; 55; 56; 57] ++ replicate 3 0 ]} example_state).
Proof.
  set (s := with_ram _ example_state).
  destruct (vmem_calc_crc32_is_crc32c (H := example_env) s 0 example_vmem 4100 [49; 50; 51; 52; 53; 54; 55; 56; 57] (replicate 4 0) 4) as (b & Hr & _).
  - by apply example_space.
  - reflexivity.
  - split; [simpl; lia|]. split; [simpl; lia|]. eexists. split; reflexivity.
  - apply (bool_decide_unpack _). reflexivity.
  - lia.
  - simpl. lia.
  - exists b. etransitivity; [exact Hr|]. by do 3 f_equal.
Defined.

(** ** Writing and reading back *)

Lemma space_ok_stored s s' :
  space_ok s → stored_step s s' → (∀ blk off len, ram_room s blk off len → ram_room s' blk off len) → space_ok s'.
Proof.
  intros [H1 H2 H3] Hst Hrm. split; rewrite (ss_vmem _ _ Hst); try done. intros i vm Hi.
  destruct (H3 i vm Hi) as (m & Hm & Hl). destruct (Hrm (vmem_block vm) 0 (v_size vm)) as (m' & Hm' & _ & _ & Hl').
  - exists m. specialize (H1 i vm Hi). repeat split; try done; lia.
  - exists m'. split; [done|lia].
Qed.

(** What is uploaded to an address range of a [vmem] is downloaded from it again, byte
    for byte; ranges of the same [vmem] beside it and every [vmem] with a block of its own
    keep their contents, the address space stays well formed, and the file behind a
    file-backed [vmem] holds the new contents whenever it can be opened. *)
Theorem vmem_memcpy_roundtrip `{ParamEnv} (s : pstate) (i : nat) (vm : vmem_t) (addr : Z) (bs : list Z) :
  space_ok s → ps_vmem s !! i = Some vm → bs ≠ [] →
  v_vaddr vm ≤ addr → addr + Z.of_nat (length bs) ≤ v_vaddr vm + v_size vm →
  ∃ s', vmem_memcpy_to addr bs s = Some ((), s') ∧ space_ok s' ∧ vmem_saved vm s' ∧
    vmem_memcpy_from addr (Z.of_nat (length bs)) s' = Some (bs, s') ∧
    (∀ vm' a' bs', vmem_holds s vm' a' bs' →
      vmem_block vm' ≠ vmem_block vm ∨ vm' = vm ∧ (a' + Z.of_nat (length bs') ≤ addr ∨ addr + Z.of_nat (length bs) ≤ a') →
      vmem_holds s' vm' a' bs').
Proof.
  intros Hs Hi Hne Hl Hu. assert (0 < length bs)%nat by (destruct bs; [done|simpl; lia]).
  destruct (sp_range _ Hs i vm Hi) as (A1 & A2 & A3). destruct (sp_blocks _ Hs i vm Hi) as (m & Hm & Hsz).
  destruct (vmem_write_run vm (addr - v_vaddr vm) bs s) as (s' & Hw & Hst & Hsv & Hat & Hfr & Hrm).
  { exists m. repeat split; try done; lia. }
  { exists m. repeat split; try done; lia. }
  pose proof (space_ok_stored s s' Hs Hst Hrm) as Hs'. assert (Hi' : ps_vmem s' !! i = Some vm) by (by rewrite (ss_vmem _ _ Hst)).
  exists s'. split; [|split; [done|split; [done|split]]].
  - unfold vmem_memcpy_to. run (eq_refl : get s = Some (s, s)).
    rewrite (vmem_lookup_inside s i vm addr (Z.of_nat (length bs)) Hs Hi ltac:(lia) Hl Hu).
    rewrite u32_id by (unfold is_u32; lia). exact Hw.
  - by apply (memcpy_from_run s' i vm).
  - intros vm' a' bs' (B1 & B2 & B3) Hd. split; [done|]. split; [done|]. apply Hfr; [|done].
    destruct Hd as [Hd|[-> Hd]]; [by left|right; lia].
Qed.

Lemma vmem_memcpy_roundtrip_witness :
  ∃ s', vmem_memcpy_to (H := example_env) 4100 [1; 2; 3] example_state = Some ((), s') ∧
    vmem_memcpy_from (H := example_env) 4100 3 s' = Some ([1; 2; 3], s').
Proof.
  destruct (vmem_memcpy_roundtrip (H := example_env) example_state 0 example_vmem 4100 [1; 2; 3]) as (s' & Hw & _ & _ & Hr & _).
  - by apply (example_space (replicate 16 0)).
  - reflexivity.
  - done.
  - simpl. lia.
  - simpl. lia.
  - exists s'. split; [exact Hw|exact Hr].
Defined.

(** The test of the range wraps around: an address close to 2^64 passes it. *)
Lemma vmem_covers_wraps vm n size :
  0 ≤ v_vaddr vm → 0 ≤ v_size vm → v_vaddr vm + v_size vm < 2 ^ 63 → 0 < n ≤ size → size < 2 ^ 32 → size - n ≤ v_vaddr vm + v_size vm →
  vmem_covers vm (2 ^ 64 - n) size = true.
Proof.
  intros H1 H2 H3 Hn Hsz Hs. unfold vmem_covers.
  assert (u64 (2 ^ 64 - n + size) = size - n) as ->.
  { unfold u64, wrap. replace (2 ^ 64 - n + size) with (size - n + 1 * 2 ^ 64) by lia. rewrite Z.mod_add by lia.
    apply Z.mod_small. lia. }
  assert (u64 (v_vaddr vm + v_size vm) = v_vaddr vm + v_size vm) as -> by (apply Z.mod_small; lia).
  rewrite !bool_decide_true by lia. done.
Qed.
