(* ===== verification/VmemServer.v ===== *)
(** * The vmem server

    [vmem_server.c]: remote access to the vmem address space over a connection, the list of
    the parameters, and the loop that serves both.  The handlers work on the network stack
    and on the parameters; the static variable [unlocked] of the file is a block of the
    program's memory, which an address given by a client may refer to. *)

From S2P Require Import Types Queue State Id Buffer Stack Port Net RdpQueue Rdp Conn Io Session Sfp Hmac ParamState Param ParamList ParamServer Vmem Prelude.

Definition VMEM_SERVER_TIMEOUT : Z := 30000.
Definition VMEM_SERVER_MTU : Z := 192.
Definition VMEM_PORT_SERVER : Z := 14.
Definition PARAM_PORT_LIST : Z := 12.

Definition VMEM_SERVER_UPLOAD : Z := 0.
Definition VMEM_SERVER_DOWNLOAD : Z := 1.
Definition VMEM_SERVER_LIST : Z := 2.
Definition VMEM_SERVER_RESTORE : Z := 3.
Definition VMEM_SERVER_BACKUP : Z := 4.
Definition VMEM_SERVER_UNLOCK : Z := 5.
Definition VMEM_SERVER_CALCULATE_CRC32 : Z := 6.

(** [strncpy] into a field of [n] bytes: cut or padded with zeros. *)
Definition strncpy (n : nat) (src : list Z) : list Z := take n (src ++ replicate n 0).

(** The elements of the two versions of the list, [vmem_list_t] and [vmem_list2_t]. *)
Definition vmem_list_entry (version : Z) (i : nat) (vm : vmem_t) : list Z :=
  (if bool_decide (version = 1) then be_bytes 4 (v_vaddr vm) else be_bytes 8 (v_vaddr vm))
  ++ be_bytes 4 (v_size vm) ++ [u8 (Z.of_nat i); u8 (v_type vm)] ++ strncpy 5 (v_name vm).

Section VmemServer.
Context `{Env} `{ParamEnv}.

(** [fuel] bounds the wake-ups of a sender and the packets of an upload; [blk_unlocked] is
    the block of [static int unlocked]. *)
Context (fuel : nat) (blk_unlocked : nat).

Definition get_unlocked : ST pstate Z := bs ← ram_read blk_unlocked 0 4; mret (s32 (le_val bs)).
Definition set_unlocked (v : Z) : ST pstate () := ram_write blk_unlocked 0 (le_bytes 4 v).

(** [n] bytes of the request at [off], big endian. *)
Definition request_be (b : nat) (off : Z) (n : Z) : K Z :=
  p ← kget_packet b; bs ← lift_opt (data_read p off n); mret (be_val bs).

(** The address and the length of a request: [data2] for version 2, else [data]. *)
Definition request_address (b : nat) (version : Z) : K Z :=
  if bool_decide (version = 2) then request_be b 2 8 else request_be b 2 4.
Definition request_length (b : nat) (version : Z) : K Z :=
  if bool_decide (version = 2) then request_be b 10 4 else request_be b 6 4.

(** The packets of a download. *)
Fixpoint download_loop (n : nat) (conn : nat) (address length count : Z) : ST (stack * pstate) () :=
  match n with
  | O => ub
  | S n' =>
      if bool_decide (count < length) then
        active ← on_fst (csp_conn_is_active conn);
        if negb active then mret () else
        r ← on_fst (liftC csp_buffer_get);
        match r with
        | None => mret ()
        | Some b =>
            let len := Z.min VMEM_SERVER_MTU (u32 (length - count)) in
            on_fst (kmod_packet b (set_pk_length (u16 len)));;
            data ← on_snd (vmem_memcpy_from (u64 (address + count)) len);
            on_fst (data_store b 0 data);;
            on_fst (csp_send fuel (Some conn) (Some b));;
            download_loop n' conn address length (u32 (count + len))
        end
      else mret ()
  end.

(** The packets of an upload, until none arrives in time. *)
Fixpoint upload_loop (n : nat) (conn : nat) (address count : Z) : ST (stack * pstate) () :=
  match n with
  | O => ub
  | S n' =>
      r ← on_fst (csp_read (Some conn) VMEM_SERVER_TIMEOUT);
      match r with
      | None => mret ()
      | Some b =>
          p ← on_fst (kget_packet b);
          data ← lift_opt (data_read p 0 (pk_length p));
          on_snd (vmem_memcpy_to (u64 (address + count)) data);;
          on_fst (kfree (Some b));;
          upload_loop n' conn address (s32 (count + pk_length p))
      end
  end.

(** [vmem_calc_crc32] through the packet, which becomes the answer. *)
Definition serve_crc32 (conn b : nat) (address length : Z) : ST (stack * pstate) () :=
  buffer ← on_fst (data_from b 0);
  '(crc, buffer) ← on_snd (vmem_calc_crc32 address length buffer VMEM_SERVER_MTU);
  on_fst (data_store b 0 buffer);;
  on_fst (data_store b 0 (be_bytes 4 crc));;
  on_fst (kmod_packet b (set_pk_length 4));;
  on_fst (csp_send fuel (Some conn) (Some b)).

(** The list of the [vmem]s; another version leaves the packet as it is. *)
Definition serve_list (conn b : nat) (version : Z) : ST (stack * pstate) () :=
  when (bool_decide (version = 1 ∨ version = 2)) (
    s ← get;
    let entries := concat (imap (vmem_list_entry version) (ps_vmem s.2)) in
    on_fst (data_store b 0 entries);;
    on_fst (kmod_packet b (set_pk_length (u16 (Z.of_nat (List.length entries))))));;
  on_fst (csp_send fuel (Some conn) (Some b)).

(** Backup and restore: the drivers of the program have neither.  The descriptor is not
    looked at for a backup while the server is locked. *)
Definition serve_backup (conn b : nat) (restore : bool) : ST (stack * pstate) () :=
  id ← on_fst (request_be b 2 1);
  looked ← (if restore then mret true else u ← on_snd get_unlocked; mret (bool_decide (u = 1)));
  when looked (on_snd (vmem_index_to_ptr id);; mret ());;
  on_fst (data_store b 0 [u8 (if restore then -3 else -4)]);;
  on_fst (kmod_packet b (set_pk_length 1));;
  on_fst (csp_send fuel (Some conn) (Some b)).

Definition UNLOCK_CODE : Z := 0x28140360.

(** The unlock dialogue. *)
Definition serve_unlock (conn b : nat) : ST (stack * pstate) () :=
  code ← on_fst (request_be b 2 4);
  if bool_decide (code ≠ UNLOCK_CODE) then on_fst (kfree (Some b)) else
  seed ← on_fst csp_get_ms;
  let verification_sequence := u32 (rand_r seed) in
  on_fst (data_store b 2 (be_bytes 4 verification_sequence));;
  on_fst (csp_send fuel (Some conn) (Some b));;
  r ← on_fst (csp_read (Some conn) 30000);
  match r with
  | None => mret ()
  | Some b =>
      code ← on_fst (request_be b 2 4);
      let ok := bool_decide (code = verification_sequence) in
      on_snd (set_unlocked (if ok then 1 else 0));;
      on_fst (data_store b 2 (be_bytes 4 (if ok then 0 else 0xFFFFFFFF)));;
      on_fst (csp_send fuel (Some conn) (Some b))
  end.

Definition vmem_server_handler (conn : nat) : ST (stack * pstate) () :=
  r ← on_fst (csp_read (Some conn) VMEM_SERVER_TIMEOUT);
  match r with
  | None => mret ()
  | Some b =>
      version ← on_fst (data_byte b 0);
      type ← on_fst (data_byte b 1);
      if bool_decide (type = VMEM_SERVER_DOWNLOAD ∨ type = VMEM_SERVER_CALCULATE_CRC32) then
        address ← on_fst (request_address b version);
        length ← on_fst (request_length b version);
        if bool_decide (type = VMEM_SERVER_DOWNLOAD) then
          on_fst (kfree (Some b));;
          download_loop (S (Z.to_nat length)) conn address length 0
        else serve_crc32 conn b address length
      else if bool_decide (type = VMEM_SERVER_UPLOAD) then
        address ← on_fst (request_address b version);
        on_fst (kfree (Some b));;
        upload_loop fuel conn address 0
      else if bool_decide (type = VMEM_SERVER_LIST) then serve_list conn b version
      else if bool_decide (type = VMEM_SERVER_RESTORE ∨ type = VMEM_SERVER_BACKUP) then
        serve_backup conn b (bool_decide (type = VMEM_SERVER_RESTORE))
      else if bool_decide (type = VMEM_SERVER_UNLOCK) then serve_unlock conn b
      else on_fst (kfree (Some b))
  end.

(** ** The list of the parameters *)

(** The fields of [param_transfer3_t] before [help]. *)
Definition transfer3_head (p : param_t) (storage : Z) : list Z :=
  be_bytes 2 (p_id p) ++ be_bytes 2 (p_node p) ++ [u8 (param_type_to_Z (p_type p)); u8 (p_array_size p)]
  ++ be_bytes 4 (p_mask p) ++ (strncpy 35 (p_name p) ++ [0]) ++ [u8 storage]
  ++ match p_unit p with Some u => strncpy 9 u ++ [0] | None => replicate 10 0 end.

Definition storage_of (p : param_t) : ST pstate Z :=
  match p_vmem p with
  | Some n => v ← get_vmem n; mret (v_type v)
  | None => mret 0
  end.

(** [strnlen(docstr, 149)] characters of the description. *)
Definition transfer3_help (p : param_t) : list Z := match p_docstr p with Some d => take 149 d | None => [] end.

Fixpoint rparam_list_loop (n : nat) (conn : nat) (it : param_list_iterator) : ST (stack * pstate) () :=
  match n with
  | O => ub
  | S n' =>
      '(r, it) ← on_snd (param_list_iterate it);
      match r with
      | None => mret ()
      | Some a =>
          r ← on_fst (liftC csp_buffer_get);
          match r with
          | None => mret ()
          | Some b =>
              on_fst (data_store b 0 (replicate 256 0));;
              p ← on_snd (get_param a);
              storage ← on_snd (storage_of p);
              on_fst (data_store b 0 (transfer3_head p storage ++ transfer3_help p));;
              on_fst (kmod_packet b (set_pk_length (57 + Z.of_nat (List.length (transfer3_help p)) + 1)));;
              on_fst (csp_send fuel (Some conn) (Some b));;
              rparam_list_loop n' conn it
          end
      end
  end.

Definition rparam_list_handler (conn : nat) : ST (stack * pstate) () :=
  s ← get; rparam_list_loop (list_fuel s.2) conn iterator_init.

(** One round of [vmem_server_loop] on its socket, and what it does before. *)
Definition vmem_server_setup (socket : nat) : K () :=
  csp_bind (Some socket) VMEM_PORT_SERVER;;
  csp_bind (Some socket) PARAM_PORT_LIST;;
  csp_listen socket 10;; mret ().

Definition CSP_MAX_DELAY : Z := 0xFFFFFFFF.

Definition vmem_server_round (socket : nat) : ST (stack * pstate) () :=
  r ← on_fst (csp_accept (Some socket) CSP_MAX_DELAY);
  match r with
  | None => mret ()
  | Some conn =>
      port ← on_fst (csp_conn_dport conn);
      (if bool_decide (port = VMEM_PORT_SERVER) then vmem_server_handler conn
       else if bool_decide (port = PARAM_PORT_LIST) then rparam_list_handler conn
       else mret ());;
      on_fst (csp_close (Some conn));;
      mret ()
  end.
End VmemServer.

(** ** The lock *)

Section Lock.
Context `{Env} `{ParamEnv}.
Implicit Types (s : stack) (t : pstate).

Lemma on_fst_inv {S T A} (m : ST S A) (x : S * T) a x' :
  on_fst m x = Some (a, x') → ∃ y, m x.1 = Some (a, y) ∧ x' = (y, x.2).
Proof. unfold on_fst. destruct (m x.1) as [[a0 y]|]; [|done]. intros [= -> <-]. by exists y. Qed.

Lemma keep_inv {S A} (m : ST S A) (u u' : Z) x x' : (m;; mret u) x = Some (u', x') → u' = u.
Proof. intros (? & ? & _ & [= <- _])%ST_bind_Some. done. Qed.

Lemma kget_inv b s p s' : kget_packet b s = Some (p, s') → s' = s.
Proof.
  unfold kget_packet, liftC, get_packet, get_skbf, fmap, ST_fmap, lift_opt.
  destruct (c_pool (k_core s) !! b) as [k|]; [|done]. cbn. intros [= _ <-]. apply set_k_core_id.
Qed.

Lemma request_be_inv b off n s v s' :
  request_be b off n s = Some (v, s') →
  s' = s ∧ ∃ p bs, kget_packet b s = Some (p, s) ∧ data_read p off n = Some bs ∧ v = be_val bs.
Proof.
  unfold request_be. intros (p & s1 & Hp & Hr)%ST_bind_Some. pose proof (kget_inv _ _ _ _ Hp) as ->.
  apply ST_bind_Some in Hr as (bs & s2 & Hb & Hv). revert Hb. unfold lift_opt.
  destruct (data_read p off n) as [bs'|] eqn:Hd; [|done]. intros [= -> <-]. injection Hv as <- <-.
  split; [done|]. by exists p, bs.
Qed.

(** ** Requests that leave the lock alone *)

(** The lock is [v], no [vmem] contains it. *)
Definition lock_apart (blk : nat) (v : option (list Z)) t : Prop :=
  ps_ram t !! blk = v ∧ Forall (λ vm, vmem_block vm ≠ blk) (ps_vmem t).

Lemma ram_read_invariant P blk off len : invariant P (ram_read blk off len).
Proof. by intros t bs t' Ht (-> & _)%ram_read_inv. Qed.

Lemma ram_write_invariant blk v blk' off bs : blk' ≠ blk → invariant (lock_apart blk v) (ram_write blk' off bs).
Proof.
  intros Hne t [] t' [Hr Hv]. unfold ram_write. st_red. destruct (ps_ram t !! blk') as [m|]; [|done]. st_red.
  destruct (mem_write m off bs) as [m'|]; [|done]. intros [= <-]. split; [|done]. cbn. by rewrite lookup_insert_ne.
Qed.

Lemma vmem_read_invariant P vm addr len : invariant P (vmem_read vm addr len).
Proof. rewrite vmem_read_block. apply ram_read_invariant. Qed.

Lemma vmem_write_invariant blk v vm addr bs : vmem_block vm ≠ blk → invariant (lock_apart blk v) (vmem_write vm addr bs).
Proof.
  unfold vmem_write, vmem_block, vmem_file_write. intros Hne. destruct (v_driver vm) as [b|b fn]; [by apply ram_write_invariant|].
  apply invariant_bind; [by apply ram_write_invariant|]. intros []. destruct (fopen_w_ok fn).
  - apply invariant_bind; [apply ram_read_invariant|]. intros content t ? ? [Hr Hv] [= _ <-]. by split.
  - intros t ? ? [Hr Hv] [= _ <-]. by split.
Qed.

Lemma vmem_lookup_elem vms p size vm : vmem_lookup vms p size = Some vm → vm ∈ vms.
Proof.
  induction vms as [|w vms IH]; [done|]. cbn [vmem_lookup]. destruct (vmem_covers w p size); [intros [= ->]; left|right; by apply IH].
Qed.

Lemma vmem_memcpy_from_invariant P from size : invariant P (vmem_memcpy_from from size).
Proof.
  unfold vmem_memcpy_from. apply invariant_bind; [apply invariant_get|]. intros s. case_match; [apply vmem_read_invariant|].
  apply invariant_bind; [apply invariant_lift_opt|]. intros [blk off]. apply ram_read_invariant.
Qed.

Lemma vmem_memcpy_to_invariant blk v to bs :
  (∀ a blk' off, ptr_block a = Some (blk', off) → blk' ≠ blk) → invariant (lock_apart blk v) (vmem_memcpy_to to bs).
Proof.
  intros Hptr t [] t' Ht. unfold vmem_memcpy_to. run (eq_refl : get t = Some (t, t)).
  destruct (vmem_lookup _ _ _) as [vm|] eqn:Hl.
  - apply vmem_write_invariant; [|done]. destruct Ht as [_ Ht]. rewrite Forall_forall in Ht. by apply Ht, (vmem_lookup_elem _ _ _ _ Hl).
  - destruct (ptr_block to) as [[blk' off]|] eqn:Hp; [|done]. run (eq_refl : lift_opt (Some (blk', off)) t = _).
    apply ram_write_invariant; [by apply (Hptr to _ off)|done].
Qed.

#[local] Hint Resolve ram_read_invariant vmem_memcpy_from_invariant : invariance.

Lemma download_invariant P fuel conn address length : ∀ n count,
  invariant (λ x : stack * pstate, P x.2) (download_loop fuel n conn address length count).
Proof. induction n as [|n IH]; intros count; cbn [download_loop]; invariance. Qed.

Lemma upload_invariant blk v conn address : ∀ n count,
  (∀ a blk' off, ptr_block a = Some (blk', off) → blk' ≠ blk) →
  invariant (λ x : stack * pstate, lock_apart blk v x.2) (upload_loop n conn address count).
Proof.
  intros n count Hp. pose proof (λ to bs, vmem_memcpy_to_invariant blk v to bs Hp) as Hto. revert count.
  induction n as [|n IH]; intros count; cbn [upload_loop]; invariance.
Qed.

Lemma crc32_invariant P addr len bl : ∀ n count crc buffer, invariant P (crc32_loop n addr len count crc buffer bl).
Proof. induction n as [|n IH]; intros count crc buffer; cbn [crc32_loop]; invariance. Qed.
End Lock.

(** The code of an unlock request. *)
Definition request_code (p : csp_packet_t) : option Z := be_val <$> data_read p 2 4.

(** [unlocked = value] *)
Definition with_unlocked (blk : nat) (value : Z) (t : pstate) : pstate :=
  with_ram (<[blk := le_bytes 4 value]> (ps_ram t)) t.

Section Dialogue.
Context `{Env} `{ParamEnv}.
Implicit Types (s : stack) (t : pstate) (l : list nat) (b c : nat).

Lemma set_unlocked_run blk t m value :
  ps_ram t !! blk = Some m → List.length m = 4%nat → set_unlocked blk value t = Some ((), with_unlocked blk value t).
Proof.
  intros Hm Hl. unfold set_unlocked, ram_write. st_red. rewrite Hm. st_red.
  assert (Hw : mem_write m 0 (le_bytes 4 value) = Some (le_bytes 4 value)).
  { apply mem_write_Some. rewrite length_le_bytes, Hl. split_and!; [lia..|]. cbn [Z.to_nat take app Nat.add].
    by rewrite drop_ge, app_nil_r by lia. }
  by rewrite Hw.
Qed.

Lemma request_be_reads s b k off n :
  c_pool (k_core s) !! b = Some k → packet_ok (skbf_data k) → 0 ≤ off → 0 ≤ n → off + n ≤ CSP_BUFFER_SIZE →
  ∃ bs, data_read (skbf_data k) off n = Some bs ∧ request_be b off n s = Some (be_val bs, s).
Proof.
  intros Hk Hok H1 H2 H3. destruct (data_read_is_Some (skbf_data k) off n Hok H1 H2 H3) as [bs Hr]. exists bs. split; [done|].
  unfold request_be. run (kget_run s b k Hk). by run (lift_opt_run_gen _ _ s Hr).
Qed.

(** Answering on the connection with a code in the request's packet. *)
Lemma answer_code l s c x b k code fuel :
  session l s c x → c_pool (k_core s) !! b = Some k → sendable s b → b ∉ omap id (fq_items (cn_rx_queue x)) →
  ∃ s1 s2 y, data_store b 2 (be_bytes 4 code) s = Some ((), s1) ∧ csp_send fuel (Some c) (Some b) s1 = Some ((), s2) ∧ session l s2 c y.
Proof.
  intros Hs Hk Hsb Hnq. pose proof (bi_pool _ (ne_inv _ _ (se_env _ _ _ _ Hs)) _ _ Hk) as (_ & Hok & _).
  destruct (data_write_is_Some (skbf_data k) 2 (be_bytes 4 code) Hok) as [p Hw]; [lia|rewrite length_be_bytes; sizes; lia|].
  pose proof (data_write_ok _ _ _ _ Hok (be_bytes_ok 4 code) Hw) as Hp. pose proof Hw as (m & _ & Ep)%data_write_Some.
  destruct Hsb as (k' & Hk' & Hrc & Hlen). rewrite Hk in Hk'. injection Hk' as <-.
  destruct (kput_step s b k p (ne_inv _ _ (se_env _ _ _ _ Hs)) Hk Hp) as (s1 & Hput & St & Hc & Hk1).
  assert (Hs1 : session l s1 c x) by (apply (session_net _ _ _ _ _ _ _ Hs St Hc); by intros b' [= <-]).
  destruct (session_send l s1 c x b fuel Hs1) as (s2 & y & new & Hsend & Hs2 & _); [|done|].
  { eexists. split; [exact Hk1|]. split; [done|]. by subst p. }
  exists s1, s2, y. split; [|done]. unfold data_store. run (kget_run s b k Hk). by run (lift_opt_run_gen _ _ s Hw).
Qed.

(** What an unlock request does to the lock: nothing without the right code or an answer;
    otherwise the answer decides. *)
Definition unlock_outcome (fuel blk : nat) c b s1 (p : csp_packet_t) t t' : Prop :=
  let number := u32 (rand_r (c_now (k_core s1))) in
  request_code p ≠ Some UNLOCK_CODE ∧ t' = t ∨
  request_code p = Some UNLOCK_CODE ∧
  ∃ s2 r s3, (data_store b 2 (be_bytes 4 number);; csp_send fuel (Some c) (Some b)) s1 = Some ((), s2) ∧
    csp_read (Some c) 30000 s2 = Some (r, s3) ∧
    match r with
    | None => t' = t
    | Some b2 => ∃ k2, c_pool (k_core s3) !! b2 = Some k2 ∧
        t' = with_unlocked blk (if bool_decide (request_code (skbf_data k2) = Some number) then 1 else 0) t
    end.

Lemma serve_unlock_run l s c x b k t m fuel blk :
  session l s c x → c_pool (k_core s) !! b = Some k → sendable s b → b ∉ omap id (fq_items (cn_rx_queue x)) →
  tasks_deliver l (λ _, True) → ps_ram t !! blk = Some m → List.length m = 4%nat →
  ∃ s' t' y, serve_unlock fuel blk c b (s, t) = Some ((), (s', t')) ∧ session l s' c y ∧
    unlock_outcome fuel blk c b s (skbf_data k) t t'.
Proof.
  intros Hs Hk Hsb Hnq Ht Hm Hl. pose proof (bi_pool _ (ne_inv _ _ (se_env _ _ _ _ Hs)) _ _ Hk) as (_ & Hok & _).
  destruct (request_be_reads s b k 2 4 Hk Hok) as (bs & Hbs & Hr); [lia|lia|sizes; lia|].
  assert (Hcode : request_code (skbf_data k) = Some (be_val bs)) by (unfold request_code; by rewrite Hbs).
  unfold serve_unlock, unlock_outcome. rewrite Hcode. run (on_fst_run _ s _ _ t Hr). case_bool_decide as Hc.
  { destruct (kfree_step s b (ne_inv _ _ (se_env _ _ _ _ Hs)) (sendable_owned _ _ Hsb)) as (s1 & Hf & St & _ & Hcs).
    exists s1, t, x. split; [by apply on_fst_run|]. split; [apply (session_net _ _ _ _ _ _ _ Hs St Hcs); by intros b' [= <-]|].
    left. split; [congruence|done]. }
  run (on_fst_run csp_get_ms s _ _ t eq_refl). set (number := u32 _).
  destruct (answer_code l s c x b k number fuel Hs Hk Hsb Hnq) as (s1 & s2 & y & R1 & R2 & Hs2).
  run (on_fst_run _ s _ _ t R1). run (on_fst_run _ s1 _ _ t R2).
  destruct (next_packet l s2 c y 30000 (λ _, True) Ht Hs2 ltac:(done)) as (r & s3 & y3 & R3 & Hs3 & _ & Hb). run (on_fst_run _ s2 _ _ t R3).
  assert (Hsent : (data_store b 2 (be_bytes 4 number);; csp_send fuel (Some c) (Some b)) s = Some ((), s2)) by (by run R1).
  destruct r as [b2|]; [|exists s3, t, y3; split; [done|]; split; [done|]; right; split; [congruence|]; by exists s2, None, s3].
  destruct Hb as (Hsb2 & Hnq2 & _). pose proof Hsb2 as (k2 & Hk2 & _). pose proof (bi_pool _ (ne_inv _ _ (se_env _ _ _ _ Hs3)) _ _ Hk2) as (_ & Hok2 & _).
  destruct (request_be_reads s3 b2 k2 2 4 Hk2 Hok2) as (bs2 & Hbs2 & Hr2); [lia|lia|sizes; lia|]. run (on_fst_run _ s3 _ _ t Hr2).
  run (on_snd_run _ t _ _ s3 (set_unlocked_run blk t m (if bool_decide (be_val bs2 = number) then 1 else 0) Hm Hl)).
  destruct (answer_code l s3 c y3 b2 k2 (if bool_decide (be_val bs2 = number) then 0 else 0xFFFFFFFF) fuel Hs3 Hk2 Hsb2 Hnq2)
    as (s4 & s5 & y5 & R4 & R5 & Hs5).
  set (t' := with_unlocked _ _ _). run (on_fst_run _ s3 _ _ t' R4). exists s5, t', y5. split; [by apply on_fst_run|]. split; [done|].
  right. split; [congruence|]. exists s2, (Some b2), s3. split; [done|]. split; [done|]. exists k2. split; [done|]. subst t'.
  unfold request_code. rewrite Hbs2. do 2 f_equal. simpl. by rewrite (bool_decide_ext (Some (be_val bs2) = Some number) (be_val bs2 = number)) by (split; congruence).
Qed.
End Dialogue.

(** C27: Who opens the lock of the vmem server.  (1) An unlock request that waits on a
    connection without RDP is carried through, whatever packets arrive meanwhile: with a
    wrong code, or when no packet answers the server's number in time, the lock stays as it
    is; otherwise it is open exactly when the answer returns the number [rand_r] gave for the
    time of the request, and closed when it does not.  (2) Every other request keeps the lock,
    provided the variable lies in no [vmem] and the request is not an upload through an
    address that refers to it; [upload_opens_lock] shows that such an upload opens it without
    any code. *)
Theorem vmem_server_unlock_dialogue `{Env} `{ParamEnv} (l : list nat) (s : stack) (t : pstate) (c b fuel blk : nat) (x : csp_conn_t)
    (rest : list (option nat)) (k : csp_skbf_t) (type : Z) (m : list Z) :
  session l s c x → fq_items (cn_rx_queue x) = Some b :: rest → c_pool (k_core s) !! b = Some k →
  data_read (skbf_data k) 1 1 = Some [type] → ps_ram t !! blk = Some m → List.length m = 4%nat →
  (type = VMEM_SERVER_UNLOCK → tasks_deliver l (λ _, True) →
   ∃ s1 s' t' y, csp_read (Some c) VMEM_SERVER_TIMEOUT s = Some (Some b, s1) ∧
     vmem_server_handler fuel blk c (s, t) = Some ((), (s', t')) ∧ session l s' c y ∧
     unlock_outcome fuel blk c b s1 (skbf_data k) t t') ∧
  (type ≠ VMEM_SERVER_UNLOCK → Forall (λ vm, vmem_block vm ≠ blk) (ps_vmem t) →
   (type = VMEM_SERVER_UPLOAD → ∀ a blk' off, ptr_block a = Some (blk', off) → blk' ≠ blk) →
   ∀ s' t', vmem_server_handler fuel blk c (s, t) = Some ((), (s', t')) → ps_ram t' !! blk = Some m).
Proof.
  intros Hs Hq Hk Hty Hm Hl. destruct (read_first l s c x b rest VMEM_SERVER_TIMEOUT Hs Hq) as (s1 & y & R & Hs1 & Hcore & Hy & Hsb & Hnq).
  pose proof (bi_pool _ (ne_inv _ _ (se_env _ _ _ _ Hs)) _ _ Hk) as (_ & Hok & _).
  assert (Hk1 : c_pool (k_core s1) !! b = Some k) by (by rewrite Hcore).
  destruct (request_be_reads s1 b k 0 1 Hk1 Hok) as (v0 & _ & Hv0); [lia|lia|sizes; lia|].
  assert (Hv1 : data_byte b 1 s1 = Some (type, s1)) by (unfold data_byte; run (kget_run s1 b k Hk1); by run (lift_opt_run_gen _ _ s1 Hty)).
  unfold vmem_server_handler. rewrite !(ST_bind_run _ _ _ _ _ (on_fst_run _ s _ _ t R)). cbv iota.
  change (request_be b 0 1) with (data_byte b 0) in Hv0.
  rewrite !(ST_bind_run _ _ _ _ _ (on_fst_run _ s1 _ _ t Hv0)), !(ST_bind_run _ _ _ _ _ (on_fst_run _ s1 _ _ t Hv1)). split.
  - intros -> Ht. destruct (serve_unlock_run l s1 c y b k t m fuel blk Hs1 Hk1 Hsb ltac:(by rewrite Hy) Ht Hm Hl) as (s' & t' & y' & R' & Hs' & Ho).
    by exists s1, s', t', y'.
  - intros Hne Hap Hup s' t' Hr. set (P := lock_apart blk (Some m)).
    enough (Hinv : P t') by apply Hinv.
    refine (invariant_run (λ z : stack * pstate, P z.2) _ (s1, t) () (s', t') _ ltac:(by split) Hr).
    case_bool_decide.
    { unfold request_address, request_length, serve_crc32, vmem_calc_crc32. pose proof (crc32_invariant P) as Hcrc.
      pose proof (download_invariant P fuel c) as Hdl. invariance. }
    case_bool_decide as Hu.
    { pose proof (upload_invariant blk (Some m) c) as Hul. specialize (Hup Hu). unfold request_address. invariance; by apply Hul. }
    unfold serve_list, serve_backup, get_unlocked, vmem_index_to_ptr. pose proof (ram_read_invariant P) as Hrd.
    rewrite (bool_decide_false (type = VMEM_SERVER_UNLOCK)) by done. invariance.
Qed.

(** ** Examples *)

#[local] Existing Instance env_example.

(** Two packets on a connection of the example stack. *)
Definition packet_of (bytes : list Z) : csp_packet_t :=
  set_pk_length (Z.of_nat (List.length bytes)) (default empty_packet (data_write empty_packet 0 bytes)).
Definition server_example (p1 p2 : csp_packet_t) : stack :=
  match (liftC csp_buffer_get;; kput_packet 0 p1;; kput_packet 1 p2) net_example with
  | Some (_, s) => set_k_conns [with_rx [0%nat; 1%nat] (rdp_example 0)] s
  | None => net_example
  end.

Lemma packet_of_ok bytes : bytes_ok bytes → (List.length bytes ≤ 2048)%nat → packet_ok (packet_of bytes).
Proof.
  intros Hb Hl. unfold packet_of. destruct (data_write_is_Some empty_packet 0 bytes empty_packet_ok) as [p Hw]; [lia|sizes; lia|].
  rewrite Hw. cbn [default]. pose proof (data_write_ok _ _ _ _ empty_packet_ok Hb Hw) as []. split; try done. unfold is_u16. cbn. lia.
Qed.

Lemma server_example_session p1 p2 :
  packet_ok p1 → packet_ok p2 → pk_length p1 ≤ CSP_BUFFER_SIZE → pk_length p2 ≤ CSP_BUFFER_SIZE →
  session [0%nat; 1%nat] (server_example p1 p2) 0 (with_rx [0%nat; 1%nat] (rdp_example 0)) ∧
  ∃ k1 k2, c_pool (k_core (server_example p1 p2)) !! 0%nat = Some k1 ∧ skbf_data k1 = p1 ∧
    c_pool (k_core (server_example p1 p2)) !! 1%nat = Some k2 ∧ skbf_data k2 = p2.
Proof.
  intros Hp1 Hp2 Hl1 Hl2. destruct net_example_ok as [He (k0 & Hk0 & Hr0 & _)].
  destruct (buffer_get_step _ net_example He) as (b & k & s1 & Hg & He1 & St & Hk & Hrk & _ & _ & _); [vm_compute; discriminate|].
  assert (b = 1%nat) as -> by (clear - Hg; vm_compute in Hg; congruence).
  assert (Hk0' : c_pool (k_core s1) !! 0%nat = Some k0) by (rewrite (ns_kept _ _ _ _ St); [done|done|exists k0; split; [done|lia]]).
  destruct (kput_step s1 0 k0 p1 (ne_inv _ _ He1) Hk0' Hp1) as (s2 & Hput1 & St1 & _ & Hq0).
  pose proof (net_env_step _ _ _ _ _ St1 He1) as He2.
  assert (Hk1 : c_pool (k_core s2) !! 1%nat = Some k) by (rewrite (ns_kept _ _ _ _ St1); [done|done|exists k; split; [done|lia]]).
  destruct (kput_step s2 1 k p2 (ne_inv _ _ He2) Hk1 Hp2) as (s3 & Hput2 & St2 & _ & Hq1).
  assert (Hq0' : c_pool (k_core s3) !! 0%nat = Some (mk_skbf (refcount k0) (skbf_addr k0) p1))
    by (rewrite (ns_kept _ _ _ _ St2); [done|done|eexists; split; [exact Hq0|simpl; lia]]).
  assert (Hs : server_example p1 p2 = set_k_conns [with_rx [0%nat; 1%nat] (rdp_example 0)] s3).
  { unfold server_example. run Hg. run Hput1. by rewrite Hput2. }
  rewrite Hs. split; [|by eexists _, _].
  split; try done; [by apply net_env_set_conns, (net_env_step _ _ _ _ _ St2)|].
  exists [0%nat; 1%nat]. split; [done|]. split; [apply (bool_decide_unpack _); vm_compute; done|].
  intros b [->|[->|[]%not_elem_of_nil]%elem_of_cons]%elem_of_cons; eexists; (split; [eassumption|]); done.
Qed.

(** The lock in a block of its own, to which the pointer [0x601000] refers. *)
Definition lock_state : pstate := with_ram {[ 0%nat := replicate 16 0; 7%nat := [0; 0; 0; 0] ]} example_state.
Definition lock_env : ParamEnv := {|
  fopen_w_ok _ := true; ParamState.run_callback _ _ _ := mret (); calloc_block _ := None; have_critical := false;
  indeterminate := 0; ptr_block a := if bool_decide (0x601000 ≤ a < 0x601004) then Some (7%nat, a - 0x601000) else None |}.
#[local] Existing Instance lock_env.

Definition unlock_packet (code : Z) : csp_packet_t := packet_of ([2; VMEM_SERVER_UNLOCK] ++ be_bytes 4 code).

(** The unlock code at time 0, and the number [rand_r] gives for it. *)
Lemma vmem_server_unlock_dialogue_witness :
  ∃ s', vmem_server_handler 1 7 0 (server_example (unlock_packet UNLOCK_CODE) (unlock_packet 0), lock_state) =
    Some ((), (s', with_unlocked 7 1 lock_state)).
Proof.
  destruct (server_example_session (unlock_packet UNLOCK_CODE) (unlock_packet 0)) as (Hs & k1 & k2 & Hk1 & Hp1 & Hk2 & Hp2);
    [apply packet_of_ok; [apply (bool_decide_unpack _)|]; vm_compute; first [done|lia]..|vm_compute; congruence|vm_compute; congruence|].
  destruct (vmem_server_unlock_dialogue [0%nat; 1%nat] (server_example (unlock_packet UNLOCK_CODE) (unlock_packet 0)) lock_state 0 0 1 7
    _ [Some 1%nat] k1 VMEM_SERVER_UNLOCK [0; 0; 0; 0] Hs) as [Hun _].
  - reflexivity.
  - exact Hk1.
  - rewrite Hp1. vm_compute. reflexivity.
  - vm_compute. reflexivity.
  - reflexivity.
  - destruct Hun as (s1 & s' & t' & y & _ & R & _ & _); [done| |].
    + intros s c x Hsx _. exists (cn_rx_queue x). split; [by destruct x|done].
    + exists s'. rewrite R. do 3 f_equal. revert R. vm_compute. by intros [= _ <-].
Defined.

(** An upload of the number 1 to the address of the lock opens it. *)
Lemma upload_opens_lock :
  ∃ s', vmem_server_handler 2 7 0 (server_example (packet_of ([2; VMEM_SERVER_UPLOAD] ++ be_bytes 8 0x601000))
      (packet_of [1; 0; 0; 0]), lock_state) = Some ((), (s', with_unlocked 7 1 lock_state)).
Proof. eexists. vm_compute. reflexivity. Qed.
