(* ===== verification/Services.v ===== *)
(** * The CSP services

    [csp_service_handler.c], which answers requests on the reserved ports, with the hooks of
    [arch/posix/csp_system.c], [csp_clock.c] and [csp_time.c].  A handler works on the stack
    and on the rest of the system: the memory of the process outside the stack, which peek
    and poke address directly, and the calls made to the operating system. *)

From stdpp Require Import strings.
From S2P Require Import Types Queue Id State Buffer Rtable Iflist Stack Net Rdp Conn Io ParamState ParamServer VmemServer Prelude.

Definition CSP_CMP : Z := 0.
Definition CSP_PING : Z := 1.
Definition CSP_PS : Z := 2.
Definition CSP_MEMFREE : Z := 3.
Definition CSP_REBOOT : Z := 4.
Definition CSP_BUF_FREE : Z := 5.
Definition CSP_UPTIME : Z := 6.

Definition CSP_CMP_REQUEST : Z := 0x00.
Definition CSP_CMP_REPLY : Z := 0xff.
Definition CSP_CMP_IDENT : Z := 1.
Definition CSP_CMP_ROUTE_SET_V1 : Z := 2.
Definition CSP_CMP_IF_STATS : Z := 3.
Definition CSP_CMP_PEEK : Z := 4.
Definition CSP_CMP_POKE : Z := 5.
Definition CSP_CMP_CLOCK : Z := 6.
Definition CSP_CMP_ROUTE_SET_V2 : Z := 7.

Definition CSP_CMP_IDENT_REV_LEN : nat := 20.
Definition CSP_CMP_IDENT_DATE_LEN : nat := 12.
Definition CSP_CMP_IDENT_TIME_LEN : nat := 9.
Definition CSP_HOSTNAME_LEN : nat := 20.
Definition CSP_MODEL_LEN : nat := 30.
Definition CSP_CMP_ROUTE_IFACE_LEN : Z := 11.
Definition CSP_CMP_PEEK_MAX_LEN : Z := 200.
Definition CSP_CMP_POKE_MAX_LEN : Z := 200.
Definition CSP_REBOOT_MAGIC : Z := 0x80078007.
Definition CSP_REBOOT_SHUTDOWN_MAGIC : Z := 0xD1E5529A.
Definition CSP_DBG_ERR_CLOCK_SET_FAIL : Z := 12.

(** [CMP_SIZE] of the members whose size a reply takes: the two bytes of the message, and
    the structure with its padding. *)
Definition CMP_SIZE_ident : Z := 2 + 91.
Definition CMP_SIZE_route_set_v1 : Z := 2 + 13.
Definition CMP_SIZE_route_set_v2 : Z := 2 + 18.
Definition CMP_SIZE_if_stats : Z := 2 + 51.

(** The strings of [csp_conf]. *)
Record csp_conf_t := mk_conf { conf_hostname : list Z; conf_model : list Z; conf_revision : list Z }.

Definition LINUX_REBOOT_CMD_RESTART : Z := 0x01234567.
Definition LINUX_REBOOT_CMD_HALT : Z := 0xCDEF0123.

Inductive os_call := OsClockSet (sec nsec : Z) | OsSync | OsReboot (cmd : Z).
Record sys_t := mk_sys { sy_mem : gmap Z Z; sy_os : list os_call }.
Definition set_sy_mem (m : gmap Z Z) (y : sys_t) : sys_t := mk_sys m (sy_os y).
Definition os (c : os_call) : ST sys_t () := modify (λ y, mk_sys (sy_mem y) (sy_os y ++ [c])).

(** What the operating system and the build provide: the clocks, after the calls made so
    far, and whether they can be set; [sysinfo]'s free memory and its unit; [__DATE__] and
    [__TIME__]. *)
Class SysEnv := {
  clock_realtime : list os_call → option (Z * Z);
  clock_settime_ok : list os_call → Z → Z → bool;
  clock_monotonic : stack → option (Z * Z);
  sysinfo : Z * Z;
  build_date : list Z;
  build_time : list Z;
}.

(** [memcpy] from and to addresses of the process; one that is not mapped is a fault. *)
Fixpoint mem_fetch (m : gmap Z Z) (addr : Z) (len : nat) : option (list Z) :=
  match len with
  | O => Some []
  | S len' => v ← m !! addr; vs ← mem_fetch m (addr + 1) len'; Some (v :: vs)
  end.
Fixpoint mem_place (m : gmap Z Z) (addr : Z) (bs : list Z) : option (gmap Z Z) :=
  match bs with
  | [] => Some m
  | v :: bs' => _ ← m !! addr; mem_place (<[addr := v]> m) (addr + 1) bs'
  end.

(** The characters of a name in a message; [strncmp] reads no more than ten. *)
Fixpoint name_of_bytes (bs : list Z) : string :=
  match bs with
  | [] => EmptyString
  | v :: bs' => if bool_decide (v = 0) then EmptyString else String (Ascii.ascii_of_nat (Z.to_nat v)) (name_of_bytes bs')
  end.

Section Services.
Context `{Env} `{SysEnv}.
Context (conf : csp_conf_t).

(** ** Hooks *)

Definition csp_clock_get_time : ST sys_t (Z * Z) :=
  y ← get;
  mret (match clock_realtime (sy_os y) with
        | Some (sec, nsec) => (u32 sec, u32 nsec)
        | None => (0, 0)
        end).

Definition csp_clock_set_time (sec nsec : Z) : ST sys_t Z :=
  y ← get;
  if clock_settime_ok (sy_os y) sec nsec then os (OsClockSet sec nsec);; mret CSP_ERR_NONE
  else mret CSP_ERR_INVAL.

Definition csp_get_s : K Z := s ← get; mret (match clock_monotonic s with Some (sec, _) => u32 sec | None => 0 end).

Definition csp_memfree_hook : Z := let '(freeram, mem_unit) := sysinfo in u32 (freeram * mem_unit).
Definition csp_ps_hook (b : nat) : K Z := mret 0.
Definition csp_reboot_hook : ST sys_t () := os OsSync;; os (OsReboot LINUX_REBOOT_CMD_RESTART).
Definition csp_shutdown_hook : ST sys_t () := os OsSync;; os (OsReboot LINUX_REBOOT_CMD_HALT).

(** ** The management protocol; the message is the data of packet [b] *)

(** [strncpy] into a field of [n] bytes at [off] and its last byte cleared. *)
Definition put_string (b : nat) (off : Z) (n : nat) (src : list Z) : K () :=
  data_store b off (strncpy n src);; data_store b (off + Z.of_nat n - 1) [0].

Definition do_cmp_ident (b : nat) : K Z :=
  put_string b 52 CSP_CMP_IDENT_REV_LEN (conf_revision conf);;
  put_string b 72 CSP_CMP_IDENT_DATE_LEN build_date;;
  put_string b 84 CSP_CMP_IDENT_TIME_LEN build_time;;
  put_string b 2 CSP_HOSTNAME_LEN (conf_hostname conf);;
  put_string b 22 CSP_MODEL_LEN (conf_model conf);;
  mret CSP_ERR_NONE.

(** [csp_iflist_get_by_name] of the name at [off]. *)
Definition iface_by_name (b : nat) (off : Z) : K (option nat) :=
  p ← kget_packet b;
  bs ← lift_opt (data_read p off CSP_CMP_ROUTE_IFACE_LEN);
  s ← get;
  lift_opt (csp_iflist_get_by_name (k_core s) (name_of_bytes bs)).

(** [csp_rtable_set] on the table of the stack. *)
Definition rtable_set (address netmask : Z) (ifc : option nat) (via : Z) : K Z :=
  s ← get;
  '(rc, t, e) ← lift_opt (csp_rtable_set (c_version (k_core s)) (k_rtable s) address netmask ifc via);
  modify (set_k_rtable t);;
  match e with Some e => liftC (errno e) | None => mret () end;;
  mret rc.

Definition do_cmp_route_set_v1 (b : nat) : K Z :=
  ifc ← iface_by_name b 4;
  if bool_decide (ifc = None) then mret CSP_ERR_INVAL else
  dest_node ← data_byte b 2;
  next_hop_via ← data_byte b 3;
  v ← conf_version;
  rc ← rtable_set dest_node (csp_id_get_host_bits v) ifc next_hop_via;
  mret (if bool_decide (rc ≠ CSP_ERR_NONE) then CSP_ERR_INVAL else CSP_ERR_NONE).

Definition do_cmp_route_set_v2 (b : nat) : K Z :=
  ifc ← iface_by_name b 8;
  if bool_decide (ifc = None) then mret CSP_ERR_INVAL else
  dest_node ← request_be b 2 2;
  netmask ← request_be b 6 2;
  next_hop_via ← request_be b 4 2;
  rc ← rtable_set dest_node netmask ifc next_hop_via;
  mret (if bool_decide (rc ≠ CSP_ERR_NONE) then CSP_ERR_INVAL else CSP_ERR_NONE).

(** The ten counters in the order of the message. *)
Definition iface_counters (f : csp_iface_t) : list Z :=
  [if_tx f; if_rx f; if_tx_error f; if_rx_error f; if_drop f; if_autherr f; if_frame f; if_txbytes f; if_rxbytes f; if_irq f].

Definition do_cmp_if_stats (b : nat) : K Z :=
  ifc ← iface_by_name b 2;
  match ifc with
  | None => mret CSP_ERR_INVAL
  | Some i =>
      f ← liftC (get_iface i);
      data_store b 13 (concat (be_bytes 4 <$> iface_counters f));;
      mret CSP_ERR_NONE
  end.

(** The address is turned into the order of the processor in place. *)
Definition do_cmp_peek (b : nat) : ST (stack * sys_t) Z :=
  addr ← on_fst (request_be b 2 4);
  on_fst (data_store b 2 (le_bytes 4 addr));;
  len ← on_fst (data_byte b 6);
  if bool_decide (CSP_CMP_PEEK_MAX_LEN < len) then mret CSP_ERR_INVAL else
  y ← on_snd get;
  data ← lift_opt (mem_fetch (sy_mem y) addr (Z.to_nat len));
  on_fst (data_store b 7 data);;
  mret CSP_ERR_NONE.

Definition do_cmp_poke (b : nat) : ST (stack * sys_t) Z :=
  addr ← on_fst (request_be b 2 4);
  on_fst (data_store b 2 (le_bytes 4 addr));;
  len ← on_fst (data_byte b 6);
  if bool_decide (CSP_CMP_POKE_MAX_LEN < len) then mret CSP_ERR_INVAL else
  p ← on_fst (kget_packet b);
  data ← lift_opt (data_read p 7 len);
  y ← on_snd get;
  m ← lift_opt (mem_place (sy_mem y) addr data);
  on_snd (modify (set_sy_mem m));;
  mret CSP_ERR_NONE.

Definition do_cmp_clock (b : nat) : ST (stack * sys_t) Z :=
  sec ← on_fst (request_be b 2 4);
  nsec ← on_fst (request_be b 6 4);
  res ← (if bool_decide (sec ≠ 0) then
           res ← on_snd (csp_clock_set_time sec nsec);
           when (bool_decide (res ≠ CSP_ERR_NONE)) (on_fst (liftC (errno CSP_DBG_ERR_CLOCK_SET_FAIL)));;
           mret res
         else mret CSP_ERR_NONE);
  '(sec, nsec) ← on_snd csp_clock_get_time;
  on_fst (data_store b 2 (be_bytes 4 sec));;
  on_fst (data_store b 6 (be_bytes 4 nsec));;
  mret res.

Definition set_length (b : nat) (n : Z) : ST (stack * sys_t) () := on_fst (kmod_packet b (set_pk_length n)).

Definition csp_cmp_handler (b : nat) : ST (stack * sys_t) Z :=
  type ← on_fst (data_byte b 0);
  if bool_decide (type ≠ CSP_CMP_REQUEST) then mret CSP_ERR_INVAL else
  code ← on_fst (data_byte b 1);
  ret ← (if bool_decide (code = CSP_CMP_IDENT) then
           ret ← on_fst (do_cmp_ident b); set_length b CMP_SIZE_ident;; mret ret
         else if bool_decide (code = CSP_CMP_ROUTE_SET_V1) then
           ret ← on_fst (do_cmp_route_set_v1 b); set_length b CMP_SIZE_route_set_v1;; mret ret
         else if bool_decide (code = CSP_CMP_ROUTE_SET_V2) then
           ret ← on_fst (do_cmp_route_set_v2 b); set_length b CMP_SIZE_route_set_v2;; mret ret
         else if bool_decide (code = CSP_CMP_IF_STATS) then
           ret ← on_fst (do_cmp_if_stats b); set_length b CMP_SIZE_if_stats;; mret ret
         else if bool_decide (code = CSP_CMP_PEEK) then do_cmp_peek b
         else if bool_decide (code = CSP_CMP_POKE) then do_cmp_poke b
         else if bool_decide (code = CSP_CMP_CLOCK) then do_cmp_clock b
         else mret CSP_ERR_INVAL);
  on_fst (data_store b 0 [CSP_CMP_REPLY]);;
  mret ret.

(** ** The handler *)

(** [memcpy(packet->data, &v, 4)] of a value in network order, and its length. *)
Definition put_word (b : nat) (v : Z) : ST (stack * sys_t) () :=
  on_fst (data_store b 0 (be_bytes 4 v));; set_length b 4.

Definition reply (b : nat) : ST (stack * sys_t) () := on_fst (csp_sendto_reply (Some b) b CSP_O_SAME).

Definition csp_service_handler (b : nat) : ST (stack * sys_t) () :=
  p ← on_fst (kget_packet b);
  let port := dport (pk_id p) in
  if bool_decide (port = CSP_CMP) then
    rc ← csp_cmp_handler b;
    if bool_decide (rc ≠ CSP_ERR_NONE) then on_fst (kfree (Some b)) else reply b
  else if bool_decide (port = CSP_PING) then reply b
  else if bool_decide (port = CSP_PS) then
    n ← on_fst (csp_ps_hook b);
    set_length b (u16 n);;
    when (bool_decide (u16 n = 0)) (on_fst (kfree (Some b)));;
    reply b
  else if bool_decide (port = CSP_MEMFREE) then put_word b csp_memfree_hook;; reply b
  else if bool_decide (port = CSP_REBOOT) then
    magic_word ← on_fst (request_be b 0 4);
    (if bool_decide (magic_word = CSP_REBOOT_MAGIC) then on_snd csp_reboot_hook
     else if bool_decide (magic_word = CSP_REBOOT_SHUTDOWN_MAGIC) then on_snd csp_shutdown_hook
     else mret ());;
    on_fst (kfree (Some b))
  else if bool_decide (port = CSP_BUF_FREE) then
    size ← on_fst (liftC csp_buffer_remaining); put_word b (u32 size);; reply b
  else if bool_decide (port = CSP_UPTIME) then
    time ← on_fst csp_get_s; put_word b time;; reply b
  else on_fst (kfree (Some b)).
End Services.
