(* ===== verification/ServicesShown.v ===== *)
(** * What the CSP services do

    Every request is answered or dropped, its buffer is released, and nothing else of the
    stack changes but the routing table; what is poked is peeked. *)

From stdpp Require Import strings.
From S2P Require Import Types Queue Id State Buffer Rtable Iflist Nexthop Hmac Stack Net Rdp Conn Io ParamState ParamServer ParamServed VmemServer Services Prelude.

(** ** Packets *)

(** Bounds of the fields of a message. *)
Ltac fits := first [lia | done | cbv; lia].

(** [p'] is [p] with other data. *)
Definition same_packet (p p' : csp_packet_t) : Prop :=
  packet_ok p' ∧ pk_id p' = pk_id p ∧ pk_length p' = pk_length p.

Lemma same_packet_trans p p1 p2 : same_packet p p1 → same_packet p1 p2 → same_packet p p2.
Proof. intros (? & ? & ?) (? & ? & ?). split; [done|]. split; congruence. Qed.

Lemma write_same p off bs :
  packet_ok p → bytes_ok bs → 0 ≤ off → off + Z.of_nat (List.length bs) ≤ CSP_BUFFER_SIZE →
  ∃ p', data_write p off bs = Some p' ∧ same_packet p p'.
Proof.
  intros Hp Hbs Ho Hl. destruct (data_write_is_Some p off bs Hp Ho Hl) as [p' Hw]. exists p'. split; [done|].
  split; [by eapply data_write_ok|]. apply data_write_Some in Hw as (m & _ & ->). done.
Qed.

Lemma read_some p off len :
  packet_ok p → 0 ≤ off → 0 ≤ len → off + len ≤ CSP_BUFFER_SIZE →
  ∃ bs, data_read p off len = Some bs ∧ bytes_ok bs ∧ Z.of_nat (List.length bs) = len.
Proof.
  intros Hp H1 H2 H3. destruct (data_read_is_Some p off len Hp H1 H2 H3) as [bs Hr]. exists bs. split; [done|].
  split; [by eapply data_read_bytes_ok|]. by apply mem_read_length in Hr; lia.
Qed.

Lemma length_strncpy n src : List.length (strncpy n src) = n.
Proof. unfold strncpy. rewrite length_take, length_app, length_replicate. lia. Qed.

Lemma strncpy_ok n src : bytes_ok src → bytes_ok (strncpy n src).
Proof. intros Hs. apply Forall_take, Forall_app. split; [done|]. by apply Forall_replicate. Qed.

Section Runs.
Context (s : stack) (b : nat) (k : csp_skbf_t).
Hypothesis Hk : c_pool (k_core s) !! b = Some k.
Implicit Types (p : csp_packet_t).

Lemma request_be_run off n bs p :
  data_read p off n = Some bs → request_be b off n (with_packet s b k p) = Some (be_val bs, with_packet s b k p).
Proof. intros Hr. unfold request_be. run (with_packet_get s b k Hk p). by run (lift_opt_run_gen _ _ (with_packet s b k p) Hr). Qed.

Lemma store_same off bs p :
  packet_ok p → bytes_ok bs → 0 ≤ off → off + Z.of_nat (List.length bs) ≤ CSP_BUFFER_SIZE →
  ∃ p', data_write p off bs = Some p' ∧ data_store b off bs (with_packet s b k p) = Some ((), with_packet s b k p') ∧ same_packet p p'.
Proof.
  intros. destruct (write_same p off bs) as (p' & Hw & Hs); [done..|]. exists p'. split; [done|]. split; [|done].
  by apply data_store_run.
Qed.

Lemma put_string_run off n src p :
  packet_ok p → bytes_ok src → 0 ≤ off → (0 < n)%nat → off + Z.of_nat n ≤ CSP_BUFFER_SIZE →
  ∃ p', put_string b off n src (with_packet s b k p) = Some ((), with_packet s b k p') ∧ same_packet p p'.
Proof.
  intros Hp Hsrc Ho Hn Hl. unfold put_string.
  destruct (store_same off (strncpy n src) p) as (p1 & _ & H1 & S1); [done|by apply strncpy_ok|done|by rewrite length_strncpy|].
  run H1. destruct (store_same (off + Z.of_nat n - 1) [0] p1) as (p2 & _ & H2 & S2); [apply S1|by repeat constructor|lia|cbn; lia|].
  exists p2. split; [done|]. by eapply same_packet_trans.
Qed.
End Runs.

(** ** The management protocol *)

(** Strings and memory hold bytes. *)
Definition conf_ok `{SysEnv} (conf : csp_conf_t) : Prop :=
  bytes_ok (conf_hostname conf) ∧ bytes_ok (conf_model conf) ∧ bytes_ok (conf_revision conf) ∧
  bytes_ok build_date ∧ bytes_ok build_time.
Definition sys_ok (y : sys_t) : Prop := map_Forall (λ _ v, is_u8 v) (sy_mem y).

(** The work on a request changed nothing of the stack but the routing table and counters;
    the buffers are as they were. *)
Record base_step `{Env} (l : list nat) (b : nat) (s s1 : stack) : Prop := {
  bs_env : net_env l s1;
  bs_pool : c_pool (k_core s1) = c_pool (k_core s);
  bs_step : net_step (Some b) [] (set_k_rtable (k_rtable s1) s) s1;
}.

Lemma base_refl `{Env} l b s : net_env l s → base_step l b s s.
Proof.
  intros He. split; [done|done|]. replace (set_k_rtable (k_rtable s) s) with s by (by destruct s).
  apply net_step_refl, He.
Qed.

(** The interface of a name. *)
Lemma by_name_run `{Env} l s b k p off :
  net_env l s → c_pool (k_core s) !! b = Some k → packet_ok p → 0 ≤ off → off + CSP_CMP_ROUTE_IFACE_LEN ≤ CSP_BUFFER_SIZE →
  ∃ r, iface_by_name b off (with_packet s b k p) = Some (r, with_packet s b k p) ∧ ∀ i, r = Some i → i ∈ l.
Proof.
  intros He Hk Hp Ho Hl. unfold iface_by_name. run (with_packet_get s b k Hk p).
  destruct (read_some p off CSP_CMP_ROUTE_IFACE_LEN Hp Ho ltac:(done) Hl) as (bs & Hr & _).
  run (lift_opt_run_gen _ _ (with_packet s b k p) Hr). run (eq_refl : get (with_packet s b k p) = Some (with_packet s b k p, with_packet s b k p)).
  set (name := name_of_bytes bs). set (core := k_core (with_packet s b k p)).
  assert (Hil : iflist core l) by apply (net_env_step _ _ _ _ _ (with_packet_step s b k p (ne_inv _ _ He) Hk Hp) He).
  exists (List.find (at_iface (c_ifaces core) (λ i, name_eqb (if_name i) name)) l). split.
  - apply lift_opt_run_gen. eapply (iflist_walk core l []); [done|done|apply Hil|done].
  - intros i Hi. apply find_some in Hi as [Hi _]. by apply list_elem_of_In.
Qed.

(** A new route over a known interface, with room in the table. *)
Lemma rtable_set_run `{Env} l s b k p address netmask i via :
  net_env l s → i ∈ l → is_u16 address → is_u16 via → rtable_inptr (k_rtable s) < CSP_RTABLE_SIZE →
  ∃ t, rtable_set address netmask (Some i) via (with_packet s b k p) = Some (CSP_ERR_NONE, with_packet (set_k_rtable t s) b k p) ∧
    set_outcome (c_version (k_core s)) (k_rtable s) address netmask i via (Some (CSP_ERR_NONE, t, None)) ∧
    base_step l b s (set_k_rtable t s).
Proof.
  intros He Hi Ha Hv Hroom. pose proof (rtable_set_spec _ _ address netmask via i (ne_rtable _ _ He) Ha Hv) as Hout.
  destruct (csp_rtable_set _ _ _ _ _ _) as [[[rc t] e]|] eqn:Hset; [|destruct Hout; lia].
  pose proof Hout as (-> & -> & Hok & Hcase). exists t. split; [|split; [done|]].
  - unfold rtable_set. set (s0 := with_packet s b k p). run (eq_refl : get s0 = Some (s0, s0)).
    run (lift_opt_run_gen _ _ s0 Hset). run (eq_refl : modify (set_k_rtable t) s0 = Some ((), set_k_rtable t s0)). done.
  - pose proof (ne_inv _ _ He) as Hinv. pose proof (ne_routes _ _ He) as Hro. split; [|done|by apply net_step_refl].
    destruct He. split; try done. cbn [k_rtable set_k_rtable]. intros j r Hj Hr.
    destruct Hcase as [(n & r0 & [Hn Hr0] & _ & ->)|(_ & _ & ->)]; cbn in *;
      (apply list_lookup_insert_Some in Hr as [(_ & <- & _)|[Hne Hr]]; [by exists i|apply (Hro j); [lia|done]]).
Qed.

(** [n] bytes of a message at [off], big endian. *)
Definition field (p : csp_packet_t) (off n : Z) : Z := be_val (default [] (data_read p off n)).

Lemma field_range p off n :
  packet_ok p → 0 ≤ off → 0 ≤ n → off + n ≤ CSP_BUFFER_SIZE → 0 ≤ field p off n < 256 ^ n.
Proof.
  intros Hp H1 H2 H3. destruct (read_some p off n Hp H1 H2 H3) as (bs & Hr & Hb & Hn). unfold field. rewrite Hr. cbn [default].
  pose proof (be_val_bound bs Hb) as Hv. rewrite Hn in Hv. exact Hv.
Qed.

(** A store beside a range leaves it as it is. *)
Lemma data_write_beside p off bs p' off' n :
  data_write p off bs = Some p' → off' + n ≤ off ∨ off + Z.of_nat (List.length bs) ≤ off' →
  data_read p' off' n = data_read p off' n.
Proof.
  intros (m & Hm & ->)%data_write_Some Hd. apply (mem_read_write_ne _ _ _ _ _ _ Hm). sizes. lia.
Qed.

Lemma data_write_there p off bs p' :
  data_write p off bs = Some p' → data_read p' off (Z.of_nat (List.length bs)) = Some bs.
Proof. intros (m & Hm & ->)%data_write_Some. apply (mem_read_write_eq _ _ _ _ Hm). Qed.

(** ** Memory of the process *)

Lemma mem_fetch_mapped m addr n :
  (∀ i, 0 ≤ i < Z.of_nat n → is_Some (m !! (addr + i))) → map_Forall (λ _ v, is_u8 v) m →
  ∃ bs, mem_fetch m addr n = Some bs ∧ bytes_ok bs ∧ List.length bs = n.
Proof.
  revert addr. induction n as [|n IH]; intros addr Hm Hb; [exists []; by repeat constructor|].
  destruct (Hm 0) as [v Hv]; [lia|]. rewrite Z.add_0_r in Hv.
  destruct (IH (addr + 1)) as (bs & Hf & Ho & Hl); [|done|].
  { intros i Hi. replace (addr + 1 + i) with (addr + (i + 1)) by lia. apply Hm. lia. }
  exists (v :: bs). cbn [mem_fetch]. rewrite Hv. cbn. rewrite Hf. split; [done|]. split; [|by cbn; rewrite Hl].
  constructor; [by apply (Hb addr)|done].
Qed.

Lemma mem_place_mapped m addr bs :
  (∀ i, 0 ≤ i < Z.of_nat (List.length bs) → is_Some (m !! (addr + i))) →
  ∃ m', mem_place m addr bs = Some m' ∧ dom m' = dom m ∧ mem_fetch m' addr (List.length bs) = Some bs ∧
    (∀ a, a < addr ∨ addr + Z.of_nat (List.length bs) ≤ a → m' !! a = m !! a) ∧
    (bytes_ok bs → map_Forall (λ _ v, is_u8 v) m → map_Forall (λ _ v, is_u8 v) m').
Proof.
  revert m addr. induction bs as [|v bs IH]; intros m addr Hm; [by exists m|].
  cbn [List.length] in *. destruct (Hm 0) as [w Hw]; [lia|]. rewrite Z.add_0_r in Hw.
  destruct (IH (<[addr := v]> m) (addr + 1)) as (m' & Hp & Hd & Hf & Ho & Hb).
  { intros i Hi. rewrite lookup_insert_ne by lia. replace (addr + 1 + i) with (addr + (i + 1)) by lia. apply Hm. lia. }
  assert (Hv : m' !! addr = Some v) by (rewrite Ho by lia; apply lookup_insert_eq).
  exists m'. cbn [mem_place mem_fetch]. rewrite Hw, Hv. cbn. rewrite Hf. split; [done|]. split.
  { rewrite Hd, dom_insert_L. apply elem_of_dom_2 in Hw. rewrite (subseteq_union_1_L {[addr]} (dom m)); [done|]. by apply singleton_subseteq_l. }
  split; [done|]. split; [intros a Ha; rewrite Ho by lia; apply lookup_insert_ne; lia|].
  intros [Hv8 Hbs]%Forall_cons Hmb. apply Hb; [done|]. by apply map_Forall_insert_2.
Qed.

(** What a request of the management protocol leaves behind: the packet with other data, and
    the rest of the stack as in [base_step]. *)
Definition cmp_done `{Env} l b k s p (r : option (Z * (stack * sys_t))) : Prop :=
  ∃ rc s1 p1 y1, r = Some (rc, (with_packet s1 b k p1, y1)) ∧ base_step l b s s1 ∧
    packet_ok p1 ∧ pk_id p1 = pk_id p ∧ (pk_length p1 ≤ CSP_BUFFER_SIZE) ∧ sys_ok y1.

Section Cmp.
Context `{Env} `{SysEnv} (conf : csp_conf_t) (Hconf : conf_ok conf).
Context (l : list nat) (s : stack) (b : nat) (k : csp_skbf_t) (p : csp_packet_t) (y : sys_t).
Hypothesis (He : net_env l s) (Hk : c_pool (k_core s) !! b = Some k) (Hp : packet_ok p).
Hypothesis (Hlen : pk_length p ≤ CSP_BUFFER_SIZE) (Hy : sys_ok y).

Lemma ident_run : ∃ p', do_cmp_ident conf b (with_packet s b k p) = Some (CSP_ERR_NONE, with_packet s b k p') ∧ same_packet p p'.
Proof using Hconf Hk Hp.
  destruct Hconf as (C1 & C2 & C3 & C4 & C5). unfold do_cmp_ident.
  destruct (put_string_run s b k Hk 52 CSP_CMP_IDENT_REV_LEN _ p Hp C3) as (p1 & H1 & S1); [fits..|]. run H1.
  destruct (put_string_run s b k Hk 72 CSP_CMP_IDENT_DATE_LEN _ p1 (proj1 S1) C4) as (p2 & H2 & S2); [fits..|]. run H2.
  destruct (put_string_run s b k Hk 84 CSP_CMP_IDENT_TIME_LEN _ p2 (proj1 S2) C5) as (p3 & H3 & S3); [fits..|]. run H3.
  destruct (put_string_run s b k Hk 2 CSP_HOSTNAME_LEN _ p3 (proj1 S3) C1) as (p4 & H4 & S4); [fits..|]. run H4.
  destruct (put_string_run s b k Hk 22 CSP_MODEL_LEN _ p4 (proj1 S4) C2) as (p5 & H5 & S5); [fits..|]. run H5.
  exists p5. split; [done|]. eauto using same_packet_trans.
Qed.

(** Reading a value of the request. *)
Lemma field_run p1 off n :
  packet_ok p1 → 0 ≤ off → 0 ≤ n → off + n ≤ CSP_BUFFER_SIZE →
  request_be b off n (with_packet s b k p1) = Some (field p1 off n, with_packet s b k p1).
Proof using Hk.
  intros Hp1 H1 H2 H3. destruct (read_some p1 off n Hp1 H1 H2 H3) as (bs & Hr & _).
  unfold field. rewrite Hr. by apply request_be_run.
Qed.

Lemma byte_run p1 off :
  packet_ok p1 → 0 ≤ off → off + 1 ≤ CSP_BUFFER_SIZE →
  data_byte b off (with_packet s b k p1) = Some (field p1 off 1, with_packet s b k p1).
Proof using Hk. intros. by apply (field_run p1 off 1). Qed.

Lemma route_set_v1_run : rtable_inptr (k_rtable s) < CSP_RTABLE_SIZE →
  ∃ rc s1, do_cmp_route_set_v1 b (with_packet s b k p) = Some (rc, with_packet s1 b k p) ∧ base_step l b s s1.
Proof using He Hk Hp.
  intros Hroom. unfold do_cmp_route_set_v1.
  destruct (by_name_run l s b k p 4 He Hk Hp ltac:(fits) ltac:(fits)) as (r & Hr & Hin). run Hr.
  destruct r as [i|]; [|exists CSP_ERR_INVAL, s; split; [done|by apply base_refl]]. rewrite bool_decide_false by done.
  pose proof (field_range p 2 1 Hp ltac:(fits) ltac:(fits) ltac:(fits)). pose proof (field_range p 3 1 Hp ltac:(fits) ltac:(fits) ltac:(fits)).
  run (byte_run p 2 Hp ltac:(fits) ltac:(fits)). run (byte_run p 3 Hp ltac:(fits) ltac:(fits)).
  run (eq_refl : conf_version (with_packet s b k p) = Some (c_version (k_core s), with_packet s b k p)).
  destruct (rtable_set_run l s b k p (field p 2 1) (csp_id_get_host_bits (c_version (k_core s))) i (field p 3 1))
    as (t & Ht & _ & Hb); [done|by apply Hin|unfold is_u16; lia..|]. run Ht. by exists CSP_ERR_NONE, (set_k_rtable t s).
Qed.

(** The request for a route, and the table it leaves. *)
Lemma route_set_v2_run : rtable_inptr (k_rtable s) < CSP_RTABLE_SIZE →
  ∃ rc s1, do_cmp_route_set_v2 b (with_packet s b k p) = Some (rc, with_packet s1 b k p) ∧ base_step l b s s1 ∧
    ∀ i, iface_by_name b 8 (with_packet s b k p) = Some (Some i, with_packet s b k p) → rc = CSP_ERR_NONE ∧
      set_outcome (c_version (k_core s)) (k_rtable s) (field p 2 2) (field p 6 2) i (field p 4 2) (Some (rc, k_rtable s1, None)).
Proof using He Hk Hp.
  intros Hroom. unfold do_cmp_route_set_v2.
  destruct (by_name_run l s b k p 8 He Hk Hp ltac:(fits) ltac:(fits)) as (r & Hr & Hin). run Hr. rewrite Hr.
  destruct r as [i|]; [|exists CSP_ERR_INVAL, s; split; [done|split; [by apply base_refl|done]]]. rewrite bool_decide_false by done.
  pose proof (field_range p 2 2 Hp ltac:(fits) ltac:(fits) ltac:(fits)). pose proof (field_range p 4 2 Hp ltac:(fits) ltac:(fits) ltac:(fits)).
  run (field_run p 2 2 Hp ltac:(fits) ltac:(fits) ltac:(fits)). run (field_run p 6 2 Hp ltac:(fits) ltac:(fits) ltac:(fits)).
  run (field_run p 4 2 Hp ltac:(fits) ltac:(fits) ltac:(fits)).
  destruct (rtable_set_run l s b k p (field p 2 2) (field p 6 2) i (field p 4 2))
    as (t & Ht & Hout & Hb); [done|by apply Hin|unfold is_u16; lia..|]. run Ht. exists CSP_ERR_NONE, (set_k_rtable t s).
  split; [done|]. split; [done|]. by intros ? [= <-].
Qed.

Lemma if_stats_run :
  ∃ rc p', do_cmp_if_stats b (with_packet s b k p) = Some (rc, with_packet s b k p') ∧ same_packet p p'.
Proof using He Hk Hp.
  unfold do_cmp_if_stats. destruct (by_name_run l s b k p 2 He Hk Hp ltac:(fits) ltac:(fits)) as (r & Hr & Hin). run Hr.
  destruct r as [i|]; [|by exists CSP_ERR_INVAL, p].
  assert (He' : net_env l (with_packet s b k p)) by (eapply net_env_step; [by apply with_packet_step, Hp; [apply He|]|done]).
  destruct (env_iface l _ i He' (Hin i eq_refl)) as (f & Hf & _). run Hf.
  destruct (store_same s b k Hk 13 (concat (be_bytes 4 <$> iface_counters f)) p Hp) as (p' & _ & Hs & Hsame).
  - unfold iface_counters. cbn [fmap list_fmap concat]. repeat (apply Forall_app; split; [apply be_bytes_ok|]). constructor.
  - lia.
  - unfold iface_counters. cbn [fmap list_fmap concat]. rewrite !length_app, !length_be_bytes. fits.
  - run Hs. by exists CSP_ERR_NONE, p'.
Qed.

(** The address and the length of a peek or poke, and the memory they name. *)
Definition mapped (y : sys_t) (addr len : Z) : Prop := ∀ i, 0 ≤ i < len → is_Some (sy_mem y !! (addr + i)).

(** The first steps of both: the address is rewritten in place. *)
Lemma address_run :
  ∃ p1, same_packet p p1 ∧ field p1 6 1 = field p 6 1 ∧ (∀ n, data_read p1 7 n = data_read p 7 n) ∧
    data_store b 2 (le_bytes 4 (field p 2 4)) (with_packet s b k p) = Some ((), with_packet s b k p1).
Proof using Hk Hp.
  destruct (store_same s b k Hk 2 (le_bytes 4 (field p 2 4)) p Hp) as (p1 & Hw & Hs & Hsame);
    [apply le_bytes_ok|lia|rewrite length_le_bytes; fits|].
  exists p1. split; [done|]. split; [|split; [|done]]; [unfold field; do 2 f_equal|intros n];
    apply (data_write_beside _ _ _ _ _ _ Hw); rewrite length_le_bytes; lia.
Qed.

Lemma peek_run : (field p 6 1 ≤ CSP_CMP_PEEK_MAX_LEN → mapped y (field p 2 4) (field p 6 1)) →
  ∃ rc p', do_cmp_peek b (with_packet s b k p, y) = Some (rc, (with_packet s b k p', y)) ∧ same_packet p p' ∧
    (field p 6 1 ≤ CSP_CMP_PEEK_MAX_LEN → rc = CSP_ERR_NONE ∧
      mem_fetch (sy_mem y) (field p 2 4) (Z.to_nat (field p 6 1)) = data_read p' 7 (field p 6 1)).
Proof using Hk Hp Hy.
  intros Hm. unfold do_cmp_peek. run (on_fst_run _ _ _ _ y (field_run p 2 4 Hp ltac:(fits) ltac:(fits) ltac:(fits))).
  destruct address_run as (p1 & S1 & Hl & _ & Hst). run (on_fst_run _ _ _ _ y Hst).
  run (on_fst_run _ _ _ _ y (byte_run p1 6 (proj1 S1) ltac:(fits) ltac:(fits))). rewrite Hl.
  pose proof (field_range p 6 1 Hp ltac:(fits) ltac:(fits) ltac:(fits)) as Hr.
  case_bool_decide as Hbig; [exists CSP_ERR_INVAL, p1; split; [done|split; [done|lia]]|].
  run (on_snd_run _ _ _ _ (with_packet s b k p1) (eq_refl : Prelude.get y = Some (y, y))).
  destruct (mem_fetch_mapped (sy_mem y) (field p 2 4) (Z.to_nat (field p 6 1))) as (bs & Hf & Hb & Hn).
  { intros i Hi. apply Hm; lia. }
  { done. }
  run (lift_opt_run_gen _ _ (with_packet s b k p1, y) Hf). unfold CSP_CMP_PEEK_MAX_LEN in *.
  destruct (store_same s b k Hk 7 bs p1 (proj1 S1) Hb) as (p2 & Hw & Hs & S2); [lia|sizes; lia|].
  run (on_fst_run _ _ _ _ y Hs). exists CSP_ERR_NONE, p2. split; [done|]. split; [by eapply same_packet_trans|].
  intros _. split; [done|]. rewrite Hf. symmetry. rewrite <- (data_write_there _ _ _ _ Hw). f_equal. lia.
Qed.

Lemma poke_run : (field p 6 1 ≤ CSP_CMP_POKE_MAX_LEN → mapped y (field p 2 4) (field p 6 1)) →
  ∃ rc p' y', do_cmp_poke b (with_packet s b k p, y) = Some (rc, (with_packet s b k p', y')) ∧ same_packet p p' ∧ sys_ok y' ∧
    (field p 6 1 ≤ CSP_CMP_POKE_MAX_LEN → rc = CSP_ERR_NONE ∧
      mem_fetch (sy_mem y') (field p 2 4) (Z.to_nat (field p 6 1)) = data_read p 7 (field p 6 1) ∧
      dom (sy_mem y') = dom (sy_mem y) ∧
      ∀ a, a < field p 2 4 ∨ field p 2 4 + field p 6 1 ≤ a → sy_mem y' !! a = sy_mem y !! a).
Proof using Hk Hp Hy.
  intros Hm. unfold do_cmp_poke. run (on_fst_run _ _ _ _ y (field_run p 2 4 Hp ltac:(fits) ltac:(fits) ltac:(fits))).
  destruct address_run as (p1 & S1 & Hl & Hd & Hst). run (on_fst_run _ _ _ _ y Hst).
  run (on_fst_run _ _ _ _ y (byte_run p1 6 (proj1 S1) ltac:(fits) ltac:(fits))). rewrite Hl.
  pose proof (field_range p 6 1 Hp ltac:(fits) ltac:(fits) ltac:(fits)) as Hr.
  case_bool_decide as Hbig; [exists CSP_ERR_INVAL, p1, y; split; [done|split; [done|split; [done|lia]]]|].
  run (on_fst_run _ _ _ _ y (with_packet_get s b k Hk p1)). unfold CSP_CMP_POKE_MAX_LEN in *.
  destruct (read_some p1 7 (field p 6 1) (proj1 S1)) as (bs & Hbs & Hb & Hn); [lia|lia|sizes; lia|].
  run (lift_opt_run_gen _ _ (with_packet s b k p1, y) Hbs).
  run (on_snd_run _ _ _ _ (with_packet s b k p1) (eq_refl : Prelude.get y = Some (y, y))).
  destruct (mem_place_mapped (sy_mem y) (field p 2 4) bs) as (m & Hpl & Hdm & Hf & Ho & Hmb).
  { intros i Hi. apply Hm; lia. }
  run (lift_opt_run_gen _ _ (with_packet s b k p1, y) Hpl).
  run (on_snd_run _ _ _ _ (with_packet s b k p1) (eq_refl : modify (set_sy_mem m) y = Some ((), set_sy_mem m y))).
  exists CSP_ERR_NONE, p1, (set_sy_mem m y). split; [done|]. split; [done|]. split; [by apply Hmb|]. intros _. split; [done|].
  rewrite <- Hd, Hbs, <- Hn, Nat2Z.id. split; [done|]. split; [done|exact Ho].
Qed.

Lemma errno_run e :
  ∃ s1, (∀ p, liftC (errno e) (with_packet s b k p) = Some ((), with_packet s1 b k p)) ∧ base_step l b s s1.
Proof using He Hk.
  exists (set_k_core (set_c_dbg (set_errno e (c_dbg (k_core s))) (k_core s)) s). split; [done|].
  pose proof (ne_inv _ _ He) as Hi.
  assert (Hst : net_step (Some b) [] s (set_k_core (set_c_dbg (set_errno e (c_dbg (k_core s))) (k_core s)) s)).
  { apply net_step_link; [|done]. by apply link_step_other; try done; apply ifaces_same. }
  split; [by eapply net_env_step|done|]. cbn [k_rtable set_k_core].
  by replace (set_k_rtable (k_rtable s) s) with s by (by destruct s).
Qed.

Lemma clock_run : cmp_done l b k s p (do_cmp_clock b (with_packet s b k p, y)).
Proof using He Hk Hp Hlen Hy.
  unfold do_cmp_clock. run (on_fst_run _ _ _ _ y (field_run p 2 4 Hp ltac:(fits) ltac:(fits) ltac:(fits))).
  run (on_fst_run _ _ _ _ y (field_run p 6 4 Hp ltac:(fits) ltac:(fits) ltac:(fits))).
  match goal with |- cmp_done _ _ _ _ _ ((?m ≫= _) _) => assert (Hset : ∃ res s1 y1, m (with_packet s b k p, y) =
    Some (res, (with_packet s1 b k p, y1)) ∧ base_step l b s s1 ∧ sy_mem y1 = sy_mem y) end.
  { case_bool_decide; [|by exists CSP_ERR_NONE, s, y; split; [|split; [apply base_refl|]]]. unfold csp_clock_set_time.
    destruct (clock_settime_ok (sy_os y) (field p 2 4) (field p 6 4)) eqn:Hok.
    - eexists CSP_ERR_NONE, s, _. split; [|split; [by apply base_refl|]].
      + erewrite ST_bind_run; [|apply on_snd_run; run (eq_refl : Prelude.get y = Some (y, y)); rewrite Hok; reflexivity]. reflexivity.
      + done.
    - destruct (errno_run CSP_DBG_ERR_CLOCK_SET_FAIL) as (s1 & Hs1 & Hb1). exists CSP_ERR_INVAL, s1, y. split; [|done].
      erewrite ST_bind_run; [|apply on_snd_run; run (eq_refl : Prelude.get y = Some (y, y)); rewrite Hok; reflexivity].
      cbn [when]. rewrite bool_decide_true by done. by run (on_fst_run _ _ _ _ y (Hs1 p)). }
  destruct Hset as (res & s1 & y1 & Hset & Hb & Hm). run Hset.
  assert (Hk1 : c_pool (k_core s1) !! b = Some k) by (by rewrite (bs_pool _ _ _ _ Hb)).
  destruct (csp_clock_get_time y1) as [[[sec nsec] y2]|] eqn:Hget; [|done]. injection Hget as Hcl <-.
  erewrite ST_bind_run; [|apply on_snd_run; unfold csp_clock_get_time; run (eq_refl : Prelude.get y1 = Some (y1, y1)); rewrite Hcl; reflexivity].
  cbv beta iota.
  destruct (store_same s1 b k Hk1 2 (be_bytes 4 sec) p Hp) as (p1 & _ & H1 & S1); [apply be_bytes_ok|lia|rewrite length_be_bytes; fits|].
  run (on_fst_run _ _ _ _ y1 H1).
  destruct (store_same s1 b k Hk1 6 (be_bytes 4 nsec) p1 (proj1 S1)) as (p2 & _ & H2 & S2); [apply be_bytes_ok|lia|rewrite length_be_bytes; fits|].
  run (on_fst_run _ _ _ _ y1 H2). exists res, s1, p2, y1. pose proof (same_packet_trans _ _ _ S1 S2) as (Q1 & Q2 & Q3).
  split; [done|]. split; [done|]. split; [done|]. split; [done|]. split; [by rewrite Q3|]. unfold sys_ok. by rewrite Hm.
Qed.

(** A request whose work is over takes its length. *)
Lemma length_run rc s1 p1 n y1 :
  base_step l b s s1 → same_packet p p1 → 0 ≤ n ≤ CSP_BUFFER_SIZE → sys_ok y1 →
  cmp_done l b k s p ((set_length b n;; mret rc) (with_packet s1 b k p1, y1)).
Proof using Hk.
  intros Hb (Q1 & Q2 & Q3) Hn Hy1. assert (Hk1 : c_pool (k_core s1) !! b = Some k) by (by rewrite (bs_pool _ _ _ _ Hb)).
  unfold set_length. run (on_fst_run _ _ _ _ y1 (with_packet_mod s1 b k Hk1 (set_pk_length n) p1)).
  exists rc, s1, (set_pk_length n p1), y1. split; [done|]. split; [done|]. split; [|split; [done|split; [apply Hn|done]]].
  destruct Q1. split; try done. cbn. revert Hn. sizes. unfold is_u16. lia.
Qed.

Lemma done_same rc s1 p1 y1 :
  base_step l b s s1 → same_packet p p1 → sys_ok y1 → cmp_done l b k s p (Some (rc, (with_packet s1 b k p1, y1))).
Proof using Hlen. intros Hb (Q1 & Q2 & Q3) Hy1. exists rc, s1, p1, y1. rewrite Q3. done. Qed.

Lemma same_refl : same_packet p p.
Proof using Hp. done. Qed.

(** What a request needs: room in the routing table, mapped memory. *)
Definition cmp_allowed : Prop :=
  let code := field p 1 1 in
  (code = CSP_CMP_ROUTE_SET_V1 ∨ code = CSP_CMP_ROUTE_SET_V2 → rtable_inptr (k_rtable s) < CSP_RTABLE_SIZE) ∧
  (code = CSP_CMP_PEEK ∨ code = CSP_CMP_POKE → field p 6 1 ≤ 200 → mapped y (field p 2 4) (field p 6 1)).

Lemma cmp_handler_run : cmp_allowed → cmp_done l b k s p (csp_cmp_handler conf b (with_packet s b k p, y)).
Proof using He Hk Hp Hlen Hy Hconf.
  intros [Hroom Hmap]. unfold csp_cmp_handler. pose proof (base_refl l b s He) as Hbr.
  run (on_fst_run _ _ _ _ y (byte_run p 0 Hp ltac:(fits) ltac:(fits))).
  case_bool_decide; [by apply done_same|].
  run (on_fst_run _ _ _ _ y (byte_run p 1 Hp ltac:(fits) ltac:(fits))).
  match goal with |- cmp_done _ _ _ _ _ ((?m ≫= _) _) => assert (Hm : cmp_done l b k s p (m (with_packet s b k p, y))) end.
  { case_bool_decide; [destruct ident_run as (p1 & Hrun & S1); run (on_fst_run _ _ _ _ y Hrun); by apply length_run|].
    case_bool_decide; [destruct route_set_v1_run as (rc & s1 & Hrun & Hb); [auto|]; run (on_fst_run _ _ _ _ y Hrun); by apply length_run|].
    case_bool_decide; [destruct route_set_v2_run as (rc & s1 & Hrun & Hb & _); [auto|]; run (on_fst_run _ _ _ _ y Hrun); by apply length_run|].
    case_bool_decide; [destruct if_stats_run as (rc & p1 & Hrun & S1); run (on_fst_run _ _ _ _ y Hrun); by apply length_run|].
    case_bool_decide; [destruct peek_run as (rc & p1 & -> & S1 & _); [by auto|by apply done_same]|].
    case_bool_decide; [destruct poke_run as (rc & p1 & y1 & -> & S1 & Hy1 & _); [by auto|by apply done_same]|].
    case_bool_decide; [exact clock_run|by apply done_same]. }
  destruct Hm as (rc & s1 & p1 & y1 & Hm & Hb & Q1 & Q2 & Q3 & Q4). run Hm.
  assert (Hk1 : c_pool (k_core s1) !! b = Some k) by (by rewrite (bs_pool _ _ _ _ Hb)).
  destruct (store_same s1 b k Hk1 0 [CSP_CMP_REPLY] p1 Q1) as (p2 & _ & H2 & (R1 & R2 & R3)); [by repeat constructor|lia|fits|].
  run (on_fst_run _ _ _ _ y1 H2). exists rc, s1, p2, y1. split; [done|]. split; [done|]. split; [done|].
  split; [congruence|]. by rewrite R3.
Qed.
End Cmp.

(** ** Requests *)

Section Requests.
Context `{Env} `{SysEnv} (conf : csp_conf_t).
Context (l : list nat) (s : stack) (b : nat) (k : csp_skbf_t) (y : sys_t).
Hypothesis (He : net_env l s) (Hk : c_pool (k_core s) !! b = Some k) (Hrc : refcount k = 1).

(** What all requests end in: the request is released, and other buffers and the rest of
    the stack, the routing table apart, are as before. *)
Definition request_over (r : option (() * (stack * sys_t))) : Prop :=
  ∃ s' y' t new, r = Some ((), (s', y')) ∧ net_env l s' ∧ sys_ok y' ∧
    net_step (Some b) new (set_k_rtable t s) s' ∧ ¬ allocated (k_core s') b.

Lemma over_reply s1 p1 y1 :
  base_step l b s s1 → packet_ok p1 → pk_length p1 ≤ CSP_BUFFER_SIZE → sys_ok y1 →
  request_over (reply b (with_packet s1 b k p1, y1)).
Proof using Hk Hrc.
  intros Hb Hp Hl Hy. destruct (reply_self_run l s1 b k p1 (bs_env _ _ _ _ Hb)) as (s' & new & Hr & _ & He' & Hst & Hf); try done.
  { by rewrite (bs_pool _ _ _ _ Hb). }
  exists s', y1, (k_rtable s1), new. split; [by apply on_fst_run|]. split; [done|]. split; [done|]. split; [|done].
  apply (net_step_trans _ [] new _ s1); [by intros ? ?%not_elem_of_nil|apply Hb|done].
Qed.

Lemma over_free s1 p1 y1 :
  base_step l b s s1 → packet_ok p1 → sys_ok y1 → request_over (on_fst (kfree (Some b)) (with_packet s1 b k p1, y1)).
Proof using Hk Hrc.
  intros Hb Hp Hy. assert (Hk1 : c_pool (k_core s1) !! b = Some k) by (by rewrite (bs_pool _ _ _ _ Hb)).
  pose proof (with_packet_step s1 b k p1 (ne_inv _ _ (bs_env _ _ _ _ Hb)) Hk1 Hp) as Hst.
  destruct (kfree_step (with_packet s1 b k p1) b) as (s' & Hf & Hst' & Hna & _); [apply Hst| |].
  { eexists. split; [exact (with_packet_lookup s1 b k Hk1 p1)|done]. }
  assert (Hall : net_step (Some b) [] (set_k_rtable (k_rtable s1) s) s').
  { apply (net_step_trans _ [] [] _ (with_packet s1 b k p1)); [by intros ? ?%not_elem_of_nil| |done].
    apply (net_step_trans _ [] [] _ s1); [by intros ? ?%not_elem_of_nil|apply Hb|done]. }
  exists s', y1, (k_rtable s1), []. split; [by apply on_fst_run|]. split; [|done].
  eapply net_env_step; [exact Hst'|]. eapply net_env_step; [exact Hst|apply Hb].
Qed.

(** A word as the answer. *)
Lemma word_run p v :
  packet_ok p → ∃ p', put_word b v (with_packet s b k p, y) = Some ((), (with_packet s b k p', y)) ∧
    packet_ok p' ∧ pk_id p' = pk_id p ∧ pk_length p' = 4 ∧ payload p' = Some (be_bytes 4 v).
Proof using Hk.
  intros Hp. unfold put_word, set_length.
  destruct (store_same s b k Hk 0 (be_bytes 4 v) p Hp) as (p1 & Hw & Hs & (Q1 & Q2 & Q3)); [apply be_bytes_ok|lia|rewrite length_be_bytes; fits|].
  run (on_fst_run _ _ _ _ y Hs). exists (set_pk_length 4 p1). split; [apply on_fst_run, (with_packet_mod s b k Hk)|].
  split; [destruct Q1; by split|]. split; [done|]. split; [done|].
  apply data_write_there in Hw. by rewrite length_be_bytes in Hw.
Qed.

(** The answer: the packet of the request with the given data goes back to the sender. *)
Definition answered (p : csp_packet_t) (data : list Z) (r : option (() * (stack * sys_t))) : Prop :=
  ∃ s' p', r = Some ((), (s', y)) ∧
    csp_send_direct (IdPacket b) (Some b) None (with_packet s b k p') = Some ((), s') ∧
    payload p' = Some data ∧ pk_id p' = reply_to (c_version (k_core s)) (pk_id p) ∧ ¬ allocated (k_core s') b.

Lemma answered_reply p data p1 :
  packet_ok p1 → pk_id p1 = pk_id p → pk_length p1 ≤ CSP_BUFFER_SIZE → payload p1 = Some data →
  answered p data (reply b (with_packet s b k p1, y)).
Proof using He Hk Hrc.
  intros Q1 Q2 Q3 Q4. destruct (reply_self_run l s b k p1 He Hk Hrc Q1 Q3) as (s' & new & Hr & Hs & _ & _ & Hf).
  eexists s', _. split; [by apply on_fst_run|]. split; [exact Hs|]. split; [done|]. split; [by cbn; rewrite Q2|done].
Qed.

Lemma answered_word p data v :
  packet_ok p → Some (be_bytes 4 v) = Some data → answered p data ((put_word b v;; reply b) (with_packet s b k p, y)).
Proof using He Hk Hrc.
  intros Hp Hv. destruct (word_run p v Hp) as (p' & Hw & Q1 & Q2 & Q3 & Q4). run Hw.
  apply answered_reply; try done; [by rewrite Q3|congruence].
Qed.
End Requests.

(** C26: Which requests cannot harm the stack.  For every packet on a service port, whatever
    its contents, except the process list, a peek or poke outside mapped memory that lies
    apart from the stack, and a route when the routing table is full ([cmp_allowed]), the
    handler comes back with the buffer of the request released, no other buffer in use
    changed, and the interfaces, the connections and the routing table (which only a route
    request changes) well formed, so that the next packet can be served. *)
Theorem csp_service_handler_releases `{Env} `{SysEnv} (conf : csp_conf_t) (l : list nat) (s : stack) (b : nat)
    (k : csp_skbf_t) (y : sys_t) :
  conf_ok conf → sys_ok y → net_env l s → c_pool (k_core s) !! b = Some k → refcount k = 1 →
  pk_length (skbf_data k) ≤ CSP_BUFFER_SIZE → dport (pk_id (skbf_data k)) ≠ CSP_PS →
  (dport (pk_id (skbf_data k)) = CSP_CMP → cmp_allowed s (skbf_data k) y) →
  request_over l s b (csp_service_handler conf b (s, y)).
Proof.
  intros Hconf Hy He Hk Hrc Hlen Hps Hcmp. set (p := skbf_data k) in *.
  assert (Hp : packet_ok p) by apply (bi_pool _ (ne_inv _ _ He) b k Hk). pose proof (base_refl l b s He) as Hb.
  replace (s, y) with (with_packet s b k p, y) by (unfold p; by rewrite with_packet_same). unfold csp_service_handler.
  run (on_fst_run _ _ _ _ y (with_packet_get s b k Hk p)).
  case_bool_decide.
  { destruct (cmp_handler_run conf Hconf l s b k p y He Hk Hp Hlen Hy (Hcmp ltac:(done)))
      as (rc & s1 & p1 & y1 & Hm & Hb1 & Q1 & _ & Q3 & Q4).
    run Hm. case_bool_decide; [by apply over_free|by apply over_reply]. }
  case_bool_decide; [by apply over_reply|]. rewrite bool_decide_false by done.
  case_bool_decide.
  { destruct (word_run s b k y Hk p csp_memfree_hook Hp) as (p' & Hw & Q1 & _ & Q3 & _). run Hw. apply over_reply; try done. by rewrite Q3. }
  case_bool_decide.
  { run (on_fst_run _ _ _ _ y (field_run s b k Hk p 0 4 Hp ltac:(fits) ltac:(fits) ltac:(fits))).
    repeat case_bool_decide; (erewrite ST_bind_run; [|reflexivity]); by apply over_free. }
  case_bool_decide.
  { run (on_fst_run _ _ _ _ y (liftC_run _ (with_packet s b k p) _ _ (eq_refl : csp_buffer_remaining (k_core (with_packet s b k p)) = Some (_, _)))).
    rewrite set_k_core_id. set (v := u32 _).
    destruct (word_run s b k y Hk p v Hp) as (p' & Hw & Q1 & _ & Q3 & _). run Hw. apply over_reply; try done. by rewrite Q3. }
  case_bool_decide; [|by apply over_free].
  erewrite ST_bind_run; [|by apply on_fst_run].
  match goal with |- context [put_word b ?v] => destruct (word_run s b k y Hk p v Hp) as (p' & Hw & Q1 & _ & Q3 & _) end.
  run Hw. apply over_reply; try done. by rewrite Q3.
Qed.

(** The data of the answer on the ports that carry one. *)
Definition service_answer `{SysEnv} (s : stack) (p : csp_packet_t) : option (list Z) :=
  let port := dport (pk_id p) in
  if bool_decide (port = CSP_PING) then payload p
  else if bool_decide (port = CSP_MEMFREE) then Some (be_bytes 4 (fst sysinfo * snd sysinfo))
  else if bool_decide (port = CSP_BUF_FREE) then Some (be_bytes 4 (Z.of_nat (List.length (fq_items (c_free (k_core s))))))
  else if bool_decide (port = CSP_UPTIME) then
    Some (be_bytes 4 (match clock_monotonic s with Some (sec, _) => sec | None => 0 end))
  else None.

(** Ping, free memory, free buffers and uptime answer with what they promise: the data
    of the ping, or the number as a 32-bit word in network order, in the packet of the
    request, sent back to the node and port it came from. *)
Theorem csp_service_handler_answers `{Env} `{SysEnv} (conf : csp_conf_t) (l : list nat) (s : stack) (b : nat)
    (k : csp_skbf_t) (y : sys_t) (data : list Z) :
  net_env l s → c_pool (k_core s) !! b = Some k → refcount k = 1 → pk_length (skbf_data k) ≤ CSP_BUFFER_SIZE →
  (∀ p, clock_monotonic (with_packet s b k p) = clock_monotonic s) →
  service_answer s (skbf_data k) = Some data →
  answered s b k y (skbf_data k) data (csp_service_handler conf b (s, y)).
Proof.
  intros He Hk Hrc Hlen Hclk Hans. set (p := skbf_data k) in *.
  assert (Hp : packet_ok p) by apply (bi_pool _ (ne_inv _ _ He) b k Hk).
  replace (s, y) with (with_packet s b k p, y) by (unfold p; by rewrite with_packet_same). unfold csp_service_handler.
  run (on_fst_run _ _ _ _ y (with_packet_get s b k Hk p)).
  pose proof (answered_reply l s b k y He Hk Hrc p data) as Hend.
  pose proof (λ v, answered_word l s b k y He Hk Hrc p data v Hp) as Hword.
  unfold service_answer in Hans. fold p in Hans.
  destruct (decide (dport (pk_id p) = CSP_PING)) as [Hport|Hport]; [rewrite (bool_decide_true (_ = CSP_PING)) in * by done|
    rewrite (bool_decide_false (_ = CSP_PING)) in * by done].
  { rewrite bool_decide_false by (rewrite Hport; done). by apply Hend. }
  destruct (decide (dport (pk_id p) = CSP_MEMFREE)) as [Hp1|Hp1]; [rewrite (bool_decide_true (_ = CSP_MEMFREE)) in * by done|
    rewrite (bool_decide_false (_ = CSP_MEMFREE)) in * by done].
  { rewrite !bool_decide_false by (rewrite Hp1; done). apply Hword. rewrite <- Hans. unfold csp_memfree_hook.
    destruct sysinfo. by rewrite be_bytes_u32. }
  destruct (decide (dport (pk_id p) = CSP_BUF_FREE)) as [Hp2|Hp2]; [rewrite (bool_decide_true (_ = CSP_BUF_FREE)) in * by done|
    rewrite (bool_decide_false (_ = CSP_BUF_FREE)) in * by done].
  { rewrite !bool_decide_false by (rewrite Hp2; done).
    run (on_fst_run _ _ _ _ y (liftC_run _ (with_packet s b k p) _ _ (eq_refl : csp_buffer_remaining (k_core (with_packet s b k p)) = Some (_, _)))).
    rewrite set_k_core_id. apply Hword. by rewrite be_bytes_u32. }
  case_bool_decide as Hp3; [|done]. rewrite !bool_decide_false by (rewrite Hp3; done).
  erewrite ST_bind_run; [|by apply on_fst_run]. apply Hword. rewrite Hclk, <- Hans.
  destruct (clock_monotonic s) as [[sec nsec]|]; [by rewrite be_bytes_u32|done].
Qed.

(** ** Peek and poke *)

(** A request of the management protocol with code [code] for [n] bytes at [addr]. *)
Definition memory_request (p : csp_packet_t) (code addr n : Z) : Prop :=
  dport (pk_id p) = CSP_CMP ∧ field p 0 1 = CSP_CMP_REQUEST ∧ field p 1 1 = code ∧ field p 2 4 = addr ∧ field p 6 1 = n.

Lemma cmp_end_run `{Env} (s : stack) (b : nat) (k : csp_skbf_t) (y : sys_t) (p1 : csp_packet_t) (rc : Z) :
  c_pool (k_core s) !! b = Some k → packet_ok p1 →
  ∃ p2, (on_fst (data_store b 0 [CSP_CMP_REPLY]);; mret rc) (with_packet s b k p1, y) = Some (rc, (with_packet s b k p2, y)) ∧
    same_packet p1 p2 ∧ ∀ n, data_read p2 7 n = data_read p1 7 n.
Proof.
  intros Hk Hp1. destruct (store_same s b k Hk 0 [CSP_CMP_REPLY] p1 Hp1) as (p2 & Hw & Hs & Hsame); [by repeat constructor|lia|fits|].
  exists p2. run (on_fst_run _ _ _ _ y Hs). split; [done|]. split; [done|]. intros n. apply (data_write_beside _ _ _ _ _ _ Hw). cbn. lia.
Qed.

Section Memory.
Context `{Env} `{SysEnv} (conf : csp_conf_t).
Context (l : list nat) (s : stack) (b : nat) (k : csp_skbf_t) (y : sys_t).
Hypothesis (He : net_env l s) (Hk : c_pool (k_core s) !! b = Some k) (Hrc : refcount k = 1).
Hypothesis (Hlen : pk_length (skbf_data k) ≤ CSP_BUFFER_SIZE) (Hy : sys_ok y).

(** How the handler dispatches a request for memory. *)
Lemma memory_dispatch (code addr n : Z) (p1 : csp_packet_t) (y1 : sys_t) :
  let p := skbf_data k in
  memory_request p code addr n → code = CSP_CMP_PEEK ∨ code = CSP_CMP_POKE →
  (if bool_decide (code = CSP_CMP_PEEK) then do_cmp_peek b else do_cmp_poke b) (with_packet s b k p, y) =
    Some (CSP_ERR_NONE, (with_packet s b k p1, y1)) → same_packet p p1 →
  ∃ s' p2, csp_service_handler conf b (s, y) = Some ((), (s', y1)) ∧
    csp_send_direct (IdPacket b) (Some b) None (with_packet s b k p2) = Some ((), s') ∧
    pk_id p2 = reply_to (c_version (k_core s)) (pk_id p) ∧ (∀ m, data_read p2 7 m = data_read p1 7 m) ∧
    pk_length p2 = pk_length p ∧ net_env l s'.
Proof using He Hk Hrc Hlen.
  intros p (M1 & M2 & M3 & M4 & M5) Hcode Hdo (Q1 & Q2 & Q3).
  assert (Hp : packet_ok p) by apply (bi_pool _ (ne_inv _ _ He) b k Hk).
  replace (s, y) with (with_packet s b k p, y) by (unfold p; by rewrite with_packet_same). unfold csp_service_handler.
  run (on_fst_run _ _ _ _ y (with_packet_get s b k Hk p)). rewrite bool_decide_true by done.
  destruct (cmp_end_run s b k y1 p1 CSP_ERR_NONE Hk Q1) as (p2 & Hend & (R1 & R2 & R3) & Hd).
  destruct (reply_self_run l s b k p2 He Hk Hrc R1) as (s' & new & Hr & Hs & He' & _ & _); [by rewrite R3, Q3|].
  eexists s', _. split; [|split; [exact Hs|]].
  - erewrite ST_bind_run; [rewrite bool_decide_false by tauto; by apply on_fst_run|]. unfold csp_cmp_handler.
    run (on_fst_run _ _ _ _ y (byte_run s b k Hk p 0 Hp ltac:(fits) ltac:(fits))). rewrite bool_decide_false by tauto.
    run (on_fst_run _ _ _ _ y (byte_run s b k Hk p 1 Hp ltac:(fits) ltac:(fits))). rewrite M3.
    destruct Hcode as [-> | ->]; (erewrite ST_bind_run; [exact Hend|exact Hdo]).
  - split; [cbn; congruence|]. split; [exact Hd|]. split; [cbn; congruence|done].
Qed.
End Memory.

(** What is poked is peeked: after a poke request for up to 200 mapped bytes, a later
    peek request for the same range, on whatever state of the stack, is answered with the
    bytes of the poke; the poke changes no byte outside its range. *)
Theorem csp_poke_peek_roundtrip `{Env} `{SysEnv} (conf : csp_conf_t) (l : list nat) (s s2 : stack) (b b2 : nat)
    (k k2 : csp_skbf_t) (y : sys_t) (addr n : Z) :
  net_env l s → c_pool (k_core s) !! b = Some k → refcount k = 1 → pk_length (skbf_data k) ≤ CSP_BUFFER_SIZE →
  net_env l s2 → c_pool (k_core s2) !! b2 = Some k2 → refcount k2 = 1 → pk_length (skbf_data k2) ≤ CSP_BUFFER_SIZE →
  sys_ok y → mapped y addr n → n ≤ 200 →
  memory_request (skbf_data k) CSP_CMP_POKE addr n → memory_request (skbf_data k2) CSP_CMP_PEEK addr n →
  ∃ s' s2' y' p2, csp_service_handler conf b (s, y) = Some ((), (s', y')) ∧
    (∀ a, a < addr ∨ addr + n ≤ a → sy_mem y' !! a = sy_mem y !! a) ∧
    csp_service_handler conf b2 (s2, y') = Some ((), (s2', y')) ∧
    csp_send_direct (IdPacket b2) (Some b2) None (with_packet s2 b2 k2 p2) = Some ((), s2') ∧
    pk_id p2 = reply_to (c_version (k_core s2)) (pk_id (skbf_data k2)) ∧
    data_read p2 7 n = data_read (skbf_data k) 7 n.
Proof.
  intros He Hk Hrc Hlen He2 Hk2 Hrc2 Hlen2 Hy Hmap Hn Hpoke Hpeek.
  assert (Hp : packet_ok (skbf_data k)) by apply (bi_pool _ (ne_inv _ _ He) b k Hk).
  assert (Hp2 : packet_ok (skbf_data k2)) by apply (bi_pool _ (ne_inv _ _ He2) b2 k2 Hk2).
  pose proof Hpoke as (_ & _ & _ & Ea & En). pose proof Hpeek as (_ & _ & _ & Ea2 & En2).
  destruct (poke_run s b k (skbf_data k) y Hk Hp Hy) as (rc & p1 & y' & Hrun & Hsame & Hy' & Hres); [by rewrite Ea, En|].
  rewrite Ea, En in Hres. destruct (Hres Hn) as (-> & Hf & Hdom & Hout).
  destruct (memory_dispatch conf l s b k y He Hk Hrc Hlen CSP_CMP_POKE addr n p1 y' Hpoke (or_intror eq_refl) Hrun Hsame)
    as (s' & q & Hserve & _).
  destruct (peek_run s2 b2 k2 (skbf_data k2) y' Hk2 Hp2 Hy') as (rc2 & p2 & Hrun2 & Hsame2 & Hres2).
  { rewrite Ea2, En2. intros _ i Hi. apply elem_of_dom. rewrite Hdom. by apply elem_of_dom, Hmap. }
  rewrite Ea2, En2 in Hres2. destruct (Hres2 Hn) as (-> & Hf2).
  destruct (memory_dispatch conf l s2 b2 k2 y' He2 Hk2 Hrc2 Hlen2 CSP_CMP_PEEK addr n p2 y' Hpeek (or_introl eq_refl) Hrun2 Hsame2)
    as (s2' & q2 & Hserve2 & Hsend2 & Hid & Hd & _).
  exists s', s2', y', q2. split; [done|]. split; [done|]. split; [done|]. split; [done|]. split; [done|]. rewrite Hd. congruence.
Qed.

(** ** Routes *)

(** A route request takes effect: when a request of the second version names an
    interface of the stack and the table has room, the handler enters the route (or updates
    the one with the same key), answers, and from then on every address the route covers is
    routed: the lookup returns a route that covers the address and is at least as specific
    as the one requested. *)
Theorem csp_cmp_route_set_routes `{Env} `{SysEnv} (conf : csp_conf_t) (l : list nat) (s : stack) (b : nat)
    (k : csp_skbf_t) (y : sys_t) (i : nat) (addr : Z) :
  let p := skbf_data k in
  let version := c_version (k_core s) in
  let new := mk_route (field p 2 2) (set_netmask version (field p 6 2)) (field p 4 2) (Some i) in
  sys_ok y → net_env l s → c_pool (k_core s) !! b = Some k → refcount k = 1 →
  dport (pk_id p) = CSP_CMP → field p 0 1 = CSP_CMP_REQUEST → field p 1 1 = CSP_CMP_ROUTE_SET_V2 →
  rtable_inptr (k_rtable s) < CSP_RTABLE_SIZE → iface_by_name b 8 s = Some (Some i, s) → is_u16 addr → covers version new addr →
  ∃ s' j r, csp_service_handler conf b (s, y) = Some ((), (s', y)) ∧ net_env l s' ∧
    new ∈ rtable (k_rtable s') ∧ csp_rtable_find_route version (k_rtable s') addr = Some (Some j) ∧
    active (k_rtable s') j r ∧ covers version r addr ∧ rt_netmask new ≤ rt_netmask r.
Proof.
  intros p version new Hy He Hk Hrc Hport Hreq Hcode Hroom Hname Haddr Hcov.
  assert (Hp : packet_ok p) by apply (bi_pool _ (ne_inv _ _ He) b k Hk).
  assert (Hs : with_packet s b k p = s) by apply (with_packet_same s b k Hk).
  destruct (route_set_v2_run l s b k p He Hk Hp Hroom) as (rc & s1 & Hrun & Hb & Hres).
  rewrite Hs in Hrun, Hres. destruct (Hres i Hname) as (-> & _ & _ & Hok & Hcase). clear Hres.
  assert (Hk1 : c_pool (k_core s1) !! b = Some k) by (by rewrite (bs_pool _ _ _ _ Hb)).
  assert (Hp1 : packet_ok (set_pk_length CMP_SIZE_route_set_v2 p)) by (destruct Hp; by split).
  destruct (cmp_end_run s1 b k y _ CSP_ERR_NONE Hk1 Hp1) as (p2 & Hend & (R1 & R2 & R3) & _).
  destruct (reply_self_run l s1 b k p2 (bs_env _ _ _ _ Hb) Hk1 Hrc R1) as (s' & n & Hr & _ & He' & Hst & _); [by rewrite R3|].
  assert (Hrt : k_rtable s' = k_rtable s1) by (rewrite (ns_rest _ _ _ _ Hst); done).
  assert (Hnew : ∃ j, active (k_rtable s1) j new).
  { destruct Hcase as [(j & r & [Hj Hr'] & _ & ->)|(_ & _ & ->)].
    - exists j. split; [done|]. apply list_lookup_insert_eq. by eapply lookup_lt_Some.
    - exists (Z.to_nat (rtable_inptr (k_rtable s))). pose proof (ne_rtable _ _ He) as [L1 L2 _].
      split; [cbn; lia|]. apply list_lookup_insert_eq. lia. }
  destruct Hnew as (jn & Hjn). destruct (find_route_lpm version (k_rtable s1) addr Hok Haddr) as (res & Hfind & Hlpm).
  destruct res as [j|]; [|by destruct (Hlpm jn new Hjn)]. destruct Hlpm as (r & Hact & Hc & Hbest).
  exists s', j, r. rewrite Hrt. split; [|split; [done|split; [|split; [done|split; [done|split; [done|]]]]]].
  - rewrite <- Hs at 1. unfold csp_service_handler. run (on_fst_run _ _ _ _ y (with_packet_get s b k Hk p)).
    rewrite bool_decide_true by done. erewrite ST_bind_run; [rewrite bool_decide_false by tauto; by apply on_fst_run|].
    unfold csp_cmp_handler. run (on_fst_run _ _ _ _ y (byte_run s b k Hk p 0 Hp ltac:(fits) ltac:(fits))).
    rewrite bool_decide_false by tauto. run (on_fst_run _ _ _ _ y (byte_run s b k Hk p 1 Hp ltac:(fits) ltac:(fits))).
    rewrite Hcode. erewrite ST_bind_run; [exact Hend|]. do 2 rewrite bool_decide_false by done. rewrite bool_decide_true by done.
    rewrite Hs. run (on_fst_run _ _ _ _ y Hrun). unfold set_length.
    by run (on_fst_run _ _ _ _ y (with_packet_mod s1 b k Hk1 (set_pk_length CMP_SIZE_route_set_v2) p)).
  - destruct Hjn as [_ Hjn]. by eapply list_elem_of_lookup_2.
  - destruct (Hbest jn new Hjn Hcov); lia.
Qed.

(** ** The process list *)

(** A request for the process list is answered from a buffer that has already been
    released: the hook of the platform returns nothing, the handler releases the packet and
    then sends it as its own reply. *)
Theorem csp_ps_request_frees_twice `{Env} `{SysEnv} (conf : csp_conf_t) (s : stack) (b : nat) (k : csp_skbf_t) (y : sys_t) :
  buf_inv (k_core s) → c_pool (k_core s) !! b = Some k → refcount k = 1 → dport (pk_id (skbf_data k)) = CSP_PS →
  ∃ s1, csp_service_handler conf b (s, y) = on_fst (csp_sendto_reply (Some b) b CSP_O_SAME) (s1, y) ∧
    buf_inv (k_core s1) ∧ ¬ allocated (k_core s1) b ∧ b ∈ fq_items (c_free (k_core s1)).
Proof.
  intros Hi Hk Hrc Hport. set (p := skbf_data k) in *. assert (Hp : packet_ok p) by apply (bi_pool _ Hi b k Hk).
  replace (s, y) with (with_packet s b k p, y) by (unfold p; by rewrite with_packet_same).
  assert (Hp1 : packet_ok (set_pk_length 0 p)) by (destruct Hp; by split).
  pose proof (with_packet_step s b k _ Hi Hk Hp1) as Hst.
  pose proof (with_packet_lookup s b k Hk (set_pk_length 0 p)) as Hk0.
  pose proof (liftC_run _ _ _ _ (csp_buffer_free_last _ b _ (ns_inv _ _ _ _ Hst) Hk0 Hrc)) as Hf.
  set (s0 := set_k_core _ _) in Hf.
  destruct (kfree_step (with_packet s b k (set_pk_length 0 p)) b) as (s1 & Hf1 & Hst1 & Hna & _); [apply Hst|by eexists|].
  unfold kfree in Hf1. rewrite Hf in Hf1. assert (s1 = s0) as -> by congruence. exists s0. split; [|split; [apply Hst1|split; [done|]]].
  - unfold csp_service_handler. run (on_fst_run _ _ _ _ y (with_packet_get s b k Hk p)). rewrite Hport.
    do 2 rewrite bool_decide_false by done. rewrite bool_decide_true by done. erewrite ST_bind_run; [|by apply on_fst_run].
    unfold set_length. run (on_fst_run _ _ _ _ y (with_packet_mod s b k Hk (set_pk_length (u16 0)) p)).
    rewrite bool_decide_true by done. cbn [when]. by run (on_fst_run _ _ _ _ y Hf).
  - apply elem_of_app. right. by apply list_elem_of_singleton.
Qed.

(** ** Concrete requests *)

#[local] Existing Instance env_example.
#[local] Instance sys_env_example : SysEnv := {|
  clock_realtime _ := Some (1700000000, 0);
  clock_settime_ok _ _ _ := false;
  clock_monotonic _ := Some (42, 0);
  sysinfo := (1000, 4096);
  build_date := [];
  build_time := [];
|}.
Definition conf_example : csp_conf_t := mk_conf [97] [] [].

(** A packet from node [from] to a port, and the stack that has it in its first buffer. *)
Definition service_packet (from port : Z) (data : list Z) : csp_packet_t :=
  set_pk_id (mk_id 2 0 from 300 port 20) (set_pk_length (Z.of_nat (List.length data))
    (set_pk_mem (replicate 8 0 ++ data ++ replicate (2048 - List.length data) 0) empty_packet)).
Definition service_buffer (p : csp_packet_t) : csp_skbf_t := mk_skbf (refcount served_buffer) (skbf_addr served_buffer) p.
Definition service_stack (p : csp_packet_t) : stack := with_packet net_example 0 served_buffer p.

Lemma service_stack_ok p : packet_ok p →
  net_env [0%nat; 1%nat] (service_stack p) ∧ c_pool (k_core (service_stack p)) !! 0%nat = Some (service_buffer p).
Proof.
  intros Hp. destruct net_example_ok as [He _]. split; [|exact (with_packet_lookup net_example 0 served_buffer served_buffer_at p)].
  eapply net_env_step; [apply with_packet_step|]; [apply He|exact served_buffer_at|done|done].
Qed.

Ltac packet_checks := split; try (vm_compute; intuition congruence); apply (bool_decide_unpack _); vm_compute; reflexivity.

(** How many buffers are free: two. *)
Lemma csp_service_handler_answers_witness :
  answered (service_stack (service_packet 9 CSP_BUF_FREE [])) 0 (service_buffer (service_packet 9 CSP_BUF_FREE []))
    (mk_sys ∅ []) (service_packet 9 CSP_BUF_FREE []) [0; 0; 0; 2]
    (csp_service_handler conf_example 0 (service_stack (service_packet 9 CSP_BUF_FREE []), mk_sys ∅ [])).
Proof.
  destruct (service_stack_ok (service_packet 9 CSP_BUF_FREE [])) as [He Hk]; [packet_checks|].
  apply (csp_service_handler_answers conf_example [0%nat; 1%nat] _ 0 _ (mk_sys ∅ []) [0; 0; 0; 2] He Hk).
  - vm_compute. reflexivity.
  - vm_compute. intuition congruence.
  - done.
  - vm_compute. reflexivity.
Defined.

(** A route over KISS to the nodes 512 to 575. *)
Definition route_data : list Z := [0; 7] ++ be_bytes 2 512 ++ be_bytes 2 77 ++ be_bytes 2 8 ++ [75; 73; 83; 83; 0; 0; 0; 0; 0; 0; 0; 0].

Lemma csp_cmp_route_set_routes_witness :
  ∃ s' j r, csp_service_handler conf_example 0 (service_stack (service_packet 9 CSP_CMP route_data), mk_sys ∅ []) = Some ((), (s', mk_sys ∅ [])) ∧
    csp_rtable_find_route 2 (k_rtable s') 530 = Some (Some j) ∧ active (k_rtable s') j r ∧ 8 ≤ rt_netmask r.
Proof.
  destruct (service_stack_ok (service_packet 9 CSP_CMP route_data)) as [He Hk]; [packet_checks|].
  destruct (csp_cmp_route_set_routes conf_example [0%nat; 1%nat] (service_stack (service_packet 9 CSP_CMP route_data)) 0
    (service_buffer (service_packet 9 CSP_CMP route_data)) (mk_sys ∅ []) 1 530)
    as (s' & j & r & Hr & _ & _ & Hf & Ha & _ & Hn).
  - apply map_Forall_empty.
  - exact He.
  - exact Hk.
  - vm_compute. reflexivity.
  - vm_compute. reflexivity.
  - vm_compute. reflexivity.
  - vm_compute. reflexivity.
  - vm_compute. reflexivity.
  - vm_compute. reflexivity.
  - unfold is_u16. lia.
  - vm_compute. reflexivity.
  - exists s', j, r. split; [exact Hr|]. split; [exact Hf|]. split; [exact Ha|exact Hn].
Defined.

Definition memory_example : sys_t := mk_sys {[ 4096 := 1; 4097 := 2; 4098 := 3 ]} [].
Definition poke_packet : csp_packet_t := service_packet 9 CSP_CMP ([0; 5] ++ be_bytes 4 4097 ++ [2; 88; 99]).
Definition peek_packet : csp_packet_t := service_packet 8 CSP_CMP ([0; 4] ++ be_bytes 4 4097 ++ [2; 0; 0]).

Lemma memory_example_ok : sys_ok memory_example ∧ mapped memory_example 4097 2.
Proof.
  split; [apply (bool_decide_unpack _); vm_compute; reflexivity|].
  intros i Hi. assert (i = 0 ∨ i = 1) as [-> | ->] by lia; vm_compute; by eexists.
Qed.

Lemma csp_poke_peek_roundtrip_witness :
  ∃ s' s2' y' p2, csp_service_handler conf_example 0 (service_stack poke_packet, memory_example) = Some ((), (s', y')) ∧
    csp_service_handler conf_example 0 (service_stack peek_packet, y') = Some ((), (s2', y')) ∧ data_read p2 7 2 = Some [88; 99].
Proof.
  destruct (service_stack_ok poke_packet) as [He Hk]; [packet_checks|]. destruct (service_stack_ok peek_packet) as [He2 Hk2]; [packet_checks|].
  destruct (csp_poke_peek_roundtrip conf_example [0%nat; 1%nat] (service_stack poke_packet) (service_stack peek_packet) 0 0
    (service_buffer poke_packet) (service_buffer peek_packet) memory_example 4097 2)
    as (s' & s2' & y' & p2 & H1 & _ & H2 & _ & _ & Hd).
  - exact He.
  - exact Hk.
  - vm_compute. reflexivity.
  - vm_compute. intuition congruence.
  - exact He2.
  - exact Hk2.
  - vm_compute. reflexivity.
  - vm_compute. intuition congruence.
  - apply memory_example_ok.
  - apply memory_example_ok.
  - lia.
  - repeat split; vm_compute; reflexivity.
  - repeat split; vm_compute; reflexivity.
  - exists s', s2', y', p2. split; [exact H1|]. split; [exact H2|]. rewrite Hd. vm_compute. reflexivity.
Defined.

(** The same poke never fails, as any other request. *)
Lemma csp_service_handler_releases_witness :
  request_over [0%nat; 1%nat] (service_stack poke_packet) 0 (csp_service_handler conf_example 0 (service_stack poke_packet, memory_example)).
Proof.
  destruct (service_stack_ok poke_packet) as [He Hk]; [packet_checks|].
  apply (csp_service_handler_releases conf_example _ _ 0 (service_buffer poke_packet) memory_example).
  - repeat split; apply (bool_decide_unpack _); vm_compute; reflexivity.
  - apply memory_example_ok.
  - exact He.
  - exact Hk.
  - vm_compute. reflexivity.
  - vm_compute. intuition congruence.
  - vm_compute. intuition congruence.
  - intros _. split; [intros _; vm_compute; reflexivity|]. intros _ _. apply memory_example_ok.
Defined.

(** The process list asked for by the node itself while all other buffers are in use. *)
Definition ps_packet : csp_packet_t := service_packet 0 CSP_PS [0x55].
Definition all_taken (s : stack) : stack :=
  let take s := match liftC csp_buffer_get s with Some (_, s') => s' | None => s end in take (take s).
Definition ps_stack : stack := all_taken (service_stack ps_packet).

(** The buffer ends up in the queue of the router and in the pool at the same time. *)
Lemma ps_request_corrupts :
  (λ r : () * (stack * sys_t), (fq_items (c_free (k_core r.2.1)), qbufs r.2.1)) <$> csp_service_handler conf_example 0 (ps_stack, mk_sys ∅ []) =
  Some ([0%nat], [0%nat]).
Proof. vm_compute. reflexivity. Qed.

Lemma csp_ps_request_frees_twice_witness :
  ∃ s1, csp_service_handler conf_example 0 (service_stack ps_packet, mk_sys ∅ []) =
      on_fst (csp_sendto_reply (Some 0%nat) 0 CSP_O_SAME) (s1, mk_sys ∅ []) ∧ ¬ allocated (k_core s1) 0.
Proof.
  destruct (service_stack_ok ps_packet) as [He Hk]; [packet_checks|].
  destruct (csp_ps_request_frees_twice conf_example _ 0 _ (mk_sys ∅ []) (ne_inv _ _ He) Hk) as (s1 & Hr & _ & Hna & _);
    [vm_compute; reflexivity..|]. exists s1. split; [exact Hr|exact Hna].
Defined.
