(* ===== verification/RtableText.v ===== *)
(** * Routes as text

    [lib/csp/src/csp_rtable_stdio.c]: loading, checking and saving the routing table as a
    text, and [csp_rtable_print] of [csp_rtable_cidr.c]. *)

From Stdlib Require Import String.
From S2P Require Import Types Id State Rtable Iflist Text ParamState Services Prelude.
#[local] Open Scope Z_scope.

Definition CSP_IF_LOOPBACK_NAME : string := "LOOP".

(** ** Loading *)

Record entry_t := mk_entry { e_address : Z; e_netmask : Z; e_name : list Z; e_via : Z }.

(** The four formats, tried in order. *)
Definition scan_address : ST (list Z) Z := u32 <$> scan_u.
Definition scan_mask : ST (list Z) Z := scan_char 47;; swrap 32 <$> scan_d.
Definition scan_name : ST (list Z) (list Z) := scan_space;; scan_s 14.
Definition scan_via : ST (list Z) Z := scan_space;; u32 <$> scan_u.

Definition matched {A} (scan : ST (list Z) A) (str : list Z) : option A := fst <$> scan str.

Definition parse_entry (version : Z) (str : list Z) : option entry_t :=
  let host := csp_id_get_host_bits version in
  match matched (a ← scan_address; n ← scan_mask; i ← scan_name; v ← scan_via; mret (mk_entry a n i v)) str with
  | Some e => Some e
  | None =>
  match matched (a ← scan_address; n ← scan_mask; i ← scan_name; mret (mk_entry a n i CSP_NO_VIA_ADDRESS)) str with
  | Some e => Some e
  | None =>
  match matched (a ← scan_address; i ← scan_name; v ← scan_via; mret (mk_entry a host i v)) str with
  | Some e => Some e
  | None => matched (a ← scan_address; i ← scan_name; mret (mk_entry a host i CSP_NO_VIA_ADDRESS)) str
  end end end.

(** The loop over the tokens; it ends at a token of one character.  A token of no format
    has the empty name, and [address] and [netmask] are then not set. *)
Fixpoint parse_tokens (core : csp_core) (dry_run : bool) (toks : list (list Z)) (valid_entries : Z) (t : rtable_t)
    : option (Z * rtable_t * option Z) :=
  match toks with
  | [] => Some (valid_entries, t, None)
  | str :: toks' =>
      if bool_decide (1 < List.length str)%nat then
        match parse_entry (c_version core) str with
        | None =>
            ifc ← csp_iflist_get_by_name core "";
            match ifc with
            | None => Some (CSP_ERR_INVAL, t, Some CSP_DBG_ERR_INVALID_RTABLE_ENTRY)
            | Some _ => None
            end
        | Some e =>
            ifc ← csp_iflist_get_by_name core (name_of_bytes (e_name e));
            if bool_decide (csp_id_get_max_nodeid (c_version core) < e_address e)
               || bool_decide (csp_id_get_host_bits (c_version core) < e_netmask e) || bool_decide (ifc = None)
            then Some (CSP_ERR_INVAL, t, Some CSP_DBG_ERR_INVALID_RTABLE_ENTRY)
            else if dry_run then parse_tokens core dry_run toks' (valid_entries + 1) t
            else
              '(res, t', err) ← csp_rtable_set (c_version core) t (u16 (e_address e)) (e_netmask e) ifc (u16 (e_via e));
              if bool_decide (res ≠ CSP_ERR_NONE) then Some (res, t', Some CSP_DBG_ERR_INVALID_RTABLE_ENTRY)
              else parse_tokens core dry_run toks' (valid_entries + 1) t'
        end
      else Some (valid_entries, t, None)
  end.

(** Only the first hundred characters are read. *)
Definition csp_rtable_parse (core : csp_core) (t : rtable_t) (text : list Z) (dry_run : bool)
    : option (Z * rtable_t * option Z) :=
  parse_tokens core dry_run (strtok 44 [] (take 100 text)) 0 t.

Definition csp_rtable_load (core : csp_core) (t : rtable_t) (text : list Z) : option (Z * rtable_t * option Z) :=
  csp_rtable_parse core t text false.
Definition csp_rtable_check (core : csp_core) (t : rtable_t) (text : list Z) : option (Z * rtable_t * option Z) :=
  csp_rtable_parse core t text true.

(** ** Saving *)

Record csp_rtable_save_ctx_t := mk_ctx { ctx_buffer : list Z; ctx_len : Z; ctx_maxlen : Z; ctx_error : Z }.

(** The name of the interface a route points to. *)
Definition route_iface_name (core : csp_core) (r : csp_route_t) : option string :=
  a ← rt_iface r; i ← c_ifaces core !! a; Some (if_name i).

(** [mask_str] and [via_str] of [char [10]]. *)
Definition mask_str (version : Z) (r : csp_route_t) : list Z :=
  if bool_decide (rt_netmask r ≠ csp_id_get_host_bits version) then take 9 (47 :: decimal (rt_netmask r)) else [].
Definition via_str (r : csp_route_t) : list Z :=
  if bool_decide (rt_via r ≠ CSP_NO_VIA_ADDRESS) then take 9 (32 :: decimal (rt_via r)) else [].

Definition csp_rtable_save_route (core : csp_core) (ctx : csp_rtable_save_ctx_t) (r : csp_route_t)
    : option csp_rtable_save_ctx_t :=
  name ← route_iface_name core r;
  if bool_decide (name = CSP_IF_LOOPBACK_NAME) then Some ctx else
  let sep := if bool_decide (ctx_len ctx = 0) then [] else [44] in
  let remain_buf_size := ctx_maxlen ctx - ctx_len ctx in
  let text := sep ++ decimal (rt_address r) ++ mask_str (c_version core) r ++ [32] ++ c_string name ++ via_str r in
  buffer ← snprintf (ctx_buffer ctx) (ctx_len ctx) remain_buf_size text;
  let res := Z.of_nat (List.length text) in
  if bool_decide (swrap 32 remain_buf_size ≤ res)
  then Some (mk_ctx buffer (ctx_len ctx) (ctx_maxlen ctx) CSP_ERR_NOMEM)
  else Some (mk_ctx buffer (ctx_len ctx + res) (ctx_maxlen ctx) (ctx_error ctx)).

(** [csp_rtable_iterate] does not look at what the iterator returns: it goes on behind a
    route that did not fit. *)
Definition csp_rtable_save (core : csp_core) (t : rtable_t) (buffer : list Z) (maxlen : Z) : option (Z * list Z) :=
  buffer ← mem_write buffer 0 [0];
  ctx ← csp_rtable_iterate (λ ctx r, ctx ← ctx; csp_rtable_save_route core ctx r)
          (Some (mk_ctx buffer 0 maxlen CSP_ERR_NONE)) t;
  Some (ctx_error ctx, ctx_buffer ctx).

(** What [csp_rtable_print] prints. *)
Definition csp_rtable_print_route (core : csp_core) (r : csp_route_t) : option (list Z) :=
  name ← route_iface_name core r;
  Some (decimal (rt_address r) ++ [47] ++ decimal (rt_netmask r) ++ [32] ++ c_string name ++
        (if bool_decide (rt_via r = CSP_NO_VIA_ADDRESS) then [] else 32 :: decimal (rt_via r)) ++ [13; 10]).
Definition csp_rtable_print (core : csp_core) (t : rtable_t) : option (list Z) :=
  csp_rtable_iterate (λ out r, out ← out; line ← csp_rtable_print_route core r; Some (out ++ line)) (Some []) t.

(** ** One route *)

(** A name that [%14s] reads whole and that ends no entry. *)
Definition name_char (c : Z) : bool := negb (is_space c) && bool_decide (c ≠ 0 ∧ c ≠ 44).
Definition name_ok (name : string) : bool :=
  forallb name_char (c_string name) && bool_decide (0 < List.length (c_string name) ≤ 14)%nat &&
  bool_decide (name ≠ CSP_IF_LOOPBACK_NAME).

(** The text of a route whose interface has this name. *)
Definition entry_text (version : Z) (r : csp_route_t) (name : string) : list Z :=
  decimal (rt_address r) ++ mask_str version r ++ [32] ++ c_string name ++ via_str r.

Section Entry.
Implicit Types (l rest : list Z) (n : Z).

Lemma decimal_short n : 0 ≤ n < 2 ^ 16 → (List.length (decimal n) ≤ 5)%nat.
Proof. intros Hn. apply length_decimal; [lia|]. change (10 ^ Z.of_nat 5) with 100000. lia. Qed.

Lemma scan_address_run n rest :
  0 ≤ n < 2 ^ 32 → (∀ c rest', rest = c :: rest' → is_digit c = false) → scan_address (decimal n ++ rest) = Some (n, rest).
Proof.
  intros Hn Hr. unfold scan_address, fmap, ST_fmap. rewrite scan_u_decimal by (done || lia).
  unfold u32, wrap. by rewrite Z.mod_small by lia.
Qed.

Lemma scan_mask_run n rest :
  0 ≤ n < 2 ^ 31 → (∀ c rest', rest = c :: rest' → is_digit c = false) → scan_mask (47 :: decimal n ++ rest) = Some (n, rest).
Proof.
  intros Hn Hr. unfold scan_mask.
  rewrite (ST_bind_run _ _ _ () (decimal n ++ rest)) by (unfold scan_char; by rewrite bool_decide_true). unfold fmap, ST_fmap.
  assert (decimal n = signed_decimal n) as -> by (unfold signed_decimal; by rewrite bool_decide_false by lia).
  rewrite scan_d_decimal by (done || lia). unfold swrap, wrap. rewrite Z.mod_small by lia. do 2 f_equal. lia.
Qed.

Lemma scan_via_run n rest :
  0 ≤ n < 2 ^ 32 → (∀ c rest', rest = c :: rest' → is_digit c = false) → scan_via (32 :: decimal n ++ rest) = Some (n, rest).
Proof.
  intros Hn Hr. unfold scan_via, scan_space. st_red. cbn [skip_space]. change (is_space 32) with true. cbn iota.
  rewrite skip_space_digit by eauto using decimal_nonempty, decimal_digits. by apply scan_address_run.
Qed.

Lemma scan_name_run name rest :
  name_ok name = true → rest = [] ∨ head rest = Some 32 → scan_name (32 :: c_string name ++ rest) = Some (c_string name, rest).
Proof.
  intros [[Hc Hl%bool_decide_eq_true]%andb_true_iff _]%andb_true_iff Hr. rewrite forallb_forall in Hc.
  assert (Hns : Forall (λ c, negb (is_space c) = true) (c_string name)).
  { apply Forall_forall. intros c Hin. apply list_elem_of_In, Hc, andb_true_iff in Hin. apply Hin. }
  assert (Hskip : skip_space (c_string name ++ rest) = c_string name ++ rest).
  { destruct Hns as [|c l Hn _]; [cbn in Hl; lia|]. cbn. apply negb_true_iff in Hn. by rewrite Hn. }
  unfold scan_name, scan_s, scan_space. st_red. cbn [skip_space]. change (is_space 32) with true. cbn iota.
  rewrite !Hskip. rewrite span_all; [|done|].
  - cbn [fst]. rewrite take_ge by lia. destruct (c_string name) as [|c l] eqn:E; [cbn in Hl; lia|].
    rewrite <- E. by rewrite drop_app_length.
  - intros c rest' ->. destruct Hr as [|[= ->]]; done.
Qed.

Lemma scan_via_none rest : rest = [] → scan_via rest = None.
Proof. by intros ->. Qed.

(** The text of a route is read as its fields. *)
Lemma parse_entry_text version r name :
  0 ≤ rt_address r < 2 ^ 16 → 0 ≤ rt_netmask r ≤ csp_id_get_host_bits version → is_u16 (rt_via r) → name_ok name = true →
  parse_entry version (entry_text version r name) =
    Some (mk_entry (rt_address r) (rt_netmask r) (c_string name) (rt_via r)).
Proof.
  intros Ha Hm Hv Hn. pose proof (host_bits_range version) as Hh. unfold is_u16 in Hv.
  assert (Hsp : ∀ (c : Z) rest rest', 32 :: rest = c :: rest' → is_digit c = false) by (by intros ??? [= <- _]).
  assert (Hsl : ∀ (c : Z) rest rest', 47 :: rest = c :: rest' → is_digit c = false) by (by intros ??? [= <- _]).
  assert (Hvia : via_str r = if bool_decide (rt_via r ≠ CSP_NO_VIA_ADDRESS) then 32 :: decimal (rt_via r) ++ [] else []).
  { unfold via_str. case_bool_decide; [|done]. rewrite take_ge, app_nil_r; [done|]. pose proof (decimal_short (rt_via r) ltac:(lia)). cbn [List.length]. lia. }
  assert (Hname : scan_name (32 :: c_string name ++ via_str r) = Some (c_string name, via_str r)).
  { apply scan_name_run; [done|]. rewrite Hvia. case_bool_decide; [by right|by left]. }
  assert (Hsv : scan_via (via_str r) = if bool_decide (rt_via r ≠ CSP_NO_VIA_ADDRESS) then Some (rt_via r, []) else None).
  { rewrite Hvia. case_bool_decide; [apply scan_via_run; [lia|done]|done]. }
  unfold entry_text, parse_entry, matched, mask_str. cbn [app].
  destruct (decide (rt_netmask r ≠ csp_id_get_host_bits version)) as [Hmask|Hmask];
    [rewrite (bool_decide_true (rt_netmask r ≠ _)) by done|rewrite (bool_decide_false (rt_netmask r ≠ _)) by done].
  - rewrite take_ge by (cbn [List.length]; pose proof (decimal_short (rt_netmask r) ltac:(lia)); lia). cbn [app].
    pose proof (scan_address_run (rt_address r) (47 :: decimal (rt_netmask r) ++ 32 :: c_string name ++ via_str r) ltac:(lia) ltac:(eauto)) as H1.
    pose proof (scan_mask_run (rt_netmask r) (32 :: c_string name ++ via_str r) ltac:(lia) ltac:(eauto)) as H2.
    assert (Hk : ∀ k : Z → Z → list Z → ST (list Z) entry_t, (a ← scan_address; n ← scan_mask; i ← scan_name; k a n i)
      (decimal (rt_address r) ++ 47 :: decimal (rt_netmask r) ++ 32 :: c_string name ++ via_str r) =
      k (rt_address r) (rt_netmask r) (c_string name) (via_str r)) by (intros k; run H1; run H2; by run Hname).
    rewrite (Hk (λ a n i, v ← scan_via; mret (mk_entry a n i v))), (Hk (λ a n i, mret (mk_entry a n i CSP_NO_VIA_ADDRESS))).
    unfold mbind, ST_bind. rewrite Hsv. case_bool_decide as Hno; [done|by rewrite Hno].
  - apply dec_stable in Hmask. cbn [app].
    pose proof (scan_address_run (rt_address r) (32 :: c_string name ++ via_str r) ltac:(lia) ltac:(eauto)) as H1.
    assert (Hno : scan_mask (32 :: c_string name ++ via_str r) = None) by done.
    assert (Hf : ∀ (k : Z → Z → ST (list Z) entry_t),
      (a ← scan_address; n ← scan_mask; k a n) (decimal (rt_address r) ++ 32 :: c_string name ++ via_str r) = None).
    { intros k. run H1. unfold mbind, ST_bind. by rewrite Hno. }
    assert (Hk : ∀ k : Z → list Z → ST (list Z) entry_t, (a ← scan_address; i ← scan_name; k a i)
      (decimal (rt_address r) ++ 32 :: c_string name ++ via_str r) = k (rt_address r) (c_string name) (via_str r))
      by (intros k; run H1; by run Hname).
    rewrite (Hf (λ a n, i ← scan_name; v ← scan_via; mret (mk_entry a n i v))), (Hf (λ a n, i ← scan_name; mret (mk_entry a n i CSP_NO_VIA_ADDRESS))).
    rewrite (Hk (λ a i, v ← scan_via; mret (mk_entry a _ i v))), (Hk (λ a i, mret (mk_entry a _ i CSP_NO_VIA_ADDRESS))).
    cbn [fmap option_fmap option_map]. unfold mbind, ST_bind. rewrite Hsv, <- Hmask.
    case_bool_decide as Hnv; [done|by rewrite Hnv].
Qed.
End Entry.

(** ** The whole table *)

Definition route_key (r : csp_route_t) : Z * Z * option nat := (rt_address r, rt_netmask r, rt_iface r).

(** A route of the interface [name], which the list of interfaces finds. *)
Record listed (core : csp_core) (e : csp_route_t * string) : Prop := {
  li_address : 0 ≤ rt_address e.1 ≤ csp_id_get_max_nodeid (c_version core);
  li_netmask : 0 ≤ rt_netmask e.1 ≤ csp_id_get_host_bits (c_version core);
  li_via : is_u16 (rt_via e.1);
  li_name : name_ok e.2 = true;
  li_iface : route_iface_name core e.1 = Some e.2;
  li_found : ∃ a, rt_iface e.1 = Some a ∧ csp_iflist_get_by_name core e.2 = Some (Some a);
}.

Section Table.
Context (core : csp_core).
#[local] Abbreviation version := (c_version core).
Implicit Types (e : csp_route_t * string) (es : list (csp_route_t * string)) (t : rtable_t).

Definition etext e : list Z := entry_text version e.1 e.2.

Lemma listed_address e : listed core e → 0 ≤ rt_address e.1 < 2 ^ 16.
Proof.
  intros Hl. pose proof (li_address _ _ Hl) as Ha. rewrite max_nodeid_pow in Ha. pose proof (host_bits_range (c_version core)).
  assert (2 ^ csp_id_get_host_bits (c_version core) ≤ 2 ^ 14) by (apply Z.pow_le_mono_r; lia). lia.
Qed.

Lemma etext_chars e : listed core e → Forall (λ c, c ≠ 44 ∧ c ≠ 0) (etext e) ∧ (1 < List.length (etext e))%nat.
Proof.
  intros Hl. assert (Hd : ∀ n, Forall (λ c, c ≠ 44 ∧ c ≠ 0) (decimal n)).
  { intros n. eapply Forall_impl; [apply decimal_digits|]. cbn. intros c Hc%bool_decide_eq_true. lia. }
  pose proof (li_name _ _ Hl) as Hn. apply andb_true_iff in Hn as [[Hc _]%andb_true_iff _]. rewrite forallb_forall in Hc.
  unfold etext, entry_text, mask_str, via_str. split.
  - repeat (apply Forall_app; split); try done.
    + case_bool_decide; [|constructor]. apply Forall_take. by constructor.
    + by repeat constructor.
    + apply Forall_forall. intros c Hin. apply list_elem_of_In, Hc, andb_true_iff in Hin as [_ H%bool_decide_eq_true]. lia.
    + case_bool_decide; [|constructor]. apply Forall_take. by constructor.
  - rewrite !length_app. pose proof (decimal_nonempty (rt_address e.1)). destruct (decimal _); [done|]. cbn [List.length]. lia.
Qed.

Lemma name_of_c_string (s : string) : Forall (λ c, c ≠ 0) (c_string s) → name_of_bytes (c_string s) = s.
Proof.
  induction s as [|x s IH]; [done|]. cbn [c_string name_of_bytes]. intros Hz. inversion Hz as [|? ? Hx Hs]; subst.
  rewrite bool_decide_false by done. rewrite Nat2Z.id, Ascii.ascii_nat_embedding. by rewrite IH.
Qed.

(** Loading one listed route into a table that has room and no route with its key. *)
Lemma load_one t e : rtable_ok version t → listed core e → rtable_inptr t < CSP_RTABLE_SIZE →
  (∀ i r, active t i r → route_key r ≠ route_key e.1) →
  ∃ t', (∀ toks n, parse_tokens core false (etext e :: toks) n t = parse_tokens core false toks (n + 1) t') ∧
    rtable_ok version t' ∧ rtable_inptr t' = rtable_inptr t + 1 ∧
    rtable t' = <[Z.to_nat (rtable_inptr t) := e.1]> (rtable t).
Proof.
  intros Ht Hl Hin Hkey. pose proof (listed_address e Hl) as Ha. pose proof (li_netmask _ _ Hl) as Hm. pose proof (li_via _ _ Hl) as Hv.
  destruct (li_found _ _ Hl) as (a & Hifc & Hfound). destruct (etext_chars e Hl) as [_ Hlen].
  pose proof (li_name _ _ Hl) as Hn. pose proof (parse_entry_text version e.1 e.2 Ha Hm Hv Hn) as Hp.
  assert (name_of_bytes (c_string e.2) = e.2) as Hname.
  { apply name_of_c_string. apply andb_true_iff in Hn as [[Hc _]%andb_true_iff _]. rewrite forallb_forall in Hc.
    apply Forall_forall. intros c Hin'. apply list_elem_of_In, Hc, andb_true_iff in Hin' as [_ H%bool_decide_eq_true]. apply H. }
  pose proof (rtable_set_spec version t (rt_address e.1) (rt_netmask e.1) (rt_via e.1) a Ht ltac:(unfold is_u16; lia) Hv) as Hset.
  unfold set_outcome in Hset. assert (set_netmask version (rt_netmask e.1) = rt_netmask e.1) as Hnm
    by (unfold set_netmask; by rewrite bool_decide_true). rewrite Hnm in Hset.
  assert (mk_route (rt_address e.1) (rt_netmask e.1) (rt_via e.1) (Some a) = e.1) as Hr by (rewrite <- Hifc; by destruct (e.1)).
  destruct (csp_rtable_set version t _ _ (Some a) _) as [[[rc t'] err]|] eqn:Hcall; [|lia].
  destruct Hset as (-> & -> & Ht' & [(i & r & Hact & (K1 & K2 & K3) & _)|(_ & _ & ->)]).
  { exfalso. apply (Hkey i r Hact). unfold route_key. by rewrite K1, K2, K3, Hifc. }
  rewrite Hr in *. eexists. split; [|split; [exact Ht'|split; [done|done]]].
  intros toks n. cbn [parse_tokens]. rewrite bool_decide_true by done. unfold etext. rewrite Hp.
  cbn [e_name e_address e_netmask e_via]. rewrite Hname, Hfound. cbn [mbind option_bind].
  rewrite (bool_decide_false (_ < rt_address e.1)), (bool_decide_false (_ < rt_netmask e.1)), (bool_decide_false (Some a = None))
    by (done || (pose proof (li_address _ _ Hl); lia)). cbn [orb].
  unfold is_u16 in Hv. assert (u16 (rt_address e.1) = rt_address e.1 ∧ u16 (rt_via e.1) = rt_via e.1) as [-> ->]
    by (split; apply Z.mod_small; lia).
  rewrite Hcall. monad. by rewrite bool_decide_false by (by intros H; apply H).
Qed.

Lemma load_all es : ∀ t n,
  rtable_ok version t → Forall (listed core) es → rtable_inptr t + Z.of_nat (List.length es) ≤ CSP_RTABLE_SIZE →
  NoDup (route_key <$> (take (Z.to_nat (rtable_inptr t)) (rtable t) ++ es.*1)) →
  ∃ t', parse_tokens core false (etext <$> es) n t = Some (n + Z.of_nat (List.length es), t', None) ∧
    rtable_ok version t' ∧ rtable_inptr t' = rtable_inptr t + Z.of_nat (List.length es) ∧
    take (Z.to_nat (rtable_inptr t')) (rtable t') = take (Z.to_nat (rtable_inptr t)) (rtable t) ++ es.*1.
Proof.
  induction es as [|e es IH]; intros t n Ht Hl Hin Hnd.
  { exists t. rewrite app_nil_r, !Z.add_0_r. done. }
  inversion Hl as [|? ? He Hes]; subst. cbn [List.length fmap list_fmap] in *.
  pose proof (rto_inptr _ _ Ht) as Hip. pose proof (rto_len _ _ Ht) as Hlen.
  destruct (load_one t e Ht He ltac:(lia)) as (t1 & Hrun & Ht1 & Hi1 & Hr1).
  { intros i r [Hi Hr] Hk. rewrite fmap_app in Hnd. apply NoDup_app in Hnd as (_ & Hd & _).
    apply (Hd (route_key r)); [|rewrite Hk; by left]. apply list_elem_of_fmap. exists r. split; [done|].
    apply list_elem_of_lookup. exists i. rewrite lookup_take_lt by lia. done. }
  assert (Htake : take (Z.to_nat (rtable_inptr t1)) (rtable t1) = take (Z.to_nat (rtable_inptr t)) (rtable t) ++ [e.1]).
  { rewrite Hi1, Hr1. replace (Z.to_nat (rtable_inptr t + 1)) with (S (Z.to_nat (rtable_inptr t))) by lia.
    erewrite take_S_r by (apply list_lookup_insert_eq; lia). by rewrite take_insert_ge by lia. }
  destruct (IH t1 (n + 1) Ht1 Hes ltac:(lia)) as (t' & Hrun' & Ht' & Hi' & Hr').
  { rewrite Htake, <- app_assoc. exact Hnd. }
  exists t'. split; [|split; [done|split; [lia|]]].
  - rewrite Hrun, Hrun'. replace (n + 1 + Z.of_nat (List.length es)) with (n + Z.of_nat (S (List.length es))) by lia. done.
  - rewrite Hr', Htake, <- app_assoc. done.
Qed.
End Table.

Section Save.
Context (core : csp_core).
Implicit Types (e : csp_route_t * string) (es : list (csp_route_t * string)).

(** The buffer holds [text] and its terminator; nothing has gone wrong. *)
Definition saved (maxlen : Z) (text : list Z) (ctx : csp_rtable_save_ctx_t) : Prop :=
  ∃ rest, ctx = mk_ctx (text ++ 0 :: rest) (Z.of_nat (List.length text)) maxlen CSP_ERR_NONE ∧
    maxlen ≤ Z.of_nat (List.length (text ++ 0 :: rest)).

Lemma save_one maxlen text ctx e :
  maxlen < 2 ^ 31 → saved maxlen text ctx → listed core e →
  let part := (match text with [] => [] | _ => [44] end) ++ etext core e in
  Z.of_nat (List.length (text ++ part)) < maxlen →
  ∃ ctx', csp_rtable_save_route core ctx e.1 = Some ctx' ∧ saved maxlen (text ++ part) ctx'.
Proof.
  intros Hmax (rest & -> & Hbuf) Hl part Hlen. unfold csp_rtable_save_route. rewrite (li_iface _ _ Hl).
  cbn [mbind option_bind ctx_len ctx_buffer ctx_maxlen ctx_error].
  pose proof (li_name _ _ Hl) as Hn. apply andb_true_iff in Hn as [_ Hlo]. apply bool_decide_eq_true in Hlo.
  rewrite (bool_decide_false (e.2 = _)) by done.
  assert ((if bool_decide (Z.of_nat (List.length text) = 0) then [] else [44]) ++
    decimal (rt_address e.1) ++ mask_str (c_version core) e.1 ++ [32] ++ c_string e.2 ++ via_str e.1 = part) as ->
    by (subst part; by destruct text).
  rewrite length_app in Hlen. unfold snprintf. set (n := maxlen - Z.of_nat (List.length text)).
  assert (u64 n = n) as -> by (apply Z.mod_small; lia). rewrite (bool_decide_false (n = 0)) by lia.
  rewrite take_ge by lia. rewrite length_app in Hbuf. cbn [List.length] in Hbuf.
  assert (Hw : mem_write (text ++ 0 :: rest) (Z.of_nat (List.length text)) (part ++ [0]) =
    Some ((text ++ part) ++ 0 :: drop (List.length part) rest)).
  { pose proof (mem_write_mid text (0 :: take (List.length part) rest) (part ++ [0]) (drop (List.length part) rest)) as Hm.
    cbn [app] in Hm. rewrite take_drop in Hm. rewrite Hm; [by rewrite <- !app_assoc|].
    rewrite length_app. cbn [List.length]. rewrite length_take. lia. }
  rewrite Hw. monad. assert (swrap 32 n = n) as -> by (unfold swrap, wrap; rewrite Z.mod_small by lia; lia).
  rewrite bool_decide_false by lia. eexists. split; [done|]. exists (drop (List.length part) rest).
  rewrite !length_app, Nat2Z.inj_add. split; [done|]. cbn [List.length]. rewrite length_drop. lia.
Qed.

(** What the text grows by. *)
Lemma joined_snoc (ts : list (list Z)) (l : list Z) : Forall (λ l, l ≠ []) ts →
  joined (ts ++ [l]) = joined ts ++ (match joined ts with [] => [] | _ => [44] end) ++ l.
Proof.
  induction 1 as [|x ts Hx Hts IH]; [done|]. destruct Hts as [|y ts Hy Hts].
  - cbn. by destruct x.
  - change (joined ((x :: y :: ts) ++ [l])) with (x ++ 44 :: joined ((y :: ts) ++ [l])). rewrite IH.
    change (joined (x :: y :: ts)) with (x ++ 44 :: joined (y :: ts)). rewrite <- app_assoc.
    destruct x; [done|]. cbn [app]. do 3 f_equal.
    destruct (joined (y :: ts)) eqn:E; [|done]. exfalso. destruct ts; cbn in E; [done|]. by destruct y.
Qed.

Lemma joined_prefix (ts ts' : list (list Z)) : (List.length (joined ts) ≤ List.length (joined (ts ++ ts')))%nat.
Proof.
  induction ts as [|x ts IH]; [cbn; lia|]. destruct ts as [|y ts].
  - destruct ts'; cbn; [done|]. rewrite length_app. lia.
  - change (joined ((x :: y :: ts) ++ ts')) with (x ++ 44 :: joined ((y :: ts) ++ ts')).
    change (joined (x :: y :: ts)) with (x ++ 44 :: joined (y :: ts)). rewrite !length_app. cbn [List.length]. lia.
Qed.

Lemma save_all maxlen es : ∀ es0 ctx,
  maxlen < 2 ^ 31 → Forall (listed core) (es0 ++ es) → saved maxlen (joined (etext core <$> es0)) ctx →
  Z.of_nat (List.length (joined (etext core <$> es0 ++ es))) < maxlen →
  ∃ ctx', foldl (λ ctx r, ctx ← ctx; csp_rtable_save_route core ctx r) (Some ctx) es.*1 = Some ctx' ∧
    saved maxlen (joined (etext core <$> es0 ++ es)) ctx'.
Proof.
  induction es as [|e es IH]; intros es0 ctx Hmax Hl Hs Hlen.
  { exists ctx. by rewrite app_nil_r. }
  assert (Forall (listed core) es0 ∧ listed core e) as [Hl0 He] by (apply Forall_app in Hl as [? Hl]; by inversion Hl).
  assert (Hne : Forall (λ l, l ≠ []) (etext core <$> es0)).
  { apply Forall_fmap. eapply Forall_impl; [exact Hl0|]. intros x Hx Hn. destruct (etext_chars core x Hx) as [_ H]. by rewrite Hn in H; cbn in H; lia. }
  assert (Hj : joined (etext core <$> es0 ++ [e]) = joined (etext core <$> es0) ++
    (match joined (etext core <$> es0) with [] => [] | _ => [44] end) ++ etext core e) by (rewrite fmap_app; by apply joined_snoc).
  rewrite cons_middle, app_assoc in Hl, Hlen |- *.
  destruct (save_one maxlen (joined (etext core <$> es0)) ctx e Hmax Hs He) as (ctx1 & Hrun & Hs1).
  { rewrite <- Hj. pose proof (joined_prefix (etext core <$> es0 ++ [e]) (etext core <$> es)) as Hp. rewrite <- fmap_app in Hp. lia. }
  rewrite <- Hj in Hs1. destruct (IH (es0 ++ [e]) ctx1 Hmax Hl Hs1 Hlen) as (ctx' & Hrun' & Hs').
  exists ctx'. split; [|done]. cbn [fmap list_fmap foldl mbind option_bind]. by rewrite Hrun.
Qed.
End Save.

(** C17: A routing table saved as text is loaded back: when every route in use has an
    interface that is found by its name (at most 14 characters without spaces or commas),
    no two routes have the same key, and the text has no more than the hundred characters
    [csp_rtable_load] reads, [csp_rtable_save] writes the whole text into the buffer, and
    loading it into an empty table gives the same routes in the same order, with their
    prefix lengths and via addresses. *)
Theorem csp_rtable_text_roundtrip (core : csp_core) (t : rtable_t) (es : list (csp_route_t * string)) (buffer : list Z) (maxlen : Z) :
  rtable_ok (c_version core) t → take (Z.to_nat (rtable_inptr t)) (rtable t) = es.*1 → Forall (listed core) es →
  NoDup (route_key <$> es.*1) →
  let text := joined (etext core <$> es) in
  (List.length text ≤ 100)%nat → Z.of_nat (List.length text) < maxlen < 2 ^ 31 → maxlen ≤ Z.of_nat (List.length buffer) →
  ∃ buffer' t', csp_rtable_save core t buffer maxlen = Some (CSP_ERR_NONE, buffer') ∧ until_nul buffer' = text ∧
    csp_rtable_load core rtable_init text = Some (rtable_inptr t, t', None) ∧
    rtable_ok (c_version core) t' ∧ rtable_inptr t' = rtable_inptr t ∧
    take (Z.to_nat (rtable_inptr t')) (rtable t') = take (Z.to_nat (rtable_inptr t)) (rtable t).
Proof.
  intros Ht Hes Hl Hnd text H100 Hmax Hbuf.
  pose proof (rto_inptr _ _ Ht) as Hin. pose proof (rto_len _ _ Ht) as Hlen.
  assert (Hn : Z.of_nat (List.length es) = rtable_inptr t).
  { apply (f_equal List.length) in Hes. rewrite length_take, length_fmap in Hes. lia. }
  destruct buffer as [|x rest]; [cbn in Hbuf; lia|].
  destruct (save_all core maxlen es [] (mk_ctx (0 :: rest) 0 maxlen CSP_ERR_NONE)) as (ctx & Hfold & rest' & -> & _);
    [lia|done|by exists rest|apply Hmax|]. cbn [app] in Hfold. fold text in Hfold.
  destruct (load_all core es rtable_init 0) as (t' & Hload & Ht' & Hi' & Hr'); [by apply rtable_init_ok|done|cbn; lia|exact Hnd|].
  exists (text ++ 0 :: rest'), t'. split_and!.
  - unfold csp_rtable_save. rewrite (mem_write_mid [] [x] [0] rest eq_refl : mem_write (x :: rest) 0 [0] = _).
    cbn [app mbind option_bind]. unfold csp_rtable_iterate. rewrite Hes, Hfold. done.
  - apply until_nul_app. apply joined_chars; [done|]. apply Forall_fmap. eapply Forall_impl; [exact Hl|].
    intros e He. eapply Forall_impl; [apply (etext_chars core e He)|]. by intros c [_ ?].
  - unfold csp_rtable_load, csp_rtable_parse. rewrite take_ge by done. subst text. rewrite strtok_joined; [|].
    + rewrite Hload. by rewrite Hn.
    + apply Forall_fmap. eapply Forall_impl; [exact Hl|]. intros e He. destruct (etext_chars core e He) as [Hc H1]. split.
      * eapply Forall_impl; [exact Hc|]. by intros c [? _].
      * intros H0. rewrite H0 in H1. cbn in H1. lia.
  - done.
  - rewrite Hi'. cbn. lia.
  - rewrite Hr', Hes. done.
Qed.

(** Three routes over the interfaces CAN and KISS. *)
Definition text_routes : list (csp_route_t * string) :=
  [(mk_route 0 0 CSP_NO_VIA_ADDRESS (Some 1%nat), "CAN"); (mk_route 8 14 CSP_NO_VIA_ADDRESS (Some 2%nat), "KISS");
   (mk_route 10 5 20 (Some 1%nat), "CAN")]%string.
Definition table_of (rs : list csp_route_t) : rtable_t :=
  mk_rtable (rs ++ replicate (Z.to_nat CSP_RTABLE_SIZE - List.length rs) route_zero) (Z.of_nat (List.length rs)).

Lemma csp_rtable_text_roundtrip_witness :
  let text := c_string "0/0 CAN,8 KISS,10/5 CAN 20" in
  ∃ buffer' t', csp_rtable_save iflist_example (table_of text_routes.*1) (replicate 64 7) 64 = Some (CSP_ERR_NONE, buffer') ∧
    until_nul buffer' = text ∧ csp_rtable_load iflist_example rtable_init text = Some (3, t', None) ∧
    take 3 (rtable t') = text_routes.*1.
Proof.
  destruct (csp_rtable_text_roundtrip iflist_example (table_of text_routes.*1) text_routes (replicate 64 7) 64)
    as (buffer' & t' & Hs & Ht & Hl & _ & Hi & Hr).
  - split; [done|vm_compute; split; congruence|]. apply Forall_lookup. repeat (constructor; [vm_compute; repeat split; congruence|]). constructor.
  - done.
  - repeat (constructor; [split; try (vm_compute; repeat split; congruence); try (vm_compute; reflexivity); eexists; split; [reflexivity|vm_compute; reflexivity]|]).
    constructor.
  - apply (bool_decide_unpack _). vm_compute. reflexivity.
  - vm_compute. lia.
  - vm_compute. split; reflexivity.
  - vm_compute. congruence.
  - exists buffer', t'. split; [exact Hs|]. split; [rewrite Ht; vm_compute; reflexivity|]. split; [exact Hl|].
    rewrite Hi in Hr. exact Hr.
Defined.

(** ** Where text and table part *)

(** Saving a cleared table follows the null pointers [csp_rtable_clear] leaves in it. *)
Lemma csp_rtable_save_after_clear core t buffer maxlen :
  rtable_ok (c_version core) t → 0 < rtable_inptr t → csp_rtable_save core (csp_rtable_clear t) buffer maxlen = None.
Proof.
  intros Ht Hin. pose proof (rto_inptr _ _ Ht). pose proof (rto_len _ _ Ht).
  unfold csp_rtable_save. destruct (mem_write buffer 0 [0]) as [b|]; [|done]. monad.
  unfold csp_rtable_iterate, csp_rtable_clear, csp_rtable_free. cbn [rtable rtable_inptr].
  destruct (Z.to_nat (rtable_inptr t)) as [|n] eqn:Hn; [lia|]. destruct (List.length (rtable t)) as [|k] eqn:Hk; [lia|].
  cbn [replicate take foldl mbind option_bind].
  assert (∀ l : list csp_route_t, foldl (λ ctx r, ctx ← ctx; csp_rtable_save_route core ctx r) None l = None) as Hnone
    by (induction l; [done|done]). by rewrite Hnone.
Qed.

(** Six routes over gateways make a text of more than a hundred characters, which is
    saved whole; loading stops inside the last address and sets a different route. *)
Definition long_routes : list csp_route_t :=
  (λ i, mk_route (1000 + i) 12 (2000 + i) (Some 1%nat)) <$> seqZ 0 6.

Lemma csp_rtable_load_cuts_text :
  (λ '(rc, buffer), (rc, (λ '(n, t, _), (n, rt_via <$> rtable t !! 5%nat)) <$>
     csp_rtable_load iflist_example rtable_init (until_nul buffer))) <$>
    csp_rtable_save iflist_example (table_of long_routes) (replicate 200 0) 200 =
  Some (CSP_ERR_NONE, Some (6, Some 200)) ∧ rt_via <$> long_routes !! 5%nat = Some 2005.
Proof. vm_compute. done. Qed.
