(* ===== verification/ParamTransfer.v ===== *)
(** * Exchanging parameter lists

    The rest of [list/param_list.c]: the packed descriptions of parameters, unpacking them
    into remote parameters, and downloading the list of another node.  The descriptions are
    also what [rparam_list_handler] of [VmemServer.v] sends. *)

From S2P Require Import Types Buffer Stack Net Rdp Conn Io ParamState Param ParamList ParamServer VmemServer Prelude.

(** ** Unpacking *)

Definition param_list_packed_size (list_version : Z) : Z :=
  if bool_decide (list_version = 1) then 44
  else if bool_decide (list_version = 2) then 46
  else if bool_decide (list_version = 3) then 207
  else 0.

(** The variables [param_list_unpack] fills; a [char *] is the memory behind it. *)
Record unpacked := mk_unpacked {
  un_addr : Z; un_id : Z; un_type : Z; un_size : Z; un_mask : Z;
  un_name : list Z; un_unit : option (list Z); un_help : option (list Z);
}.

Definition be_at (data : list Z) (off n : Z) : option Z := bs ← mem_read data off n; Some (be_val bs).

(** [strlen] of the first two versions: what is left for the name, at most 35. *)
Definition name_length (length off : Z) : Z :=
  let strlen := u16 (length - off) in if bool_decide (36 ≤ strlen) then 35 else strlen.

Definition unpack_v1 (data : list Z) (length : Z) : option (unpacked * list Z) :=
  data ← mem_write data (8 + name_length length 8) [0];
  id ← be_at data 0 2;
  type ← be_at data 2 1;
  size ← be_at data 3 1;
  mask ← be_at data 4 4;
  data ← mem_write data (8 + 35) [0];
  Some (mk_unpacked (Z.shiftr id 11) (Z.land id 0x7FF) type size (Z.lor mask PM_REMOTE) (drop 8 data) None None, data).

Definition unpack_v2 (data : list Z) (length : Z) : option (unpacked * list Z) :=
  data ← mem_write data (10 + name_length length 10) [0];
  node ← be_at data 2 2;
  id ← be_at data 0 2;
  type ← be_at data 4 1;
  size ← be_at data 5 1;
  mask ← be_at data 6 4;
  data ← mem_write data (10 + 35) [0];
  Some (mk_unpacked node id type size (Z.lor mask PM_REMOTE) (drop 10 data) None None, data).

Definition unpack_v3 (data : list Z) : option (unpacked * list Z) :=
  node ← be_at data 2 2;
  id ← be_at data 0 2;
  type ← be_at data 4 1;
  size ← be_at data 5 1;
  mask ← be_at data 6 4;
  data ← mem_write data (10 + 35) [0];
  data ← mem_write data (47 + 9) [0];
  data ← mem_write data (57 + 149) [0];
  Some (mk_unpacked node id type size (Z.lor mask PM_REMOTE) (drop 10 data) (Some (drop 47 data)) (Some (drop 57 data)), data).

Definition unpack_fields (data : list Z) (length list_version : Z) : option (unpacked * list Z) :=
  if bool_decide (list_version = 1) then unpack_v1 data length
  else if bool_decide (list_version = 2) then unpack_v2 data length
  else unpack_v3 data.

Section Transfer.
Context `{ParamEnv}.

(** The result and [data], in which the strings are now terminated. *)
Definition param_list_unpack (node : Z) (data : list Z) (length list_version : Z) (include_remotes : bool)
    : ST pstate (Z * list Z) :=
  '(u, data) ← lift_opt (unpack_fields data length list_version);
  let addr := if bool_decide (un_addr u = 0) then u16 node else un_addr u in
  let size := if bool_decide (un_size u = 255) then 1 else un_size u in
  if negb include_remotes && bool_decide (node ≠ addr) then mret (1, data) else
  r ← param_list_create_remote (un_id u) addr (un_type u) (un_mask u) size (un_name u) (un_unit u) (un_help u);
  match r with
  | Some a =>
      rc ← param_list_add a;
      when (bool_decide (rc ≠ 0)) (param_list_destroy a);;
      mret (0, data)
  | None => mret (-1, data)
  end.

(** ** Downloading *)

Context `{Env}.

(** The packets of the list, until none arrives in time. *)
Fixpoint list_download_loop (fuel : nat) (conn : nat) (node timeout list_version : Z) (include_remotes : bool)
    (count count_remotes : Z) : ST (stack * pstate) Z :=
  match fuel with
  | O => ub
  | S fuel' =>
      r ← on_fst (csp_read (Some conn) timeout);
      match r with
      | None => mret count
      | Some b =>
          p ← on_fst (kget_packet b);
          data ← on_fst (data_from b 0);
          '(rc, data) ← on_snd (param_list_unpack node data (pk_length p) list_version include_remotes);
          on_fst (data_store b 0 data);;
          on_fst (kfree (Some b));;
          if bool_decide (count_remotes + rc < 0) then mret count
          else list_download_loop fuel' conn node timeout list_version include_remotes (count + 1) (count_remotes + rc)
      end
  end.

Definition CSP_PRIO_HIGH : Z := 1.

Definition param_list_download (fuel : nat) (dport0 sport0 : Z) (node timeout list_version : Z) (include_remotes : bool)
    : ST (stack * pstate) Z :=
  c ← on_fst (csp_connect dport0 sport0 CSP_PRIO_HIGH node PARAM_PORT_LIST timeout (Z.lor CSP_O_RDP CSP_O_CRC32));
  match c with
  | None => mret (-1)
  | Some conn =>
      count ← list_download_loop fuel conn node timeout list_version include_remotes 0 0;
      on_fst (csp_close (Some conn));;
      mret count
  end.

(** ** Packing *)

(** [strlcpy] into memory: the characters and a terminator. *)
Definition strlcpy_at (buf : list Z) (off : Z) (size : nat) (src : list Z) : option (list Z) :=
  mem_write buf off (strlcpy size src ++ [0]).

Definition pack_head (buf : list Z) (off : Z) (p : param_t) : option (list Z) :=
  buf ← mem_write buf off (be_bytes 2 (p_id p));
  buf ← mem_write buf (off + 2) (be_bytes 2 (p_node p));
  buf ← mem_write buf (off + 4) [u8 (param_type_to_Z (p_type p))];
  buf ← mem_write buf (off + 5) [u8 (p_array_size p)];
  buf ← mem_write buf (off + 6) (be_bytes 4 (p_mask p));
  strlcpy_at buf (off + 10) 36 (p_name p).

Definition pack_v2 (buf : list Z) (off : Z) (p : param_t) : option (list Z) :=
  buf ← pack_head buf off p;
  mem_write buf (off + 10 + 35) [0].

(** [storage] is [param->vmem->type], if there is a [vmem]. *)
Definition pack_v3 (buf : list Z) (off : Z) (p : param_t) (storage : option Z) : option (list Z) :=
  buf ← pack_head buf off p;
  buf ← match storage with Some t => mem_write buf (off + 46) [u8 t] | None => Some buf end;
  buf ← match p_unit p with Some u => strlcpy_at buf (off + 47) 10 u | None => Some buf end;
  buf ← match p_docstr p with Some d => strlcpy_at buf (off + 57) 150 d | None => Some buf end;
  buf ← mem_write buf (off + 10 + 35) [0];
  buf ← mem_write buf (off + 47 + 9) [0];
  mem_write buf (off + 57 + 149) [0].

Definition pack_param (buf : list Z) (off : Z) (p : param_t) (list_version : Z) : ST pstate (list Z) :=
  if bool_decide (list_version = 1) then mret buf
  else if bool_decide (list_version = 2) then lift_opt (pack_v2 buf off p)
  else
    storage ← match p_vmem p with Some n => v ← get_vmem n; mret (Some (v_type v)) | None => mret None end;
    lift_opt (pack_v3 buf off p storage).

Fixpoint pack_loop (fuel : nat) (it : param_list_iterator) (buf : list Z) (off buf_size : Z) (prio_only remote_only : bool)
    (list_version num_params : Z) : ST pstate (Z * list Z) :=
  match fuel with
  | O => ub
  | S fuel' =>
      '(r, it) ← param_list_iterate it;
      match r with
      | None => mret (num_params, buf)
      | Some a =>
          p ← get_param a;
          if (prio_only && bool_decide (Z.land (p_mask p) PM_PRIO_MASK = 0)) || (remote_only && bool_decide (p_node p = 0))
          then pack_loop fuel' it buf off buf_size prio_only remote_only list_version num_params
          else
            buf ← pack_param buf off p list_version;
            let off := off + param_list_packed_size list_version in
            if bool_decide (buf_size < off + param_list_packed_size list_version) then mret (num_params + 1, buf)
            else pack_loop fuel' it buf off buf_size prio_only remote_only list_version (num_params + 1)
      end
  end.

Definition param_list_pack (buf : list Z) (buf_size : Z) (prio_only remote_only : bool) (list_version : Z)
    : ST pstate (Z * list Z) :=
  s ← get;
  pack_loop (list_fuel s) iterator_init buf 0 buf_size prio_only remote_only list_version 0.
End Transfer.

(** ** Strings in messages *)

(** A string without its terminator. *)
Definition chars_ok (cs : list Z) : Prop := Forall (λ v, is_u8 v ∧ v ≠ 0) cs.

Lemma strnlen_chars cs r n : Forall (λ v, v ≠ 0) cs → (length cs < n)%nat → strnlen (cs ++ 0 :: r) n = length cs.
Proof.
  revert n. induction cs as [|c cs IH]; intros n Hc Hn; destruct n as [|n]; try (simpl in *; lia).
  apply Forall_cons in Hc as [Hc Hcs]. cbn [strnlen app length]. rewrite bool_decide_false by done. rewrite IH; [done|done|simpl in Hn; lia].
Qed.

Lemma strlcpy_chars size cs r : Forall (λ v, v ≠ 0) cs → (length cs < size)%nat → strlcpy size (cs ++ 0 :: r) = cs.
Proof.
  intros Hc Hl. unfold strlcpy. rewrite strnlen_chars by (done || (rewrite length_app; simpl; lia)).
  rewrite take_app_length, take_ge by lia. done.
Qed.

Lemma chars_nonzero n cs : chars_ok cs → Forall (λ v, v ≠ 0) (take n cs).
Proof. intros Hc. apply Forall_take. eapply Forall_impl; [exact Hc|]. by intros v []. Qed.

(** A field filled by [strncpy] and terminated. *)
Lemma strncpy_field n cs : ∃ r, strncpy n cs ++ [0] = take n cs ++ 0 :: r.
Proof.
  unfold strncpy. destruct (decide (n ≤ length cs)%nat).
  - exists []. by rewrite take_app_le.
  - rewrite take_app_ge, take_replicate, (take_ge cs) by lia. destruct ((n - length cs) `min` n)%nat as [|k] eqn:Hk.
    + lia.
    + exists (replicate k 0 ++ [0]). cbn [replicate]. by rewrite <- app_assoc.
Qed.

(** A byte written that is already there, or behind what is read, changes nothing. *)
Lemma mem_write_again m off v m' n bs :
  mem_write m off [v] = Some m' → mem_read m 0 n = Some bs → (off < n → bs !! Z.to_nat off = Some v) → mem_read m' 0 n = Some bs.
Proof.
  intros Hw Hr Hv. pose proof Hw as (Ho & _)%mem_write_Some. rewrite <- Hr. apply mem_read_ext; [by apply (mem_write_length _ _ _ _ Hw)|].
  intros i Hi. rewrite (mem_write_lookup _ _ _ _ i Hw). case_bool_decide as Hb; [|done]. cbn [length] in Hb.
  assert (i = Z.to_nat off) as -> by lia. rewrite Nat.sub_diag. cbn.
  pose proof (mem_read_lookup _ _ _ _ (Z.to_nat off) Hr ltac:(lia)) as Hl. rewrite Hv in Hl by lia. by rewrite Hl.
Qed.

Lemma mem_read_prefix m n bs : mem_read m 0 n = Some bs → m = bs ++ drop (length bs) m.
Proof.
  intros Hr. pose proof (mem_read_length _ _ _ _ Hr) as Hl. apply mem_read_Some in Hr as (_ & _ & Hn & Hb).
  rewrite drop_0 in Hb. rewrite Hb at 1. replace (length bs) with (Z.to_nat n) by lia. by rewrite take_drop.
Qed.

Lemma be_at_mid a n z c v : 0 ≤ z < 256 ^ Z.of_nat n → Z.of_nat (length a) = v → be_at (a ++ be_bytes n z ++ c) v (Z.of_nat n) = Some z.
Proof.
  intros Hz <-. unfold be_at.
  assert (mem_read (a ++ be_bytes n z ++ c) (Z.of_nat (length a)) (Z.of_nat n) = Some (be_bytes n z)) as ->.
  { apply mem_read_Some. rewrite !length_app, length_be_bytes. split; [lia|]. split; [lia|]. split; [lia|].
    rewrite !Nat2Z.id, drop_app_length, take_app_le, take_ge by (rewrite length_be_bytes; lia). done. }
  cbn. by rewrite be_val_be_bytes, Z.mod_small.
Qed.

(** ** The round trip *)

(** A description that fits the message. *)
Record desc_ok (p : param_t) : Prop := {
  de_id : is_u16 (p_id p);
  de_node : is_u16 (p_node p);
  de_size : 0 ≤ p_array_size p < 255;
  de_mask : is_u32 (p_mask p);
  de_name : chars_ok (p_name p);
  de_unit : chars_ok (default [] (p_unit p));
  de_help : chars_ok (default [] (p_docstr p));
}.

(** What [rparam_list_handler] sends. *)
Definition transfer3 (p : param_t) (storage : Z) : list Z := transfer3_head p storage ++ transfer3_help p ++ [0].

Lemma transfer3_help_length p : (length (transfer3_help p) ≤ 149)%nat.
Proof. unfold transfer3_help. destruct (p_docstr p); [rewrite length_take|simpl]; lia. Qed.

(** The fields of the message, with the strings as [strlcpy] sees them. *)
Lemma transfer3_layout p storage :
  ∃ n u h, transfer3 p storage =
    be_bytes 2 (p_id p) ++ be_bytes 2 (p_node p) ++ be_bytes 1 (param_type_to_Z (p_type p)) ++ be_bytes 1 (p_array_size p) ++
    be_bytes 4 (p_mask p) ++ n ++ [u8 storage] ++ u ++ h ∧
    length n = 36%nat ∧ length u = 10%nat ∧ n !! 35%nat = Some 0 ∧ u !! 9%nat = Some 0 ∧
    (∃ r, n = take 35 (p_name p) ++ 0 :: r) ∧ (∃ r, u = take 9 (default [] (p_unit p)) ++ 0 :: r) ∧
    h = take 149 (default [] (p_docstr p)) ++ [0].
Proof.
  set (n := strncpy 35 (p_name p) ++ [0]).
  set (u := match p_unit p with Some u => strncpy 9 u ++ [0] | None => replicate 10 0 end).
  assert (Hl : ∀ k cs, length (strncpy k cs) = k) by (intros; unfold strncpy; rewrite length_take, length_app, length_replicate; lia).
  assert (Hlast : ∀ k cs, (strncpy k cs ++ [0]) !! k = Some 0).
  { intros. rewrite lookup_app_r by (rewrite Hl; lia). by rewrite Hl, Nat.sub_diag. }
  exists n, u, (take 149 (default [] (p_docstr p)) ++ [0]). split_and!.
  - unfold transfer3, transfer3_head, transfer3_help. fold n. fold u.
    replace (match p_docstr p with Some d => take 149 d | None => [] end) with (take 149 (default [] (p_docstr p))) by (by destruct (p_docstr p)).
    assert (∀ z, be_bytes 1 z = [u8 z]) as Hb1 by (intros; cbn [be_bytes]; do 2 f_equal; apply Z.shiftr_0_r).
    rewrite !Hb1.
    rewrite <- !app_assoc. reflexivity.
  - unfold n. by rewrite length_app, Hl.
  - unfold u. destruct (p_unit p); [by rewrite length_app, Hl|done].
  - apply Hlast.
  - unfold u. destruct (p_unit p); [apply Hlast|done].
  - apply strncpy_field.
  - unfold u. destruct (p_unit p); [apply strncpy_field|]. by exists (replicate 9 0).
  - done.
Qed.

Lemma type_range t : 0 ≤ param_type_to_Z t < 256 ^ Z.of_nat 1.
Proof. destruct t; cbn; lia. Qed.

Lemma type_of_to t : param_type_of_Z (param_type_to_Z t) = Some t.
Proof. by destruct t. Qed.

(** What [param_list_unpack] makes of a message. *)
Record unpacked_as (p : param_t) (u : unpacked) : Prop := {
  ua_addr : un_addr u = p_node p;
  ua_id : un_id u = p_id p;
  ua_type : un_type u = param_type_to_Z (p_type p);
  ua_size : un_size u = p_array_size p;
  ua_mask : un_mask u = Z.lor (p_mask p) PM_REMOTE;
  ua_name : strlcpy 36 (un_name u) = take 35 (p_name p);
  ua_unit : strlcpy 10 <$> un_unit u = Some (take 9 (default [] (p_unit p)));
  ua_help : strlcpy 150 <$> un_help u = Some (take 149 (default [] (p_docstr p)));
}.

Lemma transfer3_fields p storage tl : desc_ok p →
  let data := transfer3 p storage ++ tl in
  be_at data 2 2 = Some (p_node p) ∧ be_at data 0 2 = Some (p_id p) ∧ be_at data 4 1 = Some (param_type_to_Z (p_type p)) ∧
  be_at data 5 1 = Some (p_array_size p) ∧ be_at data 6 4 = Some (p_mask p).
Proof.
  intros [D1 D2 D3 D4 _ _ _] data. destruct (transfer3_layout p storage) as (n & u & h & HT & _).
  unfold is_u16, is_u32 in *. set (rest := n ++ [u8 storage] ++ u ++ h).
  set (i := be_bytes 2 (p_id p)). set (nd := be_bytes 2 (p_node p)). set (ty := be_bytes 1 (param_type_to_Z (p_type p))).
  set (sz := be_bytes 1 (p_array_size p)).
  assert (E : data = i ++ nd ++ ty ++ sz ++ be_bytes 4 (p_mask p) ++ rest ++ tl) by (unfold data, rest; rewrite HT, <- !app_assoc; done).
  split_and!; rewrite E.
  - apply (be_at_mid i 2); [lia|]. done.
  - apply (be_at_mid [] 2); [lia|done].
  - rewrite (app_assoc i). apply (be_at_mid (i ++ nd) 1); [apply type_range|done].
  - rewrite (app_assoc i), (app_assoc (i ++ nd)). apply (be_at_mid ((i ++ nd) ++ ty) 1); [lia|done].
  - rewrite (app_assoc i), (app_assoc (i ++ nd)), (app_assoc ((i ++ nd) ++ ty)).
    apply (be_at_mid (((i ++ nd) ++ ty) ++ sz) 4); [lia|done].
Qed.

Lemma drop_app_at {A} (a b : list A) k : length a = k → drop k (a ++ b) = b.
Proof. intros <-. apply drop_app_length. Qed.

Lemma transfer3_strings p storage tl : desc_ok p →
  let data := transfer3 p storage ++ tl in
  strlcpy 36 (drop 10 data) = take 35 (p_name p) ∧ strlcpy 10 (drop 47 data) = take 9 (default [] (p_unit p)) ∧
  strlcpy 150 (drop 57 data) = take 149 (default [] (p_docstr p)).
Proof.
  intros [_ _ _ _ D5 D6 D7] data. destruct (transfer3_layout p storage) as (n & u & h & HT & Hn & Hu & _ & _ & (rn & En) & (ru & Eu) & Eh).
  set (hd := be_bytes 2 (p_id p) ++ be_bytes 2 (p_node p) ++ be_bytes 1 (param_type_to_Z (p_type p)) ++
    be_bytes 1 (p_array_size p) ++ be_bytes 4 (p_mask p)).
  assert (Hhd : length hd = 10%nat) by (unfold hd; by rewrite !length_app, !length_be_bytes).
  assert (E : data = hd ++ n ++ [u8 storage] ++ u ++ h ++ tl) by (unfold data, hd; rewrite HT, <- !app_assoc; done).
  split_and!; rewrite E.
  - rewrite (drop_app_at hd) by done. rewrite En, <- app_assoc. apply strlcpy_chars; [by apply chars_nonzero|rewrite length_take; lia].
  - rewrite (app_assoc hd), (app_assoc (hd ++ n)), (drop_app_at ((hd ++ n) ++ _)) by (rewrite !length_app, Hhd, Hn; done).
    rewrite Eu, <- app_assoc. apply strlcpy_chars; [by apply chars_nonzero|rewrite length_take; lia].
  - rewrite (app_assoc hd), (app_assoc (hd ++ n)), (app_assoc ((hd ++ n) ++ _)),
      (drop_app_at (((hd ++ n) ++ _) ++ u)) by (rewrite !length_app, Hhd, Hn, Hu; done).
    rewrite Eh, <- app_assoc. apply strlcpy_chars; [by apply chars_nonzero|rewrite length_take; lia].
Qed.

(** The terminators [param_list_unpack] writes are there already or behind the message. *)
Lemma transfer3_terminators p storage i : i = 45%nat ∨ i = 56%nat ∨ i = 206%nat →
  transfer3 p storage !! i = Some 0 ∨ (length (transfer3 p storage) ≤ i)%nat.
Proof.
  destruct (transfer3_layout p storage) as (n & u & h & HT & Hn & Hu & Hn35 & Hu9 & _ & _ & Eh).
  set (hd := be_bytes 2 (p_id p) ++ be_bytes 2 (p_node p) ++ be_bytes 1 (param_type_to_Z (p_type p)) ++
    be_bytes 1 (p_array_size p) ++ be_bytes 4 (p_mask p)).
  assert (Hhd : length hd = 10%nat) by (unfold hd; by rewrite !length_app, !length_be_bytes).
  assert (E : transfer3 p storage = hd ++ n ++ [u8 storage] ++ u ++ h) by (unfold hd; rewrite HT, <- !app_assoc; done).
  rewrite E. intros [-> | [-> | ->]].
  - left. rewrite lookup_app_r, lookup_app_l by lia. by rewrite Hhd.
  - left. rewrite lookup_app_r, lookup_app_r, lookup_app_r, lookup_app_l by (cbn [length]; lia). by rewrite Hhd, Hn.
  - rewrite !length_app, Hhd, Hn, Hu, Eh, length_app, length_take. cbn [length].
    destruct (decide (149 ≤ length (default [] (p_docstr p)))%nat) as [Hd|Hd]; [left|right; lia].
    do 5 rewrite lookup_app_r by (rewrite ?length_take; cbn [length]; lia). rewrite length_take, Hhd, Hn, Hu. cbn [length].
    by replace (_ - _)%nat with 0%nat by lia.
Qed.

Lemma terminate_run p storage data i :
  (207 ≤ length data)%nat → mem_read data 0 (Z.of_nat (length (transfer3 p storage))) = Some (transfer3 p storage) →
  i = 45%nat ∨ i = 56%nat ∨ i = 206%nat →
  ∃ data', mem_write data (Z.of_nat i) [0] = Some data' ∧ (207 ≤ length data')%nat ∧ length data' = length data ∧
    mem_read data' 0 (Z.of_nat (length (transfer3 p storage))) = Some (transfer3 p storage).
Proof.
  intros Hlen Hr Hi. destruct (mem_write_is_Some data (Z.of_nat i) [0]) as (d' & Hw & Hl'); [lia|cbn [length]; lia|].
  exists d'. split; [done|]. split; [lia|]. split; [done|]. eapply mem_write_again; [done..|]. rewrite Nat2Z.id. intros Hlt.
  destruct (transfer3_terminators p storage i Hi); [done|lia].
Qed.

Lemma unpack_v3_run data p storage :
  desc_ok p → (207 ≤ length data)%nat → mem_read data 0 (Z.of_nat (length (transfer3 p storage))) = Some (transfer3 p storage) →
  ∃ u data', unpack_v3 data = Some (u, data') ∧ unpacked_as p u ∧ length data' = length data.
Proof.
  intros Hp Hlen Hr. destruct (terminate_run p storage data 45 Hlen Hr) as (d1 & W1 & L1 & E1 & R1); [tauto|].
  destruct (terminate_run p storage d1 56 L1 R1) as (d2 & W2 & L2 & E2 & R2); [tauto|].
  destruct (terminate_run p storage d2 206 L2 R2) as (d3 & W3 & L3 & E3 & R3); [tauto|].
  destruct (transfer3_fields p storage (drop (length (transfer3 p storage)) data) Hp) as (F1 & F2 & F3 & F4 & F5).
  destruct (transfer3_strings p storage (drop (length (transfer3 p storage)) d3) Hp) as (S1 & S2 & S3).
  rewrite <- (mem_read_prefix _ _ _ Hr) in *. rewrite <- (mem_read_prefix _ _ _ R3) in *.
  eexists _, d3. split; [|split; [|lia]].
  - unfold unpack_v3. rewrite F1, F2, F3, F4, F5. cbn [mbind option_bind].
    change (10 + 35) with (Z.of_nat 45). change (47 + 9) with (Z.of_nat 56). change (57 + 149) with (Z.of_nat 206).
    rewrite W1. cbn [mbind option_bind]. rewrite W2. cbn [mbind option_bind]. rewrite W3. reflexivity.
  - split; try done; cbn [un_unit un_help fmap option_fmap option_map]; by f_equal.
Qed.

(** The packet of [rparam_list_handler]: cleared, filled, and cut behind the description. *)
Lemma list_packet_payload pk pk1 pk2 p storage :
  packet_ok pk → data_write pk 0 (replicate 256 0) = Some pk1 →
  data_write pk1 0 (transfer3_head p storage ++ transfer3_help p) = Some pk2 →
  payload (set_pk_length (57 + Z.of_nat (length (transfer3_help p)) + 1) pk2) = Some (transfer3 p storage).
Proof.
  intros Hpk (m1 & Hm1 & ->)%data_write_Some (m2 & Hm2 & ->)%data_write_Some.
  assert (Hl : Z.of_nat (length (transfer3_head p storage ++ transfer3_help p)) = 57 + Z.of_nat (length (transfer3_help p))).
  { destruct (transfer3_layout p storage) as (n & u & h & HT & Hn & Hu & _). apply (f_equal length) in HT.
    unfold transfer3 in HT. rewrite !length_app, !length_be_bytes, Hn, Hu in HT. cbn [length] in HT.
    unfold transfer3_head in *. rewrite !length_app, !length_be_bytes in *. cbn [length] in *.
    assert (length (strncpy 35 (p_name p)) = 35%nat) by (unfold strncpy; rewrite length_take, length_app, length_replicate; lia).
    assert (length (match p_unit p with Some u => strncpy 9 u ++ [0] | None => replicate 10 0 end) = 10%nat).
    { destruct (p_unit p); [|done]. unfold strncpy. rewrite length_app, length_take, length_app, length_replicate. cbn [length]. lia. }
    lia. }
  unfold payload, data_read. cbn [pk_length set_pk_length pk_mem set_pk_mem] in *.
  rewrite <- Hl. unfold transfer3. rewrite app_assoc. rewrite Z.add_0_r in *.
  eapply mem_read_app; [apply (mem_read_write_eq _ _ _ _ Hm2)|].
  rewrite (mem_read_write_ne _ _ _ _ (DATA_OFF + _) 1 Hm2) by lia.
  pose proof (mem_read_write_eq _ _ _ _ Hm1) as Hz. rewrite length_replicate in Hz.
  pose proof (transfer3_help_length p). set (k := Z.of_nat _) in *.
  apply mem_read_Some in Hz as (Z1 & Z2 & Z3 & Z4). apply mem_read_Some. split; [lia|]. split; [lia|]. split; [lia|].
  apply (f_equal (λ l, take 1 (drop (Z.to_nat k) l))) in Z4.
  rewrite drop_replicate, take_replicate, skipn_firstn_comm, drop_drop, take_take in Z4.
  replace (1 `min` (256 - Z.to_nat k))%nat with 1%nat in Z4 by lia.
  replace (1 `min` (Z.to_nat 256 - Z.to_nat k))%nat with 1%nat in Z4 by lia.
  change [0] with (replicate 1 0). rewrite Z4. f_equal. f_equal. lia.
  f_equal. unfold DATA_OFF, CSP_PACKET_PADDING_BYTES. lia.
Qed.

Section AddNew.
Implicit Types (s : pstate) (dyn : list nat).

(** No parameter of the list has this node and identifier. *)
Definition unknown s dyn (node id : Z) : Prop :=
  ∀ a q, a ∈ all_params s dyn → ps_params s !! a = Some q → p_node q ≠ node ∨ p_id q ≠ id.

Lemma list_add_new s dyn item it :
  plist_ok s dyn → ps_params s !! item = Some it → item ∉ dyn → (ps_static s ≤ item)%nat → 0 ≤ p_node it →
  unknown s dyn (p_node it) (p_id it) →
  let s' := with_head (Some item) (with_params (<[item := set_p_next (ps_head s) it]> (ps_params s)) s) in
  param_list_add item s = Some (0, s') ∧ plist_ok s' (item :: dyn).
Proof.
  intros Hok Hit Hni Hge Hn Hu s'. split; [|by apply plist_ok_cons]. unfold param_list_add.
  run (lift_opt_run_gen _ _ s Hit : get_param item s = Some (it, s)).
  run (find_spec s dyn (p_node it) (λ p, bool_decide (p_id p = p_id it)) Hok : param_list_find_id (p_node it) (p_id it) s = _).
  rewrite first_param_None; [done|]. intros a Ha. destruct (all_params_exist s dyn a Hok Ha) as [q Hq]. exists q. split; [done|].
  destruct (Hu a q Ha Hq) as [Hne|Hne]; [rewrite (bool_decide_false (_ = Z.max _ _)) by lia; done|].
  rewrite (bool_decide_false (p_id q = _)) by done. apply andb_false_r.
Qed.

(** A parameter outside the list. *)
Lemma plist_ok_fresh s s1 dyn a it :
  plist_ok s dyn → a ∉ dyn → (ps_static s ≤ a)%nat → ps_params s1 = <[a := it]> (ps_params s) →
  ps_static s1 = ps_static s → ps_head s1 = ps_head s → plist_ok s1 dyn.
Proof.
  intros [H1 H2 H3 H4] Hni Hge Hp Hs Hh. split; rewrite ?Hs, ?Hh; try done.
  - intros b Hb. rewrite Hp, lookup_insert_ne by lia. by apply H1.
  - eapply lseg_ext; [|exact H2]. intros b Hb. unfold next_of. rewrite Hp, lookup_insert_ne; [done|]. by intros ->.
Qed.

Lemma create_remote_run `{ParamEnv} id node type t mask size name unit help s a :
  calloc_block s = Some a → param_type_of_Z type = Some t →
  ∃ s1, param_list_create_remote id node type mask size name (Some unit) (Some help) s = Some (Some a, s1) ∧
    ps_params s1 = <[a := mk_param (u16 id) (u16 node) t mask (strlcpy 36 name) (Some (strlcpy 10 unit)) (Some (strlcpy 150 help))
      a 0 None (Z.max 1 size) (param_typesize t) None a None]> (ps_params s) ∧
    ps_static s1 = ps_static s ∧ ps_head s1 = ps_head s.
Proof.
  intros Hc Ht. unfold param_list_create_remote. eexists. split.
  - run (eq_refl : get s = Some (s, s)). rewrite Hc, Ht. reflexivity.
  - split; [|done]. cbn. do 2 f_equal. case_bool_decide; lia.
Qed.
End AddNew.

(** The remote parameter [q] that describes parameter [p] of node [node]. *)
Record describes (node : Z) (p q : param_t) : Prop := {
  ds_id : p_id q = p_id p;
  ds_node : p_node q = if bool_decide (p_node p = 0) then u16 node else p_node p;
  ds_type : p_type q = p_type p;
  ds_mask : p_mask q = Z.lor (p_mask p) PM_REMOTE;
  ds_size : p_array_size q = Z.max 1 (p_array_size p);
  ds_name : p_name q = take 35 (p_name p);
  ds_unit : p_unit q = Some (take 9 (default [] (p_unit p)));
  ds_help : p_docstr q = Some (take 149 (default [] (p_docstr p)));
}.


(** A parameter of node 9 with a name longer than its field. *)
Definition described : param_t :=
  mk_param 21 0 PARAM_TYPE_UINT16 PM_CONF (replicate 40 97) (Some [109; 86]) None 0 0 None 4 2 None 0 None.
#[local] Instance transfer_env : ParamEnv := {|
  fopen_w_ok _ := true; ParamState.run_callback _ _ _ := mret (); calloc_block _ := Some 7%nat; have_critical := false;
  indeterminate := 0; ptr_block _ := None |}.
Definition receiver_state : pstate := mk_pstate ∅ [] ∅ 0 None ∅ ∅ [] (mk_app [] 0 0 0).
Definition list_message : csp_packet_t :=
  default empty_packet (pk1 ← data_write empty_packet 0 (replicate 256 0); data_write pk1 0 (transfer3_head described 1 ++ transfer3_help described)).

