(* ===== verification/ParamStore.v ===== *)
(** * The parameter list as text

    [lib/param/src/param/list/param_list_store_vmem.c]: the list of remote parameters saved
    in a [vmem] as lines of text and loaded from it; and from [param_list.c] the listing of
    parameters and the options that recreate a mask. *)

From Stdlib Require Import String.
From S2P Require Import Text Wildcard ParamState Param ParamList ParamString ParamStringShown Vmem ParamTransfer Prelude.
#[local] Open Scope Z_scope.

(** ** Listing *)

Section Listing.
Context `{ParamEnv}.

Fixpoint list_print_loop (fuel : nat) (mask node : Z) (globstr : option (list Z)) (verbosity : Z) (it : param_list_iterator)
    : ST pstate () :=
  match fuel with
  | O => ub
  | S fuel' =>
      '(r, it') ← param_list_iterate it;
      match r with
      | None => mret ()
      | Some a =>
          p ← get_param a;
          when (negb (bool_decide (0 ≤ node ∧ p_node p ≠ node)) && bool_decide (Z.land (p_mask p) mask ≠ 0) &&
                match globstr with Some g => strmatch (p_name p) g | None => true end)
            (param_print (Some a) (-1) [] verbosity 0);;
          list_print_loop fuel' mask node globstr verbosity it'
      end
  end.

Definition param_list_print (mask node : Z) (globstr : option (list Z)) (verbosity : Z) : ST pstate () :=
  s ← get; list_print_loop (list_fuel s) mask node globstr verbosity iterator_init.
End Listing.

(** The letters of [list_add_output], which ends with the priority. *)
Definition add_letters : list (string * Z) :=
  [("r", PM_READONLY); ("R", PM_REMOTE); ("c", PM_CONF); ("t", PM_TELEM); ("h", PM_HWREG); ("e", PM_ERRCNT);
   ("i", PM_SYSINFO); ("C", PM_SYSCONF); ("w", PM_WDT); ("d", PM_DEBUG); ("o", PM_ATOMIC_WRITE); ("q", PM_CALIB)]%string.

Definition flag_letters (mask : Z) : list Z :=
  concat ((λ '(c, bits), if bool_decide (Z.land mask bits ≠ 0) then c_string c else []) <$> add_letters) ++
  (let prio := Z.land mask PM_PRIO_MASK in
   if bool_decide (prio = PM_PRIO1) then c_string "1"
   else if bool_decide (prio = PM_PRIO2) then c_string "2"
   else if bool_decide (prio = PM_PRIO3) then c_string "3" else []).

Definition list_add_output (mask : Z) : list Z := c_string "-m " ++ [34] ++ flag_letters mask ++ [34; 32].

(** What goes to the file [out] and what to the standard output. *)
Definition list_add_output_user_flags (mask : Z) : list Z * list Z :=
  if bool_decide (0 < Z.land mask 0xFFFF0000) then
    (c_string "-M " ++ [34],
     concat ((λ i, if Z.testbit mask i then decimal (i - 15) else []) <$> seqZ 16 16) ++ [34; 32])
  else ([], []).

(** ** Lines *)

(** [%35[^,]]: one to [n] characters that are no commas. *)
Definition scan_set (n : nat) : ST (list Z) (list Z) := λ bs,
  match take n (span (λ c, negb (bool_decide (c = 44))) bs).1 with
  | [] => None
  | word => Some (word, drop (List.length word) bs)
  end.

Definition scan_head : ST (list Z) (Z * Z * list Z) :=
  node ← scan_u; scan_char 44;; id ← scan_u; scan_char 44;; name ← scan_set 35;
  mret (u32 node, u32 id, name).
Definition scan_type : ST (list Z) Z := scan_char 44;; u32 <$> scan_u.
Definition scan_size : ST (list Z) Z := scan_char 44;; swrap 32 <$> scan_d.
Definition scan_hexmask : ST (list Z) Z := scan_char 44;; u32 <$> scan_x.

Section Store.
Context `{ParamEnv}.

(** [size] and [mask] behind the type, as far as they are given; what is not given keeps
    the value the variable happens to have. *)
Definition scan_rest (bs : list Z) : Z * Z :=
  match scan_size bs with
  | None => (indeterminate, indeterminate)
  | Some (size, bs) => (size, match scan_hexmask bs with Some (mask, _) => mask | None => indeterminate end)
  end.

(** A name of 35 characters needs 36 with its terminator and does not fit into [name[35]].
    The parameter [calloc] has no memory for is dereferenced by [param_list_add]. *)
Definition param_list_from_line (line : list Z) : ST pstate (option nat) :=
  match scan_head line with
  | None => mret None
  | Some ((node, id, name), bs) =>
      if bool_decide (35 ≤ List.length name)%nat then ub else
      match scan_type bs with
      | None => mret None
      | Some (type, bs) =>
          let '(size, mask) := scan_rest bs in
          modify (with_event (ev_print (c_string "Found parameter => " ++ line)));;
          let size := if bool_decide (size = -1)
                      then match param_type_of_Z type with Some t => param_typesize t | None => -1 end else size in
          r ← param_list_create_remote (swrap 32 id) (swrap 32 node) type mask size name None None;
          match r with
          | None => ub
          | Some param =>
              rc ← param_list_add param;
              when (bool_decide (rc ≠ 0)) (param_list_destroy param);;
              mret (Some param)
          end
      end
  end.

(** [while (fgets(line, 100, stream) != NULL)]: every line takes at least a character. *)
Fixpoint from_string_loop (fuel : nat) (stream : list Z) : ST pstate () :=
  match fuel with
  | O => ub
  | S fuel' =>
      match stream with
      | [] => mret ()
      | _ => let '(line, stream) := fgets 100 stream in
             param_list_from_line line;; from_string_loop fuel' stream
      end
  end.
Definition param_list_from_string (stream : list Z) : ST pstate () :=
  from_string_loop (S (List.length stream)) stream.

Definition line_text (p : param_t) : list Z :=
  decimal (p_node p) ++ [44] ++ decimal (p_id p) ++ [44] ++ p_name p ++ [44] ++ decimal (param_type_to_Z (p_type p)) ++
  [44] ++ signed_decimal (p_array_size p) ++ [44] ++ hexadecimal false (p_mask p) ++ [10].

Definition stored (node_filter : Z) (p : param_t) : bool :=
  negb (bool_decide (0 ≤ node_filter ∧ p_node p ≠ node_filter)) && negb (bool_decide (p_node p = 0)).

Fixpoint to_string_loop (fuel : nat) (node_filter : Z) (it : param_list_iterator) (out : list Z) : ST pstate (list Z) :=
  match fuel with
  | O => ub
  | S fuel' =>
      '(r, it') ← param_list_iterate it;
      match r with
      | None => mret out
      | Some a =>
          p ← get_param a;
          to_string_loop fuel' node_filter it' (if stored node_filter p then out ++ line_text p else out)
      end
  end.
Definition param_list_to_string (node_filter : Z) : ST pstate (list Z) :=
  s ← get; to_string_loop (list_fuel s) node_filter iterator_init [].

(** [fmemopen] on a cleared buffer keeps what fits. *)
Definition param_list_store_vmem_save (v : vmem_t) : ST pstate () :=
  text ← param_list_to_string (-1);
  let n := Z.to_nat (v_size v) in
  vmem_memcpy_to (v_vaddr v) (take n (text ++ replicate n 0)).

(** [strlen] of the copy, which has no terminator when the [vmem] holds none. *)
Definition param_list_store_vmem_load (v : vmem_t) : ST pstate () :=
  hk_list ← vmem_memcpy_from (v_vaddr v) (v_size v);
  len ← lift_opt (c_strlen hk_list);
  if bool_decide (len = 0) then mret () else param_list_from_string (take (Z.to_nat len) hk_list).
End Store.

(** ** Saved and loaded lines *)

(** A parameter whose line can be read. *)
Record line_ok (p : param_t) : Prop := {
  lo_node : is_u16 (p_node p);
  lo_id : is_u16 (p_id p);
  lo_name : Forall (λ c, c ≠ 44 ∧ c ≠ 0 ∧ c ≠ 10) (p_name p) ∧ (1 ≤ List.length (p_name p) ≤ 34)%nat;
  lo_size : 1 ≤ p_array_size p < 2 ^ 31;
  lo_mask : is_u32 (p_mask p);
}.

(** The parameter a line is loaded as. *)
Record restored (p q : param_t) : Prop := {
  re_id : p_id q = p_id p;
  re_node : p_node q = p_node p;
  re_name : p_name q = p_name p;
  re_type : p_type q = p_type p;
  re_size : p_array_size q = p_array_size p;
  re_mask : p_mask q = p_mask p;
}.

Section Lines.
Implicit Types (p : param_t) (rest : list Z).

Lemma comma_no_digit rest : ∀ c rest', 44 :: rest = c :: rest' → is_digit c = false.
Proof. by intros c rest' [= <- _]. Qed.

Lemma scan_comma rest : scan_char 44 (44 :: rest) = Some ((), rest).
Proof. unfold scan_char. by rewrite bool_decide_true. Qed.

Lemma scan_set_run name rest : Forall (λ c, c ≠ 44) name → (0 < List.length name ≤ 35)%nat →
  scan_set 35 (name ++ 44 :: rest) = Some (name, 44 :: rest).
Proof.
  intros Hn Hl. unfold scan_set. rewrite (span_all _ name).
  - cbn [fst]. rewrite take_ge by lia. destruct name as [|c l] eqn:E; [cbn in Hl; lia|]. rewrite <- E. by rewrite drop_app_length.
  - eapply Forall_impl; [exact Hn|]. cbn. intros c Hc. by rewrite bool_decide_false.
  - intros c rest' [= <- _]. by rewrite bool_decide_true.
Qed.

Lemma scan_u_comma n rest : 0 ≤ n < 2 ^ 32 → scan_u (decimal n ++ 44 :: rest) = Some (n, 44 :: rest).
Proof. intros Hn. apply scan_u_decimal; [lia|]. apply comma_no_digit. Qed.

Lemma scan_head_line p rest :
  is_u16 (p_node p) → is_u16 (p_id p) → Forall (λ c, c ≠ 44) (p_name p) → (0 < List.length (p_name p) ≤ 35)%nat →
  scan_head (decimal (p_node p) ++ [44] ++ decimal (p_id p) ++ [44] ++ p_name p ++ 44 :: rest) =
    Some ((p_node p, p_id p, p_name p), 44 :: rest).
Proof.
  intros Hn Hi Hc Hl. unfold is_u16 in *.
  unfold scan_head. cbn [app]. run (scan_u_comma (p_node p) (decimal (p_id p) ++ 44 :: p_name p ++ 44 :: rest) ltac:(lia)).
  run (scan_comma (decimal (p_id p) ++ 44 :: p_name p ++ 44 :: rest)).
  run (scan_u_comma (p_id p) (p_name p ++ 44 :: rest) ltac:(lia)). run (scan_comma (p_name p ++ 44 :: rest)).
  rewrite (ST_bind_run _ _ _ _ _ (scan_set_run (p_name p) rest Hc Hl)).
  unfold mret, ST_ret, u32, wrap. rewrite !Z.mod_small by lia. done.
Qed.

Lemma scan_tail_line p : line_ok p →
  ∃ rest, scan_type (44 :: decimal (param_type_to_Z (p_type p)) ++ [44] ++ signed_decimal (p_array_size p) ++ [44] ++
      hexadecimal false (p_mask p) ++ [10]) = Some (param_type_to_Z (p_type p), 44 :: rest) ∧
    scan_size (44 :: rest) = Some (p_array_size p, 44 :: hexadecimal false (p_mask p) ++ [10]) ∧
    scan_hexmask (44 :: hexadecimal false (p_mask p) ++ [10]) = Some (p_mask p, [10]).
Proof.
  intros Hp. pose proof (lo_size _ Hp) as Hs. pose proof (lo_mask _ Hp) as Hm. unfold is_u32 in Hm.
  assert (0 ≤ param_type_to_Z (p_type p) < 2 ^ 32) as Ht by (destruct (p_type p); cbn; lia).
  cbn [app]. eexists. split; [|split].
  - unfold scan_type. rewrite (ST_bind_run _ _ _ _ _ (scan_comma _)). unfold fmap, ST_fmap. rewrite scan_u_comma by done.
    unfold u32, wrap. rewrite Z.mod_small by lia. done.
  - unfold scan_size. rewrite (ST_bind_run _ _ _ _ _ (scan_comma _)). unfold fmap, ST_fmap.
    rewrite scan_d_decimal; [|lia|apply comma_no_digit]. unfold swrap, wrap. rewrite Z.mod_small by lia. do 2 f_equal. lia.
  - unfold scan_hexmask. rewrite (ST_bind_run _ _ _ _ _ (scan_comma _)). unfold fmap, ST_fmap.
    rewrite scan_x_hexadecimal; [|lia|by intros c rest' [= <- _]]. unfold u32, wrap. rewrite Z.mod_small by lia. done.
Qed.
End Lines.

Section Load.
Context `{ParamEnv}.
Implicit Types (s t : pstate) (dyn : list nat) (p : param_t).

Lemma create_bare id node type ty mask size name s a :
  calloc_block s = Some a → param_type_of_Z type = Some ty →
  ∃ s1, param_list_create_remote id node type mask size name None None s = Some (Some a, s1) ∧
    ps_params s1 = <[a := mk_param (u16 id) (u16 node) ty mask (strlcpy 36 name) (Some []) (Some [])
      a 0 None (Z.max 1 size) (param_typesize ty) None a None]> (ps_params s) ∧
    ps_static s1 = ps_static s ∧ ps_head s1 = ps_head s.
Proof.
  intros Hc Ht. unfold param_list_create_remote. eexists. split.
  - run (eq_refl : get s = Some (s, s)). rewrite Hc, Ht. reflexivity.
  - split; [|done]. cbn. do 2 f_equal. case_bool_decide; lia.
Qed.

Lemma strlcpy_short name : Forall (λ c, c ≠ 0) name → (List.length name ≤ 35)%nat → strlcpy 36 name = name.
Proof.
  intros Hz Hl. unfold strlcpy. assert (strnlen name (List.length name) = List.length name) as ->.
  { clear Hl. induction Hz as [|c l Hc _ IH]; [done|]. cbn. rewrite bool_decide_false by done. by rewrite IH. }
  rewrite (take_ge name) by done. by rewrite take_ge by (cbn; lia).
Qed.

(** A line adds the parameter it describes, when the list does not know it. *)
Lemma from_line_run p t dyn a :
  line_ok p → plist_ok t dyn → calloc_block (with_event (ev_print (c_string "Found parameter => " ++ line_text p)) t) = Some a →
  ps_params t !! a = None → (ps_static t ≤ a)%nat → unknown t dyn (p_node p) (p_id p) →
  ∃ t' q, param_list_from_line (line_text p) t = Some (Some a, t') ∧ plist_ok t' (a :: dyn) ∧
    ps_params t' = <[a := q]> (ps_params t) ∧ restored p q ∧ ps_static t' = ps_static t.
Proof.
  intros Hp Hok Hcal Hfree Hge Hun. destruct (lo_name _ Hp) as [Hc Hl].
  assert (Hni : a ∉ dyn) by (intros Ha; destruct (dyn_get _ _ _ Hok Ha); congruence).
  pose proof (lo_node _ Hp) as Hn. pose proof (lo_id _ Hp) as Hi. pose proof (lo_size _ Hp) as Hs. unfold is_u16 in *.
  destruct (scan_tail_line p Hp) as (rest & Ht & Hsz & Hm).
  unfold param_list_from_line, line_text at 1. cbn [app]. cbn [app] in Ht.
  pose proof (scan_head_line p (decimal (param_type_to_Z (p_type p)) ++ 44 :: signed_decimal (p_array_size p) ++ 44 ::
    hexadecimal false (p_mask p) ++ [10]) Hn Hi ltac:(eapply Forall_impl; [exact Hc|]; tauto) ltac:(lia)) as Hh. cbn [app] in Hh. rewrite Hh.
  rewrite bool_decide_false by lia. rewrite Ht. unfold scan_rest. rewrite Hsz, Hm.
  rewrite (bool_decide_false (p_array_size p = -1)) by lia.
  set (t0 := with_event _ t) in *. rewrite (ST_bind_run _ _ t () t0) by done.
  destruct (create_bare (swrap 32 (p_id p)) (swrap 32 (p_node p)) _ _ (p_mask p) (p_array_size p) (p_name p) t0 a Hcal (type_of_to (p_type p)))
    as (t1 & Hcr & Hps & Hst & Hhd). run Hcr. set (it := mk_param _ _ _ _ _ _ _ _ _ _ _ _ _ _ _) in Hps.
  assert (Hswrap : ∀ n, 0 ≤ n < 2 ^ 16 → u16 (swrap 32 n) = n).
  { intros n Hn'. unfold swrap, wrap. rewrite (Z.mod_small (n + _)) by lia. unfold u16, wrap. rewrite Z.mod_small by lia. lia. }
  assert (Hit : restored p it).
  { split; cbn; [by apply Hswrap|by apply Hswrap| |done|lia|done]. apply strlcpy_short; [|lia].
    eapply Forall_impl; [exact Hc|]. tauto. }
  destruct (list_add_new t1 dyn a it) as [Hadd Hok'].
  - by eapply (plist_ok_fresh t).
  - rewrite Hps. apply lookup_insert_eq.
  - done.
  - by rewrite Hst.
  - rewrite (re_node _ _ Hit). lia.
  - rewrite (re_node _ _ Hit), (re_id _ _ Hit). intros x q Hx Hq. rewrite Hps in Hq. unfold all_params in Hx. rewrite Hst in Hx.
    apply (Hun x q Hx). rewrite lookup_insert_ne in Hq; [done|]. intros <-. apply elem_of_app in Hx as [[_ ?]%elem_of_seq|?]; [cbn in *; lia|done].
  - run Hadd. rewrite bool_decide_false by tauto. eexists _, (set_p_next (ps_head t1) it). split; [done|]. split; [done|].
    split; [cbn; rewrite Hps; by rewrite insert_insert_eq|]. split; [destruct Hit; by split|]. cbn. exact Hst.
Qed.
End Load.

(** ** The whole list *)

Definition param_key (p : param_t) : Z * Z := (p_node p, p_id p).

(** The parameters a list saves, in the order of the iterator. *)
Definition saved_params (s : pstate) (l : list nat) : list param_t :=
  filter (λ p, stored (-1) p = true) (omap (λ a, ps_params s !! a) l).

Section Text.
Implicit Types (p : param_t) (ps : list param_t).

Lemma line_chars p : line_ok p → ∃ l, line_text p = l ++ [10] ∧ Forall (λ c, c ≠ 10) l ∧ (0 < List.length l < 99)%nat.
Proof.
  intros Hp. destruct (lo_name _ Hp) as [Hc Hl]. pose proof (lo_node _ Hp) as Hn. pose proof (lo_id _ Hp) as Hi.
  pose proof (lo_size _ Hp) as Hs. pose proof (lo_mask _ Hp) as Hm. unfold is_u16, is_u32 in *.
  assert (Hd : ∀ n, Forall (λ c, c ≠ 10) (decimal n)).
  { intros n. eapply Forall_impl; [apply decimal_digits|]. cbn. intros c H%bool_decide_eq_true. lia. }
  assert (0 ≤ param_type_to_Z (p_type p) < 10 ^ 20) as Ht by (destruct (p_type p); cbn; lia).
  destruct (hexadecimal_spec false (p_mask p) ltac:(lia)) as (Hx & _ & _ & Hxl).
  exists (decimal (p_node p) ++ [44] ++ decimal (p_id p) ++ [44] ++ p_name p ++ [44] ++ decimal (param_type_to_Z (p_type p)) ++
    [44] ++ signed_decimal (p_array_size p) ++ [44] ++ hexadecimal false (p_mask p)).
  assert (signed_decimal (p_array_size p) = decimal (p_array_size p)) as Hsd by (unfold signed_decimal; by rewrite bool_decide_false by lia).
  split; [unfold line_text; by rewrite <- !app_assoc|]. rewrite Hsd. split.
  - repeat (apply Forall_app; split); try apply Hd; try by repeat constructor.
    + eapply Forall_impl; [exact Hc|]. tauto.
    + eapply Forall_impl; [exact Hx|]. by intros x Hd' ->.
  - rewrite !length_app. cbn [List.length].
    assert (Hlen : ∀ n (k : nat), (0 < k)%nat → 0 ≤ n < 10 ^ Z.of_nat k → (List.length (decimal n) ≤ k)%nat) by (intros; by apply length_decimal).
    pose proof (Hlen (p_node p) 5%nat ltac:(lia) ltac:(change (10 ^ Z.of_nat 5) with 100000; lia)).
    pose proof (Hlen (p_id p) 5%nat ltac:(lia) ltac:(change (10 ^ Z.of_nat 5) with 100000; lia)).
    pose proof (Hlen (p_array_size p) 10%nat ltac:(lia) ltac:(change (10 ^ Z.of_nat 10) with 10000000000; lia)).
    assert (List.length (decimal (param_type_to_Z (p_type p))) ≤ 2)%nat by (destruct (p_type p); vm_compute; lia). lia.
Qed.

Lemma fgets_line (n : nat) (l rest : list Z) : Forall (λ c, c ≠ 10) l → (List.length l + 1 < n)%nat →
  fgets n (l ++ 10 :: rest) = (l ++ [10], rest).
Proof.
  intros Hl. revert n. induction Hl as [|c l Hc _ IH]; intros n Hn.
  - destruct n as [|[|n]]; [cbn in Hn; lia..|]. cbn. by rewrite bool_decide_true.
  - destruct n as [|[|n]]; [cbn in Hn; lia..|]. cbn [app fgets]. rewrite bool_decide_false by done.
    rewrite IH by (cbn [List.length] in Hn; lia). done.
Qed.

(** The text of a list is its lines. *)
Lemma to_string_loop_run s dyn l : ∀ fuel it out,
  plist_ok s dyn → upcoming s dyn it l → (List.length l < fuel)%nat →
  to_string_loop fuel (-1) it out s = Some (out ++ concat (line_text <$> saved_params s l), s).
Proof.
  induction l as [|a l IH]; intros fuel it out Hok Hu Hf; (destruct fuel as [|fuel]; [cbn in Hf; lia|]);
    destruct (iterate_step s dyn it _ Hok Hu) as (it' & Hit & Hnext & _); cbn [to_string_loop]; run Hit; cbn [head].
  - by rewrite app_nil_r.
  - destruct (upcoming_exists s dyn it a l Hok Hu) as [p Hp]. run (lift_opt_run_gen _ _ s Hp : get_param a s = Some (p, s)).
    destruct (Hnext a l eq_refl) as (Hu' & _). rewrite IH; [|done|done|cbn in Hf; lia].
    unfold saved_params. cbn [omap list_omap]. rewrite Hp. rewrite filter_cons.
    destruct (stored (-1) p) eqn:Hst; [rewrite decide_True by done|rewrite decide_False by done].
    + cbn [fmap list_fmap concat]. by rewrite <- app_assoc.
    + done.
Qed.
End Text.

(** Memory for a parameter: [calloc] succeeds and what it returns is not in use. *)
Definition calloc_fresh `{ParamEnv} : Prop :=
  ∀ s, ∃ a, calloc_block s = Some a ∧ ps_params s !! a = None ∧ (ps_static s ≤ a)%nat.

Section LoadAll.
Context `{ParamEnv}.
Hypothesis Hcalloc : calloc_fresh.

(** Loading the lines of [ps] adds a parameter for each, the last one first. *)
Lemma from_string_run ps : ∀ fuel t dyn,
  Forall line_ok ps → NoDup (param_key <$> ps) → plist_ok t dyn →
  Forall (λ p, unknown t dyn (p_node p) (p_id p)) ps →
  (List.length (concat (line_text <$> ps)) < fuel)%nat →
  ∃ t' new, from_string_loop fuel (concat (line_text <$> ps)) t = Some ((), t') ∧ plist_ok t' (rev new ++ dyn) ∧
    (∀ b, is_Some (ps_params t !! b) → ps_params t' !! b = ps_params t !! b) ∧
    Forall2 (λ p a, ∃ q, ps_params t' !! a = Some q ∧ restored p q) ps (new : list nat).
Proof.
  induction ps as [|p ps IH]; intros fuel t dyn Hps Hnd Hok Hun Hf; (destruct fuel as [|fuel]; [lia|]).
  { exists t, []. split; [done|]. split; [done|]. split; [done|constructor]. }
  inversion Hps as [|? ? Hp Hps']; subst. inversion Hun as [|? ? Hu Hun']; subst.
  apply NoDup_cons in Hnd as [Hnin Hnd]. destruct (line_chars p Hp) as (l & Hl & Hc & Hlen).
  destruct (Hcalloc (with_event (ev_print (c_string "Found parameter => " ++ line_text p)) t)) as (a & Ha & Hfree & Hge).
  change (ps_params t !! a = None) in Hfree.
  destruct (from_line_run p t dyn a Hp Hok Ha Hfree Hge Hu) as (t1 & q & Hrun & Hok1 & Hps1 & Hq & Hst).
  cbn [fmap list_fmap concat] in *. rewrite Hl, <- app_assoc in *. cbn [app] in *.
  cbn [from_string_loop]. rewrite length_app in Hf. cbn [List.length] in Hf.
  destruct (IH fuel t1 (a :: dyn)) as (t' & new & Hrun' & Hok' & Hframe & Hall); [done|done|done| |lia|].
  { apply Forall_forall. intros p' Hin x q' Hx Hq'. rewrite Hps1 in Hq'.
    destruct (decide (x = a)) as [->|Hne].
    - rewrite lookup_insert_eq in Hq'. injection Hq' as <-. rewrite (re_node _ _ Hq), (re_id _ _ Hq).
      destruct (decide (p_node p = p_node p')) as [E1|]; [|by left]. right. intros E2. apply Hnin. apply list_elem_of_fmap.
      exists p'. split; [unfold param_key; by rewrite E1, E2|done].
    - rewrite lookup_insert_ne in Hq' by done. rewrite Forall_forall in Hun'. apply (Hun' p' Hin x q'); [|done].
      unfold all_params in *. rewrite Hst in Hx. apply elem_of_app in Hx as [Hx|Hx]; apply elem_of_app; [by left|].
      apply elem_of_cons in Hx as [->|Hx]; [done|by right]. }
  exists t', (a :: new). split_and!.
  - destruct l as [|c l]; [cbn in Hlen; lia|]. cbn [app]. change (c :: l ++ 10 :: ?r) with ((c :: l) ++ 10 :: r).
    rewrite fgets_line by (done || lia). run Hrun. exact Hrun'.
  - cbn [rev]. rewrite <- app_assoc. exact Hok'.
  - intros b Hb. rewrite Hframe; rewrite Hps1; (destruct (decide (b = a)) as [->|]; [|by rewrite lookup_insert_ne by done]).
    all: rewrite Hfree in Hb; by destruct Hb.
  - constructor; [|done]. exists q. split; [|done]. rewrite Hframe; rewrite Hps1, lookup_insert_eq; [done|by eexists].
Qed.
End LoadAll.

(** C25: The list of remote parameters survives as text: what [param_list_to_string] writes
    for a list, [param_list_from_string] loads into another one.  The names have at most 34
    characters, none of them a comma or the end of a line, and the numbers are in their ranges
    ([line_ok]); the saved parameters have different keys, none of which the other list
    knows; and [calloc] never fails.  Then every saved parameter
    becomes a new one with its node, identifier, name, type, size and flags; the list stays
    well formed, its other parameters keep everything, and the new ones stand at its head in
    the opposite order. *)
Theorem param_list_store_roundtrip `{ParamEnv} (s t : pstate) (dyn dyn' : list nat) :
  plist_ok s dyn → calloc_fresh → plist_ok t dyn' →
  let ps := saved_params s (all_params s dyn) in
  Forall line_ok ps → NoDup (param_key <$> ps) → Forall (λ p, unknown t dyn' (p_node p) (p_id p)) ps →
  ∃ text t' new, param_list_to_string (-1) s = Some (text, s) ∧ param_list_from_string text t = Some ((), t') ∧
    plist_ok t' (rev new ++ dyn') ∧
    (∀ b, is_Some (ps_params t !! b) → ps_params t' !! b = ps_params t !! b) ∧
    Forall2 (λ p a, ∃ q, ps_params t' !! a = Some q ∧ restored p q) ps (new : list nat).
Proof.
  intros Hok Hcal Hok' ps Hps Hnd Hun.
  destruct (from_string_run Hcal ps (S (List.length (concat (line_text <$> ps)))) t dyn') as (t' & new & Hrun & Hrest); [done..|lia|].
  exists (concat (line_text <$> ps)), t', new. split; [|by split].
  unfold param_list_to_string. run (eq_refl : get s = Some (s, s)).
  rewrite (to_string_loop_run s dyn (all_params s dyn)); [done|done|by left|by apply all_params_length].
Qed.

(** A static parameter and two remote ones, saved and loaded into an empty list. *)
#[local] Instance store_env : ParamEnv := {|
  fopen_w_ok _ := true; ParamState.run_callback _ _ _ := mret ();
  calloc_block s := Some (S (max_list (ps_static s :: (map_to_list (ps_params s)).*1))); have_critical := false;
  indeterminate := 0; ptr_block _ := None |}.
Definition remote_param (id node : Z) (name : string) (next : option nat) : param_t :=
  mk_param id node PARAM_TYPE_UINT16 PM_CONF (c_string name) None None 0 0 None 2 2 None 0 next.
Definition store_state : pstate :=
  mk_pstate ∅ [] {[ 0%nat := remote_param 20 0 "addr" None; 1%nat := remote_param 31 5 "mode" (Some 2%nat);
    2%nat := remote_param 32 6 "gain" None ]} 1 (Some 1%nat) ∅ ∅ [] (mk_app [] 0 0 0).

Lemma store_calloc_fresh : calloc_fresh.
Proof.
  intros s. eexists. split; [done|]. split.
  - destruct (ps_params s !! _) as [p|] eqn:Hp; [|done]. exfalso. apply elem_of_map_to_list in Hp.
    assert (Hin : ∀ x, (x, p) ∈ map_to_list (ps_params s) → x ∈ ps_static s :: (map_to_list (ps_params s)).*1).
    { intros x Hx. right. apply list_elem_of_fmap. by exists (x, p). }
    apply Hin, max_list_elem_of_le in Hp. lia.
  - cbn. lia.
Qed.

Lemma param_list_store_roundtrip_witness :
  ∃ t', param_list_to_string (-1) store_state = Some (c_string "5,31,mode,1,2,4" ++ [10] ++ c_string "6,32,gain,1,2,4" ++ [10], store_state) ∧
    param_list_from_string (c_string "5,31,mode,1,2,4" ++ [10] ++ c_string "6,32,gain,1,2,4" ++ [10]) receiver_state = Some ((), t') ∧
    ∃ a b, plist_ok t' [b; a] ∧ p_name <$> ps_params t' !! a = Some (c_string "mode") ∧ p_node <$> ps_params t' !! b = Some 6.
Proof.
  destruct (param_list_store_roundtrip store_state receiver_state [1; 2]%nat []) as (text & t' & new & Hto & Hfrom & Hok & _ & Hall).
  - split; [intros [|a]; [by eexists|cbn; lia]| |apply (bool_decide_unpack _); vm_compute; done|].
    + cbn. split; [done|]. eexists. split; [done|]. split; [done|]. by eexists.
    + intros a Ha. cbn. repeat (apply elem_of_cons in Ha as [->|Ha]; [lia|]). by apply not_elem_of_nil in Ha.
  - apply store_calloc_fresh.
  - split; [cbn; lia|done|constructor|]. intros a Ha. by apply not_elem_of_nil in Ha.
  - repeat (constructor; [split; try (vm_compute; split; congruence); split; [repeat (constructor; [vm_compute; split_and!; congruence|]); constructor|vm_compute; lia]|]).
    constructor.
  - apply (bool_decide_unpack _). vm_compute. done.
  - repeat (constructor; [intros a q Ha; cbn in Ha; by apply not_elem_of_nil in Ha|]). constructor.
  - exists t'. assert (text = c_string "5,31,mode,1,2,4" ++ [10] ++ c_string "6,32,gain,1,2,4" ++ [10]) as ->.
    { clear -Hto. vm_compute in Hto. injection Hto as <-. reflexivity. }
    split; [exact Hto|]. split; [exact Hfrom|].
    inversion Hall as [|? a ? l1 (qa & Ha & Ra) H1]; subst. inversion H1 as [|? b ? l2 (qb & Hb & Rb) H2]; subst. inversion H2; subst.
    exists a, b. split; [exact Hok|]. rewrite Ha, Hb. cbn. by rewrite (re_name _ _ Ra), (re_node _ _ Rb).
Defined.

(** ** What is lost *)

(** A name of 35 characters, which the list stores, is written past the array it is read
    into. *)
Lemma long_name_overflows `{ParamEnv} p t :
  is_u16 (p_node p) → is_u16 (p_id p) → Forall (λ c, c ≠ 44) (p_name p) → List.length (p_name p) = 35%nat →
  param_list_from_line (line_text p) t = None.
Proof.
  intros Hn Hi Hc Hl. unfold param_list_from_line, line_text. cbn [app].
  pose proof (scan_head_line p (decimal (param_type_to_Z (p_type p)) ++ 44 :: signed_decimal (p_array_size p) ++ 44 ::
    hexadecimal false (p_mask p) ++ [10]) Hn Hi Hc ltac:(lia)) as Hh. cbn [app] in Hh. rewrite Hh.
  by rewrite bool_decide_true by lia.
Qed.

(** The letters of a mask without the first priority are read back. *)
Lemma flag_letters_read mask : 0 ≤ mask < 16384 → Z.land mask PM_PRIO_MASK ≠ PM_PRIO1 →
  param_maskstr_to_mask (Some (flag_letters mask)) = mask.
Proof.
  intros Hm Hp.
  assert (Hall : forallb (λ m, bool_decide (Z.land m PM_PRIO_MASK = PM_PRIO1) ||
    bool_decide (param_maskstr_to_mask (Some (flag_letters m)) = m)) (seqZ 0 16384) = true) by (vm_compute; reflexivity).
  rewrite forallb_forall in Hall. specialize (Hall mask ltac:(apply list_elem_of_In, elem_of_seqZ; lia)).
  rewrite bool_decide_false in Hall by done. by apply bool_decide_eq_true in Hall.
Qed.
