(* ===== verification/ParamPull.v ===== *)
(** * Pulling parameters

    A pull request for all parameters of some kind goes through [param_serve] of the node
    asked, which answers with a queue of their values; the answer goes through [param_serve]
    of the node that asked, which stores them in its remote parameters. *)

From S2P Require Import Queue Types Id State Buffer Nexthop Iflist Rtable Hmac Stack Net Rdp Conn Io Mpack ParamState Param ParamList ParamSer ParamWire ParamPush ParamServer ParamServed Prelude.

(** ** Bytes of a queue *)

Lemma tag_bytes_ok t : tag_ok t → bytes_ok (tag_bytes t).
Proof.
  intros Ht. destruct t; cbn [tag_ok tag_bytes] in *; repeat case_bool_decide; repeat case_match;
    repeat (first [apply be_bytes_ok | apply Forall_nil_2 | apply Forall_cons_2]); first [apply u8_range | unfold is_u8; lia].
Qed.

Lemma entry_bytes_ok q s e : is_source s e → bytes_ok (entry_bytes q (en_p e) (en_ts e) (en_c e) (en_vals e)).
Proof.
  intros [Hs Hl]. unfold entry_bytes, id_bytes, value_bytes, elements. repeat (apply Forall_app; split);
    try (case_bool_decide; [apply be_bytes_ok|apply Forall_nil_2]).
  - apply tag_bytes_ok. cbn [tag_ok]. pose proof (bswap_range 2 (id_header q (en_p e) (en_ts e) (-1))). lia.
  - case_bool_decide; [|apply Forall_nil_2]. apply tag_bytes_ok. cbn [tag_ok]. lia.
  - apply Forall_bind. eapply Forall_impl; [exact (so_vals _ _ _ _ _ _ Hs)|]. intros v Hv. by apply tag_bytes_ok, native_tag_ok.
Qed.

Section Response.
Context `{Env} `{ParamEnv}.
Context (l : list nat) (s1 : stack) (b r : nat) (k kr : csp_skbf_t) (t : pstate).

(** [b] is the request, [r] the response. *)
Hypothesis (He : net_env l s1) (Hb : c_pool (k_core s1) !! b = Some k) (Hr : c_pool (k_core s1) !! r = Some kr).
Hypothesis (Hne : b ≠ r) (Hrc : refcount k = 1) (Hrr : refcount kr = 1).
Let st (pk : csp_packet_t) : stack := with_packet s1 r kr pk.
Let req : csp_packet_t := skbf_data k.

Lemma request_lookup pk : c_pool (k_core (st pk)) !! b = Some k.
Proof using Hb Hne. unfold st, with_packet, upd_pkt. cbn. by rewrite list_lookup_insert_ne. Qed.

Lemma request_get pk : kget_packet b (st pk) = Some (req, st pk).
Proof using Hb Hne. apply kget_run, request_lookup. Qed.

Lemma request_be32 pk i v : data_read req (4 * i) 4 = Some (be_bytes 4 v) → 0 ≤ v < 2 ^ 32 → data_be32 b i (st pk) = Some (v, st pk).
Proof using Hb Hne.
  intros Hd Hv. unfold data_be32. run (request_get pk). run (lift_opt_run_gen _ _ (st pk) Hd).
  rewrite be_val_be_bytes, Z.mod_small by exact Hv. done.
Qed.

(** The reply to another packet. *)
Lemma sendto_reply_other pk :
  csp_sendto_reply (Some b) r CSP_O_SAME (st pk) =
  csp_send_direct (IdPacket r) (Some r) None (st (set_pk_id (reply_to (c_version (k_core s1)) (pk_id req)) pk)).
Proof using Hb Hr Hne.
  unfold csp_sendto_reply. run (eq_refl : conf_version (st pk) = Some (c_version (k_core s1), st pk)). run (request_get pk).
  change (has_flag CSP_O_SAME CSP_O_SAME) with true. cbn [when].
  run (with_packet_mod s1 r kr Hr (λ p, set_pk_id (set_flags (flags (pk_id req)) (pk_id p)) p) pk).
  set (p1 := set_pk_id (set_flags (flags (pk_id req)) (pk_id pk)) pk). run (request_get p1).
  run (with_packet_mod s1 r kr Hr (λ p, set_pk_id (set_src
    (if bool_decide (dst (pk_id req) ≠ csp_id_get_max_nodeid (c_version (k_core s1))) then dst (pk_id req) else 0) (pk_id p)) p) p1).
  set (p2 := set_pk_id (set_src _ (pk_id p1)) p1). run (request_get p2). unfold csp_sendto.
  run (with_packet_get s1 r kr Hr p2).
  change (has_flag CSP_O_SAME CSP_O_SAME) with true. change (has_flag CSP_O_SAME CSP_O_RDP) with false.
  change (has_flag CSP_O_SAME CSP_O_HMAC) with false. change (has_flag CSP_O_SAME CSP_O_CRC32) with false. cbv iota.
  run (with_packet_put s1 r kr Hr p2 (set_pk_id (mk_id (pri (pk_id req)) (flags (pk_id p2)) (src (pk_id p2))
    (src (pk_id req)) (sport (pk_id req)) (dport (pk_id req))) p2)).
  reflexivity.
Qed.

(** The queue of the response is the packet behind its first two bytes. *)
Definition holds_queue (pk : csp_packet_t) (q : param_queue_t) : Prop :=
  packet_ok pk ∧ queue_ok q ∧ data_read pk 2 (CSP_BUFFER_SIZE - 2) = Some (q_mem q) ∧ bytes_ok (q_mem q).

Definition ctx (q : param_queue_t) : param_serve_context := mk_ctx b (Some r) q.

(** Adding a parameter to the response. *)
Lemma response_add_run pk q e :
  let bs := entry_bytes (fresh_node q) (en_p e) (en_ts e) (en_c e) (en_vals e) in
  holds_queue pk q → is_source t e → q_used q + Z.of_nat (length bs) ≤ q_buffer_size q →
  ∃ pk' m, let q' := mk_queue m (q_buffer_size q) (q_used q + Z.of_nat (length bs)) (q_version q) (q_type q) (p_node (en_p e)) (en_ts e) in
    response_add (ctx q) (en_a e) (-1) (st pk, t) = Some ((0, ctx q'), (st pk', t)) ∧ holds_queue pk' q' ∧
    mem_write (q_mem q) (q_used q) bs = Some m ∧ pk_id pk' = pk_id pk.
Proof using Hr Hne.
  intros bs (Hpk & Hq & Hd & Hby) He1 Hroom. pose proof Hq as (Q1 & Q2 & Q3 & Q4 & Q5).
  pose proof (entry_bytes_ok (fresh_node q) t e He1) as Hbs. destruct He1 as [Hs Hl].
  destruct (param_queue_add_run t (en_a e) (en_p e) (en_c e) (en_ts e) (en_vals e) q Hs Hq ltac:(lia) Hroom) as (m & Hm & Hadd).
  fold bs in Hm, Hadd. pose proof (mem_write_length _ _ _ _ Hm) as Hml.
  pose proof (mem_read_length _ _ _ _ Hd) as Hdl. pose proof (mem_write_bytes_ok _ _ _ _ Hby Hbs Hm) as Hmb.
  destruct (data_write_is_Some pk 2 m Hpk) as [pk' Hw]; [lia|revert Hdl; sizes; lia|].
  exists pk', m. split; [|split; [|split; [done|]]].
  - unfold response_add, ctx. cbn [cx_q_response cx_response]. run (on_snd_run _ _ _ _ (st pk) Hadd).
    run (eq_refl : lift_opt (Some r) (st pk, t) = Some (r, (st pk, t))).
    run (on_fst_run _ _ _ _ t (data_store_run s1 r kr Hr 2 _ pk pk' Hw)). done.
  - split; [by eapply data_write_ok|]. split; [|split; [|done]].
    + unfold queue_ok. cbn [q_used q_buffer_size q_mem q_version q_type]. repeat split; try done; lia.
    + apply data_write_Some in Hw as (m1 & Hm1 & ->). unfold data_read. cbn [pk_mem set_pk_mem q_mem].
      rewrite <- (mem_read_write_eq _ _ _ _ Hm1). f_equal. lia.
  - apply data_write_Some in Hw as (m1 & _ & ->). done.
Qed.

(** The parameters a request for all asks for. *)
Definition selected (inc exc : Z) (a : nat) : bool :=
  match ps_params t !! a with
  | Some p => negb (bool_decide (Z.land (p_mask p) inc = 0) || bool_decide (Z.land (p_mask p) exc ≠ 0))
  | None => false
  end.

(** The loop over the list adds the selected parameters in order. *)
Lemma pull_all_run dyn inc exc fuel it ups pk q es bs0 :
  plist_ok t dyn → upcoming t dyn it ups → (length ups < fuel)%nat →
  data_read req 4 4 = Some (be_bytes 4 inc) → 0 ≤ inc < 2 ^ 32 → data_read req 8 4 = Some (be_bytes 4 exc) → 0 ≤ exc < 2 ^ 32 →
  en_a <$> es = filter (selected inc exc) ups → Forall (is_source t) es → holds_queue pk q →
  mem_read (q_mem q) 0 (q_used q) = Some bs0 → q_used q + Z.of_nat (length (queue_bytes (fresh_node q) es)) ≤ q_buffer_size q →
  ∃ pk' q', pull_all_loop fuel 2 it (ctx q) (st pk, t) = Some (Some (ctx q'), (st pk', t)) ∧ holds_queue pk' q' ∧
    q_used q' = q_used q + Z.of_nat (length (queue_bytes (fresh_node q) es)) ∧ q_version q' = q_version q ∧
    q_buffer_size q' = q_buffer_size q ∧
    mem_read (q_mem q') 0 (q_used q') = Some (bs0 ++ queue_bytes (fresh_node q) es).
Proof using Hb Hr Hne.
  intros Hok Hu Hf Hinc Hincr Hexc Hexcr. revert it ups pk q es bs0 Hu Hf.
  induction fuel as [|fuel IH]; intros it ups pk q es bs0 Hu Hf Hes Hsrc Hh Hrd Hroom; [lia|]. cbn [pull_all_loop].
  destruct (iterate_step t dyn it ups Hok Hu) as (it' & Hit & Hnext & _). run (on_snd_run _ _ _ _ (st pk) Hit).
  destruct ups as [|a ups]; cbn [head].
  { destruct es; [|done]. exists pk, q. cbn [queue_bytes length]. rewrite Z.add_0_r, app_nil_r. done. }
  run (on_fst_run _ _ _ _ t (request_be32 pk 1 inc Hinc Hincr)). rewrite bool_decide_true by lia.
  run (on_fst_run _ _ _ _ t (request_be32 pk 2 exc Hexc Hexcr)).
  destruct (upcoming_exists t dyn it a ups Hok Hu) as [p Hp].
  run (on_snd_run _ _ _ _ (st pk) (lift_opt_run_gen _ _ t Hp : get_param a t = Some (p, t))).
  destruct (Hnext a ups eq_refl) as (Hu' & _ & _).
  assert (Hsel : selected inc exc a = negb (bool_decide (Z.land (p_mask p) inc = 0) || bool_decide (Z.land (p_mask p) exc ≠ 0)))
    by (unfold selected; by rewrite Hp).
  rewrite filter_cons in Hes. destruct (bool_decide (Z.land _ inc = 0) || _) eqn:Hm0 in *; cbn [negb] in Hsel; clear Hm0.
  { rewrite decide_False in Hes by (rewrite Hsel; intros []). apply (IH it' ups pk q es bs0); try done. simpl in Hf. lia. }
  rewrite decide_True in Hes by (rewrite Hsel; exact I). destruct es as [|e es]; [done|]. injection Hes as Ha Hes.
  apply Forall_cons in Hsrc as [Hse Hsrc]. cbn [queue_bytes] in Hroom. rewrite length_app in Hroom. subst a.
  destruct (response_add_run pk q e Hh Hse ltac:(lia)) as (pk' & m & Hadd & Hh' & Hm & _).
  set (bs := entry_bytes (fresh_node q) (en_p e) (en_ts e) (en_c e) (en_vals e)) in *.
  set (q1 := mk_queue m _ _ _ _ _ _) in *.
  assert (Hadd' : __add (ctx q) (en_a e) (-1) (st pk, t) = Some ((0, ctx q1), (st pk', t))) by (unfold __add; by run Hadd).
  run Hadd'. rewrite bool_decide_false by lia. pose proof (entry_bytes_pos (fresh_node q) (en_p e) (en_ts e) (en_c e) (en_vals e)) as Hpos.
  fold bs in Hpos. destruct Hh as (_ & (Q1 & _) & _).
  assert (Hfr : fresh_node q1 = q1) by (unfold fresh_node; rewrite bool_decide_false; [done|unfold q1; cbn [q_used]; lia]).
  assert (Eq : queue_bytes (after_id (fresh_node q) (en_p e) (en_ts e)) es = queue_bytes (fresh_node q1) es)
    by (rewrite Hfr; by apply queue_bytes_ext).
  destruct (IH it' ups pk' q1 es (bs0 ++ bs)) as (pk2 & q2 & Hrun & Hh2 & Hu2 & Hv2 & Hb2 & Hrd2); try done.
  - simpl in Hf. lia.
  - unfold q1. cbn [q_mem q_used]. apply mem_read_app.
    + by rewrite (mem_read_write_ne _ _ _ _ _ _ Hm) by lia.
    + rewrite Z.add_0_l. by apply (mem_read_write_eq _ _ _ _ Hm).
  - rewrite <- Eq. unfold q1. cbn [q_used q_buffer_size]. lia.
  - exists pk2, q2. split; [done|]. split; [done|]. cbn [queue_bytes]. fold bs. rewrite Eq, length_app.
    change (q_used q1) with (q_used q + Z.of_nat (length bs)) in Hu2. split; [lia|]. split; [by rewrite Hv2|].
    split; [by rewrite Hb2|]. by rewrite app_assoc.
Qed.

(** The packet of the response. *)
Record responds (bs : list Z) (pk : csp_packet_t) : Prop := {
  re_payload : payload pk = Some ([PARAM_PULL_RESPONSE_V2; PARAM_FLAG_END] ++ bs);
  re_id : pk_id pk = reply_to (c_version (k_core s1)) (pk_id req);
  re_ok : packet_ok pk;
  re_length : pk_length pk ≤ CSP_BUFFER_SIZE;
}.

Lemma send_run pk q bs :
  holds_queue pk q → q_version q = 2 → q_buffer_size q ≤ PARAM_SERVER_MTU → packet_ok req →
  mem_read (q_mem q) 0 (q_used q) = Some bs →
  ∃ pk', __send (ctx q) true (st pk, t) = on_fst (csp_send_direct (IdPacket r) (Some r) None) (st pk', t) ∧ responds bs pk'.
Proof using Hb Hr Hne.
  intros (Hpk & (Q1 & Q2 & _) & Hd & _) Hv Hmtu Hreq Hbs. unfold PARAM_SERVER_MTU in Hmtu. unfold __send, ctx. cbn [cx_response cx_q_response cx_request].
  run (eq_refl : lift_opt (Some r) (st pk, t) = Some (r, (st pk, t))). rewrite Hv, (bool_decide_false (2 = 1)) by done.
  destruct (data_write_is_Some pk 0 [PARAM_PULL_RESPONSE_V2] Hpk) as [p1 Hw1]; [lia|sizes; cbn; lia|].
  run (on_fst_run _ _ _ _ t (data_store_run s1 r kr Hr 0 _ pk p1 Hw1)).
  assert (Hp1 : packet_ok p1) by (eapply data_write_ok; [exact Hpk| |exact Hw1]; by repeat constructor).
  destruct (data_write_is_Some p1 1 [PARAM_FLAG_END] Hp1) as [p2 Hw2]; [lia|sizes; cbn; lia|].
  run (on_fst_run _ _ _ _ t (data_store_run s1 r kr Hr 1 _ p1 p2 Hw2)).
  assert (Hp2 : packet_ok p2) by (eapply data_write_ok; [exact Hp1| |exact Hw2]; by repeat constructor).
  assert (Hu : u16 (q_used q + 2) = q_used q + 2) by (apply u16_id; unfold is_u16; lia). rewrite Hu.
  run (on_fst_run _ _ _ _ t (with_packet_mod s1 r kr Hr (set_pk_length (q_used q + 2)) p2)).
  set (p3 := set_pk_length (q_used q + 2) p2).
  exists (set_pk_id (reply_to (c_version (k_core s1)) (pk_id req)) p3). split; [unfold on_fst; cbn [fst snd]; by rewrite sendto_reply_other|].
  assert (Hp3 : packet_ok p3) by (destruct Hp2; split; try done; unfold is_u16; cbn; lia).
  split; [|done|apply set_pk_id_ok; [done|apply reply_to_ok, Hreq]|sizes; cbn; lia].
  unfold payload, data_read in *. cbn [pk_length pk_mem set_pk_id p3 set_pk_length].
  apply data_write_Some in Hw1 as (m1 & Hm1 & ->). apply data_write_Some in Hw2 as (m2 & Hm2 & ->). cbn [pk_mem set_pk_mem] in *.
  rewrite Z.add_0_r in *. replace (q_used q + 2) with (1 + (1 + q_used q)) by lia.
  apply (mem_read_app _ _ 1 _ [PARAM_PULL_RESPONSE_V2]).
  { rewrite (mem_read_write_ne _ _ _ _ _ _ Hm2) by lia. exact (mem_read_write_eq _ _ _ _ Hm1). }
  apply (mem_read_app _ _ 1 _ [PARAM_FLAG_END]); [exact (mem_read_write_eq _ _ _ _ Hm2)|].
  rewrite (mem_read_write_ne _ _ _ _ _ _ Hm2), (mem_read_write_ne _ _ _ _ _ _ Hm1) by (cbn [length]; lia).
  pose proof (mem_read_length _ _ _ _ Hd) as Hdl. pose proof (mem_read_length _ _ _ _ Hbs) as Hbl.
  rewrite (mem_read_nested _ _ _ _ 0 (q_used q) Hd) in Hbs by (revert Q1 Q2 Hmtu; sizes; lia). rewrite <- Hbs. by f_equal.
Qed.
End Response.

(** ** The request *)

Section Request.
Context `{Env} `{ParamEnv}.

(** The queue of a response before anything is added. *)
Definition response_queue (mem : list Z) : param_queue_t :=
  param_queue_init mem PARAM_SERVER_MTU 0 PARAM_QUEUE_TYPE_SET 2 indeterminate.

Lemma pull_request_run l s b k t dyn inc exc es :
  net_env l s → c_pool (k_core s) !! b = Some k → refcount k = 1 → fq_items (c_free (k_core s)) ≠ [] →
  data_read (skbf_data k) 4 4 = Some (be_bytes 4 inc) → 0 ≤ inc < 2 ^ 32 →
  data_read (skbf_data k) 8 4 = Some (be_bytes 4 exc) → 0 ≤ exc < 2 ^ 32 →
  plist_ok t dyn → en_a <$> es = filter (selected t inc exc) (all_params t dyn) → Forall (is_source t) es →
  let bs := queue_bytes (fresh_node (response_queue [])) es in
  Z.of_nat (length bs) ≤ PARAM_SERVER_MTU →
  ∃ r kr s1 resp s2 s', liftC csp_buffer_get s = Some (Some r, s1) ∧ c_pool (k_core s1) !! r = Some kr ∧
    param_serve_pull_request b true 2 (s, t) = Some ((), (s', t)) ∧
    csp_send_direct (IdPacket r) (Some r) None (with_packet s1 r kr resp) = Some ((), s2) ∧
    responds s1 k bs resp ∧ kfree (Some b) s2 = Some ((), s') ∧ net_env l s' ∧ ¬ allocated (k_core s') b ∧ ¬ allocated (k_core s') r.
Proof.
  intros He Hk Hrc Hfree Hinc Hir Hexc Her Hok Hes Hsrc bs Hmtu. pose proof (ne_inv _ _ He) as Hi.
  assert (Hp : packet_ok (skbf_data k)) by apply (bi_pool _ Hi b k Hk).
  assert (Hal : allocated (k_core s) b) by (exists k; split; [done|lia]).
  destruct (buffer_get_step l s He Hfree) as (r & kr & s1 & Hget & He1 & Hst1 & Hkr & Hrr & Hpr & Hna & _).
  assert (Hne : b ≠ r) by (by intros ->).
  assert (Hk1 : c_pool (k_core s1) !! b = Some k) by (rewrite (ns_kept _ _ _ _ Hst1); [done|congruence|done]).
  destruct (data_read_is_Some (skbf_data k) 1 1 Hp ltac:(lia) ltac:(lia) ltac:(sizes; lia)) as [fl Hfl].
  destruct (data_from_run s1 r kr Hkr 2 (skbf_data kr) Hpr ltac:(sizes; lia)) as (mem & Hdf & Hmem).
  rewrite (with_packet_same s1 r kr Hkr) in Hdf. pose proof (mem_read_length _ _ _ _ Hmem) as Hml. revert Hml. sizes. intros Hml.
  assert (Ebs : queue_bytes (fresh_node (response_queue mem)) es = bs) by (by apply queue_bytes_ext).
  destruct (pull_all_run s1 b r k kr t Hk1 Hkr Hne dyn inc exc (list_fuel t) iterator_init (all_params t dyn) (skbf_data kr)
    (response_queue mem) es []) as (pk' & q' & Hloop & Hh & Hu & Hv & Hbz & Hrd); try done; [by left|by apply all_params_length| | | |].
  { split; [done|]. split; [|split; [done|by eapply data_read_bytes_ok]].
    unfold queue_ok, response_queue, param_queue_init. cbn [q_used q_buffer_size q_mem q_version q_type].
    change (u16 PARAM_SERVER_MTU) with 200. change (u16 0) with 0. change (u8 2) with 2. repeat split; lia. }
  { apply mem_read_Some. change (q_used (response_queue mem)) with 0. repeat split; lia. }
  { rewrite Ebs. exact Hmtu. }
  rewrite Ebs in Hrd. rewrite (with_packet_same s1 r kr Hkr) in Hloop.
  destruct (send_run s1 b r k kr t Hk1 Hkr Hne pk' q' bs Hh Hv) as (resp & Hsend & Hresp); [by rewrite Hbz|done|done|].
  destruct (csp_send_direct_step l (with_packet s1 r kr resp) (IdPacket r) (Some r) None) as (s2 & new & Hs2 & He2 & _ & Hst2 & Hf2).
  { eapply net_env_step; [apply with_packet_step; [apply He1|exact Hkr|apply Hresp]|done]. }
  { eexists. split; [exact (with_packet_lookup s1 r kr Hkr resp)|]. split; [done|apply Hresp]. }
  { done. }
  { done. }
  assert (Hk2 : c_pool (k_core s2) !! b = Some k).
  { rewrite (ns_kept _ _ _ _ Hst2); [exact (request_lookup s1 b r k kr Hk1 Hne resp)|congruence|].
    exists k. split; [exact (request_lookup s1 b r k kr Hk1 Hne resp)|lia]. }
  destruct (kfree_step s2 b) as (s' & Hs' & Hst' & Hna' & _); [apply He2|by exists k|].
  exists r, kr, s1, resp, s2, s'. split; [done|]. split; [done|]. split; [|split; [done|split; [done|split; [done|split; [|split; [done|]]]]]].
  - unfold param_serve_pull_request, data_byte.
    erewrite ST_bind_run; [|apply on_fst_run; run (kget_run s b k Hk); run (lift_opt_run_gen _ _ s Hfl); reflexivity].
    unfold __allocate. erewrite ST_bind_run; [|run (on_fst_run _ _ _ _ t Hget); run (on_fst_run _ _ _ _ t Hdf); reflexivity].
    cbv beta iota. rewrite bool_decide_false by lia. run (on_fst_run _ _ _ _ t (kget_run s1 b k Hk1)).
    erewrite ST_bind_run; [|run (eq_refl : Prelude.get (s1, t) = Some ((s1, t), (s1, t))); exact Hloop]. cbv beta iota.
    rewrite (ST_bind_run _ _ _ () (s2, t)); [by apply on_fst_run|]. rewrite Hsend. by apply on_fst_run.
  - by eapply net_env_step.
  - intros Ha. destruct (ns_alloc _ _ _ _ Hst' r ltac:(congruence) Ha) as [Ha2|Ha2%not_elem_of_nil]; [|done]. destruct (Hf2 r eq_refl) as [Hf _]. by apply Hf.
Qed.

(** ** The response *)

Lemma pull_response_run serial l s t dyn b k fl q es sender :
  net_env l s → c_pool (k_core s) !! b = Some k → refcount k = 1 →
  payload (skbf_data k) = Some (PARAM_PULL_RESPONSE_V2 :: fl :: queue_bytes q es) → fresh_queue q →
  Forall (entry_ok sender t 0 (src (pk_id (skbf_data k)))) es → all_apart t es → plist_ok t dyn → vmems_ok t →
  ∃ s' t', param_serve serial b (s, t) = Some ((), (s', t')) ∧ net_env l s' ∧ ¬ allocated (k_core s') b ∧
    ∀ e i v, e ∈ es → en_vals e !! i = Some v → param_get_array (en_c e) (en_b e) (Z.of_nat i) t' = Some (v, t').
Proof.
  intros He Hk Hrc Hpay [Hqn Hqt] Hes Hap Hok Hvm. set (p := skbf_data k) in *.
  assert (Hp : packet_ok p) by apply (bi_pool _ (ne_inv _ _ He) b k Hk).
  destruct (request_parts p _ _ _ Hp Hpay) as (Hlen & Hmax & Hty & _ & Hmem).
  destruct (data_from_run s b k Hk 2 p Hp ltac:(sizes; lia)) as (mem & Hd & Hrd).
  pose proof (data_byte_run s b k Hk 0 p _ Hty) as Hbyte. pose proof (with_packet_get s b k Hk p) as Hget.
  unfold p in Hd, Hbyte, Hget. rewrite (with_packet_same s b k Hk) in Hd, Hbyte, Hget. fold p in Hget, Hd.
  unfold param_serve. run (on_fst_run _ _ _ _ t Hbyte). do 5 rewrite bool_decide_false by done.
  rewrite (bool_decide_true (_ = PARAM_PULL_RESPONSE_V2)) by done. unfold param_serve_push.
  run (on_fst_run _ _ _ _ t Hget). run (on_fst_run _ _ _ _ t Hd).
  set (qr := param_queue_init mem _ _ _ _ _).
  assert (Hu : q_used qr = pk_length p - 2) by (apply u16_id; revert Hmax; sizes; unfold is_u16; lia).
  destruct (queue_apply_run sender dyn 0 (src (pk_id p)) es t q qr Hes Hap Hok Hvm) as (t' & Hr & _ & Hval).
  { split; [done|]. split; [by rewrite Hqt|by left]. }
  { rewrite Hu. replace (pk_length p - 2) with (Z.of_nat (length (queue_bytes q es))) by lia. by apply Hmem. }
  { rewrite Hu. revert Hmax. sizes. lia. }
  run (on_snd_run _ _ _ _ s Hr). cbn [negb]. rewrite orb_true_r.
  destruct (kfree_step s b (ne_inv _ _ He)) as (s' & Hf & Hst & Hna & _); [by exists k|].
  exists s', t'. split; [by apply on_fst_run|]. split; [by eapply net_env_step|]. done.
Qed.
End Request.

(** C24: Pulling works end to end when the answer is a single packet.  A request of version 2
    for all parameters with some of the flags [inc] and none of the flags [exc], when these are
    numeric and their values fit one response of 200 bytes, makes the node asked take a fresh
    buffer, fill it with the values of exactly these parameters in the order of its list, send
    it back to the asking node marked as the last response, and release both buffers; its
    parameters do not change.  A node that receives a packet with this data, whatever the state
    of its own stack, has the sender's values in its copies of the parameters afterwards,
    provided the copies are stored apart and their callbacks leave the memory of the numeric
    parameters alone.  Several responses are not treated here. *)
Theorem param_pull_all_roundtrip `{Env} `{ParamEnv} (serial serial' : Z) (l : list nat) (s : stack) (b : nat) (k : csp_skbf_t)
    (t : pstate) (dyn : list nat) (inc exc fl x y : Z) (es : list entry) :
  let bs := queue_bytes (fresh_node (response_queue [])) es in
  net_env l s → c_pool (k_core s) !! b = Some k → refcount k = 1 → fq_items (c_free (k_core s)) ≠ [] →
  payload (skbf_data k) = Some ([PARAM_PULL_ALL_REQUEST_V2; fl; x; y] ++ be_bytes 4 inc ++ be_bytes 4 exc) →
  0 ≤ inc < 2 ^ 32 → 0 ≤ exc < 2 ^ 32 →
  plist_ok t dyn → en_a <$> es = filter (selected t inc exc) (all_params t dyn) → Forall (is_source t) es →
  Z.of_nat (length bs) ≤ PARAM_SERVER_MTU →
  ∃ r kr s1 resp s2 s', param_serve serial b (s, t) = Some ((), (s', t)) ∧ net_env l s' ∧
    ¬ allocated (k_core s') b ∧ ¬ allocated (k_core s') r ∧
    liftC csp_buffer_get s = Some (Some r, s1) ∧ c_pool (k_core s1) !! r = Some kr ∧
    csp_send_direct (IdPacket r) (Some r) None (with_packet s1 r kr resp) = Some ((), s2) ∧ kfree (Some b) s2 = Some ((), s') ∧
    payload resp = Some ([PARAM_PULL_RESPONSE_V2; PARAM_FLAG_END] ++ bs) ∧
    pk_id resp = reply_to (c_version (k_core s1)) (pk_id (skbf_data k)) ∧
    ∀ l' sr b' k' tr dyn', net_env l' sr → c_pool (k_core sr) !! b' = Some k' → refcount k' = 1 →
      payload (skbf_data k') = payload resp → Forall (entry_ok t tr 0 (src (pk_id (skbf_data k')))) es →
      all_apart tr es → plist_ok tr dyn' → vmems_ok tr →
      ∃ sr' tr', param_serve serial' b' (sr, tr) = Some ((), (sr', tr')) ∧ net_env l' sr' ∧ ¬ allocated (k_core sr') b' ∧
        ∀ e i v, e ∈ es → en_vals e !! i = Some v → param_get_array (en_c e) (en_b e) (Z.of_nat i) tr' = Some (v, tr').
Proof.
  intros bs He Hk Hrc Hfree Hpay Hinc Hexc Hok Hes Hsrc Hmtu.
  unfold payload, data_read in Hpay. pose proof (mem_read_length _ _ _ _ Hpay) as Hl. rewrite !length_app, !length_be_bytes in Hl. cbn [length] in Hl.
  replace (pk_length (skbf_data k)) with (1 + (3 + (4 + 4))) in Hpay by lia.
  apply (mem_read_app_inv _ _ 1 _ [PARAM_PULL_ALL_REQUEST_V2]) in Hpay as [P0 Hpay]; [|lia|done].
  apply (mem_read_app_inv _ _ 3 _ [fl; x; y]) in Hpay as [_ Hpay]; [|lia|done].
  apply (mem_read_app_inv _ _ 4 _ (be_bytes 4 inc)) in Hpay as [Pi Pe]; [|lia|by rewrite length_be_bytes].
  destruct (pull_request_run l s b k t dyn inc exc es He Hk Hrc Hfree) as (r & kr & s1 & resp & s2 & s' & G1 & G2 & G3 & G4 & G5 & G6 & G7 & G8 & G9);
    try done.
  exists r, kr, s1, resp, s2, s'. split; [|repeat (split; [done|]); split; [apply G5|split; [apply G5|]]].
  - unfold param_serve, data_byte. erewrite ST_bind_run; [|apply on_fst_run; run (kget_run s b k Hk); run (lift_opt_run_gen _ _ s P0 : lift_opt (data_read (skbf_data k) 0 1) s = _); reflexivity].
    exact G3.
  - intros l' sr b' k' tr dyn' Hen Hk' Hrc' Hpl Hent Hap Hok' Hvm. rewrite (re_payload _ _ _ _ G5) in Hpl.
    apply (pull_response_run serial' l' sr tr dyn' b' k' PARAM_FLAG_END (fresh_node (response_queue [])) es t); try done.
Qed.

(** ** A concrete pull *)

#[local] Existing Instances env_example push_env.

(** The configuration of a node, asked for by another that keeps a copy. *)
Definition pull_packet (src dst : Z) (data : list Z) : csp_packet_t :=
  set_pk_id (mk_id 2 0 src dst 10 20) (set_pk_length (Z.of_nat (length data))
    (set_pk_mem (replicate 8 0 ++ data ++ replicate (2048 - length data) 0) empty_packet)).
Definition pull_stack (p : csp_packet_t) : stack := with_packet net_example 0 served_buffer p.
Definition pull_buffer (p : csp_packet_t) : csp_skbf_t := mk_skbf (refcount served_buffer) (skbf_addr served_buffer) p.
Definition pull_request : csp_packet_t := pull_packet 9 300 ([PARAM_PULL_ALL_REQUEST_V2; 0; 0; 0] ++ be_bytes 4 PM_CONF ++ be_bytes 4 0).
Definition pull_entries : list entry := [mk_entry 0 (push_scalar 5) c_uint16 7 [0x1234] 0 (push_scalar 5)].
Definition pull_response : csp_packet_t :=
  pull_packet 300 9 ([PARAM_PULL_RESPONSE_V2; PARAM_FLAG_END] ++ queue_bytes (fresh_node (response_queue [])) pull_entries).
Definition pull_copy : pstate := push_state 5 (replicate 8 0).

Lemma pull_stack_ok p : packet_ok p →
  net_env [0%nat; 1%nat] (pull_stack p) ∧ c_pool (k_core (pull_stack p)) !! 0%nat = Some (pull_buffer p).
Proof.
  intros Hp. destruct net_example_ok as [He _]. split; [|exact (with_packet_lookup net_example 0 served_buffer served_buffer_at p)].
  eapply net_env_step; [apply with_packet_step|]; [apply He|exact served_buffer_at|done|done].
Qed.

Lemma pull_state_ok ram : plist_ok (push_state 5 ram) [].
Proof.
  split; [|done|apply NoDup_nil_2|by intros a ?%not_elem_of_nil].
  intros a Ha. simpl in Ha. destruct a as [|[|a]]; [eexists; reflexivity..|lia].
Qed.

Lemma pull_entry_ok : entry_ok push_sender pull_copy 0 300 (mk_entry 0 (push_scalar 5) c_uint16 7 [0x1234] 0 (push_scalar 5)).
Proof.
  split; [apply push_scalar_entry|]. split; [|split; [done|split; [simpl; lia|left; reflexivity]]]. split; try done.
  - intros t1 i Ha. eexists. split; [reflexivity|]. split; [apply applied_event|done].
  - intros [|i] Hi; [|simpl in Hi; lia]. split; [compare_closed|]. exists 0%nat, 0. split; [done|].
    exists (replicate 8 0). split; [reflexivity|]. simpl. lia.
  - simpl. lia.
Qed.

Lemma pull_entries_apart : all_apart pull_copy pull_entries.
Proof. split; [|exact I]. intros e He. by apply elem_of_nil in He. Qed.

Lemma pull_copy_vmems : vmems_ok pull_copy.
Proof. intros v vm Hvm. done. Qed.

Lemma param_pull_all_roundtrip_witness :
  ∃ s' sr' tr', param_serve 77 0 (pull_stack pull_request, push_sender) = Some ((), (s', push_sender)) ∧
    param_serve 78 0 (pull_stack pull_response, pull_copy) = Some ((), (sr', tr')) ∧
    param_get_array c_uint16 0 0 tr' = Some (0x1234, tr').
Proof.
  assert (Hpk : packet_ok pull_request ∧ packet_ok pull_response).
  { split; split; try (vm_compute; intuition congruence); apply (bool_decide_unpack _); vm_compute; reflexivity. }
  destruct Hpk as [Hq Hr]. destruct (pull_stack_ok pull_request Hq) as [He Hk]. destruct (pull_stack_ok pull_response Hr) as [He' Hk'].
  destruct (param_pull_all_roundtrip 77 78 [0%nat; 1%nat] (pull_stack pull_request) 0 (pull_buffer pull_request) push_sender [] PM_CONF 0 0 0 0
    pull_entries) as (r & kr & s1 & resp & s2 & s' & H1 & _ & _ & _ & _ & _ & _ & _ & Hpay & _ & Hrecv).
  - exact He.
  - exact Hk.
  - vm_compute. reflexivity.
  - vm_compute. congruence.
  - vm_compute. reflexivity.
  - unfold PM_CONF. lia.
  - lia.
  - apply pull_state_ok.
  - vm_compute. reflexivity.
  - apply Forall_singleton. split; [apply push_scalar_entry|simpl; lia].
  - vm_compute. congruence.
  - destruct (Hrecv [0%nat; 1%nat] (pull_stack pull_response) 0%nat (pull_buffer pull_response) pull_copy []) as (sr' & tr' & H2 & _ & _ & Hv).
    + exact He'.
    + exact Hk'.
    + vm_compute. reflexivity.
    + rewrite Hpay. vm_compute. reflexivity.
    + apply Forall_singleton. apply pull_entry_ok.
    + exact pull_entries_apart.
    + apply pull_state_ok.
    + exact pull_copy_vmems.
    + exists s', sr', tr'. split; [exact H1|]. split; [exact H2|].
      apply (Hv (mk_entry 0 (push_scalar 5) c_uint16 7 [0x1234] 0 (push_scalar 5)) 0%nat); [left|reflexivity].
Defined.
