(* ===== verification/Objstore.v ===== *)
(** * The object store

    [lib/param/src/objstore/objstore.c]: objects with a type, a length and a check sum in
    the memory of a [vmem], found by the synchronisation word they begin with.  The store
    is written against the [read] and [write] pointers and the size of a [vmem]; the laws
    of these operations are the class [VmemLaws], which the drivers of [ParamState] satisfy.
    Messages printed when the argument [verbose] is set are left out. *)

From S2P Require Import ParamState Prelude.

(** ** The memory below *)

(** The members of a [vmem_t] the store uses. *)
Class VmemOps (S : Type) := {
  vm_size : Z;
  vm_read : Z → Z → ST S (list Z);
  vm_write : Z → list Z → ST S ();
}.

(** The promise: [vm_mem] is the memory, reads and writes are those of the memory, and a
    write keeps the rest of the state in the sense of [vm_kept]. *)
Class VmemLaws (S : Type) `{VmemOps S} := {
  vm_mem : S → option (list Z);
  vm_kept : S → S → Prop;
  vm_kept_pre :: PreOrder vm_kept;
  vm_mem_size s m : vm_mem s = Some m → Z.of_nat (length m) = vm_size;
  vm_read_ok s m a n bs : vm_mem s = Some m → mem_read m a n = Some bs → vm_read a n s = Some (bs, s);
  vm_write_ok s m a bs m' : vm_mem s = Some m → mem_write m a bs = Some m' →
    ∃ s', vm_write a bs s = Some ((), s') ∧ vm_mem s' = Some m' ∧ vm_kept s s';
}.

Definition OBJ_TYPE_SCHEDULE : Z := 1.
Definition OBJ_TYPE_COMMAND : Z := 2.
Definition OBJ_TYPE_SCHEDULER_META : Z := 3.
Definition OBJ_TYPE_COMMANDS_META : Z := 4.

Definition OBJ_HEADER_LENGTH : Z := 7.
Definition OBJ_CHKSUM_LENGTH : Z := 1.

Definition sync_word : list Z := [0xCA; 0x70; 0xCA; 0xFE].

(** ** The operations *)

Section Objstore.
Context {S : Type} `{VmemOps S}.

(** [vmem->read(vmem, a, &data, 1)] *)
Definition read_byte (a : Z) : ST S Z := bs ← vm_read (u32 a) 1; mret (le_val bs).
Definition read_u16 (a : Z) : ST S Z := bs ← vm_read (u32 a) 2; mret (le_val bs).

Fixpoint checksum_loop (n : nat) (a checksum : Z) : ST S Z :=
  match n with
  | O => mret checksum
  | Datatypes.S n' => buf ← read_byte a; checksum_loop n' (a + 1) (Z.lxor checksum buf)
  end.

Definition _make_checksum (offset length : Z) : ST S Z :=
  if bool_decide (length < 0) then mret 0 else
  checksum ← read_byte (offset + OBJ_HEADER_LENGTH);
  checksum_loop (Z.to_nat (length - 1)) (offset + OBJ_HEADER_LENGTH + 1) checksum.

Definition _valid_checksum (offset length checksum : Z) : ST S bool :=
  temp_checksum ← _make_checksum offset length;
  mret (bool_decide (checksum = temp_checksum)).

(** The bytes from [a] on are the given part of the synchronisation word. *)
Fixpoint sync_from (ws : list Z) (a : Z) : ST S bool :=
  match ws with
  | [] => mret true
  | w :: ws' => data ← read_byte a; if bool_decide (data = w) then sync_from ws' (a + 1) else mret false
  end.

Definition _valid_obj_check (offset : Z) : ST S bool := sync_from sync_word offset.

Definition _valid_obj_data_check (offset length : Z) : ST S bool :=
  checksum ← read_byte (offset + OBJ_HEADER_LENGTH + length);
  _valid_checksum offset length checksum.

Definition objstore_read_obj_length (offset : Z) : ST S Z :=
  if bool_decide (offset < 0) then mret (-1) else
  ok ← _valid_obj_check offset;
  if negb ok then mret (-1) else read_u16 (offset + 5).

Definition objstore_read_obj_type (offset : Z) : ST S Z :=
  ok ← _valid_obj_check offset;
  if negb ok then mret (-1) else read_byte (offset + 4).

(** The loop of [objstore_alloc]; [int i] must not overflow. *)
Fixpoint alloc_loop (fuel : nat) (length i counter : Z) : ST S Z :=
  match fuel with
  | O => ub
  | Datatypes.S fuel' =>
      if bool_decide (2 ^ 31 ≤ i) then ub else
      if bool_decide (i < vm_size) then
        data ← read_byte i;
        if bool_decide (data = 0xCA) then
          ok ← sync_from (tail sync_word) (i + 1);
          if (ok : bool) then
            len ← objstore_read_obj_length i;
            if bool_decide (len < 0) then alloc_loop fuel' length (i + OBJ_HEADER_LENGTH + 1) 0
            else alloc_loop fuel' length (i + (len + OBJ_HEADER_LENGTH) + 1) 0
          else alloc_loop fuel' length (i + 1) (counter + 1)
        else if bool_decide (counter + 1 = length + OBJ_HEADER_LENGTH + 1)
        then mret (i - (length + OBJ_HEADER_LENGTH))
        else alloc_loop fuel' length (i + 1) (counter + 1)
      else mret (-1)
  end.

Definition objstore_alloc (length : Z) : ST S Z :=
  alloc_loop (Datatypes.S (Z.to_nat vm_size)) length 0 0.

Section Scan.
Context {X : Type} (callback : Z → X → ST S (Z * X)).

(** The loop of [objstore_scan]; the callback works on the context [x]. *)
Fixpoint scan_loop (fuel : nat) (i : Z) (x : X) : ST S (Z * X) :=
  match fuel with
  | O => ub
  | Datatypes.S fuel' =>
      if bool_decide (2 ^ 31 ≤ i) then ub else
      if bool_decide (i < vm_size) then
        data ← read_byte i;
        if bool_decide (data = 0xCA) then
          ok ← sync_from (tail sync_word) (i + 1);
          if (ok : bool) then
            '(rc, x) ← callback i x;
            if bool_decide (rc < 0) then mret (i, x) else
            length ← read_u16 (i + 5);
            scan_loop fuel' (i + (length + OBJ_HEADER_LENGTH - 1) + 1) x
          else scan_loop fuel' (i + 1) x
        else scan_loop fuel' (i + 1) x
      else mret (-1, x)
  end.

Definition objstore_scan (ctx : X) : ST S (Z * X) :=
  scan_loop (Datatypes.S (Z.to_nat vm_size)) 0 ctx.
End Scan.

(** [vmem->write(vmem, a, &clear_block, 1)] at each of the addresses. *)
Fixpoint clear_at (l : list Z) : ST S () :=
  match l with
  | [] => mret ()
  | a :: l' => vm_write (u32 a) [0xFF];; clear_at l'
  end.

(** The addresses [objstore_rm_obj] clears: check sum, data from the end, header from the
    end, synchronisation word. *)
Definition rm_addresses (offset length : Z) : list Z :=
  (offset + length + OBJ_HEADER_LENGTH) ::
  map (λ i, offset + Z.of_nat i + OBJ_HEADER_LENGTH - 1) (rev (seq 1 (Z.to_nat length))) ++
  [offset + 6; offset + 5; offset + 4] ++ map (λ i, offset + Z.of_nat i) (seq 0 4).

Definition objstore_rm_obj (offset : Z) : ST S Z :=
  ok ← _valid_obj_check offset;
  if negb ok then mret (-1) else
  length ← read_u16 (offset + 5);
  clear_at (rm_addresses offset length);;
  mret 0.

(** Also returns what is copied to [data_buf], which must be large enough. *)
Definition objstore_read_obj (offset : Z) : ST S (Z * option (list Z)) :=
  ok ← _valid_obj_check offset;
  if negb ok then mret (-1, None) else
  length ← read_u16 (offset + 5);
  data ← vm_read (u32 (offset + OBJ_HEADER_LENGTH)) length;
  ok ← _valid_obj_data_check offset length;
  if negb ok then mret (-2, Some data) else mret (0, Some data).

(** [data] is the memory from the pointer on. *)
Definition objstore_write_obj (offset type length : Z) (data : list Z) : ST S () :=
  vm_write (u32 offset) sync_word;;
  vm_write (u32 (offset + 4)) [u8 type];;
  vm_write (u32 (offset + 5)) (le_bytes 2 length);;
  bs ← lift_opt (mem_read data 0 length);
  vm_write (u32 (offset + OBJ_HEADER_LENGTH)) bs;;
  checksum ← _make_checksum offset length;
  vm_write (u32 (offset + OBJ_HEADER_LENGTH + length)) [checksum].

Definition objstore_write_data (obj_offset data_offset : Z) (data : list Z) : ST S () :=
  ok ← _valid_obj_check obj_offset;
  if negb ok then mret () else
  vm_write (u32 (obj_offset + data_offset)) data;;
  obj_length ← read_u16 (obj_offset + 5);
  checksum ← _make_checksum obj_offset obj_length;
  vm_write (u32 (obj_offset + OBJ_HEADER_LENGTH + obj_length)) [checksum].
End Objstore.

(** ** The contents of a store

    A store is a sequence of unused bytes and objects. *)

Record obj := mk_obj { o_type : Z; o_data : list Z; o_check : Z }.
Inductive seg := Gap (b : Z) | Obj (o : obj).

Definition xor_sum (d : list Z) : Z := foldl Z.lxor 0 d.

Definition encode_obj (o : obj) : list Z :=
  sync_word ++ [o_type o] ++ le_bytes 2 (Z.of_nat (length (o_data o))) ++ o_data o ++ [o_check o].
Definition encode_seg (g : seg) : list Z := match g with Gap b => [b] | Obj o => encode_obj o end.
Definition store_bytes (l : list seg) : list Z := concat (map encode_seg l).

(** Unused bytes are not part of a synchronisation word (memory is erased to 0xFF). *)
Record obj_ok (o : obj) : Prop := {
  ob_type : is_u8 (o_type o);
  ob_data : bytes_ok (o_data o);
  ob_length : 0 < Z.of_nat (length (o_data o)) < 65536;
  ob_check : is_u8 (o_check o);
}.
Definition seg_ok (g : seg) : Prop :=
  match g with Gap b => is_u8 b ∧ b ≠ 0xCA ∧ b ≠ 0x70 | Obj o => obj_ok o end.

(** A check sum in the last byte must not begin a synchronisation word, which would be
    looked for behind the end of the memory. *)
Definition ends_ok (l : list seg) : Prop :=
  match last l with Some (Obj o) => o_check o ≠ 0xCA | _ => True end.

Record layout_ok (l : list seg) : Prop := {
  la_segs : Forall seg_ok l;
  la_ends : ends_ok l;
  la_size : Z.of_nat (length (store_bytes l)) < 2 ^ 31 - 65543;
}.

(** The objects with their offsets. *)
Fixpoint objects (off : Z) (l : list seg) : list (Z * obj) :=
  match l with
  | [] => []
  | Gap _ :: l' => objects (off + 1) l'
  | Obj o :: l' => (off, o) :: objects (off + Z.of_nat (length (o_data o)) + 8) l'
  end.

(** What a scan finds: the first object for which the function returns a negative number. *)
Fixpoint scan_spec {X} (f : Z → obj → X → Z * X) (l : list (Z * obj)) (x : X) : Z * X :=
  match l with
  | [] => (-1, x)
  | (off, o) :: l' =>
      let '(rc, x') := f off o x in
      if bool_decide (rc < 0) then (off, x') else scan_spec f l' x'
  end.

(** The first of [n] unused bytes in a row, [counter] of which lie before [off]. *)
Fixpoint first_room (n off counter : Z) (l : list seg) : Z :=
  match l with
  | [] => -1
  | Gap _ :: l' => if bool_decide (counter + 1 = n) then off - counter else first_room n (off + 1) (counter + 1) l'
  | Obj o :: l' => first_room n (off + Z.of_nat (length (o_data o)) + 8) 0 l'
  end.

(** ** Reading and writing the memory *)

Section Memory.
Context {S : Type} `{VmemLaws S}.
Implicit Types (s : S) (a b c m : list Z) (l pre post : list seg) (o : obj).

(** The memory is [a], [b], [c] and short enough for [int]. *)
Definition holds s m : Prop := vm_mem s = Some m ∧ Z.of_nat (length m) < 2 ^ 31 - 65543.

Lemma holds_read s a b c i n :
  holds s (a ++ b ++ c) → i = Z.of_nat (length a) → n = Z.of_nat (length b) → vm_read (u32 i) n s = Some (b, s).
Proof.
  intros [Hm Hs] -> ->. rewrite !length_app in Hs. rewrite u32_id by (unfold is_u32; lia).
  apply (vm_read_ok s _ _ _ _ Hm), mem_read_mid.
Qed.

Lemma holds_byte s a x c i : holds s (a ++ x :: c) → i = Z.of_nat (length a) → read_byte i s = Some (x, s).
Proof. intros Hm Hi. unfold read_byte. run (holds_read s a [x] c i 1 Hm Hi eq_refl). done. Qed.

Lemma holds_write s a b b' c i :
  holds s (a ++ b ++ c) → i = Z.of_nat (length a) → length b' = length b →
  ∃ s', vm_write (u32 i) b' s = Some ((), s') ∧ holds s' (a ++ b' ++ c) ∧ vm_kept s s'.
Proof.
  intros [Hm Hs] -> Hl. rewrite !length_app in Hs. rewrite u32_id by (unfold is_u32; lia).
  destruct (vm_write_ok s _ _ b' _ Hm (mem_write_mid a b b' c Hl)) as (s' & Hw & Hm' & Hk).
  exists s'. split; [done|]. split; [|done]. split; [done|]. rewrite !length_app. lia.
Qed.

Lemma holds_sync s : ∀ (ws : list Z) a c i, holds s (a ++ ws ++ c) → i = Z.of_nat (length a) → sync_from ws i s = Some (true, s).
Proof.
  induction ws as [|w ws IH]; intros a c i Hm Hi; [done|]. cbn [sync_from].
  run (holds_byte s a w (ws ++ c) i Hm Hi). rewrite bool_decide_true by done.
  apply (IH (a ++ [w]) c); [by rewrite <- app_assoc|]. rewrite length_app. simpl. lia.
Qed.

(** The next byte is not the second of the synchronisation word. *)
Lemma holds_nosync s a x c i :
  holds s (a ++ x :: c) → i = Z.of_nat (length a) → x ≠ 0x70 → sync_from (tail sync_word) i s = Some (false, s).
Proof.
  intros Hm Hi Hx. cbn [tail sync_word sync_from]. run (holds_byte s a x c i Hm Hi). by rewrite bool_decide_false.
Qed.

Lemma foldl_lxor (y : Z) (d : list Z) : foldl Z.lxor y d = Z.lxor y (xor_sum d).
Proof.
  unfold xor_sum. revert y. induction d as [|x d IH]; intros y; [by rewrite Z.lxor_0_r|].
  cbn [foldl]. rewrite IH, (IH (Z.lxor 0 x)), Z.lxor_0_l, Z.lxor_assoc. done.
Qed.

Lemma holds_checksum_loop s : ∀ d a c i x,
  holds s (a ++ d ++ c) → i = Z.of_nat (length a) →
  checksum_loop (length d) i x s = Some (foldl Z.lxor x d, s).
Proof.
  induction d as [|y d IH]; intros a c i x Hm Hi; [done|]. cbn [checksum_loop length foldl].
  run (holds_byte s a y (d ++ c) i Hm Hi). apply (IH (a ++ [y]) c); [by rewrite <- app_assoc|].
  rewrite length_app. simpl. lia.
Qed.

Lemma holds_checksum s a d c off :
  holds s (a ++ d ++ c) → off + 7 = Z.of_nat (length a) → (0 < length d)%nat →
  _make_checksum off (Z.of_nat (length d)) s = Some (xor_sum d, s).
Proof.
  intros Hm Hoff Hd. unfold _make_checksum. rewrite bool_decide_false by lia. destruct d as [|x d]; [simpl in Hd; lia|].
  unfold OBJ_HEADER_LENGTH. run (holds_byte s a x (d ++ c) (off + 7) Hm Hoff).
  replace (Z.to_nat (Z.of_nat (length (x :: d)) - 1)) with (length d) by (simpl; lia).
  rewrite (holds_checksum_loop s d (a ++ [x]) c); [|by rewrite <- app_assoc|rewrite length_app; simpl; lia]. done.
Qed.
End Memory.

(** ** Objects *)

Section Objects.
Context {S : Type} `{VmemLaws S}.
Implicit Types (s : S) (a c : list Z) (l pre post : list seg) (o : obj).

Lemma encode_app l1 l2 : store_bytes (l1 ++ l2) = store_bytes l1 ++ store_bytes l2.
Proof. unfold store_bytes. by rewrite map_app, concat_app. Qed.

Lemma encode_cons g l : store_bytes (g :: l) = encode_seg g ++ store_bytes l.
Proof. done. Qed.

Lemma length_encode_obj o : length (encode_obj o) = (length (o_data o) + 8)%nat.
Proof. unfold encode_obj. rewrite !length_app, length_le_bytes. simpl. lia. Qed.

Lemma objects_app off l1 l2 :
  objects off (l1 ++ l2) = objects off l1 ++ objects (off + Z.of_nat (length (store_bytes l1))) l2.
Proof.
  revert off. induction l1 as [|[b|o] l1 IH]; intros off; cbn [objects app].
  - f_equal. simpl. lia.
  - rewrite IH, encode_cons, length_app. do 2 f_equal. simpl. lia.
  - rewrite IH, encode_cons, length_app. do 3 f_equal. cbn [encode_seg]. rewrite length_encode_obj. lia.
Qed.

(** Every object listed lies where it is said to. *)
Lemma objects_split off l x o :
  (x, o) ∈ objects off l → ∃ pre post, l = pre ++ Obj o :: post ∧ x = off + Z.of_nat (length (store_bytes pre)).
Proof.
  revert off. induction l as [|[b|o'] l IH]; intros off Hx; simpl in Hx.
  - by apply elem_of_nil in Hx.
  - destruct (IH _ Hx) as (pre & post & -> & ->). exists (Gap b :: pre), post. split; [done|].
    rewrite encode_cons, length_app. simpl. lia.
  - apply elem_of_cons in Hx as [[= -> ->]|Hx]; [exists [], l; split; [done|simpl; lia]|].
    destruct (IH _ Hx) as (pre & post & -> & ->). exists (Obj o' :: pre), post. split; [done|].
    rewrite encode_cons, length_app. cbn [encode_seg]. rewrite length_encode_obj. lia.
Qed.

Lemma objects_elem pre o post :
  (Z.of_nat (length (store_bytes pre)), o) ∈ objects 0 (pre ++ Obj o :: post).
Proof. rewrite objects_app. apply elem_of_app. right. apply list_elem_of_here. Qed.

(** The parts of an object in memory. *)
Section At.
Context (s : S) (a c : list Z) (o : obj) (off : Z).
Context (Hm : holds s (a ++ encode_obj o ++ c)) (Hoff : off = Z.of_nat (length a)) (Ho : obj_ok o).

Lemma obj_valid : _valid_obj_check off s = Some (true, s).
Proof.
  unfold _valid_obj_check. eapply holds_sync; [|exact Hoff].
  unfold encode_obj in Hm. rewrite <- app_assoc in Hm. exact Hm.
Qed.

Lemma obj_type_at : objstore_read_obj_type off s = Some (o_type o, s).
Proof.
  unfold objstore_read_obj_type. run obj_valid. cbn [negb]. unfold encode_obj in Hm.
  rewrite <- !app_assoc, (app_assoc a) in Hm. eapply holds_byte; [exact Hm|]. rewrite length_app. simpl. lia.
Qed.

Lemma obj_u16_at : read_u16 (off + 5) s = Some (Z.of_nat (length (o_data o)), s).
Proof.
  unfold encode_obj in Hm. rewrite <- !app_assoc, (app_assoc a), (app_assoc (a ++ _)) in Hm.
  unfold read_u16. run (holds_read s _ (le_bytes 2 (Z.of_nat (length (o_data o)))) _ (off + 5) 2 Hm
    ltac:(rewrite !length_app; simpl; lia) ltac:(by rewrite length_le_bytes)).
  rewrite le_val_le_bytes. unfold mret, ST_ret. do 2 f_equal. apply Z.mod_small.
  pose proof (ob_length _ Ho). split; [lia|]. change (256 ^ Z.of_nat 2) with 65536. lia.
Qed.

Lemma obj_length_at : objstore_read_obj_length off s = Some (Z.of_nat (length (o_data o)), s).
Proof.
  unfold objstore_read_obj_length. rewrite bool_decide_false by lia. run obj_valid. cbn [negb]. exact obj_u16_at.
Qed.

(** The memory with the data apart. *)
Lemma obj_data_split :
  ∃ a' c', a ++ encode_obj o ++ c = a' ++ o_data o ++ o_check o :: c ∧ off + 7 = Z.of_nat (length a') ∧
    c' = o_check o :: c.
Proof.
  eexists (a ++ sync_word ++ [o_type o] ++ le_bytes 2 (Z.of_nat (length (o_data o)))), _. split; [|split; [|done]].
  - unfold encode_obj. by rewrite <- !app_assoc.
  - rewrite !length_app, length_le_bytes. simpl. lia.
Qed.

Lemma obj_read_at :
  objstore_read_obj off s = Some ((if bool_decide (o_check o = xor_sum (o_data o)) then 0 else -2, Some (o_data o)), s).
Proof.
  unfold objstore_read_obj. run obj_valid. cbn [negb]. run obj_u16_at.
  destruct obj_data_split as (a' & c' & Heq & Hlen & ->). rewrite Heq in Hm. unfold OBJ_HEADER_LENGTH.
  run (holds_read s a' (o_data o) _ (off + 7) _ Hm Hlen eq_refl).
  assert (Hck : read_byte (off + 7 + Z.of_nat (length (o_data o))) s = Some (o_check o, s)).
  { rewrite app_assoc in Hm. eapply holds_byte; [exact Hm|]. rewrite length_app. lia. }
  pose proof (holds_checksum s a' (o_data o) _ off Hm Hlen ltac:(pose proof (ob_length _ Ho); lia)) as Hsum.
  assert (Hv : _valid_obj_data_check off (Z.of_nat (length (o_data o))) s =
    Some (bool_decide (o_check o = xor_sum (o_data o)), s)).
  { unfold _valid_obj_data_check, OBJ_HEADER_LENGTH. run Hck. unfold _valid_checksum. run Hsum. done. }
  run Hv. by case_bool_decide.
Qed.
End At.
End Objects.

(** ** Writing and removing objects *)

Section Writing.
Context {S : Type} `{VmemLaws S}.
Implicit Types (s : S) (a b c d m : list Z) (o : obj).

Lemma split_at b (n : nat) : (n ≤ length b)%nat → ∃ b1 b2, b = b1 ++ b2 ∧ length b1 = n.
Proof. intros Hn. exists (take n b), (drop n b). by rewrite take_drop, length_take_le. Qed.

Lemma write_obj_at s a b c off ty d data :
  holds s (a ++ b ++ c) → off = Z.of_nat (length a) → length b = (length d + 8)%nat →
  0 < Z.of_nat (length d) < 65536 → mem_read data 0 (Z.of_nat (length d)) = Some d →
  ∃ s', objstore_write_obj off ty (Z.of_nat (length d)) data s = Some ((), s') ∧
    holds s' (a ++ encode_obj (mk_obj (u8 ty) d (xor_sum d)) ++ c) ∧ vm_kept s s'.
Proof.
  intros Hm Hoff Hb Hd Hdata.
  destruct (split_at b 4 ltac:(lia)) as (b1 & r1 & -> & L1). rewrite length_app in Hb.
  destruct (split_at r1 1 ltac:(lia)) as (b2 & r2 & -> & L2). rewrite length_app in Hb.
  destruct (split_at r2 2 ltac:(lia)) as (b3 & r3 & -> & L3). rewrite length_app in Hb.
  destruct (split_at r3 (length d) ltac:(lia)) as (b4 & b5 & -> & L4). rewrite length_app in Hb.
  rewrite <- !app_assoc in Hm. unfold objstore_write_obj, OBJ_HEADER_LENGTH.
  destruct (holds_write s a b1 sync_word _ off Hm Hoff ltac:(by rewrite L1)) as (s1 & R1 & M1 & K1). run R1.
  rewrite app_assoc in M1.
  destruct (holds_write s1 _ b2 [u8 ty] _ (off + 4) M1 ltac:(rewrite length_app; simpl; lia) ltac:(by rewrite L2))
    as (s2 & R2 & M2 & K2). run R2. rewrite app_assoc in M2.
  destruct (holds_write s2 _ b3 (le_bytes 2 (Z.of_nat (length d))) _ (off + 5) M2
    ltac:(rewrite !length_app; simpl; lia) ltac:(by rewrite L3, length_le_bytes)) as (s3 & R3 & M3 & K3). run R3.
  run (lift_opt_run_gen _ _ s3 Hdata). rewrite app_assoc in M3.
  destruct (holds_write s3 _ b4 d _ (off + 7) M3 ltac:(rewrite !length_app, length_le_bytes; simpl; lia) ltac:(by rewrite L4))
    as (s4 & R4 & M4 & K4). run R4.
  run (holds_checksum s4 _ d _ off M4 ltac:(rewrite !length_app, length_le_bytes; simpl; lia) ltac:(lia)).
  rewrite app_assoc in M4.
  destruct (holds_write s4 _ b5 [xor_sum d] _ (off + 7 + Z.of_nat (length d)) M4
    ltac:(rewrite !length_app, length_le_bytes; simpl; lia) ltac:(simpl; lia)) as (s5 & R5 & M5 & K5).
  exists s5. split; [done|]. split; [|by repeat (etrans; [eassumption|])].
  unfold encode_obj. cbn [o_type o_data o_check]. rewrite <- !app_assoc in M5 |- *. exact M5.
Qed.

(** The data of an object after [bs] was written at its byte [k]. *)
Definition patch d (k : nat) (bs : list Z) : list Z := take k d ++ bs ++ drop (k + length bs) d.

Lemma length_patch d k bs : (k + length bs ≤ length d)%nat → length (patch d k bs) = length d.
Proof. intros Hk. unfold patch. rewrite !length_app, length_take, length_drop. lia. Qed.

Lemma write_data_at s a c o off (k : nat) bs :
  holds s (a ++ encode_obj o ++ c) → off = Z.of_nat (length a) → obj_ok o → (k + length bs ≤ length (o_data o))%nat →
  let d' := patch (o_data o) k bs in
  ∃ s', objstore_write_data off (OBJ_HEADER_LENGTH + Z.of_nat k) bs s = Some ((), s') ∧
    holds s' (a ++ encode_obj (mk_obj (o_type o) d' (xor_sum d')) ++ c) ∧ vm_kept s s'.
Proof.
  intros Hm Hoff Ho Hk d'. pose proof (length_patch (o_data o) k bs Hk) as Hl. fold d' in Hl.
  unfold objstore_write_data, OBJ_HEADER_LENGTH. run (obj_valid s a c o off Hm Hoff). cbn [negb].
  set (h := sync_word ++ [o_type o] ++ le_bytes 2 (Z.of_nat (length (o_data o)))).
  assert (Hh : length h = 7%nat) by (unfold h; rewrite !length_app, length_le_bytes; done).
  assert (Hdec : ∀ d ck, length d = length (o_data o) → a ++ encode_obj (mk_obj (o_type o) d ck) ++ c = (a ++ h) ++ d ++ ck :: c).
  { intros d ck Hd. unfold encode_obj, h. cbn [o_type o_data o_check]. rewrite Hd. by rewrite <- !app_assoc. }
  assert (Heq : a ++ encode_obj o ++ c =
    (a ++ h ++ take k (o_data o)) ++ take (length bs) (drop k (o_data o)) ++ drop (k + length bs) (o_data o) ++ o_check o :: c).
  { clearbody h. destruct o as [ty d ck]. cbn [o_type o_data o_check] in *. rewrite (Hdec d ck eq_refl).
    rewrite <- (take_drop k d) at 1. rewrite <- (take_drop (length bs) (drop k d)) at 1. rewrite drop_drop, <- !app_assoc. done. }
  rewrite Heq in Hm.
  destruct (holds_write s _ _ bs _ (off + (7 + Z.of_nat k)) Hm ltac:(rewrite !length_app, Hh, length_take; lia)
    ltac:(rewrite length_take, length_drop; lia)) as (s1 & R1 & M1 & K1). run R1.
  assert (M1' : holds s1 (a ++ encode_obj (mk_obj (o_type o) d' (o_check o)) ++ c)).
  { rewrite (Hdec d' (o_check o) Hl). unfold d', patch. rewrite <- !app_assoc in M1. rewrite <- !app_assoc. exact M1. }
  assert (Hd0 : (0 < length d')%nat) by (pose proof (ob_length _ Ho); lia).
  assert (Hu : read_u16 (off + 5) s1 = Some (Z.of_nat (length d'), s1)).
  { clear - M1' Hoff Hl Ho H0. unfold encode_obj in M1'. cbn [o_type o_data o_check] in M1'.
    rewrite <- !app_assoc, (app_assoc a), (app_assoc (a ++ _)) in M1'. unfold read_u16.
    run (holds_read s1 _ (le_bytes 2 (Z.of_nat (length d'))) _ (off + 5) 2 M1'
      ltac:(rewrite !length_app; simpl; lia) ltac:(by rewrite length_le_bytes)).
    rewrite le_val_le_bytes. unfold mret, ST_ret. do 2 f_equal. apply Z.mod_small.
    pose proof (ob_length _ Ho). change (256 ^ Z.of_nat 2) with 65536. lia. }
  run Hu. rewrite (Hdec d' _ Hl) in M1'.
  run (holds_checksum s1 _ d' _ off M1' ltac:(rewrite length_app; lia) Hd0). rewrite app_assoc in M1'.
  destruct (holds_write s1 _ [o_check o] [xor_sum d'] c (off + 7 + Z.of_nat (length d')) M1'
    ltac:(rewrite !length_app; lia) eq_refl) as (s2 & R2 & M2 & K2).
  exists s2. split; [done|]. split; [|by etrans]. rewrite (Hdec d' _ Hl). rewrite <- !app_assoc in M2. by rewrite <- !app_assoc.
Qed.

(** Clearing single bytes. *)
Lemma clear_at_run s m (l : list Z) :
  holds s m → Forall (λ x : Z, 0 ≤ x < Z.of_nat (length m)) l →
  ∃ s' m', clear_at l s = Some ((), s') ∧ holds s' m' ∧ vm_kept s s' ∧ length m' = length m ∧
    ∀ i : nat, (i < length m)%nat → m' !! i = if bool_decide (Z.of_nat i ∈ l) then Some 0xFF else m !! i.
Proof.
  revert s m. induction l as [|a l IH]; intros s m Hm Hl.
  { exists s, m. split; [done|]. split; [done|]. split; [done|]. split; [done|]. intros i _.
    by rewrite bool_decide_false by apply not_elem_of_nil. }
  apply Forall_cons in Hl as [Ha Hl]. destruct Hm as [Hm Hs].
  destruct (mem_write_is_Some m a [0xFF]) as (m1 & Hw & L1); [lia|simpl; lia|].
  destruct (vm_write_ok s m a [0xFF] m1 Hm Hw) as (s1 & R1 & M1 & K1).
  destruct (IH s1 m1) as (s' & m' & R & M & K & L & Hi); [split; [done|by rewrite L1]|by rewrite L1|].
  exists s', m'. cbn [clear_at]. rewrite u32_id by (unfold is_u32; lia). split; [by run R1|]. split; [done|].
  split; [by etrans|]. split; [by rewrite L|]. intros i Hlt. rewrite Hi by lia. rewrite (mem_write_lookup _ _ _ _ i Hw).
  simpl length. destruct (decide (Z.of_nat i ∈ l)) as [He|He].
  - rewrite !bool_decide_true; [done|apply elem_of_cons; by right|done].
  - rewrite (bool_decide_false (_ ∈ l)) by done. destruct (decide (Z.of_nat i = a)) as [Hia|Hia].
    + rewrite (bool_decide_true (_ ∈ _)) by (apply elem_of_cons; by left). rewrite bool_decide_true by lia.
      replace (i - Z.to_nat a)%nat with 0%nat by lia. done.
    + rewrite (bool_decide_false (_ ∈ _)) by (intros [?|?]%elem_of_cons; done). by rewrite bool_decide_false by lia.
Qed.

Lemma rm_addresses_spec off (n : nat) x :
  x ∈ rm_addresses off (Z.of_nat n) ↔ off ≤ x < off + Z.of_nat n + 8.
Proof.
  unfold rm_addresses, OBJ_HEADER_LENGTH. rewrite elem_of_cons, !elem_of_app, !list_elem_of_fmap.
  assert (Hmid : (∃ y, x = off + Z.of_nat y + 7 - 1 ∧ y ∈ rev (seq 1 (Z.to_nat (Z.of_nat n)))) ↔ off + 7 ≤ x < off + Z.of_nat n + 7).
  { split.
    - intros (y & -> & Hy). apply list_elem_of_In, in_rev, in_seq in Hy. lia.
    - intros Hx. exists (Z.to_nat (x - off - 6)). split; [lia|]. apply list_elem_of_In. rewrite <- in_rev. apply in_seq. lia. }
  rewrite Hmid. assert (Hend : (∃ y, x = off + Z.of_nat y ∧ y ∈ seq 0 4) ↔ off ≤ x < off + 4).
  { split.
    - intros (y & -> & Hy%elem_of_seq). lia.
    - intros Hx. exists (Z.to_nat (x - off)). split; [lia|]. apply elem_of_seq. lia. }
  rewrite Hend, !elem_of_cons, elem_of_nil. lia.
Qed.

Lemma rm_obj_at s a c o off :
  holds s (a ++ encode_obj o ++ c) → off = Z.of_nat (length a) → obj_ok o →
  ∃ s', objstore_rm_obj off s = Some (0, s') ∧
    holds s' (a ++ replicate (length (o_data o) + 8) 0xFF ++ c) ∧ vm_kept s s'.
Proof.
  intros Hm Hoff Ho. unfold objstore_rm_obj. run (obj_valid s a c o off Hm Hoff). cbn [negb].
  run (obj_u16_at s a c o off Hm Hoff Ho).
  destruct (clear_at_run s _ (rm_addresses off (Z.of_nat (length (o_data o)))) Hm) as (s' & m' & R & M & K & L & Hi).
  { apply Forall_forall. intros x Hx%rm_addresses_spec. rewrite !length_app, length_encode_obj. lia. }
  run R. exists s'. split; [done|]. split; [|done].
  replace (a ++ replicate (length (o_data o) + 8) 255 ++ c) with m'; [done|].
  pose proof (length_encode_obj o) as He. rewrite !length_app, He in L.
  apply list_eq_same_length with (length m'); [rewrite !length_app, length_replicate; lia|done|].
  intros i x y Hlt Hx Hy. specialize (Hi i). rewrite !length_app, He, Hx in Hi. specialize (Hi ltac:(lia)).
  destruct (decide (i < length a)%nat) as [H1|H1].
  { rewrite lookup_app_l in Hy, Hi by lia. rewrite bool_decide_false in Hi by (rewrite rm_addresses_spec; lia). congruence. }
  rewrite lookup_app_r in Hy by lia. destruct (decide (i < length a + (length (o_data o) + 8))%nat) as [H2|H2].
  - rewrite bool_decide_true in Hi by (rewrite rm_addresses_spec; lia). rewrite lookup_app_l in Hy by (rewrite length_replicate; lia).
    apply lookup_replicate in Hy as [-> _]. congruence.
  - rewrite bool_decide_false in Hi by (rewrite rm_addresses_spec; lia). rewrite lookup_app_r in Hy by (rewrite length_replicate; lia).
    rewrite lookup_app_r, lookup_app_r in Hi by lia. rewrite length_replicate in Hy. rewrite He in Hi. congruence.
Qed.
End Writing.

(** ** Scanning and allocating *)

Section Scanning.
Context {S : Type} `{VmemLaws S}.
Implicit Types (s : S) (a c : list Z) (l pre post : list seg) (o : obj).

Lemma encode_head l : Forall seg_ok l → l ≠ [] → ∃ x c, store_bytes l = x :: c ∧ x ≠ 0x70.
Proof.
  destruct l as [|[b|o] l]; [done|..]; intros Hl _; apply Forall_cons in Hl as [Hg _].
  - exists b, (store_bytes l). split; [done|]. apply Hg.
  - eexists _, _. split; [done|]. done.
Qed.

Lemma ends_ok_cons g l : l ≠ [] → ends_ok (g :: l) → ends_ok l.
Proof. unfold ends_ok. by destruct l. Qed.

Lemma holds_size s m : holds s m → vm_size = Z.of_nat (length m).
Proof. intros [Hm _]. symmetry. by apply (vm_mem_size s). Qed.

(** The callback, on the objects of [l], is the function [f] of the object. *)
Definition reads_as {X} (callback : Z → X → ST S (Z * X)) (f : Z → obj → X → Z * X) (objs : list (Z * obj)) s : Prop :=
  ∀ off o x, (off, o) ∈ objs → callback off x s = Some (f off o x, s).

Section Callback.
Context {X : Type} (callback : Z → X → ST S (Z * X)) (f : Z → obj → X → Z * X).

Lemma scan_skip s a x c fuel i y :
  holds s (a ++ x :: c) → i = Z.of_nat (length a) → x ≠ 0xCA ∨ (∃ x' c', c = x' :: c' ∧ x' ≠ 0x70) →
  scan_loop callback (Datatypes.S fuel) i y s = scan_loop callback fuel (i + 1) y s.
Proof.
  intros Hm Hi Hx. pose proof (holds_size _ _ Hm) as Hs. pose proof (proj2 Hm) as Hb.
  rewrite length_app in Hs, Hb. simpl in Hs, Hb. cbn [scan_loop].
  rewrite (bool_decide_false (2 ^ 31 ≤ i)), (bool_decide_true (i < vm_size)) by lia. run (holds_byte s a x c i Hm Hi).
  case_bool_decide as Hc; [|done]. destruct Hx as [?|(x' & c' & -> & Hx')]; [done|].
  rewrite (cons_middle x a), app_assoc in Hm. run (holds_nosync s _ x' c' (i + 1) Hm ltac:(rewrite length_app; simpl; lia) Hx').
  done.
Qed.

Lemma scan_loop_run s : ∀ post pre fuel y,
  holds s (store_bytes (pre ++ post)) → Forall seg_ok post → ends_ok post → (length (store_bytes post) < fuel)%nat →
  reads_as callback f (objects (Z.of_nat (length (store_bytes pre))) post) s →
  scan_loop callback fuel (Z.of_nat (length (store_bytes pre))) y s =
    Some (scan_spec f (objects (Z.of_nat (length (store_bytes pre))) post) y, s).
Proof.
  induction post as [|g post IH]; intros pre fuel y Hm Hok Hend Hf Hcb.
  { destruct fuel as [|fuel]; [lia|]. rewrite app_nil_r in Hm. pose proof (holds_size _ _ Hm). pose proof (proj2 Hm).
    cbn [scan_loop objects scan_spec]. by rewrite !bool_decide_false by lia. }
  assert (Hpre : pre ++ g :: post = (pre ++ [g]) ++ post) by (by rewrite <- app_assoc).
  apply Forall_cons in Hok as [Hg Hok].
  assert (Hend' : ends_ok post) by (destruct post; [done|by apply (ends_ok_cons g)]).
  assert (Hlen : length (store_bytes (pre ++ [g])) = (length (store_bytes pre) + length (encode_seg g))%nat).
  { rewrite encode_app, encode_cons, !length_app. simpl. lia. }
  rewrite encode_cons, length_app in Hf. destruct g as [b|o].
  - destruct fuel as [|fuel]; [lia|]. simpl in Hf. cbn [objects] in *. pose proof Hm as Hm'. rewrite encode_app in Hm'.
    rewrite (scan_skip s (store_bytes pre) b (store_bytes post) fuel _ y Hm' eq_refl) by (left; apply Hg).
    replace (Z.of_nat (length (store_bytes pre)) + 1) with (Z.of_nat (length (store_bytes (pre ++ [Gap b])))) in *
      by (rewrite Hlen; simpl; lia). apply IH; [by rewrite <- Hpre|done|done|lia|done].
  - cbn [encode_seg] in Hf, Hlen. rewrite length_encode_obj in Hf, Hlen. destruct fuel as [|[|fuel]]; [lia..|].
    cbn [objects scan_spec] in *.
    pose proof Hm as Hm1. rewrite encode_app, encode_cons in Hm1. cbn [encode_seg] in Hm1.
    pose proof (holds_size _ _ Hm1) as Hs. pose proof (proj2 Hm1) as Hb. rewrite !length_app, length_encode_obj in Hs, Hb.
    assert (Hsync : holds s (store_bytes pre ++ 0xCA :: (tail sync_word ++ drop 4 (encode_obj o) ++ store_bytes post))) by exact Hm1.
    set (i := Z.of_nat (length (store_bytes pre))) in *.
    remember (Datatypes.S fuel) as fuel1 eqn:Hfuel1. cbn [scan_loop].
    rewrite (bool_decide_false (2 ^ 31 ≤ i)), (bool_decide_true (i < vm_size)) by lia.
    run (holds_byte s (store_bytes pre) _ _ i Hsync eq_refl). rewrite (bool_decide_true (0xCA = 0xCA)) by done.
    rewrite (cons_middle 0xCA (store_bytes pre)), app_assoc in Hsync.
    run (holds_sync s (tail sync_word) _ _ (i + 1) Hsync ltac:(rewrite length_app; simpl; lia)).
    run (Hcb i o y ltac:(apply list_elem_of_here)). destruct (f i o y) as [rc y'] eqn:Hfi. cbv beta iota.
    case_bool_decide as Hrc; [done|]. run (obj_u16_at s _ _ o i Hm1 eq_refl Hg). subst fuel1.
    (* the check sum *)
    destruct (obj_data_split (store_bytes pre) (store_bytes post) o i eq_refl) as (a' & _ & Heq & Ha' & _).
    rewrite Heq, app_assoc in Hm1. unfold OBJ_HEADER_LENGTH.
    rewrite (scan_skip s _ (o_check o) (store_bytes post) fuel _ y' Hm1) by
      first [rewrite length_app; lia | destruct post as [|g' post'];
        [left; exact Hend|right; by apply encode_head]].
    replace (i + (Z.of_nat (length (o_data o)) + 7 - 1) + 1 + 1) with (Z.of_nat (length (store_bytes (pre ++ [Obj o]))))
      by (rewrite Hlen; lia).
    replace (i + Z.of_nat (length (o_data o)) + 8) with (Z.of_nat (length (store_bytes (pre ++ [Obj o])))) in * by (rewrite Hlen; lia).
    apply IH; [by rewrite <- Hpre|done|done|lia|]. intros off' o' x' Hx'. apply Hcb. by apply list_elem_of_further.
Qed.
End Callback.

Lemma objstore_scan_run {X} (callback : Z → X → ST S (Z * X)) f s l y :
  holds s (store_bytes l) → layout_ok l → reads_as callback f (objects 0 l) s →
  objstore_scan callback y s = Some (scan_spec f (objects 0 l) y, s).
Proof.
  intros Hm [Hok Hend _] Hcb. unfold objstore_scan. rewrite (holds_size _ _ Hm).
  apply (scan_loop_run callback f s l []); [done..|lia|done].
Qed.

Lemma alloc_loop_run s length0 : ∀ post pre fuel counter,
  holds s (store_bytes (pre ++ post)) → Forall seg_ok post → (length (store_bytes post) < fuel)%nat →
  alloc_loop fuel length0 (Z.of_nat (length (store_bytes pre))) counter s =
    Some (first_room (length0 + 8) (Z.of_nat (length (store_bytes pre))) counter post, s).
Proof.
  induction post as [|g post IH]; intros pre fuel counter Hm Hok Hf.
  { destruct fuel as [|fuel]; [lia|]. rewrite app_nil_r in Hm. pose proof (holds_size _ _ Hm). pose proof (proj2 Hm).
    cbn [alloc_loop first_room]. by rewrite !bool_decide_false by lia. }
  assert (Hpre : pre ++ g :: post = (pre ++ [g]) ++ post) by (by rewrite <- app_assoc).
  apply Forall_cons in Hok as [Hg Hok].
  assert (Hlen : length (store_bytes (pre ++ [g])) = (length (store_bytes pre) + length (encode_seg g))%nat).
  { rewrite encode_app, encode_cons, !length_app. simpl. lia. }
  rewrite encode_cons, length_app in Hf. destruct fuel as [|fuel]; [lia|]. cbn [first_room].
  pose proof Hm as Hm1. rewrite encode_app, encode_cons in Hm1.
  pose proof (holds_size _ _ Hm1) as Hs. pose proof (proj2 Hm1) as Hb. rewrite !length_app in Hs, Hb.
  set (i := Z.of_nat (length (store_bytes pre))) in *.
  assert (Hpos : (0 < length (encode_seg g))%nat) by (destruct g; [simpl; lia|cbn [encode_seg]; rewrite length_encode_obj; lia]).
  cbn [alloc_loop]. rewrite (bool_decide_false (2 ^ 31 ≤ i)), (bool_decide_true (i < vm_size)) by lia. destruct g as [b|o].
  - cbn [encode_seg] in *. run (holds_byte s (store_bytes pre) b (store_bytes post) i Hm1 eq_refl).
    rewrite (bool_decide_false (b = 0xCA)) by apply Hg. unfold OBJ_HEADER_LENGTH.
    replace (length0 + 7 + 1) with (length0 + 8) by lia. case_bool_decide as Hc.
    { unfold mret, ST_ret. do 2 f_equal. lia. }
    replace (i + 1) with (Z.of_nat (length (store_bytes (pre ++ [Gap b])))) by (rewrite Hlen; simpl; lia).
    apply IH; [by rewrite <- Hpre|done|simpl in Hf; lia].
  - cbn [encode_seg] in *. rewrite length_encode_obj in Hf, Hlen.
    assert (Hsync : holds s (store_bytes pre ++ 0xCA :: (tail sync_word ++ drop 4 (encode_obj o) ++ store_bytes post))) by exact Hm1.
    run (holds_byte s (store_bytes pre) _ _ i Hsync eq_refl). rewrite (bool_decide_true (0xCA = 0xCA)) by done.
    rewrite (cons_middle 0xCA (store_bytes pre)), app_assoc in Hsync.
    run (holds_sync s (tail sync_word) _ _ (i + 1) Hsync ltac:(rewrite length_app; simpl; lia)).
    run (obj_length_at s _ _ o i Hm1 eq_refl Hg). rewrite bool_decide_false by lia. unfold OBJ_HEADER_LENGTH.
    replace (i + (Z.of_nat (length (o_data o)) + 7) + 1) with (Z.of_nat (length (store_bytes (pre ++ [Obj o])))) by (rewrite Hlen; lia).
    replace (i + Z.of_nat (length (o_data o)) + 8) with (Z.of_nat (length (store_bytes (pre ++ [Obj o])))) by (rewrite Hlen; lia).
    apply IH; [by rewrite <- Hpre|done|lia].
Qed.

Lemma objstore_alloc_run s l length0 :
  holds s (store_bytes l) → Forall seg_ok l → objstore_alloc length0 s = Some (first_room (length0 + 8) 0 0 l, s).
Proof.
  intros Hm Hok. unfold objstore_alloc. rewrite (holds_size _ _ Hm).
  apply (alloc_loop_run s length0 l []); [done..|lia].
Qed.
End Scanning.

(** ** Room in a layout *)

Section Room.
Implicit Types (l pre post : list seg) (n : Z).

(** [n] unused bytes in a row at [off]. *)
Definition room_at n off l : Prop :=
  ∃ pre gaps post, l = pre ++ map Gap gaps ++ post ∧ Z.of_nat (length gaps) = n ∧ off = Z.of_nat (length (store_bytes pre)).

Lemma encode_gaps (gaps : list Z) : store_bytes (map Gap gaps) = gaps.
Proof. induction gaps as [|b gaps IH]; [done|]. simpl. rewrite encode_cons, IH. done. Qed.

Lemma first_room_found n l : ∀ pre (gaps : list Z), 0 < n → Z.of_nat (length gaps) < n →
  let off := Z.of_nat (length (store_bytes (pre ++ map Gap gaps))) in
  0 ≤ first_room n off (Z.of_nat (length gaps)) l →
  room_at n (first_room n off (Z.of_nat (length gaps)) l) (pre ++ map Gap gaps ++ l).
Proof.
  induction l as [|[b|o] l IH]; intros pre gaps Hn Hg off; cbn [first_room]; [lia|..].
  - assert (Hl : length (store_bytes (pre ++ map Gap (gaps ++ [b]))) = (length (store_bytes (pre ++ map Gap gaps)) + 1)%nat).
    { rewrite !encode_app, !encode_gaps, !length_app. simpl. lia. }
    case_bool_decide as Hc.
    + intros _. exists pre, (gaps ++ [b]), l. split; [by rewrite map_app, <- !app_assoc|].
      rewrite length_app. simpl. split; [lia|]. subst off. rewrite encode_app, encode_gaps, length_app. lia.
    + specialize (IH pre (gaps ++ [b]) Hn). rewrite Hl, !length_app in IH. simpl length in IH.
      replace (Z.of_nat (length gaps + 1)) with (Z.of_nat (length gaps) + 1) in IH by lia.
      replace (Z.of_nat (length (store_bytes (pre ++ map Gap gaps)) + 1)) with (off + 1) in IH by lia.
      rewrite map_app, <- !app_assoc in IH. apply IH. lia.
  - specialize (IH (pre ++ map Gap gaps ++ [Obj o]) [] Hn ltac:(simpl; lia)). simpl in IH. rewrite app_nil_r, <- !app_assoc in IH.
    replace (off + Z.of_nat (length (o_data o)) + 8) with (Z.of_nat (length (store_bytes (pre ++ map Gap gaps ++ [Obj o])))); [exact IH|].
    subst off. rewrite !encode_app, !length_app, encode_cons, length_app. cbn [encode_seg]. rewrite length_encode_obj. simpl. lia.
Qed.

Lemma first_room_gaps n post : ∀ (gaps : list Z) off counter,
  0 ≤ counter < n → counter ≤ off → n ≤ counter + Z.of_nat (length gaps) →
  0 ≤ first_room n off counter (map Gap gaps ++ post).
Proof.
  induction gaps as [|b gaps IH]; intros off counter H1 H2 H3; [simpl in H3; lia|].
  cbn [map app first_room]. simpl in H3. case_bool_decide; [lia|]. apply IH; lia.
Qed.

(** When there is room some is found. *)
Lemma first_room_exists n l : ∀ x off counter,
  room_at n x l → 0 ≤ counter < n → counter ≤ off → 0 ≤ first_room n off counter l.
Proof.
  intros x off counter (pre & gaps & post & -> & Hg & _). revert off counter.
  induction pre as [|[b|o] pre IH]; intros off counter H1 H2.
  - apply first_room_gaps; lia.
  - cbn [app first_room]. case_bool_decide; [lia|]. apply IH; lia.
  - cbn [app first_room]. apply IH; lia.
Qed.

Lemma first_room_at_once n post : ∀ (gaps : list Z) off counter,
  0 ≤ counter < n → n ≤ counter + Z.of_nat (length gaps) → first_room n off counter (map Gap gaps ++ post) = off - counter.
Proof.
  induction gaps as [|b gaps IH]; intros off counter H1 H2; [simpl in H2; lia|].
  cbn [map app first_room]. simpl in H2. case_bool_decide; [done|]. rewrite IH by lia. lia.
Qed.

(** The room found is the first. *)
Lemma first_room_least n l : ∀ x off counter,
  room_at n x l → 0 ≤ counter < n → first_room n off counter l ≤ off + x.
Proof.
  intros x off counter (pre & gaps & post & -> & Hg & ->). revert off counter.
  induction pre as [|[b|o] pre IH]; intros off counter H1.
  - cbn [app]. rewrite first_room_at_once by lia. simpl. lia.
  - cbn [app first_room]. rewrite encode_cons, length_app. cbn [encode_seg length]. case_bool_decide; [lia|].
    specialize (IH (off + 1) (counter + 1) ltac:(lia)). lia.
  - cbn [app first_room]. rewrite encode_cons, length_app. cbn [encode_seg]. rewrite length_encode_obj.
    specialize (IH (off + Z.of_nat (length (o_data o)) + 8) 0 ltac:(lia)). lia.
Qed.

(** ** Layouts after an operation *)

Lemma layout_replace pre mid mid' post :
  layout_ok (pre ++ mid ++ post) → length (store_bytes mid') = length (store_bytes mid) → Forall seg_ok mid' → mid' ≠ [] →
  ends_ok (pre ++ mid' ++ post) → layout_ok (pre ++ mid' ++ post).
Proof.
  intros [Hok Hend Hs] Hl Hm Hne He. rewrite !Forall_app in Hok. destruct Hok as (H1 & H2 & H3).
  split; [by rewrite !Forall_app|done|]. rewrite !encode_app, !length_app in Hs |- *. lia.
Qed.

Lemma ends_ok_post pre mid mid' post : mid ≠ [] → mid' ≠ [] → ends_ok (pre ++ mid ++ post) →
  (post = [] → ends_ok mid') → ends_ok (pre ++ mid' ++ post).
Proof.
  intros Hm Hm' He Hp. unfold ends_ok in *. destruct post as [|g post _] using rev_ind.
  - specialize (Hp eq_refl). rewrite app_nil_r. destruct mid' as [|g mid' _] using rev_ind; [done|].
    rewrite app_assoc, last_snoc. by rewrite last_snoc in Hp.
  - rewrite !app_assoc, last_snoc in He |- *. done.
Qed.

Lemma objects_gaps off (gaps : list Z) : objects off (map Gap gaps) = [].
Proof. revert off. induction gaps as [|b gaps IH]; intros off; [done|]. apply IH. Qed.

Lemma objects_replace pre (gaps : list Z) o post :
  length gaps = (length (o_data o) + 8)%nat →
  objects 0 (pre ++ Obj o :: post) ≡ₚ
    (Z.of_nat (length (store_bytes pre)), o) :: objects 0 (pre ++ map Gap gaps ++ post).
Proof.
  intros Hl. rewrite !objects_app, objects_gaps, encode_gaps, Hl, Z.add_0_l. cbn [objects app].
  rewrite <- Permutation_middle. f_equiv. f_equiv. apply reflexive_eq. f_equal. lia.
Qed.
End Room.

(** ** The store *)

Section Store.
Context {S : Type} `{VmemLaws S}.
Implicit Types (s : S) (l pre post mid : list seg) (o : obj) (d data : list Z).

(** The memory holds the layout. *)
Definition store s l : Prop := vm_mem s = Some (store_bytes l) ∧ layout_ok l.

Lemma store_holds s l : store s l → holds s (store_bytes l).
Proof. intros [Hm Hl]. split; [done|apply Hl]. Qed.

Lemma xor_sum_u8 d : bytes_ok d → is_u8 (xor_sum d).
Proof.
  intros Hb. unfold xor_sum. assert (Hx : ∀ y, is_u8 y → is_u8 (foldl Z.lxor y d)); [|by apply Hx].
  induction Hb as [|x d Hx Hb IH]; intros y Hy; [done|]. cbn [foldl]. apply IH. by apply (lxor_lt_pow2 8).
Qed.

(** An object written over a part of the memory of its size. *)
Lemma store_write s pre mid post off ty d data :
  store s (pre ++ mid ++ post) → off = Z.of_nat (length (store_bytes pre)) → length (store_bytes mid) = (length d + 8)%nat → mid ≠ [] →
  0 < Z.of_nat (length d) < 65536 → bytes_ok d → mem_read data 0 (Z.of_nat (length d)) = Some d →
  let o := mk_obj (u8 ty) d (xor_sum d) in
  ∃ s', objstore_write_obj off ty (Z.of_nat (length d)) data s = Some ((), s') ∧ vm_kept s s' ∧
    vm_mem s' = Some (store_bytes (pre ++ Obj o :: post)) ∧
    (ends_ok (pre ++ Obj o :: post) → store s' (pre ++ Obj o :: post)).
Proof.
  intros Hst Hoff Hl Hne Hd Hb Hr o. pose proof (store_holds _ _ Hst) as Hm. rewrite !encode_app in Hm.
  destruct (write_obj_at s _ _ _ off ty d data Hm Hoff Hl Hd Hr) as (s' & R & M & K).
  exists s'. split; [done|]. split; [done|].
  assert (Hm' : vm_mem s' = Some (store_bytes (pre ++ Obj o :: post))) by (rewrite encode_app, encode_cons; apply M).
  split; [done|]. intros Hck. split; [done|]. destruct Hst as [_ Hlay].
  assert (Ho : obj_ok o).
  { split; [apply u8_range|done|done|]. by apply xor_sum_u8. }
  apply (layout_replace pre mid [Obj o] post); [done| |by constructor|done|].
  - rewrite Hl. cbn [store_bytes map concat encode_seg]. rewrite app_nil_r, length_encode_obj. done.
  - exact Hck.
Qed.

(** A new object does not begin a synchronisation word behind the memory unless it is the last. *)
Lemma ends_ok_written s pre mid post o :
  store s (pre ++ mid ++ post) → mid ≠ [] → o_check o ≠ 0xCA ∨ post ≠ [] → ends_ok (pre ++ Obj o :: post).
Proof.
  intros Hst Hne Hck. apply (ends_ok_post pre mid [Obj o] post); [done..|apply Hst|]. intros ->. by destruct Hck.
Qed.

(** Bytes of an object written in place. *)
Lemma store_patch s pre o post off (k : nat) bs :
  store s (pre ++ Obj o :: post) → off = Z.of_nat (length (store_bytes pre)) → (k + length bs ≤ length (o_data o))%nat → bytes_ok bs →
  let o' := mk_obj (o_type o) (patch (o_data o) k bs) (xor_sum (patch (o_data o) k bs)) in
  ∃ s', objstore_write_data off (OBJ_HEADER_LENGTH + Z.of_nat k) bs s = Some ((), s') ∧ vm_kept s s' ∧
    vm_mem s' = Some (store_bytes (pre ++ Obj o' :: post)) ∧ (ends_ok (pre ++ Obj o' :: post) → store s' (pre ++ Obj o' :: post)).
Proof.
  intros Hst Hoff Hk Hb o'. pose proof (store_holds _ _ Hst) as Hm. rewrite encode_app, encode_cons in Hm. destruct Hst as [_ Hlay].
  assert (Ho : obj_ok o). { pose proof (la_segs _ Hlay) as Hok. rewrite Forall_app, Forall_cons in Hok. apply Hok. }
  destruct (write_data_at s _ _ o off k bs Hm Hoff Ho Hk) as (s' & R & M & K). fold o' in M.
  assert (Hm' : vm_mem s' = Some (store_bytes (pre ++ Obj o' :: post))) by (rewrite encode_app, encode_cons; apply M).
  exists s'. split; [done|]. split; [done|]. split; [done|]. intros He. split; [done|].
  pose proof (length_patch (o_data o) k bs Hk) as Hl.
  assert (Hd : bytes_ok (patch (o_data o) k bs)).
  { pose proof (ob_data _ Ho) as Hd. unfold patch. apply Forall_app. split; [by apply Forall_take|].
    apply Forall_app. split; [done|by apply Forall_drop]. }
  apply (layout_replace pre [Obj o] [Obj o'] post); [done| | |done|done].
  - cbn [store_bytes map concat encode_seg]. rewrite !app_nil_r, !length_encode_obj. cbn [o' o_data]. by rewrite Hl.
  - constructor; [|done]. destruct Ho. split; cbn [o' o_type o_data o_check]; [done|done|by rewrite Hl|by apply xor_sum_u8].
Qed.

Lemma store_rm s pre o post off :
  store s (pre ++ Obj o :: post) → off = Z.of_nat (length (store_bytes pre)) →
  let l' := pre ++ map Gap (replicate (length (o_data o) + 8) 0xFF) ++ post in
  ∃ s', objstore_rm_obj off s = Some (0, s') ∧ vm_kept s s' ∧ store s' l'.
Proof.
  intros Hst Hoff l'. pose proof (store_holds _ _ Hst) as Hm. destruct Hst as [_ Hlay]. rewrite encode_app, encode_cons in Hm.
  assert (Ho : obj_ok o). { pose proof (la_segs _ Hlay) as Hok. rewrite Forall_app, Forall_cons in Hok. apply Hok. }
  destruct (rm_obj_at s _ _ o off Hm Hoff Ho) as (s' & R & M & K).
  exists s'. split; [done|]. split; [done|]. subst l'. split; [rewrite !encode_app, encode_gaps; apply M|].
  assert (Hne : map Gap (replicate (length (o_data o) + 8) 255) ≠ []) by (by rewrite Nat.add_comm).
  apply (layout_replace pre [Obj o] _ post); [done| | |done|].
  - rewrite encode_gaps, length_replicate. cbn [store_bytes map concat encode_seg]. rewrite app_nil_r, length_encode_obj. done.
  - apply Forall_map, Forall_replicate. done.
  - apply (ends_ok_post pre [Obj o] _ post); [done..|apply Hlay|]. intros _. unfold ends_ok.
    rewrite Nat.add_comm. cbn [replicate plus map]. clear. induction (length (o_data o)) as [|k IH]; [done|].
    exact IH.
Qed.

Lemma store_alloc s l n : store s l → 0 ≤ n →
  ∃ off, objstore_alloc n s = Some (off, s) ∧ ((off < 0 ∧ ∀ x, ¬ room_at (n + 8) x l) ∨ (0 ≤ off ∧ room_at (n + 8) off l ∧ ∀ x, room_at (n + 8) x l → off ≤ x)).
Proof.
  intros Hst Hn. eexists. split; [apply (objstore_alloc_run s l); [by apply store_holds|apply Hst]|].
  destruct (decide (0 ≤ first_room (n + 8) 0 0 l)) as [Hr|Hr]; [right|left].
  - split; [done|]. split; [by apply (first_room_found (n + 8) l [] []); simpl; try lia|].
    intros x Hx. pose proof (first_room_least _ _ x 0 0 Hx ltac:(lia)). lia.
  - split; [lia|]. intros x Hx. apply Hr. apply (first_room_exists _ _ x); [done|lia..].
Qed.

Lemma store_obj_at s l off o :
  store s l → (off, o) ∈ objects 0 l →
  ∃ pre post, l = pre ++ Obj o :: post ∧ off = Z.of_nat (length (store_bytes pre)) ∧
    holds s (store_bytes pre ++ encode_obj o ++ store_bytes post) ∧ obj_ok o.
Proof.
  intros Hst Hin. destruct (objects_split 0 l off o Hin) as (pre & post & -> & ->). exists pre, post.
  pose proof (store_holds _ _ Hst) as Hm. rewrite encode_app, encode_cons in Hm. split; [done|]. split; [done|]. split; [done|].
  pose proof (la_segs _ (proj2 Hst)) as Hok. rewrite Forall_app, Forall_cons in Hok. apply Hok.
Qed.
End Store.


(** ** The drivers of a [vmem] *)

Section Drivers.
Context `{ParamEnv} (v : vmem_t).

Definition vmem_ops : VmemOps pstate :=
  {| vm_size := v_size v; vm_read := vmem_read v; vm_write := vmem_write v |}.

Definition block_of (s : pstate) : option (list Z) :=
  m ← ps_ram s !! vmem_block v; if bool_decide (Z.of_nat (length m) = v_size v) then Some m else None.

(** A write to the [vmem] keeps all other memory. *)
Definition others_kept (s s' : pstate) : Prop :=
  stored_step s s' ∧ ∀ blk, blk ≠ vmem_block v → ps_ram s' !! blk = ps_ram s !! blk.

#[export] Instance others_kept_pre : PreOrder others_kept.
Proof.
  split; [by intros s; split|]. intros s1 s2 s3 [K1 Hs2] [K2 Hs3].
  split; [destruct K1, K2; constructor; congruence|]. intros blk Hb. by rewrite Hs3, Hs2.
Qed.

Lemma block_of_Some s m : block_of s = Some m ↔ ps_ram s !! vmem_block v = Some m ∧ Z.of_nat (length m) = v_size v.
Proof.
  unfold block_of, mbind, option_bind. destruct (ps_ram s !! vmem_block v) as [m0|]; [|split; [done|by intros [? _]]].
  case_bool_decide; (split; [intros Hm; simplify_eq|intros [Hm ?]; simplify_eq]); done.
Qed.

Lemma vmem_write_block s m a bs m' :
  block_of s = Some m → mem_write m a bs = Some m' →
  ∃ s', vmem_write v a bs s = Some ((), s') ∧ block_of s' = Some m' ∧ others_kept s s'.
Proof.
  intros [Hm Hs]%block_of_Some Hw. pose proof (mem_write_length _ _ _ _ Hw) as Hl.
  assert (Hr : ram_write (vmem_block v) a bs s = Some ((), with_ram (<[vmem_block v := m']> (ps_ram s)) s)).
  { unfold ram_write. st_red. rewrite Hm. st_red. by rewrite Hw. }
  set (s1 := with_ram _ s) in *.
  assert (Hk1 : others_kept s s1) by (split; [done|intros blk Hb; unfold s1; simpl; by rewrite lookup_insert_ne]).
  assert (H1 : ps_ram s1 !! vmem_block v = Some m') by apply lookup_insert_eq.
  unfold vmem_write. unfold vmem_block in Hr, H1. destruct (v_driver v) as [blk|blk fn] eqn:Hd; cbv iota in Hr, H1.
  - exists s1. split; [done|]. split; [|done]. apply block_of_Some. unfold vmem_block. rewrite Hd. split; [done|lia].
  - unfold vmem_file_write. run Hr. destruct (fopen_w_ok fn).
    + assert (Hrd : ram_read blk 0 (v_size v) s1 = Some (m', s1)).
      { unfold ram_read. st_red. rewrite H1. st_red. rewrite <- Hs, <- Hl. unfold mem_read. rewrite bool_decide_true by lia.
        by rewrite Nat2Z.id, drop_0, firstn_all. }
      run Hrd. eexists. split; [done|]. split; [|split; [done|apply Hk1]]. apply block_of_Some. unfold vmem_block. rewrite Hd. split; [done|lia].
    + eexists. split; [done|]. split; [|split; [done|apply Hk1]]. apply block_of_Some. unfold vmem_block. rewrite Hd. split; [done|lia].
Qed.

#[program] Definition vmem_laws : @VmemLaws pstate vmem_ops :=
  @Build_VmemLaws pstate vmem_ops block_of others_kept _ _ _ _.
Next Obligation. by intros s m [_ Hs]%block_of_Some. Qed.
Next Obligation.
  intros s m a n bs [Hm _]%block_of_Some Hr. cbn. rewrite vmem_read_block. unfold ram_read. st_red. rewrite Hm. st_red. by rewrite Hr.
Qed.
Next Obligation. exact vmem_write_block. Qed.
End Drivers.

(** ** An example *)

Definition store_env : ParamEnv := {|
  fopen_w_ok _ := true;
  run_callback _ _ _ := mret ();
  calloc_block _ := None;
  have_critical := false;
  indeterminate := 0; ptr_block _ := None |}.

Definition store_vmem : vmem_t := mk_vmem VMEM_TYPE_RAM (vmem_ram_driver_t 0) 0x1000 40 [115; 99; 104] 0 0.
Definition store_layout : list seg := Gap 0 :: Obj (mk_obj 3 [0xFF; 0xFF] 0) :: map Gap (replicate 29 0xFF).
Definition store_state : pstate :=
  mk_pstate {[0%nat := store_bytes store_layout]} [store_vmem] ∅ 0 None ∅ ∅ [] (mk_app [] 0 0 0).

Lemma store_layout_ok : layout_ok store_layout.
Proof.
  split; [|done|vm_compute; reflexivity].
  apply Forall_cons. split; [done|]. apply Forall_cons. split.
  - split; [done| |done|done]. repeat (apply Forall_cons; split; [done|]). by apply Forall_nil.
  - apply Forall_map, Forall_replicate. done.
Qed.

Lemma store_state_ok : @store pstate (@vmem_ops store_env store_vmem) (@vmem_laws store_env store_vmem) store_state store_layout.
Proof. split; [vm_compute; reflexivity|exact store_layout_ok]. Qed.

