(* ===== verification/ParamClient.v ===== *)
(** * The parameter client

    [param_client.c]: transactions with the parameter server of another node.  A request is
    built in a packet, sent over a connection, and the answers are read until one is marked
    as the last; answers to a pull are applied to the copies of the parameters.  What is
    printed (the argument [verbose]) is left out. *)

From S2P Require Import Queue Types State Buffer Stack Net Rdp Conn Io Mpack ParamState Param ParamList ParamSer ParamServer Prelude.

Definition PARAM_REMOTE_NODE_IGNORE : Z := 16382.
Definition SERVER_PORT : Z := 10.

Section Client.
Context `{Env} `{ParamEnv}.

(** The seconds [csp_clock_get_time] returns, and how often a reader or a sender may be
    woken up before its transaction ends. *)
Context (clock_sec : stack * pstate → Z) (fuel : nat).

(** [param_queue_apply] with what it leaves in the queue. *)
Definition param_queue_apply_q (q : param_queue_t) (apply_local from : Z) : ST pstate (Z * param_queue_t) :=
  s ← get;
  let r := mpack_reader_init_data (q_mem q) 0 (q_used q) in
  '((code, atomic_write), (d, s')) ← lift_opt
    (apply_loop (S (Z.to_nat (q_used q))) apply_local from 0 false (mk_des r q, s));
  put s';;
  when (atomic_write && have_critical) (modify (with_event ev_exit_critical));;
  mret (code, de_q d).

Definition param_transaction_callback_pull (version : Z) (response : nat) : ST (stack * pstate) () :=
  p ← on_fst (kget_packet response);
  let from := src (pk_id p) in
  tv_sec ← gets clock_sec;
  buffer ← on_fst (data_from response 2);
  let q := param_queue_init buffer (pk_length p - 2) (pk_length p - 2) PARAM_QUEUE_TYPE_SET version indeterminate in
  let q := set_q_last_timestamp (u32 tv_sec) (set_q_last_node from q) in
  on_snd (param_queue_apply q 0 from);;
  on_fst (kfree (Some response)).

(** The loop that reads the answers. *)
Fixpoint transaction_loop (n : nat) (conn : nat) (timeout : Z) (callback : option (nat → ST (stack * pstate) ()))
    : ST (stack * pstate) Z :=
  match n with
  | O => ub
  | S n' =>
      r ← on_fst (csp_read (Some conn) timeout);
      match r with
      | None => mret (-1)
      | Some packet =>
          flag ← on_fst (data_byte packet 1);
          match callback with Some cb => cb packet | None => on_fst (kfree (Some packet)) end;;
          if bool_decide (flag = PARAM_FLAG_END) then mret 0
          else transaction_loop n' conn timeout callback
      end
  end.

Definition param_transaction (packet : nat) (host timeout : Z) (callback : option (nat → ST (stack * pstate) ()))
    : ST (stack * pstate) Z :=
  if bool_decide (host = PARAM_REMOTE_NODE_IGNORE) then on_fst (kfree (Some packet));; mret (-1) else
  p ← on_fst (kget_packet packet);
  c ← on_fst (csp_connect indeterminate indeterminate (pri (pk_id p)) (u16 host) SERVER_PORT 0 CSP_O_CRC32);
  match c with
  | None => on_fst (kfree (Some packet));; mret (-1)
  | Some conn =>
      on_fst (csp_send fuel (Some conn) (Some packet));;
      if bool_decide (timeout = -1) then on_fst (csp_close (Some conn));; mret (-1) else
      result ← transaction_loop fuel conn timeout callback;
      on_fst (csp_close (Some conn));;
      mret result
  end.

(** The two header bytes of a request. *)
Definition put_header (packet : nat) (type flag : Z) : ST (stack * pstate) () :=
  on_fst (data_store packet 0 [type]);;
  on_fst (data_store packet 1 [flag]).

(** [packet->length = length; packet->id.pri = prio] *)
Definition finish_request (packet : nat) (length prio : Z) : ST (stack * pstate) () :=
  on_fst (kmod_packet packet (set_pk_length (u16 length)));;
  on_fst (kmod_packet packet (λ p, set_pk_id (set_pri prio (pk_id p)) p)).

Definition param_pull_all (prio host include_mask exclude_mask timeout version : Z) : ST (stack * pstate) Z :=
  r ← on_fst (liftC csp_buffer_get);
  match r with
  | None => mret (-2)
  | Some packet =>
      put_header packet (if bool_decide (version = 2) then PARAM_PULL_ALL_REQUEST_V2 else PARAM_PULL_ALL_REQUEST) 0;;
      on_fst (data_store packet 4 (be_bytes 4 include_mask));;
      on_fst (data_store packet 8 (be_bytes 4 exclude_mask));;
      finish_request packet 12 prio;;
      param_transaction packet host timeout (Some (param_transaction_callback_pull version))
  end.

Definition param_pull_queue (queue : option param_queue_t) (prio host timeout : Z) : ST (stack * pstate) Z :=
  match queue with
  | None => mret 0
  | Some q =>
      if bool_decide (q_used q = 0) then mret 0 else
      r ← on_fst (liftC csp_buffer_get);
      match r with
      | None => mret (-2)
      | Some packet =>
          put_header packet (if bool_decide (q_version q = 2) then PARAM_PULL_REQUEST_V2 else PARAM_PULL_REQUEST) 0;;
          bs ← lift_opt (mem_read (q_mem q) 0 (q_used q));
          on_fst (data_store packet 2 bs);;
          finish_request packet (q_used q + 2) prio;;
          param_transaction packet host timeout (Some (param_transaction_callback_pull (q_version q)))
      end
  end.

(** The queue of a single parameter in a request; [last_node] is not initialised. *)
Definition request_add (packet : nat) (type : param_queue_type_e) (version : Z) (a : nat) (offset : Z) (value : option (list Z))
    : ST (stack * pstate) param_queue_t :=
  buffer ← on_fst (data_from packet 2);
  let q := param_queue_init buffer (PARAM_SERVER_MTU - 2) 0 type version indeterminate in
  '(_, q) ← on_snd (param_queue_add q a offset value);
  on_fst (data_store packet 2 (q_mem q));;
  mret q.

Definition param_pull_single (a : nat) (offset prio host timeout version : Z) : ST (stack * pstate) Z :=
  r ← on_fst (liftC csp_buffer_get);
  match r with
  | None => mret (-1)
  | Some packet =>
      put_header packet (if bool_decide (version = 2) then PARAM_PULL_REQUEST_V2 else PARAM_PULL_REQUEST) 0;;
      q ← request_add packet PARAM_QUEUE_TYPE_GET version a offset None;
      finish_request packet (q_used q + 2) prio;;
      param_transaction packet host timeout (Some (param_transaction_callback_pull version))
  end.

(** Also returns the queue, which applying it changes. *)
Definition param_push_queue (queue : option param_queue_t) (host timeout hwid : Z) (ack_with_pull : bool)
    : ST (stack * pstate) (Z * option param_queue_t) :=
  match queue with
  | None => mret (0, None)
  | Some q =>
      if bool_decide (q_used q = 0) then mret (0, Some q) else
      r ← on_fst (liftC csp_buffer_get);
      match r with
      | None => mret (-2, Some q)
      | Some packet =>
          put_header packet (if bool_decide (q_version q = 2) then PARAM_PUSH_REQUEST_V2 else PARAM_PUSH_REQUEST)
            (if ack_with_pull then 1 else 0);;
          bs ← lift_opt (mem_read (q_mem q) 0 (q_used q));
          on_fst (data_store packet 2 bs);;
          finish_request packet (q_used q + 2) CSP_PRIO_HIGH;;
          when (bool_decide (0 < hwid))
            (on_fst (data_store packet 0 [PARAM_PUSH_REQUEST_V2_HWID]);;
             p ← on_fst (kget_packet packet);
             on_fst (data_store packet (pk_length p) (le_bytes 4 hwid));;
             on_fst (kmod_packet packet (λ p, set_pk_length (u16 (pk_length p + 4)) p)));;
          result ← param_transaction packet host timeout
            (if ack_with_pull then Some (param_transaction_callback_pull (q_version q)) else None);
          if bool_decide (result < 0) then mret (-1, Some q) else
          if ack_with_pull then mret (0, Some q) else
          '(_, q) ← on_snd (param_queue_apply_q q 0 host);
          mret (0, Some q)
      end
  end.

(** [param_set] of every element. *)
Fixpoint set_all (n : nat) (i : Z) (a : nat) (value : list Z) : ST pstate () :=
  match n with
  | O => mret ()
  | S n' => param_set a i value;; set_all n' (i + 1) a value
  end.

Definition param_push_single (a : nat) (offset : Z) (value : option (list Z)) (host timeout version : Z) (ack_with_pull : bool)
    : ST (stack * pstate) Z :=
  r ← on_fst (liftC csp_buffer_get);
  match r with
  | None => mret (-1)
  | Some packet =>
      on_fst (data_store packet 1 [if ack_with_pull then 1 else 0]);;
      on_fst (data_store packet 0 [if bool_decide (version = 2) then PARAM_PUSH_REQUEST_V2 else PARAM_PUSH_REQUEST]);;
      q ← request_add packet PARAM_QUEUE_TYPE_SET version a offset value;
      finish_request packet (q_used q + 2) CSP_PRIO_HIGH;;
      result ← param_transaction packet host timeout
        (if ack_with_pull then Some (param_transaction_callback_pull version) else None);
      if bool_decide (result < 0) then mret (-1) else
      p ← on_snd (get_param a);
      s ← get;
      ts ← lift_opt (ps_timestamps s.2 !! p_timestamp p);
      match value with
      | Some v =>
          when (bool_decide (p_node p ≠ 0) && bool_decide (ts = 0))
            (if bool_decide (offset < 0) then on_snd (set_all (Z.to_nat (p_array_size p)) 0 a v)
             else on_snd (param_set a offset v));;
          mret 0
      | None => mret 0
      end
  end.
End Client.
