(* ===== verification/Collector.v ===== *)
(** * The parameter collector

    [lib/param/src/param/collector/param_collector.c] and [param_collector_config.c]: nodes
    whose parameters are pulled at intervals, configured by a text. *)

From S2P Require Import Queue Types State Stack Net Conn Io Text ParamState Param ParamClient Prelude.
#[local] Open Scope Z_scope.

Record param_collector_config_s := mk_collect {
  co_node : Z;
  co_interval : Z;
  co_mask : Z;
  co_last_time : Z;
}.

Definition collect_zero : param_collector_config_s := mk_collect 0 0 0 0.
Definition CSP_PRIO_NORM : Z := 2.

(** ** Configuration *)

(** The formats ["%u %u %x"] and ["%u %u"]. *)
Definition scan_collect2 : ST (list Z) (Z * Z) :=
  node ← scan_u; scan_space;; interval ← scan_u; mret (u32 node, u32 interval).
Definition scan_collect3 : ST (list Z) (Z * Z * Z) :=
  '(node, interval) ← scan_collect2; scan_space;; mask ← scan_x; mret (node, interval, u32 mask).

(** The three values of a token, [None] for a parse error. *)
Definition parse_collect (str : list Z) : option (Z * Z * Z) :=
  match scan_collect3 str with
  | Some (r, _) => Some r
  | None => match scan_collect2 str with Some ((node, interval), _) => Some (node, interval, 0xFFFFFFFF) | None => None end
  end.

Section Config.
Context `{ParamEnv}.
(** The parameters [col_run], [col_verbose] and [col_cnfstr]. *)
Variables (col_run col_verbose col_cnfstr : nat).

(** The loop over the tokens; an entry behind the array is out of bounds. *)
Fixpoint init_loop (toks : list (list Z)) (i : nat) (config : list param_collector_config_s)
    : ST pstate (list param_collector_config_s) :=
  match toks with
  | [] => mret config
  | str :: toks' =>
      if bool_decide (1 < length str)%nat then
        match parse_collect str with
        | None => modify (with_event (ev_print (c_string "Parse error " ++ str)));; mret config
        | Some (node, interval, mask) =>
            if bool_decide (i < length config)%nat
            then init_loop toks' (S i) (<[i := mk_collect (u8 node) interval mask 0]> config)
            else ub
        end
      else mret config
  end.

(** The hundred characters of the parameter need not be terminated. *)
Definition param_collector_init : ST pstate (list param_collector_config_s) :=
  buf ← param_get_data col_cnfstr 100;
  len ← lift_opt (c_strlen buf);
  init_loop (strtok 44 [] (take (Z.to_nat len) buf)) 0 (replicate 16 collect_zero).

Definition param_col_confstr_callback : ST pstate (list param_collector_config_s) := param_collector_init.
End Config.

(** ** Collecting *)

Section Collect.
Context `{Env} `{ParamEnv} (clock_sec : stack * pstate → Z) (fuel : nat).
Variables (col_run col_verbose : nat).

(** [csp_get_ms() < last_time + interval], in [uint32_t]. *)
Definition not_due (now : Z) (c : param_collector_config_s) : bool :=
  bool_decide (now < u32 (co_last_time c + co_interval c)).

(** One round over the entries from [i] on; it ends at an entry without a node. *)
Fixpoint collect_round (n i : nat) (config : list param_collector_config_s) : ST (stack * pstate) (list param_collector_config_s) :=
  match n with
  | O => mret config
  | S n' =>
      c ← lift_opt (config !! i);
      if bool_decide (co_node c = 0) then mret config else
      run ← on_snd (param_get_uint8 col_run);
      if bool_decide (run = 0) then collect_round n' (S i) config else
      now ← on_fst csp_get_ms;
      if not_due now c then collect_round n' (S i) config else
      last_time ← on_fst csp_get_ms;
      let config := <[i := mk_collect (co_node c) (co_interval c) (co_mask c) last_time]> config in
      on_snd (param_get_uint8 col_verbose);;
      param_pull_all clock_sec fuel CSP_PRIO_NORM (co_node c) (co_mask c) 0 1000 2;;
      collect_round n' (S i) config
  end.

(** The body of the endless loop. *)
Definition param_collector_pass (config : list param_collector_config_s) : ST (stack * pstate) (list param_collector_config_s) :=
  collect_round 16 0 config.
End Collect.

(** ** Properties *)

(** The text of an entry; all flags are what a text without a mask asks for. *)
Definition mask_text (mask : Z) : list Z :=
  if bool_decide (mask = 0xFFFFFFFF) then [] else 32 :: hexadecimal false mask.
Definition collect_text (c : param_collector_config_s) : list Z :=
  decimal (co_node c) ++ 32 :: decimal (co_interval c) ++ mask_text (co_mask c).

Record collect_ok (c : param_collector_config_s) : Prop := {
  cok_node : 1 ≤ co_node c < 256;
  cok_interval : is_u32 (co_interval c);
  cok_mask : is_u32 (co_mask c);
  cok_time : co_last_time c = 0;
}.

Section Parse.
Implicit Types (c : param_collector_config_s) (cs : list param_collector_config_s).

Lemma space_no_digit rest : ∀ x rest', 32 :: rest = x :: rest' → is_digit x = false.
Proof. by intros x rest' [= <- _]. Qed.

Lemma skip_space_hex v rest : 0 ≤ v < 2 ^ 64 → skip_space (32 :: hexadecimal false v ++ rest) = hexadecimal false v ++ rest.
Proof.
  intros Hv. destruct (hexadecimal_spec false v Hv) as (Hx & Hne & _). cbn [skip_space]. change (is_space 32) with true. cbn iota.
  destruct Hx as [|x l Hd _]; [done|]. cbn [skip_space app].
  assert (is_space x = false) as ->; [|done]. apply bool_decide_eq_false. unfold is_xdigit, is_digit in Hd.
  apply orb_true_iff in Hd as [Hd|Hd]; apply bool_decide_eq_true in Hd; lia.
Qed.

Lemma parse_collect_text c : collect_ok c → parse_collect (collect_text c) = Some (co_node c, co_interval c, co_mask c).
Proof.
  intros Hc. pose proof (cok_node _ Hc) as Hn. pose proof (cok_interval _ Hc) as Hi. pose proof (cok_mask _ Hc) as Hm. unfold is_u32 in *.
  set (rest := mask_text (co_mask c)).
  assert (Hrest : ∀ x rest', rest = x :: rest' → is_digit x = false).
  { unfold rest, mask_text. case_bool_decide; [done|]. apply space_no_digit. }
  assert (H2 : scan_collect2 (collect_text c) = Some ((co_node c, co_interval c), rest)).
  { unfold scan_collect2, collect_text. fold rest.
    rewrite (ST_bind_run _ _ _ _ _ (scan_u_decimal (co_node c) (32 :: decimal (co_interval c) ++ rest) ltac:(lia) (space_no_digit _))).
    rewrite (ST_bind_run _ _ _ () (decimal (co_interval c) ++ rest)).
    - rewrite (ST_bind_run _ _ _ _ _ (scan_u_decimal (co_interval c) rest ltac:(lia) Hrest)).
      unfold mret, ST_ret, u32, wrap. by rewrite !Z.mod_small by lia.
    - unfold scan_space, modify. cbn [skip_space]. change (is_space 32) with true. cbn iota.
      by rewrite skip_space_digit by eauto using decimal_nonempty, decimal_digits. }
  unfold parse_collect, scan_collect3. rewrite (ST_bind_run _ _ _ _ _ H2). unfold rest, mask_text. case_bool_decide as Hall.
  - rewrite H2, Hall. done.
  - rewrite (ST_bind_run _ _ _ () (hexadecimal false (co_mask c))).
    + pose proof (scan_x_hexadecimal false (co_mask c) [] ltac:(lia)) as Hx. rewrite app_nil_r in Hx. run (Hx ltac:(done)).
      unfold mret, ST_ret, u32, wrap. by rewrite Z.mod_small by lia.
    + unfold scan_space, modify. pose proof (skip_space_hex (co_mask c) [] ltac:(lia)) as Hs. rewrite app_nil_r in Hs. by rewrite Hs.
Qed.

Lemma collect_text_chars c : collect_ok c → Forall (λ x, x ≠ 44 ∧ x ≠ 0) (collect_text c) ∧ (1 < length (collect_text c))%nat.
Proof.
  intros Hc. pose proof (cok_mask _ Hc) as Hm. unfold is_u32 in Hm.
  assert (Hd : ∀ n, Forall (λ x, x ≠ 44 ∧ x ≠ 0) (decimal n)).
  { intros n. eapply Forall_impl; [apply decimal_digits|]. cbn. intros x H%bool_decide_eq_true. lia. }
  destruct (hexadecimal_spec false (co_mask c) ltac:(lia)) as (Hx & _). unfold collect_text. split.
  - apply Forall_app. split; [apply Hd|]. constructor; [done|]. apply Forall_app. split; [apply Hd|].
    unfold mask_text. case_bool_decide; constructor; [done|]. eapply Forall_impl; [exact Hx|]. intros x Hd'. split; by intros ->.
  - rewrite length_app. pose proof (decimal_nonempty (co_node c)). destruct (decimal (co_node c)); [done|].
    cbn [length]. lia.
Qed.

(** Entries are stored one after the other as long as there is room. *)
Lemma init_loop_run cs s : ∀ (pre : list param_collector_config_s) (room : nat), Forall collect_ok cs →
  init_loop (collect_text <$> cs) (length pre) (pre ++ replicate room collect_zero) s =
    if bool_decide (length cs ≤ room)%nat then Some (pre ++ cs ++ replicate (room - length cs) collect_zero, s) else None.
Proof.
  induction cs as [|c cs IH]; intros pre room Hcs; cbn [fmap list_fmap init_loop length].
  { rewrite bool_decide_true by lia. by rewrite Nat.sub_0_r. }
  inversion Hcs as [|? ? Hc Hcs']; subst. destruct (collect_text_chars c Hc) as [_ Hl].
  rewrite (bool_decide_true (1 < _)%nat), (parse_collect_text c Hc) by done. rewrite length_app, length_replicate.
  destruct room as [|room].
  - rewrite (bool_decide_false (_ < _)%nat), (bool_decide_false (_ ≤ 0)%nat) by lia. done.
  - rewrite (bool_decide_true (_ < _)%nat) by lia. cbn [replicate].
    assert (mk_collect (u8 (co_node c)) (co_interval c) (co_mask c) 0 = c) as ->.
    { pose proof (cok_node _ Hc). rewrite <- (cok_time _ Hc). unfold u8, wrap. rewrite Z.mod_small by (change (2 ^ 8) with 256; lia). by destruct c. }
    assert (<[length pre := c]> (pre ++ collect_zero :: replicate room collect_zero) = (pre ++ [c]) ++ replicate room collect_zero) as ->.
    { rewrite <- (Nat.add_0_r (length pre)), insert_app_r, <- app_assoc. done. }
    replace (S (length pre)) with (length (pre ++ [c])) by (rewrite length_app; cbn; lia).
    rewrite IH by done. rewrite (bool_decide_ext (length cs ≤ room)%nat (S (length cs) ≤ S room)%nat) by lia.
    case_bool_decide; [|done]. by rewrite <- !app_assoc.
Qed.
End Parse.

(** The collector loads the entries of its configuration text, each with its node,
    interval and mask, and clears the rest of its sixteen; a text of more than sixteen entries,
    for which the parameter's hundred characters have room, is stored past the end of the
    array. *)
Theorem param_collector_init_outcome `{ParamEnv} (s : pstate) (col_cnfstr : nat) (cs : list param_collector_config_s) (rest : list Z) :
  Forall collect_ok cs → param_get_data col_cnfstr 100 s = Some (joined (collect_text <$> cs) ++ 0 :: rest, s) →
  param_collector_init col_cnfstr s =
    if bool_decide (length cs ≤ 16)%nat then Some (cs ++ replicate (16 - length cs) collect_zero, s) else None.
Proof.
  intros Hcs Hg. unfold param_collector_init. run Hg. set (text := joined (collect_text <$> cs)) in *.
  assert (Hch : Forall (λ x, x ≠ 0) text).
  { apply joined_chars; [done|]. apply Forall_fmap. eapply Forall_impl; [exact Hcs|].
    intros c Hc. eapply Forall_impl; [apply (collect_text_chars c Hc)|]. by intros x [_ ?]. }
  run (lift_opt_run_gen _ _ s (c_strlen_app text rest Hch)). rewrite Nat2Z.id, take_app_length. unfold text.
  rewrite strtok_joined; [by apply (init_loop_run cs s [] 16)|].
  apply Forall_fmap. eapply Forall_impl; [exact Hcs|]. intros c Hc. destruct (collect_text_chars c Hc) as [H1 H2]. split.
  - eapply Forall_impl; [exact H1|]. by intros x [? _].
  - intros H0. rewrite H0 in H2. cbn in H2. lia.
Qed.

(** Seventeen times [1 1], in RAM. *)
Definition collect_one : param_collector_config_s := mk_collect 1 1 0xFFFFFFFF 0.
Definition collector_state (n : nat) : pstate :=
  mk_pstate {[ 0%nat := take 100 (joined (replicate n (collect_text collect_one)) ++ replicate 100 0) ]} []
    {[ 0%nat := mk_param 1 0 PARAM_TYPE_STRING PM_CONF [] None None 0 0 None 100 1 None 0 None ]} 1 None ∅ ∅ [] (mk_app [] 0 0 0).
#[local] Instance collector_env : ParamEnv := {|
  fopen_w_ok _ := true; ParamState.run_callback _ _ _ := mret (); calloc_block _ := None; have_critical := false;
  indeterminate := 0; ptr_block _ := None |}.

Lemma param_collector_init_outcome_witness :
  param_collector_init 0 (collector_state 3) = Some (replicate 3 collect_one ++ replicate 13 collect_zero, collector_state 3) ∧
  param_collector_init 0 (collector_state 17) = None.
Proof.
  assert (Hok : ∀ n, Forall collect_ok (replicate n collect_one)).
  { intros n. apply Forall_replicate. split; cbn; unfold is_u32; lia. }
  split.
  - by rewrite (param_collector_init_outcome (collector_state 3) 0 (replicate 3 collect_one) (replicate 88 0) (Hok 3%nat)) by (vm_compute; reflexivity).
  - by rewrite (param_collector_init_outcome (collector_state 17) 0 (replicate 17 collect_one) (replicate 32 0) (Hok 17%nat)) by (vm_compute; reflexivity).
Defined.

(** A round in which nothing is due sends nothing and changes nothing. *)
Lemma collect_round_idle `{Env} `{ParamEnv} clock_sec fuel col_run col_verbose (k : stack) (s : pstate) config v now :
  param_get_uint8 col_run s = Some (v, s) → csp_get_ms k = Some (now, k) → length config = 16%nat →
  Forall (λ c, co_node c = 0 ∨ v = 0 ∨ not_due now c = true) config →
  param_collector_pass clock_sec fuel col_run col_verbose config (k, s) = Some (config, (k, s)).
Proof.
  intros Hrun Hms Hlen Hall. unfold param_collector_pass.
  assert (Hn : ∀ n i, (i + n = 16)%nat → collect_round clock_sec fuel col_run col_verbose n i config (k, s) = Some (config, (k, s))); [|by apply Hn].
  induction n as [|n IH]; intros i Hi; [done|]. cbn [collect_round].
  destruct (lookup_lt_is_Some_2 config i) as [c Hc]; [lia|]. run (lift_opt_run_gen _ _ (k, s) Hc).
  case_bool_decide as Hnode; [done|]. run (on_snd_run (param_get_uint8 col_run) s v s k Hrun).
  case_bool_decide as Hstop; [apply IH; lia|]. run (on_fst_run csp_get_ms k now k s Hms).
  rewrite Forall_lookup in Hall. destruct (Hall i c Hc) as [?|[?|Hd]]; [done|done|]. rewrite Hd. apply IH. lia.
Qed.
