(* ===== verification/ObjMeta.v ===== *)
(** * Objects of one type

    The callbacks and loops [param_scheduler.c] and [param_commands.c] share, each for its
    own type of objects: finding the object with the last identifier given out, counting
    objects, going to the n-th, and reading a field of a stored structure; and the hooks
    for the locks.  The structures are stored without the pointer they begin with. *)

From S2P Require Import ParamState Objstore Prelude.

Definition UINT16_MAX : Z := 65535.

(** The lock functions the application provides. *)
Class SiLock := {
  lock_t : Type;
  si_lock_init : lock_t;
  si_lock_take : Z → lock_t → Z * lock_t;
  si_lock_give : lock_t → lock_t;
}.

Section ObjMeta.
Context {S : Type} `{VmemOps S}.

(** [find_meta_scancb] *)
Definition find_type_scancb (ty offset : Z) (ctx : ()) : ST S (Z * ()) :=
  type ← objstore_read_obj_type offset;
  mret (if bool_decide (type = ty) then -1 else 0, ctx).

(** [next_schedule_scancb], [next_command_scancb] *)
Definition next_scancb (ty offset ctx : Z) : ST S (Z * Z) :=
  type ← objstore_read_obj_type offset;
  if bool_decide (type ≠ ty) then mret (0, ctx) else
  length ← objstore_read_obj_length offset;
  if bool_decide (length < 0) then mret (0, ctx) else
  if bool_decide (ctx = 0) then mret (-1, ctx) else mret (0, ctx - 1).

(** [num_schedule_scancb], [num_commands_scancb] *)
Definition num_scancb (ty offset ctx : Z) : ST S (Z * Z) :=
  type ← objstore_read_obj_type offset;
  if bool_decide (type ≠ ty) then mret (0, ctx) else mret (0, ctx + 1).

(** [get_number_of_schedule_objs], [get_number_of_command_objs] *)
Definition get_number_of_objs (ty : Z) : ST S Z :=
  '(_, n) ← objstore_scan (num_scancb ty) 0;
  mret n.

Definition find_meta (ty : Z) : ST S Z :=
  '(offset, _) ← objstore_scan (find_type_scancb ty) ();
  mret offset.

(** The n-th object. *)
Definition find_nth (ty obj_skips : Z) : ST S Z :=
  '(offset, _) ← objstore_scan (next_scancb ty) obj_skips;
  mret offset.

(** [meta_obj_save] with [meta_obj.last_id]. *)
Definition meta_obj_save (ty last_id : Z) : ST S () :=
  offset ← find_meta ty;
  if bool_decide (offset < 0) then mret () else objstore_write_obj offset ty 2 (le_bytes 2 last_id).

(** [objstore_read_obj] into the two bytes of [meta_obj]. *)
Definition meta_obj_read (offset last_id : Z) : ST S (Z * Z) :=
  '(rc, data) ← objstore_read_obj offset;
  match data with
  | None => mret (rc, last_id)
  | Some d => m ← lift_opt (mem_write (le_bytes 2 last_id) 0 d); mret (rc, le_val m)
  end.

(** The next identifier. *)
Definition next_id (last_id : Z) : Z :=
  let id := u16 (last_id + 1) in if bool_decide (id = UINT16_MAX) then 0 else id.

(** A member of the stored structure: its offset in the structure less the pointer. *)
Definition member_at (offset field : Z) : Z := offset + OBJ_HEADER_LENGTH - 8 + field.

(** The largest identifier among the objects. *)
Fixpoint max_id_loop (n : nat) (i ty field max_id : Z) : ST S Z :=
  match n with
  | O => mret max_id
  | Datatypes.S n' =>
      offset ← find_nth ty i;
      if bool_decide (offset < 0) then max_id_loop n' (i + 1) ty field max_id else
      read_id ← read_u16 (member_at offset field);
      max_id_loop n' (i + 1) ty field (if bool_decide (max_id < read_id) then read_id else max_id)
  end.

(** [meta_obj_init] between taking and giving the lock: the new [meta_obj.last_id]. *)
Definition meta_obj_init (meta_ty ty field last_id : Z) : ST S Z :=
  offset ← find_meta meta_ty;
  if bool_decide (offset < 0) then
    offset ← objstore_alloc 2;
    objstore_write_obj offset meta_ty 2 (le_bytes 2 UINT16_MAX);;
    mret UINT16_MAX
  else
    '(rc, last_id) ← meta_obj_read offset last_id;
    if bool_decide (rc < 0) then
      num ← get_number_of_objs ty;
      max_id ← max_id_loop (Z.to_nat num) 0 ty field 0;
      let last_id := if bool_decide (num ≤ 0) then UINT16_MAX else max_id in
      objstore_write_obj offset meta_ty 2 (le_bytes 2 last_id);;
      mret last_id
    else mret last_id.
End ObjMeta.

(** ** What the callbacks find *)

Section Found.
Context {S : Type} `{VmemLaws S}.
Implicit Types (s : S) (l : list seg) (o : obj) (ty : Z).

(** The objects of a type, with their offsets. *)
Definition of_type ty (objs : list (Z * obj)) : list (Z * obj) := filter (λ x, o_type x.2 = ty) objs.

(** The offset of an entry of a list of objects, -1 when there is none. *)
Definition offset_or (x : option (Z * obj)) : Z := match x with Some (off, _) => off | None => -1 end.

Lemma of_type_cons_ne ty off o objs : o_type o ≠ ty → of_type ty ((off, o) :: objs) = of_type ty objs.
Proof. intros Hne. unfold of_type. by rewrite filter_cons_False. Qed.

Lemma of_type_cons_eq ty off o objs : o_type o = ty → of_type ty ((off, o) :: objs) = (off, o) :: of_type ty objs.
Proof. intros He. unfold of_type. by rewrite filter_cons_True. Qed.

Lemma scan_store s l {X} (callback : Z → X → ST S (Z * X)) f x :
  store s l → reads_as callback f (objects 0 l) s →
  objstore_scan callback x s = Some (scan_spec f (objects 0 l) x, s).
Proof. intros Hst Hcb. apply objstore_scan_run; [by apply store_holds|apply Hst|done]. Qed.

Lemma type_store s l off o : store s l → (off, o) ∈ objects 0 l → objstore_read_obj_type off s = Some (o_type o, s).
Proof. intros Hst Hin. destruct (store_obj_at s l off o Hst Hin) as (? & ? & -> & Hoff & Hm & Ho). by eapply obj_type_at. Qed.

Lemma length_store s l off o :
  store s l → (off, o) ∈ objects 0 l → objstore_read_obj_length off s = Some (Z.of_nat (length (o_data o)), s).
Proof. intros Hst Hin. destruct (store_obj_at s l off o Hst Hin) as (? & ? & -> & Hoff & Hm & Ho). by eapply obj_length_at. Qed.

Lemma read_store s l off o :
  store s l → (off, o) ∈ objects 0 l →
  objstore_read_obj off s = Some ((if bool_decide (o_check o = xor_sum (o_data o)) then 0 else -2, Some (o_data o)), s).
Proof. intros Hst Hin. destruct (store_obj_at s l off o Hst Hin) as (? & ? & -> & Hoff & Hm & Ho). by eapply obj_read_at. Qed.

(** A part of the data of an object. *)
Lemma member_store s l off o (k n : nat) :
  store s l → (off, o) ∈ objects 0 l → (k + n ≤ length (o_data o))%nat →
  vm_read (u32 (off + OBJ_HEADER_LENGTH + Z.of_nat k)) (Z.of_nat n) s = Some (take n (drop k (o_data o)), s).
Proof.
  intros Hst Hin Hk. destruct (store_obj_at s l off o Hst Hin) as (pre & post & -> & Hoff & Hm & Ho).
  destruct (obj_data_split (store_bytes pre) (store_bytes post) o off Hoff) as (a' & _ & Heq & Ha' & _). rewrite Heq in Hm.
  assert (Hsplit : o_data o = take k (o_data o) ++ take n (drop k (o_data o)) ++ drop (k + n) (o_data o)).
  { rewrite <- (take_drop k (o_data o)) at 1. f_equal. rewrite <- (take_drop n (drop k (o_data o))) at 1. by rewrite drop_drop. }
  rewrite Hsplit, <- !app_assoc, app_assoc in Hm. eapply holds_read; [exact Hm|..].
  - rewrite length_app, length_take. unfold OBJ_HEADER_LENGTH. lia.
  - rewrite length_take, length_drop. lia.
Qed.

(** A scan for the first object with a property. *)
Definition stop_at (P : obj → Prop) `{∀ o, Decision (P o)} (off : Z) o (x : ()) : Z * () :=
  (if bool_decide (P o) then -1 else 0, x).

Lemma scan_stop_at (P : obj → Prop) `{∀ o, Decision (P o)} objs :
  (scan_spec (stop_at P) objs () = (-1, ()) ∧ Forall (λ x, ¬ P x.2) objs) ∨
  (∃ A off o B, objs = A ++ (off, o) :: B ∧ Forall (λ x, ¬ P x.2) A ∧ P o ∧ scan_spec (stop_at P) objs () = (off, ())).
Proof.
  induction objs as [|[off o] objs IH]; [by left|]. cbn [scan_spec].
  destruct (decide (P o)) as [Hi|Hi].
  - assert (stop_at P off o () = (-1, ())) as -> by (unfold stop_at; by rewrite bool_decide_true).
    right. exists [], off, o, objs. done.
  - assert (stop_at P off o () = (0, ())) as -> by (unfold stop_at; by rewrite bool_decide_false).
    rewrite (bool_decide_false (0 < 0)) by lia.
    destruct IH as [[H1' H2']|(A & off' & o' & B & -> & HA & Hi' & Hr)]; [left|right].
    + split; [done|by constructor].
    + exists ((off, o) :: A), off', o', B. split; [done|]. split; [by constructor|]. done.
Qed.

Lemma find_meta_run s l ty : store s l → find_meta ty s = Some (offset_or (head (of_type ty (objects 0 l))), s).
Proof.
  intros Hst. unfold find_meta.
  set (f := λ (off : Z) (o : obj) (x : ()), (if bool_decide (o_type o = ty) then -1 else 0, x)).
  assert (Hcb : reads_as (find_type_scancb ty) f (objects 0 l) s).
  { intros off o x Hin. unfold find_type_scancb. run (type_store s l off o Hst Hin). done. }
  run (scan_store s l _ f () Hst Hcb).
  assert (Hf : ∀ objs, (scan_spec f objs ()).1 = offset_or (head (of_type ty objs))).
  { induction objs as [|[off o] objs IH]; [done|]. cbn [scan_spec]. unfold f at 1. destruct (decide (o_type o = ty)) as [He|He].
    - rewrite of_type_cons_eq, (bool_decide_true (o_type o = ty)) by done. done.
    - rewrite of_type_cons_ne, (bool_decide_false (o_type o = ty)) by done. exact IH. }
  rewrite <- Hf. by destruct (scan_spec f (objects 0 l) ()).
Qed.

Lemma find_nth_run s l ty (k : nat) :
  store s l → find_nth ty (Z.of_nat k) s = Some (offset_or (of_type ty (objects 0 l) !! k), s).
Proof.
  intros Hst. unfold find_nth.
  set (f := λ (off : Z) (o : obj) (x : Z), if bool_decide (o_type o = ty) then if bool_decide (x = 0) then (-1, x) else (0, x - 1) else (0, x)).
  assert (Hcb : reads_as (next_scancb ty) f (objects 0 l) s).
  { intros off o x Hin. unfold next_scancb, f. run (type_store s l off o Hst Hin). case_bool_decide as He.
    - by rewrite (bool_decide_false (o_type o = ty)).
    - rewrite (bool_decide_true (o_type o = ty)) by (destruct (decide (o_type o = ty)); [done|by exfalso]).
      run (length_store s l off o Hst Hin). rewrite bool_decide_false by lia. by case_bool_decide. }
  run (scan_store s l _ f (Z.of_nat k) Hst Hcb).
  assert (Hf : ∀ objs (k : nat), (scan_spec f objs (Z.of_nat k)).1 = offset_or (of_type ty objs !! k)).
  { clear. induction objs as [|[off o] objs IH]; intros k; [by destruct k|]. cbn [scan_spec]. unfold f at 1.
    destruct (decide (o_type o = ty)) as [He|He].
    - rewrite of_type_cons_eq, (bool_decide_true (o_type o = ty)) by done. destruct k as [|k]; [done|].
      rewrite (bool_decide_false (Z.of_nat _ = 0)) by lia. cbv beta iota. rewrite (bool_decide_false (0 < 0)) by lia.
      replace (Z.of_nat (Datatypes.S k) - 1) with (Z.of_nat k) by lia. rewrite IH. done.
    - rewrite of_type_cons_ne, (bool_decide_false (o_type o = ty)) by done. apply IH. }
  rewrite <- Hf. by destruct (scan_spec f (objects 0 l) (Z.of_nat k)).
Qed.

Lemma get_number_run s l ty :
  store s l → get_number_of_objs ty s = Some (Z.of_nat (length (of_type ty (objects 0 l))), s).
Proof.
  intros Hst. unfold get_number_of_objs.
  set (f := λ (off : Z) (o : obj) (x : Z), (0, if bool_decide (o_type o = ty) then x + 1 else x)).
  assert (Hcb : reads_as (num_scancb ty) f (objects 0 l) s).
  { intros off o x Hin. unfold num_scancb, f. run (type_store s l off o Hst Hin). destruct (decide (o_type o = ty)).
    - by rewrite (bool_decide_false (o_type o ≠ ty)), (bool_decide_true (o_type o = ty)) by congruence.
    - by rewrite (bool_decide_true (o_type o ≠ ty)), (bool_decide_false (o_type o = ty)) by congruence. }
  run (scan_store s l _ f 0 Hst Hcb).
  assert (Hf : ∀ objs x, (scan_spec f objs x).2 = x + Z.of_nat (length (of_type ty objs))).
  { clear. induction objs as [|[off o] objs IH]; intros x; [simpl; lia|]. cbn [scan_spec]. unfold f at 1.
    rewrite bool_decide_false by lia. rewrite IH. destruct (decide (o_type o = ty)) as [He|He].
    - rewrite of_type_cons_eq, bool_decide_true by done. simpl length. lia.
    - by rewrite of_type_cons_ne, bool_decide_false by done. }
  specialize (Hf (objects 0 l) 0). destruct (scan_spec f (objects 0 l) 0). simpl in Hf. by rewrite Hf.
Qed.
End Found.

(** ** Members of stored structures

    The data of an object are a structure without its first eight bytes. *)

Section Members.
Implicit Types (d bs : list Z) (off n : nat).

Definition member d off n : Z := le_val (take n (drop (off - 8) d)).
Definition edit off n (v : Z) d : list Z := patch d (off - 8) (le_bytes n v).

(** The member lies in the data. *)
Definition has_member off n d : Prop := (8 ≤ off ∧ off - 8 + n ≤ length d)%nat.

Lemma member_read d off n :
  has_member off n d → mem_read d (Z.of_nat (off - 8)) (Z.of_nat n) = Some (take n (drop (off - 8) d)).
Proof. intros [H1 H2]. apply mem_read_Some. rewrite !Nat2Z.id. split_and!; [lia..|done]. Qed.

Lemma edit_write d off n v :
  has_member off n d → mem_write d (Z.of_nat (off - 8)) (le_bytes n v) = Some (edit off n v d).
Proof.
  intros [H1 H2]. apply mem_write_Some. rewrite length_le_bytes, !Nat2Z.id. split_and!; [lia..|].
  unfold edit, patch. by rewrite length_le_bytes.
Qed.

Lemma length_edit d off n v : has_member off n d → length (edit off n v d) = length d.
Proof. intros Hd. by apply (mem_write_length _ _ _ _ (edit_write d off n v Hd)). Qed.

Lemma has_member_edit off n d off' n' v : has_member off' n' d → has_member off n d → has_member off n (edit off' n' v d).
Proof. intros Hd' Hd. unfold has_member. by rewrite (length_edit d off' n' v Hd'). Qed.

Lemma member_edit_eq d off n v : has_member off n d → member (edit off n v d) off n = v mod 256 ^ Z.of_nat n.
Proof.
  intros Hd. pose proof (mem_read_write_eq _ _ _ _ (edit_write d off n v Hd)) as Hr. rewrite length_le_bytes in Hr.
  rewrite (member_read (edit off n v d)) in Hr by by apply has_member_edit. injection Hr as Hr.
  unfold member. by rewrite Hr, le_val_le_bytes.
Qed.

Lemma member_edit_ne d off n v off' n' :
  has_member off n d → has_member off' n' d → (off + n ≤ off' ∨ off' + n' ≤ off)%nat →
  member (edit off n v d) off' n' = member d off' n'.
Proof.
  intros Hd Hd' Hne. pose proof (mem_read_write_ne _ _ _ _ (Z.of_nat (off' - 8)) (Z.of_nat n') (edit_write d off n v Hd)) as Hr.
  rewrite !member_read in Hr by first [done|by apply has_member_edit]. unfold member. unfold has_member in *.
  rewrite length_le_bytes in Hr. by injection Hr as ->; [|lia].
Qed.

Lemma edit_bytes_ok d off n v : has_member off n d → bytes_ok d → bytes_ok (edit off n v d).
Proof. intros Hd Hb. eapply mem_write_bytes_ok; [exact Hb|apply le_bytes_ok|by apply edit_write]. Qed.
End Members.

(** ** Objects replaced in place *)

Section Replace.
Context {S : Type} `{VmemLaws S}.
Implicit Types (s : S) (l pre post : list seg) (o : obj) (d : list Z).

(** The last byte is not used, so that no check sum lies there. *)
Definition spare l : Prop := ∃ l0 b, l = l0 ++ [Gap b].

Lemma spare_post pre o post : spare (pre ++ Obj o :: post) → post ≠ [].
Proof.
  intros (l0 & b & Heq) ->. apply (f_equal last) in Heq. rewrite !last_snoc in Heq. done.
Qed.

Lemma spare_replace pre mid post : spare (pre ++ mid ++ post) → post ≠ [] → ∀ mid', spare (pre ++ mid' ++ post).
Proof.
  intros (l0 & b & Heq) Hp mid'. destruct post as [|g post _] using rev_ind; [done|].
  rewrite !app_assoc in Heq. apply app_inj_tail in Heq as [_ ->]. exists (pre ++ mid' ++ post), b. by rewrite !app_assoc.
Qed.

Lemma objects_middle off l done_ x o todo :
  objects off l = done_ ++ (x, o) :: todo →
  ∃ pre post, l = pre ++ Obj o :: post ∧ objects off pre = done_ ∧ x = off + Z.of_nat (length (store_bytes pre)) ∧
    objects (x + Z.of_nat (length (o_data o)) + 8) post = todo.
Proof.
  revert off done_. induction l as [|[b|o'] l IH]; intros off done_ Heq; [by destruct done_|..].
  - destruct (IH _ _ Heq) as (pre & post & -> & <- & -> & <-). exists (Gap b :: pre), post. split; [done|]. split; [done|].
    rewrite encode_cons, length_app. cbn [encode_seg]. simpl length. split; [lia|]. done.
  - cbn [objects] in Heq. destruct done_ as [|y done_]; injection Heq as Hx Hl.
    + subst x o'. exists [], l. split; [done|]. split; [done|]. simpl. split; [lia|]. done.
    + destruct (IH _ _ Hl) as (pre & post & -> & <- & -> & <-). exists (Obj o' :: pre), post. split; [done|].
      split; [by rewrite <- Hx|]. rewrite encode_cons, length_app. cbn [encode_seg]. rewrite length_encode_obj. split; [lia|]. done.
Qed.

(** An object replaced by one of its size. *)
Lemma objects_put off pre o o' post :
  length (o_data o') = length (o_data o) →
  objects off (pre ++ Obj o' :: post) =
    objects off pre ++ (off + Z.of_nat (length (store_bytes pre)), o') ::
      objects (off + Z.of_nat (length (store_bytes pre)) + Z.of_nat (length (o_data o)) + 8) post.
Proof. intros Hl. rewrite objects_app. cbn [objects]. by rewrite Hl. Qed.

(** Where there is room does not change. *)
Lemma first_room_put n pre o o' post : length (o_data o') = length (o_data o) →
  ∀ off counter, first_room n off counter (pre ++ Obj o' :: post) = first_room n off counter (pre ++ Obj o :: post).
Proof.
  intros Hl. induction pre as [|[b|o0] pre IH]; intros off counter; cbn [app first_room]; [by rewrite Hl|by rewrite IH|by rewrite IH].
Qed.

(** The object [d] of the type written over the one at [off]. *)
Lemma store_rewrite_room s l done_ off o todo d data :
  store s l → spare l → objects 0 l = done_ ++ (off, o) :: todo → length d = length (o_data o) → bytes_ok d →
  mem_read data 0 (Z.of_nat (length d)) = Some d →
  ∃ s' l', objstore_write_obj off (o_type o) (Z.of_nat (length d)) data s = Some ((), s') ∧ vm_kept s s' ∧ store s' l' ∧
    spare l' ∧ objects 0 l' = done_ ++ (off, mk_obj (o_type o) d (xor_sum d)) :: todo ∧
    ∀ n, first_room n 0 0 l' = first_room n 0 0 l.
Proof.
  intros Hst Hsp Hobj Hl Hb Hr. destruct (objects_middle 0 l _ _ _ _ Hobj) as (pre & post & -> & Hd & Hoff & Ht).
  assert (Ho : obj_ok o). { pose proof (la_segs _ (proj2 Hst)) as Hok. rewrite Forall_app, Forall_cons in Hok. apply Hok. }
  pose proof (spare_post _ _ _ Hsp) as Hp. rewrite Z.add_0_l in Hoff.
  destruct (store_write s pre [Obj o] post off (o_type o) d data Hst Hoff) as (s' & R & K & _ & Hst').
  - cbn [store_bytes map concat encode_seg]. rewrite app_nil_r, length_encode_obj. lia.
  - done.
  - rewrite Hl. apply Ho.
  - done.
  - done.
  - assert (Hty : u8 (o_type o) = o_type o) by (apply u8_id, Ho). rewrite Hty in Hst'.
    exists s', (pre ++ Obj (mk_obj (o_type o) d (xor_sum d)) :: post). split; [done|]. split; [done|].
    split; [apply Hst', (ends_ok_written s pre [Obj o] post _ Hst); [done|by right]|].
    split; [by apply (spare_replace pre [Obj o] post Hsp Hp [Obj _])|]. split; [rewrite (objects_put 0 pre o _ post) by done; by rewrite Hd, Z.add_0_l, <- Hoff, Ht|].
    intros n. by apply first_room_put.
Qed.

Lemma store_rewrite s l done_ off o todo d data :
  store s l → spare l → objects 0 l = done_ ++ (off, o) :: todo → length d = length (o_data o) → bytes_ok d →
  mem_read data 0 (Z.of_nat (length d)) = Some d →
  ∃ s' l', objstore_write_obj off (o_type o) (Z.of_nat (length d)) data s = Some ((), s') ∧ vm_kept s s' ∧ store s' l' ∧
    spare l' ∧ objects 0 l' = done_ ++ (off, mk_obj (o_type o) d (xor_sum d)) :: todo.
Proof.
  intros Hst Hsp Hobj Hl Hb Hr.
  destruct (store_rewrite_room s l done_ off o todo d data Hst Hsp Hobj Hl Hb Hr) as (s' & l' & R & K & Hst' & Hsp' & Hobj' & _).
  by exists s', l'.
Qed.


(** A member written in place. *)
Lemma store_edit s l done_ off o todo (fo n : nat) v :
  store s l → spare l → objects 0 l = done_ ++ (off, o) :: todo → has_member fo n (o_data o) →
  ∃ s' l', objstore_write_data off (OBJ_HEADER_LENGTH - 8 + Z.of_nat fo) (le_bytes n v) s = Some ((), s') ∧ vm_kept s s' ∧
    store s' l' ∧ spare l' ∧
    objects 0 l' = done_ ++ (off, mk_obj (o_type o) (edit fo n v (o_data o)) (xor_sum (edit fo n v (o_data o)))) :: todo.
Proof.
  intros Hst Hsp Hobj [Hm1 Hm2]. destruct (objects_middle 0 l _ _ _ _ Hobj) as (pre & post & -> & Hd & Hoff & Ht).
  pose proof (spare_post _ _ _ Hsp) as Hp. rewrite Z.add_0_l in Hoff.
  destruct (store_patch s pre o post off (fo - 8) (le_bytes n v) Hst Hoff) as (s' & R & K & _ & Hst'); [by rewrite length_le_bytes|apply le_bytes_ok|].
  change (patch (o_data o) (fo - 8) (le_bytes n v)) with (edit fo n v (o_data o)) in Hst'. set (d' := edit fo n v (o_data o)) in *.
  exists s', (pre ++ Obj (mk_obj (o_type o) d' (xor_sum d')) :: post).
  replace (OBJ_HEADER_LENGTH - 8 + Z.of_nat fo) with (OBJ_HEADER_LENGTH + Z.of_nat (fo - 8)) by lia.
  split; [done|]. split; [done|]. split; [apply Hst', (ends_ok_written s pre [Obj o] post _ Hst); [done|by right]|].
  split; [by apply (spare_replace pre [Obj o] post Hsp Hp [Obj _])|].
  rewrite (objects_put 0 pre o _ post) by (by apply length_edit). rewrite Hd, Z.add_0_l, <- Hoff, Ht. done.
Qed.

(** An object removed. *)
Lemma store_remove s l done_ off o todo :
  store s l → spare l → objects 0 l = done_ ++ (off, o) :: todo →
  ∃ s' l', objstore_rm_obj off s = Some (0, s') ∧ vm_kept s s' ∧ store s' l' ∧ spare l' ∧ objects 0 l' = done_ ++ todo.
Proof.
  intros Hst Hsp Hobj. destruct (objects_middle 0 l _ _ _ _ Hobj) as (pre & post & -> & Hd & Hoff & Ht).
  pose proof (spare_post _ _ _ Hsp) as Hp. rewrite Z.add_0_l in Hoff.
  destruct (store_rm s pre o post off Hst Hoff) as (s' & R & K & Hst'). eexists s', _. split; [done|]. split; [done|].
  split; [done|]. split; [by apply (spare_replace pre [Obj o] post Hsp Hp)|].
  rewrite !objects_app, objects_gaps, encode_gaps, length_replicate, Hd, Z.add_0_l, <- Hoff, <- Ht. cbn [app].
  do 2 f_equal. lia.
Qed.

(** ** The last identifier *)

Lemma meta_read_run s l off o last_id :
  store s l → (off, o) ∈ objects 0 l → length (o_data o) = 2%nat →
  ∃ rc, meta_obj_read off last_id s = Some ((rc, le_val (o_data o)), s).
Proof.
  intros Hst Hin Hl. unfold meta_obj_read. run (read_store s l off o Hst Hin). eexists.
  assert (Hw : mem_write (le_bytes 2 last_id) 0 (o_data o) = Some (o_data o)).
  { apply mem_write_Some. rewrite length_le_bytes, Hl. split; [lia|]. split; [lia|]. rewrite drop_ge, app_nil_r; [done|].
    rewrite length_le_bytes. simpl. lia. }
  run (lift_opt_run_gen _ _ s Hw). done.
Qed.

(** It is read and the next one is saved in its place. *)
Lemma meta_next_run s l A off o B last_id :
  store s l → spare l → objects 0 l = A ++ (off, o) :: B → of_type (o_type o) A = [] → length (o_data o) = 2%nat →
  let id := next_id (le_val (o_data o)) in
  find_meta (o_type o) s = Some (off, s) ∧ 0 ≤ off ∧
  (∃ rc, meta_obj_read off last_id s = Some ((rc, le_val (o_data o)), s)) ∧
  ∃ s' l', meta_obj_save (o_type o) id s = Some ((), s') ∧ vm_kept s s' ∧ store s' l' ∧ spare l' ∧
    objects 0 l' = A ++ (off, mk_obj (o_type o) (le_bytes 2 id) (xor_sum (le_bytes 2 id))) :: B ∧
    ∀ n, first_room n 0 0 l' = first_room n 0 0 l.
Proof.
  intros Hst Hsp Hobj HA Hl id.
  assert (Hhead : offset_or (head (of_type (o_type o) (objects 0 l))) = off).
  { rewrite Hobj. unfold of_type in *. rewrite filter_app, HA. rewrite filter_cons_True by done. done. }
  assert (Hoff : 0 ≤ off). { destruct (objects_middle 0 l _ _ _ _ Hobj) as (? & ? & _ & _ & -> & _). lia. }
  assert (Hin : (off, o) ∈ objects 0 l) by (rewrite Hobj; apply elem_of_app; right; apply list_elem_of_here).
  pose proof (find_meta_run s l (o_type o) Hst) as Hfind. rewrite Hhead in Hfind. split; [done|]. split; [done|].
  split; [by apply (meta_read_run s l)|].
  assert (Hl2 : length (le_bytes 2 id) = length (o_data o)) by (by rewrite length_le_bytes).
  destruct (store_rewrite_room s l A off o B (le_bytes 2 id) (le_bytes 2 id) Hst Hsp Hobj Hl2 (le_bytes_ok 2 id))
    as (s' & l' & R & Hrest).
  { apply mem_read_Some. split_and!; [lia..|]. by rewrite Nat2Z.id, drop_0, firstn_all. }
  exists s', l'. split; [|exact Hrest]. unfold meta_obj_save. run Hfind. rewrite bool_decide_false by lia. exact R.
Qed.

(** Room that was found is still there when objects were replaced in place, and leaves the
    last byte unused when it does not reach it. *)
Lemma room_kept s l n : store s l → 0 ≤ n → 0 ≤ first_room (n + 8) 0 0 l →
  objstore_alloc n s = Some (first_room (n + 8) 0 0 l, s) ∧
  ∀ l', first_room (n + 8) 0 0 l' = first_room (n + 8) 0 0 l → room_at (n + 8) (first_room (n + 8) 0 0 l) l'.
Proof.
  intros Hst Hn Hr. split; [apply objstore_alloc_run; [by apply store_holds|apply Hst]|].
  intros l' Heq. rewrite <- Heq in Hr |- *. by apply (first_room_found (n + 8) l' [] []); simpl; try lia.
Qed.

(** An object written where room was found. *)
Lemma store_add s l n off ty d data :
  store s l → spare l → first_room (n + 8) 0 0 l = off → 0 ≤ off → off + n + 8 < vm_size → 0 < n →
  n = Z.of_nat (length d) → n < 65536 → bytes_ok d → mem_read data 0 n = Some d → is_u8 ty →
  ∃ s' l', objstore_write_obj off ty n data s = Some ((), s') ∧ vm_kept s s' ∧ store s' l' ∧ spare l' ∧
    objects 0 l' ≡ₚ (off, mk_obj ty d (xor_sum d)) :: objects 0 l.
Proof.
  intros Hst Hsp Hoff H0' Hend Hn Hd Hn2 Hb Hr Hty.
  destruct (room_kept s l n Hst ltac:(lia) ltac:(lia)) as [_ Hroom]. specialize (Hroom l eq_refl). rewrite Hoff in Hroom.
  destruct Hroom as (pre & gaps & post & Hl & Hg & Heq). subst l. rewrite Hd in *.
  destruct (store_write s pre (map Gap gaps) post off ty d data Hst Heq) as (s' & R & K & _ & Hst').
  { rewrite encode_gaps. lia. }
  { by destruct gaps; [simpl in Hg; lia|]. }
  { lia. }
  { done. }
  { done. }
  assert (Hne : map Gap gaps ≠ []) by (by destruct gaps; [simpl in Hg; lia|]).
  assert (Hp : post ≠ []).
  { intros ->. rewrite (holds_size s _ (store_holds _ _ Hst)) in Hend. rewrite app_nil_r, encode_app, encode_gaps, length_app in Hend. lia. }
  rewrite (u8_id ty Hty) in Hst'. exists s', (pre ++ Obj (mk_obj ty d (xor_sum d)) :: post).
  split; [done|]. split; [done|]. split; [apply Hst', (ends_ok_written s pre _ post _ Hst Hne); by right|].
  split; [by apply (spare_replace pre (map Gap gaps) post Hsp Hp [Obj _])|].
  rewrite Heq. apply objects_replace. simpl. lia.
Qed.
End Replace.
