(* ===== verification/Commands.v ===== *)
(** * Stored commands

    [commands/param_commands.c]: queues of parameters kept under a name in an object store,
    and the requests that add, show, list and remove them. *)

From S2P Require Import Queue Types State Buffer Stack Net Rdp Conn Io Mpack ParamState Param ParamList ParamSer ParamServer Objstore ObjMeta Text Prelude.

Definition PARAM_COMMAND_ADD_RESPONSE : Z := 22.
Definition PARAM_COMMAND_SHOW_RESPONSE : Z := 24.
Definition PARAM_COMMAND_LIST_RESPONSE : Z := 26.
Definition PARAM_COMMAND_RM_RESPONSE : Z := 29.

(** The members of [param_queue_t] in a stored structure. *)
Definition OFF_BUFFER_SIZE : Z := 8.
Definition OFF_USED : Z := 10.
Definition OFF_VERSION : Z := 12.
Definition OFF_TYPE : Z := 13.
Definition OFF_LAST_NODE : Z := 34.
Definition OFF_LAST_TIMESTAMP : Z := 36.

(** [param_command_t] and [param_command_buf_t]. *)
Definition OFF_COMMAND_ID : Z := 40.
Definition OFF_NAME : Z := 42.
Definition SIZEOF_COMMAND : Z := 56.
Definition SIZEOF_COMMAND_BUF : nat := 256.

(** A member of a structure in memory. *)
Definition get_member (m : list Z) (off n : Z) : option Z := bs ← mem_read m off n; Some (le_val bs).
Definition set_member (off : Z) (n : nat) (v : Z) (m : list Z) : option (list Z) := mem_write m off (le_bytes n v).

(** [queue->type] *)
Definition queue_type_byte (t : param_queue_type_e) : Z :=
  match t with PARAM_QUEUE_TYPE_GET => 0 | PARAM_QUEUE_TYPE_SET => 1 | PARAM_QUEUE_TYPE_EMPTY => 2 end.

(** [param_queue_init] on a queue in memory; the pointer [buffer] is not kept. *)
Definition queue_init_at (buffer_size used type version : Z) (m : list Z) : option (list Z) :=
  m ← set_member OFF_BUFFER_SIZE 2 buffer_size m;
  m ← set_member OFF_TYPE 1 type m;
  m ← set_member OFF_USED 2 used m;
  m ← set_member OFF_VERSION 1 version m;
  set_member OFF_LAST_TIMESTAMP 4 0 m.

(** [name_copy] *)
Definition name_copy (output input : list Z) (length : Z) : option (list Z) :=
  bs ← mem_read input 0 length;
  output ← mem_write output 0 bs;
  mem_write output length [0].

Section Commands.
Context `{Env} `{ParamEnv} `{SiLock}.

(** [vmem_commands], and what the uninitialised local arrays [name] hold. *)
Context (vmem_commands : vmem_t) (junk : list Z).

#[local] Instance commands_ops : VmemOps pstate := vmem_ops vmem_commands.

(** The static variables [meta_obj], [temp_command] and [lock]. *)
Record cmd_t := mk_cmd { cm_last_id : Z; cm_temp : list Z; cm_lock : lock_t }.
Definition set_cm_last_id (v : Z) (c : cmd_t) : cmd_t := mk_cmd v (cm_temp c) (cm_lock c).
Definition set_cm_temp (v : list Z) (c : cmd_t) : cmd_t := mk_cmd (cm_last_id c) v (cm_lock c).
Definition set_cm_lock (v : lock_t) (c : cmd_t) : cmd_t := mk_cmd (cm_last_id c) (cm_temp c) v.

Abbreviation CM A := (ST (stack * pstate * cmd_t) A).
Definition cmK {A} (m : K A) : CM A := on_fst (on_fst m).
Definition cmP {A} (m : ST pstate A) : CM A := on_fst (on_snd m).

Definition cm_take (block_time_ms : Z) : CM Z := on_snd (λ c,
  let '(rc, l) := si_lock_take block_time_ms (cm_lock c) in Some (rc, set_cm_lock l c)).
Definition cm_give : CM () := on_snd (modify (λ c, set_cm_lock (si_lock_give (cm_lock c)) c)).
Definition cm_edit (f : list Z → option (list Z)) : CM () := on_snd (λ c,
  match f (cm_temp c) with Some m => Some ((), set_cm_temp m c) | None => None end).

(** [find_name_scancb]: the first [strlen(ctx)] characters are compared. *)
Fixpoint name_matches (name : list Z) (a : Z) : ST pstate bool :=
  match name with
  | [] => mret true
  | c :: name' => data ← read_byte a; if bool_decide (c = data) then name_matches name' (a + 1) else mret false
  end.

Definition find_name_scancb (name : list Z) (offset : Z) (ctx : ()) : ST pstate (Z * ()) :=
  type ← objstore_read_obj_type offset;
  if bool_decide (type ≠ OBJ_TYPE_COMMAND) then mret (0, ctx) else
  ok ← name_matches name (member_at offset OFF_NAME);
  mret (if ok : bool then -1 else 0, ctx).

Definition obj_offset_from_name (name : list Z) : ST pstate Z :=
  n ← lift_opt (c_strlen name);
  if bool_decide (n = 0) || bool_decide (13 < n) then mret (-1) else
  '(offset, _) ← objstore_scan (find_name_scancb (take (Z.to_nat n) name)) ();
  mret offset.

Definition command_add (request : nat) (q_type : Z) : CM Z :=
  p ← cmK (kget_packet request);
  name_length ← cmK (data_byte request 2);
  if bool_decide (pk_length p < 3 + name_length) then mret UINT16_MAX else
  let queue_size := pk_length p - 3 - name_length in
  if bool_decide (13 < name_length) then mret UINT16_MAX else
  input ← cmK (data_from request 3);
  tmp_name ← lift_opt (name_copy junk input name_length);
  old_offset ← cmP (obj_offset_from_name tmp_name);
  when (bool_decide (0 ≤ old_offset)) (cmP (objstore_rm_obj old_offset);; mret ());;
  let obj_length := SIZEOF_COMMAND + queue_size - 8 in
  rc ← cm_take 1000;
  if bool_decide (rc ≠ 0) then mret UINT16_MAX else
  obj_offset ← cmP (objstore_alloc obj_length);
  if bool_decide (obj_offset < 0) then cm_give;; mret UINT16_MAX else
  cm_edit (λ _, Some (replicate SIZEOF_COMMAND_BUF 0));;
  cm_edit (λ m, name ← name_copy (drop (Z.to_nat OFF_NAME) m) input name_length; mem_write m OFF_NAME name);;
  meta_offset ← cmP (find_meta OBJ_TYPE_COMMANDS_META);
  if bool_decide (meta_offset < 0) then cm_give;; mret UINT16_MAX else
  c ← gets snd;
  '(_, last_id) ← cmP (meta_obj_read meta_offset (cm_last_id c));
  let id := next_id last_id in
  on_snd (modify (set_cm_last_id id));;
  cmP (meta_obj_save OBJ_TYPE_COMMANDS_META id);;
  cm_edit (set_member OFF_COMMAND_ID 2 id);;
  cm_edit (queue_init_at queue_size queue_size q_type 2);;
  queue ← cmK (data_from request (3 + name_length));
  cm_edit (λ m, used ← get_member m OFF_USED 2; bs ← mem_read queue 0 used; mem_write m SIZEOF_COMMAND bs);;
  c ← gets snd;
  cmP (objstore_write_obj obj_offset OBJ_TYPE_COMMAND (u8 obj_length) (drop 8 (cm_temp c)));;
  cm_give;;
  mret id.

Definition param_serve_command_add (request : nat) : CM Z :=
  r ← cmK (liftC csp_buffer_get);
  match r with
  | None => cmK (kfree (Some request));; mret (-1)
  | Some response =>
      id ← command_add request 1;
      cmK (data_store response 0 [PARAM_COMMAND_ADD_RESPONSE]);;
      cmK (data_store response 1 [PARAM_FLAG_END]);;
      cmK (data_store response 2 (be_bytes 2 id));;
      cmK (kmod_packet response (set_pk_length 4));;
      cmK (csp_sendto_reply (Some request) response CSP_O_SAME);;
      cmK (kfree (Some request));;
      mret 0
  end.

(** [objstore_read_obj] into a [param_command_buf_t], behind the pointer. *)
Definition read_command (offset : Z) (buffer : list Z) : CM (list Z) :=
  '(_, data) ← cmP (objstore_read_obj offset);
  match data with None => mret buffer | Some d => lift_opt (mem_write buffer 8 d) end.

Definition param_serve_command_show (packet : nat) : CM Z :=
  name_length ← cmK (data_byte packet 2);
  input ← cmK (data_from packet 3);
  name ← lift_opt (name_copy junk input name_length);
  rc ← cm_take 1000;
  offset ← (if bool_decide (rc ≠ 0) then mret (-1) else cmP (obj_offset_from_name name));
  length ← (if bool_decide (offset < 0) then mret (-1) else cmP (objstore_read_obj_length offset));
  (if bool_decide (0 ≤ length) then
     m ← read_command offset (replicate SIZEOF_COMMAND_BUF 0);
     cm_edit (λ _, Some m);;
     cm_give;;
     cmK (data_store packet 0 [PARAM_COMMAND_SHOW_RESPONSE]);;
     cmK (data_store packet 1 [PARAM_FLAG_END]);;
     cmK (data_store packet 2 [u8 name_length]);;
     type ← lift_opt (get_member m OFF_TYPE 1);
     cmK (data_store packet 3 [type]);;
     bs ← lift_opt (mem_read m OFF_NAME name_length);
     cmK (data_store packet 4 bs);;
     used ← lift_opt (get_member m OFF_USED 2);
     bs ← lift_opt (mem_read m SIZEOF_COMMAND used);
     cmK (data_store packet (4 + name_length) bs);;
     cmK (kmod_packet packet (set_pk_length (u16 (4 + name_length + used))))
   else
     cm_give;;
     cmK (data_store packet 0 [PARAM_COMMAND_SHOW_RESPONSE]);;
     cmK (data_store packet 1 [PARAM_FLAG_END]);;
     cmK (data_store packet 2 [255]);;
     cmK (kmod_packet packet (set_pk_length 3)));;
  cmK (csp_sendto_reply (Some packet) packet CSP_O_SAME);;
  mret 0.

(** The inner loop of [param_serve_command_list]: [n] entries, the first one number
    [counter] at [idx]. *)
Fixpoint list_commands (n : nat) (response : nat) (counter idx : Z) : CM () :=
  match n with
  | O => mret ()
  | S n' =>
      offset ← cmP (find_nth OBJ_TYPE_COMMAND counter);
      when (bool_decide (0 ≤ offset))
        (name ← cmP (vm_read (u32 (member_at offset OFF_NAME)) 14);
         cmK (data_store response idx name));;
      list_commands n' response (counter + 1) (idx + 14)
  end.

Definition COMMANDS_PER_PACKET : Z := (PARAM_SERVER_MTU - 4) / 14.

(** The outer loop, a packet at a time, until [end] is set or no buffer is left. *)
Fixpoint list_command_packets (fuel : nat) (request : nat) (num_commands big_count : Z) : CM () :=
  match fuel with
  | O => ub
  | S fuel' =>
      r ← cmK (liftC csp_buffer_get);
      match r with
      | None => mret ()
      | Some response =>
          let first := big_count * COMMANDS_PER_PACKET in
          let fin := bool_decide (u32 (u32 (num_commands - first) * 14) < PARAM_SERVER_MTU - 4) in
          let loop_max := if fin then num_commands else first + COMMANDS_PER_PACKET in
          let entries := Z.max 0 (loop_max - first) in
          list_commands (Z.to_nat entries) response first 4;;
          cmK (data_store response 0 [PARAM_COMMAND_LIST_RESPONSE]);;
          (if fin then cm_give;; cmK (data_store response 1 [PARAM_FLAG_END])
           else cmK (data_store response 1 [0]));;
          cmK (data_store response 2 (be_bytes 2 entries));;
          cmK (kmod_packet response (set_pk_length (u16 (entries * 14 + 4))));;
          cmK (csp_sendto_reply (Some request) response CSP_O_SAME);;
          if fin then mret () else list_command_packets fuel' request num_commands (big_count + 1)
      end
  end.

Definition param_serve_command_list (request : nat) : CM Z :=
  rc ← cm_take 1000;
  if bool_decide (rc ≠ 0) then cmK (kfree (Some request));; mret (-1) else
  num_commands ← cmP (get_number_of_objs OBJ_TYPE_COMMAND);
  list_command_packets (S (Z.to_nat num_commands)) request num_commands 0;;
  cm_give;;
  cmK (kfree (Some request));;
  mret 0.

Definition param_serve_command_rm_single (packet : nat) : CM Z :=
  name_length ← cmK (data_byte packet 2);
  input ← cmK (data_from packet 3);
  name ← lift_opt (name_copy junk input name_length);
  rc ← cm_take 1000;
  if bool_decide (rc ≠ 0) then cmK (kfree (Some packet));; mret (-1) else
  offset ← cmP (obj_offset_from_name name);
  if bool_decide (offset < 0) then cm_give;; cmK (kfree (Some packet));; mret (-1) else
  rc ← cmP (objstore_rm_obj offset);
  if bool_decide (rc < 0) then cm_give;; cmK (kfree (Some packet));; mret (-1) else
  cm_give;;
  n ← lift_opt (c_strlen name);
  cmK (data_store packet 0 [PARAM_COMMAND_RM_RESPONSE]);;
  cmK (data_store packet 1 [PARAM_FLAG_END]);;
  cmK (data_store packet 2 (be_bytes 2 n));;
  bs ← lift_opt (mem_read name 0 (n + 1));
  cmK (data_store packet 4 bs);;
  cmK (kmod_packet packet (set_pk_length (u16 (4 + n + 1))));;
  cmK (csp_sendto_reply (Some packet) packet CSP_O_SAME);;
  mret 0.

Definition rmallcmds : list Z := [82; 77; 65; 76; 76; 67; 77; 68; 83].

(** The loop that removes the first object [n] times, counting. *)
Fixpoint rm_all_loop (n : nat) (ty deleted : Z) : ST pstate Z :=
  match n with
  | O => mret deleted
  | S n' =>
      offset ← find_nth ty 0;
      if bool_decide (offset < 0) then rm_all_loop n' ty deleted else
      rc ← objstore_rm_obj offset;
      if bool_decide (rc < 0) then rm_all_loop n' ty deleted else rm_all_loop n' ty (u16 (deleted + 1))
  end.

Definition param_serve_command_rm_all (packet : nat) : CM Z :=
  name_length ← cmK (data_byte packet 2);
  if bool_decide (name_length ≠ 9) then cmK (kfree (Some packet));; mret (-1) else
  input ← cmK (data_from packet 3);
  name ← lift_opt (name_copy junk input name_length);
  if bool_decide (take 9 name ≠ rmallcmds) then cmK (kfree (Some packet));; mret (-1) else
  rc ← cm_take 1000;
  if bool_decide (rc ≠ 0) then cmK (kfree (Some packet));; mret (-1) else
  num_commands ← cmP (get_number_of_objs OBJ_TYPE_COMMAND);
  deleted_commands ← cmP (rm_all_loop (Z.to_nat num_commands) OBJ_TYPE_COMMAND 0);
  cm_give;;
  cmK (data_store packet 0 [PARAM_COMMAND_RM_RESPONSE]);;
  cmK (data_store packet 1 [PARAM_FLAG_END]);;
  cmK (data_store packet 2 (be_bytes 2 deleted_commands));;
  cmK (data_store packet 4 (rmallcmds ++ [0]));;
  cmK (kmod_packet packet (set_pk_length 14));;
  cmK (csp_sendto_reply (Some packet) packet CSP_O_SAME);;
  mret 0.

(** The buffer behind [cmd_buffer] with the result. *)
Definition param_command_read (command_name cmd_buffer : list Z) : CM (Z * list Z) :=
  rc ← cm_take 1000;
  if bool_decide (rc ≠ 0) then mret (-1, cmd_buffer) else
  offset ← cmP (obj_offset_from_name command_name);
  if bool_decide (offset < 0) then cm_give;; mret (-1, cmd_buffer) else
  length ← cmP (objstore_read_obj_length offset);
  if bool_decide (length < 0) then cm_give;; mret (-1, cmd_buffer) else
  m ← read_command offset cmd_buffer;
  cm_give;;
  mret (0, m).

Definition param_command_server_init : CM () :=
  on_snd (modify (set_cm_lock si_lock_init));;
  rc ← cm_take (-1);
  if bool_decide (rc ≠ 0) then mret () else
  c ← gets snd;
  last_id ← cmP (meta_obj_init OBJ_TYPE_COMMANDS_META OBJ_TYPE_COMMAND OFF_COMMAND_ID (cm_last_id c));
  on_snd (modify (set_cm_last_id last_id));;
  cm_give.
End Commands.

(** ** Structures in memory *)

Section Framed.
Implicit Types (d : list Z) (off n k : nat).

(** The stored data [d] behind the pointer, with [k] unused bytes after it. *)
Definition framed k d : list Z := replicate 8 0 ++ d ++ replicate k 0.

Lemma framed_split k d off n :
  has_member off n d →
  framed k d = (replicate 8 0 ++ take (off - 8) d) ++ take n (drop (off - 8) d) ++ drop (off - 8 + n) d ++ replicate k 0 ∧
  length (replicate 8 0 ++ take (off - 8) d) = off ∧ length (take n (drop (off - 8) d)) = n.
Proof.
  intros [H1 H2]. split; [|split].
  - unfold framed. rewrite <- (take_drop (off - 8) d) at 1. rewrite <- (take_drop n (drop (off - 8) d)) at 1.
    by rewrite drop_drop, <- !app_assoc.
  - rewrite length_app, length_replicate, length_take. lia.
  - rewrite length_take, length_drop. lia.
Qed.

Lemma framed_get k d off n :
  has_member off n d → get_member (framed k d) (Z.of_nat off) (Z.of_nat n) = Some (member d off n).
Proof.
  intros Hm. destruct (framed_split k d off n Hm) as (Heq & Ha & Hl). unfold get_member, member. rewrite Heq.
  pose proof (mem_read_mid (replicate 8 0 ++ take (off - 8) d) (take n (drop (off - 8) d)) (drop (off - 8 + n) d ++ replicate k 0)) as Hr.
  rewrite Hl, Ha in Hr. rewrite Hr. done.
Qed.

Lemma framed_set k d off n v :
  has_member off n d → set_member (Z.of_nat off) n v (framed k d) = Some (framed k (edit off n v d)).
Proof.
  intros Hm. destruct (framed_split k d off n Hm) as (Heq & Ha & Hl). unfold set_member. rewrite Heq.
  pose proof (mem_write_mid (replicate 8 0 ++ take (off - 8) d) (take n (drop (off - 8) d)) (le_bytes n v)
    (drop (off - 8 + n) d ++ replicate k 0) ltac:(by rewrite Hl, length_le_bytes)) as Hw.
  rewrite Ha in Hw. rewrite Hw. unfold framed, edit, patch. by rewrite length_le_bytes, <- !app_assoc.
Qed.

Lemma framed_load k d : mem_write (replicate (8 + length d + k) 0) 8 d = Some (framed k d).
Proof.
  apply mem_write_Some. rewrite length_replicate. split_and!; [lia..|].
  change (Z.to_nat 8) with 8%nat. unfold framed. rewrite take_replicate, drop_replicate.
  replace (8 `min` (8 + length d + k))%nat with 8%nat by lia. by replace (8 + length d + k - (8 + length d))%nat with k by lia.
Qed.

Lemma framed_data k d : mem_read (drop 8 (framed k d)) 0 (Z.of_nat (length d)) = Some d.
Proof. exact (mem_read_mid [] d (replicate k 0)). Qed.

Lemma framed_zero k n : framed k (replicate n 0) = replicate (8 + n + k) 0.
Proof. unfold framed. by rewrite <- !replicate_add. Qed.
End Framed.
