(* ===== verification/CommandsShown.v ===== *)
(** * What stored commands do

    Commands are found by the beginning of their name; a command that was added is read
    back as it was given. *)

From S2P Require Import Queue Types State Buffer Stack Port Net Rdp Conn Io Mpack ParamState Param ParamList ParamSer ParamServer ParamServed Objstore ObjMeta Commands Text Prelude.

Implicit Types (p : pstate) (l : list seg) (o : obj) (d name : list Z).

(** A command whose name begins with [nm]. *)
Definition named (nm : list Z) o : Prop :=
  o_type o = OBJ_TYPE_COMMAND ∧ nm = take (length nm) (drop 34 (o_data o)).

#[export] Instance named_dec nm o : Decision (named nm o).
Proof. unfold named. apply _. Defined.

(** Stored commands hold the whole structure and fit [temp_command]. *)
Definition commands_ok (objs : list (Z * obj)) : Prop :=
  Forall (λ x, o_type x.2 = OBJ_TYPE_COMMAND → (48 ≤ length (o_data x.2) ≤ 248)%nat) objs.

Section Names.
Context `{Env} `{ParamEnv} `{SiLock}.
Context (vmem_commands : vmem_t).

#[local] Instance names_ops : VmemOps pstate := vmem_ops vmem_commands.
#[local] Instance names_laws : VmemLaws pstate := vmem_laws vmem_commands.

Lemma name_matches_run p l off o :
  store p l → (off, o) ∈ objects 0 l → ∀ nm (j : nat), (j + length nm ≤ length (o_data o))%nat →
  name_matches vmem_commands nm (off + OBJ_HEADER_LENGTH + Z.of_nat j) p =
    Some (bool_decide (nm = take (length nm) (drop j (o_data o))), p).
Proof.
  intros Hst Hin. induction nm as [|x nm IH]; intros j Hj; [done|]. cbn [name_matches length] in *.
  destruct (lookup_lt_is_Some_2 (o_data o) j) as [y Hy]; [lia|].
  assert (Hr : read_byte (off + OBJ_HEADER_LENGTH + Z.of_nat j) p = Some (y, p)).
  { unfold read_byte. run (member_store p l off o j 1 Hst Hin ltac:(lia)). rewrite (drop_S _ y j Hy). done. }
  run Hr. rewrite (drop_S _ y j Hy). cbn [take]. destruct (decide (x = y)) as [->|Hne].
  - rewrite (bool_decide_true (y = y)) by done.
    replace (off + OBJ_HEADER_LENGTH + Z.of_nat j + 1) with (off + OBJ_HEADER_LENGTH + Z.of_nat (S j)) by lia.
    rewrite IH by lia. do 2 f_equal. apply bool_decide_ext. split; [by intros <-|by intros [= <-]].
  - rewrite (bool_decide_false (x = y)) by done. rewrite bool_decide_false by congruence. done.
Qed.

(** Looking up a name finds the first command whose name begins with it. *)
Lemma offset_from_name_run p l name n :
  store p l → commands_ok (objects 0 l) → c_strlen name = Some (Z.of_nat n) → (0 < n ≤ 13)%nat → (n ≤ length name)%nat →
  (obj_offset_from_name vmem_commands name p = Some (-1, p) ∧ Forall (λ x, ¬ named (take n name) x.2) (objects 0 l)) ∨
  (∃ A off o B, objects 0 l = A ++ (off, o) :: B ∧ Forall (λ x, ¬ named (take n name) x.2) A ∧ named (take n name) o ∧
    obj_offset_from_name vmem_commands name p = Some (off, p)).
Proof.
  intros Hst Hok Hlen Hn Hnl. unfold obj_offset_from_name. rewrite (ST_bind_run _ _ _ _ _ (lift_opt_run_gen _ _ p Hlen)).
  rewrite (bool_decide_false (Z.of_nat n = 0)), (bool_decide_false (13 < Z.of_nat n)) by lia. cbn [orb]. rewrite Nat2Z.id.
  set (nm := take n name). assert (Lnm : length nm = n) by (unfold nm; rewrite length_take; lia).
  assert (Hcb : reads_as (find_name_scancb vmem_commands nm) (stop_at (named nm)) (objects 0 l) p).
  { intros off o x Hin. unfold find_name_scancb, stop_at. run (type_store p l off o Hst Hin).
    destruct (decide (o_type o = OBJ_TYPE_COMMAND)) as [Hty|Hty].
    - rewrite (bool_decide_false (o_type o ≠ _)) by congruence. unfold commands_ok in Hok. rewrite Forall_forall in Hok.
      specialize (Hok _ Hin Hty). simpl in Hok. unfold member_at, OFF_NAME.
      replace (off + OBJ_HEADER_LENGTH - 8 + 42) with (off + OBJ_HEADER_LENGTH + Z.of_nat 34) by lia.
      run (name_matches_run p l off o Hst Hin nm 34 ltac:(lia)).
      assert (Heq : bool_decide (nm = take (length nm) (drop 34 (o_data o))) = bool_decide (named nm o)).
      { apply bool_decide_ext. unfold named. split; [by split|by intros [_ ?]]. }
      rewrite Heq. by case_bool_decide.
    - rewrite (bool_decide_true (o_type o ≠ _)) by done. rewrite (bool_decide_false (named nm o)) by (by intros [? _]). done. }
  destruct (scan_stop_at (named nm) (objects 0 l)) as [[Hs Hall]|(A & off & o & B & Hobj & HA & Hi & Hs)].
  - left. split; [|done]. run (scan_store p l _ _ () Hst Hcb). by rewrite Hs.
  - right. exists A, off, o, B. split; [done|]. split; [done|]. split; [done|]. run (scan_store p l _ _ () Hst Hcb). by rewrite Hs.
Qed.

(** Names in a packet. *)
Lemma name_copy_run (output nm rest : list Z) :
  (length nm < length output)%nat →
  name_copy output (nm ++ rest) (Z.of_nat (length nm)) = Some (nm ++ 0 :: drop (S (length nm)) output).
Proof.
  intros Hl. unfold name_copy. rewrite (mem_read_mid [] nm rest : mem_read (nm ++ rest) 0 _ = _). unfold mbind, option_bind.
  assert (Hw : mem_write output 0 nm = Some (nm ++ drop (length nm) output)) by (apply mem_write_Some; split_and!; [lia|lia|done]).
  rewrite Hw. destruct (drop (length nm) output) as [|y r] eqn:Hd; [apply (f_equal length) in Hd; rewrite length_drop in Hd; simpl in Hd; lia|].
  rewrite (mem_write_mid nm [y] [0] r eq_refl : mem_write (nm ++ y :: r) _ _ = _). do 2 f_equal. cbn [app]. f_equal.
  replace (S (length nm)) with (length nm + 1)%nat by lia. by rewrite <- drop_drop, Hd.
Qed.
End Names.
