(* ===== verification/Eth.v ===== *)
(** * The Ethernet interface

    [lib/csp/src/interfaces/csp_if_eth.c] and [csp_if_eth_pbuf.c]: packets cut into segments
    that fit an Ethernet frame, put together again by the receiver, and the table of hardware
    addresses.  Debugging output is left out. *)

From S2P Require Import Queue Types State Id Buffer Qfifo Can Prelude.

Definition CSP_ETH_TYPE_CSP : Z := 0x88B5.
Definition CSP_ETH_BUF_SIZE : Z := 3000.
Definition CSP_ETH_ALEN : Z := 6.
Definition ARP_MAX_ENTRIES : Z := 10.
Definition CSP_IF_ETH_PBUF_TIMEOUT_MS : Z := 2000.

(** The members of [csp_eth_header_t]; the bytes of the frame follow the header. *)
Definition ETHER_DHOST : Z := 0.
Definition ETHER_SHOST : Z := 6.
Definition ETHER_TYPE : Z := 12.
Definition EFP_PACKET_ID : Z := 14.
Definition EFP_SRC_ADDR : Z := 16.
Definition EFP_SEG_SIZE : Z := 18.
Definition EFP_PACKET_LENGTH : Z := 20.
Definition SIZEOF_ETH_HEADER : Z := 22.

(** ** State *)

(** [csp_eth_interface_data_t]; [eth_tx_buf] is the memory behind [tx_buf]. *)
Record csp_eth_interface_data_t := mk_eth {
  eth_promisc : bool;
  eth_tx_mtu : Z;
  eth_tx_buf : list Z;
  eth_pbufs : option nat;
  eth_if_mac : list Z;
}.

(** [arp_list_entry_t]; [arp_next] is an index into [arp_array]. *)
Record arp_list_entry_t := mk_arp { arp_csp_addr : Z; arp_mac_addr : list Z; arp_next : option nat }.

(** The data of the interfaces, the static variables, and the frames that were sent. *)
Record eth_t := mk_eth_state {
  et_data : gmap nat csp_eth_interface_data_t;
  arp_array : list arp_list_entry_t;
  arp_used : Z;
  arp_list : option nat;
  et_packet_id : Z;
  et_wire : list (nat * list Z);
}.

Definition set_et_data v t := mk_eth_state v (arp_array t) (arp_used t) (arp_list t) (et_packet_id t) (et_wire t).
Definition set_arp_array v t := mk_eth_state (et_data t) v (arp_used t) (arp_list t) (et_packet_id t) (et_wire t).
Definition set_arp_used v t := mk_eth_state (et_data t) (arp_array t) v (arp_list t) (et_packet_id t) (et_wire t).
Definition set_arp_list v t := mk_eth_state (et_data t) (arp_array t) (arp_used t) v (et_packet_id t) (et_wire t).
Definition set_et_packet_id v t := mk_eth_state (et_data t) (arp_array t) (arp_used t) (arp_list t) v (et_wire t).
Definition set_et_wire v t := mk_eth_state (et_data t) (arp_array t) (arp_used t) (arp_list t) (et_packet_id t) v.

(** ** The header *)

(** A 16-bit member in network order, and in the order of the processor. *)
Definition member_be16 (buf : list Z) (off : Z) : option Z := bs ← mem_read buf off 2; Some (be_val bs).
Definition member_le16 (buf : list Z) (off : Z) : option Z := bs ← mem_read buf off 2; Some (le_val bs).

(** The result and the memory behind [buf]. *)
Definition csp_eth_pack_header (buf : option (list Z)) (packet_id src_addr seg_size packet_length : Z)
    : option (bool * option (list Z)) :=
  match buf with
  | None => Some (false, None)
  | Some m =>
      m ← mem_write m EFP_PACKET_ID (be_bytes 2 packet_id);
      m ← mem_write m EFP_SRC_ADDR (be_bytes 2 src_addr);
      m ← mem_write m EFP_SEG_SIZE (be_bytes 2 seg_size);
      m ← mem_write m EFP_PACKET_LENGTH (be_bytes 2 packet_length);
      Some (true, Some m)
  end.

(** [packet_id], [seg_size] and [packet_length]; the places for them are never NULL, and the
    shift of a 16-bit number into the sign bit wraps. *)
Definition csp_if_eth_unpack_header (buf : list Z) : option (Z * Z * Z) :=
  id ← member_le16 buf EFP_PACKET_ID;
  addr ← member_le16 buf EFP_SRC_ADDR;
  seg_size ← member_be16 buf EFP_SEG_SIZE;
  packet_length ← member_be16 buf EFP_PACKET_LENGTH;
  Some (u32 (Z.lor (Z.shiftl id 16) addr), seg_size, packet_length).

(** ** Hardware addresses *)

Definition arp_alloc : ST eth_t (option nat) :=
  t ← get;
  if bool_decide (ARP_MAX_ENTRIES ≤ arp_used t) then mret None else
  put (set_arp_used (arp_used t + 1) t);;
  mret (Some (Z.to_nat (arp_used t))).

(** The loop of [csp_eth_arp_set_addr]: whether the address is there, and the last entry. *)
Fixpoint arp_search (fuel : nat) (csp_addr : Z) (arp last_arp : option nat) : ST eth_t (bool * option nat) :=
  match arp with
  | None => mret (false, last_arp)
  | Some a =>
      match fuel with
      | O => ub
      | S fuel' =>
          t ← get;
          e ← lift_opt (arp_array t !! a);
          if bool_decide (arp_csp_addr e = csp_addr) then mret (true, Some a)
          else arp_search fuel' csp_addr (arp_next e) (Some a)
      end
  end.

Definition put_arp (a : nat) (e : arp_list_entry_t) : ST eth_t () :=
  t ← get;
  _ ← lift_opt (arp_array t !! a);
  put (set_arp_array (<[a := e]> (arp_array t)) t).

Definition csp_eth_arp_set_addr (mac_addr : list Z) (csp_addr : Z) : ST eth_t () :=
  t ← get;
  '(found, last_arp) ← arp_search (length (arp_array t)) csp_addr (arp_list t) None;
  if (found : bool) then mret () else
  new_arp ← arp_alloc;
  match new_arp with
  | None => mret ()
  | Some a =>
      put_arp a (mk_arp csp_addr mac_addr None);;
      match last_arp with
      | Some l =>
          t ← get;
          e ← lift_opt (arp_array t !! l);
          put_arp l (mk_arp (arp_csp_addr e) (arp_mac_addr e) (Some a))
      | None => modify (set_arp_list (Some a))
      end
  end.

(** The address copied to [mac_addr]. *)
Fixpoint arp_find (fuel : nat) (csp_addr : Z) (arp : option nat) : ST eth_t (list Z) :=
  match arp with
  | None => mret (replicate (Z.to_nat CSP_ETH_ALEN) 0xff)
  | Some a =>
      match fuel with
      | O => ub
      | S fuel' =>
          t ← get;
          e ← lift_opt (arp_array t !! a);
          if bool_decide (arp_csp_addr e = csp_addr) then mret (arp_mac_addr e)
          else arp_find fuel' csp_addr (arp_next e)
      end
  end.

Definition csp_eth_arp_get_addr (csp_addr : Z) : ST eth_t (list Z) :=
  t ← get; arp_find (length (arp_array t)) csp_addr (arp_list t).

(** ** Partially received packets *)

(** The list is the variable [*plist], which the operations return. *)
Fixpoint eth_pbuf_find (fuel : nat) (packet : option nat) (pbuf_id : Z) : C (option nat) :=
  match fuel with
  | O => ub
  | S fuel' =>
      match packet with
      | None => mret None
      | Some a =>
          p ← get_packet a;
          if bool_decide (cfpid p = pbuf_id) then mret (Some a) else eth_pbuf_find fuel' (pk_next p) pbuf_id
      end
  end.

Definition csp_if_eth_pbuf_find (plist : option nat) (pbuf_id : Z) : C (option nat) :=
  s ← get; eth_pbuf_find (pbuf_fuel s) plist pbuf_id.

Definition csp_if_eth_pbuf_insert (plist : option nat) (packet : nat) : C (option nat) :=
  when (bool_decide (plist ≠ None)) (p ← get_packet packet; put_packet packet (set_pk_next plist p));;
  mret (Some packet).

Definition csp_if_eth_pbuf_get (plist : option nat) (pbuf_id : Z) (isr : bool) : C (option nat * option nat) :=
  packet ← csp_if_eth_pbuf_find plist pbuf_id;
  now ← gets c_now;
  match packet with
  | Some a =>
      p ← get_packet a;
      put_packet a (set_last_used now p);;
      mret (Some a, plist)
  | None =>
      packet ← (if isr then csp_buffer_get_isr else csp_buffer_get);
      match packet with
      | None => mret (None, plist)
      | Some b =>
          version ← gets c_version;
          p ← get_packet b;
          let p := (csp_id_setup_rx version p).2 in
          put_packet b (set_pk_next None (set_last_used now (set_rx_count 0 (set_cfpid pbuf_id p))));;
          plist ← csp_if_eth_pbuf_insert plist b;
          mret (Some b, plist)
      end
  end.

Fixpoint eth_pbuf_remove (fuel : nat) (plist : option nat) (packet : nat) (p prev : option nat) : C (option nat) :=
  match fuel with
  | O => ub
  | S fuel' =>
      match p with
      | None => mret plist
      | Some a =>
          q ← get_packet a;
          if bool_decide (a = packet) then
            match prev with
            | Some b => r ← get_packet b; put_packet b (set_pk_next (pk_next q) r);; mret plist
            | None => mret (pk_next q)
            end
          else eth_pbuf_remove fuel' plist packet (pk_next q) (Some a)
      end
  end.

Definition csp_if_eth_pbuf_remove (plist : option nat) (packet : nat) : C (option nat) :=
  s ← get; eth_pbuf_remove (pbuf_fuel s) plist packet plist None.

Fixpoint eth_pbuf_cleanup (fuel : nat) (now : Z) (plist packet : option nat) : C (option nat) :=
  match fuel with
  | O => ub
  | S fuel' =>
      match packet with
      | None => mret plist
      | Some a =>
          p ← get_packet a;
          plist ← (if bool_decide (u32 (last_used p + CSP_IF_ETH_PBUF_TIMEOUT_MS) < now) then
                     plist ← csp_if_eth_pbuf_remove plist a;
                     csp_buffer_free (Some a);;
                     mret plist
                   else mret plist);
          p ← get_packet a;
          eth_pbuf_cleanup fuel' now plist (pk_next p)
      end
  end.

Definition csp_if_eth_pbuf_list_cleanup (plist : option nat) : C (option nat) :=
  s ← get; eth_pbuf_cleanup (pbuf_fuel s) (c_now s) plist plist.

(** ** Receiving and sending *)

Abbreviation ETH A := (ST (csp_core * eth_t) A).

Definition get_eth (iface : nat) : ST eth_t csp_eth_interface_data_t := λ t, lift_opt (et_data t !! iface) t.

(** The packet is complete. *)
Definition eth_rx_deliver (iface : nat) (eth_frame : list Z) (isr promisc : bool) (pbuf_list : option nat) (packet : nat) : ETH Z :=
  pbuf_list ← on_fst (csp_if_eth_pbuf_remove pbuf_list packet);
  version ← on_fst (gets c_version);
  p ← on_fst (get_packet packet);
  '(rc, p) ← lift_opt (csp_id_strip version p);
  on_fst (put_packet packet p);;
  if bool_decide (rc ≠ 0) then
    on_fst (iface_add iface StRxError 1);;
    on_fst (buffer_free_ctx isr (Some packet));;
    mret CSP_ERR_INVAL
  else
    shost ← lift_opt (mem_read eth_frame ETHER_SHOST CSP_ETH_ALEN);
    on_snd (csp_eth_arp_set_addr shost (src (pk_id p)));;
    f ← on_fst (get_iface iface);
    if bool_decide (dst (pk_id p) ≠ if_addr f) && negb promisc then
      on_fst (buffer_free_ctx isr (Some packet));;
      mret CSP_ERR_NONE
    else
      on_fst (csp_qfifo_write (Some packet) (Some iface) isr);;
      on_fst (csp_if_eth_pbuf_list_cleanup pbuf_list);;
      mret CSP_ERR_NONE.

(** A segment with a valid header; [pbuf_list] is a local variable, so what the calls do to
    the head of the list is lost when the function returns. *)
Definition eth_rx_segment (iface : nat) (eth_frame : list Z) (isr : bool) (packet_id seg_size frame_length_ : Z) : ETH Z :=
  d ← on_snd (get_eth iface);
  '(packet, pbuf_list) ← on_fst (csp_if_eth_pbuf_get (eth_pbufs d) packet_id isr);
  match packet with
  | None => ub
  | Some b =>
      p ← on_fst (get_packet b);
      let p := if bool_decide (frame_length p = 0) then set_rx_count 0 (set_frame_length frame_length_ p) else p in
      on_fst (put_packet b p);;
      if bool_decide (frame_length_ ≠ frame_length p) then mret CSP_ERR_INVAL else
      if bool_decide (frame_length p < rx_count p + seg_size) then mret CSP_ERR_INVAL else
      bs ← lift_opt (mem_read eth_frame SIZEOF_ETH_HEADER seg_size);
      p ← lift_opt (frame_write p (rx_count p) bs);
      let p := set_rx_count (u16 (rx_count p + seg_size)) p in
      on_fst (put_packet b p);;
      if bool_decide (rx_count p < frame_length p) then mret CSP_ERR_NONE
      else eth_rx_deliver iface eth_frame isr (eth_promisc d) pbuf_list b
  end.

(** [eth_frame] is the memory the driver received into. *)
Definition csp_eth_rx (iface : nat) (eth_frame : list Z) (received_len : Z) (isr : bool) : ETH Z :=
  type ← lift_opt (member_be16 eth_frame ETHER_TYPE);
  if bool_decide (type ≠ CSP_ETH_TYPE_CSP) then mret CSP_ERR_INVAL else
  if bool_decide (received_len < SIZEOF_ETH_HEADER) then mret CSP_ERR_INVAL else
  '(packet_id, seg_size, frame_length_) ← lift_opt (csp_if_eth_unpack_header eth_frame);
  if bool_decide (seg_size = 0) then mret CSP_ERR_INVAL else
  if bool_decide (frame_length_ < seg_size) then mret CSP_ERR_INVAL else
  if bool_decide (received_len < SIZEOF_ETH_HEADER + seg_size) then mret CSP_ERR_INVAL else
  if bool_decide (frame_length_ = 0) then mret CSP_ERR_INVAL else
  eth_rx_segment iface eth_frame isr packet_id seg_size frame_length_.

(** [ifdata->tx_func]: its return code for a frame, given what was sent before. *)
Class EthDriver := eth_tx_func : nat → list Z → list (nat * list Z) → Z.

(** A call of the driver, which sends the header and [seg_size] bytes of [tx_buf]. *)
Definition eth_send `{EthDriver} (iface : nat) (eth_frame : list Z) : ST eth_t Z :=
  t ← get;
  seg_size ← lift_opt (member_be16 eth_frame EFP_SEG_SIZE);
  frame ← lift_opt (mem_read eth_frame 0 (SIZEOF_ETH_HEADER + seg_size));
  let rc := eth_tx_func iface frame (et_wire t) in
  when (bool_decide (rc = CSP_ERR_NONE)) (modify (set_et_wire (et_wire t ++ [(iface, frame)])));;
  mret rc.

Definition set_eth_tx_buf (iface : nat) (m : list Z) : ST eth_t () :=
  d ← get_eth iface;
  modify (λ t, set_et_data (<[iface := mk_eth (eth_promisc d) (eth_tx_mtu d) m (eth_pbufs d) (eth_if_mac d)]> (et_data t)) t).

(** The loop over the segments, from [offset] on. *)
Fixpoint eth_tx_segments `{EthDriver} (fuel : nat) (iface : nat) (p : csp_packet_t) (packet_id seg_size_max offset : Z) : ETH Z :=
  match fuel with
  | O => ub
  | S fuel' =>
      if bool_decide (offset < frame_length p) then
        let seg_size := u16 (frame_length p - offset) in
        let seg_size := if bool_decide (seg_size_max < seg_size) then seg_size_max else seg_size in
        d ← on_snd (get_eth iface);
        '(_, m) ← lift_opt (csp_eth_pack_header (Some (eth_tx_buf d)) packet_id (src (pk_id p)) seg_size (frame_length p));
        m ← lift_opt m;
        bs ← lift_opt (frame_read p offset seg_size);
        m ← lift_opt (mem_write m SIZEOF_ETH_HEADER bs);
        on_snd (set_eth_tx_buf iface m);;
        rc ← on_snd (eth_send iface m);
        if bool_decide (rc ≠ CSP_ERR_NONE) then on_fst (iface_add iface StTxError 1);; mret CSP_ERR_DRIVER
        else eth_tx_segments fuel' iface p packet_id seg_size_max (u16 (offset + seg_size))
      else mret CSP_ERR_NONE
  end.

Definition csp_eth_tx `{EthDriver} (iface : nat) (via : Z) (packet : nat) (from_me : bool) : ETH Z :=
  p ← on_fst (get_packet packet);
  f ← on_fst (get_iface iface);
  if bool_decide (dst (pk_id p) = if_addr f) then
    on_fst (csp_qfifo_write (Some packet) (Some iface) false);; mret CSP_ERR_NONE
  else
    d ← on_snd (get_eth iface);
    dhost ← on_snd (csp_eth_arp_get_addr (dst (pk_id p)));
    m ← lift_opt (mem_write (eth_tx_buf d) ETHER_DHOST dhost);
    m ← lift_opt (mem_write m ETHER_TYPE (be_bytes 2 CSP_ETH_TYPE_CSP));
    m ← lift_opt (mem_write m ETHER_SHOST (eth_if_mac d));
    on_snd (set_eth_tx_buf iface m);;
    version ← on_fst (gets c_version);
    p ← lift_opt (csp_id_prepend version p);
    on_fst (put_packet packet p);;
    t ← on_snd get;
    let packet_id := u16 (et_packet_id t + 1) in
    on_snd (modify (set_et_packet_id packet_id));;
    rc ← eth_tx_segments (S (Z.to_nat (frame_length p))) iface p packet_id (u16 (eth_tx_mtu d - SIZEOF_ETH_HEADER)) 0;
    if bool_decide (rc ≠ CSP_ERR_NONE) then mret rc
    else on_fst (csp_buffer_free (Some packet));; mret CSP_ERR_NONE.
