(* ===== verification/EthShown.v ===== *)
(** * What the Ethernet interface does

    A packet that fits one frame arrives; one that needs more is lost, and with it a buffer
    for each of its segments. *)

From S2P Require Import Queue Types State Id Buffer Qfifo Can Objstore Eth Prelude.

(** ** The table of hardware addresses *)

Section Arp.
Implicit Types (t : eth_t) (l : list (Z * list Z)).

(** The table holds the pairs [l], in the order they were learnt. *)
Record arp_ok t l : Prop := {
  ao_length : length (arp_array t) = Z.to_nat ARP_MAX_ENTRIES;
  ao_used : arp_used t = Z.of_nat (length l);
  ao_max : (length l ≤ Z.to_nat ARP_MAX_ENTRIES)%nat;
  ao_list : arp_list t = if bool_decide (l = []) then None else Some 0%nat;
  ao_entries : ∀ n a m, l !! n = Some (a, m) →
    arp_array t !! n = Some (mk_arp a m (if bool_decide (S n < length l)%nat then Some (S n) else None));
}.

Definition arp_lookup (a : Z) l : option (list Z) := snd <$> head (filter (λ x, x.1 = a) l).

(** The first address heard from a node stays, and there is room for ten nodes. *)
Definition arp_learn (a : Z) (m : list Z) l : list (Z * list Z) :=
  if bool_decide (is_Some (arp_lookup a l)) || bool_decide (ARP_MAX_ENTRIES ≤ Z.of_nat (length l)) then l else l ++ [(a, m)].

(** The address used for [a] afterwards. *)
Lemma arp_learn_lookup a m l :
  default (replicate (Z.to_nat CSP_ETH_ALEN) 0xff) (arp_lookup a (arp_learn a m l)) =
  match arp_lookup a l with
  | Some mac => mac
  | None => if bool_decide (Z.of_nat (length l) < 10) then m else replicate 6 0xff
  end.
Proof.
  unfold arp_learn. destruct (arp_lookup a l) as [mac|] eqn:Hl.
  { rewrite bool_decide_true by done. cbn [orb]. by rewrite Hl. }
  rewrite (bool_decide_false (is_Some None)) by (by intros [? [=]]). cbn [orb]. unfold ARP_MAX_ENTRIES.
  destruct (decide (Z.of_nat (length l) < 10)) as [Hlt|Hge].
  - rewrite (bool_decide_false (10 ≤ _)), bool_decide_true by lia. unfold arp_lookup in *. rewrite filter_app.
    destruct (filter _ l); [|done]. by rewrite filter_cons_True.
  - rewrite (bool_decide_true (10 ≤ _)), bool_decide_false by lia. by rewrite Hl.
Qed.

Definition arp_at (n : nat) l : option nat := if bool_decide (n < length l)%nat then Some n else None.

Lemma arp_lookup_cons a x m l :
  arp_lookup a ((x, m) :: l) = if bool_decide (x = a) then Some m else arp_lookup a l.
Proof.
  unfold arp_lookup. rewrite filter_cons. cbn [fst]. by destruct (decide (x = a)); [rewrite bool_decide_true|rewrite bool_decide_false].
Qed.

Lemma arp_entry t l n x m : arp_ok t l → drop n l = (x, m) :: drop (S n) l →
  arp_array t !! n = Some (mk_arp x m (arp_at (S n) l)) ∧ arp_at n l = Some n ∧ (n < length l)%nat.
Proof.
  intros Hok Hd. assert (Hl : l !! n = Some (x, m)) by (rewrite <- (Nat.add_0_r n), <- lookup_drop, Hd; done).
  pose proof (lookup_lt_Some _ _ _ Hl) as Hlt. split; [by apply (ao_entries _ _ Hok)|]. unfold arp_at. by rewrite bool_decide_true.
Qed.

Lemma drop_cases l n : (drop n l = [] ∧ (length l ≤ n)%nat) ∨ ∃ x m, drop n l = (x, m) :: drop (S n) l.
Proof.
  destruct (l !! n) as [[x m]|] eqn:Hl; [right; exists x, m; by apply drop_S|].
  apply lookup_ge_None in Hl. left. by rewrite drop_ge.
Qed.

(** Walking the list from entry [n] on. *)
Lemma arp_search_run t l a fuel : arp_ok t l → ∀ n last, (length l ≤ n + fuel)%nat →
  ∃ r, arp_search fuel a (arp_at n l) last t = Some ((bool_decide (is_Some (arp_lookup a (drop n l))), r), t) ∧
    (arp_lookup a (drop n l) = None → r = if bool_decide (n < length l)%nat then Some (length l - 1)%nat else last).
Proof.
  intros Hok. induction fuel as [|fuel IH]; intros n last Hn; destruct (drop_cases l n) as [[Hd Hge]|(x & m & Hd)].
  1, 3: unfold arp_at; rewrite Hd, !bool_decide_false by first [lia|by intros [? [=]]]; by exists last.
  - destruct (arp_entry t l n x m Hok Hd) as (_ & _ & ?). lia.
  - destruct (arp_entry t l n x m Hok Hd) as (He & -> & Hlt). cbn [arp_search]. run (eq_refl : get t = Some (t, t)).
    run (lift_opt_run_gen _ _ t He). rewrite Hd, arp_lookup_cons. cbn [arp_csp_addr arp_next]. rewrite (bool_decide_true (n < _)%nat) by done.
    case_bool_decide; [exists (Some n); split; [by rewrite bool_decide_true by done|done]|].
    destruct (IH (S n) (Some n) ltac:(lia)) as (r & -> & Hr). exists r. split; [done|]. intros Hnone. rewrite (Hr Hnone).
    case_bool_decide; [done|]. f_equal. lia.
Qed.

Lemma arp_find_run t l a fuel : arp_ok t l → ∀ n, (length l ≤ n + fuel)%nat →
  arp_find fuel a (arp_at n l) t = Some (default (replicate (Z.to_nat CSP_ETH_ALEN) 0xff) (arp_lookup a (drop n l)), t).
Proof.
  intros Hok. induction fuel as [|fuel IH]; intros n Hn; destruct (drop_cases l n) as [[Hd Hge]|(x & m & Hd)].
  1, 3: unfold arp_at; rewrite Hd, !bool_decide_false by lia; done.
  - destruct (arp_entry t l n x m Hok Hd) as (_ & _ & ?). lia.
  - destruct (arp_entry t l n x m Hok Hd) as (He & -> & Hlt). cbn [arp_find]. run (eq_refl : get t = Some (t, t)).
    run (lift_opt_run_gen _ _ t He). rewrite Hd, arp_lookup_cons. cbn [arp_csp_addr arp_next]. case_bool_decide; [done|]. apply IH. lia.
Qed.

Lemma arp_list_at t l : arp_ok t l → arp_list t = arp_at 0 l.
Proof. intros Hok. rewrite (ao_list _ _ Hok). unfold arp_at. destruct l; by rewrite ?bool_decide_true, ?bool_decide_false by (simpl; first [done|lia]). Qed.

(** A node's address, or the broadcast address when it was never heard of. *)
Lemma arp_get_run t l a : arp_ok t l →
  csp_eth_arp_get_addr a t = Some (default (replicate (Z.to_nat CSP_ETH_ALEN) 0xff) (arp_lookup a l), t).
Proof.
  intros Hok. unfold csp_eth_arp_get_addr. run (eq_refl : get t = Some (t, t)). rewrite (arp_list_at t l Hok).
  apply (arp_find_run t l a _ Hok 0). rewrite (ao_length _ _ Hok). apply (ao_max _ _ Hok).
Qed.

Lemma put_arp_run t a e : (a < length (arp_array t))%nat → put_arp a e t = Some ((), set_arp_array (<[a := e]> (arp_array t)) t).
Proof.
  intros [x Hx]%lookup_lt_is_Some. unfold put_arp. run (eq_refl : get t = Some (t, t)). by run (lift_opt_run_gen _ _ t Hx).
Qed.

Lemma arp_set_run t l a m : arp_ok t l →
  ∃ t', csp_eth_arp_set_addr m a t = Some ((), t') ∧ arp_ok t' (arp_learn a m l) ∧
    et_data t' = et_data t ∧ et_wire t' = et_wire t ∧ et_packet_id t' = et_packet_id t.
Proof.
  intros Hok. unfold csp_eth_arp_set_addr. run (eq_refl : get t = Some (t, t)). rewrite (arp_list_at t l Hok).
  pose proof (ao_max _ _ Hok) as Hmax. pose proof (ao_used _ _ Hok) as Hu. pose proof (ao_length _ _ Hok) as Hlen.
  destruct (arp_search_run t l a (length (arp_array t)) Hok 0 None ltac:(lia)) as (r & Hr & Hlast). rewrite drop_0 in *.
  run Hr. unfold arp_learn. destruct (decide (is_Some (arp_lookup a l))) as [Hf|Hf];
    [rewrite !bool_decide_true by done; by exists t|]. rewrite !(bool_decide_false (is_Some _)) by done. cbn [orb].
  assert (Hnone : arp_lookup a l = None) by (destruct (arp_lookup a l); [by destruct Hf|done]). specialize (Hlast Hnone).
  rewrite <- Hu. destruct (decide (ARP_MAX_ENTRIES ≤ arp_used t)) as [Hfull|Hfull];
    [rewrite (bool_decide_true (_ ≤ arp_used t)) by done|rewrite (bool_decide_false (_ ≤ arp_used t)) by done].
  { assert (Ha : arp_alloc t = Some (None, t)) by (unfold arp_alloc; run (eq_refl : get t = Some (t, t)); by rewrite bool_decide_true).
    run Ha. by exists t. }
  set (t1 := set_arp_used (arp_used t + 1) t). assert (Ha : arp_alloc t = Some (Some (length l), t1)).
  { unfold arp_alloc. run (eq_refl : get t = Some (t, t)). rewrite bool_decide_false by done. by rewrite Hu, Nat2Z.id; unfold t1; rewrite Hu. }
  run Ha. unfold ARP_MAX_ENTRIES in *. run (put_arp_run t1 (length l) (mk_arp a m None) ltac:(cbn; lia)).
  set (t2 := set_arp_array _ t1). rewrite Hlast. clear Ha Hlast Hr. destruct (decide (l = [])) as [->|Hne].
  - rewrite bool_decide_false by (simpl; lia). eexists. split; [reflexivity|]. split; [|done]. split; cbn.
    + by rewrite length_insert.
    + rewrite Hu. done.
    + unfold ARP_MAX_ENTRIES; simpl; lia.
    + done.
    + intros [|[|n]] a' m' [= -> ->]. rewrite list_lookup_insert_eq by lia. done.
  - assert (Hpos : (0 < length l)%nat) by (destruct l; [done|simpl; lia]). rewrite bool_decide_true by done.
    destruct (lookup_lt_is_Some_2 l (length l - 1) ltac:(lia)) as [[xa xm] Hx].
    assert (He : arp_array t2 !! (length l - 1)%nat = Some (mk_arp xa xm None)).
    { cbn. rewrite list_lookup_insert_ne by lia. rewrite (ao_entries _ _ Hok _ _ _ Hx), bool_decide_false by lia. done. }
    run (eq_refl : get t2 = Some (t2, t2)). run (lift_opt_run_gen _ _ t2 He). cbn [arp_csp_addr arp_mac_addr].
    rewrite put_arp_run by (cbn; rewrite length_insert; lia). eexists. split; [reflexivity|]. split; [|done]. split; cbn.
    + by rewrite !length_insert.
    + rewrite Hu, length_app. simpl. lia.
    + rewrite length_app. unfold ARP_MAX_ENTRIES. simpl. lia.
    + rewrite (ao_list _ _ Hok), (bool_decide_false (l = [])), (bool_decide_false (l ++ _ = [])) by (first [done|by destruct l]). done.
    + intros n a' m' Hn. rewrite length_app in *. simpl in *. destruct (decide (n = length l)) as [->|Hn1].
      * rewrite lookup_app_r, Nat.sub_diag in Hn by lia. injection Hn as <- <-.
        rewrite list_lookup_insert_ne, list_lookup_insert_eq, bool_decide_false by lia. done.
      * pose proof (lookup_lt_Some _ _ _ Hn) as Hlt. rewrite length_app in Hlt. simpl in Hlt. rewrite lookup_app_l in Hn by lia.
        destruct (decide (n = length l - 1)%nat) as [->|Hn2].
        -- rewrite Hx in Hn. injection Hn as <- <-. rewrite list_lookup_insert_eq, bool_decide_true by (rewrite ?length_insert; lia).
           do 3 f_equal. lia.
        -- rewrite !list_lookup_insert_ne by lia. rewrite (ao_entries _ _ Hok _ _ _ Hn). by rewrite !bool_decide_true by lia.
Qed.
End Arp.

(** ** Frames *)

(** The six fields of a header in front of a segment [bs] of a packet of [len] bytes. *)
Definition efp_fields (pid src_ len : Z) (bs : list Z) : list Z :=
  be_bytes 2 pid ++ be_bytes 2 src_ ++ be_bytes 2 (Z.of_nat (length bs)) ++ be_bytes 2 len.
Definition efp_frame (e : list Z) (pid src_ len : Z) (bs : list Z) : list Z := e ++ efp_fields pid src_ len bs ++ bs.

Definition eth_addresses (dhost shost : list Z) : list Z := dhost ++ shost ++ be_bytes 2 CSP_ETH_TYPE_CSP.

(** The segments of [rest]. *)
Fixpoint efp_segments (fuel : nat) (e : list Z) (pid src_ len : Z) (smax : nat) (rest : list Z) : list (list Z) :=
  match fuel, rest with
  | S fuel', _ :: _ => efp_frame e pid src_ len (take smax rest) :: efp_segments fuel' e pid src_ len smax (drop smax rest)
  | _, _ => []
  end.

Section Frames.
Implicit Types (e m r bs : list Z).

Lemma mem_write_next a b r :
  (length b ≤ length r)%nat → mem_write (a ++ r) (Z.of_nat (length a)) b = Some (a ++ b ++ drop (length b) r).
Proof.
  intros Hl. rewrite <- (take_drop (length b) r) at 1. apply mem_write_mid. rewrite length_take. lia.
Qed.

Lemma length_efp_fields pid src_ len bs : length (efp_fields pid src_ len bs) = 8%nat.
Proof. unfold efp_fields. by rewrite !length_app, !length_be_bytes. Qed.

Lemma length_efp_frame e pid src_ len bs : length e = 14%nat → length (efp_frame e pid src_ len bs) = (22 + length bs)%nat.
Proof. intros He. unfold efp_frame. rewrite !length_app, length_efp_fields. lia. Qed.

(** Header and segment written to the transmit buffer. *)
Lemma pack_header_run e r pid src_ len bs :
  length e = 14%nat → (8 + length bs ≤ length r)%nat →
  ∃ m1, csp_eth_pack_header (Some (e ++ r)) pid src_ (Z.of_nat (length bs)) len = Some (true, Some m1) ∧
    mem_write m1 SIZEOF_ETH_HEADER bs = Some (e ++ efp_fields pid src_ len bs ++ bs ++ drop (8 + length bs) r).
Proof.
  intros He Hr. set (n := Z.of_nat (length bs)).
  assert (H1 : mem_write (e ++ r) EFP_PACKET_ID (be_bytes 2 pid) = Some ((e ++ be_bytes 2 pid) ++ drop 2 r)).
  { rewrite <- app_assoc. pose proof (mem_write_next e (be_bytes 2 pid) r) as Hw. rewrite length_be_bytes, He in Hw. apply Hw. lia. }
  set (e1 := e ++ be_bytes 2 pid) in *. assert (L1 : length e1 = 16%nat) by (unfold e1; rewrite length_app, length_be_bytes; lia).
  assert (H2 : mem_write (e1 ++ drop 2 r) EFP_SRC_ADDR (be_bytes 2 src_) = Some ((e1 ++ be_bytes 2 src_) ++ drop 4 r)).
  { rewrite <- app_assoc. pose proof (mem_write_next e1 (be_bytes 2 src_) (drop 2 r)) as Hw.
    rewrite length_be_bytes, L1, drop_drop in Hw. apply Hw. rewrite length_drop. lia. }
  set (e2 := e1 ++ be_bytes 2 src_) in *. assert (L2 : length e2 = 18%nat) by (unfold e2; rewrite length_app, length_be_bytes; lia).
  assert (H3 : mem_write (e2 ++ drop 4 r) EFP_SEG_SIZE (be_bytes 2 n) = Some ((e2 ++ be_bytes 2 n) ++ drop 6 r)).
  { rewrite <- app_assoc. pose proof (mem_write_next e2 (be_bytes 2 n) (drop 4 r)) as Hw.
    rewrite length_be_bytes, L2, drop_drop in Hw. apply Hw. rewrite length_drop. lia. }
  set (e3 := e2 ++ be_bytes 2 n) in *. assert (L3 : length e3 = 20%nat) by (unfold e3; rewrite length_app, length_be_bytes; lia).
  assert (H4 : mem_write (e3 ++ drop 6 r) EFP_PACKET_LENGTH (be_bytes 2 len) = Some ((e3 ++ be_bytes 2 len) ++ drop 8 r)).
  { rewrite <- app_assoc. pose proof (mem_write_next e3 (be_bytes 2 len) (drop 6 r)) as Hw.
    rewrite length_be_bytes, L3, drop_drop in Hw. apply Hw. rewrite length_drop. lia. }
  set (e4 := e3 ++ be_bytes 2 len) in *. assert (L4 : length e4 = 22%nat) by (unfold e4; rewrite length_app, length_be_bytes; lia).
  exists (e4 ++ drop 8 r). split.
  - unfold csp_eth_pack_header, mbind, option_bind. by rewrite H1, H2, H3, H4.
  - pose proof (mem_write_next e4 bs (drop 8 r)) as Hw. rewrite L4, drop_drop in Hw.
    replace (e ++ efp_fields pid src_ len bs ++ bs ++ drop (8 + length bs) r) with (e4 ++ bs ++ drop (8 + length bs) r)
      by (unfold e4, e3, e2, e1, efp_fields; by rewrite <- !app_assoc).
    apply Hw. rewrite length_drop. lia.
Qed.

(** A frame in memory, and its fields. *)
Lemma frame_member e pid src_ len bs junk :
  length e = 14%nat → is_u16 len → Z.of_nat (length bs) ≤ len → is_u16 pid → is_u16 src_ →
  let m := efp_frame e pid src_ len bs ++ junk in
  ∃ id, csp_if_eth_unpack_header m = Some (id, Z.of_nat (length bs), len) ∧
    mem_read m SIZEOF_ETH_HEADER (Z.of_nat (length bs)) = Some bs ∧
    mem_read m 0 14 = Some e ∧ mem_read m 0 (SIZEOF_ETH_HEADER + Z.of_nat (length bs)) = Some (efp_frame e pid src_ len bs).
Proof.
  intros He Hlen Hbs Hpid Hsrc m. unfold is_u16 in *.
  set (n := Z.of_nat (length bs)) in *.
  assert (Hm : m = e ++ be_bytes 2 pid ++ be_bytes 2 src_ ++ be_bytes 2 n ++ be_bytes 2 len ++ bs ++ junk)
    by (unfold m, efp_frame, efp_fields; by rewrite <- !app_assoc).
  assert (Hget : ∀ (k : nat) pre v post, length pre = k → m = pre ++ be_bytes 2 v ++ post → mem_read m (Z.of_nat k) 2 = Some (be_bytes 2 v)).
  { intros k pre v post <- ->. pose proof (mem_read_mid pre (be_bytes 2 v) post) as Hr. by rewrite length_be_bytes in Hr. }
  pose proof (Hget 14%nat e pid _ He Hm) as R1.
  pose proof (Hget 16%nat (e ++ be_bytes 2 pid) src_ (be_bytes 2 n ++ be_bytes 2 len ++ bs ++ junk)
    ltac:(rewrite length_app, length_be_bytes; lia) ltac:(rewrite Hm, <- !app_assoc; done)) as R2.
  pose proof (Hget 18%nat (e ++ be_bytes 2 pid ++ be_bytes 2 src_) n (be_bytes 2 len ++ bs ++ junk)
    ltac:(rewrite !length_app, !length_be_bytes; lia) ltac:(rewrite Hm, <- !app_assoc; done)) as R3.
  pose proof (Hget 20%nat (e ++ be_bytes 2 pid ++ be_bytes 2 src_ ++ be_bytes 2 n) len (bs ++ junk)
    ltac:(rewrite !length_app, !length_be_bytes; lia) ltac:(rewrite Hm, <- !app_assoc; done)) as R4.
  change (Z.of_nat 14) with EFP_PACKET_ID in R1. change (Z.of_nat 16) with EFP_SRC_ADDR in R2.
  change (Z.of_nat 18) with EFP_SEG_SIZE in R3. change (Z.of_nat 20) with EFP_PACKET_LENGTH in R4. eexists. split.
  { unfold csp_if_eth_unpack_header, member_le16, member_be16, mbind, option_bind. rewrite R1, R2, R3, R4.
    rewrite !be_val_be_bytes. change (256 ^ Z.of_nat 2) with 65536. rewrite (Z.mod_small n), (Z.mod_small len) by lia. reflexivity. }
  split; [|split].
  - pose proof (mem_read_mid (e ++ efp_fields pid src_ len bs) bs junk) as Hr. rewrite length_app, length_efp_fields, He in Hr.
    unfold m, efp_frame. rewrite <- !app_assoc in *. exact Hr.
  - pose proof (mem_read_mid [] e (efp_fields pid src_ len bs ++ bs ++ junk)) as Hr. rewrite He in Hr.
    unfold m, efp_frame. rewrite <- !app_assoc in *. exact Hr.
  - pose proof (mem_read_mid [] (efp_frame e pid src_ len bs) junk) as Hr. rewrite length_efp_frame in Hr by done.
    replace (Z.of_nat (22 + length bs)) with (SIZEOF_ETH_HEADER + n) in Hr by (unfold SIZEOF_ETH_HEADER; lia). exact Hr.
Qed.
End Frames.

(** ** Sending *)

Section Sender.
Context `{EthDriver}.
Context (accepts : ∀ i f w, eth_tx_func i f w = CSP_ERR_NONE).

(** The transmit buffer begins with [e] and has room for segments of [smax] bytes. *)
Definition tx_buf_ok (t : eth_t) (i : nat) (e : list Z) (smax : nat) : Prop :=
  ∃ d r, et_data t !! i = Some d ∧ eth_tx_buf d = e ++ r ∧ length e = 14%nat ∧ (8 + smax ≤ length r)%nat.

Lemma send_segment_run (i : nat) (t : eth_t) e smax pid src_ len bs :
  tx_buf_ok t i e smax → (length bs ≤ smax)%nat → is_u16 len → Z.of_nat (length bs) ≤ len → is_u16 pid → is_u16 src_ →
  ∃ d m1 m t', get_eth i t = Some (d, t) ∧
    csp_eth_pack_header (Some (eth_tx_buf d)) pid src_ (Z.of_nat (length bs)) len = Some (true, Some m1) ∧
    mem_write m1 SIZEOF_ETH_HEADER bs = Some m ∧ set_eth_tx_buf i m t = Some ((), t') ∧
    eth_send i m t' = Some (CSP_ERR_NONE, set_et_wire (et_wire t ++ [(i, efp_frame e pid src_ len bs)]) t') ∧
    tx_buf_ok (set_et_wire (et_wire t ++ [(i, efp_frame e pid src_ len bs)]) t') i e smax.
Proof.
  intros (d & r & Hd & Hbuf & He & Hr) Hbs Hlen Hle Hpid Hsrc.
  destruct (pack_header_run e r pid src_ len bs He ltac:(lia)) as (m1 & Hpack & Hw). rewrite <- Hbuf in Hpack.
  assert (Hget : get_eth i t = Some (d, t)) by (by apply lift_opt_run_gen).
  set (m := e ++ efp_fields pid src_ len bs ++ bs ++ drop (8 + length bs) r) in *.
  destruct (frame_member e pid src_ len bs (drop (8 + length bs) r) He Hlen Hle Hpid Hsrc) as (id & Hun & _ & _ & Hframe).
  assert (Hm : efp_frame e pid src_ len bs ++ drop (8 + length bs) r = m) by (unfold m, efp_frame; by rewrite <- !app_assoc).
  rewrite Hm in Hun, Hframe.
  exists d, m1, m. eexists. split; [done|]. split; [done|]. split; [done|]. split.
  { unfold set_eth_tx_buf. run Hget. reflexivity. }
  split.
  - unfold eth_send. set (t' := set_et_data _ t). run (eq_refl : get t' = Some (t', t')).
    assert (Hseg : member_be16 m EFP_SEG_SIZE = Some (Z.of_nat (length bs))).
    { unfold csp_if_eth_unpack_header, mbind, option_bind in Hun. destruct (member_le16 m EFP_PACKET_ID); [|done].
      destruct (member_le16 m EFP_SRC_ADDR); [|done]. destruct (member_be16 m EFP_SEG_SIZE); [|done].
      destruct (member_be16 m EFP_PACKET_LENGTH); [|done]. by injection Hun as _ -> _. }
    run (lift_opt_run_gen _ _ t' Hseg). run (lift_opt_run_gen _ _ t' Hframe). rewrite accepts. done.
  - eexists _, _. split; [by apply lookup_insert_eq|]. cbn [eth_tx_buf]. split; [reflexivity|]. split; [done|].
    rewrite !length_app, length_efp_fields, length_drop. lia.
Qed.

Lemma frame_piece p (fr : list Z) (off n : nat) :
  frame_read p 0 (frame_length p) = Some fr → (off + n ≤ length fr)%nat →
  frame_read p (Z.of_nat off) (Z.of_nat n) = Some (take n (drop off fr)).
Proof.
  unfold frame_read. destruct (frame_begin p) as [|b| |]; try done.
  intros (H1 & H2 & H3 & ->)%mem_read_Some Hn. rewrite length_take, length_drop in Hn. apply mem_read_Some. split_and!; [lia..|].
  rewrite skipn_firstn_comm, take_take, drop_drop. rewrite Nat2Z.id. f_equal; [lia|]. f_equal. lia.
Qed.

Lemma tx_segments_run (i : nat) p pid e (fr : list Z) (smax : nat) (s : csp_core) :
  packet_ok p → frame_read p 0 (frame_length p) = Some fr → is_u16 pid → (0 < smax)%nat → Z.of_nat smax < 65536 →
  ∀ fuel (off : nat) t, (length fr < off + fuel)%nat → (off ≤ length fr)%nat → tx_buf_ok t i e smax →
  ∃ t', eth_tx_segments fuel i p pid (Z.of_nat smax) (Z.of_nat off) (s, t) = Some (CSP_ERR_NONE, (s, t')) ∧
    et_wire t' = et_wire t ++ map (pair i) (efp_segments fuel e pid (src (pk_id p)) (frame_length p) smax (drop off fr)).
Proof.
  intros Hp Hfr Hpid Hs0 Hs. assert (Hfl : frame_length p = Z.of_nat (length fr)).
  { unfold frame_read in Hfr. destruct (frame_begin p); try done. symmetry. by eapply mem_read_length. }
  pose proof (po_frame_length _ Hp) as Hu. assert (Hsrc : is_u16 (src (pk_id p))) by apply (po_id _ Hp). unfold is_u16 in *.
  induction fuel as [|fuel IH]; intros off t Hf Ho Hb; [lia|]. cbn [eth_tx_segments].
  destruct (decide (off < length fr)%nat) as [Hlt|Hge].
  2: { rewrite bool_decide_false by lia. exists t. split; [done|]. rewrite drop_ge by lia. cbn. by rewrite app_nil_r. }
  rewrite (bool_decide_true (Z.of_nat off < _)) by lia. rewrite (u16_id (frame_length p - _)) by (unfold is_u16; lia).
  set (bs := take smax (drop off fr)). assert (Hlb : length bs = (smax `min` (length fr - off))%nat) by (unfold bs; rewrite length_take, length_drop; done).
  assert (Hseg : (if bool_decide (Z.of_nat smax < frame_length p - Z.of_nat off) then Z.of_nat smax else frame_length p - Z.of_nat off) =
    Z.of_nat (length bs)) by (case_bool_decide; lia). rewrite Hseg.
  destruct (send_segment_run i t e smax pid (src (pk_id p)) (frame_length p) bs Hb ltac:(lia)) as (d & m1 & m & t1 & Hget & Hpack & Hw & Hset & Hsend & Hb');
    [unfold is_u16; lia|lia|done|done|].
  run (on_snd_run _ t _ t s Hget). run (lift_opt_run_gen _ _ (s, t) Hpack). run (eq_refl : lift_opt (Some m1) (s, t) = _).
  assert (Hpiece : frame_read p (Z.of_nat off) (Z.of_nat (length bs)) = Some bs).
  { rewrite (frame_piece p fr off (length bs) Hfr) by lia. f_equal. unfold bs at 2. rewrite Hlb. rewrite <- (length_drop fr off).
    destruct (decide (smax ≤ length (drop off fr))%nat); [by rewrite Nat.min_l|]. by rewrite Nat.min_r, firstn_all, take_ge by lia. }
  run (lift_opt_run_gen _ _ (s, t) Hpiece). run (lift_opt_run_gen _ _ (s, t) Hw). run (on_snd_run _ t _ t1 s Hset).
  run (on_snd_run _ t1 _ _ s Hsend). rewrite (bool_decide_false (_ ≠ _)) by (by intros []).
  rewrite u16_id by (unfold is_u16; lia). replace (Z.of_nat off + Z.of_nat (length bs)) with (Z.of_nat (off + length bs)) by lia.
  set (t2 := set_et_wire _ t1) in *. destruct (IH (off + length bs)%nat t2 ltac:(lia) ltac:(lia) Hb') as (t' & -> & Hwire).
  exists t'. split; [done|]. rewrite Hwire. unfold t2. cbn [et_wire set_et_wire]. rewrite <- app_assoc. f_equal.
  destruct (drop off fr) as [|x xs] eqn:Hd; [apply (f_equal length) in Hd; rewrite length_drop in Hd; simpl in Hd; lia|].
  cbn [efp_segments map app]. rewrite <- Hd, drop_drop. replace (take smax (drop off fr)) with bs by (by rewrite Hd).
  assert (Hdd : drop (off + length bs) fr = drop (off + smax) fr); [|by rewrite Hdd].
  destruct (decide (smax ≤ length fr - off)%nat); [f_equal; lia|]. rewrite !drop_ge by lia. done.
Qed.

(** The frames of a packet with identifier [id] and payload [pay]. *)
Definition packet_frames (v : Z) (e : list Z) (pid : Z) (smax : nat) (id : csp_id_t) (pay : list Z) : list (list Z) :=
  let fr := id_header v id ++ pay in
  efp_segments (S (length fr)) e pid (src id) (Z.of_nat (length fr)) smax fr.

(** An interface with a transmit buffer and a hardware address, and a table of addresses. *)
Record eth_ready (t : eth_t) (i : nat) (d : csp_eth_interface_data_t) (l : list (Z * list Z)) : Prop := {
  er_data : et_data t !! i = Some d;
  er_buf : Z.of_nat (length (eth_tx_buf d)) = CSP_ETH_BUF_SIZE;
  er_mac : length (eth_if_mac d) = 6%nat;
  er_mtu : SIZEOF_ETH_HEADER < eth_tx_mtu d ≤ CSP_ETH_BUF_SIZE;
  er_arp : arp_ok t l;
  er_arp_macs : Forall (λ x, length x.2 = 6%nat) l;
}.

Definition seg_max (d : csp_eth_interface_data_t) : nat := Z.to_nat (eth_tx_mtu d - SIZEOF_ETH_HEADER).

Lemma arp_lookup_length a l : Forall (λ x, length x.2 = 6%nat) l → length (default (replicate (Z.to_nat CSP_ETH_ALEN) 0xff) (arp_lookup a l)) = 6%nat.
Proof.
  intros Hl. unfold arp_lookup. destruct (filter _ l) as [|[a' m] r] eqn:Hf; [done|]. cbn. rewrite Forall_forall in Hl.
  apply (Hl (a', m)). apply (list_elem_of_filter (λ x, x.1 = a) l). rewrite Hf. apply list_elem_of_here.
Qed.

(** The addresses and the type at the head of the transmit buffer. *)
Lemma addresses_write (m dhost shost : list Z) :
  length dhost = 6%nat → length shost = 6%nat → (14 ≤ length m)%nat →
  ∃ m1 m2, mem_write m ETHER_DHOST dhost = Some m1 ∧ mem_write m1 ETHER_TYPE (be_bytes 2 CSP_ETH_TYPE_CSP) = Some m2 ∧
    mem_write m2 ETHER_SHOST shost = Some (eth_addresses dhost shost ++ drop 14 m).
Proof.
  intros Hd Hs Hm. exists (dhost ++ drop 6 m), (dhost ++ take 6 (drop 6 m) ++ be_bytes 2 CSP_ETH_TYPE_CSP ++ drop 14 m).
  pose proof (mem_write_next [] dhost m) as H1. rewrite Hd in H1. cbn [app] in H1. split; [apply H1; lia|].
  set (x := take 6 (drop 6 m)). assert (Lx : length x = 6%nat) by (unfold x; rewrite length_take, length_drop; lia). split.
  - replace (dhost ++ drop 6 m) with ((dhost ++ x) ++ drop 12 m).
    2: { rewrite <- app_assoc. f_equal. unfold x. rewrite <- (take_drop 6 (drop 6 m)) at 2. by rewrite drop_drop. }
    pose proof (mem_write_next (dhost ++ x) (be_bytes 2 CSP_ETH_TYPE_CSP) (drop 12 m)) as H2.
    rewrite length_app, Hd, Lx, length_be_bytes, drop_drop in H2. rewrite (app_assoc dhost). apply H2. rewrite length_drop. lia.
  - pose proof (mem_write_mid dhost x shost (be_bytes 2 CSP_ETH_TYPE_CSP ++ drop 14 m) ltac:(lia)) as H3. rewrite Hd in H3.
    unfold eth_addresses. rewrite <- !app_assoc. exact H3.
Qed.

Lemma eth_tx_run (s : csp_core) (t : eth_t) (i b : nat) (via : Z) (from_me : bool) k f d l :
  buf_inv s → c_pool s !! b = Some k → c_ifaces s !! i = Some f → dst (pk_id (skbf_data k)) ≠ if_addr f →
  eth_ready t i d l → pk_length (skbf_data k) ≤ CSP_BUFFER_SIZE →
  ∃ pay e pid s' t', payload (skbf_data k) = Some pay ∧ bytes_ok pay ∧ length e = 14%nat ∧ is_u16 pid ∧
    mem_read e ETHER_SHOST CSP_ETH_ALEN = Some (eth_if_mac d) ∧ member_be16 e ETHER_TYPE = Some CSP_ETH_TYPE_CSP ∧
    csp_eth_tx i via b from_me (s, t) = Some (CSP_ERR_NONE, (s', t')) ∧ buf_inv s' ∧
    et_wire t' = et_wire t ++ map (pair i) (packet_frames (c_version s) e pid (seg_max d) (pk_id (skbf_data k)) pay).
Proof.
  intros Hb Hk Hf Hdst [Hd Hbuf Hmac Hmtu Harp Hmacs] Hlen. destruct (bi_pool s Hb _ _ Hk) as (_ & Hok & _). set (p := skbf_data k) in *.
  unfold csp_eth_tx. run (on_fst_run _ s _ s t (get_packet_run s b k Hk)). fold p.
  run (on_fst_run (get_iface i) s f s t (lift_opt_run_gen _ _ s Hf)). rewrite bool_decide_false by done.
  run (on_snd_run _ t _ t s (lift_opt_run_gen _ _ t Hd : get_eth i t = _)).
  run (on_snd_run _ t _ t s (arp_get_run t l (dst (pk_id p)) Harp)). set (dhost := default _ _).
  assert (Ldh : length dhost = 6%nat) by (by apply arp_lookup_length).
  destruct (addresses_write (eth_tx_buf d) dhost (eth_if_mac d) Ldh Hmac) as (m1 & m2 & W1 & W2 & W3);
    [unfold CSP_ETH_BUF_SIZE in *; lia|].
  run (lift_opt_run_gen _ _ (s, t) W1). run (lift_opt_run_gen _ _ (s, t) W2). run (lift_opt_run_gen _ _ (s, t) W3).
  set (e := eth_addresses dhost (eth_if_mac d)) in *.
  assert (Le : length e = 14%nat) by (unfold e, eth_addresses; rewrite !length_app, length_be_bytes; lia).
  set (d1 := mk_eth (eth_promisc d) (eth_tx_mtu d) (e ++ drop 14 (eth_tx_buf d)) (eth_pbufs d) (eth_if_mac d)).
  set (t1 := set_et_data (<[i := d1]> (et_data t)) t).
  assert (Hset : set_eth_tx_buf i (e ++ drop 14 (eth_tx_buf d)) t = Some ((), t1)).
  { unfold set_eth_tx_buf. run (lift_opt_run_gen _ _ t Hd : get_eth i t = _). done. }
  run (on_snd_run _ t _ t1 s Hset). run (on_fst_run (gets c_version) s _ s t1 eq_refl).
  destruct (csp_id_prepend_spec (c_version s) p Hok) as (p' & Hpre & Hp' & Hfa & Hfl & Hl & Hid & _ & _ & _ & _ & _ & Hhdr & Hdat).
  pose proof (id_header_size_range (c_version s)) as Hs. pose proof (po_length _ Hok) as Hlp.
  destruct (data_read_is_Some p 0 (pk_length p)) as [pay Hpay]; [done|lia|mlia|lia|].
  assert (Hlpay : pk_length p = Z.of_nat (length pay)) by (symmetry; by eapply mem_read_length).
  set (fr := id_header (c_version s) (pk_id p) ++ pay).
  assert (Hflen : frame_length p' = Z.of_nat (length fr)).
  { unfold fr. rewrite Hfl, length_app, Nat2Z.inj_add, length_id_header. unfold CSP_BUFFER_SIZE in *. mlia. }
  assert (Hfr : frame_read p' 0 (frame_length p') = Some fr).
  { rewrite Hflen. unfold fr. rewrite length_app, Nat2Z.inj_add, length_id_header. apply frame_read_app; [done|done|].
    rewrite <- Hlpay. by rewrite Hdat by lia. }
  run (lift_opt_run_gen _ _ (s, t1) Hpre). run (on_fst_run _ s _ _ t1 (put_packet_run s b k p' Hk)). set (s1 := upd_pkt s b k p').
  run (on_snd_run get t1 _ t1 s1 eq_refl). set (pid := u16 (et_packet_id t1 + 1)). set (t2 := set_et_packet_id pid t1).
  run (on_snd_run (modify (set_et_packet_id pid)) t1 _ t2 s1 eq_refl).
  replace (u16 (eth_tx_mtu d - SIZEOF_ETH_HEADER)) with (Z.of_nat (seg_max d))
    by (unfold seg_max, SIZEOF_ETH_HEADER, CSP_ETH_BUF_SIZE in *; rewrite u16_id; unfold is_u16; lia).
  assert (Htx : tx_buf_ok t2 i e (seg_max d)).
  { exists d1, (drop 14 (eth_tx_buf d)). split; [apply lookup_insert_eq|]. split; [done|]. split; [done|].
    rewrite length_drop. unfold seg_max, SIZEOF_ETH_HEADER, CSP_ETH_BUF_SIZE in *. lia. }
  assert (Hsm : (0 < seg_max d)%nat ∧ Z.of_nat (seg_max d) < 65536) by (unfold seg_max, SIZEOF_ETH_HEADER, CSP_ETH_BUF_SIZE in *; lia).
  destruct (tx_segments_run i p' pid e fr (seg_max d) s1 Hp' Hfr (u16_range _) (proj1 Hsm) (proj2 Hsm)
    (S (Z.to_nat (frame_length p'))) 0 t2 ltac:(lia) ltac:(lia) Htx) as (t3 & Hseg & Hwire).
  run Hseg. rewrite (bool_decide_false (_ ≠ _)) by (by intros []).
  destruct (csp_buffer_free_spec s1 b) as (s' & Hfree & Hb'); [by apply buf_inv_put_packet|apply lookup_lt_Some in Hk; cbn; by rewrite length_insert|].
  run (on_fst_run _ s1 _ s' t3 Hfree). exists pay, e, pid, s', t3.
  assert (Hbytes : bytes_ok pay) by (eapply data_read_bytes_ok; [exact Hok|exact Hpay]).
  split; [done|]. split; [done|]. split; [done|]. split; [apply u16_range|]. split.
  { pose proof (mem_read_mid dhost (eth_if_mac d) (be_bytes 2 CSP_ETH_TYPE_CSP)) as Hr. by rewrite Ldh, Hmac in Hr. }
  split. { pose proof (mem_read_mid (dhost ++ eth_if_mac d) (be_bytes 2 CSP_ETH_TYPE_CSP) []) as Hr.
    rewrite length_app, Ldh, Hmac, length_be_bytes, app_nil_r, <- app_assoc in Hr. unfold member_be16, mbind, option_bind.
    rewrite (Hr : mem_read e ETHER_TYPE 2 = _). done. }
  split; [done|]. split; [done|]. rewrite Hwire, drop_0, Hflen, Hid, Nat2Z.id. done.
Qed.
End Sender.

(** ** Receiving *)

Section Receiver.
Context (i : nat) (isr : bool).
Implicit Types (s : csp_core) (t : eth_t) (b : nat) (p : csp_packet_t).

(** What the receiver leaves alone. *)
Definition eth_frame_rule s s' : Prop :=
  c_version s' = c_version s ∧ c_now s' = c_now s ∧ c_ifaces s' = c_ifaces s ∧ c_interfaces s' = c_interfaces s.

(** A buffer in use that holds the first [n] bytes [acc] of a frame of [len] bytes. *)
Record collecting s b (len : Z) (acc : list Z) : Prop := {
  co_inv : buf_inv s;
  co_packet : ∃ p, c_pool s !! b = Some (mk_skbf 1 b p) ∧ packet_ok p ∧ frame_at (c_version s) p ∧ frame_length p = len ∧
    rx_count p = Z.of_nat (length acc) ∧ pk_next p = None ∧ frame_read p 0 (Z.of_nat (length acc)) = Some acc;
}.

Lemma collecting_put s b p p' len acc :
  buf_inv s → c_pool s !! b = Some (mk_skbf 1 b p) → packet_ok p' → frame_at (c_version s) p' → frame_length p' = len →
  rx_count p' = Z.of_nat (length acc) → pk_next p' = None → frame_read p' 0 (Z.of_nat (length acc)) = Some acc →
  put_packet b p' s = Some ((), upd_pkt s b (mk_skbf 1 b p) p') ∧ collecting (upd_pkt s b (mk_skbf 1 b p) p') b len acc.
Proof.
  intros Hb Hk Hp Hf Hl Hr Hn Ha. split; [by apply put_packet_run|]. split; [by apply buf_inv_put_packet|].
  exists p'. split; [by apply upd_pkt_lookup|]. done.
Qed.

Lemma frame_read_none v p : packet_ok p → frame_at v p → frame_read p 0 0 = Some [].
Proof.
  intros Hp Hf. destruct (frame_read_is_Some v p 0 Hp Hf) as [x Hx]; [pose proof (id_header_size_range v); unfold CSP_BUFFER_SIZE; lia|].
  rewrite Hx. unfold frame_read in Hx. rewrite Hf in Hx. apply mem_read_length in Hx. destruct x; [done|simpl in Hx; lia].
Qed.

(** A fresh buffer for a packet that is not in the list. *)
Lemma pbuf_get_fresh s id b l :
  buf_inv s → fq_items (c_free s) = b :: l →
  ∃ s', csp_if_eth_pbuf_get None id isr s = Some ((Some b, Some b), s') ∧ collecting s' b 0 [] ∧
    eth_frame_rule s s' ∧ c_qfifo s' = c_qfifo s ∧ fq_items (c_free s') = l.
Proof.
  intros Hb Hfree. destruct (csp_buffer_get_spec s Hb) as [(? & _ & He & _)|(b' & k & s1 & Hg & Hb1 & Hk & _ & He & Hs1)]; [by rewrite Hfree in He|].
  rewrite Hfree in He. injection He as <- Hl. set (p0 := set_pk_id csp_id_clear (skbf_data k)) in *.
  assert (Hk1 : c_pool s1 !! b = Some (mk_skbf 1 b p0)).
  { rewrite Hs1. cbn. apply list_lookup_insert_eq. by eapply lookup_lt_Some. }
  destruct (bi_pool s1 Hb1 _ _ Hk1) as (_ & Hok0 & _). cbn [skbf_data] in Hok0.
  assert (Hv : c_version s1 = c_version s ∧ c_now s1 = c_now s ∧ c_ifaces s1 = c_ifaces s ∧ c_interfaces s1 = c_interfaces s ∧ c_qfifo s1 = c_qfifo s)
    by (by rewrite Hs1). destruct Hv as (Hv & Hn & Hi1 & Hi2 & Hq).
  set (p1 := set_pk_next None (set_last_used (c_now s) (set_rx_count 0 (set_cfpid id (csp_id_setup_rx (c_version s1) p0).2)))).
  assert (Hp1 : packet_ok p1) by (unfold p1; rewrite csp_id_setup_rx_unfold; destruct Hok0; by split).
  assert (Hf1 : frame_at (c_version s1) p1) by (unfold p1, frame_at; by rewrite csp_id_setup_rx_unfold).
  destruct (collecting_put s1 b p0 p1 0 [] Hb1 Hk1 Hp1 Hf1) as [Hput Hcol];
    [unfold p1; by rewrite csp_id_setup_rx_unfold|done|done|by eapply frame_read_none|].
  eexists. split; [|split; [exact Hcol|done]].
  unfold csp_if_eth_pbuf_get. assert (Hfind : csp_if_eth_pbuf_find None id s = Some (None, s)) by done.
  run Hfind. run (eq_refl : gets c_now s = Some (c_now s, s)).
  assert (Hg' : (if isr then csp_buffer_get_isr else csp_buffer_get) s = Some (Some b, s1)) by (by destruct isr).
  run Hg'. run (eq_refl : gets c_version s1 = Some (c_version s1, s1)). run (get_packet_run s1 b _ Hk1). cbn [skbf_data]. fold p0.
  change (set_pk_next None _) with p1. run Hput. reflexivity.
Qed.

(** A segment is stored in it. *)
Lemma rx_segment_store s t d b id (mem bs : list Z) len :
  et_data t !! i = Some d → eth_pbufs d = None → collecting s b 0 [] →
  bytes_ok bs → 0 < Z.of_nat (length bs) ≤ len → is_u16 len → Z.of_nat (length bs) ≤ CSP_BUFFER_SIZE + id_header_size (c_version s) →
  mem_read mem SIZEOF_ETH_HEADER (Z.of_nat (length bs)) = Some bs → ∀ s0, csp_if_eth_pbuf_get None id isr s0 = Some ((Some b, Some b), s) →
  ∃ s', collecting s' b len bs ∧ eth_frame_rule s s' ∧ c_qfifo s' = c_qfifo s ∧ c_free s' = c_free s ∧
    eth_rx_segment i mem isr id (Z.of_nat (length bs)) len (s0, t) =
      if bool_decide (Z.of_nat (length bs) < len) then Some (CSP_ERR_NONE, (s', t))
      else eth_rx_deliver i mem isr (eth_promisc d) (Some b) b (s', t).
Proof.
  intros Hd Hpb [Hb (p & Hk & Hp & Hf & Hfl & Hrx & Hnx & _)] Hbytes Hn Hlen Hfit Hmem s0 Hget.
  set (p1 := set_rx_count 0 (set_frame_length len p)).
  assert (Hp1 : packet_ok p1) by (destruct Hp; by split). assert (Hf1 : frame_at (c_version s) p1) by done.
  pose proof (frame_read_none _ _ Hp1 Hf1) as Hr1.
  destruct (collecting_put s b p p1 len [] Hb Hk Hp1 Hf1 eq_refl eq_refl Hnx Hr1) as [Hput1 Hcol1].
  set (s1 := upd_pkt s b _ p1) in *. destruct Hcol1 as [Hb1 _].
  assert (Hk1 : c_pool s1 !! b = Some (mk_skbf 1 b p1)) by (by apply upd_pkt_lookup).
  destruct (frame_append (c_version s) p1 0 [] bs Hp1 Hf1 Hr1 Hbytes) as (m & Hw & Hp2 & Hr2); [lia|].
  rewrite Z.add_0_l in Hr2. cbn [app] in Hr2. set (p2 := set_pk_mem m p1) in *.
  assert (Hu : u16 (rx_count p2 + Z.of_nat (length bs)) = Z.of_nat (length bs)) by (cbn; apply u16_id; unfold is_u16 in *; lia).
  set (p3 := set_rx_count (Z.of_nat (length bs)) p2).
  assert (Hp3 : packet_ok p3) by (destruct Hp2; split; cbn in *; try done; unfold is_u16 in *; lia).
  destruct (collecting_put s1 b p1 p3 len bs Hb1 Hk1 Hp3 Hf1 eq_refl eq_refl Hnx Hr2) as [Hput3 Hcol3].
  eexists. split; [exact Hcol3|]. split; [done|]. split; [done|]. split; [done|].
  unfold eth_rx_segment. run (on_snd_run _ t _ t s0 (lift_opt_run_gen _ _ t Hd : get_eth i t = _)). rewrite Hpb.
  run (on_fst_run _ s0 _ s t Hget). run (on_fst_run _ s _ s t (get_packet_run s b _ Hk)). cbn [skbf_data].
  rewrite (bool_decide_true (frame_length p = 0)) by done. fold p1. run (on_fst_run _ s _ s1 t Hput1).
  rewrite (bool_decide_false (len ≠ _)) by (by intros []). rewrite (bool_decide_false (frame_length p1 < _)) by (cbn; lia).
  run (lift_opt_run_gen _ _ (s1, t) Hmem). run (lift_opt_run_gen _ _ (s1, t) Hw). fold p2. rewrite Hu. fold p3.
  run (on_fst_run _ s1 _ _ t Hput3). cbn [rx_count set_rx_count p3 frame_length set_pk_mem p2 p1 set_frame_length].
  by case_bool_decide.
Qed.

(** The tests on the header of a frame. *)
Lemma eth_rx_header s t e pid src_ len bs junk :
  length e = 14%nat → member_be16 e ETHER_TYPE = Some CSP_ETH_TYPE_CSP → is_u16 len → 0 < Z.of_nat (length bs) ≤ len →
  is_u16 pid → is_u16 src_ → let fr := efp_frame e pid src_ len bs in
  ∃ id, csp_eth_rx i (fr ++ junk) (Z.of_nat (length fr)) isr (s, t) =
    eth_rx_segment i (fr ++ junk) isr id (Z.of_nat (length bs)) len (s, t) ∧
  mem_read (fr ++ junk) SIZEOF_ETH_HEADER (Z.of_nat (length bs)) = Some bs ∧
  ∀ mac, mem_read e ETHER_SHOST CSP_ETH_ALEN = Some mac → mem_read (fr ++ junk) ETHER_SHOST CSP_ETH_ALEN = Some mac.
Proof.
  intros He Hty Hlen Hbs Hpid Hsrc fr. destruct (frame_member e pid src_ len bs junk He Hlen ltac:(lia) Hpid Hsrc) as (id & Hun & Hdata & Hhead & _).
  fold fr in Hun, Hdata, Hhead. assert (Hpre : ∀ off n x, mem_read e off n = Some x → mem_read (fr ++ junk) off n = Some x).
  { intros off n x (H1 & H2 & H3 & ->)%mem_read_Some. apply mem_read_Some. unfold fr, efp_frame. rewrite !length_app. split_and!; [lia..|].
    rewrite <- !app_assoc. rewrite drop_app_le by lia. rewrite take_app_le by (rewrite length_drop; lia). done. }
  exists id. split; [|split; [done|intros mac; apply Hpre]]. unfold csp_eth_rx.
  assert (Hty' : member_be16 (fr ++ junk) ETHER_TYPE = Some CSP_ETH_TYPE_CSP).
  { unfold member_be16, mbind, option_bind in *. destruct (mem_read e ETHER_TYPE 2) as [x|] eqn:Hx; [|done]. by rewrite (Hpre _ _ _ Hx). }
  assert (Hfl : Z.of_nat (length fr) = SIZEOF_ETH_HEADER + Z.of_nat (length bs)) by (unfold fr; rewrite length_efp_frame by done; unfold SIZEOF_ETH_HEADER; lia).
  run (lift_opt_run_gen _ _ (s, t) Hty'). rewrite bool_decide_false by (by intros []). rewrite Hfl, bool_decide_false by lia.
  run (lift_opt_run_gen _ _ (s, t) Hun). rewrite !bool_decide_false by lia. done.
Qed.

(** A segment that is not the whole packet takes a buffer and never gives it back: the
    interface's list is as empty as before. *)
Lemma eth_rx_partial s t d e pid src_ len bs junk b l :
  buf_inv s → fq_items (c_free s) = b :: l → et_data t !! i = Some d → eth_pbufs d = None →
  length e = 14%nat → member_be16 e ETHER_TYPE = Some CSP_ETH_TYPE_CSP → is_u16 len → is_u16 pid → is_u16 src_ → bytes_ok bs →
  0 < Z.of_nat (length bs) < len → Z.of_nat (length bs) ≤ CSP_BUFFER_SIZE + id_header_size (c_version s) →
  let fr := efp_frame e pid src_ len bs in
  ∃ s', csp_eth_rx i (fr ++ junk) (Z.of_nat (length fr)) isr (s, t) = Some (CSP_ERR_NONE, (s', t)) ∧ buf_inv s' ∧
    c_version s' = c_version s ∧ c_qfifo s' = c_qfifo s ∧ fq_items (c_free s') = l ∧ allocated s' b.
Proof.
  intros Hb Hfree Hd Hpb He Hty Hlen Hpid Hsrc Hbytes Hbs Hfit fr.
  destruct (eth_rx_header s t e pid src_ len bs junk He Hty Hlen ltac:(lia) Hpid Hsrc) as (id & Hrx & Hmem & _). fold fr in Hmem, Hrx. rewrite Hrx.
  destruct (pbuf_get_fresh s id b l Hb Hfree) as (s1 & Hget & Hcol & (Hv1 & _) & Hq1 & Hf1).
  destruct (rx_segment_store s1 t d b id (fr ++ junk) bs len Hd Hpb Hcol Hbytes ltac:(lia) Hlen ltac:(by rewrite Hv1) Hmem s Hget)
    as (s2 & Hcol2 & (Hv2 & _) & Hq2 & Hf2 & ->).
  rewrite bool_decide_true by lia. exists s2. split; [done|]. split; [apply Hcol2|]. split; [congruence|]. split; [congruence|].
  split; [by rewrite Hf2|]. destruct (co_packet _ _ _ _ Hcol2) as (p & Hk & _). eexists. split; [exact Hk|done].
Qed.

(** A complete packet is delivered, and its sender's address learnt. *)
Lemma eth_deliver_run s t b f (mem fr pay mac : list Z) id l promisc :
  collecting s b (Z.of_nat (length fr)) fr → fr = id_header (c_version s) id ++ pay → id_fits (c_version s) id →
  c_ifaces s !! i = Some f → dst id = if_addr f ∨ promisc = true → arp_ok t l → mem_read mem ETHER_SHOST CSP_ETH_ALEN = Some mac →
  (length (fq_items (c_qfifo s)) < fq_cap (c_qfifo s))%nat →
  ∃ s' t', eth_rx_deliver i mem isr promisc (Some b) b (s, t) = Some (CSP_ERR_NONE, (s', t')) ∧
    arrived s s' i id pay ∧ arp_ok t' (arp_learn (src id) mac l) ∧ et_data t' = et_data t.
Proof.
  intros [Hb (p & Hk & Hp & Hf & Hfl & Hrx & Hnx & Hread)] -> Hfit Hif Hdst Harp Hmac Hroom. unfold eth_rx_deliver.
  set (v := c_version s) in *. set (fr := id_header v id ++ pay) in *.
  assert (Hrm : csp_if_eth_pbuf_remove (Some b) b s = Some (None, s)).
  { unfold csp_if_eth_pbuf_remove. run (eq_refl : get s = Some (s, s)). unfold pbuf_fuel. cbn [eth_pbuf_remove].
    run (get_packet_run s b _ Hk). cbn [skbf_data]. by rewrite bool_decide_true, Hnx. }
  run (on_fst_run _ s _ s t Hrm). run (on_fst_run (gets c_version) s v s t eq_refl). run (on_fst_run _ s _ s t (get_packet_run s b _ Hk)).
  cbn [skbf_data]. pose proof (length_id_header v id) as Hhl. pose proof (id_header_size_range v) as Hs.
  assert (Hlen : Z.of_nat (length fr) = id_header_size v + Z.of_nat (length pay)) by (unfold fr; rewrite length_app; lia).
  destruct (csp_id_strip_spec v p Hp Hf ltac:(lia)) as (hdr & Hh & Hst).
  destruct (frame_read_app_inv v p (id_header v id) pay (Z.of_nat (length pay)) Hf Hhl ltac:(lia)) as [H1 H2];
    [rewrite <- Hlen; exact Hread|]. rewrite H1 in Hh. injection Hh as <-. rewrite id_parse_header in Hst by done.
  replace (frame_length p - id_header_size v) with (Z.of_nat (length pay)) in Hst by lia. set (q := set_pk_id id _) in Hst.
  assert (Hq : packet_ok q) by (eapply csp_id_strip_ok; [exact Hp|exact Hst]).
  run (lift_opt_run_gen _ _ (s, t) Hst). run (on_fst_run _ s _ _ t (put_packet_run s b _ q Hk)). set (s1 := upd_pkt s b _ q).
  rewrite (bool_decide_false (0 ≠ 0)) by congruence. run (lift_opt_run_gen _ _ (s1, t) Hmac).
  destruct (arp_set_run t l (src id) mac Harp) as (t' & Hset & Harp' & Hdata & _). run (on_snd_run _ t _ t' s1 Hset).
  run (on_fst_run (get_iface i) s1 f s1 t' (lift_opt_run_gen _ _ s1 (Hif : c_ifaces s1 !! i = _))).
  assert (Htest : bool_decide (dst (pk_id q) ≠ if_addr f) && negb promisc = false).
  { destruct Hdst as [Ha| ->]; [|by rewrite andb_false_r]. rewrite bool_decide_false; [done|]. by intros []. }
  rewrite Htest. run (on_fst_run _ s1 _ _ t' (csp_qfifo_write_room s1 b i isr Hroom)).
  set (s2 := set_c_qfifo _ s1). run (on_fst_run (csp_if_eth_pbuf_list_cleanup None) s2 None s2 t' eq_refl).
  exists s2, t'. split; [done|]. split; [|done]. exists b, (mk_skbf 1 b q). split; [done|].
  split; [exact (upd_pkt_lookup s b _ q Hk)|]. done.
Qed.

Lemma eth_rx_whole s t d f e pid src_ (pay mac junk : list Z) id l b r :
  buf_inv s → fq_items (c_free s) = b :: r → c_ifaces s !! i = Some f → et_data t !! i = Some d → eth_pbufs d = None → arp_ok t l →
  length e = 14%nat → member_be16 e ETHER_TYPE = Some CSP_ETH_TYPE_CSP → mem_read e ETHER_SHOST CSP_ETH_ALEN = Some mac →
  is_u16 pid → is_u16 src_ → bytes_ok pay → Z.of_nat (length pay) ≤ CSP_BUFFER_SIZE → id_fits (c_version s) id →
  dst id = if_addr f ∨ eth_promisc d = true → (length (fq_items (c_qfifo s)) < fq_cap (c_qfifo s))%nat →
  let bs := id_header (c_version s) id ++ pay in let fr := efp_frame e pid src_ (Z.of_nat (length bs)) bs in
  ∃ s' t', csp_eth_rx i (fr ++ junk) (Z.of_nat (length fr)) isr (s, t) = Some (CSP_ERR_NONE, (s', t')) ∧
    arrived s s' i id pay ∧ arp_ok t' (arp_learn (src id) mac l) ∧ et_data t' = et_data t.
Proof.
  intros Hb Hfree Hif Hd Hpb Harp He Hty Hmac Hpid Hsrc Hbytes Hpl Hfit Hdst Hroom bs fr.
  pose proof (length_id_header (c_version s) id) as Hhl. pose proof (id_header_size_range (c_version s)) as Hs.
  assert (Hlen : Z.of_nat (length bs) = id_header_size (c_version s) + Z.of_nat (length pay)) by (unfold bs; rewrite length_app; lia).
  assert (Hbs : bytes_ok bs) by (apply Forall_app; split; [apply id_header_ok|done]).
  assert (Hu : is_u16 (Z.of_nat (length bs))) by (unfold is_u16, CSP_BUFFER_SIZE in *; lia).
  destruct (eth_rx_header s t e pid src_ (Z.of_nat (length bs)) bs junk He Hty Hu ltac:(lia) Hpid Hsrc) as (id' & Hrx & Hmem & Hsh).
  fold fr in Hmem, Hsh, Hrx. rewrite Hrx. destruct (pbuf_get_fresh s id' b r Hb Hfree) as (s1 & Hget & Hcol & (Hv1 & _ & Hi1 & _) & Hq1 & _).
  destruct (rx_segment_store s1 t d b id' (fr ++ junk) bs (Z.of_nat (length bs)) Hd Hpb Hcol Hbs ltac:(lia) Hu
    ltac:(rewrite Hv1; lia) Hmem s Hget) as (s2 & Hcol2 & (Hv2 & _ & Hi2 & _) & Hq2 & _ & ->).
  rewrite bool_decide_false by lia.
  destruct (eth_deliver_run s2 t b f (fr ++ junk) bs pay mac id l (eth_promisc d) Hcol2) as (s' & t' & R & (b' & k' & Hq & Hk & Hid & Hp) & Ht);
    [by rewrite Hv2, Hv1|by rewrite Hv2, Hv1|by rewrite Hi2, Hi1|done|done|by apply Hsh|by rewrite Hq2, Hq1|].
  exists s', t'. split; [done|]. split; [|done]. exists b', k'. split; [by rewrite Hq, Hq2, Hq1|done].
Qed.
End Receiver.

(** ** Sender and receiver *)

(** A receiver with a buffer and a place in the router's queue; [csp_eth_init] leaves the list
    of partially received packets empty. *)
Record eth_waiting (s : csp_core) (t : eth_t) (i : nat) (f : csp_iface_t) (d : csp_eth_interface_data_t) (l : list (Z * list Z)) : Prop := {
  ew_inv : buf_inv s;
  ew_free : fq_items (c_free s) ≠ [];
  ew_room : (length (fq_items (c_qfifo s)) < fq_cap (c_qfifo s))%nat;
  ew_iface : c_ifaces s !! i = Some f;
  ew_data : et_data t !! i = Some d;
  ew_pbufs : eth_pbufs d = None;
  ew_arp : arp_ok t l;
}.

(** Frames received one after the other. *)
Fixpoint eth_feed (i : nat) (isr : bool) (frs : list (list Z)) : ST (csp_core * eth_t) () :=
  match frs with
  | [] => mret ()
  | fr :: frs' => csp_eth_rx i fr (Z.of_nat (length fr)) isr;; eth_feed i isr frs'
  end.

Section Segments.
Context (e : list Z) (pid src_ len : Z) (smax : nat) (smax_pos : (0 < smax)%nat).

Lemma segments_parts fuel rest :
  bytes_ok rest → Forall (λ fr, ∃ bs, fr = efp_frame e pid src_ len bs ∧ (0 < length bs ≤ smax)%nat ∧ bytes_ok bs) (efp_segments fuel e pid src_ len smax rest).
Proof.
  revert rest. induction fuel as [|fuel IH]; intros [|x rest] Hb; [by apply Forall_nil..|]. cbn [efp_segments]. apply Forall_cons. split.
  - exists (take smax (x :: rest)). split; [done|]. split; [rewrite length_take; simpl; lia|]. by apply Forall_take.
  - apply IH. by apply Forall_drop.
Qed.

Lemma segments_one fuel rest : (length rest ≤ smax)%nat → rest ≠ [] → efp_segments (S fuel) e pid src_ len smax rest = [efp_frame e pid src_ len rest].
Proof.
  intros Hl Hr. destruct rest as [|x rest]; [done|]. cbn [efp_segments]. rewrite take_ge, drop_ge by done. by destruct fuel.
Qed.

Lemma segments_more fuel rest : (smax < length rest)%nat → (2 ≤ length (efp_segments (S (S fuel)) e pid src_ len smax rest))%nat.
Proof.
  intros Hl. destruct rest as [|x rest]; [simpl in Hl; lia|]. cbn [efp_segments].
  destruct (drop smax (x :: rest)) as [|y r] eqn:Hd; [apply (f_equal length) in Hd; rewrite length_drop in Hd; simpl in *; lia|]. simpl. lia.
Qed.

(** Segments of a longer packet. *)
Lemma feed_partial i isr d t frs : et_data t !! i = Some d → eth_pbufs d = None → length e = 14%nat →
  member_be16 e ETHER_TYPE = Some CSP_ETH_TYPE_CSP → is_u16 len → is_u16 pid → is_u16 src_ → Z.of_nat smax < len →
  Forall (λ fr, ∃ bs, fr = efp_frame e pid src_ len bs ∧ (0 < length bs ≤ smax)%nat ∧ bytes_ok bs) frs →
  ∀ s, buf_inv s → len ≤ CSP_BUFFER_SIZE + id_header_size (c_version s) → (length frs ≤ length (fq_items (c_free s)))%nat →
  ∃ s', eth_feed i isr frs (s, t) = Some ((), (s', t)) ∧ buf_inv s' ∧ c_qfifo s' = c_qfifo s ∧
    fq_items (c_free s') = drop (length frs) (fq_items (c_free s)).
Proof.
  intros Hd Hpb He Hty Hlen Hpid Hsrc Hsm. induction 1 as [|fr frs (bs & -> & Hbs & Hbytes) _ IH]; intros s Hb Hfit Hfree.
  { exists s. by rewrite drop_0. }
  destruct (fq_items (c_free s)) as [|b l] eqn:Hf; [simpl in Hfree; lia|].
  destruct (eth_rx_partial i isr s t d e pid src_ len bs [] b l Hb Hf Hd Hpb He Hty Hlen Hpid Hsrc Hbytes ltac:(lia) ltac:(lia))
    as (s1 & R & Hb1 & Hv1 & Hq1 & Hl1 & _). rewrite app_nil_r in R. cbn [eth_feed]. run R.
  destruct (IH s1 Hb1 ltac:(by rewrite Hv1) ltac:(rewrite Hl1; simpl in Hfree; lia)) as (s2 & R2 & Hb2 & Hq2 & Hl2).
  exists s2. split; [exact R2|]. split; [done|]. split; [congruence|]. by rewrite Hl2, Hl1.
Qed.
End Segments.

(** C15: A packet that fits one Ethernet frame arrives: it is sent as one frame, and a receiver
    of the same header version with that address that receives the frame puts a packet with
    the same identifier and payload on the router's queue.  For its answer it then uses the
    hardware address it had in its table for the sender, also a stale one; the sender's own
    when it had none and the table has fewer than ten entries; and the broadcast address when
    the table is full. *)
Theorem csp_eth_roundtrip `{EthDriver} (s1 : csp_core) (t1 : eth_t) (i1 b : nat) (via : Z) (from_me : bool) (k : csp_skbf_t)
    (f1 : csp_iface_t) (d1 : csp_eth_interface_data_t) (l1 : list (Z * list Z)) :
  (∀ i f w, eth_tx_func i f w = CSP_ERR_NONE) →
  buf_inv s1 → c_pool s1 !! b = Some k → c_ifaces s1 !! i1 = Some f1 → eth_ready t1 i1 d1 l1 →
  id_fits (c_version s1) (pk_id (skbf_data k)) → dst (pk_id (skbf_data k)) ≠ if_addr f1 →
  pk_length (skbf_data k) ≤ CSP_BUFFER_SIZE → id_header_size (c_version s1) + pk_length (skbf_data k) ≤ Z.of_nat (seg_max d1) →
  ∃ pay fr s1' t1', payload (skbf_data k) = Some pay ∧
    csp_eth_tx i1 via b from_me (s1, t1) = Some (CSP_ERR_NONE, (s1', t1')) ∧ et_wire t1' = et_wire t1 ++ [(i1, fr)] ∧
  ∀ s2 t2 i2 isr junk f2 d2 l2, c_version s2 = c_version s1 → eth_waiting s2 t2 i2 f2 d2 l2 → if_addr f2 = dst (pk_id (skbf_data k)) →
    ∃ s2' t2', csp_eth_rx i2 (fr ++ junk) (Z.of_nat (length fr)) isr (s2, t2) = Some (CSP_ERR_NONE, (s2', t2')) ∧
      arrived s2 s2' i2 (pk_id (skbf_data k)) pay ∧
      csp_eth_arp_get_addr (src (pk_id (skbf_data k))) t2' =
        Some (match arp_lookup (src (pk_id (skbf_data k))) l2 with
              | Some mac => mac
              | None => if bool_decide (Z.of_nat (length l2) < 10) then eth_if_mac d1 else replicate 6 0xff
              end, t2').
Proof.
  intros Hacc Hb Hk Hf Hr Hfit Hdst Hlen Hone. set (id := pk_id (skbf_data k)) in *.
  destruct (eth_tx_run Hacc s1 t1 i1 b via from_me k f1 d1 l1 Hb Hk Hf Hdst Hr Hlen)
    as (pay & e & pid & s1' & t1' & Hpay & Hbytes & He & Hpid & Hmac & Hty & R & _ & Hw). fold id in Hw.
  assert (Hlp : pk_length (skbf_data k) = Z.of_nat (length pay)) by (symmetry; by eapply mem_read_length).
  pose proof (length_id_header (c_version s1) id) as Hhl. pose proof (id_header_size_range (c_version s1)) as Hs.
  set (bs := id_header (c_version s1) id ++ pay). set (fr := efp_frame e pid (src id) (Z.of_nat (length bs)) bs).
  assert (Hsrc : is_u16 (src id)) by (destruct (bi_pool s1 Hb _ _ Hk) as (_ & Hok & _); apply (po_id _ Hok)).
  exists pay, fr, s1', t1'. split; [done|]. split; [done|]. split.
  { rewrite Hw. f_equal. unfold packet_frames. fold bs. rewrite segments_one; [done| |].
    - unfold bs. rewrite length_app. lia.
    - intros Hnil. apply (f_equal length) in Hnil. unfold bs in Hnil. rewrite length_app in Hnil. simpl in Hnil. lia. }
  intros s2 t2 i2 isr junk f2 d2 l2 Hv [Hb2 Hfree Hroom Hi2 Hd2 Hpb Harp] Haddr.
  destruct (fq_items (c_free s2)) as [|b2 r] eqn:Hfr; [done|].
  destruct (eth_rx_whole i2 isr s2 t2 d2 f2 e pid (src id) pay (eth_if_mac d1) junk id l2 b2 r Hb2 Hfr Hi2 Hd2 Hpb Harp He Hty Hmac Hpid
    Hsrc Hbytes ltac:(lia) ltac:(by rewrite Hv) ltac:(by left) Hroom) as (s2' & t2' & R2 & Ha & Harp' & _).
  rewrite Hv in R2. exists s2', t2'. split; [exact R2|]. split; [done|].
  rewrite (arp_get_run t2' _ (src id) Harp'). do 2 f_equal. apply arp_learn_lookup.
Qed.

(** A packet that needs more than one Ethernet frame never arrives: it is sent as two or
    more frames without an error, and a receiver that gets all of them in order accepts each,
    puts nothing on the router's queue, and has lost one buffer for every one of them. *)
Theorem csp_eth_loses_segments `{EthDriver} (s1 : csp_core) (t1 : eth_t) (i1 b : nat) (via : Z) (from_me : bool) (k : csp_skbf_t)
    (f1 : csp_iface_t) (d1 : csp_eth_interface_data_t) (l1 : list (Z * list Z)) :
  (∀ i f w, eth_tx_func i f w = CSP_ERR_NONE) →
  buf_inv s1 → c_pool s1 !! b = Some k → c_ifaces s1 !! i1 = Some f1 → eth_ready t1 i1 d1 l1 →
  dst (pk_id (skbf_data k)) ≠ if_addr f1 →
  pk_length (skbf_data k) ≤ CSP_BUFFER_SIZE → Z.of_nat (seg_max d1) < id_header_size (c_version s1) + pk_length (skbf_data k) →
  ∃ frs s1' t1', csp_eth_tx i1 via b from_me (s1, t1) = Some (CSP_ERR_NONE, (s1', t1')) ∧
    et_wire t1' = et_wire t1 ++ map (pair i1) frs ∧ (2 ≤ length frs)%nat ∧
  ∀ s2 t2 i2 isr f2 d2 l2, c_version s2 = c_version s1 → eth_waiting s2 t2 i2 f2 d2 l2 →
    (length frs ≤ length (fq_items (c_free s2)))%nat →
    ∃ s2', eth_feed i2 isr frs (s2, t2) = Some ((), (s2', t2)) ∧ c_qfifo s2' = c_qfifo s2 ∧
      fq_items (c_free s2') = drop (length frs) (fq_items (c_free s2)).
Proof.
  intros Hacc Hb Hk Hf Hr Hdst Hlen Hmore. set (id := pk_id (skbf_data k)) in *.
  destruct (eth_tx_run Hacc s1 t1 i1 b via from_me k f1 d1 l1 Hb Hk Hf Hdst Hr Hlen)
    as (pay & e & pid & s1' & t1' & Hpay & Hbytes & He & Hpid & Hmac & Hty & R & _ & Hw). fold id in Hw.
  assert (Hlp : pk_length (skbf_data k) = Z.of_nat (length pay)) by (symmetry; by eapply mem_read_length).
  pose proof (length_id_header (c_version s1) id) as Hhl. pose proof (id_header_size_range (c_version s1)) as Hs.
  set (bs := id_header (c_version s1) id ++ pay).
  assert (Hbl : Z.of_nat (length bs) = id_header_size (c_version s1) + pk_length (skbf_data k)) by (unfold bs; rewrite length_app; lia).
  assert (Hsrc : is_u16 (src id)) by (destruct (bi_pool s1 Hb _ _ Hk) as (_ & Hok & _); apply (po_id _ Hok)).
  assert (Hsm : (0 < seg_max d1)%nat) by (pose proof (er_mtu _ _ _ _ Hr); unfold seg_max; lia).
  exists (packet_frames (c_version s1) e pid (seg_max d1) id pay), s1', t1'. split; [done|]. split; [done|].
  assert (Hbb : bytes_ok bs) by (apply Forall_app; split; [apply id_header_ok|done]). unfold packet_frames. fold bs. split.
  { destruct (length bs) as [|n] eqn:Hn; [lia|]. apply segments_more; lia. }
  intros s2 t2 i2 isr f2 d2 l2 Hv [Hb2 _ _ _ Hd2 Hpb _] Hfree.
  destruct (feed_partial e pid (src id) (Z.of_nat (length bs)) (seg_max d1) Hsm i2 isr d2 t2
    (efp_segments (S (length bs)) e pid (src id) (Z.of_nat (length bs)) (seg_max d1) bs) Hd2 Hpb He Hty) with (s := s2) as (s2' & R2 & _ & Hq & Hl).
  - unfold is_u16, CSP_BUFFER_SIZE in *. lia.
  - done.
  - done.
  - lia.
  - by apply segments_parts.
  - done.
  - rewrite Hv. lia.
  - done.
  - exists s2'. done.
Qed.

(** ** Examples *)

Section Examples.
#[local] Instance eth_accepts : EthDriver := λ _ _ _, CSP_ERR_NONE.

(** Two nodes that heard of nobody: the sender with address 21, the receiver with 20. *)
Definition eth_data (mtu : Z) : csp_eth_interface_data_t := mk_eth false mtu (replicate 3000 0) None [2; 0; 0; 0; 0; 1].
Definition eth_state (mtu : Z) : eth_t := mk_eth_state {[5%nat := eth_data mtu]} (replicate 10 (mk_arp 0 [] None)) 0 None 0 [].
Definition eth_peer (p : csp_packet_t) : csp_core :=
  mk_core 2 0 dbg_zero [mk_skbf 0 0 empty_packet; mk_skbf 0 1 empty_packet] (mk_fifo 2 [0; 1]%nat) (mk_fifo 4 [])
    {[5%nat := new_iface (dst (pk_id p)) 8 "ETH" NexthopNone 1]} (Some 5%nat) ∅ ∅ [].

Lemma eth_peer_inv p : buf_inv (eth_peer p).
Proof.
  split.
  - intros [|[|n]] k; simpl; [intros [= <-]..|done]; split_and!; try done; apply empty_packet_ok.
  - done.
  - apply (bool_decide_unpack (NoDup _)). done.
  - intros n. simpl. rewrite !elem_of_cons, elem_of_nil. split.
    + intros [->|[->|[]]]; by eexists.
    + intros (k & Hk & _). destruct n as [|[|n]]; simpl in Hk; [by left|by right; left|done].
Qed.

Lemma eth_state_arp mtu : arp_ok (eth_state mtu) [].
Proof. split; [done|done|simpl; unfold ARP_MAX_ENTRIES; lia|done|]. intros n a m Hn. by rewrite lookup_nil in Hn. Qed.

Lemma eth_state_ready mtu : 22 < mtu ≤ 3000 → eth_ready (eth_state mtu) 5 (eth_data mtu) [].
Proof.
  intros Hm. split; [by apply lookup_singleton_eq|reflexivity|done|done|apply eth_state_arp|by apply Forall_nil].
Qed.

Lemma eth_peer_waiting p mtu : eth_waiting (eth_peer p) (eth_state mtu) 5 (new_iface (dst (pk_id p)) 8 "ETH" NexthopNone 1) (eth_data mtu) [].
Proof.
  split; [apply eth_peer_inv|done|cbn; lia|by apply lookup_singleton_eq|by apply lookup_singleton_eq|done|apply eth_state_arp].
Qed.

Lemma csp_eth_roundtrip_witness :
  ∃ pay fr s1' t1' s2' t2', csp_eth_tx 5 0 0 true (link_example id_example, eth_state 1500) = Some (CSP_ERR_NONE, (s1', t1')) ∧
    csp_eth_rx 5 (fr ++ []) (Z.of_nat (length fr)) false (eth_peer id_example, eth_state 1500) = Some (CSP_ERR_NONE, (s2', t2')) ∧
    arrived (eth_peer id_example) s2' 5 (pk_id id_example) pay ∧
    csp_eth_arp_get_addr (src (pk_id id_example)) t2' = Some (eth_if_mac (eth_data 1500), t2').
Proof.
  destruct (csp_eth_roundtrip (link_example id_example) (eth_state 1500) 5 0 0 true (mk_skbf 1 0 id_example)
    (new_iface 21 8 "LINK" NexthopNone 1) (eth_data 1500) []) as (pay & fr & s1' & t1' & _ & R & _ & Hrx).
  - done.
  - apply link_example_inv, id_example_ok.
  - reflexivity.
  - by apply lookup_singleton_eq.
  - apply eth_state_ready. lia.
  - apply (bool_decide_unpack (id2_fits _)). vm_compute. exact I.
  - vm_compute. congruence.
  - vm_compute. congruence.
  - vm_compute. congruence.
  - destruct (Hrx (eth_peer id_example) (eth_state 1500) 5%nat false [] _ (eth_data 1500) [] eq_refl (eth_peer_waiting id_example 1500) eq_refl)
      as (s2' & t2' & R2 & Ha & Harp).
    exists pay, fr, s1', t1', s2', t2'. exact (conj R (conj R2 (conj Ha Harp))).
Defined.

(** Frames of at most 30 bytes hold eight bytes of the packet's eleven. *)
Lemma csp_eth_loses_segments_witness :
  ∃ frs s1' t1' s2', csp_eth_tx 5 0 0 true (link_example id_example, eth_state 30) = Some (CSP_ERR_NONE, (s1', t1')) ∧
    et_wire t1' = map (pair 5%nat) frs ∧
    eth_feed 5 false frs (eth_peer id_example, eth_state 30) = Some ((), (s2', eth_state 30)) ∧
    fq_items (c_qfifo s2') = [] ∧ fq_items (c_free s2') = [].
Proof.
  destruct (csp_eth_loses_segments (link_example id_example) (eth_state 30) 5 0 0 true (mk_skbf 1 0 id_example)
    (new_iface 21 8 "LINK" NexthopNone 1) (eth_data 30) []) as (frs & s1' & t1' & R & Hw & Hn & Hrx).
  - done.
  - apply link_example_inv, id_example_ok.
  - reflexivity.
  - by apply lookup_singleton_eq.
  - apply eth_state_ready. lia.
  - vm_compute. congruence.
  - vm_compute. congruence.
  - vm_compute. reflexivity.
  - assert (Hl : length frs = 2%nat).
    { assert (Hr : (λ r, match r with Some (_, (_, t)) => length (et_wire t) | None => 0%nat end)
        (csp_eth_tx 5 0 0 true (link_example id_example, eth_state 30)) = 2%nat) by (vm_compute; reflexivity).
      rewrite R, Hw, length_app, length_map in Hr. exact Hr. }
    destruct (Hrx (eth_peer id_example) (eth_state 30) 5%nat false _ (eth_data 30) [] eq_refl (eth_peer_waiting id_example 30)) as (s2' & R2 & Hq & Hf).
    { rewrite Hl. simpl. lia. }
    exists frs, s1', t1', s2'. rewrite Hl in Hf. exact (conj R (conj Hw (conj R2 (conj (f_equal fq_items Hq) Hf)))).
Defined.
End Examples.
