(* ===== verification/Links.v ===== *)
(** * UDP, ZeroMQ, I2C and tunnel interfaces

    [src/interfaces/csp_if_udp.c], [csp_if_zmqhub.c], [csp_if_i2c.c] and [csp_if_tun.c]:
    interfaces that carry a frame as it is, without segments of their own.  Sockets, drivers
    and the encryption of a tunnel are parameters; setting them up is left out. *)

From S2P Require Import Prelude Queue Types State Id Crc32 Buffer Qfifo Iflist Kiss Nexthop.

(** A frame handed to a socket or a driver. *)
Definition wire_frame (iface : nat) (frame : list Z) : C () := kiss_tx_func iface frame.

(** ** UDP *)

(** [csp_if_udp_tx] *)
Definition csp_if_udp_tx (sockfd : Z) (iface : nat) (via : Z) (packet : nat) (from_me : bool) : C Z :=
  if bool_decide (sockfd = 0) then csp_buffer_free (Some packet);; mret CSP_ERR_NONE else
  version ← gets c_version;
  p ← get_packet packet;
  p ← lift_opt (csp_id_prepend version p);
  put_packet packet p;;
  frame ← lift_opt (frame_read p 0 (frame_length p));
  wire_frame iface frame;;
  csp_buffer_free (Some packet);;
  mret CSP_ERR_NONE.

(** [recvfrom]: the bytes of the datagram that fit, or an error. *)
Definition recv_bytes (datagram : option (list Z)) (room : Z) : option (list Z) := take (Z.to_nat room) <$> datagram.

(** [csp_if_udp_rx_work] on the datagram [recvfrom] finds. *)
Definition csp_if_udp_rx_work (datagram : option (list Z)) (iface : nat) : C Z :=
  r ← csp_buffer_get;
  match r with
  | None => mret CSP_ERR_NOMEM
  | Some b =>
      version ← gets c_version;
      p ← get_packet b;
      let '(header_size, p) := csp_id_setup_rx version p in
      let received := recv_bytes datagram (CSP_BUFFER_SIZE + header_size) in
      p ← match received with Some bytes => lift_opt (frame_write p 0 bytes) | None => mret p end;
      put_packet b p;;
      let received_len := match received with Some bytes => Z.of_nat (List.length bytes) | None => -1 end in
      if bool_decide (received_len ≤ 4) then csp_buffer_free (Some b);; mret CSP_ERR_NOMEM else
      '(rc, p) ← lift_opt (csp_id_strip version (set_frame_length (u16 received_len) p));
      put_packet b p;;
      if bool_decide (rc ≠ 0) then csp_buffer_free (Some b);; mret CSP_ERR_INVAL else
      csp_qfifo_write (Some b) (Some iface) false;;
      mret CSP_ERR_NONE
  end.

(** One turn of [csp_if_udp_rx_loop]. *)
Definition csp_if_udp_rx_turn (datagram : option (list Z)) (iface : nat) : C () :=
  ret ← csp_if_udp_rx_work datagram iface;
  when (bool_decide (ret = CSP_ERR_INVAL)) (iface_add iface StRxError 1).

(** ** ZeroMQ *)

(** [csp_zmqhub_tx]; an error of [zmq_send] is only printed. *)
Definition csp_zmqhub_tx (iface : nat) (via : Z) (packet : nat) (from_me : bool) : C Z :=
  version ← gets c_version;
  p ← get_packet packet;
  p ← lift_opt (csp_id_prepend version p);
  put_packet packet p;;
  frame ← lift_opt (frame_read p 0 (frame_length p));
  wire_frame iface frame;;
  csp_buffer_free (Some packet);;
  mret CSP_ERR_NONE.

(** One turn of [csp_zmqhub_task] with the message [zmq_msg_recv] returns, whose size does
    not depend on the size the message was initialised with. *)
Definition csp_zmqhub_turn (msg : option (list Z)) (iface : nat) : C () :=
  version ← gets c_version;
  let HEADER_SIZE := if bool_decide (version = 2) then 6 else 4 in
  match msg with
  | None => mret ()
  | Some data =>
      let datalen := Z.of_nat (List.length data) in
      if bool_decide (datalen < HEADER_SIZE) then mret () else
      r ← csp_buffer_get;
      match r with
      | None => mret ()
      | Some b =>
          p ← get_packet b;
          p ← lift_opt (frame_write (csp_id_setup_rx version p).2 0 data);
          '(rc, p) ← lift_opt (csp_id_strip version (set_frame_length (u16 datalen) p));
          put_packet b p;;
          if bool_decide (rc ≠ 0) then iface_add iface StRxError 1;; csp_buffer_free (Some b) else
          csp_qfifo_write (Some b) (Some iface) false
      end
  end.

(** ** I2C *)

(** [csp_i2c_tx]; [tx_func] is the driver, which gets the packet. *)
Definition csp_i2c_tx (tx_func : nat → C Z) (iface : nat) (via : Z) (packet : nat) (from_me : bool) : C Z :=
  f ← get_iface iface;
  p ← get_packet packet;
  if bool_decide (dst (pk_id p) = if_addr f) then
    csp_qfifo_write (Some packet) (Some iface) false;; mret CSP_ERR_NONE
  else
    version ← gets c_version;
    p ← lift_opt (csp_id_prepend version p);
    let address := if bool_decide (via ≠ CSP_NO_VIA_ADDRESS) then via else dst (pk_id p) in
    put_packet packet (set_cfpid (Z.land address 0x7F) p);;
    tx_func packet.

(** [csp_i2c_rx]; [isr] is [pxTaskWoken != NULL]. *)
Definition csp_i2c_rx (iface : nat) (packet : option nat) (isr : bool) : C () :=
  match packet with
  | None => mret ()
  | Some b =>
      p ← get_packet b;
      if bool_decide (frame_length p < 4) then
        iface_add iface StFrame 1;; buffer_free_ctx isr (Some b)
      else
        version ← gets c_version;
        '(_, p) ← lift_opt (csp_id_strip version p);
        put_packet b p;;
        csp_qfifo_write (Some b) (Some iface) isr
  end.

(** ** Tunnel *)

Record csp_if_tun_conf_t := mk_tun { tun_src : Z; tun_dst : Z }.

(** [csp_if_tun_tx].  [csp_crypto_decrypt] and [csp_crypto_encrypt], which the program may
    replace, get the data and return what they write, or fail; the length is passed as a
    byte. *)
Definition csp_if_tun_tx (decrypt encrypt : list Z → option (list Z)) (conf : csp_if_tun_conf_t) (iface : nat) (via : Z) (packet : nat)
    (from_me : bool) : C Z :=
  r ← csp_buffer_get;
  match r with
  | None => csp_buffer_free (Some packet);; mret CSP_ERR_NONE
  | Some new_packet =>
      version ← gets c_version;
      p ← get_packet packet;
      if bool_decide (dst (pk_id p) = tun_src conf) then
        n ← get_packet new_packet;
        let n := (csp_id_setup_rx version n).2 in
        put_packet new_packet n;;
        ciphertext ← lift_opt (data_read p 0 (u8 (pk_length p)));
        match decrypt ciphertext with
        | None =>
            csp_buffer_free (Some new_packet);; csp_buffer_free (Some packet);;
            iface_add iface StRxError 1;; mret CSP_ERR_NONE
        | Some plain =>
            n ← lift_opt (frame_write n 0 plain);
            put_packet new_packet (set_frame_length (u16 (Z.of_nat (List.length plain))) n);;
            csp_buffer_free (Some packet);;
            n ← get_packet new_packet;
            '(_, n) ← lift_opt (csp_id_strip version n);
            put_packet new_packet n;;
            csp_qfifo_write (Some new_packet) (Some iface) false;; mret CSP_ERR_NONE
        end
      else
        p ← lift_opt (csp_id_prepend version p);
        put_packet packet p;;
        n ← get_packet new_packet;
        let n := set_pk_id (mk_id (pri (pk_id p)) (flags (pk_id n)) (u16 (tun_src conf)) (u16 (tun_dst conf)) 0 0) n in
        plain ← lift_opt (frame_read p 0 (u8 (frame_length p)));
        n ← match encrypt plain with
            | None => mret (set_pk_length 65535 n)
            | Some ciphertext =>
                n ← lift_opt (data_write n 0 ciphertext);
                mret (set_pk_length (u16 (Z.of_nat (List.length ciphertext))) n)
            end;
        put_packet new_packet n;;
        csp_buffer_free (Some packet);;
        n ← get_packet new_packet;
        n ← lift_opt (csp_id_prepend version n);
        put_packet new_packet n;;
        csp_qfifo_write (Some new_packet) (Some iface) false;; mret CSP_ERR_NONE
  end.
