(* ===== verification/LinksShown.v ===== *)
(** * What the plain interfaces receive

    Whatever arrives over UDP becomes a well-formed packet or is dropped; the frames the
    interfaces send are received as the packets they came from; a ZeroMQ message is not
    checked against the size of the buffer. *)

From S2P Require Import Prelude Queue Types State Id Crc32 Buffer Qfifo Iflist Kiss Nexthop Links.

Section Frames.
Implicit Types (s : csp_core) (b i : nat) (p : csp_packet_t) (v : Z).

Lemma setup_rx_frame v p : packet_ok p → packet_ok (csp_id_setup_rx v p).2 ∧ frame_at v (csp_id_setup_rx v p).2.
Proof. rewrite csp_id_setup_rx_unfold. intros []. split; [by split|done]. Qed.

Lemma frame_written v p bytes :
  packet_ok p → frame_at v p → bytes_ok bytes → Z.of_nat (List.length bytes) ≤ CSP_BUFFER_SIZE + id_header_size v →
  ∃ p', frame_write p 0 bytes = Some p' ∧ packet_ok p' ∧ frame_at v p' ∧ pk_id p' = pk_id p ∧
    frame_read p' 0 (Z.of_nat (List.length bytes)) = Some bytes.
Proof.
  intros Hp Hf Hb Hl. pose proof (id_header_size_range v) as Hs. pose proof (po_mem _ Hp) as Hm. unfold frame_write, frame_at in *. rewrite Hf.
  destruct (mem_write_is_Some (pk_mem p) (DATA_OFF - id_header_size v + 0) bytes) as (m & Hw & Hml); [sizes; lia|sizes; lia|].
  rewrite Hw. exists (set_pk_mem m p). split; [done|]. split; [|split; [done|]; split; [done|]].
  - apply set_pk_mem_ok; [done|lia|]. eapply mem_write_bytes_ok; [|exact Hb|exact Hw]. apply Hp.
  - unfold frame_read. cbn [frame_begin set_pk_mem pk_mem]. rewrite Hf. exact (mem_read_write_eq _ _ _ _ Hw).
Qed.

(** A frame in a fresh packet. *)
Lemma frame_received v p bytes :
  packet_ok p → bytes_ok bytes → Z.of_nat (List.length bytes) ≤ CSP_BUFFER_SIZE + id_header_size v →
  ∃ p1 rc p2, frame_write (csp_id_setup_rx v p).2 0 bytes = Some p1 ∧ packet_ok p1 ∧
    csp_id_strip v (set_frame_length (u16 (Z.of_nat (List.length bytes))) p1) = Some (rc, p2) ∧ packet_ok p2 ∧
    if bool_decide (Z.of_nat (List.length bytes) < id_header_size v) then rc = -1 else
    rc = 0 ∧ ∃ hdr pay, bytes = hdr ++ pay ∧ Z.of_nat (List.length hdr) = id_header_size v ∧ pk_id p2 = id_parse v hdr ∧
      payload p2 = Some pay ∧ pk_length p2 ≤ CSP_BUFFER_SIZE.
Proof.
  intros Hp Hb Hl. destruct (setup_rx_frame v p Hp) as [Hp0 Hf0]. pose proof (id_header_size_range v) as Hs.
  destruct (frame_written v _ bytes Hp0 Hf0 Hb Hl) as (p1 & Hw & Hp1 & Hf1 & _ & Hr). set (n := Z.of_nat (List.length bytes)) in *.
  assert (Hn : u16 n = n) by (apply u16_id; unfold is_u16; sizes; lia). rewrite Hn. set (r := set_frame_length n p1).
  assert (Hrok : packet_ok r) by (destruct Hp1; split; try done; cbn; unfold is_u16; sizes; lia). assert (Hfr : frame_at v r) by done.
  exists p1. case_bool_decide as Hlt.
  { exists (-1), (set_last_used 0 r). split; [done|]. split; [done|]. rewrite csp_id_strip_unfold, bool_decide_true by done. split; [done|].
    split; [by destruct Hrok; split|done]. }
  destruct (csp_id_strip_spec v r Hrok Hfr) as (hdr & Hh & Hst); [cbn; lia|]. eexists 0, _. split; [done|]. split; [done|]. split; [exact Hst|].
  split; [by eapply csp_id_strip_ok|]. split; [done|].
  assert (Hfull : frame_read r 0 (id_header_size v + (n - id_header_size v)) = Some bytes).
  { replace (id_header_size v + (n - id_header_size v)) with n by lia. exact Hr. }
  assert (Hhl : Z.of_nat (List.length hdr) = id_header_size v).
  { unfold frame_read in Hh. rewrite Hfr in Hh. by apply mem_read_length in Hh. }
  set (m := Z.to_nat (id_header_size v)). assert (Hm : List.length (take m bytes) = m) by (rewrite length_take; lia).
  assert (Hsplit : bytes = take m bytes ++ drop m bytes) by (by rewrite take_drop).
  rewrite Hsplit in Hfull. apply (frame_read_app_inv v r) in Hfull as [H1 H2]; [|done|lia|lia]. rewrite Hh in H1. injection H1 as H1.
  exists hdr, (drop m bytes). split; [by rewrite H1|]. split; [done|]. split; [done|]. split; [exact H2|]. cbn. lia.
Qed.
End Frames.

(** A buffer for a frame. *)
Lemma get_link s :
  buf_inv s →
  (∃ s1, csp_buffer_get s = Some (None, s1) ∧ fq_items (c_free s) = [] ∧ buf_inv s1 ∧ c_qfifo s1 = c_qfifo s ∧ c_pool s1 = c_pool s) ∨
  (∃ b k s1, csp_buffer_get s = Some (Some b, s1) ∧ link_step b s s1 ∧ c_pool s1 !! b = Some k ∧ refcount k = 1 ∧ packet_ok (skbf_data k) ∧
     ¬ allocated s b ∧ c_qfifo s1 = c_qfifo s).
Proof.
  intros Hi. destruct (csp_buffer_get_spec s Hi) as [(s1 & Hg & Hf & Hi1 & Hp & _)|(b & k & s1 & Hg & Hi1 & Hk & Hr & _ & Hs1)].
  - left. exists s1. split; [done|]. split; [done|]. split; [done|]. rewrite (csp_buffer_get_empty s Hf) in Hg. by injection Hg as <-.
  - right. pose proof (lookup_lt_Some _ _ _ Hk) as Hlt. destruct (bi_pool _ Hi b k Hk) as (_ & Hok & _).
    exists b, (mk_skbf 1 b (set_pk_id csp_id_clear (skbf_data k))), s1. split; [done|]. split.
    + split; try (rewrite Hs1; done); [done| | |].
      * intros x Hx. rewrite Hs1. cbn. by rewrite list_lookup_insert_ne.
      * rewrite Hs1. cbn. by rewrite length_insert.
      * rewrite Hs1. by apply ifaces_same.
    + split; [rewrite Hs1; cbn; by apply list_lookup_insert_eq|]. split; [done|]. split; [by apply clear_id_ok|]. split; [|by rewrite Hs1].
      intros (k' & Hk' & Hr'). congruence.
Qed.

Lemma kept_iface b s s' i : link_step b s s' → is_Some (c_ifaces s !! i) → is_Some (c_ifaces s' !! i).
Proof. intros [_ _ _ _ _ [_ Hk] _] [f Hf]. destruct (Hk i f Hf) as (g & Hg & _). by exists g. Qed.

(** What the bytes of a frame are as a packet. *)
Definition packet_of (v : Z) (bytes : list Z) (p : csp_packet_t) : Prop :=
  packet_ok p ∧ id_fits v (pk_id p) ∧ pk_length p ≤ CSP_BUFFER_SIZE ∧
  ∃ hdr pay, bytes = hdr ++ pay ∧ Z.of_nat (List.length hdr) = id_header_size v ∧ pk_id p = id_parse v hdr ∧ payload p = Some pay.

(** The buffers that were in use and the router's queue after a frame has been received. *)
Definition received_ok (s s' : csp_core) (i : nat) (bytes : list Z) : Prop :=
  buf_inv s' ∧ (∀ x, allocated s x → c_pool s' !! x = c_pool s !! x) ∧
  ((c_qfifo s' = c_qfifo s ∧ ∀ x, allocated s' x → allocated s x) ∨
   ∃ b k, fq_items (c_qfifo s') = fq_items (c_qfifo s) ++ [(Some b, Some i)] ∧ c_pool s' !! b = Some k ∧ refcount k = 1 ∧ ¬ allocated s b ∧
     packet_of (c_version s) bytes (skbf_data k)).

Lemma others_received b s s' :
  link_step b s s' → ¬ allocated s b →
  (∀ x, allocated s x → c_pool s' !! x = c_pool s !! x) ∧ (¬ allocated s' b → ∀ x, allocated s' x → allocated s x).
Proof.
  intros Hst Hna. split.
  - intros x Hx. apply (ls_others _ _ _ Hst). by intros ->.
  - intros Hnb x (k & Hk & Hr). destruct (decide (x = b)) as [->|Hne]; [destruct Hnb; by exists k|].
    exists k. by rewrite <- (ls_others _ _ _ Hst x Hne).
Qed.

(** Dropping the packet, and handing it to the router. *)
Lemma received_drop b s s1 k i bytes :
  link_step b s s1 → ¬ allocated s b → c_qfifo s1 = c_qfifo s → c_pool s1 !! b = Some k → refcount k = 1 →
  ∃ s', csp_buffer_free (Some b) s1 = Some ((), s') ∧ received_ok s s' i bytes ∧ c_ifaces s' = c_ifaces s1.
Proof.
  intros Hst Hna Hq Hk Hr. destruct (link_step_free b s1 k (ls_inv _ _ _ Hst) Hk Hr) as (s' & Hf & Hst' & Hnb & Hq'). exists s'. split; [done|].
  pose proof (link_step_trans _ _ _ _ Hst Hst') as Hs. destruct (others_received b s s' Hs Hna) as [Ho Hall]. split.
  - split; [apply Hst'|]. split; [done|]. left. split; [congruence|by apply Hall].
  - rewrite (csp_buffer_free_last s1 b k (ls_inv _ _ _ Hst) Hk Hr) in Hf. by injection Hf as <-.
Qed.

Lemma received_queue b s s1 k i bytes :
  link_step b s s1 → ¬ allocated s b → c_qfifo s1 = c_qfifo s → c_pool s1 !! b = Some k → refcount k = 1 → is_Some (c_ifaces s !! i) →
  packet_of (c_version s) bytes (skbf_data k) →
  ∃ s', csp_qfifo_write (Some b) (Some i) false s1 = Some ((), s') ∧ received_ok s s' i bytes ∧
    ((List.length (fq_items (c_qfifo s)) < fq_cap (c_qfifo s))%nat →
       fq_items (c_qfifo s') = fq_items (c_qfifo s) ++ [(Some b, Some i)] ∧ c_pool s' !! b = Some k).
Proof.
  intros Hst Hna Hq Hk Hr Hi Hp. pose proof (kept_iface _ _ _ i Hst Hi) as Hi1. destruct (others_received b s s1 Hst Hna) as [Ho _].
  destruct (decide (List.length (fq_items (c_qfifo s1)) < fq_cap (c_qfifo s1))%nat) as [Hroom|Hroom].
  - rewrite csp_qfifo_write_room by done. eexists. split; [done|]. split; [|intros _; by rewrite <- Hq].
    split; [by apply (buf_inv_ext s1); [..|apply Hst]|]. split; [done|]. right. exists b, k. by rewrite <- Hq.
  - destruct Hi1 as [f Hf]. rewrite (csp_qfifo_write_full _ _ _ _ f) by (done || lia). set (s2 := set_c_ifaces _ _).
    destruct (received_drop b s s2 k i bytes) as (s' & Hfr & Hrec & _); [|done|done|done|done|].
    + apply (link_step_trans _ _ s1); [done|]. apply link_step_other; try done; [apply Hst|]. split; [done|]. intros j g Hg. cbn.
      destruct (decide (i = j)) as [<-|]; [|rewrite lookup_insert_ne by done; by exists g].
      rewrite lookup_insert_eq. exists (if_add StDrop 1 f). split; [done|]. by assert (g = f) as -> by congruence.
    + exists s'. split; [done|]. split; [done|]. rewrite Hq in Hroom. done.
Qed.

(** ** UDP *)

Lemma put_run s b k p : c_pool s !! b = Some k → put_packet b p s = Some ((), upd_pkt s b k p).
Proof. intros Hk. exact (put_packet_run s b k p Hk). Qed.

Lemma get_run s b k : c_pool s !! b = Some k → get_packet b s = Some (skbf_data k, s).
Proof. intros Hk. exact (get_packet_run s b k Hk). Qed.

Lemma packet_of_frame v bytes p hdr pay :
  packet_ok p → bytes = hdr ++ pay → Z.of_nat (List.length hdr) = id_header_size v → pk_id p = id_parse v hdr → payload p = Some pay →
  pk_length p ≤ CSP_BUFFER_SIZE → packet_of v bytes p.
Proof.
  intros Hp Hb Hh Hid Hpay Hl. split; [done|]. split; [rewrite Hid; apply id_parse_fits|]. split; [done|]. by exists hdr, pay.
Qed.

(** What [csp_if_udp_rx_work] does with the bytes it finds. *)
Lemma udp_rx_bytes s i bytes b k s1 :
  link_step b s s1 → ¬ allocated s b → c_qfifo s1 = c_qfifo s → c_pool s1 !! b = Some k → refcount k = 1 → packet_ok (skbf_data k) →
  csp_buffer_get s = Some (Some b, s1) → is_Some (c_ifaces s !! i) → bytes_ok bytes →
  let got := take (Z.to_nat (CSP_BUFFER_SIZE + id_header_size (c_version s))) bytes in
  ∃ rc s', csp_if_udp_rx_work (Some bytes) i s = Some (rc, s') ∧ received_ok s s' i got ∧
    (4 < Z.of_nat (List.length got) → id_header_size (c_version s) ≤ Z.of_nat (List.length got) →
     (List.length (fq_items (c_qfifo s)) < fq_cap (c_qfifo s))%nat →
     rc = CSP_ERR_NONE ∧ ∃ k2, fq_items (c_qfifo s') = fq_items (c_qfifo s) ++ [(Some b, Some i)] ∧ c_pool s' !! b = Some k2 ∧
       packet_of (c_version s) got (skbf_data k2)).
Proof.
  intros Hst Hna Hq Hk Hr Hok Hg Hi Hb got. set (v := c_version s) in *. pose proof (ls_version _ _ _ Hst) as Hv. pose proof (id_header_size_range v) as Hs.
  assert (Hgl : Z.of_nat (List.length got) ≤ CSP_BUFFER_SIZE + id_header_size v) by (unfold got; rewrite length_take; sizes; lia).
  assert (Hgb : bytes_ok got) by (by apply Forall_take).
  destruct (frame_received v (skbf_data k) got Hok Hgb Hgl) as (p1 & rc & p2 & Hw & Hp1 & Hstr & Hp2 & Hres).
  unfold csp_if_udp_rx_work. run Hg. run (eq_refl : gets c_version s1 = Some (c_version s1, s1)). rewrite Hv. run (get_run s1 b k Hk).
  rewrite csp_id_setup_rx_unfold in Hw |- *. cbn [snd] in Hw. unfold recv_bytes. cbn [fmap option_fmap option_map]. fold got.
  run (lift_opt_run_gen _ _ s1 Hw). run (put_run s1 b k p1 Hk).
  set (k1 := mk_skbf (refcount k) (skbf_addr k) p1). set (s2 := upd_pkt s1 b k p1).
  assert (Hk1 : c_pool s2 !! b = Some k1) by (by apply upd_pkt_lookup).
  pose proof (link_step_trans _ _ _ _ Hst (link_step_put b s1 k p1 (ls_inv _ _ _ Hst) Hk Hp1)) as Hst2. fold s2 in Hst2.
  change (c_version s) with v. fold got.
  destruct (decide (Z.of_nat (List.length got) ≤ 4)) as [H4|H4]; [rewrite bool_decide_true by done|rewrite bool_decide_false by done].
  { destruct (received_drop b s s2 k1 i got Hst2 Hna) as (s' & Hf & Hrec & _); [done|done|done|]. run Hf. exists CSP_ERR_NOMEM, s'.
    split; [done|]. split; [done|]. lia. }
  run (lift_opt_run_gen _ _ s2 Hstr). run (put_run s2 b k1 p2 Hk1).
  set (k2 := mk_skbf (refcount k1) (skbf_addr k1) p2). set (s3 := upd_pkt s2 b k1 p2).
  assert (Hk2 : c_pool s3 !! b = Some k2) by (by apply upd_pkt_lookup).
  pose proof (link_step_trans _ _ _ _ Hst2 (link_step_put b s2 k1 p2 (ls_inv _ _ _ Hst2) Hk1 Hp2)) as Hst3. fold s3 in Hst3.
  destruct (decide (Z.of_nat (List.length got) < id_header_size v)) as [Hlt|Hge].
  - rewrite bool_decide_true in Hres by done. rewrite bool_decide_true by (by subst rc).
    destruct (received_drop b s s3 k2 i got Hst3 Hna) as (s' & Hf & Hrec & _); [done|done|done|]. run Hf. exists CSP_ERR_INVAL, s'.
    split; [done|]. split; [done|]. intros _ Hge. fold v in Hge. lia.
  - rewrite bool_decide_false in Hres by done. destruct Hres as (-> & hdr & pay & Hbytes & Hhl & Hid & Hpay & Hl). rewrite bool_decide_false by congruence.
    destruct (received_queue b s s3 k2 i got Hst3 Hna) as (s' & Hf & Hrec & Hroom); [done|done|done|done|by eapply packet_of_frame|].
    run Hf. exists CSP_ERR_NONE, s'. split; [done|]. split; [done|]. intros _ _ Hro. split; [done|]. destruct (Hroom Hro) as [Hq' Hp'].
    exists k2. split; [done|]. split; [done|]. by eapply packet_of_frame.
Qed.

(** C31: Whatever datagram [recvfrom] returns, receiving it keeps the buffers well formed and
    leaves those in use alone; either nothing is kept, or one packet more waits for the
    router, which is the only owner of its buffer: a packet whose identifier has every field
    in its width, whose length is at most that of a buffer, and whose identifier and payload
    are those of the bytes received (cut at the size of the buffer). *)
Theorem csp_if_udp_rx_well_formed (s : csp_core) (i : nat) (datagram : option (list Z)) :
  buf_inv s → is_Some (c_ifaces s !! i) → (∀ bytes, datagram = Some bytes → bytes_ok bytes) →
  ∃ rc s', csp_if_udp_rx_work datagram i s = Some (rc, s') ∧
    received_ok s s' i (default [] (recv_bytes datagram (CSP_BUFFER_SIZE + id_header_size (c_version s)))).
Proof.
  intros Hi Hif Hb. destruct (get_link s Hi) as [(s1 & Hg & Hf & Hi1 & Hq & Hp)|(b & k & s1 & Hg & Hst & Hk & Hr & Hok & Hna & Hq)].
  { unfold csp_if_udp_rx_work. run Hg. exists CSP_ERR_NOMEM, s1. split; [done|]. split; [done|]. rewrite Hp. split; [done|]. left. split; [done|].
    intros x. unfold allocated. by rewrite Hp. }
  destruct datagram as [bytes|].
  - destruct (udp_rx_bytes s i bytes b k s1) as (rc & s' & Hrun & Hrec & _); try done; [by apply Hb|]. by exists rc, s'.
  - unfold csp_if_udp_rx_work. run Hg. run (eq_refl : gets c_version s1 = Some (c_version s1, s1)). run (get_run s1 b k Hk).
    destruct (setup_rx_frame (c_version s1) (skbf_data k) Hok) as [Hp0 _].
    rewrite csp_id_setup_rx_unfold in Hp0 |- *. cbn [snd] in Hp0. set (p0 := set_frame_length 0 _) in *.
    run (eq_refl : (mret p0 : C csp_packet_t) s1 = Some (p0, s1)). run (put_run s1 b k p0 Hk).
    rewrite bool_decide_true by (cbn; lia).
    destruct (received_drop b s (upd_pkt s1 b k p0) (mk_skbf (refcount k) (skbf_addr k) p0) i []) as (s' & Hf & Hrec & _);
      [|done|done|by apply upd_pkt_lookup|done|].
    + apply (link_step_trans _ _ s1); [done|]. apply link_step_put; [apply Hst|done|done].
    + run Hf. by exists CSP_ERR_NOMEM, s'.
Qed.

Lemma csp_if_udp_rx_well_formed_witness :
  ∃ rc s', csp_if_udp_rx_work (Some [0; 17; 1; 255; 0; 9; 1; 2; 3]) 5 (link_example empty_packet) = Some (rc, s') ∧
    received_ok (link_example empty_packet) s' 5 [0; 17; 1; 255; 0; 9; 1; 2; 3].
Proof.
  destruct (csp_if_udp_rx_well_formed (link_example empty_packet) 5 (Some [0; 17; 1; 255; 0; 9; 1; 2; 3])) as (rc & s' & Hr & Hrec).
  - apply link_example_inv, empty_packet_ok.
  - eexists. reflexivity.
  - intros bytes [= <-]. repeat (apply Forall_cons; split; [done|]). by apply Forall_nil.
  - exists rc, s'. exact (conj Hr Hrec).
Defined.

(** ** Sending a frame as it is *)

(** [csp_zmqhub_tx] and [csp_if_udp_tx] with an open socket. *)
Lemma frame_tx_run s i via b fm k :
  buf_inv s → c_pool s !! b = Some k → refcount k = 1 → pk_length (skbf_data k) ≤ CSP_BUFFER_SIZE →
  ∃ s' pay, csp_zmqhub_tx i via b fm s = Some (CSP_ERR_NONE, s') ∧ link_step b s s' ∧ ¬ allocated s' b ∧ c_qfifo s' = c_qfifo s ∧
    payload (skbf_data k) = Some pay ∧ c_wire s' = c_wire s ++ [WireBytes i (id_header (c_version s) (pk_id (skbf_data k)) ++ pay)].
Proof.
  intros Hi Hk Hr Hl. destruct (bi_pool s Hi _ _ Hk) as (_ & Hok & _). set (v := c_version s). set (p := skbf_data k) in *.
  pose proof (id_header_size_range v) as Hs. pose proof (po_length _ Hok) as Hlp.
  destruct (csp_id_prepend_spec v p Hok) as (p' & Hpre & Hp' & Hf & Hfl & Hl' & Hid & _ & _ & _ & _ & _ & Hhd & Hdat).
  destruct (data_read_is_Some p 0 (pk_length p) Hok) as [pay Hpay]; [lia|unfold is_u16 in Hlp; lia|lia|].
  assert (Hfr : frame_read p' 0 (frame_length p') = Some (id_header v (pk_id p) ++ pay)).
  { rewrite Hfl, u16_id, Z.add_comm by (sizes; mlia). apply frame_read_app; [done|done|]. by rewrite Hdat. }
  unfold csp_zmqhub_tx. run (eq_refl : gets c_version s = Some (v, s)). run (get_run s b k Hk). run (lift_opt_run_gen _ _ s Hpre).
  run (put_run s b k p' Hk). pose proof (link_step_put b s k p' Hi Hk Hp') as H1. set (s1 := upd_pkt s b k p') in *.
  run (lift_opt_run_gen _ _ s1 Hfr). set (s2 := set_c_wire (c_wire s1 ++ [WireBytes i (id_header v (pk_id p) ++ pay)]) s1).
  run (eq_refl : wire_frame i (id_header v (pk_id p) ++ pay) s1 = Some ((), s2)).
  assert (H2 : link_step b s s2) by (apply (link_step_trans _ _ s1); [done|]; apply link_step_other; try done; [apply H1|by apply ifaces_same]).
  assert (Hk2 : c_pool s2 !! b = Some (mk_skbf (refcount k) (skbf_addr k) p')) by (by apply upd_pkt_lookup).
  destruct (link_step_free b s2 _ (ls_inv _ _ _ H2) Hk2 Hr) as (s3 & Hfree & H3 & Hna & Hq). run Hfree. exists s3, pay. split; [done|].
  split; [by eapply link_step_trans|]. split; [done|]. split; [by rewrite Hq|]. split; [done|].
  rewrite (csp_buffer_free_last s2 b _ (ls_inv _ _ _ H2) Hk2 Hr) in Hfree. by injection Hfree as <-.
Qed.

Lemma udp_tx_zmq fd i via b fm s : fd ≠ 0 → csp_if_udp_tx fd i via b fm s = csp_zmqhub_tx i via b fm s.
Proof. intros Hfd. unfold csp_if_udp_tx. by rewrite bool_decide_false. Qed.

#[export] Instance csp_zmqhub_tx_transmit : Transmit (λ _ _, True) csp_zmqhub_tx.
Proof.
  intros s i via b fm (Hi & _ & _ & k & Hk & Hr & Hl) _. destruct (frame_tx_run s i via b fm k Hi Hk Hr Hl) as (s' & pay & Hrun & Hst & Hna & Hq & _).
  exists CSP_ERR_NONE, s'. split; [done|]. split; [done|]. by left.
Qed.

#[export] Instance csp_if_udp_tx_transmit fd : Transmit (λ _ _, True) (csp_if_udp_tx fd).
Proof.
  intros s i via b fm Hready _. destruct (decide (fd = 0)) as [Hfd|Hfd]; [|rewrite udp_tx_zmq by done; by apply (csp_zmqhub_tx_transmit s i via b fm)].
  destruct Hready as (Hi & _ & _ & k & Hk & Hr & _). unfold csp_if_udp_tx. rewrite bool_decide_true by done.
  destruct (link_step_free b s k Hi Hk Hr) as (s' & Hf & Hst & Hna & Hq). run Hf. exists CSP_ERR_NONE, s'. split; [done|]. split; [done|]. by left.
Qed.

(** A packet with data sent over UDP arrives at a node of the same version that has a buffer
    and room in its queue. *)
Lemma csp_if_udp_roundtrip (fd : Z) (s : csp_core) (i : nat) (via : Z) (b : nat) (fm : bool) (k : csp_skbf_t) :
  fd ≠ 0 → buf_inv s → c_pool s !! b = Some k → refcount k = 1 → 0 < pk_length (skbf_data k) ≤ CSP_BUFFER_SIZE →
  id_fits (c_version s) (pk_id (skbf_data k)) →
  ∃ s' frame, csp_if_udp_tx fd i via b fm s = Some (CSP_ERR_NONE, s') ∧ c_wire s' = c_wire s ++ [WireBytes i frame] ∧
    ∀ r j, buf_inv r → c_version r = c_version s → is_Some (c_ifaces r !! j) → fq_items (c_free r) ≠ [] →
      (List.length (fq_items (c_qfifo r)) < fq_cap (c_qfifo r))%nat →
      ∃ r' b2 k2, csp_if_udp_rx_work (Some frame) j r = Some (CSP_ERR_NONE, r') ∧
        fq_items (c_qfifo r') = fq_items (c_qfifo r) ++ [(Some b2, Some j)] ∧ c_pool r' !! b2 = Some k2 ∧
        pk_id (skbf_data k2) = pk_id (skbf_data k) ∧ payload (skbf_data k2) = payload (skbf_data k).
Proof.
  intros Hfd Hi Hk Hr Hl Hfit. destruct (bi_pool s Hi _ _ Hk) as (_ & Hok & _). set (v := c_version s) in *. pose proof (id_header_size_range v) as Hs.
  destruct (frame_tx_run s i via b fm k Hi Hk Hr) as (s' & pay & Hrun & _ & _ & _ & Hpay & Hw); [lia|]. fold v in Hw. set (frame := id_header v _ ++ pay) in *.
  exists s', frame. rewrite udp_tx_zmq by done. split; [done|]. split; [done|]. intros r j Hri Hv Hif Hf Hroom.
  destruct (get_link r Hri) as [(r1 & _ & Hf0 & _)|(b2 & k1 & r1 & Hg & Hst & Hk1 & Hr1 & Hok1 & Hna & Hq)]; [done|].
  pose proof (length_id_header v (pk_id (skbf_data k))) as Hhl. pose proof (mem_read_length _ _ _ _ Hpay) as Hpl.
  assert (Hfl : Z.of_nat (List.length frame) = id_header_size v + pk_length (skbf_data k)) by (unfold frame; rewrite length_app; lia).
  assert (Hfb : bytes_ok frame) by (apply Forall_app; split; [apply id_header_ok|]; by apply (data_read_bytes_ok (skbf_data k) 0 (pk_length (skbf_data k)))).
  destruct (udp_rx_bytes r j frame b2 k1 r1 Hst Hna Hq Hk1 Hr1 Hok1 Hg Hif Hfb) as (rc & r' & Hrx & _ & Hres). rewrite Hv in Hres. fold v in Hres.
  rewrite firstn_all2 in Hres by (sizes; lia). destruct Hres as (-> & k2 & Hq2 & Hp2 & _ & _ & _ & hdr & pay2 & Hbytes & Hhl2 & Hid2 & Hpay2); [lia|lia|done|].
  exists r', b2, k2. split; [done|]. split; [done|]. split; [done|].
  assert (Hsame : id_header v (pk_id (skbf_data k)) = hdr ∧ pay = pay2) by (apply app_inj_1; [lia|done]). destruct Hsame as [<- <-].
  split; [rewrite Hid2; by apply id_parse_header|by rewrite Hpay2].
Qed.

(** ** Messages that are too long *)

(** A ZeroMQ message longer than a frame is copied over the end of the buffer. *)
Lemma csp_zmqhub_overflows s i data :
  buf_inv s → fq_items (c_free s) ≠ [] → CSP_BUFFER_SIZE + id_header_size (c_version s) < Z.of_nat (List.length data) →
  csp_zmqhub_turn (Some data) i s = None.
Proof.
  intros Hi Hf Hl. destruct (get_link s Hi) as [(s1 & _ & Hf0 & _)|(b & k & s1 & Hg & _ & Hk & _ & Hok & _)]; [done|].
  pose proof (id_header_size_range (c_version s)) as Hs. unfold csp_zmqhub_turn. run (eq_refl : gets c_version s = Some (c_version s, s)).
  rewrite bool_decide_false by (case_bool_decide; sizes; lia). run Hg. run (get_run s1 b k Hk).
  destruct (setup_rx_frame (c_version s) (skbf_data k) Hok) as [Hp Hfr]. set (p := (csp_id_setup_rx _ _).2) in *.
  assert (Hw : frame_write p 0 data = None); [|unfold mbind, ST_bind, lift_opt; by rewrite Hw].
  unfold frame_write. rewrite Hfr. destruct (mem_write _ _ data) as [m|] eqn:Hm; [|done]. exfalso. apply mem_write_Some in Hm as (_ & Hm & _).
  rewrite (po_mem _ Hp) in Hm. revert Hm. sizes. lia.
Qed.

(** A frame of four or five bytes over I2C, too short for the header of version 2, is given to
    the router with the identifier and the length its buffer held before. *)
Lemma csp_i2c_rx_queues_short s i b k isr :
  c_version s = 2 → c_pool s !! b = Some k → 4 ≤ frame_length (skbf_data k) < 6 →
  (List.length (fq_items (c_qfifo s)) < fq_cap (c_qfifo s))%nat →
  ∃ s' k', csp_i2c_rx i (Some b) isr s = Some ((), s') ∧ fq_items (c_qfifo s') = fq_items (c_qfifo s) ++ [(Some b, Some i)] ∧
    c_pool s' !! b = Some k' ∧ pk_id (skbf_data k') = pk_id (skbf_data k) ∧ pk_length (skbf_data k') = pk_length (skbf_data k).
Proof.
  intros Hv Hk Hl Hroom. unfold csp_i2c_rx. run (get_run s b k Hk). rewrite bool_decide_false by lia.
  run (eq_refl : gets c_version s = Some (c_version s, s)). rewrite Hv.
  assert (Hst : csp_id_strip 2 (skbf_data k) = Some (-1, set_last_used 0 (skbf_data k))).
  { rewrite csp_id_strip_unfold, bool_decide_true; [done|]. unfold id_header_size. rewrite bool_decide_true by done. unfold CSP_ID2_HEADER_SIZE. lia. }
  run (lift_opt_run_gen _ _ s Hst). run (put_run s b k (set_last_used 0 (skbf_data k)) Hk).
  rewrite csp_qfifo_write_room by done. eexists _, _. split; [done|]. split; [done|]. split; [by apply upd_pkt_lookup|done].
Qed.

(** Without a replacement of [csp_crypto_encrypt] a tunnel queues packets of length 65535. *)
Lemma csp_if_tun_unencrypted_length :
  ∃ s' k, csp_if_tun_tx (λ _, None) (λ _, None) (mk_tun 30 40) 5 0 0 true (link_example id_example) = Some (CSP_ERR_NONE, s') ∧
    fq_items (c_qfifo s') = [(Some 1%nat, Some 5%nat)] ∧ c_pool s' !! 1%nat = Some k ∧ pk_length (skbf_data k) = 65535.
Proof. eexists _, _. split; [vm_compute; reflexivity|]. split; [vm_compute; reflexivity|]. split; vm_compute; reflexivity. Qed.
