(* ===== verification/Clients.v ===== *)
(** * Clients of the services

    [src/csp_services.c]: the requests to the CSP services of another node, and
    [vmem/vmem_client.c]: the requests to its vmem server.  What is printed is left out,
    except the process list, which has no other result.  [fuel] bounds the wake-ups of a
    sender and the packets a reader takes; [dport0] and [sport0] are what the uninitialised
    fields in [csp_connect] hold. *)

From S2P Require Import Prelude Queue Types State Buffer Stack Net Rdp Conn Io Services VmemServer.

Definition CSP_PRIO_NORM : Z := 2.
Definition VMEM_VERSION : Z := 2.

Section Clients.
Context `{Env} (fuel : nat) (dport0 sport0 : Z).

(** ** CSP services *)

(** [csp_ping]: increasing numbers as data. *)
Definition ping_data (size : Z) : list Z := (λ i, u8 (Z.of_nat i)) <$> seq 0 (Z.to_nat size).

(** From [csp_buffer_get] to the label [out]: the packet to release, and [status]. *)
Definition ping_exchange (conn : nat) (timeout size : Z) : K (option nat * bool) :=
  r ← liftC csp_buffer_get;
  match r with
  | None => mret (None, false)
  | Some b =>
      p ← kget_packet b;
      p ← lift_opt (data_write (set_pk_length (u16 size) p) 0 (ping_data size));
      kput_packet b p;;
      csp_send fuel (Some conn) (Some b);;
      reply ← csp_read (Some conn) timeout;
      match reply with
      | None => mret (None, false)
      | Some b =>
          p ← kget_packet b;
          d ← lift_opt (data_read p 0 size);
          mret (Some b, bool_decide (d = ping_data size))
      end
  end.

Definition csp_ping (node timeout size conn_options : Z) : K Z :=
  start ← csp_get_ms;
  c ← csp_connect dport0 sport0 CSP_PRIO_NORM node CSP_PING timeout conn_options;
  match c with
  | None => mret (-1)
  | Some conn =>
      '(packet, status) ← ping_exchange conn timeout size;
      kfree packet;;
      csp_close (Some conn);;
      now ← csp_get_ms;
      mret (if (status : bool) then s32 (u32 (now - start)) else -1)
  end.

Definition csp_ping_noreply (node : Z) : K () :=
  r ← liftC csp_buffer_get;
  match r with
  | None => mret ()
  | Some b =>
      c ← csp_connect dport0 sport0 CSP_PRIO_NORM node CSP_PING 0 CSP_O_CRC32;
      match c with
      | None => kfree (Some b)
      | Some conn =>
          p ← kget_packet b;
          p ← lift_opt (data_write p 0 [0x55]);
          kput_packet b (set_pk_length 1 p);;
          csp_send fuel (Some conn) (Some b);;
          csp_close (Some conn);; mret ()
      end
  end.

Definition transaction (prio node port timeout : Z) (out : option (list Z)) (outlen inlen : Z) : K (Z * option (list Z)) :=
  csp_transaction_w_opts fuel dport0 sport0 prio node port timeout out outlen inlen CSP_O_CRC32.

Definition csp_reboot (node : Z) : K () :=
  transaction CSP_PRIO_NORM node CSP_REBOOT 0 (Some (be_bytes 4 CSP_REBOOT_MAGIC)) 4 0;; mret ().

Definition csp_shutdown (node : Z) : K () :=
  transaction CSP_PRIO_NORM node CSP_REBOOT 0 (Some (be_bytes 4 CSP_REBOOT_SHUTDOWN_MAGIC)) 4 0;; mret ().

(** A string up to its end. *)
Definition c_string (bytes : list Z) : list Z := match list_find (λ z, z = 0) bytes with Some (n, _) => take n bytes | None => bytes end.

(** The loop of [csp_ps]: the texts printed. *)
Fixpoint ps_loop (n : nat) (conn : nat) (timeout : Z) : K (list (list Z)) :=
  match n with
  | O => ub
  | S n' =>
      r ← csp_read (Some conn) timeout;
      match r with
      | None => mret []
      | Some b =>
          p ← kget_packet b;
          let length := if bool_decide (pk_length p < CSP_BUFFER_SIZE) then pk_length p else CSP_BUFFER_SIZE - 1 in
          p ← lift_opt (data_write p length [0]);
          kput_packet b p;;
          d ← lift_opt (data_read p 0 CSP_BUFFER_SIZE);
          kfree (Some b);;
          rest ← ps_loop n' conn timeout;
          mret (c_string d :: rest)
      end
  end.

Definition csp_ps (n : nat) (node timeout : Z) : K (list (list Z)) :=
  c ← csp_connect dport0 sport0 CSP_PRIO_NORM node CSP_PS 0 CSP_O_CRC32;
  match c with
  | None => mret []
  | Some conn =>
      r ← liftC csp_buffer_get;
      printed ← match r with
        | None => mret []
        | Some b =>
            p ← kget_packet b;
            p ← lift_opt (data_write p 0 [0x55]);
            kput_packet b (set_pk_length 1 p);;
            csp_send fuel (Some conn) (Some b);;
            texts ← ps_loop n conn timeout;
            mret (texts ++ [[13; 10]])
        end;
      kfree None;;
      csp_close (Some conn);; mret printed
  end.

(** [csp_get_memfree], [csp_get_buf_free] and [csp_get_uptime]: the error code and the word
    they store. *)
Definition get_word (port node timeout : Z) : K (Z * Z) :=
  '(status, reply) ← transaction CSP_PRIO_NORM node port timeout None 0 4;
  if bool_decide (status = 4) then bytes ← lift_opt reply; mret (CSP_ERR_NONE, be_val bytes) else mret (CSP_ERR_TIMEDOUT, 0).

Definition csp_get_memfree : Z → Z → K (Z * Z) := get_word CSP_MEMFREE.
Definition csp_get_buf_free : Z → Z → K (Z * Z) := get_word CSP_BUF_FREE.
Definition csp_get_uptime : Z → Z → K (Z * Z) := get_word CSP_UPTIME.

(** [csp_cmp]: the error code and the message, which is both request and reply. *)
Definition csp_cmp (node timeout code msg_size : Z) (msg : list Z) : K (Z * list Z) :=
  msg ← lift_opt (mem_write msg 0 [CSP_CMP_REQUEST; code]);
  '(status, reply) ← transaction CSP_PRIO_NORM node CSP_CMP timeout (Some msg) msg_size msg_size;
  msg ← match reply with Some bytes => lift_opt (mem_write msg 0 bytes) | None => mret msg end;
  mret (if bool_decide (status = 0) then CSP_ERR_TIMEDOUT else CSP_ERR_NONE, msg).

(** ** The vmem server *)

(** [sizeof(vmem_request_t)]: two bytes and the larger of the structures. *)
Definition REQUEST_SIZE : Z := 18.

(** The fields every request has, and address and length by version. *)
Definition put_request (b : nat) (version type : Z) (body : list Z) : K () :=
  p ← kget_packet b;
  p ← lift_opt (data_write p 0 ([u8 version; type] ++ body));
  kput_packet b (set_pk_length REQUEST_SIZE p).
Definition request_range (version address length : Z) : list Z :=
  if bool_decide (version = 2) then be_bytes 8 address ++ be_bytes 4 length else be_bytes 4 address ++ be_bytes 4 length.

(** The packets of [vmem_download]: the count and the memory at [dataout]. *)
Fixpoint client_download_loop (n : nat) (conn : nat) (timeout length count : Z) (dataout : list Z) : K (Z * list Z) :=
  match n with
  | O => ub
  | S n' =>
      if bool_decide (count = length) then mret (count, dataout) else
      r ← csp_read (Some conn) timeout;
      match r with
      | None => mret (count, dataout)
      | Some b =>
          p ← kget_packet b;
          if bool_decide (length < u32 (count + pk_length p)) then kfree (Some b);; mret (count, dataout) else
          data ← lift_opt (data_read p 0 (pk_length p));
          dataout ← lift_opt (mem_write dataout count data);
          kfree (Some b);;
          client_download_loop n' conn timeout length (u32 (count + pk_length p)) dataout
      end
  end.

Definition vmem_download (n : nat) (node timeout address length : Z) (dataout : list Z) (version : Z) (use_rdp : bool)
    : K (Z * list Z) :=
  let opts := if use_rdp then Z.lor CSP_O_CRC32 CSP_O_RDP else CSP_O_CRC32 in
  c ← csp_connect dport0 sport0 CSP_PRIO_HIGH (u16 node) VMEM_PORT_SERVER (u32 timeout) opts;
  match c with
  | None => mret (0, dataout)
  | Some conn =>
      r ← liftC csp_buffer_get;
      match r with
      | None => mret (0, dataout)
      | Some b =>
          put_request b version VMEM_SERVER_DOWNLOAD (request_range version address length);;
          csp_send fuel (Some conn) (Some b);;
          r ← client_download_loop n conn (u32 timeout) length 0 dataout;
          csp_close (Some conn);; mret r
      end
  end.

(** The packets of [vmem_upload]; without a buffer it follows a NULL pointer. *)
Fixpoint client_upload_loop (n : nat) (conn : nat) (datain : list Z) (length count : Z) : K Z :=
  match n with
  | O => ub
  | S n' =>
      if negb (bool_decide (count < length)) then mret count else
      active ← csp_conn_is_active conn;
      if negb active then mret count else
      r ← liftC csp_buffer_get;
      match r with
      | None => ub
      | Some b =>
          let len := Z.min VMEM_SERVER_MTU (length - count) in
          data ← lift_opt (mem_read datain count len);
          p ← kget_packet b;
          p ← lift_opt (data_write (set_pk_length len p) 0 data);
          kput_packet b p;;
          csp_send fuel (Some conn) (Some b);;
          client_upload_loop n' conn datain length (count + len)
      end
  end.

(** [vmem_upload]: the bytes sent, which it prints. *)
Definition vmem_upload (n : nat) (node timeout address : Z) (datain : list Z) (length version : Z) : K Z :=
  c ← csp_connect dport0 sport0 CSP_PRIO_HIGH (u16 node) VMEM_PORT_SERVER (u32 timeout) (Z.lor CSP_O_RDP CSP_O_CRC32);
  match c with
  | None => mret 0
  | Some conn =>
      r ← liftC csp_buffer_get;
      match r with
      | None => mret 0
      | Some b =>
          put_request b version VMEM_SERVER_UPLOAD (request_range version address length);;
          csp_send fuel (Some conn) (Some b);;
          count ← client_upload_loop n conn datain length 0;
          csp_close (Some conn);; mret count
      end
  end.

Definition vmem_client_list_get (node timeout version : Z) : K (option nat) :=
  c ← csp_connect dport0 sport0 CSP_PRIO_HIGH (u16 node) VMEM_PORT_SERVER (u32 timeout) CSP_O_CRC32;
  match c with
  | None => mret None
  | Some conn =>
      r ← liftC csp_buffer_get;
      match r with
      | None => mret None
      | Some b =>
          put_request b version VMEM_SERVER_LIST [];;
          csp_send fuel (Some conn) (Some b);;
          packet ← csp_read (Some conn) (u32 timeout);
          csp_close (Some conn);; mret packet
      end
  end.

(** An element of the list, as [vmem_client_list] prints it and [vmem_client_find] returns
    it. *)
Record vmem_list_t := mk_list { vl_vaddr : Z; vl_size : Z; vl_id : Z; vl_type : Z; vl_name : list Z }.

Definition read_entry (data : list Z) (off address_size : Z) : option vmem_list_t :=
  vaddr ← mem_read data off address_size;
  size ← mem_read data (off + address_size) 4;
  bytes ← mem_read data (off + address_size + 4) 7;
  match bytes with
  | id :: type :: name => Some (mk_list (be_val vaddr) (be_val size) id type name)
  | _ => None
  end.

(** The elements that begin before the end of the data, with their offsets. *)
Fixpoint read_entries (n : nat) (data : list Z) (length off address_size : Z) : option (list (Z * vmem_list_t)) :=
  match n with
  | O => None
  | S n' =>
      if bool_decide (off < length) then
        e ← read_entry data off address_size;
        rest ← read_entries n' data length (off + address_size + 11) address_size;
        Some ((off, e) :: rest)
      else Some []
  end.

(** [vmem_client_list]: what it prints. *)
Definition vmem_client_list (node timeout version : Z) : K (list vmem_list_t) :=
  packet ← vmem_client_list_get node timeout version;
  match packet with
  | None => mret []
  | Some b =>
      p ← kget_packet b;
      data ← lift_opt (data_read p 0 CSP_BUFFER_SIZE);
      es ← lift_opt (read_entries 200 data (pk_length p) 0 (if bool_decide (version = 2) then 8 else 4));
      kfree (Some b);; mret es.*2
  end.

(** [strncmp(a, b, n) == 0], which fails where it would leave the memory of a string. *)
Fixpoint strncmp_eq (n : nat) (a b : list Z) : option bool :=
  match n with
  | O => Some true
  | S n' =>
      match a, b with
      | x :: a', y :: b' => if bool_decide (x ≠ y) then Some false else if bool_decide (x = 0) then Some true else strncmp_eq n' a' b'
      | _, _ => None
      end
  end.

(** The last element of the list with the name; a name without an end runs on into the next
    element. *)
Fixpoint find_entry (data name : list Z) (namelen : Z) (es : list (Z * vmem_list_t)) (found : vmem_list_t) : option vmem_list_t :=
  match es with
  | [] => Some found
  | (off, e) :: es' =>
      same ← strncmp_eq (Z.to_nat namelen) (drop (Z.to_nat (off + 10)) data) name;
      find_entry data name namelen es' (if (same : bool) then e else found)
  end.

(** [vmem_client_find]: the elements are those of version 1 whatever [version] is. *)
Definition vmem_client_find (node timeout version : Z) (name : list Z) (namelen : Z) : K vmem_list_t :=
  packet ← vmem_client_list_get node timeout version;
  let none := mk_list 0 0 0 0 (replicate 5 0) in
  match packet with
  | None => mret none
  | Some b =>
      p ← kget_packet b;
      data ← lift_opt (data_read p 0 CSP_BUFFER_SIZE);
      es ← lift_opt (read_entries 200 data (pk_length p) 0 4);
      e ← lift_opt (find_entry data name namelen es none);
      kfree (Some b);; mret e
  end.

(** [vmem_client_backup]; [request0] is what the uninitialised request holds. *)
Definition vmem_client_backup (request0 : list Z) (node vmem_id timeout : Z) (backup_or_restore : bool) : K Z :=
  request ← lift_opt (mem_write request0 0
    [VMEM_VERSION; if backup_or_restore then VMEM_SERVER_BACKUP else VMEM_SERVER_RESTORE; u8 vmem_id]);
  '(status, reply) ← transaction CSP_PRIO_HIGH (u16 node) VMEM_PORT_SERVER (u32 timeout) (Some request) REQUEST_SIZE 1;
  if bool_decide (status = 0) then mret (-2) else
  response ← lift_opt reply;
  match response with b :: _ => mret (swrap 8 b) | [] => ub end.

(** [vmem_client_calc_crc32]: the result and what it stores at [crc_out]. *)
Definition vmem_client_calc_crc32 (node timeout address length version : Z) : K (Z * option Z) :=
  c ← csp_connect dport0 sport0 CSP_PRIO_HIGH (u16 node) VMEM_PORT_SERVER (u32 timeout) CSP_O_CRC32;
  match c with
  | None => mret (-1, None)
  | Some conn =>
      r ← liftC csp_buffer_get;
      match r with
      | None => mret (-1, None)
      | Some b =>
          put_request b version VMEM_SERVER_CALCULATE_CRC32 (request_range version address length);;
          csp_send fuel (Some conn) (Some b);;
          reply ← csp_read (Some conn) (u32 timeout);
          r ← match reply with
            | None => mret (-2, None)
            | Some b =>
                p ← kget_packet b;
                if bool_decide (pk_length p < 4) then mret (-2, None) else
                d ← lift_opt (data_read p 0 4);
                kfree (Some b);; mret (0, Some (be_val d))
            end;
          csp_close (Some conn);; mret r
      end
  end.
End Clients.
