(* ===== verification/ClientsShown.v ===== *)
(** * What the clients get

    A transaction returns what the other node answers, within the length asked for, and leaves
    the connection closed and no buffer behind; a download writes no further than it was told
    to, whatever packets arrive. *)

From S2P Require Import Prelude Queue Types State Id Buffer Nexthop Stack Net RdpQueue Rdp Conn Io Services VmemServer Session Clients.

Section Transaction.
Context `{Env}.
Implicit Types (s : stack) (l : list nat) (c b : nat) (x : csp_conn_t) (d : option (list Z)).

(** While the client waits for the connection it opened last, the answer [d] arrives, or
    nothing does. *)
Definition answering l d : Prop :=
  ∀ s c x, session l s c x → k_last_given s = Z.of_nat c → fq_items (cn_rx_queue x) = [] → fq_items (c_free (k_core s)) ≠ [] →
    ∃ q, session l (yield s) c (set_cn_rx_queue q x) ∧ kept_buffers s (yield s) ∧
      (∀ b, sendable s b → b ∉ omap id (fq_items q)) ∧
      match d with
      | None => fq_items q = []
      | Some bytes => ∃ b rest k, fq_items q = Some b :: rest ∧ c_pool (k_core (yield s)) !! b = Some k ∧ payload (skbf_data k) = Some bytes
      end.

(** The result of a transaction. *)
Definition transaction_result d (timeout inlen : Z) : Z * option (list Z) :=
  if bool_decide (inlen = 0) then (1, None) else
  match (if bool_decide (timeout = 0) then None else d) with
  | None => (0, None)
  | Some bytes =>
      if bool_decide (inlen ≠ -1) && bool_decide (Z.of_nat (List.length bytes) ≠ inlen) then (0, None)
      else (Z.of_nat (List.length bytes), Some bytes)
  end.

Definition request_ok (outbuf : option (list Z)) (outlen : Z) : Prop :=
  0 ≤ outlen ≤ CSP_BUFFER_SIZE ∧ match outbuf with Some bytes => bytes_ok bytes | None => True end.

Lemma request_packet p outbuf outlen s :
  packet_ok p → request_ok outbuf outlen →
  ∃ p', (match outbuf with
         | Some bytes => if bool_decide (0 < outlen) then lift_opt (data_write p 0 (take (Z.to_nat outlen) bytes)) else mret p
         | None => mret p
         end : K csp_packet_t) s = Some (p', s) ∧ packet_ok p'.
Proof.
  intros Hp [Hl Hb]. destruct outbuf as [bytes|]; [|by exists p]. case_bool_decide as Ho; [|by exists p].
  destruct (data_write_is_Some p 0 (take (Z.to_nat outlen) bytes) Hp) as [p' Hw]; [lia|rewrite length_take; lia|].
  exists p'. split; [by apply lift_opt_run_gen|]. eapply data_write_ok; [exact Hp| |exact Hw]. by apply Forall_take.
Qed.

Lemma length_ok p n : packet_ok p → is_u16 n → packet_ok (set_pk_length n p).
Proof. intros [] Hn. by split. Qed.


(** The caller's buffers are not among those of the queue. *)
Definition apart s x : Prop := ∀ b, sendable s b → b ∉ omap id (fq_items (cn_rx_queue x)).

(** Opening, asking and waiting: what the clients have in common. *)
Lemma ask_run l s c x fuel :
  session l s c x → fq_items (cn_rx_queue x) = [] → fq_items (c_free (k_core s)) ≠ [] →
  ∃ b k s1, liftC csp_buffer_get s = Some (Some b, s1) ∧ c_pool (k_core s1) !! b = Some k ∧ packet_ok (skbf_data k) ∧
    ∀ p, packet_ok p → pk_length p ≤ CSP_BUFFER_SIZE →
      ∃ s2 x2, (∀ A (m : K A), (kput_packet b p;; (csp_send fuel (Some c) (Some b);; m)) s1 = m s2) ∧ session l s2 c x2 ∧
        cn_rx_queue x2 = cn_rx_queue x ∧ k_last_given s2 = k_last_given s ∧ fq_items (c_free (k_core s2)) ≠ [] ∧ kept_buffers s s2 ∧
        k_conns s2 = <[c := x2]> (k_conns s).
Proof.
  intros Hse Hq Hf. destruct (get_session l s c x Hse Hf) as (b & k & s1 & Hg & Hse1 & Hk & Hr & Hok & Hnq & Hkb & Hlg & Hc & Hna).
  exists b, k, s1. split; [done|]. split; [done|]. split; [done|]. intros p Hp Hl.
  destruct (put_send_run l s1 c x b k p fuel Hse1 Hk Hr Hp Hl Hnq) as (s2 & x2 & Hrun & Hse2 & Hsx & Hna2 & Hlg2 & Hc2 & Hf2 & Hk2).
  exists s2, x2. split; [done|]. split; [done|]. split; [by destruct Hsx as [->|(v & _ & ->)]|]. split; [congruence|]. split; [done|].
  split; [|congruence]. intros b' Hb'. assert (Hb1 : c_pool (k_core s1) !! b' = c_pool (k_core s) !! b') by (by apply Hkb).
  rewrite Hk2; [done| |unfold sendable; by rewrite Hb1]. intros ->. by apply Hna, sendable_allocated.
Qed.

Lemma answer_run l s c x timeout d :
  session l s c x → k_last_given s = Z.of_nat c → fq_items (cn_rx_queue x) = [] → fq_items (c_free (k_core s)) ≠ [] → answering l d →
  ∃ r s' x', csp_read (Some c) timeout s = Some (r, s') ∧ session l s' c x' ∧ kept_buffers s s' ∧ apart s x' ∧
    ((∃ q, x' = set_cn_rx_queue q x) ∧ s' = set_k_conns (<[c := x']> (k_conns (waited s x timeout))) (waited s x timeout)) ∧
    match (if bool_decide (timeout = 0) then None else d) with
    | None => r = None
    | Some bytes => ∃ b k, r = Some b ∧ c_pool (k_core s') !! b = Some k ∧ payload (skbf_data k) = Some bytes ∧ sendable s' b ∧
        b ∉ omap id (fq_items (cn_rx_queue x')) ∧ ¬ sendable s b
    end.
Proof.
  intros Hse Hlg Hq Hf Ha. assert (Hw : ∃ q, session l (waited s x timeout) c (set_cn_rx_queue q x) ∧ kept_buffers s (waited s x timeout) ∧
    (∀ b, sendable s b → b ∉ omap id (fq_items q)) ∧
    match (if bool_decide (timeout = 0) then None else d) with
    | None => fq_items q = []
    | Some bytes => ∃ b rest k, fq_items q = Some b :: rest ∧ c_pool (k_core (waited s x timeout)) !! b = Some k ∧ payload (skbf_data k) = Some bytes
    end).
  { unfold waited. rewrite Hq, (bool_decide_true ([] = [])) by done. destruct (decide (timeout = 0)) as [->|Ht].
    - exists (cn_rx_queue x). cbn. split; [by destruct x|]. split; [done|]. rewrite Hq. split; [by intros b _ ?%not_elem_of_nil|done].
    - rewrite (bool_decide_true (timeout ≠ 0)), (bool_decide_false (timeout = 0)) by done. by apply Ha. }
  destruct Hw as (q & Hse1 & Hk1 & Hap & Hd). pose proof (read_run l s c x timeout q Hse Hse1) as Hr. cbv zeta in Hr.
  destruct (read_session l _ c x q Hse1) as [Hse2 Hhd]. set (s1 := waited s x timeout) in *.
  set (y := set_cn_rx_queue (mk_fifo (fq_cap q) (tail (fq_items q))) x) in *.
  assert (Hapy : apart s y).
  { intros b Hb. cbn. specialize (Hap b Hb). destruct (fq_items q) as [|[b'|] rest]; [done| |done]. cbn in *. by apply not_elem_of_cons in Hap as [_ ?]. }
  exists (match fq_items q with [] => None | p :: _ => p end), (set_k_conns (<[c := y]> (k_conns s1)) s1), y.
  split; [done|]. split; [done|]. split; [done|]. split; [done|]. split; [split; [by eexists|done]|].
  destruct (if bool_decide (timeout = 0) then None else d) as [bytes|]; [|by rewrite Hd].
  destruct Hd as (b & rest & k & Hqb & Hk & Hpay). cbn [fq_items] in *. rewrite Hqb in Hhd, Hap |- *.
  destruct Hhd as (b0 & [= <-] & Hsb & Hnb). exists b, k. split; [done|]. split; [done|]. split; [done|]. split; [done|].
  split; [cbn; by rewrite Hqb|]. intros Hb. apply (Hap b Hb). by left.
Qed.

Lemma free_session l s c x b :
  session l s c x → sendable s b → b ∉ omap id (fq_items (cn_rx_queue x)) →
  ∃ s', kfree (Some b) s = Some ((), s') ∧ session l s' c x ∧ k_conns s' = k_conns s ∧ ¬ allocated (k_core s') b ∧
    ∀ b', b' ≠ b → sendable s b' → c_pool (k_core s') !! b' = c_pool (k_core s) !! b'.
Proof.
  intros Hse Hb Hnq. destruct (kfree_step s b (ne_inv _ _ (se_env _ _ _ _ Hse)) (sendable_owned _ _ Hb)) as (s1 & Hf & St & Hna & Hc).
  exists s1. split; [done|]. split; [apply (session_net _ _ _ _ _ _ _ Hse St Hc); by intros b' [= <-]|]. split; [done|]. split; [done|].
  intros b' Hne Hb'. apply (ns_kept _ _ _ _ St); [congruence|by apply sendable_allocated].
Qed.

Lemma persistent_run l s c x fuel timeout outbuf outlen inlen d :
  session l s c x → k_last_given s = Z.of_nat c → fq_items (cn_rx_queue x) = [] → fq_items (c_free (k_core s)) ≠ [] → answering l d →
  request_ok outbuf outlen →
  ∃ s' x', csp_transaction_persistent fuel c timeout outbuf outlen inlen s = Some (transaction_result d timeout inlen, s') ∧
    session l s' c x' ∧ kept_buffers s s' ∧ apart s x'.
Proof.
  intros Hse Hlg Hq Hf Ha Hreq. unfold csp_transaction_persistent, transaction_result.
  destruct (ask_run l s c x fuel Hse Hq Hf) as (b & k & s1 & Hg & Hk & Hok & Hask). run Hg. run (kget_run s1 b k Hk).
  destruct (request_packet (skbf_data k) outbuf outlen s1 Hok Hreq) as (p & Hp & Hpok). run Hp.
  destruct (Hask (set_pk_length (u16 outlen) p)) as (s2 & x2 & Hrun & Hse2 & Hq2 & Hlg2 & Hf2 & Hk2 & _).
  { apply length_ok; [done|apply u16_range]. }
  { destruct Hreq as [Hl _]. cbn. rewrite u16_id; [lia|]. sizes. unfold is_u16. lia. }
  rewrite Hrun. clear Hrun. destruct (decide (inlen = 0)) as [Hi|Hi]; [rewrite !bool_decide_true by done|rewrite !(bool_decide_false (inlen = 0)) by done].
  { exists s2, x2. split; [done|]. split; [done|]. split; [done|]. intros b' _. rewrite Hq2, Hq. apply not_elem_of_nil. }
  destruct (answer_run l s2 c x2 timeout d Hse2 ltac:(congruence) ltac:(by rewrite Hq2) Hf2 Ha) as (r & s3 & x3 & Hr & Hse3 & Hk3 & Hap & _ & Hd).
  run Hr. pose proof (kept_trans _ _ _ Hk2 Hk3) as Hk13.
  assert (Hap' : apart s x3) by (intros b' Hb'; apply Hap; unfold sendable; by rewrite (Hk2 b' Hb')).
  destruct (if bool_decide (timeout = 0) then None else d) as [bytes|].
  2:{ subst r. exists s3, x3. done. }
  destruct Hd as (b3 & k3 & -> & Hk3b & Hpay & Hsb & Hnq & Hns). run (kget_run s3 b3 k3 Hk3b).
  assert (Hlen : pk_length (skbf_data k3) = Z.of_nat (List.length bytes)) by (symmetry; exact (mem_read_length _ _ _ _ Hpay)).
  assert (Hfin : ∀ s4, session l s4 c x3 → sendable s4 b3 → kept_buffers s3 s4 → ∃ s5, kfree (Some b3) s4 = Some ((), s5) ∧ session l s5 c x3 ∧ kept_buffers s s5).
  { intros s4 Hse4 Hs4 Hk4. destruct (free_session l s4 c x3 b3 Hse4 Hs4 Hnq) as (s5 & Hfr & Hse5 & _ & _ & Hk5). exists s5. split; [done|]. split; [done|].
    intros b' Hb'. pose proof (kept_trans _ _ _ Hk13 Hk4 b' Hb') as Hsame. rewrite Hk5; [done| |unfold sendable; by rewrite Hsame].
    intros ->. apply Hns. unfold sendable. by rewrite (Hk2 b3 Hb'). }
  rewrite Hlen. destruct (bool_decide (inlen ≠ -1) && _).
  - destruct (dbg_step None s3 inc_inval_reply (ne_inv _ _ (se_env _ _ _ _ Hse3))) as (s4 & Hdb & St4 & Hc4 & Hp4). run Hdb.
    destruct (Hfin s4) as (s5 & Hfr & Hse5 & Hk5); [by apply (session_net _ _ _ _ _ _ _ Hse3 St4)|unfold sendable; by rewrite Hp4|intros b' _; by rewrite Hp4|].
    run Hfr. by exists s5, x3.
  - destruct (Hfin s3 Hse3 Hsb) as (s5 & Hfr & Hse5 & Hk5); [done|]. rewrite <- Hlen. run (lift_opt_run_gen _ _ s3 Hpay). run Hfr. by exists s5, x3.
Qed.

Lemma close_apart l s s0 c x :
  session l s c x → kept_buffers s0 s → apart s0 x →
  ∃ s', csp_close (Some c) s = Some (CSP_ERR_NONE, s') ∧ net_env l s' ∧ kept_buffers s0 s' ∧
    ∃ x', k_conns s' !! c = Some x' ∧ cn_state x' = CONN_CLOSED ∧ fq_items (cn_rx_queue x') = [].
Proof.
  intros Hse Hk Hap. destruct (close_run l s c x Hse) as (s' & Hc & He & Hrel & Hcs). exists s'. split; [done|]. split; [done|]. split.
  - intros b Hb. rewrite (re_kept _ _ _ Hrel); [by apply Hk|by apply Hap|]. apply sendable_allocated. unfold sendable. by rewrite (Hk b Hb).
  - eexists. rewrite Hcs. split; [apply list_lookup_insert_eq; by apply (lookup_lt_Some _ _ _ (se_conn _ _ _ _ Hse))|done].
Qed.
End Transaction.

(** A closed connection keeps no packet. *)
Definition closed_again (s : stack) (c : nat) : Prop :=
  ∃ x, k_conns s !! c = Some x ∧ cn_state x = CONN_CLOSED ∧ fq_items (cn_rx_queue x) = [].

(** C5: A transaction without RDP, for a client that has a connection and a buffer to spend,
    while the other tasks deliver the answer [d] or nothing: it returns the answer when its
    length is the one asked for (or any length was), and otherwise fails; a request that
    asks for no answer succeeds.  The connection that was taken is closed again and keeps no
    packet, and no buffer the caller had is touched. *)
Theorem csp_transaction_answers `{Env} (l : list nat) (s : stack) (fuel : nat)
    (dport0 sport0 prio dest port timeout outlen inlen opts : Z) (outbuf d : option (list Z)) :
  net_env l s → conns_ready s → ¬ all_open s → fq_items (c_free (k_core s)) ≠ [] → answering l d →
  is_u8 prio → is_u16 dest → is_u8 port → has_flag (connect_flags (connect_opts (Z.lor opts (k_conn_dfl_so s)))) CSP_FRDP = false →
  request_ok outbuf outlen →
  ∃ s' c x, csp_transaction_w_opts fuel dport0 sport0 prio dest port timeout outbuf outlen inlen opts s =
      Some (transaction_result d timeout inlen, s') ∧
    net_env l s' ∧ kept_buffers s s' ∧ k_conns s !! c = Some x ∧ cn_state x = CONN_CLOSED ∧ closed_again s' c.
Proof.
  intros He Hcr Hno Hf Ha Hpr Hd Hpo Hrdp Hreq. unfold csp_transaction_w_opts.
  destruct (connect_run l s dport0 sport0 prio dest port 0 opts He Hcr Hpr Hd Hpo Hrdp) as [(c & x & Hx & Hcl & Hcon & Hse)|(s' & Hall & _)]; [|done].
  run Hcon. set (y := connected _ _ _ _ _ _) in *.
  destruct (persistent_run l (given s c y) c y fuel timeout outbuf outlen inlen d Hse) as (s2 & x2 & Hr & Hse2 & Hk2 & Hap); [done..|].
  run Hr. destruct (close_apart l s2 (given s c y) c x2 Hse2 Hk2 Hap) as (s3 & Hc & He3 & Hk3 & Hx3). run Hc.
  by exists s3, c, x.
Qed.

(** ** A node that answers *)

(** Another task that puts a packet with the data [d] into the queue of the last connection. *)
Definition deliver (d : list Z) (s : stack) : stack :=
  match liftC csp_buffer_get s, k_conns s !! Z.to_nat (k_last_given s) with
  | Some (Some b, s1), Some x =>
      match kget_packet b s1 with
      | Some (p, _) =>
          match data_write (set_pk_length (Z.of_nat (List.length d)) p) 0 d with
          | Some p =>
              match kput_packet b p s1 with
              | Some (_, s2) =>
                  let q := cn_rx_queue x in
                  set_k_conns (<[Z.to_nat (k_last_given s) := set_cn_rx_queue (mk_fifo (fq_cap q) (fq_items q ++ [Some b])) x]> (k_conns s2)) s2
              | None => s
              end
          | None => s
          end
      | None => s
      end
  | _, _ => s
  end.

Definition not_empty (p : csp_packet_t) : Prop := 0 < pk_length p.

Section Deliver.
Context `{Env} (d : list Z) (Hd : bytes_ok d) (Hl : Z.of_nat (List.length d) ≤ CSP_BUFFER_SIZE) (Hy : yield = deliver d).

Lemma deliver_answers l : answering l (Some d).
Proof using Hd Hl Hy.
  intros s c x Hse Hlg Hq Hf. rewrite Hy. unfold deliver. rewrite Hlg, Nat2Z.id.
  destruct (get_session l s c x Hse Hf) as (b & k & s1 & Hg & Hse1 & Hk & Hr & Hok & Hnq & Hkb & _ & Hc & Hna).
  rewrite Hg, (se_conn _ _ _ _ Hse), (kget_run s1 b k Hk).
  assert (Hok' : packet_ok (set_pk_length (Z.of_nat (List.length d)) (skbf_data k))) by (apply length_ok; [done|sizes; unfold is_u16; lia]).
  destruct (data_write_is_Some _ 0 d Hok') as [p Hw]; [lia|lia|]. rewrite Hw. pose proof (data_write_ok _ _ _ _ Hok' Hd Hw) as Hp.
  pose proof Hw as (m & Hm & Ep)%data_write_Some.
  destruct (kput_step s1 b k p (ne_inv _ _ (se_env _ _ _ _ Hse1)) Hk Hp) as (s2 & Hput & St & Hc2 & Hk2). rewrite Hput, Hq. cbn [app].
  assert (Hse2 : session l s2 c x) by (apply (session_net _ _ _ _ _ _ _ Hse1 St Hc2); by intros b' [= <-]).
  destruct Hse2 as [He2 Hx2 Hop Hin Hout Hid _]. set (q := mk_fifo _ [Some b]). exists q. split; [|split; [|split]].
  - split; try done; [by apply net_env_set_conns|apply list_lookup_insert_eq; by apply lookup_lt_Some in Hx2|]. exists [b].
    split; [done|]. split; [apply NoDup_singleton|]. intros b' ->%list_elem_of_singleton. eexists. split; [exact Hk2|]. split; [done|]. subst p. cbn. lia.
  - intros b' Hb'. cbn. assert (Hne : b' ≠ b) by (intros ->; by apply Hna, sendable_allocated).
    rewrite (ns_kept _ _ _ _ St); [by apply Hkb|congruence|]. apply sendable_allocated. unfold sendable. by rewrite (Hkb b' Hb').
  - intros b' Hb' ->%list_elem_of_singleton. by apply Hna, sendable_allocated.
  - exists b, [], (mk_skbf (refcount k) (skbf_addr k) p). split; [done|]. split; [exact Hk2|]. cbn [skbf_data]. unfold payload, data_read. subst p. cbn.
    exact (mem_read_write_eq _ _ _ _ Hm).
Qed.
Lemma deliver_tasks l : d ≠ [] → tasks_deliver l not_empty.
Proof using Hd Hl Hy.
  intros Hne s c x Hse Hqa. rewrite Hy. unfold deliver. set (c' := Z.to_nat (k_last_given s)).
  assert (Hsame : ∃ q, session l s c (set_cn_rx_queue q x) ∧ queue_all not_empty s (fq_items q)) by (exists (cn_rx_queue x); by destruct x).
  destruct (decide (fq_items (c_free (k_core s)) = [])) as [Hf|Hf].
  { destruct (buffer_none_step l s (se_env _ _ _ _ Hse) Hf) as (s1 & -> & _). done. }
  destruct (get_session l s c x Hse Hf) as (b & k & s1 & -> & Hse1 & Hk & Hr & Hok & Hnq & Hkb & _ & Hc & Hna).
  destruct (k_conns s !! c') as [x'|] eqn:Hx'; [|done]. rewrite (kget_run s1 b k Hk).
  assert (Hok' : packet_ok (set_pk_length (Z.of_nat (List.length d)) (skbf_data k))) by (apply length_ok; [done|sizes; unfold is_u16; lia]).
  destruct (data_write_is_Some _ 0 d Hok') as [p Hw]; [lia|lia|]. rewrite Hw. pose proof (data_write_ok _ _ _ _ Hok' Hd Hw) as Hp.
  pose proof Hw as (m & Hm & Ep)%data_write_Some.
  destruct (kput_step s1 b k p (ne_inv _ _ (se_env _ _ _ _ Hse1)) Hk Hp) as (s2 & -> & St & Hc2 & Hk2).
  assert (Hse2 : session l s2 c x) by (apply (session_net _ _ _ _ _ _ _ Hse1 St Hc2); by intros b' [= <-]).
  assert (Hqa2 : queue_all not_empty s2 (fq_items (cn_rx_queue x))).
  { intros b' k' Hb'. assert (Hb : sendable s b') by (by apply (queue_sendable l s c x)). assert (b' ≠ b) by (intros ->; by apply Hnq).
    rewrite (ns_kept _ _ _ _ St), (Hkb b' Hb); [by apply Hqa|congruence|]. apply sendable_allocated. unfold sendable. by rewrite (Hkb b' Hb). }
  destruct Hse2 as [He2 Hx2 Hop Hin Hout Hid (bs & Hbs & Hnd & Hsb)]. destruct (decide (c' = c)) as [Hcc|Hcc].
  - assert (x' = x) as -> by (pose proof (se_conn _ _ _ _ Hse); congruence). exists (mk_fifo (fq_cap (cn_rx_queue x)) (fq_items (cn_rx_queue x) ++ [Some b])).
    rewrite Hcc. split.
    + split; try done; [by apply net_env_set_conns|apply list_lookup_insert_eq; by apply lookup_lt_Some in Hx2|]. exists (bs ++ [b]). cbn. rewrite Hbs, fmap_app.
      split; [done|]. rewrite Hbs, omap_some in Hnq. split; [apply NoDup_app; split; [done|]; split; [by intros ? ? ->%list_elem_of_singleton|apply NoDup_singleton]|].
      intros b' [Hb'| ->%list_elem_of_singleton]%elem_of_app; [by apply Hsb|]. eexists. split; [exact Hk2|]. split; [done|]. subst p. cbn. lia.
    + intros b' k' Hb' Hk'. cbn in Hb', Hk'. rewrite omap_app in Hb'. apply elem_of_app in Hb' as [Hb'| ->%list_elem_of_singleton]; [by apply (Hqa2 b')|].
      rewrite Hk2 in Hk'. injection Hk' as <-. subst p. unfold not_empty. cbn. destruct d; [done|cbn; lia].
  - exists (cn_rx_queue x). split; [|done]. split; try done; [by apply net_env_set_conns|cbn; rewrite list_lookup_insert_ne by done; by destruct x|by exists bs].
Qed.
End Deliver.

Definition answer_example : list Z := [0; 1; 2; 3].
#[local] Instance client_env : Env := {|
  env_can := λ _ _ _ _, CSP_ERR_NONE;
  yield := deliver answer_example;
  run_callback := λ _ _, mret ();
  rand_r := λ x, x;
  hmac_locals := @hmac_locals env_example;
|}.

(** All connections are closed. *)
Definition client_example : stack :=
  set_k_conns (imap (λ i x, set_sport_outgoing (17 + Z.of_nat i) x) (replicate CSP_CONN_MAX (set_cn_state CONN_CLOSED (rdp_example 0)))) net_example.

Lemma client_example_ok : net_env [0%nat; 1%nat] client_example.
Proof. destruct net_example_ok as [[] _]. by split. Qed.

Lemma client_example_conns : conns_ready client_example ∧ ¬ all_open client_example.
Proof.
  assert (Hall : ∀ c x, k_conns client_example !! c = Some x → (c < 20)%nat ∧ x = set_sport_outgoing (17 + Z.of_nat c) (set_cn_state CONN_CLOSED (rdp_example 0))).
  { intros c x Hx. unfold client_example in Hx. cbn [k_conns set_k_conns] in Hx. rewrite list_lookup_imap in Hx.
    destruct (replicate CSP_CONN_MAX _ !! c) as [y|] eqn:Hy; [|done]. apply lookup_replicate in Hy as [-> Hlt]. cbn in Hx. injection Hx as <-. done. }
  split.
  - split; [done|]. intros c x Hx _. destruct (Hall c x Hx) as [Hlt ->]. split; [apply Forall_nil_2|]. cbn. unfold is_u8. lia.
  - intros Ho. by apply (Ho 0%nat _ eq_refl).
Qed.

Lemma csp_transaction_answers_witness :
  ∃ s' c, csp_get_uptime 0 0 0 300 1000 client_example = Some ((CSP_ERR_NONE, 0x00010203), s') ∧ closed_again s' c.
Proof.
  destruct (csp_transaction_answers [0%nat; 1%nat] client_example 0 0 0 CSP_PRIO_NORM 300 CSP_UPTIME 1000 0 4 CSP_O_CRC32 None (Some answer_example))
    as (s' & c & x & Hr & _ & _ & _ & _ & Hc).
  - apply client_example_ok.
  - apply client_example_conns.
  - apply client_example_conns.
  - vm_compute. discriminate.
  - apply deliver_answers; [repeat constructor; unfold is_u8; lia|vm_compute; congruence|reflexivity].
  - vm_compute. intuition congruence.
  - vm_compute. intuition congruence.
  - vm_compute. intuition congruence.
  - vm_compute. reflexivity.
  - split; [|done]. vm_compute. intuition congruence.
  - exists s', c. split; [unfold csp_get_uptime, get_word, transaction; by run Hr|exact Hc].
Defined.

(** ** Downloads *)

Lemma queue_all_free P s s' b items :
  queue_all P s items → net_step (Some b) [] s s' → b ∉ omap id items → (∀ b', b' ∈ omap id items → allocated (k_core s) b') → queue_all P s' items.
Proof.
  intros Hq St Hnb Ha b' k Hb'. rewrite (ns_kept _ _ _ _ St); [by apply Hq|congruence|by apply Ha].
Qed.

Section Download.
Context `{Env} (l : list nat) (Ht : tasks_deliver l not_empty).

(** The memory outside the bytes from [count] to [count'] is as it was. *)
Definition filled (out out' : list Z) (count count' : Z) : Prop :=
  List.length out' = List.length out ∧ ∀ i, Z.of_nat i < count ∨ count' ≤ Z.of_nat i → out' !! i = out !! i.

Lemma download_loop_run timeout length c : ∀ n s x count out,
  session l s c x → queue_all not_empty s (fq_items (cn_rx_queue x)) → 0 ≤ count ≤ length → length + CSP_BUFFER_SIZE < 2 ^ 32 →
  length ≤ Z.of_nat (List.length out) → length - count < Z.of_nat n →
  ∃ count' out' s' x', client_download_loop n c timeout length count out s = Some ((count', out'), s') ∧ session l s' c x' ∧
    count ≤ count' ≤ length ∧ filled out out' count count'.
Proof using Ht.
  induction n as [|n IH]; intros s x count out Hs Hq Hc Hl Ho Hn; [lia|]. cbn [client_download_loop].
  case_bool_decide as Heq.
  { exists count, out, s, x. split; [done|]. split; [done|]. split; [lia|]. done. }
  destruct (next_packet l s c x timeout not_empty Ht Hs Hq) as (r & s1 & x1 & Hr & Hs1 & Hq1 & Hb). run Hr. destruct r as [b|].
  2:{ exists count, out, s1, x1. split; [done|]. split; [done|]. split; [lia|]. done. }
  destruct Hb as (Hsb & Hnb & HP). pose proof Hsb as (k & Hk & Hr1 & Hlen). specialize (HP k Hk). unfold not_empty in HP. run (kget_run s1 b k Hk).
  destruct (kfree_step s1 b (ne_inv _ _ (se_env _ _ _ _ Hs1)) (sendable_owned _ _ Hsb)) as (s2 & Hf & St & Hna & Hcs).
  assert (Hs2 : session l s2 c x1) by (apply (session_net _ _ _ _ _ _ _ Hs1 St Hcs); by intros b' [= <-]).
  set (p := skbf_data k) in *. assert (Hu : u32 (count + pk_length p) = count + pk_length p) by (apply u32_id; unfold is_u32; sizes; lia).
  rewrite Hu. case_bool_decide as Hover.
  { run Hf. exists count, out, s2, x1. split; [done|]. split; [done|]. split; [lia|]. done. }
  destruct (bi_pool _ (ne_inv _ _ (se_env _ _ _ _ Hs1)) _ _ Hk) as (_ & Hok & _).
  destruct (data_read_is_Some p 0 (pk_length p) Hok) as [data Hd]; [lia|lia|lia|]. run (lift_opt_run_gen _ _ s1 Hd).
  pose proof (mem_read_length _ _ _ _ Hd) as Hdl. destruct (mem_write_is_Some out count data) as (out1 & Hw & Hwl); [lia|lia|].
  run (lift_opt_run_gen _ _ s1 Hw). run Hf.
  destruct (IH s2 x1 (count + pk_length p) out1) as (count' & out' & s' & x' & Hrun & Hs' & Hc' & [Hl' Hfi]); try lia; [done| |].
  { apply (queue_all_free _ s1 s2 b _ Hq1 St Hnb). intros b' Hb'. by apply sendable_allocated, (queue_sendable l s1 c x1). }
  exists count', out', s', x'. split; [done|]. split; [done|]. split; [lia|]. split; [lia|]. intros i Hi. rewrite Hfi by lia.
  rewrite (mem_write_lookup _ _ _ _ i Hw), bool_decide_false by lia. done.
Qed.
End Download.

Section VmemClient.
Context `{Env}.
Implicit Types (s : stack) (l : list nat).

Lemma range_ok version address length : bytes_ok (request_range version address length).
Proof. unfold request_range. case_bool_decide; apply Forall_app; split; apply be_bytes_ok. Qed.

Lemma range_length version address length : (List.length (request_range version address length) ≤ 12)%nat.
Proof. unfold request_range. case_bool_decide; rewrite length_app, !length_be_bytes; lia. Qed.

Lemma put_request_run s b k version type body :
  c_pool (k_core s) !! b = Some k → packet_ok (skbf_data k) → is_u8 type → bytes_ok body → (List.length body ≤ 12)%nat →
  ∃ p, put_request b version type body s = kput_packet b p s ∧ packet_ok p ∧ pk_length p = REQUEST_SIZE.
Proof.
  intros Hk Hok Ht Hb Hl. unfold put_request. run (kget_run s b k Hk).
  destruct (data_write_is_Some (skbf_data k) 0 ([u8 version; type] ++ body) Hok) as [p Hw]; [lia|rewrite length_app; cbn; sizes; lia|].
  run (lift_opt_run_gen _ _ s Hw). exists (set_pk_length REQUEST_SIZE p). split; [done|]. split; [|done]. apply length_ok; [|done].
  eapply data_write_ok; [exact Hok| |exact Hw]. apply Forall_app. split; [|done]. repeat constructor; try apply u8_range; apply Ht.
Qed.

(** The request of the vmem clients on a fresh connection. *)
Lemma vmem_ask l s c x fuel version type body :
  session l s c x → fq_items (cn_rx_queue x) = [] → fq_items (c_free (k_core s)) ≠ [] → is_u8 type → bytes_ok body → (List.length body ≤ 12)%nat →
  ∃ b s1 s2 x2, liftC csp_buffer_get s = Some (Some b, s1) ∧
    (∀ A (m : K A), (put_request b version type body;; (csp_send fuel (Some c) (Some b);; m)) s1 = m s2) ∧
    session l s2 c x2 ∧ cn_rx_queue x2 = cn_rx_queue x.
Proof.
  intros Hs Hq Hf Ht Hb Hl. destruct (ask_run l s c x fuel Hs Hq Hf) as (b & k & s1 & Hg & Hk & Hok & Hask).
  destruct (put_request_run s1 b k version type body Hk Hok Ht Hb Hl) as (p & Hp & Hpok & Hpl).
  destruct (Hask p Hpok) as (s2 & x2 & Hrun & Hs2 & Hq2 & _); [rewrite Hpl; vm_compute; congruence|].
  exists b, s1, s2, x2. split; [done|]. split; [|done]. intros A m. rewrite <- (Hrun A m). unfold mbind, ST_bind. by rewrite Hp.
Qed.
End VmemClient.

(** No connection a client opens with a checksum gets RDP. *)
Definition plain_connections (s : stack) : Prop := has_flag (connect_flags (connect_opts (Z.lor CSP_O_CRC32 (k_conn_dfl_so s)))) CSP_FRDP = false.

(** C28: A download without RDP, of a node that has a buffer and a connection to spend, of a
    length that leaves the 32-bit sum with a packet's length below 2^32, into memory that has
    the length: whatever packets arrive on its connection while it waits (empty ones apart),
    it ends, has written at most the [length] bytes it was asked for, in order from the start
    of the memory it was given, touches nothing behind them, and closes the connection
    [csp_connect] gave it. *)
Theorem vmem_download_bounded `{Env} (l : list nat) (s : stack) (fuel n : nat) (dport0 sport0 node timeout address length version : Z)
    (dataout : list Z) :
  net_env l s → conns_ready s → ¬ all_open s → fq_items (c_free (k_core s)) ≠ [] → plain_connections s → tasks_deliver l not_empty →
  0 ≤ length → length + CSP_BUFFER_SIZE < 2 ^ 32 → length ≤ Z.of_nat (List.length dataout) → length < Z.of_nat n →
  ∃ count out s0 s' c, vmem_download fuel dport0 sport0 n node timeout address length dataout version false s = Some ((count, out), s') ∧
    csp_connect dport0 sport0 CSP_PRIO_HIGH (u16 node) VMEM_PORT_SERVER (u32 timeout) CSP_O_CRC32 s = Some (Some c, s0) ∧
    0 ≤ count ≤ length ∧ filled dataout out 0 count ∧ net_env l s' ∧ closed_again s' c.
Proof.
  intros He Hcr Hno Hf Hpl Ht H0 Hl Hd Hn. unfold vmem_download.
  destruct (connect_run l s dport0 sport0 CSP_PRIO_HIGH (u16 node) VMEM_PORT_SERVER (u32 timeout) CSP_O_CRC32 He Hcr ltac:(done) (u16_range _) ltac:(done) Hpl)
    as [(c & x & Hx & Hcl & Hcon & Hse)|(s' & Hall & _)]; [|done].
  run Hcon. set (y := connected _ _ _ _ _ _) in *.
  destruct (vmem_ask l (given s c y) c y fuel version VMEM_SERVER_DOWNLOAD (request_range version address length)) as (b & s1 & s2 & x2 & Hg & Hrun & Hs2 & Hq2);
    [done|done|done|done|apply range_ok|apply range_length|].
  run Hg. rewrite Hrun.
  destruct (download_loop_run l Ht (u32 timeout) length c n s2 x2 0 dataout Hs2) as (count & out & s3 & x3 & Hr & Hs3 & Hc & Hfill); [|lia..|].
  { rewrite Hq2. intros b' k Hb'. by apply not_elem_of_nil in Hb'. }
  run Hr. destruct (close_run l s3 c x3 Hs3) as (s4 & Hclo & He4 & _ & Hcs). run Hclo.
  eexists count, out, _, s4, c. split; [done|]. split; [exact Hcon|]. split; [done|]. split; [done|]. split; [done|].
  eexists. rewrite Hcs. split; [apply list_lookup_insert_eq; by apply (lookup_lt_Some _ _ _ (se_conn _ _ _ _ Hs3))|done].
Qed.

(** C20: Without a free buffer the vmem clients give up and leave the connection they have
    just opened behind: it was closed before the call and is open after it. *)
Theorem vmem_client_leaks_connection `{Env} (l : list nat) (s : stack) (fuel n : nat) (dport0 sport0 node timeout address length version : Z)
    (dataout : list Z) :
  net_env l s → conns_ready s → ¬ all_open s → fq_items (c_free (k_core s)) = [] → plain_connections s →
  ∃ s' c x x', vmem_download fuel dport0 sport0 n node timeout address length dataout version false s = Some ((0, dataout), s') ∧
    vmem_client_list_get fuel dport0 sport0 node timeout version s = Some (None, s') ∧
    vmem_client_calc_crc32 fuel dport0 sport0 node timeout address length version s = Some ((-1, None), s') ∧
    k_conns s !! c = Some x ∧ cn_state x = CONN_CLOSED ∧ k_conns s' !! c = Some x' ∧ cn_state x' = CONN_OPEN.
Proof.
  intros He Hcr Hno Hf Hpl. unfold vmem_download, vmem_client_list_get, vmem_client_calc_crc32.
  destruct (connect_run l s dport0 sport0 CSP_PRIO_HIGH (u16 node) VMEM_PORT_SERVER (u32 timeout) CSP_O_CRC32 He Hcr ltac:(done) (u16_range _) ltac:(done) Hpl)
    as [(c & x & Hx & Hcl & Hcon & Hse)|(s' & Hall & _)]; [|done].
  set (y := connected _ _ _ _ _ _) in *.
  destruct (buffer_none_step l (given s c y) (se_env _ _ _ _ Hse) Hf) as (s1 & Hg & _ & _ & Hc1). exists s1, c, x, y.
  split; [run Hcon; by run Hg|]. split; [run Hcon; by run Hg|]. split; [run Hcon; by run Hg|]. split; [done|]. split; [done|].
  split; [|done]. rewrite Hc1. exact (se_conn _ _ _ _ Hse).
Qed.

Lemma vmem_download_bounded_witness :
  ∃ out s' c, vmem_download 0 0 0 11 14 1000 0x1000 10 (replicate 12 255) 1 false client_example = Some ((8, out), s') ∧
    filled (replicate 12 255) out 0 8 ∧ closed_again s' c.
Proof.
  destruct (vmem_download_bounded [0%nat; 1%nat] client_example 0 11 0 0 14 1000 0x1000 10 1 (replicate 12 255))
    as (count & out & s0 & s' & c & Hr & _ & _ & Hfi & _ & Hc).
  - apply client_example_ok.
  - apply client_example_conns.
  - apply client_example_conns.
  - vm_compute. discriminate.
  - vm_compute. reflexivity.
  - apply (deliver_tasks answer_example); [repeat constructor; unfold is_u8; lia|vm_compute; congruence|reflexivity|discriminate].
  - lia.
  - vm_compute. reflexivity.
  - vm_compute. congruence.
  - lia.
  - assert (count = 8) as -> by (revert Hr; vm_compute; by intros [= <- _ _]). exists out, s', c. exact (conj Hr (conj Hfi Hc)).
Defined.

(** The stack without a free buffer. *)
Definition take_one (core : csp_core) : csp_core := match csp_buffer_get core with Some (_, c) => c | None => core end.
Definition exhausted_example : stack := set_k_core (take_one (take_one (k_core client_example))) client_example.

Lemma take_one_inv core : buf_inv core → buf_inv (take_one core).
Proof.
  intros Hi. unfold take_one. by destruct (csp_buffer_get_spec core Hi) as [(s' & -> & _ & ? & _)|(b & k & s' & -> & ? & _)].
Qed.

Lemma vmem_client_leaks_connection_witness :
  ∃ s' c x', vmem_client_list_get 0 0 0 14 1000 1 exhausted_example = Some (None, s') ∧ k_conns s' !! c = Some x' ∧ cn_state x' = CONN_OPEN.
Proof.
  destruct (vmem_client_leaks_connection [0%nat; 1%nat] exhausted_example 0 1 0 0 14 1000 0 0 1 [])
    as (s' & c & x & x' & _ & Hr & _ & _ & _ & Hx & Ho).
  - destruct client_example_ok as [Hi Hli Hv Hr Hlo Hrt Hro Hk Hloc]. split; try done.
    by apply take_one_inv, take_one_inv.
  - exact (proj1 client_example_conns).
  - exact (proj2 client_example_conns).
  - vm_compute. reflexivity.
  - vm_compute. reflexivity.
  - exists s', c, x'. exact (conj Hr (conj Hx Ho)).
Defined.

(** A ping takes the first bytes of the reply's buffer for an echo without looking at its
    length: here the reply is empty. *)
Lemma csp_ping_accepts_empty_reply :
  let e := {| env_can := λ _ _ _ _, CSP_ERR_NONE; yield := deliver []; run_callback := λ _ _, mret (); rand_r := λ x, x;
              hmac_locals := @hmac_locals env_example |} in
  answering [0%nat; 1%nat] (Some []) ∧ ∃ s', csp_ping 0 0 0 300 1000 1 0 client_example = Some (0, s').
Proof.
  intros e. split; [apply (deliver_answers (H := e) []); [apply Forall_nil_2|by vm_compute|done]|]. eexists. vm_compute. reflexivity.
Qed.
