(* ===== verification/Scheduler.v ===== *)
(** * The scheduler

    [scheduler/param_scheduler.c]: queues of parameters to be pushed to a node at a given
    time, kept in an object store.  [param_schedule_server_update] runs what is due.  Times
    are nanoseconds in 64 bits; part of the arithmetic on them is done in [double], which
    [to_double] and [seconds_of] compute. *)

From S2P Require Import Queue Types State Buffer Stack Net Rdp Conn Io Mpack ParamState Param ParamList ParamSer ParamServer ParamClient Objstore ObjMeta Commands Prelude.

Definition PARAM_SCHEDULE_ADD_RESPONSE : Z := 11.
Definition PARAM_SCHEDULE_SHOW_RESPONSE : Z := 13.
Definition PARAM_SCHEDULE_LIST_RESPONSE : Z := 15.
Definition PARAM_SCHEDULE_RM_RESPONSE : Z := 18.
Definition PARAM_SCHEDULE_RESET_RESPONSE : Z := 20.

(** [param_schedule_t] and [param_schedule_buf_t]; the queue comes first. *)
Definition OFF_TIME : Z := 40.
Definition OFF_LATENCY : Z := 48.
Definition OFF_ID : Z := 52.
Definition OFF_HOST : Z := 54.
Definition OFF_COMPLETED : Z := 56.
Definition OFF_ACTIVE : Z := 57.
Definition OFF_RETRIES : Z := 58.
Definition SIZEOF_SCHEDULE : Z := 64.
Definition SIZEOF_SCHEDULE_BUF : nat := 264.

Definition NSEC : Z := 1000000000.

(** ** Double precision *)

(** [n / d] to the nearest integer, to the even one when there are two. *)
Definition div_nearest (n d : Z) : Z :=
  let q := n / d in
  let r := n mod d in
  if bool_decide (d < 2 * r) || (bool_decide (2 * r = d) && Z.odd q) then q + 1 else q.

(** The nearest [double] of a whole number: 53 bits are kept. *)
Definition to_double (z : Z) : Z :=
  let e := Z.log2 (Z.abs z) - 52 in
  if bool_decide (e ≤ 0) then z else Z.sgn z * (div_nearest (Z.abs z) (2 ^ e) * 2 ^ e).

(** [(uint32_t) (time / 1E9)]: the quotient in [double], then truncated; a value that does
    not fit is undefined behaviour. *)
Definition seconds_of (time : Z) : option Z :=
  let t := to_double time in
  if bool_decide (t < NSEC) then Some 0 else
  let e := 52 - Z.log2 (t / NSEC) in
  let q := div_nearest (t * 2 ^ e) NSEC / 2 ^ e in
  if bool_decide (q < 2 ^ 32) then Some q else None.

(** [(uint64_t)] of a [double]. *)
Definition double_to_u64 (z : Z) : option Z := if bool_decide (0 ≤ z < 2 ^ 64) then Some z else None.

Section Scheduler.
Context `{Env} `{ParamEnv} `{SiLock}.

(** [vmem_schedule] and [vmem_commands]; what uninitialised local arrays hold; the clock
    and the bound of the transactions of the client. *)
Context (vmem_schedule vmem_commands : vmem_t) (junk : list Z) (clock_sec : stack * pstate → Z) (fuel : nat).

(** What [csp_clock_get_time] returns. *)
Context (clock_now : stack * pstate → Z * Z).

#[local] Instance schedule_ops : VmemOps pstate := vmem_ops vmem_schedule.

(** The static variables [meta_obj], [temp_schedule], [temp_command] and [lock]. *)
Record sched_t := mk_sched { sc_last_id : Z; sc_temp : list Z; sc_command : list Z; sc_lock : lock_t }.
Definition set_sc_last_id (v : Z) (c : sched_t) : sched_t := mk_sched v (sc_temp c) (sc_command c) (sc_lock c).
Definition set_sc_temp (v : list Z) (c : sched_t) : sched_t := mk_sched (sc_last_id c) v (sc_command c) (sc_lock c).
Definition set_sc_command (v : list Z) (c : sched_t) : sched_t := mk_sched (sc_last_id c) (sc_temp c) v (sc_lock c).
Definition set_sc_lock (v : lock_t) (c : sched_t) : sched_t := mk_sched (sc_last_id c) (sc_temp c) (sc_command c) v.

Abbreviation SC A := (ST (stack * pstate * cmd_t * sched_t) A).
Definition scN {A} (m : ST (stack * pstate) A) : SC A := on_fst (on_fst m).
Definition scK {A} (m : K A) : SC A := scN (on_fst m).
Definition scP {A} (m : ST pstate A) : SC A := scN (on_snd m).

Definition sc_take (block_time_ms : Z) : SC Z := on_snd (λ c,
  let '(rc, l) := si_lock_take block_time_ms (sc_lock c) in Some (rc, set_sc_lock l c)).
Definition sc_give : SC () := on_snd (modify (λ c, set_sc_lock (si_lock_give (sc_lock c)) c)).
Definition sc_edit (f : list Z → option (list Z)) : SC () := on_snd (λ c,
  match f (sc_temp c) with Some m => Some ((), set_sc_temp m c) | None => None end).
Definition temp_member (off n : Z) : SC Z := c ← gets snd; lift_opt (get_member (sc_temp c) off n).

Definition csp_clock_get_nsec : SC Z :=
  s ← get;
  let '(tv_sec, tv_nsec) := clock_now s.1.1 in
  lift_opt (double_to_u64 (to_double (tv_sec * NSEC + tv_nsec))).

(** A member of a stored schedule. *)
Definition stored_member (offset field : Z) (n : Z) : ST pstate Z :=
  bs ← vm_read (u32 (member_at offset field)) n; mret (le_val bs).

Fixpoint rm_complete_loop (n : nat) (uncomplete_scheds_found : Z) : ST pstate () :=
  match n with
  | O => mret ()
  | S n' =>
      offset ← find_nth OBJ_TYPE_SCHEDULE uncomplete_scheds_found;
      if bool_decide (offset < 0) then rm_complete_loop n' uncomplete_scheds_found else
      completed ← stored_member offset OFF_COMPLETED 1;
      if bool_decide (completed ≠ 0) then objstore_rm_obj offset;; rm_complete_loop n' uncomplete_scheds_found
      else rm_complete_loop n' (uncomplete_scheds_found + 1)
  end.

Definition schedule_rm_complete : ST pstate () :=
  num_schedules ← get_number_of_objs OBJ_TYPE_SCHEDULE;
  rm_complete_loop (Z.to_nat num_schedules) 0.

(** [be16toh(packet->data16[i])] *)
Definition data_be16 (b : nat) (i : Z) : K Z :=
  p ← kget_packet b; bs ← lift_opt (data_read p (2 * i) 2); mret (be_val bs).

(** A new identifier, saved in the store; [None] when there is no object for it. *)
Definition schedule_new_id : SC (option Z) :=
  meta_offset ← scP (find_meta OBJ_TYPE_SCHEDULER_META);
  if bool_decide (meta_offset < 0) then mret None else
  c ← gets snd;
  '(_, last_id) ← scP (meta_obj_read meta_offset (sc_last_id c));
  let id := next_id last_id in
  on_snd (modify (set_sc_last_id id));;
  scP (meta_obj_save OBJ_TYPE_SCHEDULER_META id);;
  mret (Some id).

(** The header of [temp_schedule] from the request: identifier, time, latency and node. *)
Definition fill_header (packet : nat) (id : Z) : SC () :=
  sc_edit (set_member OFF_ID 2 id);;
  timestamp ← csp_clock_get_nsec;
  sec ← scK (data_be32 packet 1);
  let time := sec * NSEC in
  let time := if bool_decide (to_double time ≤ 1000000000 * NSEC) then u64 (time + timestamp) else time in
  sc_edit (set_member OFF_TIME 8 time);;
  latency ← scK (data_be32 packet 2);
  sc_edit (set_member OFF_LATENCY 4 latency);;
  host ← scK (data_be16 packet 1);
  sc_edit (set_member OFF_HOST 2 host).

(** The queue of [temp_schedule], copied from [input], and the object written. *)
Definition fill_queue (queue_size type : Z) (input : list Z) : SC () :=
  sc_edit (queue_init_at queue_size queue_size type 2);;
  sc_edit (λ m, used ← get_member m OFF_USED 2; bs ← mem_read input 0 used; mem_write m SIZEOF_SCHEDULE bs).
Definition write_schedule (obj_offset obj_length : Z) : SC () :=
  c ← gets snd;
  scP (objstore_write_obj obj_offset OBJ_TYPE_SCHEDULE obj_length (drop 8 (sc_temp c))).

Definition schedule_add (packet : nat) (q_type : Z) : SC Z :=
  p ← scK (kget_packet packet);
  if bool_decide (pk_length p < 12) then mret UINT16_MAX else
  let queue_size := pk_length p - 12 in
  let obj_length := SIZEOF_SCHEDULE + queue_size - 8 in
  rc ← sc_take 1000;
  if bool_decide (rc ≠ 0) then mret UINT16_MAX else
  obj_offset ← scP (objstore_alloc obj_length);
  obj_offset ← (if bool_decide (obj_offset < 0) then scP schedule_rm_complete;; scP (objstore_alloc obj_length)
                else mret obj_offset);
  if bool_decide (obj_offset < 0) then sc_give;; mret UINT16_MAX else
  sc_edit (λ _, Some (replicate SIZEOF_SCHEDULE_BUF 0));;
  sc_edit (set_member OFF_ACTIVE 1 0x55);;
  sc_edit (set_member OFF_COMPLETED 1 0);;
  sc_edit (set_member OFF_RETRIES 1 5);;
  r ← schedule_new_id;
  match r with
  | None => sc_give;; mret UINT16_MAX
  | Some id =>
      fill_header packet id;;
      input ← scK (data_from packet 12);
      fill_queue queue_size q_type input;;
      write_schedule obj_offset (u8 obj_length);;
      sc_give;;
      mret id
  end.

(** The response with an identifier. *)
Definition id_response (packet : nat) (type id : Z) : SC () :=
  scK (data_store packet 0 [type]);;
  scK (data_store packet 1 [PARAM_FLAG_END]);;
  scK (data_store packet 2 (be_bytes 2 id));;
  scK (kmod_packet packet (set_pk_length 4)).

Definition param_serve_schedule_push (request : nat) : SC Z :=
  r ← scK (liftC csp_buffer_get);
  match r with
  | None => scK (kfree (Some request));; mret (-1)
  | Some response =>
      id ← schedule_add request 1;
      id_response response PARAM_SCHEDULE_ADD_RESPONSE id;;
      scK (csp_sendto_reply (Some request) response CSP_O_SAME);;
      scK (kfree (Some request));;
      mret 0
  end.

Definition obj_offset_from_id_scancb (target_id offset : Z) (ctx : ()) : ST pstate (Z * ()) :=
  type ← objstore_read_obj_type offset;
  if bool_decide (type ≠ OBJ_TYPE_SCHEDULE) then mret (0, ctx) else
  id ← stored_member offset OFF_ID 2;
  mret (if bool_decide (id = target_id) then -1 else 0, ctx).

Definition obj_offset_from_id (id : Z) : ST pstate Z :=
  '(offset, _) ← objstore_scan (obj_offset_from_id_scancb id) ();
  mret offset.

(** The stored schedule copied to a cleared [temp_schedule]. *)
Definition load_schedule (offset : Z) : SC () :=
  '(_, data) ← scP (objstore_read_obj offset);
  sc_edit (λ _, let m := replicate SIZEOF_SCHEDULE_BUF 0 in
    match data with None => Some m | Some d => mem_write m 8 d end).

Definition param_serve_schedule_show (packet : nat) : SC Z :=
  id ← scK (data_be16 packet 1);
  rc ← sc_take 1000;
  offset ← (if bool_decide (rc ≠ 0) then mret (-1) else scP (obj_offset_from_id id));
  length ← (if bool_decide (offset < 0) then mret (-1) else scP (objstore_read_obj_length offset));
  (if bool_decide (0 ≤ length) then
     load_schedule offset;;
     c ← gets snd;
     let m := sc_temp c in
     scK (data_store packet 0 [PARAM_SCHEDULE_SHOW_RESPONSE]);;
     scK (data_store packet 1 [PARAM_FLAG_END]);;
     id ← lift_opt (get_member m OFF_ID 2);
     scK (data_store packet 2 (be_bytes 2 id));;
     time ← lift_opt (get_member m OFF_TIME 8);
     time_s ← lift_opt (seconds_of time);
     scK (data_store packet 4 (be_bytes 4 time_s));;
     type ← lift_opt (get_member m OFF_TYPE 1);
     scK (data_store packet 8 [type]);;
     completed ← lift_opt (get_member m OFF_COMPLETED 1);
     scK (data_store packet 9 [completed]);;
     used ← lift_opt (get_member m OFF_USED 2);
     scK (kmod_packet packet (set_pk_length (u16 (used + 10))));;
     bs ← lift_opt (mem_read m SIZEOF_SCHEDULE used);
     scK (data_store packet 10 bs);;
     sc_give
   else
     sc_give;;
     id_response packet PARAM_SCHEDULE_SHOW_RESPONSE UINT16_MAX);;
  scK (csp_sendto_reply (Some packet) packet CSP_O_SAME);;
  mret 0.

Definition param_serve_schedule_rm_single (packet : nat) : SC Z :=
  id ← scK (data_be16 packet 1);
  rc ← sc_take 1000;
  if bool_decide (rc ≠ 0) then mret (-1) else
  offset ← scP (obj_offset_from_id id);
  if bool_decide (offset < 0) then sc_give;; scK (kfree (Some packet));; mret (-1) else
  rc ← scP (objstore_rm_obj offset);
  if bool_decide (rc < 0) then sc_give;; scK (kfree (Some packet));; mret (-1) else
  sc_give;;
  id_response packet PARAM_SCHEDULE_RM_RESPONSE id;;
  scK (csp_sendto_reply (Some packet) packet CSP_O_SAME);;
  mret 0.

Definition param_serve_schedule_rm_all (packet : nat) : SC Z :=
  id ← scK (data_be16 packet 1);
  if bool_decide (id ≠ UINT16_MAX) then scK (kfree (Some packet));; mret (-1) else
  rc ← sc_take 1000;
  if bool_decide (rc ≠ 0) then mret (-1) else
  num_schedules ← scP (get_number_of_objs OBJ_TYPE_SCHEDULE);
  deleted_schedules ← scP (@rm_all_loop _ vmem_schedule (Z.to_nat num_schedules) OBJ_TYPE_SCHEDULE 0);
  sc_give;;
  id_response packet PARAM_SCHEDULE_RM_RESPONSE UINT16_MAX;;
  scK (data_store packet 4 (be_bytes 2 deleted_schedules));;
  scK (kmod_packet packet (set_pk_length 6));;
  scK (csp_sendto_reply (Some packet) packet CSP_O_SAME);;
  mret 0.

(** The inner loop of [param_serve_schedule_list]. *)
Fixpoint list_schedules (n : nat) (response : nat) (counter idx : Z) : SC () :=
  match n with
  | O => mret ()
  | S n' =>
      offset ← scP (find_nth OBJ_TYPE_SCHEDULE counter);
      length ← (if bool_decide (offset < 0) then mret (-1) else scP (objstore_read_obj_length offset));
      when (bool_decide (0 ≤ length))
        (load_schedule offset;;
         time ← temp_member OFF_TIME 8;
         time_s ← lift_opt (seconds_of time);
         scK (data_store response idx (be_bytes 4 time_s));;
         id ← temp_member OFF_ID 2;
         scK (data_store response (idx + 4) (be_bytes 2 id));;
         completed ← temp_member OFF_COMPLETED 1;
         scK (data_store response (idx + 6) [completed]);;
         type ← temp_member OFF_TYPE 1;
         scK (data_store response (idx + 7) [type]));;
      list_schedules n' response (counter + 1) (idx + 8)
  end.

Definition SCHEDULES_PER_PACKET : Z := (PARAM_SERVER_MTU - 4) / 8.

Fixpoint list_schedule_packets (n : nat) (request : nat) (num_schedules big_count : Z) : SC () :=
  match n with
  | O => ub
  | S n' =>
      r ← scK (liftC csp_buffer_get);
      match r with
      | None => mret ()
      | Some response =>
          let first := big_count * SCHEDULES_PER_PACKET in
          let fin := bool_decide (u32 (u32 (num_schedules - first) * 8) < PARAM_SERVER_MTU - 4) in
          let loop_max := if fin then num_schedules else first + SCHEDULES_PER_PACKET in
          let entries := Z.max 0 (loop_max - first) in
          list_schedules (Z.to_nat entries) response first 4;;
          scK (data_store response 0 [PARAM_SCHEDULE_LIST_RESPONSE]);;
          (if fin then sc_give;; scK (data_store response 1 [PARAM_FLAG_END])
           else scK (data_store response 1 [0]));;
          scK (data_store response 2 (be_bytes 2 entries));;
          scK (kmod_packet response (set_pk_length (u16 (entries * 8 + 4))));;
          scK (csp_sendto_reply (Some request) response CSP_O_SAME);;
          if fin then mret () else list_schedule_packets n' request num_schedules (big_count + 1)
      end
  end.

Definition param_serve_schedule_list (request : nat) : SC Z :=
  rc ← sc_take 1000;
  if bool_decide (rc ≠ 0) then mret (-1) else
  num_schedules ← scP (get_number_of_objs OBJ_TYPE_SCHEDULE);
  list_schedule_packets (S (Z.to_nat num_schedules)) request num_schedules 0;;
  sc_give;;
  scK (kfree (Some request));;
  mret 0.

Definition param_serve_schedule_reset (packet : nat) : SC () :=
  last_id ← scK (data_be16 packet 1);
  when (bool_decide (last_id ≠ 0)) (on_snd (modify (set_sc_last_id last_id)));;
  rc ← sc_take 1000;
  if bool_decide (rc ≠ 0) then mret () else
  c ← gets snd;
  scP (meta_obj_save OBJ_TYPE_SCHEDULER_META (sc_last_id c));;
  sc_give;;
  id_response packet PARAM_SCHEDULE_RESET_RESPONSE (sc_last_id c);;
  scK (csp_sendto_reply (Some packet) packet CSP_O_SAME).

(** A stored command becomes a schedule. *)
Definition schedule_command (packet : nat) : SC Z :=
  p ← scK (kget_packet packet);
  if bool_decide (pk_length p < 13) then mret UINT16_MAX else
  let name_length := pk_length p - 12 in
  input ← scK (data_from packet 12);
  name ← lift_opt (name_copy (replicate 14 0) input name_length);
  rc ← sc_take 1000;
  if bool_decide (rc ≠ 0) then mret UINT16_MAX else
  '(rc, cmd) ← on_fst (param_command_read vmem_commands name (replicate SIZEOF_COMMAND_BUF 0));
  on_snd (modify (set_sc_command cmd));;
  if bool_decide (rc < 0) then sc_give;; mret UINT16_MAX else
  queue_size ← lift_opt (get_member cmd OFF_USED 2);
  let obj_length := SIZEOF_SCHEDULE + queue_size - 8 in
  obj_offset ← scP (objstore_alloc obj_length);
  if bool_decide (obj_offset < 0) then sc_give;; mret UINT16_MAX else
  sc_edit (λ _, Some (replicate SIZEOF_SCHEDULE_BUF 0));;
  sc_edit (set_member OFF_ACTIVE 1 0x55);;
  sc_edit (set_member OFF_COMPLETED 1 0);;
  r ← schedule_new_id;
  match r with
  | None => sc_give;; mret UINT16_MAX
  | Some id =>
      fill_header packet id;;
      type ← lift_opt (get_member cmd OFF_TYPE 1);
      fill_queue queue_size type (drop (Z.to_nat SIZEOF_COMMAND) cmd);;
      write_schedule obj_offset (u8 obj_length);;
      sc_give;;
      mret id
  end.

Definition param_serve_schedule_command (request : nat) : SC Z :=
  r ← scK (liftC csp_buffer_get);
  match r with
  | None => scK (kfree (Some request));; mret (-1)
  | Some response =>
      id ← schedule_command request;
      id_response response PARAM_SCHEDULE_ADD_RESPONSE id;;
      scK (csp_sendto_reply (Some request) response CSP_O_SAME);;
      scK (kfree (Some request));;
      mret 0
  end.

(** ** Running what is due *)

Definition find_inactive_scancb (offset : Z) (ctx : ()) : ST pstate (Z * ()) :=
  type ← objstore_read_obj_type offset;
  if bool_decide (type ≠ OBJ_TYPE_SCHEDULE) then mret (0, ctx) else
  length ← objstore_read_obj_length offset;
  if bool_decide (length < 0) then mret (0, ctx) else
  active ← stored_member offset OFF_ACTIVE 1;
  mret (if bool_decide (active = 0) then -1 else 0, ctx).

(** The queue in [temp_schedule]; its type is not looked at when it is pushed. *)
Definition temp_queue (m : list Z) : option param_queue_t :=
  buffer_size ← get_member m OFF_BUFFER_SIZE 2;
  used ← get_member m OFF_USED 2;
  version ← get_member m OFF_VERSION 1;
  last_node ← get_member m OFF_LAST_NODE 2;
  last_timestamp ← get_member m OFF_LAST_TIMESTAMP 4;
  Some (mk_queue (drop (Z.to_nat SIZEOF_SCHEDULE) m) buffer_size used version PARAM_QUEUE_TYPE_SET last_node last_timestamp).

(** [param_push_queue(&temp_schedule.header.queue, 0, host, 1000, 0, false)] *)
Definition push_temp : SC Z :=
  c ← gets snd;
  q ← lift_opt (temp_queue (sc_temp c));
  host ← temp_member OFF_HOST 2;
  '(rc, q') ← scN (param_push_queue clock_sec fuel (Some q) host 1000 0 false);
  match q' with
  | None => mret rc
  | Some q' =>
      sc_edit (set_member OFF_LAST_NODE 2 (q_last_node q'));;
      sc_edit (set_member OFF_LAST_TIMESTAMP 4 (q_last_timestamp q'));;
      mret rc
  end.

(** [completed] and [time] of a stored schedule, one after the other. *)
Definition mark_failed (offset timestamp_nsec : Z) : ST pstate () :=
  objstore_write_data offset (OBJ_HEADER_LENGTH - 8 + OFF_COMPLETED) [0xAA];;
  objstore_write_data offset (OBJ_HEADER_LENGTH - 8 + OFF_TIME) (le_bytes 8 timestamp_nsec).

(** A schedule whose time has come, within its latency. *)
Definition run_schedule (offset timestamp_nsec : Z) : SC () :=
  length ← scP (objstore_read_obj_length offset);
  if bool_decide (length < 0) then mret () else
  load_schedule offset;;
  rc ← push_temp;
  (if bool_decide (rc = 0) then
     sc_edit (set_member OFF_COMPLETED 1 0x55);;
     sc_edit (set_member OFF_TIME 8 timestamp_nsec)
   else
     retries ← temp_member OFF_RETRIES 1;
     if bool_decide (0 < retries) then
       time ← temp_member OFF_TIME 8;
       time' ← lift_opt (double_to_u64 (to_double (to_double time + 5 * NSEC)));
       sc_edit (set_member OFF_TIME 8 time');;
       sc_edit (set_member OFF_RETRIES 1 (retries - 1))
     else scP (mark_failed offset timestamp_nsec));;
  write_schedule offset length.

(** One schedule of the first loop. *)
Definition update_one (offset timestamp_nsec : Z) : SC () :=
  completed ← scP (stored_member offset OFF_COMPLETED 1);
  time ← scP (stored_member offset OFF_TIME 8);
  if bool_decide (completed = 0) then
    if bool_decide (time ≤ timestamp_nsec) then
      latency_buffer ← scP (stored_member offset OFF_LATENCY 4);
      if bool_decide (to_double (timestamp_nsec - time) ≤ latency_buffer * NSEC) || bool_decide (latency_buffer = 0)
      then run_schedule offset timestamp_nsec
      else scP (mark_failed offset timestamp_nsec)
    else mret ()
  else
    if bool_decide (to_double time ≤ to_double (to_double timestamp_nsec - 86400 * NSEC))
    then scP (objstore_write_data offset (OBJ_HEADER_LENGTH - 8 + OFF_ACTIVE) [0])
    else mret ().

Fixpoint update_loop (n : nat) (i timestamp_nsec : Z) : SC () :=
  match n with
  | O => mret ()
  | S n' =>
      offset ← scP (find_nth OBJ_TYPE_SCHEDULE i);
      when (bool_decide (0 ≤ offset)) (update_one offset timestamp_nsec);;
      update_loop n' (i + 1) timestamp_nsec
  end.

Fixpoint delete_inactive (n : nat) : ST pstate () :=
  match n with
  | O => mret ()
  | S n' =>
      '(offset, _) ← objstore_scan find_inactive_scancb ();
      if bool_decide (offset < 0) then mret () else objstore_rm_obj offset;; delete_inactive n'
  end.

Definition param_schedule_server_update (timestamp_nsec : Z) : SC Z :=
  rc ← sc_take 1000;
  if bool_decide (rc ≠ 0) then mret (-1) else
  num_schedules ← scP (get_number_of_objs OBJ_TYPE_SCHEDULE);
  update_loop (Z.to_nat num_schedules) 0 timestamp_nsec;;
  sc_give;;
  rc ← sc_take 0;
  if bool_decide (rc ≠ 0) then mret (-1) else
  scP (delete_inactive (Z.to_nat num_schedules));;
  sc_give;;
  mret 0.

Definition param_schedule_server_init : SC () :=
  on_snd (modify (set_sc_lock si_lock_init));;
  rc ← sc_take (-1);
  if bool_decide (rc ≠ 0) then mret () else
  c ← gets snd;
  last_id ← scP (meta_obj_init OBJ_TYPE_SCHEDULER_META OBJ_TYPE_SCHEDULE OFF_ID (sc_last_id c));
  on_snd (modify (set_sc_last_id last_id));;
  sc_give.
End Scheduler.
