(* ===== verification/PushShown.v ===== *)
(** * A push that is acknowledged

    [param_push_queue] of [param_client.c], without RDP and without asking for the values
    back, while the node it pushes to acknowledges the request: it returns 0, has applied the
    queue to the copies the sender keeps, and leaves the sender able to push again. *)

From S2P Require Import Queue Types State Id Buffer Nexthop Stack Net RdpQueue Rdp Conn Io Session Services VmemServer Clients ClientsShown Mpack ParamState Param ParamList ParamSer ParamServer ParamServed ServicesShown ParamClient Prelude.

Section Acknowledged.
Context `{Env} `{ParamEnv} (clock_sec : stack * pstate → Z) (fuel : nat) (l : list nat).
Implicit Types (s : stack) (t : pstate) (q : param_queue_t) (b c : nat).

(** A node that has a connection and a buffer to spend; its connections do not use RDP. *)
Record client_ready s : Prop := {
  cr_env : net_env l s;
  cr_conns : conns_ready s;
  cr_closed : ¬ all_open s;
  cr_free : fq_items (c_free (k_core s)) ≠ [];
  cr_plain : has_flag (connect_flags (connect_opts (Z.lor CSP_O_CRC32 (k_conn_dfl_so s)))) CSP_FRDP = false;
}.

(** The tasks that run while a client waits leave the other connections alone. *)
Definition others_alone : Prop := ∀ s,
  k_conn_dfl_so (yield s) = k_conn_dfl_so s ∧ List.length (k_conns (yield s)) = List.length (k_conns s) ∧
  ∀ c, c ≠ Z.to_nat (k_last_given s) → k_conns (yield s) !! c = k_conns s !! c.

(** Connections other than [c] are as before, and [c] is closed again. *)
Definition conn_back c s s' : Prop :=
  List.length (k_conns s') = List.length (k_conns s) ∧ (∀ c', c' ≠ c → k_conns s' !! c' = k_conns s !! c') ∧
  ∃ x x', k_conns s !! c = Some x ∧ cn_state x = CONN_CLOSED ∧ k_conns s' !! c = Some x' ∧ cn_state x' = CONN_CLOSED ∧
    fq_items (cn_rx_queue x') = [] ∧ sport_outgoing x' = sport_outgoing x.

Lemma conn_back_ready c s s' : conn_back c s s' → conns_ready s → conns_ready s' ∧ ¬ all_open s'.
Proof.
  intros (Hlen & Hoth & x & x' & Hx & Hcl & Hx' & Hcl' & Hq & Hsp) [Hn Hall]. split; [|by intros Ho; apply (Ho c x')].
  split; [congruence|]. intros c' y Hy Hyc. destruct (decide (c' = c)) as [->|Hne].
  - assert (y = x') as -> by congruence. rewrite Hq, Hsp. split; [by apply Forall_nil_2|]. by apply (Hall c x).
  - apply (Hall c' y); [by rewrite <- Hoth|done].
Qed.

(** The request, built in the buffer [b]. *)
Lemma push_request s t b k ty bs :
  c_pool (k_core s) !! b = Some k → packet_ok (skbf_data k) → is_u8 ty → bytes_ok bs → Z.of_nat (List.length bs) + 2 ≤ CSP_BUFFER_SIZE →
  ∃ p, packet_ok p ∧ pk_length p = Z.of_nat (List.length bs) + 2 ∧
    ∀ A (m : ST (stack * pstate) A),
      (put_header b ty 0;; (on_fst (data_store b 2 bs);; (finish_request b (Z.of_nat (List.length bs) + 2) CSP_PRIO_HIGH;; m))) (s, t) =
      m (with_packet s b k p, t).
Proof.
  intros Hk Hok Hty Hbs Hl.
  destruct (store_same s b k Hk 0 [ty] (skbf_data k)) as (p1 & _ & R1 & S1); [done|by apply Forall_singleton|lia|sizes; cbn; lia|].
  rewrite (with_packet_same s b k Hk) in R1.
  destruct (store_same s b k Hk 1 [0] p1) as (p2 & _ & R2 & S2); [apply S1|by apply Forall_singleton|lia|sizes; cbn; lia|].
  destruct (store_same s b k Hk 2 bs p2) as (p3 & _ & R3 & S3); [apply S2|done|lia|lia|].
  set (n := Z.of_nat (List.length bs) + 2) in *. assert (Hn : u16 n = n) by (apply u16_id; unfold is_u16; sizes; lia).
  set (p4 := set_pk_length n p3). exists (set_pk_id (set_pri CSP_PRIO_HIGH (pk_id p4)) p4). split; [|split; [done|]].
  - apply set_pk_id_ok; [apply length_ok; [apply S3|rewrite <- Hn; apply u16_range]|].
    assert (Hp4 : packet_ok p4) by (apply length_ok; [apply S3|rewrite <- Hn; apply u16_range]).
    destruct (po_id _ Hp4) as (_ & Hrest). split; [cbn; unfold CSP_PRIO_HIGH, is_u8; lia|exact Hrest].
  - intros A m. unfold put_header, finish_request. rewrite Hn.
    unfold mbind, ST_bind. rewrite (on_fst_run _ _ _ _ t R1), (on_fst_run _ _ _ _ t R2), (on_fst_run _ _ _ _ t R3).
    rewrite (on_fst_run _ _ _ _ t (with_packet_mod s b k Hk (set_pk_length n) p3)).
    by rewrite (on_fst_run _ _ _ _ t (with_packet_mod s b k Hk (λ p, set_pk_id (set_pri CSP_PRIO_HIGH (pk_id p)) p) (set_pk_length n p3))).
Qed.

Context (d : list Z) (Hd : answering l (Some d)) (Hend : d !! 1%nat = Some PARAM_FLAG_END) (Halone : others_alone).

(** The acknowledgement is the last packet of the answer. *)
Lemma ack_byte p : payload p = Some d → data_read p 1 1 = Some [PARAM_FLAG_END].
Proof using Hend.
  clear Hd. unfold payload, data_read. intros Hm. pose proof (mem_read_length _ _ _ _ Hm) as Hl.
  assert (Hlt : (1 < List.length d)%nat) by (by eapply lookup_lt_Some).
  rewrite Z.add_0_r in Hm. rewrite <- (mem_read_nested _ _ _ _ 1 1 Hm) by lia.
  destruct d as [|d0 [|d1 d']]; [done|done|]. injection Hend as ->. exact (mem_read_mid [d0] [PARAM_FLAG_END] d').
Qed.

(** One transaction: the request goes out, the acknowledgement is read and released, and the
    connection is closed. *)
Lemma transaction_acked s t b k p host :
  net_env l s → conns_ready s → ¬ all_open s →
  has_flag (connect_flags (connect_opts (Z.lor CSP_O_CRC32 (k_conn_dfl_so s)))) CSP_FRDP = false →
  c_pool (k_core s) !! b = Some k → refcount k = 1 → packet_ok p → pk_length p ≤ CSP_BUFFER_SIZE →
  host ≠ PARAM_REMOTE_NODE_IGNORE → (0 < fuel)%nat →
  ∃ s', param_transaction fuel b host 1000 None (with_packet s b k p, t) = Some (0, (s', t)) ∧ client_ready s'.
Proof using Hd Hend Halone.
  intros He Hcr Hno Hpl Hk Hr Hp Hl Hho Hfu. unfold param_transaction. rewrite bool_decide_false by done.
  run (on_fst_run _ _ _ _ t (with_packet_get s b k Hk p)). set (s2 := with_packet s b k p).
  pose proof (with_packet_step s b k p (ne_inv _ _ He) Hk Hp) as St2. fold s2 in St2.
  assert (Hk2 : c_pool (k_core s2) !! b = Some (mk_skbf (refcount k) (skbf_addr k) p)) by exact (with_packet_lookup s b k Hk p).
  destruct (connect_run l s2 indeterminate indeterminate (pri (pk_id p)) (u16 host) SERVER_PORT 0 CSP_O_CRC32
    (net_env_step _ _ _ _ _ St2 He) Hcr) as [(c & x & Hx & Hcl & Hcon & Hse)|(s' & Hall & _)];
    [apply (po_id _ Hp)|apply u16_range|unfold is_u8, SERVER_PORT; lia|done| |done].
  run (on_fst_run _ _ _ _ t Hcon). set (y := connected _ _ _ _ _ x) in *.
  destruct (session_send l (given s2 c y) c y b fuel Hse) as (s3 & x3 & new & Hsd & Hse3 & Hsx & St3 & Hna & Hc3).
  { eexists. split; [exact Hk2|]. done. }
  { apply not_elem_of_nil. }
  run (on_fst_run _ _ _ _ t Hsd). rewrite bool_decide_false by done. destruct fuel as [|n]; [lia|].
  assert (Hq3 : fq_items (cn_rx_queue x3) = [] ∧ sport_outgoing x3 = sport_outgoing x) by (destruct Hsx as [->|(v & _ & ->)]; done).
  destruct Hq3 as [Hq3 Hsp3].
  assert (Hlg : k_last_given s3 = Z.of_nat c) by (by rewrite (last_given_step _ _ _ _ St3)).
  destruct (answer_run l s3 c x3 1000 (Some d) Hse3 Hlg Hq3) as (r & s4 & x4 & Hrd & Hse4 & _ & _ & [(q4 & Hx4) Hs4] & b4 & k4 & -> & Hk4 & Hpay & Hsb & Hnq & _).
  { apply (free_nonempty _ b); [apply St3| |done]. rewrite (ns_length _ _ _ _ St3). by apply lookup_lt_Some in Hk2. }
  { done. }
  assert (Hw : waited s3 x3 1000 = yield s3) by (unfold waited; by rewrite Hq3, bool_decide_true, bool_decide_true).
  rewrite Hw in Hs4.
  assert (Hby : data_byte b4 1 s4 = Some (PARAM_FLAG_END, s4)).
  { unfold data_byte. run (kget_run s4 b4 k4 Hk4). by run (lift_opt_run_gen _ _ s4 (ack_byte _ Hpay)). }
  destruct (kfree_step s4 b4 (ne_inv _ _ (se_env _ _ _ _ Hse4)) (sendable_owned _ _ Hsb)) as (s5 & Hf & St5 & Hna5 & Hc5).
  assert (Hloop : transaction_loop (S n) c 1000 None (s3, t) = Some (0, (s5, t))).
  { cbn [transaction_loop]. run (on_fst_run _ _ _ _ t Hrd). run (on_fst_run _ _ _ _ t Hby). run (on_fst_run _ _ _ _ t Hf). by rewrite bool_decide_true. }
  run Hloop.
  assert (Hse5 : session l s5 c x4) by (apply (session_net _ _ _ _ _ _ _ Hse4 St5 Hc5); by intros b' [= <-]).
  destruct (close_run l s5 c x4 Hse5) as (s6 & Hcls & He6 & Hrel & Hc6). run (on_fst_run _ _ _ _ t Hcls).
  exists s6. split; [done|]. destruct (Halone s3) as (Hdf & Hln & Hoth). rewrite Hlg, Nat2Z.id in Hoth.
  assert (Hback : conn_back c s s6).
  { assert (Hlt : (c < List.length (k_conns s5))%nat) by (eapply lookup_lt_Some, (se_conn _ _ _ _ Hse5)).
    split; [rewrite Hc6, length_insert, Hc5, Hs4; cbn; rewrite length_insert, Hln, Hc3, length_insert; cbn; by rewrite length_insert|]. split.
    - intros c' Hne. rewrite Hc6, list_lookup_insert_ne, Hc5, Hs4 by done. cbn. rewrite list_lookup_insert_ne, Hoth, Hc3, list_lookup_insert_ne by done.
      cbn. by rewrite list_lookup_insert_ne.
    - eexists x, _. rewrite Hc6. split; [done|]. split; [done|]. split; [by apply list_lookup_insert_eq|]. subst x4. done. }
  destruct (conn_back_ready c s s6 Hback Hcr) as [Hcr6 Hno6]. split; [done..| |].
  - apply (free_nonempty _ b4); [apply He6| |intros Ha; by apply Hna5, (re_none _ _ _ Hrel)].
    rewrite (re_length _ _ _ Hrel), (ns_length _ _ _ _ St5). by apply lookup_lt_Some in Hk4.
  - rewrite (re_dfl _ _ _ Hrel), (dfl_step _ _ _ _ St5), Hs4. cbn. rewrite Hdf, (dfl_step _ _ _ _ St3). exact Hpl.
Qed.

Lemma push_acknowledged s t q host code q' t' :
  client_ready s → 0 < q_used q ≤ Z.of_nat (List.length (q_mem q)) → q_used q + 2 ≤ CSP_BUFFER_SIZE → bytes_ok (q_mem q) →
  host ≠ PARAM_REMOTE_NODE_IGNORE → (0 < fuel)%nat → param_queue_apply_q q 0 host t = Some ((code, q'), t') →
  ∃ s', param_push_queue clock_sec fuel (Some q) host 1000 0 false (s, t) = Some ((0, Some q'), (s', t')) ∧ client_ready s'.
Proof using Hd Hend Halone.
  intros Hcr Hu Hl Hb Hho Hfu Happ. unfold param_push_queue. rewrite bool_decide_false by lia.
  destruct Hcr as [He Hc Hno Hfr Hpl].
  destruct (buffer_get_step l s He Hfr) as (b & k & s1 & Hg & He1 & St & Hk & Hr & Hok & _ & Hc1).
  run (on_fst_run _ s _ _ t Hg). destruct (mem_read_is_Some (q_mem q) 0 (q_used q)) as [bs Hbs]; [lia..|].
  pose proof (mem_read_length _ _ _ _ Hbs) as Hn. set (ty := if bool_decide (q_version q = 2) then _ else _).
  destruct (push_request s1 t b k ty bs Hk Hok) as (p & Hp & Hlen & Hrun);
    [subst ty; case_bool_decide; unfold is_u8, PARAM_PUSH_REQUEST_V2, PARAM_PUSH_REQUEST; lia|by eapply mem_read_bytes_ok|lia|].
  assert (Hreq : ∀ A (m : ST (stack * pstate) A), (put_header b ty 0;; (bs' ← lift_opt (mem_read (q_mem q) 0 (q_used q));
    (on_fst (data_store b 2 bs');; (finish_request b (q_used q + 2) CSP_PRIO_HIGH;; m)))) (s1, t) = m (with_packet s1 b k p, t)).
  { intros A m. rewrite <- Hrun, Hn. unfold mbind, ST_bind. destruct (put_header b ty 0 (s1, t)) as [[[] st]|]; [|done].
    by rewrite (lift_opt_run_gen _ _ st Hbs). }
  rewrite Hreq. run (eq_refl : (mret () : ST (stack * pstate) ()) (with_packet s1 b k p, t) = Some ((), (with_packet s1 b k p, t))).
  destruct (transaction_acked s1 t b k p host He1) as (s' & Htr & Hcr'); [..|done|done|done|lia|done|done|].
  { unfold conns_ready. by rewrite Hc1. }
  { unfold all_open. by rewrite Hc1. }
  { by rewrite (dfl_step _ _ _ _ St). }
  run Htr. rewrite bool_decide_false by lia. run (on_snd_run _ t _ _ s' Happ). by exists s'.
Qed.
End Acknowledged.
