(* ===== verification/SchedulerShown.v ===== *)
(** * What the scheduler does

    An update of the scheduler, as a relation on the stored schedules: which run, which are
    postponed, which are given up and which are removed; and over a sequence of updates,
    that a schedule runs when its time has come. *)

From S2P Require Import Queue Types State Buffer Stack Port Net Rdp Conn Io Session ClientsShown Mpack ParamState Param ParamList ParamSer ParamServer ParamClient PushShown Objstore ObjMeta Commands Scheduler Prelude.

(** ** Rounding *)

Lemma div_nearest_error n d : 0 < d → 2 * Z.abs (div_nearest n d * d - n) ≤ d.
Proof.
  intros Hd. unfold div_nearest. pose proof (Z.div_mod n d ltac:(lia)) as Hn. pose proof (Z.mod_pos_bound n d Hd) as Hr.
  destruct (bool_decide_reflect (d < 2 * (n mod d))) as [H1|H1]; cbn [orb]; [nia|].
  destruct (bool_decide_reflect (2 * (n mod d) = d)) as [H2|H2]; cbn [andb]; [destruct (Z.odd (n / d)); nia|nia].
Qed.

(** A [double] is off by at most 2^11 below 2^64. *)
Lemma to_double_error z : 0 ≤ z < 2 ^ 64 → 0 ≤ to_double z ≤ z + 2 ^ 11.
Proof.
  intros Hz. unfold to_double. rewrite Z.abs_eq by lia. case_bool_decide as He; [lia|].
  destruct (decide (z = 0)) as [->|Hz0]; [simpl in He; lia|]. rewrite Z.sgn_pos by lia.
  assert (Hlog : Z.log2 z < 64) by (apply Z.log2_lt_pow2; lia).
  pose proof (div_nearest_error z (2 ^ (Z.log2 z - 52)) ltac:(apply Z.pow_pos_nonneg; lia)) as Herr.
  assert (Hp : 2 ^ (Z.log2 z - 52) ≤ 2 ^ 11) by (apply Z.pow_le_mono_r; lia).
  assert (Hq : 2 ^ (Z.log2 z - 52) ≤ z).
  { transitivity (2 ^ Z.log2 z); [apply Z.pow_le_mono_r; lia|apply Z.log2_spec; lia]. }
  lia.
Qed.

(** ** The structure in memory *)

Section Temp.
Implicit Types (d m : list Z) (off n : nat).

(** [temp_schedule] after [d] was loaded behind the pointer. *)
Definition temp_of d : list Z := framed (256 - length d) d.

Lemma temp_load d : (length d ≤ 256)%nat → mem_write (replicate SIZEOF_SCHEDULE_BUF 0) 8 d = Some (temp_of d).
Proof.
  intros Hd. apply mem_write_Some. unfold SIZEOF_SCHEDULE_BUF. rewrite length_replicate. split_and!; [lia..|].
  change (Z.to_nat 8) with 8%nat. unfold temp_of, framed. rewrite take_replicate, drop_replicate. by replace (264 - (8 + length d))%nat with (256 - length d)%nat by lia.
Qed.

Lemma temp_data d : mem_read (drop 8 (temp_of d)) 0 (Z.of_nat (length d)) = Some d.
Proof. exact (mem_read_mid [] d (replicate (256 - length d) 0)). Qed.

Lemma temp_get d off n :
  has_member off n d → get_member (temp_of d) (Z.of_nat off) (Z.of_nat n) = Some (member d off n).
Proof. apply framed_get. Qed.

Lemma temp_set d off n v :
  has_member off n d → set_member (Z.of_nat off) n v (temp_of d) = Some (temp_of (edit off n v d)).
Proof. intros Hm. unfold temp_of. rewrite (framed_set _ d off n v Hm). by rewrite (length_edit d off n v Hm). Qed.
End Temp.

(** ** What an update does to a schedule *)

Section Updated.
Implicit Types (d : list Z) (o : obj).

Definition s_used d : Z := member d 10 2.
Definition s_time d : Z := member d 40 8.
Definition s_latency d : Z := member d 48 4.
Definition s_completed d : Z := member d 56 1.
Definition s_active d : Z := member d 57 1.
Definition s_retries d : Z := member d 58 1.

Definition s_host d : Z := member d 54 2.
Definition s_version d : Z := member d 12 1.
Definition s_queue d : list Z := take (Z.to_nat (s_used d)) (drop 56 d).
(** The memory of the queue when the schedule is loaded. *)
Definition s_mem d : list Z := drop 56 d ++ replicate (256 - length d) 0.

(** What the schedule asks to be pushed: the node, the version of the format and the queue. *)
Definition push_of d : Z * Z * list Z := (s_host d, s_version d, s_queue d).

(** A stored schedule has all members, fits [temp_schedule], contains its queue, and the
    queue is one that may be pushed to the node: [Q] is told the node, the version, the
    length and the memory of the queue. *)
Record sched_ok (Q : Z → Z → Z → list Z → Prop) o : Prop := {
  sk_length : (56 ≤ length (o_data o) ≤ 256)%nat;
  sk_used : s_used (o_data o) ≤ Z.of_nat (length (o_data o)) - 56;
  sk_bytes : bytes_ok (o_data o);
  sk_push : Q (s_host (o_data o)) (s_version (o_data o)) (s_used (o_data o)) (s_mem (o_data o));
}.

Definition due (ts : Z) d : Prop := s_completed d = 0 ∧ s_time d ≤ ts.
Definition in_time (ts : Z) d : Prop := to_double (ts - s_time d) ≤ s_latency d * NSEC ∨ s_latency d = 0.
Definition outdated (ts : Z) d : Prop := to_double (s_time d) ≤ to_double (to_double ts - 86400 * NSEC).

(** The object with new data. *)
Definition remake o d : obj := mk_obj (o_type o) d (xor_sum d).

Definition pushed (node stamp : Z) d : list Z := edit 36 4 stamp (edit 34 2 node d).
Definition done_at (ts : Z) d : list Z := edit 40 8 ts (edit 56 1 0x55 d).
Definition failed_at (ts : Z) d : list Z := edit 40 8 ts (edit 56 1 0xAA d).
Definition retry_later d : list Z :=
  edit 58 1 (s_retries d - 1) (edit 40 8 (to_double (to_double (s_time d) + 5 * NSEC)) d).

(** [answers] holds of the results the pushes of queues may have. *)
Inductive updated (answers : Z → Prop) (ts : Z) : obj → obj → Prop :=
  | up_other o : o_type o ≠ OBJ_TYPE_SCHEDULE → updated answers ts o o
  | up_waiting o : o_type o = OBJ_TYPE_SCHEDULE → s_completed (o_data o) = 0 → ts < s_time (o_data o) → updated answers ts o o
  | up_done o node stamp : o_type o = OBJ_TYPE_SCHEDULE → due ts (o_data o) → in_time ts (o_data o) → answers 0 →
      updated answers ts o (remake o (done_at ts (pushed node stamp (o_data o))))
  | up_retry o rc node stamp : o_type o = OBJ_TYPE_SCHEDULE → due ts (o_data o) → in_time ts (o_data o) →
      answers rc → rc ≠ 0 → 0 < s_retries (o_data o) →
      updated answers ts o (remake o (retry_later (pushed node stamp (o_data o))))
  | up_exhausted o rc node stamp : o_type o = OBJ_TYPE_SCHEDULE → due ts (o_data o) → in_time ts (o_data o) →
      answers rc → rc ≠ 0 → s_retries (o_data o) = 0 →
      updated answers ts o (remake o (pushed node stamp (o_data o)))
  | up_late o : o_type o = OBJ_TYPE_SCHEDULE → due ts (o_data o) → ¬ in_time ts (o_data o) →
      updated answers ts o (remake o (failed_at ts (o_data o)))
  | up_keep o : o_type o = OBJ_TYPE_SCHEDULE → s_completed (o_data o) ≠ 0 → ¬ outdated ts (o_data o) → updated answers ts o o
  | up_old o : o_type o = OBJ_TYPE_SCHEDULE → s_completed (o_data o) ≠ 0 → outdated ts (o_data o) →
      updated answers ts o (remake o (edit 57 1 0 (o_data o))).

Definition inactive o : Prop := o_type o = OBJ_TYPE_SCHEDULE ∧ s_active (o_data o) = 0.

#[export] Instance due_dec ts d : Decision (due ts d).
Proof. unfold due. apply _. Defined.
#[export] Instance in_time_dec ts d : Decision (in_time ts d).
Proof. unfold in_time. apply _. Defined.
#[export] Instance inactive_dec o : Decision (inactive o).
Proof. unfold inactive. apply _. Defined.

(** The pushes an update at the time [ts] makes: those of the schedules that are due and not
    too late, in the order of the store. *)
Definition runs_at (ts : Z) o : Prop := o_type o = OBJ_TYPE_SCHEDULE ∧ due ts (o_data o) ∧ in_time ts (o_data o).
#[export] Instance runs_at_dec ts o : Decision (runs_at ts o).
Proof. unfold runs_at. apply _. Defined.
Definition pushes_at (ts : Z) (objs : list (Z * obj)) : list (Z * Z * list Z) :=
  (λ y, push_of (o_data y.2)) <$> filter (λ y, runs_at ts y.2) objs.

Lemma pushes_at_cons ts y objs : pushes_at ts (y :: objs) = pushes_at ts [y] ++ pushes_at ts objs.
Proof. unfold pushes_at. rewrite <- fmap_app, <- filter_app. done. Qed.

Lemma pushes_at_run ts off o : runs_at ts o → pushes_at ts [(off, o)] = [push_of (o_data o)].
Proof. intros Hr. unfold pushes_at. by rewrite filter_cons_True. Qed.

Lemma pushes_at_idle ts off o : ¬ runs_at ts o → pushes_at ts [(off, o)] = [].
Proof. intros Hr. unfold pushes_at. by rewrite filter_cons_False. Qed.
End Updated.

(** A tactic for [has_member] of data whose length is known to be large enough. *)
Ltac members := repeat apply has_member_edit; unfold has_member; lia.

Lemma filter_keep {A} (P : A → Prop) `{∀ x, Decision (P x)} (l : list A) : Forall P l → filter P l = l.
Proof. induction 1 as [|x l Hx _ IH]; [done|]. by rewrite filter_cons_True, IH. Qed.

Lemma member_bound (d : list Z) (off n : nat) : bytes_ok d → has_member off n d → 0 ≤ member d off n < 256 ^ Z.of_nat n.
Proof.
  intros Hb [H1 H2]. unfold member, le_val. pose proof (be_val_bound (rev (take n (drop (off - 8) d)))) as Hv.
  rewrite length_rev, length_take, length_drop in Hv. replace (n `min` (length d - (off - 8)))%nat with n in Hv by lia.
  apply Hv. apply Forall_rev, Forall_take, Forall_drop, Hb.
Qed.

(** ** Running the operations *)

Section Run.
Context `{Env} `{ParamEnv} `{SiLock}.
Context (vmem_schedule vmem_commands : vmem_t) (junk : list Z) (clock_sec : stack * pstate → Z) (fuel : nat).

#[local] Instance run_ops : VmemOps pstate := vmem_ops vmem_schedule.
#[local] Instance run_laws : VmemLaws pstate := vmem_laws vmem_schedule.

Implicit Types (k : stack) (p : pstate) (c : cmd_t) (sc : sched_t) (d : list Z) (l : list seg) (o : obj) (ts : Z).

Lemma scN_run {A} (m : ST (stack * pstate) A) x (a : A) x' c sc : m x = Some (a, x') → scN m (x, c, sc) = Some (a, (x', c, sc)).
Proof. intros Hm. unfold scN. by apply on_fst_run, on_fst_run. Qed.

Lemma scP_run {A} (m : ST pstate A) p (a : A) p' k c sc : m p = Some (a, p') → scP m (k, p, c, sc) = Some (a, (k, p', c, sc)).
Proof. intros Hm. unfold scP. by apply scN_run, on_snd_run. Qed.

Lemma sc_edit_run f m x c sc : f (sc_temp sc) = Some m → sc_edit f (x, c, sc) = Some ((), (x, c, set_sc_temp m sc)).
Proof. intros Hf. unfold sc_edit. apply on_snd_run. by rewrite Hf. Qed.

Lemma temp_member_run x c sc d (off n : nat) :
  sc_temp sc = temp_of d → has_member off n d →
  temp_member (Z.of_nat off) (Z.of_nat n) (x, c, sc) = Some (member d off n, (x, c, sc)).
Proof.
  intros Ht Hm. unfold temp_member. run (eq_refl : gets snd (x, c, sc) = Some (sc, (x, c, sc))). rewrite Ht.
  apply lift_opt_run_gen. by apply temp_get.
Qed.

(** A member of [temp_schedule] set. *)
Lemma temp_edit_run x c sc d (off n : nat) v :
  sc_temp sc = temp_of d → has_member off n d →
  sc_edit (set_member (Z.of_nat off) n v) (x, c, sc) = Some ((), (x, c, set_sc_temp (temp_of (edit off n v d)) sc)).
Proof. intros Ht Hm. apply sc_edit_run. rewrite Ht. by apply temp_set. Qed.

Lemma stored_member_run p l off o (fo n : nat) :
  store p l → (off, o) ∈ objects 0 l → has_member fo n (o_data o) →
  stored_member vmem_schedule off (Z.of_nat fo) (Z.of_nat n) p = Some (member (o_data o) fo n, p).
Proof.
  intros Hst Hin [H1' H2']. unfold stored_member, member_at.
  replace (off + OBJ_HEADER_LENGTH - 8 + Z.of_nat fo) with (off + OBJ_HEADER_LENGTH + Z.of_nat (fo - 8)) by lia.
  run (member_store p l off o (fo - 8) n Hst Hin H2'). done.
Qed.

Lemma load_schedule_run k p c sc l off o :
  store p l → (off, o) ∈ objects 0 l → (length (o_data o) ≤ 256)%nat →
  load_schedule vmem_schedule off (k, p, c, sc) = Some ((), (k, p, c, set_sc_temp (temp_of (o_data o)) sc)).
Proof.
  intros Hst Hin Hl. unfold load_schedule. run (scP_run _ p _ p k c sc (read_store p l off o Hst Hin)).
  apply sc_edit_run. by apply temp_load.
Qed.

(** What pushing a queue of [Q] does: it returns, one of the [answers], and the memory of the
    schedules is not written. *)
Record pushes (Q : Z → Z → Z → list Z → Prop) (Inv : stack * pstate → Prop) (answers : Z → Prop) : Prop := {
  push_runs : ∀ q host x, Inv x → 0 ≤ q_used q ≤ Z.of_nat (length (q_mem q)) →
    Q host (q_version q) (q_used q) (q_mem q) →
    ∃ rc q' x', param_push_queue clock_sec fuel (Some q) host 1000 0 false x = Some ((rc, Some q'), x') ∧
      Inv x' ∧ answers rc ∧ block_of vmem_schedule x'.2 = block_of vmem_schedule x.2;
  push_kept : ∀ k p p', Inv (k, p) → others_kept vmem_schedule p p' → Inv (k, p');
}.

(** What an update does outside its own variables: it pushes queues, each to its node, and in
    between it writes the memory of the schedules. *)
Inductive activity (answers : Z → Prop) : list (Z * Z * list Z) → stack * pstate → stack * pstate → Prop :=
  | act_done x : activity answers [] x x
  | act_push q host rc q' x y z log :
      param_push_queue clock_sec fuel (Some q) host 1000 0 false x = Some ((rc, Some q'), y) → answers rc →
      activity answers log y z → activity answers ((host, q_version q, take (Z.to_nat (q_used q)) (q_mem q)) :: log) x z
  | act_store k p p' z log :
      others_kept vmem_schedule p p' → activity answers log (k, p') z → activity answers log (k, p) z.

Lemma activity_app answers log1 log2 x y z : activity answers log1 x y → activity answers log2 y z → activity answers (log1 ++ log2) x z.
Proof. induction 1; intros Hz; [done|..]; cbn [app]; econstructor; eauto. Qed.

Lemma activity_store answers k p p' : others_kept vmem_schedule p p' → activity answers [] (k, p) (k, p').
Proof. intros Hk. eapply act_store; [exact Hk|constructor]. Qed.

Lemma activity_end answers log x k p p' : activity answers log x (k, p) → others_kept vmem_schedule p p' → activity answers log x (k, p').
Proof. intros Ha Hk. rewrite <- (app_nil_r log). eapply activity_app; [exact Ha|by apply activity_store]. Qed.

Context (Q : Z → Z → Z → list Z → Prop) (Inv : stack * pstate → Prop) (answers : Z → Prop) (Hpush : pushes Q Inv answers).

Lemma push_temp_run k p c sc l d :
  store p l → Inv (k, p) → sc_temp sc = temp_of d → (56 ≤ length d ≤ 256)%nat → s_used d ≤ Z.of_nat (length d) - 56 → Q (s_host d) (s_version d) (s_used d) (s_mem d) → bytes_ok d →
  ∃ rc node stamp k' p', push_temp clock_sec fuel (k, p, c, sc) =
      Some (rc, (k', p', c, set_sc_temp (temp_of (pushed node stamp d)) sc)) ∧
    answers rc ∧ Inv (k', p') ∧ store p' l ∧ activity answers [push_of d] (k, p) (k', p').
Proof.
  intros Hst Hinv Ht Hl Hu HQ Hb. pose proof (member_bound d 10 2 Hb ltac:(members)) as Hub. fold (s_used d) in Hub. unfold push_temp. run (eq_refl : gets snd (k, p, c, sc) = Some (sc, (k, p, c, sc))).
  set (q := mk_queue (drop (Z.to_nat SIZEOF_SCHEDULE) (temp_of d)) (member d 8 2) (s_used d) (member d 12 1)
    PARAM_QUEUE_TYPE_SET (member d 34 2) (member d 36 4)).
  assert (Hq : temp_queue (sc_temp sc) = Some q).
  { rewrite Ht. unfold temp_queue.
    rewrite (temp_get d 8 2 ltac:(members) : get_member (temp_of d) OFF_BUFFER_SIZE 2 = _).
    rewrite (temp_get d 10 2 ltac:(members) : get_member (temp_of d) OFF_USED 2 = _).
    rewrite (temp_get d 12 1 ltac:(members) : get_member (temp_of d) OFF_VERSION 1 = _).
    rewrite (temp_get d 34 2 ltac:(members) : get_member (temp_of d) OFF_LAST_NODE 2 = _).
    by rewrite (temp_get d 36 4 ltac:(members) : get_member (temp_of d) OFF_LAST_TIMESTAMP 4 = _). }
  run (lift_opt_run_gen _ _ (k, p, c, sc) Hq).
  run (temp_member_run (k, p) c sc d 54 2 Ht ltac:(members)).
  assert (Hmem : drop (Z.to_nat SIZEOF_SCHEDULE) (temp_of d) = s_mem d).
  { unfold temp_of, framed, s_mem. change (Z.to_nat SIZEOF_SCHEDULE) with 64%nat.
    rewrite drop_app_ge, length_replicate, drop_app_le by (rewrite ?length_replicate; lia). done. }
  destruct (push_runs _ _ _ Hpush q (member d 54 2) (k, p) Hinv) as (rc & q' & [k' p'] & Hr & Hinv' & Hrc & Hblk).
  { subst q. cbn [q_used q_mem]. rewrite Hmem. unfold s_mem. rewrite length_app, length_drop. lia. }
  { subst q. cbn [q_used q_mem q_version]. rewrite Hmem. exact HQ. }
  run (scN_run _ _ _ _ c sc Hr).
  run (temp_edit_run (k', p') c sc d 34 2 (q_last_node q') Ht ltac:(members)).
  set (d1 := edit 34 2 (q_last_node q') d).
  assert (Hl1 : length d1 = length d) by (apply length_edit; members).
  run (temp_edit_run (k', p') c (set_sc_temp (temp_of d1) sc) d1 36 4 (q_last_timestamp q') eq_refl ltac:(members)).
  exists rc, (q_last_node q'), (q_last_timestamp q'), k', p'. split; [done|]. split; [done|]. split; [done|].
  destruct Hst as [Hm Hlay]. split; [split; [|done]; cbn in Hm |- *; cbn in Hblk; by rewrite Hblk|].
  assert (Hpo : push_of d = (member d 54 2, q_version q, take (Z.to_nat (q_used q)) (q_mem q))) by (subst q; cbn [q_version q_used q_mem];
    rewrite Hmem; unfold s_mem; rewrite take_app_le by (rewrite length_drop; lia); done).
  rewrite Hpo. eapply act_push; [exact Hr|done|constructor].
Qed.

(** [write_schedule] puts the loaded structure back. *)
Lemma write_schedule_run k p c sc l done_ off o todo d :
  store p l → spare l → objects 0 l = done_ ++ (off, o) :: todo → o_type o = OBJ_TYPE_SCHEDULE →
  Inv (k, p) → sc_temp sc = temp_of d → length d = length (o_data o) → bytes_ok d →
  ∃ p' l', write_schedule vmem_schedule off (Z.of_nat (length (o_data o))) (k, p, c, sc) = Some ((), (k, p', c, sc)) ∧
    Inv (k, p') ∧ store p' l' ∧ spare l' ∧ objects 0 l' = done_ ++ (off, remake o d) :: todo ∧ others_kept vmem_schedule p p'.
Proof.
  intros Hst Hsp Hobj Hty Hinv Ht Hl Hb. unfold write_schedule.
  run (eq_refl : gets snd (k, p, c, sc) = Some (sc, (k, p, c, sc))). rewrite Ht.
  destruct (store_rewrite p l done_ off o todo d (drop 8 (temp_of d)) Hst Hsp Hobj Hl Hb (temp_data d))
    as (p' & l' & R & K & Hst' & Hsp' & Hobj'). rewrite Hty, Hl in R.
  exists p', l'. split; [by apply scP_run|]. split; [by apply (push_kept _ _ _ Hpush k p)|].
  split; [done|]. split; [done|]. done.
Qed.

(** [mark_failed] *)
Lemma mark_failed_run p l done_ off o todo ts :
  store p l → spare l → objects 0 l = done_ ++ (off, o) :: todo → (52 ≤ length (o_data o))%nat →
  ∃ p' l', mark_failed vmem_schedule off ts p = Some ((), p') ∧ others_kept vmem_schedule p p' ∧ store p' l' ∧ spare l' ∧
    objects 0 l' = done_ ++ (off, remake o (failed_at ts (o_data o))) :: todo.
Proof.
  intros Hst Hsp Hobj Hl. unfold mark_failed.
  destruct (store_edit p l done_ off o todo 56 1 0xAA Hst Hsp Hobj ltac:(members)) as (p1 & l1 & R1 & K1 & Hst1 & Hsp1 & Hobj1).
  change (le_bytes 1 0xAA) with [0xAA] in R1. run R1.
  destruct (store_edit p1 l1 done_ off _ todo 40 8 ts Hst1 Hsp1 Hobj1) as (p2 & l2 & R2 & K2 & Hst2 & Hsp2 & Hobj2).
  { cbn [o_data]. members. }
  exists p2, l2. split; [exact R2|]. split; [exact (PreOrder_Transitive _ _ _ K1 K2)|]. done.
Qed.

Lemma length_pushed node stamp d : (52 ≤ length d)%nat → length (pushed node stamp d) = length d.
Proof. intros Hl. unfold pushed. rewrite !length_edit; [done|members|members]. Qed.

Lemma member_pushed node stamp d (off n : nat) :
  (52 ≤ length d)%nat → (40 ≤ off)%nat → has_member off n d → member (pushed node stamp d) off n = member d off n.
Proof. intros Hl Ho Hm. 
  unfold pushed. assert (Hm' : has_member off n (edit 34 2 node d)) by (apply has_member_edit; [members|done]).
  rewrite (member_edit_ne _ 36 4), (member_edit_ne _ 34 2); [done|members|done|lia|members|done|lia].
Qed.

Lemma pushed_bytes_ok node stamp d : (52 ≤ length d)%nat → bytes_ok d → bytes_ok (pushed node stamp d).
Proof. intros Hl Hb. unfold pushed. apply edit_bytes_ok; [members|]. apply edit_bytes_ok; [members|done]. Qed.

Lemma retry_time d ts : 0 ≤ s_time d ≤ ts → ts < 2 ^ 63 →
  double_to_u64 (to_double (to_double (s_time d) + 5 * NSEC)) = Some (to_double (to_double (s_time d) + 5 * NSEC)).
Proof.
  intros Ht Hts. unfold double_to_u64. rewrite bool_decide_true; [done|].
  pose proof (to_double_error (s_time d) ltac:(lia)) as E1. unfold NSEC.
  pose proof (to_double_error (to_double (s_time d) + 5 * 1000000000) ltac:(lia)) as E2. lia.
Qed.

(** A schedule that is due. *)
Lemma run_schedule_run k p c sc l done_ off o todo ts :
  store p l → spare l → objects 0 l = done_ ++ (off, o) :: todo → Inv (k, p) → sched_ok Q o →
  o_type o = OBJ_TYPE_SCHEDULE → due ts (o_data o) → in_time ts (o_data o) → ts < 2 ^ 63 →
  ∃ k' p' sc' l' o', run_schedule vmem_schedule clock_sec fuel off ts (k, p, c, sc) = Some ((), (k', p', c, sc')) ∧
    Inv (k', p') ∧ store p' l' ∧ spare l' ∧ objects 0 l' = done_ ++ (off, o') :: todo ∧ updated answers ts o o' ∧
    sc_lock sc' = sc_lock sc ∧ activity answers [push_of (o_data o)] (k, p) (k', p').
Proof.
  intros Hst Hsp Hobj Hinv Hok Hty Hdue Hit Hts. pose proof (sk_length _ _ Hok) as Hlen. set (d := o_data o) in *.
  assert (Hin : (off, o) ∈ objects 0 l) by (rewrite Hobj; apply elem_of_app; right; apply list_elem_of_here).
  unfold run_schedule. run (scP_run _ p _ p k c sc (length_store p l off o Hst Hin)). rewrite bool_decide_false by lia.
  run (load_schedule_run k p c sc l off o Hst Hin (proj2 Hlen)).
  destruct (push_temp_run k p c (set_sc_temp (temp_of d) sc) l d Hst Hinv eq_refl Hlen (sk_used _ _ Hok) (sk_push _ _ Hok) (sk_bytes _ _ Hok))
    as (rc & node & stamp & k1 & p1 & Hr & Hrc & Hinv1 & Hst1 & Hact). run Hr. clear Hr.
  change (set_sc_temp ?a (set_sc_temp ?b sc)) with (set_sc_temp a sc). set (d1 := pushed node stamp d).
  assert (Hl1 : length d1 = length d) by (apply length_pushed; lia).
  assert (Hb1 : bytes_ok d1) by (apply pushed_bytes_ok; [lia|apply Hok]).
  assert (Hret : member d1 58 1 = s_retries d) by (apply member_pushed; [lia|lia|members]).
  assert (Htime : member d1 40 8 = s_time d) by (apply member_pushed; [lia|lia|members]).
  assert (Hmid : ∃ p2 l2 o2 d2, (if bool_decide (rc = 0) then
       sc_edit (set_member OFF_COMPLETED 1 0x55);; sc_edit (set_member OFF_TIME 8 ts)
     else
       retries ← temp_member OFF_RETRIES 1;
       if bool_decide (0 < retries) then
         time ← temp_member OFF_TIME 8;
         time' ← lift_opt (double_to_u64 (to_double (to_double time + 5 * NSEC)));
         sc_edit (set_member OFF_TIME 8 time');;
         sc_edit (set_member OFF_RETRIES 1 (retries - 1))
       else scP (mark_failed vmem_schedule off ts)) (k1, p1, c, set_sc_temp (temp_of d1) sc) =
      Some ((), (k1, p2, c, set_sc_temp (temp_of d2) sc)) ∧
    Inv (k1, p2) ∧ store p2 l2 ∧ spare l2 ∧ objects 0 l2 = done_ ++ (off, o2) :: todo ∧ o_type o2 = o_type o ∧
    length (o_data o2) = length d ∧ length d2 = length d ∧ bytes_ok d2 ∧ updated answers ts o (remake o d2) ∧
    others_kept vmem_schedule p1 p2).
  { destruct (decide (rc = 0)) as [->|Hne].
    - rewrite (bool_decide_true (0 = 0)) by done.
      run (temp_edit_run (k1, p1) c (set_sc_temp (temp_of d1) sc) d1 56 1 0x55 eq_refl ltac:(members)).
      set (d2 := edit 56 1 0x55 d1). assert (Hl2 : length d2 = length d) by (rewrite <- Hl1; apply length_edit; members).
      assert (Hb2 : bytes_ok d2) by (apply edit_bytes_ok; [members|done]).
      exists p1, l, o, (edit 40 8 ts d2).
      split; [exact (temp_edit_run (k1, p1) c (set_sc_temp (temp_of d2) sc) d2 40 8 ts eq_refl ltac:(members))|].
      do 6 (split; [done|]). split; [rewrite length_edit; [done|members]|]. split; [apply edit_bytes_ok; [members|done]|].
      split; [by apply up_done|done].
    - rewrite (bool_decide_false (rc = 0)) by done.
      run (temp_member_run (k1, p1) c (set_sc_temp (temp_of d1) sc) d1 58 1 eq_refl ltac:(members)). rewrite Hret.
      destruct (decide (0 < s_retries d)) as [Hpos|Hzero].
      + rewrite (bool_decide_true (0 < s_retries d)) by done.
        run (temp_member_run (k1, p1) c (set_sc_temp (temp_of d1) sc) d1 40 8 eq_refl ltac:(members)).
        pose proof (member_bound d 40 8 (sk_bytes _ _ Hok) ltac:(members)) as Htb.
        change (member d1 40 8) with (s_time d1). change (member d1 40 8) with (s_time d1) in Htime.
        run (lift_opt_run_gen _ _ (k1, p1, c, set_sc_temp (temp_of d1) sc)
          (retry_time d1 ts ltac:(rewrite Htime; destruct Hdue; unfold s_time in *; lia) Hts)).
        set (t' := to_double (to_double (s_time d1) + 5 * NSEC)).
        run (temp_edit_run (k1, p1) c (set_sc_temp (temp_of d1) sc) d1 40 8 t' eq_refl ltac:(members)).
        set (d2 := edit 40 8 t' d1). assert (Hl2 : length d2 = length d) by (rewrite <- Hl1; apply length_edit; members).
        assert (Hb2 : bytes_ok d2) by (apply edit_bytes_ok; [members|done]).
        exists p1, l, o, (edit 58 1 (s_retries d - 1) d2).
        split; [exact (temp_edit_run (k1, p1) c (set_sc_temp (temp_of d2) sc) d2 58 1 _ eq_refl ltac:(members))|].
        do 6 (split; [done|]). split; [rewrite length_edit; [done|members]|]. split; [apply edit_bytes_ok; [members|done]|].
        rewrite <- Hret. split; [by apply (up_retry answers ts o rc node stamp)|done].
      + rewrite (bool_decide_false (0 < s_retries d)) by done.
        pose proof (member_bound d 58 1 (sk_bytes _ _ Hok) ltac:(members)) as Hrb. fold (s_retries d) in Hrb.
        destruct (mark_failed_run p1 l done_ off o todo ts Hst1 Hsp Hobj ltac:(fold d; lia)) as (p2 & l2 & R2 & K2 & Hst2 & Hsp2 & Hobj2).
        exists p2, l2, (remake o (failed_at ts d)), d1. split; [by apply scP_run|].
        split; [by apply (push_kept _ _ _ Hpush k1 p1)|]. do 4 (split; [done|]).
        split; [cbn [remake o_data failed_at]; unfold failed_at; rewrite !length_edit; [done|members|members]|].
        split; [done|]. split; [done|]. split; [apply (up_exhausted answers ts o rc node stamp); [done..|fold d; lia]|done]. }
  destruct Hmid as (p2 & l2 & o2 & d2 & R2 & Hinv2 & Hst2 & Hsp2 & Hobj2 & Hty2 & Hlo2 & Hld2 & Hb2 & Hup & K2). run R2.
  destruct (write_schedule_run k1 p2 c (set_sc_temp (temp_of d2) sc) l2 done_ off o2 todo d2 Hst2 Hsp2 Hobj2
    ltac:(congruence) Hinv2 eq_refl ltac:(congruence) Hb2) as (p3 & l3 & R3 & Hinv3 & Hst3 & Hsp3 & Hobj3 & K3).
  rewrite Hlo2 in R3. exists k1, p3, (set_sc_temp (temp_of d2) sc), l3, (remake o d2).
  split; [exact R3|]. split; [done|]. split; [done|]. split; [done|].
  split; [by rewrite Hobj3; unfold remake; rewrite Hty2|]. split; [done|]. split; [done|].
  eapply activity_end; [|exact K3]. eapply activity_end; [exact Hact|exact K2].
Qed.

Lemma update_one_run k p c sc l done_ off o todo ts :
  store p l → spare l → objects 0 l = done_ ++ (off, o) :: todo → Inv (k, p) → sched_ok Q o →
  o_type o = OBJ_TYPE_SCHEDULE → ts < 2 ^ 63 →
  ∃ k' p' sc' l' o', update_one vmem_schedule clock_sec fuel off ts (k, p, c, sc) = Some ((), (k', p', c, sc')) ∧
    Inv (k', p') ∧ store p' l' ∧ spare l' ∧ objects 0 l' = done_ ++ (off, o') :: todo ∧ updated answers ts o o' ∧
    sc_lock sc' = sc_lock sc ∧ activity answers (pushes_at ts [(off, o)]) (k, p) (k', p').
Proof.
  intros Hst Hsp Hobj Hinv Hok Hty Hts. pose proof (sk_length _ _ Hok) as Hlen.
  assert (Hin : (off, o) ∈ objects 0 l) by (rewrite Hobj; apply elem_of_app; right; apply list_elem_of_here).
  unfold update_one. run (scP_run _ p _ p k c sc (stored_member_run p l off o 56 1 Hst Hin ltac:(members))).
  run (scP_run _ p _ p k c sc (stored_member_run p l off o 40 8 Hst Hin ltac:(members))).
  fold (s_completed (o_data o)) (s_time (o_data o)).
  assert (Hsame : updated answers ts o o → ¬ runs_at ts o → ∃ k' p' sc' l' o', (mret () : ST (stack * pstate * cmd_t * sched_t) ()) (k, p, c, sc) = Some ((), (k', p', c, sc')) ∧
    Inv (k', p') ∧ store p' l' ∧ spare l' ∧ objects 0 l' = done_ ++ (off, o') :: todo ∧ updated answers ts o o' ∧
    sc_lock sc' = sc_lock sc ∧ activity answers (pushes_at ts [(off, o)]) (k, p) (k', p')).
  { intros Hup Hnr. exists k, p, sc, l, o. do 7 (split; [done|]). rewrite pushes_at_idle by done. constructor. }
  destruct (decide (s_completed (o_data o) = 0)) as [Hc|Hc].
  - rewrite bool_decide_true by done. destruct (decide (s_time (o_data o) ≤ ts)) as [Ht|Ht].
    + rewrite (bool_decide_true (_ ≤ ts)) by done.
      run (scP_run _ p _ p k c sc (stored_member_run p l off o 48 4 Hst Hin ltac:(members))). fold (s_latency (o_data o)).
      destruct (decide (in_time ts (o_data o))) as [Hit|Hit].
      * assert ((bool_decide (to_double (ts - s_time (o_data o)) ≤ s_latency (o_data o) * NSEC)
          || bool_decide (s_latency (o_data o) = 0))%bool = true) as ->.
        { apply orb_true_iff. destruct Hit; [left|right]; by apply bool_decide_eq_true. }
        rewrite pushes_at_run by done. by apply (run_schedule_run k p c sc l).
      * assert ((bool_decide (to_double (ts - s_time (o_data o)) ≤ s_latency (o_data o) * NSEC)
          || bool_decide (s_latency (o_data o) = 0))%bool = false) as ->.
        { apply orb_false_iff. split; apply bool_decide_eq_false; intros Hx; apply Hit; [by left|by right]. }
        destruct (mark_failed_run p l done_ off o todo ts Hst Hsp Hobj ltac:(lia)) as (p' & l' & R & K & Hst' & Hsp' & Hobj').
        exists k, p', sc, l', (remake o (failed_at ts (o_data o))). split; [by apply scP_run|].
        split; [by apply (push_kept _ _ _ Hpush k p)|]. split; [done|]. split; [done|]. split; [done|].
        split; [by apply up_late|]. split; [done|]. rewrite pushes_at_idle; [by apply activity_store|]. by intros (_ & _ & ?).
    + rewrite (bool_decide_false (_ ≤ ts)) by done. apply Hsame; [apply up_waiting; [done..|lia]|]. by intros (_ & [_ ?] & _).
  - rewrite bool_decide_false by done. case_bool_decide as Ho.
    + destruct (store_edit p l done_ off o todo 57 1 0 Hst Hsp Hobj ltac:(members)) as (p' & l' & R & K & Hst' & Hsp' & Hobj').
      exists k, p', sc, l', (remake o (edit 57 1 0 (o_data o))). split; [by apply scP_run|].
      split; [by apply (push_kept _ _ _ Hpush k p)|]. split; [done|]. split; [done|]. split; [done|].
      split; [by apply up_old|]. split; [done|]. rewrite pushes_at_idle; [by apply activity_store|]. by intros (_ & [? _] & _).
    + apply Hsame; [by apply up_keep|]. by intros (_ & [? _] & _).
Qed.

Definition same_place (answers' : Z → Prop) ts (x y : Z * obj) : Prop := x.1 = y.1 ∧ updated answers' ts x.2 y.2.

Lemma updated_type ts o o' : updated answers ts o o' → o_type o' = o_type o.
Proof. by destruct 1. Qed.

Lemma update_loop_run ts todo : ∀ k p c sc l done_,
  store p l → spare l → objects 0 l = done_ ++ todo → Inv (k, p) →
  Forall (λ x, o_type x.2 = OBJ_TYPE_SCHEDULE → sched_ok Q x.2) todo → ts < 2 ^ 63 →
  ∃ k' p' sc' l' todo', update_loop vmem_schedule clock_sec fuel (length (of_type OBJ_TYPE_SCHEDULE todo))
      (Z.of_nat (length (of_type OBJ_TYPE_SCHEDULE done_))) ts (k, p, c, sc) = Some ((), (k', p', c, sc')) ∧
    Inv (k', p') ∧ store p' l' ∧ spare l' ∧ objects 0 l' = done_ ++ todo' ∧ Forall2 (same_place answers ts) todo todo' ∧
    sc_lock sc' = sc_lock sc ∧ activity answers (pushes_at ts todo) (k, p) (k', p').
Proof.
  induction todo as [|[off o] todo IH]; intros k p c sc l done_ Hst Hsp Hobj Hinv Hok Hts.
  { exists k, p, sc, l, []. do 7 (split; [done|]). constructor. }
  rewrite pushes_at_cons. apply Forall_cons in Hok as [Ho Hok]. destruct (decide (o_type o = OBJ_TYPE_SCHEDULE)) as [Hty|Hty].
  - rewrite of_type_cons_eq by done. cbn [length update_loop].
    assert (Hnth : find_nth OBJ_TYPE_SCHEDULE (Z.of_nat (length (of_type OBJ_TYPE_SCHEDULE done_))) p = Some (off, p)).
    { rewrite (find_nth_run p l _ _ Hst), Hobj. unfold of_type. rewrite filter_app, lookup_app_r by done. rewrite Nat.sub_diag.
      rewrite filter_cons_True by done. done. }
    run (scP_run _ p _ p k c sc Hnth).
    assert (Hoff : 0 ≤ off).
    { destruct (objects_middle 0 l _ _ _ _ Hobj) as (? & ? & _ & _ & -> & _). lia. }
    rewrite bool_decide_true by done. cbn [when].
    destruct (update_one_run k p c sc l done_ off o todo ts Hst Hsp Hobj Hinv (Ho Hty) Hty Hts)
      as (k1 & p1 & sc1 & l1 & o1 & R1 & Hinv1 & Hst1 & Hsp1 & Hobj1 & Hup & Hlk & Ha1). run R1.
    destruct (IH k1 p1 c sc1 l1 (done_ ++ [(off, o1)]) Hst1 Hsp1) as (k' & p' & sc' & l' & todo' & R & Hinv' & Hst' & Hsp' & Hobj' & Hf & Hlk' & Ha');
      [by rewrite Hobj1, <- app_assoc|done|done|done|].
    exists k', p', sc', l', ((off, o1) :: todo'). split.
    { rewrite <- R. f_equal. unfold of_type. rewrite filter_app, length_app, filter_cons_True; [simpl; lia|].
      cbn [snd]. by rewrite (updated_type _ _ _ Hup). }
    split; [done|]. split; [done|]. split; [done|]. split; [by rewrite Hobj', <- app_assoc|].
    split; [constructor; [by split|done]|]. split; [congruence|by eapply activity_app].
  - rewrite of_type_cons_ne by done.
    destruct (IH k p c sc l (done_ ++ [(off, o)]) Hst Hsp) as (k' & p' & sc' & l' & todo' & R & Hinv' & Hst' & Hsp' & Hobj' & Hf & Hlk' & Ha');
      [by rewrite Hobj, <- app_assoc|done|done|done|].
    exists k', p', sc', l', ((off, o) :: todo'). split.
    { rewrite <- R. f_equal. unfold of_type. rewrite filter_app, length_app, (filter_cons_False _ (off, o)); [simpl; lia|done]. }
    split; [done|]. split; [done|]. split; [done|]. split; [by rewrite Hobj', <- app_assoc|].
    split; [constructor; [split; [done|by apply up_other]|done]|]. split; [done|].
    rewrite pushes_at_idle; [exact Ha'|]. by intros [? _].
Qed.

Lemma delete_inactive_run k n : ∀ p l,
  store p l → spare l → Inv (k, p) → Forall (λ x, o_type x.2 = OBJ_TYPE_SCHEDULE → (52 ≤ length (o_data x.2))%nat) (objects 0 l) →
  (length (filter (λ x, inactive x.2) (objects 0 l)) ≤ n)%nat →
  ∃ p' l', delete_inactive vmem_schedule n p = Some ((), p') ∧ Inv (k, p') ∧ store p' l' ∧ spare l' ∧
    objects 0 l' = filter (λ x, ¬ inactive x.2) (objects 0 l) ∧ others_kept vmem_schedule p p'.
Proof.
  induction n as [|n IH]; intros p l Hst Hsp Hinv Hlen Hn.
  { exists p, l. split; [done|]. split; [done|]. split; [done|]. split; [done|]. split; [|done].
    apply Nat.le_0_r, length_zero_iff_nil in Hn. symmetry. apply filter_keep, Forall_forall. intros x Hx Hi.
    exact (filter_nil_not_elem_of _ _ _ Hn Hi Hx). }
  cbn [delete_inactive].
  assert (Hcb : reads_as (find_inactive_scancb vmem_schedule) (stop_at inactive) (objects 0 l) p).
  { intros off o x Hin. unfold find_inactive_scancb, stop_at. run (type_store p l off o Hst Hin).
    destruct (decide (o_type o = OBJ_TYPE_SCHEDULE)) as [Hty|Hty].
    - rewrite (bool_decide_false (o_type o ≠ _)) by congruence. run (length_store p l off o Hst Hin).
      rewrite bool_decide_false by lia. rewrite Forall_forall in Hlen. specialize (Hlen _ Hin Hty). simpl in Hlen.
      run (stored_member_run p l off o 57 1 Hst Hin ltac:(members)). fold (s_active (o_data o)).
      unfold mret, ST_ret. do 3 f_equal. assert (Heq : bool_decide (s_active (o_data o) = 0) = bool_decide (inactive o)); [|by rewrite Heq].
      apply bool_decide_ext. unfold inactive. split; [by split|by intros [_ ?]].
    - rewrite (bool_decide_true (o_type o ≠ _)) by done. rewrite (bool_decide_false (inactive o)) by (by intros [? _]). done. }
  run (scan_store p l _ (stop_at inactive) () Hst Hcb).
  destruct (scan_stop_at inactive (objects 0 l)) as [[-> Hall]|(A & off & o & B & Hobj & HA & Hi & ->)].
  - exists p, l. split; [done|]. split; [done|]. split; [done|]. split; [done|]. split; [|done]. symmetry. by apply filter_keep.
  - assert (Hoff : 0 ≤ off). { destruct (objects_middle 0 l _ _ _ _ Hobj) as (? & ? & _ & _ & -> & _). lia. }
    rewrite bool_decide_false by lia. destruct (store_remove p l A off o B Hst Hsp Hobj) as (p1 & l1 & R1 & K1 & Hst1 & Hsp1 & Hobj1).
    run R1. destruct (IH p1 l1 Hst1 Hsp1) as (p' & l' & R & Hinv' & Hst' & Hsp' & Hobj' & K').
    + by apply (push_kept _ _ _ Hpush k p).
    + rewrite Hobj1. rewrite Hobj, !Forall_app, Forall_cons in Hlen. rewrite Forall_app. tauto.
    + rewrite Hobj1. rewrite Hobj, filter_app, length_app, filter_cons_True in Hn by done. simpl in Hn.
      rewrite filter_app, length_app. lia.
    + exists p', l'. split; [exact R|]. split; [done|]. split; [done|]. split; [done|]. split; [|exact (PreOrder_Transitive _ _ _ K1 K')]. rewrite Hobj', Hobj1, Hobj.
      rewrite !filter_app, (filter_cons_False _ (off, o)); [done|]. simpl. by intros Hn'.
Qed.

(** A stored schedule stays well formed: the members an update changes are neither the
    length of the queue nor the queue nor the node. *)
Definition same_push d d' : Prop :=
  length d' = length d ∧ s_used d' = s_used d ∧ s_version d' = s_version d ∧ s_host d' = s_host d ∧ drop 56 d' = drop 56 d ∧ (bytes_ok d → bytes_ok d').

Lemma same_push_edit d d' (off n : nat) v :
  (56 ≤ length d)%nat → same_push d d' → (34 ≤ off)%nat → (off + n ≤ 54 ∨ 56 ≤ off)%nat → (off - 8 + n ≤ 56)%nat →
  same_push d (edit off n v d').
Proof.
  intros Hl (L & Hu & Hv & Hh & Hd & Hb) H1' H2' H3'. assert (Hm : has_member off n d') by (unfold has_member; lia).
  split; [by rewrite (length_edit d' off n v Hm)|]. split; [unfold s_used in *; rewrite member_edit_ne; [done|done|members|lia]|].
  split; [unfold s_version in *; rewrite member_edit_ne; [done|done|members|lia]|].
  split; [unfold s_host in *; rewrite member_edit_ne; [done|done|members|lia]|].
  split; [|intros ?; apply edit_bytes_ok; [done|by apply Hb]].
  rewrite <- Hd. unfold edit, patch. rewrite length_le_bytes, app_assoc, drop_app_ge by
    (rewrite length_app, length_take, length_le_bytes; lia).
  rewrite length_app, length_take, length_le_bytes, drop_drop. f_equal. lia.
Qed.

Lemma updated_ok ts o o' : sched_ok Q o → updated answers ts o o' → sched_ok Q o'.
Proof.
  intros Hok Hup. pose proof Hok as [Hl Hu Hb HQ]. assert (H56 : (56 ≤ length (o_data o))%nat) by lia.
  assert (Hre : ∀ d, same_push (o_data o) d → sched_ok Q (remake o d)).
  { intros d (L & Hu' & Hv & Hh & Hd & Hb'). split; cbn [remake o_data]; [lia|lia|by apply Hb'|]. unfold s_mem. by rewrite Hh, Hv, Hd, Hu', L. }
  assert (H0' : same_push (o_data o) (o_data o)) by done.
  destruct Hup; [done|done|..|done|]; apply Hre;
    unfold done_at, failed_at, retry_later, pushed; repeat (apply same_push_edit; [done| |lia|lia|lia]); done.
Qed.

(** The store of a scheduler that is not being updated. *)
Record sched_inv (x : stack * pstate) l : Prop := {
  si_inv : Inv x;
  si_store : store x.2 l;
  si_spare : spare l;
  si_scheds : Forall (λ y, o_type y.2 = OBJ_TYPE_SCHEDULE → sched_ok Q y.2) (objects 0 l);
}.

(** Both times the update asks for the lock it gets it. *)
Definition lock_free (lk : lock_t) : Prop :=
  (si_lock_take 1000 lk).1 = 0 ∧ (si_lock_take 0 (si_lock_give (si_lock_take 1000 lk).2)).1 = 0.
Definition lock_after (lk : lock_t) : lock_t :=
  si_lock_give (si_lock_take 0 (si_lock_give (si_lock_take 1000 lk).2)).2.

Lemma sc_take_run t x c sc rc lk :
  si_lock_take t (sc_lock sc) = (rc, lk) → sc_take t (x, c, sc) = Some (rc, (x, c, set_sc_lock lk sc)).
Proof. intros Ht. unfold sc_take. apply on_snd_run. by rewrite Ht. Qed.

Lemma server_update_run ts x c sc l :
  sched_inv x l → lock_free (sc_lock sc) → ts < 2 ^ 63 →
  ∃ x' sc' objs l', param_schedule_server_update vmem_schedule clock_sec fuel ts (x, c, sc) = Some (0, (x', c, sc')) ∧
    Forall2 (same_place answers ts) (objects 0 l) objs ∧ objects 0 l' = filter (λ y, ¬ inactive y.2) objs ∧
    sched_inv x' l' ∧ sc_lock sc' = lock_after (sc_lock sc) ∧ activity answers (pushes_at ts (objects 0 l)) x x'.
Proof.
  intros [Hinv Hst Hsp Hok] [Hl1 Hl2] Hts. destruct x as [k p]. unfold param_schedule_server_update, lock_after.
  destruct (si_lock_take 1000 (sc_lock sc)) as [rc lk1] eqn:Ht1. simpl in Hl1, Hl2 |- *. subst rc.
  run (sc_take_run 1000 (k, p) c sc 0 lk1 Ht1). rewrite (bool_decide_false (0 ≠ 0)) by congruence.
  run (scP_run _ p _ p k c (set_sc_lock lk1 sc) (get_number_run p l OBJ_TYPE_SCHEDULE Hst)). rewrite Nat2Z.id.
  destruct (update_loop_run ts (objects 0 l) k p c (set_sc_lock lk1 sc) l [] Hst Hsp eq_refl Hinv Hok Hts)
    as (k1 & p1 & sc1 & l1 & objs1 & R1 & Hinv1 & Hst1 & Hsp1 & Hobj1 & Hup & Hlk1 & Ha1).
  run R1. cbn [app] in Hobj1. subst objs1.
  assert (Hg : sc_give (k1, p1, c, sc1) = Some ((), (k1, p1, c, set_sc_lock (si_lock_give lk1) sc1))).
  { unfold sc_give. apply on_snd_run. unfold modify. rewrite Hlk1. done. }
  run Hg. clear Hg. destruct (si_lock_take 0 (si_lock_give lk1)) as [rc lk2] eqn:Ht2. simpl in Hl2 |- *. subst rc.
  run (sc_take_run 0 (k1, p1) c (set_sc_lock (si_lock_give lk1) sc1) 0 lk2 Ht2). rewrite (bool_decide_false (0 ≠ 0)) by congruence.
  assert (Hok1 : Forall (λ y, o_type y.2 = OBJ_TYPE_SCHEDULE → sched_ok Q y.2) (objects 0 l1)).
  { clear - Hok Hup. revert Hok. induction Hup as [|[off o] [off' o'] objs objs' [_ Hup] _ IH]; [done|].
    rewrite !Forall_cons. intros [Ho Hok]. split; [|by apply IH]. intros Hty. simpl in *.
    apply (updated_ok ts o o'); [apply Ho; by rewrite <- (updated_type ts o o' Hup)|done]. }
  assert (Hcount : length (of_type OBJ_TYPE_SCHEDULE (objects 0 l)) = length (of_type OBJ_TYPE_SCHEDULE (objects 0 l1))).
  { clear - Hup. induction Hup as [|[off o] [off' o'] objs objs' [_ Hup] _ IH]; [done|]. simpl in Hup.
    pose proof (updated_type ts o o' Hup) as Hty. unfold of_type in *. rewrite !filter_cons. simpl. rewrite Hty.
    destruct (decide (o_type o = OBJ_TYPE_SCHEDULE)); [simpl; by rewrite IH|exact IH]. }
  destruct (delete_inactive_run k1 (length (of_type OBJ_TYPE_SCHEDULE (objects 0 l))) p1 l1 Hst1 Hsp1 Hinv1)
    as (p' & l' & R & Hinv' & Hst' & Hsp' & Hobj' & K').
  - eapply Forall_impl; [exact Hok1|]. intros y Hy Hty. pose proof (sk_length _ _ (Hy Hty)). lia.
  - rewrite Hcount. clear. induction (objects 0 l1) as [|[off o] objs IH]; [done|]. unfold of_type in *. rewrite !filter_cons. simpl.
    destruct (decide (inactive o)) as [[Hty Ha]|Hi].
    + rewrite decide_True by done. simpl. lia.
    + destruct (decide (o_type o = OBJ_TYPE_SCHEDULE)); simpl; lia.
  - run (scP_run _ p1 _ p' k1 c (set_sc_lock lk2 (set_sc_lock (si_lock_give lk1) sc1)) R).
    eexists (k1, p'), _, (objects 0 l1), l'. split; [reflexivity|]. split; [exact Hup|]. split; [exact Hobj'|].
    split; [|split; [reflexivity|by eapply activity_end]]. split; [done|done|done|]. rewrite Hobj'.
    apply Forall_forall. intros y [_ Hy]%list_elem_of_filter. rewrite Forall_forall in Hok1. exact (Hok1 y Hy).
Qed.

(** What becomes of one schedule. *)
Lemma server_update_at ts x c sc l off o :
  sched_inv x l → lock_free (sc_lock sc) → ts < 2 ^ 63 → (off, o) ∈ objects 0 l →
  ∃ x' sc' l' o', param_schedule_server_update vmem_schedule clock_sec fuel ts (x, c, sc) = Some (0, (x', c, sc')) ∧
    sched_inv x' l' ∧ sc_lock sc' = lock_after (sc_lock sc) ∧ updated answers ts o o' ∧
    (¬ inactive o' → (off, o') ∈ objects 0 l') ∧ activity answers (pushes_at ts (objects 0 l)) x x'.
Proof.
  intros Hi Hlk Hts Hin. destruct (server_update_run ts x c sc l Hi Hlk Hts) as (x' & sc' & objs & l' & R & Hf & Hobj & Hi' & Hlk' & Hact).
  apply list_elem_of_lookup in Hin as [i Hin]. destruct (Forall2_lookup_l _ _ _ _ _ Hf Hin) as ([off' o'] & Hin' & Hoff & Hup).
  simpl in Hoff, Hup. subst off'. exists x', sc', l', o'. split; [done|]. split; [done|]. split; [done|]. split; [done|]. split; [|done].
  intros Hi''. rewrite Hobj. apply list_elem_of_filter. split; [done|by eapply list_elem_of_lookup_2].
Qed.

(** A sequence of updates. *)
Fixpoint updates (tss : list Z) : ST (stack * pstate * cmd_t * sched_t) () :=
  match tss with
  | [] => mret ()
  | ts :: tss' => param_schedule_server_update vmem_schedule clock_sec fuel ts;; updates tss'
  end.

(** The lock is free whenever an update starts. *)
Definition lock_ready (ready : lock_t → Prop) : Prop := ∀ lk, ready lk → lock_free lk ∧ ready (lock_after lk).

(** A property of a schedule every update keeps lasts. *)
Lemma updates_keep (ready : lock_t → Prop) (P : obj → Prop) off : ∀ tss x c sc l o,
  lock_ready ready → sched_inv x l → ready (sc_lock sc) → (off, o) ∈ objects 0 l → P o →
  Forall (λ ts, ts < 2 ^ 63 ∧ ∀ o1 o2, sched_ok Q o1 → o_type o1 = OBJ_TYPE_SCHEDULE → P o1 → updated answers ts o1 o2 → P o2 ∧ ¬ inactive o2) tss →
  o_type o = OBJ_TYPE_SCHEDULE →
  ∃ x' sc' l' o', updates tss (x, c, sc) = Some ((), (x', c, sc')) ∧ sched_inv x' l' ∧ ready (sc_lock sc') ∧
    (off, o') ∈ objects 0 l' ∧ P o' ∧ o_type o' = OBJ_TYPE_SCHEDULE.
Proof.
  induction tss as [|ts tss IH]; intros x c sc l o Hlk Hi Hr Hin HP Htss Hty.
  { by exists x, sc, l, o. }
  apply Forall_cons in Htss as [[Hts Hstep] Htss]. destruct (Hlk _ Hr) as [Hfree Hr'].
  destruct (server_update_at ts x c sc l off o Hi Hfree Hts Hin) as (x1 & sc1 & l1 & o1 & R1 & Hi1 & Hlk1 & Hup & Hin1 & _).
  assert (Hok : sched_ok Q o). { pose proof (si_scheds _ _ Hi) as Hs. rewrite Forall_forall in Hs. by apply (Hs _ Hin). }
  destruct (Hstep o o1 Hok Hty HP Hup) as [HP1 Hact].
  destruct (IH x1 c sc1 l1 o1 Hlk Hi1 ltac:(by rewrite Hlk1) (Hin1 Hact) HP1 Htss ltac:(by rewrite (updated_type _ _ _ Hup)))
    as (x' & sc' & l' & o' & R & Hrest).
  exists x', sc', l', o'. split; [|done]. cbn [updates]. by run R1.
Qed.
End Run.

(** ** Theorems *)

Section Theorems.
Context `{Env} `{ParamEnv} `{SiLock}.


(** A schedule that is out of retries is never given up: as long as its node does not
    acknowledge, every later update leaves it uncompleted, since the mark "failed" is
    overwritten by the structure loaded before. *)
Theorem exhausted_schedule_never_ends (vmem_schedule : vmem_t) (clock_sec : stack * pstate → Z) (fuel : nat)
    (Q : Z → Z → Z → list Z → Prop) (Inv : stack * pstate → Prop) (ready : lock_t → Prop) (x : stack * pstate) (c : cmd_t) (sc : sched_t)
    (l : list seg) (off : Z) (o : obj) (tss : list Z) :
  pushes vmem_schedule clock_sec fuel Q Inv (λ rc, rc ≠ 0) → lock_ready ready → ready (sc_lock sc) →
  sched_inv vmem_schedule Q Inv x l → (off, o) ∈ objects 0 l → o_type o = OBJ_TYPE_SCHEDULE →
  s_completed (o_data o) = 0 → s_active (o_data o) ≠ 0 → s_latency (o_data o) = 0 → s_retries (o_data o) = 0 →
  Forall (λ ts, s_time (o_data o) ≤ ts < 2 ^ 63) tss →
  ∃ x' sc' l' o', updates vmem_schedule clock_sec fuel tss (x, c, sc) = Some ((), (x', c, sc')) ∧
    sched_inv vmem_schedule Q Inv x' l' ∧ (off, o') ∈ objects 0 l' ∧
    s_completed (o_data o') = 0 ∧ s_retries (o_data o') = 0 ∧ s_time (o_data o') = s_time (o_data o).
Proof.
  intros Hpush Hlk Hr Hi Hin Hty Hc Hact Hlat Hret Htss.
  set (P := λ o', s_completed (o_data o') = 0 ∧ s_active (o_data o') ≠ 0 ∧ s_latency (o_data o') = 0 ∧
    s_retries (o_data o') = 0 ∧ s_time (o_data o') = s_time (o_data o)).
  destruct (updates_keep vmem_schedule clock_sec fuel Q Inv _ Hpush ready P off tss x c sc l o Hlk Hi Hr Hin)
    as (x' & sc' & l' & o' & R & Hi' & _ & Hin' & (P1 & P2 & P3 & P4 & P5) & _).
  - done.
  - eapply Forall_impl; [exact Htss|]. intros ts Hts. cbv beta in Hts. split; [lia|].
    intros o1 o2 Hok Hty1 (P1 & P2 & P3 & P4 & P5) Hup. pose proof (sk_length _ _ Hok) as Hlen.
    assert (Hsame : ∃ node stamp, o2 = remake o1 (pushed node stamp (o_data o1))).
    { inversion Hup; subst; unfold due, in_time in *; first [lia|eauto|tauto]. }
    destruct Hsame as (node & stamp & ->). unfold P, inactive. cbn [remake o_data o_type].
    unfold s_completed, s_active, s_latency, s_retries, s_time in *.
    rewrite !member_pushed by first [lia|members]. tauto.
  - done.
  - exists x', sc', l', o'. done.
Qed.
End Theorems.

(** ** Examples *)

Section Examples.
#[local] Existing Instance store_env.

#[local] Instance flag_lock : SiLock := {|
  lock_t := bool;
  si_lock_init := false;
  si_lock_take := λ _ b, if b then (-1, true) else (0, true);
  si_lock_give := λ _, false;
|}.

(** A schedule for node 5 at time 1000, without a limit on the latency and out of retries: it
    sets the first element of parameter 1 to 7. *)
Definition sched_queue : list Z := [0x00; 0x01; 0x07].
Definition sched_data : list Z :=
  edit 54 2 5 (edit 57 1 0x55 (edit 40 8 1000 (edit 12 1 2 (edit 10 2 3 (replicate 56 0))))) ++ sched_queue.
Definition sched_obj : obj := mk_obj OBJ_TYPE_SCHEDULE sched_data (xor_sum sched_data).
Definition sched_layout : list seg :=
  Obj (mk_obj OBJ_TYPE_SCHEDULER_META [0; 0] 0) :: Obj sched_obj :: map Gap (replicate 10 0xFF).
Definition sched_vmem : vmem_t :=
  mk_vmem VMEM_TYPE_RAM (vmem_ram_driver_t 0) 0x1000 (Z.of_nat (length (store_bytes sched_layout))) [] 0 0.
Definition sched_pstate : pstate :=
  mk_pstate {[0%nat := store_bytes sched_layout]} [sched_vmem] ∅ 0 None ∅ ∅ [] (mk_app [] 0 0 0).
Definition sched_start : sched_t := mk_sched 0 [] [] false.
Definition cmd_start : cmd_t := mk_cmd 0 [] false.

Definition flag_free (b : @lock_t flag_lock) : Prop := b = false.

Lemma flag_ready : lock_ready flag_free.
Proof. intros lk Hlk. unfold flag_free in Hlk. subst lk. done. Qed.

(** The queue of the example, in version 2 for node 5. *)
Definition sched_push (host version used : Z) (mem : list Z) : Prop :=
  host = 5 ∧ version = 2 ∧ used = 3 ∧ mem = sched_queue ++ replicate 197 0.

Lemma sched_layout_ok (k : stack) (Inv : stack * pstate → Prop) :
  Inv (k, sched_pstate) → sched_inv sched_vmem sched_push Inv (k, sched_pstate) sched_layout.
Proof.
  intros Hi. assert (Hbytes : bytes_ok sched_data) by (apply (bool_decide_unpack (bytes_ok _)); vm_compute; exact I).
  split.
  - done.
  - split; [vm_compute; reflexivity|]. split.
    + apply Forall_cons. split; [split; [done| |done|done]; repeat (apply Forall_cons; split; [done|]); by apply Forall_nil|].
      apply Forall_cons. split; [|apply Forall_map, Forall_replicate; done].
      split; [done|done|by vm_compute|by apply xor_sum_u8].
    + done.
    + by vm_compute.
  - exists (Obj (mk_obj OBJ_TYPE_SCHEDULER_META [0; 0] 0) :: Obj sched_obj :: map Gap (replicate 9 0xFF)), 0xFF. done.
  - apply Forall_cons. split; [done|]. apply Forall_cons. split; [|exact (Forall_nil_2 _)]. intros _. split.
    + vm_compute. lia.
    + by vm_compute.
    + done.
    + split_and!; vm_compute; reflexivity.
Qed.

(** A node that acknowledges every push to it. *)
Definition ack_bytes : list Z := [PARAM_PUSH_RESPONSE; PARAM_FLAG_END].
Definition ack_env : Env := {|
  env_can := λ _ _ _ _, CSP_ERR_NONE;
  yield := deliver ack_bytes;
  Stack.run_callback := λ _ _, mret ();
  rand_r := λ x, x;
  hmac_locals := @hmac_locals env_example;
|}.

(** The sender keeps no copies of parameters. *)
Definition acked (x : stack * pstate) : Prop :=
  @client_ready ack_env [0%nat; 1%nat] x.1 ∧ ps_params x.2 = ∅ ∧ ps_static x.2 = 0%nat ∧ ps_head x.2 = None.

Lemma acked_start : acked (client_example, sched_pstate).
Proof.
  split; [|done]. split.
  - destruct net_example_ok as [[] _]. by split.
  - apply client_example_conns.
  - apply client_example_conns.
  - vm_compute. discriminate.
  - vm_compute. reflexivity.
Qed.

Lemma deliver_alone d `{Env} : yield = deliver d → others_alone.
Proof.
  intros Hy s. rewrite Hy. unfold deliver. destruct (liftC csp_buffer_get s) as [[[b|] s1]|] eqn:Hget; [|done..].
  assert (∃ core, s1 = set_k_core core s) as [core ->].
  { unfold liftC in Hget. destruct (csp_buffer_get (k_core s)) as [[r core]|]; [|done]. injection Hget as _ <-. by exists core. }
  destruct (k_conns s !! Z.to_nat (k_last_given s)) as [x|]; [|done].
  destruct (kget_packet b (set_k_core core s)) as [[p s0]|]; [|done]. destruct (data_write _ 0 d) as [p'|]; [|done].
  destruct (kput_packet b p' (set_k_core core s)) as [[[] s2]|] eqn:Hput; [|done].
  assert (Hs2 : k_conns s2 = k_conns s ∧ k_conn_dfl_so s2 = k_conn_dfl_so s).
  { unfold kput_packet, liftC in Hput. destruct (put_packet b p' _) as [[[] core']|]; [|done]. by injection Hput as <-. }
  destruct Hs2 as [Hc Hd]. cbn. rewrite Hc, length_insert. split; [done|]. split; [done|].
  intros c Hne. by rewrite list_lookup_insert_ne.
Qed.

(** The queue applied to a list without parameters. *)
Lemma sched_queue_applies q t :
  sched_push 5 (q_version q) (q_used q) (q_mem q) → ps_params t = ∅ → ps_static t = 0%nat → ps_head t = None →
  ∃ code q', param_queue_apply_q q 0 5 t = Some ((code, q'), t).
Proof.
  intros (_ & Hv & Hu & Hm) Hp Hs Hh. destruct q as [mem bsz used ver ty ln lt], t as [ram vm pars st hd tss fs evs app].
  cbn in Hv, Hu, Hm, Hp, Hs, Hh. subst. eexists _, _. vm_compute. reflexivity.
Qed.

Lemma acked_pushes v clock : @pushes ack_env store_env v clock 1 sched_push acked (λ rc, rc = 0).
Proof.
  split.
  - intros q host [k p] (Hcr & Hp & Hs & Hh) _ HQ. pose proof HQ as (-> & Hv & Hu & Hm).
    destruct (sched_queue_applies q p HQ Hp Hs Hh) as (code & q' & Happ).
    destruct (@push_acknowledged ack_env store_env clock 1 [0%nat; 1%nat] ack_bytes) with (s := k) (t := p) (q := q) (host := 5)
      (code := code) (q' := q') (t' := p) as (k' & Hr & Hcr').
    + apply deliver_answers; [by repeat constructor|vm_compute; congruence|reflexivity].
    + reflexivity.
    + by apply (deliver_alone ack_bytes).
    + exact Hcr.
    + rewrite Hu, Hm, length_app, length_replicate. cbn. lia.
    + rewrite Hu. vm_compute. congruence.
    + rewrite Hm. apply Forall_app. split; [by repeat constructor|by apply Forall_replicate].
    + vm_compute. congruence.
    + lia.
    + exact Happ.
    + exists 0, q', (k', p). done.
  - intros k p p' (Hcr & Hp & Hs & Hh) [K _]. split; [done|]. cbn in *. destruct K. split_and!; congruence.
Qed.


(** A stack without buffers: nothing can be pushed. *)
Definition no_buffers (x : stack * pstate) : Prop := fq_items (c_free (k_core x.1)) = [].
Definition empty_stack : stack := port_example (core_with []) [].

Lemma unsent_pushes v clock fuel : @pushes env_example store_env v clock fuel sched_push no_buffers (λ rc, rc ≠ 0).
Proof.
  split; [|done]. intros q host [k p] Hx Hu (_ & _ & Hq & _). cbn [param_push_queue].
  rewrite bool_decide_false by lia.
  assert (Hget : ∃ core, csp_buffer_get (k_core k) = Some (None, core) ∧ c_free core = c_free (k_core k)).
  { unfold no_buffers in Hx. cbn [fst] in Hx. unfold csp_buffer_get, buffer_get_with, csp_queue_dequeue. st_red. rewrite Hx.
    eexists. split; [reflexivity|]. done. }
  destruct Hget as (core & Hget & Hfree).
  exists (-2), q, (set_k_core core k, p). run (on_fst_run _ k _ _ p (liftC_run csp_buffer_get k None core Hget)).
  split; [done|]. split; [|done]. unfold no_buffers in *. simpl in *. by rewrite Hfree.
Qed.

Lemma exhausted_schedule_never_ends_witness :
  ∃ x' sc' l' o', @updates env_example store_env flag_lock sched_vmem (λ _, 0) 0 [1000; 2000; 3000] (empty_stack, sched_pstate, cmd_start, sched_start) =
      Some ((), (x', cmd_start, sc')) ∧
    @store pstate (vmem_ops sched_vmem) (vmem_laws sched_vmem) x'.2 l' ∧ (10, o') ∈ objects 0 l' ∧
    s_completed (o_data o') = 0.
Proof.
  destruct (@exhausted_schedule_never_ends env_example store_env flag_lock sched_vmem (λ _, 0) 0 sched_push no_buffers flag_free
    (empty_stack, sched_pstate) cmd_start sched_start sched_layout 10 sched_obj [1000; 2000; 3000])
    as (x' & sc' & l' & o' & R & Hi & Hin & H1 & _).
  - apply unsent_pushes.
  - apply flag_ready.
  - reflexivity.
  - apply sched_layout_ok. reflexivity.
  - right. left.
  - reflexivity.
  - vm_compute. reflexivity.
  - vm_compute. discriminate.
  - vm_compute. reflexivity.
  - vm_compute. reflexivity.
  - repeat (apply Forall_cons; split; [vm_compute; split; [discriminate|reflexivity]|]). by apply Forall_nil.
  - exists x', sc', l', o'. exact (conj R (conj (si_store _ _ _ _ _ Hi) (conj Hin H1))).
Defined.
End Examples.
