(* ===== verification/ClientPrint.v ===== *)
(** * What the schedule and command clients print

    The callbacks of [scheduler/param_scheduler_client.c] and
    [commands/param_commands_client.c] with their output, which [ScheduleClient.v] leaves
    out: a response of the expected type is shown and released. *)

From Stdlib Require Import String.
From S2P Require Import Queue Types State Buffer Stack Net Rdp Conn Io Mpack Text ParamState Param ParamList ParamString ParamSer QueuePrint ParamServer Commands Scheduler Prelude.
#[local] Open Scope Z_scope.

(** [be16toh(response->data16[i])], [be32toh(response->data32[i])], [response->data[i]] *)
Definition get_be16 (p : csp_packet_t) (i : Z) : option Z := be_val <$> data_read p (2 * i) 2.
Definition get_be32 (p : csp_packet_t) (i : Z) : option Z := be_val <$> data_read p (4 * i) 4.
Definition get_byte (p : csp_packet_t) (i : Z) : option Z := be_val <$> data_read p i 1.

Definition UINT16_MAX : Z := 65535.

(** The enumerator a byte stands for; the code compares it with the first two only. *)
Definition queue_type_of_byte (b : Z) : param_queue_type_e :=
  if bool_decide (b = 0) then PARAM_QUEUE_TYPE_GET
  else if bool_decide (b = 1) then PARAM_QUEUE_TYPE_SET else PARAM_QUEUE_TYPE_EMPTY.

Section Callbacks.
Context `{Env} `{ParamEnv}.

(** The frame of every callback: another type of response is not released. *)
Definition verbose_callback (type : Z) (verbose : bool) (show : csp_packet_t → ST pstate ()) (response : nat)
    : ST (stack * pstate) () :=
  p ← on_fst (kget_packet response);
  first ← lift_opt (get_byte p 0);
  if bool_decide (first ≠ type) then mret () else
  when verbose (on_snd (show p));;
  on_fst (kfree (Some response)).

Definition print (text : list Z) : ST pstate () := modify (with_event (ev_print text)).
Definition print_opt (text : option (list Z)) : ST pstate () := t ← lift_opt text; print t.

(** ** Schedules *)

Definition show_schedule_added (p : csp_packet_t) : ST pstate () :=
  id ← lift_opt (get_be16 p 1);
  print (if bool_decide (id = UINT16_MAX) then c_string "Scheduling queue failed:" ++ [10]
         else c_string "Queue scheduled with id " ++ decimal id ++ c_string ":" ++ [10]).

Definition show_command_scheduled (p : csp_packet_t) : ST pstate () :=
  id ← lift_opt (get_be16 p 1);
  print (if bool_decide (id = UINT16_MAX) then c_string "Scheduling command failed:" ++ [10]
         else c_string "Command scheduled with id " ++ decimal id ++ c_string ": ").

(** The queue on the stack has no name yet: [name] is what its array happens to hold. *)
Definition show_schedule (name : list Z) (version : Z) (p : csp_packet_t) : ST pstate () :=
  id ← lift_opt (get_be16 p 1);
  if bool_decide (id = UINT16_MAX) then print (c_string "Requested schedule id not found." ++ [10]) else
  buffer ← lift_opt (data_read p 10 (CSP_BUFFER_SIZE - 10));
  type ← lift_opt (get_byte p 8);
  let q := param_queue_init buffer (u16 (pk_length p - 10)) (u16 (pk_length p - 10)) (queue_type_of_byte type) version indeterminate in
  time ← lift_opt (get_be32 p 1);
  completed ← lift_opt (get_byte p 9);
  print (c_string "Showing queue id " ++ decimal id ++ c_string " " ++
    (if bool_decide (completed = 0) then c_string "scheduled at server time: " ++ decimal time ++ [10]
     else if bool_decide (completed = 0x55) then c_string "completed at server time: " ++ decimal time ++ [10]
     else if bool_decide (completed = 0xAA) then c_string "exceeded latency buffer at server time: " ++ decimal time ++ [10]
     else []));;
  param_queue_print q name;;
  mret ().

(** Entry [i] of the list: eight bytes, whatever the length of the response. *)
Definition schedule_line (p : csp_packet_t) (i : Z) : option (list Z) :=
  let idx := 4 + i * 8 in
  time ← get_be32 p (idx / 4);
  type ← get_byte p (idx + 7);
  id ← get_be16 p (idx / 2 + 2);
  state ← get_byte p (idx + 6);
  Some ((if bool_decide (type = 1) then c_string "[SET] Queue id " ++ decimal id ++ c_string ", " else []) ++
        (if bool_decide (state = 0x55) then c_string "completed at server time: " ++ decimal time ++ c_string "." ++ [10]
         else if bool_decide (state = 0) then c_string "scheduled at server time: " ++ decimal time ++ [10]
         else c_string "exceeded latency buffer at server time: " ++ decimal time ++ [10])).

Fixpoint lines (line : Z → option (list Z)) (n : nat) (i : Z) : option (list Z) :=
  match n with
  | O => Some []
  | S n' => l ← line i; r ← lines line n' (i + 1); Some (l ++ r)
  end.

Definition show_schedule_list (p : csp_packet_t) : ST pstate () :=
  num ← lift_opt (get_be16 p 1);
  if bool_decide (num = 0) then print (c_string "No scheduled queues" ++ [10]) else
  ls ← lift_opt (lines (schedule_line p) (Z.to_nat num) 0);
  print (c_string "Received list of " ++ decimal num ++ c_string " queues:" ++ [10] ++ ls).

Definition show_schedule_removed (p : csp_packet_t) : ST pstate () :=
  id ← lift_opt (get_be16 p 1);
  if bool_decide (id = UINT16_MAX ∧ pk_length p = 6) then
    n ← lift_opt (get_be16 p 2);
    print (c_string "All " ++ decimal n ++ c_string " scheduled parameter queues removed." ++ [10])
  else print (c_string "Schedule id " ++ decimal id ++ c_string " removed." ++ [10]).

Definition show_scheduler_reset (p : csp_packet_t) : ST pstate () :=
  id ← lift_opt (get_be16 p 1);
  print (c_string "Scheduler server reset: last id = " ++ decimal id ++ [10]).

(** ** Commands *)

Definition show_command_added (p : csp_packet_t) : ST pstate () :=
  id ← lift_opt (get_be16 p 1);
  print (if bool_decide (id = UINT16_MAX) then c_string "Adding command failed" ++ [10] else c_string "Command added:" ++ [10]).

(** Entry [i]: fourteen bytes; a name without a terminator is read past its array. *)
Definition command_line (p : csp_packet_t) (i : Z) : option (list Z) :=
  name ← data_read p (4 + i * 14) 14;
  n ← c_strlen name;
  Some (pad_left 32 2 (decimal (i + 1)) ++ c_string " - " ++ take (Z.to_nat n) name ++ [10]).

Definition show_command_list (p : csp_packet_t) : ST pstate () :=
  num ← lift_opt (get_be16 p 1);
  if bool_decide (num = 0) then print (c_string "No saved commands" ++ [10]) else
  ls ← lift_opt (lines (command_line p) (Z.to_nat num) 0);
  print (c_string "Received list of " ++ decimal num ++ c_string " saved command names:" ++ [10] ++ ls).

(** The command is copied into the static queue, whose buffer has [PARAM_SERVER_MTU] bytes. *)
Definition show_command (version : Z) (p : csp_packet_t) : ST pstate (option (param_queue_t * list Z)) :=
  name_length ← lift_opt (get_byte p 2);
  if bool_decide (13 < name_length) then print (c_string "Error: Requested command name not found." ++ [10]);; mret None else
  let size := pk_length p - (4 + name_length) in
  data ← lift_opt (data_read p (4 + name_length) size);
  queue_buf ← lift_opt (mem_write (replicate (Z.to_nat PARAM_SERVER_MTU) 0) 0 data);
  type ← lift_opt (get_byte p 3);
  name ← lift_opt (data_read p 4 name_length);
  let q := mk_queue queue_buf PARAM_SERVER_MTU (u16 size) version (queue_type_of_byte type) indeterminate indeterminate in
  q ← param_queue_print q (until_nul name);
  mret (Some (q, name)).

(** The nine characters of [RMALLCMDS] mark the answer to removing everything. *)
Definition show_command_removed (p : csp_packet_t) : ST pstate () :=
  response_data ← lift_opt (get_be16 p 1);
  all ← (if bool_decide (pk_length p = 14)
         then name ← lift_opt (data_read p 4 9); mret (bool_decide (name = c_string "RMALLCMDS")) else mret false);
  if all : bool then print (c_string "Deleted " ++ decimal response_data ++ c_string " commands" ++ [10])
  else when (bool_decide (response_data < 14))
    (name ← lift_opt (data_read p 4 response_data);
     print (c_string "Deleted command named " ++ until_nul name ++ [10])).

Definition param_transaction_callback_show (name : list Z) (version : Z) (verbose : bool) :=
  verbose_callback PARAM_SCHEDULE_SHOW_RESPONSE verbose (show_schedule name version).
Definition param_transaction_callback_list (verbose : bool) :=
  verbose_callback PARAM_SCHEDULE_LIST_RESPONSE verbose show_schedule_list.
Definition param_transaction_callback_rm (verbose : bool) :=
  verbose_callback PARAM_SCHEDULE_RM_RESPONSE verbose show_schedule_removed.
Definition param_transaction_callback_reset (verbose : bool) :=
  verbose_callback PARAM_SCHEDULE_RESET_RESPONSE verbose show_scheduler_reset.
Definition param_transaction_callback_add (verbose : bool) :=
  verbose_callback PARAM_SCHEDULE_ADD_RESPONSE verbose show_schedule_added.
Definition param_transaction_callback_schedule_cmd (verbose : bool) :=
  verbose_callback PARAM_SCHEDULE_ADD_RESPONSE verbose show_command_scheduled.
Definition command_callback_add (verbose : bool) := verbose_callback PARAM_COMMAND_ADD_RESPONSE verbose show_command_added.
Definition command_callback_list (verbose : bool) := verbose_callback PARAM_COMMAND_LIST_RESPONSE verbose show_command_list.
Definition command_callback_rm (verbose : bool) := verbose_callback PARAM_COMMAND_RM_RESPONSE verbose show_command_removed.
Definition param_transaction_callback_download (version : Z) (verbose : bool) :=
  verbose_callback PARAM_COMMAND_SHOW_RESPONSE verbose (λ p, show_command version p;; mret ()).
End Callbacks.

(** ** Responses that are not checked *)

Section Unchecked.
Context `{ParamEnv}.
Implicit Types (p : csp_packet_t) (s : pstate).

Lemma lines_None line n : ∀ i j, i ≤ j < i + Z.of_nat n → line j = None → lines line n i = None.
Proof.
  induction n as [|n IH]; intros i j Hj Hn; [lia|]. cbn [lines]. destruct (decide (i = j)) as [->|Hne]; [by rewrite Hn|].
  destruct (line i); [|done]. monad. by rewrite (IH (i + 1) j ltac:(lia) Hn).
Qed.

Lemma data_read_None p off len : packet_ok p → 0 ≤ len → CSP_BUFFER_SIZE < off + len → data_read p off len = None.
Proof.
  intros Hp Hl Ho. unfold data_read. destruct (mem_read _ _ _) as [bs|] eqn:Hr; [|done]. exfalso.
  apply mem_read_Some in Hr as (_ & _ & Hr & _). rewrite (po_mem _ Hp) in Hr. sizes. lia.
Qed.

(** The number of entries is taken from the response: 147 names or 256 schedules do not fit
    into any packet and are read past its end. *)
Lemma lists_read_past_packet p num s : packet_ok p → get_be16 p 1 = Some num →
  (147 ≤ num → show_command_list p s = None) ∧ (256 ≤ num → show_schedule_list p s = None).
Proof.
  intros Hp Hnum. split; intros Hn.
  - unfold show_command_list. run (lift_opt_run_gen _ _ s Hnum). rewrite bool_decide_false by lia.
    rewrite (lines_None _ _ 0 146); [done|lia|]. unfold command_line.
    by rewrite (data_read_None p (4 + 146 * 14) 14 Hp ltac:(lia) ltac:(sizes; lia)).
  - unfold show_schedule_list. run (lift_opt_run_gen _ _ s Hnum). rewrite bool_decide_false by lia.
    rewrite (lines_None _ _ 0 255); [done|lia|]. unfold schedule_line.
    change (4 + 255 * 8) with 2044. destruct (get_be32 p (2044 / 4)); [|done]. monad. unfold get_byte.
    by rewrite (data_read_None p (2044 + 7) 1 Hp ltac:(lia) ltac:(sizes; lia)).
Qed.

(** A command of more than [PARAM_SERVER_MTU] bytes is copied past the end of the queue's
    buffer. *)
Lemma show_command_overflows p name_length version s : packet_ok p →
  get_byte p 2 = Some name_length → 0 ≤ name_length ≤ 13 → PARAM_SERVER_MTU < pk_length p - (4 + name_length) →
  show_command version p s = None.
Proof.
  intros Hp Hn Hr Hl. unfold show_command. run (lift_opt_run_gen _ _ s Hn). rewrite bool_decide_false by lia.
  destruct (data_read p (4 + name_length) (pk_length p - (4 + name_length))) as [data|] eqn:Hd; [|done].
  run (lift_opt_run_gen _ _ s (eq_refl (Some data))). apply mem_read_length in Hd.
  destruct (mem_write (replicate (Z.to_nat PARAM_SERVER_MTU) 0) 0 data) as [m|] eqn:Hw; [|done].
  apply mem_write_Some in Hw as (_ & Hw & _). rewrite length_replicate in Hw. unfold PARAM_SERVER_MTU in *. lia.
Qed.
End Unchecked.
