(* ===== verification/ScheduleAdd.v ===== *)
(** * Adding a schedule

    What [schedule_add] stores for a request, and that nothing else in the store changes
    but the last identifier. *)

From S2P Require Import Queue Types State Buffer Stack Port Net Rdp Conn Io Mpack ParamState Param ParamList ParamSer ParamServer ParamServed ParamClient Objstore ObjMeta Commands Scheduler SchedulerShown Prelude.

(** The time of a request in seconds: relative to the clock when it is small. *)
Definition start_time (sec now : Z) : Z :=
  if bool_decide (to_double (sec * NSEC) ≤ 1000000000 * NSEC) then u64 (sec * NSEC + now) else sec * NSEC.

(** The header [schedule_add] builds, on data of the size of the object. *)
Definition added_header (id time latency host used q_type : Z) (d : list Z) : list Z :=
  edit 36 4 0 (edit 12 1 2 (edit 10 2 used (edit 13 1 q_type (edit 8 2 used
    (edit 54 2 host (edit 48 4 latency (edit 40 8 time (edit 52 2 id
      (edit 58 1 5 (edit 56 1 0 (edit 57 1 0x55 d))))))))))).

(** Members of a header of full size. *)
Lemma has_member_56 (off n : nat) (d : list Z) :
  (56 ≤ length d)%nat → (8 ≤ off)%nat → (off - 8 + n ≤ 56)%nat → has_member off n d.
Proof. unfold has_member. lia. Qed.

Lemma edit_56 (off n : nat) v (d : list Z) :
  (56 ≤ length d)%nat → (8 ≤ off)%nat → (off - 8 + n ≤ 56)%nat → (56 ≤ length (edit off n v d))%nat.
Proof. intros Hl H1 H2. rewrite length_edit; [done|by apply has_member_56]. Qed.

Ltac header := apply has_member_56; [repeat (apply edit_56; [|lia|lia]); lia|lia|lia].
Ltac header_member :=
  repeat match goal with
  | |- context [member (edit ?o ?n ?v ?d) ?o' ?n'] =>
      first [constr_eq o o'; rewrite (member_edit_eq d o n v) by header
            |rewrite (member_edit_ne d o n v o' n') by first [header|lia]]
  end.

Section Zero.
Lemma temp_zero (n : nat) : (n ≤ 256)%nat → temp_of (replicate n 0) = replicate SIZEOF_SCHEDULE_BUF 0.
Proof.
  intros Hn. unfold temp_of, framed. rewrite length_replicate, <- !replicate_add. unfold SIZEOF_SCHEDULE_BUF. f_equal. lia.
Qed.

(** The queue copied behind the header. *)
Lemma temp_queue_write (d bs : list Z) :
  (56 + length bs)%nat = length d → mem_write (temp_of d) SIZEOF_SCHEDULE bs = Some (temp_of (take 56 d ++ bs)).
Proof.
  intros Hl. unfold temp_of, framed.
  replace (replicate 8 0 ++ d ++ replicate (256 - length d) 0) with ((replicate 8 0 ++ take 56 d) ++ drop 56 d ++ replicate (256 - length d) 0)
    by (rewrite <- app_assoc, (app_assoc (take 56 d)), take_drop; done).
  pose proof (mem_write_mid (replicate 8 0 ++ take 56 d) (drop 56 d) bs (replicate (256 - length d) 0) ltac:(rewrite length_drop; lia)) as Hw.
  rewrite length_app, length_replicate, length_take in Hw. replace (Z.of_nat (8 + 56 `min` length d)) with SIZEOF_SCHEDULE in Hw
    by (unfold SIZEOF_SCHEDULE; lia). rewrite Hw. f_equal. rewrite <- !app_assoc. do 3 f_equal.
  rewrite length_app, length_take. replace (56 `min` length d + length bs)%nat with (length d) by lia. done.
Qed.

(** Members of the header are not changed by the queue. *)
Lemma member_header (d bs : list Z) (off n : nat) :
  has_member off n d → (off - 8 + n ≤ 56)%nat → member (take 56 d ++ bs) off n = member d off n.
Proof.
  intros [H1 H2] H3. unfold member. f_equal. rewrite drop_app_le by (rewrite length_take; lia).
  rewrite take_app_le by (rewrite length_drop, length_take; lia). rewrite skipn_firstn_comm, take_take. f_equal. lia.
Qed.
End Zero.

Section Add.
Context `{Env} `{ParamEnv} `{SiLock}.
Context (vmem_schedule vmem_commands : vmem_t) (clock_now : stack * pstate → Z * Z).

#[local] Instance add_ops : VmemOps pstate := vmem_ops vmem_schedule.
#[local] Instance add_laws : VmemLaws pstate := vmem_laws vmem_schedule.

Implicit Types (k : stack) (p : pstate) (c : cmd_t) (sc : sched_t) (d : list Z) (l : list seg) (o : obj).

(** The next identifier, saved as the last one. *)
Lemma new_id_run k p c sc l A off o B :
  store p l → spare l → objects 0 l = A ++ (off, o) :: B → of_type OBJ_TYPE_SCHEDULER_META A = [] →
  o_type o = OBJ_TYPE_SCHEDULER_META → length (o_data o) = 2%nat →
  let id := next_id (le_val (o_data o)) in
  ∃ p' l' sc', schedule_new_id vmem_schedule (k, p, c, sc) = Some (Some id, (k, p', c, sc')) ∧
    others_kept vmem_schedule p p' ∧ store p' l' ∧ spare l' ∧ objects 0 l' = A ++ (off, remake o (le_bytes 2 id)) :: B ∧
    (∀ n, first_room n 0 0 l' = first_room n 0 0 l) ∧ sc_temp sc' = sc_temp sc ∧ sc_lock sc' = sc_lock sc.
Proof.
  intros Hst Hsp Hobj HA Hty Hl id. rewrite <- Hty in HA. unfold schedule_new_id.
  destruct (meta_next_run p l A off o B (sc_last_id sc) Hst Hsp Hobj HA Hl)
    as (Hfind & Hoff & [rc Hrd] & p' & l' & Hsave & K & Hst' & Hsp' & Hobj' & Hroom). fold id in Hsave, Hobj'. rewrite Hty in *.
  run (scP_run _ p _ p k c sc Hfind). rewrite bool_decide_false by lia.
  run (eq_refl : gets snd (k, p, c, sc) = Some (sc, (k, p, c, sc))). run (scP_run _ p _ p k c sc Hrd).
  fold id. run (on_snd_run (modify (set_sc_last_id id)) sc () (set_sc_last_id id sc) (k, p, c) eq_refl).
  run (scP_run _ p _ p' k c (set_sc_last_id id sc) Hsave).
  exists p', l', (set_sc_last_id id sc). split; [reflexivity|]. split; [exact K|]. split; [exact Hst'|]. split; [exact Hsp'|].
  unfold remake. rewrite Hty. done.
Qed.

(** The header of [temp_schedule] one after the other. *)
Lemma edit_step {B} k p c sc d (off n : nat) v (rest : () → ST (stack * pstate * cmd_t * sched_t) B) :
  sc_temp sc = temp_of d → has_member off n d →
  (sc_edit (set_member (Z.of_nat off) n v) ≫= rest) (k, p, c, sc) =
    rest () (k, p, c, set_sc_temp (temp_of (edit off n v d)) sc).
Proof. intros Ht Hm. by rewrite (ST_bind_run _ _ _ _ _ (temp_edit_run (k, p) c sc d off n v Ht Hm)). Qed.

Section Request.
Context (b : nat) (pk : csp_packet_t) (k : stack) (now : Z * Z) (hb sb lb queue : list Z).
Context (Hpk : kget_packet b k = Some (pk, k)).
Context (Hhost : data_read pk 2 2 = Some hb) (Hsec : data_read pk 4 4 = Some sb) (Hlat : data_read pk 8 4 = Some lb).
Context (Hnow : ∀ x, clock_now x = now) (Hnow_s : is_u32 now.1) (Hnow_ns : is_u32 now.2).

Let nsec : Z := to_double (now.1 * NSEC + now.2).

Lemma nsec_run p c sc : csp_clock_get_nsec clock_now (k, p, c, sc) = Some (nsec, (k, p, c, sc)).
Proof.
  unfold csp_clock_get_nsec. run (eq_refl : get (k, p, c, sc) = Some ((k, p, c, sc), (k, p, c, sc))).
  rewrite Hnow. destruct now as [s ns]. apply lift_opt_run_gen. unfold nsec. cbn [fst snd] in *. unfold double_to_u64.
  rewrite bool_decide_true; [done|]. unfold is_u32 in *.
  pose proof (to_double_error (s * NSEC + ns)) as He. unfold NSEC in *. lia.
Qed.

Lemma fill_header_run p c sc d id :
  sc_temp sc = temp_of d → (56 ≤ length d)%nat →
  fill_header clock_now b id (k, p, c, sc) = Some ((), (k, p, c, set_sc_temp (temp_of
    (edit 54 2 (be_val hb) (edit 48 4 (be_val lb) (edit 40 8 (start_time (be_val sb) nsec) (edit 52 2 id d))))) sc)).
Proof.
  intros Ht Hl. unfold fill_header.
  assert (Hbe32 : ∀ i bs, data_read pk (4 * i) 4 = Some bs → data_be32 b i k = Some (be_val bs, k)).
  { intros i bs Hr. unfold data_be32. run Hpk. run (lift_opt_run_gen _ _ k Hr). done. }
  assert (Hbe16 : data_be16 b 1 k = Some (be_val hb, k)).
  { unfold data_be16. run Hpk. run (lift_opt_run_gen _ _ k (Hhost : data_read pk (2 * 1) 2 = _)). done. }
  assert (Hk : ∀ {A} (m : K A) (a : A) p c sc, m k = Some (a, k) → scK m (k, p, c, sc) = Some (a, (k, p, c, sc))).
  { intros A m a p0 c0 sc0 Hm. apply scN_run. by apply on_fst_run. }
  change OFF_ID with (Z.of_nat 52). rewrite (edit_step k p c sc d 52 2 id _ Ht) by header.
  set (d1 := edit 52 2 id d). assert (L1 : length d1 = length d) by (apply length_edit; header).
  run (nsec_run p c (set_sc_temp (temp_of d1) sc)).
  run (Hk _ _ _ p c (set_sc_temp (temp_of d1) sc) (Hbe32 1 sb Hsec)). fold (start_time (be_val sb) nsec).
  change OFF_TIME with (Z.of_nat 40). rewrite (edit_step k p c (set_sc_temp (temp_of d1) sc) d1 40 8 _ _ eq_refl) by header.
  set (d2 := edit 40 8 _ d1). assert (L2 : length d2 = length d) by (rewrite <- L1; apply length_edit; header).
  run (Hk _ _ _ p c (set_sc_temp (temp_of d2) sc) (Hbe32 2 lb Hlat)).
  change OFF_LATENCY with (Z.of_nat 48). rewrite (edit_step k p c (set_sc_temp (temp_of d2) sc) d2 48 4 _ _ eq_refl) by header.
  set (d3 := edit 48 4 _ d2). assert (L3 : length d3 = length d) by (rewrite <- L2; apply length_edit; header).
  run (Hk _ _ _ p c (set_sc_temp (temp_of d3) sc) Hbe16).
  exact (temp_edit_run (k, p) c (set_sc_temp (temp_of d3) sc) d3 54 2 (be_val hb) eq_refl ltac:(header)).
Qed.
End Request.

Lemma fill_queue_run k p c sc d (queue rest : list Z) q_type :
  sc_temp sc = temp_of d → length d = (56 + length queue)%nat → (length queue ≤ 200)%nat →
  fill_queue (Z.of_nat (length queue)) q_type (queue ++ rest) (k, p, c, sc) = Some ((), (k, p, c, set_sc_temp (temp_of
    (take 56 (edit 36 4 0 (edit 12 1 2 (edit 10 2 (Z.of_nat (length queue)) (edit 13 1 q_type
      (edit 8 2 (Z.of_nat (length queue)) d))))) ++ queue)) sc)).
Proof.
  intros Ht Hl Hq. unfold fill_queue. set (u := Z.of_nat (length queue)).
  set (d1 := edit 8 2 u d). assert (L1 : length d1 = length d) by (apply length_edit; header).
  set (d2 := edit 13 1 q_type d1). assert (L2 : length d2 = length d) by (rewrite <- L1; apply length_edit; header).
  set (d3 := edit 10 2 u d2). assert (L3 : length d3 = length d) by (rewrite <- L2; apply length_edit; header).
  set (d4 := edit 12 1 2 d3). assert (L4 : length d4 = length d) by (rewrite <- L3; apply length_edit; header).
  set (d5 := edit 36 4 0 d4). assert (L5 : length d5 = length d) by (rewrite <- L4; apply length_edit; header).
  assert (Hinit : queue_init_at u u q_type 2 (sc_temp sc) = Some (temp_of d5)).
  { rewrite Ht. unfold queue_init_at, mbind, option_bind.
    rewrite (temp_set d 8 2 u ltac:(header) : set_member OFF_BUFFER_SIZE 2 u _ = _). fold d1.
    rewrite (temp_set d1 13 1 q_type ltac:(header) : set_member OFF_TYPE 1 q_type _ = _). fold d2.
    rewrite (temp_set d2 10 2 u ltac:(header) : set_member OFF_USED 2 u _ = _). fold d3.
    rewrite (temp_set d3 12 1 2 ltac:(header) : set_member OFF_VERSION 1 2 _ = _). fold d4.
    exact (temp_set d4 36 4 0 ltac:(header)). }
  run (sc_edit_run (queue_init_at u u q_type 2) _ (k, p) c sc Hinit).
  apply (sc_edit_run _ _ (k, p) c (set_sc_temp (temp_of d5) sc)). cbn [set_sc_temp sc_temp].
  unfold mbind, option_bind. rewrite (temp_get d5 10 2 ltac:(header) : get_member _ OFF_USED 2 = _).
  assert (Hused : member d5 10 2 = u).
  { unfold d5, d4. rewrite (member_edit_ne _ 36 4), (member_edit_ne _ 12 1) by first [lia|header].
    unfold d3. rewrite member_edit_eq by header. apply Z.mod_small. change (256 ^ Z.of_nat 2) with 65536. lia. }
  rewrite Hused. unfold u. rewrite (mem_read_mid [] queue rest : mem_read (queue ++ rest) 0 _ = _).
  apply temp_queue_write. lia.
Qed.

(** The object [schedule_add] writes. *)
Definition added (id time latency host q_type : Z) (queue : list Z) : obj :=
  let d := take 56 (added_header id time latency host (Z.of_nat (length queue)) q_type (replicate (56 + length queue) 0)) ++ queue in
  mk_obj OBJ_TYPE_SCHEDULE d (xor_sum d).

Lemma length_added_header id time latency host used q_type d :
  (56 ≤ length d)%nat → length (added_header id time latency host used q_type d) = length d.
Proof. intros Hl. unfold added_header. rewrite !length_edit by header. done. Qed.

Lemma added_header_bytes id time latency host used q_type d :
  (56 ≤ length d)%nat → bytes_ok d → bytes_ok (added_header id time latency host used q_type d).
Proof. intros Hl Hb. unfold added_header. repeat (apply edit_bytes_ok; [header|]). done. Qed.

Lemma length_added id time latency host q_type queue :
  length (o_data (added id time latency host q_type queue)) = (56 + length queue)%nat.
Proof.
  cbn [added o_data]. rewrite length_app, length_take, length_added_header; rewrite length_replicate; lia.
Qed.

(** Room for an object is found, and still there after the last identifier was saved. *)
Lemma room_found p l n : store p l → 0 ≤ n → (∃ x, room_at (n + 8) x l) →
  objstore_alloc n p = Some (first_room (n + 8) 0 0 l, p) ∧ 0 ≤ first_room (n + 8) 0 0 l ∧
  ∀ l', first_room (n + 8) 0 0 l' = first_room (n + 8) 0 0 l → room_at (n + 8) (first_room (n + 8) 0 0 l) l'.
Proof.
  intros Hst Hn [x Hx].
  assert (Hr : 0 ≤ first_room (n + 8) 0 0 l) by (apply (first_room_exists _ _ x); [done|lia..]).
  destruct (room_kept p l n Hst Hn Hr) as [Ha Hk]. done.
Qed.

Section AddTheorem.
Context (k : stack) (p : pstate) (c : cmd_t) (sc : sched_t) (l : list seg).
Context (b : nat) (pk : csp_packet_t) (now : Z * Z) (hb sb lb queue rest : list Z).
Context (A B : list (Z * obj)) (meta_off : Z) (meta : obj) (lk : lock_t).

Record add_request : Prop := {
  ar_packet : kget_packet b k = Some (pk, k);
  ar_length : pk_length pk = 12 + Z.of_nat (length queue);
  ar_short : (length queue ≤ 199)%nat;
  ar_host : data_read pk 2 2 = Some hb;
  ar_sec : data_read pk 4 4 = Some sb;
  ar_latency : data_read pk 8 4 = Some lb;
  ar_queue : data_read pk 12 (CSP_BUFFER_SIZE - 12) = Some (queue ++ rest);
  ar_bytes : bytes_ok queue;
  ar_header : bytes_ok hb ∧ bytes_ok sb ∧ bytes_ok lb;
}.

(** The store has an object for the last identifier and room, the lock is free. *)
Record add_store : Prop := {
  as_store : store p l;
  as_spare : spare l;
  as_objects : objects 0 l = A ++ (meta_off, meta) :: B;
  as_first : of_type OBJ_TYPE_SCHEDULER_META A = [];
  as_meta : o_type meta = OBJ_TYPE_SCHEDULER_META;
  as_meta_length : length (o_data meta) = 2%nat;
  as_room : ∃ x, room_at (56 + Z.of_nat (length queue) + 8) x l;
  as_lock : si_lock_take 1000 (sc_lock sc) = (0, lk);
}.

Lemma schedule_add_run q_type :
  add_request → add_store → (∀ x, clock_now x = now) → is_u32 now.1 → is_u32 now.2 →
  let id := next_id (le_val (o_data meta)) in
  let o := added id (start_time (be_val sb) (to_double (now.1 * NSEC + now.2))) (be_val lb) (be_val hb) q_type queue in
  ∃ p' sc' l' off, schedule_add vmem_schedule clock_now b q_type (k, p, c, sc) = Some (id, (k, p', c, sc')) ∧
    others_kept vmem_schedule p p' ∧ sc_lock sc' = si_lock_give lk ∧ vm_mem p' = Some (store_bytes l') ∧
    (xor_sum (o_data o) ≠ 0xCA → store p' l') ∧
    objects 0 l' ≡ₚ (off, o) :: A ++ (meta_off, remake meta (le_bytes 2 id)) :: B.
Proof.
  intros [Hpk Hlen Hq Hhost Hsec Hlat Hqueue Hqb _] [Hst Hsp Hobj HA Hty Hl Hroom Hlk] Hnow Hs Hns id o. unfold schedule_add.
  assert (Hk : ∀ {X} (m : K X) (a : X) p c sc, m k = Some (a, k) → scK m (k, p, c, sc) = Some (a, (k, p, c, sc))).
  { intros X m a p0 c0 sc0 Hm. apply scN_run. by apply on_fst_run. }
  run (Hk _ _ _ p c sc Hpk). rewrite Hlen, bool_decide_false by lia.
  replace (12 + Z.of_nat (length queue) - 12) with (Z.of_nat (length queue)) by lia.
  replace (SIZEOF_SCHEDULE + Z.of_nat (length queue) - 8) with (56 + Z.of_nat (length queue)) by (unfold SIZEOF_SCHEDULE; lia).
  run (sc_take_run 1000 (k, p) c sc 0 lk Hlk). rewrite (bool_decide_false (0 ≠ 0)) by congruence.
  destruct (room_found p l (56 + Z.of_nat (length queue)) Hst ltac:(lia) Hroom) as (Halloc & Hoff & Hkept).
  set (off := first_room _ 0 0 l) in *. set (sc0 := set_sc_lock lk sc).
  run (scP_run _ p _ p k c sc0 Halloc). rewrite (bool_decide_false (off < 0)) by lia.
  run (eq_refl : (mret off : ST (stack * pstate * cmd_t * sched_t) Z) (k, p, c, sc0) = Some (off, (k, p, c, sc0))).
  rewrite (bool_decide_false (off < 0)) by lia.
  set (d0 := replicate (56 + length queue) 0). assert (L0 : length d0 = (56 + length queue)%nat) by apply length_replicate.
  pose proof (temp_zero (56 + length queue) ltac:(lia)) as Hz. fold d0 in Hz.
  run (sc_edit_run (λ _, Some (replicate SIZEOF_SCHEDULE_BUF 0)) _ (k, p) c sc0 eq_refl). rewrite <- Hz.
  change OFF_ACTIVE with (Z.of_nat 57). rewrite (edit_step k p c (set_sc_temp (temp_of d0) sc0) d0 57 1 _ _ eq_refl) by header.
  set (d1 := edit 57 1 0x55 d0). assert (L1 : length d1 = length d0) by (apply length_edit; header).
  change OFF_COMPLETED with (Z.of_nat 56). rewrite (edit_step k p c (set_sc_temp (temp_of d1) sc0) d1 56 1 _ _ eq_refl) by header.
  set (d2 := edit 56 1 0 d1). assert (L2 : length d2 = length d0) by (rewrite <- L1; apply length_edit; header).
  change OFF_RETRIES with (Z.of_nat 58). rewrite (edit_step k p c (set_sc_temp (temp_of d2) sc0) d2 58 1 _ _ eq_refl) by header.
  set (d3 := edit 58 1 5 d2). assert (L3 : length d3 = length d0) by (rewrite <- L2; apply length_edit; header).
  destruct (new_id_run k p c (set_sc_temp (temp_of d3) sc0) l A meta_off meta B Hst Hsp Hobj HA Hty Hl)
    as (p1 & l1 & sc1 & R1 & K1 & Hst1 & Hsp1 & Hobj1 & Hroom1 & Ht1 & Hlk1). run R1. fold id in Hobj1 |- *.
  run (fill_header_run b pk k now hb sb lb Hpk Hhost Hsec Hlat Hnow Hs Hns p1 c sc1 d3 id Ht1 ltac:(lia)).
  set (d4 := edit 54 2 _ _).
  assert (L4 : length d4 = (56 + length queue)%nat) by (unfold d4; rewrite !length_edit by header; lia).
  assert (Hin : data_from b 12 k = Some (queue ++ rest, k)).
  { unfold data_from. run Hpk. by apply lift_opt_run_gen. }
  run (Hk _ _ _ p1 c (set_sc_temp (temp_of d4) sc1) Hin).
  run (fill_queue_run k p1 c (set_sc_temp (temp_of d4) sc1) d4 queue rest q_type eq_refl L4 ltac:(lia)).
  change (take 56 _ ++ queue) with (o_data o). set (sc2 := set_sc_temp _ _).
  assert (Hlo : length (o_data o) = (56 + length queue)%nat) by apply length_added.
  assert (Hbo : bytes_ok (o_data o)).
  { cbn [o added o_data]. apply Forall_app. split; [|done]. apply Forall_take, added_header_bytes; [rewrite length_replicate; lia|].
    by apply Forall_replicate. }
  destruct (Hkept l1 (Hroom1 _)) as (pre & gaps & post & -> & Hg & Heq).
  destruct (store_write p1 pre (map Gap gaps) post off OBJ_TYPE_SCHEDULE (o_data o) (drop 8 (temp_of (o_data o))) Hst1 Heq)
    as (p' & R & K & M & Hst').
  { rewrite encode_gaps. lia. }
  { by destruct gaps; [simpl in Hg; lia|]. }
  { lia. }
  { done. }
  { apply temp_data. }
  assert (Hw : write_schedule vmem_schedule off (u8 (56 + Z.of_nat (length queue))) (k, p1, c, sc2) = Some ((), (k, p', c, sc2))).
  { unfold write_schedule. run (eq_refl : gets snd (k, p1, c, sc2) = Some (sc2, (k, p1, c, sc2))). apply scP_run.
    rewrite u8_id by (unfold is_u8; lia). rewrite Hlo in R. replace (Z.of_nat (56 + length queue)) with (56 + Z.of_nat (length queue)) in R by lia.
    exact R. }
  run Hw. assert (Hgive : sc_give (k, p', c, sc2) = Some ((), (k, p', c, set_sc_lock (si_lock_give lk) sc2))).
  { unfold sc_give. apply on_snd_run. unfold modify. unfold sc2. cbn [set_sc_temp sc_lock]. by rewrite Hlk1. }
  run Hgive. eexists p', _, (pre ++ Obj o :: post), off. split; [reflexivity|]. split; [exact (PreOrder_Transitive _ _ _ K1 K)|].
  split; [done|]. split; [exact M|].
  split; [intros Hx; apply Hst', (ends_ok_written p1 pre (map Gap gaps) post _ Hst1); [by destruct gaps; [simpl in Hg; lia|]|by left]|].
  rewrite <- Hobj1, Heq. apply objects_replace. lia.
Qed.
End AddTheorem.

(** The header of the stored schedule. *)
Lemma added_members id time latency host q_type queue :
  is_u16 id → 0 ≤ time < 2 ^ 64 → is_u32 latency → is_u16 host → (length queue ≤ 199)%nat →
  let d := o_data (added id time latency host q_type queue) in
  member d 52 2 = id ∧ s_time d = time ∧ s_latency d = latency ∧ s_host d = host ∧ s_completed d = 0 ∧ s_active d = 0x55 ∧
  s_retries d = 5 ∧ s_used d = Z.of_nat (length queue) ∧ member d 13 1 = u8 q_type ∧ s_queue d = queue.
Proof.
  intros Hid Ht Hla Hh Hq d. unfold is_u16, is_u32 in *.
  set (z := replicate (56 + length queue) 0). assert (Lz : length z = (56 + length queue)%nat) by apply length_replicate.
  set (h := added_header id time latency host (Z.of_nat (length queue)) q_type z).
  assert (Lh : length h = (56 + length queue)%nat) by (unfold h; rewrite length_added_header; lia).
  change d with (take 56 h ++ queue).
  assert (Hu : s_used (take 56 h ++ queue) = Z.of_nat (length queue)).
  { unfold s_used. rewrite member_header by first [header|lia]. unfold h, added_header.
    header_member. apply Z.mod_small.
    change (256 ^ Z.of_nat 2) with 65536. lia. }
  unfold s_time, s_latency, s_host, s_completed, s_active, s_retries.
  assert (Hm : ∀ off n : nat, (8 ≤ off)%nat → (off - 8 + n ≤ 56)%nat → member (take 56 h ++ queue) off n = member h off n)
    by (intros; apply member_header; [unfold has_member; lia|done]).
  split; [rewrite Hm by lia; unfold h, added_header; header_member; apply Z.mod_small; change (256 ^ Z.of_nat 2) with 65536; lia|].
  split; [rewrite Hm by lia; unfold h, added_header; header_member; apply Z.mod_small; change (256 ^ Z.of_nat 8) with (2 ^ 64); lia|].
  split; [rewrite Hm by lia; unfold h, added_header; header_member; apply Z.mod_small; change (256 ^ Z.of_nat 4) with 4294967296; lia|].
  split; [rewrite Hm by lia; unfold h, added_header; header_member; apply Z.mod_small; change (256 ^ Z.of_nat 2) with 65536; lia|].
  do 3 (split; [rewrite Hm by lia; unfold h, added_header; header_member; reflexivity|]).
  split; [exact Hu|]. split; [rewrite Hm by lia; unfold h, added_header; header_member; reflexivity|].
  { unfold s_queue. rewrite Hu, Nat2Z.id, drop_app_ge by (rewrite length_take; lia). rewrite length_take.
    replace (56 - 56 `min` length h)%nat with 0%nat by lia. by rewrite drop_0, firstn_all. }
Qed.
End Add.

(** A request to schedule a queue stores it: the new object has a fresh identifier, the
    time asked for (relative to the clock when it is less than 10^9 seconds), the latency, the
    node and exactly the bytes of the queue, is active, not completed and has five retries;
    it is answered with its identifier, which is saved as the last one given out; every other
    object stays, and the lock is given back. *)
Theorem schedule_add_stores `{Env} `{ParamEnv} `{SiLock} (vmem_schedule : vmem_t) (clock_now : stack * pstate → Z * Z)
    (k : stack) (p : pstate) (c : cmd_t) (sc : sched_t) (l : list seg) (b : nat) (pk : csp_packet_t) (now : Z * Z)
    (hb sb lb queue rest : list Z) (A B : list (Z * obj)) (meta_off : Z) (meta : obj) (lk : lock_t) :
  add_request k b pk hb sb lb queue rest → add_store vmem_schedule p sc l queue A B meta_off meta lk →
  (∀ x, clock_now x = now) → is_u32 now.1 → is_u32 now.2 →
  let id := next_id (le_val (o_data meta)) in
  ∃ p' sc' l' off o, schedule_add vmem_schedule clock_now b 1 (k, p, c, sc) = Some (id, (k, p', c, sc')) ∧
    others_kept vmem_schedule p p' ∧ sc_lock sc' = si_lock_give lk ∧
    block_of vmem_schedule p' = Some (store_bytes l') ∧
    objects 0 l' ≡ₚ (off, o) :: A ++ (meta_off, remake meta (le_bytes 2 id)) :: B ∧
    o_type o = OBJ_TYPE_SCHEDULE ∧ o_check o = xor_sum (o_data o) ∧ member (o_data o) 52 2 = id ∧
    s_time (o_data o) = start_time (be_val sb) (to_double (now.1 * NSEC + now.2)) ∧
    s_latency (o_data o) = be_val lb ∧ s_host (o_data o) = be_val hb ∧ s_completed (o_data o) = 0 ∧
    s_active (o_data o) = 0x55 ∧ s_retries (o_data o) = 5 ∧ s_queue (o_data o) = queue.
Proof.
  intros Hreq Hsto Hnow Hs Hns id.
  destruct (schedule_add_run vmem_schedule clock_now k p c sc l b pk now hb sb lb queue rest A B meta_off meta lk 1 Hreq Hsto Hnow Hs Hns)
    as (p' & sc' & l' & off & R & K & Hlk & Hm & _ & Hp).
  destruct Hreq as [_ _ Hq Hhost Hsec Hlat _ _ (Bh & Bs & Bl)].
  apply mem_read_length in Hhost, Hsec, Hlat. pose proof (be_val_bound hb Bh) as Vh. pose proof (be_val_bound sb Bs) as Vs.
  pose proof (be_val_bound lb Bl) as Vl. replace (length hb) with 2%nat in Vh by lia. replace (length sb) with 4%nat in Vs by lia.
  replace (length lb) with 4%nat in Vl by lia. change (256 ^ Z.of_nat 2) with 65536 in Vh. change (256 ^ Z.of_nat 4) with 4294967296 in *.
  destruct (added_members id (start_time (be_val sb) (to_double (now.1 * NSEC + now.2))) (be_val lb) (be_val hb) 1 queue)
    as (M1 & M2 & M3 & M4 & M5 & M6 & M7 & _ & _ & M8).
  - unfold id, next_id. pose proof (u16_range (le_val (o_data meta) + 1)). case_bool_decide; [unfold is_u16; lia|done].
  - unfold start_time. case_bool_decide; [apply Z.mod_pos_bound; lia|]. unfold NSEC. lia.
  - unfold is_u32. lia.
  - unfold is_u16. lia.
  - done.
  - eexists p', sc', l', off, _. split; [exact R|]. split; [exact K|]. split; [exact Hlk|]. split; [exact Hm|]. split; [exact Hp|].
    split; [reflexivity|]. split; [reflexivity|]. by split_and!.
Qed.

(** ** An example *)

Section Example.
#[local] Existing Instances env_example store_env flag_lock.

Definition add_payload : list Z := [9; 0; 0; 5; 0; 0; 0; 2; 0; 0; 0; 60; 1; 2; 3].
Definition add_packet : csp_packet_t :=
  match data_write served_packet 0 (add_payload ++ replicate 2033 0) with Some p => set_pk_length 15 p | None => served_packet end.
Definition add_stack : stack := with_packet net_example 0 served_buffer add_packet.
Definition add_meta : obj := mk_obj OBJ_TYPE_SCHEDULER_META [6; 0] 6.
Definition add_layout : list seg := Obj add_meta :: map Gap (replicate 100 0xFF).
Definition add_vmem : vmem_t := mk_vmem VMEM_TYPE_RAM (vmem_ram_driver_t 0) 0x1000 110 [] 0 0.
Definition add_pstate : pstate :=
  mk_pstate {[0%nat := store_bytes add_layout]} [add_vmem] ∅ 0 None ∅ ∅ [] (mk_app [] 0 0 0).

Lemma add_store_ok : add_store add_vmem add_pstate sched_start add_layout [1; 2; 3] [] [] 0 add_meta true.
Proof.
  split.
  - split; [vm_compute; reflexivity|]. split; [|done|vm_compute; reflexivity].
    apply Forall_cons. split; [|apply Forall_map, Forall_replicate; done].
    split; [done| |done|done]. repeat (apply Forall_cons; split; [done|]). by apply Forall_nil.
  - exists (Obj add_meta :: map Gap (replicate 99 0xFF)), 0xFF. reflexivity.
  - reflexivity.
  - reflexivity.
  - reflexivity.
  - reflexivity.
  - exists 10, [Obj add_meta], (replicate 67 0xFF), (map Gap (replicate 33 0xFF)). split; [reflexivity|]. split; reflexivity.
  - reflexivity.
Qed.

Lemma add_request_ok : add_request add_stack 0 add_packet [0; 5] [0; 0; 0; 2] [0; 0; 0; 60] [1; 2; 3] (replicate 2033 0).
Proof.
  split.
  - exact (with_packet_get net_example 0 served_buffer served_buffer_at add_packet).
  - vm_compute. reflexivity.
  - simpl. lia.
  - vm_compute. reflexivity.
  - vm_compute. reflexivity.
  - vm_compute. reflexivity.
  - vm_compute. reflexivity.
  - repeat (apply Forall_cons; split; [done|]). by apply Forall_nil.
  - split_and!; repeat (apply Forall_cons; split; [done|]); by apply Forall_nil.
Qed.

Lemma schedule_add_stores_witness :
  ∃ p' sc', schedule_add add_vmem (λ _, (1700000000, 0)) 0 1 (add_stack, add_pstate, cmd_start, sched_start) =
      Some (7, (add_stack, p', cmd_start, sc')) ∧
    ∃ l' off o, block_of add_vmem p' = Some (store_bytes l') ∧
      objects 0 l' ≡ₚ [(off, o); (0, mk_obj OBJ_TYPE_SCHEDULER_META [7; 0] 7)] ∧
      s_time (o_data o) = 1700000002000000000 ∧ s_host (o_data o) = 5 ∧ s_queue (o_data o) = [1; 2; 3].
Proof.
  destruct (schedule_add_stores add_vmem (λ _, (1700000000, 0)) add_stack add_pstate cmd_start sched_start add_layout 0 add_packet
    (1700000000, 0) [0; 5] [0; 0; 0; 2] [0; 0; 0; 60] [1; 2; 3] (replicate 2033 0) [] [] 0 add_meta true
    add_request_ok add_store_ok (λ _, eq_refl)) as (p' & sc' & l' & off & o & R & _ & _ & Hb & Hp & _ & _ & _ & Ht & _ & Hh & _ & _ & _ & Hq).
  - unfold is_u32. simpl. lia.
  - unfold is_u32. simpl. lia.
  - exists p', sc'. split; [exact R|]. exists l', off, o. split; [exact Hb|]. split; [exact Hp|].
    split; [rewrite Ht; vm_compute; reflexivity|]. split; [rewrite Hh; vm_compute; reflexivity|exact Hq].
Defined.
End Example.
