(* ===== verification/CommandAdd.v ===== *)
(** * Adding a command

    A queue that was stored under a name is read back by that name. *)

From S2P Require Import Queue Types State Buffer Stack Port Net Rdp Conn Io Mpack ParamState Param ParamList ParamSer ParamServer ParamServed Objstore ObjMeta Commands CommandsShown Scheduler SchedulerShown Text Prelude.

(** The command behind the pointer before its identifier is set: only the name. *)
Definition name_data (nm queue : list Z) : list Z :=
  replicate 34 0 ++ nm ++ replicate (14 - length nm + length queue) 0.

Definition command_header (id q_type used : Z) (d : list Z) : list Z :=
  edit 36 4 0 (edit 12 1 2 (edit 10 2 used (edit 13 1 q_type (edit 8 2 used (edit 40 2 id d))))).

(** The object [command_add] writes. *)
Definition command_obj (id q_type : Z) (nm queue : list Z) : obj :=
  let d := take 48 (command_header id q_type (Z.of_nat (length queue)) (name_data nm queue)) ++ queue in
  mk_obj OBJ_TYPE_COMMAND d (xor_sum d).

Lemma has_member_48 (off n : nat) (d : list Z) :
  (48 ≤ length d)%nat → (8 ≤ off)%nat → (off - 8 + n ≤ 48)%nat → has_member off n d.
Proof. unfold has_member. lia. Qed.

Lemma edit_48 (off n : nat) v (d : list Z) :
  (48 ≤ length d)%nat → (8 ≤ off)%nat → (off - 8 + n ≤ 48)%nat → (48 ≤ length (edit off n v d))%nat.
Proof. intros Hl H1 H2. rewrite length_edit; [done|by apply has_member_48]. Qed.

Ltac cheader := apply has_member_48; [repeat (apply edit_48; [|lia|lia]); lia|lia|lia].

(** What lies behind a member is not changed by it. *)
Lemma drop_edit (d : list Z) (off n k : nat) v :
  has_member off n d → (off - 8 + n ≤ k)%nat → drop k (edit off n v d) = drop k d.
Proof.
  intros [H1 H2] Hk. unfold edit, patch. rewrite app_assoc, drop_app_ge; rewrite length_app, length_take, length_le_bytes; [|lia].
  rewrite drop_drop. f_equal. lia.
Qed.

Lemma length_name_data nm queue : (length nm ≤ 13)%nat → length (name_data nm queue) = (48 + length queue)%nat.
Proof. intros Hn. unfold name_data. rewrite !length_app, !length_replicate. lia. Qed.

Lemma length_command_header id q_type used d : (48 ≤ length d)%nat → length (command_header id q_type used d) = length d.
Proof. intros Hl. unfold command_header. rewrite !length_edit by cheader. done. Qed.

Lemma command_header_bytes id q_type used d :
  (48 ≤ length d)%nat → bytes_ok d → bytes_ok (command_header id q_type used d).
Proof. intros Hl Hb. unfold command_header. repeat (apply edit_bytes_ok; [cheader|]). done. Qed.

Lemma command_name id q_type used nm queue :
  (length nm ≤ 13)%nat → take (length nm) (drop 34 (command_header id q_type used (name_data nm queue))) = nm.
Proof.
  intros Hn. pose proof (length_name_data nm queue Hn) as Hl. unfold command_header.
  rewrite !drop_edit by first [cheader|lia]. unfold name_data. rewrite drop_app_ge by (by rewrite length_replicate).
  rewrite length_replicate. change (34 - 34)%nat with 0%nat. by rewrite drop_0, take_app_le, firstn_all.
Qed.

(** The first element with a property is unique. *)
Lemma first_match {X} (P : X → Prop) (A A' : list X) x x' B B' :
  A ++ x :: B = A' ++ x' :: B' → Forall (λ y, ¬ P y) A → Forall (λ y, ¬ P y) A' → P x → P x' → x = x'.
Proof.
  revert A'. induction A as [|y A IH]; intros [|y' A'] Heq HA HA' Hx Hx'; simplify_eq/=.
  - done.
  - apply Forall_cons in HA' as [? _]. done.
  - apply Forall_cons in HA as [? _]. done.
  - apply Forall_cons in HA as [_ ?]. apply Forall_cons in HA' as [_ ?]. by eapply IH.
Qed.

Section CommandObj.
Context (id q_type : Z) (nm queue : list Z) (Hn : (length nm ≤ 13)%nat).
Let h := command_header id q_type (Z.of_nat (length queue)) (name_data nm queue).

Lemma length_h : length h = (48 + length queue)%nat.
Proof. unfold h. pose proof (length_name_data nm queue Hn). rewrite length_command_header; lia. Qed.

Lemma length_command : length (o_data (command_obj id q_type nm queue)) = (48 + length queue)%nat.
Proof. cbn [command_obj o_data]. fold h. rewrite length_app, length_take, length_h. lia. Qed.

Lemma named_command : named nm (command_obj id q_type nm queue).
Proof.
  split; [done|]. cbn [command_obj o_data]. fold h. pose proof length_h as Hh.
  rewrite drop_app_le by (rewrite length_take; lia). rewrite skipn_firstn_comm, take_app_le by (rewrite length_take, length_drop; lia).
  rewrite take_take, Nat.min_l by lia. symmetry. by apply command_name.
Qed.

Lemma command_bytes : bytes_ok nm → bytes_ok queue → bytes_ok (o_data (command_obj id q_type nm queue)).
Proof.
  intros Hb Hq. cbn [command_obj o_data]. pose proof (length_name_data nm queue Hn). apply Forall_app. split; [|done].
  apply Forall_take, command_header_bytes; [lia|]. unfold name_data. apply Forall_app.
  split; [by apply Forall_replicate|]. apply Forall_app. split; [done|by apply Forall_replicate].
Qed.

(** The members of the header, and the queue behind it. *)
Lemma command_member off n : (8 ≤ off)%nat → (off - 8 + n ≤ 48)%nat →
  member (o_data (command_obj id q_type nm queue)) off n = member h off n.
Proof.
  intros H1 H2. cbn [command_obj o_data]. fold h. pose proof length_h as Hh. unfold member. f_equal.
  rewrite drop_app_le by (rewrite length_take; lia). rewrite take_app_le by (rewrite length_drop, length_take; lia).
  rewrite skipn_firstn_comm, take_take. f_equal. lia.
Qed.

Lemma command_members : is_u16 id → (length queue ≤ 200)%nat → let d := o_data (command_obj id q_type nm queue) in
  member d 40 2 = id ∧ member d 13 1 = u8 q_type ∧ member d 10 2 = Z.of_nat (length queue) ∧ drop 48 d = queue.
Proof.
  intros Hid Hq d. pose proof (length_name_data nm queue Hn) as Hl. unfold d. rewrite !command_member by lia.
  unfold h, command_header, is_u16 in *. split_and!.
  - rewrite !(member_edit_ne _ _ _ _ 40 2) by first [cheader|lia]. rewrite member_edit_eq by cheader. by apply Z.mod_small.
  - rewrite !(member_edit_ne _ _ _ _ 13 1) by first [cheader|lia]. rewrite member_edit_eq by cheader. done.
  - rewrite !(member_edit_ne _ _ _ _ 10 2) by first [cheader|lia]. rewrite member_edit_eq by cheader.
    apply Z.mod_small. change (256 ^ Z.of_nat 2) with 65536. lia.
  - cbn [command_obj o_data]. rewrite drop_app_ge; rewrite length_take, length_command_header by lia; [|lia].
    replace (48 - 48 `min` length (name_data nm queue))%nat with 0%nat by lia. by rewrite drop_0.
Qed.
End CommandObj.

Section Add.
Context `{Env} `{ParamEnv} `{SiLock}.
Context (vmem_commands : vmem_t) (junk : list Z).

#[local] Instance cadd_ops : VmemOps pstate := vmem_ops vmem_commands.
#[local] Instance cadd_laws : VmemLaws pstate := vmem_laws vmem_commands.

Implicit Types (k : stack) (p : pstate) (c : cmd_t) (d : list Z) (l : list seg) (o : obj).

Lemma cmK_run {A} (m : K A) k (a : A) k' p c : m k = Some (a, k') → cmK m (k, p, c) = Some (a, (k', p, c)).
Proof. intros Hm. by apply on_fst_run, on_fst_run. Qed.

Lemma cmP_run {A} (m : ST pstate A) p (a : A) p' k c : m p = Some (a, p') → cmP m (k, p, c) = Some (a, (k, p', c)).
Proof. intros Hm. by apply on_fst_run, on_snd_run. Qed.

Lemma cm_edit_run f m x c : f (cm_temp c) = Some m → cm_edit f (x, c) = Some ((), (x, set_cm_temp m c)).
Proof. intros Hf. unfold cm_edit. apply on_snd_run. by rewrite Hf. Qed.

Lemma cm_take_run t x c rc lk : si_lock_take t (cm_lock c) = (rc, lk) → cm_take t (x, c) = Some (rc, (x, set_cm_lock lk c)).
Proof. intros Ht. unfold cm_take. apply on_snd_run. by rewrite Ht. Qed.

Lemma cm_give_run x c : cm_give (x, c) = Some ((), (x, set_cm_lock (si_lock_give (cm_lock c)) c)).
Proof. by apply on_snd_run. Qed.

(** The name in a cleared [temp_command]. *)
Lemma temp_name (nm queue rest : list Z) :
  (length nm ≤ 13)%nat → (length queue ≤ 200)%nat →
  (name ← name_copy (drop (Z.to_nat OFF_NAME) (replicate SIZEOF_COMMAND_BUF 0)) (nm ++ rest) (Z.of_nat (length nm));
   mem_write (replicate SIZEOF_COMMAND_BUF 0) OFF_NAME name) = Some (framed (200 - length queue) (name_data nm queue)).
Proof.
  intros Hn Hq. rewrite drop_replicate. rewrite name_copy_run by (rewrite length_replicate; unfold SIZEOF_COMMAND_BUF, OFF_NAME; lia).
  unfold mbind, option_bind. rewrite drop_replicate.
  replace (SIZEOF_COMMAND_BUF - Z.to_nat OFF_NAME - S (length nm))%nat with (213 - length nm)%nat by (unfold SIZEOF_COMMAND_BUF, OFF_NAME; lia).
  replace (0 :: replicate (213 - length nm) 0) with (replicate (214 - length nm) 0)
    by (replace (214 - length nm)%nat with (S (213 - length nm)) by lia; done).
  apply mem_write_Some. rewrite length_app, !length_replicate. unfold SIZEOF_COMMAND_BUF, OFF_NAME. split_and!; [lia..|].
  rewrite take_replicate, drop_replicate. replace (256 - (Z.to_nat 42 + (length nm + (214 - length nm))))%nat with 0%nat by lia.
  change (Z.to_nat 42 `min` 256)%nat with (8 + 34)%nat. rewrite (replicate_add 8 34). unfold framed, name_data. cbn [replicate].
  rewrite app_nil_r, <- !app_assoc, <- replicate_add. do 4 f_equal. lia.
Qed.

(** The queue behind the header. *)
Lemma framed_queue_write (q : nat) d (bs : list Z) :
  (48 + length bs)%nat = length d → mem_write (framed q d) SIZEOF_COMMAND bs = Some (framed q (take 48 d ++ bs)).
Proof.
  intros Hl. unfold framed.
  replace (replicate 8 0 ++ d ++ replicate q 0) with ((replicate 8 0 ++ take 48 d) ++ drop 48 d ++ replicate q 0)
    by (rewrite <- app_assoc, (app_assoc (take 48 d)), take_drop; done).
  pose proof (mem_write_mid (replicate 8 0 ++ take 48 d) (drop 48 d) bs (replicate q 0) ltac:(rewrite length_drop; lia)) as Hw.
  rewrite length_app, length_replicate, length_take in Hw. replace (Z.of_nat (8 + 48 `min` length d)) with SIZEOF_COMMAND in Hw
    by (unfold SIZEOF_COMMAND; lia). rewrite Hw. by rewrite <- !app_assoc.
Qed.

(** A request to store [queue] under the name [nm], and a store that has room for it and no
    command whose name begins with [nm]. *)
Section Request.
Context (k : stack) (p : pstate) (c : cmd_t) (l : list seg) (b : nat) (pk : csp_packet_t) (nm queue rest : list Z).
Context (A B : list (Z * obj)) (meta_off : Z) (meta : obj) (lk : lock_t).

Record command_request : Prop := {
  cr_packet : kget_packet b k = Some (pk, k);
  cr_length : pk_length pk = 3 + Z.of_nat (length nm) + Z.of_nat (length queue);
  cr_name_length : data_read pk 2 1 = Some [Z.of_nat (length nm)];
  cr_data : data_read pk 3 (CSP_BUFFER_SIZE - 3) = Some (nm ++ queue ++ rest);
  cr_queue : data_read pk (3 + Z.of_nat (length nm)) (CSP_BUFFER_SIZE - (3 + Z.of_nat (length nm))) = Some (queue ++ rest);
  cr_name : (0 < length nm ≤ 13)%nat ∧ Forall (λ x, x ≠ 0) nm ∧ bytes_ok nm;
  cr_bytes : (length queue ≤ 200)%nat ∧ bytes_ok queue;
}.

Record command_store : Prop := {
  cs_store : store p l;
  cs_spare : spare l;
  cs_objects : objects 0 l = A ++ (meta_off, meta) :: B;
  cs_first : of_type OBJ_TYPE_COMMANDS_META A = [];
  cs_meta : o_type meta = OBJ_TYPE_COMMANDS_META;
  cs_meta_length : length (o_data meta) = 2%nat;
  cs_commands : commands_ok (objects 0 l);
  cs_fresh : Forall (λ x, ¬ named nm x.2) (objects 0 l);
  cs_room : 0 ≤ first_room (48 + Z.of_nat (length queue) + 8) 0 0 l;
  cs_end : first_room (48 + Z.of_nat (length queue) + 8) 0 0 l + (48 + Z.of_nat (length queue)) + 8 < vm_size;
  cs_lock : si_lock_take 1000 (cm_lock c) = (0, lk);
}.

Context (Hreq : command_request).

Lemma fresh_lookup l' p' name n :
  store p' l' → commands_ok (objects 0 l') → Forall (λ x, ¬ named nm x.2) (objects 0 l') →
  name = nm ++ 0 :: n → obj_offset_from_name vmem_commands name p' = Some (-1, p').
Proof.
  intros Hst Hok Hfr ->. destruct Hreq as [_ _ _ _ _ (Hn & Hz & _) _].
  destruct (offset_from_name_run vmem_commands p' l' (nm ++ 0 :: n) (length nm) Hst Hok (c_strlen_app nm n Hz) Hn) as [[Hr _]|(A' & off & o & B' & Hobj & _ & Ho & _)].
  - rewrite length_app. lia.
  - exact Hr.
  - exfalso. rewrite Hobj, Forall_app, Forall_cons in Hfr. destruct Hfr as (_ & Hno & _). rewrite take_app_le, firstn_all in Ho by lia. done.
Qed.

Lemma command_queue_run {X} (m : ST (stack * pstate * cmd_t) X) q_type p' c' d :
  cm_temp c' = framed (200 - length queue) d → length d = (48 + length queue)%nat →
  (cm_edit (queue_init_at (Z.of_nat (length queue)) (Z.of_nat (length queue)) q_type 2);;
   queue' ← cmK (data_from b (3 + Z.of_nat (length nm)));
   cm_edit (λ m, used ← get_member m OFF_USED 2; bs ← mem_read queue' 0 used; mem_write m SIZEOF_COMMAND bs);; m) (k, p', c') =
  m (k, p', set_cm_temp (framed (200 - length queue)
    (take 48 (edit 36 4 0 (edit 12 1 2 (edit 10 2 (Z.of_nat (length queue)) (edit 13 1 q_type
      (edit 8 2 (Z.of_nat (length queue)) d))))) ++ queue)) c').
Proof.
  intros Ht Hl. destruct Hreq as [Hpk _ _ _ Hqd _ [Hq _]]. set (u := Z.of_nat (length queue)). set (q := (200 - length queue)%nat) in *.
  set (d1 := edit 8 2 u d). assert (L1 : length d1 = length d) by (apply length_edit; cheader).
  set (d2 := edit 13 1 q_type d1). assert (L2 : length d2 = length d) by (rewrite <- L1; apply length_edit; cheader).
  set (d3 := edit 10 2 u d2). assert (L3 : length d3 = length d) by (rewrite <- L2; apply length_edit; cheader).
  set (d4 := edit 12 1 2 d3). assert (L4 : length d4 = length d) by (rewrite <- L3; apply length_edit; cheader).
  set (d5 := edit 36 4 0 d4). assert (L5 : length d5 = length d) by (rewrite <- L4; apply length_edit; cheader).
  assert (Hinit : queue_init_at u u q_type 2 (cm_temp c') = Some (framed q d5)).
  { rewrite Ht. unfold queue_init_at, mbind, option_bind.
    rewrite (framed_set q d 8 2 u ltac:(cheader) : set_member OFF_BUFFER_SIZE 2 u _ = _). fold d1.
    rewrite (framed_set q d1 13 1 q_type ltac:(cheader) : set_member OFF_TYPE 1 q_type _ = _). fold d2.
    rewrite (framed_set q d2 10 2 u ltac:(cheader) : set_member OFF_USED 2 u _ = _). fold d3.
    rewrite (framed_set q d3 12 1 2 ltac:(cheader) : set_member OFF_VERSION 1 2 _ = _). fold d4.
    exact (framed_set q d4 36 4 0 ltac:(cheader)). }
  run (cm_edit_run (queue_init_at u u q_type 2) _ (k, p') c' Hinit).
  assert (Hin : data_from b (3 + Z.of_nat (length nm)) k = Some (queue ++ rest, k)).
  { unfold data_from. run Hpk. by apply lift_opt_run_gen. }
  run (cmK_run _ k _ k p' (set_cm_temp (framed q d5) c') Hin).
  refine (ST_bind_run _ _ _ _ _ (cm_edit_run _ _ (k, p') (set_cm_temp (framed q d5) c') _)). cbn [set_cm_temp cm_temp].
  unfold mbind, option_bind. rewrite (framed_get q d5 10 2 ltac:(cheader) : get_member _ OFF_USED 2 = _).
  assert (Hused : member d5 10 2 = u).
  { unfold d5, d4. rewrite (member_edit_ne _ 36 4), (member_edit_ne _ 12 1) by first [lia|cheader].
    unfold d3. rewrite member_edit_eq by cheader. apply Z.mod_small. change (256 ^ Z.of_nat 2) with 65536. lia. }
  rewrite Hused. unfold u. rewrite (mem_read_mid [] queue rest : mem_read (queue ++ rest) 0 _ = _).
  apply framed_queue_write. lia.
Qed.

Context (Hjunk : length junk = 14%nat) (Hsto : command_store).

Lemma command_add_run q_type :
  let id := next_id (le_val (o_data meta)) in
  let o := command_obj id q_type nm queue in
  ∃ p' c' l' off, command_add vmem_commands junk b q_type (k, p, c) = Some (id, (k, p', c')) ∧
    others_kept vmem_commands p p' ∧ cm_lock c' = si_lock_give lk ∧ store p' l' ∧
    objects 0 l' ≡ₚ (off, o) :: A ++ (meta_off, remake meta (le_bytes 2 id)) :: B.
Proof.
  intros id o. pose proof Hreq as [Hpk Hlen Hnl Hdata _ (Hn & Hz & Hnb) [Hq Hqb]].
  destruct Hsto as [Hst Hsp Hobj HA Hty Hl Hok Hfr Hroom Hend Hlk]. unfold command_add.
  set (n := Z.of_nat (length nm)) in *. set (q := Z.of_nat (length queue)) in *.
  run (cmK_run _ k _ k p c Hpk).
  assert (Hb : data_byte b 2 k = Some (n, k)).
  { unfold data_byte. run Hpk. run (lift_opt_run_gen _ _ k Hnl). unfold be_val. simpl. done. }
  run (cmK_run _ k _ k p c Hb). rewrite Hlen, (bool_decide_false (_ < 3 + n)) by lia.
  replace (3 + n + q - 3 - n) with q by lia. rewrite (bool_decide_false (13 < n)) by lia.
  assert (Hin : data_from b 3 k = Some (nm ++ queue ++ rest, k)).
  { unfold data_from. run Hpk. by apply lift_opt_run_gen. }
  run (cmK_run _ k _ k p c Hin).
  run (lift_opt_run_gen _ _ (k, p, c) (name_copy_run junk nm (queue ++ rest) ltac:(lia))).
  run (cmP_run _ p _ p k c (fresh_lookup l p _ (drop (S (length nm)) junk) Hst Hok Hfr eq_refl)).
  rewrite (bool_decide_false (0 ≤ -1)) by lia.
  run (eq_refl : (mret () : ST (stack * pstate * cmd_t) ()) (k, p, c) = _).
  replace (SIZEOF_COMMAND + q - 8) with (48 + q) by (unfold SIZEOF_COMMAND; lia).
  run (cm_take_run 1000 (k, p) c 0 lk Hlk). rewrite (bool_decide_false (0 ≠ 0)) by congruence.
  destruct (room_kept p l (48 + q) Hst ltac:(lia) Hroom) as [Halloc _]. set (off := first_room _ 0 0 l) in *.
  set (c0 := set_cm_lock lk c). run (cmP_run _ p _ p k c0 Halloc). rewrite (bool_decide_false (off < 0)) by lia.
  run (cm_edit_run (λ _, Some (replicate SIZEOF_COMMAND_BUF 0)) _ (k, p) c0 eq_refl).
  set (c1 := set_cm_temp _ c0).
  run (cm_edit_run (λ m, name ← name_copy (drop (Z.to_nat OFF_NAME) m) (nm ++ queue ++ rest) n; mem_write m OFF_NAME name)
    _ (k, p) c1 (temp_name nm queue (queue ++ rest) ltac:(lia) ltac:(lia))).
  set (c2 := set_cm_temp _ c1). rewrite <- Hty in HA.
  destruct (meta_next_run p l A meta_off meta B (cm_last_id c2) Hst Hsp Hobj HA Hl)
    as (Hfind & Hoff & [rc Hrd] & p1 & l1 & Hsave & K1 & Hst1 & Hsp1 & Hobj1 & Hroom1). rewrite Hty in *. fold id in Hsave, Hobj1.
  run (cmP_run _ p _ p k c2 Hfind). rewrite (bool_decide_false (meta_off < 0)) by lia.
  run (eq_refl : gets snd (k, p, c2) = Some (c2, (k, p, c2))). run (cmP_run _ p _ p k c2 Hrd). fold id.
  run (on_snd_run (modify (set_cm_last_id id)) c2 () (set_cm_last_id id c2) (k, p) eq_refl).
  set (c3 := set_cm_last_id id c2). run (cmP_run _ p _ p1 k c3 Hsave).
  pose proof (length_name_data nm queue ltac:(lia)) as Hd0. set (d0 := name_data nm queue) in *.
  run (cm_edit_run (set_member OFF_COMMAND_ID 2 id) _ (k, p1) c3 (framed_set (200 - length queue) d0 40 2 id ltac:(cheader))).
  set (c4 := set_cm_temp _ c3). rewrite (command_queue_run _ q_type p1 c4 (edit 40 2 id d0) eq_refl)
    by (rewrite length_edit by cheader; lia). change (take 48 _ ++ queue) with (o_data o). set (c5 := set_cm_temp _ c4).
  run (eq_refl : gets snd (k, p1, c5) = Some (c5, (k, p1, c5))).
  pose proof (length_command id q_type nm queue ltac:(lia)) as Hlo. fold o in Hlo.
  destruct (store_add p1 l1 (48 + q) off OBJ_TYPE_COMMAND (o_data o) (drop 8 (cm_temp c5)) Hst1 Hsp1)
    as (p' & l' & R & K & Hst' & _ & Hp'); [apply Hroom1|done| | |lia|lia|by apply command_bytes; [lia|..]| |done|].
  1: exact Hend. 1: lia.
  1: { replace (48 + q) with (Z.of_nat (length (o_data o))) by lia. apply framed_data. }
  rewrite u8_id by (unfold is_u8; lia). run (cmP_run _ p1 _ p' k c5 R). run (cm_give_run (k, p') c5).
  eexists p', _, l', off. split; [reflexivity|]. split; [exact (PreOrder_Transitive _ _ _ K1 K)|]. split; [done|]. split; [done|].
  rewrite Hp', Hobj1. unfold remake. by rewrite Hty.
Qed.
End Request.

(** Reading a command: the first one whose name begins with [nm]. *)
Lemma command_read_run k p c l A off o B nm (rest : list Z) lk :
  store p l → commands_ok (objects 0 l) → objects 0 l = A ++ (off, o) :: B → Forall (λ x, ¬ named nm x.2) A → named nm o →
  (0 < length nm ≤ 13)%nat → Forall (λ x, x ≠ 0) nm → si_lock_take 1000 (cm_lock c) = (0, lk) →
  param_command_read vmem_commands (nm ++ 0 :: rest) (replicate SIZEOF_COMMAND_BUF 0) (k, p, c) =
    Some ((0, framed (248 - length (o_data o)) (o_data o)), (k, p, set_cm_lock (si_lock_give lk) (set_cm_lock lk c))).
Proof.
  intros Hst Hok Hobj HA Ho Hn Hz Hlk. unfold param_command_read. run (cm_take_run 1000 (k, p) c 0 lk Hlk).
  rewrite (bool_decide_false (0 ≠ 0)) by congruence. set (c1 := set_cm_lock lk c).
  assert (Hin : (off, o) ∈ objects 0 l) by (rewrite Hobj; apply elem_of_app; right; apply list_elem_of_here).
  assert (Hoff : 0 ≤ off). { destruct (objects_middle 0 l _ _ _ _ Hobj) as (? & ? & _ & _ & -> & _). lia. }
  assert (Hfind : obj_offset_from_name vmem_commands (nm ++ 0 :: rest) p = Some (off, p)).
  { destruct (offset_from_name_run vmem_commands p l (nm ++ 0 :: rest) (length nm) Hst Hok (c_strlen_app nm rest Hz) Hn)
      as [[_ Hno]|(A' & off' & o' & B' & Hobj' & HA' & Ho' & Hr)]; rewrite ?length_app, ?take_app_le, ?firstn_all in * by lia; [lia|..].
    - rewrite Hobj, Forall_app, Forall_cons in Hno. by destruct Hno as (_ & ? & _).
    - rewrite Hr. assert (Heq : (off, o) = (off', o')); [|by injection Heq as -> _].
      apply (first_match (λ x, named nm x.2) A A' _ _ B B'); [congruence|done..]. }
  run (cmP_run _ p _ p k c1 Hfind). rewrite (bool_decide_false (off < 0)) by lia.
  run (cmP_run _ p _ p k c1 (length_store p l off o Hst Hin)). rewrite bool_decide_false by lia.
  unfold commands_ok in Hok. rewrite Forall_forall in Hok. specialize (Hok _ Hin (proj1 Ho)). cbn [snd] in Hok.
  replace SIZEOF_COMMAND_BUF with (8 + length (o_data o) + (248 - length (o_data o)))%nat by (unfold SIZEOF_COMMAND_BUF; lia).
  assert (Hload : read_command vmem_commands off (replicate (8 + length (o_data o) + (248 - length (o_data o))) 0) (k, p, c1) =
    Some (framed (248 - length (o_data o)) (o_data o), (k, p, c1))).
  { unfold read_command. run (cmP_run _ p _ p k c1 (read_store p l off o Hst Hin)). apply lift_opt_run_gen, framed_load. }
  run Hload. run (cm_give_run (k, p) c1). done.
Qed.
End Add.

(** C19: A command is read back as it was stored.  Adding a queue of at most 200 bytes under a
    name of at most 13 characters that no stored command begins with, to a store that has room
    for it ([command_store]), answers with the identifier after the last one given and gives
    the lock back.  The store then holds the new command, the same other objects at the same
    places, and the object with the last identifier updated.  Reading that name then yields
    the identifier, the type and exactly the bytes of the queue. *)
Theorem command_add_read `{Env} `{ParamEnv} `{SiLock} (vmem_commands : vmem_t) (junk name_rest : list Z)
    (k : stack) (p : pstate) (c : cmd_t) (l : list seg) (b : nat) (pk : csp_packet_t) (nm queue rest : list Z)
    (A B : list (Z * obj)) (meta_off : Z) (meta : obj) (lk lk' : lock_t) (q_type : Z) :
  command_request k b pk nm queue rest → command_store vmem_commands p c l nm queue A B meta_off meta lk →
  length junk = 14%nat → si_lock_take 1000 (si_lock_give lk) = (0, lk') →
  let id := next_id (le_val (o_data meta)) in
  ∃ p' c' l' off m c'', command_add vmem_commands junk b q_type (k, p, c) = Some (id, (k, p', c')) ∧
    block_of vmem_commands p' = Some (store_bytes l') ∧
    objects 0 l' ≡ₚ (off, command_obj id q_type nm queue) :: A ++ (meta_off, remake meta (le_bytes 2 id)) :: B ∧
    others_kept vmem_commands p p' ∧ cm_lock c' = si_lock_give lk ∧
    param_command_read vmem_commands (nm ++ 0 :: name_rest) (replicate SIZEOF_COMMAND_BUF 0) (k, p', c') = Some ((0, m), (k, p', c'')) ∧
    cm_lock c'' = si_lock_give lk' ∧
    get_member m OFF_COMMAND_ID 2 = Some id ∧ get_member m OFF_TYPE 1 = Some (u8 q_type) ∧
    get_member m OFF_USED 2 = Some (Z.of_nat (length queue)) ∧ mem_read m SIZEOF_COMMAND (Z.of_nat (length queue)) = Some queue.
Proof.
  intros Hreq Hsto Hjunk Hlk' id.
  destruct (command_add_run vmem_commands junk k p c l b pk nm queue rest A B meta_off meta lk Hreq Hjunk Hsto q_type)
    as (p' & c' & l' & off & R & K & Hlk & Hst & Hp). fold id in R, Hp. set (o := command_obj id q_type nm queue) in *.
  destruct Hreq as [_ _ _ _ _ (Hn & Hz & _) [Hq _]]. destruct Hsto as [_ _ Hobj _ Hty _ Hok Hfr _ _ _].
  pose proof (length_command id q_type nm queue ltac:(lia)) as Hlo. fold o in Hlo.
  assert (Hno : ∀ d, named nm (remake meta d) → False) by (intros d [Ht _]; cbn [remake o_type] in Ht; rewrite Hty in Ht; done).
  assert (Hrest : Forall (λ x, ¬ named nm x.2) (A ++ (meta_off, remake meta (le_bytes 2 id)) :: B)).
  { rewrite Hobj in Hfr. apply Forall_app in Hfr as [HfA HfB]. apply Forall_cons in HfB as [_ HfB].
    apply Forall_app. split; [done|]. apply Forall_cons. split; [exact (Hno _)|done]. }
  assert (Hok' : commands_ok (objects 0 l')).
  { unfold commands_ok in *. rewrite Hp. apply Forall_cons. split; [cbn [snd]; lia|]. rewrite Hobj in Hok.
    apply Forall_app in Hok as [HoA HoB]. apply Forall_cons in HoB as [_ HoB]. apply Forall_app. split; [done|].
    apply Forall_cons. split; [cbn [snd remake o_type]; by rewrite Hty|done]. }
  destruct (list_elem_of_split (objects 0 l') (off, o)) as (A' & B' & Hsplit); [rewrite Hp; apply list_elem_of_here|].
  assert (HA' : Forall (λ x, ¬ named nm x.2) A').
  { clear - Hp Hsplit Hrest. rewrite Hsplit, <- Permutation_middle in Hp. apply Permutation_cons_inv in Hp. rewrite <- Hp, Forall_app in Hrest. by destruct Hrest. }
  assert (Ho : named nm o) by (apply named_command; lia).
  pose proof (command_read_run vmem_commands k p' c' l' A' off o B' nm name_rest lk' Hst Hok' Hsplit HA' Ho Hn Hz) as Hread.
  rewrite Hlk in Hread. specialize (Hread Hlk').
  destruct (command_members id q_type nm queue ltac:(lia)) as (M1 & M2 & M3 & M4); [|lia|].
  { unfold id, next_id. pose proof (u16_range (le_val (o_data meta) + 1)). case_bool_decide; [unfold is_u16; lia|done]. }
  fold o in M1, M2, M3, M4. eexists p', c', l', off, _, _. split; [exact R|]. split; [exact (proj1 Hst)|]. split; [exact Hp|]. split; [exact K|]. split; [exact Hlk|].
  split; [exact Hread|]. split; [done|]. split; [rewrite <- M1; exact (framed_get (248 - length (o_data o)) (o_data o) 40 2 ltac:(cheader))|].
  split; [rewrite <- M2; exact (framed_get (248 - length (o_data o)) (o_data o) 13 1 ltac:(cheader))|]. split; [rewrite <- M3; exact (framed_get (248 - length (o_data o)) (o_data o) 10 2 ltac:(cheader))|].
  unfold framed. replace (o_data o ++ replicate (248 - length (o_data o)) 0)
    with (take 48 (o_data o) ++ queue ++ replicate (248 - length (o_data o)) 0)
    by (rewrite <- M4 at 1; rewrite app_assoc, take_drop; done).
  pose proof (mem_read_mid (replicate 8 0 ++ take 48 (o_data o)) queue (replicate (248 - length (o_data o)) 0)) as Hr.
  rewrite length_app, length_replicate, length_take in Hr. replace (Z.of_nat (8 + 48 `min` length (o_data o))) with SIZEOF_COMMAND in Hr
    by (unfold SIZEOF_COMMAND; lia). rewrite <- app_assoc in Hr. exact Hr.
Qed.

(** ** An example *)

Section Example.
#[local] Existing Instances env_example store_env flag_lock.

(** Node 9 stores [1 2 3] as "ab". *)
Definition cadd_packet : csp_packet_t :=
  match data_write served_packet 0 ([21; 0; 2; 97; 98; 1; 2; 3] ++ replicate 2040 0) with
  | Some p => set_pk_length 8 p | None => served_packet end.
Definition cadd_stack : stack := with_packet net_example 0 served_buffer cadd_packet.
Definition cadd_meta : obj := mk_obj OBJ_TYPE_COMMANDS_META [6; 0] 6.
Definition cadd_layout : list seg := Obj cadd_meta :: map Gap (replicate 100 0xFF).
Definition cadd_vmem : vmem_t := mk_vmem VMEM_TYPE_RAM (vmem_ram_driver_t 0) 0x1000 110 [] 0 0.
Definition cadd_pstate : pstate :=
  mk_pstate {[0%nat := store_bytes cadd_layout]} [cadd_vmem] ∅ 0 None ∅ ∅ [] (mk_app [] 0 0 0).

Lemma cadd_store_ok : command_store cadd_vmem cadd_pstate cmd_start cadd_layout [97; 98] [1; 2; 3] [] [] 0 cadd_meta true.
Proof.
  split.
  - split; [vm_compute; reflexivity|]. split; [|done|vm_compute; reflexivity].
    apply Forall_cons. split; [|apply Forall_map, Forall_replicate; done].
    split; [done| |done|done]. repeat (apply Forall_cons; split; [done|]). by apply Forall_nil.
  - exists (Obj cadd_meta :: map Gap (replicate 99 0xFF)), 0xFF. reflexivity.
  - reflexivity.
  - reflexivity.
  - reflexivity.
  - reflexivity.
  - apply (bool_decide_unpack (Forall _ _)). vm_compute. exact I.
  - apply (bool_decide_unpack (Forall _ _)). vm_compute. exact I.
  - vm_compute. congruence.
  - vm_compute. reflexivity.
  - reflexivity.
Qed.

Lemma cadd_request_ok : command_request cadd_stack 0 cadd_packet [97; 98] [1; 2; 3] (replicate 2040 0).
Proof.
  split.
  - exact (with_packet_get net_example 0 served_buffer served_buffer_at cadd_packet).
  - vm_compute. reflexivity.
  - vm_compute. reflexivity.
  - vm_compute. reflexivity.
  - vm_compute. reflexivity.
  - split_and!; [simpl; lia..| |]; repeat (apply Forall_cons; split; [done|]); by apply Forall_nil.
  - split; [simpl; lia|]. repeat (apply Forall_cons; split; [done|]); by apply Forall_nil.
Qed.

Lemma command_add_read_witness :
  ∃ p' c' m c'', command_add cadd_vmem (replicate 14 0) 0 1 (cadd_stack, cadd_pstate, cmd_start) = Some (7, (cadd_stack, p', c')) ∧
    param_command_read cadd_vmem [97; 98; 0] (replicate SIZEOF_COMMAND_BUF 0) (cadd_stack, p', c') = Some ((0, m), (cadd_stack, p', c'')) ∧
    mem_read m SIZEOF_COMMAND 3 = Some [1; 2; 3].
Proof.
  destruct (command_add_read cadd_vmem (replicate 14 0) [] cadd_stack cadd_pstate cmd_start cadd_layout 0 cadd_packet [97; 98] [1; 2; 3]
    (replicate 2040 0) [] [] 0 cadd_meta true true 1 cadd_request_ok cadd_store_ok eq_refl eq_refl)
    as (p' & c' & l' & off & m & c'' & R & _ & _ & _ & _ & Hread & _ & _ & _ & _ & Hq).
  exists p', c', m, c''. exact (conj R (conj Hread Hq)).
Defined.
End Example.
