(* ===== verification/ScheduleClient.v ===== *)
(** * Clients of the scheduler and of the commands

    [scheduler/param_scheduler_client.c] and [commands/param_commands_client.c]: requests to
    the scheduler and the command store of another node.  What is printed (the argument
    [verbose]) is left out; [fuel] bounds the wake-ups and the answers of a transaction. *)

From S2P Require Import Queue Types State Buffer Stack Net Rdp Conn Io Services Clients Mpack ParamState Param ParamList ParamSer ParamServer ParamClient ParamServed ServicesShown Objstore ObjMeta Commands CommandsShown Scheduler SchedulerShown ScheduleAdd Prelude.

Definition PARAM_SCHEDULE_PUSH : Z := 9.
Definition PARAM_SCHEDULE_SHOW_REQUEST : Z := 12.
Definition PARAM_SCHEDULE_LIST_REQUEST : Z := 14.
Definition PARAM_SCHEDULE_RM_ALL_REQUEST : Z := 16.
Definition PARAM_SCHEDULE_RM_REQUEST : Z := 17.
Definition PARAM_SCHEDULE_RESET_REQUEST : Z := 19.
Definition PARAM_COMMAND_ADD_REQUEST : Z := 21.
Definition PARAM_COMMAND_SHOW_REQUEST : Z := 23.
Definition PARAM_COMMAND_LIST_REQUEST : Z := 25.
Definition PARAM_COMMAND_RM_REQUEST : Z := 27.
Definition PARAM_COMMAND_RM_ALL_REQUEST : Z := 28.
Definition PARAM_SCHEDULE_COMMAND_REQUEST : Z := 32.

Section Client.
Context `{Env} `{ParamEnv} (fuel : nat).

(** The callbacks of both files: an answer of the expected type is printed and released, any
    other is not released. *)
Definition response_callback (type : Z) (response : nat) : ST (stack * pstate) () :=
  first ← on_fst (data_byte response 0);
  when (bool_decide (first = type)) (on_fst (kfree (Some response))).

(** [packet->length = length], the transaction, and its result. *)
Definition request_result (packet : nat) (length server timeout type : Z) : ST (stack * pstate) Z :=
  on_fst (kmod_packet packet (set_pk_length (u16 length)));;
  result ← param_transaction fuel packet server timeout (Some (response_callback type));
  mret (if bool_decide (result < 0) then -1 else 0).

(** ** Schedules *)

(** The header of a request to schedule something. *)
Definition put_schedule (packet : nat) (type host time latency_buffer : Z) : ST (stack * pstate) () :=
  put_header packet type 0;;
  on_fst (data_store packet 2 (be_bytes 2 host));;
  on_fst (data_store packet 4 (be_bytes 4 time));;
  on_fst (data_store packet 8 (be_bytes 4 latency_buffer)).

Definition param_schedule_push (queue : option param_queue_t) (server host time latency_buffer timeout : Z) : ST (stack * pstate) Z :=
  match queue with
  | None => mret 0
  | Some q =>
      if bool_decide (q_used q = 0) then mret 0 else
      r ← on_fst (liftC csp_buffer_get);
      match r with
      | None => mret (-2)
      | Some packet =>
          if bool_decide (q_version q ≠ 2) then mret (-3) else
          put_schedule packet PARAM_SCHEDULE_PUSH host time latency_buffer;;
          bs ← lift_opt (mem_read (q_mem q) 0 (q_used q));
          on_fst (data_store packet 12 bs);;
          request_result packet (q_used q + 12) server timeout PARAM_SCHEDULE_ADD_RESPONSE
      end
  end.

(** [param_schedule_command]; [command_name] is the string up to its end. *)
Definition param_schedule_command (server : Z) (command_name : list Z) (host time latency_buffer timeout : Z) : ST (stack * pstate) Z :=
  r ← on_fst (liftC csp_buffer_get);
  match r with
  | None => mret (-2)
  | Some packet =>
      put_schedule packet PARAM_SCHEDULE_COMMAND_REQUEST host time latency_buffer;;
      on_fst (data_store packet 12 command_name);;
      request_result packet (12 + Z.of_nat (length command_name)) server timeout PARAM_SCHEDULE_ADD_RESPONSE
  end.

(** A request with an identifier. *)
Definition id_request (type id server timeout response : Z) : ST (stack * pstate) Z :=
  r ← on_fst (liftC csp_buffer_get);
  match r with
  | None => mret (-2)
  | Some packet =>
      put_header packet type 0;;
      on_fst (data_store packet 2 (be_bytes 2 id));;
      request_result packet 4 server timeout response
  end.

Definition param_show_schedule (server id timeout : Z) : ST (stack * pstate) Z :=
  id_request PARAM_SCHEDULE_SHOW_REQUEST id server timeout PARAM_SCHEDULE_SHOW_RESPONSE.
Definition param_rm_schedule (server id timeout : Z) : ST (stack * pstate) Z :=
  id_request PARAM_SCHEDULE_RM_REQUEST id server timeout PARAM_SCHEDULE_RM_RESPONSE.
Definition param_rm_all_schedule (server timeout : Z) : ST (stack * pstate) Z :=
  id_request PARAM_SCHEDULE_RM_ALL_REQUEST 65535 server timeout PARAM_SCHEDULE_RM_RESPONSE.
Definition param_reset_scheduler (server last_id timeout : Z) : ST (stack * pstate) Z :=
  id_request PARAM_SCHEDULE_RESET_REQUEST last_id server timeout PARAM_SCHEDULE_RESET_RESPONSE.

(** A request of two bytes. *)
Definition short_request (type server timeout response : Z) : ST (stack * pstate) Z :=
  r ← on_fst (liftC csp_buffer_get);
  match r with
  | None => mret (-2)
  | Some packet => put_header packet type 0;; request_result packet 2 server timeout response
  end.

Definition param_list_schedule (server timeout : Z) : ST (stack * pstate) Z :=
  short_request PARAM_SCHEDULE_LIST_REQUEST server timeout PARAM_SCHEDULE_LIST_RESPONSE.

(** ** Commands *)

Definition param_command_push (queue : option param_queue_t) (server : Z) (command_name : list Z) (timeout : Z) : ST (stack * pstate) Z :=
  match queue with
  | None => mret 0
  | Some q =>
      if bool_decide (q_used q = 0) then mret 0 else
      r ← on_fst (liftC csp_buffer_get);
      match r with
      | None => mret (-2)
      | Some packet =>
          if bool_decide (q_version q ≠ 2) then mret (-3) else
          put_header packet PARAM_COMMAND_ADD_REQUEST 0;;
          let name_length := u8 (Z.of_nat (length command_name)) in
          on_fst (data_store packet 2 [name_length]);;
          on_fst (data_store packet 3 (take (Z.to_nat name_length) command_name));;
          bs ← lift_opt (mem_read (q_mem q) 0 (q_used q));
          on_fst (data_store packet (3 + name_length) bs);;
          request_result packet (q_used q + 3 + name_length) server timeout PARAM_COMMAND_ADD_RESPONSE
      end
  end.

(** A request with a name. *)
Definition name_request (type server : Z) (command_name : list Z) (timeout response : Z) : ST (stack * pstate) Z :=
  r ← on_fst (liftC csp_buffer_get);
  match r with
  | None => mret (-2)
  | Some packet =>
      put_header packet type 0;;
      on_fst (data_store packet 2 [u8 (Z.of_nat (length command_name))]);;
      on_fst (data_store packet 3 command_name);;
      request_result packet (3 + Z.of_nat (length command_name)) server timeout response
  end.

Definition param_command_download (server : Z) (command_name : list Z) (timeout : Z) : ST (stack * pstate) Z :=
  name_request PARAM_COMMAND_SHOW_REQUEST server command_name timeout PARAM_COMMAND_SHOW_RESPONSE.
Definition param_command_rm (server : Z) (command_name : list Z) (timeout : Z) : ST (stack * pstate) Z :=
  name_request PARAM_COMMAND_RM_REQUEST server command_name timeout PARAM_COMMAND_RM_RESPONSE.
Definition param_command_rm_all (server : Z) (command_name : list Z) (timeout : Z) : ST (stack * pstate) Z :=
  name_request PARAM_COMMAND_RM_ALL_REQUEST server command_name timeout PARAM_COMMAND_RM_RESPONSE.
Definition param_command_list (server timeout : Z) : ST (stack * pstate) Z :=
  short_request PARAM_COMMAND_LIST_REQUEST server timeout PARAM_COMMAND_LIST_RESPONSE.
End Client.

(** ** What a request carries *)

Lemma mem_write_app m off a b m1 m2 :
  mem_write m off a = Some m1 → mem_write m1 (off + Z.of_nat (length a)) b = Some m2 → mem_write m off (a ++ b) = Some m2.
Proof.
  intros Ha Hb. pose proof Ha as (H1 & H2 & _)%mem_write_Some. pose proof Hb as (_ & H3 & _)%mem_write_Some.
  rewrite (mem_write_length _ _ _ _ Ha) in H3. set (n := Z.to_nat off).
  assert (Hm : m = take n m ++ take (length a) (drop n m) ++ take (length b) (drop (length a) (drop n m)) ++ drop (length b) (drop (length a) (drop n m))).
  { by rewrite !take_drop. }
  set (x := take n m) in *. set (y := take (length a) _) in *. set (z := take (length b) _) in *. set (w := drop (length b) _) in *.
  assert (Hx : length x = n) by (unfold x; rewrite length_take; lia). assert (Hy : length y = length a) by (unfold y; rewrite length_take, length_drop; lia).
  assert (Hz : length z = length b) by (unfold z; rewrite length_take, !length_drop; lia). clearbody x y z w. subst m.
  replace off with (Z.of_nat (length x)) in * by lia. rewrite mem_write_mid in Ha by done. injection Ha as <-.
  rewrite <- Nat2Z.inj_add, <- length_app, (app_assoc x a), mem_write_mid in Hb by done. injection Hb as <-.
  rewrite (app_assoc y z), mem_write_mid by (rewrite !length_app; lia). by rewrite <- !app_assoc.
Qed.

Lemma data_write_app p off a b p1 p2 :
  data_write p off a = Some p1 → data_write p1 (off + Z.of_nat (length a)) b = Some p2 → data_write p off (a ++ b) = Some p2.
Proof.
  intros (m1 & H1 & ->)%data_write_Some (m2 & H2 & ->)%data_write_Some. apply data_write_Some. exists m2. split; [|done].
  apply (mem_write_app _ _ _ _ m1); [done|]. cbn in H2. by rewrite Z.add_assoc in H2.
Qed.

(** The pieces [bs] stored one behind the other from [off] on. *)
Fixpoint stores (packet : nat) (off : Z) (bs : list (list Z)) : K () :=
  match bs with
  | [] => mret ()
  | b :: bs' => data_store packet off b;; stores packet (off + Z.of_nat (length b)) bs'
  end.

Lemma stores_run s b k p off bs :
  c_pool (k_core s) !! b = Some k → packet_ok p → Forall bytes_ok bs → 0 ≤ off → off + Z.of_nat (length (concat bs)) ≤ CSP_BUFFER_SIZE →
  ∃ p', stores b off bs (with_packet s b k p) = Some ((), with_packet s b k p') ∧ packet_ok p' ∧ data_write p off (concat bs) = Some p'.
Proof.
  intros Hk Hp Hbs. revert p off Hp. induction Hbs as [|b0 bs Hb Hbs IH]; intros p off Hp Ho Hl; cbn [concat stores] in *.
  - destruct (data_write_is_Some p off [] Hp Ho) as [p' Hw]; [cbn in *; lia|]. pose proof Hw as (m & Hm & Ep)%data_write_Some.
    apply mem_write_Some in Hm as (_ & _ & Hm). assert (p' = p) as ->; [|by exists p].
    subst p' m. cbn [app length]. rewrite Nat.add_0_r, take_drop. by destruct p.
  - rewrite length_app in Hl. destruct (data_write_is_Some p off b0 Hp Ho) as [p1 Hw]; [lia|].
    pose proof (data_write_ok _ _ _ _ Hp Hb Hw) as Hp1. run (data_store_run s b k Hk off b0 p p1 Hw).
    destruct (IH p1 (off + Z.of_nat (length b0)) Hp1) as (p' & Hr & Hp' & Hw'); [lia|lia|]. exists p'. split; [done|]. split; [done|].
    by apply (data_write_app _ _ _ _ p1).
Qed.

(** The bytes of a request to schedule a queue. *)
Definition schedule_bytes (type host time latency_buffer : Z) (rest : list Z) : list Z :=
  concat [[type]; [0]; be_bytes 2 host; be_bytes 4 time; be_bytes 4 latency_buffer; rest].

Section Requests.
Context `{Env} `{ParamEnv}.
Implicit Types (s : stack) (t : pstate).

Lemma put_schedule_stores packet type host time latency_buffer rest (s : stack) (t : pstate) :
  (put_schedule packet type host time latency_buffer;; on_fst (data_store packet 12 rest)) (s, t) =
  on_fst (stores packet 0 [[type]; [0]; be_bytes 2 host; be_bytes 4 time; be_bytes 4 latency_buffer; rest]) (s, t).
Proof.
  unfold put_schedule, put_header, on_fst, mbind, ST_bind. cbn [stores].
  change (0 + Z.of_nat (length [type])) with 1. change (1 + Z.of_nat (length [0])) with 2.
  change (2 + Z.of_nat (length (be_bytes 2 host))) with 4. change (4 + Z.of_nat (length (be_bytes 4 time))) with 8.
  change (8 + Z.of_nat (length (be_bytes 4 latency_buffer))) with 12. unfold mbind, ST_bind.
  cbn [fst snd]. destruct (data_store packet 0 [type] s) as [[[] s1]|]; [|done]. cbn [fst snd].
  destruct (data_store packet 1 [0] s1) as [[[] s2]|]; [|done]. cbn [fst snd].
  destruct (data_store packet 2 _ s2) as [[[] s3]|]; [|done]. cbn [fst snd]. destruct (data_store packet 4 _ s3) as [[[] s4]|]; [|done]. cbn [fst snd].
  destruct (data_store packet 8 _ s4) as [[[] s5]|]; [|done]. cbn [fst snd]. by destruct (data_store packet 12 _ s5) as [[[] s6]|].
Qed.

Lemma schedule_push_run l s t fuel q bs server host time latency_buffer timeout :
  net_env l s → fq_items (c_free (k_core s)) ≠ [] → q_version q = 2 → 0 < q_used q ≤ 199 → mem_read (q_mem q) 0 (q_used q) = Some bs → bytes_ok bs →
  ∃ b k s1 pk, c_pool (k_core s1) !! b = Some k ∧ packet_ok pk ∧ pk_length pk = 12 + Z.of_nat (length bs) ∧
    payload pk = Some (schedule_bytes PARAM_SCHEDULE_PUSH host time latency_buffer bs) ∧
    param_schedule_push fuel (Some q) server host time latency_buffer timeout (s, t) =
      (result ← param_transaction fuel b server timeout (Some (response_callback PARAM_SCHEDULE_ADD_RESPONSE));
       mret (if bool_decide (result < 0) then -1 else 0)) (with_packet s1 b k pk, t).
Proof.
  intros He Hf Hv Hu Hm Hbs. destruct (buffer_get_step l s He Hf) as (b & k & s1 & Hg & He1 & _ & Hk & _ & Hok & _).
  pose proof (mem_read_length _ _ _ _ Hm) as Hlen. set (all := [[PARAM_SCHEDULE_PUSH]; [0]; be_bytes 2 host; be_bytes 4 time; be_bytes 4 latency_buffer; bs]).
  assert (Hl : Z.of_nat (length (concat all)) = 12 + Z.of_nat (length bs)).
  { unfold all. cbn [concat]. rewrite !length_app, !length_be_bytes. cbn [length]. lia. }
  destruct (stores_run s1 b k (skbf_data k) 0 all Hk Hok) as (p & Hst & Hp & Hw); [|lia|sizes; lia|].
  { do 2 (apply Forall_cons_2; [by apply Forall_singleton|]). do 3 (apply Forall_cons_2; [apply be_bytes_ok|]). by apply Forall_singleton. }
  rewrite (with_packet_same s1 b k Hk) in Hst. exists b, k, s1, (set_pk_length (12 + Z.of_nat (length bs)) p). split; [done|].
  assert (Hu16 : is_u16 (12 + Z.of_nat (length bs))) by (unfold is_u16; lia).
  split; [by destruct Hp; split|]. split; [done|]. split.
  { unfold payload, data_read. cbn [pk_length pk_mem set_pk_length]. pose proof (data_write_there _ _ _ _ Hw) as Hr. rewrite Hl in Hr. exact Hr. }
  unfold param_schedule_push. rewrite bool_decide_false by lia. run (on_fst_run _ s _ s1 t Hg). rewrite bool_decide_false by lia.
  pose proof (put_schedule_stores b PARAM_SCHEDULE_PUSH host time latency_buffer bs s1 t) as Hps. fold all in Hps.
  rewrite (on_fst_run _ s1 _ _ t Hst) in Hps. revert Hps. unfold mbind, ST_bind.
  destruct (put_schedule b _ host time latency_buffer (s1, t)) as [[[] st]|]; [|done]. intros Hps.
  rewrite (lift_opt_run_gen _ _ st Hm), Hps. unfold request_result. unfold mbind, ST_bind.
  rewrite (on_fst_run _ _ _ _ t (with_packet_mod s1 b k Hk (set_pk_length (u16 (q_used q + 12))) p)).
  replace (u16 (q_used q + 12)) with (12 + Z.of_nat (length bs)); [done|]. rewrite u16_id; [lia|unfold is_u16; lia].
Qed.
End Requests.


Lemma payload_mem p bytes :
  payload p = Some bytes → pk_mem p = take (Z.to_nat DATA_OFF) (pk_mem p) ++ bytes ++ drop (Z.to_nat (DATA_OFF + pk_length p)) (pk_mem p).
Proof.
  unfold payload, data_read. rewrite Z.add_0_r. intros (H1 & H2 & H3 & ->)%mem_read_Some.
  rewrite <- (take_drop (Z.to_nat DATA_OFF) (pk_mem p)) at 1. f_equal. rewrite <- (take_drop (Z.to_nat (pk_length p)) (drop _ (pk_mem p))) at 1. f_equal.
  rewrite drop_drop. f_equal. lia.
Qed.

Lemma push_is_add_request `{Env} k b pk host time latency_buffer bs :
  kget_packet b k = Some (pk, k) → packet_ok pk → pk_length pk = 12 + Z.of_nat (length bs) → (length bs ≤ 199)%nat → bytes_ok bs →
  payload pk = Some (schedule_bytes PARAM_SCHEDULE_PUSH host time latency_buffer bs) →
  ∃ rest, add_request k b pk (be_bytes 2 host) (be_bytes 4 time) (be_bytes 4 latency_buffer) bs rest.
Proof.
  intros Hk Hok Hl Hs Hb Hpay. pose proof (payload_mem pk _ Hpay) as Hm. pose proof (po_mem _ Hok) as Hml.
  set (pre := take (Z.to_nat DATA_OFF) (pk_mem pk)) in *. set (rest := drop _ (pk_mem pk)) in *.
  assert (Hpre : length pre = 8%nat) by (unfold pre; rewrite length_take; sizes; lia).
  assert (Hrest : Z.of_nat (length rest) = CSP_BUFFER_SIZE - 12 - Z.of_nat (length bs)).
  { unfold rest. rewrite length_drop, Hl. sizes. lia. }
  assert (Hread : ∀ a x c off, pk_mem pk = (pre ++ a) ++ x ++ c → off = Z.of_nat (length a) → ∀ n, n = Z.of_nat (length x) → data_read pk off n = Some x).
  { intros a x c off Hmem -> n ->. unfold data_read. rewrite Hmem. rewrite <- mem_read_mid with (a := pre ++ a) (c := c). f_equal.
    rewrite length_app, Hpre. sizes. lia. }
  unfold schedule_bytes in Hm. cbn [concat] in Hm. rewrite app_nil_r in Hm. exists rest. split; try done.
  - apply (Hread [PARAM_SCHEDULE_PUSH; 0] (be_bytes 2 host) (be_bytes 4 time ++ be_bytes 4 latency_buffer ++ bs ++ rest)); [|done..].
    rewrite Hm, <- !app_assoc. done.
  - apply (Hread ([PARAM_SCHEDULE_PUSH; 0] ++ be_bytes 2 host) (be_bytes 4 time) (be_bytes 4 latency_buffer ++ bs ++ rest)); [|done..].
    rewrite Hm, <- !app_assoc. done.
  - apply (Hread ([PARAM_SCHEDULE_PUSH; 0] ++ be_bytes 2 host ++ be_bytes 4 time) (be_bytes 4 latency_buffer) (bs ++ rest)); [|done..].
    rewrite Hm, <- !app_assoc. done.
  - apply (Hread ([PARAM_SCHEDULE_PUSH; 0] ++ be_bytes 2 host ++ be_bytes 4 time ++ be_bytes 4 latency_buffer) (bs ++ rest) []);
      [rewrite app_nil_r, Hm, <- !app_assoc; done|done|]. rewrite length_app. lia.
  - split_and!; apply be_bytes_ok.
Qed.

(** C11: A queue of version 2 with 1 to 199 bytes, pushed to a scheduler, arrives in its store.
    The client's request carries the node, the time, the latency and the bytes of the queue.
    A server that receives a packet with that payload, whose store has room for it and a
    spare byte and whose lock is free ([add_store]), stores a schedule with this node, latency
    and queue and the time [start_time] gives: the time in nanoseconds, counted from the
    server's clock when it is at most 10^9 seconds.  The schedule gets the identifier after
    the last one given (not checked against those in use), and every other object is kept, the
    one with the last identifier updated. *)
Theorem schedule_push_stored `{Env} `{ParamEnv} `{SiLock} (l : list nat) (s : stack) (t : pstate) (fuel : nat) (q : param_queue_t)
    (bs : list Z) (server host time latency_buffer timeout : Z) :
  net_env l s → fq_items (c_free (k_core s)) ≠ [] → q_version q = 2 → 0 < q_used q ≤ 199 → mem_read (q_mem q) 0 (q_used q) = Some bs →
  bytes_ok bs → is_u16 host → is_u32 time → is_u32 latency_buffer →
  ∃ b s1 pk, packet_at (k_core s1) b pk ∧ pk_length pk = 12 + Z.of_nat (length bs) ∧
    payload pk = Some (schedule_bytes PARAM_SCHEDULE_PUSH host time latency_buffer bs) ∧
    param_schedule_push fuel (Some q) server host time latency_buffer timeout (s, t) =
      (result ← param_transaction fuel b server timeout (Some (response_callback PARAM_SCHEDULE_ADD_RESPONSE));
       mret (if bool_decide (result < 0) then -1 else 0)) (s1, t) ∧
    ∀ (vmem_schedule : vmem_t) (clock_now : stack * pstate → Z * Z) (k : stack) (p : pstate) (c : cmd_t) (sc : sched_t) (segs : list seg)
      (b' : nat) (pk' : csp_packet_t) (now : Z * Z) (A B : list (Z * obj)) (meta_off : Z) (meta : obj) (lk : lock_t),
      kget_packet b' k = Some (pk', k) → packet_ok pk' → pk_length pk' = pk_length pk → payload pk' = payload pk →
      add_store vmem_schedule p sc segs bs A B meta_off meta lk → (∀ x, clock_now x = now) → is_u32 now.1 → is_u32 now.2 →
      let id := next_id (le_val (o_data meta)) in
      ∃ p' sc' segs' off o, schedule_add vmem_schedule clock_now b' 1 (k, p, c, sc) = Some (id, (k, p', c, sc')) ∧
        block_of vmem_schedule p' = Some (store_bytes segs') ∧
        objects 0 segs' ≡ₚ (off, o) :: A ++ (meta_off, remake meta (le_bytes 2 id)) :: B ∧
        o_type o = OBJ_TYPE_SCHEDULE ∧ member (o_data o) 52 2 = id ∧
        s_time (o_data o) = start_time time (to_double (now.1 * NSEC + now.2)) ∧
        s_latency (o_data o) = latency_buffer ∧ s_host (o_data o) = host ∧ s_queue (o_data o) = bs.
Proof.
  intros He Hf Hv Hu Hm Hbs Hh Ht Hla. pose proof (mem_read_length _ _ _ _ Hm) as Hlen.
  destruct (schedule_push_run l s t fuel q bs server host time latency_buffer timeout He Hf Hv Hu Hm Hbs) as (b & k0 & s1 & pk & Hk & _ & Hpl & Hpay & Hrun).
  exists b, (with_packet s1 b k0 pk), pk. split; [eexists; split; [exact (with_packet_lookup s1 b k0 Hk pk)|done]|].
  split; [done|]. split; [done|]. split; [done|].
  intros vm clock k p c sc segs b' pk' now A B mo meta lk Hk' Hok' Hl' Hp' Hst Hclk Hn1 Hn2 id.
  destruct (push_is_add_request k b' pk' host time latency_buffer bs) as [rest Hreq]; [done|done|congruence|lia|done|congruence|].
  destruct (schedule_add_stores vm clock k p c sc segs b' pk' now _ _ _ bs rest A B mo meta lk Hreq Hst Hclk Hn1 Hn2)
    as (p' & sc' & segs' & off & o & R & _ & _ & Hblk & Hobj & Hty & _ & Hid & Htime & Hlat & Hhost & _ & _ & _ & Hq).
  exists p', sc', segs', off, o. split; [exact R|]. split; [done|]. split; [done|]. split; [done|]. split; [done|].
  rewrite be_val_be_bytes, Z.mod_small in Htime, Hlat, Hhost by (unfold is_u32, is_u16 in *; cbn; lia). done.
Qed.

Section Example.
#[local] Existing Instances env_example store_env flag_lock.

Definition pushed_queue : param_queue_t := mk_queue [1; 2; 3] 3 3 2 PARAM_QUEUE_TYPE_SET 0 0.
Definition received_packet : csp_packet_t :=
  match data_write served_packet 0 (schedule_bytes PARAM_SCHEDULE_PUSH 5 2 60 [1; 2; 3]) with
  | Some p => set_pk_length 15 p
  | None => served_packet
  end.
Definition received_stack : stack := with_packet net_example 0 served_buffer received_packet.

Lemma schedule_push_stored_witness :
  ∃ p' sc' segs' off o, schedule_add add_vmem (λ _, (1700000000, 0)) 0 1 (received_stack, add_pstate, cmd_start, sched_start) =
      Some (7, (received_stack, p', cmd_start, sc')) ∧
    objects 0 segs' ≡ₚ [(off, o); (0, mk_obj OBJ_TYPE_SCHEDULER_META [7; 0] 7)] ∧ s_host (o_data o) = 5 ∧ s_queue (o_data o) = [1; 2; 3].
Proof.
  destruct (schedule_push_stored [0%nat; 1%nat] net_example add_pstate 0 pushed_queue [1; 2; 3] 14 5 2 60 1000) as (b & s1 & pk & Hat & Hl & Hpay & Hrun & Hserver).
  - apply net_example_ok.
  - vm_compute. discriminate.
  - reflexivity.
  - split; vm_compute; congruence.
  - reflexivity.
  - repeat (apply Forall_cons; split; [done|]). by apply Forall_nil.
  - vm_compute. intuition congruence.
  - vm_compute. intuition congruence.
  - vm_compute. intuition congruence.
  - destruct (Hserver add_vmem (λ _, (1700000000, 0)) received_stack add_pstate cmd_start sched_start add_layout 0%nat received_packet
      (1700000000, 0) [] [] 0 add_meta true) as (p' & sc' & segs' & off & o & R & _ & Hobj & _ & _ & _ & _ & Hhost & Hq).
    + exact (with_packet_get net_example 0 served_buffer served_buffer_at received_packet).
    + split; try (vm_compute; intuition congruence); apply (bool_decide_unpack _); vm_compute; reflexivity.
    + rewrite Hl. vm_compute. reflexivity.
    + rewrite Hpay. vm_compute. reflexivity.
    + exact add_store_ok.
    + intros x. reflexivity.
    + vm_compute. intuition congruence.
    + vm_compute. intuition congruence.
    + exists p', sc', segs', off, o. exact (conj R (conj Hobj (conj Hhost Hq))).
Defined.
End Example.
